(* ===== verification/_CoqProject ===== *)
-Q . S2P
Prelude.v
LeaseV4.v
ConfigV4.v
IpPool.v
IpPoolSpec.v
IcmpV4.v
Ring.v
LeaseThreads.v
ShutdownWaitV4.v
ThreadPool.v
DhcpMessage.v
ServerV4.v
UtilsV6.v
LeasesV6.v
ConfigV6.v
ProtocolV6.v
Ip6Pool.v
Ip6PoolSpec.v
PdPool.v
ServerV6.v
ServerV6Spec.v
ServerV6System.v
CText.v
UtilsV4.v
Logger.v
ClientV4.v
ClientV6.v
ConfigFileV4.v
ConfigFileV4Spec.v
ConfigFileV6.v
ConfigFileV6Spec.v
LeaseFileV4.v
ServerLifeV4.v
MainV4.v
LeaseFileV6.v
LeaseFileV6Spec.v
FileIoV6.v
MainV6.v
Monitors.v
DnsCache.v
DnsNames.v
DnsConfig.v
DnsZones.v
DnsZonesSpec.v
DnsServer.v
DnsMemory.v
