(* ===== verification/Prelude.v ===== *)
(** * Verification of the DHCP and DNS servers

    This library models the DHCPv4 and DHCPv6 servers ([src/DHCP_Server]) and the DNS
    server ([src/DNS_Server]) of the repository and proves what makes them correct.

    ** The program

    The DHCPv4 server ([DHCPv4/]) receives packets in [main.c] and hands them to a pool
    of worker threads ([utils/thread_pool.c]).  A worker runs [packet_processor], which
    reads the message ([src/dhcp_message.c]), finds or creates a lease through the
    address pool ([src/ip_pool.c]) and the lease database ([src/lease_v4.c]), and sends
    a reply.  Beside it run the lease timer and the I/O thread ([src/lease_v4.c]) and
    the pool's synchronisation thread ([src/ip_pool.c]).  The configuration
    ([src/config_v4.c]) gives subnets, reservations and options.

    The DHCPv6 server ([DHCPv6/]) has the same parts: leases for addresses and delegated
    prefixes ([sources/leases6.c]), an address pool ([sources/ip6_pool.c]), a prefix pool
    ([sources/pd_pool.c]), the configuration with its validation ([sources/config_v6.c],
    [sources/config_v6_validate.c]), address and text helpers ([sources/utilsv6.c]), the
    messages ([sources/protocol_v6.c]) and the server ([sources/server.c]), whose receive
    loop puts packets into a queue that worker threads empty, beside a clean-up thread.

    The DNS server ([DNS_Server/]) is one thread: its loop ([sources/dns_server.c]) reads
    the question of a datagram ([sources/dns_parser.c], [utils/string_utils.c]), looks the
    name up in the cache ([sources/dns_cache.c]) and in the zones
    ([sources/zone_manager.c]), which the configuration names ([sources/dns_config.c]),
    and forwards it to an upstream server ([utils/network_utils.c]) otherwise.

    Two DHCP clients ([client/client_v4.c], [client/client_v6.c]) run a state machine each:
    they ask a server for an address, configure it on their interface and renew it.

    The DHCP programs share a logger ([logger/logger.c]); two monitors show the statistics
    of the servers from shared memory ([DHCPv4/src/monitor.c], [DHCPv6/monitor/monitor.c]).

    ** The files

    - [Prelude]: machine integers, byte order, outcomes, searches, counts, buffers.
    - [LeaseV4] ([lease_v4.c], the database): records, every operation in memory, the
      [_safe] operations under the mutex.
    - [ConfigV4] ([config_v4.h], [config_v4.c]): records and lookups.
    - [IpPool], [IpPoolSpec] ([ip_pool.c]): the pool's operations; their properties;
      [IcmpV4]: the echo check, which is the parameter [ping] of the pool.
    - [Ring]: the circular buffer of the program's queues, the interface [BoundedFifo]
      the queues implement, and the order theorem proved against the interface.
    - [LeaseThreads] ([lease_v4.c], the threads): lease timer, I/O queue and thread,
      server start, signals and reload; [ShutdownWaitV4]: the wait for the shutdown.
    - [ThreadPool] ([thread_pool.c]): the pool with its workers as a step relation.
    - [DhcpMessage] ([dhcp_message.c], [dhcp_common.h]): messages and options.
    - [ServerV4] ([main.c]): [packet_processor] and its handlers.
    - [UtilsV6] ([utilsv6.c], and [duid_hex_to_bin], [increment_prefix]): addresses as
      sixteen bytes, texts, DUIDs, domain names.
    - [LeasesV6] ([leases6.c]): the DHCPv6 lease database in memory.
    - [ConfigV6] ([config_v6.h], [config_v6.c], [config_v6_validate.c]): records,
      conversion to binary, validation, lookups.
    - [ProtocolV6] ([protocol_v6.c], [protocol_v6.h]): the parser, the functions that
      append options and the two that build replies; refinement of the parser to a
      decoder of option lists.
    - [Ip6Pool], [Ip6PoolSpec] ([ip6_pool.c]): the address pool; its properties.
    - [PdPool] ([pd_pool.c]): the prefix pool and its properties.
    - [ServerV6] ([server.c]): the task queue, [process_packet] and its stages, the
      clean-up round, the start; [ServerV6Spec]: the reply as a function of the packet
      and the pools, the queue as a [BoundedFifo]; [ServerV6System]: all threads as a
      step relation and the theorems on the whole server.
    - [CText]: literals, [sscanf], [atoi], [strtok], [fgets], scans and printing of text.
    - [UtilsV4] (the [*_utils.c] of [DHCPv4/utils]): texts, times, client identifiers and
      hardware addresses, in both directions.
    - [Logger] ([logger.c]): the logger with its mutex, descriptors and lines.
    - [ClientV4] ([client_v4.c]), [ClientV6] ([client_v6.c]): the arguments, the set-up and
      one round of the loop of each client, and the client composed with its server.
    - [ConfigFileV4] ([config_v4.c], the parser): every option, host and subnet blocks,
      the values a subnet inherits; [ConfigFileV4Spec]: the statements of the file, their
      meaning and their text read back; [ConfigFileV6], [ConfigFileV6Spec]
      ([config_v6.c]): the same for the DHCPv6 server.
    - [LeaseFileV4] ([lease_v4.c], the file): the statements of a lease block, loading,
      saving and appending; the file read back.
    - [LeaseFileV6] ([leases6.c], the file): the blocks for addresses and prefixes, loading,
      saving and appending; [LeaseFileV6Spec]: the file read back, and where loading ends;
      [FileIoV6]: the buffered reader and the writers, call by call of [read] and [write].
    - [MainV6] ([server.c], [standalone.c], the program): the start from the two files, the
      loop with the threads as a sequence of events, the end.
    - [Monitors] (both [monitor.c]): the shared memory and the screens.
    - [ServerLifeV4] ([lease_v4.c], the life cycle): [dhcp_server_init], the writes of the
      I/O thread, [dhcp_server_stop]; the restart.
    - [MainV4] ([main.c], the program): the start from the two files, the loop with the
      workers and the other threads as a sequence of events, the stop.
    - [DnsCache] ([dns_cache.c]): the trie and its refinement to a map.
    - [DnsNames] ([string_utils.c], [dns_parser.c], [dns_packet.h]): names in both
      directions and questions.
    - [DnsConfig] ([dns_config.c], and [get_global_option] of [dns_server.c]): tokens,
      blocks, files; printing and parsing back.
    - [DnsZones], [DnsZonesSpec] ([zone_manager.c]): zone files and local answers; their
      properties.
    - [DnsServer] ([dns_server.c], [network_utils.c]): the start and one iteration of the
      loop ([serve]), its reference and the refinement; [DnsMemory]: the configuration, the
      zones and the cache as blocks of a heap, the socket, the end by a signal.

    Definitions keep the names of the C functions and types; a record's fields carry a
    prefix ([l_] for [dhcp_lease_t], [e_] for [ip_pool_entry_t], ...).

    ** How the code is modelled

    - An integer of [w] bits is a [Z] with the wrap-around written out ([u32], [+u32]);
      an IPv4 address is the [s_addr] field as the little-endian host reads it; an IPv6
      address is the list of its sixteen bytes; a C string is the list of its bytes.
    - An array with its counter is the list of the part in use, and a pointer into it an
      index.  A null pointer argument is [None], or left out where no caller passes it.
    - An operation takes the state it changes and returns it.  The values [time(NULL)]
      returns, the success of [malloc], of [pthread_create] and of writing a file, and
      the answer to a probe are arguments.
    - A mutex is a flag; locking it twice from one thread is the result
      [Fault Deadlock], reading past a buffer [Fault OutOfBounds] ([outcome]).
    - Threads that share state are step relations ([io_sys_step], [tp_step]) in which a
      critical section is one step, so that the theorems hold for every interleaving.
    - A loop that is not structural has fuel: the cleanup loops ([remove_loop]) get the
      number of leases, since every round either advances or removes one; the loops over
      an address range get one more than the size of the array they fill, since every
      round fills a slot; the text loops get one more than the length of the text, of
      which every round consumes a character; the parsers of configurations get the
      number of characters left.  The theorems state that the result is there, never only
      what it is if it is there.  Two loops of the code can run forever: the decoder
      of DNS names, whose fuel, a round per byte of the packet for each byte of the output,
      is proved to be exhausted only by such runs ([dns_name_termination]), and the loader
      of the DHCPv6 lease file, where a round per byte of the file is ([lease6_load_ends]).

    ** What is proved

    - Invariants over arbitrary sequences of operations: lease ids and bounds
      ([lease_db_run_wf]), distinct addresses and exact counters of both pools
      ([ip_pool_invariant], where every operation returns too unless a probe answers, and
      [ip6_pool_invariant]), one lease per address and per prefix
      ([lease_v6_db_invariant]).
    - Exclusivity and persistence: no address is given to two clients
      ([ip_pool_allocate_exclusive], [ip6_pool_allocate_exclusive]), a client keeps its
      address ([ip6_pool_allocate_sticky]), a REQUEST is acknowledged only to the owner
      ([request_ack_only_to_owner]), and the DISCOVER/REQUEST exchange ends in a lease
      ([discover_request_exchange]).
    - Functional behaviour of every operation on all its branches, failures included:
      the [_spec] and [_policy] theorems, the range theorems of the three pools.
    - Refinement and equivalence: option lists against the encoded options field
      ([dhcp_add_option_refines]), in-place compaction against a filter, locked against
      plain operations, byte loops against 128-bit arithmetic ([ipv6_arithmetic],
      [ipv6_in_subnet_spec]); round trips of options, DUIDs and domain names.
    - The DHCPv6 server as a whole: its invariant over every interleaving
      ([server6_invariant]); started from its files it handles every sequence of events
      ([main6_serves]) and ends with its leases saved ([main6_ends]); the reply as a function of packet and pools
      ([process_packet_refines]), the reply read back by the parser ([reply_reads_back])
      and the SOLICIT/REQUEST exchange ([solicit_request_exchange]).
    - The DHCPv4 server as a whole: started from its files it processes every sequence of
      events with its invariant kept ([main4_serves]), and it stops with its leases saved
      ([main4_stops]); without a subnet in its configuration the first DISCOVER faults
      ([unconfigured_discover_faults]).
    - The clients: composed with its server each goes through its states from the first
      message to a renewed address ([client4_lifecycle], [client6_lifecycle]); whatever it
      receives, the DHCPv4 client has configured at most the last address acknowledged to it
      ([client4_safety]), and the DHCPv6 client stays within its buffer unless a server
      identifier is too long for it ([client6_buffer]).
    - The DNS server: refinement of the loop and of the cache to a map
      ([dns_server_refines], [dns_cache_refines], [dns_cache_hit]); names decoded, encoded
      and decoded again ([dns_name_decode], [dns_name_roundtrip]); answers byte by byte,
      against a specification that shares no function with the code, and read back ([local_query_spec], [local_answer_reads_back]); configurations and zone
      files printed and parsed back ([config_roundtrip], [zone_file_roundtrip]) and the
      parser's termination on every input ([config_parse_ends]).
    - The DHCP configurations: the text of a configuration means what its statements say
      ([config_v4_roundtrip], [config_v6_roundtrip]), and whatever the file holds the
      parsers end within the bounds of their arrays ([config_v4_parse_bounds],
      [config_v6_parse_bounds]).
    - Persistence: the lease file reads back as what was saved and appended
      ([lease_file_roundtrip]), loading ends on every file ([lease_load_ends]), and the
      leases survive a stop and a new start of the server ([server_restart]).  The file of
      the DHCPv6 server keeps the leases but not their times ([lease6_file_reload]), and
      loading it ends unless it breaks off in a prefix block ([lease6_load_ends]).  Short,
      interrupted and failing system calls: reading returns the lines of the file
      ([rd_getline_refines]), and a save replaces the file or leaves it alone
      ([lease6_save_io]).
    - The logger, in every sequence of calls ([logger_runs]); the checksum of the echo
      request ([icmp_checksum_verifies]); the memory of the DNS server, the configuration freed
      exactly once, the zones and the cache never ([dns_config_memory]); the statistics shown ([monitor_v6_shows]).
    - Concurrency: order and termination of the thread pool ([thread_pool_order],
      [thread_pool_destroy_terminates]) and of the I/O queue ([lease_io_order],
      [lease_io_stop_flushes]); the wait for the shutdown loses no signal ([shutdown_wait]).
    - Behaviours that are faults of the code, each with a theorem or an [Example]: a
      probe that answers blocks the DHCPv4 pool for good
      ([ip_pool_allocate_self_deadlock]), stopping with a full queue never ends
      ([lease_io_stop_full_blocks]), a released address is offered with the previous
      owner's lease ([released_address_is_stuck]), a datagram with a compression pointer
      to itself stops the DNS server ([self_pointer_hangs]) and its local answers are not
      marked as responses ([answer_flags_wire]), a name of 255 characters in a zone makes an
      answer leave a buffer ([long_name_overflows]), the identifiers of the leases are lost in
      the file ([reads_set_id]) and an update appended to it is not found after a restart
      ([appended_update_is_stale]), a program that cannot open its log file hangs
      ([agent_blocks]), the monitor of the DHCPv4 server cannot run ([monitor_v4_dies]), and
      others at the end of the files.

    ** What is not modelled

    The sockets and files behind the system calls, of which only the results occur; printing
    a configuration, a database or a pool to the terminal; the wake-up functions of the timer
    and of the synchronisation thread, which change nothing; [fsync].  [inet_pton],
    [inet_ntop], [localtime], [mktime], [ctime], [malloc] and [fopen] are parameters, and what
    the network sends is an argument; the theorems on the lease file state what they use of
    these functions ([lease_ok], [lease6_ok], [ctime_ok]), those on the configurations too
    ([ip_ok], [ip6_ok]).  Memory is sequentially consistent: accesses outside the mutexes are
    not treated as races; in [MainV4] and [MainV6] an event of a thread is one step.
    [DNS_Server/DNS_Cache] is an older copy of the cache that the build does not use.  The
    headers are covered by the records and constants they declare. *)

From stdpp Require Export base tactics list numbers strings sets.
#[global] Open Scope Z_scope.

(** ** Machine integers

    C integers are [Z]; each arithmetic operation of an unsigned type is
    followed by the reduction of its width. *)

Definition u8 (z : Z) : Z := z mod 256.

Definition u16 (z : Z) : Z := z mod 65536.

Definition u32 (z : Z) : Z := z mod 4294967296.

Definition u64 (z : Z) : Z := z mod 18446744073709551616.

#[global] Arguments u8 : simpl never.
#[global] Arguments u16 : simpl never.
#[global] Arguments u32 : simpl never.
#[global] Arguments u64 : simpl never.

Declare Scope cint_scope.
Delimit Scope cint_scope with cint.
Notation "a '+u32' b" := (u32 (a + b)) (at level 50, left associativity) : cint_scope.
Notation "a '-u32' b" := (u32 (a - b)) (at level 50, left associativity) : cint_scope.
Notation "a '+u64' b" := (u64 (a + b)) (at level 50, left associativity) : cint_scope.
#[global] Open Scope cint_scope.

(** [htonl]/[ntohl] of a little-endian host: both reverse the four bytes. *)
Definition bswap32 (x : Z) : Z :=
  (x mod 256) * 16777216 + (x / 256 mod 256) * 65536
  + (x / 65536 mod 256) * 256 + (x / 16777216 mod 256).

Definition bswap16 (x : Z) : Z := (x mod 256) * 256 + (x / 256 mod 256).

#[global] Arguments bswap32 : simpl never.
#[global] Arguments bswap16 : simpl never.

Abbreviation htonl := bswap32 (only parsing).
Abbreviation ntohl := bswap32 (only parsing).
Abbreviation htons := bswap16 (only parsing).
Abbreviation ntohs := bswap16 (only parsing).

(** The bytes [memcpy] moves for an integer in memory (little-endian host), and
    the integer read back from bytes. *)
Definition le32 (x : Z) : list Z :=
  [x mod 256; x / 256 mod 256; x / 65536 mod 256; x / 16777216 mod 256].

Definition of_le32 (bs : list Z) : Z :=
  match bs with
  | b0 :: b1 :: b2 :: b3 :: _ => b0 + 256 * b1 + 65536 * b2 + 16777216 * b3
  | _ => 0
  end.

Definition le16 (x : Z) : list Z := [x mod 256; x / 256 mod 256].

Definition of_le16 (bs : list Z) : Z :=
  match bs with
  | b0 :: b1 :: _ => b0 + 256 * b1
  | _ => 0
  end.

Definition is_u8 (z : Z) : Prop := 0 <= z < 256.

Definition is_u16 (z : Z) : Prop := 0 <= z < 65536.

Definition is_u32 (z : Z) : Prop := 0 <= z < 4294967296.

(** ** Outcomes

    What a call can do besides returning: block forever on a mutex its own
    thread holds, touch memory outside the object it indexes (or follow a null
    pointer), or call [exit];
    [OutOfFuel] is a loop of the model cut short, which no theorem allows. *)

Inductive fault :=
| Deadlock
| OutOfBounds
| Exited
| OutOfFuel.

Inductive outcome (A : Type) :=
| Ret (a : A)
| Fault (f : fault).
Arguments Ret {A} a.
Arguments Fault {A} f.

#[export] Instance fault_eq_dec : EqDecision fault.
Proof. solve_decision. Defined.

#[export] Instance outcome_ret : MRet outcome := fun A a => Ret a.

#[export] Instance outcome_bind : MBind outcome :=
  fun A B f m => match m with Ret a => f a | Fault e => Fault e end.

(** Unwrapping an array read: [None] is a read outside of the array. *)
Definition in_bounds {A} (o : option A) : outcome A :=
  match o with Some a => Ret a | None => Fault OutOfBounds end.

(** ** Arrays

    [find_index p l] is the index (the C pointer) the linear searches of the
    sources return; [countb p l] counts. *)

Fixpoint find_index {A} (p : A -> bool) (l : list A) : option nat :=
  match l with
  | [] => None
  | x :: r => if p x then Some 0%nat else S <$> find_index p r
  end.

Fixpoint countb {A} (p : A -> bool) (l : list A) : Z :=
  match l with
  | [] => 0
  | x :: r => (if p x then 1 else 0) + countb p r
  end.

(** [memcpy(buf + off, bs, length bs)] on an array of bytes; writing past the end
    is a fault. *)
Definition write_bytes (off : nat) (bs : list Z) (buf : list Z) : outcome (list Z) :=
  if bool_decide (off + length bs <= length buf)%nat
  then Ret (take off buf ++ bs ++ drop (off + length bs) buf)
  else Fault OutOfBounds.

(** [memcpy(dst, buf + off, n)]: the [n] bytes read. *)
Definition read_bytes (off n : nat) (buf : list Z) : outcome (list Z) :=
  if bool_decide (off + n <= length buf)%nat
  then Ret (take n (drop off buf))
  else Fault OutOfBounds.

(** A number, or another one where it is zero. *)
Definition or_zero (own inherited : Z) : Z := if own =? 0 then inherited else own.

(** [memcmp(a, b, n) == 0] *)
Definition memeq (n : nat) (a b : list Z) : bool := bool_decide (take n a = take n b).

(** A [char[cap]] field after [strncpy(field, s, cap - 1)] into zeroed or already
    terminated storage: the string truncated to [cap - 1] characters. *)
Definition strncpy_field (cap : nat) (s : string) : string :=
  String.substring 0 (cap - 1) s.

(** The loop both lease databases use to drop entries from their array,
    [while (i < count) if (p(&a[i])) { memmove(&a[i], &a[i+1], ...); count--; removed++; }
    else i++;].  [memmove] of the tail over slot [i] is [delete i]; every iteration
    decreases [count - i], so [fuel] equal to the array's length suffices. *)
Fixpoint remove_loop {A} (p : A -> bool) (fuel i : nat) (ls : list A) (removed : Z)
    : option (list A * Z) :=
  match ls !! i with
  | None => Some (ls, removed)
  | Some x =>
      match fuel with
      | O => None
      | S fuel =>
          if p x
          then remove_loop p fuel i (delete i ls) (removed +u32 1)
          else remove_loop p fuel (S i) ls removed
      end
  end.

(** ** Sequences of steps *)

Section closure.
Context {S : Type}.
Variable step : S -> S -> Prop.

Inductive steps : S -> S -> Prop :=
| steps_refl s : steps s s
| steps_cons s1 s2 s3 : step s1 s2 -> steps s2 s3 -> steps s1 s3.

Lemma steps_trans s1 s2 s3 : steps s1 s2 -> steps s2 s3 -> steps s1 s3.
Proof. induction 1; eauto using steps. Qed.

Lemma steps_one s1 s2 : step s1 s2 -> steps s1 s2.
Proof. eauto using steps. Qed.

Lemma steps_invariant (P : S -> Prop) s1 s2 :
  (forall a b, P a -> step a b -> P b) -> P s1 -> steps s1 s2 -> P s2.
Proof. intros Hstep HP Hs. induction Hs; eauto. Qed.
End closure.

(** ** Automation *)

(** Case analysis on the conditional or match the goal is stuck on. *)
Ltac split_guard :=
  match goal with
  | |- context [if ?b then _ else _] => destruct b eqn:?
  | |- context [match ?x with _ => _ end] => destruct x eqn:?
  end.

(** Turn boolean tests into propositions. *)
Ltac to_prop :=
  repeat match goal with
  | H : bool_decide _ = true |- _ => apply bool_decide_eq_true in H
  | H : bool_decide _ = false |- _ => apply bool_decide_eq_false in H
  | H : andb _ _ = true |- _ => apply andb_true_iff in H as [? ?]
  | H : orb _ _ = false |- _ => apply orb_false_iff in H as [? ?]
  | H : negb _ = true |- _ => apply negb_true_iff in H
  | H : negb _ = false |- _ => apply negb_false_iff in H
  | H : Z.eqb _ _ = true |- _ => apply Z.eqb_eq in H
  | H : Z.eqb _ _ = false |- _ => apply Z.eqb_neq in H
  | H : Z.leb _ _ = true |- _ => apply Z.leb_le in H
  | H : Z.leb _ _ = false |- _ => apply Z.leb_gt in H
  | H : Z.ltb _ _ = true |- _ => apply Z.ltb_lt in H
  | H : Z.ltb _ _ = false |- _ => apply Z.ltb_ge in H
  end.

(** Integer goals with division and remainder by constants. *)
Ltac divmod := Z.to_euclidean_division_equations; lia.

Create HintDb cmodel.
Create Rewrite HintDb cbytes.

(** ** Lemmas on machine integers *)

Lemma u32_small z : is_u32 z -> u32 z = z.
Proof. unfold u32, is_u32. intros. by apply Z.mod_small. Qed.

Lemma u32_range z : is_u32 (u32 z).
Proof. unfold u32, is_u32. by apply Z.mod_pos_bound. Qed.

Lemma u8_small z : is_u8 z -> u8 z = z.
Proof. unfold u8, is_u8. intros. by apply Z.mod_small. Qed.

Lemma u8_range z : is_u8 (u8 z).
Proof. unfold u8, is_u8. by apply Z.mod_pos_bound. Qed.

Lemma u16_small z : is_u16 z -> u16 z = z.
Proof. unfold u16, is_u16. intros. by apply Z.mod_small. Qed.

Lemma bswap32_range x : is_u32 (bswap32 x).
Proof. unfold is_u32, bswap32. divmod. Qed.

Lemma of_le32_le32 x : is_u32 x -> of_le32 (le32 x) = x.
Proof. unfold is_u32, of_le32, le32. intros. divmod. Qed.

Lemma le32_of_le32 b0 b1 b2 b3 :
  is_u8 b0 -> is_u8 b1 -> is_u8 b2 -> is_u8 b3 ->
  le32 (of_le32 [b0; b1; b2; b3]) = [b0; b1; b2; b3].
Proof. unfold is_u8, of_le32, le32. intros. repeat f_equal; divmod. Qed.

Lemma bswap32_bytes x :
  bswap32 x = of_le32 (reverse (le32 x)).
Proof. unfold bswap32, of_le32, le32. simpl. lia. Qed.

Lemma le32_bswap32 x : is_u32 x -> le32 (bswap32 x) = reverse (le32 x).
Proof.
  intros Hx. rewrite bswap32_bytes.
  change (reverse (le32 x)) with
    [x / 16777216 mod 256; x / 65536 mod 256; x / 256 mod 256; x mod 256].
  apply le32_of_le32; unfold is_u8; by apply Z.mod_pos_bound.
Qed.

Lemma bswap32_involutive x : is_u32 x -> bswap32 (bswap32 x) = x.
Proof.
  intros Hx. rewrite (bswap32_bytes (bswap32 x)), le32_bswap32 by done.
  rewrite reverse_involutive. by apply of_le32_le32.
Qed.

Lemma bswap32_inj x y : is_u32 x -> is_u32 y -> bswap32 x = bswap32 y -> x = y.
Proof.
  intros Hx Hy E. rewrite <- (bswap32_involutive x), <- (bswap32_involutive y) by done.
  by rewrite E.
Qed.

Lemma bswap16_involutive x : is_u16 x -> bswap16 (bswap16 x) = x.
Proof. unfold is_u16, bswap16. intros. divmod. Qed.

Lemma of_le16_le16 x : is_u16 x -> of_le16 (le16 x) = x.
Proof. unfold is_u16, of_le16, le16. intros. divmod. Qed.

Lemma bswap16_range x : is_u16 (bswap16 x).
Proof. unfold is_u16, bswap16. divmod. Qed.

#[export] Hint Resolve u8_range u32_range bswap32_range bswap16_range : cmodel.
#[export] Hint Rewrite of_le32_le32 bswap32_involutive of_le16_le16 bswap16_involutive
  using (by eauto with cmodel) : cbytes.

(** ** Lemmas on searches and counts *)

Section arrays.
Context {A : Type}.
Implicit Types (p q : A -> bool) (l : list A) (f : A -> A).

Lemma find_index_Some p l i :
  find_index p l = Some i <->
  exists x, l !! i = Some x /\ p x = true /\
    forall j y, (j < i)%nat -> l !! j = Some y -> p y = false.
Proof.
  revert i. induction l as [|a l IH]; intros i; simpl.
  { split; [done|]. by intros (x & Hx & _). }
  destruct (p a) eqn:Ha.
  - split.
    + intros [= <-]. exists a. repeat split; [done|]. intros; lia.
    + intros (x & Hx & Hp & Hlt). destruct i as [|i]; [done|].
      specialize (Hlt 0%nat a ltac:(lia) eq_refl). congruence.
  - destruct i as [|i]; simpl.
    + split.
      * by destruct (find_index p l).
      * intros (x & [= ->] & Hp & _). congruence.
    + transitivity (find_index p l = Some i).
      { destruct (find_index p l); simpl; split; congruence. }
      rewrite IH. split; intros (x & Hx & Hp & Hlt); exists x; repeat split; try done.
      * intros [|j] y Hj; simpl; [congruence|]. apply Hlt. lia.
      * intros j y Hj Hy. apply (Hlt (S j) y); [lia|done].
Qed.

Lemma find_index_lookup p l i :
  find_index p l = Some i -> exists x, l !! i = Some x /\ p x = true.
Proof. rewrite find_index_Some. naive_solver. Qed.

Lemma find_index_None p l :
  find_index p l = None <-> forall x, x ∈ l -> p x = false.
Proof.
  induction l as [|a l IH]; simpl; [set_solver|].
  destruct (p a) eqn:Ha.
  - split; [done|]. intros H. specialize (H a ltac:(set_solver)). congruence.
  - destruct (find_index p l); simpl; [|set_solver].
    split; [done|]. intros H. assert (Some n = None) as [=].
    apply IH. set_solver.
Qed.

Lemma find_index_is_Some p l x : x ∈ l -> p x = true -> is_Some (find_index p l).
Proof.
  intros Hx Hp. destruct (find_index p l) eqn:E; [done|].
  rewrite find_index_None in E. specialize (E x Hx). congruence.
Qed.

Lemma find_index_app_None p l1 l2 :
  find_index p l1 = None ->
  find_index p (l1 ++ l2) = (fun n => (length l1 + n)%nat) <$> find_index p l2.
Proof.
  induction l1 as [|a l IH]; simpl; intros H.
  { by destruct (find_index p l2). }
  destruct (p a); [done|]. destruct (find_index p l); [done|].
  rewrite IH by done. by destruct (find_index p l2).
Qed.

Lemma find_index_app_Some p l1 l2 i :
  find_index p l1 = Some i -> find_index p (l1 ++ l2) = Some i.
Proof.
  revert i. induction l1 as [|a l IH]; simpl; intros i H; [done|].
  destruct (p a); [done|].
  destruct (find_index p l) as [n|]; [|done]. by rewrite (IH n).
Qed.

Lemma find_index_alter p l f i :
  (forall x, p (f x) = p x) -> find_index p (alter f i l) = find_index p l.
Proof.
  intros Hf. revert i. induction l as [|a l IH]; intros i; [done|].
  destruct i as [|i]; [simpl; by rewrite Hf|].
  change (alter f (S i) (a :: l)) with (a :: alter f i l). cbn [find_index].
  destruct (p a); [done|]. by rewrite IH.
Qed.

Lemma countb_nonneg p l : 0 <= countb p l.
Proof. induction l as [|a l IH]; simpl; [lia|]. destruct (p a); lia. Qed.

Lemma countb_length p l : countb p l <= Z.of_nat (length l).
Proof. induction l as [|a l IH]; simpl; [lia|]. destruct (p a); lia. Qed.

Lemma countb_app p l1 l2 : countb p (l1 ++ l2) = countb p l1 + countb p l2.
Proof. induction l1 as [|a l IH]; simpl; lia. Qed.

Lemma countb_alter p l f i x :
  l !! i = Some x ->
  countb p (alter f i l)
  = countb p l - (if p x then 1 else 0) + (if p (f x) then 1 else 0).
Proof.
  revert i. induction l as [|a l IH]; intros [|i]; try done.
  - intros [= ->]. simpl. destruct (p x), (p (f x)); lia.
  - intros Hi. change (alter f (S i) (a :: l)) with (a :: alter f i l).
    cbn [countb]. rewrite IH by done. destruct (p a); lia.
Qed.

Lemma countb_pos p l i x : l !! i = Some x -> p x = true -> 1 <= countb p l.
Proof.
  revert i. induction l as [|a l IH]; intros [|i]; simpl; try done.
  - intros [= ->] ->. pose proof (countb_nonneg p l). lia.
  - intros Hi Hp. specialize (IH i Hi Hp). destruct (p a); lia.
Qed.

Lemma countb_ext p q l : (forall x, x ∈ l -> p x = q x) -> countb p l = countb q l.
Proof.
  induction l as [|a l IH]; simpl; intros H; [done|].
  rewrite (H a) by set_solver. rewrite IH; [done|]. set_solver.
Qed.

Lemma countb_zero p l : (forall x, x ∈ l -> p x = false) -> countb p l = 0.
Proof.
  induction l as [|a l IH]; simpl; intros H; [done|].
  rewrite (H a) by set_solver. rewrite IH by set_solver. lia.
Qed.

Lemma alter_elem_of f l i x :
  x ∈ alter f i l -> x ∈ l \/ exists y, l !! i = Some y /\ x = f y.
Proof.
  rewrite list_elem_of_lookup. intros (j & Hj).
  destruct (decide (i = j)) as [->|Hne].
  - rewrite list_lookup_alter_eq in Hj.
    destruct (l !! j) as [y|] eqn:E; simpl in Hj; [|done].
    injection Hj as <-. right. eauto.
  - rewrite list_lookup_alter_ne in Hj by done. left.
    rewrite list_elem_of_lookup. eauto.
Qed.

Lemma fmap_alter_same {B} (g : A -> B) f l i :
  (forall x, g (f x) = g x) -> g <$> alter f i l = g <$> l.
Proof.
  intros H. revert i. induction l as [|a l IH]; intros [|i]; try done.
  - change (g (f a) :: (g <$> l) = g a :: (g <$> l)). by rewrite H.
  - change (g a :: (g <$> alter f i l) = g a :: (g <$> l)). by rewrite IH.
Qed.
End arrays.

(** ** Lemmas on byte buffers *)

Lemma write_bytes_length off bs buf buf' :
  write_bytes off bs buf = Ret buf' -> length buf' = length buf.
Proof.
  unfold write_bytes. case_bool_decide as H; [|done]. intros [= <-].
  rewrite !length_app, length_take, length_drop. lia.
Qed.

Lemma write_bytes_ok off bs buf :
  (off + length bs <= length buf)%nat -> exists buf', write_bytes off bs buf = Ret buf'.
Proof. intros H. unfold write_bytes. rewrite bool_decide_eq_true_2 by done. eauto. Qed.

Lemma write_bytes_read off bs buf buf' :
  write_bytes off bs buf = Ret buf' -> read_bytes off (length bs) buf' = Ret bs.
Proof.
  intros H. pose proof (write_bytes_length _ _ _ _ H) as Hl. revert H.
  unfold write_bytes. case_bool_decide as Hle; [|done]. intros [= <-].
  unfold read_bytes. rewrite bool_decide_eq_true_2 by (rewrite Hl; lia).
  f_equal. rewrite drop_app_ge by (rewrite length_take; lia).
  rewrite length_take. replace (off - off `min` length buf)%nat with 0%nat by lia.
  rewrite drop_0. by rewrite take_app_length.
Qed.

Lemma write_bytes_lookup_lt off bs buf buf' i :
  write_bytes off bs buf = Ret buf' -> (i < off)%nat -> buf' !! i = buf !! i.
Proof.
  unfold write_bytes. case_bool_decide as H; [|done]. intros [= <-] Hi.
  rewrite lookup_app_l by (rewrite length_take; lia).
  by apply lookup_take_lt.
Qed.

Lemma write_bytes_lookup_in off bs buf buf' i :
  write_bytes off bs buf = Ret buf' -> (i < length bs)%nat ->
  buf' !! (off + i)%nat = bs !! i.
Proof.
  unfold write_bytes. case_bool_decide as H; [|done]. intros [= <-] Hi.
  rewrite lookup_app_r by (rewrite length_take; lia).
  rewrite length_take. replace (off + i - off `min` length buf)%nat with i by lia.
  by rewrite lookup_app_l.
Qed.

Lemma write_bytes_lookup_ge off bs buf buf' i :
  write_bytes off bs buf = Ret buf' -> (off + length bs <= i)%nat ->
  buf' !! i = buf !! i.
Proof.
  unfold write_bytes. case_bool_decide as H; [|done]. intros [= <-] Hi.
  rewrite lookup_app_r by (rewrite length_take; lia).
  rewrite length_take, lookup_app_r by lia.
  rewrite lookup_drop. f_equal. lia.
Qed.

Lemma memeq_refl n a : memeq n a a = true.
Proof. unfold memeq. by apply bool_decide_eq_true. Qed.

Lemma memeq_true n a b : memeq n a b = true <-> take n a = take n b.
Proof. unfold memeq. by rewrite bool_decide_eq_true. Qed.

Lemma memeq_false n a b : take n a <> take n b -> memeq n a b = false.
Proof. unfold memeq. by apply bool_decide_eq_false. Qed.

Lemma forallb_elem {A} (p : A -> bool) (l : list A) :
  forallb p l = true -> forall x, x ∈ l -> p x = true.
Proof. intros H x Hx. rewrite List.forallb_forall in H. apply H. by apply list_elem_of_In. Qed.

(** Overwriting the middle of an array. *)
Lemma write_bytes_app off pre old post bs :
  off = length pre -> length bs = length old ->
  write_bytes off bs (pre ++ old ++ post) = Ret (pre ++ bs ++ post).
Proof.
  intros -> Hl. unfold write_bytes.
  rewrite bool_decide_eq_true_2 by (rewrite !length_app; lia). f_equal.
  rewrite take_app_length. f_equal. f_equal.
  rewrite drop_app_add, Hl. by rewrite drop_app_length.
Qed.

Lemma bind_Ret {A B} (a : A) (f : A -> outcome B) : (Ret a ≫= f) = f a.
Proof. done. Qed.

(** What [remove_loop] leaves and counts. *)
Lemma delete_split {A} (l : list A) i x :
  l !! i = Some x -> take i (delete i l) = take i l /\ drop i (delete i l) = drop (S i) l
    /\ length (delete i l) = (length l - 1)%nat.
Proof.
  intros Hi. assert (i < length l)%nat by (by eapply lookup_lt_Some).
  rewrite delete_take_drop. repeat split.
  - rewrite take_app_le by (rewrite length_take; lia).
    rewrite take_take. f_equal. lia.
  - rewrite drop_app_ge by (rewrite length_take; lia). rewrite length_take.
    replace (i - i `min` length l)%nat with 0%nat by lia. done.
  - rewrite length_app, length_take, length_drop. lia.
Qed.

Lemma remove_loop_spec {A} (p : A -> bool) fuel i ls r :
  (length ls - i <= fuel)%nat ->
  remove_loop p fuel i ls r
  = Some (take i ls ++ filter (fun x => p x = false) (drop i ls),
          match countb p (drop i ls) with 0 => r | c => u32 (r + c) end).
Proof.
  revert i ls r. induction fuel as [|fuel IH]; intros i ls r Hf; cbn [remove_loop].
  - rewrite lookup_ge_None_2 by lia. rewrite drop_ge by lia. simpl.
    by rewrite app_nil_r, take_ge by lia.
  - destruct (ls !! i) as [l|] eqn:Hi; cycle 1.
    { apply lookup_ge_None_1 in Hi. rewrite drop_ge by lia. simpl.
      by rewrite app_nil_r, take_ge by lia. }
    assert (i < length ls)%nat by (by eapply lookup_lt_Some).
    rewrite (drop_S ls l i Hi). cbn [countb]. rewrite filter_cons.
    pose proof (countb_nonneg p (drop (S i) ls)) as Hc.
    destruct (p l) eqn:Hr; rewrite IH.
    + destruct (delete_split ls i l Hi) as (-> & -> & _). simpl.
      f_equal. f_equal.
      destruct (countb p (drop (S i) ls)) eqn:E; [done| |lia].
      unfold u32. destruct p0; cbn; rewrite Zplus_mod_idemp_l; f_equal; lia.
    + destruct (delete_split ls i l Hi) as (_ & _ & ->). lia.
    + simpl. rewrite (take_S_r ls i l Hi), <- app_assoc.
      done.
    + lia.
Qed.

(** ** Lemmas on updated lists *)

Lemma omap_insert_same {A B} (f : A -> option B) (l : list A) (i : nat) (x y : A) :
  l !! i = Some x -> f y = f x -> omap f (<[i := y]> l) = omap f l.
Proof.
  intros Hx E. pose proof (lookup_lt_Some _ _ _ Hx) as Hlt.
  rewrite <- (take_drop_middle l i x Hx) at 2. rewrite insert_take_drop by done.
  rewrite !omap_app. f_equal. simpl. by rewrite E.
Qed.

Lemma alter_as_insert {A} (f : A -> A) (l : list A) (i : nat) (x : A) :
  l !! i = Some x -> alter f i l = <[i := f x]> l.
Proof.
  revert i. induction l as [|z l IH]; intros [|i] Hx; try done.
  - simpl in *. by injection Hx as ->.
  - simpl in *. f_equal. by apply IH.
Qed.

Lemma alter_out {A} (f : A -> A) (l : list A) (i : nat) : l !! i = None -> alter f i l = l.
Proof.
  revert i. induction l as [|z l IH]; intros [|i] Hx; try done.
  simpl in *. f_equal. by apply IH.
Qed.

Lemma insert_snoc {A} (l : list A) x y : <[length l := y]> (l ++ [x]) = l ++ [y].
Proof. rewrite insert_app_r_alt, Nat.sub_diag by lia. done. Qed.

Lemma omap_fmap_same {A B} (f : A -> option B) (g : A -> A) (l : list A) :
  (forall x, f (g x) = f x) -> omap f (g <$> l) = omap f l.
Proof.
  intros Hg. induction l as [|x l IH]; [done|]. simpl. rewrite Hg.
  destruct (f x); [f_equal|]; exact IH.
Qed.

Lemma omap_filter_sublist {A B} (f : A -> option B) (P : A -> Prop)
    `{!forall x, Decision (P x)} (l : list A) :
  omap f (filter P l) `sublist_of` omap f l.
Proof.
  induction l as [|x l IH]; [done|]. rewrite filter_cons.
  case_decide; simpl; destruct (f x); try done; by constructor.
Qed.

Lemma NoDup_omap_inj {A B} (f : A -> option B) (l : list A) (i j : nat) (x y : A) k :
  NoDup (omap f l) -> l !! i = Some x -> l !! j = Some y -> f x = Some k -> f y = Some k ->
  i = j.
Proof.
  revert i j. induction l as [|z l IH]; intros i j Hn Hi Hj Hx Hy; [done|].
  assert (forall n w, l !! n = Some w -> f w = Some k -> f z = Some k -> False) as Hno.
  { intros n w Hw Fw Fz. simpl in Hn. rewrite Fz in Hn. apply NoDup_cons_1_1 in Hn.
    apply Hn, list_elem_of_omap. exists w. split; [by eapply list_elem_of_lookup_2|done]. }
  assert (NoDup (omap f l)) as Hn'.
  { simpl in Hn. destruct (f z); [by apply NoDup_cons_1_2 in Hn|done]. }
  destruct i as [|i], j as [|j]; simpl in *; simplify_eq; try done;
    try (exfalso; by eapply Hno). f_equal. by eapply IH.
Qed.

Lemma countb_insert {A} (p : A -> bool) (l : list A) (i : nat) (x y : A) :
  l !! i = Some x ->
  countb p (<[i := y]> l) = countb p l - (if p x then 1 else 0) + (if p y then 1 else 0).
Proof.
  intros Hx. rewrite <- (alter_as_insert (fun _ => y) l i x Hx). by apply countb_alter.
Qed.
