(* ===== verification/LeaseV4.v ===== *)
(** * The DHCPv4 lease database in memory

    [DHCPv4/src/lease_v4.c], [DHCPv4/include/src/lease_v4.h]: the lease record,
    the database operations and their mutex-protected [_safe] variants.

    The array [leases[MAX_LEASES]] with its [lease_count] is the list [leases] of
    its used prefix, [lease_count] being its length; a [struct dhcp_lease_t *] into
    the array is an index.  Every value [time(NULL)] returns is the argument [now]. *)

From S2P Require Import Prelude.

Definition MAX_LEASES : nat := 1024.

Definition MAX_CLIENT_ID_LEN : nat := 64.

Definition MAX_VENDOR_CLASS_LEN : nat := 128.

Inductive lease_state_t :=
| LEASE_STATE_FREE
| LEASE_STATE_ACTIVE
| LEASE_STATE_EXPIRED
| LEASE_STATE_RELEASED
| LEASE_STATE_ABANDONED
| LEASE_STATE_RESERVED
| LEASE_STATE_BACKUP
| LEASE_STATE_UNKNOWN.

#[export] Instance lease_state_eq_dec : EqDecision lease_state_t.
Proof. solve_decision. Defined.

Definition lease_state_to_string (state : lease_state_t) : string :=
  match state with
  | LEASE_STATE_FREE => "free"
  | LEASE_STATE_ACTIVE => "active"
  | LEASE_STATE_EXPIRED => "expired"
  | LEASE_STATE_RELEASED => "released"
  | LEASE_STATE_ABANDONED => "abandoned"
  | LEASE_STATE_RESERVED => "reserved"
  | LEASE_STATE_BACKUP => "backup"
  | LEASE_STATE_UNKNOWN => "unknown"
  end.

Definition lease_state_from_string (str : string) : lease_state_t :=
  if String.eqb str "free" then LEASE_STATE_FREE
  else if String.eqb str "active" then LEASE_STATE_ACTIVE
  else if String.eqb str "expired" then LEASE_STATE_EXPIRED
  else if String.eqb str "released" then LEASE_STATE_RELEASED
  else if String.eqb str "abandoned" then LEASE_STATE_ABANDONED
  else if String.eqb str "reserved" then LEASE_STATE_RESERVED
  else if String.eqb str "backup" then LEASE_STATE_BACKUP
  else LEASE_STATE_UNKNOWN.

Record dhcp_lease_t := mk_dhcp_lease {
  l_lease_id : Z;
  l_ip_address : Z;
  l_mac_address : list Z;
  l_start_time : Z;
  l_end_time : Z;
  l_tstp : Z;
  l_cltt : Z;
  l_state : lease_state_t;
  l_next_binding_state : lease_state_t;
  l_rewind_binding_state : lease_state_t;
  l_client_id : list Z;
  l_client_id_len : Z;
  l_client_hostname : string;
  l_vendor_class_identifier : string;
  l_is_abandoned : bool;
  l_is_bootp : bool;
  l_binding_state : string
}.

Definition set_l_lease_id (v : Z) (r : dhcp_lease_t) : dhcp_lease_t :=
  mk_dhcp_lease v r.(l_ip_address) r.(l_mac_address) r.(l_start_time) r.(l_end_time)
    r.(l_tstp) r.(l_cltt) r.(l_state) r.(l_next_binding_state)
    r.(l_rewind_binding_state) r.(l_client_id) r.(l_client_id_len)
    r.(l_client_hostname) r.(l_vendor_class_identifier) r.(l_is_abandoned)
    r.(l_is_bootp) r.(l_binding_state).

Definition set_l_ip_address (v : Z) (r : dhcp_lease_t) : dhcp_lease_t :=
  mk_dhcp_lease r.(l_lease_id) v r.(l_mac_address) r.(l_start_time) r.(l_end_time)
    r.(l_tstp) r.(l_cltt) r.(l_state) r.(l_next_binding_state)
    r.(l_rewind_binding_state) r.(l_client_id) r.(l_client_id_len)
    r.(l_client_hostname) r.(l_vendor_class_identifier) r.(l_is_abandoned)
    r.(l_is_bootp) r.(l_binding_state).

Definition set_l_mac_address (v : list Z) (r : dhcp_lease_t) : dhcp_lease_t :=
  mk_dhcp_lease r.(l_lease_id) r.(l_ip_address) v r.(l_start_time) r.(l_end_time)
    r.(l_tstp) r.(l_cltt) r.(l_state) r.(l_next_binding_state)
    r.(l_rewind_binding_state) r.(l_client_id) r.(l_client_id_len)
    r.(l_client_hostname) r.(l_vendor_class_identifier) r.(l_is_abandoned)
    r.(l_is_bootp) r.(l_binding_state).

Definition set_l_start_time (v : Z) (r : dhcp_lease_t) : dhcp_lease_t :=
  mk_dhcp_lease r.(l_lease_id) r.(l_ip_address) r.(l_mac_address) v r.(l_end_time)
    r.(l_tstp) r.(l_cltt) r.(l_state) r.(l_next_binding_state)
    r.(l_rewind_binding_state) r.(l_client_id) r.(l_client_id_len)
    r.(l_client_hostname) r.(l_vendor_class_identifier) r.(l_is_abandoned)
    r.(l_is_bootp) r.(l_binding_state).

Definition set_l_end_time (v : Z) (r : dhcp_lease_t) : dhcp_lease_t :=
  mk_dhcp_lease r.(l_lease_id) r.(l_ip_address) r.(l_mac_address) r.(l_start_time) v
    r.(l_tstp) r.(l_cltt) r.(l_state) r.(l_next_binding_state)
    r.(l_rewind_binding_state) r.(l_client_id) r.(l_client_id_len)
    r.(l_client_hostname) r.(l_vendor_class_identifier) r.(l_is_abandoned)
    r.(l_is_bootp) r.(l_binding_state).

Definition set_l_tstp (v : Z) (r : dhcp_lease_t) : dhcp_lease_t :=
  mk_dhcp_lease r.(l_lease_id) r.(l_ip_address) r.(l_mac_address) r.(l_start_time)
    r.(l_end_time) v r.(l_cltt) r.(l_state) r.(l_next_binding_state)
    r.(l_rewind_binding_state) r.(l_client_id) r.(l_client_id_len)
    r.(l_client_hostname) r.(l_vendor_class_identifier) r.(l_is_abandoned)
    r.(l_is_bootp) r.(l_binding_state).

Definition set_l_cltt (v : Z) (r : dhcp_lease_t) : dhcp_lease_t :=
  mk_dhcp_lease r.(l_lease_id) r.(l_ip_address) r.(l_mac_address) r.(l_start_time)
    r.(l_end_time) r.(l_tstp) v r.(l_state) r.(l_next_binding_state)
    r.(l_rewind_binding_state) r.(l_client_id) r.(l_client_id_len)
    r.(l_client_hostname) r.(l_vendor_class_identifier) r.(l_is_abandoned)
    r.(l_is_bootp) r.(l_binding_state).

Definition set_l_state (v : lease_state_t) (r : dhcp_lease_t) : dhcp_lease_t :=
  mk_dhcp_lease r.(l_lease_id) r.(l_ip_address) r.(l_mac_address) r.(l_start_time)
    r.(l_end_time) r.(l_tstp) r.(l_cltt) v r.(l_next_binding_state)
    r.(l_rewind_binding_state) r.(l_client_id) r.(l_client_id_len)
    r.(l_client_hostname) r.(l_vendor_class_identifier) r.(l_is_abandoned)
    r.(l_is_bootp) r.(l_binding_state).

Definition set_l_next_binding_state (v : lease_state_t) (r : dhcp_lease_t) : dhcp_lease_t :=
  mk_dhcp_lease r.(l_lease_id) r.(l_ip_address) r.(l_mac_address) r.(l_start_time)
    r.(l_end_time) r.(l_tstp) r.(l_cltt) r.(l_state) v r.(l_rewind_binding_state)
    r.(l_client_id) r.(l_client_id_len) r.(l_client_hostname)
    r.(l_vendor_class_identifier) r.(l_is_abandoned) r.(l_is_bootp)
    r.(l_binding_state).

Definition set_l_rewind_binding_state (v : lease_state_t) (r : dhcp_lease_t) : dhcp_lease_t :=
  mk_dhcp_lease r.(l_lease_id) r.(l_ip_address) r.(l_mac_address) r.(l_start_time)
    r.(l_end_time) r.(l_tstp) r.(l_cltt) r.(l_state) r.(l_next_binding_state) v
    r.(l_client_id) r.(l_client_id_len) r.(l_client_hostname)
    r.(l_vendor_class_identifier) r.(l_is_abandoned) r.(l_is_bootp)
    r.(l_binding_state).

Definition set_l_client_id (v : list Z) (r : dhcp_lease_t) : dhcp_lease_t :=
  mk_dhcp_lease r.(l_lease_id) r.(l_ip_address) r.(l_mac_address) r.(l_start_time)
    r.(l_end_time) r.(l_tstp) r.(l_cltt) r.(l_state) r.(l_next_binding_state)
    r.(l_rewind_binding_state) v r.(l_client_id_len) r.(l_client_hostname)
    r.(l_vendor_class_identifier) r.(l_is_abandoned) r.(l_is_bootp)
    r.(l_binding_state).

Definition set_l_client_id_len (v : Z) (r : dhcp_lease_t) : dhcp_lease_t :=
  mk_dhcp_lease r.(l_lease_id) r.(l_ip_address) r.(l_mac_address) r.(l_start_time)
    r.(l_end_time) r.(l_tstp) r.(l_cltt) r.(l_state) r.(l_next_binding_state)
    r.(l_rewind_binding_state) r.(l_client_id) v r.(l_client_hostname)
    r.(l_vendor_class_identifier) r.(l_is_abandoned) r.(l_is_bootp)
    r.(l_binding_state).

Definition set_l_client_hostname (v : string) (r : dhcp_lease_t) : dhcp_lease_t :=
  mk_dhcp_lease r.(l_lease_id) r.(l_ip_address) r.(l_mac_address) r.(l_start_time)
    r.(l_end_time) r.(l_tstp) r.(l_cltt) r.(l_state) r.(l_next_binding_state)
    r.(l_rewind_binding_state) r.(l_client_id) r.(l_client_id_len) v
    r.(l_vendor_class_identifier) r.(l_is_abandoned) r.(l_is_bootp)
    r.(l_binding_state).

Definition set_l_vendor_class_identifier (v : string) (r : dhcp_lease_t) : dhcp_lease_t :=
  mk_dhcp_lease r.(l_lease_id) r.(l_ip_address) r.(l_mac_address) r.(l_start_time)
    r.(l_end_time) r.(l_tstp) r.(l_cltt) r.(l_state) r.(l_next_binding_state)
    r.(l_rewind_binding_state) r.(l_client_id) r.(l_client_id_len)
    r.(l_client_hostname) v r.(l_is_abandoned) r.(l_is_bootp) r.(l_binding_state).

Definition set_l_is_abandoned (v : bool) (r : dhcp_lease_t) : dhcp_lease_t :=
  mk_dhcp_lease r.(l_lease_id) r.(l_ip_address) r.(l_mac_address) r.(l_start_time)
    r.(l_end_time) r.(l_tstp) r.(l_cltt) r.(l_state) r.(l_next_binding_state)
    r.(l_rewind_binding_state) r.(l_client_id) r.(l_client_id_len)
    r.(l_client_hostname) r.(l_vendor_class_identifier) v r.(l_is_bootp)
    r.(l_binding_state).

Definition set_l_is_bootp (v : bool) (r : dhcp_lease_t) : dhcp_lease_t :=
  mk_dhcp_lease r.(l_lease_id) r.(l_ip_address) r.(l_mac_address) r.(l_start_time)
    r.(l_end_time) r.(l_tstp) r.(l_cltt) r.(l_state) r.(l_next_binding_state)
    r.(l_rewind_binding_state) r.(l_client_id) r.(l_client_id_len)
    r.(l_client_hostname) r.(l_vendor_class_identifier) r.(l_is_abandoned) v
    r.(l_binding_state).

Definition set_l_binding_state (v : string) (r : dhcp_lease_t) : dhcp_lease_t :=
  mk_dhcp_lease r.(l_lease_id) r.(l_ip_address) r.(l_mac_address) r.(l_start_time)
    r.(l_end_time) r.(l_tstp) r.(l_cltt) r.(l_state) r.(l_next_binding_state)
    r.(l_rewind_binding_state) r.(l_client_id) r.(l_client_id_len)
    r.(l_client_hostname) r.(l_vendor_class_identifier) r.(l_is_abandoned)
    r.(l_is_bootp) v.

(** [memset(lease, 0, sizeof(struct dhcp_lease_t))] *)
Definition zero_lease : dhcp_lease_t :=
  mk_dhcp_lease 0 0 (replicate 6 0) 0 0 0 0 LEASE_STATE_FREE LEASE_STATE_FREE
    LEASE_STATE_FREE (replicate MAX_CLIENT_ID_LEN 0) 0 "" "" false false "".

Record lease_database_t := mk_lease_database {
  leases : list dhcp_lease_t;
  db_filename : string;
  next_lease_id : Z;
  db_mutex_locked : bool;
  db_mutex_initialized : bool
}.

Definition set_leases (v : list dhcp_lease_t) (r : lease_database_t) : lease_database_t :=
  mk_lease_database v r.(db_filename) r.(next_lease_id) r.(db_mutex_locked)
    r.(db_mutex_initialized).

Definition set_db_filename (v : string) (r : lease_database_t) : lease_database_t :=
  mk_lease_database r.(leases) v r.(next_lease_id) r.(db_mutex_locked)
    r.(db_mutex_initialized).

Definition set_next_lease_id (v : Z) (r : lease_database_t) : lease_database_t :=
  mk_lease_database r.(leases) r.(db_filename) v r.(db_mutex_locked)
    r.(db_mutex_initialized).

Definition set_db_mutex_locked (v : bool) (r : lease_database_t) : lease_database_t :=
  mk_lease_database r.(leases) r.(db_filename) r.(next_lease_id) v
    r.(db_mutex_initialized).

Definition set_db_mutex_initialized (v : bool) (r : lease_database_t) : lease_database_t :=
  mk_lease_database r.(leases) r.(db_filename) r.(next_lease_id) r.(db_mutex_locked)
    v.

(** ** Operations *)

Definition lease_is_expired (now : Z) (lease : dhcp_lease_t) : bool :=
  bool_decide (lease.(l_state) = LEASE_STATE_ACTIVE) && (lease.(l_end_time) <? now).

Definition lease_db_init (filename : string) : lease_database_t :=
  mk_lease_database [] (strncpy_field 256 filename) 1 false true.

Definition lease_db_free (db : lease_database_t) : lease_database_t :=
  mk_lease_database [] "" 0 false false.

(** The returned identifier and the database with its counter advanced. *)
Definition lease_db_generate_id (db : lease_database_t) : Z * lease_database_t :=
  (db.(next_lease_id), set_next_lease_id (db.(next_lease_id) +u64 1) db).

Definition lease_db_find_by_id (db : lease_database_t) (lease_id : Z) : option nat :=
  if lease_id =? 0 then None
  else find_index (fun l => l.(l_lease_id) =? lease_id) db.(leases).

Definition lease_db_find_by_ip (db : lease_database_t) (ip : Z) : option nat :=
  find_index (fun l => l.(l_ip_address) =? ip) db.(leases).

Definition lease_db_find_by_mac (db : lease_database_t) (mac : list Z) : option nat :=
  find_index (fun l => memeq 6 l.(l_mac_address) mac) db.(leases).

Definition new_lease (now id ip : Z) (mac : list Z) (lease_time : Z) : dhcp_lease_t :=
  let lease := set_l_lease_id id zero_lease in
  let lease := set_l_ip_address ip lease in
  let lease := set_l_mac_address (take 6 mac) lease in
  let lease := set_l_start_time now lease in
  let lease := set_l_end_time (now + lease_time) lease in
  let lease := set_l_tstp now lease in
  let lease := set_l_cltt now lease in
  let lease := set_l_state LEASE_STATE_ACTIVE lease in
  let lease := set_l_next_binding_state LEASE_STATE_FREE lease in
  let lease := set_l_rewind_binding_state LEASE_STATE_FREE lease in
  let lease := set_l_binding_state (strncpy_field 32 "active") lease in
  let lease := set_l_is_abandoned false lease in
  set_l_is_bootp false lease.

(** [lease_db_add_lease]: the slot of the new lease, or [None] (NULL) when the
    array is full. *)
Definition lease_db_add_lease (now : Z) (db : lease_database_t) (ip : Z)
    (mac : list Z) (lease_time : Z) : option nat * lease_database_t :=
  if bool_decide (MAX_LEASES <= length db.(leases))%nat then (None, db)
  else
    let slot := length db.(leases) in
    let '(id, db) := lease_db_generate_id db in
    (Some slot, set_leases (db.(leases) ++ [new_lease now id ip mac lease_time]) db).

Definition release_fields (now : Z) (lease : dhcp_lease_t) : dhcp_lease_t :=
  let lease := set_l_state LEASE_STATE_RELEASED lease in
  let lease := set_l_end_time now lease in
  let lease := set_l_tstp now lease in
  let lease := set_l_cltt now lease in
  set_l_binding_state (strncpy_field 32 "released") lease.

Definition lease_db_release_lease (now : Z) (db : lease_database_t) (ip : Z)
    : Z * lease_database_t :=
  match lease_db_find_by_ip db ip with
  | None => (-1, db)
  | Some i => (0, set_leases (alter (release_fields now) i db.(leases)) db)
  end.

Definition renew_fields (now lease_time : Z) (lease : dhcp_lease_t) : dhcp_lease_t :=
  let lease := set_l_start_time now lease in
  let lease := set_l_end_time (now + lease_time) lease in
  let lease := set_l_state LEASE_STATE_ACTIVE lease in
  let lease := set_l_cltt now lease in
  let lease := if bool_decide (lease.(l_state) = LEASE_STATE_ACTIVE) then lease
               else set_l_tstp now lease in
  set_l_binding_state (strncpy_field 32 "active") lease.

Definition lease_db_renew_lease (now : Z) (db : lease_database_t) (ip lease_time : Z)
    : Z * lease_database_t :=
  match lease_db_find_by_ip db ip with
  | None => (-1, db)
  | Some i => (0, set_leases (alter (renew_fields now lease_time) i db.(leases)) db)
  end.

Definition expire_fields (now : Z) (lease : dhcp_lease_t) : dhcp_lease_t :=
  let lease := set_l_state LEASE_STATE_EXPIRED lease in
  let lease := set_l_tstp now lease in
  set_l_binding_state (strncpy_field 32 "expired") lease.

(** The [for] loop of [lease_db_expire_old_leases]: the array and the counter. *)
Fixpoint expire_loop (now : Z) (ls : list dhcp_lease_t) (expired_count : Z)
    : list dhcp_lease_t * Z :=
  match ls with
  | [] => ([], expired_count)
  | lease :: rest =>
      if bool_decide (lease.(l_state) = LEASE_STATE_ACTIVE) && (lease.(l_end_time) <? now)
      then let '(rest', n) := expire_loop now rest (expired_count +u32 1) in
           (expire_fields now lease :: rest', n)
      else let '(rest', n) := expire_loop now rest expired_count in (lease :: rest', n)
  end.

Definition lease_db_expire_old_leases (now : Z) (db : lease_database_t)
    : Z * lease_database_t :=
  let '(ls, n) := expire_loop now db.(leases) 0 in (n, set_leases ls db).

Definition reclaimable (lease : dhcp_lease_t) : bool :=
  bool_decide (lease.(l_state) = LEASE_STATE_EXPIRED)
  || bool_decide (lease.(l_state) = LEASE_STATE_RELEASED).

Definition lease_db_cleanup_expired (db : lease_database_t)
    : option (Z * lease_database_t) :=
  '(ls, removed) ← remove_loop reclaimable (length db.(leases)) 0 db.(leases) 0;
  Some (removed, set_leases ls db).

(** ** Extended lease information *)

Definition lease_set_client_id (lease : dhcp_lease_t) (client_id : list Z) (len : Z)
    : Z * dhcp_lease_t :=
  if Z.of_nat MAX_CLIENT_ID_LEN <? len then (-1, lease)
  else
    let n := Z.to_nat len in
    (0, set_l_client_id_len len
          (set_l_client_id (take n client_id ++ drop n lease.(l_client_id)) lease)).

Definition lease_set_vendor_class (lease : dhcp_lease_t) (vendor_class : string)
    : Z * dhcp_lease_t :=
  (0, set_l_vendor_class_identifier
        (strncpy_field MAX_VENDOR_CLASS_LEN vendor_class) lease).

Definition lease_update_timestamps (lease : dhcp_lease_t) (now : Z) : dhcp_lease_t :=
  set_l_cltt now lease.

Definition lease_set_state_transition (now : Z) (lease : dhcp_lease_t)
    (current next rewind : lease_state_t) : dhcp_lease_t :=
  let lease := set_l_state current lease in
  let lease := set_l_next_binding_state next lease in
  let lease := set_l_rewind_binding_state rewind lease in
  let lease := set_l_tstp now lease in
  set_l_binding_state (strncpy_field 32 (lease_state_to_string current)) lease.

(** ** Mutex-protected operations

    The mutex is a default (non-recursive) one: locking it again from the thread
    that holds it never returns. *)

Definition db_mutex_lock (db : lease_database_t) : outcome lease_database_t :=
  if db.(db_mutex_locked) then Fault Deadlock else Ret (set_db_mutex_locked true db).

Definition lease_db_lock (db : lease_database_t) : outcome lease_database_t :=
  if db.(db_mutex_initialized) then db_mutex_lock db else Ret db.

Definition lease_db_unlock (db : lease_database_t) : lease_database_t :=
  if db.(db_mutex_initialized) then set_db_mutex_locked false db else db.

Definition lease_db_add_lease_safe (now : Z) (db : lease_database_t) (ip : Z)
    (mac : list Z) (lease_time : Z)
    : outcome (Z * option dhcp_lease_t * lease_database_t) :=
  db ← lease_db_lock db;
  let '(result, db) := lease_db_add_lease now db ip mac lease_time in
  let out_lease := result ≫= fun i => db.(leases) !! i in
  let lease_id := match out_lease with Some l => l.(l_lease_id) | None => 0 end in
  Ret (lease_id, out_lease, lease_db_unlock db).

(** The copy made in [out_lease] and the result code of the three searches. *)
Definition find_copy (db : lease_database_t) (found : option nat)
    : Z * option dhcp_lease_t :=
  match found ≫= fun i => db.(leases) !! i with
  | Some l => (0, Some l)
  | None => (-1, None)
  end.

Definition lease_db_find_by_ip_safe (db : lease_database_t) (ip : Z)
    : outcome (Z * option dhcp_lease_t * lease_database_t) :=
  db ← lease_db_lock db;
  Ret (find_copy db (lease_db_find_by_ip db ip), lease_db_unlock db).

Definition lease_db_find_by_mac_safe (db : lease_database_t) (mac : list Z)
    : outcome (Z * option dhcp_lease_t * lease_database_t) :=
  db ← lease_db_lock db;
  Ret (find_copy db (lease_db_find_by_mac db mac), lease_db_unlock db).

Definition lease_db_find_by_id_safe (db : lease_database_t) (lease_id : Z)
    : outcome (Z * option dhcp_lease_t * lease_database_t) :=
  db ← lease_db_lock db;
  Ret (find_copy db (lease_db_find_by_id db lease_id), lease_db_unlock db).

Definition lease_db_release_lease_safe (now : Z) (db : lease_database_t) (ip : Z)
    : outcome (Z * lease_database_t) :=
  db ← lease_db_lock db;
  let '(result, db) := lease_db_release_lease now db ip in
  Ret (result, lease_db_unlock db).

Definition lease_db_renew_lease_safe (now : Z) (db : lease_database_t) (ip lease_time : Z)
    : outcome (Z * lease_database_t) :=
  db ← lease_db_lock db;
  let '(result, db) := lease_db_renew_lease now db ip lease_time in
  Ret (result, lease_db_unlock db).

Definition lease_db_expire_old_leases_safe (now : Z) (db : lease_database_t)
    : outcome (Z * lease_database_t) :=
  db ← lease_db_lock db;
  let '(result, db) := lease_db_expire_old_leases now db in
  Ret (result, lease_db_unlock db).

Definition lease_db_cleanup_expired_safe (db : lease_database_t)
    : outcome (option (Z * lease_database_t)) :=
  db ← lease_db_lock db;
  Ret ('(result, db) ← lease_db_cleanup_expired db; Some (result, lease_db_unlock db)).

(** ** Sequences of operations

    The mutating calls the servers make on one database, and their execution in
    order. *)

Inductive db_op :=
| OpAdd (now ip : Z) (mac : list Z) (lease_time : Z)
| OpRelease (now ip : Z)
| OpRenew (now ip lease_time : Z)
| OpExpire (now : Z)
| OpCleanup.

Definition db_exec (db : lease_database_t) (op : db_op) : lease_database_t :=
  match op with
  | OpAdd now ip mac t => (lease_db_add_lease now db ip mac t).2
  | OpRelease now ip => (lease_db_release_lease now db ip).2
  | OpRenew now ip t => (lease_db_renew_lease now db ip t).2
  | OpExpire now => (lease_db_expire_old_leases now db).2
  | OpCleanup => default db (snd <$> lease_db_cleanup_expired db)
  end.

Definition db_run (ops : list db_op) (db : lease_database_t) : lease_database_t :=
  foldl db_exec db ops.

(** The array bound, and identifiers that are non-zero, distinct and below the
    counter. *)
Record db_wf (db : lease_database_t) : Prop := {
  db_wf_bound : (length db.(leases) <= MAX_LEASES)%nat;
  db_wf_nodup : NoDup (l_lease_id <$> db.(leases));
  db_wf_ids : Forall (fun l => 1 <= l.(l_lease_id) < db.(next_lease_id)) db.(leases);
  db_wf_next : 1 <= db.(next_lease_id) < 18446744073709551616
}.

(** ** Lemmas *)

Lemma expire_loop_spec now ls n :
  expire_loop now ls n
  = ((fun l => if lease_is_expired now l then expire_fields now l else l) <$> ls,
     match countb (lease_is_expired now) ls with 0 => n
     | c => u32 (n + c) end).
Proof.
  revert n. induction ls as [|l ls IH]; intros n; [done|].
  cbn [expire_loop countb fmap list_fmap]. fold (lease_is_expired now l).
  pose proof (countb_nonneg (lease_is_expired now) ls) as Hc.
  destruct (lease_is_expired now l); rewrite IH; f_equal.
  destruct (countb (lease_is_expired now) ls) eqn:E; [done| |lia].
  simpl. unfold u32. destruct p; cbn; rewrite Zplus_mod_idemp_l; f_equal; lia.
Qed.

Lemma expire_count now ls :
  Z.of_nat (length ls) < 4294967296 ->
  (expire_loop now ls 0).2 = countb (lease_is_expired now) ls.
Proof.
  intros H. rewrite expire_loop_spec. simpl.
  pose proof (countb_nonneg (lease_is_expired now) ls).
  pose proof (countb_length (lease_is_expired now) ls).
  destruct (countb (lease_is_expired now) ls) eqn:E; [done| |lia].
  apply u32_small. unfold is_u32. lia.
Qed.

Lemma cleanup_spec db :
  (length db.(leases) <= MAX_LEASES)%nat ->
  lease_db_cleanup_expired db
  = Some (countb reclaimable db.(leases),
          set_leases (filter (fun l => reclaimable l = false) db.(leases)) db).
Proof.
  intros Hb. unfold lease_db_cleanup_expired. rewrite remove_loop_spec by lia.
  simpl. rewrite drop_0.
  pose proof (countb_nonneg reclaimable db.(leases)).
  pose proof (countb_length reclaimable db.(leases)). unfold MAX_LEASES in Hb.
  f_equal. f_equal. destruct (countb reclaimable db.(leases)); [done| |lia].
  apply u32_small. unfold is_u32. lia.
Qed.

Lemma expire_fields_id now l :
  l_lease_id (if lease_is_expired now l then expire_fields now l else l) = l_lease_id l.
Proof. by destruct (lease_is_expired now l). Qed.

Lemma renew_fields_id now t l : l_lease_id (renew_fields now t l) = l_lease_id l.
Proof. done. Qed.

Lemma db_wf_alter db i f :
  (forall l, l_lease_id (f l) = l_lease_id l) ->
  db_wf db -> db_wf (set_leases (alter f i db.(leases)) db).
Proof.
  intros Hf [Hb Hn Hi Hx]. constructor; simpl; try done.
  - by rewrite length_alter.
  - by rewrite fmap_alter_same.
  - rewrite Forall_forall in *. intros x [Hin|(y & Hy & ->)]%alter_elem_of; [by apply Hi|].
    rewrite Hf. apply Hi. by eapply list_elem_of_lookup_2.
Qed.

Lemma fmap_filter_NoDup {A B} (P : A -> Prop) `{!forall x, Decision (P x)} (f : A -> B) l :
  NoDup (f <$> l) -> NoDup (f <$> filter P l).
Proof.
  induction l as [|a l IH]; [done|]. simpl. intros [Ha Hl]%NoDup_cons.
  rewrite filter_cons. case_decide; [|by apply IH]. simpl.
  apply NoDup_cons. split; [|by apply IH].
  rewrite list_elem_of_fmap in Ha |- *. intros (y & E & Hy%list_elem_of_filter).
  apply Ha. exists y. naive_solver.
Qed.

Lemma add_wf now db ip mac t :
  db_wf db -> db.(next_lease_id) + 1 < 18446744073709551616 ->
  db_wf (lease_db_add_lease now db ip mac t).2.
Proof.
  intros [Hb Hn Hi Hx] Hlt. unfold lease_db_add_lease.
  case_bool_decide as Hfull; [by constructor|]. simpl.
  assert (u64 (next_lease_id db + 1) = next_lease_id db + 1) as E
    by (unfold u64; apply Z.mod_small; lia).
  constructor; simpl; rewrite ?E.
  - rewrite length_app. simpl. lia.
  - rewrite fmap_app. apply NoDup_app. repeat split; [done| |apply NoDup_singleton].
    simpl. intros x Hx' Heq%list_elem_of_singleton. subst x.
    apply list_elem_of_fmap in Hx' as (l & Hl & Hin).
    rewrite Forall_forall in Hi. specialize (Hi l Hin). simpl in Hl. lia.
  - apply Forall_app. split.
    + eapply Forall_impl; [done|]. simpl. lia.
    + apply Forall_singleton. simpl. lia.
  - lia.
Qed.

Lemma db_exec_wf db op :
  db_wf db -> db.(next_lease_id) + 1 < 18446744073709551616 -> db_wf (db_exec db op).
Proof.
  intros Hwf Hlt. destruct op as [now ip mac t|now ip|now ip t|now|]; simpl.
  - by apply add_wf.
  - unfold lease_db_release_lease. destruct (lease_db_find_by_ip db ip); [|done].
    by apply db_wf_alter.
  - unfold lease_db_renew_lease. destruct (lease_db_find_by_ip db ip); [|done].
    by apply db_wf_alter.
  - unfold lease_db_expire_old_leases. rewrite expire_loop_spec. simpl.
    destruct Hwf as [Hb Hn Hi Hx]. constructor; simpl; try done.
    + by rewrite length_fmap.
    + rewrite <- list_fmap_compose.
      rewrite (list_fmap_ext _ l_lease_id); [done|]. intros ? l _. simpl.
      apply expire_fields_id.
    + apply Forall_fmap. eapply Forall_impl; [done|]. intros l. simpl.
      by rewrite expire_fields_id.
  - pose proof Hwf as [Hb Hn Hi Hx]. rewrite cleanup_spec by done. simpl.
    constructor; simpl; try done.
    + etrans; [apply length_filter|done].
    + by apply fmap_filter_NoDup.
    + apply Forall_forall. intros l [_ Hl]%list_elem_of_filter.
      rewrite Forall_forall in Hi. by apply Hi.
Qed.

Lemma db_exec_next db op :
  db_wf db -> db.(next_lease_id) + 1 < 18446744073709551616 ->
  next_lease_id (db_exec db op) <= next_lease_id db + 1.
Proof.
  intros Hwf Hlt. destruct Hwf as [Hb _ _ Hx].
  destruct op as [now ip mac t|now ip|now ip t|now|]; simpl.
  - unfold lease_db_add_lease. case_bool_decide; simpl; [lia|].
    unfold u64. rewrite Z.mod_small by lia. lia.
  - unfold lease_db_release_lease. destruct (lease_db_find_by_ip db ip); simpl; lia.
  - unfold lease_db_renew_lease. destruct (lease_db_find_by_ip db ip); simpl; lia.
  - unfold lease_db_expire_old_leases. rewrite expire_loop_spec. simpl. lia.
  - rewrite cleanup_spec by done. simpl. lia.
Qed.

Lemma db_run_wf_from ops db :
  db_wf db -> db.(next_lease_id) + Z.of_nat (length ops) < 18446744073709551616 ->
  db_wf (db_run ops db).
Proof.
  revert db. induction ops as [|op ops IH]; intros db Hwf Hlt; [done|].
  simpl in *. apply IH.
  - apply db_exec_wf; [done|lia].
  - pose proof (db_exec_next db op Hwf ltac:(lia)). lia.
Qed.

Lemma lease_db_init_wf f : db_wf (lease_db_init f).
Proof. constructor; simpl; [lia|constructor|constructor|lia]. Qed.

#[export] Hint Resolve lease_db_init_wf db_wf_alter : cmodel.

Lemma find_by_ip_lookup db ip i :
  lease_db_find_by_ip db ip = Some i ->
  exists l, db.(leases) !! i = Some l /\ l.(l_ip_address) = ip.
Proof.
  intros (l & Hl & Hp)%find_index_lookup. exists l. to_prop. done.
Qed.

Lemma find_by_ip_None db ip :
  lease_db_find_by_ip db ip = None <->
  forall l, l ∈ db.(leases) -> l.(l_ip_address) <> ip.
Proof.
  unfold lease_db_find_by_ip. rewrite find_index_None.
  split; intros H l Hl; specialize (H l Hl); by rewrite Z.eqb_neq in *.
Qed.

(** ** Properties *)

(** Starting from an initialised database, any sequence of additions,
    releases, renewals, expirations and clean-ups shorter than the 64-bit
    identifier space keeps the array within [MAX_LEASES] and every lease under a
    distinct non-zero identifier below [next_lease_id]. *)
Lemma lease_db_run_wf (f : string) (ops : list db_op) :
  Z.of_nat (length ops) < 18446744073709551615 ->
  db_wf (db_run ops (lease_db_init f)).
Proof.
  intros H. apply db_run_wf_from; [apply lease_db_init_wf|]. simpl. lia.
Qed.

Lemma lease_db_run_wf_witness :
  db_wf (db_run [OpAdd 100 1 [1;2;3;4;5;6] 60; OpExpire 300; OpCleanup]
           (lease_db_init "dhcpv4.leases")).
Proof. apply lease_db_run_wf. simpl. lia. Defined.

(** [lease_db_add_lease] on a well-formed database: when the array is full it
    returns NULL and changes nothing; otherwise the new lease is the next slot,
    ACTIVE from [now] to [now + lease_time] for that address and MAC, all earlier
    slots are unchanged, and searching for the identifier it got finds exactly that
    slot. *)
Lemma lease_db_add_lease_spec (now ip t : Z) (mac : list Z) (db : lease_database_t) :
  db_wf db ->
  let '(r, db') := lease_db_add_lease now db ip mac t in
  if bool_decide (length db.(leases) = MAX_LEASES) then r = None /\ db' = db
  else
    exists l, r = Some (length db.(leases))
    /\ db'.(leases) = db.(leases) ++ [l]
    /\ l.(l_ip_address) = ip /\ l.(l_mac_address) = take 6 mac
    /\ l.(l_state) = LEASE_STATE_ACTIVE
    /\ l.(l_start_time) = now /\ l.(l_end_time) = now + t
    /\ l.(l_lease_id) = db.(next_lease_id)
    /\ lease_db_find_by_id db' l.(l_lease_id) = Some (length db.(leases)).
Proof.
  intros [Hb Hn Hi Hx]. unfold lease_db_add_lease.
  destruct (bool_decide (MAX_LEASES <= length (leases db))%nat) eqn:Hfull; to_prop.
  { rewrite bool_decide_eq_true_2 by lia. done. }
  rewrite bool_decide_eq_false_2 by lia.
  exists (new_lease now db.(next_lease_id) ip mac t). repeat split; try done.
  unfold lease_db_find_by_id. simpl.
  destruct (Z.eqb_spec (next_lease_id db) 0); [lia|].
  rewrite find_index_app_None.
  { simpl. rewrite Z.eqb_refl. simpl. by rewrite Nat.add_0_r. }
  apply find_index_None. intros l Hl. rewrite Forall_forall in Hi.
  specialize (Hi l Hl). apply Z.eqb_neq. lia.
Qed.

Lemma lease_db_add_lease_spec_witness :
  (lease_db_add_lease 100 (lease_db_init "f") 7 [1;2;3;4;5;6] 60).1 = Some 0%nat.
Proof.
  pose proof (lease_db_add_lease_spec 100 7 60 [1;2;3;4;5;6] (lease_db_init "f")
                (lease_db_init_wf "f")) as H.
  cbv beta iota in H. revert H. vm_compute. intros (l & H & _). exact H.
Defined.

(** [lease_db_cleanup_expired] terminates and, although it shifts the array in
    place one [memmove] at a time, equals the order-preserving filter that drops the
    EXPIRED and RELEASED leases; the number it returns is how many there were, and a
    second call removes nothing. *)
Lemma lease_db_cleanup_is_filter (db : lease_database_t) :
  db_wf db ->
  exists db', lease_db_cleanup_expired db = Some (countb reclaimable db.(leases), db')
  /\ db'.(leases) = filter (fun l => reclaimable l = false) db.(leases)
  /\ db'.(next_lease_id) = db.(next_lease_id)
  /\ lease_db_cleanup_expired db' = Some (0, db').
Proof.
  intros [Hb _ _ _]. rewrite cleanup_spec by done. eexists.
  split; [done|]. split; [done|]. split; [done|].
  rewrite cleanup_spec by (simpl; etrans; [apply length_filter|done]). simpl.
  rewrite countb_zero by (intros l [? _]%list_elem_of_filter; done).
  f_equal. f_equal. unfold set_leases. simpl. f_equal.
  induction (leases db) as [|l ls IH]; [done|]. rewrite filter_cons.
  case_decide as Hl; [|apply IH; simpl in Hb; lia]. rewrite filter_cons_True by done.
  f_equal. apply IH. simpl in Hb. lia.
Qed.

Lemma lease_db_cleanup_is_filter_witness :
  exists db', lease_db_cleanup_expired
    (db_run [OpAdd 100 1 [1;2;3;4;5;6] 60; OpAdd 100 2 [6;5;4;3;2;1] 600; OpExpire 300]
       (lease_db_init "f")) = Some (1, db').
Proof.
  destruct (lease_db_cleanup_is_filter
    (db_run [OpAdd 100 1 [1;2;3;4;5;6] 60; OpAdd 100 2 [6;5;4;3;2;1] 600; OpExpire 300]
       (lease_db_init "f"))) as (db' & H & _).
  { apply db_run_wf_from; [apply lease_db_init_wf|vm_compute; reflexivity]. }
  exists db'. exact H.
Defined.

(** [lease_db_expire_old_leases] moves exactly the ACTIVE leases whose end time
    is before [now] to EXPIRED, stamps their [tstp] and textual state, leaves every
    other lease as it was, returns how many it moved, and leaves no overdue ACTIVE
    lease. *)
Lemma lease_db_expire_spec (now : Z) (db : lease_database_t) :
  db_wf db ->
  let '(n, db') := lease_db_expire_old_leases now db in
  n = countb (lease_is_expired now) db.(leases)
  /\ length db'.(leases) = length db.(leases)
  /\ (forall i l, db.(leases) !! i = Some l ->
        db'.(leases) !! i
        = Some (if lease_is_expired now l
                then set_l_binding_state "expired"
                       (set_l_tstp now (set_l_state LEASE_STATE_EXPIRED l))
                else l))
  /\ countb (lease_is_expired now) db'.(leases) = 0.
Proof.
  intros [Hb _ _ _]. unfold lease_db_expire_old_leases.
  destruct (expire_loop now (leases db) 0) as [ls n] eqn:E.
  pose proof (expire_count now (leases db)) as Hn. rewrite E in Hn. simpl in Hn.
  rewrite expire_loop_spec in E. injection E as <- _. simpl. repeat split.
  - apply Hn. unfold MAX_LEASES in Hb. lia.
  - by rewrite length_fmap.
  - intros i l Hl. by rewrite list_lookup_fmap, Hl.
  - apply countb_zero. intros x (l & -> & _)%list_elem_of_fmap.
    by destruct (lease_is_expired now l) eqn:Hl.
Qed.

Lemma lease_db_expire_spec_witness :
  (lease_db_expire_old_leases 300
     (db_run [OpAdd 100 1 [1;2;3;4;5;6] 60] (lease_db_init "f"))).1 = 1.
Proof.
  pose proof (lease_db_expire_spec 300
     (db_run [OpAdd 100 1 [1;2;3;4;5;6] 60] (lease_db_init "f"))) as H.
  destruct (lease_db_expire_old_leases 300
     (db_run [OpAdd 100 1 [1;2;3;4;5;6] 60] (lease_db_init "f"))) as [n db'] eqn:E.
  destruct H as (-> & _); [|vm_compute; reflexivity].
  apply db_run_wf_from; [apply lease_db_init_wf|vm_compute; reflexivity].
Defined.

(** [lease_db_renew_lease] returns -1 and changes nothing when no lease has the
    address; otherwise the first lease with that address becomes ACTIVE from [now] to
    [now + lease_time] with its identifier and MAC kept and all other slots
    unchanged.  Whatever state it was renewed from, its [tstp] is kept: the state is
    overwritten before it is tested. *)
Lemma lease_db_renew_lease_spec (now ip t : Z) (db : lease_database_t) :
  let '(r, db') := lease_db_renew_lease now db ip t in
  match lease_db_find_by_ip db ip with
  | None => r = -1 /\ db' = db
  | Some i =>
      r = 0 /\ exists l l', db.(leases) !! i = Some l /\ db'.(leases) !! i = Some l'
      /\ l'.(l_state) = LEASE_STATE_ACTIVE /\ l'.(l_start_time) = now
      /\ l'.(l_end_time) = now + t /\ l'.(l_cltt) = now
      /\ l'.(l_lease_id) = l.(l_lease_id) /\ l'.(l_mac_address) = l.(l_mac_address)
      /\ l'.(l_tstp) = l.(l_tstp)
      /\ lease_db_find_by_ip db' ip = Some i
      /\ forall j, j <> i -> db'.(leases) !! j = db.(leases) !! j
  end.
Proof.
  unfold lease_db_renew_lease. destruct (lease_db_find_by_ip db ip) as [i|] eqn:E; [|done].
  split; [done|]. destruct (find_by_ip_lookup _ _ _ E) as (l & Hl & Hip).
  exists l, (renew_fields now t l). simpl.
  rewrite list_lookup_alter_eq, Hl. repeat split; try done.
  - unfold lease_db_find_by_ip in *. simpl. by rewrite find_index_alter.
  - intros j Hj. by rewrite list_lookup_alter_ne.
Qed.

(** The [_safe] variants refine the plain operations: from an initialised and
    unlocked database they return (no deadlock) the plain operation's result and
    database, with the mutex released. *)
Lemma lease_db_safe_ops_refine (db : lease_database_t) :
  db_mutex_initialized db = true -> db_mutex_locked db = false ->
  (forall now ip t,
     lease_db_renew_lease_safe now db ip t = Ret (lease_db_renew_lease now db ip t))
  /\ (forall now ip,
     lease_db_release_lease_safe now db ip = Ret (lease_db_release_lease now db ip))
  /\ (forall now,
     lease_db_expire_old_leases_safe now db = Ret (lease_db_expire_old_leases now db))
  /\ (lease_db_cleanup_expired_safe db = Ret (lease_db_cleanup_expired db))
  /\ (forall now ip mac t,
     exists id out, lease_db_add_lease_safe now db ip mac t
       = Ret (id, out, (lease_db_add_lease now db ip mac t).2)
     /\ out = ((lease_db_add_lease now db ip mac t).1
                 ≫= fun i => (lease_db_add_lease now db ip mac t).2.(leases) !! i)
     /\ id = match out with Some l => l.(l_lease_id) | None => 0 end)
  /\ (forall ip, lease_db_find_by_ip_safe db ip
        = Ret (find_copy db (lease_db_find_by_ip db ip), db)).
Proof.
  destruct db as [ls f n lk mi]. simpl. intros -> ->.
  repeat split; intros;
    unfold lease_db_renew_lease_safe, lease_db_renew_lease, lease_db_release_lease_safe,
      lease_db_release_lease, lease_db_expire_old_leases_safe, lease_db_expire_old_leases,
      lease_db_cleanup_expired_safe, lease_db_cleanup_expired, lease_db_add_lease_safe,
      lease_db_add_lease, lease_db_find_by_ip_safe, lease_db_find_by_ip; simpl.
  - by destruct (find_index _ ls).
  - by destruct (find_index _ ls).
  - by destruct (expire_loop now ls 0).
  - by destruct (remove_loop reclaimable (length ls) 0 ls 0) as [[]|].
  - case_bool_decide; simpl; eexists _, _; repeat split.
Qed.

Lemma lease_db_safe_ops_refine_witness :
  lease_db_expire_old_leases_safe 5 (lease_db_init "f")
  = Ret (lease_db_expire_old_leases 5 (lease_db_init "f")).
Proof.
  exact (proj1 (proj2 (proj2 (lease_db_safe_ops_refine (lease_db_init "f")
           eq_refl eq_refl))) 5).
Defined.

(** the textual lease state is read back as the state it was written from. *)
Theorem lease_state_string_roundtrip (s : lease_state_t) :
  lease_state_from_string (lease_state_to_string s) = s.
Proof. by destruct s. Qed.
