(* ===== verification/ConfigV4.v ===== *)
(** * The DHCPv4 configuration

    [DHCPv4/include/src/config_v4.h], [DHCPv4/src/config_v4.c]: the configuration
    records and the lookups in them.  An array with its counter ([dns_servers] with
    [dns_server_count], [hosts] with [host_count], [subnets] with [subnet_count]) is
    the list of its used prefix; an address is the 32-bit [s_addr] in network byte
    order as the little-endian host reads it. *)

From S2P Require Import Prelude.

Definition MAX_SUBNETS : nat := 32.

Definition MAX_HOSTS_PER_SUBNET : nat := 128.

Definition MAX_DNS_SERVERS : nat := 4.

Inductive ddns_update_style_t :=
| DDNS_NONE
| DDNS_INTERIM
| DDNS_STANDARD
| DDNS_AD_HOC
| DDNS_UNKNOWN.

Definition ddns_update_style_to_string (style : ddns_update_style_t) : string :=
  match style with
  | DDNS_NONE => "none"
  | DDNS_INTERIM => "interim"
  | DDNS_STANDARD => "standard"
  | DDNS_AD_HOC => "ad-hoc"
  | DDNS_UNKNOWN => "unknown"
  end.

(** [str] is [None] for a null pointer. *)
Definition ddns_update_style_from_string (str : option string) : ddns_update_style_t :=
  match str with
  | None => DDNS_UNKNOWN
  | Some str =>
      if String.eqb str "none" then DDNS_NONE
      else if String.eqb str "interim" then DDNS_INTERIM
      else if String.eqb str "standard" then DDNS_STANDARD
      else if String.eqb str "ad-hoc" then DDNS_AD_HOC
      else DDNS_UNKNOWN
  end.

Record dhcp_global_options_t := mk_dhcp_global_options {
  g_authoritative : bool;
  g_ping_check : bool;
  g_ping_timeout : Z;
  g_ddns_update_style : ddns_update_style_t;
  g_default_lease_time : Z;
  g_max_lease_time : Z;
  g_dns_servers : list Z;
  g_ntp_servers : list Z;
  g_netbios_servers : list Z;
  g_time_offset : Z;
  g_next_server : Z;
  g_filename : string;
  g_tftp_server_name : string;
  g_bootfile_name : string;
  g_renewal_time : Z;
  g_rebinding_time : Z;
  g_allow_unknown_clients : bool;
  g_allow_bootp : bool;
  g_update_conflict_detection : bool
}.

Record dhcp_host_reservation_t := mk_dhcp_host_reservation {
  h_name : string;
  h_mac_address : list Z;
  h_fixed_address : Z;
  h_hostname : string
}.

Record dhcp_subnet_t := mk_dhcp_subnet {
  s_network : Z;
  s_netmask : Z;
  s_range_start : Z;
  s_range_end : Z;
  s_router : Z;
  s_broadcast : Z;
  s_subnet_mask : Z;
  s_domain_name : string;
  s_dns_servers : list Z;
  s_ntp_servers : list Z;
  s_netbios_servers : list Z;
  s_time_offset : Z;
  s_default_lease_time : Z;
  s_max_lease_time : Z;
  s_next_server : Z;
  s_filename : string;
  s_tftp_server_name : string;
  s_bootfile_name : string;
  s_renewal_time : Z;
  s_rebinding_time : Z;
  s_hosts : list dhcp_host_reservation_t
}.

Record dhcp_config_t := mk_dhcp_config {
  c_global : dhcp_global_options_t;
  c_subnets : list dhcp_subnet_t
}.

(** The subnet's index in [c_subnets]. *)
Definition find_subnet_for_ip (config : dhcp_config_t) (ip : Z) : option nat :=
  find_index
    (fun s => Z.land (ntohl ip) (ntohl s.(s_netmask)) =? ntohl s.(s_network))
    config.(c_subnets).

Definition find_host_by_mac (subnet : dhcp_subnet_t) (mac : list Z) : option nat :=
  find_index (fun h => memeq 6 h.(h_mac_address) mac) subnet.(s_hosts).

Lemma ddns_style_roundtrip s :
  ddns_update_style_from_string (Some (ddns_update_style_to_string s)) = s.
Proof. by destruct s. Qed.
