(* ===== verification/IpPool.v ===== *)
(** * The DHCPv4 address pool

    [DHCPv4/src/ip_pool.c], [DHCPv4/include/src/ip_pool.h].  The array
    [entries[MAX_POOL_SIZE]] with [pool_size] is the list [p_entries]; a
    [struct ip_pool_entry_t *] is an index into it.  The pool mutex is a default
    (non-recursive) one, modelled by [p_mutex_locked].  The answer of
    [ip_ping_check], which depends on the network, is the parameter [ping]; the
    values [time(NULL)] returns are the arguments [now]. *)

From S2P Require Import Prelude LeaseV4 ConfigV4.

Definition MAX_POOL_SIZE : nat := 1024.

Inductive ip_state_t :=
| IP_STATE_AVAILABLE
| IP_STATE_ALLOCATED
| IP_STATE_RESERVED
| IP_STATE_EXCLUDED
| IP_STATE_CONFLICT
| IP_STATE_UNKNOWN.

#[export] Instance ip_state_eq_dec : EqDecision ip_state_t.
Proof. solve_decision. Defined.

Definition ip_state_to_string (state : ip_state_t) : string :=
  match state with
  | IP_STATE_AVAILABLE => "available"
  | IP_STATE_ALLOCATED => "allocated"
  | IP_STATE_RESERVED => "reserved"
  | IP_STATE_EXCLUDED => "excluded"
  | IP_STATE_CONFLICT => "conflict"
  | IP_STATE_UNKNOWN => "unknown"
  end.

Definition ip_state_from_string (str : string) : ip_state_t :=
  if String.eqb str "available" then IP_STATE_AVAILABLE
  else if String.eqb str "allocated" then IP_STATE_ALLOCATED
  else if String.eqb str "reserved" then IP_STATE_RESERVED
  else if String.eqb str "excluded" then IP_STATE_EXCLUDED
  else if String.eqb str "conflict" then IP_STATE_CONFLICT
  else IP_STATE_UNKNOWN.

Definition ip_state_from_lease_state (lease_state : lease_state_t) : ip_state_t :=
  match lease_state with
  | LEASE_STATE_ACTIVE => IP_STATE_ALLOCATED
  | LEASE_STATE_RESERVED => IP_STATE_RESERVED
  | LEASE_STATE_ABANDONED => IP_STATE_CONFLICT
  | LEASE_STATE_FREE | LEASE_STATE_EXPIRED | LEASE_STATE_RELEASED => IP_STATE_AVAILABLE
  | LEASE_STATE_BACKUP => IP_STATE_ALLOCATED
  | LEASE_STATE_UNKNOWN => IP_STATE_UNKNOWN
  end.

Record ip_pool_entry_t := mk_ip_pool_entry {
  e_ip_address : Z;
  e_state : ip_state_t;
  e_mac_address : list Z;
  e_last_allocated : Z;
  e_lease_id : Z
}.

Definition set_e_ip_address (v : Z) (r : ip_pool_entry_t) : ip_pool_entry_t :=
  mk_ip_pool_entry v r.(e_state) r.(e_mac_address) r.(e_last_allocated)
    r.(e_lease_id).

Definition set_e_state (v : ip_state_t) (r : ip_pool_entry_t) : ip_pool_entry_t :=
  mk_ip_pool_entry r.(e_ip_address) v r.(e_mac_address) r.(e_last_allocated)
    r.(e_lease_id).

Definition set_e_mac_address (v : list Z) (r : ip_pool_entry_t) : ip_pool_entry_t :=
  mk_ip_pool_entry r.(e_ip_address) r.(e_state) v r.(e_last_allocated) r.(e_lease_id).

Definition set_e_last_allocated (v : Z) (r : ip_pool_entry_t) : ip_pool_entry_t :=
  mk_ip_pool_entry r.(e_ip_address) r.(e_state) r.(e_mac_address) v r.(e_lease_id).

Definition set_e_lease_id (v : Z) (r : ip_pool_entry_t) : ip_pool_entry_t :=
  mk_ip_pool_entry r.(e_ip_address) r.(e_state) r.(e_mac_address) r.(e_last_allocated)
    v.

Record ip_pool_t := mk_ip_pool {
  p_subnet : dhcp_subnet_t;
  p_entries : list ip_pool_entry_t;
  p_allocated_count : Z;
  p_available_count : Z;
  p_mutex_locked : bool
}.

Definition set_p_subnet (v : dhcp_subnet_t) (r : ip_pool_t) : ip_pool_t :=
  mk_ip_pool v r.(p_entries) r.(p_allocated_count) r.(p_available_count)
    r.(p_mutex_locked).

Definition set_p_entries (v : list ip_pool_entry_t) (r : ip_pool_t) : ip_pool_t :=
  mk_ip_pool r.(p_subnet) v r.(p_allocated_count) r.(p_available_count)
    r.(p_mutex_locked).

Definition set_p_allocated_count (v : Z) (r : ip_pool_t) : ip_pool_t :=
  mk_ip_pool r.(p_subnet) r.(p_entries) v r.(p_available_count) r.(p_mutex_locked).

Definition set_p_available_count (v : Z) (r : ip_pool_t) : ip_pool_t :=
  mk_ip_pool r.(p_subnet) r.(p_entries) r.(p_allocated_count) v r.(p_mutex_locked).

Definition set_p_mutex_locked (v : bool) (r : ip_pool_t) : ip_pool_t :=
  mk_ip_pool r.(p_subnet) r.(p_entries) r.(p_allocated_count) r.(p_available_count) v.

(** The [struct ip_allocation_result_t]. *)
Record ip_allocation_result_t := mk_ip_allocation_result {
  r_success : bool;
  r_ip_address : Z;
  r_error_message : string
}.

(** ** Address classification *)

Definition ip_is_network_address (ip network netmask : Z) : bool :=
  (Z.land (ntohl ip) (ntohl netmask) =? ntohl network) && (ntohl ip =? ntohl network).

Definition ip_is_broadcast_address (ip network netmask : Z) : bool :=
  ntohl ip =? Z.lor (ntohl network) (u32 (Z.lnot (ntohl netmask))).

Definition ip_is_gateway (ip gateway : Z) : bool := ip =? gateway.

Definition ip_is_loopback (ip : Z) : bool :=
  (2130706432 <=? ntohl ip) && (ntohl ip <=? 2147483647).

(** ** Lookups *)

Definition ip_pool_find_entry (pool : ip_pool_t) (ip : Z) : option nat :=
  find_index (fun e => e.(e_ip_address) =? ip) pool.(p_entries).

Definition ip_pool_is_in_range (pool : ip_pool_t) (ip : Z) : bool :=
  (ntohl pool.(p_subnet).(s_range_start) <=? ntohl ip)
  && (ntohl ip <=? ntohl pool.(p_subnet).(s_range_end)).

Definition in_state (s : ip_state_t) (e : ip_pool_entry_t) : bool :=
  bool_decide (e.(e_state) = s).

Definition ip_pool_is_available (pool : ip_pool_t) (ip : Z) : bool :=
  match ip_pool_find_entry pool ip ≫= fun i => pool.(p_entries) !! i with
  | None => false
  | Some e => in_state IP_STATE_AVAILABLE e
  end.

(** [pthread_mutex_lock(&pool->mutex)] and its release. *)
Definition pool_lock (pool : ip_pool_t) : outcome ip_pool_t :=
  if pool.(p_mutex_locked) then Fault Deadlock else Ret (set_p_mutex_locked true pool).

Definition pool_unlock (pool : ip_pool_t) : ip_pool_t := set_p_mutex_locked false pool.

(** Updating the entry an index points to. *)
Definition alter_entry (f : ip_pool_entry_t -> ip_pool_entry_t) (i : nat)
    (pool : ip_pool_t) : ip_pool_t :=
  set_p_entries (alter f i pool.(p_entries)) pool.

(** [available_count += d] and [allocated_count += d] on [uint32_t]. *)
Definition add_available (d : Z) (pool : ip_pool_t) : ip_pool_t :=
  set_p_available_count (pool.(p_available_count) +u32 d) pool.

Definition add_allocated (d : Z) (pool : ip_pool_t) : ip_pool_t :=
  set_p_allocated_count (pool.(p_allocated_count) +u32 d) pool.

Definition zero_mac : list Z := replicate 6 0.

(** ** Initialisation *)

Definition init_entry (subnet : dhcp_subnet_t) (ip_val : Z) : ip_pool_entry_t :=
  let ip := htonl ip_val in
  let entry := mk_ip_pool_entry ip IP_STATE_AVAILABLE zero_mac 0 0 in
  if ip_is_network_address ip subnet.(s_network) subnet.(s_netmask)
  then set_e_state IP_STATE_EXCLUDED entry
  else if ip_is_broadcast_address ip subnet.(s_network) subnet.(s_netmask)
  then set_e_state IP_STATE_EXCLUDED entry
  else if ip_is_gateway ip subnet.(s_router)
  then set_e_state IP_STATE_EXCLUDED entry
  else entry.

(** The loop over the range; [slots] is [MAX_POOL_SIZE - pool_size]. *)
Fixpoint init_range (slots : nat) (subnet : dhcp_subnet_t) (ip_val end_ip : Z)
    (pool : ip_pool_t) : ip_pool_t :=
  match slots with
  | O => pool
  | S slots =>
      if ip_val <=? end_ip then
        let entry := init_entry subnet ip_val in
        let pool := set_p_entries (pool.(p_entries) ++ [entry]) pool in
        let pool := if in_state IP_STATE_EXCLUDED entry then pool
                    else add_available 1 pool in
        init_range slots subnet (ip_val +u32 1) end_ip pool
      else pool
  end.

(** One iteration of the loop over the host reservations. *)
Definition init_host (pool : ip_pool_t) (host : dhcp_host_reservation_t) : ip_pool_t :=
  match ip_pool_find_entry pool host.(h_fixed_address) with
  | None => pool
  | Some i =>
      let pool := alter_entry (fun e =>
        set_e_mac_address (take 6 host.(h_mac_address)) (set_e_state IP_STATE_RESERVED e))
        i pool in
      add_available (-1) pool
  end.

(** [if (lease->state == ACTIVE && lease->end_time < now) lease->state = EXPIRED] *)
Definition expire_if_overdue (now : Z) (lease : dhcp_lease_t) : dhcp_lease_t :=
  if lease_is_expired now lease then set_l_state LEASE_STATE_EXPIRED lease else lease.

(** One iteration of the loop over the leases, for the entry found at [i]. *)
Definition init_sync_entry (pool : ip_pool_t) (i : nat) (entry : ip_pool_entry_t)
    (lease : dhcp_lease_t) : ip_pool_t :=
  if in_state IP_STATE_RESERVED entry then pool else
  match ip_state_from_lease_state lease.(l_state) with
  | IP_STATE_ALLOCATED =>
      let pool := if in_state IP_STATE_AVAILABLE entry
                  then add_allocated 1 (add_available (-1) pool) else pool in
      alter_entry (fun e =>
        set_e_lease_id lease.(l_lease_id)
          (set_e_last_allocated lease.(l_start_time)
            (set_e_mac_address (take 6 lease.(l_mac_address))
              (set_e_state IP_STATE_ALLOCATED e)))) i pool
  | IP_STATE_CONFLICT =>
      let pool := if in_state IP_STATE_AVAILABLE entry
                  then add_available (-1) pool else pool in
      alter_entry (fun e => set_e_lease_id lease.(l_lease_id)
                              (set_e_state IP_STATE_CONFLICT e)) i pool
  | IP_STATE_AVAILABLE =>
      let pool := if in_state IP_STATE_ALLOCATED entry
                  then add_available 1 (add_allocated (-1) pool) else pool in
      alter_entry (fun e =>
        set_e_lease_id lease.(l_lease_id)
          (set_e_mac_address zero_mac (set_e_state IP_STATE_AVAILABLE e))) i pool
  | _ => pool
  end.

Fixpoint init_sync (now : Z) (pool : ip_pool_t) (ls : list dhcp_lease_t)
    : ip_pool_t * list dhcp_lease_t :=
  match ls with
  | [] => (pool, [])
  | lease :: rest =>
      let lease := expire_if_overdue now lease in
      let pool :=
        match ip_pool_find_entry pool lease.(l_ip_address) with
        | None => pool
        | Some i =>
            match pool.(p_entries) !! i with
            | None => pool
            | Some entry => init_sync_entry pool i entry lease
            end
        end in
      let '(pool, rest) := init_sync now pool rest in (pool, lease :: rest)
  end.

(** The pool after the zeroing and the loop over the range. *)
Definition init_pool (subnet : dhcp_subnet_t) : ip_pool_t :=
  init_range MAX_POOL_SIZE subnet (ntohl subnet.(s_range_start))
    (ntohl subnet.(s_range_end)) (mk_ip_pool subnet [] 0 0 false).

(** [ip_pool_init(pool, subnet, lease_db)]: the pool and the lease database, whose
    overdue leases it marks EXPIRED; a null [lease_db] is [None]. *)
Definition ip_pool_init (now : Z) (subnet : dhcp_subnet_t)
    (lease_db : option lease_database_t) : ip_pool_t * option lease_database_t :=
  let pool := foldl init_host (init_pool subnet) subnet.(s_hosts) in
  match lease_db with
  | None => (pool, None)
  | Some db => let '(pool, ls) := init_sync now pool db.(leases) in
               (pool, Some (set_leases ls db))
  end.

(** ** Reserving, releasing, conflicts *)

(** [state = ALLOCATED; mac = mac; last_allocated = now] *)
Definition allocate_fields (now : Z) (mac : list Z) (e : ip_pool_entry_t)
    : ip_pool_entry_t :=
  set_e_last_allocated now
    (set_e_mac_address (take 6 mac) (set_e_state IP_STATE_ALLOCATED e)).

(** The body of [ip_pool_reserve_ip] between lock and unlock, for a found entry. *)
Definition reserve_entry (now : Z) (pool : ip_pool_t) (i : nat) (entry : ip_pool_entry_t)
    (mac : list Z) : Z * ip_pool_t :=
  if in_state IP_STATE_ALLOCATED entry && negb (memeq 6 entry.(e_mac_address) mac)
  then (-1, pool)
  else if in_state IP_STATE_RESERVED entry || in_state IP_STATE_EXCLUDED entry
  then (-1, pool)
  else if in_state IP_STATE_ALLOCATED entry && memeq 6 entry.(e_mac_address) mac
  then (0, alter_entry (set_e_last_allocated now) i pool)
  else
    let pool :=
      if in_state IP_STATE_AVAILABLE entry
      then add_allocated 1 (add_available (-1) pool)
      else if in_state IP_STATE_CONFLICT entry then add_allocated 1 pool
      else pool in
    (0, alter_entry (allocate_fields now mac) i pool).

(** [entry] is the entry at [i]: the pointer the search returned, dereferenced. *)
Definition deref (pool : ip_pool_t) (i : nat) : outcome ip_pool_entry_t :=
  in_bounds (pool.(p_entries) !! i).

Definition ip_pool_reserve_ip (now : Z) (pool : ip_pool_t) (ip : Z) (mac : list Z)
    : outcome (Z * ip_pool_t) :=
  pool ← pool_lock pool;
  match ip_pool_find_entry pool ip with
  | None => Ret (-1, pool_unlock pool)
  | Some i =>
      entry ← deref pool i;
      let '(r, pool) := reserve_entry now pool i entry mac in
      Ret (r, pool_unlock pool)
  end.

Definition ip_pool_release_ip (pool : ip_pool_t) (ip : Z) : outcome (Z * ip_pool_t) :=
  pool ← pool_lock pool;
  match ip_pool_find_entry pool ip with
  | None => Ret (-1, pool_unlock pool)
  | Some i =>
      entry ← deref pool i;
      let pool :=
        if in_state IP_STATE_ALLOCATED entry then
          add_available 1 (add_allocated (-1)
            (alter_entry (fun e =>
               set_e_mac_address zero_mac (set_e_state IP_STATE_AVAILABLE e)) i pool))
        else pool in
      Ret (0, pool_unlock pool)
  end.

Definition ip_pool_mark_conflict (pool : ip_pool_t) (ip : Z) : outcome (Z * ip_pool_t) :=
  pool ← pool_lock pool;
  match ip_pool_find_entry pool ip with
  | None => Ret (-1, pool_unlock pool)
  | Some i =>
      entry ← deref pool i;
      let pool :=
        if in_state IP_STATE_AVAILABLE entry then add_available (-1) pool
        else if in_state IP_STATE_ALLOCATED entry then add_allocated (-1) pool
        else pool in
      Ret (0, pool_unlock (alter_entry (set_e_state IP_STATE_CONFLICT) i pool))
  end.

(** ** Allocation *)

Definition alloc_ok (ip : Z) : ip_allocation_result_t :=
  mk_ip_allocation_result true ip "".

Definition alloc_fail (msg : string) : ip_allocation_result_t :=
  mk_ip_allocation_result false 0 msg.

Section allocation.
(** The answer to the echo request [ip_ping_check(ip, timeout_ms)] sends. *)
Variable ping : Z -> Z -> bool.

(** [config->global.ping_check && !ip_is_loopback(ip)
      && ip_ping_check(ip, config->global.ping_timeout * 1000)] *)
Definition ping_conflict (config : dhcp_config_t) (ip : Z) : bool :=
  config.(c_global).(g_ping_check) && negb (ip_is_loopback ip)
  && ping ip (u32 (config.(c_global).(g_ping_timeout) * 1000)).

(** The inlined reservation of the requested address. *)
Definition claim_requested (now : Z) (mac : list Z) (ip : Z) (pool : ip_pool_t)
    : outcome ip_pool_t :=
  match ip_pool_find_entry pool ip with
  | None => Ret pool
  | Some i =>
      entry ← deref pool i;
      let pool := if in_state IP_STATE_AVAILABLE entry then add_available (-1) pool
                  else pool in
      Ret (add_allocated 1 (alter_entry (allocate_fields now mac) i pool))
  end.

(** Priority 4: the scan for the first available entry, over the indices left. *)
Fixpoint alloc_scan (now : Z) (mac : list Z) (config : dhcp_config_t)
    (indices : list nat) (pool : ip_pool_t)
    : outcome (ip_allocation_result_t * ip_pool_t) :=
  match indices with
  | [] => Ret (alloc_fail "No available IPs in pool", pool)
  | i :: indices =>
      entry ← deref pool i;
      if in_state IP_STATE_AVAILABLE entry then
        if ping_conflict config entry.(e_ip_address) then
          '(_, pool) ← ip_pool_mark_conflict pool entry.(e_ip_address);
          alloc_scan now mac config indices pool
        else
          let pool := add_available (-1) pool in
          let pool := alter_entry (allocate_fields now mac) i pool in
          Ret (alloc_ok entry.(e_ip_address), add_allocated 1 pool)
      else alloc_scan now mac config indices pool
  end.

(** [ip_pool_allocate]: the allocation result and the pool. *)
Definition ip_pool_allocate (now : Z) (pool : ip_pool_t) (mac : list Z)
    (requested_ip : Z) (config : dhcp_config_t)
    : outcome (ip_allocation_result_t * ip_pool_t) :=
  pool ← pool_lock pool;
  (* Priority 1: static reservation *)
  match find (fun h => memeq 6 h.(h_mac_address) mac) pool.(p_subnet).(s_hosts) with
  | Some host => Ret (alloc_ok host.(h_fixed_address), pool_unlock pool)
  | None =>
  (* Priority 2: the client already has an address *)
  match find (fun e => in_state IP_STATE_ALLOCATED e && memeq 6 e.(e_mac_address) mac)
          pool.(p_entries) with
  | Some entry => Ret (alloc_ok entry.(e_ip_address), pool_unlock pool)
  | None =>
  (* Priority 4 *)
  let scan pool :=
    '(result, pool) ← alloc_scan now mac config (seq 0 (length pool.(p_entries))) pool;
    Ret (result, pool_unlock pool) in
  (* Priority 3: the requested address *)
  if negb (requested_ip =? 0) && ip_pool_is_in_range pool requested_ip
     && ip_pool_is_available pool requested_ip
  then
    if ping_conflict config requested_ip then
      '(_, pool) ← ip_pool_mark_conflict pool requested_ip;
      scan pool
    else
      pool ← claim_requested now mac requested_ip pool;
      Ret (alloc_ok requested_ip, pool_unlock pool)
  else scan pool
  end
  end.
End allocation.

(** ** Following the lease database *)

(** The counter of a state, if it has one, changed by [d]. *)
Definition add_state_counter (s : ip_state_t) (d : Z) (pool : ip_pool_t) : ip_pool_t :=
  match s with
  | IP_STATE_AVAILABLE => add_available d pool
  | IP_STATE_ALLOCATED => add_allocated d pool
  | _ => pool
  end.

(** The fields [ip_pool_update_from_lease] writes in the entry. *)
Definition lease_entry (lease : dhcp_lease_t) (new_state : ip_state_t)
    (e : ip_pool_entry_t) : ip_pool_entry_t :=
  let e := set_e_lease_id lease.(l_lease_id) (set_e_state new_state e) in
  match new_state with
  | IP_STATE_ALLOCATED =>
      set_e_last_allocated lease.(l_start_time)
        (set_e_mac_address (take 6 lease.(l_mac_address)) e)
  | IP_STATE_AVAILABLE => set_e_mac_address zero_mac e
  | _ => e
  end.

(** [ip_pool_update_from_lease(pool, lease)]: result, pool, and the lease, which it
    may mark EXPIRED. *)
Definition ip_pool_update_from_lease (now : Z) (pool : ip_pool_t) (lease : dhcp_lease_t)
    : outcome (Z * ip_pool_t * dhcp_lease_t) :=
  match ip_pool_find_entry pool lease.(l_ip_address) with
  | None => Ret (-1, pool, lease)
  | Some i =>
      entry ← deref pool i;
      if in_state IP_STATE_RESERVED entry then Ret (0, pool, lease)
      else
        let lease := expire_if_overdue now lease in
        let old_state := entry.(e_state) in
        let new_state := ip_state_from_lease_state lease.(l_state) in
        let pool := add_state_counter old_state (-1) pool in
        let pool := add_state_counter new_state 1 pool in
        Ret (0, alter_entry (lease_entry lease new_state) i pool, lease)
  end.

(** The loop over the leases; [nows] gives what each call's [time(NULL)] returned. *)
Fixpoint sync_leases (nows : nat -> Z) (pool : ip_pool_t) (ls : list dhcp_lease_t)
    : outcome (ip_pool_t * list dhcp_lease_t) :=
  match ls with
  | [] => Ret (pool, [])
  | lease :: rest =>
      '(_, pool, lease) ← ip_pool_update_from_lease (nows 0%nat) pool lease;
      '(pool, rest) ← sync_leases (fun n => nows (S n)) pool rest;
      Ret (pool, lease :: rest)
  end.

Definition ip_pool_sync_with_leases (nows : nat -> Z) (pool : ip_pool_t)
    (lease_db : lease_database_t) : outcome (Z * ip_pool_t * lease_database_t) :=
  pool ← pool_lock pool;
  '(pool, ls) ← sync_leases nows pool lease_db.(leases);
  Ret (0, pool_unlock pool, set_leases ls lease_db).

(** [ip_pool_allocate_and_create_lease]: the lease (its slot) or NULL, the pool and
    the database.  [now] is the time [ip_pool_allocate] reads, [now'] the time the
    lease operation reads after it. *)
Definition ip_pool_allocate_and_create_lease (ping : Z -> Z -> bool) (now now' : Z)
    (pool : ip_pool_t) (lease_db : lease_database_t) (mac : list Z) (requested_ip : Z)
    (config : dhcp_config_t) (lease_time : Z)
    : outcome (option nat * ip_pool_t * lease_database_t) :=
  '(result, pool) ← ip_pool_allocate ping now pool mac requested_ip config;
  if negb result.(r_success) then Ret (None, pool, lease_db) else
  let ip := result.(r_ip_address) in
  let link lease pool :=
    match ip_pool_find_entry pool ip with
    | None => pool
    | Some i => alter_entry (set_e_lease_id lease.(l_lease_id)) i pool
    end in
  match lease_db_find_by_ip lease_db ip with
  | Some existing =>
      let '(r, lease_db) := lease_db_renew_lease now' lease_db ip lease_time in
      if r =? 0 then
        lease ← in_bounds (lease_db.(leases) !! existing);
        Ret (Some existing, link lease pool, lease_db)
      else
        '(_, pool) ← ip_pool_release_ip pool ip;
        Ret (None, pool, lease_db)
  | None =>
      let '(new_lease, lease_db) := lease_db_add_lease now' lease_db ip mac lease_time in
      match new_lease with
      | Some slot =>
          lease ← in_bounds (lease_db.(leases) !! slot);
          Ret (Some slot, link lease pool, lease_db)
      | None =>
          '(_, pool) ← ip_pool_release_ip pool ip;
          Ret (None, pool, lease_db)
      end
  end.

(** ** The synchronisation thread *)

Record ip_pool_sync_t := mk_ip_pool_sync {
  y_sync_interval_sec : Z;
  y_running : bool;
  y_mutex_initialized : bool;
  y_sync_count : Z;
  y_entries_updated : Z
}.

(** [ip_pool_sync_init] with the mutex and condition variable created ([None] when
    the interval is 0, result -1). *)
Definition ip_pool_sync_init (sync_interval_sec : Z) : option ip_pool_sync_t :=
  if sync_interval_sec =? 0 then None
  else Some (mk_ip_pool_sync sync_interval_sec false true 0 0).

(** [thread_created] is whether [pthread_create] succeeded. *)
Definition ip_pool_sync_start (thread_created : bool) (sync : ip_pool_sync_t)
    : Z * ip_pool_sync_t :=
  let '(mk_ip_pool_sync iv running init cnt upd) := sync in
  if negb init then (-1, sync)
  else if running then (-1, sync)
  else if thread_created then (0, mk_ip_pool_sync iv true init cnt upd)
  else (-1, mk_ip_pool_sync iv false init cnt upd).

(** [ip_pool_sync_stop] once the thread is joined. *)
Definition ip_pool_sync_stop (sync : ip_pool_sync_t) : ip_pool_sync_t :=
  let '(mk_ip_pool_sync iv running init cnt upd) := sync in
  if negb init then sync
  else if negb running then sync
  else mk_ip_pool_sync iv false false cnt upd.

Definition ip_pool_sync_is_running (sync : ip_pool_sync_t) : bool :=
  if negb sync.(y_mutex_initialized) then false else sync.(y_running).

(** One lease in the thread's pass: the pool, the lease, and whether the entry was
    updated. *)
Definition sync_pass_lease (now : Z) (pool : ip_pool_t) (lease : dhcp_lease_t)
    : outcome (ip_pool_t * dhcp_lease_t * bool) :=
  match ip_pool_find_entry pool lease.(l_ip_address) with
  | None => Ret (pool, lease, false)
  | Some i =>
      entry ← deref pool i;
      if in_state IP_STATE_RESERVED entry || in_state IP_STATE_EXCLUDED entry
      then Ret (pool, lease, false)
      else
        let lease := expire_if_overdue now lease in
        let expected_state := ip_state_from_lease_state lease.(l_state) in
        if in_state expected_state entry then Ret (pool, lease, false)
        else
          let pool := add_state_counter entry.(e_state) (-1) pool in
          let pool := add_state_counter expected_state 1 pool in
          let pool := alter_entry (fun e =>
            let e := set_e_state expected_state e in
            match expected_state with
            | IP_STATE_AVAILABLE => set_e_mac_address zero_mac e
            | IP_STATE_ALLOCATED => set_e_mac_address (take 6 lease.(l_mac_address)) e
            | _ => e
            end) i pool in
          Ret (pool, lease, true)
  end.

Fixpoint sync_pass_loop (now : Z) (pool : ip_pool_t) (ls : list dhcp_lease_t)
    : outcome (ip_pool_t * list dhcp_lease_t * Z) :=
  match ls with
  | [] => Ret (pool, [], 0)
  | lease :: rest =>
      '(pool, lease, b) ← sync_pass_lease now pool lease;
      '(pool, rest, n) ← sync_pass_loop now pool rest;
      Ret (pool, lease :: rest, if (b : bool) then n +u64 1 else n)
  end.

(** One round of [ip_pool_sync_thread_func] after its timed wait: [None] when the
    thread leaves its loop. *)
Definition ip_pool_sync_round (now : Z) (sync : ip_pool_sync_t) (pool : ip_pool_t)
    (lease_db : lease_database_t)
    : outcome (option (ip_pool_sync_t * ip_pool_t * lease_database_t)) :=
  if negb sync.(y_running) then Ret None else
  pool ← pool_lock pool;
  lease_db ← db_mutex_lock lease_db;
  '(pool, ls, updated) ← sync_pass_loop now pool lease_db.(leases);
  let lease_db := set_db_mutex_locked false (set_leases ls lease_db) in
  let pool := pool_unlock pool in
  Ret (Some (mk_ip_pool_sync sync.(y_sync_interval_sec) sync.(y_running)
               sync.(y_mutex_initialized) (sync.(y_sync_count) +u64 1)
               (sync.(y_entries_updated) +u64 updated), pool, lease_db)).

(** ** Well-formedness

    Addresses are distinct and the two counters are the numbers of AVAILABLE and
    ALLOCATED entries. *)

Record pool_wf (pool : ip_pool_t) : Prop := {
  wf_bound : (length pool.(p_entries) <= MAX_POOL_SIZE)%nat;
  wf_nodup : NoDup (e_ip_address <$> pool.(p_entries));
  wf_avail : pool.(p_available_count) = countb (in_state IP_STATE_AVAILABLE) pool.(p_entries);
  wf_alloc : pool.(p_allocated_count) = countb (in_state IP_STATE_ALLOCATED) pool.(p_entries)
}.

(** ** Lemmas *)

Lemma u32_add_l a b : u32 (u32 a + b) = u32 (a + b).
Proof. unfold u32. apply Zplus_mod_idemp_l. Qed.

Lemma countb_entries_u32 (p : ip_pool_entry_t -> bool) l :
  (length l <= MAX_POOL_SIZE)%nat -> u32 (countb p l) = countb p l.
Proof.
  intros H. apply u32_small. unfold is_u32, MAX_POOL_SIZE in *.
  pose proof (countb_nonneg p l). pose proof (countb_length p l). lia.
Qed.

Definition state_delta (s : ip_state_t) (e e' : ip_pool_entry_t) : Z :=
  (if in_state s e' then 1 else 0) - (if in_state s e then 1 else 0).

Lemma countb_state_delta s l f i e :
  l !! i = Some e ->
  countb (in_state s) (alter f i l) = countb (in_state s) l + state_delta s e (f e).
Proof. intros H. rewrite (countb_alter _ _ _ _ e H). unfold state_delta. lia. Qed.

Lemma pool_wf_alter pool i e f al av lk :
  pool_wf pool -> pool.(p_entries) !! i = Some e ->
  (forall x, e_ip_address (f x) = e_ip_address x) ->
  u32 al = u32 (p_allocated_count pool + state_delta IP_STATE_ALLOCATED e (f e)) ->
  u32 av = u32 (p_available_count pool + state_delta IP_STATE_AVAILABLE e (f e)) ->
  pool_wf (mk_ip_pool (p_subnet pool) (alter f i pool.(p_entries)) (u32 al) (u32 av) lk).
Proof.
  intros [Hb Hn Hav Hal] Hi Hf -> ->.
  assert (length (alter f i pool.(p_entries)) <= MAX_POOL_SIZE)%nat by (by rewrite length_alter).
  constructor; simpl.
  - done.
  - by rewrite fmap_alter_same.
  - rewrite Hav, <- (countb_state_delta _ _ f i e Hi). by apply countb_entries_u32.
  - rewrite Hal, <- (countb_state_delta _ _ f i e Hi). by apply countb_entries_u32.
Qed.

Lemma pool_wf_counters pool :
  pool_wf pool -> u32 pool.(p_available_count) = pool.(p_available_count)
    /\ u32 pool.(p_allocated_count) = pool.(p_allocated_count).
Proof. intros [Hb _ -> ->]. split; by apply countb_entries_u32. Qed.

Lemma pool_wf_lock pool lk :
  pool_wf pool -> pool_wf (set_p_mutex_locked lk pool).
Proof. by intros []. Qed.
#[export] Hint Resolve pool_wf_lock : cmodel.

Lemma find_entry_lookup pool ip i :
  ip_pool_find_entry pool ip = Some i ->
  exists e, pool.(p_entries) !! i = Some e /\ e.(e_ip_address) = ip.
Proof. intros (e & He & Hp)%find_index_lookup. exists e. by to_prop. Qed.

Lemma find_entry_unique pool ip i e :
  NoDup (e_ip_address <$> pool.(p_entries)) ->
  pool.(p_entries) !! i = Some e -> e.(e_ip_address) = ip ->
  ip_pool_find_entry pool ip = Some i.
Proof.
  intros Hn Hi <-. apply find_index_Some. exists e. rewrite Z.eqb_refl.
  repeat split; [done|]. intros j y Hj Hy. apply Z.eqb_neq. intros E.
  assert (j = i); [|lia]. eapply NoDup_lookup; [exact Hn| |].
  - rewrite list_lookup_fmap, Hy. done.
  - rewrite list_lookup_fmap, Hi. simpl. congruence.
Qed.

(** Reduce pool updates to a constructed record. *)
Ltac unfold_pool :=
  unfold alter_entry, pool_unlock, add_state_counter, add_available, add_allocated,
    set_p_entries, set_p_available_count, set_p_allocated_count, set_p_mutex_locked;
  cbn [p_subnet p_entries p_available_count p_allocated_count p_mutex_locked].

(** A well-formedness goal after one entry changed state. *)
Ltac solve_entry_change pool e He Hs :=
  let Hc1 := fresh in let Hc2 := fresh in
  match goal with
  | Hwf : pool_wf pool |- pool_wf ?p =>
      destruct (pool_wf_counters pool Hwf) as [Hc1 Hc2];
      unfold_pool; try rewrite <- Hc1; try rewrite <- Hc2;
      eapply (pool_wf_alter pool _ e); [exact Hwf|exact He|done| |];
      unfold state_delta, in_state; cbn; rewrite ?Hs;
      repeat case_bool_decide; try discriminate; try congruence;
      rewrite ?u32_add_l; f_equal; lia
  end.

(** What an operation may do to a pool: keep the configuration and the addresses,
    and leave every entry but one as it was. *)
Definition only_entry (i : nat) (pool pool' : ip_pool_t) : Prop :=
  pool'.(p_subnet) = pool.(p_subnet)
  /\ (e_ip_address <$> pool'.(p_entries)) = (e_ip_address <$> pool.(p_entries))
  /\ forall j, j <> i -> pool'.(p_entries) !! j = pool.(p_entries) !! j.

Lemma only_entry_alter pool f i al av lk :
  (forall x, e_ip_address (f x) = e_ip_address x) ->
  only_entry i pool (mk_ip_pool pool.(p_subnet) (alter f i pool.(p_entries)) al av lk).
Proof.
  intros Hf. repeat split; simpl.
  - by apply fmap_alter_same.
  - intros j Hj. by rewrite list_lookup_alter_ne.
Qed.

Lemma only_entry_refl i pool al av lk :
  only_entry i pool (mk_ip_pool pool.(p_subnet) pool.(p_entries) al av lk).
Proof. repeat split. Qed.

Lemma lookup_alter_entry i f pool e :
  pool.(p_entries) !! i = Some e ->
  alter f i pool.(p_entries) !! i = Some (f e).
Proof. intros He. by rewrite list_lookup_alter_eq, He. Qed.

(** Reservation of a found entry. *)
Lemma reserve_entry_wf now pool i e mac :
  pool_wf pool -> pool.(p_entries) !! i = Some e -> e.(e_state) <> IP_STATE_UNKNOWN ->
  pool_wf (reserve_entry now pool i e mac).2.
Proof.
  intros Hwf He Hk. unfold reserve_entry.
  unfold in_state at 1 2 3 4 5 6. destruct (e_state e) eqn:Hs; simpl; try done.
  - solve_entry_change pool e He Hs.
  - destruct (memeq 6 (e_mac_address e) mac); simpl; [|done].
    solve_entry_change pool e He Hs.
  - solve_entry_change pool e He Hs.
Qed.

Lemma release_entry_wf pool i e lk :
  pool_wf pool -> pool.(p_entries) !! i = Some e -> e.(e_state) = IP_STATE_ALLOCATED ->
  pool_wf (set_p_mutex_locked lk (add_available 1 (add_allocated (-1)
            (alter_entry (fun e =>
               set_e_mac_address zero_mac (set_e_state IP_STATE_AVAILABLE e)) i pool)))).
Proof. intros Hwf He Hs. solve_entry_change pool e He Hs. Qed.

Lemma allocate_entry_wf now mac pool i e :
  pool_wf pool -> pool.(p_entries) !! i = Some e -> e.(e_state) = IP_STATE_AVAILABLE ->
  pool_wf (add_allocated 1 (alter_entry (allocate_fields now mac) i (add_available (-1) pool))).
Proof. intros Hwf He Hs. solve_entry_change pool e He Hs. Qed.

Lemma conflict_entry_wf pool i e lk :
  pool_wf pool -> pool.(p_entries) !! i = Some e ->
  pool_wf (set_p_mutex_locked lk (alter_entry (set_e_state IP_STATE_CONFLICT) i
    (if in_state IP_STATE_AVAILABLE e then add_available (-1) pool
     else if in_state IP_STATE_ALLOCATED e then add_allocated (-1) pool else pool))).
Proof.
  intros Hwf He. unfold in_state at 1 2.
  destruct (e_state e) eqn:Hs; simpl; solve_entry_change pool e He Hs.
Qed.

(** Decrement the old state's counter, increment the new one's. *)
Lemma state_counter_wf pool i e f :
  pool_wf pool -> pool.(p_entries) !! i = Some e ->
  (forall x, e_ip_address (f x) = e_ip_address x) ->
  pool_wf (alter_entry f i
    (add_state_counter (f e).(e_state) 1 (add_state_counter e.(e_state) (-1) pool))).
Proof.
  intros Hwf He Hf. destruct (pool_wf_counters pool Hwf) as [Hc1 Hc2].
  assert (forall s, state_delta s e (f e)
    = (if bool_decide (e_state (f e) = s) then 1 else 0)
      - (if bool_decide (e_state e = s) then 1 else 0)) as Hd by done.
  destruct (e_state e) eqn:Hs, (e_state (f e)) eqn:Hs'; unfold_pool;
    try rewrite <- Hc1; try rewrite <- Hc2;
    (eapply (pool_wf_alter pool _ e); [exact Hwf|exact He|done| |]); rewrite Hd, ?Hs, ?Hs';
    repeat case_bool_decide; try congruence; rewrite ?u32_add_l; f_equal; lia.
Qed.

Lemma update_from_lease_spec now pool lease :
  pool_wf pool ->
  exists r pool' lease', ip_pool_update_from_lease now pool lease = Ret (r, pool', lease')
  /\ pool_wf pool' /\ pool'.(p_mutex_locked) = pool.(p_mutex_locked)
  /\ pool'.(p_subnet) = pool.(p_subnet)
  /\ (e_ip_address <$> pool'.(p_entries)) = (e_ip_address <$> pool.(p_entries))
  /\ (lease.(l_state) <> LEASE_STATE_UNKNOWN ->
      Forall (fun e => e.(e_state) <> IP_STATE_UNKNOWN) pool.(p_entries) ->
      Forall (fun e => e.(e_state) <> IP_STATE_UNKNOWN) pool'.(p_entries)).
Proof.
  intros Hwf. unfold ip_pool_update_from_lease.
  destruct (ip_pool_find_entry pool (l_ip_address lease)) as [i|] eqn:Ei.
  2: { eexists _, _, _; split_and!; done. }
  destruct (find_entry_lookup _ _ _ Ei) as (e & He & Hip).
  unfold deref. rewrite He. simpl.
  destruct (in_state IP_STATE_RESERVED e).
  { eexists _, _, _; split_and!; done. }
  set (lease' := expire_if_overdue now lease).
  set (ns := ip_state_from_lease_state (l_state lease')).
  assert (forall x, e_ip_address (lease_entry lease' ns x) = e_ip_address x) as Hf
    by (intros x; by destruct ns).
  assert (forall x, e_state (lease_entry lease' ns x) = ns) as Hns
    by (intros x; by destruct ns).
  eexists _, _, _. split; [done|].
  pose proof (state_counter_wf pool i e (lease_entry lease' ns) Hwf He Hf) as Hw.
  rewrite Hns in Hw. split; [exact Hw|].
  assert (forall s d p, p_mutex_locked (add_state_counter s d p) = p_mutex_locked p
    /\ p_subnet (add_state_counter s d p) = p_subnet p
    /\ p_entries (add_state_counter s d p) = p_entries p) as Hadd by (by intros []).
  unfold alter_entry. simpl.
  repeat match goal with |- context [add_state_counter ?s ?d ?p] =>
    destruct (Hadd s d p) as (-> & -> & ->) end.
  split; [done|]. split; [done|]. split; [by apply fmap_alter_same|].
  intros Hl Hall. apply Forall_forall.
  intros x [Hx|(y & Hy & ->)]%alter_elem_of; [by eapply Forall_forall in Hall|].
  rewrite Hns. unfold ns, lease', expire_if_overdue.
  destruct (lease_is_expired now lease); simpl; [done|]. by destruct (l_state lease).
Qed.

(** ** Allocation lemmas *)

Section allocation_lemmas.
Context (ping : Z -> Z -> bool) (now : Z) (mac : list Z) (config : dhcp_config_t).

Lemma mark_conflict_locked pool ip :
  pool.(p_mutex_locked) = true -> ip_pool_mark_conflict pool ip = Fault Deadlock.
Proof. intros H. unfold ip_pool_mark_conflict, pool_lock. by rewrite H. Qed.

(** What the scan does at the first available entry, the pool being locked. *)
Definition scan_take (i : nat) (e : ip_pool_entry_t) (pool : ip_pool_t)
    : outcome (ip_allocation_result_t * ip_pool_t) :=
  if ping_conflict ping config e.(e_ip_address) then Fault Deadlock
  else Ret (alloc_ok e.(e_ip_address),
            add_allocated 1 (alter_entry (allocate_fields now mac) i
              (add_available (-1) pool))).

Lemma alloc_scan_spec m k pool :
  pool.(p_mutex_locked) = true -> length pool.(p_entries) = (k + m)%nat ->
  alloc_scan ping now mac config (seq k m) pool
  = match find_index (in_state IP_STATE_AVAILABLE) (drop k pool.(p_entries)) with
    | None => Ret (alloc_fail "No available IPs in pool", pool)
    | Some j => e ← deref pool (k + j)%nat; scan_take (k + j)%nat e pool
    end.
Proof.
  intros Hl. revert k. induction m as [|m IH]; intros k Hlen; cbn [seq alloc_scan].
  { by rewrite drop_ge by lia. }
  destruct (lookup_lt_is_Some_2 pool.(p_entries) k) as [e He]; [lia|].
  unfold deref at 1. rewrite He. cbn [in_bounds mbind outcome_bind].
  rewrite (drop_S _ e k He). cbn [find_index].
  destruct (in_state IP_STATE_AVAILABLE e) eqn:Hs.
  - rewrite Nat.add_0_r. unfold deref. rewrite He. cbn [in_bounds mbind outcome_bind].
    unfold scan_take. destruct (ping_conflict ping config (e_ip_address e)); [|done].
    by rewrite mark_conflict_locked.
  - rewrite IH by lia.
    destruct (find_index (in_state IP_STATE_AVAILABLE) (drop (S k) pool.(p_entries)))
      as [j|]; simpl; [|done]. by rewrite Nat.add_succ_r.
Qed.

Lemma alloc_scan_all pool :
  pool.(p_mutex_locked) = true ->
  alloc_scan ping now mac config (seq 0 (length pool.(p_entries))) pool
  = match find_index (in_state IP_STATE_AVAILABLE) pool.(p_entries) with
    | None => Ret (alloc_fail "No available IPs in pool", pool)
    | Some i => e ← deref pool i; scan_take i e pool
    end.
Proof. intros Hl. by rewrite (alloc_scan_spec _ 0). Qed.

(** The cases of [ip_pool_allocate] from an unlocked pool. *)
Inductive alloc_case (pool : ip_pool_t) (requested_ip : Z) :
    outcome (ip_allocation_result_t * ip_pool_t) -> Prop :=
| AllocStatic host :
    host ∈ pool.(p_subnet).(s_hosts) -> memeq 6 host.(h_mac_address) mac = true ->
    alloc_case pool requested_ip (Ret (alloc_ok host.(h_fixed_address), pool))
| AllocExisting i e :
    pool.(p_entries) !! i = Some e -> e.(e_state) = IP_STATE_ALLOCATED ->
    memeq 6 e.(e_mac_address) mac = true ->
    alloc_case pool requested_ip (Ret (alloc_ok e.(e_ip_address), pool))
| AllocNew i e :
    pool.(p_entries) !! i = Some e -> e.(e_state) = IP_STATE_AVAILABLE ->
    ping_conflict ping config e.(e_ip_address) = false ->
    alloc_case pool requested_ip
      (Ret (alloc_ok e.(e_ip_address),
            add_allocated 1 (alter_entry (allocate_fields now mac) i
              (add_available (-1) pool))))
| AllocNone :
    (forall e, e ∈ pool.(p_entries) -> e.(e_state) <> IP_STATE_AVAILABLE) ->
    alloc_case pool requested_ip (Ret (alloc_fail "No available IPs in pool", pool))
| AllocDeadlock i e :
    pool.(p_entries) !! i = Some e -> e.(e_state) = IP_STATE_AVAILABLE ->
    ping_conflict ping config e.(e_ip_address) = true ->
    alloc_case pool requested_ip (Fault Deadlock).

Lemma unlock_lock pool : pool.(p_mutex_locked) = false ->
  pool_unlock (set_p_mutex_locked true pool) = pool.
Proof. destruct pool. simpl. by intros ->. Qed.

Lemma is_available_lookup pool ip :
  ip_pool_is_available pool ip = true ->
  exists i e, ip_pool_find_entry pool ip = Some i /\ pool.(p_entries) !! i = Some e
    /\ e.(e_ip_address) = ip /\ e.(e_state) = IP_STATE_AVAILABLE.
Proof.
  unfold ip_pool_is_available. destruct (ip_pool_find_entry pool ip) as [i|] eqn:Ei; [|done].
  destruct (find_entry_lookup _ _ _ Ei) as (e & He & Hip). simpl. rewrite He.
  unfold in_state. intros Hs. to_prop. eauto 8.
Qed.

Lemma find_elem {A} (p : A -> bool) l x : find p l = Some x -> x ∈ l /\ p x = true.
Proof. intros H. apply List.find_some in H as [? ?]. by rewrite list_elem_of_In. Qed.

Lemma scan_cases pool requested_ip :
  pool.(p_mutex_locked) = false ->
  let pool' := set_p_mutex_locked true pool in
  alloc_case pool requested_ip
    ('(result, pool') ← alloc_scan ping now mac config
        (seq 0 (length pool'.(p_entries))) pool';
     Ret (result, pool_unlock pool')).
Proof.
  intros Hl pool'. rewrite alloc_scan_all by done.
  change (p_entries pool') with (p_entries pool).
  destruct (find_index (in_state IP_STATE_AVAILABLE) (p_entries pool)) as [i|] eqn:Ei.
  - apply find_index_lookup in Ei as (e & He & Hs). unfold in_state in Hs. to_prop.
    unfold deref. change (p_entries pool') with (p_entries pool). rewrite He.
    cbn [in_bounds mbind outcome_bind]. unfold scan_take.
    destruct (ping_conflict ping config (e_ip_address e)) eqn:Ep; cbn [mbind outcome_bind].
    + by eapply AllocDeadlock.
    + pose proof (AllocNew pool requested_ip i e He Hs Ep) as Hnew.
      destruct pool. simpl in *. subst. exact Hnew.
  - cbn [mbind outcome_bind]. unfold pool'. rewrite unlock_lock by done.
    apply AllocNone. intros e He Hs. rewrite find_index_None in Ei.
    specialize (Ei e He). unfold in_state in Ei. to_prop. done.
Qed.

Lemma allocate_cases pool requested_ip :
  pool.(p_mutex_locked) = false ->
  alloc_case pool requested_ip (ip_pool_allocate ping now pool mac requested_ip config).
Proof.
  intros Hl. unfold ip_pool_allocate, pool_lock. rewrite Hl. cbn [mbind outcome_bind].
  rewrite unlock_lock by done.
  change (p_subnet (set_p_mutex_locked true pool)) with (p_subnet pool).
  destruct (find _ (s_hosts (p_subnet pool))) as [host|] eqn:Eh.
  { apply find_elem in Eh as [Hin Hm]. by constructor. }
  change (p_entries (set_p_mutex_locked true pool)) with (p_entries pool).
  destruct (find _ (p_entries pool)) as [e|] eqn:Ee.
  { apply find_elem in Ee as [[i Hi]%list_elem_of_lookup Hm]. unfold in_state in Hm.
    to_prop. by eapply AllocExisting. }
  clear Eh Ee.
  destruct (negb (requested_ip =? 0) && _ && _) eqn:Eg; [|by apply scan_cases].
  to_prop. destruct (is_available_lookup pool requested_ip) as (i & e & Hi & He & Hip & Hs).
  { done. }
  destruct (ping_conflict ping config requested_ip) eqn:Ep.
  - rewrite mark_conflict_locked by done. simpl. subst. by eapply AllocDeadlock.
  - unfold claim_requested.
    change (ip_pool_find_entry (set_p_mutex_locked true pool) requested_ip)
      with (ip_pool_find_entry pool requested_ip). rewrite Hi.
    unfold deref. change (p_entries (set_p_mutex_locked true pool)) with (p_entries pool).
    rewrite He. cbn [in_bounds mbind outcome_bind]. unfold in_state at 1.
    rewrite bool_decide_eq_true_2 by done. rewrite <- Hip in Ep.
    pose proof (AllocNew pool requested_ip i e He Hs Ep) as Hnew.
    destruct pool. simpl in *. subst. exact Hnew.
Qed.

Lemma allocate_wf pool requested_ip result pool' :
  pool_wf pool -> pool.(p_mutex_locked) = false ->
  ip_pool_allocate ping now pool mac requested_ip config = Ret (result, pool') ->
  pool_wf pool' /\ pool'.(p_mutex_locked) = false.
Proof.
  intros Hwf Hl E. pose proof (allocate_cases pool requested_ip Hl) as Hc. rewrite E in Hc.
  inversion Hc; subst; try done. split; [by eapply allocate_entry_wf|done].
Qed.
End allocation_lemmas.
