(* ===== verification/IpPoolSpec.v ===== *)
(** * Correctness of the DHCPv4 address pool

    The properties of [IpPool]: what initialisation builds, the counter and
    distinct-address invariant over any interleaving of operations, the allocation
    policy, and the cases where the code leaves its invariant or blocks. *)

From S2P Require Import Prelude LeaseV4 ConfigV4 IpPool.

(** ** Definitions used by the statements *)

(** The addresses [ip_val, ip_val + 1, ...] the range loop visits. *)
Definition visited (ip_val : Z) (n : nat) : list Z :=
  (fun k => ip_val +u32 Z.of_nat k) <$> seq 0 n.

Definition excluded_address (subnet : dhcp_subnet_t) (ip : Z) : bool :=
  ip_is_network_address ip subnet.(s_network) subnet.(s_netmask)
  || ip_is_broadcast_address ip subnet.(s_network) subnet.(s_netmask)
  || ip_is_gateway ip subnet.(s_router).

(** A configuration and a database the pool can represent: no reservation and no
    lease on an excluded address, no address reserved or leased twice. *)
Record init_ok (subnet : dhcp_subnet_t) (ls : list dhcp_lease_t) : Prop := {
  io_hosts : NoDup (h_fixed_address <$> subnet.(s_hosts));
  io_hosts_excluded : forall h, h ∈ subnet.(s_hosts) ->
    excluded_address subnet h.(h_fixed_address) = false;
  io_leases : NoDup (l_ip_address <$> ls);
  io_leases_excluded : forall l, l ∈ ls -> excluded_address subnet l.(l_ip_address) = false
}.

(** One operation of some thread on the pool, with the lease database it reads. *)
Inductive pool_step : ip_pool_t -> ip_pool_t -> Prop :=
| StepReserve now ip mac r pool pool' :
    ip_pool_reserve_ip now pool ip mac = Ret (r, pool') -> pool_step pool pool'
| StepRelease ip r pool pool' :
    ip_pool_release_ip pool ip = Ret (r, pool') -> pool_step pool pool'
| StepConflict ip r pool pool' :
    ip_pool_mark_conflict pool ip = Ret (r, pool') -> pool_step pool pool'
| StepAllocate ping now mac ip config r pool pool' :
    ip_pool_allocate ping now pool mac ip config = Ret (r, pool') -> pool_step pool pool'
| StepSync nows db r db' pool pool' :
    (forall l, l ∈ db.(leases) -> l.(l_state) <> LEASE_STATE_UNKNOWN) ->
    ip_pool_sync_with_leases nows pool db = Ret (r, pool', db') -> pool_step pool pool'
| StepRound now sync sync' db db' pool pool' :
    (forall l, l ∈ db.(leases) -> l.(l_state) <> LEASE_STATE_UNKNOWN) ->
    ip_pool_sync_round now sync pool db = Ret (Some (sync', pool', db')) ->
    pool_step pool pool'.

(** The state kept between operations. *)
Record pool_inv (pool : ip_pool_t) : Prop := {
  inv_wf : pool_wf pool;
  inv_unlocked : pool.(p_mutex_locked) = false;
  inv_known : Forall (fun e => e.(e_state) <> IP_STATE_UNKNOWN) pool.(p_entries)
}.

(** ** Initialisation *)

Lemma init_entry_state subnet v :
  e_state (init_entry subnet v)
  = if excluded_address subnet (htonl v) then IP_STATE_EXCLUDED else IP_STATE_AVAILABLE.
Proof.
  unfold init_entry, excluded_address.
  destruct (ip_is_network_address _ _ _); [done|].
  destruct (ip_is_broadcast_address _ _ _); [done|]. by destruct (ip_is_gateway _ _).
Qed.

Lemma init_entry_ip subnet v : e_ip_address (init_entry subnet v) = htonl v.
Proof.
  unfold init_entry. destruct (ip_is_network_address _ _ _); [done|].
  destruct (ip_is_broadcast_address _ _ _); [done|]. by destruct (ip_is_gateway _ _).
Qed.

Lemma visited_S v n : visited v (S n) = u32 v :: visited (v +u32 1) n.
Proof.
  unfold visited. cbn [seq fmap list_fmap]. f_equal; [by rewrite Z.add_0_r|].
  rewrite <- fmap_S_seq. rewrite <- list_fmap_compose. apply list_fmap_ext.
  intros i k _. simpl. rewrite u32_add_l. f_equal. lia.
Qed.

Lemma visited_NoDup v n : (n <= MAX_POOL_SIZE)%nat -> NoDup (visited v n).
Proof.
  intros Hn. unfold visited. apply NoDup_alt. intros i j x Hi Hj.
  rewrite list_lookup_fmap in Hi, Hj.
  destruct (seq 0 n !! i) as [a|] eqn:Ea; [|done].
  destruct (seq 0 n !! j) as [b|] eqn:Eb; [|done].
  apply lookup_seq in Ea as [-> Ha]. apply lookup_seq in Eb as [-> Hb].
  simpl in Hi, Hj. injection Hi as <-. injection Hj as Hj.
  unfold u32, MAX_POOL_SIZE in *. divmod.
Qed.

(** The range loop visits a prefix of the addresses that follow the start. *)
Lemma init_range_spec slots subnet v end_ip pool :
  is_u32 v ->
  exists n, (n <= slots)%nat
  /\ p_entries (init_range slots subnet v end_ip pool)
     = p_entries pool ++ (init_entry subnet <$> visited v n)
  /\ p_subnet (init_range slots subnet v end_ip pool) = p_subnet pool
  /\ p_mutex_locked (init_range slots subnet v end_ip pool) = p_mutex_locked pool
  /\ p_allocated_count (init_range slots subnet v end_ip pool) = p_allocated_count pool
  /\ u32 (p_available_count (init_range slots subnet v end_ip pool))
     = p_available_count pool
       +u32 countb (in_state IP_STATE_AVAILABLE) (init_entry subnet <$> visited v n)
  /\ (end_ip < 4294967295 ->
      n = Z.to_nat (Z.min (Z.of_nat slots) (end_ip - v + 1))).
Proof.
  revert v pool. induction slots as [|slots IH]; intros v pool Hv; cbn [init_range].
  { exists 0%nat. unfold visited. simpl. rewrite app_nil_r, Z.add_0_r.
    split_and!; try done; lia. }
  destruct (Z.leb_spec v end_ip) as [Hle|Hlt].
  2: { exists 0%nat. unfold visited. simpl. rewrite app_nil_r, Z.add_0_r.
       split_and!; try done; lia. }
  set (pool1 := if in_state IP_STATE_EXCLUDED (init_entry subnet v) then _ else _).
  destruct (IH (v +u32 1) pool1 (u32_range _)) as (n & Hn & He & Hs & Hl & Ha & Hav & Hc).
  assert (p_entries pool1 = p_entries pool ++ [init_entry subnet v]
    /\ p_subnet pool1 = p_subnet pool /\ p_mutex_locked pool1 = p_mutex_locked pool
    /\ p_allocated_count pool1 = p_allocated_count pool
    /\ u32 (p_available_count pool1) = p_available_count pool
         +u32 (if in_state IP_STATE_AVAILABLE (init_entry subnet v) then 1 else 0))
    as (E1 & E2 & E3 & E4 & E5).
  { unfold pool1, in_state. rewrite init_entry_state.
    destruct (excluded_address subnet (bswap32 v)); simpl; split_and!; try done.
    - by rewrite Z.add_0_r.
    - unfold u32. by rewrite Z.mod_mod. }
  exists (S n). rewrite visited_S, (u32_small v) by done. cbn [fmap list_fmap countb].
  rewrite He, Hs, Hl, Ha, E1, E2, E3, E4, <- app_assoc.
  split_and!; try done; [lia| |].
  - rewrite Hav, <- u32_add_l, E5, u32_add_l. f_equal. lia.
  - intros Hlt. rewrite (Hc Hlt). rewrite u32_small by (unfold is_u32 in *; lia). lia.
Qed.

Lemma elem_of_visited v n x : x ∈ visited v n -> is_u32 x.
Proof. intros (k & -> & _)%list_elem_of_fmap. apply u32_range. Qed.

Lemma visited_entries_NoDup subnet v n :
  (n <= MAX_POOL_SIZE)%nat ->
  NoDup (e_ip_address <$> (init_entry subnet <$> visited v n)).
Proof.
  intros Hn. rewrite <- list_fmap_compose.
  rewrite (list_fmap_ext _ bswap32) by (intros; apply init_entry_ip).
  pose proof (visited_NoDup v n Hn) as Hd. pose proof (elem_of_visited v n) as Hr.
  revert Hd Hr. generalize (visited v n). intros l.
  induction l as [|x l IH]; intros Hd Hr; simpl; [constructor|].
  apply NoDup_cons in Hd as [Hx Hd]. apply NoDup_cons. split.
  - intros (y & Hy & Hin)%list_elem_of_fmap. apply Hx.
    apply bswap32_inj in Hy as ->; [done|apply Hr; set_solver..].
  - apply IH; [done|]. intros. apply Hr. set_solver.
Qed.

(** The entries after the range loop: right counters, and each entry AVAILABLE
    unless its address is excluded. *)
Definition fresh_entry (subnet : dhcp_subnet_t) (e : ip_pool_entry_t) : Prop :=
  e.(e_state) = if excluded_address subnet e.(e_ip_address)
                then IP_STATE_EXCLUDED else IP_STATE_AVAILABLE.

Lemma init_range_u32 slots subnet v end_ip pool :
  is_u32 (p_available_count pool) ->
  is_u32 (p_available_count (init_range slots subnet v end_ip pool)).
Proof.
  revert v pool. induction slots as [|slots IH]; intros v pool H; cbn [init_range]; [done|].
  destruct (v <=? end_ip); [|done]. apply IH.
  destruct (in_state IP_STATE_EXCLUDED (init_entry subnet v)); [done|apply u32_range].
Qed.

Lemma length_visited v n : length (visited v n) = n.
Proof. unfold visited. by rewrite length_fmap, length_seq. Qed.

Lemma init_range_wf slots subnet v end_ip pool :
  (slots <= MAX_POOL_SIZE)%nat -> is_u32 v ->
  pool = init_range slots subnet v end_ip (mk_ip_pool subnet [] 0 0 false) ->
  pool_wf pool /\ pool.(p_subnet) = subnet /\ pool.(p_mutex_locked) = false
  /\ Forall (fresh_entry subnet) pool.(p_entries).
Proof.
  intros Hslots Hv Heq.
  destruct (init_range_spec slots subnet v end_ip (mk_ip_pool subnet [] 0 0 false) Hv)
    as (n & Hn & He & Hs & Hl & Ha & Hav & _).
  pose proof (init_range_u32 slots subnet v end_ip (mk_ip_pool subnet [] 0 0 false)) as Hu.
  rewrite <- Heq in *. clear Heq. specialize (Hu ltac:(done)).
  cbn [p_entries p_subnet p_mutex_locked p_allocated_count p_available_count] in *.
  rewrite app_nil_l in He. rewrite (u32_small _ Hu) in Hav.
  assert (Forall (fresh_entry subnet) (init_entry subnet <$> visited v n)) as Hf.
  { apply Forall_forall. intros e (w & -> & _)%list_elem_of_fmap.
    unfold fresh_entry. by rewrite init_entry_state, init_entry_ip. }
  split_and!; [constructor|done|done|by rewrite He].
  - rewrite He, length_fmap, length_visited. lia.
  - rewrite He. apply visited_entries_NoDup. lia.
  - rewrite Hav, He, Z.add_0_l. apply countb_entries_u32.
    rewrite length_fmap, length_visited. lia.
  - rewrite Ha, He. symmetry. apply countb_zero. intros e Hin.
    rewrite Forall_forall in Hf. specialize (Hf e Hin). unfold fresh_entry in Hf.
    unfold in_state. rewrite Hf. by destruct (excluded_address subnet (e_ip_address e)).
Qed.

Lemma init_pool_wf subnet :
  pool_wf (init_pool subnet)
  /\ (init_pool subnet).(p_subnet) = subnet /\ (init_pool subnet).(p_mutex_locked) = false
  /\ Forall (fresh_entry subnet) (init_pool subnet).(p_entries).
Proof. eapply init_range_wf; [apply Nat.le_refl|apply bswap32_range|reflexivity]. Qed.

(** When the slots suffice the loop visits the whole range. *)
Lemma init_range_addresses slots subnet v end_ip pool :
  is_u32 v -> end_ip < 4294967295 -> end_ip - v < Z.of_nat slots ->
  pool = init_range slots subnet v end_ip (mk_ip_pool subnet [] 0 0 false) ->
  (e_ip_address <$> pool.(p_entries)) = htonl <$> seqZ v (end_ip - v + 1).
Proof.
  intros Hr Hlt Hsz ->.
  destruct (init_range_spec slots subnet v end_ip (mk_ip_pool subnet [] 0 0 false) Hr)
    as (n & Hn & -> & _ & _ & _ & _ & Hc). specialize (Hc Hlt).
  cbn [p_entries]. rewrite app_nil_l, <- list_fmap_compose.
  rewrite (list_fmap_ext _ bswap32) by (intros; apply init_entry_ip).
  f_equal. unfold visited, seqZ.
  assert (n = Z.to_nat (end_ip - v + 1)) as -> by lia.
  apply list_fmap_ext. intros i k [-> Hk]%lookup_seq. simpl.
  unfold is_u32 in Hr. rewrite u32_small by (unfold is_u32; lia). lia.
Qed.

(** The entry for [ip], if any, is AVAILABLE or RESERVED. *)
Definition untouched (pool : ip_pool_t) (ip : Z) : Prop :=
  forall e, e ∈ pool.(p_entries) -> e.(e_ip_address) = ip ->
    e.(e_state) = IP_STATE_AVAILABLE \/ e.(e_state) = IP_STATE_RESERVED.

Lemma untouched_alter pool i e f al av lk ip :
  pool.(p_entries) !! i = Some e -> (forall x, e_ip_address (f x) = e_ip_address x) ->
  e.(e_ip_address) <> ip -> untouched pool ip ->
  untouched (mk_ip_pool pool.(p_subnet) (alter f i pool.(p_entries)) al av lk) ip.
Proof.
  intros He Hf Hne Hu x [Hx|(y & Hy & ->)]%alter_elem_of Hip; [by apply Hu|].
  rewrite Hf in Hip. congruence.
Qed.

Lemma init_host_spec pool host :
  pool_wf pool ->
  (forall e, e ∈ pool.(p_entries) -> e.(e_ip_address) = host.(h_fixed_address) ->
     e.(e_state) = IP_STATE_AVAILABLE) ->
  pool_wf (init_host pool host)
  /\ (init_host pool host).(p_mutex_locked) = pool.(p_mutex_locked)
  /\ (forall e, e ∈ (init_host pool host).(p_entries) ->
        e ∈ pool.(p_entries) \/ e.(e_ip_address) = host.(h_fixed_address)
                              /\ e.(e_state) = IP_STATE_RESERVED).
Proof.
  intros Hwf Hav. unfold init_host.
  destruct (ip_pool_find_entry pool (h_fixed_address host)) as [i|] eqn:Ei; [|tauto].
  destruct (find_entry_lookup _ _ _ Ei) as (e & He & Hip).
  assert (e_state e = IP_STATE_AVAILABLE) as Hs.
  { apply Hav; [by eapply list_elem_of_lookup_2|done]. }
  split_and!; [solve_entry_change pool e He Hs|done|].
  simpl. intros x [Hx|(y & Hy & ->)]%alter_elem_of; [by left|right].
  simpl. split; [congruence|done].
Qed.

Lemma init_hosts_spec hosts pool :
  pool_wf pool -> NoDup (h_fixed_address <$> hosts) ->
  (forall h e, h ∈ hosts -> e ∈ pool.(p_entries) ->
     e.(e_ip_address) = h.(h_fixed_address) -> e.(e_state) = IP_STATE_AVAILABLE) ->
  let pool' := foldl init_host pool hosts in
  pool_wf pool' /\ pool'.(p_mutex_locked) = pool.(p_mutex_locked)
  /\ (forall e, e ∈ pool'.(p_entries) ->
        e ∈ pool.(p_entries) \/ e.(e_state) = IP_STATE_RESERVED).
Proof.
  revert pool. induction hosts as [|h hosts IH]; intros pool Hwf Hnd Hav; [simpl; tauto|].
  cbn [foldl]. simpl in Hnd. apply NoDup_cons in Hnd as [Hh Hnd].
  destruct (init_host_spec pool h Hwf) as (Hwf' & Hl & Hin).
  { intros e He Hip. apply (Hav h); [set_solver|done|done]. }
  destruct (IH (init_host pool h) Hwf' Hnd) as (Hw & Hl' & Hin').
  { intros h' e Hh' He Hip. destruct (Hin e He) as [He'|[Hip' _]].
    - apply (Hav h'); [set_solver|done|done].
    - exfalso. apply Hh. rewrite Hip in Hip'. rewrite <- Hip'.
      by apply (list_elem_of_fmap_2 h_fixed_address). }
  split_and!; [done|congruence|].
  intros e He. destruct (Hin' e He) as [He'|?]; [|by right].
  destruct (Hin e He') as [?|[_ ?]]; [by left|by right].
Qed.

Lemma init_sync_entry_spec pool i e lease :
  pool_wf pool -> pool.(p_entries) !! i = Some e ->
  e.(e_state) = IP_STATE_AVAILABLE \/ e.(e_state) = IP_STATE_RESERVED ->
  let pool' := init_sync_entry pool i e lease in
  pool_wf pool' /\ pool'.(p_mutex_locked) = pool.(p_mutex_locked)
  /\ (Forall (fun x => x.(e_state) <> IP_STATE_UNKNOWN) pool.(p_entries) ->
      Forall (fun x => x.(e_state) <> IP_STATE_UNKNOWN) pool'.(p_entries))
  /\ (forall ip, e.(e_ip_address) <> ip -> untouched pool ip -> untouched pool' ip).
Proof.
  intros Hwf He Hs. unfold init_sync_entry. unfold in_state.
  destruct Hs as [Hs|Hs]; rewrite Hs; simpl; [|done].
  destruct (ip_state_from_lease_state (l_state lease)); simpl; try done.
  all: split; [solve_entry_change pool e He Hs|split; [done|split]].
  all: try (intros Hall; apply Forall_forall;
    intros x [Hx|(y & Hy & ->)]%alter_elem_of; [by eapply Forall_forall in Hall|done]).
  all: intros ip Hne Hu; unfold_pool; by eapply untouched_alter.
Qed.

Lemma init_sync_spec now ls pool :
  pool_wf pool -> NoDup (l_ip_address <$> ls) ->
  (forall l, l ∈ ls -> untouched pool l.(l_ip_address)) ->
  let pool' := (init_sync now pool ls).1 in
  pool_wf pool' /\ pool'.(p_mutex_locked) = pool.(p_mutex_locked)
  /\ (Forall (fun x => x.(e_state) <> IP_STATE_UNKNOWN) pool.(p_entries) ->
      Forall (fun x => x.(e_state) <> IP_STATE_UNKNOWN) pool'.(p_entries)).
Proof.
  revert pool. induction ls as [|l ls IH]; intros pool Hwf Hnd Hu; [done|].
  cbn [init_sync]. cbn [fmap list_fmap] in Hnd. apply NoDup_cons in Hnd as [Hl Hnd].
  assert (forall x, l_ip_address (expire_if_overdue now x) = l_ip_address x) as Hx
    by (intros x; unfold expire_if_overdue; by destruct (lease_is_expired now x)).
  rewrite Hx.
  set (pool1 := match ip_pool_find_entry pool (l_ip_address l) with None => _ | _ => _ end).
  assert (pool_wf pool1 /\ p_mutex_locked pool1 = p_mutex_locked pool
    /\ (Forall (fun x => x.(e_state) <> IP_STATE_UNKNOWN) pool.(p_entries) ->
        Forall (fun x => x.(e_state) <> IP_STATE_UNKNOWN) pool1.(p_entries))
    /\ (forall l', l' ∈ ls -> untouched pool1 l'.(l_ip_address))) as (Hw1 & Hk1 & Hn1 & Hu1).
  { unfold pool1. destruct (ip_pool_find_entry pool (l_ip_address l)) as [i|] eqn:Ei.
    2: { split_and!; try done. intros l' Hl'. apply Hu. set_solver. }
    destruct (find_entry_lookup _ _ _ Ei) as (e & He & Hip). rewrite He.
    destruct (init_sync_entry_spec pool i e (expire_if_overdue now l) Hwf He)
      as (Hw & Hk & Hn & Hu').
    { apply (Hu l); [set_solver|by eapply list_elem_of_lookup_2|done]. }
    split_and!; try done. intros l' Hl'. apply Hu'; [|apply Hu; set_solver].
    rewrite Hip. intros E. apply Hl. rewrite E. by apply list_elem_of_fmap_2. }
  specialize (IH pool1 Hw1 Hnd Hu1). destruct (init_sync now pool1 ls) as [pool2 ls2].
  simpl in *. destruct IH as (? & ? & ?). split_and!; [done|congruence|auto].
Qed.

Lemma ip_pool_init_inv now subnet db :
  init_ok subnet (default [] (leases <$> db)) ->
  pool_inv (ip_pool_init now subnet db).1.
Proof.
  intros [Hh Hhx Hl Hlx]. unfold ip_pool_init.
  pose proof (init_pool_wf subnet) as Hinit. revert Hinit.
  generalize (init_pool subnet). intros pool0 (Hwf & _ & Hk & Hfr). rewrite Forall_forall in Hfr.
  destruct (init_hosts_spec (s_hosts subnet) pool0 Hwf Hh) as (Hwf1 & Hk1 & Hin1).
  { intros h e Hh' He Hip. rewrite (Hfr e He), Hip, Hhx by done. done. }
  set (pool1 := foldl init_host pool0 (s_hosts subnet)) in *.
  assert (Forall (fun x => x.(e_state) <> IP_STATE_UNKNOWN) pool1.(p_entries)) as Hn1.
  { apply Forall_forall. intros e He. destruct (Hin1 e He) as [He'| ->]; [|done].
    rewrite (Hfr e He'). by destruct (excluded_address subnet (e_ip_address e)). }
  destruct db as [db|]; simpl in *; [|constructor; [done|congruence|done]].
  destruct (init_sync_spec now (leases db) pool1 Hwf1 Hl) as (Hwf2 & Hk2 & Hn2).
  { intros l Hl' e He Hip. destruct (Hin1 e He) as [He'|?]; [|by right].
    left. rewrite (Hfr e He'), Hip, Hlx by done. done. }
  destruct (init_sync now pool1 (leases db)) as [pool2 ls2]. simpl in *.
  constructor; [done|congruence|auto].
Qed.

(** ** Operations keep the invariant *)

Lemma set_unlock_wf pool lk lk' :
  pool_wf (set_p_mutex_locked lk pool) -> pool_wf (set_p_mutex_locked lk' pool).
Proof. by intros []. Qed.

Lemma sync_leases_inv nows ls pool pool' ls' :
  pool_wf pool ->
  (forall l, l ∈ ls -> l.(l_state) <> LEASE_STATE_UNKNOWN) ->
  Forall (fun e => e.(e_state) <> IP_STATE_UNKNOWN) pool.(p_entries) ->
  sync_leases nows pool ls = Ret (pool', ls') ->
  pool_wf pool' /\ Forall (fun e => e.(e_state) <> IP_STATE_UNKNOWN) pool'.(p_entries).
Proof.
  revert nows pool ls'. induction ls as [|l ls IH]; intros nows pool ls' Hwf Hls Hk.
  { by intros [= <- <-]. }
  cbn [sync_leases].
  destruct (update_from_lease_spec (nows 0%nat) pool l Hwf)
    as (r & pool1 & l1 & -> & Hwf1 & _ & _ & _ & Hk1).
  cbn [mbind outcome_bind].
  destruct (sync_leases (fun n => nows (S n)) pool1 ls) as [[pool2 ls2]|] eqn:E; [|done].
  intros [= <- <-]. eapply IH; [exact Hwf1| | |exact E].
  - intros. apply Hls. set_solver.
  - apply Hk1; [apply Hls; set_solver|done].
Qed.

Lemma sync_pass_lease_inv now pool l pool' l' b :
  pool_wf pool -> l.(l_state) <> LEASE_STATE_UNKNOWN ->
  Forall (fun e => e.(e_state) <> IP_STATE_UNKNOWN) pool.(p_entries) ->
  sync_pass_lease now pool l = Ret (pool', l', b) ->
  pool_wf pool' /\ Forall (fun e => e.(e_state) <> IP_STATE_UNKNOWN) pool'.(p_entries).
Proof.
  intros Hwf Hl Hk. unfold sync_pass_lease.
  destruct (ip_pool_find_entry pool (l_ip_address l)) as [i|] eqn:Ei; [|by intros [= <- _ _]].
  destruct (find_entry_lookup _ _ _ Ei) as (e & He & _).
  unfold deref. rewrite He. cbn [in_bounds mbind outcome_bind].
  destruct (_ || _); [by intros [= <- _ _]|].
  set (l1 := expire_if_overdue now l). set (ns := ip_state_from_lease_state (l_state l1)).
  destruct (in_state ns e); [by intros [= <- _ _]|].
  set (f := fun e => _) at 1. intros [= <- _ _].
  assert (forall x, e_state (f x) = ns) as Hns by (intros x; unfold f; by destruct ns).
  pose proof (state_counter_wf pool i e f Hwf He) as Hw. rewrite Hns in Hw. split.
  - apply Hw. intros x. unfold f. by destruct ns.
  - apply Forall_forall. unfold alter_entry. cbn [p_entries set_p_entries].
    assert (forall s d p, p_entries (add_state_counter s d p) = p_entries p) as Hadd
      by (by intros []). rewrite !Hadd.
    intros x [Hx|(y & Hy & ->)]%alter_elem_of; [by eapply Forall_forall in Hk|].
    rewrite Hns. unfold ns, l1, expire_if_overdue.
    destruct (lease_is_expired now l); [done|]. by destruct (l_state l).
Qed.

Lemma sync_pass_loop_inv now ls pool pool' ls' n :
  pool_wf pool ->
  (forall l, l ∈ ls -> l.(l_state) <> LEASE_STATE_UNKNOWN) ->
  Forall (fun e => e.(e_state) <> IP_STATE_UNKNOWN) pool.(p_entries) ->
  sync_pass_loop now pool ls = Ret (pool', ls', n) ->
  pool_wf pool' /\ Forall (fun e => e.(e_state) <> IP_STATE_UNKNOWN) pool'.(p_entries).
Proof.
  revert pool ls' n. induction ls as [|l ls IH]; intros pool ls' n Hwf Hls Hk.
  { by intros [= <- _ _]. }
  cbn [sync_pass_loop].
  destruct (sync_pass_lease now pool l) as [[[pool1 l1] b]|] eqn:E1; [|done].
  apply sync_pass_lease_inv in E1 as [Hwf1 Hk1]; [|done|apply Hls; set_solver|done].
  cbn [mbind outcome_bind].
  destruct (sync_pass_loop now pool1 ls) as [[[pool2 ls2] n2]|] eqn:E; [|done].
  intros [= <- _ _]. eapply IH; [exact Hwf1| |exact Hk1|exact E].
  intros. apply Hls. set_solver.
Qed.

Lemma known_alter (pool : ip_pool_t) i f :
  Forall (fun e => e.(e_state) <> IP_STATE_UNKNOWN) pool.(p_entries) ->
  (forall e, e_state e <> IP_STATE_UNKNOWN -> e_state (f e) <> IP_STATE_UNKNOWN) ->
  Forall (fun e => e.(e_state) <> IP_STATE_UNKNOWN) (alter f i pool.(p_entries)).
Proof.
  intros Hk Hf. rewrite Forall_forall in Hk |- *.
  intros x [Hx|(y & Hy & ->)]%alter_elem_of; [by apply Hk|].
  apply Hf, Hk. by eapply list_elem_of_lookup_2.
Qed.

Lemma reserve_inv now pool ip mac r pool' :
  pool_inv pool -> ip_pool_reserve_ip now pool ip mac = Ret (r, pool') -> pool_inv pool'.
Proof.
  intros [Hwf Hl Hk]. unfold ip_pool_reserve_ip, pool_lock. rewrite Hl.
  cbn [mbind outcome_bind].
  change (ip_pool_find_entry (set_p_mutex_locked true pool) ip)
    with (ip_pool_find_entry pool ip).
  destruct (ip_pool_find_entry pool ip) as [i|] eqn:Ei.
  2: { intros [= <- <-]. by rewrite unlock_lock. }
  destruct (find_entry_lookup _ _ _ Ei) as (e & He & _).
  unfold deref. change (p_entries (set_p_mutex_locked true pool)) with (p_entries pool).
  rewrite He. cbn [in_bounds mbind outcome_bind].
  assert (e_state e <> IP_STATE_UNKNOWN) as Hke
    by (eapply Forall_lookup_1 in Hk; [|exact He]; done).
  pose proof (reserve_entry_wf now (set_p_mutex_locked true pool) i e mac
    (pool_wf_lock _ _ Hwf) He Hke) as Hw.
  assert (Forall (fun e => e.(e_state) <> IP_STATE_UNKNOWN)
    (reserve_entry now (set_p_mutex_locked true pool) i e mac).2.(p_entries)) as Hk'.
  { unfold reserve_entry. repeat split_guard; simpl; try done;
      apply (known_alter pool); try done; by intros []. }
  destruct (reserve_entry now (set_p_mutex_locked true pool) i e mac) as [r' p'].
  intros [= <- <-]. constructor; [by apply pool_wf_lock|done|done].
Qed.

Lemma release_inv pool ip r pool' :
  pool_inv pool -> ip_pool_release_ip pool ip = Ret (r, pool') -> pool_inv pool'.
Proof.
  intros [Hwf Hl Hk]. unfold ip_pool_release_ip, pool_lock. rewrite Hl.
  cbn [mbind outcome_bind].
  change (ip_pool_find_entry (set_p_mutex_locked true pool) ip)
    with (ip_pool_find_entry pool ip).
  destruct (ip_pool_find_entry pool ip) as [i|] eqn:Ei.
  2: { intros [= <- <-]. by rewrite unlock_lock. }
  destruct (find_entry_lookup _ _ _ Ei) as (e & He & _).
  unfold deref. change (p_entries (set_p_mutex_locked true pool)) with (p_entries pool).
  rewrite He. cbn [in_bounds mbind outcome_bind].
  destruct (in_state IP_STATE_ALLOCATED e) eqn:Hs; intros [= <- <-];
    [|by rewrite unlock_lock].
  unfold in_state in Hs. to_prop. constructor; [|done|].
  - eapply (release_entry_wf (set_p_mutex_locked true pool)); eauto using pool_wf_lock.
  - by apply (known_alter pool).
Qed.

Lemma mark_conflict_inv pool ip r pool' :
  pool_inv pool -> ip_pool_mark_conflict pool ip = Ret (r, pool') -> pool_inv pool'.
Proof.
  intros [Hwf Hl Hk]. unfold ip_pool_mark_conflict, pool_lock. rewrite Hl.
  cbn [mbind outcome_bind].
  change (ip_pool_find_entry (set_p_mutex_locked true pool) ip)
    with (ip_pool_find_entry pool ip).
  destruct (ip_pool_find_entry pool ip) as [i|] eqn:Ei.
  2: { intros [= <- <-]. by rewrite unlock_lock. }
  destruct (find_entry_lookup _ _ _ Ei) as (e & He & _).
  unfold deref. change (p_entries (set_p_mutex_locked true pool)) with (p_entries pool).
  rewrite He. cbn [in_bounds mbind outcome_bind]. intros [= <- <-].
  constructor; [|done|].
  - eapply (conflict_entry_wf (set_p_mutex_locked true pool)); eauto using pool_wf_lock.
  - destruct (in_state IP_STATE_AVAILABLE e), (in_state IP_STATE_ALLOCATED e); simpl;
      by apply (known_alter pool).
Qed.

Lemma allocate_inv ping now pool mac ip config r pool' :
  pool_inv pool -> ip_pool_allocate ping now pool mac ip config = Ret (r, pool') ->
  pool_inv pool'.
Proof.
  intros [Hwf Hl Hk] E. pose proof (allocate_cases ping now mac config pool ip Hl) as Hc.
  rewrite E in Hc. inversion Hc; subst; try done.
  constructor; [by eapply allocate_entry_wf|done|]. by apply (known_alter pool).
Qed.

Lemma pool_step_inv pool pool' : pool_inv pool -> pool_step pool pool' -> pool_inv pool'.
Proof.
  intros Hinv Hstep. destruct Hstep as [| | | |nows db r db' pool pool' Hls E|now sync sync' db db' pool pool' Hls E];
    eauto using reserve_inv, release_inv, mark_conflict_inv, allocate_inv.
  - destruct Hinv as [Hwf Hl Hk]. revert E. unfold ip_pool_sync_with_leases, pool_lock.
    rewrite Hl. cbn [mbind outcome_bind].
    destruct (sync_leases nows _ (leases db)) as [[p ls]|] eqn:Es; [|done].
    intros [= <- <- <-].
    apply sync_leases_inv in Es as [Hw Hk']; [|by apply pool_wf_lock|done|done].
    constructor; [by apply pool_wf_lock|done|done].
  - destruct Hinv as [Hwf Hl Hk]. revert E. unfold ip_pool_sync_round, pool_lock.
    rewrite Hl. destruct (negb (y_running sync)); [done|]. cbn [mbind outcome_bind].
    destruct (db_mutex_lock db) as [db1|] eqn:El; [|done]. cbn [mbind outcome_bind].
    destruct (sync_pass_loop now _ (leases db1)) as [[[p ls] n]|] eqn:Es; [|done].
    intros [= <- <- <-].
    assert (leases db1 = leases db) as Hdb
      by (unfold db_mutex_lock in El; destruct (db_mutex_locked db); [done|]; by injection El as <-).
    rewrite Hdb in Es.
    apply sync_pass_loop_inv in Es as [Hw Hk']; [|by apply pool_wf_lock|done|done].
    constructor; [by apply pool_wf_lock|done|done].
Qed.
#[export] Hint Resolve pool_step_inv ip_pool_init_inv : cmodel.

(** Every operation returns in a state that satisfies the invariant; an allocation
    may block only if it pings and some AVAILABLE address answers. *)
Record operations_return (pool : ip_pool_t) : Prop := {
  ret_reserve : forall now ip mac, exists r p,
    ip_pool_reserve_ip now pool ip mac = Ret (r, p);
  ret_release : forall ip, exists r p, ip_pool_release_ip pool ip = Ret (r, p);
  ret_conflict : forall ip, exists r p, ip_pool_mark_conflict pool ip = Ret (r, p);
  ret_allocate : forall ping now mac ip config,
    (forall e, e ∈ pool.(p_entries) -> e.(e_state) = IP_STATE_AVAILABLE ->
       ping_conflict ping config e.(e_ip_address) = false) ->
    exists r p, ip_pool_allocate ping now pool mac ip config = Ret (r, p);
  ret_sync : forall nows db, exists r p db',
    ip_pool_sync_with_leases nows pool db = Ret (r, p, db');
  ret_round : forall now sync db, db.(db_mutex_locked) = false ->
    exists r, ip_pool_sync_round now sync pool db = Ret r
}.

Lemma sync_leases_returns nows ls pool :
  pool_wf pool -> exists p ls', sync_leases nows pool ls = Ret (p, ls').
Proof.
  revert nows pool. induction ls as [|l ls IH]; intros nows pool Hwf; [by do 2 eexists|].
  cbn [sync_leases].
  destruct (update_from_lease_spec (nows 0%nat) pool l Hwf) as (r & p1 & l1 & -> & Hwf1 & _).
  cbn [mbind outcome_bind].
  destruct (IH (fun n => nows (S n)) p1 Hwf1) as (p2 & ls2 & ->). by do 2 eexists.
Qed.

Lemma sync_pass_loop_returns now ls pool :
  exists p ls' n, sync_pass_loop now pool ls = Ret (p, ls', n).
Proof.
  revert pool. induction ls as [|l ls IH]; intros pool; [by do 3 eexists|].
  cbn [sync_pass_loop].
  assert (exists p1 l1 b, sync_pass_lease now pool l = Ret (p1, l1, b)) as (p1 & l1 & b & ->).
  { unfold sync_pass_lease.
    destruct (ip_pool_find_entry pool (l_ip_address l)) as [i|] eqn:Ei; [|by do 3 eexists].
    destruct (find_entry_lookup _ _ _ Ei) as (e & He & _).
    unfold deref. rewrite He. cbn [in_bounds mbind outcome_bind].
    repeat split_guard; by do 3 eexists. }
  cbn [mbind outcome_bind]. destruct (IH p1) as (p2 & ls2 & n & ->). by do 3 eexists.
Qed.

Lemma pool_inv_returns pool : pool_inv pool -> operations_return pool.
Proof.
  intros [Hwf Hl Hk]. split.
  1-3: intros; unfold ip_pool_reserve_ip, ip_pool_release_ip, ip_pool_mark_conflict, pool_lock;
    rewrite Hl; cbn [mbind outcome_bind];
    change (ip_pool_find_entry (set_p_mutex_locked true pool) ip)
      with (ip_pool_find_entry pool ip);
    destruct (ip_pool_find_entry pool ip) as [i|] eqn:Ei; [|by do 2 eexists];
    destruct (find_entry_lookup _ _ _ Ei) as (e & He & _); unfold deref;
    change (p_entries (set_p_mutex_locked true pool)) with (p_entries pool);
    rewrite He; cbn [in_bounds mbind outcome_bind].
  - destruct (reserve_entry _ _ _ _ _). by do 2 eexists.
  - destruct (in_state _ _); by do 2 eexists.
  - by do 2 eexists.
  - intros ping now mac ip config Hping.
    pose proof (allocate_cases ping now mac config pool ip Hl) as Hc.
    inversion Hc as [| | | |i e He Hs Hp]; try by do 2 eexists.
    rewrite Hping in Hp; [done|by eapply list_elem_of_lookup_2|done].
  - intros nows db. unfold ip_pool_sync_with_leases, pool_lock. rewrite Hl.
    cbn [mbind outcome_bind].
    destruct (sync_leases_returns nows (leases db) _ (pool_wf_lock _ true Hwf)) as (p & ls & ->).
    by do 3 eexists.
  - intros now sync db Hdb. unfold ip_pool_sync_round, pool_lock, db_mutex_lock.
    rewrite Hl, Hdb. destruct (negb (y_running sync)); [by eexists|].
    cbn [mbind outcome_bind].
    destruct (sync_pass_loop_returns now (leases (set_db_mutex_locked true db))
      (set_p_mutex_locked true pool)) as (p & ls & n & ->).
    by eexists.
Qed.

(** One allocation by some client, the only kind of step between two grants. *)
Inductive alloc_step : ip_pool_t -> ip_pool_t -> Prop :=
| AllocStep ping now mac ip config r pool pool' :
    ip_pool_allocate ping now pool mac ip config = Ret (r, pool') -> alloc_step pool pool'.

(** [mac] holds the entry of [ip]. *)
Definition holds (pool : ip_pool_t) (ip : Z) (mac : list Z) : Prop :=
  exists e, e ∈ pool.(p_entries) /\ e.(e_ip_address) = ip
    /\ e.(e_state) = IP_STATE_ALLOCATED /\ take 6 e.(e_mac_address) = take 6 mac.

(** No host reservation for [mac] in the pool's subnet. *)
Definition no_reservation (pool : ip_pool_t) (mac : list Z) : Prop :=
  forall h, h ∈ pool.(p_subnet).(s_hosts) -> memeq 6 h.(h_mac_address) mac = false.

Lemma take_take_6 (l : list Z) : take 6 (take 6 l) = take 6 l.
Proof. rewrite take_take. f_equal. Qed.

Lemma alter_elem_of_eq {A} (f : A -> A) (l : list A) i x :
  l !! i = Some x -> f x ∈ alter f i l.
Proof.
  intros H. apply (list_elem_of_lookup_2 _ i). by rewrite list_lookup_alter_eq, H.
Qed.

(** A granted address is held by the client it was granted to. *)
Lemma allocate_holds ping now pool mac ip config r pool' :
  pool_inv pool -> no_reservation pool mac ->
  ip_pool_allocate ping now pool mac ip config = Ret (r, pool') -> r.(r_success) = true ->
  holds pool' r.(r_ip_address) mac.
Proof.
  intros [Hwf Hl Hk] Hres E Hs. pose proof (allocate_cases ping now mac config pool ip Hl) as Hc.
  rewrite E in Hc. inversion Hc; subst; try done.
  - match goal with H : memeq 6 (h_mac_address ?h) mac = true |- _ =>
      rewrite (Hres h) in H by done; done end.
  - exists e. split_and!; try done; [by eapply list_elem_of_lookup_2|].
    by apply memeq_true.
  - exists (allocate_fields now mac e). split_and!; try done.
    + simpl. by apply alter_elem_of_eq.
    + simpl. apply take_take_6.
Qed.

Lemma alloc_step_facts pool pool' :
  pool_inv pool -> alloc_step pool pool' ->
  pool_inv pool' /\ p_subnet pool' = p_subnet pool
  /\ forall ip mac, holds pool ip mac -> holds pool' ip mac.
Proof.
  intros Hinv Hst. revert Hinv. destruct Hst as [ping now mac ip config r p p' E].
  intros Hinv. split; [by eapply allocate_inv|]. destruct Hinv as [Hwf Hl Hk].
  pose proof (allocate_cases ping now mac config p ip Hl) as Hc.
  rewrite E in Hc. inversion Hc; subst; try done. split; [done|].
  intros ip' mac' (e' & Hin & Hip & Hs & Hm). exists e'. split_and!; try done.
  apply list_elem_of_lookup in Hin as [j Hj]. apply (list_elem_of_lookup_2 _ j). simpl.
  rewrite list_lookup_alter_ne; [done|]. intros ->. congruence.
Qed.

Lemma holds_unique pool ip m1 m2 :
  pool_inv pool -> holds pool ip m1 -> holds pool ip m2 -> take 6 m1 = take 6 m2.
Proof.
  intros [[_ Hn _ _] _ _] (e1 & H1 & Hip1 & _ & <-) (e2 & H2 & Hip2 & _ & <-).
  apply list_elem_of_lookup in H1 as [i Hi]. apply list_elem_of_lookup in H2 as [j Hj].
  assert (i = j) as ->; [|congruence].
  eapply NoDup_lookup; [exact Hn| |]; rewrite list_lookup_fmap.
  - rewrite Hi. simpl. by rewrite Hip1.
  - rewrite Hj. simpl. by rewrite Hip2.
Qed.

(** The counters after an AVAILABLE entry is allocated do not wrap. *)
Lemma allocate_counters now mac pool i e :
  pool_wf pool -> pool.(p_entries) !! i = Some e -> e.(e_state) = IP_STATE_AVAILABLE ->
  let pool' := add_allocated 1 (alter_entry (allocate_fields now mac) i
                 (add_available (-1) pool)) in
  pool'.(p_available_count) = pool.(p_available_count) - 1
  /\ pool'.(p_allocated_count) = pool.(p_allocated_count) + 1.
Proof.
  intros Hwf He Hs pool'.
  destruct (allocate_entry_wf now mac pool i e Hwf He Hs) as [_ _ Hav Hal].
  destruct Hwf as [_ _ Hav0 Hal0]. unfold pool'. rewrite Hav, Hal, Hav0, Hal0.
  cbn [p_entries add_allocated alter_entry add_available set_p_entries
       set_p_allocated_count set_p_available_count].
  rewrite !(countb_state_delta _ _ _ _ _ He). unfold state_delta, in_state. simpl.
  rewrite Hs. split; done.
Qed.

Lemma alter_insert {A} (f : A -> A) (l : list A) i x :
  l !! i = Some x -> alter f i l = <[i := f x]> l.
Proof.
  intros Hx. apply list_eq. intros j. destruct (decide (j = i)) as [->|Hj].
  - rewrite list_lookup_alter_eq, Hx. simpl. symmetry. apply list_lookup_insert_eq.
    by eapply lookup_lt_Some.
  - by rewrite list_lookup_alter_ne, list_lookup_insert_ne.
Qed.

Lemma alloc_steps_facts pool pool' :
  pool_inv pool -> steps alloc_step pool pool' ->
  pool_inv pool' /\ p_subnet pool' = p_subnet pool
  /\ forall ip mac, holds pool ip mac -> holds pool' ip mac.
Proof.
  intros Hinv Hsteps. induction Hsteps as [|a b c Hab Hbc IH]; [done|].
  destruct (alloc_step_facts a b Hinv Hab) as (Hb & Hs & Hh).
  destruct (IH Hb) as (Hc & Hs' & Hh'). split_and!; [done|congruence|auto].
Qed.

(** What an allocation's result says about the pool it leaves. *)
Lemma allocate_granted ping now pool mac ip config r pool' :
  pool_inv pool -> ip_pool_allocate ping now pool mac ip config = Ret (r, pool') ->
  if r.(r_success) then
    (exists h, h ∈ pool.(p_subnet).(s_hosts) /\ h.(h_fixed_address) = r.(r_ip_address)
       /\ take 6 h.(h_mac_address) = take 6 mac)
    \/ holds pool' r.(r_ip_address) mac
  else pool' = pool /\ forall e, e ∈ pool.(p_entries) -> e.(e_state) <> IP_STATE_AVAILABLE.
Proof.
  intros [Hwf Hl Hk] E. pose proof (allocate_cases ping now mac config pool ip Hl) as Hc.
  rewrite E in Hc. inversion Hc as [h Hh Hm|i e He Hs Hm|i e He Hs Hp|Hn|]; subst; simpl.
  - left. exists h. by apply memeq_true in Hm.
  - right. exists e. apply memeq_true in Hm. split_and!; try done.
    by eapply list_elem_of_lookup_2.
  - right. exists (allocate_fields now mac e). split_and!; try done.
    + simpl. by apply alter_elem_of_eq.
    + simpl. apply take_take_6.
  - done.
Qed.

(** Writing the lease identifier of the entry for [ip]. *)
Definition link_entry (ip id : Z) (pool : ip_pool_t) : ip_pool_t :=
  match ip_pool_find_entry pool ip with
  | None => pool
  | Some i => alter_entry (set_e_lease_id id) i pool
  end.

Lemma link_lease_id ip id pool :
  pool_wf pool ->
  forall e, e ∈ (link_entry ip id pool).(p_entries) -> e.(e_ip_address) = ip ->
    e.(e_lease_id) = id.
Proof.
  intros Hwf e. unfold link_entry. destruct (ip_pool_find_entry pool ip) as [i|] eqn:Ei.
  - simpl. intros [j Hj]%list_elem_of_lookup Hip. destruct (decide (j = i)) as [->|Hne].
    + rewrite list_lookup_alter_eq in Hj. destruct (p_entries pool !! i); [|done].
      by injection Hj as <-.
    + rewrite list_lookup_alter_ne in Hj by done.
      rewrite (find_entry_unique pool ip j e (wf_nodup _ Hwf) Hj Hip) in Ei. congruence.
  - intros He Hip. unfold ip_pool_find_entry in Ei. rewrite find_index_None in Ei.
    specialize (Ei e He). to_prop. done.
Qed.

Lemma link_holds ip id pool mac : holds pool ip mac -> holds (link_entry ip id pool) ip mac.
Proof.
  unfold link_entry. destruct (ip_pool_find_entry pool ip) as [i|]; [|done].
  intros (e & [j Hj]%list_elem_of_lookup & Hip & Hs & Hm).
  exists (if decide (j = i) then set_e_lease_id id e else e). split.
  - apply (list_elem_of_lookup_2 _ j). simpl. destruct (decide (j = i)) as [->|Hne].
    + by rewrite list_lookup_alter_eq, Hj.
    + by rewrite list_lookup_alter_ne.
  - by destruct (decide (j = i)).
Qed.

Lemma reserve_found now pool ip mac i e :
  pool.(p_mutex_locked) = false -> ip_pool_find_entry pool ip = Some i ->
  pool.(p_entries) !! i = Some e ->
  ip_pool_reserve_ip now pool ip mac
  = let '(r, p) := reserve_entry now (set_p_mutex_locked true pool) i e mac in
    Ret (r, pool_unlock p).
Proof.
  intros Hl Hi He. unfold ip_pool_reserve_ip, pool_lock. rewrite Hl. cbn [mbind outcome_bind].
  change (ip_pool_find_entry (set_p_mutex_locked true pool) ip)
    with (ip_pool_find_entry pool ip). rewrite Hi. unfold deref. simpl. by rewrite He.
Qed.

Lemma release_found pool ip i e :
  pool.(p_mutex_locked) = false -> ip_pool_find_entry pool ip = Some i ->
  pool.(p_entries) !! i = Some e ->
  ip_pool_release_ip pool ip
  = Ret (0, if in_state IP_STATE_ALLOCATED e then
              add_available 1 (add_allocated (-1) (alter_entry (fun e =>
                set_e_mac_address zero_mac (set_e_state IP_STATE_AVAILABLE e)) i pool))
            else pool).
Proof.
  intros Hl Hi He. unfold ip_pool_release_ip, pool_lock. rewrite Hl. cbn [mbind outcome_bind].
  change (ip_pool_find_entry (set_p_mutex_locked true pool) ip)
    with (ip_pool_find_entry pool ip). rewrite Hi. unfold deref. simpl. rewrite He. simpl.
  destruct pool. simpl in *. subst. by destruct (in_state IP_STATE_ALLOCATED e).
Qed.

Lemma release_not_allocated pool ip r pool' :
  pool_inv pool -> ip_pool_release_ip pool ip = Ret (r, pool') ->
  forall e, e ∈ pool'.(p_entries) -> e.(e_ip_address) = ip ->
    e.(e_state) <> IP_STATE_ALLOCATED.
Proof.
  intros [Hwf Hl Hk] E e. destruct (ip_pool_find_entry pool ip) as [i|] eqn:Ei.
  - destruct (find_entry_lookup _ _ _ Ei) as (x & Hx & Hxip).
    rewrite (release_found pool ip i x Hl Ei Hx) in E. injection E as <- <-.
    assert (forall j y, p_entries pool !! j = Some y -> e_ip_address y = ip -> j = i) as Hu.
    { intros j y Hy Hip. pose proof (find_entry_unique pool ip j y (wf_nodup _ Hwf) Hy Hip).
      congruence. }
    intros [j Hj]%list_elem_of_lookup Hip. unfold in_state in Hj.
    case_bool_decide as Hs; simpl in Hj.
    + destruct (decide (j = i)) as [->|Hne].
      * rewrite list_lookup_alter_eq, Hx in Hj. by injection Hj as <-.
      * rewrite list_lookup_alter_ne in Hj by done. by rewrite (Hu j e Hj Hip) in Hne.
    + assert (j = i) as -> by (by eapply Hu). congruence.
  - revert E. unfold ip_pool_release_ip, pool_lock. rewrite Hl. cbn [mbind outcome_bind].
    change (ip_pool_find_entry (set_p_mutex_locked true pool) ip)
      with (ip_pool_find_entry pool ip). rewrite Ei. intros [= <- <-].
    simpl. intros He Hip. unfold ip_pool_find_entry in Ei. rewrite find_index_None in Ei.
    specialize (Ei e He). to_prop. done.
Qed.

Lemma find_none_true {A} (p : A -> bool) (l : list A) :
  (forall x, x ∈ l -> p x = false) -> find p l = None.
Proof.
  induction l as [|x l IH]; intros H; simpl; [done|].
  rewrite H by set_solver. apply IH. set_solver.
Qed.

(** A client without reservation or address gets an AVAILABLE one. *)
Lemma allocate_new ping now pool mac ip config :
  pool_inv pool -> no_reservation pool mac -> (forall ip, ~ holds pool ip mac) ->
  (forall e, e ∈ pool.(p_entries) -> e.(e_state) = IP_STATE_AVAILABLE ->
     ping_conflict ping config e.(e_ip_address) = false) ->
  Exists (fun e => e.(e_state) = IP_STATE_AVAILABLE) pool.(p_entries) ->
  exists r pool' e, ip_pool_allocate ping now pool mac ip config = Ret (r, pool')
    /\ r.(r_success) = true /\ e ∈ pool.(p_entries) /\ e.(e_state) = IP_STATE_AVAILABLE
    /\ e.(e_ip_address) = r.(r_ip_address) /\ holds pool' r.(r_ip_address) mac.
Proof.
  intros [Hwf Hl Hk] Hres Hhold Hping Hex.
  pose proof (allocate_cases ping now mac config pool ip Hl) as Hc.
  inversion Hc as [h Hh Hm|i e He Hs Hm|i e He Hs Hp|Hn|i e He Hs Hp].
  - rewrite Hres in Hm; done.
  - destruct (Hhold (e_ip_address e)). exists e. apply memeq_true in Hm.
    split_and!; try done. by eapply list_elem_of_lookup_2.
  - eexists _, _, e. split; [done|]. split_and!; try done; [by eapply list_elem_of_lookup_2|].
    exists (allocate_fields now mac e). split_and!; try done.
    + simpl. by apply alter_elem_of_eq.
    + simpl. apply take_take_6.
  - apply Exists_exists in Hex as (e & He & Hs). destruct (Hn e He Hs).
  - rewrite Hping in Hp; [done|by eapply list_elem_of_lookup_2|done].
Qed.

(** The requested address can be granted: it lies in the range and is AVAILABLE. *)
Definition requestable (pool : ip_pool_t) (ip : Z) : Prop :=
  ip <> 0
  /\ ntohl pool.(p_subnet).(s_range_start) <= ntohl ip
       <= ntohl pool.(p_subnet).(s_range_end)
  /\ exists e, e ∈ pool.(p_entries) /\ e.(e_ip_address) = ip
      /\ e.(e_state) = IP_STATE_AVAILABLE.

(** The address an allocation for a new client probes: the requested one if it can be
    granted, the first AVAILABLE one otherwise. *)
Inductive probes (pool : ip_pool_t) (requested_ip : Z) : Z -> Prop :=
| ProbeRequested : requestable pool requested_ip -> probes pool requested_ip requested_ip
| ProbeFirst before e after :
    ~ requestable pool requested_ip ->
    pool.(p_entries) = before ++ e :: after ->
    Forall (fun x => x.(e_state) <> IP_STATE_AVAILABLE) before ->
    e.(e_state) = IP_STATE_AVAILABLE ->
    probes pool requested_ip e.(e_ip_address).

(** What an allocation for a new client ends with. *)
Inductive probe_outcome (ping : Z -> Z -> bool) (config : dhcp_config_t)
    (pool : ip_pool_t) (requested_ip : Z) :
    outcome (ip_allocation_result_t * ip_pool_t) -> Prop :=
| ProbeBlocks ip :
    probes pool requested_ip ip -> ping_conflict ping config ip = true ->
    probe_outcome ping config pool requested_ip (Fault Deadlock)
| ProbeReturns r :
    (forall ip, probes pool requested_ip ip -> ping_conflict ping config ip = false) ->
    probe_outcome ping config pool requested_ip (Ret r).

Lemma ping_conflict_true ping config ip :
  ping_conflict ping config ip = true
  <-> config.(c_global).(g_ping_check) = true
      /\ ~ 0x7F000000 <= ntohl ip <= 0x7FFFFFFF
      /\ ping ip (u32 (config.(c_global).(g_ping_timeout) * 1000)) = true.
Proof.
  unfold ping_conflict, ip_is_loopback. rewrite !andb_true_iff, negb_true_iff, andb_false_iff, !Z.leb_gt.
  intuition lia.
Qed.

Lemma in_state_true s e : in_state s e = true <-> e.(e_state) = s.
Proof. apply bool_decide_eq_true. Qed.

Lemma claim_requested_returns now mac ip pool :
  exists p, claim_requested now mac ip pool = Ret p.
Proof.
  unfold claim_requested. destruct (ip_pool_find_entry pool ip) as [i|] eqn:Ei; [|by eexists].
  destruct (find_entry_lookup _ _ _ Ei) as (e & He & _).
  unfold deref. rewrite He. by eexists.
Qed.

Lemma requestable_guard pool ip :
  pool_wf pool ->
  negb (ip =? 0) && ip_pool_is_in_range pool ip && ip_pool_is_available pool ip = true
  <-> requestable pool ip.
Proof.
  intros [_ Hwf _ _]. unfold requestable, ip_pool_is_in_range.
  rewrite !andb_true_iff, negb_true_iff, Z.eqb_neq, !Z.leb_le. split.
  - intros ((Hz & Hr) & Ha). apply is_available_lookup in Ha as (i & e & _ & He & Hip & Hs).
    split; [exact Hz|]. split; [exact Hr|]. exists e.
    split; [by eapply list_elem_of_lookup_2|done].
  - intros (Hz & Hr & e & [i He]%list_elem_of_lookup & Hip & Hs).
    split; [done|]. unfold ip_pool_is_available. subst ip. rewrite (find_entry_unique pool _ i e Hwf He eq_refl).
    simpl. rewrite He. unfold in_state. by apply bool_decide_eq_true_2.
Qed.

Lemma find_index_split {A} (p : A -> bool) (l : list A) i :
  find_index p l = Some i ->
  exists before x after, l = before ++ x :: after /\ l !! i = Some x /\ p x = true
    /\ Forall (fun y => p y = false) before.
Proof.
  revert i. induction l as [|y l IH]; intros i; cbn [find_index]; [done|].
  destruct (p y) eqn:Ey.
  { intros [= <-]. by exists [], y, l. }
  destruct (find_index p l) as [j|]; [|done]. intros [= <-].
  destruct (IH j eq_refl) as (b & x & a & -> & Hx & Hp & Hb).
  exists (y :: b), x, a. split_and!; try done. by constructor.
Qed.

(** Two first AVAILABLE entries are the same. *)
Lemma first_unique {A} (P : A -> Prop) (b1 b2 a1 a2 : list A) x1 x2 :
  b1 ++ x1 :: a1 = b2 ++ x2 :: a2 ->
  Forall (fun y => ~ P y) b1 -> Forall (fun y => ~ P y) b2 -> P x1 -> P x2 -> x1 = x2.
Proof.
  revert b2. induction b1 as [|y b1 IH]; intros [|z b2] E H1 H2 Hx1 Hx2; simplify_eq/=.
  - done.
  - by inversion H2.
  - by inversion H1.
  - inversion H1; inversion H2. eauto.
Qed.

Lemma allocate_probes ping now pool mac requested_ip config :
  pool_wf pool -> pool.(p_mutex_locked) = false ->
  no_reservation pool mac -> (forall ip, ~ holds pool ip mac) ->
  probe_outcome ping config pool requested_ip
    (ip_pool_allocate ping now pool mac requested_ip config).
Proof.
  intros Hwf Hl Hres Hnone. unfold ip_pool_allocate, pool_lock. rewrite Hl.
  cbn [mbind outcome_bind].
  rewrite (find_none_true _ (s_hosts _)) by (intros h Hh; by apply Hres).
  rewrite (find_none_true _ (p_entries _)).
  2: { intros x Hx. destruct (memeq 6 (e_mac_address x) mac) eqn:Em; [|by rewrite andb_false_r].
       apply memeq_true in Em. unfold in_state. rewrite bool_decide_eq_false_2; [done|].
       intros Hx'. apply (Hnone (e_ip_address x)). by exists x. }
  change (negb (requested_ip =? 0)
      && ip_pool_is_in_range (set_p_mutex_locked true pool) requested_ip
      && ip_pool_is_available (set_p_mutex_locked true pool) requested_ip)
    with (negb (requested_ip =? 0) && ip_pool_is_in_range pool requested_ip
      && ip_pool_is_available pool requested_ip).
  pose proof (requestable_guard pool requested_ip Hwf) as Hg.
  destruct (negb (requested_ip =? 0) && _ && _).
  - assert (requestable pool requested_ip) as Hr by by apply Hg.
    destruct (ping_conflict ping config requested_ip) eqn:Ep.
    + rewrite mark_conflict_locked by done. eapply ProbeBlocks; [by apply ProbeRequested|done].
    + assert (exists p, claim_requested now mac requested_ip (set_p_mutex_locked true pool)
        = Ret p) as [p ->] by apply claim_requested_returns.
      apply ProbeReturns. intros ip [|]; [done|by exfalso].
  - assert (~ requestable pool requested_ip) as Hr by (intros H%Hg; done).
    rewrite alloc_scan_all by done.
    change (p_entries (set_p_mutex_locked true pool)) with (p_entries pool).
    destruct (find_index (in_state IP_STATE_AVAILABLE) (p_entries pool)) as [i|] eqn:Ei.
    + apply find_index_split in Ei as (b & e & a & Hent & He & Hs & Hb).
      apply in_state_true in Hs.
      assert (Forall (fun x => ~ e_state x = IP_STATE_AVAILABLE) b) as Hb'.
      { eapply Forall_impl; [exact Hb|]. intros x Hx Hx'. by apply in_state_true in Hx'; rewrite Hx in Hx'. }
      unfold deref. change (p_entries (set_p_mutex_locked true pool)) with (p_entries pool).
      rewrite He. cbn [in_bounds mbind outcome_bind]. unfold scan_take.
      destruct (ping_conflict ping config (e_ip_address e)) eqn:Ep.
      * by eapply ProbeBlocks; [eapply ProbeFirst|].
      * apply ProbeReturns. intros ip [?|b2 e2 a2 _ Hent2 Hb2 Hs2]; [done|].
        rewrite Hent in Hent2.
        by rewrite <- (first_unique (fun x => e_state x = IP_STATE_AVAILABLE) _ _ _ _ _ _ Hent2).
    + apply ProbeReturns. rewrite find_index_None in Ei.
      intros ip [?|b2 e2 a2 _ Hent2 Hb2 Hs2]; [done|].
      apply in_state_true in Hs2. rewrite Ei in Hs2; [done|]. rewrite Hent2. set_solver.
Qed.

(** A small network used by the examples: 192.168.1.0/24, range .10 to .13, router
    .1, one reservation. *)
Definition ip4 (a b c d : Z) : Z := a + 256 * b + 65536 * c + 16777216 * d.

Definition example_subnet : dhcp_subnet_t :=
  mk_dhcp_subnet (ip4 192 168 1 0) (ip4 255 255 255 0) (ip4 192 168 1 10)
    (ip4 192 168 1 13) (ip4 192 168 1 1) (ip4 192 168 1 255) (ip4 255 255 255 0) ""
    [ip4 8 8 8 8] [] [] 0 3600 7200 0 "" "" "" 0 0
    [mk_dhcp_host_reservation "printer" [2;0;0;0;0;9] (ip4 192 168 1 12) "printer"].

Definition example_config (ping_check : bool) : dhcp_config_t :=
  mk_dhcp_config
    (mk_dhcp_global_options true ping_check 1 DDNS_NONE 3600 7200 [] [] [] 0 0 "" "" ""
       0 0 true true false)
    [example_subnet].

Definition example_pool : ip_pool_t := (ip_pool_init 1000 example_subnet None).1.

Lemma example_init_ok : init_ok example_subnet [].
Proof.
  constructor; simpl.
  - apply NoDup_singleton.
  - intros h ->%list_elem_of_singleton. vm_compute. done.
  - constructor.
  - intros l Hl. by apply not_elem_of_nil in Hl.
Qed.

Lemma example_pool_inv : pool_inv example_pool.
Proof. apply ip_pool_init_inv. simpl. apply example_init_ok. Qed.

Lemma example_available e ip :
  e ∈ p_entries example_pool -> e_ip_address e = ip -> ip = ip4 192 168 1 11 ->
  e_state e = IP_STATE_AVAILABLE.
Proof.
  intros He Hip ->. apply in_state_true.
  eapply (forallb_elem (fun x => negb (e_ip_address x =? ip4 192 168 1 11)
    || in_state IP_STATE_AVAILABLE x)) in He; [|vm_compute; reflexivity].
  apply Z.eqb_eq in Hip. by rewrite Hip in He.
Qed.

(** ** Properties *)

(** C1: from a pool built by [ip_pool_init] for a configuration and a database with no
    address reserved or leased twice and none of them on an excluded address, every
    interleaving of reservations, releases, conflict marks, allocations and
    synchronisations (whole-pool and background rounds, with databases holding no
    lease in the UNKNOWN state) keeps the entries' addresses distinct, at most 1024 of
    them, [available_count] and [allocated_count] equal to the numbers of AVAILABLE
    and ALLOCATED entries, no entry UNKNOWN and the mutex free between operations.
    In every state so reached every operation returns, with any arguments (a
    background round when the database's mutex is free), except an allocation whose
    probe of some AVAILABLE address answers, which may block on the pool's mutex. *)
Theorem ip_pool_invariant (now : Z) (subnet : dhcp_subnet_t)
    (db : option lease_database_t) (pool' : ip_pool_t) :
  init_ok subnet (default [] (leases <$> db)) ->
  steps pool_step (ip_pool_init now subnet db).1 pool' ->
  pool_inv pool' /\ operations_return pool'.
Proof.
  intros Hok Hsteps.
  assert (pool_inv pool') as Hinv.
  { eapply steps_invariant; [|by apply ip_pool_init_inv|exact Hsteps].
    intros p q. apply pool_step_inv. }
  split; [exact Hinv|]. by apply pool_inv_returns.
Qed.

Lemma ip_pool_invariant_witness :
  exists pool', p_allocated_count pool' = 1 /\ p_available_count pool' = 2
    /\ pool_inv pool' /\ operations_return pool'.
Proof.
  pose (st := ip_pool_allocate (fun _ _ => false) 1001 example_pool [1;2;3;4;5;6] 0
                (example_config false)).
  assert (exists r p, st = Ret (r, p) /\ p_allocated_count p = 1 /\ p_available_count p = 2)
    as (r & p & E & H1 & H2).
  { vm_compute. do 2 eexists. split; [reflexivity|split; reflexivity]. }
  unfold st, example_pool in E.
  exists p. split; [exact H1|]. split; [exact H2|].
  apply (ip_pool_invariant 1000 example_subnet None p).
  - apply example_init_ok.
  - apply steps_one. eapply StepAllocate. exact E.
Defined.

(** For a range that fits the array and does not end at 255.255.255.255,
    [ip_pool_init] creates exactly one entry per address of the range, in order, and
    before reservations and leases an entry is EXCLUDED precisely when its address is
    the network, the broadcast or the gateway address, AVAILABLE otherwise. *)
Lemma ip_pool_init_covers_range (subnet : dhcp_subnet_t) :
  ntohl subnet.(s_range_start) <= ntohl subnet.(s_range_end) ->
  ntohl subnet.(s_range_end) < 4294967295 ->
  ntohl subnet.(s_range_end) - ntohl subnet.(s_range_start) < 1024 ->
  let pool := init_pool subnet in
  (e_ip_address <$> pool.(p_entries))
  = htonl <$> seqZ (ntohl subnet.(s_range_start))
                (ntohl subnet.(s_range_end) - ntohl subnet.(s_range_start) + 1)
  /\ Forall (fun e => e.(e_state) = if excluded_address subnet e.(e_ip_address)
                                    then IP_STATE_EXCLUDED else IP_STATE_AVAILABLE)
       pool.(p_entries).
Proof.
  intros Hle Hlt Hsz pool. split; [|by destruct (init_pool_wf subnet) as (_ & _ & _ & ?)].
  apply (init_range_addresses MAX_POOL_SIZE subnet);
    [apply bswap32_range|exact Hlt|exact Hsz|reflexivity].
Qed.

Lemma ip_pool_init_covers_range_witness :
  length (init_pool example_subnet).(p_entries) = 4%nat.
Proof.
  pose proof (ip_pool_init_covers_range example_subnet ltac:(vm_compute; congruence)
    ltac:(vm_compute; congruence) ltac:(vm_compute; congruence)) as [H _].
  apply (f_equal length) in H. rewrite !length_fmap in H. rewrite H. reflexivity.
Defined.

(** Allocation from a pool between operations.  When no AVAILABLE address
    answers an echo request it always returns, and exactly one of four things
    happened: a host reservation of the client was returned and nothing changed; an
    address the client holds was returned and nothing changed; one AVAILABLE entry
    became ALLOCATED to the client, every other entry and the configuration
    unchanged, one unit moved from [available_count] to [allocated_count]; or the
    call failed, no entry is AVAILABLE, and nothing changed. *)
Lemma ip_pool_allocate_policy (ping : Z -> Z -> bool) (now : Z) (pool : ip_pool_t)
    (mac : list Z) (requested_ip : Z) (config : dhcp_config_t) :
  pool_inv pool ->
  (forall e, e ∈ pool.(p_entries) -> e.(e_state) = IP_STATE_AVAILABLE ->
     ping_conflict ping config e.(e_ip_address) = false) ->
  exists r pool', ip_pool_allocate ping now pool mac requested_ip config = Ret (r, pool')
  /\ (r.(r_success) = true /\ pool' = pool
        /\ (exists h, h ∈ pool.(p_subnet).(s_hosts) /\ h.(h_fixed_address) = r.(r_ip_address)
              /\ take 6 h.(h_mac_address) = take 6 mac)
      \/ r.(r_success) = true /\ pool' = pool /\ holds pool r.(r_ip_address) mac
      \/ r.(r_success) = true
        /\ (exists i e, pool.(p_entries) !! i = Some e
              /\ e.(e_ip_address) = r.(r_ip_address) /\ e.(e_state) = IP_STATE_AVAILABLE
              /\ pool'.(p_entries) = <[i := allocate_fields now mac e]> pool.(p_entries)
              /\ pool'.(p_available_count) = pool.(p_available_count) - 1
              /\ pool'.(p_allocated_count) = pool.(p_allocated_count) + 1
              /\ pool'.(p_subnet) = pool.(p_subnet) /\ holds pool' r.(r_ip_address) mac)
      \/ r.(r_success) = false /\ pool' = pool
        /\ (forall e, e ∈ pool.(p_entries) -> e.(e_state) <> IP_STATE_AVAILABLE)).
Proof.
  intros Hinv Hping. pose proof (inv_unlocked _ Hinv) as Hl.
  pose proof (allocate_cases ping now mac config pool requested_ip Hl) as Hc.
  inversion Hc as [h Hh Hm|i e He Hs Hm|i e He Hs Hp|Hn|i e He Hs Hp].
  - do 2 eexists. split; [done|]. left. split_and!; try done. exists h.
    by apply memeq_true in Hm.
  - do 2 eexists. split; [done|]. right; left. split_and!; try done. exists e.
    apply memeq_true in Hm. split_and!; try done. by eapply list_elem_of_lookup_2.
  - do 2 eexists. split; [done|]. right; right; left. split; [done|]. exists i, e.
    destruct (allocate_counters now mac pool i e (inv_wf _ Hinv) He Hs) as [H1 H2].
    split_and!; try done.
    + simpl. by apply alter_insert.
    + exists (allocate_fields now mac e). split_and!; try done.
      * simpl. by apply alter_elem_of_eq.
      * simpl. apply take_take_6.
  - do 2 eexists. split; [done|]. right; right; right. done.
  - rewrite (Hping e) in Hp; [done|by eapply list_elem_of_lookup_2|done].
Qed.

Lemma ip_pool_allocate_policy_witness :
  exists r pool', ip_pool_allocate (fun _ _ => false) 1001 example_pool [1;2;3;4;5;6]
    (ip4 192 168 1 11) (example_config true) = Ret (r, pool').
Proof.
  pose proof (ip_pool_allocate_policy (fun _ _ => false) 1001 example_pool [1;2;3;4;5;6]
    (ip4 192 168 1 11) (example_config true) example_pool_inv) as H.
  destruct H as (r & pool' & H & _).
  - intros e _ _. unfold ping_conflict. by rewrite andb_false_r.
  - exists r, pool'. exact H.
Defined.

(** C2: an address is never granted to two clients.  If an allocation grants an
    address to a client without a host reservation, then whatever allocations follow,
    a later grant to another client without a reservation is of another address. *)
Theorem ip_pool_allocate_exclusive (ping ping' : Z -> Z -> bool) (now now' : Z)
    (pool pool1 pool2 pool3 : ip_pool_t) (mac mac' : list Z) (ip ip' : Z)
    (config config' : dhcp_config_t) (r r' : ip_allocation_result_t) :
  pool_inv pool -> no_reservation pool mac -> no_reservation pool mac' ->
  take 6 mac <> take 6 mac' ->
  ip_pool_allocate ping now pool mac ip config = Ret (r, pool1) -> r.(r_success) = true ->
  steps alloc_step pool1 pool2 ->
  ip_pool_allocate ping' now' pool2 mac' ip' config' = Ret (r', pool3) ->
  r'.(r_success) = true ->
  r.(r_ip_address) <> r'.(r_ip_address).
Proof.
  intros Hinv Hn Hn' Hne E Hs Hsteps E' Hs' Heq.
  pose proof (allocate_holds _ _ _ _ _ _ _ _ Hinv Hn E Hs) as Hh.
  assert (alloc_step pool pool1) as Hst by (by econstructor).
  assert (steps alloc_step pool pool2) as Hst2 by (eapply steps_trans; [by apply steps_one|done]).
  destruct (alloc_steps_facts pool pool2 Hinv Hst2) as (Hinv2 & Hsub & _).
  destruct (alloc_step_facts _ _ Hinv Hst) as (Hinv1 & _ & _).
  destruct (alloc_steps_facts pool1 pool2 Hinv1 Hsteps) as (_ & _ & Hkeep).
  assert (alloc_step pool2 pool3) as Hst3 by (by econstructor).
  destruct (alloc_step_facts _ _ Hinv2 Hst3) as (Hinv3 & _ & Hkeep3).
  apply Hne. eapply (holds_unique pool3 (r_ip_address r)); [done|by apply Hkeep3, Hkeep|].
  rewrite Heq. eapply allocate_holds; [exact Hinv2| |exact E'|done].
  unfold no_reservation. by rewrite Hsub.
Qed.

Lemma ip_pool_allocate_exclusive_witness :
  exists r1 p1 r2 p2,
    ip_pool_allocate (fun _ _ => false) 1001 example_pool [1;2;3;4;5;6] 0
      (example_config false) = Ret (r1, p1)
    /\ ip_pool_allocate (fun _ _ => false) 1002 p1 [1;2;3;4;5;7] (ip4 192 168 1 10)
         (example_config false) = Ret (r2, p2)
    /\ r1.(r_ip_address) <> r2.(r_ip_address).
Proof.
  destruct (ip_pool_allocate (fun _ _ => false) 1001 example_pool [1;2;3;4;5;6] 0
    (example_config false)) as [[r1 p1]|f] eqn:E1; [|vm_compute in E1; discriminate].
  destruct (ip_pool_allocate (fun _ _ => false) 1002 p1 [1;2;3;4;5;7] (ip4 192 168 1 10)
    (example_config false)) as [[r2 p2]|f] eqn:E2;
    [|vm_compute in E1; injection E1 as <- <-; vm_compute in E2; discriminate].
  exists r1, p1, r2, p2. split; [reflexivity|]. split; [exact E2|].
  refine (ip_pool_allocate_exclusive _ _ _ _ example_pool p1 p1 p2 _ _ _ _ _ _ r1 r2
    example_pool_inv _ _ _ E1 _ (steps_refl _ _) E2 _).
  - intros h Hh. vm_compute in Hh. apply list_elem_of_singleton in Hh as ->. reflexivity.
  - intros h Hh. vm_compute in Hh. apply list_elem_of_singleton in Hh as ->. reflexivity.
  - discriminate.
  - vm_compute in E1. injection E1 as <- <-. reflexivity.
  - vm_compute in E1. injection E1 as <- <-. vm_compute in E2. injection E2 as <- <-.
    reflexivity.
Defined.

(** [ip_pool_allocate_and_create_lease].  When it returns a lease, that lease is
    ACTIVE in the database for the granted address until [now' + lease_time], the
    address is a reservation of the client or held by it in the pool, and the pool's
    entry for the address, if it has one, carries the lease's identifier.  When it
    returns NULL, either the allocation failed and nothing changed, or the lease array
    was full: the database is unchanged and the address granted a moment before is
    again not ALLOCATED. *)
Lemma ip_pool_create_lease_spec (ping : Z -> Z -> bool) (now now' : Z)
    (pool pool' : ip_pool_t) (db db' : lease_database_t) (mac : list Z)
    (requested_ip : Z) (config : dhcp_config_t) (t : Z) (slot : option nat) :
  pool_inv pool ->
  ip_pool_allocate_and_create_lease ping now now' pool db mac requested_ip config t
    = Ret (slot, pool', db') ->
  match slot with
  | Some i =>
      exists l, db'.(leases) !! i = Some l /\ l.(l_state) = LEASE_STATE_ACTIVE
      /\ l.(l_end_time) = now' + t
      /\ ((exists h, h ∈ pool.(p_subnet).(s_hosts)
             /\ h.(h_fixed_address) = l.(l_ip_address)
             /\ take 6 h.(h_mac_address) = take 6 mac)
          \/ holds pool' l.(l_ip_address) mac)
      /\ (forall e, e ∈ pool'.(p_entries) -> e.(e_ip_address) = l.(l_ip_address) ->
            e.(e_lease_id) = l.(l_lease_id))
  | None =>
      db' = db /\ (pool' = pool
        /\ (forall e, e ∈ pool.(p_entries) -> e.(e_state) <> IP_STATE_AVAILABLE)
        \/ (MAX_LEASES <= length db.(leases))%nat
           /\ exists ip, lease_db_find_by_ip db ip = None
              /\ forall e, e ∈ pool'.(p_entries) -> e.(e_ip_address) = ip ->
                   e.(e_state) <> IP_STATE_ALLOCATED)
  end.
Proof.
  intros Hinv. unfold ip_pool_allocate_and_create_lease.
  destruct (ip_pool_allocate ping now pool mac requested_ip config) as [[r pool1]|f] eqn:Ea;
    [|done].
  pose proof (allocate_inv _ _ _ _ _ _ _ _ Hinv Ea) as Hinv1.
  pose proof (allocate_granted _ _ _ _ _ _ _ _ Hinv Ea) as Hg.
  cbn [mbind outcome_bind]. destruct (r_success r) eqn:Hs; simpl.
  2: { intros [= <- <- <-]. destruct Hg as [-> Hg]. auto. }
  destruct (lease_db_find_by_ip db (r_ip_address r)) as [i|] eqn:Ef.
  - unfold lease_db_renew_lease. rewrite Ef. simpl.
    destruct (find_by_ip_lookup _ _ _ Ef) as (l & Hl & Hip).
    rewrite list_lookup_alter_eq, Hl. cbn [fmap option_fmap option_map in_bounds mbind outcome_bind].
    intros [= <- <- <-]. exists (renew_fields now' t l). simpl.
    rewrite list_lookup_alter_eq, Hl. rewrite Hip.
    split_and!; try done; [|by apply link_lease_id, Hinv1].
    destruct Hg as [?|Hg]; [by left|right]. by apply link_holds.
  - unfold lease_db_add_lease. destruct (bool_decide _) eqn:Hfull; to_prop.
    + destruct (ip_pool_release_ip pool1 (r_ip_address r)) as [[r' pool2]|] eqn:Er; [|done].
      intros [= <- <- <-]. split; [done|right]. split; [done|].
      exists (r_ip_address r). split; [done|]. eapply release_not_allocated; eauto.
    + simpl. rewrite list_lookup_middle by done. cbn [in_bounds mbind outcome_bind].
      intros [= <- <- <-]. eexists. simpl. rewrite list_lookup_middle by done.
      split; [done|]. split_and!; try done; [|by apply link_lease_id, Hinv1].
      destruct Hg as [?|Hg]; [by left|right]. by apply link_holds.
Qed.

Lemma ip_pool_create_lease_spec_witness :
  exists pool' db' l,
    ip_pool_allocate_and_create_lease (fun _ _ => false) 1001 1001 example_pool
      (lease_db_init "f") [1;2;3;4;5;6] 0 (example_config false) 3600
      = Ret (Some 0%nat, pool', db')
    /\ db'.(leases) !! 0%nat = Some l /\ l.(l_end_time) = 4601.
Proof.
  destruct (ip_pool_allocate_and_create_lease (fun _ _ => false) 1001 1001 example_pool
      (lease_db_init "f") [1;2;3;4;5;6] 0 (example_config false) 3600)
    as [[[slot pool'] db']|f] eqn:E; [|vm_compute in E; discriminate].
  pose proof (ip_pool_create_lease_spec _ _ _ _ _ _ _ _ _ _ _ _ example_pool_inv E) as H.
  assert (slot = Some 0%nat) as -> by (vm_compute in E; congruence).
  destruct H as (l & Hl & _ & He & _). exists pool', db', l. auto.
Defined.

(** C40: the mutex of the pool is not recursive, and the conflict handling inside
    [ip_pool_allocate] takes it again: for a client with neither a reservation nor an
    address, requesting any address or none, the call blocks for ever exactly when the
    address it probes (the requested one if it is in range and AVAILABLE, else the
    first AVAILABLE one) is pinged (pings are on, it is no loopback address) and
    answers the echo request; in every other case it returns. *)
Theorem ip_pool_allocate_self_deadlock (ping : Z -> Z -> bool) (now : Z)
    (pool : ip_pool_t) (mac : list Z) (requested_ip : Z) (config : dhcp_config_t) :
  pool_inv pool -> no_reservation pool mac -> (forall ip, ~ holds pool ip mac) ->
  (ip_pool_allocate ping now pool mac requested_ip config = Fault Deadlock
   <-> exists ip, probes pool requested_ip ip
         /\ config.(c_global).(g_ping_check) = true
         /\ ~ 0x7F000000 <= ntohl ip <= 0x7FFFFFFF
         /\ ping ip (u32 (config.(c_global).(g_ping_timeout) * 1000)) = true)
  /\ (ip_pool_allocate ping now pool mac requested_ip config <> Fault Deadlock ->
      exists r pool',
        ip_pool_allocate ping now pool mac requested_ip config = Ret (r, pool')).
Proof.
  intros [Hwf Hl _] Hres Hnone.
  pose proof (allocate_probes ping now pool mac requested_ip config Hwf Hl Hres Hnone) as Hp.
  split; [split|].
  - intros E. rewrite E in Hp. inversion Hp as [ip Hpr Hc|]; subst.
    exists ip. split; [done|]. by apply ping_conflict_true.
  - intros (ip & Hpr & Hc). apply ping_conflict_true in Hc.
    destruct Hp as [|r Hn]; [done|]. by rewrite (Hn ip Hpr) in Hc.
  - intros E. destruct Hp as [|[r p] _]; [done|eauto].
Qed.

(** The requested address .11 answers: the call blocks although .10 is free and
    silent; with .10 answering and .11 requested it returns. *)
Lemma ip_pool_allocate_self_deadlock_witness :
  ip_pool_allocate (fun ip _ => ip =? ip4 192 168 1 11) 1001 example_pool [1;2;3;4;5;6]
    (ip4 192 168 1 11) (example_config true) = Fault Deadlock
  /\ ip_pool_allocate (fun ip _ => ip =? ip4 192 168 1 10) 1001 example_pool
       [1;2;3;4;5;6] 0 (example_config true) = Fault Deadlock.
Proof.
  assert (no_reservation example_pool [1;2;3;4;5;6]) as Hres.
  { intros h Hh. vm_compute in Hh. apply list_elem_of_singleton in Hh as ->. reflexivity. }
  assert (forall ip, ~ holds example_pool ip [1;2;3;4;5;6]) as Hno.
  { intros ip (x & Hx & _ & Ha & _).
    eapply (forallb_elem (fun x => negb (in_state IP_STATE_ALLOCATED x))) in Hx;
      [|vm_compute; reflexivity].
    unfold in_state in Hx. by rewrite bool_decide_eq_true_2 in Hx. }
  split.
  - apply (ip_pool_allocate_self_deadlock _ 1001 example_pool [1;2;3;4;5;6]
             (ip4 192 168 1 11) (example_config true) example_pool_inv Hres Hno).
    exists (ip4 192 168 1 11). split_and!; [|reflexivity|vm_compute; tauto|reflexivity].
    apply ProbeRequested. split; [discriminate|]. split; [vm_compute; split; discriminate|].
    destruct (find (fun e => e_ip_address e =? ip4 192 168 1 11) (p_entries example_pool))
      as [e|] eqn:E; [|vm_compute in E; discriminate].
    exists e. apply find_elem in E as [Hin Hip]. split; [exact Hin|].
    apply Z.eqb_eq in Hip. split; [exact Hip|].
    exact (example_available e _ Hin Hip eq_refl).
  - apply (ip_pool_allocate_self_deadlock _ 1001 example_pool [1;2;3;4;5;6]
             0 (example_config true) example_pool_inv Hres Hno).
    exists (ip4 192 168 1 10). split_and!; [|reflexivity|vm_compute; tauto|reflexivity].
    destruct (p_entries example_pool) as [|e after] eqn:E; [vm_compute in E; discriminate|].
    assert (e_ip_address e = ip4 192 168 1 10 /\ e_state e = IP_STATE_AVAILABLE) as [<- Hs]
      by (vm_compute in E; injection E as <- _; split; reflexivity).
    apply (ProbeFirst _ _ [] e after); [by intros [[] _]|exact E|constructor|exact Hs].
Defined.

(** reserving an AVAILABLE address for a client and releasing it again gives the
    pool back except for the time stamp of that entry; in between the address is held
    by the client and a reservation of it for any other client is refused without
    effect. *)
Lemma ip_pool_reserve_release (now now' : Z) (pool : ip_pool_t) (ip : Z)
    (mac other : list Z) :
  pool_inv pool -> ip_pool_is_available pool ip = true -> take 6 mac <> take 6 other ->
  (forall e, e ∈ pool.(p_entries) -> e.(e_ip_address) = ip -> e.(e_mac_address) = zero_mac) ->
  exists pool1, ip_pool_reserve_ip now pool ip mac = Ret (0, pool1)
    /\ holds pool1 ip mac
    /\ ip_pool_reserve_ip now' pool1 ip other = Ret (-1, pool1)
    /\ exists i, ip_pool_find_entry pool ip = Some i
    /\ ip_pool_release_ip pool1 ip
       = Ret (0, alter_entry (set_e_last_allocated now) i pool).
Proof.
  intros Hinv Hav Hne Hz. destruct Hinv as [Hwf Hl Hk].
  destruct (is_available_lookup pool ip Hav) as (i & e & Hi & He & Hip & Hs).
  pose proof (allocate_counters now mac pool i e Hwf He Hs) as [Hc1 Hc2].
  pose proof (pool_wf_counters pool Hwf) as [Hu1 Hu2].
  set (pool1 := add_allocated 1 (alter_entry (allocate_fields now mac) i
                 (add_available (-1) pool))) in *.
  assert (ip_pool_find_entry pool1 ip = Some i) as Hi1.
  { unfold ip_pool_find_entry in *. simpl. by rewrite find_index_alter. }
  assert (p_entries pool1 !! i = Some (allocate_fields now mac e)) as He1
    by (by apply lookup_alter_entry).
  assert (ip_pool_reserve_ip now pool ip mac = Ret (0, pool1)) as Hr.
  { rewrite (reserve_found now pool ip mac i e) by done. unfold reserve_entry, in_state.
    rewrite Hs. simpl. unfold pool1. destruct pool. simpl in *. by rewrite Hl. }
  exists pool1. split; [exact Hr|]. split.
  { exists (allocate_fields now mac e). split_and!; try done.
    - by eapply list_elem_of_lookup_2.
    - simpl. apply take_take_6. }
  split.
  { rewrite (reserve_found now' pool1 ip other i _) by done. unfold reserve_entry, in_state.
    simpl. rewrite memeq_false by (by rewrite take_take_6). simpl.
    by rewrite unlock_lock by done. }
  exists i. split; [done|]. rewrite (release_found pool1 ip i _ Hl Hi1 He1). simpl.
  f_equal. f_equal. unfold pool1, alter_entry, add_available, add_allocated, pool_unlock.
  unfold set_p_entries, set_p_available_count, set_p_allocated_count, set_p_mutex_locked.
  cbn [p_subnet p_entries p_available_count p_allocated_count p_mutex_locked] in *.
  rewrite !u32_add_l, Hl. f_equal.
  - rewrite list_alter_alter_eq. apply list_alter_ext; [|done]. intros x Hx.
    assert (x = e) as -> by congruence.
    assert (e_mac_address e = zero_mac) as Hze
      by (apply Hz; [by eapply list_elem_of_lookup_2|done]).
    destruct e. simpl in *. by subst.
  - rewrite <- Hu2 at 2. f_equal. lia.
  - rewrite <- Hu1 at 2. f_equal. lia.
Qed.

Lemma ip_pool_reserve_release_witness :
  exists pool1, ip_pool_reserve_ip 1001 example_pool (ip4 192 168 1 11) [1;2;3;4;5;6]
    = Ret (0, pool1).
Proof.
  destruct (ip_pool_reserve_release 1001 1002 example_pool (ip4 192 168 1 11)
    [1;2;3;4;5;6] [1;2;3;4;5;7] example_pool_inv) as (pool1 & H & _).
  - vm_compute. reflexivity.
  - discriminate.
  - intros e He Hip.
    eapply (forallb_elem (fun e => negb (e_ip_address e =? ip4 192 168 1 11)
              || bool_decide (e_mac_address e = zero_mac))) in He;
      [|vm_compute; reflexivity]. rewrite Hip, Z.eqb_refl in He.
    by apply bool_decide_eq_true in He.
  - exists pool1. exact H.
Defined.

(** ** Where the code leaves its invariant *)

Definition example_lease (state : lease_state_t) (ip : Z) : dhcp_lease_t :=
  set_l_state state (new_lease 900 1 ip [1;2;3;4;5;6] 3600).

Definition example_db (state : lease_state_t) (ip : Z) : lease_database_t :=
  set_leases [example_lease state ip] (lease_db_init "f").

(** A lease whose state string was not recognised, followed by a reservation and a
    release of its address, wraps [allocated_count] below zero. *)
Example reserve_unknown_wraps_counter :
  ('(_, pool, _) ← ip_pool_sync_with_leases (fun _ => 1001) example_pool
     (example_db LEASE_STATE_UNKNOWN (ip4 192 168 1 10));
   '(_, pool) ← ip_pool_reserve_ip 1002 pool (ip4 192 168 1 10) [1;2;3;4;5;6];
   '(_, pool) ← ip_pool_release_ip pool (ip4 192 168 1 10);
   Ret pool.(p_allocated_count)) = Ret 4294967295.
Proof. vm_compute. reflexivity. Qed.

(** A released lease on the gateway's address makes that address allocatable. *)
Example init_lease_frees_gateway :
  let subnet := example_subnet in
  let subnet := mk_dhcp_subnet subnet.(s_network) subnet.(s_netmask) subnet.(s_range_start)
    subnet.(s_range_end) (ip4 192 168 1 10) subnet.(s_broadcast) subnet.(s_subnet_mask)
    "" [] [] [] 0 3600 7200 0 "" "" "" 0 0 [] in
  let pool := (ip_pool_init 1000 subnet
                 (Some (example_db LEASE_STATE_RELEASED (ip4 192 168 1 10)))).1 in
  ('(r, _) ← ip_pool_allocate (fun _ _ => false) 1001 pool [7;7;7;7;7;7] 0
              (example_config false); Ret r.(r_ip_address)) = Ret (subnet.(s_router)).
Proof. vm_compute. reflexivity. Qed.

(** A released lease renewed for a new client keeps the previous client's MAC. *)
Example create_lease_keeps_old_mac :
  ('(slot, _, db) ← ip_pool_allocate_and_create_lease (fun _ _ => false) 1001 1001
      example_pool (example_db LEASE_STATE_RELEASED (ip4 192 168 1 10)) [7;7;7;7;7;7] 0
      (example_config false) 3600;
   Ret (l_mac_address <$> (slot ≫= fun i => db.(leases) !! i))) = Ret (Some [1;2;3;4;5;6]).
Proof. vm_compute. reflexivity. Qed.
