(* ===== verification/IcmpV4.v ===== *)
(** * The echo check of the DHCPv4 server

    [icmp_checksum] and [ip_ping_check] of [DHCPv4/src/ip_pool.c], the function behind the
    parameter [ping] of [IpPool] and [ServerV4].  The integers of the header are in the
    memory order of the little-endian host; what the socket calls return is the record
    [ping_results]. *)

From S2P Require Import Prelude.

(** The loop over the 16-bit words and the last odd byte. *)
Fixpoint sum_words (data : list Z) (sum : Z) : Z :=
  match data with
  | lo :: hi :: rest => sum_words rest (sum +u32 (lo + 256 * hi))
  | [last] => sum +u32 last
  | [] => sum
  end.

(** [sum = (sum >> 16) + (sum & 0xFFFF); sum += (sum >> 16); return ~sum] *)
Definition fold_sum (sum : Z) : Z :=
  let sum := Z.shiftr sum 16 +u32 Z.land sum 65535 in
  let sum := sum +u32 Z.shiftr sum 16 in
  u16 (Z.lnot sum).

Definition icmp_checksum (data : list Z) : Z := fold_sum (sum_words data 0).

Definition le16 (x : Z) : list Z := [x mod 256; x / 256 mod 256].

(** [struct icmphdr]: type, code, checksum, identifier and sequence number. *)
Definition icmp_header (checksum id sequence : Z) : list Z := [8; 0] ++ le16 checksum ++ le16 id ++ le16 sequence.

(** The request for the process [pid]. *)
Definition echo_request (pid : Z) : list Z :=
  icmp_header (icmp_checksum (icmp_header 0 (u16 pid) 1)) (u16 pid) 1.

Record ping_results := mk_ping_results {
  ping_socket : bool;
  ping_sent : bool;
  ping_ready : Z * Z -> Z
}.

(** Whether an answer came, and the datagram sent; [timeout_ms] is split into seconds and
    microseconds for [select]. *)
Definition ip_ping_check (r : ping_results) (pid ip timeout_ms : Z) : bool * option (Z * list Z) :=
  if negb r.(ping_socket) then (false, None)
  else
    let tv := (timeout_ms / 1000, timeout_ms mod 1000 * 1000) in
    let packet := echo_request pid in
    if negb r.(ping_sent) then (false, Some (ip, packet))
    else (0 <? r.(ping_ready) tv, Some (ip, packet)).

(** ** The one's complement sum *)

(** The sum of the words without a width. *)
Fixpoint words (data : list Z) : list Z :=
  match data with
  | lo :: hi :: rest => (lo + 256 * hi) :: words rest
  | [last] => [last]
  | [] => []
  end.

Definition total (data : list Z) : Z := foldr Z.add 0 (words data).

(** The representative of a sum in the one's complement arithmetic of 16 bits. *)
Definition ones (s : Z) : Z := if s =? 0 then 0 else (s - 1) mod 65535 + 1.

Lemma two_ind {A} (P : list A -> Prop) : P [] -> (forall a, P [a]) -> (forall a b l, P l -> P (a :: b :: l)) -> forall l, P l.
Proof.
  intros H0 H1 H2 l. assert (P l /\ forall a, P (a :: l)) as [? _]; [|done].
  induction l as [|b l [IH1 IH2]]; [by split|]. split; [apply IH2|]. intros a. by apply H2.
Qed.

Lemma total_cons a b l : total (a :: b :: l) = a + 256 * b + total l.
Proof. done. Qed.

Lemma total_one a : total [a] = a.
Proof. unfold total. cbn. lia. Qed.

Lemma total_bound data : Forall is_u8 data -> 0 <= total data <= 65535 * Z.of_nat (length data).
Proof.
  induction data as [|a|a b l IH] using two_ind; [cbn; lia| |].
  - rewrite Forall_singleton, total_one. unfold is_u8. cbn [length]. lia.
  - rewrite !Forall_cons, total_cons. unfold is_u8. intros (Ha & Hb & Hl). specialize (IH Hl). cbn [length]. lia.
Qed.

Lemma sum_words_total data : Forall is_u8 data -> forall sum, 0 <= sum -> sum + total data < 4294967296 ->
  sum_words data sum = sum + total data.
Proof.
  induction data as [|a|a b l IH] using two_ind; intros Hd sum Hs Hb; cbn [sum_words].
  - cbn. lia.
  - rewrite total_one in Hb |- *. apply Forall_cons in Hd as [Hd _]. unfold is_u8 in Hd. unfold u32. rewrite Z.mod_small; lia.
  - rewrite total_cons in Hb |- *. rewrite !Forall_cons in Hd. unfold is_u8 in Hd. destruct Hd as (Ha & Hb' & Hl).
    pose proof (total_bound l Hl) as Ht. unfold u32. rewrite Z.mod_small by lia. rewrite IH by (done || lia). lia.
Qed.

Lemma ones_unique s t : 0 <= t <= 65535 -> 0 <= s -> (s = 0 <-> t = 0) -> (s - t) mod 65535 = 0 -> ones s = t.
Proof.
  intros Ht Hs Hz Hm. unfold ones. destruct (Z.eqb_spec s 0) as [E|E]; [symmetry; tauto|].
  apply Z.mod_divide in Hm as [k Hk]; [|lia].
  rewrite <- (Z.mod_unique (s - 1) 65535 k (t - 1)); [lia|left; lia|lia].
Qed.

(** Two folds bring a sum of 32 bits to its representative. *)
Lemma fold_sum_ones s : 0 <= s < 4294967296 -> fold_sum s = 65535 - ones s.
Proof.
  intros Hs. unfold fold_sum. cbv zeta. change (Z.land s 65535) with (Z.land s (Z.ones 16)). rewrite Z.land_ones, !Z.shiftr_div_pow2 by lia.
  change (2 ^ 16) with 65536. pose proof (Z.mod_pos_bound s 65536 ltac:(lia)) as Hr.
  pose proof (Z.div_mod s 65536 ltac:(lia)) as E. assert (0 <= s / 65536 <= 65535) as Hq by lia.
  set (q := s / 65536) in *. set (r := s mod 65536) in *. unfold u32. rewrite (Z.mod_small (q + r)) by lia.
  set (d := (q + r) / 65536). assert (d = if q + r <? 65536 then 0 else 1) as Hd.
  { unfold d. destruct (Z.ltb_spec (q + r) 65536); [apply Z.div_small; lia|].
    symmetry. apply (Z.div_unique_pos (q + r) 65536 1 (q + r - 65536)); lia. }
  rewrite (Z.mod_small (q + r + d)) by (destruct (q + r <? 65536); lia). unfold u16, Z.lnot.
  assert (ones s = if q + r <? 65536 then q + r else q + r - 65535) as ->.
  { destruct (Z.ltb_spec (q + r) 65536); apply ones_unique; try lia; apply Z.mod_divide; try lia; [exists q|exists (q + 1)]; lia. }
  destruct (Z.ltb_spec (q + r) 65536).
  - symmetry. apply (Z.mod_unique _ 65536 (-1)); [left; lia|lia].
  - symmetry. apply (Z.mod_unique _ 65536 (-2)); [left; lia|lia].
Qed.

Lemma icmp_checksum_ones data : Forall is_u8 data -> Z.of_nat (length data) < 65536 ->
  icmp_checksum data = 65535 - ones (total data).
Proof.
  intros Hd Hl. pose proof (total_bound data Hd) as Hb. unfold icmp_checksum. rewrite sum_words_total by (done || lia).
  rewrite Z.add_0_l. apply fold_sum_ones. lia.
Qed.

Lemma total_app l1 l2 : Nat.Even (length l1) -> total (l1 ++ l2) = total l1 + total l2.
Proof.
  induction l1 as [|a|a b l IH] using two_ind; intros H.
  - done.
  - destruct H as [k Hk]. cbn in Hk. lia.
  - cbn [app]. rewrite !total_cons, IH; [lia|]. destruct H as [k Hk]. cbn in Hk. exists (k - 1)%nat. lia.
Qed.

Lemma ones_bound s : 0 <= s -> 0 <= ones s <= 65535.
Proof. intros H. unfold ones. destruct (s =? 0); [lia|]. pose proof (Z.mod_pos_bound (s - 1) 65535 ltac:(lia)). lia. Qed.

Lemma total_le16 x : 0 <= x < 65536 -> total (le16 x) = x.
Proof.
  intros Hx. unfold le16. rewrite total_cons. change (total []) with 0. rewrite (Z.mod_small (x / 256)).
  - pose proof (Z.div_mod x 256 ltac:(lia)). lia.
  - split; [apply Z.div_pos; lia|apply Z.div_lt_upper_bound; lia].
Qed.

Lemma le16_bytes x : Forall is_u8 (le16 x).
Proof. repeat apply Forall_cons_2; try constructor; unfold is_u8; apply Z.mod_pos_bound; lia. Qed.

(** ** Properties *)

(** The checksum.  A message whose checksum field, at an even offset, holds what
    [icmp_checksum] gives for the message with a zero there is one the receiver accepts: its
    own checksum is 0.  Messages of fewer than 65536 bytes do not overflow the sum. *)
Lemma icmp_checksum_verifies (l1 l2 : list Z) :
  Forall is_u8 (l1 ++ l2) -> Nat.Even (length l1) -> Z.of_nat (length (l1 ++ l2)) < 65534 -> 0 < total (l1 ++ l2) ->
  icmp_checksum (l1 ++ le16 (icmp_checksum (l1 ++ [0; 0] ++ l2)) ++ l2) = 0.
Proof.
  intros Hu He Hl Hpos. assert (Forall is_u8 (l1 ++ [0; 0] ++ l2)) as Hu0.
  { apply Forall_app in Hu as [H1 H2]. rewrite !Forall_app. split; [done|]. split; [|done]. by repeat constructor. }
  rewrite (icmp_checksum_ones _ Hu0) by (rewrite !length_app in *; cbn [length]; lia).
  assert (total (l1 ++ [0; 0] ++ l2) = total (l1 ++ l2)) as Ht0
    by (rewrite !(total_app l1) by done; cbn [app]; rewrite total_cons; lia).
  rewrite Ht0. set (t := total (l1 ++ l2)) in *. pose proof (ones_bound t ltac:(lia)) as Ho.
  set (c := 65535 - ones t) in *. assert (Forall is_u8 (l1 ++ le16 c ++ l2)) as Hu1.
  { apply Forall_app in Hu as [H1 H2]. rewrite !Forall_app. split; [done|]. split; [apply le16_bytes|done]. }
  rewrite (icmp_checksum_ones _ Hu1) by (rewrite !length_app in *; cbn [length le16]; lia).
  assert (total (l1 ++ le16 c ++ l2) = t + c) as ->.
  { unfold t. rewrite !(total_app l1), (total_app (le16 c)) by (done || by exists 1%nat). rewrite total_le16 by lia. lia. }
  assert (ones (t + c) = 65535) as ->; [|lia]. apply ones_unique; [lia|lia|lia|]. unfold c, ones.
  destruct (Z.eqb_spec t 0); [lia|]. pose proof (Z.div_mod (t - 1) 65535 ltac:(lia)) as E.
  apply Z.mod_divide; [lia|]. exists ((t - 1) / 65535). lia.
Qed.

(** The request of every process is accepted. *)
Lemma echo_request_valid (pid : Z) : icmp_checksum (echo_request pid) = 0 /\ length (echo_request pid) = 8%nat.
Proof.
  split; [|done]. unfold echo_request, icmp_header.
  apply (icmp_checksum_verifies [8; 0] (le16 (u16 pid) ++ le16 1)).
  - rewrite !Forall_app. split_and!; [by repeat constructor|apply le16_bytes|apply le16_bytes].
  - by exists 1%nat.
  - cbn. lia.
  - cbn [app]. rewrite total_cons. pose proof (total_bound (le16 (u16 pid) ++ le16 1)) as H.
    destruct H as [? _]; [apply Forall_app; split; apply le16_bytes|lia].
Qed.

(** Anything the raw socket receives within the time counts as an answer, also the message
    of a router that the address cannot be reached. *)
Example any_icmp_is_an_answer pid ip : (ip_ping_check (mk_ping_results true true (fun _ => 1)) pid ip 1000).1 = true.
Proof. done. Qed.
