(* ===== verification/Ring.v ===== *)
(** * Circular buffers

    Three parts of the program keep a bounded first-in first-out queue in an array
    with [head], [tail] and [count] fields: the lease I/O queue ([lease_v4.c]), the
    DHCPv4 thread pool ([thread_pool.c]) and the DHCPv6 task queue ([server.c]).
    This file holds the array operations they share, the interface [BoundedFifo] the
    three queues are proved to implement, and the theorem about any interleaving of
    producers and consumers, proved once against the interface. *)

From S2P Require Import Prelude.

(** The array, its length being the queue's size, and the three indices. *)
Record ring (A : Type) := mk_ring {
  ring_slots : list A;
  ring_head : nat;
  ring_tail : nat;
  ring_count : nat
}.
Arguments mk_ring {A} _ _ _ _.
Arguments ring_slots {A} _.
Arguments ring_head {A} _.
Arguments ring_tail {A} _.
Arguments ring_count {A} _.

Definition ring_size {A} (r : ring A) : nat := length r.(ring_slots).

(** An empty buffer over an array whose cells hold [d]. *)
Definition ring_new {A} (n : nat) (d : A) : ring A := mk_ring (replicate n d) 0 0 0.

(** [queue[tail] = x; tail = (tail + 1) % size; count++] *)
Definition ring_push {A} (x : A) (r : ring A) : ring A :=
  mk_ring (<[r.(ring_tail) := x]> r.(ring_slots)) r.(ring_head)
    ((r.(ring_tail) + 1) mod ring_size r)%nat (r.(ring_count) + 1)%nat.

(** [x = queue[head]; head = (head + 1) % size; count--] *)
Definition ring_pop {A} (r : ring A) : option (A * ring A) :=
  x ← r.(ring_slots) !! r.(ring_head);
  Some (x, mk_ring r.(ring_slots) ((r.(ring_head) + 1) mod ring_size r)%nat r.(ring_tail)
             (r.(ring_count) - 1)%nat).

(** The cells from [head] on, oldest first. *)
Definition ring_items {A} (r : ring A) : list A :=
  omap (fun k => r.(ring_slots) !! ((r.(ring_head) + k) mod ring_size r)%nat)
    (seq 0 r.(ring_count)).

Record ring_wf {A} (r : ring A) : Prop := {
  ring_size_pos : (0 < ring_size r)%nat;
  ring_head_lt : (r.(ring_head) < ring_size r)%nat;
  ring_count_le : (r.(ring_count) <= ring_size r)%nat;
  ring_tail_eq : r.(ring_tail) = ((r.(ring_head) + r.(ring_count)) mod ring_size r)%nat
}.

(** ** The interface

    What a bounded queue promises its producers and consumers.  [fifo_push] says
    whether the item was accepted, [fifo_valid] whether it can ever be; [fifo_pop] is [None] when a consumer takes
    nothing (it waits or leaves); a queue that is not [fifo_open] is shutting down. *)
Class BoundedFifo (Q A : Type) := {
  fifo_ok : Q -> Prop;
  fifo_items : Q -> list A;
  fifo_cap : Q -> nat;
  fifo_open : Q -> bool;
  fifo_valid : A -> bool;
  fifo_push : A -> Q -> bool * Q;
  fifo_pop : Q -> option (A * Q);
  fifo_bound q : fifo_ok q -> (length (fifo_items q) <= fifo_cap q)%nat;
  fifo_push_ok x q : fifo_ok q ->
    let '(b, q') := fifo_push x q in
    fifo_ok q' /\ fifo_cap q' = fifo_cap q
    /\ b = fifo_valid x && fifo_open q && bool_decide (length (fifo_items q) < fifo_cap q)%nat
    /\ fifo_items q' = (if b then fifo_items q ++ [x] else fifo_items q);
  fifo_pop_ok q : fifo_ok q ->
    match fifo_pop q with
    | Some (x, q') => fifo_ok q' /\ fifo_cap q' = fifo_cap q
                      /\ fifo_items q = x :: fifo_items q'
    | None => fifo_items q = [] \/ fifo_open q = false
    end
}.

(** ** Interleavings of producers and consumers *)

Inductive fifo_cmd (A : Type) :=
| Push (x : A)
| Pop.
Arguments Push {A} x.
Arguments Pop {A}.

(** What happened: the items accepted and the items taken, in order. *)
Fixpoint fifo_run {Q A} `{BoundedFifo Q A} (cmds : list (fifo_cmd A)) (q : Q)
    : list A * list A * Q :=
  match cmds with
  | [] => ([], [], q)
  | Push x :: rest =>
      let '(b, q) := fifo_push x q in
      let '(ins, outs, q) := fifo_run rest q in
      (if b then x :: ins else ins, outs, q)
  | Pop :: rest =>
      match fifo_pop q with
      | Some (x, q) => let '(ins, outs, q) := fifo_run rest q in (ins, x :: outs, q)
      | None => fifo_run rest q
      end
  end.

(** ** Lemmas on the buffer *)

Lemma mod_inj h n i j :
  (0 < n)%nat -> (i < n)%nat -> (j < n)%nat ->
  ((h + i) mod n = (h + j) mod n)%nat -> i = j.
Proof.
  intros Hn Hi Hj E.
  pose proof (Nat.div_mod_eq (h + i) n) as H1. pose proof (Nat.div_mod_eq (h + j) n) as H2.
  rewrite E in H1.
  set (r := ((h + j) mod n)%nat) in *. set (a := ((h + i) / n)%nat) in *.
  set (b := ((h + j) / n)%nat) in *. clearbody r a b.
  destruct (Nat.lt_trichotomy a b) as [Hab|[->|Hab]]; [nia|lia|nia].
Qed.

Lemma ring_new_wf {A} n (d : A) : (0 < n)%nat -> ring_wf (ring_new n d).
Proof.
  intros Hn. unfold ring_new. constructor; unfold ring_size; simpl;
    rewrite length_replicate; try lia. by rewrite Nat.Div0.mod_0_l.
Qed.

Lemma ring_new_items {A} n (d : A) : ring_items (ring_new n d) = [].
Proof. done. Qed.

Lemma ring_lookup_mod {A} (r : ring A) k :
  ring_wf r -> exists x, r.(ring_slots) !! ((r.(ring_head) + k) mod ring_size r)%nat = Some x.
Proof.
  intros [Hs _ _ _]. apply lookup_lt_is_Some_2. apply Nat.mod_upper_bound. unfold ring_size in *. lia.
Qed.

Lemma length_ring_items {A} (r : ring A) : ring_wf r -> length (ring_items r) = r.(ring_count).
Proof.
  intros Hwf. unfold ring_items.
  transitivity (length (seq 0 (ring_count r))); [|by rewrite length_seq].
  induction (seq 0 (ring_count r)) as [|k l IH]; [done|]. cbn [omap list_omap].
  destruct (ring_lookup_mod r k Hwf) as [x ->]. simpl. f_equal. exact IH.
Qed.

Lemma omap_ext_in {A B} (f g : A -> option B) (l : list A) :
  (forall x, x ∈ l -> f x = g x) -> omap f l = omap g l.
Proof.
  induction l as [|x l IH]; intros H; [done|]. cbn [omap list_omap].
  rewrite H by set_solver. destruct (g x); rewrite IH by (intros; apply H; set_solver); done.
Qed.

Lemma omap_fmap {A B C} (f : A -> B) (g : B -> option C) (l : list A) :
  omap g (f <$> l) = omap (fun x => g (f x)) l.
Proof. induction l as [|x l IH]; [done|]. cbn [omap list_omap fmap list_fmap]. by rewrite IH. Qed.

Lemma ring_push_wf {A} (x : A) r :
  ring_wf r -> (r.(ring_count) < ring_size r)%nat -> ring_wf (ring_push x r).
Proof.
  intros [Hs Hh Hc Ht] Hlt. unfold ring_push.
  assert (forall s h t c, ring_size (mk_ring (<[ring_tail r := x]> s) h t c) = length s) as E
    by (intros; unfold ring_size; simpl; apply length_insert).
  constructor; rewrite ?E; simpl; fold (ring_size r); try lia.
  rewrite Ht, Nat.Div0.add_mod_idemp_l. f_equal. lia.
Qed.

Lemma ring_push_items {A} (x : A) r :
  ring_wf r -> (r.(ring_count) < ring_size r)%nat ->
  ring_items (ring_push x r) = ring_items r ++ [x].
Proof.
  intros [Hs Hh Hc Ht] Hlt. unfold ring_items, ring_push. simpl.
  assert (ring_size (mk_ring (<[ring_tail r := x]> (ring_slots r)) (ring_head r)
    ((ring_tail r + 1) mod ring_size r)%nat (ring_count r + 1)%nat) = ring_size r) as ->
    by (unfold ring_size; simpl; apply length_insert).
  rewrite seq_app, omap_app. f_equal.
  - apply omap_ext_in. intros k [_ Hk]%elem_of_seq. apply list_lookup_insert_ne.
    rewrite Ht. intros E. apply mod_inj in E; lia.
  - simpl. rewrite <- Ht, list_lookup_insert_eq; [done|].
    rewrite Ht. unfold ring_size in *. apply Nat.mod_upper_bound. lia.
Qed.

Lemma ring_pop_spec {A} (r : ring A) :
  ring_wf r -> (0 < r.(ring_count))%nat ->
  exists x r', ring_pop r = Some (x, r') /\ ring_wf r' /\ ring_items r = x :: ring_items r'
    /\ ring_size r' = ring_size r.
Proof.
  intros [Hs Hh Hc Ht] Hpos. unfold ring_pop.
  destruct (lookup_lt_is_Some_2 (ring_slots r) (ring_head r) Hh) as [x Hx]. rewrite Hx.
  exists x. eexists. split; [done|]. split_and!.
  - constructor; unfold ring_size in *; simpl; try lia.
    + apply Nat.mod_upper_bound. lia.
    + rewrite Ht, Nat.Div0.add_mod_idemp_l. f_equal. lia.
  - unfold ring_items. destruct (ring_count r) as [|c]; [lia|]. simpl.
    rewrite Nat.add_0_r, (Nat.mod_small (ring_head r)) by done. rewrite Hx. f_equal.
    rewrite Nat.sub_0_r, <- fmap_S_seq, omap_fmap. apply omap_ext_in.
    intros k _. simpl. unfold ring_size. simpl.
    rewrite Nat.Div0.add_mod_idemp_l. do 2 f_equal. lia.
  - done.
Qed.
#[export] Hint Resolve ring_new_wf ring_push_wf : cmodel.

(** ** The interface's theorem *)

Section fifo_theorem.
Context {Q A : Type} `{!BoundedFifo Q A}.

(** Whatever the interleaving, what was taken followed by what is still queued is what
    was queued followed by what was accepted: nothing is lost, duplicated or
    reordered, and the bound is kept. *)
Lemma fifo_run_order (cmds : list (fifo_cmd A)) (q : Q) :
  fifo_ok q ->
  let '(ins, outs, q') := fifo_run cmds q in
  outs ++ fifo_items q' = fifo_items q ++ ins
  /\ fifo_ok q' /\ (length (fifo_items q') <= fifo_cap q)%nat.
Proof.
  revert q. induction cmds as [|[x|] rest IH]; intros q Hq; simpl.
  - rewrite app_nil_r. auto using fifo_bound.
  - pose proof (fifo_push_ok x q Hq) as Hp. destruct (fifo_push x q) as [b q1].
    destruct Hp as (Hq1 & Hc & _ & Hi). specialize (IH q1 Hq1).
    destruct (fifo_run rest q1) as [[ins outs] q']. destruct IH as (-> & Hq' & Hb).
    rewrite Hi, <- Hc. split_and!; try done. destruct b; [|done]. by rewrite <- app_assoc.
  - pose proof (fifo_pop_ok q Hq) as Hp. destruct (fifo_pop q) as [[x q1]|].
    + destruct Hp as (Hq1 & Hc & Hi). specialize (IH q1 Hq1).
      destruct (fifo_run rest q1) as [[ins outs] q']. destruct IH as (E & Hq' & Hb).
      rewrite Hi, <- Hc. split_and!; try done. simpl. by rewrite E.
    + by apply IH.
Qed.

(** Every push into an open queue with room is accepted, and popping as often as there
    are items empties an open queue. *)
Lemma fifo_drain (q : Q) :
  fifo_ok q -> (forall q x q', fifo_pop q = Some (x, q') -> fifo_open q' = fifo_open q) ->
  fifo_open q = true ->
  let '(_, outs, q') := fifo_run (replicate (length (fifo_items q)) Pop) q in
  outs = fifo_items q /\ fifo_items q' = [].
Proof.
  intros Hq Hop. remember (length (fifo_items q)) as n eqn:En. revert q Hq En.
  induction n as [|n IH]; intros q Hq En Ho; simpl.
  - symmetry in En. apply nil_length_inv in En. by rewrite En.
  - pose proof (fifo_pop_ok q Hq) as Hp. destruct (fifo_pop q) as [[x q1]|] eqn:Ep.
    + destruct Hp as (Hq1 & Hc & Hi). rewrite Hi in En. simpl in En.
      specialize (IH q1 Hq1 ltac:(lia)). rewrite (Hop _ _ _ Ep), Ho in IH.
      specialize (IH eq_refl). destruct (fifo_run (replicate n Pop) q1) as [[ins outs] q'].
      destruct IH as [-> ->]. by rewrite Hi.
    + destruct Hp as [Hn|Hf]; [by rewrite Hn in En|congruence].
Qed.
End fifo_theorem.
