(* ===== verification/LeaseThreads.v ===== *)
(** * The DHCPv4 server's background threads

    [DHCPv4/src/lease_v4.c] from [lease_timer_init] on: the expiry timer, the
    asynchronous I/O queue and its thread, and the [dhcp_server_t] that owns them.
    Every critical section of the source (from a mutex lock to its unlock) is one
    step; a thread blocked in [pthread_cond_wait] has no step.  Whether
    [pthread_mutex_init], [pthread_cond_init], [pthread_create] and [malloc] succeed
    are boolean arguments. *)

From S2P Require Import Prelude Ring LeaseV4.

(** ** The expiry timer *)

Record lease_timer_t := mk_lease_timer {
  t_running : bool;
  t_check_interval_sec : Z;
  t_mutex_initialized : bool
}.

Definition lease_timer_init (check_interval_sec : Z) (mutex_ok cond_ok : bool)
    : option lease_timer_t :=
  if check_interval_sec =? 0 then None
  else if negb mutex_ok then None
  else if negb cond_ok then None
  else Some (mk_lease_timer false check_interval_sec true).

Definition lease_timer_start (thread_created : bool) (timer : lease_timer_t)
    : Z * lease_timer_t :=
  if negb timer.(t_mutex_initialized) then (-1, timer)
  else if timer.(t_running) then (-1, timer)
  else if thread_created
  then (0, mk_lease_timer true timer.(t_check_interval_sec) timer.(t_mutex_initialized))
  else (-1, mk_lease_timer false timer.(t_check_interval_sec) timer.(t_mutex_initialized)).

(** [lease_timer_stop]: the flag is cleared, the thread joined, the mutex destroyed. *)
Definition lease_timer_stop (timer : lease_timer_t) : lease_timer_t :=
  if negb timer.(t_mutex_initialized) then timer
  else if negb timer.(t_running) then timer
  else mk_lease_timer false timer.(t_check_interval_sec) false.

Definition lease_timer_is_running (timer : lease_timer_t) : bool :=
  if negb timer.(t_mutex_initialized) then false else timer.(t_running).

(** One round of [lease_timer_thread_func] after its timed wait: [None] when the
    thread leaves its loop, otherwise the number of leases it expired and the
    database. *)
Definition lease_timer_round (now : Z) (timer : lease_timer_t) (db : lease_database_t)
    : outcome (option (Z * lease_database_t)) :=
  if negb timer.(t_running) then Ret None
  else '(expired, db) ← lease_db_expire_old_leases_safe now db; Ret (Some (expired, db)).

(** ** The I/O queue *)

Definition IO_QUEUE_SIZE : nat := 256.

Inductive io_operation_type_t :=
| IO_OP_SAVE_LEASE
| IO_OP_SAVE_ALL
| IO_OP_SHUTDOWN.

#[export] Instance io_operation_type_eq_dec : EqDecision io_operation_type_t.
Proof. solve_decision. Defined.

(** [op_lease] is [None] where the source leaves the field uninitialised. *)
Record io_operation_t := mk_io_operation {
  op_type : io_operation_type_t;
  op_lease : option dhcp_lease_t;
  op_timestamp : Z
}.

Record lease_io_queue_t := mk_lease_io_queue {
  q_running : bool;
  q_queue : ring io_operation_t;
  q_mutex_initialized : bool;
  q_operations_processed : Z;
  q_operations_dropped : Z
}.

(** The zeroed cell: [IO_OP_SAVE_LEASE] is 0. *)
Definition zero_op : io_operation_t := mk_io_operation IO_OP_SAVE_LEASE (Some zero_lease) 0.

Definition lease_io_init (mutex_ok cond_ok : bool) : option lease_io_queue_t :=
  if negb mutex_ok then None
  else if negb cond_ok then None
  else Some (mk_lease_io_queue false (ring_new IO_QUEUE_SIZE zero_op) true 0 0).

Definition set_q_running (b : bool) (q : lease_io_queue_t) : lease_io_queue_t :=
  mk_lease_io_queue b q.(q_queue) q.(q_mutex_initialized) q.(q_operations_processed)
    q.(q_operations_dropped).

Definition set_q_queue (r : ring io_operation_t) (q : lease_io_queue_t) : lease_io_queue_t :=
  mk_lease_io_queue q.(q_running) r q.(q_mutex_initialized) q.(q_operations_processed)
    q.(q_operations_dropped).

Definition lease_io_start (thread_created : bool) (q : lease_io_queue_t)
    : Z * lease_io_queue_t :=
  if negb q.(q_mutex_initialized) then (-1, q)
  else if q.(q_running) then (-1, q)
  else if thread_created then (0, set_q_running true q)
  else (-1, set_q_running false q).

(** The critical section [lease_io_queue_save_lease] and [lease_io_queue_save_all]
    share: drop and count, or append. *)
Definition io_enqueue (op : io_operation_t) (q : lease_io_queue_t) : Z * lease_io_queue_t :=
  if bool_decide (IO_QUEUE_SIZE <= q.(q_queue).(ring_count))%nat
  then (-1, mk_lease_io_queue q.(q_running) q.(q_queue) q.(q_mutex_initialized)
              q.(q_operations_processed) (q.(q_operations_dropped) +u64 1))
  else (0, set_q_queue (ring_push op q.(q_queue)) q).

Definition lease_io_queue_save_lease (now : Z) (q : lease_io_queue_t) (lease : dhcp_lease_t)
    : Z * lease_io_queue_t :=
  if negb q.(q_mutex_initialized) then (-1, q)
  else io_enqueue (mk_io_operation IO_OP_SAVE_LEASE (Some lease) now) q.

Definition lease_io_queue_save_all (now : Z) (q : lease_io_queue_t)
    : Z * lease_io_queue_t :=
  if negb q.(q_mutex_initialized) then (-1, q)
  else io_enqueue (mk_io_operation IO_OP_SAVE_ALL None now) q.

(** [lease_io_stop] up to [pthread_join]: whether it goes on to join, and the queue
    left for the thread to see. *)
Definition lease_io_stop_request (now : Z) (q : lease_io_queue_t) : bool * lease_io_queue_t :=
  if negb q.(q_mutex_initialized) then (false, q)
  else if negb q.(q_running) then (false, q)
  else
    (true,
     if bool_decide (q.(q_queue).(ring_count) < IO_QUEUE_SIZE)%nat
     then set_q_queue (ring_push (mk_io_operation IO_OP_SHUTDOWN None now) q.(q_queue)) q
     else q).

(** The end of [lease_io_stop], once the thread is joined. *)
Definition lease_io_stop_joined (q : lease_io_queue_t) : lease_io_queue_t :=
  mk_lease_io_queue q.(q_running) q.(q_queue) false q.(q_operations_processed)
    q.(q_operations_dropped).

(** [lease_io_get_stats]: processed, dropped, pending. *)
Definition lease_io_get_stats (q : lease_io_queue_t) : option (Z * Z * nat) :=
  if negb q.(q_mutex_initialized) then None
  else Some (q.(q_operations_processed), q.(q_operations_dropped), q.(q_queue).(ring_count)).

Definition lease_io_is_running (q : lease_io_queue_t) : bool :=
  if negb q.(q_mutex_initialized) then false else q.(q_running).

(** Where [lease_io_thread_func] is: about to take the lock, holding an operation it
    dequeued, or returned. *)
Inductive io_pc :=
| IoLoop
| IoHolding (op : io_operation_t)
| IoExited.

(** The next step of [lease_io_thread_func]: [None] while it waits for work or has
    returned; the operation carried out at this step, if any. *)
Definition lease_io_thread_step (q : lease_io_queue_t) (pc : io_pc)
    : option (lease_io_queue_t * io_pc * option io_operation_t) :=
  match pc with
  | IoLoop =>
      if bool_decide (q.(q_queue).(ring_count) = 0%nat) && q.(q_running) then None
      else if bool_decide (q.(q_queue).(ring_count) = 0%nat) && negb q.(q_running)
      then Some (q, IoExited, None)
      else '(op, r) ← ring_pop q.(q_queue);
           Some (set_q_queue r q, IoHolding op, None)
  | IoHolding op =>
      match op.(op_type) with
      | IO_OP_SHUTDOWN => Some (set_q_running false q, IoExited, Some op)
      | _ => Some (mk_lease_io_queue q.(q_running) q.(q_queue) q.(q_mutex_initialized)
                     (q.(q_operations_processed) +u64 1) q.(q_operations_dropped),
                   IoLoop, Some op)
      end
  | IoExited => None
  end.

(** The thread running alone, for at most [fuel] steps: the queue, where it stopped
    and the operations it carried out. *)
Fixpoint lease_io_thread_run (fuel : nat) (q : lease_io_queue_t) (pc : io_pc)
    : lease_io_queue_t * io_pc * list io_operation_t :=
  match fuel with
  | O => (q, pc, [])
  | S fuel =>
      match lease_io_thread_step q pc with
      | None => (q, pc, [])
      | Some (q, pc, o) =>
          let '(q, pc, done) := lease_io_thread_run fuel q pc in
          (q, pc, match o with Some op => op :: done | None => done end)
      end
  end.

(** The queue, its thread, and the history: operations accepted and carried out. *)
Record io_system := mk_io_system {
  sys_q : lease_io_queue_t;
  sys_pc : io_pc;
  sys_accepted : list io_operation_t;
  sys_done : list io_operation_t
}.

(** The threads that share a running queue: producers, the thread that stops it, the
    I/O thread. *)
Inductive io_sys_step : io_system -> io_system -> Prop :=
| IoSaveLease now lease q q' pc acc fin r :
    lease_io_queue_save_lease now q lease = (r, q') ->
    io_sys_step (mk_io_system q pc acc fin)
      (mk_io_system q' pc
        (if r =? 0 then acc ++ [mk_io_operation IO_OP_SAVE_LEASE (Some lease) now] else acc)
        fin)
| IoSaveAll now q q' pc acc fin r :
    lease_io_queue_save_all now q = (r, q') ->
    io_sys_step (mk_io_system q pc acc fin)
      (mk_io_system q' pc
        (if r =? 0 then acc ++ [mk_io_operation IO_OP_SAVE_ALL None now] else acc) fin)
| IoStop now q q' pc acc fin :
    lease_io_stop_request now q = (true, q') ->
    io_sys_step (mk_io_system q pc acc fin)
      (mk_io_system q' pc
        (if bool_decide (q.(q_queue).(ring_count) < IO_QUEUE_SIZE)%nat
         then acc ++ [mk_io_operation IO_OP_SHUTDOWN None now] else acc) fin)
| IoThread q q' pc pc' acc fin o :
    lease_io_thread_step q pc = Some (q', pc', o) ->
    io_sys_step (mk_io_system q pc acc fin)
      (mk_io_system q' pc' acc (match o with Some op => fin ++ [op] | None => fin end)).

Definition in_hand (pc : io_pc) : list io_operation_t :=
  match pc with IoHolding op => [op] | _ => [] end.

Definition is_shutdown (op : io_operation_t) : bool :=
  bool_decide (op.(op_type) = IO_OP_SHUTDOWN).

(** ** The server that owns them *)

Record dhcp_server_t := mk_dhcp_server {
  v_lease_db : option lease_database_t;
  v_timer : option lease_timer_t;
  v_io_queue : option lease_io_queue_t;
  v_shutdown_requested : bool;
  v_reload_requested : bool;
  v_server_mutex_locked : bool;
  v_mutex_initialized : bool
}.

Inductive signum := SIGINT | SIGTERM | SIGHUP | SIGOTHER.

(** [dhcp_server_signal_handler] with [g_server_instance] set to this server.  The
    lock it takes is the one [dhcp_server_wait_for_shutdown] holds outside its wait. *)
Definition dhcp_server_signal_handler (sig : signum) (s : dhcp_server_t)
    : outcome dhcp_server_t :=
  match sig with
  | SIGINT | SIGTERM =>
      let s := mk_dhcp_server s.(v_lease_db) s.(v_timer) s.(v_io_queue) true
                 s.(v_reload_requested) s.(v_server_mutex_locked) s.(v_mutex_initialized) in
      if s.(v_mutex_initialized) && s.(v_server_mutex_locked) then Fault Deadlock
      else Ret s
  | SIGHUP =>
      Ret (mk_dhcp_server s.(v_lease_db) s.(v_timer) s.(v_io_queue)
             s.(v_shutdown_requested) true s.(v_server_mutex_locked)
             s.(v_mutex_initialized))
  | SIGOTHER => Ret s
  end.

Definition dhcp_server_check_reload (s : dhcp_server_t) : bool * dhcp_server_t :=
  if s.(v_reload_requested)
  then (true, mk_dhcp_server s.(v_lease_db) s.(v_timer) s.(v_io_queue)
                s.(v_shutdown_requested) false s.(v_server_mutex_locked)
                s.(v_mutex_initialized))
  else (false, s).

(** [dhcp_server_start]; the two flags say whether each thread could be created. *)
Definition dhcp_server_start (timer_created io_created : bool) (s : dhcp_server_t)
    : Z * dhcp_server_t :=
  let with_timer s t := mk_dhcp_server s.(v_lease_db) t s.(v_io_queue)
    s.(v_shutdown_requested) s.(v_reload_requested) s.(v_server_mutex_locked)
    s.(v_mutex_initialized) in
  let with_io s q := mk_dhcp_server s.(v_lease_db) s.(v_timer) q
    s.(v_shutdown_requested) s.(v_reload_requested) s.(v_server_mutex_locked)
    s.(v_mutex_initialized) in
  let '(r, s) :=
    match s.(v_timer) with
    | None => (0, s)
    | Some t => let '(r, t) := lease_timer_start timer_created t in (r, with_timer s (Some t))
    end in
  if negb (r =? 0) then (-1, s)
  else
    match s.(v_io_queue) with
    | None => (0, s)
    | Some q =>
        let '(r, q) := lease_io_start io_created q in
        let s := with_io s (Some q) in
        if r =? 0 then (0, s)
        else (-1, with_timer s (lease_timer_stop <$> s.(v_timer)))
    end.

(** ** Lemmas *)

Definition io_queue_ok (q : lease_io_queue_t) : Prop :=
  ring_wf q.(q_queue) /\ ring_size q.(q_queue) = IO_QUEUE_SIZE.

Lemma ring_push_size {A} (x : A) r : ring_size (ring_push x r) = ring_size r.
Proof. unfold ring_size, ring_push. simpl. apply length_insert. Qed.

(** The I/O queue is a bounded FIFO. *)
#[export] Program Instance io_queue_fifo : BoundedFifo lease_io_queue_t io_operation_t := {|
  fifo_ok := io_queue_ok;
  fifo_items q := ring_items q.(q_queue);
  fifo_cap _ := IO_QUEUE_SIZE;
  fifo_open _ := true;
  fifo_valid _ := true;
  fifo_push op q := let '(r, q') := io_enqueue op q in (r =? 0, q');
  fifo_pop q := if bool_decide (q.(q_queue).(ring_count) = 0%nat) then None
                else '(op, r) ← ring_pop q.(q_queue); Some (op, set_q_queue r q)
|}.
Next Obligation. intros q [Hwf Hs]. rewrite length_ring_items by done. destruct Hwf. lia. Qed.
Next Obligation.
  intros op q [Hwf Hs]. unfold io_enqueue. rewrite length_ring_items by done.
  case_bool_decide as Hfull; simpl.
  - rewrite bool_decide_eq_false_2 by lia. done.
  - rewrite bool_decide_eq_true_2 by lia.
    split_and!; try done; [|by apply ring_push_items; [|lia]].
    split; simpl; [apply ring_push_wf; [done|lia]|by rewrite ring_push_size].
Qed.
Next Obligation.
  intros q [Hwf Hs]. case_bool_decide as Hc.
  - left. apply nil_length_inv. by rewrite length_ring_items.
  - destruct (ring_pop_spec (q_queue q) Hwf ltac:(lia)) as (x & r' & -> & Hwf' & Hi & Hs').
    simpl. split_and!; try done. split; simpl; [done|congruence].
Qed.

Lemma lease_io_init_ok q : lease_io_init true true = Some q ->
  io_queue_ok q /\ ring_items q.(q_queue) = [].
Proof.
  intros [= <-]. split; [split|]; simpl; [apply ring_new_wf; unfold IO_QUEUE_SIZE; lia| |done].
  unfold ring_size, ring_new, IO_QUEUE_SIZE. cbn [ring_slots]. apply length_replicate.
Qed.

(** The invariant of the running system. *)
Record io_sys_inv (s : io_system) : Prop := {
  si_ok : io_queue_ok s.(sys_q);
  si_history : s.(sys_accepted)
    = s.(sys_done) ++ in_hand s.(sys_pc) ++ ring_items s.(sys_q).(q_queue);
  si_processed : s.(sys_q).(q_operations_processed)
    = u64 (countb (fun op => negb (is_shutdown op)) s.(sys_done));
  si_exit : s.(sys_pc) = IoExited -> s.(sys_q).(q_running) = false
}.

Lemma u64_succ n : u64 (u64 n + 1) = u64 (n + 1).
Proof. unfold u64. apply Zplus_mod_idemp_l. Qed.

Lemma countb_snoc {A} (p : A -> bool) l x :
  countb p (l ++ [x]) = countb p l + (if p x then 1 else 0).
Proof. induction l as [|y l IH]; simpl; [destruct (p x); lia|]. rewrite IH. destruct (p y); lia. Qed.

Lemma enqueue_inv op q q' pc acc fin r :
  io_sys_inv (mk_io_system q pc acc fin) -> io_enqueue op q = (r, q') ->
  io_sys_inv (mk_io_system q' pc (if r =? 0 then acc ++ [op] else acc) fin).
Proof.
  intros [Hok Hh Hp He] E. simpl in *.
  pose proof (fifo_push_ok op q Hok) as H. simpl in H. rewrite E in H.
  destruct H as (Hok' & _ & _ & Hi). revert E. unfold io_enqueue.
  case_bool_decide; intros [= <- <-]; simpl in *; constructor; simpl; try done.
  rewrite Hi, Hh, <- !app_assoc. done.
Qed.

Lemma thread_step_inv q pc acc fin q' pc' o :
  io_sys_inv (mk_io_system q pc acc fin) ->
  lease_io_thread_step q pc = Some (q', pc', o) ->
  io_sys_inv (mk_io_system q' pc' acc (match o with Some op => fin ++ [op] | None => fin end)).
Proof.
  intros [Hok Hh Hp He]. simpl in *. destruct pc as [|op|]; simpl; [| |done].
  - pose proof (fifo_pop_ok q Hok) as H. simpl in H.
    case_bool_decide as Hc; simpl.
    + destruct (q_running q) eqn:Hr; simpl; [done|]. intros [= <- <- <-].
      constructor; simpl; done.
    + destruct (ring_pop (q_queue q)) as [[op r]|] eqn:Ep; [|done]. simpl in H.
      destruct H as (Hok' & _ & Hi). intros [= <- <- <-]. constructor; simpl; try done.
      rewrite Hh. simpl. by rewrite Hi.
  - pose proof (countb_snoc (fun op => negb (is_shutdown op)) fin op) as Hcs.
    cbn beta in Hcs.
    destruct (op_type op) eqn:Ht; intros [= <- <- <-]; constructor; simpl; try done;
      try (rewrite Hh; simpl; by rewrite <- app_assoc);
      rewrite Hcs; unfold is_shutdown; rewrite Ht; simpl; rewrite Hp;
      [apply u64_succ|apply u64_succ|by rewrite Z.add_0_r].
Qed.

Lemma stop_request_inv now q q' pc acc fin :
  io_sys_inv (mk_io_system q pc acc fin) -> lease_io_stop_request now q = (true, q') ->
  io_sys_inv (mk_io_system q' pc
    (if bool_decide (q.(q_queue).(ring_count) < IO_QUEUE_SIZE)%nat
     then acc ++ [mk_io_operation IO_OP_SHUTDOWN None now] else acc) fin).
Proof.
  intros Hinv. unfold lease_io_stop_request.
  destruct (q_mutex_initialized q); simpl; [|done]. destruct (q_running q); simpl; [|done].
  intros [= <-]. case_bool_decide as Hc; [|done].
  apply (enqueue_inv (mk_io_operation IO_OP_SHUTDOWN None now) q _ pc acc fin 0 Hinv).
  unfold io_enqueue. by rewrite bool_decide_eq_false_2 by lia.
Qed.

Lemma io_sys_step_inv s s' : io_sys_inv s -> io_sys_step s s' -> io_sys_inv s'.
Proof.
  intros Hinv Hst. revert Hinv.
  destruct Hst as [now lease q q' pc acc fin r E|now q q' pc acc fin r E|now q q' pc acc fin E
    |q q' pc pc' acc fin o E]; intros Hinv; eauto using stop_request_inv, thread_step_inv.
  - unfold lease_io_queue_save_lease in E. destruct (q_mutex_initialized q); simpl in E.
    + by eapply enqueue_inv.
    + by injection E as <- <-.
  - unfold lease_io_queue_save_all in E. destruct (q_mutex_initialized q); simpl in E.
    + by eapply enqueue_inv.
    + by injection E as <- <-.
Qed.
#[export] Hint Resolve io_sys_step_inv : cmodel.

(** The thread alone carries out a prefix of the queue, two steps per operation. *)
Lemma thread_run_prefix (l rest : list io_operation_t) q k :
  io_queue_ok q -> ring_items q.(q_queue) = l ++ rest ->
  Forall (fun op => is_shutdown op = false) l ->
  exists q1, io_queue_ok q1 /\ ring_items q1.(q_queue) = rest
    /\ q1.(q_running) = q.(q_running)
    /\ lease_io_thread_run (2 * length l + k) q IoLoop
       = let '(q2, pc2, fin) := lease_io_thread_run k q1 IoLoop in (q2, pc2, l ++ fin).
Proof.
  revert q. induction l as [|op l IH]; intros q Hok Hi Hl.
  { exists q. split_and!; try done. simpl.
    by destruct (lease_io_thread_run k q IoLoop) as [[q2 pc2] fin]. }
  apply Forall_cons in Hl as [Hop Hl].
  pose proof (fifo_pop_ok q Hok) as H. simpl in H.
  assert (ring_count (q_queue q) <> 0%nat) as Hc.
  { rewrite <- length_ring_items by apply Hok. by rewrite Hi. }
  rewrite bool_decide_eq_false_2 in H by done.
  destruct (ring_pop (q_queue q)) as [[x r]|] eqn:Ep; simpl in H.
  2: { rewrite Hi in H. by destruct H. }
  destruct H as (Hok1 & _ & Hi1). rewrite Hi in Hi1. injection Hi1 as <- Hi1.
  set (q0 := mk_lease_io_queue (q_running q) r (q_mutex_initialized q)
    (q_operations_processed q +u64 1) (q_operations_dropped q)).
  destruct (IH q0 Hok1 (eq_sym Hi1) Hl) as (q1 & Hq1 & Hi1' & Hr1 & Hrun).
  exists q1. split_and!; try done.
  replace (2 * length (op :: l) + k)%nat with (S (S (2 * length l + k))) by (simpl; lia).
  cbn [lease_io_thread_run lease_io_thread_step]. rewrite bool_decide_eq_false_2 by done.
  cbn [andb]. rewrite Ep. cbn [mbind option_bind lease_io_thread_run lease_io_thread_step].
  unfold is_shutdown in Hop. apply bool_decide_eq_false in Hop.
  destruct (op_type op); [| |done];
    match goal with |- context [lease_io_thread_run ?f ?x IoLoop] =>
      change (lease_io_thread_run f x IoLoop)
        with (lease_io_thread_run (2 * length l + k) q0 IoLoop) end;
    rewrite Hrun; by destruct (lease_io_thread_run k q1 IoLoop) as [[q2 pc2] fin].
Qed.

(** A thread that has no step left does not move with more fuel. *)
Lemma thread_run_more a b q pc :
  let '(q2, pc2, fin) := lease_io_thread_run a q pc in
  lease_io_thread_step q2 pc2 = None ->
  lease_io_thread_run (a + b) q pc = (q2, pc2, fin).
Proof.
  revert q pc. induction a as [|a IH]; intros q pc; cbn [lease_io_thread_run Nat.add].
  { intros H. destruct b as [|b]; [done|]. cbn [lease_io_thread_run]. by rewrite H. }
  destruct (lease_io_thread_step q pc) as [[[q1 pc1] o]|] eqn:E; [|done].
  specialize (IH q1 pc1). destruct (lease_io_thread_run a q1 pc1) as [[q2 pc2] fin].
  intros H. by rewrite (IH H).
Qed.

(** A running queue with no shutdown operation in it: the thread empties it and waits. *)
Lemma thread_run_stuck q :
  io_queue_ok q -> q.(q_running) = true ->
  Forall (fun op => is_shutdown op = false) (ring_items q.(q_queue)) ->
  exists q2, lease_io_thread_step q2 IoLoop = None
  /\ forall fuel, lease_io_thread_run (2 * q.(q_queue).(ring_count) + fuel) q IoLoop
       = (q2, IoLoop, ring_items q.(q_queue)).
Proof.
  intros Hok Hr Hall.
  destruct (thread_run_prefix (ring_items (q_queue q)) [] q 0 Hok)
    as (q2 & Hok2 & Hi2 & Hr2 & Hrun); [by rewrite app_nil_r|done|].
  rewrite length_ring_items in Hrun by apply Hok. cbn [lease_io_thread_run] in Hrun.
  rewrite app_nil_r, Nat.add_0_r in Hrun. exists q2.
  assert (lease_io_thread_step q2 IoLoop = None) as Hstep.
  { simpl. rewrite bool_decide_eq_true_2; [by rewrite Hr2, Hr|].
    rewrite <- length_ring_items by apply Hok2. by rewrite Hi2. }
  split; [exact Hstep|]. intros fuel.
  pose proof (thread_run_more (2 * ring_count (q_queue q)) fuel q IoLoop) as Hm.
  rewrite Hrun in Hm. by apply Hm.
Qed.

(** ** Properties *)

(** The asynchronous I/O queue loses, duplicates and reorders nothing it
    accepted.  From a freshly initialised and started queue, in every state reached by
    any interleaving of producers saving leases or the whole database, a stopping
    thread and the I/O thread, the operations accepted are, in order, those carried
    out, the one the thread holds and those in the buffer; at most 256 are in the
    buffer, [operations_processed] counts those carried out other than the shutdown
    (modulo 2^64), and the thread has returned only if [running] is false. *)
Lemma lease_io_order (q0 q1 : lease_io_queue_t) (r : Z) (s : io_system) :
  lease_io_init true true = Some q0 -> lease_io_start true q0 = (r, q1) ->
  steps io_sys_step (mk_io_system q1 IoLoop [] []) s ->
  s.(sys_accepted) = s.(sys_done) ++ in_hand s.(sys_pc) ++ ring_items s.(sys_q).(q_queue)
  /\ (length (ring_items s.(sys_q).(q_queue)) <= IO_QUEUE_SIZE)%nat
  /\ s.(sys_q).(q_operations_processed)
     = u64 (countb (fun op => negb (is_shutdown op)) s.(sys_done))
  /\ (s.(sys_pc) = IoExited -> s.(sys_q).(q_running) = false).
Proof.
  intros Hinit Hstart Hsteps. destruct (lease_io_init_ok q0 Hinit) as [Hok Hi].
  assert (io_sys_inv s) as [Hok' Hh Hp He].
  { eapply steps_invariant; [| |exact Hsteps].
    - intros a b. apply io_sys_step_inv.
    - injection Hinit as <-. injection Hstart as <- <-. by constructor. }
  split_and!; try done. exact (fifo_bound (A := io_operation_t) (sys_q s) Hok').
Qed.

Lemma lease_io_order_witness :
  exists s, s.(sys_accepted) = [mk_io_operation IO_OP_SAVE_ALL None 5]
    /\ s.(sys_accepted) = s.(sys_done) ++ in_hand s.(sys_pc) ++ ring_items s.(sys_q).(q_queue).
Proof.
  eexists. split; [|eapply (lease_io_order _ _ 0); [reflexivity|reflexivity|]].
  2: { apply steps_one. eapply (IoSaveAll 5). vm_compute. reflexivity. }
  reflexivity.
Defined.

(** Stopping a running queue with room flushes it: the request is followed by a
    join, and the I/O thread, left alone, carries out every pending operation in
    order, then the shutdown, and returns after at most [2 * pending + 2] steps. *)
Lemma lease_io_stop_flushes (now : Z) (q : lease_io_queue_t) :
  io_queue_ok q -> q.(q_mutex_initialized) = true -> q.(q_running) = true ->
  (q.(q_queue).(ring_count) < IO_QUEUE_SIZE)%nat ->
  Forall (fun op => is_shutdown op = false) (ring_items q.(q_queue)) ->
  exists q' q2, lease_io_stop_request now q = (true, q')
  /\ lease_io_thread_run (2 * q.(q_queue).(ring_count) + 2) q' IoLoop
     = (q2, IoExited, ring_items q.(q_queue) ++ [mk_io_operation IO_OP_SHUTDOWN None now])
  /\ q2.(q_running) = false /\ ring_items q2.(q_queue) = [].
Proof.
  intros Hok Hm Hr Hc Hall. unfold lease_io_stop_request. rewrite Hm, Hr.
  rewrite bool_decide_eq_true_2 by done. cbn [negb].
  set (op := mk_io_operation IO_OP_SHUTDOWN None now).
  set (q' := set_q_queue (ring_push op (q_queue q)) q).
  pose proof (fifo_push_ok op q Hok) as H. simpl in H. unfold io_enqueue in H.
  rewrite bool_decide_eq_false_2 in H by lia. simpl in H. destruct H as (Hok' & _ & _ & Hi').
  destruct (thread_run_prefix (ring_items (q_queue q)) [op] q' 2 Hok' Hi' Hall)
    as (q1 & Hok1 & Hi1 & Hr1 & Hrun).
  rewrite length_ring_items in Hrun by apply Hok. exists q'.
  pose proof (fifo_pop_ok q1 Hok1) as H. simpl in H.
  assert (ring_count (q_queue q1) <> 0%nat) as Hc1.
  { rewrite <- length_ring_items by apply Hok1. by rewrite Hi1. }
  rewrite bool_decide_eq_false_2 in H by done.
  destruct (ring_pop (q_queue q1)) as [[x r]|] eqn:Ep; simpl in H.
  2: { rewrite Hi1 in H. by destruct H. }
  destruct H as (_ & _ & H). rewrite Hi1 in H. injection H as <- Hnil.
  exists (set_q_running false (set_q_queue r q1)). split; [done|]. split; [|done].
  rewrite Hrun. cbn [lease_io_thread_run lease_io_thread_step].
  rewrite bool_decide_eq_false_2 by done. cbn [andb]. rewrite Ep. done.
Qed.

Lemma lease_io_stop_flushes_witness :
  exists q' q2 fin, lease_io_stop_request 9
      (lease_io_queue_save_all 5 (mk_lease_io_queue true (ring_new 256 zero_op) true 0 0)).2
    = (true, q')
  /\ lease_io_thread_run 4 q' IoLoop = (q2, IoExited, fin) /\ length fin = 2%nat.
Proof.
  destruct (lease_io_stop_flushes 9 (lease_io_queue_save_all 5
      (mk_lease_io_queue true (ring_new 256 zero_op) true 0 0)).2)
    as (q' & q2 & H1 & H2 & _).
  - split; [constructor; vm_compute; lia|reflexivity].
  - reflexivity.
  - reflexivity.
  - vm_compute. lia.
  - vm_compute. repeat constructor.
  - exists q', q2. eexists. split; [exact H1|]. split; [exact H2|]. reflexivity.
Defined.

(** Stopping a full queue does not stop it.  The shutdown operation is dropped
    and [running] is left true, so after carrying out all 256 pending operations the
    I/O thread waits for work that never comes: it has no further step and has not
    returned, and the join in [lease_io_stop] does not either. *)
Lemma lease_io_stop_full_blocks (now : Z) (q : lease_io_queue_t) :
  io_queue_ok q -> q.(q_mutex_initialized) = true -> q.(q_running) = true ->
  q.(q_queue).(ring_count) = IO_QUEUE_SIZE ->
  Forall (fun op => is_shutdown op = false) (ring_items q.(q_queue)) ->
  exists q2, lease_io_stop_request now q = (true, q)
  /\ (forall fuel, lease_io_thread_run (2 * IO_QUEUE_SIZE + fuel) q IoLoop
        = (q2, IoLoop, ring_items q.(q_queue)))
  /\ lease_io_thread_step q2 IoLoop = None.
Proof.
  intros Hok Hm Hr Hc Hall. unfold lease_io_stop_request. rewrite Hm, Hr.
  rewrite bool_decide_eq_false_2 by lia. cbn [negb].
  destruct (thread_run_stuck q Hok Hr Hall) as (q2 & Hstep & Hrun).
  exists q2. split; [reflexivity|]. split; [|exact Hstep].
  intros fuel. rewrite <- Hc. apply Hrun.
Qed.

(** A queue filled by 256 requests. *)
Definition full_queue : lease_io_queue_t :=
  Nat.iter 256 (fun q => (lease_io_queue_save_all 5 q).2)
    (mk_lease_io_queue true (ring_new 256 zero_op) true 0 0).

Lemma lease_io_stop_full_blocks_witness :
  exists q2, lease_io_stop_request 9 full_queue = (true, full_queue)
    /\ lease_io_thread_step q2 IoLoop = None.
Proof.
  destruct (lease_io_stop_full_blocks 9 full_queue) as (q2 & H1 & _ & H3).
  - split; [constructor; vm_compute; lia|vm_compute; reflexivity].
  - vm_compute. reflexivity.
  - vm_compute. reflexivity.
  - vm_compute. reflexivity.
  - apply Forall_forall. intros op Hop. eapply (forallb_elem (fun op => negb (is_shutdown op))) in Hop;
      [|vm_compute; reflexivity]. by apply negb_true_iff in Hop.
  - exists q2. split; [exact H1|exact H3].
Defined.
