(* ===== verification/ShutdownWaitV4.v ===== *)
(** * Waiting for the shutdown of the DHCPv4 server

    [dhcp_server_setup_signals] and [dhcp_server_wait_for_shutdown] of
    [DHCPv4/src/lease_v4.c], with the signal handler of [LeaseThreads].  The waiting thread
    is a small machine over the server's mutex and condition variable; signals arrive at any
    of its points, and the condition variable may wake it without a reason. *)

From S2P Require Import Prelude LeaseV4 LeaseThreads.

(** The points of [dhcp_server_wait_for_shutdown]: before the lock; at the test of the loop,
    with the lock held; asleep in [pthread_cond_wait], the lock released; woken, before the
    lock is taken again; returned. *)
Inductive wait_pc :=
  | WaitEntry
  | WaitTest
  | WaitSleep
  | WaitWoken
  | WaitDone.

#[global] Instance wait_pc_eq_dec : EqDecision wait_pc.
Proof. solve_decision. Defined.

(** [g_server_instance] is the pointer the handler uses; [w_handlers] are the signals it is
    installed for. *)
Record wait_state := mk_wait_state {
  w_pc : wait_pc;
  w_server : dhcp_server_t;
  w_instance : bool;
  w_handlers : list signum
}.

Definition set_mutex (v : bool) (s : dhcp_server_t) : dhcp_server_t :=
  mk_dhcp_server s.(v_lease_db) s.(v_timer) s.(v_io_queue) s.(v_shutdown_requested) s.(v_reload_requested) v
    s.(v_mutex_initialized).

Definition dhcp_server_setup_signals (w : wait_state) : wait_state :=
  mk_wait_state w.(w_pc) w.(w_server) true [SIGINT; SIGTERM; SIGHUP].

(** One step of the waiting thread; [None] when it cannot go on. *)
Definition dhcp_server_wait_for_shutdown (w : wait_state) : option wait_state :=
  let s := w.(w_server) in
  let go pc s := Some (mk_wait_state pc s w.(w_instance) w.(w_handlers)) in
  match w.(w_pc) with
  | WaitEntry =>
      if negb s.(v_mutex_initialized) then go WaitDone s
      else if s.(v_server_mutex_locked) then None else go WaitTest (set_mutex true s)
  | WaitTest => if s.(v_shutdown_requested) then go WaitDone (set_mutex false s) else go WaitSleep (set_mutex false s)
  | WaitSleep => None
  | WaitWoken => if s.(v_server_mutex_locked) then None else go WaitTest (set_mutex true s)
  | WaitDone => None
  end.

Definition ends_server (sig : signum) : bool := match sig with SIGINT | SIGTERM => true | _ => false end.

(** A signal delivered to the waiting thread; those without a handler are not considered. *)
Definition deliver (sig : signum) (w : wait_state) : outcome wait_state :=
  if negb w.(w_instance) then Ret w
  else
    s ← dhcp_server_signal_handler sig w.(w_server);
    let woken := ends_server sig && s.(v_mutex_initialized) && bool_decide (w.(w_pc) = WaitSleep) in
    Ret (mk_wait_state (if woken then WaitWoken else w.(w_pc)) s w.(w_instance) w.(w_handlers)).

Inductive wait_event :=
  | WaitStep
  | WaitSignal (sig : signum)
  | WaitSpurious.

Definition wait_exec (e : wait_event) (w : wait_state) : outcome wait_state :=
  match e with
  | WaitStep => Ret (default w (dhcp_server_wait_for_shutdown w))
  | WaitSignal sig => deliver sig w
  | WaitSpurious =>
      Ret (if bool_decide (w.(w_pc) = WaitSleep) then mk_wait_state WaitWoken w.(w_server) w.(w_instance) w.(w_handlers) else w)
  end.

Fixpoint wait_run (es : list wait_event) (w : wait_state) : outcome wait_state :=
  match es with
  | [] => Ret w
  | e :: es => w ← wait_exec e w; wait_run es w
  end.

(** ** Properties *)

Record wait_ok (w : wait_state) : Prop := {
  wo_instance : w.(w_instance) = true;
  wo_mutex : w.(w_server).(v_mutex_initialized) = true;
  wo_locked : w.(w_server).(v_server_mutex_locked) = bool_decide (w.(w_pc) = WaitTest);
  wo_sleep : w.(w_pc) = WaitSleep -> w.(w_server).(v_shutdown_requested) = false;
  wo_done : w.(w_pc) = WaitDone -> w.(w_server).(v_shutdown_requested) = true
}.

(** A signal that ends the server, or none, in the window in which the handler blocks. *)
Definition in_window (e : wait_event) (w : wait_state) : bool :=
  match e with WaitSignal sig => ends_server sig && bool_decide (w.(w_pc) = WaitTest) | _ => false end.

Lemma wait_exec_ok e w : wait_ok w ->
  if in_window e w then wait_exec e w = Fault Deadlock
  else exists w', wait_exec e w = Ret w' /\ wait_ok w'
       /\ (w.(w_server).(v_shutdown_requested) = true -> w'.(w_server).(v_shutdown_requested) = true)
       /\ (forall sig, e = WaitSignal sig -> ends_server sig = true -> w'.(w_server).(v_shutdown_requested) = true).
Proof.
  intros [Hi Hm Hl Hs Hd]. destruct w as [pc s inst hs]. cbn [w_pc w_server w_instance] in *. subst inst.
  destruct s as [db ti io sh re lo mi]. cbn [v_mutex_initialized v_server_mutex_locked v_shutdown_requested] in *. subst mi lo.
  destruct e as [|sig|]; cbn [in_window wait_exec]; [|destruct sig; cbn [ends_server andb]|];
    destruct pc, sh; try (specialize (Hs eq_refl); discriminate Hs); try (specialize (Hd eq_refl); discriminate Hd);
    first [reflexivity | (eexists; split; [reflexivity|]; split; [constructor; (reflexivity || discriminate || done)|];
      split; [done || discriminate|]; intros ? [= <-]; (reflexivity || discriminate))
    | (eexists; split; [reflexivity|]; split; [constructor; (reflexivity || discriminate || done)|]; split; [done || discriminate|]; intros ? [=])].
Qed.

(** The signals of a run that arrive inside of the window. *)
Fixpoint meets_window (es : list wait_event) (w : wait_state) : bool :=
  match es with
  | [] => false
  | e :: es => in_window e w || match wait_exec e w with Ret w => meets_window es w | Fault _ => false end
  end.

(** Once the flag is set three steps of the thread are enough. *)
Lemma wait_ends w : wait_ok w -> w.(w_server).(v_shutdown_requested) = true ->
  exists w', wait_run [WaitStep; WaitStep; WaitStep] w = Ret w' /\ w'.(w_pc) = WaitDone.
Proof.
  intros [Hi Hm Hl Hs Hd] Hr. destruct w as [pc s inst hs]. cbn [w_pc w_server w_instance] in *.
  destruct s as [db ti io sh re lo mi]. cbn [v_mutex_initialized v_server_mutex_locked v_shutdown_requested] in *. subst mi sh.
  destruct pc; cbn in Hl; subst lo; try (specialize (Hs eq_refl); done); by eexists.
Qed.

(** The wait for the shutdown loses no signal.  From the installation of the handlers on,
    for every sequence of steps of the waiting thread, spurious wake-ups and signals: the wait
    returns only after SIGINT or SIGTERM; when one has come, wherever the thread was, three
    more of its steps end the wait; and the only thing that can go wrong is such a signal
    handled by the waiting thread itself while it holds the mutex, which blocks for ever. *)
Lemma shutdown_wait (es : list wait_event) (s : dhcp_server_t) :
  s.(v_mutex_initialized) = true -> s.(v_server_mutex_locked) = false -> s.(v_shutdown_requested) = false ->
  let w0 := dhcp_server_setup_signals (mk_wait_state WaitEntry s false []) in
  if meets_window es w0 then wait_run es w0 = Fault Deadlock
  else exists w, wait_run es w0 = Ret w
       /\ (w.(w_pc) = WaitDone -> w.(w_server).(v_shutdown_requested) = true)
       /\ ((exists sig, WaitSignal sig ∈ es /\ ends_server sig = true) ->
           exists w', wait_run [WaitStep; WaitStep; WaitStep] w = Ret w' /\ w'.(w_pc) = WaitDone).
Proof.
  intros Hm Hl Hr w0. assert (wait_ok w0) as Hok by (by constructor; [..|done|done]).
  assert (forall w, wait_ok w -> if meets_window es w then wait_run es w = Fault Deadlock
    else exists w', wait_run es w = Ret w' /\ wait_ok w'
         /\ (w.(w_server).(v_shutdown_requested) = true \/ (exists sig, WaitSignal sig ∈ es /\ ends_server sig = true) ->
             w'.(w_server).(v_shutdown_requested) = true)) as H.
  { clear. induction es as [|e es IH]; intros w Hw; cbn [meets_window wait_run].
    - exists w. split; [done|]. split; [done|]. intros [?|(sig & Hin & _)]; [done|]. by apply elem_of_nil in Hin.
    - pose proof (wait_exec_ok e w Hw) as He. destruct (in_window e w); [cbn [orb]; by rewrite He|].
      destruct He as (w1 & -> & Hw1 & Hk & Hsig). cbn [orb]. rewrite bind_Ret. specialize (IH w1 Hw1).
      destruct (meets_window es w1); [done|]. destruct IH as (w2 & E & Hw2 & Hset). exists w2. split; [done|]. split; [done|].
      intros [Hs|(sig & Hin & Hend)]; [apply Hset; left; by apply Hk|].
      apply elem_of_cons in Hin as [Heq|Hin]; [apply Hset; left; by apply (Hsig sig)|]. apply Hset. right. by exists sig. }
  specialize (H w0 Hok). destruct (meets_window es w0); [done|]. destruct H as (w & E & Hw & Hset). exists w. split; [done|].
  split; [apply (wo_done _ Hw)|]. intros Hsig. apply wait_ends; [done|]. apply Hset. by right.
Qed.

Definition waiting_server : dhcp_server_t := mk_dhcp_server None None None false false false true.

Lemma shutdown_wait_witness :
  (exists w, wait_run [WaitStep; WaitStep; WaitSpurious; WaitStep; WaitStep; WaitSignal SIGHUP; WaitSignal SIGTERM]
     (dhcp_server_setup_signals (mk_wait_state WaitEntry waiting_server false [])) = Ret w
   /\ exists w', wait_run [WaitStep; WaitStep; WaitStep] w = Ret w' /\ w'.(w_pc) = WaitDone)
  /\ wait_run [WaitStep; WaitSignal SIGINT] (dhcp_server_setup_signals (mk_wait_state WaitEntry waiting_server false [])) = Fault Deadlock.
Proof.
  split.
  - destruct (shutdown_wait [WaitStep; WaitStep; WaitSpurious; WaitStep; WaitStep; WaitSignal SIGHUP; WaitSignal SIGTERM] waiting_server
      eq_refl eq_refl eq_refl) as (w & E & _ & H). exists w. split; [exact E|]. apply H. exists SIGTERM.
    split; [do 6 right; left|reflexivity].
  - exact (shutdown_wait [WaitStep; WaitSignal SIGINT] waiting_server eq_refl eq_refl eq_refl).
Defined.
