(* ===== verification/ThreadPool.v ===== *)
(** * The DHCPv4 server's thread pool

    [DHCPv4/utils/thread_pool.c].  A task is a function pointer and an argument,
    both addresses.  The pool mutex is [tp_locked]: [thread_pool_destroy] has a path
    that returns with it held.  A worker's critical section is one step. *)

From stdpp Require Import relations.
From S2P Require Import Prelude Ring.

Definition MAX_THREADS : Z := 64.
Definition MAX_QUEUE : Z := 65536.

Record thread_task_t := mk_thread_task {
  task_function : Z;
  task_argument : Z
}.

#[export] Instance thread_task_eq_dec : EqDecision thread_task_t.
Proof. solve_decision. Defined.

Record thread_pool_t := mk_thread_pool {
  tp_queue : ring thread_task_t;
  tp_thread_count : Z;
  tp_shutdown : Z;
  tp_started : Z;
  tp_locked : bool
}.

(** What [thread_pool_worker] does when it holds the lock: wait, leave, or run the
    task it took. *)
Inductive worker_action :=
| WorkerWait
| WorkerExit (pool : thread_pool_t)
| WorkerRun (task : thread_task_t) (pool : thread_pool_t).

(** [thread_pool_create] with all allocations and thread creations successful;
    [garbage] is what the malloc'ed array holds. *)
Definition thread_pool_create (garbage : thread_task_t) (num_threads queue_size : Z)
    : option thread_pool_t :=
  if (num_threads <=? 0) || (MAX_THREADS <? num_threads) || (queue_size <=? 0)
     || (MAX_QUEUE <? queue_size)
  then None
  else Some (mk_thread_pool (ring_new (Z.to_nat queue_size) garbage) num_threads 0
               num_threads false).

(** [thread_pool_add]; a null [function] is 0. *)
Definition thread_pool_add (pool : thread_pool_t) (function argument : Z)
    : outcome (Z * thread_pool_t) :=
  if function =? 0 then Ret (-1, pool)
  else if pool.(tp_locked) then Fault Deadlock
  else if bool_decide (pool.(tp_queue).(ring_count) = ring_size pool.(tp_queue))
  then Ret (-1, pool)
  else if negb (pool.(tp_shutdown) =? 0) then Ret (-1, pool)
  else Ret (0, mk_thread_pool (ring_push (mk_thread_task function argument) pool.(tp_queue))
                 pool.(tp_thread_count) pool.(tp_shutdown) pool.(tp_started) false).

(** [thread_pool_destroy] up to the joins; the result is -1 when it returns early,
    with the mutex still held. *)
Definition thread_pool_destroy (pool : thread_pool_t) (flags : Z)
    : outcome (Z * thread_pool_t) :=
  if pool.(tp_locked) then Fault Deadlock
  else if negb (pool.(tp_shutdown) =? 0)
  then Ret (-1, mk_thread_pool pool.(tp_queue) pool.(tp_thread_count)
                  pool.(tp_shutdown) pool.(tp_started) true)
  else Ret (0, mk_thread_pool pool.(tp_queue) pool.(tp_thread_count)
                 (if negb (Z.land flags 1 =? 0) then 2 else 1) pool.(tp_started) false).

(** One iteration of [thread_pool_worker] at the top of its loop. *)
Definition thread_pool_worker (pool : thread_pool_t) : outcome worker_action :=
  if pool.(tp_locked) then Fault Deadlock
  else
    let count := pool.(tp_queue).(ring_count) in
    if bool_decide (count = 0%nat) && (pool.(tp_shutdown) =? 0) then Ret WorkerWait
    else if ((pool.(tp_shutdown) =? 1) && bool_decide (count = 0%nat))
            || (pool.(tp_shutdown) =? 2)
    then Ret (WorkerExit (mk_thread_pool pool.(tp_queue) pool.(tp_thread_count)
                            pool.(tp_shutdown) (pool.(tp_started) - 1) false))
    else
      '(task, q) ← in_bounds (ring_pop pool.(tp_queue));
      Ret (WorkerRun task (mk_thread_pool q pool.(tp_thread_count) pool.(tp_shutdown)
                             pool.(tp_started) false)).

(** ** The pool and its workers *)

Inductive worker_state :=
| WIdle
| WBusy (task : thread_task_t)
| WExited.

(** The pool, the workers, and the tasks accepted and taken so far. *)
Record tp_system := mk_tp_system {
  ts_pool : thread_pool_t;
  ts_workers : list worker_state;
  ts_accepted : list thread_task_t;
  ts_taken : list thread_task_t
}.

(** A step of worker [i]. *)
Inductive worker_step : tp_system -> tp_system -> Prop :=
| WExit i pool pool' ws acc tk :
    ws !! i = Some WIdle -> thread_pool_worker pool = Ret (WorkerExit pool') ->
    worker_step (mk_tp_system pool ws acc tk) (mk_tp_system pool' (<[i := WExited]> ws) acc tk)
| WTake i pool pool' ws acc tk task :
    ws !! i = Some WIdle -> thread_pool_worker pool = Ret (WorkerRun task pool') ->
    worker_step (mk_tp_system pool ws acc tk)
      (mk_tp_system pool' (<[i := WBusy task]> ws) acc (tk ++ [task]))
| WFinish i pool ws acc tk task :
    ws !! i = Some (WBusy task) ->
    worker_step (mk_tp_system pool ws acc tk) (mk_tp_system pool (<[i := WIdle]> ws) acc tk).

(** Any thread's step: a worker's, an addition, the destruction request. *)
Inductive tp_step : tp_system -> tp_system -> Prop :=
| TpWorker s s' : worker_step s s' -> tp_step s s'
| TpAdd pool pool' ws acc tk f a r :
    thread_pool_add pool f a = Ret (r, pool') ->
    tp_step (mk_tp_system pool ws acc tk)
      (mk_tp_system pool' ws (if r =? 0 then acc ++ [mk_thread_task f a] else acc) tk)
| TpDestroy pool pool' ws acc tk flags :
    thread_pool_destroy pool flags = Ret (0, pool') ->
    tp_step (mk_tp_system pool ws acc tk) (mk_tp_system pool' ws acc tk).

Definition tp_start (garbage : thread_task_t) (num_threads queue_size : Z)
    : option tp_system :=
  pool ← thread_pool_create garbage num_threads queue_size;
  Some (mk_tp_system pool (replicate (Z.to_nat num_threads) WIdle) [] []).

(** ** Lemmas *)

Definition pool_ok (pool : thread_pool_t) : Prop :=
  ring_wf pool.(tp_queue) /\ pool.(tp_locked) = false
  /\ (pool.(tp_shutdown) = 0 \/ pool.(tp_shutdown) = 1 \/ pool.(tp_shutdown) = 2).

Definition tp_push (t : thread_task_t) (pool : thread_pool_t) : bool * thread_pool_t :=
  match thread_pool_add pool t.(task_function) t.(task_argument) with
  | Ret (r, pool') => (r =? 0, pool')
  | Fault _ => (false, pool)
  end.

Definition tp_pop (pool : thread_pool_t) : option (thread_task_t * thread_pool_t) :=
  match thread_pool_worker pool with
  | Ret (WorkerRun t pool') => Some (t, pool')
  | _ => None
  end.

(** The pool seen through the queue interface; a null function is never queued. *)
#[export] Program Instance thread_pool_fifo : BoundedFifo thread_pool_t thread_task_t := {|
  fifo_ok := pool_ok;
  fifo_items pool := ring_items pool.(tp_queue);
  fifo_cap pool := ring_size pool.(tp_queue);
  fifo_open pool := pool.(tp_shutdown) =? 0;
  fifo_valid t := negb (t.(task_function) =? 0);
  fifo_push := tp_push;
  fifo_pop := tp_pop
|}.
Next Obligation. intros pool [Hwf _]. rewrite length_ring_items by done. apply Hwf. Qed.
Next Obligation.
  intros [f a] pool (Hwf & Hl & Hs). unfold tp_push, thread_pool_add. simpl.
  destruct (f =? 0); [done|]. simpl. rewrite Hl, length_ring_items by done.
  pose proof (ring_count_le _ Hwf). case_bool_decide as Hc.
  { rewrite andb_comm, bool_decide_eq_false_2 by lia. done. }
  rewrite (bool_decide_eq_true_2 (_ < _)%nat) by lia.
  destruct (tp_shutdown pool =? 0) eqn:Es; simpl; [|done].
  split; [split_and!; [apply ring_push_wf; [done|lia]|done|done]|].
  split; [|split; [done|]].
  - unfold ring_size, ring_push. simpl. apply length_insert.
  - apply ring_push_items; [done|lia].
Qed.
Next Obligation.
  intros pool (Hwf & Hl & Hs). unfold tp_pop, thread_pool_worker. rewrite Hl.
  assert (ring_count (tp_queue pool) = 0%nat -> ring_items (tp_queue pool) = []) as Hz.
  { intros Hz. apply nil_length_inv. by rewrite length_ring_items. }
  case_bool_decide as Hc; simpl.
  - destruct Hs as [->|[->| ->]]; simpl; auto.
  - rewrite andb_false_r. destruct (tp_shutdown pool =? 2) eqn:E2; simpl.
    { right. apply Z.eqb_eq in E2. by rewrite E2. }
    destruct (ring_pop_spec (tp_queue pool) Hwf ltac:(lia)) as (x & r' & -> & Hwf' & Hi & Hs').
    simpl. split_and!; try done.
Qed.

(** What a worker's critical section did, through the interface. *)
Lemma worker_run_spec pool t pool' :
  pool_ok pool -> thread_pool_worker pool = Ret (WorkerRun t pool') ->
  pool_ok pool' /\ ring_items pool.(tp_queue) = t :: ring_items pool'.(tp_queue)
  /\ pool'.(tp_shutdown) = pool.(tp_shutdown).
Proof.
  intros Hok E. pose proof (fifo_pop_ok pool Hok) as H. simpl in H. unfold tp_pop in H.
  rewrite E in H. destruct H as (Hok' & _ & Hi). split_and!; [done|done|].
  revert E. unfold thread_pool_worker. repeat split_guard; try done.
  destruct (ring_pop _) as [[t0 q]|]; simpl; [|done]. by intros [= _ <-].
Qed.

Lemma worker_exit_spec pool pool' :
  pool_ok pool -> thread_pool_worker pool = Ret (WorkerExit pool') ->
  pool_ok pool' /\ pool'.(tp_queue) = pool.(tp_queue)
  /\ pool'.(tp_shutdown) = pool.(tp_shutdown) /\ pool.(tp_shutdown) <> 0
  /\ (pool.(tp_shutdown) = 1 -> ring_items pool.(tp_queue) = []).
Proof.
  intros (Hwf & Hl & Hs). unfold thread_pool_worker. rewrite Hl.
  destruct (bool_decide _ && _) eqn:E1; [done|].
  destruct (_ || _) eqn:E2.
  2: { destruct (ring_pop _) as [[? ?]|]; done. }
  intros [= <-]. simpl. split_and!; try done.
  - intros Hz. rewrite Hz in E2. by simpl in E2.
  - intros Hz. rewrite Hz in E2. simpl in E2. rewrite orb_false_r in E2.
    apply bool_decide_eq_true in E2. apply nil_length_inv. by rewrite length_ring_items.
Qed.

(** The system's invariant: tasks are taken in the order they were accepted; no worker
    leaves a pool that is not shutting down, nor a gracefully stopped one with tasks. *)
Record tp_inv (s : tp_system) : Prop := {
  ti_ok : pool_ok s.(ts_pool);
  ti_order : s.(ts_accepted) = s.(ts_taken) ++ ring_items s.(ts_pool).(tp_queue);
  ti_exit : WExited ∈ s.(ts_workers) ->
    s.(ts_pool).(tp_shutdown) <> 0
    /\ (s.(ts_pool).(tp_shutdown) = 1 -> ring_items s.(ts_pool).(tp_queue) = [])
}.

Lemma exited_insert (i : nat) w (ws : list worker_state) :
  w <> WExited -> WExited ∈ <[i := w]> ws -> WExited ∈ ws.
Proof.
  intros Hw [j Hj]%list_elem_of_lookup. apply list_lookup_insert_Some in Hj
    as [(-> & -> & _)|[_ Hj]]; [done|]. by eapply list_elem_of_lookup_2.
Qed.

Lemma worker_step_inv s s' : tp_inv s -> worker_step s s' -> tp_inv s'.
Proof.
  intros [Hok Ho He] Hst. revert Hok Ho He.
  destruct Hst as [i pool pool' ws acc tk Hi E|i pool pool' ws acc tk t Hi E|i pool ws acc tk t Hi];
    simpl; intros Hok Ho He.
  - destruct (worker_exit_spec pool pool' Hok E) as (Hok' & Hq & Hs & Hs0 & Hs1).
    constructor; simpl; [done|by rewrite Hq|]. intros _. by rewrite Hs, Hq.
  - destruct (worker_run_spec pool t pool' Hok E) as (Hok' & Hi' & Hs).
    constructor; simpl; [done|by rewrite Ho, Hi', <- app_assoc|].
    intros Hx%exited_insert; [|done]. destruct (He Hx) as [H0 H1]. rewrite Hs.
    split; [done|]. intros H. rewrite (H1 H) in Hi'. done.
  - constructor; simpl; [done|done|]. intros Hx%exited_insert; [auto|done].
Qed.

Lemma tp_step_inv s s' : tp_inv s -> tp_step s s' -> tp_inv s'.
Proof.
  intros Hinv Hst. revert Hinv.
  destruct Hst as [s s' Hw|pool pool' ws acc tk f a r E|pool pool' ws acc tk flags E];
    intros Hinv; [by eapply worker_step_inv|destruct Hinv as [Hok Ho He]; simpl in *..].
  - pose proof (fifo_push_ok (mk_thread_task f a) pool Hok) as H. simpl in H.
    unfold tp_push in H. simpl in H. rewrite E in H. destruct H as (Hok' & _ & Hb & Hi).
    constructor; simpl; [done| |].
    + rewrite Hi. destruct (r =? 0); [|done]. by rewrite Ho, <- app_assoc.
    + intros Hx. destruct (He Hx) as [H0 H1]. apply Z.eqb_neq in H0.
      rewrite H0, andb_false_r in Hb. simpl in Hb. rewrite Hb in Hi.
      revert E. unfold thread_pool_add. destruct Hok as (_ & -> & _).
      repeat split_guard; intros [= <- <-]; rewrite ?Hi; auto.
  - unfold thread_pool_destroy in E. destruct Hok as (Hwf & Hl & Hs). rewrite Hl in E.
    destruct (negb (tp_shutdown pool =? 0)) eqn:E0; [done|].
    injection E as <-. apply negb_false_iff, Z.eqb_eq in E0.
    constructor; simpl; [|done|].
    + split_and!; [done|done|]. simpl. destruct (negb (Z.land flags 1 =? 0)); auto.
    + intros Hx. destruct (He Hx) as [H0 _]. done.
Qed.
#[export] Hint Resolve worker_step_inv tp_step_inv : cmodel.

Lemma tp_start_inv garbage n size s : tp_start garbage n size = Some s -> tp_inv s.
Proof.
  unfold tp_start, thread_pool_create. repeat split_guard; [done|].
  repeat match goal with H : (_ || _) = false |- _ => apply orb_false_iff in H as [? ?] end.
  to_prop. simpl. intros [= <-]. constructor; simpl.
  - split_and!; [apply ring_new_wf; lia|done|by left].
  - done.
  - intros Hx. by apply list_elem_of_In, repeat_spec in Hx || apply elem_of_replicate in Hx as [? _].
Qed.

(** What is left to do once the pool is shutting down: two steps per queued task, one
    per busy worker, one per worker still there. *)
Definition worker_weight (w : worker_state) : nat :=
  match w with WIdle => 1 | WBusy _ => 2 | WExited => 0 end.

Definition tp_measure (s : tp_system) : nat :=
  (2 * length (ring_items s.(ts_pool).(tp_queue))
   + sum_list_with worker_weight s.(ts_workers))%nat.

Lemma sum_insert (i : nat) w w' (ws : list worker_state) :
  ws !! i = Some w ->
  (sum_list_with worker_weight (<[i := w']> ws) + worker_weight w
   = sum_list_with worker_weight ws + worker_weight w')%nat.
Proof.
  revert i. induction ws as [|x ws IH]; intros [|i] H; simpl in *; [done|done| |].
  - injection H as ->. lia.
  - specialize (IH i H). lia.
Qed.

Lemma worker_step_measure s s' :
  tp_inv s -> worker_step s s' -> (tp_measure s' < tp_measure s)%nat.
Proof.
  intros [Hok _ _] Hst. revert Hok.
  destruct Hst as [i pool pool' ws acc tk Hi E|i pool pool' ws acc tk t Hi E|i pool ws acc tk t Hi];
    simpl; intros Hok; unfold tp_measure; simpl.
  - destruct (worker_exit_spec pool pool' Hok E) as (_ & -> & _).
    pose proof (sum_insert i _ WExited ws Hi). simpl in *. lia.
  - destruct (worker_run_spec pool t pool' Hok E) as (_ & -> & _).
    pose proof (sum_insert i _ (WBusy t) ws Hi). simpl in *. lia.
  - pose proof (sum_insert i _ WIdle ws Hi). simpl in *. lia.
Qed.

(** While the pool is shutting down a worker that has not left can always go on. *)
Lemma worker_progress s w i :
  tp_inv s -> s.(ts_pool).(tp_shutdown) <> 0 -> s.(ts_workers) !! i = Some w ->
  w <> WExited -> exists s', worker_step s s'.
Proof.
  intros [Hok _ _] Hs Hi Hw. destruct s as [pool ws acc tk]. simpl in *.
  destruct w as [|t|]; [|eexists; by eapply WFinish|done].
  assert (exists act, thread_pool_worker pool = Ret act /\ act <> WorkerWait) as (act & E & Ha).
  { destruct Hok as (Hwf & Hl & Hsd). unfold thread_pool_worker. rewrite Hl.
    apply Z.eqb_neq in Hs. rewrite Hs, andb_false_r.
    destruct (_ || _) eqn:E2; [by eexists|].
    assert (ring_count (tp_queue pool) <> 0%nat) as Hc.
    { intros Hc. rewrite Hc in E2. apply orb_false_iff in E2 as [E3 E4].
      destruct Hsd as [H|[H|H]]; rewrite H in *; done. }
    destruct (ring_pop_spec (tp_queue pool) Hwf ltac:(lia)) as (x & r' & -> & _).
    by eexists. }
  destruct act as [|pool'|t pool']; [done|eexists; by eapply WExit|eexists; by eapply WTake].
Qed.

Lemma worker_nsteps s s' n :
  tp_inv s -> nsteps worker_step n s s' ->
  tp_inv s' /\ (n + tp_measure s' <= tp_measure s)%nat
  /\ s'.(ts_accepted) = s.(ts_accepted)
  /\ s'.(ts_pool).(tp_shutdown) = s.(ts_pool).(tp_shutdown).
Proof.
  intros Hinv Hn. induction Hn as [|n a b c Hab Hbc IH]; [done|].
  pose proof (worker_step_measure a b Hinv Hab) as Hm.
  pose proof (worker_step_inv a b Hinv Hab) as Hb.
  destruct (IH Hb) as (Hc & Hle & Hacc & Hsd). destruct Hinv as [Hok _ _].
  split_and!; [done|lia| |].
  - rewrite Hacc. by destruct Hab.
  - rewrite Hsd. revert Hok. destruct Hab as [i pool pool' ws acc tk Hi E
      |i pool pool' ws acc tk t Hi E|]; simpl; intros Hok; [| |done].
    + by destruct (worker_exit_spec pool pool' Hok E) as (_ & _ & ? & _).
    + by destruct (worker_run_spec pool t pool' Hok E) as (_ & _ & ?).
Qed.

Lemma land_1_even flags : negb (Z.land flags 1 =? 0) = negb (Z.even flags).
Proof.
  change 1 with (Z.ones 1). rewrite Z.land_ones by lia. change (2 ^ 1) with 2.
  rewrite Zmod_even. by destruct (Z.even flags).
Qed.

Lemma decide_exited (w : worker_state) : w = WExited \/ w <> WExited.
Proof. destruct w; auto. Qed.

(** Workers are neither created nor lost by worker steps. *)
Lemma nsteps_workers n s s' :
  nsteps worker_step n s s' -> s'.(ts_workers) <> [] <-> s.(ts_workers) <> [].
Proof.
  intros Hn. induction Hn as [|n a b c Hab Hbc IH]; [done|]. rewrite IH. clear IH Hbc.
  assert (forall i w (ws : list worker_state), <[i := w]> ws <> [] <-> ws <> []) as Hi
    by (intros [|i] w [|x ws]; simpl; naive_solver).
  destruct Hab; simpl; apply Hi.
Qed.

(** After an immediate request no task is taken any more. *)
Lemma nsteps_immediate n s s' :
  tp_inv s -> s.(ts_pool).(tp_shutdown) = 2 -> nsteps worker_step n s s' ->
  s'.(ts_taken) = s.(ts_taken).
Proof.
  intros Hinv Hs Hn. induction Hn as [|n a b c Hab Hbc IH]; [done|].
  pose proof (worker_step_inv a b Hinv Hab) as Hb.
  destruct (worker_nsteps a b 1 Hinv) as (_ & _ & _ & Hsd); [by apply nsteps_once|].
  rewrite IH by (done || congruence). destruct Hab as [| i pool pool' ws acc tk t Hi E|]; [done| |done].
  exfalso. simpl in Hs. unfold thread_pool_worker in E. rewrite Hs in E.
  change (2 =? 0) with false in E. change (2 =? 2) with true in E.
  rewrite andb_false_r, orb_true_r in E. by destruct (tp_locked pool).
Qed.

(** ** Properties *)

(** C35: the thread pool.  From a pool just created, for any number of workers and any
    interleaving of additions, worker steps and a destruction request, the tasks
    workers took are, in order, a prefix of those accepted and the rest is queued;
    never more than [queue_size] are; no worker has left unless the pool is shutting
    down, and after a graceful request none leaves while a task is queued. *)
Theorem thread_pool_order (garbage : thread_task_t) (n size : Z) (s0 s : tp_system) :
  tp_start garbage n size = Some s0 -> steps tp_step s0 s ->
  s.(ts_accepted) = s.(ts_taken) ++ ring_items s.(ts_pool).(tp_queue)
  /\ (length (ring_items s.(ts_pool).(tp_queue)) <= ring_size s.(ts_pool).(tp_queue))%nat
  /\ (WExited ∈ s.(ts_workers) -> s.(ts_pool).(tp_shutdown) <> 0
      /\ (s.(ts_pool).(tp_shutdown) = 1 -> ring_items s.(ts_pool).(tp_queue) = [])).
Proof.
  intros H0 Hsteps. assert (tp_inv s) as [Hok Ho He].
  { eapply steps_invariant; [|by eapply tp_start_inv|exact Hsteps].
    intros a b. apply tp_step_inv. }
  split_and!; try done. exact (fifo_bound (A := thread_task_t) (ts_pool s) Hok).
Qed.

Lemma thread_pool_order_witness :
  exists s, s.(ts_accepted) = [mk_thread_task 7 8]
    /\ s.(ts_accepted) = s.(ts_taken) ++ ring_items s.(ts_pool).(tp_queue).
Proof.
  destruct (tp_start (mk_thread_task 0 0) 2 3) as [s0|] eqn:E0; [|vm_compute in E0; discriminate].
  eexists. split; [|eapply (thread_pool_order _ _ _ s0); [exact E0|]].
  2: { apply steps_one. vm_compute in E0. injection E0 as <-.
       eapply (TpAdd _ _ _ _ _ 7 8 0). vm_compute. reflexivity. }
  reflexivity.
Defined.

(** C36: destroying the pool terminates.  From any state the invariant allows (so from any
    reachable one, [thread_pool_order]) in which [thread_pool_destroy] succeeds, the workers
    can make only finitely many steps (the bound is explicit), and when no worker can move any
    more all of them have returned, so every join returns.  If the request was graceful
    ([flags] even) and the pool has workers, all tasks ever accepted were taken and the queue
    is empty; if it was immediate ([flags] odd), no task was taken after it, and what was
    queued stays queued. *)
Theorem thread_pool_destroy_terminates (s s' : tp_system) (pool' : thread_pool_t)
    (flags : Z) (n : nat) :
  tp_inv s -> thread_pool_destroy s.(ts_pool) flags = Ret (0, pool') ->
  let s1 := mk_tp_system pool' s.(ts_workers) s.(ts_accepted) s.(ts_taken) in
  nsteps worker_step n s1 s' ->
  (n <= tp_measure s)%nat
  /\ ((forall s2, worker_step s' s2 -> False) ->
      Forall (fun w => w = WExited) s'.(ts_workers)
      /\ (Z.even flags = true -> s.(ts_workers) <> [] ->
          s'.(ts_taken) = s.(ts_accepted) /\ ring_items s'.(ts_pool).(tp_queue) = [])
      /\ (Z.even flags = false -> s'.(ts_taken) = s.(ts_taken)
          /\ ring_items s'.(ts_pool).(tp_queue) = ring_items s.(ts_pool).(tp_queue))).
Proof.
  intros Hinv E s1 Hn.
  assert (tp_inv s1) as Hinv1.
  { apply (tp_step_inv s); [done|]. destruct s. by eapply TpDestroy. }
  destruct (worker_nsteps s1 s' n Hinv1 Hn) as (Hinv' & Hm & Hacc & Hsd).
  assert (tp_queue pool' = tp_queue (ts_pool s)
    /\ tp_shutdown pool' = if Z.even flags then 1 else 2) as [Hq Hs].
  { unfold thread_pool_destroy in E. destruct (ti_ok _ Hinv) as (_ & Hl & _).
    rewrite Hl in E. destruct (negb (tp_shutdown _ =? 0)); [done|]. injection E as <-.
    simpl. split; [done|]. rewrite land_1_even. by destruct (Z.even flags). }
  assert (tp_measure s1 = tp_measure s) as Hm1
    by (unfold tp_measure, s1; simpl; by rewrite Hq).
  split; [lia|]. intros Hstuck.
  assert (tp_shutdown (ts_pool s') <> 0) as Hs'.
  { rewrite Hsd. simpl. rewrite Hs. by destruct (Z.even flags). }
  assert (Forall (fun w => w = WExited) (ts_workers s')) as Hall.
  { apply Forall_lookup. intros i w Hi. destruct (decide_exited w) as [?|Hw]; [done|].
    destruct (worker_progress s' w i Hinv' Hs' Hi Hw) as [s2 Hs2].
    destruct (Hstuck s2 Hs2). }
  split; [done|]. split; cycle 1.
  { intros Hodd. assert (ts_taken s' = ts_taken s) as Ht.
    { apply (nsteps_immediate n s1 s'); [done| |done]. simpl. by rewrite Hs, Hodd. }
    split; [done|]. pose proof (ti_order _ Hinv') as Ho'. pose proof (ti_order _ Hinv) as Ho.
    rewrite Hacc, Ht in Ho'. simpl in Ho'. rewrite Ho in Ho'. by apply app_inv_head in Ho'. }
  intros Hev Hne. destruct Hinv' as [_ Ho He].
  apply (nsteps_workers n s1 s' Hn) in Hne.
  destruct (ts_workers s') as [|w ws] eqn:Ew; [done|].
  apply Forall_cons in Hall as [-> _].
  destruct He as [_ He]; [set_solver|].
  assert (ring_items (tp_queue (ts_pool s')) = []) as Hnil
    by (apply He; rewrite Hsd; simpl; by rewrite Hs, Hev).
  rewrite Hacc in Ho. simpl in Ho. by rewrite Hnil, app_nil_r in Ho.
Qed.

Lemma thread_pool_destroy_terminates_witness :
  exists s', ts_taken s' = [mk_thread_task 7 8] /\ ts_workers s' = [WExited]
    /\ ring_items (tp_queue (ts_pool s')) = [].
Proof.
  pose (s := mk_tp_system (mk_thread_pool
      (ring_push (mk_thread_task 7 8) (ring_new 3 (mk_thread_task 0 0))) 1 0 1 false)
      [WIdle] [mk_thread_task 7 8] []).
  assert (exists pool' s', thread_pool_destroy s.(ts_pool) 0 = Ret (0, pool')
    /\ nsteps worker_step 3 (mk_tp_system pool' s.(ts_workers) s.(ts_accepted) s.(ts_taken)) s'
    /\ ts_workers s' = [WExited]) as (pool' & s' & E & Hn & Hw).
  { do 2 eexists. split; [vm_compute; reflexivity|]. split.
    - eapply nsteps_l; [eapply (WTake 0); [reflexivity|vm_compute; reflexivity]|].
      eapply nsteps_l; [eapply (WFinish 0); reflexivity|].
      eapply nsteps_l; [eapply (WExit 0); [reflexivity|vm_compute; reflexivity]|].
      constructor.
    - reflexivity. }
  destruct (thread_pool_destroy_terminates s s' pool' 0 3) as [_ H]; [|exact E|exact Hn|].
  - constructor; simpl.
    + split_and!; [constructor; vm_compute; lia|reflexivity|left; reflexivity].
    + vm_compute. reflexivity.
    + intros Hx. apply list_elem_of_singleton in Hx. discriminate.
  - destruct H as [_ H].
    + intros s2 Hs2. destruct Hs2 as [[|i] ? ? ws ? ? Hi|[|i] ? ? ws ? ? ? Hi|[|i] ? ws ? ? ? Hi];
        simpl in Hw; rewrite Hw in Hi; discriminate.
    + destruct H as [H _]. destruct H as [H1 H2]; [reflexivity|discriminate|].
      exists s'. split; [exact H1|]. split; [exact Hw|exact H2].
Defined.

(** A second destruction request while the first is joining returns -1 with the mutex
    held, and the next thread that needs it blocks. *)
Example thread_pool_destroy_twice_blocks :
  ('(_, pool) ← thread_pool_destroy (mk_thread_pool (ring_new 3 (mk_thread_task 0 0))
      2 0 2 false) 0;
   '(r, pool) ← thread_pool_destroy pool 0;
   thread_pool_worker pool) = Fault Deadlock.
Proof. reflexivity. Qed.
