(* ===== verification/DhcpMessage.v ===== *)
(** * DHCPv4 messages

    [DHCPv4/src/dhcp_message.c] and the packet of [include/src/dhcp_common.h].  The
    arrays of the packet are lists of bytes; an index outside [options[312]] is the
    fault [OutOfBounds].  Fields kept in network order are the integers the
    little-endian host reads from them. *)

From S2P Require Import Prelude LeaseV4 ConfigV4.

Definition DHCP_MAGIC_COOKIE : Z := 0x63825363.
Definition DHCP_DISCOVER : Z := 1.
Definition DHCP_OFFER : Z := 2.
Definition DHCP_REQUEST : Z := 3.
Definition DHCP_DECLINE : Z := 4.
Definition DHCP_ACK : Z := 5.
Definition DHCP_NAK : Z := 6.
Definition DHCP_RELEASE : Z := 7.
Definition DHCP_INFORM : Z := 8.
Definition DHCP_OPT_PAD : Z := 0.
Definition DHCP_OPT_SUBNET_MASK : Z := 1.
Definition DHCP_OPT_ROUTER : Z := 3.
Definition DHCP_OPT_DNS_SERVERS : Z := 6.
Definition DHCP_OPT_REQUESTED_IP : Z := 50.
Definition DHCP_OPT_LEASE_TIME : Z := 51.
Definition DHCP_OPT_MESSAGE_TYPE : Z := 53.
Definition DHCP_OPT_SERVER_ID : Z := 54.
Definition DHCP_OPT_END : Z := 255.
Definition BOOTREQUEST : Z := 1.
Definition BOOTREPLY : Z := 2.
Definition HTYPE_ETHER : Z := 1.

Definition OPTIONS_LEN : nat := 312.

Record dhcp_packet := mk_dhcp_packet {
  dp_op : Z;
  dp_htype : Z;
  dp_hlen : Z;
  dp_hops : Z;
  dp_xid : Z;
  dp_secs : Z;
  dp_flags : Z;
  dp_ciaddr : Z;
  dp_yiaddr : Z;
  dp_siaddr : Z;
  dp_giaddr : Z;
  dp_chaddr : list Z;
  dp_sname : list Z;
  dp_file : list Z;
  dp_options : list Z
}.

Definition set_dp_options (v : list Z) (p : dhcp_packet) : dhcp_packet :=
  mk_dhcp_packet p.(dp_op) p.(dp_htype) p.(dp_hlen) p.(dp_hops) p.(dp_xid) p.(dp_secs)
    p.(dp_flags) p.(dp_ciaddr) p.(dp_yiaddr) p.(dp_siaddr) p.(dp_giaddr) p.(dp_chaddr)
    p.(dp_sname) p.(dp_file) v.

Definition set_dp_yiaddr (v : Z) (p : dhcp_packet) : dhcp_packet :=
  mk_dhcp_packet p.(dp_op) p.(dp_htype) p.(dp_hlen) p.(dp_hops) p.(dp_xid) p.(dp_secs)
    p.(dp_flags) p.(dp_ciaddr) v p.(dp_siaddr) p.(dp_giaddr) p.(dp_chaddr)
    p.(dp_sname) p.(dp_file) p.(dp_options).

Definition set_dp_siaddr (v : Z) (p : dhcp_packet) : dhcp_packet :=
  mk_dhcp_packet p.(dp_op) p.(dp_htype) p.(dp_hlen) p.(dp_hops) p.(dp_xid) p.(dp_secs)
    p.(dp_flags) p.(dp_ciaddr) p.(dp_yiaddr) v p.(dp_giaddr) p.(dp_chaddr)
    p.(dp_sname) p.(dp_file) p.(dp_options).

(** The four bytes of the cookie, as [htonl] leaves them in memory. *)
Definition cookie_bytes : list Z := le32 (htonl DHCP_MAGIC_COOKIE).

Definition dhcp_message_init (op xid : Z) (chaddr : list Z) : dhcp_packet :=
  mk_dhcp_packet op HTYPE_ETHER 6 0 xid 0 0 0 0 0 0
    (take 6 chaddr ++ replicate 10 0) (replicate 64 0) (replicate 128 0)
    (cookie_bytes ++ [DHCP_OPT_END] ++ replicate 307 0).

(** The [while (offset < 308)] loop; the offset grows at every iteration. *)
Fixpoint find_end (fuel : nat) (options : list Z) (offset : nat) : outcome nat :=
  match fuel with
  | O => Ret offset
  | S fuel =>
      if bool_decide (offset < 308)%nat then
        tag ← in_bounds (options !! offset);
        if tag =? DHCP_OPT_END then Ret offset
        else if tag =? DHCP_OPT_PAD then find_end fuel options (offset + 1)
        else
          opt_len ← in_bounds (options !! (offset + 1)%nat);
          find_end fuel options (offset + (2 + Z.to_nat opt_len))
      else Ret offset
  end.

(** [dhcp_message_add_option(packet, option_code, len, data)]; [data] is what the
    pointer points to. *)
Definition dhcp_message_add_option (packet : dhcp_packet) (option_code len : Z)
    (data : list Z) : outcome (Z * dhcp_packet) :=
  offset ← find_end OPTIONS_LEN packet.(dp_options) 4;
  if bool_decide (OPTIONS_LEN < offset + 2 + Z.to_nat len + 1)%nat then Ret (-1, packet)
  else
    bs ← read_bytes 0 (Z.to_nat len) data;
    options ← write_bytes offset [option_code] packet.(dp_options);
    options ← write_bytes (offset + 1) [len] options;
    options ← write_bytes (offset + 2) bs options;
    options ← write_bytes (offset + 2 + Z.to_nat len) [DHCP_OPT_END] options;
    Ret (0, set_dp_options options packet).

Definition dhcp_message_add_option32 (packet : dhcp_packet) (option_code data : Z)
    : outcome (Z * dhcp_packet) :=
  dhcp_message_add_option packet option_code 4 (le32 (htonl data)).

Definition dhcp_message_add_option_ip (packet : dhcp_packet) (option_code ip : Z)
    : outcome (Z * dhcp_packet) :=
  dhcp_message_add_option packet option_code 4 (le32 ip).

(** The [while (offset < 312)] loop of [dhcp_message_get_option]: the index of the
    option's data and its length. *)
Fixpoint scan_option (fuel : nat) (options : list Z) (offset : nat) (option_code : Z)
    : outcome (option (nat * Z)) :=
  match fuel with
  | O => Ret None
  | S fuel =>
      if bool_decide (offset < OPTIONS_LEN)%nat then
        code ← in_bounds (options !! offset);
        if code =? DHCP_OPT_END then Ret None
        else if code =? DHCP_OPT_PAD then scan_option fuel options (offset + 1) option_code
        else
          len ← in_bounds (options !! (offset + 1)%nat);
          if code =? option_code then Ret (Some ((offset + 2)%nat, len))
          else scan_option fuel options (offset + (2 + Z.to_nat len)) option_code
      else Ret None
  end.

Definition cookie_ok (packet : dhcp_packet) : bool :=
  ntohl (of_le32 (take 4 packet.(dp_options))) =? DHCP_MAGIC_COOKIE.

Definition dhcp_message_get_option (packet : dhcp_packet) (option_code : Z)
    : outcome (option (nat * Z)) :=
  if cookie_ok packet then scan_option OPTIONS_LEN packet.(dp_options) 4 option_code
  else Ret None.

Definition dhcp_message_get_type (packet : dhcp_packet) : outcome Z :=
  opt_ptr ← dhcp_message_get_option packet DHCP_OPT_MESSAGE_TYPE;
  match opt_ptr with
  | Some (offset, _) => in_bounds (packet.(dp_options) !! offset)
  | None => Ret 0
  end.

(** [sizeof(struct dhcp_packet)] is 548. *)
Definition dhcp_message_validate (packet : dhcp_packet) (len : Z) : Z :=
  if len <? 548 - 312 + 4 then -1
  else if cookie_ok packet then 0 else -1.

(** The options [dhcp_message_make_offer] and [dhcp_message_make_ack] add after the
    message type. *)
Definition add_lease_options (lease : dhcp_lease_t) (subnet : dhcp_subnet_t)
    (p : dhcp_packet) : outcome dhcp_packet :=
  '(_, p) ← dhcp_message_add_option_ip p DHCP_OPT_SUBNET_MASK subnet.(s_netmask);
  '(_, p) ← dhcp_message_add_option_ip p DHCP_OPT_ROUTER subnet.(s_router);
  '(_, p) ← dhcp_message_add_option32 p DHCP_OPT_LEASE_TIME
              (u32 (lease.(l_end_time) - lease.(l_start_time)));
  '(_, p) ← dhcp_message_add_option_ip p DHCP_OPT_SERVER_ID subnet.(s_router);
  match subnet.(s_dns_servers) with
  | [] => Ret p
  | servers =>
      '(_, p) ← dhcp_message_add_option p DHCP_OPT_DNS_SERVERS
                  (u8 (Z.of_nat (length servers) * 4)) (concat (le32 <$> servers));
      Ret p
  end.

Definition dhcp_message_make_offer (discover : dhcp_packet) (lease : dhcp_lease_t)
    (subnet : dhcp_subnet_t) : outcome dhcp_packet :=
  let offer := dhcp_message_init BOOTREPLY discover.(dp_xid) discover.(dp_chaddr) in
  let offer := set_dp_yiaddr lease.(l_ip_address) offer in
  let offer := set_dp_siaddr subnet.(s_next_server) offer in
  '(_, offer) ← dhcp_message_add_option offer DHCP_OPT_MESSAGE_TYPE 1 [DHCP_OFFER];
  add_lease_options lease subnet offer.

Definition dhcp_message_make_ack (request : dhcp_packet) (lease : dhcp_lease_t)
    (subnet : dhcp_subnet_t) : outcome dhcp_packet :=
  let ack := dhcp_message_init BOOTREPLY request.(dp_xid) request.(dp_chaddr) in
  let ack := set_dp_yiaddr lease.(l_ip_address) ack in
  '(_, ack) ← dhcp_message_add_option ack DHCP_OPT_MESSAGE_TYPE 1 [DHCP_ACK];
  add_lease_options lease subnet ack.

Definition dhcp_message_make_nak (request : dhcp_packet) (server_id : Z)
    : outcome dhcp_packet :=
  let nak := dhcp_message_init BOOTREPLY request.(dp_xid) request.(dp_chaddr) in
  '(_, nak) ← dhcp_message_add_option nak DHCP_OPT_MESSAGE_TYPE 1 [DHCP_NAK];
  '(_, nak) ← dhcp_message_add_option_ip nak DHCP_OPT_SERVER_ID server_id;
  Ret nak.

(** ** The option list a packet stands for *)

Definition dhcp_option : Type := Z * list Z.

Definition encode_option (o : dhcp_option) : list Z :=
  o.1 :: Z.of_nat (length o.2) :: o.2.

Definition encode_options (l : list dhcp_option) : list Z := concat (encode_option <$> l).

Definition valid_option (o : dhcp_option) : Prop :=
  o.1 <> DHCP_OPT_PAD /\ o.1 <> DHCP_OPT_END /\ (length o.2 < 256)%nat.

(** [buf] is the cookie, the options of [l] and END, padded to 312 bytes. *)
Definition options_repr (l : list dhcp_option) (buf : list Z) : Prop :=
  Forall valid_option l
  /\ exists rest, buf = cookie_bytes ++ encode_options l ++ DHCP_OPT_END :: rest
     /\ length buf = OPTIONS_LEN.

(** ** Lemmas *)

Lemma encode_options_app l1 l2 :
  encode_options (l1 ++ l2) = encode_options l1 ++ encode_options l2.
Proof. unfold encode_options. by rewrite fmap_app, concat_app. Qed.

Lemma encode_options_cons o l : encode_options (o :: l) = encode_option o ++ encode_options l.
Proof. done. Qed.

Lemma length_encode_option o : length (encode_option o) = (2 + length o.2)%nat.
Proof. done. Qed.

Lemma length_cookie : length cookie_bytes = 4%nat.
Proof. done. Qed.

Lemma lookup_at {A} (pre : list A) x post k :
  k = length pre -> (pre ++ x :: post) !! k = Some x.
Proof. intros ->. by apply list_lookup_middle. Qed.

(** The buffer seen from its first option. *)
Lemma option_at pre c d l rest buf :
  buf = pre ++ encode_options ((c, d) :: l) ++ DHCP_OPT_END :: rest ->
  buf !! length pre = Some c
  /\ buf !! (length pre + 1)%nat = Some (Z.of_nat (length d))
  /\ buf = (pre ++ encode_option (c, d)) ++ encode_options l ++ DHCP_OPT_END :: rest
  /\ (length pre + (2 + length d))%nat = length (pre ++ encode_option (c, d))
  /\ read_bytes (length pre + 2) (length d) buf = Ret d.
Proof.
  intros E.
  assert (buf = pre ++ c :: Z.of_nat (length d) :: d ++ encode_options l
                  ++ DHCP_OPT_END :: rest) as Hbuf.
  { rewrite E, encode_options_cons. unfold encode_option. simpl.
    by rewrite <- app_assoc. }
  split_and!.
  - rewrite Hbuf. by apply list_lookup_middle.
  - rewrite Hbuf, lookup_app_r by lia.
    by replace (length pre + 1 - length pre)%nat with 1%nat by lia.
  - rewrite E, encode_options_cons. by rewrite <- !app_assoc.
  - rewrite length_app, length_encode_option. simpl. lia.
  - unfold read_bytes. rewrite Hbuf.
    rewrite bool_decide_eq_true_2 by (rewrite length_app; simpl; rewrite length_app; lia).
    replace (drop (length pre + 2) _) with (d ++ encode_options l ++ DHCP_OPT_END :: rest).
    + by rewrite take_app_length.
    + rewrite drop_app, (drop_ge pre) by lia.
      by replace (length pre + 2 - length pre)%nat with 2%nat by lia.
Qed.

(** Both loops walk over whole options. *)
Lemma find_end_walk pre l rest fuel :
  Forall valid_option l -> (length l < fuel)%nat ->
  (length pre + length (encode_options l) <= 308)%nat ->
  find_end fuel (pre ++ encode_options l ++ DHCP_OPT_END :: rest) (length pre)
  = Ret (length pre + length (encode_options l))%nat.
Proof.
  revert pre fuel. induction l as [|[c d] l IH]; intros pre fuel Hv Hf Hb.
  - destruct fuel as [|fuel]; [simpl in Hf; lia|]. cbn [find_end].
    unfold encode_options. simpl. rewrite Nat.add_0_r.
    case_bool_decide; [|done]. by rewrite (lookup_at pre _ rest (length pre) eq_refl).
  - apply Forall_cons in Hv as [(Hp & He & Hd) Hv]. simpl in Hp, He, Hd.
    destruct fuel as [|fuel]; [simpl in Hf; lia|]. cbn [find_end].
    destruct (option_at pre c d l rest _ eq_refl) as (L1 & L2 & Hbuf & Hlen & _).
    rewrite encode_options_cons, length_app, length_encode_option in Hb |- *.
    rewrite encode_options_cons in L1, L2, Hbuf. cbn [snd] in Hb |- *.
    rewrite bool_decide_eq_true_2 by lia. rewrite L1. cbn [in_bounds mbind outcome_bind].
    apply Z.eqb_neq in Hp, He. rewrite He, Hp, L2. cbn [in_bounds mbind outcome_bind].
    rewrite Nat2Z.id, Hlen, Hbuf, IH; [|done|simpl in Hf; lia|rewrite <- Hlen; lia].
    f_equal. rewrite <- Hlen. lia.
Qed.

(** The first option with a code, and what its data is. *)
Lemma scan_option_walk pre l rest fuel code :
  Forall valid_option l -> (length l < fuel)%nat ->
  (length pre + length (encode_options l) + 1 <= OPTIONS_LEN)%nat ->
  forall buf, buf = pre ++ encode_options l ++ DHCP_OPT_END :: rest ->
  match find (fun o => o.1 =? code) l with
  | None => scan_option fuel buf (length pre) code = Ret None
  | Some (_, d) => exists off,
      scan_option fuel buf (length pre) code = Ret (Some (off, Z.of_nat (length d)))
      /\ read_bytes off (length d) buf = Ret d
  end.
Proof.
  revert pre fuel. induction l as [|[c d] l IH]; intros pre fuel Hv Hf Hb buf E.
  - destruct fuel as [|fuel]; [simpl in Hf; lia|]. cbn [find scan_option]. rewrite E.
    unfold encode_options in *. simpl in *.
    rewrite bool_decide_eq_true_2 by lia. by rewrite (lookup_at pre _ rest (length pre) eq_refl).
  - apply Forall_cons in Hv as [(Hp & He & Hd) Hv]. simpl in Hp, He, Hd.
    destruct fuel as [|fuel]; [simpl in Hf; lia|].
    destruct (option_at pre c d l rest buf E) as (L1 & L2 & Hbuf & Hlen & Hread).
    rewrite encode_options_cons, length_app, length_encode_option in Hb. cbn [snd] in Hb.
    apply Z.eqb_neq in Hp, He. cbn [find fst scan_option].
    rewrite bool_decide_eq_true_2 by lia. rewrite L1. cbn [in_bounds mbind outcome_bind].
    rewrite He, Hp, L2. cbn [in_bounds mbind outcome_bind].
    destruct (c =? code); [by exists (length pre + 2)%nat|].
    rewrite Nat2Z.id, Hlen. apply IH; [done|simpl in Hf; lia|rewrite <- Hlen; lia|done].
Qed.

Lemma length_encode_options_ge l : (2 * length l <= length (encode_options l))%nat.
Proof.
  induction l as [|o l IH]; [done|].
  rewrite encode_options_cons, length_app, length_encode_option. simpl length at 1. lia.
Qed.

(** The fields other than the options. *)
Definition same_header (p q : dhcp_packet) : Prop :=
  set_dp_options [] p = set_dp_options [] q.

Lemma options_repr_init op xid ch : options_repr [] (dhcp_message_init op xid ch).(dp_options).
Proof.
  split; [constructor|]. exists (replicate 307 0). split; [done|].
  vm_compute. reflexivity.
Qed.

Lemma find_end_repr buf l :
  options_repr l buf -> (4 + length (encode_options l) <= 308)%nat ->
  find_end OPTIONS_LEN buf 4 = Ret (4 + length (encode_options l))%nat.
Proof.
  intros [Hv (rest & -> & Hlen)] Hb.
  apply (find_end_walk cookie_bytes); [done| |done].
  pose proof (length_encode_options_ge l). unfold OPTIONS_LEN. lia.
Qed.

(** Adding an option to a packet that stands for [l]. *)
Lemma add_option_fits p l c d :
  options_repr l p.(dp_options) -> valid_option (c, d) ->
  (4 + length (encode_options l) <= 308)%nat ->
  (4 + length (encode_options l) + 2 + length d + 1 <= OPTIONS_LEN)%nat ->
  exists p', dhcp_message_add_option p c (Z.of_nat (length d)) d = Ret (0, p')
    /\ options_repr (l ++ [(c, d)]) p'.(dp_options) /\ same_header p' p.
Proof.
  intros Hr Hcd Hb Hfit. unfold dhcp_message_add_option. rewrite (find_end_repr _ l Hr Hb).
  destruct Hr as [Hv (rest & Hbuf & Hlen)].
  cbn [mbind outcome_bind]. rewrite Nat2Z.id.
  rewrite bool_decide_eq_false_2 by lia.
  unfold read_bytes at 1. rewrite bool_decide_eq_true_2 by done.
  rewrite drop_0, firstn_all. cbn [mbind outcome_bind].
  set (pre := cookie_bytes ++ encode_options l).
  assert (length pre = (4 + length (encode_options l))%nat) as Hpre
    by (unfold pre; by rewrite length_app, length_cookie).
  assert (exists x1 x2 dd x3 post, p.(dp_options) = pre ++ x1 :: x2 :: dd ++ x3 :: post
    /\ length dd = length d) as (x1 & x2 & dd & x3 & post & Heq & Hdd).
  { rewrite Hbuf, app_assoc. fold pre. rewrite Hbuf, app_assoc in Hlen. fold pre in Hlen.
    rewrite length_app, Hpre in Hlen. simpl in Hlen. rewrite <- (take_drop (1 + length d) rest).
    destruct rest as [|x2 rest]; [simpl in Hlen; lia|]. simpl.
    destruct (drop (length d) rest) as [|x3 post] eqn:Ed.
    - apply (f_equal length) in Ed. rewrite length_drop in Ed. simpl in *. lia.
    - exists DHCP_OPT_END, x2, (take (length d) rest), x3, post. split; [done|].
      rewrite length_take. apply (f_equal length) in Ed. rewrite length_drop in Ed. simpl in *. lia. }
  rewrite Heq. rewrite <- Hpre.
  rewrite (write_bytes_app _ pre [x1] (x2 :: dd ++ x3 :: post)) by done.
  cbn [mbind outcome_bind].
  replace (pre ++ [c] ++ x2 :: dd ++ x3 :: post)
    with ((pre ++ [c]) ++ [x2] ++ dd ++ x3 :: post) by (by rewrite <- !app_assoc).
  rewrite write_bytes_app by (rewrite ?length_app; done). cbn [mbind outcome_bind].
  replace ((pre ++ [c]) ++ [Z.of_nat (length d)] ++ dd ++ x3 :: post)
    with ((pre ++ [c; Z.of_nat (length d)]) ++ dd ++ x3 :: post) by (by rewrite <- !app_assoc).
  rewrite write_bytes_app by (rewrite ?length_app; done). cbn [mbind outcome_bind].
  replace ((pre ++ [c; Z.of_nat (length d)]) ++ d ++ x3 :: post)
    with ((pre ++ encode_option (c, d)) ++ [x3] ++ post)
    by (unfold encode_option; rewrite <- !app_assoc; done).
  rewrite write_bytes_app by (rewrite ?length_app, ?length_encode_option; simpl; lia || done).
  cbn [mbind outcome_bind]. eexists. split; [done|]. split; [|done].
  split; [by apply Forall_app; split; [|apply Forall_singleton]|].
  exists post. split.
  - simpl. unfold pre. rewrite encode_options_app. unfold encode_options at 3. simpl.
    rewrite app_nil_r. by rewrite <- !app_assoc.
  - simpl. rewrite Heq in Hlen. rewrite <- Hlen.
    rewrite !length_app, length_encode_option. simpl. rewrite !length_app. simpl. lia.
Qed.

Lemma add_option_full p l c d :
  options_repr l p.(dp_options) -> (4 + length (encode_options l) <= 308)%nat ->
  (OPTIONS_LEN < 4 + length (encode_options l) + 2 + length d + 1)%nat ->
  dhcp_message_add_option p c (Z.of_nat (length d)) d = Ret (-1, p).
Proof.
  intros Hr Hb Hfit. unfold dhcp_message_add_option. rewrite (find_end_repr _ l Hr Hb).
  cbn [mbind outcome_bind]. rewrite Nat2Z.id.
  by rewrite bool_decide_eq_true_2 by lia.
Qed.

Lemma repr_cookie l p : options_repr l p.(dp_options) -> cookie_ok p = true.
Proof. intros [_ (rest & E & _)]. unfold cookie_ok. rewrite E. reflexivity. Qed.

Lemma get_option_repr p l c :
  options_repr l p.(dp_options) ->
  match find (fun o => o.1 =? c) l with
  | None => dhcp_message_get_option p c = Ret None
  | Some (_, d) => exists off,
      dhcp_message_get_option p c = Ret (Some (off, Z.of_nat (length d)))
      /\ read_bytes off (length d) p.(dp_options) = Ret d
  end.
Proof.
  intros Hr. pose proof (repr_cookie l p Hr) as Hc. unfold dhcp_message_get_option. rewrite Hc.
  destruct Hr as [Hv (rest & Hbuf & Hlen)].
  apply (scan_option_walk cookie_bytes l rest OPTIONS_LEN c Hv); [| |exact Hbuf].
  - pose proof (length_encode_options_ge l). rewrite Hbuf in Hlen.
    rewrite !length_app in Hlen. simpl in Hlen. lia.
  - rewrite Hbuf in Hlen. rewrite !length_app in Hlen. simpl in Hlen. rewrite length_cookie. lia.
Qed.

(** The options of an OFFER or an ACK. *)
Definition lease_options (lease : dhcp_lease_t) (subnet : dhcp_subnet_t)
    : list dhcp_option :=
  [(DHCP_OPT_SUBNET_MASK, le32 subnet.(s_netmask));
   (DHCP_OPT_ROUTER, le32 subnet.(s_router));
   (DHCP_OPT_LEASE_TIME,
      le32 (htonl (u32 (lease.(l_end_time) - lease.(l_start_time)))));
   (DHCP_OPT_SERVER_ID, le32 subnet.(s_router))]
  ++ match subnet.(s_dns_servers) with
     | [] => []
     | servers => [(DHCP_OPT_DNS_SERVERS, concat (le32 <$> servers))]
     end.

Lemma length_concat_le32 l : length (concat (le32 <$> l)) = (4 * length l)%nat.
Proof. induction l as [|x l IH]; [done|]. cbn [fmap list_fmap concat]. rewrite length_app, IH. simpl. lia. Qed.

Ltac solve_valid := split_and!; simpl; (discriminate || lia).

(** [add_option_fits] with the room given by a bound on what is already there. *)
Lemma add_option_room p l c len d n m :
  options_repr l p.(dp_options) -> len = Z.of_nat (length d) -> valid_option (c, d) ->
  (length (encode_options l) <= n)%nat -> (n + 2 + length d <= m)%nat -> (m <= 302)%nat ->
  exists p', dhcp_message_add_option p c len d = Ret (0, p')
    /\ options_repr (l ++ [(c, d)]) p'.(dp_options) /\ same_header p' p
    /\ (length (encode_options (l ++ [(c, d)])) <= m)%nat.
Proof.
  intros Hr -> Hv Hn Hb Hm.
  destruct (add_option_fits p l c d Hr Hv) as (p' & H1 & H2 & H3); [lia| |].
  - unfold OPTIONS_LEN. lia.
  - exists p'. split_and!; try done. rewrite encode_options_app, length_app.
    unfold encode_options at 2. simpl. rewrite app_nil_r. lia.
Qed.

(** Four options of four bytes. *)
Lemma add_four_words p l c1 c2 c3 c4 d1 d2 d3 d4 :
  options_repr l p.(dp_options) -> (length (encode_options l) <= 100)%nat ->
  Forall (fun c => c <> DHCP_OPT_PAD /\ c <> DHCP_OPT_END) [c1; c2; c3; c4] ->
  Forall (fun d => length d = 4%nat) [d1; d2; d3; d4] ->
  exists p1 p2 p3 p4,
    dhcp_message_add_option p c1 4 d1 = Ret (0, p1)
    /\ dhcp_message_add_option p1 c2 4 d2 = Ret (0, p2)
    /\ dhcp_message_add_option p2 c3 4 d3 = Ret (0, p3)
    /\ dhcp_message_add_option p3 c4 4 d4 = Ret (0, p4)
    /\ options_repr (l ++ [(c1, d1); (c2, d2); (c3, d3); (c4, d4)]) p4.(dp_options)
    /\ same_header p4 p
    /\ (length (encode_options (l ++ [(c1, d1); (c2, d2); (c3, d3); (c4, d4)])) <= 124)%nat.
Proof.
  intros Hr Hl Hc Hd. rewrite !Forall_cons in Hc. rewrite !Forall_cons in Hd.
  destruct Hc as ([] & [] & [] & [] & _), Hd as (D1 & D2 & D3 & D4 & _).
  destruct (add_option_room p l c1 4 d1 100 106)
    as (p1 & E1 & R1 & S1 & B1); [done|lia|split_and!; simpl; lia || done|lia|lia|lia|].
  destruct (add_option_room p1 _ c2 4 d2 106 112 R1)
    as (p2 & E2 & R2 & S2 & B2); [lia|split_and!; simpl; lia || done|lia|lia|lia|].
  destruct (add_option_room p2 _ c3 4 d3 112 118 R2)
    as (p3 & E3 & R3 & S3 & B3); [lia|split_and!; simpl; lia || done|lia|lia|lia|].
  destruct (add_option_room p3 _ c4 4 d4 118 124 R3)
    as (p4 & E4 & R4 & S4 & B4); [lia|split_and!; simpl; lia || done|lia|lia|lia|].
  rewrite <- !app_assoc in R4. rewrite <- !app_assoc in B4. exists p1, p2, p3, p4. split_and!; try done.
  unfold same_header in *. congruence.
Qed.

Lemma add_lease_options_repr lease subnet p l :
  options_repr l p.(dp_options) -> (length (encode_options l) <= 100)%nat ->
  (length subnet.(s_dns_servers) <= 4)%nat ->
  exists p', add_lease_options lease subnet p = Ret p'
    /\ options_repr (l ++ lease_options lease subnet) p'.(dp_options) /\ same_header p' p.
Proof.
  intros Hr Hl Hdns. unfold add_lease_options, dhcp_message_add_option_ip,
    dhcp_message_add_option32, lease_options.
  set (lt := le32 (bswap32 _)).
  destruct (add_four_words p l DHCP_OPT_SUBNET_MASK DHCP_OPT_ROUTER DHCP_OPT_LEASE_TIME
    DHCP_OPT_SERVER_ID (le32 (s_netmask subnet)) (le32 (s_router subnet)) lt
    (le32 (s_router subnet)) Hr Hl) as (p1 & p2 & p3 & p4 & E1 & E2 & E3 & E4 & R4 & S4 & B4).
  { repeat constructor; discriminate. }
  { repeat constructor. }
  rewrite E1, bind_Ret. cbv beta iota. rewrite E2, bind_Ret. cbv beta iota.
  rewrite E3, bind_Ret. cbv beta iota. rewrite E4, bind_Ret. cbv beta iota.
  clear E1 E2 E3 E4. clearbody lt.
  setoid_rewrite app_assoc.
  match type of R4 with options_repr ?X _ => set (l4 := X) in * end. clearbody l4.
  destruct (s_dns_servers subnet) as [|x servers].
  { exists p4. rewrite app_nil_r. split_and!; [done|exact R4|exact S4]. }
  pose proof (length_concat_le32 (x :: servers)) as Hds.
  set (ds := concat (le32 <$> x :: servers)) in *. clearbody ds.
  destruct (add_option_room p4 l4 DHCP_OPT_DNS_SERVERS (Z.of_nat (length ds)) ds 124 142 R4 eq_refl)
    as (p5 & E5 & R5 & S5 & _); [solve_valid|lia|lia|lia|].
  replace (u8 (Z.of_nat (length (x :: servers)) * 4)) with (Z.of_nat (length ds)).
  - rewrite E5. exists p5. split_and!; [done|done|]. unfold same_header in *. congruence.
  - rewrite Hds. unfold u8. rewrite Z.mod_small; lia.
Qed.

(** A fresh packet given its message type. *)
Lemma typed_reply p ty :
  options_repr [] p.(dp_options) ->
  exists p', dhcp_message_add_option p DHCP_OPT_MESSAGE_TYPE 1 [ty] = Ret (0, p')
    /\ options_repr [(DHCP_OPT_MESSAGE_TYPE, [ty])] p'.(dp_options) /\ same_header p' p.
Proof.
  intros Hr. destruct (add_option_room p [] DHCP_OPT_MESSAGE_TYPE 1 [ty] 0 3 Hr)
    as (p' & E & R & S & _); [done|solve_valid|simpl; lia|simpl; lia|lia|].
  by exists p'.
Qed.

Lemma find_type p ty l :
  options_repr l p.(dp_options) ->
  find (fun o => o.1 =? DHCP_OPT_MESSAGE_TYPE) l = Some (DHCP_OPT_MESSAGE_TYPE, [ty]) ->
  dhcp_message_get_type p = Ret ty.
Proof.
  intros Hr Hf. pose proof (get_option_repr p _ DHCP_OPT_MESSAGE_TYPE Hr) as H.
  rewrite Hf in H. destruct H as (off & E & Hread). unfold dhcp_message_get_type. rewrite E.
  cbn [mbind outcome_bind]. revert Hread. unfold read_bytes.
  case_bool_decide as Hb; [|done]. intros [= Ht].
  destruct (dp_options p !! off) as [x|] eqn:Ex.
  - rewrite (drop_S _ x off Ex) in Ht. simpl in Ht. by injection Ht as ->.
  - apply lookup_ge_None in Ex. simpl in Hb. lia.
Qed.

Lemma repr_type p ty l :
  options_repr ((DHCP_OPT_MESSAGE_TYPE, [ty]) :: l) p.(dp_options) ->
  dhcp_message_get_type p = Ret ty.
Proof. intros Hr. by eapply find_type. Qed.

Lemma find_app_None {A} (f : A -> bool) l1 l2 :
  find f l1 = None -> find f (l1 ++ l2) = find f l2.
Proof. induction l1 as [|x l1 IH]; simpl; [done|]. by destruct (f x). Qed.

Lemma find_app_Some {A} (f : A -> bool) l1 l2 x :
  find f l1 = Some x -> find f (l1 ++ l2) = Some x.
Proof. induction l1 as [|y l1 IH]; simpl; [done|]. by destruct (f y). Qed.

Lemma find_none_in {A} (f : A -> bool) l :
  (forall x, x ∈ l -> f x = false) -> find f l = None.
Proof.
  induction l as [|x l IH]; intros H; simpl; [done|].
  rewrite H by set_solver. apply IH. set_solver.
Qed.

Lemma same_header_fields p q : same_header p q ->
  p.(dp_yiaddr) = q.(dp_yiaddr) /\ p.(dp_xid) = q.(dp_xid).
Proof. unfold same_header. destruct p, q. simpl. by intros [=]. Qed.

(** The three replies. *)
Lemma make_offer_spec req lease subnet :
  (length subnet.(s_dns_servers) <= 4)%nat ->
  exists offer, dhcp_message_make_offer req lease subnet = Ret offer
  /\ options_repr ((DHCP_OPT_MESSAGE_TYPE, [DHCP_OFFER]) :: lease_options lease subnet)
       offer.(dp_options)
  /\ same_header offer
       (set_dp_siaddr subnet.(s_next_server) (set_dp_yiaddr lease.(l_ip_address)
         (dhcp_message_init BOOTREPLY req.(dp_xid) req.(dp_chaddr))))
  /\ dhcp_message_get_type offer = Ret DHCP_OFFER.
Proof.
  intros Hdns. unfold dhcp_message_make_offer.
  destruct (typed_reply (set_dp_siaddr (s_next_server subnet) (set_dp_yiaddr (l_ip_address lease)
    (dhcp_message_init BOOTREPLY (dp_xid req) (dp_chaddr req)))) DHCP_OFFER)
    as (p & -> & R & S); [apply options_repr_init|]. rewrite bind_Ret. cbv beta iota.
  destruct (add_lease_options_repr lease subnet p _ R) as (q & -> & R' & S');
    [simpl; lia|done|].
  exists q. split_and!; [done|done|unfold same_header in *; congruence|]. by eapply repr_type.
Qed.

Lemma make_ack_spec req lease subnet :
  (length subnet.(s_dns_servers) <= 4)%nat ->
  exists ack, dhcp_message_make_ack req lease subnet = Ret ack
  /\ options_repr ((DHCP_OPT_MESSAGE_TYPE, [DHCP_ACK]) :: lease_options lease subnet)
       ack.(dp_options)
  /\ same_header ack
       (set_dp_yiaddr lease.(l_ip_address)
         (dhcp_message_init BOOTREPLY req.(dp_xid) req.(dp_chaddr)))
  /\ dhcp_message_get_type ack = Ret DHCP_ACK.
Proof.
  intros Hdns. unfold dhcp_message_make_ack.
  destruct (typed_reply (set_dp_yiaddr (l_ip_address lease)
    (dhcp_message_init BOOTREPLY (dp_xid req) (dp_chaddr req))) DHCP_ACK)
    as (p & -> & R & S); [apply options_repr_init|]. rewrite bind_Ret. cbv beta iota.
  destruct (add_lease_options_repr lease subnet p _ R) as (q & -> & R' & S');
    [simpl; lia|done|].
  exists q. split_and!; [done|done|unfold same_header in *; congruence|]. by eapply repr_type.
Qed.

Lemma make_nak_spec req server_id :
  exists nak, dhcp_message_make_nak req server_id = Ret nak
  /\ options_repr [(DHCP_OPT_MESSAGE_TYPE, [DHCP_NAK]);
                   (DHCP_OPT_SERVER_ID, le32 server_id)] nak.(dp_options)
  /\ same_header nak (dhcp_message_init BOOTREPLY req.(dp_xid) req.(dp_chaddr))
  /\ dhcp_message_get_type nak = Ret DHCP_NAK.
Proof.
  unfold dhcp_message_make_nak.
  destruct (typed_reply (dhcp_message_init BOOTREPLY (dp_xid req) (dp_chaddr req)) DHCP_NAK)
    as (p & -> & R & S); [apply options_repr_init|]. rewrite bind_Ret. cbv beta iota.
  destruct (add_option_room p _ DHCP_OPT_SERVER_ID 4 (le32 server_id) 100 200 R)
    as (q & E & R' & S' & _); [done|solve_valid|simpl; lia|simpl; lia|lia|].
  unfold dhcp_message_add_option_ip. rewrite E, bind_Ret. cbv beta iota. exists q.
  split_and!; [done|done|unfold same_header in *; congruence|]. by eapply repr_type.
Qed.

(** ** Properties *)



(** An option added to a packet is found again: if the code was not used before,
    [dhcp_message_get_option] returns a pointer and a length at which exactly the
    bytes added are read, and every option that was there before is found as before. *)
Lemma dhcp_option_roundtrip (p p' : dhcp_packet) (l : list dhcp_option) (c : Z)
    (d : list Z) :
  options_repr l p.(dp_options) -> valid_option (c, d) ->
  (length (encode_options l) <= 304)%nat -> c ∉ l.*1 ->
  dhcp_message_add_option p c (Z.of_nat (length d)) d = Ret (0, p') ->
  (exists off, dhcp_message_get_option p' c = Ret (Some (off, Z.of_nat (length d)))
     /\ read_bytes off (length d) p'.(dp_options) = Ret d)
  /\ (forall c' d', find (fun o => o.1 =? c') l = Some (c', d') ->
      exists off, dhcp_message_get_option p' c' = Ret (Some (off, Z.of_nat (length d')))
      /\ read_bytes off (length d') p'.(dp_options) = Ret d').
Proof.
  intros Hr Hv Hl Hc E.
  destruct (decide (length (encode_options l) + length d <= 305)%nat) as [Hfit|Hfit].
  2: { rewrite (add_option_full p l c d) in E; [done|done|lia|unfold OPTIONS_LEN; lia]. }
  destruct (add_option_fits p l c d Hr Hv) as (q & E' & Hq & _); [lia|unfold OPTIONS_LEN; lia|].
  rewrite E in E'. injection E' as <-. split.
  - pose proof (get_option_repr p' _ c Hq) as H. rewrite find_app_None in H.
    + simpl in H. by rewrite Z.eqb_refl in H.
    + apply find_none_in. intros [c' d'] Ho. apply Z.eqb_neq. simpl. intros ->.
      apply Hc. by apply (list_elem_of_fmap_2 fst l (c, d')).
  - intros c' d' Hf. pose proof (get_option_repr p' _ c' Hq) as H.
    by rewrite (find_app_Some _ _ _ _ Hf) in H.
Qed.

Lemma dhcp_option_roundtrip_witness :
  exists p' off, dhcp_message_add_option (dhcp_message_init 2 7 [1;2;3;4;5;6]) 53 1 [2]
      = Ret (0, p')
    /\ dhcp_message_get_option p' 53 = Ret (Some (off, 1)).
Proof.
  destruct (dhcp_message_add_option (dhcp_message_init 2 7 [1;2;3;4;5;6]) 53 1 [2])
    as [[r p']|] eqn:E; [|vm_compute in E; discriminate].
  assert (r = 0) as -> by (vm_compute in E; congruence).
  destruct (dhcp_option_roundtrip (dhcp_message_init 2 7 [1;2;3;4;5;6]) p' [] 53 [2]
    (options_repr_init 2 7 [1;2;3;4;5;6]) ltac:(solve_valid)
    ltac:(simpl; lia) ltac:(apply not_elem_of_nil) E) as [(off & H & _) _].
  exists p', off. split; [reflexivity|exact H].
Defined.

(** The replies.  For a subnet with at most [MAX_DNS_SERVERS] = 4 name servers
    the OFFER, the ACK and the NAK are built without error or fault; each is a
    BOOTREPLY to the client's transaction and hardware address whose options field
    holds exactly the message type followed by (OFFER, ACK) mask, router, lease
    time, server identifier and name servers, or (NAK) the server identifier; the
    OFFER and the ACK carry the lease's address. *)
Lemma dhcp_replies_wellformed (req : dhcp_packet) (lease : dhcp_lease_t)
    (subnet : dhcp_subnet_t) (server_id : Z) :
  (length subnet.(s_dns_servers) <= 4)%nat ->
  (exists offer, dhcp_message_make_offer req lease subnet = Ret offer
     /\ options_repr ((DHCP_OPT_MESSAGE_TYPE, [DHCP_OFFER]) :: lease_options lease subnet)
          offer.(dp_options)
     /\ same_header offer
          (set_dp_siaddr subnet.(s_next_server) (set_dp_yiaddr lease.(l_ip_address)
            (dhcp_message_init BOOTREPLY req.(dp_xid) req.(dp_chaddr))))
     /\ dhcp_message_get_type offer = Ret DHCP_OFFER)
  /\ (exists ack, dhcp_message_make_ack req lease subnet = Ret ack
     /\ options_repr ((DHCP_OPT_MESSAGE_TYPE, [DHCP_ACK]) :: lease_options lease subnet)
          ack.(dp_options)
     /\ same_header ack
          (set_dp_yiaddr lease.(l_ip_address)
            (dhcp_message_init BOOTREPLY req.(dp_xid) req.(dp_chaddr)))
     /\ dhcp_message_get_type ack = Ret DHCP_ACK)
  /\ (exists nak, dhcp_message_make_nak req server_id = Ret nak
     /\ options_repr [(DHCP_OPT_MESSAGE_TYPE, [DHCP_NAK]);
                      (DHCP_OPT_SERVER_ID, le32 server_id)] nak.(dp_options)
     /\ same_header nak (dhcp_message_init BOOTREPLY req.(dp_xid) req.(dp_chaddr))
     /\ dhcp_message_get_type nak = Ret DHCP_NAK).
Proof.
  intros Hdns.
  split_and!; [by apply make_offer_spec|by apply make_ack_spec|by apply make_nak_spec].
Qed.

Lemma dhcp_replies_wellformed_witness :
  exists nak, dhcp_message_make_nak (dhcp_message_init 1 7 [1;2;3;4;5;6]) 16843009 = Ret nak
    /\ dhcp_message_get_type nak = Ret 6.
Proof.
  destruct (dhcp_replies_wellformed (dhcp_message_init 1 7 [1;2;3;4;5;6]) zero_lease
    (mk_dhcp_subnet 0 0 0 0 0 0 0 "" [1;2] [] [] 0 0 0 0 "" "" "" 0 0 []) 16843009)
    as (_ & _ & nak & H1 & _ & _ & H2); [simpl; lia|].
  exists nak. split; [exact H1|exact H2].
Defined.

(** A packet whose last option starts at the last byte of the field makes
    [dhcp_message_get_option] read past it, and one that starts two bytes before it
    makes [dhcp_message_get_type] do so. *)
Example get_option_reads_past_field :
  let opts := cookie_bytes ++ replicate 307 DHCP_OPT_PAD ++ [12] in
  length opts = OPTIONS_LEN
  /\ dhcp_message_get_option (set_dp_options opts (dhcp_message_init 1 0 [])) 53
     = Fault OutOfBounds.
Proof. split; reflexivity. Qed.

Example get_type_reads_past_field :
  let opts := cookie_bytes ++ replicate 306 DHCP_OPT_PAD ++ [53; 1] in
  length opts = OPTIONS_LEN
  /\ dhcp_message_get_type (set_dp_options opts (dhcp_message_init 1 0 [])) = Fault OutOfBounds.
Proof. split; reflexivity. Qed.
