(* ===== verification/ServerV4.v ===== *)
(** * The DHCPv4 server's packet handler

    [packet_processor] of [DHCPv4/src/main.c], the function the thread pool runs for
    each datagram, composed of the lease database, the address pool and the message
    functions.  Its effects are the datagrams it sends and the new server state.  The
    values [time(NULL)] returns during the call are the arguments [now] (in
    [ip_pool_allocate]) and [now'] (in the lease operation), the answer of the echo
    check is [ping]. *)

From S2P Require Import Prelude LeaseV4 ConfigV4 IpPool IpPoolSpec DhcpMessage.

Definition DHCP_CLIENT_PORT : Z := 68.
Definition INADDR_BROADCAST : Z := 4294967295.

(** [sin_port] is in network byte order. *)
Record sockaddr_in := mk_sockaddr_in {
  sin_addr : Z;
  sin_port : Z
}.

Record packet_task_t := mk_packet_task {
  pt_packet : dhcp_packet;
  pt_len : Z;
  pt_client_addr : sockaddr_in
}.

Record server_context_t := mk_server_context {
  sc_lease_db : lease_database_t;
  sc_config : dhcp_config_t;
  sc_pools : list ip_pool_t
}.

Definition set_sc_lease_db (v : lease_database_t) (g : server_context_t) : server_context_t :=
  mk_server_context v g.(sc_config) g.(sc_pools).

Definition set_sc_pools (v : list ip_pool_t) (g : server_context_t) : server_context_t :=
  mk_server_context g.(sc_lease_db) g.(sc_config) v.

(** The static arrays are zeroed: entry 0 exists even when nothing is configured.  Its
    subnet has no fields set, its pool no entries and a null [subnet] pointer, which
    [ip_pool_allocate] follows; [sc_pools] holds the initialised pools. *)
Definition zero_subnet : dhcp_subnet_t :=
  mk_dhcp_subnet 0 0 0 0 0 0 0 "" [] [] [] 0 0 0 0 "" "" "" 0 0 [].

Definition zero_pool : ip_pool_t := mk_ip_pool zero_subnet [] 0 0 false.

(** [&g_server.config.subnets[0]] and [&g_server.pools[0]]. *)
Definition subnet0 (g : server_context_t) : dhcp_subnet_t :=
  default zero_subnet (g.(sc_config).(c_subnets) !! 0%nat).

(** The pool as the operations that do not read [pool->subnet] see it. *)
Definition pool0 (g : server_context_t) : ip_pool_t :=
  default zero_pool (g.(sc_pools) !! 0%nat).

(** The pool with its subnet, as [ip_pool_allocate] needs it: following the null pointer
    of a pool that was never initialised is a fault. *)
Definition pool0_subnet (g : server_context_t) : outcome ip_pool_t :=
  in_bounds (g.(sc_pools) !! 0%nat).

Definition set_pool0 (p : ip_pool_t) (g : server_context_t) : server_context_t :=
  set_sc_pools match g.(sc_pools) with [] => [] | _ :: pools => p :: pools end g.

(** [if (opt) memcpy(&addr.s_addr, opt, 4)], the address being 0 otherwise. *)
Definition option_addr (req : dhcp_packet) (opt : option (nat * Z)) : outcome Z :=
  match opt with
  | None => Ret 0
  | Some (off, _) => bs ← read_bytes off 4 req.(dp_options); Ret (of_le32 bs)
  end.

(** [(ntohl(addr) & 0xFF000000) == 0x7F000000] *)
Definition is_127 (addr : Z) : bool := Z.land (ntohl addr) 0xFF000000 =? 0x7F000000.

(** Where the reply goes: to the relay, back to a loopback client, or broadcast. *)
Definition reply_dest (loopback : bool) (req : dhcp_packet) (client : sockaddr_in)
    : sockaddr_in :=
  if negb (req.(dp_giaddr) =? 0) then mk_sockaddr_in req.(dp_giaddr) (htons DHCP_CLIENT_PORT)
  else if loopback then client
  else mk_sockaddr_in INADDR_BROADCAST (htons DHCP_CLIENT_PORT).

Definition nak_dest (client : sockaddr_in) : sockaddr_in :=
  if ip_is_loopback client.(sin_addr) then client
  else mk_sockaddr_in INADDR_BROADCAST (htons DHCP_CLIENT_PORT).

Definition renewal_dest (req : dhcp_packet) (client : sockaddr_in) : sockaddr_in :=
  mk_sockaddr_in req.(dp_ciaddr)
    (if ip_is_loopback client.(sin_addr) then client.(sin_port)
     else htons DHCP_CLIENT_PORT).

(** The datagrams handed to [sendto], and the state. *)
Definition processed : Type := list (sockaddr_in * dhcp_packet) * server_context_t.

(** [case DHCP_DISCOVER] *)
Definition handle_discover (ping : Z -> Z -> bool) (now now' : Z) (g : server_context_t)
    (req : dhcp_packet) (client : sockaddr_in) : outcome processed :=
  let subnet := subnet0 g in
  '(slot, g) ←
    match lease_db_find_by_mac g.(sc_lease_db) req.(dp_chaddr) with
    | Some i => Ret (Some i, g)
    | None =>
        req_ip_opt ← dhcp_message_get_option req DHCP_OPT_REQUESTED_IP;
        req_ip ← option_addr req req_ip_opt;
        pool ← pool0_subnet g;
        '(slot, pool, db) ← ip_pool_allocate_and_create_lease ping now now' pool
           g.(sc_lease_db) req.(dp_chaddr) req_ip g.(sc_config)
           subnet.(s_default_lease_time);
        Ret (slot, set_sc_lease_db db (set_pool0 pool g))
    end;
  match slot with
  | None => Ret ([], g)
  | Some i =>
      lease ← in_bounds (g.(sc_lease_db).(leases) !! i);
      res ← dhcp_message_make_offer req lease subnet;
      Ret ([(reply_dest (is_127 client.(sin_addr)) req client, res)], g)
  end.

(** [lease_db_renew_lease] followed by the ACK for the same lease. *)
Definition renew_and_ack (now' : Z) (g : server_context_t) (req : dhcp_packet)
    (i : nat) (dest : sockaddr_in) : outcome processed :=
  let subnet := subnet0 g in
  lease ← in_bounds (g.(sc_lease_db).(leases) !! i);
  let '(_, db) := lease_db_renew_lease now' g.(sc_lease_db) lease.(l_ip_address)
                    subnet.(s_default_lease_time) in
  let g := set_sc_lease_db db g in
  lease ← in_bounds (g.(sc_lease_db).(leases) !! i);
  res ← dhcp_message_make_ack req lease subnet;
  Ret ([(dest, res)], g).

(** [case DHCP_REQUEST] *)
Definition handle_request (now' : Z) (g : server_context_t) (req : dhcp_packet)
    (client : sockaddr_in) : outcome processed :=
  let subnet := subnet0 g in
  req_ip_opt ← dhcp_message_get_option req DHCP_OPT_REQUESTED_IP;
  sid_opt ← dhcp_message_get_option req DHCP_OPT_SERVER_ID;
  req_ip ← option_addr req req_ip_opt;
  _ ← option_addr req sid_opt;
  match sid_opt with
  | Some _ =>
      let send_nak :=
        res ← dhcp_message_make_nak req subnet.(s_router);
        Ret ([(nak_dest client, res)], g) in
      match lease_db_find_by_ip g.(sc_lease_db) req_ip with
      | Some i =>
          lease ← in_bounds (g.(sc_lease_db).(leases) !! i);
          if memeq 6 lease.(l_mac_address) req.(dp_chaddr)
          then renew_and_ack now' g req i
                 (reply_dest (ip_is_loopback client.(sin_addr)) req client)
          else send_nak
      | None => send_nak
      end
  | None =>
      if negb (req.(dp_ciaddr) =? 0) then
        match lease_db_find_by_ip g.(sc_lease_db) req.(dp_ciaddr) with
        | Some i => renew_and_ack now' g req i (renewal_dest req client)
        | None => Ret ([], g)
        end
      else Ret ([], g)
  end.

(** [case DHCP_RELEASE] *)
Definition handle_release (now' : Z) (g : server_context_t) (req : dhcp_packet)
    : outcome processed :=
  if negb (req.(dp_ciaddr) =? 0) then
    let '(_, db) := lease_db_release_lease now' g.(sc_lease_db) req.(dp_ciaddr) in
    '(_, pool) ← ip_pool_release_ip (pool0 g) req.(dp_ciaddr);
    Ret ([], set_sc_lease_db db (set_pool0 pool g))
  else Ret ([], g).

Definition packet_processor (ping : Z -> Z -> bool) (now now' : Z) (g : server_context_t)
    (task : packet_task_t) : outcome processed :=
  let req := task.(pt_packet) in
  if negb (dhcp_message_validate req task.(pt_len) =? 0) then Ret ([], g)
  else
    msg_type ← dhcp_message_get_type req;
    if msg_type =? DHCP_DISCOVER
    then handle_discover ping now now' g req task.(pt_client_addr)
    else if msg_type =? DHCP_REQUEST
    then handle_request now' g req task.(pt_client_addr)
    else if msg_type =? DHCP_RELEASE then handle_release now' g req
    else Ret ([], g).

(** Client packets for the examples: the options written out and padded. *)
Definition client_packet (mac : list Z) (ciaddr : Z) (l : list dhcp_option) : dhcp_packet :=
  mk_dhcp_packet BOOTREQUEST HTYPE_ETHER 6 0 7 0 0 ciaddr 0 0 0 (mac ++ replicate 10 0)
    (replicate 64 0) (replicate 128 0)
    (cookie_bytes ++ encode_options l
       ++ DHCP_OPT_END :: replicate (307 - length (encode_options l)) 0).

Definition client_task (mac : list Z) (ciaddr : Z) (l : list dhcp_option) : packet_task_t :=
  mk_packet_task (client_packet mac ciaddr l) 548 (mk_sockaddr_in 0 (htons 68)).

Definition discover_options : list dhcp_option := [(DHCP_OPT_MESSAGE_TYPE, [DHCP_DISCOVER])].

Definition request_options (ip : Z) : list dhcp_option :=
  [(DHCP_OPT_MESSAGE_TYPE, [DHCP_REQUEST]); (DHCP_OPT_REQUESTED_IP, le32 ip);
   (DHCP_OPT_SERVER_ID, le32 (ip4 192 168 1 1))].

Definition release_options : list dhcp_option := [(DHCP_OPT_MESSAGE_TYPE, [DHCP_RELEASE])].

Definition example_server : server_context_t :=
  mk_server_context (lease_db_init "f") (example_config false) [example_pool].

(** The message type and the address of each datagram sent. *)
Definition summary (out : processed) : list (outcome Z * Z) :=
  (fun '(_, p) => (dhcp_message_get_type p, p.(dp_yiaddr))) <$> out.1.

(** ** Lemmas *)

Lemma client_packet_repr mac ciaddr l :
  Forall valid_option l -> (length (encode_options l) <= 307)%nat ->
  options_repr l (client_packet mac ciaddr l).(dp_options).
Proof.
  intros Hv Hl. split; [done|]. eexists. split; [reflexivity|].
  unfold client_packet. cbn [dp_options]. rewrite !length_app. cbn [length].
  rewrite length_replicate, length_cookie. unfold OPTIONS_LEN. lia.
Qed.

Lemma validate_repr p l len :
  options_repr l p.(dp_options) -> 240 <= len -> dhcp_message_validate p len = 0.
Proof.
  intros Hr Hlen. unfold dhcp_message_validate. rewrite (repr_cookie l p Hr).
  by destruct (Z.ltb_spec len (548 - 312 + 4)); [lia|].
Qed.

(** The address an option of four bytes carries. *)
Lemma option_addr_repr p l c d :
  options_repr l p.(dp_options) -> find (fun o => o.1 =? c) l = Some (c, d) ->
  length d = 4%nat ->
  exists off, dhcp_message_get_option p c = Ret (Some (off, 4))
    /\ option_addr p (Some (off, 4)) = Ret (of_le32 d).
Proof.
  intros Hr Hf Hd. pose proof (get_option_repr p l c Hr) as H. rewrite Hf in H.
  destruct H as (off & E & Hread). rewrite Hd in E, Hread. exists off. split; [done|].
  unfold option_addr. by rewrite Hread.
Qed.

(** An optional address option never makes the server read outside the packet. *)
Lemma option_addr_total p l c :
  options_repr l p.(dp_options) ->
  (forall o, find (fun o => o.1 =? c) l = Some o -> length o.2 = 4%nat) ->
  exists opt ip, dhcp_message_get_option p c = Ret opt /\ option_addr p opt = Ret ip.
Proof.
  intros Hr Hc. pose proof (get_option_repr p l c Hr) as H.
  destruct (find (fun o => o.1 =? c) l) as [[c' d]|] eqn:Hf.
  - specialize (Hc _ eq_refl). destruct H as (off & E & Hread). simpl in Hc.
    rewrite Hc in E, Hread. exists (Some (off, 4)), (of_le32 d). split; [done|].
    unfold option_addr. by rewrite Hread.
  - by exists None, 0.
Qed.

Lemma renew_at now db ip i l t :
  lease_db_find_by_ip db ip = Some i -> db.(leases) !! i = Some l ->
  lease_db_renew_lease now db l.(l_ip_address) t
  = (0, set_leases (alter (renew_fields now t) i db.(leases)) db).
Proof.
  intros Hf Hl. destruct (find_by_ip_lookup _ _ _ Hf) as (l' & Hl' & Hip).
  assert (l' = l) as -> by congruence. unfold lease_db_renew_lease. by rewrite Hip, Hf.
Qed.

(** Renewing the lease the server found and acknowledging it. *)
Lemma renew_and_ack_spec now' g req i dest ip l :
  (length (subnet0 g).(s_dns_servers) <= 4)%nat ->
  lease_db_find_by_ip g.(sc_lease_db) ip = Some i ->
  g.(sc_lease_db).(leases) !! i = Some l ->
  let l' := renew_fields now' (subnet0 g).(s_default_lease_time) l in
  exists ack, renew_and_ack now' g req i dest
    = Ret ([(dest, ack)],
           set_sc_lease_db (set_leases (<[i := l']> g.(sc_lease_db).(leases))
                              g.(sc_lease_db)) g)
  /\ dhcp_message_get_type ack = Ret DHCP_ACK /\ ack.(dp_yiaddr) = ip
  /\ ack.(dp_xid) = req.(dp_xid)
  /\ options_repr ((DHCP_OPT_MESSAGE_TYPE, [DHCP_ACK]) :: lease_options l' (subnet0 g)) ack.(dp_options).
Proof.
  intros Hdns Hf Hl l'. unfold renew_and_ack. rewrite Hl. cbn [in_bounds].
  rewrite bind_Ret, (renew_at _ _ _ _ _ _ Hf Hl). cbv beta iota.
  rewrite (alter_insert _ _ _ _ Hl). fold l'.
  cbn [sc_lease_db set_sc_lease_db leases set_leases].
  rewrite list_lookup_insert_eq by (by eapply lookup_lt_Some). cbn [in_bounds].
  rewrite bind_Ret. change (subnet0 (set_sc_lease_db _ g)) with (subnet0 g).
  destruct (make_ack_spec req l' (subnet0 g) Hdns) as (ack & -> & Hrepr & Hh & Hty).
  rewrite bind_Ret. exists ack. split; [done|]. split; [done|].
  destruct (find_by_ip_lookup _ _ _ Hf) as (l0 & Hl0 & Hip).
  assert (l0 = l) as -> by congruence. by apply same_header_fields in Hh as [-> ->].
Qed.

(** Creating a lease for an address that has none. *)
Lemma create_lease_fresh ping now now' pool pool1 db mac req_ip config t r :
  ip_pool_allocate ping now pool mac req_ip config = Ret (r, pool1) ->
  r.(r_success) = true -> lease_db_find_by_ip db r.(r_ip_address) = None ->
  (length db.(leases) < MAX_LEASES)%nat ->
  exists l db', l.(l_ip_address) = r.(r_ip_address) /\ l.(l_mac_address) = take 6 mac
  /\ db'.(leases) = db.(leases) ++ [l]
  /\ ip_pool_allocate_and_create_lease ping now now' pool db mac req_ip config t
     = Ret (Some (length db.(leases)), link_entry r.(r_ip_address) l.(l_lease_id) pool1, db').
Proof.
  intros E Hs Hf Hlt. unfold ip_pool_allocate_and_create_lease.
  rewrite E, bind_Ret. cbv beta iota. rewrite Hs, Hf. cbn [negb].
  unfold lease_db_add_lease. rewrite bool_decide_eq_false_2 by lia.
  cbn [lease_db_generate_id leases set_leases set_next_lease_id].
  set (l := new_lease now' _ _ mac t).
  exists l. eexists. split_and!; [done|done| |].
  2: { rewrite list_lookup_middle by done. cbn [in_bounds]. by rewrite bind_Ret. }
  done.
Qed.

Lemma find_by_ip_app db l ip :
  lease_db_find_by_ip db ip = None -> l.(l_ip_address) = ip ->
  forall db', db'.(leases) = db.(leases) ++ [l] ->
  lease_db_find_by_ip db' ip = Some (length db.(leases)).
Proof.
  intros Hn Hip db' Hdb. unfold lease_db_find_by_ip in *. rewrite Hdb.
  rewrite find_index_app_None by done. simpl. rewrite Hip, Z.eqb_refl. simpl.
  by rewrite Nat.add_0_r.
Qed.

(** A REQUEST that selects this server, from the client the lease belongs to. *)
Lemma request_ack now now' ping g task l ip i lease d :
  let req := task.(pt_packet) in
  options_repr l req.(dp_options) -> 240 <= task.(pt_len) ->
  (length (subnet0 g).(s_dns_servers) <= 4)%nat -> is_u32 ip ->
  find (fun o => o.1 =? DHCP_OPT_MESSAGE_TYPE) l = Some (DHCP_OPT_MESSAGE_TYPE, [DHCP_REQUEST]) ->
  find (fun o => o.1 =? DHCP_OPT_REQUESTED_IP) l = Some (DHCP_OPT_REQUESTED_IP, le32 ip) ->
  find (fun o => o.1 =? DHCP_OPT_SERVER_ID) l = Some (DHCP_OPT_SERVER_ID, d) ->
  length d = 4%nat ->
  lease_db_find_by_ip g.(sc_lease_db) ip = Some i ->
  g.(sc_lease_db).(leases) !! i = Some lease ->
  packet_processor ping now now' g task
  = if memeq 6 lease.(l_mac_address) req.(dp_chaddr)
    then renew_and_ack now' g req i
           (reply_dest (ip_is_loopback task.(pt_client_addr).(sin_addr)) req
              task.(pt_client_addr))
    else nak ← dhcp_message_make_nak req (subnet0 g).(s_router);
         Ret ([(nak_dest task.(pt_client_addr), nak)], g).
Proof.
  intros req Hr Hlen Hdns Hip H53 H50 H54 Hd Hf Hl. unfold packet_processor. fold req.
  rewrite (validate_repr req l) by done. rewrite (find_type req DHCP_REQUEST l) by done.
  cbn [Z.eqb negb]. rewrite bind_Ret. change (DHCP_REQUEST =? DHCP_DISCOVER) with false.
  change (DHCP_REQUEST =? DHCP_REQUEST) with true. cbv iota. unfold handle_request.
  destruct (option_addr_repr req l DHCP_OPT_REQUESTED_IP (le32 ip) Hr H50 eq_refl)
    as (off & -> & Ho).
  destruct (option_addr_repr req l DHCP_OPT_SERVER_ID d Hr H54 Hd) as (off' & -> & Ho').
  rewrite !bind_Ret, Ho, bind_Ret, Ho', bind_Ret. rewrite of_le32_le32, Hf, Hl by done.
  cbn [in_bounds]. by rewrite bind_Ret.
Qed.

(** A DISCOVER of a new client. *)
Lemma pool0_configured g : (pool0 g).(p_entries) <> [] -> pool0_subnet g = Ret (pool0 g).
Proof. unfold pool0_subnet, pool0. destruct (sc_pools g !! 0%nat); [done|]. by intros []. Qed.

Lemma pool0_set g p : (pool0 g).(p_entries) <> [] -> pool0 (set_pool0 p g) = p.
Proof. unfold pool0, set_pool0. destruct (sc_pools g); [by intros []|done]. Qed.

Lemma Exists_nonempty {A} (P : A -> Prop) (l : list A) : Exists P l -> l <> [].
Proof. by destruct 1. Qed.

(** With no subnet configured the first DISCOVER of an unknown client follows the null
    [subnet] pointer of the pool. *)
Lemma unconfigured_discover_faults ping now now' config db mac :
  config.(c_subnets) = [] -> lease_db_find_by_mac db (mac ++ replicate 10 0) = None ->
  packet_processor ping now now' (mk_server_context db config [])
    (client_task mac 0 discover_options) = Fault OutOfBounds.
Proof.
  intros Hc Hm. unfold packet_processor, client_task. cbn [pt_packet pt_len pt_client_addr].
  assert (options_repr discover_options (dp_options (client_packet mac 0 discover_options))) as Hr.
  { apply client_packet_repr; [|vm_compute; lia]. repeat constructor; vm_compute; congruence. }
  rewrite (validate_repr _ discover_options) by done.
  rewrite (find_type _ DHCP_DISCOVER discover_options) by done.
  cbn [Z.eqb negb]. rewrite bind_Ret. change (DHCP_DISCOVER =? DHCP_DISCOVER) with true.
  cbv iota. unfold handle_discover. cbn [sc_lease_db client_packet dp_chaddr]. rewrite Hm.
  destruct (option_addr_total _ discover_options DHCP_OPT_REQUESTED_IP Hr ltac:(done)) as (opt & rip & -> & Ho).
  by rewrite bind_Ret, Ho, bind_Ret.
Qed.

Lemma discover_fresh now now' ping g task l :
  let req := task.(pt_packet) in
  let mac := req.(dp_chaddr) in
  options_repr l req.(dp_options) -> 240 <= task.(pt_len) ->
  (length (subnet0 g).(s_dns_servers) <= 4)%nat ->
  find (fun o => o.1 =? DHCP_OPT_MESSAGE_TYPE) l = Some (DHCP_OPT_MESSAGE_TYPE, [DHCP_DISCOVER]) ->
  (forall o, find (fun o => o.1 =? DHCP_OPT_REQUESTED_IP) l = Some o -> length o.2 = 4%nat) ->
  pool_inv (pool0 g) -> no_reservation (pool0 g) mac ->
  (forall ip, ~ holds (pool0 g) ip mac) ->
  lease_db_find_by_mac g.(sc_lease_db) mac = None ->
  (length g.(sc_lease_db).(leases) < MAX_LEASES)%nat ->
  (forall e, e ∈ (pool0 g).(p_entries) -> e.(e_state) = IP_STATE_AVAILABLE ->
     ping_conflict ping g.(sc_config) e.(e_ip_address) = false
     /\ lease_db_find_by_ip g.(sc_lease_db) e.(e_ip_address) = None) ->
  Exists (fun e => e.(e_state) = IP_STATE_AVAILABLE) (pool0 g).(p_entries) ->
  exists ip dest offer pool' lease db',
    packet_processor ping now now' g task
      = Ret ([(dest, offer)], set_sc_lease_db db' (set_pool0 pool' g))
    /\ dhcp_message_get_type offer = Ret DHCP_OFFER /\ offer.(dp_yiaddr) = ip
    /\ holds pool' ip mac
    /\ lease.(l_ip_address) = ip /\ lease.(l_mac_address) = take 6 mac
    /\ db'.(leases) = g.(sc_lease_db).(leases) ++ [lease]
    /\ lease_db_find_by_ip g.(sc_lease_db) ip = None
    /\ dest = reply_dest (is_127 task.(pt_client_addr).(sin_addr)) req task.(pt_client_addr)
    /\ offer.(dp_xid) = req.(dp_xid)
    /\ options_repr ((DHCP_OPT_MESSAGE_TYPE, [DHCP_OFFER]) :: lease_options lease (subnet0 g)) offer.(dp_options)
    /\ exists e, e ∈ (pool0 g).(p_entries) /\ e.(e_state) = IP_STATE_AVAILABLE /\ e.(e_ip_address) = ip.
Proof.
  intros req mac Hr Hlen Hdns H53 H50 Hinv Hres Hhold Hmac Hroom Hav Hex.
  unfold packet_processor. fold req.
  rewrite (validate_repr req l) by done. rewrite (find_type req DHCP_DISCOVER l) by done.
  cbn [Z.eqb negb]. rewrite bind_Ret. change (DHCP_DISCOVER =? DHCP_DISCOVER) with true.
  cbv iota. unfold handle_discover. fold mac. rewrite Hmac.
  destruct (option_addr_total req l DHCP_OPT_REQUESTED_IP Hr H50) as (opt & rip & -> & Ho).
  rewrite bind_Ret, Ho, bind_Ret, (pool0_configured g) by (by apply Exists_nonempty in Hex).
  rewrite bind_Ret.
  destruct (allocate_new ping now (pool0 g) mac rip (sc_config g) Hinv Hres Hhold)
    as (r & pool1 & e & Ha & Hs & He & Hes & Hip & Hh); [intros; by apply Hav|done|].
  destruct (Hav e He Hes) as [_ Hnone]. rewrite Hip in Hnone.
  destruct (create_lease_fresh ping now now' (pool0 g) pool1 (sc_lease_db g) mac rip
    (sc_config g) (s_default_lease_time (subnet0 g)) r Ha Hs Hnone Hroom)
    as (lease & db' & Hlip & Hlm & Hdb & Hc).
  rewrite Hc, !bind_Ret. cbv beta iota.
  cbn [sc_lease_db set_sc_lease_db]. rewrite Hdb, list_lookup_middle by done.
  cbn [in_bounds]. rewrite bind_Ret.
  destruct (make_offer_spec req lease (subnet0 g) Hdns) as (offer & -> & Hrepr & Hsh & Hty).
  rewrite bind_Ret. apply same_header_fields in Hsh as [Hy Hx].
  exists (r_ip_address r). eexists _, offer, _, lease, db'. split; [reflexivity|].
  rewrite Hy, Hx. split_and!; try done; [by apply link_holds|by exists e].
Qed.

(** ** Properties *)

(** C3: a client gets an acknowledgement only for its own lease.  For a well-formed
    REQUEST that names a server and an address: if the database has a lease for the
    address with the client's hardware address, the server sends exactly one
    datagram, an ACK for that address, and renews that lease to end
    [default_lease_time] from now; otherwise it sends exactly one datagram, a NAK,
    and its state does not change. *)
Theorem request_ack_only_to_owner (now now' : Z) (ping : Z -> Z -> bool)
    (g : server_context_t) (task : packet_task_t) (l : list dhcp_option) (ip : Z)
    (d : list Z) :
  let req := task.(pt_packet) in
  options_repr l req.(dp_options) -> 240 <= task.(pt_len) ->
  (length (subnet0 g).(s_dns_servers) <= 4)%nat -> is_u32 ip ->
  find (fun o => o.1 =? DHCP_OPT_MESSAGE_TYPE) l = Some (DHCP_OPT_MESSAGE_TYPE, [DHCP_REQUEST]) ->
  find (fun o => o.1 =? DHCP_OPT_REQUESTED_IP) l = Some (DHCP_OPT_REQUESTED_IP, le32 ip) ->
  find (fun o => o.1 =? DHCP_OPT_SERVER_ID) l = Some (DHCP_OPT_SERVER_ID, d) ->
  length d = 4%nat ->
  match lease_db_find_by_ip g.(sc_lease_db) ip with
  | Some i =>
      exists lease, g.(sc_lease_db).(leases) !! i = Some lease
      /\ if memeq 6 lease.(l_mac_address) req.(dp_chaddr)
         then exists dest ack db', packet_processor ping now now' g task
                = Ret ([(dest, ack)], set_sc_lease_db db' g)
              /\ dhcp_message_get_type ack = Ret DHCP_ACK /\ ack.(dp_yiaddr) = ip
              /\ db'.(leases) = <[i := renew_fields now' (subnet0 g).(s_default_lease_time)
                                         lease]> g.(sc_lease_db).(leases)
         else exists dest nak, packet_processor ping now now' g task = Ret ([(dest, nak)], g)
              /\ dhcp_message_get_type nak = Ret DHCP_NAK
  | None => exists dest nak, packet_processor ping now now' g task = Ret ([(dest, nak)], g)
            /\ dhcp_message_get_type nak = Ret DHCP_NAK
  end.
Proof.
  intros req Hr Hlen Hdns Hip H53 H50 H54 Hd.
  destruct (make_nak_spec req (s_router (subnet0 g))) as (nak & Hnak & _ & _ & Hty).
  destruct (lease_db_find_by_ip (sc_lease_db g) ip) as [i|] eqn:Hf.
  - destruct (find_by_ip_lookup _ _ _ Hf) as (lease & Hl & _). exists lease. split; [done|].
    rewrite (request_ack now now' ping g task l ip i lease d) by done. fold req.
    destruct (memeq 6 (l_mac_address lease) (dp_chaddr req)).
    + set (dest := reply_dest _ _ _).
      destruct (renew_and_ack_spec now' g req i dest ip lease Hdns Hf Hl)
        as (ack & -> & Hack & Hy & _).
      exists dest, ack. eexists. split; [reflexivity|]. done.
    + rewrite Hnak, bind_Ret. eauto.
  - unfold packet_processor. fold req.
    rewrite (validate_repr req l) by done. rewrite (find_type req DHCP_REQUEST l) by done.
    cbn [Z.eqb negb]. rewrite bind_Ret. change (DHCP_REQUEST =? DHCP_DISCOVER) with false.
    change (DHCP_REQUEST =? DHCP_REQUEST) with true. cbv iota. unfold handle_request.
    destruct (option_addr_repr req l DHCP_OPT_REQUESTED_IP (le32 ip) Hr H50 eq_refl)
      as (off & -> & Ho).
    destruct (option_addr_repr req l DHCP_OPT_SERVER_ID d Hr H54 Hd) as (off' & -> & Ho').
    rewrite !bind_Ret, Ho, bind_Ret, Ho', bind_Ret. rewrite of_le32_le32, Hf by done.
    rewrite Hnak, bind_Ret. eauto.
Qed.

Lemma request_ack_only_to_owner_witness :
  exists dest nak, packet_processor (fun _ _ => false) 0 0 example_server
      (client_task [1;2;3;4;5;6] 0 (request_options (ip4 192 168 1 10)))
    = Ret ([(dest, nak)], example_server) /\ dhcp_message_get_type nak = Ret DHCP_NAK.
Proof.
  apply (request_ack_only_to_owner 0 0 (fun _ _ => false) example_server
    (client_task [1;2;3;4;5;6] 0 (request_options (ip4 192 168 1 10)))
    (request_options (ip4 192 168 1 10)) (ip4 192 168 1 10) (le32 (ip4 192 168 1 1))).
  - apply client_packet_repr; [|vm_compute; lia].
    repeat constructor; try discriminate; vm_compute; lia.
  - vm_compute. discriminate.
  - vm_compute. lia.
  - split; vm_compute; [discriminate|reflexivity].
  - reflexivity.
  - reflexivity.
  - reflexivity.
  - reflexivity.
Defined.

(** The four-message exchange succeeds.  A new client (no lease, no reservation,
    no address) that sends a well-formed DISCOVER to a server with a free address
    that has no lease, room in the lease array and no echo reply from a free address,
    is sent one OFFER of an address the pool then records as held by it; and
    any well-formed REQUEST of that client for that address, to that server, is then
    answered by one ACK for it, with the lease ACTIVE until [default_lease_time]
    after the request. *)
Lemma discover_request_exchange (now now' now2 now2' : Z) (ping : Z -> Z -> bool)
    (g : server_context_t) (task : packet_task_t) (l : list dhcp_option) :
  let req := task.(pt_packet) in
  let mac := req.(dp_chaddr) in
  options_repr l req.(dp_options) -> 240 <= task.(pt_len) ->
  (length (subnet0 g).(s_dns_servers) <= 4)%nat ->
  find (fun o => o.1 =? DHCP_OPT_MESSAGE_TYPE) l = Some (DHCP_OPT_MESSAGE_TYPE, [DHCP_DISCOVER]) ->
  (forall o, find (fun o => o.1 =? DHCP_OPT_REQUESTED_IP) l = Some o -> length o.2 = 4%nat) ->
  pool_inv (pool0 g) -> no_reservation (pool0 g) mac ->
  (forall ip, ~ holds (pool0 g) ip mac) ->
  lease_db_find_by_mac g.(sc_lease_db) mac = None ->
  (length g.(sc_lease_db).(leases) < MAX_LEASES)%nat ->
  (forall e, e ∈ (pool0 g).(p_entries) -> e.(e_state) = IP_STATE_AVAILABLE ->
     ping_conflict ping g.(sc_config) e.(e_ip_address) = false
     /\ lease_db_find_by_ip g.(sc_lease_db) e.(e_ip_address) = None) ->
  Exists (fun e => e.(e_state) = IP_STATE_AVAILABLE) (pool0 g).(p_entries) ->
  exists ip dest offer g1,
    packet_processor ping now now' g task = Ret ([(dest, offer)], g1)
    /\ dhcp_message_get_type offer = Ret DHCP_OFFER /\ offer.(dp_yiaddr) = ip
    /\ holds (pool0 g1) ip mac
    /\ forall task2 l2 d, is_u32 ip ->
       options_repr l2 task2.(pt_packet).(dp_options) -> 240 <= task2.(pt_len) ->
       take 6 task2.(pt_packet).(dp_chaddr) = take 6 mac ->
       find (fun o => o.1 =? DHCP_OPT_MESSAGE_TYPE) l2 = Some (DHCP_OPT_MESSAGE_TYPE, [DHCP_REQUEST]) ->
       find (fun o => o.1 =? DHCP_OPT_REQUESTED_IP) l2 = Some (DHCP_OPT_REQUESTED_IP, le32 ip) ->
       find (fun o => o.1 =? DHCP_OPT_SERVER_ID) l2 = Some (DHCP_OPT_SERVER_ID, d) ->
       length d = 4%nat ->
       exists dest2 ack g2 i lease,
         packet_processor ping now2 now2' g1 task2 = Ret ([(dest2, ack)], g2)
         /\ dhcp_message_get_type ack = Ret DHCP_ACK /\ ack.(dp_yiaddr) = ip
         /\ lease_db_find_by_ip g1.(sc_lease_db) ip = Some i
         /\ g2.(sc_lease_db).(leases) !! i = Some lease
         /\ lease.(l_state) = LEASE_STATE_ACTIVE
         /\ lease.(l_end_time) = now2' + (subnet0 g).(s_default_lease_time)
         /\ memeq 6 lease.(l_mac_address) mac = true.
Proof.
  intros req mac Hr Hlen Hdns H53 H50 Hinv Hres Hhold Hmac Hroom Hav Hex.
  destruct (discover_fresh now now' ping g task l Hr Hlen Hdns H53 H50 Hinv Hres Hhold Hmac
    Hroom Hav Hex) as (ip & dest & offer & pool' & lease & db' & Hrun & Hoff & Hy & Hholds
                       & Hip & Hm & Hdb & Hnone & _).
  exists ip, dest, offer, (set_sc_lease_db db' (set_pool0 pool' g)).
  split; [exact Hrun|]. split; [exact Hoff|]. split; [exact Hy|]. split.
  { change (pool0 _) with (pool0 (set_pool0 pool' g)).
    rewrite pool0_set by (by apply Exists_nonempty in Hex). exact Hholds. }
  intros task2 l2 d Hu Hr2 Hlen2 Hch H53' H50' H54' Hd.
  set (g1 := set_sc_lease_db db' (set_pool0 pool' g)) in *.
  assert (lease_db_find_by_ip (sc_lease_db g1) ip = Some (length (leases (sc_lease_db g)))) as Hf
    by (by eapply find_by_ip_app).
  assert (leases (sc_lease_db g1) !! length (leases (sc_lease_db g)) = Some lease) as Hl
    by (simpl; rewrite Hdb; by apply list_lookup_middle).
  assert (memeq 6 (l_mac_address lease) (dp_chaddr (pt_packet task2)) = true) as Hmm
    by (apply memeq_true; rewrite Hm, take_take_6; done).
  rewrite (request_ack now2 now2' ping g1 task2 l2 ip _ lease d) by done. rewrite Hmm.
  set (dest2 := reply_dest _ _ _).
  destruct (renew_and_ack_spec now2' g1 (pt_packet task2) _ dest2 ip lease Hdns Hf Hl)
    as (ack & -> & Hack & Hy2 & _).
  exists dest2, ack. eexists _, _, (renew_fields now2' (s_default_lease_time (subnet0 g)) lease).
  split; [reflexivity|]. split_and!; try done.
  - simpl. apply list_lookup_insert_eq. rewrite Hdb, length_app. simpl. lia.
  - apply memeq_true. simpl. rewrite Hm. apply take_take_6.
Qed.

Lemma discover_request_exchange_witness :
  exists ip dest offer g1, packet_processor (fun _ _ => false) 1001 1001 example_server
      (client_task [1;2;3;4;5;6] 0 discover_options) = Ret ([(dest, offer)], g1)
    /\ dhcp_message_get_type offer = Ret DHCP_OFFER /\ offer.(dp_yiaddr) = ip.
Proof.
  destruct (discover_request_exchange 1001 1001 1002 1002 (fun _ _ => false) example_server
    (client_task [1;2;3;4;5;6] 0 discover_options) discover_options)
    as (ip & dest & offer & g1 & H1 & H2 & H3 & _).
  - apply client_packet_repr; [|vm_compute; lia].
    repeat constructor; try discriminate; vm_compute; lia.
  - vm_compute. discriminate.
  - vm_compute. lia.
  - reflexivity.
  - intros o Ho. vm_compute in Ho. discriminate.
  - apply example_pool_inv.
  - intros h Hh. vm_compute in Hh. apply list_elem_of_singleton in Hh as ->. reflexivity.
  - intros ip (e & He & _ & Hs & _).
    eapply (forallb_elem (fun x => negb (in_state IP_STATE_ALLOCATED x))) in He;
      [|vm_compute; reflexivity].
    unfold in_state in He. by rewrite bool_decide_eq_true_2 in He.
  - reflexivity.
  - vm_compute. lia.
  - intros e _ _. split; reflexivity.
  - apply Exists_cons_hd. reflexivity.
  - exists ip, dest, offer, g1. auto.
Defined.

(** ** Two clients and a released address

    Client A obtains an address and releases it.  Client B is then offered the same
    address, but the lease is still A's: B's REQUEST is refused, while A, if it asks
    again, is offered and acknowledged the address the pool holds for B. *)
Example released_address_is_stuck :
  let A := [1;2;3;4;5;6] in let B := [7;7;7;7;7;7] in
  let ip := ip4 192 168 1 10 in
  let run now g task := packet_processor (fun _ _ => false) now now g task in
  ('(_, g) ← run 1001 example_server (client_task A 0 discover_options);
   '(_, g) ← run 1002 g (client_task A 0 (request_options ip));
   '(_, g) ← run 1003 g (client_task A ip release_options);
   '(offerB, g) ← run 1004 g (client_task B 0 discover_options);
   '(replyB, g) ← run 1005 g (client_task B 0 (request_options ip));
   '(offerA, g) ← run 1006 g (client_task A 0 discover_options);
   '(replyA, g) ← run 1007 g (client_task A 0 (request_options ip));
   Ret (summary (offerB, g), summary (replyB, g), summary (offerA, g), summary (replyA, g)))
  = Ret ([(Ret DHCP_OFFER, ip)], [(Ret DHCP_NAK, 0)],
         [(Ret DHCP_OFFER, ip)], [(Ret DHCP_ACK, ip)]).
Proof. vm_compute. reflexivity. Qed.

(** A renewal (no server identifier, [ciaddr] set) is acknowledged whatever the
    hardware address of the sender. *)
Example renewal_ignores_owner :
  let A := [1;2;3;4;5;6] in let B := [7;7;7;7;7;7] in
  let ip := ip4 192 168 1 10 in
  let run now g task := packet_processor (fun _ _ => false) now now g task in
  ('(_, g) ← run 1001 example_server (client_task A 0 discover_options);
   '(replyB, g) ← run 1002 g (client_task B ip
                    [(DHCP_OPT_MESSAGE_TYPE, [DHCP_REQUEST])]);
   Ret (summary (replyB, g))) = Ret [(Ret DHCP_ACK, ip)].
Proof. vm_compute. reflexivity. Qed.
