(* ===== verification/UtilsV6.v ===== *)
(** * DHCPv6 utilities

    [DHCPv6/sources/utilsv6.c], [duid_hex_to_bin] of [leases6.c] and
    [increment_prefix] of [pd_pool.c].  An IPv6 address is the list of the sixteen
    bytes of [s6_addr]; a C string is the list of its bytes before the terminator.
    [inet_pton] is a parameter of the functions that parse addresses. *)

From S2P Require Import Prelude.

Abbreviation in6_addr := (list Z) (only parsing).
Abbreviation cstr := (list Z) (only parsing).

(** ** Addresses *)

(** The sign of [memcmp]. *)
Fixpoint memcmp (a b : list Z) : Z :=
  match a, b with
  | x :: a, y :: b => if x <? y then -1 else if y <? x then 1 else memcmp a b
  | _, _ => 0
  end.

Definition ipv6_compare (addr1 addr2 : in6_addr) : Z := memcmp addr1 addr2.

Definition byte_at (ip : in6_addr) (i : nat) : Z := nth i ip 0.

Definition ipv6_in_subnet (ip subnet : in6_addr) (prefix_len : Z) : bool :=
  if 128 <? prefix_len then false
  else
    let full_bytes := Z.to_nat (prefix_len / 8) in
    let remaining_bits := prefix_len mod 8 in
    if negb (memeq full_bytes ip subnet) then false
    else if negb (remaining_bits =? 0) then
      let mask := u8 (Z.shiftl 0xFF (8 - remaining_bits)) in
      Z.land (byte_at ip full_bytes) mask =? Z.land (byte_at subnet full_bytes) mask
    else true.

(** [for (i = n - 1; i >= 0; i--)] *)
Fixpoint increment_loop (n : nat) (ip : in6_addr) : bool * in6_addr :=
  match n with
  | O => (false, ip)
  | S i =>
      if negb (byte_at ip i =? 0xFF) then (true, <[i := u8 (byte_at ip i + 1)]> ip)
      else increment_loop i (<[i := 0]> ip)
  end.

Definition ipv6_increment (ip : in6_addr) : bool * in6_addr := increment_loop 16 ip.

(** [for (i = n - 1; i >= 0; i--)] of [increment_prefix], with the carry [add]. *)
Fixpoint add_loop (n : nat) (add : Z) (ip : in6_addr) : in6_addr :=
  match n with
  | O => ip
  | S i =>
      let val := u16 (byte_at ip i + add) in
      let ip := <[i := Z.land val 0xFF]> ip in
      let add := Z.shiftr val 8 in
      if add =? 0 then ip else add_loop i add ip
  end.

Definition increment_prefix (ip : in6_addr) (plen : Z) : in6_addr :=
  if (plen =? 0) || (128 <? plen) then ip
  else
    let byte_idx := (plen - 1) / 8 in
    let bit_in_byte := 7 - (plen - 1) mod 8 in
    add_loop (Z.to_nat byte_idx + 1) (Z.shiftl 1 bit_in_byte) ip.

(** ** Characters *)

Definition isxdigit (c : Z) : bool :=
  ((48 <=? c) && (c <=? 57)) || ((65 <=? c) && (c <=? 70)) || ((97 <=? c) && (c <=? 102)).

(** Space, and the controls from tab to carriage return. *)
Definition isspace (c : Z) : bool := (c =? 32) || ((9 <=? c) && (c <=? 13)).

Definition hex_value (c : Z) : Z :=
  if c <=? 57 then c - 48 else if c <=? 70 then c - 55 else c - 87.

(** ["0123456789abcdef"[d]] *)
Definition hex_digit (d : Z) : Z := if d <? 10 then 48 + d else 87 + d.

Fixpoint drop_while (p : Z -> bool) (s : cstr) : cstr :=
  match s with
  | [] => []
  | c :: r => if p c then drop_while p r else s
  end.

(** Removing a suffix of characters that satisfy [p]. *)
Definition drop_while_end (p : Z -> bool) (s : cstr) : cstr :=
  rev (drop_while p (rev s)).

(** ** Text *)

Fixpoint mac_loop (i : Z) (s : cstr) : bool :=
  match s with
  | [] => true
  | c :: r =>
      if i mod 3 =? 2 then (c =? 58) && mac_loop (i + 1) r
      else isxdigit c && mac_loop (i + 1) r
  end.

Definition is_valid_mac (mac_str : cstr) : bool :=
  if negb (Z.of_nat (length mac_str) =? 17) then false else mac_loop 0 mac_str.

(** The number of digits, [None] at the first character that is neither a digit nor
    a colon. *)
Fixpoint duid_digits (s : cstr) (hex_count : Z) : option Z :=
  match s with
  | [] => Some hex_count
  | c :: r =>
      if c =? 58 then duid_digits r hex_count
      else if negb (isxdigit c) then None
      else duid_digits r (hex_count + 1)
  end.

Definition is_valid_duid (duid_str : cstr) : bool :=
  match duid_digits duid_str 0 with
  | None => false
  | Some n => if n <? 8 then false else if negb (n mod 2 =? 0) then false else true
  end.

Definition rstrip (s : cstr) : cstr := drop_while_end (fun c => (c =? 10) || (c =? 13)) s.

Definition lskip (s : cstr) : cstr := drop_while (fun c => (c =? 32) || (c =? 9)) s.

Definition strip_semicolon (s : cstr) : cstr :=
  drop_while_end (fun c => (c =? 59) || (c =? 32) || (c =? 9)) (rstrip s).

Definition unquote (s : cstr) : cstr :=
  let len := length s in
  if bool_decide (2 <= len)%nat && (byte_at s 0 =? 34) && (byte_at s (len - 1) =? 34)
  then take (len - 2) (drop 1 s) else s.

(** The scan for [#] outside quotes; [prev] is the previous character, 0 at the
    start. *)
Fixpoint comment_loop (in_quote : bool) (prev : Z) (s : cstr) : cstr :=
  match s with
  | [] => []
  | c :: r =>
      if (c =? 34) && negb (prev =? 92) then c :: comment_loop (negb in_quote) c r
      else if negb in_quote && (c =? 35) then []
      else c :: comment_loop in_quote c r
  end.

Definition strip_inline_comment (s : cstr) : cstr := rstrip (comment_loop false 0 s).

(** [strtol(s, NULL, 10)] on 64-bit [long]. *)
Fixpoint strtol_digits (s : cstr) (acc : Z) : Z :=
  match s with
  | c :: r => if (48 <=? c) && (c <=? 57) then strtol_digits r (acc * 10 + (c - 48)) else acc
  | [] => acc
  end.

Definition strtol10 (s : cstr) : Z :=
  let s := drop_while isspace s in
  let '(neg, s) :=
    match s with
    | c :: r => if c =? 45 then (true, r) else if c =? 43 then (false, r) else (false, s)
    | [] => (false, [])
    end in
  let v := strtol_digits s 0 in
  if neg : bool then Z.max (- v) (-9223372036854775808) else Z.min v 9223372036854775807.

(** [strchr]: the text before the first [c] and the text after it. *)
Fixpoint split_at (c : Z) (s : cstr) : option (cstr * cstr) :=
  match s with
  | [] => None
  | x :: r => if x =? c then Some ([], r)
              else '(before, after) ← split_at c r; Some (x :: before, after)
  end.

Definition parse_prefix_and_len (s : cstr) (prefix_out_sz : Z) : option (cstr * Z) :=
  '(before, after) ← split_at 47 s;
  if prefix_out_sz <=? Z.of_nat (length before) then None
  else
    let pref_len := strtol10 after in
    if (pref_len <? 0) || (128 <? pref_len) then None else Some (before, pref_len).

(** ** DUIDs *)

Definition hex_byte (b : Z) : cstr :=
  [hex_digit (Z.land (Z.shiftr b 4) 0xF); hex_digit (Z.land b 0xF)].

Fixpoint hex_loop (l : list Z) : cstr :=
  match l with
  | [] => []
  | [b] => hex_byte b
  | b :: r => hex_byte b ++ 58 :: hex_loop r
  end.

(** [duid_bin_to_hex(in, len, out, out_sz)] with [in] not null: the return value and
    the string left in [out]; [None] when [out_sz] is 0. *)
Definition duid_bin_to_hex (l : list Z) (out_sz : Z) : option (Z * cstr) :=
  if out_sz =? 0 then None
  else
    let len := Z.of_nat (length l) in
    let need := if len =? 0 then 1 else len * 3 - 1 + 1 in
    if out_sz <? need then Some (-1, [])
    else Some (Z.of_nat (length (hex_loop l)), hex_loop l).

(** [sscanf(p, "%2x", &byte)]: white space, then at most two characters of an
    optionally signed hexadecimal number; a lone [0x] does not match. *)
Definition scan_2x (p : cstr) : option Z :=
  match drop_while isspace p with
  | a :: b :: _ =>
      if (a =? 43) || (a =? 45) then
        if isxdigit b then Some (u32 (if a =? 45 then - hex_value b else hex_value b)) else None
      else if (a =? 48) && ((b =? 120) || (b =? 88)) then None
      else if isxdigit a then
        if isxdigit b then Some (hex_value a * 16 + hex_value b) else Some (hex_value a)
      else None
  | [a] => if isxdigit a then Some (hex_value a) else None
  | [] => None
  end.

(** The number of characters before a colon, a space or the end. *)
Fixpoint token_length (q : cstr) : Z :=
  match q with
  | [] => 0
  | c :: r => if (c =? 58) || isspace c then 0 else 1 + token_length r
  end.

(** The [while] loop of [duid_hex_to_bin]; [p] gets shorter at every round. *)
Fixpoint duid_hex_loop (fuel : nat) (p : cstr) (out : list Z) (out_max : Z)
    : Z * list Z :=
  match fuel with
  | O => (Z.of_nat (length out), out)
  | S fuel =>
      match p with
      | [] => (Z.of_nat (length out), out)
      | c :: r =>
          let p := if (c =? 58) || (c =? 32) || (c =? 9) then r else p in
          match p with
          | [] => (Z.of_nat (length out), out)
          | _ =>
              match scan_2x p with
              | None => (-1, out)
              | Some byte =>
                  if out_max <=? Z.of_nat (length out) then (-1, out)
                  else
                    let out := out ++ [u8 byte] in
                    match split_at 58 p with
                    | None => if 2 <? token_length p then (-1, out)
                              else (Z.of_nat (length out), out)
                    | Some (_, after) => duid_hex_loop fuel after out out_max
                    end
              end
          end
      end
  end.

(** The return value, and the bytes written to [out] (also when it is -1). *)
Definition duid_hex_to_bin (hex : cstr) (out_max : Z) : Z * list Z :=
  if out_max =? 0 then (-1, []) else duid_hex_loop (S (length hex)) hex [] out_max.

(** ** Lists of addresses and domain names *)

(** [strtok_r(_, ",", _)]: the non-empty pieces between commas. *)
Fixpoint split_commas (s cur : cstr) : list cstr :=
  match s with
  | [] => [cur]
  | c :: r => if c =? 44 then cur :: split_commas r [] else split_commas r (cur ++ [c])
  end.

Definition strtok_commas (s : cstr) : list cstr :=
  List.filter (fun t => negb (bool_decide (t = []))) (split_commas s []).

Section address_lists.
(** [inet_pton(AF_INET6, s, &addr)], [None] when it does not return 1. *)
Variable inet_pton6 : cstr -> option in6_addr.

Fixpoint ipv6_list_loop (tokens : list cstr) (out : list in6_addr) (max_count : nat)
    : list in6_addr :=
  match tokens with
  | [] => out
  | t :: rest =>
      if bool_decide (length out < max_count)%nat then
        let p := rstrip (lskip t) in
        let out := match p with
                   | [] => out
                   | _ => match inet_pton6 p with Some a => out ++ [a] | None => out end
                   end in
        ipv6_list_loop rest out max_count
      else out
  end.

Definition str_to_ipv6_list (str : cstr) (max_count : nat) : list in6_addr :=
  if bool_decide (max_count = 0%nat) then []
  else ipv6_list_loop (strtok_commas (take 511 str)) [] max_count.
End address_lists.

(** The label loop of [encode_domain_name]: what it writes, [None] for -1. *)
Fixpoint encode_labels (fuel : nat) (start : cstr) (buf : list Z) (len : Z)
    : option (list Z) :=
  match fuel with
  | O => None
  | S fuel =>
      match start with
      | [] => Some buf
      | _ =>
          match split_at 46 start with
          | None =>
              if len <=? Z.of_nat (length buf) + 1 + Z.of_nat (length start) then None
              else Some (buf ++ u8 (Z.of_nat (length start)) :: start)
          | Some (label, after) =>
              if len <=? Z.of_nat (length buf) + 1 + Z.of_nat (length label) then None
              else encode_labels fuel after (buf ++ u8 (Z.of_nat (length label)) :: label) len
          end
      end
  end.

Definition encode_domain_name (domain : cstr) (len : Z) : option (list Z) :=
  if len =? 0 then None
  else
    let d := take 255 domain in
    let d := if bool_decide (0 < length d)%nat && (byte_at d (length d - 1) =? 46)
             then take (length d - 1) d else d in
    buf ← encode_labels (S (length d)) d [] len;
    if len <=? Z.of_nat (length buf) then None else Some (buf ++ [0]).

(** ** The numbers addresses stand for *)

Definition be_val (l : list Z) : Z := foldl (fun acc b => acc * 256 + b) 0 l.

Definition is_in6 (ip : in6_addr) : Prop := length ip = 16%nat /\ Forall is_u8 ip.

(** ** Lemmas: numbers *)

Lemma be_val_app l1 l2 : be_val (l1 ++ l2) = be_val l1 * 256 ^ Z.of_nat (length l2) + be_val l2.
Proof.
  unfold be_val. rewrite foldl_app. generalize (foldl (fun acc b => acc * 256 + b) 0 l1).
  induction l2 as [|b l2 IH]; intros a; [simpl; lia|].
  cbn [foldl length]. rewrite IH, (IH (0 * 256 + b)).
  rewrite Nat2Z.inj_succ, Z.pow_succ_r by lia. lia.
Qed.

Lemma be_val_snoc l b : be_val (l ++ [b]) = be_val l * 256 + b.
Proof. rewrite be_val_app. change (be_val [b]) with (0 * 256 + b). simpl length. lia. Qed.

Lemma be_val_range l : Forall is_u8 l -> 0 <= be_val l < 256 ^ Z.of_nat (length l).
Proof.
  induction l as [|b l IH] using rev_ind; intros H; [done|].
  apply Forall_app in H as [Hl Hb]. rewrite Forall_singleton in Hb. unfold is_u8 in Hb.
  rewrite be_val_snoc, length_app. simpl length.
  rewrite Nat2Z.inj_add, Z.pow_add_r by lia. specialize (IH Hl). change (256 ^ Z.of_nat 1) with 256. lia.
Qed.

Lemma byte_at_take (ip : in6_addr) i :
  (i < length ip)%nat -> take (S i) ip = take i ip ++ [byte_at ip i].
Proof.
  intros Hi. destruct (lookup_lt_is_Some_2 ip i Hi) as [x Hx].
  rewrite (take_S_r _ _ x Hx). unfold byte_at. by rewrite (nth_lookup_Some _ _ _ _ Hx).
Qed.

Lemma byte_at_u8 ip i : Forall is_u8 ip -> is_u8 (byte_at ip i).
Proof.
  intros H. unfold byte_at. destruct (ip !! i) as [x|] eqn:E.
  - rewrite (nth_lookup_Some _ _ _ _ E). by eapply Forall_lookup_1.
  - rewrite nth_lookup, E. done.
Qed.

Lemma take_insert_le {A} (l : list A) i x n : (n <= i)%nat -> take n (<[i := x]> l) = take n l.
Proof. intros H. by apply take_insert_ge. Qed.

Lemma byte_at_insert (ip : in6_addr) i v : (i < length ip)%nat -> byte_at (<[i := v]> ip) i = v.
Proof.
  intros Hi. unfold byte_at. apply nth_lookup_Some. by apply list_lookup_insert_eq.
Qed.

Lemma pow256_succ n : 256 ^ Z.of_nat (S n) = 256 * 256 ^ Z.of_nat n.
Proof. rewrite Nat2Z.inj_succ, Z.pow_succ_r by lia. done. Qed.

Lemma byte_at_drop (ip ip' : in6_addr) i :
  drop i ip' = drop i ip -> byte_at ip' i = byte_at ip i.
Proof.
  intros H. unfold byte_at.
  assert (forall l, nth i l 0 = nth 0 (drop i l) 0) as E.
  { intros l. rewrite !nth_lookup, lookup_drop. by rewrite Nat.add_0_r. }
  by rewrite (E ip'), (E ip), H.
Qed.

(** Adding [add] at byte [n - 1]: the first [n] bytes are the sum modulo [256 ^ n],
    the others are unchanged. *)
Lemma add_loop_spec n add ip :
  (n <= length ip)%nat -> Forall is_u8 ip -> 0 <= add < 256 ->
  let ip' := add_loop n add ip in
  length ip' = length ip /\ Forall is_u8 ip' /\ drop n ip' = drop n ip
  /\ be_val (take n ip') = (be_val (take n ip) + add) mod 256 ^ Z.of_nat n.
Proof.
  revert add ip. induction n as [|i IH]; intros add ip Hn Hu Ha;
    cbn [add_loop]; cbv zeta.
  { rewrite !take_0. split_and!; try done. change (256 ^ Z.of_nat 0) with 1.
    by rewrite Z.mod_1_r. }
  pose proof (byte_at_u8 ip i Hu) as Hb. unfold is_u8 in Hb.
  set (v := u16 (byte_at ip i + add)).
  assert (v = byte_at ip i + add) as Hv by (unfold v, u16; rewrite Z.mod_small; lia).
  assert (Z.land v 255 = v mod 256) as Hl
    by (change 255 with (Z.ones 8); by rewrite Z.land_ones).
  assert (Z.shiftr v 8 = v / 256) as Hs by (by rewrite Z.shiftr_div_pow2).
  rewrite Hl, Hs. set (ip1 := <[i := v mod 256]> ip).
  assert (length ip1 = length ip) as Hlen1 by apply length_insert.
  assert (is_u8 (v mod 256)) as Hu8 by (unfold is_u8; apply Z.mod_pos_bound; lia).
  assert (Forall is_u8 ip1) as Hu1 by (by apply Forall_insert).
  assert (take i ip1 = take i ip) as Ht1 by (by apply take_insert_le).
  assert (drop (S i) ip1 = drop (S i) ip) as Hd1 by (apply drop_insert_lt; lia).
  assert (byte_at ip1 i = v mod 256) as Hb1 by (apply byte_at_insert; lia).
  pose proof (be_val_range (take i ip) (Forall_take _ _ _ Hu)) as Hr.
  rewrite length_take, Nat.min_l in Hr by lia.
  assert (be_val (take (S i) ip) = be_val (take i ip) * 256 + byte_at ip i) as Hval
    by (rewrite byte_at_take, be_val_snoc by lia; done).
  rewrite Hval, pow256_succ. set (P := 256 ^ Z.of_nat i) in *.
  destruct (Z.eqb_spec (v / 256) 0) as [Hz|Hnz].
  - split_and!; [lia|done|done|].
    rewrite (byte_at_take ip1 i), be_val_snoc, Ht1, Hb1 by (rewrite Hlen1; lia).
    assert (v < 256) by (Z.div_mod_to_equations; lia).
    rewrite (Z.mod_small v) by lia. rewrite Z.mod_small; [lia|]. nia.
  - assert (v / 256 = 1) as Hc by (Z.div_mod_to_equations; lia).
    destruct (IH (v / 256) ip1) as (H1 & H2 & H3 & H4); [lia|done|lia|].
    split_and!; [lia|done| |].
    + rewrite <- Hd1, <- Nat.add_1_r, <- !drop_drop. by rewrite H3.
    + rewrite byte_at_take, be_val_snoc by lia. rewrite (byte_at_drop ip1) by done.
      rewrite H4, Ht1, Hb1, Hc. rewrite (Z.mod_eq v 256), Hc by lia. fold P.
      assert (0 < P) by (unfold P; lia).
      assert (256 <= v < 512) by (Z.div_mod_to_equations; lia).
      rewrite Z.rem_mul_r by lia.
      replace (be_val (take i ip) * 256 + byte_at ip i + add)
        with (v - 256 + (be_val (take i ip) + 1) * 256) by lia.
      rewrite Z.div_add, Z.mod_add by lia.
      rewrite (Z.div_small (v - 256)), (Z.mod_small (v - 256)) by lia. rewrite Z.add_0_l. lia.
Qed.

(** [ipv6_increment]'s loop is addition of one, its result the absence of overflow. *)
Lemma increment_loop_add n ip :
  (n <= length ip)%nat -> Forall is_u8 ip ->
  (increment_loop n ip).2 = add_loop n 1 ip
  /\ (increment_loop n ip).1 = (be_val (take n ip) + 1 <? 256 ^ Z.of_nat n).
Proof.
  revert ip. induction n as [|i IH]; intros ip Hn Hu; cbn [increment_loop add_loop].
  { rewrite take_0. done. }
  pose proof (byte_at_u8 ip i Hu) as Hb. unfold is_u8 in Hb.
  pose proof (be_val_range (take i ip) (Forall_take _ _ _ Hu)) as Hr.
  rewrite length_take, Nat.min_l in Hr by lia.
  rewrite byte_at_take, be_val_snoc, pow256_succ by lia.
  destruct (Z.eqb_spec (byte_at ip i) 255) as [H255|Hne]; simpl.
  - rewrite H255. change (Z.land (u16 (255 + 1)) 255) with 0.
    change (Z.shiftr (u16 (255 + 1)) 8) with 1. change (1 =? 0) with false. cbv iota.
    destruct (IH (<[i := 0]> ip)) as [H1 H2].
    { rewrite length_insert. lia. }
    { apply Forall_insert; [done|]. unfold is_u8. lia. }
    rewrite H1, H2, take_insert_le by lia. split; [done|].
    destruct (Z.ltb_spec (be_val (take i ip) + 1) (256 ^ Z.of_nat i));
      destruct (Z.ltb_spec (be_val (take i ip) * 256 + 255 + 1) (256 * 256 ^ Z.of_nat i));
      done || lia.
  - unfold u16. rewrite Z.mod_small by lia.
    assert (Z.shiftr (byte_at ip i + 1) 8 = 0) as ->.
    { rewrite Z.shiftr_div_pow2 by lia. apply Z.div_small. lia. }
    assert (Z.land (byte_at ip i + 1) 255 = u8 (byte_at ip i + 1)) as ->.
    { change 255 with (Z.ones 8). by rewrite Z.land_ones. }
    split; [done|]. symmetry. apply Z.ltb_lt. nia.
Qed.

Lemma be_val_cons x l : be_val (x :: l) = x * 256 ^ Z.of_nat (length l) + be_val l.
Proof. apply (be_val_app [x] l). Qed.

Lemma be_val_split l n :
  (n <= length l)%nat ->
  be_val l = be_val (take n l) * 256 ^ Z.of_nat (length l - n) + be_val (drop n l).
Proof.
  intros Hn. rewrite <- (take_drop n l) at 1. by rewrite be_val_app, length_drop.
Qed.

Lemma memcmp_sgn a b :
  length a = length b -> Forall is_u8 a -> Forall is_u8 b ->
  memcmp a b = Z.sgn (be_val a - be_val b).
Proof.
  revert b. induction a as [|x a IH]; intros [|y b] Hl Ha Hb; try done.
  apply Forall_cons in Ha as [Hx Ha]. apply Forall_cons in Hb as [Hy Hb].
  simpl in Hl. injection Hl as Hl. cbn [memcmp]. rewrite !be_val_cons, <- Hl.
  pose proof (be_val_range a Ha). pose proof (be_val_range b Hb). rewrite <- Hl in *.
  set (P := 256 ^ Z.of_nat (length a)) in *. assert (0 < P) by (unfold P; lia).
  unfold is_u8 in *.
  destruct (Z.ltb_spec x y); [symmetry; apply Z.sgn_neg; nia|].
  destruct (Z.ltb_spec y x); [symmetry; apply Z.sgn_pos; nia|].
  assert (x = y) as -> by lia. rewrite IH by done. f_equal. lia.
Qed.

Lemma be_val_inj a b :
  length a = length b -> Forall is_u8 a -> Forall is_u8 b -> be_val a = be_val b -> a = b.
Proof.
  revert b. induction a as [|x a IH]; intros [|y b] Hl Ha Hb E; try done.
  apply Forall_cons in Ha as [Hx Ha]. apply Forall_cons in Hb as [Hy Hb].
  simpl in Hl. injection Hl as Hl. rewrite !be_val_cons, <- Hl in E.
  pose proof (be_val_range a Ha). pose proof (be_val_range b Hb). rewrite <- Hl in *.
  set (P := 256 ^ Z.of_nat (length a)) in *. assert (0 < P) by (unfold P; lia).
  assert (x = y) as -> by nia. f_equal. apply IH; [done..|lia].
Qed.

(** The leading bits of an address as a number. *)
Lemma be_val_prefix l n :
  (n <= length l)%nat -> Forall is_u8 l ->
  be_val l / 256 ^ Z.of_nat (length l - n) = be_val (take n l).
Proof.
  intros Hn Hu. rewrite (be_val_split l n Hn).
  pose proof (be_val_range (drop n l) (Forall_drop _ _ _ Hu)) as Hr.
  rewrite length_drop in Hr. rewrite Z.div_add_l by lia. rewrite Z.div_small by lia. lia.
Qed.

Lemma pow256_2 n : 256 ^ Z.of_nat n = 2 ^ (8 * Z.of_nat n).
Proof. change 256 with (2 ^ 8). by rewrite <- Z.pow_mul_r by lia. Qed.

(** Comparing under the mask of the first [r] bits of a byte. *)
Lemma mask_bits a b r :
  is_u8 a -> is_u8 b -> 0 < r < 8 ->
  (Z.land a (u8 (Z.shiftl 255 (8 - r))) =? Z.land b (u8 (Z.shiftl 255 (8 - r))))
  = (a / 2 ^ (8 - r) =? b / 2 ^ (8 - r)).
Proof.
  intros Ha Hb Hr.
  assert (forall x, is_u8 x -> Z.land x (u8 (Z.shiftl 255 (8 - r)))
                               = x / 2 ^ (8 - r) * 2 ^ (8 - r)) as E.
  { intros x Hx. unfold u8. change 256 with (2 ^ 8). rewrite <- Z.land_ones by lia.
    rewrite Z.land_assoc, (Z.land_comm x), <- Z.land_assoc, (Z.land_ones x) by lia.
    rewrite (Z.mod_small x) by done. rewrite <- Z.shiftr_div_pow2, <- Z.shiftl_mul_pow2 by lia.
    apply Z.bits_inj'. intros k Hk. rewrite Z.land_spec, !Z.shiftl_spec by lia.
    change 255 with (Z.ones 8).
    destruct (Z.ltb_spec k (8 - r)).
    - rewrite (Z.testbit_neg_r _ (k - (8 - r))), (Z.testbit_neg_r _ (k - (8 - r))) by lia. done.
    - rewrite Z.shiftr_spec by lia. replace (k - (8 - r) + (8 - r)) with k by lia.
      destruct (Z.ltb_spec k 8).
      + rewrite Z.ones_spec_low by lia. done.
      + assert (Z.testbit x k = false) as ->; [|by rewrite andb_false_r].
        unfold is_u8 in Hx. destruct (decide (x = 0)) as [->|]; [apply Z.bits_0|].
        apply Z.bits_above_log2; [lia|]. apply Z.log2_lt_pow2; [lia|].
        apply Z.lt_le_trans with (2 ^ 8); [lia|]. apply Z.pow_le_mono_r; lia. }
  rewrite !E by done. assert (0 < 2 ^ (8 - r)) by lia.
  destruct (Z.eqb_spec (a / 2 ^ (8 - r)) (b / 2 ^ (8 - r))) as [->|Hne]; [apply Z.eqb_refl|].
  apply Z.eqb_neq. intros H'. apply Hne. nia.
Qed.

Lemma increment_prefix_spec a plen :
  is_in6 a -> 1 <= plen <= 128 ->
  is_in6 (increment_prefix a plen)
  /\ be_val (increment_prefix a plen) = (be_val a + 2 ^ (128 - plen)) mod 2 ^ 128.
Proof.
  intros [Ha Hua] Hp. unfold increment_prefix.
  destruct (Z.eqb_spec plen 0) as [|_]; [lia|].
  destruct (Z.ltb_spec 128 plen) as [|_]; [lia|]. cbn [orb].
  set (q := (plen - 1) / 8). set (m := (plen - 1) mod 8).
  assert (plen - 1 = 8 * q + m /\ 0 <= m < 8 /\ 0 <= q <= 15) as (Hqm & Hm & Hq)
    by (unfold q, m; Z.div_mod_to_equations; lia).
  set (n := (Z.to_nat q + 1)%nat). assert (Z.of_nat n = q + 1) as Hn by (unfold n; lia).
  assert (n <= 16)%nat as Hn16 by lia.
  rewrite Z.shiftl_1_l.
  assert (0 <= 2 ^ (7 - m) < 256) as Hadd.
  { split; [lia|]. change 256 with (2 ^ 8). apply Z.pow_lt_mono_r; lia. }
  destruct (add_loop_spec n (2 ^ (7 - m)) a) as (H1 & H2 & H3 & H4); [lia|done|done|].
  set (a' := add_loop n (2 ^ (7 - m)) a) in *. split; [split; [lia|done]|].
  rewrite (be_val_split a' n), (be_val_split a n) by lia. rewrite H1, H3, H4, Ha.
  pose proof (be_val_range (drop n a) (Forall_drop _ _ _ Hua)) as Hr.
  rewrite length_drop, Ha in Hr.
  assert (2 ^ 128 = 256 ^ Z.of_nat n * 256 ^ Z.of_nat (16 - n)) as E128.
  { rewrite !pow256_2, <- Z.pow_add_r by lia. f_equal. lia. }
  assert (2 ^ (128 - plen) = 2 ^ (7 - m) * 256 ^ Z.of_nat (16 - n)) as Ep.
  { rewrite pow256_2, <- Z.pow_add_r by lia. f_equal. lia. }
  rewrite E128, Ep. set (T := 256 ^ Z.of_nat (16 - n)) in *. set (N := 256 ^ Z.of_nat n) in *.
  assert (0 < T) by (unfold T; lia). assert (0 < N) by (unfold N; lia).
  rewrite (Z.mul_comm N T), Z.rem_mul_r by lia.
  replace (be_val (take n a) * T + be_val (drop n a) + 2 ^ (7 - m) * T)
    with (be_val (drop n a) + (be_val (take n a) + 2 ^ (7 - m)) * T) by lia.
  rewrite Z.div_add, Z.mod_add by lia.
  rewrite (Z.div_small (be_val (drop n a))), (Z.mod_small (be_val (drop n a))) by lia.
  rewrite Z.add_0_l. lia.
Qed.

(** The first [len] bits of an address, byte by byte. *)
Lemma prefix_value ip len :
  is_in6 ip -> 0 <= len <= 128 ->
  let k := Z.to_nat (len / 8) in let r := len mod 8 in
  be_val ip / 2 ^ (128 - len)
  = if r =? 0 then be_val (take k ip)
    else be_val (take k ip) * 2 ^ r + byte_at ip k / 2 ^ (8 - r).
Proof.
  intros [Hl Hu] Hlen k r.
  assert (len = 8 * Z.of_nat k + r /\ 0 <= r < 8) as [Hkr Hr]
    by (unfold k, r; Z.div_mod_to_equations; lia).
  destruct (Z.eqb_spec r 0) as [H0|H0].
  - rewrite <- (be_val_prefix ip k), Hl, pow256_2 by (lia || done). do 2 f_equal. lia.
  - assert (k < 16)%nat as Hk by lia.
    replace (2 ^ (128 - len)) with (256 ^ Z.of_nat (length ip - S k) * 2 ^ (8 - r)).
    + rewrite <- Z.div_div by lia. rewrite be_val_prefix by (lia || done).
      rewrite byte_at_take, be_val_snoc by lia.
      replace 256 with (2 ^ r * 2 ^ (8 - r)).
      * rewrite Z.mul_assoc, Z.div_add_l by lia. done.
      * rewrite <- Z.pow_add_r by lia. replace (r + (8 - r)) with 8 by lia. done.
    + rewrite pow256_2, <- Z.pow_add_r by lia. f_equal. lia.
Qed.

(** ** Lemmas: text *)

Lemma hex_digit_spec d :
  0 <= d < 16 -> isxdigit (hex_digit d) = true /\ hex_value (hex_digit d) = d
    /\ isspace (hex_digit d) = false /\ hex_digit d <> 58 /\ 47 < hex_digit d < 103
    /\ hex_digit d <> 88 /\ hex_digit d <> 120.
Proof.
  intros Hd. unfold hex_digit. unfold isxdigit, hex_value, isspace.
  destruct (Z.ltb_spec d 10).
  - split_and!; try lia; repeat match goal with
      | |- context [Z.leb ?a ?b] => destruct (Z.leb_spec a b)
      | |- context [Z.eqb ?a ?b] => destruct (Z.eqb_spec a b) end; try lia; done.
  - split_and!; try lia; repeat match goal with
      | |- context [Z.leb ?a ?b] => destruct (Z.leb_spec a b)
      | |- context [Z.eqb ?a ?b] => destruct (Z.eqb_spec a b) end; try lia; done.
Qed.

Lemma nibbles b : is_u8 b ->
  0 <= Z.land (Z.shiftr b 4) 15 < 16 /\ 0 <= Z.land b 15 < 16
  /\ Z.land (Z.shiftr b 4) 15 * 16 + Z.land b 15 = b.
Proof.
  unfold is_u8. intros Hb. rewrite Z.shiftr_div_pow2 by lia.
  change 15 with (Z.ones 4). rewrite !Z.land_ones by lia. change (2 ^ 4) with 16.
  Z.div_mod_to_equations. lia.
Qed.

(** The two digits of a byte are read back, whatever follows. *)
Lemma scan_hex_byte b rest : is_u8 b -> scan_2x (hex_byte b ++ rest) = Some b.
Proof.
  intros Hb. destruct (nibbles b Hb) as (H1 & H2 & H3). unfold hex_byte, scan_2x.
  destruct (hex_digit_spec _ H1) as (X1 & V1 & S1 & C1 & R1 & N1 & M1).
  destruct (hex_digit_spec _ H2) as (X2 & V2 & S2 & C2 & R2 & N2 & M2).
  cbn [app drop_while]. rewrite S1, X1, X2, V1, V2.
  destruct (Z.eqb_spec (hex_digit (Z.land (Z.shiftr b 4) 15)) 43); [lia|].
  destruct (Z.eqb_spec (hex_digit (Z.land (Z.shiftr b 4) 15)) 45); [lia|].
  destruct (Z.eqb_spec (hex_digit (Z.land b 15)) 120); [lia|].
  destruct (Z.eqb_spec (hex_digit (Z.land b 15)) 88); [lia|].
  cbn [orb]. rewrite andb_false_r. by rewrite H3.
Qed.

Lemma split_hex_byte b rest : is_u8 b ->
  split_at 58 (hex_byte b ++ rest)
  = '(before, after) ← split_at 58 rest; Some (hex_byte b ++ before, after).
Proof.
  intros Hb. destruct (nibbles b Hb) as (H1 & H2 & _). unfold hex_byte.
  destruct (hex_digit_spec _ H1) as (_ & _ & _ & C1 & _).
  destruct (hex_digit_spec _ H2) as (_ & _ & _ & C2 & _).
  cbn [app split_at]. apply Z.eqb_neq in C1, C2. rewrite C1, C2.
  by destruct (split_at 58 rest) as [[? ?]|].
Qed.

Lemma length_hex_loop l : l <> [] -> Z.of_nat (length (hex_loop l)) = Z.of_nat (length l) * 3 - 1.
Proof.
  induction l as [|b l IH]; [done|]. intros _. destruct l as [|c l]; [done|].
  change (hex_loop (b :: c :: l)) with (hex_byte b ++ 58 :: hex_loop (c :: l)).
  specialize (IH ltac:(done)). rewrite length_app. cbn [length hex_byte] in *. lia.
Qed.

(** Reading back the text of a DUID. *)
Lemma duid_hex_loop_text l : forall fuel out out_max,
  Forall is_u8 l -> (length (hex_loop l) < fuel)%nat ->
  Z.of_nat (length out + length l) <= out_max ->
  duid_hex_loop fuel (hex_loop l) out out_max
  = (Z.of_nat (length (out ++ l)), out ++ l).
Proof.
  induction l as [|b l IH]; intros fuel out out_max Hu Hf Hm.
  { destruct fuel; [simpl in Hf; lia|]. simpl. by rewrite app_nil_r. }
  apply Forall_cons in Hu as [Hb Hu]. destruct fuel as [|fuel]; [lia|].
  destruct (nibbles b Hb) as (H1 & H2 & _).
  destruct (hex_digit_spec _ H1) as (_ & _ & S1 & C1 & R1 & _).
  destruct (hex_digit_spec _ H2) as (_ & _ & S2 & C2 & R2 & _).
  assert (exists tl, hex_loop (b :: l) = hex_byte b ++ tl
    /\ (l = [] /\ tl = [] \/ l <> [] /\ tl = 58 :: hex_loop l)) as (tl & E & Htl).
  { destruct l as [|c l]; [exists []; auto|exists (58 :: hex_loop (c :: l)); auto]. }
  rewrite E in Hf |- *. cbn [duid_hex_loop hex_byte app].
  destruct (Z.eqb_spec (hex_digit (Z.land (Z.shiftr b 4) 15)) 58); [done|].
  destruct (Z.eqb_spec (hex_digit (Z.land (Z.shiftr b 4) 15)) 32); [lia|].
  destruct (Z.eqb_spec (hex_digit (Z.land (Z.shiftr b 4) 15)) 9); [lia|]. cbn [orb].
  fold (hex_byte b). change (hex_digit (Z.land (Z.shiftr b 4) 15) :: hex_digit (Z.land b 15) :: tl)
    with (hex_byte b ++ tl).
  rewrite scan_hex_byte by done.
  destruct (Z.leb_spec out_max (Z.of_nat (length out))); [simpl in Hm; lia|].
  unfold u8. rewrite Z.mod_small by done. rewrite split_hex_byte by done.
  destruct Htl as [[-> ->]|[Hl ->]].
  - cbn [split_at mbind option_bind]. unfold hex_byte. cbn [app token_length].
    rewrite S1, S2. apply Z.eqb_neq in C1, C2. rewrite C1, C2. cbn [orb]. done.
  - cbn [split_at mbind option_bind]. change (58 =? 58) with true.
    cbv beta iota. cbn [mbind option_bind]. cbv beta iota. rewrite IH; [by rewrite <- app_assoc|done| |].
    + simpl in Hf. lia.
    + rewrite length_app. simpl in *. lia.
Qed.

(** *** Domain names *)

Fixpoint join_dots (labels : list (list Z)) : cstr :=
  match labels with
  | [] => []
  | [l] => l
  | l :: rest => l ++ 46 :: join_dots rest
  end.

(** The wire form: each label after its length, then the root's zero. *)
Definition wire_labels (labels : list (list Z)) : list Z :=
  concat ((fun l => Z.of_nat (length l) :: l) <$> labels).

(** A host name's label. *)
Definition is_label (l : list Z) : Prop :=
  l <> [] /\ (46 ∉ l) /\ (length l < 64)%nat.

Lemma split_at_none c s : c ∉ s -> split_at c s = None.
Proof.
  induction s as [|x s IH]; intros H; simpl; [done|].
  apply not_elem_of_cons in H as [Hx Hs]. destruct (Z.eqb_spec x c); [congruence|].
  by rewrite IH.
Qed.

Lemma split_at_first c l rest : c ∉ l -> split_at c (l ++ c :: rest) = Some (l, rest).
Proof.
  induction l as [|x l IH]; intros H; simpl; [by rewrite Z.eqb_refl|].
  apply not_elem_of_cons in H as [Hx Hs]. destruct (Z.eqb_spec x c); [congruence|].
  by rewrite IH.
Qed.

Lemma join_dots_cons l l' rest : join_dots (l :: l' :: rest) = l ++ 46 :: join_dots (l' :: rest).
Proof. done. Qed.

Lemma join_dots_nonempty labels : labels <> [] -> Forall is_label labels -> join_dots labels <> [].
Proof.
  destruct labels as [|l [|l' rest]]; [done| |]; intros _ H; apply Forall_cons in H as [(Hn & _) _].
  - done.
  - rewrite join_dots_cons. by destruct l.
Qed.

Lemma u8_label l : is_label l -> u8 (Z.of_nat (length l)) = Z.of_nat (length l).
Proof. intros (_ & _ & H). unfold u8. apply Z.mod_small. lia. Qed.

Lemma encode_labels_spec labels : forall fuel buf len,
  Forall is_label labels -> (length labels < fuel)%nat ->
  Z.of_nat (length buf + length (wire_labels labels)) < len ->
  encode_labels fuel (join_dots labels) buf len = Some (buf ++ wire_labels labels).
Proof.
  induction labels as [|l labels IH]; intros fuel buf len Hl Hf Hlen.
  { destruct fuel; [simpl in Hf; lia|]. simpl. by rewrite app_nil_r. }
  destruct fuel as [|fuel]; [simpl in Hf; lia|].
  pose proof (join_dots_nonempty (l :: labels) ltac:(done) Hl) as Hne.
  apply Forall_cons in Hl as [Hl Hls]. pose proof Hl as (_ & Hdot & _).
  unfold wire_labels in *. cbn [fmap list_fmap concat] in *. rewrite length_app in Hlen.
  cbn [length] in Hlen.
  destruct labels as [|l' labels].
  - cbn [encode_labels join_dots] in *. destruct l as [|x l0] eqn:El; [done|]. rewrite <- El in *.
    rewrite split_at_none by done. rewrite u8_label by done.
    destruct (Z.leb_spec len (Z.of_nat (length buf) + 1 + Z.of_nat (length l)));
      [simpl in Hlen; lia|]. simpl. by rewrite app_nil_r.
  - rewrite join_dots_cons in *. cbn [encode_labels].
    destruct (l ++ 46 :: join_dots (l' :: labels)) as [|x s] eqn:Es; [done|]. rewrite <- Es.
    rewrite split_at_first by done. rewrite u8_label by done.
    destruct (Z.leb_spec len (Z.of_nat (length buf) + 1 + Z.of_nat (length l))); [lia|].
    rewrite IH; [by rewrite <- app_assoc|done|simpl in *; lia|].
    rewrite length_app. cbn [length]. lia.
Qed.

Lemma join_dots_fuel labels : Forall is_label labels -> (length labels < S (length (join_dots labels)))%nat.
Proof.
  induction labels as [|l labels IH]; intros H; [simpl; lia|].
  apply Forall_cons in H as [(Hn & _) H]. specialize (IH H).
  destruct l as [|x l]; [done|]. destruct labels as [|l' labels]; [simpl; lia|].
  rewrite join_dots_cons, length_app. cbn [length] in *. lia.
Qed.

(** A joined name does not end with a dot. *)
Lemma last_not_dot labels :
  labels <> [] -> Forall is_label labels ->
  (byte_at (join_dots labels) (length (join_dots labels) - 1) =? 46) = false.
Proof.
  induction labels as [|l labels IH]; intros Hne H; [done|].
  apply Forall_cons in H as [(Hn & Hdot & _) H]. destruct labels as [|l' labels].
  - simpl. apply Z.eqb_neq. intros E. apply Hdot. rewrite <- E. unfold byte_at.
    apply list_elem_of_In, nth_In. destruct l; [done|simpl; lia].
  - rewrite join_dots_cons. specialize (IH ltac:(done) H).
    pose proof (join_dots_nonempty (l' :: labels) ltac:(done) H) as Hj.
    destruct (join_dots (l' :: labels)) as [|y s]; [done|]. rewrite <- IH. f_equal.
    unfold byte_at. rewrite length_app. cbn [length]. rewrite app_nth2 by lia.
    replace (length l + S (S (length s)) - 1 - length l)%nat with (S (length s)) by lia.
    cbn [nth]. by rewrite Nat.sub_succ, Nat.sub_0_r.
Qed.

Lemma increment_value a :
  is_in6 a ->
  is_in6 (ipv6_increment a).2
  /\ be_val (ipv6_increment a).2 = (be_val a + 1) mod 2 ^ 128
  /\ (ipv6_increment a).1 = (be_val a + 1 <? 2 ^ 128).
Proof.
  intros [Ha Hua]. destruct (increment_loop_add 16 a) as [E1 E2]; [lia|done|].
  unfold ipv6_increment. rewrite E1, E2, take_ge by lia.
  destruct (add_loop_spec 16 1 a) as (H1 & H2 & _ & H4); [lia|done|lia|].
  rewrite !take_ge in H4 by lia. split_and!; [split; [lia|done]|exact H4|done].
Qed.

Lemma compare_value a b :
  is_in6 a -> is_in6 b -> ipv6_compare a b = Z.sgn (be_val a - be_val b).
Proof. intros [Ha Hua] [Hb Hub]. apply memcmp_sgn; [congruence|done|done]. Qed.

Lemma in6_range a : is_in6 a -> 0 <= be_val a < 2 ^ 128.
Proof. intros [Ha Hua]. pose proof (be_val_range a Hua) as H. rewrite Ha in H. exact H. Qed.

Lemma in6_inj a b : is_in6 a -> is_in6 b -> be_val a = be_val b -> a = b.
Proof. intros [Ha Hua] [Hb Hub]. apply be_val_inj; [congruence|done|done]. Qed.

Lemma in_subnet_value (ip subnet : in6_addr) (prefix_len : Z) :
  is_in6 ip -> is_in6 subnet -> 0 <= prefix_len ->
  ipv6_in_subnet ip subnet prefix_len
  = (prefix_len <=? 128)
    && (be_val ip / 2 ^ (128 - prefix_len) =? be_val subnet / 2 ^ (128 - prefix_len)).
Proof.
  intros Hi Hs Hp. unfold ipv6_in_subnet.
  destruct (Z.ltb_spec 128 prefix_len) as [Hgt|Hle].
  { destruct (Z.leb_spec prefix_len 128); [lia|done]. }
  rewrite (proj2 (Z.leb_le prefix_len 128)) by lia. cbn [andb].
  rewrite (prefix_value ip prefix_len), (prefix_value subnet prefix_len) by done.
  set (k := Z.to_nat (prefix_len / 8)). set (r := prefix_len mod 8).
  assert (0 <= r < 8) as Hr by (unfold r; apply Z.mod_pos_bound; lia).
  assert (k <= 16)%nat as Hk by (unfold k; Z.div_mod_to_equations; lia).
  pose proof (byte_at_u8 ip k (proj2 Hi)) as Hbi.
  pose proof (byte_at_u8 subnet k (proj2 Hs)) as Hbs.
  assert (be_val (take k ip) = be_val (take k subnet) -> take k ip = take k subnet) as Hinj.
  { intros E. destruct Hi as [Hi1 Hi2], Hs as [Hs1 Hs2].
    apply be_val_inj; [rewrite !length_take; congruence|by apply Forall_take..|done]. }
  unfold memeq. destruct (bool_decide (take k ip = take k subnet)) eqn:E; cbn [negb].
  - apply bool_decide_eq_true in E. rewrite E. destruct (Z.eqb_spec r 0) as [H0|H0]; cbn [negb].
    + by rewrite Z.eqb_refl.
    + rewrite mask_bits by (done || lia).
      destruct (Z.eqb_spec (byte_at ip k / 2 ^ (8 - r)) (byte_at subnet k / 2 ^ (8 - r)))
        as [->|Hne]; [by rewrite Z.eqb_refl|]. symmetry. apply Z.eqb_neq. lia.
  - apply bool_decide_eq_false in E. symmetry.
    destruct (Z.eqb_spec r 0) as [H0|H0]; apply Z.eqb_neq; intros H'; apply E, Hinj; [done|].
    assert (forall x, is_u8 x -> 0 <= x / 2 ^ (8 - r) < 2 ^ r) as Hq.
    { intros x Hx. unfold is_u8 in Hx. split; [apply Z.div_pos; lia|].
      apply Z.div_lt_upper_bound; [lia|]. rewrite <- Z.pow_add_r by lia.
      replace (8 - r + r) with 8 by lia. lia. }
    pose proof (Hq _ Hbi). pose proof (Hq _ Hbs).
    set (P := 2 ^ r) in *. clearbody P.
    set (qi := byte_at ip k / 2 ^ (8 - r)) in *. set (qs := byte_at subnet k / 2 ^ (8 - r)) in *.
    clearbody qi qs. nia.
Qed.

(** ** Properties *)

(** C39: IPv6 address arithmetic.  The byte loops compute what the numbers say, on
    every address: [ipv6_increment] adds one modulo 2^128 and returns true exactly
    when it did not wrap, [increment_prefix] adds 2^(128 - plen), both keep sixteen
    bytes, and [ipv6_compare] has the sign of the difference. *)
Theorem ipv6_arithmetic (a b : in6_addr) (plen : Z) :
  is_in6 a -> is_in6 b -> 1 <= plen <= 128 ->
  (is_in6 (ipv6_increment a).2
   /\ be_val (ipv6_increment a).2 = (be_val a + 1) mod 2 ^ 128
   /\ (ipv6_increment a).1 = (be_val a + 1 <? 2 ^ 128))
  /\ (is_in6 (increment_prefix a plen)
      /\ be_val (increment_prefix a plen) = (be_val a + 2 ^ (128 - plen)) mod 2 ^ 128)
  /\ ipv6_compare a b = Z.sgn (be_val a - be_val b).
Proof.
  intros Ha Hb Hp. split_and!; try by apply increment_value.
  - by apply increment_prefix_spec.
  - by apply increment_prefix_spec.
  - by apply compare_value.
Qed.

Lemma ipv6_arithmetic_witness :
  be_val (ipv6_increment (replicate 15 0 ++ [255])).2 = 256 mod 2 ^ 128.
Proof.
  apply (ipv6_arithmetic (replicate 15 0 ++ [255]) (replicate 16 0) 64);
    [split; [reflexivity|]|split; [reflexivity|]|lia];
    apply Forall_forall; intros x Hx;
    [apply elem_of_app in Hx as [Hx|Hx]|]; try (apply elem_of_replicate in Hx as [-> _]);
    try (apply list_elem_of_singleton in Hx as ->); unfold is_u8; lia.
Defined.

(** [ipv6_in_subnet] is true exactly when the addresses agree on their first
    [prefix_len] bits, for every prefix length up to 128; a longer prefix never
    matches. *)
Lemma ipv6_in_subnet_spec (ip subnet : in6_addr) (prefix_len : Z) :
  is_in6 ip -> is_in6 subnet -> 0 <= prefix_len ->
  ipv6_in_subnet ip subnet prefix_len
  = (prefix_len <=? 128)
    && (be_val ip / 2 ^ (128 - prefix_len) =? be_val subnet / 2 ^ (128 - prefix_len)).
Proof. apply in_subnet_value. Qed.

Lemma is_in6_bytes ip : forallb (fun b => (0 <=? b) && (b <? 256)) ip = true ->
  length ip = 16%nat -> is_in6 ip.
Proof.
  intros H Hl. split; [done|]. apply Forall_forall. intros x Hx.
  apply (forallb_elem _ _ H) in Hx. apply andb_true_iff in Hx as [? ?].
  unfold is_u8. lia.
Qed.

Lemma ipv6_in_subnet_spec_witness :
  ipv6_in_subnet ([32;1;13;184;0;31] ++ replicate 10 1) ([32;1;13;184;0;16] ++ replicate 10 0) 44
  = true.
Proof.
  rewrite (ipv6_in_subnet_spec _ _ 44);
    [vm_compute; reflexivity|apply is_in6_bytes; reflexivity..|lia].
Defined.

(** The text of a DUID is read back as the DUID.  For up to 128 bytes (and a
    buffer of three characters per byte), [duid_bin_to_hex] returns the length of its
    text and [duid_hex_to_bin] of that text is the DUID; with a smaller buffer it
    returns -1 and leaves the empty string. *)
Lemma duid_hex_roundtrip (d : list Z) (out_sz : Z) :
  Forall is_u8 d -> 0 < out_sz -> Z.of_nat (length d) <= 128 ->
  if Z.max 1 (3 * Z.of_nat (length d)) <=? out_sz
  then exists n text, duid_bin_to_hex d out_sz = Some (n, text)
    /\ n = Z.of_nat (length text) /\ n < out_sz /\ duid_hex_to_bin text 128 = (Z.of_nat (length d), d)
  else duid_bin_to_hex d out_sz = Some (-1, []).
Proof.
  intros Hu Hsz Hlen. unfold duid_bin_to_hex.
  destruct (Z.eqb_spec out_sz 0); [lia|].
  assert ((if Z.of_nat (length d) =? 0 then 1 else Z.of_nat (length d) * 3 - 1 + 1)
          = Z.max 1 (3 * Z.of_nat (length d))) as ->
    by (destruct (Z.eqb_spec (Z.of_nat (length d)) 0); lia).
  destruct (Z.leb_spec (Z.max 1 (3 * Z.of_nat (length d))) out_sz) as [Hle|Hlt].
  - destruct (Z.ltb_spec out_sz (Z.max 1 (3 * Z.of_nat (length d)))); [lia|].
    eexists _, _. split; [reflexivity|]. split; [done|]. split.
    + destruct d as [|b d]; [simpl; lia|]. rewrite length_hex_loop by done. lia.
    + unfold duid_hex_to_bin. change (128 =? 0) with false. cbv iota.
      apply (duid_hex_loop_text d _ [] 128 Hu); [lia|simpl; lia].
  - by destruct (Z.ltb_spec out_sz (Z.max 1 (3 * Z.of_nat (length d)))); [|lia].
Qed.

Lemma duid_hex_roundtrip_witness :
  exists n text, duid_bin_to_hex [0;1;170;255] 256 = Some (n, text)
    /\ duid_hex_to_bin text 128 = (4, [0;1;170;255]).
Proof.
  pose proof (duid_hex_roundtrip [0;1;170;255] 256) as H.
  destruct H as (n & text & H1 & _ & _ & H2).
  - repeat constructor; lia.
  - lia.
  - simpl. lia.
  - exists n, text. split; [exact H1|exact H2].
Defined.

(** [encode_domain_name] writes the wire form of a host name: for labels that are
    not empty, hold no dot and have fewer than 64 bytes, and whose dotted form has at
    most 255 characters, the buffer holds each label after its length and a final
    zero, with or without a trailing dot in the name, whenever it is long enough. *)
Lemma encode_domain_name_spec (labels : list (list Z)) (len : Z) :
  labels <> [] -> Forall is_label labels ->
  (length (join_dots labels) < 255)%nat -> 0 < len ->
  Z.of_nat (length (wire_labels labels)) + 1 <= len ->
  encode_domain_name (join_dots labels) len = Some (wire_labels labels ++ [0])
  /\ encode_domain_name (join_dots labels ++ [46]) len = Some (wire_labels labels ++ [0]).
Proof.
  intros Hne Hl Hd Hlen Hbuf. set (d := join_dots labels) in *.
  assert (d <> []) as Hdne by (by apply join_dots_nonempty).
  assert (length labels < S (length d))%nat as Hfuel by (by apply join_dots_fuel).
  assert (encode_labels (S (length d)) d [] len = Some (wire_labels labels)) as E
    by (apply (encode_labels_spec labels _ [] len); [done|done|simpl; lia]).
  unfold encode_domain_name. destruct (Z.eqb_spec len 0); [lia|].
  rewrite (take_ge d), (take_ge (d ++ [46])) by (rewrite ?length_app; simpl; lia).
  cbv zeta. split.
  - pose proof (last_not_dot labels Hne Hl) as Hlast. fold d in Hlast.
    rewrite Hlast, andb_false_r, E.
    cbn [mbind option_bind].
    by destruct (Z.leb_spec len (Z.of_nat (length (wire_labels labels)))); [lia|].
  - rewrite length_app, Nat.add_sub. cbn [length].
    rewrite bool_decide_eq_true_2 by lia.
    assert (byte_at (d ++ [46]) (length d) = 46) as ->.
    { unfold byte_at. rewrite app_nth2, Nat.sub_diag by lia. done. }
    change (46 =? 46) with true. cbn [andb]. rewrite take_app_length, E.
    cbn [mbind option_bind].
    by destruct (Z.leb_spec len (Z.of_nat (length (wire_labels labels)))); [lia|].
Qed.

Lemma encode_domain_name_spec_witness :
  encode_domain_name [97;98;46;99] 6 = Some [2;97;98;1;99;0].
Proof.
  apply (encode_domain_name_spec [[97;98];[99]] 6); [done| |vm_compute; lia|lia|vm_compute; done].
  repeat constructor; try discriminate; try (simpl; lia);
    rewrite ?not_elem_of_cons; repeat split; try lia; apply not_elem_of_nil.
Defined.
