(* ===== verification/LeasesV6.v ===== *)
(** * The DHCPv6 lease database

    [DHCPv6/sources/leases6.c], the operations on the array in memory.  The array
    [leases[LEASES6_MAX]] with [count] is the list [d_leases]; a lease pointer is an
    index into it.  [duid] is the 128-byte array, of which [duid_len] bytes count.
    [ip6_addr_str] and [prefix_str], text copies used in log lines, are left out.
    The values [time(NULL)] returns are the arguments [now] and [now']; the result of
    writing the file ([lease_v6_db_save], whose content is not modelled here) is the
    argument [saved] where the operation returns it. *)

From S2P Require Import Prelude UtilsV6.

Definition LEASES6_MAX : nat := 4096.
Definition DUID_MAX_LEN : nat := 128.
Definition HOSTNAME6_MAX : nat := 128.

Inductive lease_v6_type_t :=
| Lease6_IA_NA
| Lease6_IA_PD.

#[export] Instance lease_v6_type_eq_dec : EqDecision lease_v6_type_t.
Proof. solve_decision. Defined.

Inductive lease_state_t :=
| LEASE_STATE_FREE
| LEASE_STATE_ACTIVE
| LEASE_STATE_EXPIRED
| LEASE_STATE_RELEASED
| LEASE_STATE_ABANDONED
| LEASE_STATE_RESERVED
| LEASE_STATE_BACKUP.

#[export] Instance lease_v6_state_eq_dec : EqDecision lease_state_t.
Proof. solve_decision. Defined.

Definition lease_v6_state_to_string (s : lease_state_t) : string :=
  match s with
  | LEASE_STATE_FREE => "free"
  | LEASE_STATE_ACTIVE => "active"
  | LEASE_STATE_EXPIRED => "expired"
  | LEASE_STATE_RELEASED => "released"
  | LEASE_STATE_ABANDONED => "abandoned"
  | LEASE_STATE_RESERVED => "reserved"
  | LEASE_STATE_BACKUP => "backup"
  end.

Definition lease_v6_state_from_string (s : string) : lease_state_t :=
  if String.eqb s "free" then LEASE_STATE_FREE
  else if String.eqb s "active" then LEASE_STATE_ACTIVE
  else if String.eqb s "expired" then LEASE_STATE_EXPIRED
  else if String.eqb s "released" then LEASE_STATE_RELEASED
  else if String.eqb s "abandoned" then LEASE_STATE_ABANDONED
  else if String.eqb s "reserved" then LEASE_STATE_RESERVED
  else if String.eqb s "backup" then LEASE_STATE_BACKUP
  else LEASE_STATE_FREE.

Record dhcpv6_lease_t := mk_dhcpv6_lease {
  x_in_use : bool;
  x_type : lease_v6_type_t;
  x_duid : list Z;
  x_duid_len : Z;
  x_iaid : Z;
  x_ip6_addr : in6_addr;
  x_prefix_v6 : in6_addr;
  x_plen : Z;
  x_starts : Z;
  x_ends : Z;
  x_tstp : Z;
  x_cltt : Z;
  x_client_hostname : cstr;
  x_state : lease_state_t;
  x_next_state : lease_state_t;
  x_rewind_state : lease_state_t;
  x_binding_state : cstr;
  x_vendor_class : cstr;
  x_fqdn : cstr
}.

Definition set_x_in_use (v : bool) (r : dhcpv6_lease_t) : dhcpv6_lease_t :=
  mk_dhcpv6_lease v r.(x_type) r.(x_duid) r.(x_duid_len) r.(x_iaid) r.(x_ip6_addr)
    r.(x_prefix_v6) r.(x_plen) r.(x_starts) r.(x_ends) r.(x_tstp) r.(x_cltt)
    r.(x_client_hostname) r.(x_state) r.(x_next_state) r.(x_rewind_state)
    r.(x_binding_state) r.(x_vendor_class) r.(x_fqdn).

Definition set_x_type (v : lease_v6_type_t) (r : dhcpv6_lease_t) : dhcpv6_lease_t :=
  mk_dhcpv6_lease r.(x_in_use) v r.(x_duid) r.(x_duid_len) r.(x_iaid) r.(x_ip6_addr)
    r.(x_prefix_v6) r.(x_plen) r.(x_starts) r.(x_ends) r.(x_tstp) r.(x_cltt)
    r.(x_client_hostname) r.(x_state) r.(x_next_state) r.(x_rewind_state)
    r.(x_binding_state) r.(x_vendor_class) r.(x_fqdn).

Definition set_x_duid (v : list Z) (r : dhcpv6_lease_t) : dhcpv6_lease_t :=
  mk_dhcpv6_lease r.(x_in_use) r.(x_type) v r.(x_duid_len) r.(x_iaid) r.(x_ip6_addr)
    r.(x_prefix_v6) r.(x_plen) r.(x_starts) r.(x_ends) r.(x_tstp) r.(x_cltt)
    r.(x_client_hostname) r.(x_state) r.(x_next_state) r.(x_rewind_state)
    r.(x_binding_state) r.(x_vendor_class) r.(x_fqdn).

Definition set_x_duid_len (v : Z) (r : dhcpv6_lease_t) : dhcpv6_lease_t :=
  mk_dhcpv6_lease r.(x_in_use) r.(x_type) r.(x_duid) v r.(x_iaid) r.(x_ip6_addr)
    r.(x_prefix_v6) r.(x_plen) r.(x_starts) r.(x_ends) r.(x_tstp) r.(x_cltt)
    r.(x_client_hostname) r.(x_state) r.(x_next_state) r.(x_rewind_state)
    r.(x_binding_state) r.(x_vendor_class) r.(x_fqdn).

Definition set_x_iaid (v : Z) (r : dhcpv6_lease_t) : dhcpv6_lease_t :=
  mk_dhcpv6_lease r.(x_in_use) r.(x_type) r.(x_duid) r.(x_duid_len) v r.(x_ip6_addr)
    r.(x_prefix_v6) r.(x_plen) r.(x_starts) r.(x_ends) r.(x_tstp) r.(x_cltt)
    r.(x_client_hostname) r.(x_state) r.(x_next_state) r.(x_rewind_state)
    r.(x_binding_state) r.(x_vendor_class) r.(x_fqdn).

Definition set_x_ip6_addr (v : in6_addr) (r : dhcpv6_lease_t) : dhcpv6_lease_t :=
  mk_dhcpv6_lease r.(x_in_use) r.(x_type) r.(x_duid) r.(x_duid_len) r.(x_iaid) v
    r.(x_prefix_v6) r.(x_plen) r.(x_starts) r.(x_ends) r.(x_tstp) r.(x_cltt)
    r.(x_client_hostname) r.(x_state) r.(x_next_state) r.(x_rewind_state)
    r.(x_binding_state) r.(x_vendor_class) r.(x_fqdn).

Definition set_x_prefix_v6 (v : in6_addr) (r : dhcpv6_lease_t) : dhcpv6_lease_t :=
  mk_dhcpv6_lease r.(x_in_use) r.(x_type) r.(x_duid) r.(x_duid_len) r.(x_iaid)
    r.(x_ip6_addr) v r.(x_plen) r.(x_starts) r.(x_ends) r.(x_tstp) r.(x_cltt)
    r.(x_client_hostname) r.(x_state) r.(x_next_state) r.(x_rewind_state)
    r.(x_binding_state) r.(x_vendor_class) r.(x_fqdn).

Definition set_x_plen (v : Z) (r : dhcpv6_lease_t) : dhcpv6_lease_t :=
  mk_dhcpv6_lease r.(x_in_use) r.(x_type) r.(x_duid) r.(x_duid_len) r.(x_iaid)
    r.(x_ip6_addr) r.(x_prefix_v6) v r.(x_starts) r.(x_ends) r.(x_tstp) r.(x_cltt)
    r.(x_client_hostname) r.(x_state) r.(x_next_state) r.(x_rewind_state)
    r.(x_binding_state) r.(x_vendor_class) r.(x_fqdn).

Definition set_x_starts (v : Z) (r : dhcpv6_lease_t) : dhcpv6_lease_t :=
  mk_dhcpv6_lease r.(x_in_use) r.(x_type) r.(x_duid) r.(x_duid_len) r.(x_iaid)
    r.(x_ip6_addr) r.(x_prefix_v6) r.(x_plen) v r.(x_ends) r.(x_tstp) r.(x_cltt)
    r.(x_client_hostname) r.(x_state) r.(x_next_state) r.(x_rewind_state)
    r.(x_binding_state) r.(x_vendor_class) r.(x_fqdn).

Definition set_x_ends (v : Z) (r : dhcpv6_lease_t) : dhcpv6_lease_t :=
  mk_dhcpv6_lease r.(x_in_use) r.(x_type) r.(x_duid) r.(x_duid_len) r.(x_iaid)
    r.(x_ip6_addr) r.(x_prefix_v6) r.(x_plen) r.(x_starts) v r.(x_tstp) r.(x_cltt)
    r.(x_client_hostname) r.(x_state) r.(x_next_state) r.(x_rewind_state)
    r.(x_binding_state) r.(x_vendor_class) r.(x_fqdn).

Definition set_x_tstp (v : Z) (r : dhcpv6_lease_t) : dhcpv6_lease_t :=
  mk_dhcpv6_lease r.(x_in_use) r.(x_type) r.(x_duid) r.(x_duid_len) r.(x_iaid)
    r.(x_ip6_addr) r.(x_prefix_v6) r.(x_plen) r.(x_starts) r.(x_ends) v r.(x_cltt)
    r.(x_client_hostname) r.(x_state) r.(x_next_state) r.(x_rewind_state)
    r.(x_binding_state) r.(x_vendor_class) r.(x_fqdn).

Definition set_x_cltt (v : Z) (r : dhcpv6_lease_t) : dhcpv6_lease_t :=
  mk_dhcpv6_lease r.(x_in_use) r.(x_type) r.(x_duid) r.(x_duid_len) r.(x_iaid)
    r.(x_ip6_addr) r.(x_prefix_v6) r.(x_plen) r.(x_starts) r.(x_ends) r.(x_tstp) v
    r.(x_client_hostname) r.(x_state) r.(x_next_state) r.(x_rewind_state)
    r.(x_binding_state) r.(x_vendor_class) r.(x_fqdn).

Definition set_x_client_hostname (v : cstr) (r : dhcpv6_lease_t) : dhcpv6_lease_t :=
  mk_dhcpv6_lease r.(x_in_use) r.(x_type) r.(x_duid) r.(x_duid_len) r.(x_iaid)
    r.(x_ip6_addr) r.(x_prefix_v6) r.(x_plen) r.(x_starts) r.(x_ends) r.(x_tstp)
    r.(x_cltt) v r.(x_state) r.(x_next_state) r.(x_rewind_state) r.(x_binding_state)
    r.(x_vendor_class) r.(x_fqdn).

Definition set_x_state (v : lease_state_t) (r : dhcpv6_lease_t) : dhcpv6_lease_t :=
  mk_dhcpv6_lease r.(x_in_use) r.(x_type) r.(x_duid) r.(x_duid_len) r.(x_iaid)
    r.(x_ip6_addr) r.(x_prefix_v6) r.(x_plen) r.(x_starts) r.(x_ends) r.(x_tstp)
    r.(x_cltt) r.(x_client_hostname) v r.(x_next_state) r.(x_rewind_state)
    r.(x_binding_state) r.(x_vendor_class) r.(x_fqdn).

Definition set_x_next_state (v : lease_state_t) (r : dhcpv6_lease_t) : dhcpv6_lease_t :=
  mk_dhcpv6_lease r.(x_in_use) r.(x_type) r.(x_duid) r.(x_duid_len) r.(x_iaid)
    r.(x_ip6_addr) r.(x_prefix_v6) r.(x_plen) r.(x_starts) r.(x_ends) r.(x_tstp)
    r.(x_cltt) r.(x_client_hostname) r.(x_state) v r.(x_rewind_state)
    r.(x_binding_state) r.(x_vendor_class) r.(x_fqdn).

Definition set_x_rewind_state (v : lease_state_t) (r : dhcpv6_lease_t) : dhcpv6_lease_t :=
  mk_dhcpv6_lease r.(x_in_use) r.(x_type) r.(x_duid) r.(x_duid_len) r.(x_iaid)
    r.(x_ip6_addr) r.(x_prefix_v6) r.(x_plen) r.(x_starts) r.(x_ends) r.(x_tstp)
    r.(x_cltt) r.(x_client_hostname) r.(x_state) r.(x_next_state) v
    r.(x_binding_state) r.(x_vendor_class) r.(x_fqdn).

(** The record after [memset(L, 0, sizeof( *L))]. *)
Definition zero_addr6 : in6_addr := replicate 16 0.

Definition zero_lease6 : dhcpv6_lease_t :=
  mk_dhcpv6_lease false Lease6_IA_NA (replicate DUID_MAX_LEN 0) 0 0 zero_addr6 zero_addr6 0
    0 0 0 0 [] LEASE_STATE_FREE LEASE_STATE_FREE LEASE_STATE_FREE [] [] [].

Record lease_v6_db_t := mk_lease_v6_db {
  d_filename : cstr;
  d_capacity : Z;
  d_leases : list dhcpv6_lease_t
}.

Definition set_d_leases (v : list dhcpv6_lease_t) (db : lease_v6_db_t) : lease_v6_db_t :=
  mk_lease_v6_db db.(d_filename) db.(d_capacity) v.

Definition in_state6 (s : lease_state_t) (l : dhcpv6_lease_t) : bool :=
  bool_decide (l.(x_state) = s).

Definition lease_v6_is_expired (now : Z) (l : dhcpv6_lease_t) : bool :=
  in_state6 LEASE_STATE_ACTIVE l && (l.(x_ends) <? now).

Definition lease_v6_db_init (path : cstr) : lease_v6_db_t :=
  mk_lease_v6_db (take 511 path) 128 [].

Definition lease_v6_db_free (db : lease_v6_db_t) : lease_v6_db_t := mk_lease_v6_db [] 0 [].

(** ** Searches *)

Definition is_na_for (ip : in6_addr) (l : dhcpv6_lease_t) : bool :=
  l.(x_in_use) && bool_decide (l.(x_type) = Lease6_IA_NA) && memeq 16 l.(x_ip6_addr) ip.

Definition lease_v6_find_by_ip (db : lease_v6_db_t) (ip : in6_addr) : option nat :=
  find_index (is_na_for ip) db.(d_leases).

Definition is_pd_for (pfx : in6_addr) (plen : Z) (l : dhcpv6_lease_t) : bool :=
  l.(x_in_use) && bool_decide (l.(x_type) = Lease6_IA_PD) && (l.(x_plen) =? plen)
  && memeq 16 l.(x_prefix_v6) pfx.

Definition lease_v6_find_by_prefix (db : lease_v6_db_t) (pfx : in6_addr) (plen : Z)
    : option nat :=
  find_index (is_pd_for pfx plen) db.(d_leases).

Definition lease_v6_find_by_duid_iaid (db : lease_v6_db_t) (duid : list Z) (duid_len iaid : Z)
    (type : lease_v6_type_t) : option nat :=
  find_index (fun l =>
    l.(x_in_use) && bool_decide (l.(x_type) = type) && (l.(x_iaid) =? iaid)
    && (l.(x_duid_len) =? duid_len) && memeq (Z.to_nat duid_len) l.(x_duid) duid)
    db.(d_leases).

(** ** Adding *)

(** [duid_hex_to_bin(duid_hex, L->duid, DUID_MAX_LEN)] into the lease's array. *)
Definition write_duid (bytes : list Z) (l : dhcpv6_lease_t) : dhcpv6_lease_t :=
  set_x_duid (bytes ++ drop (length bytes) l.(x_duid)) l.

(** The DUID part of the two add operations: the return code, -1 when the text is
    refused, and the lease. *)
Definition store_duid (duid_hex : cstr) (l : dhcpv6_lease_t) : Z * dhcpv6_lease_t :=
  match duid_hex with
  | [] => (0, l)
  | _ =>
      let '(n, bytes) := duid_hex_to_bin duid_hex (Z.of_nat DUID_MAX_LEN) in
      let l := write_duid bytes l in
      if n <? 0 then (-1, l) else (0, set_x_duid_len (u16 n) l)
  end.

(** The hostname, when there is one, after [strncpy]. *)
Definition store_hostname (hostname_opt : option cstr) (l : dhcpv6_lease_t) : dhcpv6_lease_t :=
  match hostname_opt with
  | None => l
  | Some h => set_x_client_hostname (take (HOSTNAME6_MAX - 1) h) l
  end.

(** The slot the add operations write: the lease found, or a zeroed one after the
    last; [None] when the array is full. *)
Definition slot_for (db : lease_v6_db_t) (found : option nat)
    : option (nat * lease_v6_db_t) :=
  match found with
  | Some i => Some (i, db)
  | None =>
      if bool_decide (LEASES6_MAX <= length db.(d_leases))%nat then None
      else Some (length db.(d_leases), set_d_leases (db.(d_leases) ++ [zero_lease6]) db)
  end.

(** The fields written after the DUID: [now] is the value of [now], [now'] the time
    read again for [starts]. *)
Definition activate (now now' lease_secs : Z) (l : dhcpv6_lease_t) : dhcpv6_lease_t :=
  set_x_state LEASE_STATE_ACTIVE
    (set_x_cltt now (set_x_tstp now (set_x_ends (now' + lease_secs) (set_x_starts now' l)))).

(** Writing the lease at slot [i] with [f], which also says whether it went on. *)
Definition update_slot (db : lease_v6_db_t) (i : nat)
    (f : dhcpv6_lease_t -> Z * dhcpv6_lease_t) : option nat * lease_v6_db_t :=
  match db.(d_leases) !! i with
  | None => (None, db)
  | Some l =>
      let '(rc, l) := f l in
      (if rc <? 0 then None else Some i, set_d_leases (<[i := l]> db.(d_leases)) db)
  end.

(** [lease_v6_add_ia_na]: the lease, or NULL, and the database. *)
Definition lease_v6_add_ia_na (now now' : Z) (db : lease_v6_db_t) (duid_hex : cstr)
    (iaid : Z) (ip : in6_addr) (lease_secs : Z) (hostname_opt : option cstr)
    : option nat * lease_v6_db_t :=
  match slot_for db (lease_v6_find_by_ip db ip) with
  | None => (None, db)
  | Some (i, db) =>
      update_slot db i (fun l =>
        let l := set_x_type Lease6_IA_NA (set_x_in_use true l) in
        let '(rc, l) := store_duid duid_hex l in
        if rc <? 0 then (-1, l)
        else
          let l := set_x_ip6_addr ip (set_x_iaid iaid l) in
          (0, store_hostname hostname_opt (activate now now' lease_secs l)))
  end.

Definition lease_v6_add_ia_pd (now now' : Z) (db : lease_v6_db_t) (duid_hex : cstr)
    (iaid : Z) (prefix_base : in6_addr) (plen lease_secs : Z) (hostname_opt : option cstr)
    : option nat * lease_v6_db_t :=
  match slot_for db (lease_v6_find_by_prefix db prefix_base plen) with
  | None => (None, db)
  | Some (i, db) =>
      update_slot db i (fun l =>
        let l := set_x_type Lease6_IA_PD (set_x_in_use true l) in
        let '(rc, l) := store_duid duid_hex l in
        if rc <? 0 then (-1, l)
        else
          let l := set_x_plen plen (set_x_prefix_v6 prefix_base (set_x_iaid iaid l)) in
          (0, store_hostname hostname_opt (activate now now' lease_secs l)))
  end.

(** ** State changes *)

(** Applying [f] to the lease found, the result being that of saving the file. *)
Definition on_found (saved : Z) (db : lease_v6_db_t) (found : option nat)
    (f : dhcpv6_lease_t -> dhcpv6_lease_t) : Z * lease_v6_db_t :=
  match found with
  | None => (-1, db)
  | Some i => (saved, set_d_leases (alter f i db.(d_leases)) db)
  end.

Definition release6 (now : Z) (l : dhcpv6_lease_t) : dhcpv6_lease_t :=
  set_x_ends now (set_x_state LEASE_STATE_RELEASED l).

Definition renew6 (now lease_secs : Z) (l : dhcpv6_lease_t) : dhcpv6_lease_t :=
  set_x_state LEASE_STATE_ACTIVE (set_x_ends (now + lease_secs) (set_x_starts now l)).

Definition lease_v6_release_ip (saved now : Z) (db : lease_v6_db_t) (ip : in6_addr)
    : Z * lease_v6_db_t :=
  on_found saved db (lease_v6_find_by_ip db ip) (release6 now).

Definition lease_v6_release_prefix (saved now : Z) (db : lease_v6_db_t) (pfx : in6_addr)
    (plen : Z) : Z * lease_v6_db_t :=
  on_found saved db (lease_v6_find_by_prefix db pfx plen) (release6 now).

Definition lease_v6_renew_ip (saved now : Z) (db : lease_v6_db_t) (ip : in6_addr)
    (lease_secs : Z) : Z * lease_v6_db_t :=
  on_found saved db (lease_v6_find_by_ip db ip) (renew6 now lease_secs).

Definition lease_v6_renew_prefix (saved now : Z) (db : lease_v6_db_t) (pfx : in6_addr)
    (plen lease_secs : Z) : Z * lease_v6_db_t :=
  on_found saved db (lease_v6_find_by_prefix db pfx plen) (renew6 now lease_secs).

Definition overdue6 (now : Z) (l : dhcpv6_lease_t) : bool :=
  l.(x_in_use) && in_state6 LEASE_STATE_ACTIVE l && (l.(x_ends) <? now).

(** The loop of [lease_v6_mark_expired_older]; [n] is a [uint32_t]. *)
Fixpoint expire_loop6 (now : Z) (ls : list dhcpv6_lease_t) (n : Z)
    : list dhcpv6_lease_t * Z :=
  match ls with
  | [] => ([], n)
  | l :: rest =>
      let '(l, n) := if overdue6 now l then (set_x_state LEASE_STATE_EXPIRED l, n +u32 1)
                     else (l, n) in
      let '(rest, n) := expire_loop6 now rest n in (l :: rest, n)
  end.

Definition lease_v6_mark_expired_older (now : Z) (db : lease_v6_db_t) : Z * lease_v6_db_t :=
  let '(ls, n) := expire_loop6 now db.(d_leases) 0 in (n, set_d_leases ls db).

Definition reclaimable6 (l : dhcpv6_lease_t) : bool :=
  l.(x_in_use) && (in_state6 LEASE_STATE_EXPIRED l || in_state6 LEASE_STATE_RELEASED l).

Definition lease_v6_cleanup (db : lease_v6_db_t) : option (Z * lease_v6_db_t) :=
  '(ls, removed) ← remove_loop reclaimable6 (length db.(d_leases)) 0 db.(d_leases) 0;
  Some (removed, set_d_leases ls db).

(** [lease_v6_mark_reserved]; a null [hostname] is [None]. *)
Definition lease_v6_mark_reserved (saved now : Z) (db : lease_v6_db_t) (ip : in6_addr)
    (duid_hex : cstr) (iaid : Z) (hostname : option cstr) : Z * lease_v6_db_t :=
  let slot :=
    match lease_v6_find_by_ip db ip with
    | Some i => Some (i, db)
    | None =>
        if bool_decide (LEASES6_MAX <= length db.(d_leases))%nat then None
        else Some (length db.(d_leases),
                   set_d_leases (db.(d_leases)
                     ++ [set_x_ip6_addr ip (set_x_type Lease6_IA_NA
                           (set_x_in_use true zero_lease6))]) db)
    end in
  match slot with
  | None => (-1, db)
  | Some (i, db) =>
      let '(done, db) := update_slot db i (fun l =>
        let '(n, bytes) := duid_hex_to_bin duid_hex (Z.of_nat DUID_MAX_LEN) in
        let l := write_duid bytes l in
        if n <? 0 then (-1, l)
        else
          let l := set_x_iaid iaid (set_x_duid_len (u16 n) l) in
          let l := store_hostname hostname l in
          let l := set_x_cltt now (set_x_tstp now
                     (set_x_ends (now + 86400) (set_x_starts now l))) in
          (0, set_x_rewind_state LEASE_STATE_FREE (set_x_next_state LEASE_STATE_FREE
                (set_x_state LEASE_STATE_RESERVED l)))) in
      (match done with Some _ => saved | None => -1 end, db)
  end.

(** The lease part of [lease_v6_set_state]. *)
Definition set_state6 (now : Z) (new_state : lease_state_t) (l : dhcpv6_lease_t)
    : dhcpv6_lease_t :=
  let l := set_x_state new_state l in
  let l := if l.(x_starts) =? 0 then set_x_starts now l else l in
  let unset := (l.(x_ends) =? 0) || (l.(x_ends) <? now) in
  match new_state with
  | LEASE_STATE_ACTIVE => if unset then set_x_ends (now + 3600) l else l
  | LEASE_STATE_RESERVED => if unset then set_x_ends (now + 86400) l else l
  | _ => set_x_ends now l
  end.

Definition lease_v6_set_state (saved now : Z) (db : lease_v6_db_t) (ip : in6_addr)
    (new_state : lease_state_t) : Z * lease_v6_db_t :=
  match lease_v6_find_by_ip db ip with
  | Some i => (saved, set_d_leases (alter (set_state6 now new_state) i db.(d_leases)) db)
  | None =>
      if bool_decide (new_state = LEASE_STATE_ACTIVE)
         || bool_decide (new_state = LEASE_STATE_RESERVED)
      then if bool_decide (LEASES6_MAX <= length db.(d_leases))%nat then (-1, db)
           else (saved, set_d_leases (db.(d_leases)
                  ++ [set_state6 now new_state (set_x_ip6_addr ip
                       (set_x_type Lease6_IA_NA (set_x_in_use true zero_lease6)))]) db)
      else (0, db)
  end.

Definition lease_v6_mark_conflict (saved now : Z) (db : lease_v6_db_t) (ip : in6_addr)
    : Z * lease_v6_db_t :=
  lease_v6_set_state saved now db ip LEASE_STATE_ABANDONED.

(** ** Sequences of operations *)

(** The operations of the server on one database; a DUID is given by its bytes, whose
    text the callers pass. *)
Inductive db6_op :=
| AddNa (now now' : Z) (duid : list Z) (iaid : Z) (ip : in6_addr) (secs : Z)
    (host : option cstr)
| AddPd (now now' : Z) (duid : list Z) (iaid : Z) (pfx : in6_addr) (plen secs : Z)
    (host : option cstr)
| ReleaseIp (saved now : Z) (ip : in6_addr)
| ReleasePrefix (saved now : Z) (pfx : in6_addr) (plen : Z)
| RenewIp (saved now : Z) (ip : in6_addr) (secs : Z)
| RenewPrefix (saved now : Z) (pfx : in6_addr) (plen secs : Z)
| MarkExpired (now : Z)
| Cleanup
| SetState (saved now : Z) (ip : in6_addr) (state : lease_state_t)
| MarkConflict (saved now : Z) (ip : in6_addr)
| MarkReserved (saved now : Z) (ip : in6_addr) (duid : list Z) (iaid : Z)
    (host : option cstr).

Definition db6_exec (db : lease_v6_db_t) (op : db6_op) : lease_v6_db_t :=
  match op with
  | AddNa now now' duid iaid ip secs host =>
      (lease_v6_add_ia_na now now' db (hex_loop duid) iaid ip secs host).2
  | AddPd now now' duid iaid pfx plen secs host =>
      (lease_v6_add_ia_pd now now' db (hex_loop duid) iaid pfx plen secs host).2
  | ReleaseIp saved now ip => (lease_v6_release_ip saved now db ip).2
  | ReleasePrefix saved now pfx plen => (lease_v6_release_prefix saved now db pfx plen).2
  | RenewIp saved now ip secs => (lease_v6_renew_ip saved now db ip secs).2
  | RenewPrefix saved now pfx plen secs =>
      (lease_v6_renew_prefix saved now db pfx plen secs).2
  | MarkExpired now => (lease_v6_mark_expired_older now db).2
  | Cleanup => match lease_v6_cleanup db with Some (_, db) => db | None => db end
  | SetState saved now ip state => (lease_v6_set_state saved now db ip state).2
  | MarkConflict saved now ip => (lease_v6_mark_conflict saved now db ip).2
  | MarkReserved saved now ip duid iaid host =>
      (lease_v6_mark_reserved saved now db ip (hex_loop duid) iaid host).2
  end.

(** A DUID the lease can hold. *)
Definition duid_ok (d : list Z) : Prop := Forall is_u8 d /\ (length d <= DUID_MAX_LEN)%nat.

Definition op_ok (op : db6_op) : Prop :=
  match op with
  | AddNa _ _ d _ _ _ _ | AddPd _ _ d _ _ _ _ _ | MarkReserved _ _ _ d _ _ => duid_ok d
  | _ => True
  end.

(** What a lease is for: an address or a prefix; nothing if the slot is not in use. *)
Definition lease_key (l : dhcpv6_lease_t) : option (list Z + list Z * Z) :=
  if l.(x_in_use) then
    Some match l.(x_type) with
         | Lease6_IA_NA => inl (take 16 l.(x_ip6_addr))
         | Lease6_IA_PD => inr (take 16 l.(x_prefix_v6), l.(x_plen))
         end
  else None.

Record db6_wf (db : lease_v6_db_t) : Prop := {
  wf6_bound : (length db.(d_leases) <= LEASES6_MAX)%nat;
  wf6_keys : NoDup (omap lease_key db.(d_leases))
}.

(** ** Lemmas *)

Lemma elem_of_omap_key (ls : list dhcpv6_lease_t) k :
  k ∈ omap lease_key ls <-> exists l, l ∈ ls /\ lease_key l = Some k.
Proof. rewrite list_elem_of_omap. naive_solver. Qed.

Lemma is_na_key ip l : is_na_for ip l = true <-> lease_key l = Some (inl (take 16 ip)).
Proof.
  unfold is_na_for, lease_key, memeq. destruct (x_in_use l), (x_type l); simpl;
    rewrite ?bool_decide_eq_true; naive_solver congruence.
Qed.

Lemma is_pd_key pfx plen l :
  is_pd_for pfx plen l = true <-> lease_key l = Some (inr (take 16 pfx, plen)).
Proof.
  unfold is_pd_for, lease_key, memeq. destruct (x_in_use l), (x_type l); simpl;
    rewrite ?andb_true_iff, ?Z.eqb_eq, ?bool_decide_eq_true; naive_solver congruence.
Qed.

Lemma find_by_ip_key db ip i :
  lease_v6_find_by_ip db ip = Some i ->
  exists l, db.(d_leases) !! i = Some l /\ lease_key l = Some (inl (take 16 ip)).
Proof. intros (l & Hl & Hk)%find_index_lookup. exists l. by rewrite <- is_na_key. Qed.

Lemma find_by_prefix_key db pfx plen i :
  lease_v6_find_by_prefix db pfx plen = Some i ->
  exists l, db.(d_leases) !! i = Some l /\ lease_key l = Some (inr (take 16 pfx, plen)).
Proof. intros (l & Hl & Hk)%find_index_lookup. exists l. by rewrite <- is_pd_key. Qed.

Lemma find_by_ip_none db ip :
  lease_v6_find_by_ip db ip = None -> (inl (take 16 ip) ∉ omap lease_key db.(d_leases)).
Proof.
  unfold lease_v6_find_by_ip. rewrite find_index_None. intros H (l & Hl & Hk)%elem_of_omap_key.
  specialize (H l Hl). apply is_na_key in Hk. congruence.
Qed.

Lemma find_by_prefix_none db pfx plen :
  lease_v6_find_by_prefix db pfx plen = None ->
  (inr (take 16 pfx, plen) ∉ omap lease_key db.(d_leases)).
Proof.
  unfold lease_v6_find_by_prefix. rewrite find_index_None.
  intros H (l & Hl & Hk)%elem_of_omap_key.
  specialize (H l Hl). apply is_pd_key in Hk. congruence.
Qed.

Lemma wf6_update db i l l' :
  db6_wf db -> db.(d_leases) !! i = Some l -> lease_key l' = lease_key l ->
  db6_wf (set_d_leases (<[i := l']> db.(d_leases)) db).
Proof.
  intros [Hb Hk] Hl E. constructor; simpl; [by rewrite length_insert|].
  by erewrite omap_insert_same.
Qed.

Lemma wf6_append db l k :
  db6_wf db -> (length db.(d_leases) < LEASES6_MAX)%nat -> lease_key l = Some k ->
  (k ∉ omap lease_key db.(d_leases)) ->
  db6_wf (set_d_leases (db.(d_leases) ++ [l]) db).
Proof.
  intros [Hb Hk] Hlt El Hn. constructor; simpl.
  - rewrite length_app. simpl. lia.
  - rewrite omap_app. cbn [omap list_omap]. rewrite El. apply NoDup_app.
    split; [done|]. split; [set_solver|apply NoDup_singleton].
Qed.

(** The text of a DUID is always accepted. *)
Lemma store_duid_ok d l :
  duid_ok d -> exists l', store_duid (hex_loop d) l = (0, l') /\ lease_key l' = lease_key l
    /\ (d <> [] -> take (length d) l'.(x_duid) = d /\ l'.(x_duid_len) = Z.of_nat (length d)).
Proof.
  intros [Hu Hd]. unfold store_duid.
  assert (duid_hex_to_bin (hex_loop d) (Z.of_nat DUID_MAX_LEN) = (Z.of_nat (length d), d)) as E.
  { unfold duid_hex_to_bin. change (Z.of_nat DUID_MAX_LEN =? 0) with false. cbv iota.
    rewrite (duid_hex_loop_text d) by (done || simpl; lia). done. }
  destruct (hex_loop d) as [|c s] eqn:Eh.
  - exists l. split_and!; try done. intros Hne.
    pose proof (length_hex_loop d Hne) as Hl. rewrite Eh in Hl. destruct d; [done|simpl in Hl; lia].
  - rewrite E. destruct (Z.ltb_spec (Z.of_nat (length d)) 0); [lia|].
    eexists. split; [reflexivity|]. split; [done|]. intros _. simpl. split.
    + by rewrite take_app_length.
    + unfold u16. apply Z.mod_small. unfold DUID_MAX_LEN in Hd. lia.
Qed.

Lemma store_hostname_key h l : lease_key (store_hostname h l) = lease_key l.
Proof. by destruct h. Qed.

(** The two ways a slot is found: an existing lease with the key, or a new one. *)
Lemma slot_for_cases db found key :
  db6_wf db ->
  (forall i, found = Some i -> exists l, db.(d_leases) !! i = Some l /\ lease_key l = Some key) ->
  (found = None -> (key ∉ omap lease_key db.(d_leases))) ->
  match slot_for db found with
  | None => found = None /\ length db.(d_leases) = LEASES6_MAX
  | Some (i, db') =>
      exists l, db'.(d_leases) !! i = Some l
      /\ (forall l', lease_key l' = Some key ->
            db6_wf (set_d_leases (<[i := l']> db'.(d_leases)) db'))
      /\ (found = Some i /\ db' = db
          \/ found = None /\ i = length db.(d_leases) /\ l = zero_lease6
             /\ db'.(d_leases) = db.(d_leases) ++ [zero_lease6])
  end.
Proof.
  intros Hwf Hs Hn. unfold slot_for. destruct found as [i|].
  - destruct (Hs i eq_refl) as (l & Hl & Hk). exists l. split; [done|].
    split; [|by left]. intros l' Hl'. eapply wf6_update; [done|done|congruence].
  - case_bool_decide as Hfull.
    { split; [done|]. destruct Hwf. lia. }
    exists zero_lease6. simpl. rewrite list_lookup_middle by done. split; [done|].
    split; [|auto]. intros l' Hl'. rewrite insert_snoc.
    apply (wf6_append db l' key); [done|lia|done|auto].
Qed.

Lemma on_found_wf saved db found f :
  (forall l, lease_key (f l) = lease_key l) -> db6_wf db -> db6_wf (on_found saved db found f).2.
Proof.
  intros Hf Hwf. unfold on_found. destruct found as [i|]; [|done]. simpl.
  destruct (d_leases db !! i) as [l|] eqn:Hl.
  - rewrite (alter_as_insert _ _ _ _ Hl). by eapply wf6_update.
  - rewrite alter_out by done. by destruct db.
Qed.

Lemma set_state6_key now s l : lease_key (set_state6 now s l) = lease_key l.
Proof. unfold set_state6. destruct s; repeat case_match; done. Qed.

(** The lease the address operation writes. *)
Lemma add_na_fields now now' d iaid ip secs host l :
  duid_ok d ->
  exists l', (let l := set_x_type Lease6_IA_NA (set_x_in_use true l) in
     let '(rc, l) := store_duid (hex_loop d) l in
     if rc <? 0 then (-1, l)
     else let l := set_x_ip6_addr ip (set_x_iaid iaid l) in
          (0, store_hostname host (activate now now' secs l))) = (0, l')
    /\ lease_key l' = Some (inl (take 16 ip))
    /\ x_state l' = LEASE_STATE_ACTIVE /\ x_iaid l' = iaid /\ x_starts l' = now'
    /\ x_ends l' = now' + secs
    /\ (d <> [] -> take (length d) l'.(x_duid) = d /\ l'.(x_duid_len) = Z.of_nat (length d)).
Proof.
  intros Hd. cbv zeta.
  destruct (store_duid_ok d (set_x_type Lease6_IA_NA (set_x_in_use true l)) Hd)
    as (l' & -> & Hk & Hf). change (0 <? 0) with false. cbv iota.
  eexists. split; [reflexivity|]. rewrite store_hostname_key.
  unfold lease_key in Hk |- *. simpl in *.
  destruct (x_in_use l'), (x_type l'); try done. by destruct host.
Qed.

Lemma add_pd_fields now now' d iaid pfx plen secs host l :
  duid_ok d ->
  exists l', (let l := set_x_type Lease6_IA_PD (set_x_in_use true l) in
     let '(rc, l) := store_duid (hex_loop d) l in
     if rc <? 0 then (-1, l)
     else let l := set_x_plen plen (set_x_prefix_v6 pfx (set_x_iaid iaid l)) in
          (0, store_hostname host (activate now now' secs l))) = (0, l')
    /\ lease_key l' = Some (inr (take 16 pfx, plen))
    /\ x_state l' = LEASE_STATE_ACTIVE /\ x_iaid l' = iaid /\ x_starts l' = now'
    /\ x_ends l' = now' + secs
    /\ (d <> [] -> take (length d) l'.(x_duid) = d /\ l'.(x_duid_len) = Z.of_nat (length d)).
Proof.
  intros Hd. cbv zeta.
  destruct (store_duid_ok d (set_x_type Lease6_IA_PD (set_x_in_use true l)) Hd)
    as (l' & -> & Hk & Hf). change (0 <? 0) with false. cbv iota.
  eexists. split; [reflexivity|]. rewrite store_hostname_key.
  unfold lease_key in Hk |- *. simpl in *.
  destruct (x_in_use l'), (x_type l'); try done. by destruct host.
Qed.

(** What an add operation, for addresses or for prefixes, does to the array. *)
Definition add_result (db : lease_v6_db_t) (found : option nat) (key : list Z + list Z * Z)
    (d : list Z) (iaid start secs : Z) (r : option nat * lease_v6_db_t) : Prop :=
  match r.1 with
  | None => found = None /\ length db.(d_leases) = LEASES6_MAX /\ r.2 = db
  | Some i =>
      db6_wf r.2
      /\ i = default (length db.(d_leases)) found
      /\ (forall j, j <> i -> r.2.(d_leases) !! j = db.(d_leases) !! j)
      /\ exists l, r.2.(d_leases) !! i = Some l /\ lease_key l = Some key
         /\ x_state l = LEASE_STATE_ACTIVE /\ x_iaid l = iaid
         /\ x_starts l = start /\ x_ends l = start + secs
         /\ (d <> [] -> take (length d) l.(x_duid) = d
                        /\ l.(x_duid_len) = Z.of_nat (length d))
  end.

Lemma update_slot_result db found key d iaid start secs f :
  db6_wf db ->
  (forall i, found = Some i -> exists l, db.(d_leases) !! i = Some l /\ lease_key l = Some key) ->
  (found = None -> (key ∉ omap lease_key db.(d_leases))) ->
  (forall l, exists l', f l = (0, l') /\ lease_key l' = Some key
     /\ x_state l' = LEASE_STATE_ACTIVE /\ x_iaid l' = iaid /\ x_starts l' = start
     /\ x_ends l' = start + secs
     /\ (d <> [] -> take (length d) l'.(x_duid) = d /\ l'.(x_duid_len) = Z.of_nat (length d))) ->
  add_result db found key d iaid start secs
    match slot_for db found with
    | None => (None, db)
    | Some (i, db) => update_slot db i f
    end.
Proof.
  intros Hwf Hs Hn Hf. pose proof (slot_for_cases db found key Hwf Hs Hn) as H.
  destruct (slot_for db found) as [[i db']|]; [|by destruct H].
  destruct H as (l & Hl & Hw & Hc). unfold update_slot. rewrite Hl.
  destruct (Hf l) as (l' & -> & Hk & Hrest). unfold add_result. simpl.
  pose proof (lookup_lt_Some _ _ _ Hl) as Hlt.
  split; [by apply Hw|]. split_and!.
  - destruct Hc as [[-> _]|(-> & -> & _)]; done.
  - intros j Hj. rewrite list_lookup_insert_ne by done.
    destruct Hc as [[_ ->]|(_ & -> & _ & E)]; [done|]. rewrite E.
    destruct (decide (j < length (d_leases db))%nat).
    + by rewrite lookup_app_l by done.
    + rewrite !lookup_ge_None_2; [done|lia|rewrite length_app; simpl; lia].
  - exists l'. rewrite list_lookup_insert_eq by done. auto.
Qed.

Lemma add_na_result now now' db d iaid ip secs host :
  db6_wf db -> duid_ok d ->
  add_result db (lease_v6_find_by_ip db ip) (inl (take 16 ip)) d iaid now' secs
    (lease_v6_add_ia_na now now' db (hex_loop d) iaid ip secs host).
Proof.
  intros Hwf Hd. apply update_slot_result; [done| | |].
  - apply find_by_ip_key.
  - apply find_by_ip_none.
  - intros l. by apply add_na_fields.
Qed.

Lemma add_pd_result now now' db d iaid pfx plen secs host :
  db6_wf db -> duid_ok d ->
  add_result db (lease_v6_find_by_prefix db pfx plen) (inr (take 16 pfx, plen)) d iaid now' secs
    (lease_v6_add_ia_pd now now' db (hex_loop d) iaid pfx plen secs host).
Proof.
  intros Hwf Hd. apply update_slot_result; [done| | |].
  - apply find_by_prefix_key.
  - apply find_by_prefix_none.
  - intros l. by apply add_pd_fields.
Qed.

Lemma add_result_wf db found key d iaid start secs r :
  db6_wf db -> add_result db found key d iaid start secs r -> db6_wf r.2.
Proof.
  unfold add_result. intros Hwf. destruct r as [[i|] db']; simpl; naive_solver.
Qed.

Lemma expire_loop6_spec now ls n :
  (expire_loop6 now ls n).1
  = (fun l => if overdue6 now l then set_x_state LEASE_STATE_EXPIRED l else l) <$> ls.
Proof.
  revert n. induction ls as [|l ls IH]; intros n; [done|]. cbn [expire_loop6 fmap list_fmap].
  destruct (overdue6 now l).
  - specialize (IH (n +u32 1)). destruct (expire_loop6 now ls (n +u32 1)) as [r m].
    simpl in *. by rewrite IH.
  - specialize (IH n). destruct (expire_loop6 now ls n) as [r m]. simpl in *. by rewrite IH.
Qed.

Lemma cleanup6_filter db :
  exists n, lease_v6_cleanup db
  = Some (n, set_d_leases (filter (fun l => reclaimable6 l = false) db.(d_leases)) db).
Proof. unfold lease_v6_cleanup. rewrite remove_loop_spec by lia. by eexists. Qed.

Lemma mark_expired_wf now db : db6_wf db -> db6_wf (lease_v6_mark_expired_older now db).2.
Proof.
  intros [Hb Hk]. unfold lease_v6_mark_expired_older.
  pose proof (expire_loop6_spec now (d_leases db) 0) as E.
  destruct (expire_loop6 now (d_leases db) 0) as [ls n]. simpl in E |- *. subst ls.
  constructor; simpl; [by rewrite length_fmap|].
  rewrite omap_fmap_same; [done|]. intros l. by destruct (overdue6 now l).
Qed.

Lemma cleanup6_wf db n db' : db6_wf db -> lease_v6_cleanup db = Some (n, db') -> db6_wf db'.
Proof.
  intros [Hb Hk]. destruct (cleanup6_filter db) as [m ->]. intros [= <- <-].
  constructor; simpl.
  - etransitivity; [apply length_filter|done].
  - eapply sublist_NoDup; [done|apply omap_filter_sublist].
Qed.

Lemma set_state_wf saved now db ip state :
  db6_wf db -> db6_wf (lease_v6_set_state saved now db ip state).2.
Proof.
  intros Hwf. unfold lease_v6_set_state.
  destruct (lease_v6_find_by_ip db ip) as [i|] eqn:Hi.
  { apply (on_found_wf saved db (Some i)); [|done]. intros l. apply set_state6_key. }
  destruct (_ || _); [|done]. case_bool_decide; [done|].
  apply (wf6_append db _ (inl (take 16 ip))); [done|lia| |by apply find_by_ip_none].
  by rewrite set_state6_key.
Qed.

Lemma mark_conflict_wf saved now db ip :
  db6_wf db -> db6_wf (lease_v6_mark_conflict saved now db ip).2.
Proof. apply set_state_wf. Qed.

(** [lease_v6_mark_reserved] through the same two cases as the add operations. *)
Lemma mark_reserved_wf saved now db ip d iaid host :
  db6_wf db -> duid_ok d ->
  db6_wf (lease_v6_mark_reserved saved now db ip (hex_loop d) iaid host).2.
Proof.
  intros Hwf [Hu Hd]. unfold lease_v6_mark_reserved.
  assert (duid_hex_to_bin (hex_loop d) (Z.of_nat DUID_MAX_LEN) = (Z.of_nat (length d), d)) as E.
  { unfold duid_hex_to_bin. change (Z.of_nat DUID_MAX_LEN =? 0) with false. cbv iota.
    rewrite (duid_hex_loop_text d) by (done || simpl; lia). done. }
  rewrite E. destruct (Z.ltb_spec (Z.of_nat (length d)) 0); [lia|].
  destruct (lease_v6_find_by_ip db ip) as [i|] eqn:Hi; [|case_bool_decide; [done|]].
  - destruct (find_by_ip_key _ _ _ Hi) as (l & Hl & Hk). unfold update_slot. rewrite Hl.
    eapply wf6_update; [done|done|]. by destruct host.
  - unfold update_slot. simpl. rewrite list_lookup_middle, insert_snoc by done.
    apply (wf6_append db _ (inl (take 16 ip))); [done|lia|by destruct host|].
    by apply find_by_ip_none.
Qed.

Lemma db6_exec_wf db op : db6_wf db -> op_ok op -> db6_wf (db6_exec db op).
Proof.
  intros Hwf Hop. destruct op; simpl in *.
  - eapply add_result_wf; [done|by apply add_na_result].
  - eapply add_result_wf; [done|by apply add_pd_result].
  - by apply on_found_wf.
  - by apply on_found_wf.
  - by apply on_found_wf.
  - by apply on_found_wf.
  - by apply mark_expired_wf.
  - destruct (cleanup6_filter db) as [n E]. rewrite E. by eapply cleanup6_wf.
  - by apply set_state_wf.
  - by apply mark_conflict_wf.
  - by apply mark_reserved_wf.
Qed.

Lemma db6_init_wf path : db6_wf (lease_v6_db_init path).
Proof. constructor; simpl; [lia|constructor]. Qed.

(** What the add operation leaves: the search by address finds the lease. *)
Lemma add_na_found now now' db d iaid ip secs host i db' :
  db6_wf db -> duid_ok d ->
  lease_v6_add_ia_na now now' db (hex_loop d) iaid ip secs host = (Some i, db') ->
  lease_v6_find_by_ip db' ip = Some i.
Proof.
  intros Hwf Hd E. pose proof (add_na_result now now' db d iaid ip secs host Hwf Hd) as H.
  rewrite E in H. destruct H as ([_ Hk] & Hi & _ & l & Hl & Hlk & _). simpl in *.
  destruct (find_index_is_Some (is_na_for ip) (d_leases db') l) as [j Hj];
    [by eapply list_elem_of_lookup_2|by apply is_na_key|].
  unfold lease_v6_find_by_ip. rewrite Hj. f_equal.
  destruct (find_by_ip_key db' ip j Hj) as (l' & Hl' & Hk').
  by eapply NoDup_omap_inj.
Qed.

(** ** Theorems *)

(** C33: From a database within its 4096 slots whose leases are for distinct addresses and
    prefixes (the empty one, or one loaded from a file), any sequence of additions of
    addresses and prefixes, releases, renewals, expiries, clean-ups, changes of state, conflict
    marks and reservations, the DUIDs given to them being the text of at most 128 bytes,
    leaves the array within its slots and no two of its leases for the same address or for
    the same prefix. *)
Theorem lease_v6_db_invariant db0 ops :
  db6_wf db0 -> Forall op_ok ops ->
  let db := foldl db6_exec db0 ops in
  (length db.(d_leases) <= LEASES6_MAX)%nat
  /\ forall i j l l' k, db.(d_leases) !! i = Some l -> db.(d_leases) !! j = Some l' ->
       lease_key l = Some k -> lease_key l' = Some k -> i = j.
Proof.
  intros Hwf Hops. cbv zeta.
  assert (db6_wf (foldl db6_exec db0 ops)) as [Hb Hk].
  { revert db0 Hwf Hops. induction ops as [|op ops IH]; intros db Hwf Hops; [done|].
    apply Forall_cons in Hops as [H1 H2]. apply IH; [by apply db6_exec_wf|done]. }
  split; [done|]. intros. by eapply NoDup_omap_inj.
Qed.

Definition ip_a : in6_addr := [32; 1; 13; 184; 0; 0; 0; 0; 0; 0; 0; 0; 0; 0; 0; 16].
Definition ip_b : in6_addr := [32; 1; 13; 184; 0; 0; 0; 0; 0; 0; 0; 0; 0; 0; 0; 17].

Definition sample_ops : list db6_op :=
  [AddNa 100 100 [0; 1; 170] 7 ip_a 3600 None; AddNa 100 100 [0; 1; 187] 8 ip_b 3600 None;
   AddNa 200 200 [0; 1; 187] 9 ip_a 3600 None; ReleaseIp 0 250 ip_b;
   AddPd 260 260 [0; 1; 170] 7 ip_b 56 600 (Some [104]); Cleanup;
   SetState 0 270 ip_b LEASE_STATE_ACTIVE; SetState 0 280 ip_b LEASE_STATE_RESERVED].

Lemma lease_v6_db_invariant_witness :
  length (d_leases (foldl db6_exec (lease_v6_db_init []) sample_ops)) = 3%nat
  /\ (length (d_leases (foldl db6_exec (lease_v6_db_init []) sample_ops)) <= LEASES6_MAX)%nat.
Proof.
  split; [vm_compute; reflexivity|].
  apply (lease_v6_db_invariant (lease_v6_db_init []) sample_ops); [apply db6_init_wf|].
  repeat constructor; vm_compute; congruence.
Defined.

(** [lease_v6_add_ia_na] with the text of a DUID of at most 128 bytes: it returns
    NULL, changing nothing, only when no lease is for the address and the array is full;
    otherwise it returns the slot of the lease already for the address, or the first
    unused one, which then is an ACTIVE lease for the address with the IAID, the DUID
    and the times given, which the search by address finds; every other slot is as
    before. *)
Lemma lease_v6_add_ia_na_spec now now' db d iaid ip secs host :
  db6_wf db -> duid_ok d ->
  let '(r, db') := lease_v6_add_ia_na now now' db (hex_loop d) iaid ip secs host in
  match r with
  | None => lease_v6_find_by_ip db ip = None /\ length db.(d_leases) = LEASES6_MAX /\ db' = db
  | Some i =>
      i = default (length db.(d_leases)) (lease_v6_find_by_ip db ip)
      /\ lease_v6_find_by_ip db' ip = Some i
      /\ (forall j, j <> i -> db'.(d_leases) !! j = db.(d_leases) !! j)
      /\ exists l, db'.(d_leases) !! i = Some l
         /\ lease_key l = Some (inl (take 16 ip))
         /\ x_state l = LEASE_STATE_ACTIVE /\ x_iaid l = iaid
         /\ x_starts l = now' /\ x_ends l = now' + secs
         /\ (d <> [] -> take (length d) l.(x_duid) = d
                        /\ l.(x_duid_len) = Z.of_nat (length d))
  end.
Proof.
  intros Hwf Hd. pose proof (add_na_result now now' db d iaid ip secs host Hwf Hd) as H.
  destruct (lease_v6_add_ia_na now now' db (hex_loop d) iaid ip secs host) as [[i|] db'] eqn:E;
    unfold add_result in H; simpl in H; [|done].
  destruct H as (_ & Hi & Hne & Hl). split_and!; [done| |done|done].
  by eapply add_na_found.
Qed.

Lemma lease_v6_add_ia_na_spec_witness :
  (lease_v6_add_ia_na 100 101 (lease_v6_db_init []) (hex_loop [0; 1; 170]) 7 ip_a 3600 None).1
  = Some 0%nat.
Proof.
  pose proof (lease_v6_add_ia_na_spec 100 101 (lease_v6_db_init []) [0; 1; 170] 7 ip_a 3600
    None (db6_init_wf [])) as H.
  destruct (lease_v6_add_ia_na 100 101 (lease_v6_db_init []) (hex_loop [0; 1; 170]) 7 ip_a
    3600 None) as [[i|] db'] eqn:E.
  - destruct H as (-> & _); [|reflexivity]. split; [|unfold DUID_MAX_LEN; simpl; lia].
    repeat constructor; vm_compute; congruence.
  - vm_compute in E. discriminate.
Defined.

(** When the DUID text is refused, the slot already counted stays in use, as a lease
    for the address [::] that the search finds. *)
Example add_ia_na_phantom :
  let '(r, db) := lease_v6_add_ia_na 100 100 (lease_v6_db_init []) [122] 7 ip_a 3600 None in
  r = None /\ length db.(d_leases) = 1%nat
  /\ lease_v6_find_by_ip db zero_addr6 = Some 0%nat
  /\ lease_v6_find_by_ip db ip_a = None.
Proof. vm_compute. done. Qed.
