(* ===== verification/ConfigV6.v ===== *)
(** * The DHCPv6 configuration

    [DHCPv6/include/config_v6.h], [DHCPv6/sources/config_v6.c] and
    [config_v6_validate.c]: the configuration records, the conversion of their text
    addresses, the validation and the lookups.  [hosts] with [host_count] and [subnets]
    with [subnet_count] are the lists of their used prefixes; a string is its bytes up
    to the terminator.  [ConfigFileV6] reads the file into the records. *)

From S2P Require Import Prelude UtilsV6.

Record dhcpv6_static_host_t := mk_static_host6 {
  h6_hostname : cstr;
  h6_duid : cstr;
  h6_fixed_address6 : cstr;
  h6_fixed_addr6_bin : in6_addr;
  h6_has_fixed_address6_bin : bool
}.

Definition set_h6_fixed_addr6_bin (v : in6_addr) (r : dhcpv6_static_host_t) : dhcpv6_static_host_t :=
  mk_static_host6 r.(h6_hostname) r.(h6_duid) r.(h6_fixed_address6) v
    r.(h6_has_fixed_address6_bin).

Definition set_h6_has_fixed_address6_bin (v : bool) (r : dhcpv6_static_host_t) : dhcpv6_static_host_t :=
  mk_static_host6 r.(h6_hostname) r.(h6_duid) r.(h6_fixed_address6)
    r.(h6_fixed_addr6_bin) v.

Record dhcpv6_subnet_t := mk_subnet6 {
  s6_prefix : cstr;
  s6_prefix_len : Z;
  s6_prefix_bin : in6_addr;
  s6_has_prefix_bin : bool;
  s6_pool_start : cstr;
  s6_pool_end : cstr;
  s6_pool_start_bin : in6_addr;
  s6_pool_end_bin : in6_addr;
  s6_has_pool_range : bool;
  s6_dns_servers : cstr;
  s6_domain_search : cstr;
  s6_sntp_servers : cstr;
  s6_has_sntp_servers : bool;
  s6_info_refresh_time : Z;
  s6_has_info_refresh_time : bool;
  s6_preference : Z;
  s6_has_preference : bool;
  s6_sip_server_domain : cstr;
  s6_has_sip_server_domain : bool;
  s6_bootfile_url : cstr;
  s6_has_bootfile_url : bool;
  s6_default_lease_time : Z;
  s6_max_lease_time : Z;
  s6_hosts : list dhcpv6_static_host_t;
  s6_pd_enabled : bool;
  s6_pd_pool_start : cstr;
  s6_pd_pool_end : cstr;
  s6_pd_prefix_len : Z;
  s6_pd_pool_start_bin : in6_addr;
  s6_pd_pool_end_bin : in6_addr;
  s6_has_pd_pool : bool;
  s6_icmp6_probe_override : bool;
  s6_icmp6_probe : bool;
  s6_icmp6_timeout_ms : Z;
  s6_has_icmp6_timeout : bool
}.

Definition set_s6_prefix_bin (v : in6_addr) (r : dhcpv6_subnet_t) : dhcpv6_subnet_t :=
  mk_subnet6 r.(s6_prefix) r.(s6_prefix_len) v r.(s6_has_prefix_bin) r.(s6_pool_start)
    r.(s6_pool_end) r.(s6_pool_start_bin) r.(s6_pool_end_bin) r.(s6_has_pool_range)
    r.(s6_dns_servers) r.(s6_domain_search) r.(s6_sntp_servers)
    r.(s6_has_sntp_servers) r.(s6_info_refresh_time) r.(s6_has_info_refresh_time)
    r.(s6_preference) r.(s6_has_preference) r.(s6_sip_server_domain)
    r.(s6_has_sip_server_domain) r.(s6_bootfile_url) r.(s6_has_bootfile_url)
    r.(s6_default_lease_time) r.(s6_max_lease_time) r.(s6_hosts) r.(s6_pd_enabled)
    r.(s6_pd_pool_start) r.(s6_pd_pool_end) r.(s6_pd_prefix_len)
    r.(s6_pd_pool_start_bin) r.(s6_pd_pool_end_bin) r.(s6_has_pd_pool)
    r.(s6_icmp6_probe_override) r.(s6_icmp6_probe) r.(s6_icmp6_timeout_ms)
    r.(s6_has_icmp6_timeout).

Definition set_s6_has_prefix_bin (v : bool) (r : dhcpv6_subnet_t) : dhcpv6_subnet_t :=
  mk_subnet6 r.(s6_prefix) r.(s6_prefix_len) r.(s6_prefix_bin) v r.(s6_pool_start)
    r.(s6_pool_end) r.(s6_pool_start_bin) r.(s6_pool_end_bin) r.(s6_has_pool_range)
    r.(s6_dns_servers) r.(s6_domain_search) r.(s6_sntp_servers)
    r.(s6_has_sntp_servers) r.(s6_info_refresh_time) r.(s6_has_info_refresh_time)
    r.(s6_preference) r.(s6_has_preference) r.(s6_sip_server_domain)
    r.(s6_has_sip_server_domain) r.(s6_bootfile_url) r.(s6_has_bootfile_url)
    r.(s6_default_lease_time) r.(s6_max_lease_time) r.(s6_hosts) r.(s6_pd_enabled)
    r.(s6_pd_pool_start) r.(s6_pd_pool_end) r.(s6_pd_prefix_len)
    r.(s6_pd_pool_start_bin) r.(s6_pd_pool_end_bin) r.(s6_has_pd_pool)
    r.(s6_icmp6_probe_override) r.(s6_icmp6_probe) r.(s6_icmp6_timeout_ms)
    r.(s6_has_icmp6_timeout).

Definition set_s6_pool_start_bin (v : in6_addr) (r : dhcpv6_subnet_t) : dhcpv6_subnet_t :=
  mk_subnet6 r.(s6_prefix) r.(s6_prefix_len) r.(s6_prefix_bin) r.(s6_has_prefix_bin)
    r.(s6_pool_start) r.(s6_pool_end) v r.(s6_pool_end_bin) r.(s6_has_pool_range)
    r.(s6_dns_servers) r.(s6_domain_search) r.(s6_sntp_servers)
    r.(s6_has_sntp_servers) r.(s6_info_refresh_time) r.(s6_has_info_refresh_time)
    r.(s6_preference) r.(s6_has_preference) r.(s6_sip_server_domain)
    r.(s6_has_sip_server_domain) r.(s6_bootfile_url) r.(s6_has_bootfile_url)
    r.(s6_default_lease_time) r.(s6_max_lease_time) r.(s6_hosts) r.(s6_pd_enabled)
    r.(s6_pd_pool_start) r.(s6_pd_pool_end) r.(s6_pd_prefix_len)
    r.(s6_pd_pool_start_bin) r.(s6_pd_pool_end_bin) r.(s6_has_pd_pool)
    r.(s6_icmp6_probe_override) r.(s6_icmp6_probe) r.(s6_icmp6_timeout_ms)
    r.(s6_has_icmp6_timeout).

Definition set_s6_pool_end_bin (v : in6_addr) (r : dhcpv6_subnet_t) : dhcpv6_subnet_t :=
  mk_subnet6 r.(s6_prefix) r.(s6_prefix_len) r.(s6_prefix_bin) r.(s6_has_prefix_bin)
    r.(s6_pool_start) r.(s6_pool_end) r.(s6_pool_start_bin) v r.(s6_has_pool_range)
    r.(s6_dns_servers) r.(s6_domain_search) r.(s6_sntp_servers)
    r.(s6_has_sntp_servers) r.(s6_info_refresh_time) r.(s6_has_info_refresh_time)
    r.(s6_preference) r.(s6_has_preference) r.(s6_sip_server_domain)
    r.(s6_has_sip_server_domain) r.(s6_bootfile_url) r.(s6_has_bootfile_url)
    r.(s6_default_lease_time) r.(s6_max_lease_time) r.(s6_hosts) r.(s6_pd_enabled)
    r.(s6_pd_pool_start) r.(s6_pd_pool_end) r.(s6_pd_prefix_len)
    r.(s6_pd_pool_start_bin) r.(s6_pd_pool_end_bin) r.(s6_has_pd_pool)
    r.(s6_icmp6_probe_override) r.(s6_icmp6_probe) r.(s6_icmp6_timeout_ms)
    r.(s6_has_icmp6_timeout).

Definition set_s6_has_pool_range (v : bool) (r : dhcpv6_subnet_t) : dhcpv6_subnet_t :=
  mk_subnet6 r.(s6_prefix) r.(s6_prefix_len) r.(s6_prefix_bin) r.(s6_has_prefix_bin)
    r.(s6_pool_start) r.(s6_pool_end) r.(s6_pool_start_bin) r.(s6_pool_end_bin) v
    r.(s6_dns_servers) r.(s6_domain_search) r.(s6_sntp_servers)
    r.(s6_has_sntp_servers) r.(s6_info_refresh_time) r.(s6_has_info_refresh_time)
    r.(s6_preference) r.(s6_has_preference) r.(s6_sip_server_domain)
    r.(s6_has_sip_server_domain) r.(s6_bootfile_url) r.(s6_has_bootfile_url)
    r.(s6_default_lease_time) r.(s6_max_lease_time) r.(s6_hosts) r.(s6_pd_enabled)
    r.(s6_pd_pool_start) r.(s6_pd_pool_end) r.(s6_pd_prefix_len)
    r.(s6_pd_pool_start_bin) r.(s6_pd_pool_end_bin) r.(s6_has_pd_pool)
    r.(s6_icmp6_probe_override) r.(s6_icmp6_probe) r.(s6_icmp6_timeout_ms)
    r.(s6_has_icmp6_timeout).

Definition set_s6_pd_pool_start_bin (v : in6_addr) (r : dhcpv6_subnet_t) : dhcpv6_subnet_t :=
  mk_subnet6 r.(s6_prefix) r.(s6_prefix_len) r.(s6_prefix_bin) r.(s6_has_prefix_bin)
    r.(s6_pool_start) r.(s6_pool_end) r.(s6_pool_start_bin) r.(s6_pool_end_bin)
    r.(s6_has_pool_range) r.(s6_dns_servers) r.(s6_domain_search) r.(s6_sntp_servers)
    r.(s6_has_sntp_servers) r.(s6_info_refresh_time) r.(s6_has_info_refresh_time)
    r.(s6_preference) r.(s6_has_preference) r.(s6_sip_server_domain)
    r.(s6_has_sip_server_domain) r.(s6_bootfile_url) r.(s6_has_bootfile_url)
    r.(s6_default_lease_time) r.(s6_max_lease_time) r.(s6_hosts) r.(s6_pd_enabled)
    r.(s6_pd_pool_start) r.(s6_pd_pool_end) r.(s6_pd_prefix_len) v
    r.(s6_pd_pool_end_bin) r.(s6_has_pd_pool) r.(s6_icmp6_probe_override)
    r.(s6_icmp6_probe) r.(s6_icmp6_timeout_ms) r.(s6_has_icmp6_timeout).

Definition set_s6_pd_pool_end_bin (v : in6_addr) (r : dhcpv6_subnet_t) : dhcpv6_subnet_t :=
  mk_subnet6 r.(s6_prefix) r.(s6_prefix_len) r.(s6_prefix_bin) r.(s6_has_prefix_bin)
    r.(s6_pool_start) r.(s6_pool_end) r.(s6_pool_start_bin) r.(s6_pool_end_bin)
    r.(s6_has_pool_range) r.(s6_dns_servers) r.(s6_domain_search) r.(s6_sntp_servers)
    r.(s6_has_sntp_servers) r.(s6_info_refresh_time) r.(s6_has_info_refresh_time)
    r.(s6_preference) r.(s6_has_preference) r.(s6_sip_server_domain)
    r.(s6_has_sip_server_domain) r.(s6_bootfile_url) r.(s6_has_bootfile_url)
    r.(s6_default_lease_time) r.(s6_max_lease_time) r.(s6_hosts) r.(s6_pd_enabled)
    r.(s6_pd_pool_start) r.(s6_pd_pool_end) r.(s6_pd_prefix_len)
    r.(s6_pd_pool_start_bin) v r.(s6_has_pd_pool) r.(s6_icmp6_probe_override)
    r.(s6_icmp6_probe) r.(s6_icmp6_timeout_ms) r.(s6_has_icmp6_timeout).

Definition set_s6_has_pd_pool (v : bool) (r : dhcpv6_subnet_t) : dhcpv6_subnet_t :=
  mk_subnet6 r.(s6_prefix) r.(s6_prefix_len) r.(s6_prefix_bin) r.(s6_has_prefix_bin)
    r.(s6_pool_start) r.(s6_pool_end) r.(s6_pool_start_bin) r.(s6_pool_end_bin)
    r.(s6_has_pool_range) r.(s6_dns_servers) r.(s6_domain_search) r.(s6_sntp_servers)
    r.(s6_has_sntp_servers) r.(s6_info_refresh_time) r.(s6_has_info_refresh_time)
    r.(s6_preference) r.(s6_has_preference) r.(s6_sip_server_domain)
    r.(s6_has_sip_server_domain) r.(s6_bootfile_url) r.(s6_has_bootfile_url)
    r.(s6_default_lease_time) r.(s6_max_lease_time) r.(s6_hosts) r.(s6_pd_enabled)
    r.(s6_pd_pool_start) r.(s6_pd_pool_end) r.(s6_pd_prefix_len)
    r.(s6_pd_pool_start_bin) r.(s6_pd_pool_end_bin) v r.(s6_icmp6_probe_override)
    r.(s6_icmp6_probe) r.(s6_icmp6_timeout_ms) r.(s6_has_icmp6_timeout).

Definition set_s6_hosts (v : list dhcpv6_static_host_t) (r : dhcpv6_subnet_t) : dhcpv6_subnet_t :=
  mk_subnet6 r.(s6_prefix) r.(s6_prefix_len) r.(s6_prefix_bin) r.(s6_has_prefix_bin)
    r.(s6_pool_start) r.(s6_pool_end) r.(s6_pool_start_bin) r.(s6_pool_end_bin)
    r.(s6_has_pool_range) r.(s6_dns_servers) r.(s6_domain_search) r.(s6_sntp_servers)
    r.(s6_has_sntp_servers) r.(s6_info_refresh_time) r.(s6_has_info_refresh_time)
    r.(s6_preference) r.(s6_has_preference) r.(s6_sip_server_domain)
    r.(s6_has_sip_server_domain) r.(s6_bootfile_url) r.(s6_has_bootfile_url)
    r.(s6_default_lease_time) r.(s6_max_lease_time) v r.(s6_pd_enabled)
    r.(s6_pd_pool_start) r.(s6_pd_pool_end) r.(s6_pd_prefix_len)
    r.(s6_pd_pool_start_bin) r.(s6_pd_pool_end_bin) r.(s6_has_pd_pool)
    r.(s6_icmp6_probe_override) r.(s6_icmp6_probe) r.(s6_icmp6_timeout_ms)
    r.(s6_has_icmp6_timeout).

Record dhcpv6_global_t := mk_global6 {
  g6_default_lease_time : Z;
  g6_max_lease_time : Z;
  g6_global_dns_servers : cstr;
  g6_global_domain_search : cstr;
  g6_sntp_servers : cstr;
  g6_has_sntp_servers : bool;
  g6_info_refresh_time : Z;
  g6_has_info_refresh_time : bool;
  g6_preference : Z;
  g6_has_preference : bool;
  g6_sip_server_domain : cstr;
  g6_has_sip_server_domain : bool;
  g6_bootfile_url : cstr;
  g6_has_bootfile_url : bool;
  g6_icmp6_probe : bool;
  g6_icmp6_timeout_ms : Z;
  g6_has_icmp6_timeout : bool
}.

Record dhcpv6_config_t := mk_config6 {
  c6_global : dhcpv6_global_t;
  c6_subnets : list dhcpv6_subnet_t
}.

Definition set_c6_subnets (v : list dhcpv6_subnet_t) (r : dhcpv6_config_t) : dhcpv6_config_t :=
  mk_config6 r.(c6_global) v.

(** ** Conversion to binary *)

Section conversion.
(** [inet_pton(AF_INET6, s, out)]: the address it stores when it returns 1; otherwise
    [out] is left alone. *)
Variable inet_pton6 : cstr -> option in6_addr.

(** [ipv6_str_to_bin(s, &field)]: whether it returns 0, and the field afterwards. *)
Definition ipv6_str_to_bin (s : cstr) (old : in6_addr) : bool * in6_addr :=
  match inet_pton6 s with
  | Some a => (true, a)
  | None => (false, old)
  end.

Definition nonempty (s : cstr) : bool := negb (bool_decide (s = [])).

Definition convert_host_block (h : dhcpv6_static_host_t) : dhcpv6_static_host_t :=
  if nonempty h.(h6_fixed_address6) then
    let '(ok, a) := ipv6_str_to_bin h.(h6_fixed_address6) h.(h6_fixed_addr6_bin) in
    set_h6_has_fixed_address6_bin ok (set_h6_fixed_addr6_bin a h)
  else h.

(** The end is converted only when the start was. *)
Definition convert_range_block (s : dhcpv6_subnet_t) : dhcpv6_subnet_t :=
  if nonempty s.(s6_pool_start) && nonempty s.(s6_pool_end) then
    let '(ok, a) := ipv6_str_to_bin s.(s6_pool_start) s.(s6_pool_start_bin) in
    let s := set_s6_pool_start_bin a s in
    if ok then
      let '(ok, b) := ipv6_str_to_bin s.(s6_pool_end) s.(s6_pool_end_bin) in
      set_s6_has_pool_range ok (set_s6_pool_end_bin b s)
    else set_s6_has_pool_range false s
  else set_s6_has_pool_range false s.

Definition convert_subnet_prefix (s : dhcpv6_subnet_t) : dhcpv6_subnet_t :=
  if nonempty s.(s6_prefix) then
    let '(ok, a) := ipv6_str_to_bin s.(s6_prefix) s.(s6_prefix_bin) in
    set_s6_has_prefix_bin ok (set_s6_prefix_bin a s)
  else set_s6_has_prefix_bin false s.

Definition convert_pd_block (s : dhcpv6_subnet_t) : dhcpv6_subnet_t :=
  if negb s.(s6_pd_enabled) then set_s6_has_pd_pool false s
  else if nonempty s.(s6_pd_pool_start) && nonempty s.(s6_pd_pool_end) then
    let '(ok, a) := ipv6_str_to_bin s.(s6_pd_pool_start) s.(s6_pd_pool_start_bin) in
    let s := set_s6_pd_pool_start_bin a s in
    if ok then
      let '(ok, b) := ipv6_str_to_bin s.(s6_pd_pool_end) s.(s6_pd_pool_end_bin) in
      set_s6_has_pd_pool ok (set_s6_pd_pool_end_bin b s)
    else set_s6_has_pd_pool false s
  else set_s6_has_pd_pool false s.

Definition convert_subnet (s : dhcpv6_subnet_t) : dhcpv6_subnet_t :=
  let s := convert_pd_block (convert_range_block (convert_subnet_prefix s)) in
  set_s6_hosts (convert_host_block <$> s.(s6_hosts)) s.

Definition convert_all_to_binary (cfg : dhcpv6_config_t) : dhcpv6_config_t :=
  set_c6_subnets (convert_subnet <$> cfg.(c6_subnets)) cfg.
End conversion.

(** ** Lookups *)

Definition subnet_matches (ip : in6_addr) (s : dhcpv6_subnet_t) : bool :=
  s.(s6_has_prefix_bin) && ipv6_in_subnet ip s.(s6_prefix_bin) s.(s6_prefix_len).

(** The index of the subnet. *)
Definition find_subnet_for_ipv6 (cfg : dhcpv6_config_t) (ip : in6_addr) : option nat :=
  find_index (subnet_matches ip) cfg.(c6_subnets).

Definition find_host_by_duid (subnet : dhcpv6_subnet_t) (duid : cstr) : option nat :=
  find_index (fun h => bool_decide (h.(h6_duid) = duid)) subnet.(s6_hosts).

(** ** Validation *)

(** The messages written to standard error; [WarnHost j] and [WarnNoDuid j] are about
    host [j]. *)
Inductive config_message :=
| ErrNoSubnet
| ErrPrefix (subnet : nat)
| ErrPrefixLen (subnet : nat)
| WarnRangeOrder (subnet : nat)
| WarnStartOutside (subnet : nat)
| WarnEndOutside (subnet : nat)
| WarnPdOrder (subnet : nat)
| WarnPdStartOutside (subnet : nat)
| WarnPdEndOutside (subnet : nat)
| WarnHost (subnet host : nat)
| WarnNoDuid (subnet host : nat).

Definition warn_if (b : bool) (m : config_message) : list config_message :=
  if b then [m] else [].

Definition validate_range6 (i : nat) (s : dhcpv6_subnet_t) : list config_message :=
  if negb s.(s6_has_pool_range) then []
  else
    warn_if (0 <? memcmp s.(s6_pool_start_bin) s.(s6_pool_end_bin)) (WarnRangeOrder i)
    ++ warn_if (s.(s6_has_prefix_bin)
                && negb (ipv6_in_subnet s.(s6_pool_start_bin) s.(s6_prefix_bin) s.(s6_prefix_len)))
         (WarnStartOutside i)
    ++ warn_if (s.(s6_has_prefix_bin)
                && negb (ipv6_in_subnet s.(s6_pool_end_bin) s.(s6_prefix_bin) s.(s6_prefix_len)))
         (WarnEndOutside i).

Definition validate_pd_pool (i : nat) (s : dhcpv6_subnet_t) : list config_message :=
  if negb s.(s6_pd_enabled) || negb s.(s6_has_pd_pool) then []
  else
    warn_if (0 <? memcmp s.(s6_pd_pool_start_bin) s.(s6_pd_pool_end_bin)) (WarnPdOrder i)
    ++ warn_if (s.(s6_has_prefix_bin)
                && negb (ipv6_in_subnet s.(s6_pd_pool_start_bin) s.(s6_prefix_bin)
                           s.(s6_prefix_len)))
         (WarnPdStartOutside i)
    ++ warn_if (s.(s6_has_prefix_bin)
                && negb (ipv6_in_subnet s.(s6_pd_pool_end_bin) s.(s6_prefix_bin)
                           s.(s6_prefix_len)))
         (WarnPdEndOutside i).

Definition validate_hosts (i : nat) (s : dhcpv6_subnet_t) : list config_message :=
  concat (imap (fun j h =>
    warn_if (h.(h6_has_fixed_address6_bin) && s.(s6_has_prefix_bin)
             && negb (ipv6_in_subnet h.(h6_fixed_addr6_bin) s.(s6_prefix_bin) s.(s6_prefix_len)))
      (WarnHost i j)
    ++ warn_if (negb (nonempty h.(h6_duid))) (WarnNoDuid i j)) s.(s6_hosts)).

(** The body of the loop: the errors counted and the messages. *)
Definition validate_subnet (i : nat) (s : dhcpv6_subnet_t) : Z * list config_message :=
  if negb s.(s6_has_prefix_bin) then (1, [ErrPrefix i])
  else
    let '(errors, ms) :=
      if (s.(s6_prefix_len) =? 0) || (128 <? s.(s6_prefix_len)) then (1, [ErrPrefixLen i])
      else (0, []) in
    (errors, ms ++ validate_range6 i s ++ validate_pd_pool i s ++ validate_hosts i s).

Fixpoint validate_loop (i : nat) (ss : list dhcpv6_subnet_t) : Z * list config_message :=
  match ss with
  | [] => (0, [])
  | s :: rest =>
      let '(e, ms) := validate_subnet i s in
      let '(e', ms') := validate_loop (S i) rest in
      (e + e', ms ++ ms')
  end.

Definition validate_config_v6 (cfg : dhcpv6_config_t) : Z * list config_message :=
  let '(e, ms) := match cfg.(c6_subnets) with
                  | [] => (1, [ErrNoSubnet])
                  | _ => (0, [])
                  end in
  let '(e', ms') := validate_loop 0 cfg.(c6_subnets) in
  (e + e', ms ++ ms').

(** ** Lemmas *)

Lemma validate_subnet_errors i s :
  0 <= (validate_subnet i s).1
  /\ ((validate_subnet i s).1 = 0
      <-> s.(s6_has_prefix_bin) = true /\ s.(s6_prefix_len) <> 0 /\ s.(s6_prefix_len) <= 128).
Proof.
  unfold validate_subnet. destruct (s6_has_prefix_bin s); simpl; [|split; [lia|naive_solver congruence]].
  destruct (Z.eqb_spec (s6_prefix_len s) 0); simpl; [split; [lia|naive_solver congruence]|].
  destruct (Z.ltb_spec 128 (s6_prefix_len s)); simpl;
    (split; [lia|]); naive_solver lia.
Qed.

Lemma validate_loop_errors ss : forall i,
  0 <= (validate_loop i ss).1
  /\ ((validate_loop i ss).1 = 0
      <-> Forall (fun s => s.(s6_has_prefix_bin) = true
                          /\ s.(s6_prefix_len) <> 0 /\ s.(s6_prefix_len) <= 128) ss).
Proof.
  induction ss as [|s ss IH]; intros i; simpl; [by split; [lia|split; [constructor|]]|].
  pose proof (validate_subnet_errors i s) as [H1 H2]. destruct (IH (S i)) as [H3 H4].
  destruct (validate_subnet i s) as [e ms], (validate_loop (S i) ss) as [e' ms'].
  simpl in *. rewrite Forall_cons, <- H2, <- H4. lia.
Qed.

(** The subnets of a configuration as the loader leaves them. *)
Definition subnet6_ok (s : dhcpv6_subnet_t) : Prop :=
  is_in6 s.(s6_prefix_bin) /\ 0 <= s.(s6_prefix_len).

(** [ip] is in the subnet, by the numbers. *)
Definition in_subnet6 (ip : in6_addr) (s : dhcpv6_subnet_t) : Prop :=
  be_val ip / 2 ^ (128 - s.(s6_prefix_len)) = be_val s.(s6_prefix_bin) / 2 ^ (128 - s.(s6_prefix_len)).


Lemma subnet_matches_value ip s :
  is_in6 ip -> subnet6_ok s -> s.(s6_has_prefix_bin) = true -> s.(s6_prefix_len) <= 128 ->
  subnet_matches ip s = true <-> in_subnet6 ip s.
Proof.
  intros Hip [Hs Hl] Hp Hle. unfold subnet_matches, in_subnet6.
  rewrite Hp, in_subnet_value by done. cbn [andb].
  rewrite (proj2 (Z.leb_le _ _) Hle). apply Z.eqb_eq.
Qed.

Lemma nonempty_true s : nonempty s = true <-> s <> [].
Proof. unfold nonempty. rewrite negb_true_iff. apply bool_decide_eq_false. Qed.

Section conversion_facts.
Variable inet_pton6 : cstr -> option in6_addr.

(** A pair of addresses is usable exactly when both texts are there and convert, and
    then holds what they convert to. *)
Definition range_converted (start stop : cstr) (a b : in6_addr) (has : bool) : Prop :=
  if has then start <> [] /\ stop <> [] /\ inet_pton6 start = Some a /\ inet_pton6 stop = Some b
  else start = [] \/ stop = [] \/ inet_pton6 start = None \/ inet_pton6 stop = None.

Lemma convert_range_converted s :
  let s' := convert_range_block inet_pton6 s in
  range_converted s.(s6_pool_start) s.(s6_pool_end) s'.(s6_pool_start_bin)
    s'.(s6_pool_end_bin) s'.(s6_has_pool_range).
Proof.
  unfold convert_range_block, ipv6_str_to_bin, range_converted. cbv zeta.
  destruct (nonempty (s6_pool_start s)) eqn:E1; cycle 1.
  { simpl. left. destruct (s6_pool_start s); done. }
  destruct (nonempty (s6_pool_end s)) eqn:E2; cycle 1.
  { simpl. right; left. destruct (s6_pool_end s); done. }
  apply nonempty_true in E1, E2. cbn [andb].
  destruct (inet_pton6 (s6_pool_start s)) eqn:A; simpl; [|auto].
  destruct (inet_pton6 (s6_pool_end s)) eqn:B; simpl; auto.
Qed.

Lemma convert_pd_converted s :
  let s' := convert_pd_block inet_pton6 s in
  if s.(s6_pd_enabled)
  then range_converted s.(s6_pd_pool_start) s.(s6_pd_pool_end) s'.(s6_pd_pool_start_bin)
         s'.(s6_pd_pool_end_bin) s'.(s6_has_pd_pool)
  else s'.(s6_has_pd_pool) = false.
Proof.
  unfold convert_pd_block, ipv6_str_to_bin, range_converted. cbv zeta.
  destruct (s6_pd_enabled s); [|done]. cbn [negb].
  destruct (nonempty (s6_pd_pool_start s)) eqn:E1; cycle 1.
  { simpl. left. destruct (s6_pd_pool_start s); done. }
  destruct (nonempty (s6_pd_pool_end s)) eqn:E2; cycle 1.
  { simpl. right; left. destruct (s6_pd_pool_end s); done. }
  apply nonempty_true in E1, E2. cbn [andb].
  destruct (inet_pton6 (s6_pd_pool_start s)) eqn:A; simpl; [|auto].
  destruct (inet_pton6 (s6_pd_pool_end s)) eqn:B; simpl; auto.
Qed.

Lemma convert_prefix_converted s :
  let s' := convert_subnet_prefix inet_pton6 s in
  s'.(s6_has_prefix_bin) = true
  <-> s.(s6_prefix) <> [] /\ inet_pton6 s.(s6_prefix) = Some s'.(s6_prefix_bin).
Proof.
  unfold convert_subnet_prefix, ipv6_str_to_bin. cbv zeta.
  destruct (nonempty (s6_prefix s)) eqn:E; cycle 1.
  { split; [done|]. intros [H _]. by destruct (s6_prefix s). }
  apply nonempty_true in E. destruct (inet_pton6 (s6_prefix s)) eqn:A; simpl; naive_solver.
Qed.

(** Each block of the conversion leaves the fields of the others alone. *)
Lemma convert_range_frame s :
  let s' := convert_range_block inet_pton6 s in
  s6_prefix s' = s6_prefix s /\ s6_prefix_bin s' = s6_prefix_bin s
  /\ s6_has_prefix_bin s' = s6_has_prefix_bin s /\ s6_prefix_len s' = s6_prefix_len s
  /\ s6_pd_enabled s' = s6_pd_enabled s
  /\ s6_pd_pool_start s' = s6_pd_pool_start s /\ s6_pd_pool_end s' = s6_pd_pool_end s.
Proof.
  unfold convert_range_block. destruct (nonempty _ && nonempty _); [|done].
  destruct (ipv6_str_to_bin _ _ _) as [[] ?]; [|done].
  by destruct (ipv6_str_to_bin _ _ _) as [? ?].
Qed.

Lemma convert_pd_frame s :
  let s' := convert_pd_block inet_pton6 s in
  s6_prefix s' = s6_prefix s /\ s6_prefix_bin s' = s6_prefix_bin s
  /\ s6_has_prefix_bin s' = s6_has_prefix_bin s /\ s6_prefix_len s' = s6_prefix_len s
  /\ s6_pool_start_bin s' = s6_pool_start_bin s /\ s6_pool_end_bin s' = s6_pool_end_bin s
  /\ s6_has_pool_range s' = s6_has_pool_range s.
Proof.
  unfold convert_pd_block. destruct (negb _); [done|]. destruct (nonempty _ && nonempty _); [|done].
  destruct (ipv6_str_to_bin _ _ _) as [[] ?]; [|done].
  by destruct (ipv6_str_to_bin _ _ _) as [? ?].
Qed.

Lemma convert_prefix_frame s :
  let s' := convert_subnet_prefix inet_pton6 s in
  s6_pool_start s' = s6_pool_start s /\ s6_pool_end s' = s6_pool_end s
  /\ s6_pd_enabled s' = s6_pd_enabled s /\ s6_prefix_len s' = s6_prefix_len s
  /\ s6_pd_pool_start s' = s6_pd_pool_start s /\ s6_pd_pool_end s' = s6_pd_pool_end s.
Proof.
  unfold convert_subnet_prefix. destruct (nonempty _); [|done].
  by destruct (ipv6_str_to_bin _ _ _) as [? ?].
Qed.
End conversion_facts.

(** ** Theorems *)

(** [convert_all_to_binary] makes a subnet usable exactly as far as its text
    allows: the prefix is marked present exactly when its text is there and
    [inet_pton] accepts it, and then holds the converted address; a pool range (and,
    with delegation enabled, a delegation range) is marked present exactly when both
    its ends are there and accepted, and then holds them. *)
Lemma convert_all_to_binary_spec inet_pton6 cfg i s s' :
  cfg.(c6_subnets) !! i = Some s ->
  (convert_all_to_binary inet_pton6 cfg).(c6_subnets) !! i = Some s' ->
  (s'.(s6_has_prefix_bin) = true
   <-> s.(s6_prefix) <> [] /\ inet_pton6 s.(s6_prefix) = Some s'.(s6_prefix_bin))
  /\ range_converted inet_pton6 s.(s6_pool_start) s.(s6_pool_end) s'.(s6_pool_start_bin)
       s'.(s6_pool_end_bin) s'.(s6_has_pool_range)
  /\ (if s.(s6_pd_enabled)
      then range_converted inet_pton6 s.(s6_pd_pool_start) s.(s6_pd_pool_end)
             s'.(s6_pd_pool_start_bin) s'.(s6_pd_pool_end_bin) s'.(s6_has_pd_pool)
      else s'.(s6_has_pd_pool) = false)
  /\ s'.(s6_hosts) = convert_host_block inet_pton6 <$> s.(s6_hosts).
Proof.
  intros Hs. simpl. rewrite list_lookup_fmap, Hs. simpl. intros [= <-].
  unfold convert_subnet. cbv zeta. set (s1 := convert_subnet_prefix inet_pton6 s).
  set (s2 := convert_range_block inet_pton6 s1). set (s3 := convert_pd_block inet_pton6 s2).
  destruct (convert_prefix_frame inet_pton6 s) as (P1 & P2 & P3 & _ & P5 & P6).
  destruct (convert_range_frame inet_pton6 s1) as (R1 & R2 & R3 & R4 & R5 & R6 & R7).
  destruct (convert_pd_frame inet_pton6 s2) as (D1 & D2 & D3 & D4 & D5 & D6 & D7).
  fold s1 in P1, P2, P3, P5, P6. fold s2 in R1, R2, R3, R4, R5, R6, R7.
  fold s3 in D1, D2, D3, D4, D5, D6, D7. cbn [set_s6_hosts s6_has_prefix_bin s6_prefix_bin
    s6_pool_start_bin s6_pool_end_bin s6_has_pool_range s6_pd_pool_start_bin
    s6_pd_pool_end_bin s6_has_pd_pool s6_hosts].
  split_and!.
  - rewrite D3, R3, D2, R2. apply convert_prefix_converted.
  - rewrite D5, D6, D7, <- P1, <- P2. apply (convert_range_converted inet_pton6 s1).
  - pose proof (convert_pd_converted inet_pton6 s2) as H. cbv zeta in H. fold s3 in H.
    rewrite R5, R6, R7, P3, P5, P6 in H. exact H.
  - f_equal. unfold s3, s2, s1, convert_pd_block, convert_range_block, convert_subnet_prefix.
    repeat case_match; done.
Qed.

(** 2001:db8::/32. *)
Definition sample_subnet6 : dhcpv6_subnet_t :=
  mk_subnet6 [50] 32 [32; 1; 13; 184; 0; 0; 0; 0; 0; 0; 0; 0; 0; 0; 0; 0] true [] [] [] []
    false [] [] [] false 0 false 0 false [] false [] false 0 0 [] false [] [] 0 [] [] false
    false false 0 false.

Lemma convert_all_to_binary_spec_witness :
  s6_has_pd_pool (convert_subnet (fun _ => None) sample_subnet6) = false
  /\ s6_has_prefix_bin (convert_subnet (fun _ => Some [1]) sample_subnet6) = true.
Proof.
  split.
  - apply (convert_all_to_binary_spec (fun _ => None)
      (mk_config6 (mk_global6 0 0 [] [] [] false 0 false 0 false [] false [] false false 0 false)
         [sample_subnet6]) 0 sample_subnet6); reflexivity.
  - apply (convert_all_to_binary_spec (fun _ => Some [1])
      (mk_config6 (mk_global6 0 0 [] [] [] false 0 false 0 false [] false [] false false 0 false)
         [sample_subnet6]) 0 sample_subnet6); [reflexivity..|]. split; [|reflexivity].
    discriminate.
Defined.

(** [validate_config_v6] returns 0 exactly for the configurations with at least
    one subnet in which every subnet has a converted prefix of length 1 to 128; for
    those, [find_subnet_for_ipv6] returns the first subnet whose leading bits are those
    of the address, and NULL only when there is none. *)
Lemma validated_config_lookup cfg ip :
  is_in6 ip -> Forall subnet6_ok cfg.(c6_subnets) ->
  ((validate_config_v6 cfg).1 = 0
   <-> cfg.(c6_subnets) <> []
       /\ Forall (fun s => s.(s6_has_prefix_bin) = true
                           /\ s.(s6_prefix_len) <> 0 /\ s.(s6_prefix_len) <= 128) cfg.(c6_subnets))
  /\ ((validate_config_v6 cfg).1 = 0 ->
      match find_subnet_for_ipv6 cfg ip with
      | Some i => (exists s, cfg.(c6_subnets) !! i = Some s /\ in_subnet6 ip s)
                  /\ forall j s, (j < i)%nat -> cfg.(c6_subnets) !! j = Some s -> ~ in_subnet6 ip s
      | None => forall s, s ∈ cfg.(c6_subnets) -> ~ in_subnet6 ip s
      end).
Proof.
  intros Hip Hok.
  assert ((validate_config_v6 cfg).1 = 0
   <-> cfg.(c6_subnets) <> []
       /\ Forall (fun s => s.(s6_has_prefix_bin) = true
                 /\ s.(s6_prefix_len) <> 0 /\ s.(s6_prefix_len) <= 128) cfg.(c6_subnets)) as Hv.
  { unfold validate_config_v6. destruct (validate_loop_errors (c6_subnets cfg) 0) as [H1 H2].
    destruct (validate_loop 0 (c6_subnets cfg)) as [e ms]. rewrite <- H2. simpl in H1 |- *.
    destruct (c6_subnets cfg); simpl; naive_solver lia. }
  split; [exact Hv|]. intros [_ Hall]%Hv. rewrite Forall_forall in Hall, Hok.
  assert (forall s, s ∈ c6_subnets cfg -> subnet_matches ip s = true <-> in_subnet6 ip s) as Hm.
  { intros s Hs. destruct (Hall s Hs) as (? & ? & ?). by apply subnet_matches_value; auto. }
  unfold find_subnet_for_ipv6. destruct (find_index (subnet_matches ip) (c6_subnets cfg)) as [i|] eqn:E.
  - apply find_index_Some in E as (s & Hs & Hp & Hlt). split.
    + exists s. split; [done|]. apply Hm; [by eapply list_elem_of_lookup_2|done].
    + intros j t Hj Ht. rewrite <- Hm by (by eapply list_elem_of_lookup_2).
      rewrite (Hlt j t) by done. done.
  - intros s Hs. rewrite <- Hm by done. rewrite find_index_None in E. rewrite (E s Hs). done.
Qed.

Lemma validated_config_lookup_witness :
  let cfg := mk_config6 (mk_global6 0 0 [] [] [] false 0 false 0 false [] false [] false false 0 false)
    [sample_subnet6] in
  (validate_config_v6 cfg).1 = 0
  /\ find_subnet_for_ipv6 cfg [32; 1; 13; 184; 9; 9; 9; 9; 9; 9; 9; 9; 9; 9; 9; 9] = Some 0%nat.
Proof.
  cbv zeta. split; [|vm_compute; reflexivity].
  apply (validated_config_lookup _ [32; 1; 13; 184; 9; 9; 9; 9; 9; 9; 9; 9; 9; 9; 9; 9]).
  - apply is_in6_bytes; reflexivity.
  - constructor; [|constructor]. split; [apply is_in6_bytes; reflexivity|simpl; lia].
  - split; [discriminate|]. constructor; [|constructor]. vm_compute. split_and!; congruence.
Defined.
