(* ===== verification/ProtocolV6.v ===== *)
(** * DHCPv6 messages

    [DHCPv6/sources/protocol_v6.c] with the constants and records of [protocol_v6.h]: the
    walk over the options of a message, the extraction of what a request says, and the
    writing of options into a buffer.

    A packet is the list of its bytes.  Reads and writes go through [read_bytes] and
    [write_bytes], so that one outside the buffer is the result [Fault OutOfBounds].  A
    pointer into the packet together with a length ([client_duid], [client_duid_len]) is
    the bytes it points to, [None] when it is null.  [ntohs] and [ntohl] of what [memcpy]
    reads are the big-endian values, [htons] and [htonl] the big-endian bytes.
    A call [f(buf + at, buf_len, ...)] is [f] on the whole buffer with the offset. *)

From S2P Require Import Prelude UtilsV6 LeasesV6.

(** ** Constants *)

Definition MSG_SOLICIT : Z := 1.
Definition MSG_ADVERTISE : Z := 2.
Definition MSG_REQUEST : Z := 3.
Definition MSG_RENEW : Z := 5.
Definition MSG_REBIND : Z := 6.
Definition MSG_REPLY : Z := 7.
Definition MSG_RELEASE : Z := 8.
Definition MSG_DECLINE : Z := 9.

Definition OPT_CLIENTID : Z := 1.
Definition OPT_SERVERID : Z := 2.
Definition OPT_IA_NA : Z := 3.
Definition OPT_IAADDR : Z := 5.
Definition OPT_STATUS_CODE : Z := 13.
Definition OPT_DNS_SERVERS : Z := 23.
Definition OPT_DNS_SEARCH_LIST : Z := 24.
Definition OPT_IA_PD : Z := 25.
Definition OPT_IAPREFIX : Z := 26.
Definition OPT_SNTP_SERVERS : Z := 31.
Definition OPT_INFO_REFRESH_TIME : Z := 32.

Definition STATUS_SUCCESS : Z := 0.
Definition STATUS_NOADDRSAVAIL : Z := 2.

(** ** The record *)

Record dhcpv6_packet_meta_t := mk_meta6 {
  m_msg_type : Z;
  m_transaction_id : Z;
  m_client_duid : option (list Z);
  m_server_duid : option (list Z);
  m_has_ia_na : bool;
  m_iaid : Z;
  m_has_requested_ip : bool;
  m_requested_ip : in6_addr;
  m_has_ia_pd : bool;
  m_iaid_pd : Z;
  m_has_requested_prefix : bool;
  m_requested_prefix : in6_addr;
  m_requested_plen : Z;
  m_dns_servers : list in6_addr;
  m_sntp_servers : list in6_addr;
  m_domain_search : option (list Z);
  m_info_refresh_time : Z;
  m_has_info_refresh_time : bool
}.

Definition set_m_client_duid (v : option (list Z)) (r : dhcpv6_packet_meta_t) : dhcpv6_packet_meta_t :=
  mk_meta6 r.(m_msg_type) r.(m_transaction_id) v r.(m_server_duid) r.(m_has_ia_na)
    r.(m_iaid) r.(m_has_requested_ip) r.(m_requested_ip) r.(m_has_ia_pd) r.(m_iaid_pd)
    r.(m_has_requested_prefix) r.(m_requested_prefix) r.(m_requested_plen)
    r.(m_dns_servers) r.(m_sntp_servers) r.(m_domain_search) r.(m_info_refresh_time)
    r.(m_has_info_refresh_time).

Definition set_m_server_duid (v : option (list Z)) (r : dhcpv6_packet_meta_t) : dhcpv6_packet_meta_t :=
  mk_meta6 r.(m_msg_type) r.(m_transaction_id) r.(m_client_duid) v r.(m_has_ia_na)
    r.(m_iaid) r.(m_has_requested_ip) r.(m_requested_ip) r.(m_has_ia_pd) r.(m_iaid_pd)
    r.(m_has_requested_prefix) r.(m_requested_prefix) r.(m_requested_plen)
    r.(m_dns_servers) r.(m_sntp_servers) r.(m_domain_search) r.(m_info_refresh_time)
    r.(m_has_info_refresh_time).

Definition set_m_has_ia_na (v : bool) (r : dhcpv6_packet_meta_t) : dhcpv6_packet_meta_t :=
  mk_meta6 r.(m_msg_type) r.(m_transaction_id) r.(m_client_duid) r.(m_server_duid) v
    r.(m_iaid) r.(m_has_requested_ip) r.(m_requested_ip) r.(m_has_ia_pd) r.(m_iaid_pd)
    r.(m_has_requested_prefix) r.(m_requested_prefix) r.(m_requested_plen)
    r.(m_dns_servers) r.(m_sntp_servers) r.(m_domain_search) r.(m_info_refresh_time)
    r.(m_has_info_refresh_time).

Definition set_m_iaid (v : Z) (r : dhcpv6_packet_meta_t) : dhcpv6_packet_meta_t :=
  mk_meta6 r.(m_msg_type) r.(m_transaction_id) r.(m_client_duid) r.(m_server_duid)
    r.(m_has_ia_na) v r.(m_has_requested_ip) r.(m_requested_ip) r.(m_has_ia_pd)
    r.(m_iaid_pd) r.(m_has_requested_prefix) r.(m_requested_prefix)
    r.(m_requested_plen) r.(m_dns_servers) r.(m_sntp_servers) r.(m_domain_search)
    r.(m_info_refresh_time) r.(m_has_info_refresh_time).

Definition set_m_has_requested_ip (v : bool) (r : dhcpv6_packet_meta_t) : dhcpv6_packet_meta_t :=
  mk_meta6 r.(m_msg_type) r.(m_transaction_id) r.(m_client_duid) r.(m_server_duid)
    r.(m_has_ia_na) r.(m_iaid) v r.(m_requested_ip) r.(m_has_ia_pd) r.(m_iaid_pd)
    r.(m_has_requested_prefix) r.(m_requested_prefix) r.(m_requested_plen)
    r.(m_dns_servers) r.(m_sntp_servers) r.(m_domain_search) r.(m_info_refresh_time)
    r.(m_has_info_refresh_time).

Definition set_m_requested_ip (v : in6_addr) (r : dhcpv6_packet_meta_t) : dhcpv6_packet_meta_t :=
  mk_meta6 r.(m_msg_type) r.(m_transaction_id) r.(m_client_duid) r.(m_server_duid)
    r.(m_has_ia_na) r.(m_iaid) r.(m_has_requested_ip) v r.(m_has_ia_pd) r.(m_iaid_pd)
    r.(m_has_requested_prefix) r.(m_requested_prefix) r.(m_requested_plen)
    r.(m_dns_servers) r.(m_sntp_servers) r.(m_domain_search) r.(m_info_refresh_time)
    r.(m_has_info_refresh_time).

Definition set_m_has_ia_pd (v : bool) (r : dhcpv6_packet_meta_t) : dhcpv6_packet_meta_t :=
  mk_meta6 r.(m_msg_type) r.(m_transaction_id) r.(m_client_duid) r.(m_server_duid)
    r.(m_has_ia_na) r.(m_iaid) r.(m_has_requested_ip) r.(m_requested_ip) v
    r.(m_iaid_pd) r.(m_has_requested_prefix) r.(m_requested_prefix)
    r.(m_requested_plen) r.(m_dns_servers) r.(m_sntp_servers) r.(m_domain_search)
    r.(m_info_refresh_time) r.(m_has_info_refresh_time).

Definition set_m_iaid_pd (v : Z) (r : dhcpv6_packet_meta_t) : dhcpv6_packet_meta_t :=
  mk_meta6 r.(m_msg_type) r.(m_transaction_id) r.(m_client_duid) r.(m_server_duid)
    r.(m_has_ia_na) r.(m_iaid) r.(m_has_requested_ip) r.(m_requested_ip)
    r.(m_has_ia_pd) v r.(m_has_requested_prefix) r.(m_requested_prefix)
    r.(m_requested_plen) r.(m_dns_servers) r.(m_sntp_servers) r.(m_domain_search)
    r.(m_info_refresh_time) r.(m_has_info_refresh_time).

Definition set_m_has_requested_prefix (v : bool) (r : dhcpv6_packet_meta_t) : dhcpv6_packet_meta_t :=
  mk_meta6 r.(m_msg_type) r.(m_transaction_id) r.(m_client_duid) r.(m_server_duid)
    r.(m_has_ia_na) r.(m_iaid) r.(m_has_requested_ip) r.(m_requested_ip)
    r.(m_has_ia_pd) r.(m_iaid_pd) v r.(m_requested_prefix) r.(m_requested_plen)
    r.(m_dns_servers) r.(m_sntp_servers) r.(m_domain_search) r.(m_info_refresh_time)
    r.(m_has_info_refresh_time).

Definition set_m_requested_prefix (v : in6_addr) (r : dhcpv6_packet_meta_t) : dhcpv6_packet_meta_t :=
  mk_meta6 r.(m_msg_type) r.(m_transaction_id) r.(m_client_duid) r.(m_server_duid)
    r.(m_has_ia_na) r.(m_iaid) r.(m_has_requested_ip) r.(m_requested_ip)
    r.(m_has_ia_pd) r.(m_iaid_pd) r.(m_has_requested_prefix) v r.(m_requested_plen)
    r.(m_dns_servers) r.(m_sntp_servers) r.(m_domain_search) r.(m_info_refresh_time)
    r.(m_has_info_refresh_time).

Definition set_m_requested_plen (v : Z) (r : dhcpv6_packet_meta_t) : dhcpv6_packet_meta_t :=
  mk_meta6 r.(m_msg_type) r.(m_transaction_id) r.(m_client_duid) r.(m_server_duid)
    r.(m_has_ia_na) r.(m_iaid) r.(m_has_requested_ip) r.(m_requested_ip)
    r.(m_has_ia_pd) r.(m_iaid_pd) r.(m_has_requested_prefix) r.(m_requested_prefix) v
    r.(m_dns_servers) r.(m_sntp_servers) r.(m_domain_search) r.(m_info_refresh_time)
    r.(m_has_info_refresh_time).

Definition set_m_dns_servers (v : list in6_addr) (r : dhcpv6_packet_meta_t) : dhcpv6_packet_meta_t :=
  mk_meta6 r.(m_msg_type) r.(m_transaction_id) r.(m_client_duid) r.(m_server_duid)
    r.(m_has_ia_na) r.(m_iaid) r.(m_has_requested_ip) r.(m_requested_ip)
    r.(m_has_ia_pd) r.(m_iaid_pd) r.(m_has_requested_prefix) r.(m_requested_prefix)
    r.(m_requested_plen) v r.(m_sntp_servers) r.(m_domain_search)
    r.(m_info_refresh_time) r.(m_has_info_refresh_time).

Definition set_m_sntp_servers (v : list in6_addr) (r : dhcpv6_packet_meta_t) : dhcpv6_packet_meta_t :=
  mk_meta6 r.(m_msg_type) r.(m_transaction_id) r.(m_client_duid) r.(m_server_duid)
    r.(m_has_ia_na) r.(m_iaid) r.(m_has_requested_ip) r.(m_requested_ip)
    r.(m_has_ia_pd) r.(m_iaid_pd) r.(m_has_requested_prefix) r.(m_requested_prefix)
    r.(m_requested_plen) r.(m_dns_servers) v r.(m_domain_search)
    r.(m_info_refresh_time) r.(m_has_info_refresh_time).

Definition set_m_domain_search (v : option (list Z)) (r : dhcpv6_packet_meta_t) : dhcpv6_packet_meta_t :=
  mk_meta6 r.(m_msg_type) r.(m_transaction_id) r.(m_client_duid) r.(m_server_duid)
    r.(m_has_ia_na) r.(m_iaid) r.(m_has_requested_ip) r.(m_requested_ip)
    r.(m_has_ia_pd) r.(m_iaid_pd) r.(m_has_requested_prefix) r.(m_requested_prefix)
    r.(m_requested_plen) r.(m_dns_servers) r.(m_sntp_servers) v
    r.(m_info_refresh_time) r.(m_has_info_refresh_time).

Definition set_m_info_refresh_time (v : Z) (r : dhcpv6_packet_meta_t) : dhcpv6_packet_meta_t :=
  mk_meta6 r.(m_msg_type) r.(m_transaction_id) r.(m_client_duid) r.(m_server_duid)
    r.(m_has_ia_na) r.(m_iaid) r.(m_has_requested_ip) r.(m_requested_ip)
    r.(m_has_ia_pd) r.(m_iaid_pd) r.(m_has_requested_prefix) r.(m_requested_prefix)
    r.(m_requested_plen) r.(m_dns_servers) r.(m_sntp_servers) r.(m_domain_search) v
    r.(m_has_info_refresh_time).

Definition set_m_has_info_refresh_time (v : bool) (r : dhcpv6_packet_meta_t) : dhcpv6_packet_meta_t :=
  mk_meta6 r.(m_msg_type) r.(m_transaction_id) r.(m_client_duid) r.(m_server_duid)
    r.(m_has_ia_na) r.(m_iaid) r.(m_has_requested_ip) r.(m_requested_ip)
    r.(m_has_ia_pd) r.(m_iaid_pd) r.(m_has_requested_prefix) r.(m_requested_prefix)
    r.(m_requested_plen) r.(m_dns_servers) r.(m_sntp_servers) r.(m_domain_search)
    r.(m_info_refresh_time) v.

(** ** Reading *)

(** The 16-bit and 32-bit fields at [off], in network byte order. *)
Definition u16_at (off : nat) (buf : list Z) : outcome Z :=
  bs ← read_bytes off 2 buf; Ret (be_val bs).

Definition get_u32 (off : nat) (buf : list Z) : outcome Z :=
  bs ← read_bytes off 4 buf; Ret (be_val bs).

(** [sizeof(dhcpv6_option_t)] and [sizeof(dhcpv6_header_t)]. *)
Definition OPT_HDR : nat := 4.
Definition MSG_HDR : nat := 4.

(** [dhcpv6_next_option]: the offset of the option after the one at [last], or of the
    first one; [options_len] is the length of [options]. *)
Definition dhcpv6_next_option (options : list Z) (last : option nat) : outcome (option nat) :=
  let options_len := length options in
  if bool_decide (options_len < OPT_HDR)%nat then Ret None
  else
    match last with
    | None =>
        len ← u16_at 2 options;
        if bool_decide (options_len < OPT_HDR + Z.to_nat len)%nat then Ret None else Ret (Some 0%nat)
    | Some off =>
        if bool_decide (options_len <= off)%nat then Ret None
        else
          last_len ← u16_at (off + 2) options;
          let next_off := (off + OPT_HDR + Z.to_nat last_len)%nat in
          if bool_decide (options_len < next_off + OPT_HDR)%nat then Ret None
          else
            len ← u16_at (next_off + 2) options;
            if bool_decide (options_len < next_off + OPT_HDR + Z.to_nat len)%nat then Ret None
            else Ret (Some next_off)
    end.

(** The loop over the options inside an IA_NA; [val] is the offset of its value. *)
Fixpoint ia_na_loop (fuel : nat) (buf : list Z) (val inner_off opt_len : nat)
    (m : dhcpv6_packet_meta_t) : outcome dhcpv6_packet_meta_t :=
  match fuel with
  | O => Fault OutOfFuel
  | S fuel =>
      if bool_decide (inner_off + OPT_HDR <= opt_len)%nat then
        scode ← u16_at (val + inner_off) buf;
        slen ← u16_at (val + inner_off + 2) buf;
        let stot := (OPT_HDR + Z.to_nat slen)%nat in
        if bool_decide (opt_len < inner_off + stot)%nat then Ret m
        else
          m ← (if (scode =? OPT_IAADDR) && (16 <=? slen) then
                 ip ← read_bytes (val + inner_off + OPT_HDR) 16 buf;
                 Ret (set_m_has_requested_ip true (set_m_requested_ip ip m))
               else Ret m);
          ia_na_loop fuel buf val (inner_off + stot) opt_len m
      else Ret m
  end.

(** The loop over the options inside an IA_PD; [sub] is the offset of the next one. *)
Fixpoint ia_pd_loop (fuel : nat) (buf : list Z) (sub sub_len : nat)
    (m : dhcpv6_packet_meta_t) : outcome dhcpv6_packet_meta_t :=
  match fuel with
  | O => Fault OutOfFuel
  | S fuel =>
      if bool_decide (OPT_HDR <= sub_len)%nat then
        scode ← u16_at sub buf;
        slen ← u16_at (sub + 2) buf;
        let sval := (sub + OPT_HDR)%nat in
        if bool_decide (sub_len < OPT_HDR + Z.to_nat slen)%nat then Ret m
        else
          m ← (if (scode =? OPT_IAPREFIX) && (25 <=? slen) then
                 plen ← read_bytes (sval + 8) 1 buf;
                 pfx ← read_bytes (sval + 9) 16 buf;
                 Ret (set_m_requested_prefix pfx (set_m_requested_plen (be_val plen)
                        (set_m_has_requested_prefix true m)))
               else Ret m);
          let adv := (OPT_HDR + Z.to_nat slen)%nat in
          ia_pd_loop fuel buf (sub + adv) (sub_len - adv) m
      else Ret m
  end.

(** The [count] addresses copied from [val] on. *)
Fixpoint addr_loop (count : nat) (val : nat) (buf : list Z) : outcome (list in6_addr) :=
  match count with
  | O => Ret []
  | S count =>
      a ← read_bytes val 16 buf;
      rest ← addr_loop count (val + 16) buf;
      Ret (a :: rest)
  end.

(** The number of servers taken from an option, at most the four of the array. *)
Definition server_count (opt_len : nat) : nat := Nat.min (opt_len / 16) 4.

(** The [switch] of [dhcpv6_parse]; [val] is the offset of the option's value. *)
Definition parse_option (fuel : nat) (buf : list Z) (code : Z) (val opt_len : nat)
    (m : dhcpv6_packet_meta_t) : outcome dhcpv6_packet_meta_t :=
  if code =? OPT_CLIENTID then
    d ← read_bytes val opt_len buf; Ret (set_m_client_duid (Some d) m)
  else if code =? OPT_SERVERID then
    d ← read_bytes val opt_len buf; Ret (set_m_server_duid (Some d) m)
  else if code =? OPT_IA_NA then
    if bool_decide (12 <= opt_len)%nat then
      iaid ← get_u32 val buf;
      ia_na_loop fuel buf val 12 opt_len (set_m_has_ia_na true (set_m_iaid iaid m))
    else Ret m
  else if code =? OPT_IA_PD then
    if bool_decide (12 <= opt_len)%nat then
      iaid ← get_u32 val buf;
      ia_pd_loop fuel buf (val + 12) (opt_len - 12)
        (set_m_iaid_pd iaid (set_m_has_ia_pd true m))
    else Ret m
  else if code =? OPT_DNS_SERVERS then
    if bool_decide (0 < opt_len)%nat && bool_decide (opt_len mod 16 = 0)%nat then
      l ← addr_loop (server_count opt_len) val buf; Ret (set_m_dns_servers l m)
    else Ret m
  else if code =? OPT_DNS_SEARCH_LIST then
    if bool_decide (0 < opt_len)%nat then
      d ← read_bytes val opt_len buf; Ret (set_m_domain_search (Some d) m)
    else Ret m
  else if code =? OPT_SNTP_SERVERS then
    if bool_decide (0 < opt_len)%nat && bool_decide (opt_len mod 16 = 0)%nat then
      l ← addr_loop (server_count opt_len) val buf; Ret (set_m_sntp_servers l m)
    else Ret m
  else if code =? OPT_INFO_REFRESH_TIME then
    if bool_decide (4 <= opt_len)%nat then
      t ← get_u32 val buf;
      Ret (set_m_has_info_refresh_time true (set_m_info_refresh_time t m))
    else Ret m
  else Ret m.

Fixpoint parse_loop (fuel : nat) (buf : list Z) (offset : nat) (m : dhcpv6_packet_meta_t)
    : outcome dhcpv6_packet_meta_t :=
  match fuel with
  | O => Fault OutOfFuel
  | S fuel' =>
      if bool_decide (offset + OPT_HDR <= length buf)%nat then
        code ← u16_at offset buf;
        opt_len ← u16_at (offset + 2) buf;
        let opt_tot := (OPT_HDR + Z.to_nat opt_len)%nat in
        if bool_decide (length buf < offset + opt_tot)%nat then Ret m
        else
          m ← parse_option (S (length buf)) buf code (offset + OPT_HDR) (Z.to_nat opt_len) m;
          parse_loop fuel' buf (offset + opt_tot) m
      else Ret m
  end.

(** [dhcpv6_get_xid] of the three bytes, [dhcpv6_set_xid] into them. *)
Definition dhcpv6_get_xid (hi mid lo : Z) : Z :=
  Z.lor (Z.lor (Z.shiftl hi 16) (Z.shiftl mid 8)) lo.

Definition dhcpv6_set_xid (xid : Z) : list Z :=
  let xid := Z.land xid 0x00FFFFFF in
  [Z.land (Z.shiftr xid 16) 0xFF; Z.land (Z.shiftr xid 8) 0xFF; Z.land xid 0xFF].

(** The record after [memset] and the header. *)
Definition meta_of_header (msg_type xid : Z) : dhcpv6_packet_meta_t :=
  mk_meta6 msg_type xid None None false 0 false zero_addr6 false 0 false zero_addr6 0 [] []
    None 0 false.

(** [dhcpv6_parse]: [None] when it returns -1. *)
Definition dhcpv6_parse (buf : list Z) : outcome (option dhcpv6_packet_meta_t) :=
  if bool_decide (length buf < MSG_HDR)%nat then Ret None
  else
    h ← read_bytes 0 4 buf;
    match h with
    | [t; hi; mid; lo] =>
        m ← parse_loop (S (length buf)) buf MSG_HDR (meta_of_header t (dhcpv6_get_xid hi mid lo));
        Ret (Some m)
    | _ => Fault OutOfBounds
    end.

(** ** Writing *)

(** [htons] and [htonl] followed by [memcpy]. *)
Definition be16 (x : Z) : list Z := [x / 256 mod 256; x mod 256].
Definition be32 (x : Z) : list Z :=
  [x / 16777216 mod 256; x / 65536 mod 256; x / 256 mod 256; x mod 256].

(** [dhcpv6_append_option(buf, buf_len, offset, code, data, len)] with [len] bytes of
    data: the return value, the buffer and the new offset. *)
Definition dhcpv6_append_option (buf : list Z) (buf_len offset : nat) (code : Z)
    (data : list Z) : outcome (Z * list Z * nat) :=
  let len := length data in
  if bool_decide (buf_len < offset + OPT_HDR + len)%nat then Ret (-1, buf, offset)
  else
    buf ← write_bytes offset (be16 code) buf;
    buf ← write_bytes (offset + 2) (be16 (Z.of_nat len)) buf;
    buf ← write_bytes (offset + OPT_HDR) data buf;
    let offset := (offset + OPT_HDR + len)%nat in
    Ret (Z.of_nat offset, buf, offset).

(** [dhcpv6_append_status(buf + at, buf_len, status_code, message)]. *)
Definition dhcpv6_append_status (buf : list Z) (at_ buf_len : nat) (status_code : Z)
    (message : list Z) : outcome (Z * list Z) :=
  if bool_decide (buf_len < OPT_HDR + 2)%nat then Ret (-1, buf)
  else
    let max_msg := (buf_len - (OPT_HDR + 2))%nat in
    let msg_len := Nat.min (length message) max_msg in
    let opt_len := u16 (2 + Z.of_nat msg_len) in
    let total := (OPT_HDR + Z.to_nat opt_len)%nat in
    if bool_decide (buf_len < total)%nat then Ret (-1, buf)
    else
      buf ← write_bytes at_ (be16 OPT_STATUS_CODE) buf;
      buf ← write_bytes (at_ + 2) (be16 opt_len) buf;
      buf ← write_bytes (at_ + OPT_HDR) (be16 status_code) buf;
      buf ← write_bytes (at_ + OPT_HDR + 2) (take msg_len message) buf;
      Ret (Z.of_nat total, buf).

(** [dhcpv6_append_dns_servers(buf + at, buf_len, servers, count)]. *)
Definition dhcpv6_append_dns_servers (buf : list Z) (at_ buf_len : nat)
    (servers : list in6_addr) : outcome (Z * list Z) :=
  if bool_decide (length servers = 0%nat) then Ret (-1, buf)
  else if bool_decide (buf_len < OPT_HDR + 16)%nat then Ret (-1, buf)
  else
    let max_servers := ((buf_len - OPT_HDR) / 16)%nat in
    if bool_decide (max_servers = 0%nat) then Ret (-1, buf)
    else
      let use := Nat.min (length servers) max_servers in
      let opt_len := u16 (Z.of_nat use * 16) in
      buf ← write_bytes at_ (be16 OPT_DNS_SERVERS) buf;
      buf ← write_bytes (at_ + 2) (be16 opt_len) buf;
      buf ← write_bytes (at_ + OPT_HDR) (concat (take use servers)) buf;
      Ret (Z.of_nat (OPT_HDR + Z.to_nat opt_len), buf).

Definition error_text : list Z := [69; 114; 114; 111; 114].

(** The option inside an identity association: the address or prefix [lease] under
    [lease_code] on success, a status otherwise. *)
Definition append_inner (buf : list Z) (buf_len sub_off : nat) (lease_code : Z)
    (lease : list Z) (status_code : Z) : outcome (option nat * list Z) :=
  if status_code =? STATUS_SUCCESS then
    if bool_decide (buf_len < sub_off + OPT_HDR + length lease)%nat then Ret (None, buf)
    else
      buf ← write_bytes sub_off (be16 lease_code) buf;
      buf ← write_bytes (sub_off + 2) (be16 (Z.of_nat (length lease))) buf;
      buf ← write_bytes (sub_off + OPT_HDR) lease buf;
      Ret (Some (12 + (OPT_HDR + length lease))%nat, buf)
  else
    let sc_len := (2 + length error_text)%nat in
    if bool_decide (buf_len < sub_off + OPT_HDR + sc_len)%nat then Ret (None, buf)
    else
      buf ← write_bytes sub_off (be16 OPT_STATUS_CODE) buf;
      buf ← write_bytes (sub_off + 2) (be16 (Z.of_nat sc_len)) buf;
      buf ← write_bytes (sub_off + OPT_HDR) (be16 status_code) buf;
      buf ← write_bytes (sub_off + OPT_HDR + 2) error_text buf;
      Ret (Some (12 + (OPT_HDR + sc_len))%nat, buf).

(** The common text of [dhcpv6_append_ia_na] and [dhcpv6_append_ia_pd]: the identity
    association [code] with its three numbers and the inner option; its length is written
    last. *)
Definition append_ia (buf : list Z) (buf_len offset : nat) (code lease_code iaid t1 t2 : Z)
    (lease : list Z) (status_code : Z) : outcome (Z * list Z * nat) :=
  if bool_decide (buf_len < offset + OPT_HDR + 12)%nat then Ret (-1, buf, offset)
  else
    buf ← write_bytes offset (be16 code) buf;
    let val := (offset + OPT_HDR)%nat in
    buf ← write_bytes val (be32 iaid) buf;
    buf ← write_bytes (val + 4) (be32 t1) buf;
    buf ← write_bytes (val + 8) (be32 t2) buf;
    '(inner, buf) ← append_inner buf buf_len (val + 12) lease_code lease status_code;
    match inner with
    | None => Ret (-1, buf, offset)
    | Some ia_len =>
        buf ← write_bytes (offset + 2) (be16 (Z.of_nat ia_len)) buf;
        let offset := (offset + OPT_HDR + ia_len)%nat in
        Ret (Z.of_nat offset, buf, offset)
    end.

Definition dhcpv6_append_ia_na (buf : list Z) (buf_len offset : nat) (iaid : Z)
    (assigned_ip : in6_addr) (t1 t2 pl vl status_code : Z) : outcome (Z * list Z * nat) :=
  append_ia buf buf_len offset OPT_IA_NA OPT_IAADDR iaid t1 t2
    (assigned_ip ++ be32 pl ++ be32 vl) status_code.

Definition dhcpv6_append_ia_pd (buf : list Z) (buf_len offset : nat) (iaid : Z)
    (prefix : in6_addr) (plen t1 t2 pl vl status_code : Z) : outcome (Z * list Z * nat) :=
  append_ia buf buf_len offset OPT_IA_PD OPT_IAPREFIX iaid t1 t2
    (be32 pl ++ be32 vl ++ [plen] ++ prefix) status_code.

(** [dhcpv6_append_u32_option(buf + at, buf_len, code, value)]. *)
Definition dhcpv6_append_u32_option (buf : list Z) (at_ buf_len : nat) (code value : Z)
    : outcome (Z * list Z) :=
  if bool_decide (buf_len < OPT_HDR + 4)%nat then Ret (-1, buf)
  else
    buf ← write_bytes at_ (be16 code) buf;
    buf ← write_bytes (at_ + 2) (be16 4) buf;
    buf ← write_bytes (at_ + OPT_HDR) (be32 value) buf;
    Ret (Z.of_nat (OPT_HDR + 4), buf).


(** The domain search list: what is written behind the option header, the tokens of the
    list in turn; [room] is the space left.  [None] when a name cannot be encoded. *)
Fixpoint domain_loop (tokens : list cstr) (room : Z) (out : list Z) : option (list Z) :=
  match tokens with
  | [] => Some out
  | t :: rest =>
      let d := drop_while_end (fun c => (c =? 32) || (c =? 9) || (c =? 10))
                 (drop_while (fun c => (c =? 32) || (c =? 9)) t) in
      match d with
      | [] => domain_loop rest room out
      | _ =>
          match encode_domain_name d (room - Z.of_nat (length out)) with
          | None => None
          | Some e => domain_loop rest room (out ++ e)
          end
      end
  end.

(** [dhcpv6_append_domain_list(buf + at, buf_len, list)]: [None] for -1, the space behind
    [at] then being of no use; otherwise the length and the buffer. *)
Definition dhcpv6_append_domain_list (buf : list Z) (at_ buf_len : nat) (domains : cstr)
    : outcome (option (Z * list Z)) :=
  let needed := (length domains + 256)%nat in
  if bool_decide (buf_len < OPT_HDR + needed)%nat then Ret None
  else
    buf ← write_bytes at_ (be16 OPT_DNS_SEARCH_LIST) buf;
    match domain_loop (strtok_commas (take 511 domains)) (Z.of_nat (buf_len - OPT_HDR)) [] with
    | None => Ret None
    | Some out =>
        buf ← write_bytes (at_ + OPT_HDR) out buf;
        buf ← write_bytes (at_ + 2) (be16 (Z.of_nat (length out))) buf;
        Ret (Some (Z.of_nat (OPT_HDR + length out), buf))
    end.

(** ** Whole replies *)

(** The options of [dhcpv6_build_ia_na_reply] and [dhcpv6_build_ia_pd_reply] are written
    like this; [None] when there is no room. *)
Definition put_option (buf : list Z) (buf_len pos : nat) (code : Z) (data : list Z)
    : outcome (option (list Z * nat)) :=
  '(rc, buf, pos) ← dhcpv6_append_option buf buf_len pos code data;
  Ret (if rc <? 0 then None else Some (buf, pos)).

Definition put_client_duid (buf : list Z) (buf_len pos : nat) (m : dhcpv6_packet_meta_t)
    : outcome (option (list Z * nat)) :=
  match m.(m_client_duid) with
  | Some (b :: d) => put_option buf buf_len pos OPT_CLIENTID (b :: d)
  | _ => Ret (Some (buf, pos))
  end.

(** [dhcpv6_build_ia_na_reply]: -1, or the length, and the buffer; the 512 bytes of
    [ia_na_val] always suffice. *)
Definition dhcpv6_build_ia_na_reply (msg_type : Z) (out_buf : list Z) (m : dhcpv6_packet_meta_t)
    (server_duid : list Z) (assigned_ip : in6_addr) (pref valid status_code : Z)
    : outcome (Z * list Z) :=
  let out_buf_len := length out_buf in
  if bool_decide (out_buf_len < MSG_HDR)%nat || bool_decide (server_duid = []) then Ret (-1, out_buf)
  else
    buf ← write_bytes 0 (msg_type :: dhcpv6_set_xid m.(m_transaction_id)) out_buf;
    r ← put_option buf out_buf_len MSG_HDR OPT_SERVERID server_duid;
    match r with
    | None => Ret (-1, buf)
    | Some (buf, pos) =>
        r ← put_client_duid buf out_buf_len pos m;
        match r with
        | None => Ret (-1, buf)
        | Some (buf, pos) =>
            if negb m.(m_has_ia_na) then Ret (Z.of_nat pos, buf)
            else
              let ia := be32 m.(m_iaid) ++ be32 (pref / 2) ++ be32 pref
                        ++ be16 OPT_IAADDR ++ be16 24 ++ assigned_ip ++ be32 pref ++ be32 valid in
              let ia := if status_code =? STATUS_SUCCESS then ia
                        else ia ++ be16 OPT_STATUS_CODE ++ be16 7 ++ be16 status_code ++ error_text in
              r ← put_option buf out_buf_len pos OPT_IA_NA ia;
              match r with
              | None => Ret (-1, buf)
              | Some (buf, pos) => Ret (Z.of_nat pos, buf)
              end
        end
    end.

(** [dhcpv6_build_ia_pd_reply]; an empty [server_duid] is left out, [status_code] is not
    used. *)
Definition dhcpv6_build_ia_pd_reply (msg_type : Z) (out_buf : list Z) (m : dhcpv6_packet_meta_t)
    (server_duid : list Z) (delegated_prefix : option in6_addr) (plen pref valid : Z)
    : outcome (Z * list Z) :=
  let out_buf_len := length out_buf in
  if bool_decide (out_buf_len < MSG_HDR)%nat then Ret (-1, out_buf)
  else
    buf ← write_bytes 0 (msg_type :: dhcpv6_set_xid m.(m_transaction_id)) out_buf;
    r ← (match server_duid with
         | [] => Ret (Some (buf, MSG_HDR))
         | _ => put_option buf out_buf_len MSG_HDR OPT_SERVERID server_duid
         end);
    match r with
    | None => Ret (-1, buf)
    | Some (buf, pos) =>
        r ← put_client_duid buf out_buf_len pos m;
        match r with
        | None => Ret (-1, buf)
        | Some (buf, pos) =>
            let iaid := if m.(m_has_ia_pd) then m.(m_iaid_pd) else 0 in
            let ia := be32 iaid ++ be32 0 ++ be32 0 ++ be16 OPT_IAPREFIX ++ be16 25
                      ++ be32 pref ++ be32 valid ++ [plen] ++ default zero_addr6 delegated_prefix in
            r ← put_option buf out_buf_len pos OPT_IA_PD ia;
            match r with
            | None => Ret (-1, buf)
            | Some (buf, pos) => Ret (Z.of_nat pos, buf)
            end
        end
    end.


(** ** The reference decoding *)

(** The options at the front of a list of bytes, up to the first incomplete one. *)
Fixpoint decode (fuel : nat) (bs : list Z) : list (Z * list Z) :=
  match fuel, bs with
  | S fuel, c1 :: c2 :: l1 :: l2 :: rest =>
      let n := Z.to_nat (be_val [l1; l2]) in
      if bool_decide (length rest < n)%nat then []
      else (be_val [c1; c2], take n rest) :: decode fuel (drop n rest)
  | _, _ => []
  end.

Definition decode_opts (bs : list Z) : list (Z * list Z) := decode (length bs) bs.

Definition apply_ia_na (m : dhcpv6_packet_meta_t) (o : Z * list Z) : dhcpv6_packet_meta_t :=
  if (o.1 =? OPT_IAADDR) && bool_decide (16 <= length o.2)%nat
  then set_m_has_requested_ip true (set_m_requested_ip (take 16 o.2) m) else m.

Definition apply_ia_pd (m : dhcpv6_packet_meta_t) (o : Z * list Z) : dhcpv6_packet_meta_t :=
  if (o.1 =? OPT_IAPREFIX) && bool_decide (25 <= length o.2)%nat
  then set_m_requested_prefix (take 16 (drop 9 o.2))
         (set_m_requested_plen (be_val (take 1 (drop 8 o.2)))
            (set_m_has_requested_prefix true m))
  else m.

(** The first [n] blocks of sixteen bytes. *)
Fixpoint blocks (n : nat) (v : list Z) : list in6_addr :=
  match n with
  | O => []
  | S n => take 16 v :: blocks n (drop 16 v)
  end.

(** What one option says. *)
Definition apply_option (m : dhcpv6_packet_meta_t) (o : Z * list Z) : dhcpv6_packet_meta_t :=
  let '(code, v) := o in
  let n := length v in
  if code =? OPT_CLIENTID then set_m_client_duid (Some v) m
  else if code =? OPT_SERVERID then set_m_server_duid (Some v) m
  else if code =? OPT_IA_NA then
    if bool_decide (12 <= n)%nat
    then foldl apply_ia_na (set_m_has_ia_na true (set_m_iaid (be_val (take 4 v)) m))
           (decode_opts (drop 12 v))
    else m
  else if code =? OPT_IA_PD then
    if bool_decide (12 <= n)%nat
    then foldl apply_ia_pd (set_m_iaid_pd (be_val (take 4 v)) (set_m_has_ia_pd true m))
           (decode_opts (drop 12 v))
    else m
  else if code =? OPT_DNS_SERVERS then
    if bool_decide (0 < n)%nat && bool_decide (n mod 16 = 0)%nat
    then set_m_dns_servers (blocks (server_count n) v) m else m
  else if code =? OPT_DNS_SEARCH_LIST then
    if bool_decide (0 < n)%nat then set_m_domain_search (Some v) m else m
  else if code =? OPT_SNTP_SERVERS then
    if bool_decide (0 < n)%nat && bool_decide (n mod 16 = 0)%nat
    then set_m_sntp_servers (blocks (server_count n) v) m else m
  else if code =? OPT_INFO_REFRESH_TIME then
    if bool_decide (4 <= n)%nat
    then set_m_has_info_refresh_time true (set_m_info_refresh_time (be_val (take 4 v)) m) else m
  else m.

(** The bytes of an option. *)
Definition enc_opt (o : Z * list Z) : list Z :=
  be16 o.1 ++ be16 (Z.of_nat (length o.2)) ++ o.2.

Definition enc_opts (l : list (Z * list Z)) : list Z := concat (enc_opt <$> l).

Definition opt_ok (o : Z * list Z) : Prop :=
  is_u16 o.1 /\ Z.of_nat (length o.2) < 65536.

(** ** Reading lemmas *)

Lemma read_bytes_in off n buf :
  (off + n <= length buf)%nat -> read_bytes off n buf = Ret (take n (drop off buf)).
Proof. intros H. unfold read_bytes. by rewrite bool_decide_eq_true_2. Qed.

Lemma u16_at_in off buf :
  (off + 2 <= length buf)%nat -> u16_at off buf = Ret (be_val (take 2 (drop off buf))).
Proof. intros H. unfold u16_at. by rewrite read_bytes_in. Qed.

Lemma get_u32_in off buf :
  (off + 4 <= length buf)%nat -> get_u32 off buf = Ret (be_val (take 4 (drop off buf))).
Proof. intros H. unfold get_u32. by rewrite read_bytes_in. Qed.

Lemma drop_header (bs : list Z) :
  (4 <= length bs)%nat ->
  exists a b c d, bs = a :: b :: c :: d :: drop 4 bs.
Proof.
  destruct bs as [|a [|b [|c [|d bs]]]]; simpl; try lia. intros _. by exists a, b, c, d.
Qed.

Lemma decode_fuel bs : forall f1 f2,
  (length bs <= f1)%nat -> (length bs <= f2)%nat -> decode f1 bs = decode f2 bs.
Proof.
  induction bs as [bs IH] using (induction_ltof1 _ (@length Z)). unfold ltof in IH.
  intros f1 f2 H1 H2.
  destruct bs as [|c1 [|c2 [|l1 [|l2 rest]]]]; try (destruct f1, f2; done).
  destruct f1 as [|f1]; [simpl in H1; lia|]. destruct f2 as [|f2]; [simpl in H2; lia|].
  cbn [decode]. case_bool_decide; [done|]. f_equal.
  apply IH; simpl in *; rewrite length_drop; lia.
Qed.

Lemma decode_cons f c1 c2 l1 l2 rest :
  decode (S f) (c1 :: c2 :: l1 :: l2 :: rest)
  = if bool_decide (length rest < Z.to_nat (be_val [l1; l2]))%nat then []
    else (be_val [c1; c2], take (Z.to_nat (be_val [l1; l2])) rest)
         :: decode f (drop (Z.to_nat (be_val [l1; l2])) rest).
Proof. done. Qed.

(** One step of the decoding, at an offset. *)
Lemma decode_opts_at buf off :
  decode_opts (drop off buf)
  = if bool_decide (off + 4 <= length buf)%nat then
      let code := be_val (take 2 (drop off buf)) in
      let n := Z.to_nat (be_val (take 2 (drop (off + 2) buf))) in
      if bool_decide (length buf < off + (4 + n))%nat then []
      else (code, take n (drop (off + 4) buf)) :: decode_opts (drop (off + (4 + n)) buf)
    else [].
Proof.
  unfold decode_opts. case_bool_decide as H.
  - assert (4 <= length (drop off buf))%nat as H4 by (rewrite length_drop; lia).
    destruct (drop_header _ H4) as (a & b & c & d & E).
    rewrite drop_drop in E. replace (drop (off + 2) buf) with (drop 2 (drop off buf))
      by (rewrite drop_drop; done).
    rewrite E. set (r := drop (off + 4) buf) in *.
    assert (length r = length buf - (off + 4))%nat as Hr by (unfold r; apply length_drop).
    change (length (a :: b :: c :: d :: r)) with (S (S (S (S (length r))))).
    change (take 2 (a :: b :: c :: d :: r)) with [a; b].
    change (take 2 (drop 2 (a :: b :: c :: d :: r))) with [c; d].
    rewrite decode_cons. cbv zeta. set (n := Z.to_nat (be_val [c; d])).
    destruct (decide (length buf < off + (4 + n))%nat) as [Hlt|Hge].
    + by rewrite !bool_decide_eq_true_2 by lia.
    + rewrite !bool_decide_eq_false_2 by lia. f_equal. unfold r. rewrite drop_drop.
      replace (off + 4 + n)%nat with (off + (4 + n))%nat by lia.
      apply decode_fuel; rewrite !length_drop; lia.
  - assert (length (drop off buf) < 4)%nat as Hl by (rewrite length_drop; lia).
    destruct (drop off buf) as [|a [|b [|c [|d r]]]]; simpl in *; try done. lia.
Qed.

(** Reading inside the value of an option. *)
Lemma take_drop_sub (buf : list Z) o n i k :
  (i + k <= n)%nat -> take k (drop i (take n (drop o buf))) = take k (drop (o + i) buf).
Proof.
  intros H. rewrite skipn_firstn_comm, take_take, drop_drop. f_equal. lia.
Qed.

Lemma length_value (buf : list Z) o n :
  (o + n <= length buf)%nat -> length (take n (drop o buf)) = n.
Proof. intros H. rewrite length_take, length_drop. lia. Qed.

Lemma ia_na_loop_spec buf val opt_len :
  (val + opt_len <= length buf)%nat -> forall fuel inner m,
  (opt_len - inner < fuel)%nat ->
  ia_na_loop fuel buf val inner opt_len m
  = Ret (foldl apply_ia_na m (decode_opts (drop inner (take opt_len (drop val buf))))).
Proof.
  intros Hv fuel. induction fuel as [|fuel IH]; intros inner m Hf; [lia|].
  cbn [ia_na_loop]. rewrite decode_opts_at, length_value by done.
  unfold OPT_HDR in *. case_bool_decide as H; [|done].
  rewrite !take_drop_sub by lia. rewrite !u16_at_in by lia.
  rewrite !bind_Ret. cbv beta iota zeta. rewrite !(Nat.add_assoc val inner).
  set (slen := be_val (take 2 (drop (val + inner + 2) buf))).
  case_bool_decide as Hlt; [done|]. cbn [foldl].
  assert (forall m', ia_na_loop fuel buf val (inner + (4 + Z.to_nat slen)) opt_len m'
    = Ret (foldl apply_ia_na m' (decode_opts (drop (inner + (4 + Z.to_nat slen))
        (take opt_len (drop val buf)))))) as Hnext by (intros m'; apply IH; lia).
  unfold apply_ia_na at 2. cbn [fst snd].
  rewrite take_drop_sub, length_value by lia. rewrite !(Nat.add_assoc val inner).
  destruct (be_val (take 2 (drop (val + inner) buf)) =? OPT_IAADDR); cbn [andb];
    [|rewrite bind_Ret; apply Hnext].
  destruct (Z.leb_spec 16 slen).
  - rewrite bool_decide_eq_true_2 by lia. rewrite read_bytes_in by lia. rewrite !bind_Ret.
    cbv beta iota. rewrite take_take, Nat.min_l by lia. apply Hnext.
  - rewrite bool_decide_eq_false_2 by lia. rewrite bind_Ret. apply Hnext.
Qed.

Lemma ia_pd_loop_spec buf val opt_len :
  (val + opt_len <= length buf)%nat -> forall fuel inner m,
  (opt_len - inner < fuel)%nat -> (inner <= opt_len)%nat ->
  ia_pd_loop fuel buf (val + inner) (opt_len - inner) m
  = Ret (foldl apply_ia_pd m (decode_opts (drop inner (take opt_len (drop val buf))))).
Proof.
  intros Hv fuel. induction fuel as [|fuel IH]; intros inner m Hf Hi; [lia|].
  cbn [ia_pd_loop]. rewrite decode_opts_at, length_value by done. unfold OPT_HDR in *.
  destruct (decide (inner + 4 <= opt_len)%nat) as [H|H].
  2: { rewrite !bool_decide_eq_false_2 by lia. done. }
  rewrite !(bool_decide_eq_true_2 (_ <= _)%nat) by lia.
  rewrite !take_drop_sub by lia. rewrite !u16_at_in by lia.
  rewrite !bind_Ret. cbv beta iota zeta. rewrite !Nat.add_assoc.
  set (slen := be_val (take 2 (drop (val + inner + 2) buf))).
  destruct (decide (opt_len < inner + (4 + Z.to_nat slen))%nat) as [Hlt|Hge].
  { rewrite !bool_decide_eq_true_2 by lia. done. }
  rewrite !(bool_decide_eq_false_2 (_ < _)%nat) by lia. cbn [foldl].
  assert (forall m', ia_pd_loop fuel buf (val + inner + 4 + Z.to_nat slen)
      (opt_len - inner - (4 + Z.to_nat slen)) m'
    = Ret (foldl apply_ia_pd m' (decode_opts (drop (inner + 4 + Z.to_nat slen)
        (take opt_len (drop val buf)))))) as Hnext.
  { intros m'.
    replace (val + inner + 4 + Z.to_nat slen)%nat with (val + (inner + 4 + Z.to_nat slen))%nat by lia.
    replace (opt_len - inner - (4 + Z.to_nat slen))%nat
      with (opt_len - (inner + 4 + Z.to_nat slen))%nat by lia.
    apply IH; lia. }
  unfold apply_ia_pd at 2. cbn [fst snd].
  rewrite take_drop_sub, length_value by lia. rewrite !Nat.add_assoc.
  destruct (be_val (take 2 (drop (val + inner) buf)) =? OPT_IAPREFIX); cbn [andb];
    [|rewrite bind_Ret; apply Hnext].
  destruct (Z.leb_spec 25 slen).
  - rewrite bool_decide_eq_true_2 by lia. rewrite !read_bytes_in by lia. rewrite !bind_Ret.
    cbv beta iota. rewrite !take_drop_sub by lia. apply Hnext.
  - rewrite bool_decide_eq_false_2 by lia. rewrite bind_Ret. apply Hnext.
Qed.

Lemma addr_loop_spec buf n : forall val,
  (val + n * 16 <= length buf)%nat -> addr_loop n val buf = Ret (blocks n (drop val buf)).
Proof.
  induction n as [|n IH]; intros val H; [done|]. cbn [addr_loop blocks].
  rewrite read_bytes_in by lia. rewrite bind_Ret. cbv beta iota.
  rewrite IH by lia. rewrite bind_Ret. by rewrite drop_drop.
Qed.

Lemma blocks_take n v k : (n * 16 <= k)%nat -> blocks n (take k v) = blocks n v.
Proof.
  revert v k. induction n as [|n IH]; intros v k H; [done|]. cbn [blocks].
  rewrite take_take, Nat.min_l by lia. f_equal. rewrite skipn_firstn_comm. apply IH. lia.
Qed.

Lemma server_count_le n : (server_count n * 16 <= n)%nat.
Proof.
  unfold server_count. pose proof (Nat.div_mod_eq n 16). destruct (Nat.min_spec (n / 16) 4); lia.
Qed.

Lemma parse_option_spec fuel buf code val n m :
  (val + n <= length buf)%nat -> (length buf < fuel)%nat ->
  parse_option fuel buf code val n m = Ret (apply_option m (code, take n (drop val buf))).
Proof.
  intros Hv Hf. unfold parse_option, apply_option. rewrite length_value by done.
  assert (forall k, (k <= n)%nat -> take k (take n (drop val buf)) = take k (drop val buf)) as Ht.
  { intros k Hk. by rewrite take_take, Nat.min_l. }
  pose proof (server_count_le n) as Hs.
  destruct (code =? OPT_CLIENTID); [by rewrite read_bytes_in|].
  destruct (code =? OPT_SERVERID); [by rewrite read_bytes_in|].
  destruct (code =? OPT_IA_NA).
  { case_bool_decide; [|done]. rewrite get_u32_in, Ht by lia. rewrite bind_Ret. cbv beta iota.
    apply ia_na_loop_spec; lia. }
  destruct (code =? OPT_IA_PD).
  { case_bool_decide; [|done]. rewrite get_u32_in, Ht by lia. rewrite bind_Ret. cbv beta iota.
    apply ia_pd_loop_spec; lia. }
  destruct (code =? OPT_DNS_SERVERS).
  { destruct (_ && _); [|done]. rewrite addr_loop_spec by lia. rewrite bind_Ret.
    by rewrite blocks_take. }
  destruct (code =? OPT_DNS_SEARCH_LIST); [case_bool_decide; [by rewrite read_bytes_in|done]|].
  destruct (code =? OPT_SNTP_SERVERS).
  { destruct (_ && _); [|done]. rewrite addr_loop_spec by lia. rewrite bind_Ret.
    by rewrite blocks_take. }
  destruct (code =? OPT_INFO_REFRESH_TIME); [|done].
  case_bool_decide; [|done]. rewrite get_u32_in, Ht by lia. done.
Qed.

Lemma parse_loop_spec buf : forall fuel offset m,
  (length buf - offset < fuel)%nat ->
  parse_loop fuel buf offset m = Ret (foldl apply_option m (decode_opts (drop offset buf))).
Proof.
  induction fuel as [|fuel IH]; intros offset m Hf; [lia|].
  cbn [parse_loop]. rewrite decode_opts_at. unfold OPT_HDR. case_bool_decide as H; [|done].
  rewrite !u16_at_in by lia. rewrite !bind_Ret. cbv beta iota zeta.
  set (n := Z.to_nat (be_val (take 2 (drop (offset + 2) buf)))).
  case_bool_decide as Hlt; [done|].
  rewrite parse_option_spec by lia. rewrite bind_Ret. cbv beta iota.
  rewrite IH by lia. done.
Qed.

(** ** Encoding *)

Lemma be_val_be16 x : is_u16 x -> be_val (be16 x) = x.
Proof. intros H. unfold is_u16 in H. unfold be_val, be16. simpl. Z.div_mod_to_equations. lia. Qed.

Lemma decode_enc l rest :
  Forall opt_ok l -> decode_opts (enc_opts l ++ rest) = l ++ decode_opts rest.
Proof.
  induction l as [|[code v] l IH]; intros Hl; [done|].
  apply Forall_cons in Hl as [[Hc Hn] Hl]. simpl in Hc, Hn.
  assert (enc_opts ((code, v) :: l) ++ rest = be16 code ++ be16 (Z.of_nat (length v))
            ++ v ++ enc_opts l ++ rest) as ->.
  { unfold enc_opts. cbn [fmap list_fmap concat]. unfold enc_opt at 1. cbn [fst snd].
    by rewrite <- !app_assoc. }
  assert (is_u16 (Z.of_nat (length v))) as Hv by (unfold is_u16; lia).
  set (r := v ++ enc_opts l ++ rest).
  change (be16 code ++ be16 (Z.of_nat (length v)) ++ r)
    with (code / 256 mod 256 :: code mod 256 :: Z.of_nat (length v) / 256 mod 256
          :: Z.of_nat (length v) mod 256 :: r).
  unfold decode_opts at 1. cbn [length]. rewrite decode_cons.
  change [code / 256 mod 256; code mod 256] with (be16 code).
  change [Z.of_nat (length v) / 256 mod 256; Z.of_nat (length v) mod 256]
    with (be16 (Z.of_nat (length v))).
  rewrite !be_val_be16, Nat2Z.id by done. rewrite bool_decide_eq_false_2 by (unfold r; rewrite length_app; lia).
  unfold r. rewrite take_app_length, drop_app_length.
  cbn [app]. f_equal. rewrite <- IH by done. apply decode_fuel; rewrite ?length_app; lia.
Qed.

(** ** Writing lemmas *)

Lemma write_over pre (rest bs : list Z) off :
  off = length pre -> (length bs <= length rest)%nat ->
  write_bytes off bs (pre ++ rest) = Ret (pre ++ bs ++ drop (length bs) rest).
Proof.
  intros -> H. rewrite <- (take_drop (length bs) rest) at 1.
  apply write_bytes_app; [done|]. rewrite length_take. lia.
Qed.

(** Writing [n] bytes further on. *)
Lemma write_further pre (rest bs : list Z) n off :
  off = (length pre + n)%nat -> (n + length bs <= length rest)%nat ->
  write_bytes off bs (pre ++ rest)
  = Ret (pre ++ take n rest ++ bs ++ drop (n + length bs) rest).
Proof.
  intros -> H. rewrite <- (take_drop n rest) at 1. rewrite app_assoc.
  rewrite write_over; [|rewrite length_app, length_take; lia|rewrite length_drop; lia].
  by rewrite drop_drop, <- app_assoc.
Qed.

(** The message written so far is [pre], in a buffer of [size] bytes; the call adds [o]
    to it. *)
Definition emitted (size : nat) (pre o : list Z) (res : outcome (Z * list Z * nat)) : Prop :=
  exists rc rest, res = Ret (rc, pre ++ o ++ rest, (length pre + length o)%nat)
    /\ (length pre + length o + length rest = size)%nat.

Lemma emitted_nothing size pre rest rc :
  (length pre + length rest = size)%nat ->
  emitted size pre [] (Ret (rc, pre ++ rest, length pre)).
Proof.
  intros H. exists rc, rest. rewrite Nat.add_0_r. simpl. split; [done|lia].
Qed.

Lemma append_option_emitted size pre rest code data :
  (length pre + length rest = size)%nat ->
  let o := enc_opt (code, data) in
  emitted size pre (if bool_decide (length pre + length o <= size)%nat then o else [])
    (dhcpv6_append_option (pre ++ rest) size (length pre) code data).
Proof.
  intros Hs o. assert (length o = 4 + length data)%nat as Ho.
  { subst o. unfold enc_opt. rewrite !length_app. simpl. lia. }
  unfold dhcpv6_append_option, OPT_HDR.
  destruct (decide (length pre + length o <= size)%nat) as [Hfit|Hfull]; cycle 1.
  { rewrite (bool_decide_eq_true_2 (size < _)%nat), (bool_decide_eq_false_2 (_ <= size)%nat)
      by lia. by apply emitted_nothing. }
  rewrite (bool_decide_eq_false_2 (size < _)%nat), (bool_decide_eq_true_2 (_ <= size)%nat) by lia.
  rewrite write_over by (done || simpl; lia). rewrite bind_Ret. cbv beta iota.
  rewrite app_assoc, write_over by (rewrite ?length_app, ?length_drop; simpl; lia).
  rewrite bind_Ret. cbv beta iota.
  rewrite app_assoc, write_over
    by (rewrite ?length_app, ?length_drop; simpl; rewrite ?length_drop; lia).
  rewrite bind_Ret. cbv beta iota zeta.
  eexists _, _. split.
  - rewrite Ho. f_equal. f_equal; [|lia]. subst o. unfold enc_opt. cbn [fst snd].
    rewrite <- !app_assoc. reflexivity.
  - rewrite !length_drop, Ho. simpl. lia.
Qed.

(** The option inside an identity association. *)
Definition inner_option (lease_code status_code : Z) (lease : list Z) : Z * list Z :=
  if status_code =? STATUS_SUCCESS then (lease_code, lease)
  else (OPT_STATUS_CODE, be16 status_code ++ error_text).

Definition ia_body (iaid t1 t2 : Z) (inner : Z * list Z) : list Z :=
  be32 iaid ++ be32 t1 ++ be32 t2 ++ enc_opt inner.

Lemma length_enc_opt o : length (enc_opt o) = (4 + length o.2)%nat.
Proof. unfold enc_opt. rewrite !length_app. simpl. lia. Qed.

Lemma append_inner_spec size pre rest lease_code lease status_code :
  (length pre + length rest = size)%nat ->
  let o := enc_opt (inner_option lease_code status_code lease) in
  append_inner (pre ++ rest) size (length pre) lease_code lease status_code
  = if bool_decide (length o <= length rest)%nat
    then Ret (Some (12 + length o)%nat, pre ++ o ++ drop (length o) rest)
    else Ret (None, pre ++ rest).
Proof.
  intros Hs o. unfold append_inner, OPT_HDR. unfold o, inner_option.
  destruct (status_code =? STATUS_SUCCESS); rewrite length_enc_opt; cbn [snd].
  - case_bool_decide as Hf; [by rewrite bool_decide_eq_false_2 by lia|].
    rewrite bool_decide_eq_true_2 by lia.
    rewrite write_over by (done || simpl; lia). rewrite bind_Ret. cbv beta iota.
    rewrite app_assoc, write_over by (rewrite ?length_app, ?length_drop; simpl; lia).
    rewrite bind_Ret. cbv beta iota.
    rewrite app_assoc, write_over
      by (rewrite ?length_app, ?length_drop; simpl; rewrite ?length_drop; lia).
    rewrite bind_Ret. unfold enc_opt. cbn [fst snd]. rewrite <- !app_assoc.
    rewrite !drop_drop. simpl. done.
  - change (2 + length error_text)%nat with 7%nat.
    change (length (be16 status_code ++ error_text)) with 7%nat.
    case_bool_decide as Hf; [by rewrite bool_decide_eq_false_2 by lia|].
    rewrite bool_decide_eq_true_2 by lia.
    rewrite write_over by (done || simpl; lia). rewrite bind_Ret. cbv beta iota.
    rewrite app_assoc, write_over by (rewrite ?length_app, ?length_drop; simpl; lia).
    rewrite bind_Ret. cbv beta iota.
    rewrite app_assoc, write_over
      by (rewrite ?length_app, ?length_drop; simpl; rewrite ?length_drop; lia).
    rewrite bind_Ret. cbv beta iota.
    rewrite app_assoc, write_over
      by (rewrite ?length_app, ?length_drop; simpl; rewrite ?length_drop; lia).
    rewrite bind_Ret. unfold enc_opt. cbn [fst snd]. rewrite <- !app_assoc.
    rewrite !drop_drop. done.
Qed.

Lemma append_ia_emitted size pre rest code lease_code iaid t1 t2 lease status_code :
  (length pre + length rest = size)%nat ->
  let o := enc_opt (code, ia_body iaid t1 t2 (inner_option lease_code status_code lease)) in
  emitted size pre (if bool_decide (length pre + length o <= size)%nat then o else [])
    (append_ia (pre ++ rest) size (length pre) code lease_code iaid t1 t2 lease status_code).
Proof.
  intros Hs o. set (inner := enc_opt (inner_option lease_code status_code lease)).
  assert (length o = 16 + length inner)%nat as Ho.
  { subst o. rewrite length_enc_opt. unfold ia_body. cbn [snd]. rewrite !length_app. simpl. lia. }
  unfold append_ia, OPT_HDR.
  destruct (decide (length pre + 16 <= size)%nat) as [H16|H16]; cycle 1.
  { rewrite (bool_decide_eq_true_2 (size < _)%nat), (bool_decide_eq_false_2 (_ <= size)%nat)
      by lia. by apply emitted_nothing. }
  rewrite (bool_decide_eq_false_2 (size < _)%nat) by lia.
  rewrite write_over by (done || simpl; lia). rewrite bind_Ret. cbv beta iota zeta.
  rewrite app_assoc.
  rewrite (write_further (pre ++ be16 code) _ (be32 iaid) 2)
    by (rewrite ?length_app, ?length_drop; simpl; lia).
  rewrite bind_Ret. cbv beta iota. set (gap := take 2 (drop (length (be16 code)) rest)).
  assert (length gap = 2)%nat as Hg by (unfold gap; rewrite length_take, length_drop; cbn [be16 length]; lia).
  rewrite drop_drop. set (r1 := drop _ rest).
  assert (length r1 = length rest - 8)%nat as Hr1 by (unfold r1; rewrite length_drop; simpl; lia).
  rewrite !app_assoc.
  rewrite write_over by (rewrite ?length_app; simpl; lia). rewrite bind_Ret. cbv beta iota.
  rewrite app_assoc, write_over by (rewrite ?length_app, ?length_drop; simpl; lia).
  rewrite bind_Ret. cbv beta iota. rewrite drop_drop. set (r2 := drop _ r1).
  assert (length r2 = length rest - 16)%nat as Hr2 by (unfold r2; rewrite length_drop; simpl; lia).
  rewrite app_assoc.
  match goal with |- context [append_inner (?p ++ r2) _ ?off _ _ _] =>
    replace off with (length p) by (rewrite !length_app; simpl; lia);
    rewrite (append_inner_spec size p r2) by (rewrite !length_app; simpl; lia)
  end.
  fold inner. destruct (decide (length inner <= length r2)%nat) as [Hin|Hin].
  - rewrite (bool_decide_eq_true_2 (length inner <= _)%nat) by done.
    rewrite bind_Ret. cbv beta iota.
    rewrite <- !app_assoc. rewrite (app_assoc pre).
    rewrite (write_bytes_app _ (pre ++ be16 code) gap) by (rewrite ?length_app; simpl; lia).
    rewrite bind_Ret. cbv beta iota zeta. rewrite bool_decide_eq_true_2 by lia.
    eexists _, _. split.
    + rewrite Ho. f_equal. f_equal; [|lia]. subst o. unfold enc_opt at 1. unfold ia_body.
      cbn [fst snd]. fold inner. rewrite <- !app_assoc.
      replace (Z.of_nat (length (be32 iaid ++ be32 t1 ++ be32 t2 ++ inner)))
        with (Z.of_nat (12 + length inner)); [reflexivity|].
      done.
    + rewrite length_drop, Ho. lia.
  - rewrite (bool_decide_eq_false_2 (length inner <= _)%nat) by done.
    rewrite bind_Ret. cbv beta iota. rewrite bool_decide_eq_false_2 by lia.
    rewrite <- !app_assoc. apply emitted_nothing. rewrite !length_app. simpl. lia.
Qed.


(** The DNS option: as many whole addresses as there is room for. *)
Definition dns_option (room : nat) (servers : list in6_addr) : Z * list Z :=
  (OPT_DNS_SERVERS, concat (take ((room - OPT_HDR) / 16) servers)).

Lemma length_concat_addrs (l : list in6_addr) :
  Forall is_in6 l -> length (concat l) = (16 * length l)%nat.
Proof.
  induction 1 as [|a l [Ha _] _ IH]; [done|]. cbn [concat length]. rewrite length_app, IH, Ha. lia.
Qed.

Lemma append_dns_emitted size pre rest servers :
  (length pre + length rest = size)%nat -> Forall is_in6 servers ->
  (length servers <= 4095)%nat -> servers <> [] ->
  let o := enc_opt (dns_option (length rest) servers) in
  if bool_decide (20 <= length rest)%nat then
    (length o <= length rest)%nat /\
    dhcpv6_append_dns_servers (pre ++ rest) (length pre) (length rest) servers
    = Ret (Z.of_nat (length o), pre ++ o ++ drop (length o) rest)
  else dhcpv6_append_dns_servers (pre ++ rest) (length pre) (length rest) servers
       = Ret (-1, pre ++ rest).
Proof.
  intros Hs Hin Hn Hne o. unfold dhcpv6_append_dns_servers, OPT_HDR.
  rewrite (bool_decide_eq_false_2 (length servers = 0%nat)) by (destruct servers; done).
  case_bool_decide as H20; [|by rewrite bool_decide_eq_true_2 by lia].
  rewrite bool_decide_eq_false_2 by lia.
  pose proof (Nat.div_mod_eq (length rest - 4) 16) as Hdm.
  pose proof (Nat.mod_upper_bound (length rest - 4) 16) as Hmb.
  set (k := ((length rest - 4) / 16)%nat) in *.
  rewrite bool_decide_eq_false_2 by lia.
  assert (take (length servers `min` k) servers = take k servers) as Etk.
  { destruct (Nat.min_spec (length servers) k) as [[? ->]|[? ->]]; [|done].
    by rewrite !take_ge by lia. }
  rewrite Etk. set (l := take k servers).
  assert (length l = length servers `min` k)%nat as Hl by (unfold l; rewrite length_take; lia).
  assert (length (concat l) = 16 * length l)%nat as Hc.
  { apply length_concat_addrs. unfold l. by apply Forall_take. }
  rewrite <- Hl. rewrite u16_small by (unfold is_u16; lia).
  assert (length o = 4 + 16 * length l)%nat as Ho.
  { unfold o, dns_option, OPT_HDR. rewrite length_enc_opt. cbn [snd]. fold k l. lia. }
  rewrite write_over by (done || simpl; lia). rewrite bind_Ret. cbv beta iota.
  rewrite app_assoc, write_over by (rewrite ?length_app, ?length_drop; simpl; lia).
  rewrite bind_Ret. cbv beta iota.
  rewrite app_assoc, write_over
    by (rewrite ?length_app, ?length_drop; simpl; rewrite ?length_drop; lia).
  rewrite bind_Ret. split; [lia|].
  replace (4 + Z.to_nat (Z.of_nat (length l) * 16))%nat with (length o) by lia.
  f_equal. f_equal. unfold o at 1, dns_option, OPT_HDR, enc_opt. fold k l. cbn [fst snd].
  rewrite <- !app_assoc. rewrite !drop_drop. rewrite Hc.
  replace (Z.of_nat (16 * length l)) with (Z.of_nat (length l) * 16) by lia.
  repeat f_equal. rewrite Ho. simpl. lia.
Qed.

(** Shifting in [n] bits. *)
Lemma lor_shiftl_add a b n :
  0 <= n -> 0 <= b < 2 ^ n -> Z.lor (Z.shiftl a n) b = a * 2 ^ n + b.
Proof.
  intros Hn Hb. rewrite <- Z.shiftl_mul_pow2 by lia.
  assert (Z.land (Z.shiftl a n) b = 0) as Hz.
  { apply Z.bits_inj'. intros i Hi. rewrite Z.land_spec, Z.bits_0.
    destruct (Z.lt_ge_cases i n) as [Hlt|Hge].
    - by rewrite Z.shiftl_spec_low.
    - destruct (decide (b = 0)) as [->|]; [by rewrite Z.bits_0, andb_false_r|].
      rewrite (Z.bits_above_log2 b i), andb_false_r; [done|lia|].
      apply Z.log2_lt_pow2; [lia|]. eapply Z.lt_le_trans; [apply Hb|]. by apply Z.pow_le_mono_r. }
  rewrite <- Z.lxor_lor by done. symmetry. by apply Z.add_nocarry_lxor.
Qed.

Lemma get_xid_value hi mid lo :
  0 <= mid < 256 -> 0 <= lo < 256 ->
  dhcpv6_get_xid hi mid lo = hi * 65536 + mid * 256 + lo.
Proof.
  intros Hm Hl. unfold dhcpv6_get_xid.
  assert (Z.lor (Z.shiftl hi 16) (Z.shiftl mid 8) = Z.shiftl (hi * 256 + mid) 8) as ->.
  { change 16 with (8 + 8). rewrite <- Z.shiftl_shiftl by lia.
    rewrite <- Z.shiftl_lor. f_equal. by rewrite lor_shiftl_add. }
  rewrite lor_shiftl_add by (lia || done). change (2 ^ 8) with 256. lia.
Qed.

Lemma xid_roundtrip x :
  0 <= x < 16777216 ->
  exists hi mid lo, dhcpv6_set_xid x = [hi; mid; lo] /\ dhcpv6_get_xid hi mid lo = x
    /\ Forall (fun b => 0 <= b < 256) [hi; mid; lo].
Proof.
  intros Hx. eexists _, _, _. split; [reflexivity|].
  change 0xFFFFFF with (Z.ones 24). change 0xFF with (Z.ones 8).
  rewrite !Z.land_ones by lia. rewrite (Z.mod_small x) by (change (2 ^ 24) with 16777216; lia).
  rewrite !Z.shiftr_div_pow2 by lia.
  change (2 ^ 16) with 65536. change (2 ^ 8) with 256. split.
  - rewrite get_xid_value by (apply Z.mod_pos_bound; lia). Z.div_mod_to_equations. lia.
  - repeat constructor; apply Z.mod_pos_bound; lia.
Qed.

(** The step from one option to the next. *)
Lemma next_option_spec options last :
  match last with
  | None => dhcpv6_next_option options None
            = Ret (if decode_opts options is _ :: _ then Some 0%nat else None)
  | Some off =>
      forall o l, decode_opts (drop off options) = o :: l ->
      let next := (off + 4 + length o.2)%nat in
      decode_opts (drop next options) = l /\
      dhcpv6_next_option options (Some off) = Ret (if l is _ :: _ then Some next else None)
  end.
Proof.
  unfold dhcpv6_next_option, OPT_HDR. destruct last as [off|]; cycle 1.
  { change (decode_opts options) with (decode_opts (drop 0 options)). rewrite decode_opts_at. simpl Nat.add.
    case_bool_decide as H; [by rewrite bool_decide_eq_false_2 by lia|].
    rewrite (bool_decide_eq_true_2 (4 <= _)%nat) by lia.
    rewrite u16_at_in by lia. rewrite bind_Ret. cbv beta iota zeta. by case_bool_decide. }
  intros o l. rewrite decode_opts_at. case_bool_decide as H; [|done]. cbv zeta.
  set (n := Z.to_nat (be_val (take 2 (drop (off + 2) options)))).
  case_bool_decide as Hn; [done|]. intros [= <- <-]. cbn [snd].
  rewrite length_value by lia.
  change (S (S (S (S n)))) with (4 + n)%nat.
  replace (off + (4 + n))%nat with (off + 4 + n)%nat by lia. split; [done|].
  rewrite !bool_decide_eq_false_2 by lia. rewrite u16_at_in by lia. rewrite bind_Ret.
  cbv beta iota zeta. fold n. rewrite decode_opts_at.
  destruct (decide (off + 4 + n + 4 <= length options)%nat) as [Hf|Hf].
  - rewrite (bool_decide_eq_false_2 (length options < off + 4 + n + 4)%nat) by lia.
    rewrite (bool_decide_eq_true_2 (off + 4 + n + 4 <= length options)%nat) by lia.
    rewrite u16_at_in by lia. rewrite bind_Ret. cbv beta iota zeta. rewrite !Nat.add_assoc.
    by case_bool_decide.
  - rewrite bool_decide_eq_true_2 by lia. by rewrite bool_decide_eq_false_2 by lia.
Qed.

(** The parser and the decoding. *)
Lemma parse_spec buf :
  dhcpv6_parse buf = Ret
    match buf with
    | t :: hi :: mid :: lo :: opts =>
        Some (foldl apply_option (meta_of_header t (dhcpv6_get_xid hi mid lo)) (decode_opts opts))
    | _ => None
    end.
Proof.
  unfold dhcpv6_parse, MSG_HDR. case_bool_decide as H.
  { by destruct buf as [|? [|? [|? [|? ?]]]]; simpl in H; try lia. }
  destruct buf as [|t [|hi [|mid [|lo opts]]]]; simpl in H; try lia.
  rewrite read_bytes_in by (simpl; lia). rewrite bind_Ret.
  cbn [take drop]. rewrite parse_loop_spec by (simpl; lia). by rewrite bind_Ret.
Qed.

(** ** The property *)

(** C16: [dhcpv6_parse] accepts every buffer of at least four bytes and never reads
    outside it, whatever the lengths in it say: the result is the header's message type
    and transaction id refined, in order, by what each complete option at the front of
    the rest says, where the options are those of the reference decoding.  That decoding
    inverts the encoding of any list of options, [dhcpv6_next_option] walks through the
    same options, and the transaction id read is the one [dhcpv6_set_xid] wrote. *)
Theorem dhcpv6_parse_refines :
  (forall buf, dhcpv6_parse buf = Ret
     match buf with
     | t :: hi :: mid :: lo :: opts =>
         Some (foldl apply_option (meta_of_header t (dhcpv6_get_xid hi mid lo))
                 (decode_opts opts))
     | _ => None
     end)
  /\ (forall l rest, Forall opt_ok l ->
        decode_opts (enc_opts l ++ rest) = l ++ decode_opts rest)
  /\ (forall options, dhcpv6_next_option options None
        = Ret (if decode_opts options is _ :: _ then Some 0%nat else None))
  /\ (forall options off o l, decode_opts (drop off options) = o :: l ->
        let next := (off + 4 + length o.2)%nat in
        decode_opts (drop next options) = l /\
        dhcpv6_next_option options (Some off) = Ret (if l is _ :: _ then Some next else None))
  /\ (forall x, 0 <= x < 16777216 ->
        exists hi mid lo, dhcpv6_set_xid x = [hi; mid; lo] /\ dhcpv6_get_xid hi mid lo = x).
Proof.
  split_and!.
  - apply parse_spec.
  - apply decode_enc.
  - intros options. apply (next_option_spec options None).
  - intros options off. apply (next_option_spec options (Some off)).
  - intros x Hx. destruct (xid_roundtrip x Hx) as (hi & mid & lo & ? & ? & _). by exists hi, mid, lo.
Qed.

Lemma dhcpv6_parse_refines_witness :
  dhcpv6_parse [1; 0; 1; 2; 0; 1; 0; 2; 7; 9]
  = Ret (Some (set_m_client_duid (Some [7; 9]) (meta_of_header 1 258)))
  /\ decode_opts (enc_opts [(1, [7; 9])] ++ []) = [(1, [7; 9])].
Proof.
  destruct dhcpv6_parse_refines as (H1 & H2 & _). split.
  - rewrite (H1 _). vm_compute. reflexivity.
  - rewrite (H2 [(1, [7; 9])] []); [reflexivity|].
    constructor; [|constructor]. split; vm_compute; split; congruence || reflexivity.
Defined.
