(* ===== verification/Ip6Pool.v ===== *)
(** * The DHCPv6 address pool

    [DHCPv6/sources/ip6_pool.c].  [entries] with [pool_size] is the list [q_entries], an
    entry pointer an index into it; [duid] of an entry is the string in its 128-byte
    array.  The pool has no lock of its own.

    The outcome of an ICMPv6 probe is the argument [ping] of [ip6_pool_allocate], a
    function of the address and the timeout; [ip6_ping_check] gives it from what the
    socket calls return.  The times read during one call are its arguments: [now] for
    the entries, [t1] and [t2] for the lease. *)

From S2P Require Import Prelude UtilsV6 LeasesV6 ConfigV6.

Definition MAX_POOL6_SIZE : nat := 4096.

Inductive ip6_state_t :=
| IP6_STATE_AVAILABLE
| IP6_STATE_ALLOCATED
| IP6_STATE_RESERVED
| IP6_STATE_EXCLUDED
| IP6_STATE_CONFLICT
| IP6_STATE_UNKNOWN.

#[export] Instance ip6_state_eq_dec : EqDecision ip6_state_t.
Proof. solve_decision. Defined.

Definition ip6_state_to_string (s : ip6_state_t) : string :=
  match s with
  | IP6_STATE_AVAILABLE => "available"
  | IP6_STATE_ALLOCATED => "allocated"
  | IP6_STATE_RESERVED => "reserved"
  | IP6_STATE_EXCLUDED => "excluded"
  | IP6_STATE_CONFLICT => "conflict"
  | IP6_STATE_UNKNOWN => "unknown"
  end.

Definition ip6_state_from_lease_state (s : lease_state_t) : ip6_state_t :=
  match s with
  | LEASE_STATE_ACTIVE => IP6_STATE_ALLOCATED
  | LEASE_STATE_RESERVED => IP6_STATE_RESERVED
  | LEASE_STATE_ABANDONED => IP6_STATE_CONFLICT
  | LEASE_STATE_FREE | LEASE_STATE_EXPIRED | LEASE_STATE_RELEASED => IP6_STATE_AVAILABLE
  | LEASE_STATE_BACKUP => IP6_STATE_ALLOCATED
  end.

Record ip6_pool_entry_t := mk_entry6 {
  n_ip_address : in6_addr;
  n_state : ip6_state_t;
  n_duid : cstr;
  n_last_allocated : Z;
  n_lease_id : Z
}.

Definition set_n_state (v : ip6_state_t) (r : ip6_pool_entry_t) : ip6_pool_entry_t :=
  mk_entry6 r.(n_ip_address) v r.(n_duid) r.(n_last_allocated) r.(n_lease_id).

Definition set_n_duid (v : cstr) (r : ip6_pool_entry_t) : ip6_pool_entry_t :=
  mk_entry6 r.(n_ip_address) r.(n_state) v r.(n_last_allocated) r.(n_lease_id).

Definition set_n_last_allocated (v : Z) (r : ip6_pool_entry_t) : ip6_pool_entry_t :=
  mk_entry6 r.(n_ip_address) r.(n_state) r.(n_duid) v r.(n_lease_id).

Record ip6_pool_t := mk_pool6 {
  q_subnet : dhcpv6_subnet_t;
  q_entries : list ip6_pool_entry_t;
  q_available_count : Z;
  q_allocated_count : Z;
  q_reserved_count : Z
}.

Definition set_q_entries (v : list ip6_pool_entry_t) (r : ip6_pool_t) : ip6_pool_t :=
  mk_pool6 r.(q_subnet) v r.(q_available_count) r.(q_allocated_count)
    r.(q_reserved_count).

Definition set_q_available_count (v : Z) (r : ip6_pool_t) : ip6_pool_t :=
  mk_pool6 r.(q_subnet) r.(q_entries) v r.(q_allocated_count) r.(q_reserved_count).

Definition set_q_allocated_count (v : Z) (r : ip6_pool_t) : ip6_pool_t :=
  mk_pool6 r.(q_subnet) r.(q_entries) r.(q_available_count) v r.(q_reserved_count).

Definition set_q_reserved_count (v : Z) (r : ip6_pool_t) : ip6_pool_t :=
  mk_pool6 r.(q_subnet) r.(q_entries) r.(q_available_count) r.(q_allocated_count) v.

Record ip6_allocation_result_t := mk_alloc6 {
  r6_success : bool;
  r6_is_new : bool;
  r6_ip_address : in6_addr;
  r6_error_message : string;
  r6_err_is_conflict : bool;
  r6_conflict_ip : in6_addr;
  r6_conflict_reason : option string
}.

Definition alloc6_error (m : string) : ip6_allocation_result_t :=
  mk_alloc6 false false zero_addr6 m false zero_addr6 None.

Definition alloc6_conflict (ip : in6_addr) (m : string) : ip6_allocation_result_t :=
  mk_alloc6 false false zero_addr6 m true ip (Some "icmp6 echo reply").

Definition alloc6_ok (is_new : bool) (ip : in6_addr) (m : string) : ip6_allocation_result_t :=
  mk_alloc6 true is_new ip m false zero_addr6 None.

(** ** The probe *)

(** [get_effective_probe]: whether to probe, and the timeout. *)
Definition get_effective_probe (cfg : dhcpv6_config_t) (sn : dhcpv6_subnet_t) : bool * Z :=
  let enabled := cfg.(c6_global).(g6_icmp6_probe) in
  let tmo := if cfg.(c6_global).(g6_icmp6_timeout_ms) =? 0 then 500
             else cfg.(c6_global).(g6_icmp6_timeout_ms) in
  if sn.(s6_icmp6_probe_override)
  then (sn.(s6_icmp6_probe), if sn.(s6_has_icmp6_timeout) then sn.(s6_icmp6_timeout_ms) else tmo)
  else (enabled, tmo).

Definition ICMP6_ECHO_REPLY : Z := 129.

(** One datagram [recvfrom] returns: its length, its source and the header fields. *)
Record icmp6_received := mk_received {
  rx_len : Z;
  rx_src : in6_addr;
  rx_type : Z;
  rx_id : Z;
  rx_seq : Z
}.

(** The receive loop: [rx] is what [recvfrom] returns in turn, [None] an error or the
    timeout, also when the list is used up. *)
Fixpoint ping_loop (rounds : nat) (ip : in6_addr) (ping_id : Z)
    (rx : list (option icmp6_received)) : bool :=
  match rounds, rx with
  | S rounds, Some r :: rx =>
      if negb (memeq 16 r.(rx_src) ip) then ping_loop rounds ip ping_id rx
      else if r.(rx_len) <? 8 then ping_loop rounds ip ping_id rx
      else if (r.(rx_type) =? ICMP6_ECHO_REPLY) && (r.(rx_id) =? ping_id) && (r.(rx_seq) =? 1)
      then true
      else ping_loop rounds ip ping_id rx
  | _, _ => false
  end.

(** [ip6_ping_check]; [pid] is [getpid()]. *)
Definition ip6_ping_check (socket_ok sent_ok : bool) (pid : Z) (ip : in6_addr)
    (rx : list (option icmp6_received)) : bool :=
  if negb socket_ok then false
  else if negb sent_ok then false
  else ping_loop 3 ip (u16 pid) rx.

(** ** Searches *)

Definition ip6_pool_find_entry (pool : ip6_pool_t) (ip : in6_addr) : option nat :=
  find_index (fun e => memeq 16 e.(n_ip_address) ip) pool.(q_entries).

(** The entry found, with its index. *)
Definition find_entry_at (pool : ip6_pool_t) (ip : in6_addr)
    : option (nat * ip6_pool_entry_t) :=
  i ← ip6_pool_find_entry pool ip; e ← pool.(q_entries) !! i; Some (i, e).

Definition ip6_pool_is_in_range (pool : ip6_pool_t) (ip : in6_addr) : bool :=
  let s := pool.(q_subnet) in
  s.(s6_has_pool_range)
  && (0 <=? ipv6_compare ip s.(s6_pool_start_bin)) && (ipv6_compare ip s.(s6_pool_end_bin) <=? 0).

Definition in_state (s : ip6_state_t) (e : ip6_pool_entry_t) : bool :=
  bool_decide (e.(n_state) = s).

Definition ip6_pool_is_available (pool : ip6_pool_t) (ip : in6_addr) : bool :=
  match find_entry_at pool ip with
  | Some (_, e) => in_state IP6_STATE_AVAILABLE e
  | None => false
  end.

(** ** Counters *)

(** [if (count) count--]. *)
Definition dec (c : Z) : Z := if c =? 0 then c else c -u32 1.

(** An entry leaves state [s]. *)
Definition leave_state (s : ip6_state_t) (pool : ip6_pool_t) : ip6_pool_t :=
  match s with
  | IP6_STATE_AVAILABLE => set_q_available_count (dec pool.(q_available_count)) pool
  | IP6_STATE_ALLOCATED => set_q_allocated_count (dec pool.(q_allocated_count)) pool
  | IP6_STATE_RESERVED => set_q_reserved_count (dec pool.(q_reserved_count)) pool
  | _ => pool
  end.

(** An entry enters state [s]. *)
Definition enter_state (s : ip6_state_t) (pool : ip6_pool_t) : ip6_pool_t :=
  match s with
  | IP6_STATE_AVAILABLE => set_q_available_count (pool.(q_available_count) +u32 1) pool
  | IP6_STATE_ALLOCATED => set_q_allocated_count (pool.(q_allocated_count) +u32 1) pool
  | IP6_STATE_RESERVED => set_q_reserved_count (pool.(q_reserved_count) +u32 1) pool
  | _ => pool
  end.

Definition put_entry (i : nat) (e : ip6_pool_entry_t) (pool : ip6_pool_t) : ip6_pool_t :=
  set_q_entries (<[i := e]> pool.(q_entries)) pool.

(** ** Leases to entries *)

Definition ip6_pool_update_from_lease (pool : ip6_pool_t) (L : dhcpv6_lease_t)
    : Z * ip6_pool_t :=
  match find_entry_at pool L.(x_ip6_addr) with
  | None => (0, pool)
  | Some (i, e) =>
      let pool := leave_state e.(n_state) pool in
      let ns := ip6_state_from_lease_state L.(x_state) in
      let e := set_n_state ns e in
      let e :=
        if bool_decide (ns = IP6_STATE_ALLOCATED) || bool_decide (ns = IP6_STATE_RESERVED) then
          if 0 <? L.(x_duid_len) then
            match duid_bin_to_hex (take (Z.to_nat L.(x_duid_len)) L.(x_duid)) 128 with
            | Some (n, s) => set_n_duid (if n <? 0 then [] else s) e
            | None => set_n_duid [] e
            end
          else set_n_duid [] e
        else set_n_duid [] e in
      let e := if bool_decide (ns = IP6_STATE_ALLOCATED)
               then set_n_last_allocated L.(x_starts) e else e in
      (0, put_entry i e (enter_state ns pool))
  end.

Definition ip6_pool_sync_with_leases (pool : ip6_pool_t) (db : lease_v6_db_t)
    : Z * ip6_pool_t :=
  (0, foldl (fun pool L => if x_in_use L then (ip6_pool_update_from_lease pool L).2 else pool)
        pool db.(d_leases)).

(** ** State changes *)

(** [now] is the time the lease operation reads; [db] is [None] for a null pointer. *)
Definition ip6_pool_mark_conflict (now : Z) (pool : ip6_pool_t) (ip : in6_addr)
    (db : option lease_v6_db_t) : Z * ip6_pool_t * option lease_v6_db_t :=
  match find_entry_at pool ip with
  | None => (-1, pool, db)
  | Some (i, e) =>
      (0, put_entry i (set_n_state IP6_STATE_CONFLICT e) (leave_state e.(n_state) pool),
       (fun db => (lease_v6_mark_conflict 0 now db ip).2) <$> db)
  end.

Definition ip6_pool_release_ip (now : Z) (pool : ip6_pool_t) (ip : in6_addr)
    (db : option lease_v6_db_t) : Z * ip6_pool_t * option lease_v6_db_t :=
  match find_entry_at pool ip with
  | None => (-1, pool, db)
  | Some (i, e) =>
      let pool :=
        if in_state IP6_STATE_ALLOCATED e then
          put_entry i (set_n_last_allocated 0 (set_n_duid [] (set_n_state IP6_STATE_AVAILABLE e)))
            (enter_state IP6_STATE_AVAILABLE (leave_state IP6_STATE_ALLOCATED pool))
        else pool in
      (0, pool, (fun db => (lease_v6_release_ip 0 now db ip).2) <$> db)
  end.

(** [strncpy(e->duid, duid, sizeof(e->duid) - 1)]. *)
Definition copy_duid (duid : cstr) (e : ip6_pool_entry_t) : ip6_pool_entry_t :=
  set_n_duid (take 127 duid) e.

(** [duid] is [None] for a null pointer. *)
Definition ip6_pool_reserve_ip (now : Z) (pool : ip6_pool_t) (ip : in6_addr)
    (duid : option cstr) : Z * ip6_pool_t :=
  match find_entry_at pool ip with
  | None => (-1, pool)
  | Some (i, e) =>
      let pool := leave_state e.(n_state) pool in
      let e := set_n_last_allocated now (set_n_state IP6_STATE_RESERVED e) in
      let e := match duid with
               | Some d => if nonempty d then copy_duid d e else e
               | None => e
               end in
      (0, enter_state IP6_STATE_RESERVED (put_entry i e pool))
  end.

(** ** Initialisation *)

Definition free_entry (ip : in6_addr) : ip6_pool_entry_t :=
  mk_entry6 ip IP6_STATE_AVAILABLE [] 0 0.

Definition add_entry (ip : in6_addr) (pool : ip6_pool_t) : ip6_pool_t :=
  set_q_available_count (pool.(q_available_count) +u32 1)
    (set_q_entries (pool.(q_entries) ++ [free_entry ip]) pool).

(** The loop over the range; [None] when the fuel runs out. *)
Fixpoint init6_loop (fuel : nat) (iterations : Z) (cur stop : in6_addr) (pool : ip6_pool_t)
    : option ip6_pool_t :=
  match fuel with
  | O => None
  | S fuel =>
      if 0 <? ipv6_compare cur stop then Some pool
      else if 50000 <? iterations then Some pool
      else if bool_decide (MAX_POOL6_SIZE <= length pool.(q_entries))%nat then Some pool
      else
        let pool := add_entry cur pool in
        let '(ok, next) := ipv6_increment cur in
        if ok then init6_loop fuel (iterations + 1) next stop pool else Some pool
  end.

Definition empty_pool6 (subnet : dhcpv6_subnet_t) : ip6_pool_t := mk_pool6 subnet [] 0 0 0.

Definition reserve_host (now : Z) (pool : ip6_pool_t) (h : dhcpv6_static_host_t) : ip6_pool_t :=
  if negb h.(h6_has_fixed_address6_bin) then pool
  else (ip6_pool_reserve_ip now pool h.(h6_fixed_addr6_bin)
          (if nonempty h.(h6_duid) then Some h.(h6_duid) else None)).2.

(** [ip6_pool_init]; [db] is [None] for a null pointer. *)
Definition ip6_pool_init (now : Z) (subnet : dhcpv6_subnet_t) (db : option lease_v6_db_t)
    : option (Z * ip6_pool_t) :=
  let pool := empty_pool6 subnet in
  if negb subnet.(s6_has_pool_range) then Some (-1, pool)
  else
    pool ← init6_loop (S MAX_POOL6_SIZE) 0 subnet.(s6_pool_start_bin) subnet.(s6_pool_end_bin) pool;
    let pool := match db with
                | Some db => (ip6_pool_sync_with_leases pool db).2
                | None => pool
                end in
    Some (0, foldl (reserve_host now) pool subnet.(s6_hosts)).

(** ** Allocation *)

Section allocation.
Variable ping : in6_addr -> Z -> bool.
Variables now t1 t2 : Z.
Variables (duid : cstr) (iaid : Z) (hostname_opt : option cstr) (lease_time : Z).

(** Whether [ip] answers, when probing is on. *)
Definition probe (do_probe : bool) (tmo : Z) (ip : in6_addr) : bool := do_probe && ping ip tmo.

(** The entry taken for the client. *)
Definition claim_entry (e : ip6_pool_entry_t) : ip6_pool_entry_t :=
  copy_duid duid (set_n_last_allocated now (set_n_state IP6_STATE_ALLOCATED e)).

(** What is undone when the lease is refused. *)
Definition unclaim (i : nat) (e : ip6_pool_entry_t) (pool : ip6_pool_t) : ip6_pool_t :=
  put_entry i (set_n_duid [] (set_n_state IP6_STATE_AVAILABLE e))
    (enter_state IP6_STATE_AVAILABLE (leave_state IP6_STATE_ALLOCATED pool)).

Definition add_lease (db : lease_v6_db_t) (ip : in6_addr) : option nat * lease_v6_db_t :=
  lease_v6_add_ia_na t1 t2 db duid iaid ip lease_time hostname_opt.

(** The address fixed for the client: the first host with its DUID and an address. *)
Definition static_host (subnet : dhcpv6_subnet_t) : option dhcpv6_static_host_t :=
  i ← find_index (fun h => h.(h6_has_fixed_address6_bin) && nonempty h.(h6_duid)
                           && bool_decide (h.(h6_duid) = duid)) subnet.(s6_hosts);
  subnet.(s6_hosts) !! i.

(** The end of the static and of the requested branch: the lease of a claimed entry. *)
Definition persist (i : nat) (e : ip6_pool_entry_t) (is_new : bool) (pool : ip6_pool_t)
    (db : lease_v6_db_t) : ip6_allocation_result_t * ip6_pool_t * lease_v6_db_t :=
  let '(r, db) := add_lease db e.(n_ip_address) in
  match r with
  | None => (alloc6_error "lease persist failed", unclaim i e pool, db)
  | Some _ => (alloc6_ok is_new e.(n_ip_address) "", pool, db)
  end.

Definition conflict_on (m : string) (ip : in6_addr) (pool : ip6_pool_t) (db : lease_v6_db_t)
    : ip6_allocation_result_t * ip6_pool_t * lease_v6_db_t :=
  let '(_, pool, db') := ip6_pool_mark_conflict now pool ip (Some db) in
  (alloc6_conflict ip m, pool, default db db').

Definition allocate_static (do_probe : bool) (tmo : Z) (i : nat) (e : ip6_pool_entry_t)
    (pool : ip6_pool_t) (db : lease_v6_db_t)
    : ip6_allocation_result_t * ip6_pool_t * lease_v6_db_t :=
  if probe do_probe tmo e.(n_ip_address)
  then conflict_on "conflict on reserved address" e.(n_ip_address) pool db
  else
    let pool := if in_state IP6_STATE_AVAILABLE e
                then leave_state IP6_STATE_AVAILABLE pool else pool in
    let pool := if in_state IP6_STATE_RESERVED e
                then leave_state IP6_STATE_RESERVED pool else pool in
    let pool := if negb (in_state IP6_STATE_ALLOCATED e)
                then enter_state IP6_STATE_ALLOCATED pool else pool in
    let e := claim_entry e in
    persist i e false (put_entry i e pool) db.

Definition allocate_requested (i : nat) (e : ip6_pool_entry_t) (pool : ip6_pool_t)
    (db : lease_v6_db_t) : ip6_allocation_result_t * ip6_pool_t * lease_v6_db_t :=
  let pool := if in_state IP6_STATE_AVAILABLE e
              then leave_state IP6_STATE_AVAILABLE pool else pool in
  let pool := if in_state IP6_STATE_RESERVED e
              then leave_state IP6_STATE_RESERVED pool else pool in
  let pool := enter_state IP6_STATE_ALLOCATED pool in
  let e := claim_entry e in
  persist i e true (put_entry i e pool) db.

(** The last loop, from entry [i] on with [n] entries left; [m] is the message written
    so far. *)
Fixpoint allocate_loop (do_probe : bool) (tmo : Z) (n i : nat) (m : string)
    (pool : ip6_pool_t) (db : lease_v6_db_t)
    : ip6_allocation_result_t * ip6_pool_t * lease_v6_db_t :=
  match n, pool.(q_entries) !! i with
  | S n, Some e =>
      if negb (in_state IP6_STATE_AVAILABLE e) then allocate_loop do_probe tmo n (S i) m pool db
      else if probe do_probe tmo e.(n_ip_address) then
        let '(_, pool, db') := ip6_pool_mark_conflict now pool e.(n_ip_address) (Some db) in
        allocate_loop do_probe tmo n (S i) m pool (default db db')
      else
        let pool := enter_state IP6_STATE_ALLOCATED (leave_state IP6_STATE_AVAILABLE pool) in
        let e := claim_entry e in
        let pool := put_entry i e pool in
        let '(r, db) := add_lease db e.(n_ip_address) in
        match r with
        | None => allocate_loop do_probe tmo n (S i) "lease persist failed" (unclaim i e pool) db
        | Some _ => (alloc6_ok true e.(n_ip_address) m, pool, db)
        end
  | _, _ => (alloc6_error "no free addresses", pool, db)
  end.

(** The entry the client already holds. *)
Definition holds6 (e : ip6_pool_entry_t) : bool :=
  in_state IP6_STATE_ALLOCATED e && nonempty e.(n_duid) && bool_decide (e.(n_duid) = duid).

Definition held_entry (pool : ip6_pool_t) : option ip6_pool_entry_t :=
  i ← find_index holds6 pool.(q_entries); pool.(q_entries) !! i.

(** The part after the static hosts. *)
Definition allocate_dynamic (do_probe : bool) (tmo : Z) (requested_ip : in6_addr)
    (pool : ip6_pool_t) (db : lease_v6_db_t)
    : ip6_allocation_result_t * ip6_pool_t * lease_v6_db_t :=
  match held_entry pool with
  | Some e =>
      let '(r, db) := add_lease db e.(n_ip_address) in
      (alloc6_ok false e.(n_ip_address)
         match r with None => "lease refresh failed" | Some _ => "" end, pool, db)
  | None =>
      let first_free := allocate_loop do_probe tmo (length pool.(q_entries)) 0 "" pool db in
      if negb (memeq 16 requested_ip zero_addr6)
         && ip6_pool_is_in_range pool requested_ip && ip6_pool_is_available pool requested_ip then
        if probe do_probe tmo requested_ip
        then conflict_on "conflict on requested address" requested_ip pool db
        else
          match find_entry_at pool requested_ip with
          | Some (i, e) => allocate_requested i e pool db
          | None => first_free
          end
      else first_free
  end.

Definition ip6_pool_allocate (pool : ip6_pool_t) (requested_ip : in6_addr)
    (config : dhcpv6_config_t) (db : lease_v6_db_t)
    : ip6_allocation_result_t * ip6_pool_t * lease_v6_db_t :=
  let '(do_probe, tmo) := get_effective_probe config pool.(q_subnet) in
  match static_host pool.(q_subnet) with
  | Some h =>
      match find_entry_at pool h.(h6_fixed_addr6_bin) with
      | Some (i, e) => allocate_static do_probe tmo i e pool db
      | None => allocate_dynamic do_probe tmo requested_ip pool db
      end
  | None => allocate_dynamic do_probe tmo requested_ip pool db
  end.
End allocation.

(** ** A counter *)

(** One entry out of [n] leaves ([old]) and enters ([new]) the state counted by [c]. *)
Lemma counter_step (n : nat) c (old new : bool) :
  0 <= c <= Z.of_nat n -> (n <= 4096)%nat -> (old = true -> 1 <= c) ->
  let c1 := if old then dec c else c in
  (if new then c1 +u32 1 else c1) = c - (if old then 1 else 0) + (if new then 1 else 0).
Proof.
  intros Hc Hn Ho. unfold dec. cbv zeta.
  assert (forall z, 0 <= z <= 4097 -> u32 z = z) as Hu.
  { intros z Hz. apply u32_small. unfold is_u32. lia. }
  destruct old; [|destruct new; rewrite ?Hu by lia; lia].
  specialize (Ho eq_refl). destruct (Z.eqb_spec c 0); [lia|].
  rewrite (Hu (c - 1)) by lia. destruct new; rewrite ?Hu by lia; lia.
Qed.

