(* ===== verification/Ip6PoolSpec.v ===== *)
(** * Properties of the DHCPv6 address pool

    The invariant of [Ip6Pool]: distinct addresses and exact counters; what
    initialisation builds; what an allocation does to the pool and to the leases. *)

From S2P Require Import Prelude UtilsV6 LeasesV6 ConfigV6 Ip6Pool.

(** ** Definitions *)

Record pool6_wf (pool : ip6_pool_t) : Prop := {
  p6_bound : (length pool.(q_entries) <= MAX_POOL6_SIZE)%nat;
  p6_in6 : Forall (fun e => is_in6 e.(n_ip_address)) pool.(q_entries);
  p6_nodup : NoDup (n_ip_address <$> pool.(q_entries));
  p6_available : pool.(q_available_count) = countb (in_state IP6_STATE_AVAILABLE) pool.(q_entries);
  p6_allocated : pool.(q_allocated_count) = countb (in_state IP6_STATE_ALLOCATED) pool.(q_entries);
  p6_reserved : pool.(q_reserved_count) = countb (in_state IP6_STATE_RESERVED) pool.(q_entries)
}.

(** ** Searches *)

Lemma find_entry_at_entry pool ip i e :
  find_entry_at pool ip = Some (i, e) -> pool.(q_entries) !! i = Some e.
Proof.
  unfold find_entry_at. destruct (ip6_pool_find_entry pool ip) as [j|]; [|done]. simpl.
  destruct (q_entries pool !! j) as [e'|] eqn:E; [|done]. simpl. intros [= -> ->]. done.
Qed.

Lemma find_entry_at_Some pool ip i e :
  is_in6 ip -> pool6_wf pool -> find_entry_at pool ip = Some (i, e) ->
  pool.(q_entries) !! i = Some e /\ e.(n_ip_address) = ip.
Proof.
  intros [Hip _] Hwf. unfold find_entry_at.
  destruct (ip6_pool_find_entry pool ip) as [j|] eqn:E; [|done]. simpl.
  apply find_index_lookup in E as (e' & He & Hm). rewrite He. simpl. intros [= -> ->].
  split; [done|]. apply memeq_true in Hm.
  pose proof (Forall_lookup_1 _ _ _ _ (p6_in6 pool Hwf) He) as [Hl _].
  rewrite !take_ge in Hm by lia. done.
Qed.

Lemma find_entry_at_lookup pool i e :
  pool6_wf pool -> pool.(q_entries) !! i = Some e ->
  find_entry_at pool e.(n_ip_address) = Some (i, e).
Proof.
  intros Hwf He. pose proof (Forall_lookup_1 _ _ _ _ (p6_in6 pool Hwf) He) as Hin.
  destruct (find_index_is_Some (fun e' => memeq 16 e'.(n_ip_address) e.(n_ip_address))
    (q_entries pool) e) as [j Hj]; [by eapply list_elem_of_lookup_2|apply memeq_refl|].
  assert (find_entry_at pool (n_ip_address e) = (e' ← q_entries pool !! j; Some (j, e'))) as E.
  { unfold find_entry_at, ip6_pool_find_entry. by rewrite Hj. }
  destruct (find_index_lookup _ _ _ Hj) as (e' & He' & _). rewrite He' in E. simpl in E.
  pose proof (find_entry_at_Some _ _ _ _ Hin Hwf E) as [_ Hip].
  assert (j = i) as ->; [|by simplify_eq].
  eapply NoDup_lookup; [by apply (p6_nodup pool)|..]; rewrite list_lookup_fmap.
  - by rewrite He'.
  - rewrite He. simpl. by rewrite Hip.
Qed.

(** ** Moving an entry from one state to another *)

Lemma fmap_insert_ip (ls : list ip6_pool_entry_t) (i : nat) (e e' : ip6_pool_entry_t) :
  ls !! i = Some e -> e'.(n_ip_address) = e.(n_ip_address) ->
  n_ip_address <$> <[i := e']> ls = n_ip_address <$> ls.
Proof.
  intros He Hip. rewrite list_fmap_insert, Hip. apply list_insert_id.
  by rewrite list_lookup_fmap, He.
Qed.

(** The counters as one function of the state. *)
Definition counter (s : ip6_state_t) (pool : ip6_pool_t) : option Z :=
  match s with
  | IP6_STATE_AVAILABLE => Some pool.(q_available_count)
  | IP6_STATE_ALLOCATED => Some pool.(q_allocated_count)
  | IP6_STATE_RESERVED => Some pool.(q_reserved_count)
  | _ => None
  end.

Lemma counter_enter_leave s a b pool :
  counter s (enter_state b (leave_state a pool))
  = (fun c => let c1 := if bool_decide (a = s) then dec c else c in
              if bool_decide (b = s) then c1 +u32 1 else c1) <$> counter s pool.
Proof. by destruct s, a, b. Qed.

Lemma enter_leave_entries a b pool :
  q_entries (enter_state b (leave_state a pool)) = q_entries pool
  /\ q_subnet (enter_state b (leave_state a pool)) = q_subnet pool.
Proof. by destruct a, b. Qed.

(** Every operation is a sequence of such moves. *)
Lemma move_wf pool i e e' :
  pool6_wf pool -> pool.(q_entries) !! i = Some e -> e'.(n_ip_address) = e.(n_ip_address) ->
  pool6_wf (put_entry i e' (enter_state e'.(n_state) (leave_state e.(n_state) pool))).
Proof.
  intros Hwf He Hip. unfold put_entry.
  destruct (enter_leave_entries (n_state e) (n_state e') pool) as [-> _].
  assert (forall s c, counter s pool = Some c -> c = countb (in_state s) (q_entries pool) ->
    counter s (enter_state (n_state e') (leave_state (n_state e) pool))
    = Some (countb (in_state s) (<[i := e']> (q_entries pool)))) as Hc.
  { intros s c Hs Ec. rewrite counter_enter_leave, Hs. simpl. f_equal.
    rewrite (countb_insert _ _ _ _ _ He). subst c. unfold in_state at 2 3.
    apply (counter_step (length (q_entries pool)));
      [split; [apply countb_nonneg|apply countb_length]|by destruct Hwf|].
    intros Hb. by eapply countb_pos. }
  destruct Hwf as [Hb Hi Hn Ha Hl Hr]. constructor; simpl.
  - by rewrite length_insert.
  - apply Forall_insert; [done|]. rewrite Hip. by eapply Forall_lookup_1 in Hi.
  - by erewrite fmap_insert_ip.
  - specialize (Hc IP6_STATE_AVAILABLE _ eq_refl Ha). by injection Hc.
  - specialize (Hc IP6_STATE_ALLOCATED _ eq_refl Hl). by injection Hc.
  - specialize (Hc IP6_STATE_RESERVED _ eq_refl Hr). by injection Hc.
Qed.

(** Leaving and entering the same state. *)
Lemma enter_leave_same pool i e :
  pool6_wf pool -> pool.(q_entries) !! i = Some e ->
  enter_state e.(n_state) (leave_state e.(n_state) pool) = pool.
Proof.
  intros Hwf He.
  assert (forall s, e.(n_state) = s -> 1 <= countb (in_state s) (q_entries pool) <= 4096) as Hc.
  { intros s Hs. split.
    - eapply countb_pos; [done|]. by apply bool_decide_eq_true.
    - pose proof (countb_length (in_state s) (q_entries pool)). pose proof (p6_bound pool Hwf) as Hb.
      unfold MAX_POOL6_SIZE in Hb. lia. }
  assert (forall c, 1 <= c <= 4096 -> dec c +u32 1 = c) as Hd.
  { intros c Hr. unfold dec. destruct (Z.eqb_spec c 0); [lia|].
    rewrite (u32_small (c - 1)) by (unfold is_u32; lia). rewrite u32_small; unfold is_u32; lia. }
  destruct Hwf as [_ _ _ Ha Hl Hr]. destruct pool as [sn es a l r]. simpl in *.
  destruct (n_state e) eqn:Es; unfold set_q_available_count, set_q_allocated_count,
    set_q_reserved_count; simpl; rewrite ?Ha, ?Hl, ?Hr; try rewrite Hd by (by apply Hc); done.
Qed.

Lemma put_enter i e s pool : enter_state s (put_entry i e pool) = put_entry i e (enter_state s pool).
Proof. by destruct s. Qed.

Lemma put_leave i e s pool : leave_state s (put_entry i e pool) = put_entry i e (leave_state s pool).
Proof. by destruct s. Qed.

(** ** Operations other than allocation *)

(** [pool'] is [pool] with only states and owners changed. *)
Record same_shape (pool pool' : ip6_pool_t) : Prop := {
  sh_subnet : q_subnet pool' = q_subnet pool;
  sh_ips : n_ip_address <$> q_entries pool' = n_ip_address <$> q_entries pool
}.

#[export] Instance same_shape_preorder : PreOrder same_shape.
Proof. split; [done|]. intros p q r [] []. constructor; congruence. Qed.

(** A move keeps the invariant and the shape. *)
Definition moved (pool pool' : ip6_pool_t) : Prop := pool6_wf pool' /\ same_shape pool pool'.

Lemma moved_refl pool : pool6_wf pool -> moved pool pool.
Proof. by split. Qed.

Lemma moved_trans p q r : moved p q -> moved q r -> moved p r.
Proof. intros [_ H1] [H2 H3]. split; [done|]. by transitivity q. Qed.

Lemma move_moved pool i e e' :
  pool6_wf pool -> pool.(q_entries) !! i = Some e -> e'.(n_ip_address) = e.(n_ip_address) ->
  moved pool (put_entry i e' (enter_state e'.(n_state) (leave_state e.(n_state) pool))).
Proof.
  intros Hwf He Hip. split; [by apply move_wf|]. unfold put_entry.
  destruct (enter_leave_entries (n_state e) (n_state e') pool) as [E1 E2]. rewrite E1.
  constructor; simpl; [done|]. by eapply fmap_insert_ip.
Qed.

Create HintDb pool6.
#[export] Hint Resolve moved_refl : pool6.

Lemma update_from_lease_moved pool L :
  pool6_wf pool ->
  moved pool (ip6_pool_update_from_lease pool L).2.
Proof.
  intros Hwf. unfold ip6_pool_update_from_lease.
  destruct (find_entry_at pool (x_ip6_addr L)) as [[i e]|] eqn:E; [|by apply moved_refl].
  apply find_entry_at_entry in E as He. cbv zeta. cbn [snd].
  set (e' := if bool_decide (ip6_state_from_lease_state (x_state L) = IP6_STATE_ALLOCATED)
             then _ else _).
  assert (n_state e' = ip6_state_from_lease_state (x_state L)
          /\ n_ip_address e' = n_ip_address e) as [<- Hip'].
  { subst e'. repeat case_match; done. }
  by apply move_moved.
Qed.

Lemma sync_moved pool ls :
  pool6_wf pool ->
  moved pool (foldl (fun pool L => if x_in_use L then (ip6_pool_update_from_lease pool L).2
                                   else pool) pool ls).
Proof.
  revert pool. induction ls as [|L ls IH]; intros pool Hwf; simpl; [by apply moved_refl|].
  destruct (x_in_use L); [|by apply IH].
  pose proof (update_from_lease_moved pool L Hwf) as Hm.
  eapply moved_trans; [done|]. apply IH. by destruct Hm.
Qed.

Lemma mark_conflict6_moved now pool ip db :
  pool6_wf pool -> moved pool (ip6_pool_mark_conflict now pool ip db).1.2.
Proof.
  intros Hwf. unfold ip6_pool_mark_conflict.
  destruct (find_entry_at pool ip) as [[i e]|] eqn:E; [|by apply moved_refl].
  apply find_entry_at_entry in E as He.
  by apply (move_moved pool i e (set_n_state IP6_STATE_CONFLICT e)).
Qed.

Lemma release6_moved now pool ip db :
  pool6_wf pool -> moved pool (ip6_pool_release_ip now pool ip db).1.2.
Proof.
  intros Hwf. unfold ip6_pool_release_ip.
  destruct (find_entry_at pool ip) as [[i e]|] eqn:E; [|by apply moved_refl].
  apply find_entry_at_entry in E as He. cbv zeta. cbn [fst snd].
  destruct (in_state IP6_STATE_ALLOCATED e) eqn:Es; [|by apply moved_refl].
  apply bool_decide_eq_true in Es. rewrite <- Es.
  by apply (move_moved pool i e
    (set_n_last_allocated 0 (set_n_duid [] (set_n_state IP6_STATE_AVAILABLE e)))).
Qed.

Lemma reserve6_moved now pool ip duid :
  pool6_wf pool -> moved pool (ip6_pool_reserve_ip now pool ip duid).2.
Proof.
  intros Hwf. unfold ip6_pool_reserve_ip.
  destruct (find_entry_at pool ip) as [[i e]|] eqn:E; [|by apply moved_refl].
  apply find_entry_at_entry in E as He. cbv zeta. cbn [snd].
  set (e' := match duid with Some d => _ | None => _ end).
  assert (n_state e' = IP6_STATE_RESERVED /\ n_ip_address e' = n_ip_address e) as [Hs Hip'].
  { subst e'. repeat case_match; done. }
  rewrite put_enter, <- Hs. by apply move_moved.
Qed.

(** ** Initialisation *)

Lemma add_entry_wf ip pool :
  pool6_wf pool -> is_in6 ip -> (length (q_entries pool) < MAX_POOL6_SIZE)%nat ->
  (ip ∉ n_ip_address <$> q_entries pool) -> pool6_wf (add_entry ip pool).
Proof.
  intros [Hb Hi Hn Ha Hl Hr] Hip Hlt Hnew. constructor; simpl.
  - rewrite length_app. simpl. lia.
  - apply Forall_app. split; [done|]. by constructor.
  - rewrite fmap_app. apply NoDup_app. split; [done|]. split; [|apply NoDup_singleton].
    intros x Hx. simpl. intros ->%list_elem_of_singleton. done.
  - rewrite countb_app, Ha.
    change (countb (in_state IP6_STATE_AVAILABLE) [free_entry ip]) with 1.
    pose proof (countb_nonneg (in_state IP6_STATE_AVAILABLE) (q_entries pool)).
    pose proof (countb_length (in_state IP6_STATE_AVAILABLE) (q_entries pool)).
    unfold MAX_POOL6_SIZE in Hlt. rewrite u32_small; unfold is_u32; lia.
  - rewrite countb_app, Hl.
    change (countb (in_state IP6_STATE_ALLOCATED) [free_entry ip]) with 0. lia.
  - rewrite countb_app, Hr.
    change (countb (in_state IP6_STATE_RESERVED) [free_entry ip]) with 0. lia.
Qed.

(** The loop has built the addresses from [start] up to [cur]. *)
Record built (start : Z) (cur : in6_addr) (pool : ip6_pool_t) : Prop := {
  b_wf : pool6_wf pool;
  b_cur : is_in6 cur;
  b_start : 0 <= start;
  b_ips : be_val <$> (n_ip_address <$> q_entries pool) = seqZ start (be_val cur - start);
  b_le : start <= be_val cur;
  b_len : Z.of_nat (length (q_entries pool)) = be_val cur - start;
  b_free : Forall (fun e => e = free_entry e.(n_ip_address)) (q_entries pool)
}.

Lemma built_add start cur pool :
  built start cur pool -> (length (q_entries pool) < MAX_POOL6_SIZE)%nat ->
  be_val <$> (n_ip_address <$> q_entries (add_entry cur pool))
    = seqZ start (be_val cur + 1 - start)
  /\ pool6_wf (add_entry cur pool)
  /\ Forall (fun e => e = free_entry e.(n_ip_address)) (q_entries (add_entry cur pool)).
Proof.
  intros [Hwf Hc Hs Hi Hle Hlen Hf] Hlt. split_and!.
  - simpl. rewrite !fmap_app, Hi. simpl.
    replace (be_val cur + 1 - start) with ((be_val cur - start) + 1) by lia.
    rewrite seqZ_app by lia. replace (start + (be_val cur - start)) with (be_val cur) by lia.
    done.
  - apply add_entry_wf; [done..|]. intros Hin.
    apply (list_elem_of_fmap_2 be_val) in Hin. rewrite Hi in Hin.
    apply elem_of_seqZ in Hin. lia.
  - simpl. apply Forall_app. split; [done|]. by constructor.
Qed.

(** What the loop leaves, whatever ends it. *)
Definition range_pool (start stop : in6_addr) (pool : ip6_pool_t) : Prop :=
  pool6_wf pool
  /\ Forall (fun e => e = free_entry e.(n_ip_address)) (q_entries pool)
  /\ be_val <$> (n_ip_address <$> q_entries pool)
     = seqZ (be_val start) (Z.max 0 (Z.min 4096 (be_val stop - be_val start + 1))).

Lemma init6_loop_spec start stop : forall fuel iterations cur pool,
  is_in6 start -> is_in6 stop -> built (be_val start) cur pool ->
  be_val cur <= Z.max (be_val start) (be_val stop + 1) ->
  iterations = Z.of_nat (length (q_entries pool)) ->
  (MAX_POOL6_SIZE < fuel + length (q_entries pool))%nat ->
  exists pool', init6_loop fuel iterations cur stop pool = Some pool'
    /\ q_subnet pool' = q_subnet pool /\ range_pool start stop pool'.
Proof.
  intros fuel. induction fuel as [|fuel IH]; intros its cur pool Hst Hsp Hb Hle Hit Hf.
  { destruct Hb as [[] _ _ _ _ _ _]. lia. }
  cbn [init6_loop]. rewrite compare_value by (done || apply Hb).
  pose proof Hb as [Hwf Hc Hs Hi Hle' Hlen Hfr]. pose proof (p6_bound pool Hwf) as Hbd.
  destruct (Z.ltb_spec 0 (Z.sgn (be_val cur - be_val stop))) as [Hgt|Hng].
  { exists pool. split_and!; [done..|]. split_and!; [done..|]. rewrite Hi. f_equal.
    unfold MAX_POOL6_SIZE in Hbd. lia. }
  assert (be_val cur <= be_val stop) as Hcs by lia.
  assert (its <= 4096) as Hits by (unfold MAX_POOL6_SIZE in Hbd; lia).
  destruct (Z.ltb_spec 50000 its); [lia|].
  case_bool_decide as Hfull.
  { exists pool. split_and!; [done..|]. split_and!; [done..|]. rewrite Hi. f_equal.
    unfold MAX_POOL6_SIZE in *. lia. }
  destruct (built_add (be_val start) cur pool Hb) as (Hi' & Hwf' & Hf'); [lia|].
  destruct (increment_value cur Hc) as (Hn & Hv & Hok).
  pose proof (in6_range stop Hsp) as Hr.
  destruct (ipv6_increment cur) as [ok next]. simpl in Hn, Hv, Hok. subst ok.
  destruct (Z.ltb_spec (be_val cur + 1) (2 ^ 128)) as [Hlt|Hge].
  - rewrite Z.mod_small in Hv by lia.
    assert (length (q_entries (add_entry cur pool)) = S (length (q_entries pool))) as Hl'.
    { simpl. rewrite length_app. simpl. lia. }
    apply (IH (its + 1) next (add_entry cur pool)); [done..| | | |].
    + constructor; [done..| | | |done]; rewrite ?Hv; [done|lia|]. rewrite Hl'. lia.
    + lia.
    + rewrite Hl'. lia.
    + rewrite Hl'. lia.
  - eexists. split; [reflexivity|]. split; [done|]. split_and!; [done..|]. rewrite Hi'. f_equal.
    assert (length (q_entries pool) < 4096)%nat by (unfold MAX_POOL6_SIZE in *; lia). lia.
Qed.

Lemma built_empty subnet start : is_in6 start -> built (be_val start) start (empty_pool6 subnet).
Proof.
  intros Hs. pose proof (in6_range start Hs). rewrite <- (Z.add_0_r (be_val start)) at 1.
  constructor; simpl; try lia; try done.
  - constructor; simpl; try done; try lia; apply NoDup_nil_2.
  - by rewrite Z.add_0_r, Z.sub_diag.
Qed.

(** The ends of the range are addresses. *)
Definition range6_ok (subnet : dhcpv6_subnet_t) : Prop :=
  is_in6 subnet.(s6_pool_start_bin) /\ is_in6 subnet.(s6_pool_end_bin).

Lemma reserve_hosts_moved now hosts pool :
  pool6_wf pool ->
  moved pool (foldl (reserve_host now) pool hosts).
Proof.
  revert pool. induction hosts as [|h hosts IH]; intros pool Hwf; simpl; [by apply moved_refl|].
  assert (moved pool (reserve_host now pool h)) as Hm.
  { unfold reserve_host. destruct (negb _); [by apply moved_refl|by apply reserve6_moved]. }
  eapply moved_trans; [done|]. apply IH. by destruct Hm.
Qed.

Lemma pool6_init_spec now subnet db :
  range6_ok subnet -> subnet.(s6_has_pool_range) = true ->
  exists pool, ip6_pool_init now subnet db = Some (0, pool)
    /\ pool6_wf pool /\ q_subnet pool = subnet
    /\ be_val <$> (n_ip_address <$> q_entries pool)
       = seqZ (be_val subnet.(s6_pool_start_bin))
           (Z.max 0 (Z.min 4096 (be_val subnet.(s6_pool_end_bin)
                                 - be_val subnet.(s6_pool_start_bin) + 1))).
Proof.
  intros [Hs He] Hr. unfold ip6_pool_init. rewrite Hr. cbn [negb].
  destruct (init6_loop_spec (s6_pool_start_bin subnet) (s6_pool_end_bin subnet)
    (S MAX_POOL6_SIZE) 0 (s6_pool_start_bin subnet) (empty_pool6 subnet))
    as (pool & -> & Hsub & Hwf & _ & Hips); [done|done|by apply built_empty|lia|done|cbn [empty_pool6 q_entries length]; lia|].
  cbn [mbind option_bind].
  assert (moved pool (match db with Some db => (ip6_pool_sync_with_leases pool db).2
                      | None => pool end)) as H1.
  { destruct db; [by apply sync_moved|by apply moved_refl]. }
  eexists. split; [reflexivity|].
  assert (moved pool (foldl (reserve_host now)
    (match db with Some db => (ip6_pool_sync_with_leases pool db).2 | None => pool end)
    (s6_hosts subnet))) as [H2 [H3 H4]].
  { eapply moved_trans; [done|]. apply reserve_hosts_moved. by destruct H1. }
  split; [done|]. rewrite H3, H4. split; [exact Hsub|done].
Qed.

(** ** Allocation *)

Section allocation_spec.
Variable ping : in6_addr -> Z -> bool.
Variables now t1 t2 : Z.
Variables (d : list Z) (iaid : Z) (host : option cstr) (lease_time : Z).
Variables (do_probe : bool) (tmo : Z).
Hypothesis d_ok : duid_ok d.

Local Abbreviation duid := (hex_loop d).
Local Abbreviation answers := (probe ping do_probe tmo).

(** The lease an allocation leaves for [ip]. *)
Definition leased (db : lease_v6_db_t) (ip : in6_addr) : Prop :=
  exists i l, lease_v6_find_by_ip db ip = Some i /\ db.(d_leases) !! i = Some l
    /\ x_state l = LEASE_STATE_ACTIVE /\ x_iaid l = iaid /\ x_ends l = t2 + lease_time
    /\ (d <> [] -> take (length d) l.(x_duid) = d).

Lemma add_lease_spec db ip :
  db6_wf db ->
  let '(r, db') := add_lease t1 t2 duid iaid host lease_time db ip in
  db6_wf db' /\ (length db.(d_leases) <= length db'.(d_leases))%nat
  /\ match r with
     | Some _ => leased db' ip
     | None => length db.(d_leases) = LEASES6_MAX /\ db' = db /\ lease_v6_find_by_ip db ip = None
     end.
Proof.
  intros Hwf. pose proof (add_na_result t1 t2 db d iaid ip lease_time host Hwf d_ok) as H.
  unfold add_lease. destruct (lease_v6_add_ia_na t1 t2 db duid iaid ip lease_time host)
    as [[i|] db'] eqn:E; unfold add_result in H; simpl in H; cycle 1.
  { destruct H as (Hn & Hl & ->). auto. }
  destruct H as (Hwf' & Hi & Hne & l & Hl & _ & Hst & Hia & _ & Hen & Hd).
  split_and!; [done| |].
  - destruct (decide (length (d_leases db) <= length (d_leases db'))%nat) as [|Hn]; [done|].
    exfalso. pose proof (lookup_lt_Some _ _ _ Hl) as Hlt.
    assert (i <> length (d_leases db'))%nat as Hne' by lia.
    specialize (Hne (length (d_leases db')) ltac:(lia)).
    rewrite lookup_ge_None_2 in Hne by lia. symmetry in Hne. apply lookup_ge_None_1 in Hne. lia.
  - exists i, l. split_and!; [exact (add_na_found _ _ _ _ _ _ _ _ _ _ Hwf d_ok E)|done..|]. intros Hd0. by apply Hd.
Qed.

(** What may happen to an entry that is not the one allocated: nothing, unless it was
    available, and then it is still available or its address answered the probe. *)
Definition entry_kept (e e' : ip6_pool_entry_t) : Prop :=
  e'.(n_ip_address) = e.(n_ip_address)
  /\ (e.(n_state) <> IP6_STATE_AVAILABLE -> e' = e)
  /\ (e.(n_state) = IP6_STATE_AVAILABLE ->
      e'.(n_state) = IP6_STATE_AVAILABLE
      \/ e'.(n_state) = IP6_STATE_CONFLICT /\ answers e.(n_ip_address) = true).

Lemma entry_kept_refl e : entry_kept e e.
Proof. split_and!; auto. Qed.

Definition kept_except (P : nat -> Prop) (pool pool' : ip6_pool_t) : Prop :=
  forall j, ~ P j -> option_Forall2 entry_kept (q_entries pool !! j) (q_entries pool' !! j).

Lemma option_kept_refl o : option_Forall2 entry_kept o o.
Proof. destruct o; constructor. apply entry_kept_refl. Qed.

(** The effect of an allocation that ends at entry [k] or nowhere. *)
Definition allocated_at (from : nat) (pool pool' : ip6_pool_t) (db' : lease_v6_db_t)
    (r : ip6_allocation_result_t) : Prop :=
  exists k e, (from <= k)%nat /\ q_entries pool !! k = Some e
    /\ e.(n_state) = IP6_STATE_AVAILABLE /\ answers e.(n_ip_address) = false
    /\ r6_ip_address r = e.(n_ip_address) /\ r6_is_new r = true
    /\ q_entries pool' !! k = Some (claim_entry now duid e)
    /\ leased db' e.(n_ip_address)
    /\ kept_except (fun j => j = k) pool pool'.

Definition nothing_free (from : nat) (pool pool' : ip6_pool_t) (db : lease_v6_db_t) : Prop :=
  kept_except (fun _ => False) pool pool'
  /\ forall j e, (from <= j)%nat -> q_entries pool !! j = Some e ->
       e.(n_state) = IP6_STATE_AVAILABLE ->
       answers e.(n_ip_address) = true \/ length db.(d_leases) = LEASES6_MAX.

(** What changing entry [i] first does to those effects. *)
Lemma kept_first (P : nat -> Prop) pool pool1 pool' i e e1 :
  q_entries pool !! i = Some e -> q_entries pool1 = <[i := e1]> (q_entries pool) ->
  entry_kept e e1 -> q_entries pool' !! i = Some e1 ->
  kept_except P pool1 pool' -> kept_except P pool pool'.
Proof.
  intros He E1 Hk Hi H j Hj. destruct (decide (j = i)) as [->|Hne].
  - rewrite He, Hi. by constructor.
  - specialize (H j Hj). by rewrite E1, list_lookup_insert_ne in H.
Qed.

Lemma mark_conflict6_entries pool db i e :
  pool6_wf pool -> q_entries pool !! i = Some e ->
  exists pool' db', ip6_pool_mark_conflict now pool e.(n_ip_address) (Some db) = (0, pool', Some db')
    /\ q_entries pool' = <[i := set_n_state IP6_STATE_CONFLICT e]> (q_entries pool)
    /\ moved pool pool'
    /\ db' = (lease_v6_mark_conflict 0 now db e.(n_ip_address)).2.
Proof.
  intros Hwf He.
  pose proof (mark_conflict6_moved now pool (n_ip_address e) (Some db) Hwf) as Hm.
  unfold ip6_pool_mark_conflict in *. rewrite (find_entry_at_lookup pool i e Hwf He) in *.
  eexists _, _. split; [reflexivity|]. split_and!; [|done|done].
  simpl. by destruct (n_state e).
Qed.

Lemma mark_conflict_db_length db ip :
  length (d_leases (lease_v6_mark_conflict 0 now db ip).2) = length (d_leases db).
Proof.
  unfold lease_v6_mark_conflict, lease_v6_set_state.
  destruct (lease_v6_find_by_ip db ip); [simpl; by rewrite length_alter|done].
Qed.
(** The state after the loop from entry [i] on. *)
Definition loop_result (i : nat) (pool : ip6_pool_t) (db : lease_v6_db_t)
    (res : ip6_allocation_result_t * ip6_pool_t * lease_v6_db_t) : Prop :=
  let '(r, pool', db') := res in
  moved pool pool' /\ db6_wf db'
  /\ (forall j, (j < i)%nat -> q_entries pool' !! j = q_entries pool !! j)
  /\ if r6_success r then allocated_at i pool pool' db' r
     else nothing_free i pool pool' db /\ r6_error_message r = "no free addresses".

(** One round that left the client without an address. *)
Lemma loop_result_round i pool pool1 db db1 e e1 res :
  q_entries pool !! i = Some e -> moved pool pool1 ->
  q_entries pool1 = <[i := e1]> (q_entries pool) -> entry_kept e e1 ->
  length (d_leases db1) = length (d_leases db) ->
  (e.(n_state) = IP6_STATE_AVAILABLE ->
   answers e.(n_ip_address) = true \/ length (d_leases db) = LEASES6_MAX) ->
  loop_result (S i) pool1 db1 res -> loop_result i pool db res.
Proof.
  intros He Hm E1 Hk Hdb Hav. destruct res as [[r pool'] db']. unfold loop_result.
  intros (Hm' & Hwf & Hlt & Hr).
  pose proof (lookup_lt_Some _ _ _ He) as Hi.
  assert (q_entries pool' !! i = Some e1) as He1.
  { rewrite Hlt by lia. rewrite E1. by apply list_lookup_insert_eq. }
  assert (forall j, j <> i -> q_entries pool1 !! j = q_entries pool !! j) as Hne.
  { intros j Hj. rewrite E1. by apply list_lookup_insert_ne. }
  split_and!; [by eapply moved_trans|done| |].
  - intros j Hj. rewrite Hlt by lia. apply Hne. lia.
  - destruct (r6_success r).
    + destruct Hr as (k & ek & Hik & Hek & Hs & Ha & Hip & Hnew & Hcl & Hls & Hkp).
      exists k, ek. rewrite Hne in Hek by lia. split_and!; try done; [lia|].
      eapply kept_first; [exact He|exact E1|exact Hk|exact He1|exact Hkp].
    + destruct Hr as [[Hkp Hfree] Hmsg]. split; [split|done].
      * eapply kept_first; [exact He|exact E1|exact Hk|exact He1|exact Hkp].
      * intros j ej Hij Hej Hs. destruct (decide (j = i)) as [->|Hji].
        { simplify_eq. by apply Hav. }
        rewrite <- Hdb. apply (Hfree j); [lia|by rewrite Hne|done].
Qed.

Lemma kept_except_refl P pool : kept_except P pool pool.
Proof. intros j _. apply option_kept_refl. Qed.

Lemma loop_result_stop i pool db :
  pool6_wf pool -> db6_wf db -> (length (q_entries pool) <= i)%nat ->
  loop_result i pool db (alloc6_error "no free addresses", pool, db).
Proof.
  intros Hwf Hdb Hi. unfold loop_result. split_and!; try done. simpl. split; [split|done].
  - apply kept_except_refl.
  - intros j e Hij He. apply lookup_lt_Some in He. lia.
Qed.

Lemma claim_moved pool i e :
  pool6_wf pool -> q_entries pool !! i = Some e -> e.(n_state) = IP6_STATE_AVAILABLE ->
  let pool1 := put_entry i (claim_entry now duid e)
    (enter_state IP6_STATE_ALLOCATED (leave_state IP6_STATE_AVAILABLE pool)) in
  moved pool pool1 /\ q_entries pool1 = <[i := claim_entry now duid e]> (q_entries pool).
Proof.
  intros Hwf He Hs. cbv zeta. split; [|done]. rewrite <- Hs.
  by apply (move_moved pool i e (claim_entry now duid e)).
Qed.

Lemma unclaim_moved pool i e :
  pool6_wf pool -> q_entries pool !! i = Some e -> e.(n_state) = IP6_STATE_ALLOCATED ->
  moved pool (unclaim i e pool)
  /\ q_entries (unclaim i e pool)
     = <[i := set_n_duid [] (set_n_state IP6_STATE_AVAILABLE e)]> (q_entries pool).
Proof.
  intros Hwf He Hs. split; [|done]. unfold unclaim. rewrite <- Hs.
  by apply (move_moved pool i e (set_n_duid [] (set_n_state IP6_STATE_AVAILABLE e))).
Qed.

Lemma allocate_loop_spec n : forall i m pool db,
  pool6_wf pool -> db6_wf db -> (length (q_entries pool) <= n + i)%nat ->
  loop_result i pool db
    (allocate_loop ping now t1 t2 duid iaid host lease_time do_probe tmo n i m pool db).
Proof.
  induction n as [|n IH]; intros i m pool db Hwf Hdb Hn; cbn [allocate_loop].
  { by apply loop_result_stop. }
  destruct (q_entries pool !! i) as [e|] eqn:He; cycle 1.
  { apply loop_result_stop; [done..|]. by apply lookup_ge_None_1. }
  pose proof (lookup_lt_Some _ _ _ He) as Hi.
  destruct (in_state IP6_STATE_AVAILABLE e) eqn:Hs; cbn [negb]; cycle 1.
  { apply bool_decide_eq_false in Hs.
    eapply (loop_result_round i pool pool db db e e); [done|by apply moved_refl|
      by rewrite list_insert_id|apply entry_kept_refl|done|done|]. apply IH; [done..|lia]. }
  apply bool_decide_eq_true in Hs.
  destruct (answers (n_ip_address e)) eqn:Ha.
  - destruct (mark_conflict6_entries pool db i e Hwf He) as (pool1 & db1 & -> & E1 & Hm & ->).
    eapply (loop_result_round i pool pool1 db); [done..| |apply mark_conflict_db_length|by auto|].
    + split_and!; [done|by rewrite Hs|]. by right.
    + simpl. apply IH; [by destruct Hm|by apply mark_conflict_wf|].
      rewrite E1, length_insert. lia.
  - destruct (claim_moved pool i e Hwf He Hs) as [Hm E1].
    set (pool1 := put_entry i (claim_entry now duid e) _) in *.
    assert (q_entries pool1 !! i = Some (claim_entry now duid e)) as He1.
    { rewrite E1. by apply list_lookup_insert_eq. }
    pose proof (add_lease_spec db (n_ip_address (claim_entry now duid e)) Hdb) as Hl.
    destruct (add_lease t1 t2 duid iaid host lease_time db _) as [[x|] db1];
      destruct Hl as (Hdb1 & _ & Hl); cycle 1.
    + destruct Hl as (Hfull & -> & _).
      destruct (unclaim_moved pool1 i _ (proj1 Hm) He1 eq_refl) as [Hm2 E2].
      rewrite E1, list_insert_insert in E2. rewrite decide_True in E2 by done.
      eapply (loop_result_round i pool (unclaim i (claim_entry now duid e) pool1) db db);
        [done|by eapply moved_trans|exact E2| |done|by right|].
      * split_and!; [done|by rewrite Hs|]. by left.
      * apply IH; [by destruct Hm2|done|]. rewrite E2, length_insert. lia.
    + unfold loop_result. split_and!; [done|done| |].
      * intros j Hj. rewrite E1. apply list_lookup_insert_ne. lia.
      * simpl. exists i, e. split_and!; try done.
        intros j Hj. rewrite E1, list_lookup_insert_ne by done. apply option_kept_refl.
Qed.

(** ** The branches of [ip6_pool_allocate] *)

Lemma persist_spec pool db i e is_new :
  pool6_wf pool -> db6_wf db -> q_entries pool !! i = Some e ->
  e.(n_state) = IP6_STATE_ALLOCATED ->
  let '(r, pool', db') := persist t1 t2 duid iaid host lease_time i e is_new pool db in
  moved pool pool' /\ db6_wf db'
  /\ if r6_success r
     then pool' = pool /\ leased db' e.(n_ip_address)
          /\ r6_ip_address r = e.(n_ip_address) /\ r6_is_new r = is_new
     else length (d_leases db) = LEASES6_MAX /\ r6_err_is_conflict r = false
          /\ q_entries pool' = <[i := set_n_duid [] (set_n_state IP6_STATE_AVAILABLE e)]>
                                 (q_entries pool).
Proof.
  intros Hwf Hdb He Hs. unfold persist.
  pose proof (add_lease_spec db (n_ip_address e) Hdb) as Hl.
  destruct (add_lease t1 t2 duid iaid host lease_time db _) as [[x|] db1];
    destruct Hl as (Hdb1 & _ & Hl); simpl.
  - split_and!; [by apply moved_refl|done..].
  - destruct (unclaim_moved pool i e Hwf He Hs) as [Hm E]. destruct Hl as (? & -> & _). by split_and!.
Qed.

Lemma conflict_on_spec m pool db i e :
  pool6_wf pool -> db6_wf db -> q_entries pool !! i = Some e ->
  let '(r, pool', db') := conflict_on now m e.(n_ip_address) pool db in
  moved pool pool' /\ db6_wf db' /\ r = alloc6_conflict e.(n_ip_address) m
  /\ q_entries pool' = <[i := set_n_state IP6_STATE_CONFLICT e]> (q_entries pool).
Proof.
  intros Hwf Hdb He. unfold conflict_on.
  destruct (mark_conflict6_entries pool db i e Hwf He) as (pool1 & db1 & -> & E1 & Hm & ->).
  split_and!; [done|by apply mark_conflict_wf|done..].
Qed.

(** Only entry [i] differs. *)
Lemma kept_insert pool pool' i e e' :
  q_entries pool !! i = Some e -> q_entries pool' = <[i := e']> (q_entries pool) ->
  kept_except (fun j => j = i) pool pool'
  /\ (entry_kept e e' -> kept_except (fun _ => False) pool pool').
Proof.
  intros He E. pose proof (lookup_lt_Some _ _ _ He) as Hlt. split.
  - intros j Hj. rewrite E, list_lookup_insert_ne by done. apply option_kept_refl.
  - intros Hk j _. rewrite E. destruct (decide (j = i)) as [->|Hne].
    + rewrite list_lookup_insert_eq, He by done. by constructor.
    + rewrite list_lookup_insert_ne by done. apply option_kept_refl.
Qed.

(** The static branch claims the entry whatever its state. *)
Lemma allocate_static_spec pool db i e :
  pool6_wf pool -> db6_wf db -> q_entries pool !! i = Some e ->
  let '(r, pool', db') :=
    allocate_static ping now t1 t2 duid iaid host lease_time do_probe tmo i e pool db in
  moved pool pool' /\ db6_wf db' /\ kept_except (fun j => j = i) pool pool'
  /\ if r6_success r
     then answers e.(n_ip_address) = false /\ r6_ip_address r = e.(n_ip_address)
          /\ r6_is_new r = false
          /\ q_entries pool' !! i = Some (claim_entry now duid e) /\ leased db' e.(n_ip_address)
     else (r6_err_is_conflict r = true /\ answers e.(n_ip_address) = true)
          \/ length (d_leases db) = LEASES6_MAX.
Proof.
  intros Hwf Hdb He. unfold allocate_static.
  destruct (answers (n_ip_address e)) eqn:Ha.
  { pose proof (conflict_on_spec "conflict on reserved address" pool db i e Hwf Hdb He) as H.
    destruct (conflict_on now _ _ pool db) as [[r pool'] db'].
    destruct H as (Hm & Hdb' & -> & E). split_and!; [done|done| |by left].
    eapply kept_insert; [exact He|exact E]. }
  cbv zeta. set (pool1 := if negb (in_state IP6_STATE_ALLOCATED e) then _ else _).
  assert (pool1 = enter_state IP6_STATE_ALLOCATED (leave_state (n_state e) pool)) as ->.
  { subst pool1. unfold in_state. pose proof (enter_leave_same pool i e Hwf He) as Hid.
    destruct (n_state e); simpl; try done. }
  pose proof (move_moved pool i e (claim_entry now duid e) Hwf He eq_refl) as Hm.
  set (pool1 := put_entry i (claim_entry now duid e) _) in *.
  change (put_entry i (claim_entry now duid e)
    (enter_state (n_state (claim_entry now duid e)) (leave_state (n_state e) pool)))
    with pool1 in Hm.
  pose proof (lookup_lt_Some _ _ _ He) as Hlt.
  assert (q_entries pool1 = <[i := claim_entry now duid e]> (q_entries pool)) as E1.
  { subst pool1. simpl. by destruct (n_state e). }
  pose proof (persist_spec pool1 db i (claim_entry now duid e) false (proj1 Hm) Hdb) as H.
  rewrite E1, list_lookup_insert_eq in H by done. specialize (H eq_refl eq_refl).
  destruct (persist _ _ _ _ _ _ i _ false pool1 db) as [[r pool'] db'].
  destruct H as (Hm' & Hdb' & Hr). split; [by eapply moved_trans|]. split; [done|].
  destruct (r6_success r).
  - destruct Hr as (-> & Hl & Hip & Hn). split; [by eapply kept_insert|].
    rewrite E1, list_lookup_insert_eq by done. done.
  - destruct Hr as (Hfull & _ & E2). split; [|by right].
    rewrite list_insert_insert, decide_True in E2 by done. by eapply kept_insert.
Qed.

(** The dynamic part: the address held, the address requested, or a free one. *)
Definition dynamic_result (req : in6_addr) (pool : ip6_pool_t) (db : lease_v6_db_t)
    (res : ip6_allocation_result_t * ip6_pool_t * lease_v6_db_t) : Prop :=
  let '(r, pool', db') := res in
  moved pool pool' /\ db6_wf db'
  /\ if r6_success r then
       (exists e, held_entry duid pool = Some e /\ pool' = pool
          /\ r6_ip_address r = e.(n_ip_address) /\ r6_is_new r = false
          /\ (leased db' e.(n_ip_address)
              \/ length (d_leases db) = LEASES6_MAX /\ db' = db
                 /\ lease_v6_find_by_ip db e.(n_ip_address) = None))
       \/ held_entry duid pool = None /\ allocated_at 0 pool pool' db' r
     else
       held_entry duid pool = None /\ kept_except (fun _ => False) pool pool'
       /\ (r6_err_is_conflict r = true /\ answers req = true
           /\ ip6_pool_is_available pool req = true
           \/ length (d_leases db) = LEASES6_MAX
           \/ nothing_free 0 pool pool' db).

Lemma loop_dynamic req pool db :
  pool6_wf pool -> db6_wf db -> held_entry duid pool = None ->
  dynamic_result req pool db
    (allocate_loop ping now t1 t2 duid iaid host lease_time do_probe tmo
       (length (q_entries pool)) 0 "" pool db).
Proof.
  intros Hwf Hdb Hh.
  pose proof (allocate_loop_spec (length (q_entries pool)) 0 "" pool db Hwf Hdb ltac:(lia)) as H.
  destruct (allocate_loop _ _ _ _ _ _ _ _ _ _ _ _ _ pool db) as [[r pool'] db'].
  destruct H as (Hm & Hdb' & _ & Hr). unfold dynamic_result. split_and!; [done|done|].
  destruct (r6_success r); [by right|]. destruct Hr as [Hn _]. split_and!; [done| |auto].
  by destruct Hn.
Qed.

Lemma requested_dynamic req pool db i e :
  pool6_wf pool -> db6_wf db -> held_entry duid pool = None ->
  q_entries pool !! i = Some e -> e.(n_ip_address) = req ->
  e.(n_state) = IP6_STATE_AVAILABLE -> answers req = false ->
  dynamic_result req pool db
    (allocate_requested now t1 t2 duid iaid host lease_time i e pool db).
Proof.
  intros Hwf Hdb Hh He <- Hs Ha. unfold allocate_requested, in_state. rewrite Hs. simpl.
  destruct (claim_moved pool i e Hwf He Hs) as [Hm E1].
  set (pool1 := put_entry i (claim_entry now duid e) _) in *.
  pose proof (lookup_lt_Some _ _ _ He) as Hlt.
  pose proof (persist_spec pool1 db i (claim_entry now duid e) true (proj1 Hm) Hdb) as H.
  rewrite E1, list_lookup_insert_eq in H by done. specialize (H eq_refl eq_refl).
  destruct (persist _ _ _ _ _ _ i _ true pool1 db) as [[r pool'] db'].
  destruct H as (Hm' & Hdb' & Hr). unfold dynamic_result.
  split; [by eapply moved_trans|]. split; [done|].
  destruct (r6_success r).
  - destruct Hr as (-> & Hl & Hip & Hn). right. split; [done|]. exists i, e.
    split_and!; try done; [lia| |by eapply kept_insert].
    by rewrite E1, list_lookup_insert_eq by done.
  - destruct Hr as (Hfull & _ & E2). rewrite list_insert_insert, decide_True in E2 by done.
    split_and!; [done| |by right; left]. eapply kept_insert; [exact He|exact E2|].
    split_and!; [done|by rewrite Hs|by left].
Qed.

Lemma allocate_dynamic_spec req pool db :
  pool6_wf pool -> db6_wf db -> is_in6 req ->
  dynamic_result req pool db
    (allocate_dynamic ping now t1 t2 duid iaid host lease_time do_probe tmo req pool db).
Proof.
  intros Hwf Hdb Hreq. unfold allocate_dynamic.
  destruct (held_entry duid pool) as [e|] eqn:Hh.
  { pose proof (add_lease_spec db (n_ip_address e) Hdb) as Hl.
    destruct (add_lease t1 t2 duid iaid host lease_time db _) as [x db1].
    destruct Hl as (Hdb1 & _ & Hl). unfold dynamic_result. simpl.
    split_and!; [by apply moved_refl|done|]. left. exists e. split_and!; try done.
    destruct x; [by left|by right]. }
  cbv zeta. destruct (negb _ && _ && ip6_pool_is_available pool req) eqn:Hc;
    [|by apply loop_dynamic].
  apply andb_true_iff in Hc as [_ Hav]. pose proof Hav as Hav'.
  unfold ip6_pool_is_available in Hav.
  destruct (find_entry_at pool req) as [[i e]|] eqn:E; [|done].
  apply bool_decide_eq_true in Hav. apply find_entry_at_Some in E as [He Hip]; [|done..].
  destruct (answers req) eqn:Ha; [|by apply requested_dynamic].
  rewrite <- Hip.
  pose proof (conflict_on_spec "conflict on requested address" pool db i e Hwf Hdb He) as H.
  destruct (conflict_on now _ _ pool db) as [[r pool'] db'].
  destruct H as (Hm & Hdb' & -> & E). unfold dynamic_result. simpl.
  split_and!; [done..| |].
  - eapply kept_insert; [exact He|exact E|]. split_and!; [done|by rewrite Hav|]. right. by rewrite Hip.
  - left. by rewrite Hip.
Qed.
End allocation_spec.

(** The whole operation keeps the invariants. *)
Lemma allocate6_moved ping now t1 t2 d iaid host secs pool req cfg db :
  duid_ok d -> pool6_wf pool -> db6_wf db -> is_in6 req ->
  let '(_, pool', db') :=
    ip6_pool_allocate ping now t1 t2 (hex_loop d) iaid host secs pool req cfg db in
  moved pool pool' /\ db6_wf db'.
Proof.
  intros Hd Hwf Hdb Hreq. unfold ip6_pool_allocate.
  destruct (get_effective_probe cfg (q_subnet pool)) as [do_probe tmo].
  pose proof (allocate_dynamic_spec ping now t1 t2 d iaid host secs do_probe tmo Hd req pool db
    Hwf Hdb Hreq) as Hdyn.
  destruct (static_host (hex_loop d) (q_subnet pool)) as [h|] eqn:Es.
  - destruct (find_entry_at pool (h6_fixed_addr6_bin h)) as [[i e]|] eqn:E.
    + apply find_entry_at_entry in E as He.
      pose proof (allocate_static_spec ping now t1 t2 d iaid host secs do_probe tmo Hd pool db
        i e Hwf Hdb He) as H.
      destruct (allocate_static _ _ _ _ _ _ _ _ _ _ i e pool db) as [[r pool'] db'].
      by destruct H as (? & ? & _).
    + destruct (allocate_dynamic _ _ _ _ _ _ _ _ _ _ req pool db) as [[r pool'] db'].
      by destruct Hdyn as (? & ? & _).
  - destruct (allocate_dynamic _ _ _ _ _ _ _ _ _ _ req pool db) as [[r pool'] db'].
    by destruct Hdyn as (? & ? & _).
Qed.

(** ** Sequences of operations *)

Inductive pool6_op :=
| Alloc6 (ping : in6_addr -> Z -> bool) (now t1 t2 : Z) (d : list Z) (iaid : Z)
    (host : option cstr) (secs : Z) (req : in6_addr)
| Release6 (now : Z) (ip : in6_addr)
| Reserve6 (now : Z) (ip : in6_addr) (duid : option cstr)
| Conflict6 (now : Z) (ip : in6_addr)
| Renew6 (now : Z) (ip : in6_addr) (secs : Z)
| Expire6 (now : Z)
| Cleanup6
| Sync6.

(** One operation on the pool and its database; the leases may also be renewed, expired
    and cleaned up between the pool's operations. *)
Definition pool6_exec (cfg : dhcpv6_config_t) (s : ip6_pool_t * lease_v6_db_t) (op : pool6_op)
    : ip6_pool_t * lease_v6_db_t :=
  let '(pool, db) := s in
  match op with
  | Alloc6 ping now t1 t2 d iaid host secs req =>
      let '(_, pool, db) :=
        ip6_pool_allocate ping now t1 t2 (hex_loop d) iaid host secs pool req cfg db in
      (pool, db)
  | Release6 now ip =>
      let '(_, pool, db') := ip6_pool_release_ip now pool ip (Some db) in (pool, default db db')
  | Reserve6 now ip duid => ((ip6_pool_reserve_ip now pool ip duid).2, db)
  | Conflict6 now ip =>
      let '(_, pool, db') := ip6_pool_mark_conflict now pool ip (Some db) in
      (pool, default db db')
  | Renew6 now ip secs => (pool, (lease_v6_renew_ip 0 now db ip secs).2)
  | Expire6 now => (pool, (lease_v6_mark_expired_older now db).2)
  | Cleanup6 => (pool, db6_exec db Cleanup)
  | Sync6 => ((ip6_pool_sync_with_leases pool db).2, db)
  end.

Definition pool6_op_ok (op : pool6_op) : Prop :=
  match op with
  | Alloc6 _ _ _ _ d _ _ _ req => duid_ok d /\ is_in6 req
  | _ => True
  end.

Lemma pool6_exec_inv cfg pool db op :
  pool6_wf pool -> db6_wf db -> pool6_op_ok op ->
  let '(pool', db') := pool6_exec cfg (pool, db) op in moved pool pool' /\ db6_wf db'.
Proof.
  intros Hwf Hdb Hop. destruct op; simpl in *.
  - destruct Hop as [Hd Hreq].
    pose proof (allocate6_moved ping now t1 t2 d iaid host secs pool req cfg db Hd Hwf Hdb Hreq).
    by destruct (ip6_pool_allocate _ _ _ _ _ _ _ _ pool req cfg db) as [[r pool'] db'].
  - pose proof (release6_moved now pool ip (Some db) Hwf) as Hm.
    unfold ip6_pool_release_ip in *. destruct (find_entry_at pool ip) as [[i e]|]; simpl in *.
    + split; [done|]. by apply on_found_wf.
    + by split.
  - split; [by apply reserve6_moved|done].
  - pose proof (mark_conflict6_moved now pool ip (Some db) Hwf) as Hm.
    unfold ip6_pool_mark_conflict in *. destruct (find_entry_at pool ip) as [[i e]|]; simpl in *.
    + split; [done|]. by apply mark_conflict_wf.
    + by split.
  - split; [by apply moved_refl|by apply on_found_wf].
  - split; [by apply moved_refl|by apply mark_expired_wf].
  - split; [by apply moved_refl|]. by apply (db6_exec_wf db Cleanup).
  - split; [by apply sync_moved|done].
Qed.

Lemma pool6_run_inv cfg ops : forall pool db,
  pool6_wf pool -> db6_wf db -> Forall pool6_op_ok ops ->
  let '(pool', db') := foldl (pool6_exec cfg) (pool, db) ops in moved pool pool' /\ db6_wf db'.
Proof.
  induction ops as [|op ops IH]; intros pool db Hwf Hdb Hops; [split; [by apply moved_refl|done]|].
  apply Forall_cons in Hops as [H1 H2]. cbn [foldl].
  pose proof (pool6_exec_inv cfg pool db op Hwf Hdb H1) as H.
  destruct (pool6_exec cfg (pool, db) op) as [pool1 db1]. destruct H as [Hm Hdb1].
  specialize (IH pool1 db1 (proj1 Hm) Hdb1 H2).
  destruct (foldl (pool6_exec cfg) (pool1, db1) ops) as [pool2 db2].
  destruct IH as [? ?]. split; [by eapply moved_trans|done].
Qed.

(** The outcome of an allocation for a client without a fixed address. *)
Lemma allocate6_dynamic ping now t1 t2 d iaid host secs pool req cfg db :
  duid_ok d -> pool6_wf pool -> db6_wf db -> is_in6 req ->
  static_host (hex_loop d) pool.(q_subnet) = None ->
  let '(do_probe, tmo) := get_effective_probe cfg pool.(q_subnet) in
  dynamic_result ping now t2 d iaid secs do_probe tmo req pool db
    (ip6_pool_allocate ping now t1 t2 (hex_loop d) iaid host secs pool req cfg db).
Proof.
  intros Hd Hwf Hdb Hreq Hst. unfold ip6_pool_allocate. rewrite Hst.
  destruct (get_effective_probe cfg (q_subnet pool)) as [do_probe tmo].
  by apply allocate_dynamic_spec.
Qed.

(** An entry that was not taken does not become the client's. *)
Lemma kept_not_held ping do_probe tmo duid e e' :
  entry_kept ping do_probe tmo e e' -> holds6 duid e = false -> holds6 duid e' = false.
Proof.
  intros (_ & Hsame & Hav) Hh. destruct (decide (n_state e = IP6_STATE_AVAILABLE)) as [Hs|Hs].
  - unfold holds6, in_state. destruct (Hav Hs) as [->|[-> _]]; done.
  - by rewrite (Hsame Hs).
Qed.

(** After an allocation the client holds the address it was given. *)
Lemma allocated_held ping now t2 d iaid secs do_probe tmo pool pool' db' r :
  (length d <= 42)%nat -> d <> [] ->
  held_entry (hex_loop d) pool = None ->
  allocated_at ping now t2 d iaid secs do_probe tmo 0 pool pool' db' r ->
  exists e, held_entry (hex_loop d) pool' = Some e /\ e.(n_ip_address) = r6_ip_address r.
Proof.
  intros Hlen Hne Hh (k & e & _ & He & Hs & _ & Hip & _ & Hc & _ & Hkp).
  exists (claim_entry now (hex_loop d) e). split; [|done].
  pose proof (length_hex_loop d Hne) as Hl.
  assert (holds6 (hex_loop d) (claim_entry now (hex_loop d) e) = true) as Hk.
  { unfold holds6, claim_entry, copy_duid, in_state. simpl. rewrite take_ge by lia.
    rewrite bool_decide_true by done. rewrite andb_true_r. apply nonempty_true.
    intros E. rewrite E in Hl. destruct d; [done|]. simpl in Hl. lia. }
  unfold held_entry in *.
  assert (find_index (holds6 (hex_loop d)) (q_entries pool) = None) as Hn.
  { destruct (find_index _ _) as [j|] eqn:E; [|done]. apply find_index_lookup in E as (x & Hx & _).
    simpl in Hh. by rewrite Hx in Hh. }
  assert (find_index (holds6 (hex_loop d)) (q_entries pool') = Some k) as ->; [|done].
  apply find_index_Some. exists (claim_entry now (hex_loop d) e). split_and!; [done..|].
  intros j y Hj Hy. specialize (Hkp j ltac:(simpl; lia)). rewrite Hy in Hkp.
  inversion Hkp as [x y' Hkept Ex Ey|]; subst. eapply kept_not_held; [exact Hkept|].
  rewrite find_index_None in Hn. apply Hn. by eapply list_elem_of_lookup_2.
Qed.

(** The address returned is one of the pool's. *)
Lemma allocate6_from_pool ping now t1 t2 d iaid host secs pool req cfg db r pool' db' :
  duid_ok d -> pool6_wf pool -> db6_wf db -> is_in6 req ->
  ip6_pool_allocate ping now t1 t2 (hex_loop d) iaid host secs pool req cfg db = (r, pool', db') ->
  r6_success r = true -> exists i e, q_entries pool !! i = Some e /\ r6_ip_address r = n_ip_address e.
Proof.
  intros Hd Hwf Hdb Hreq. unfold ip6_pool_allocate.
  destruct (get_effective_probe cfg (q_subnet pool)) as [do_probe tmo].
  assert (forall res, dynamic_result ping now t2 d iaid secs do_probe tmo req pool db res ->
    res = (r, pool', db') -> r6_success r = true ->
    exists i e, q_entries pool !! i = Some e /\ r6_ip_address r = n_ip_address e) as Hdyn.
  { intros res H -> Hs. destruct H as (_ & _ & H). rewrite Hs in H.
    destruct H as [(e & Hh & _ & Hip & _)|[_ (k & e & _ & He & _ & _ & Hip & _)]].
    - unfold held_entry in Hh. destruct (find_index _ _) as [i|]; [|done]. by exists i, e.
    - by exists k, e. }
  assert (dynamic_result ping now t2 d iaid secs do_probe tmo req pool db
    (allocate_dynamic ping now t1 t2 (hex_loop d) iaid host secs do_probe tmo req pool db)) as H
    by (by apply allocate_dynamic_spec).
  destruct (static_host (hex_loop d) (q_subnet pool)) as [h|]; [|by apply Hdyn].
  destruct (find_entry_at pool (h6_fixed_addr6_bin h)) as [[i e]|] eqn:E; [|by apply Hdyn].
  apply find_entry_at_entry in E as He. intros Ea Hs.
  pose proof (allocate_static_spec ping now t1 t2 d iaid host secs do_probe tmo Hd pool db
    i e Hwf Hdb He) as H'. rewrite Ea, Hs in H'. exists i, e. split; [done|]. apply H'.
Qed.

(** After a success the same client gets the same address. *)
(** The pool an allocation leaves has the address for the client. *)
Lemma allocate6_held ping now t1 t2 d iaid host secs pool req cfg db r pool' db' :
  duid_ok d -> d <> [] -> (length d <= 42)%nat -> pool6_wf pool -> db6_wf db -> is_in6 req ->
  static_host (hex_loop d) pool.(q_subnet) = None ->
  ip6_pool_allocate ping now t1 t2 (hex_loop d) iaid host secs pool req cfg db = (r, pool', db') ->
  r6_success r = true ->
  q_subnet pool' = q_subnet pool
  /\ exists e, held_entry (hex_loop d) pool' = Some e /\ e.(n_ip_address) = r6_ip_address r.
Proof.
  intros Hd Hne Hlen Hwf Hdb Hreq Hst E Hs.
  pose proof (allocate6_dynamic ping now t1 t2 d iaid host secs pool req cfg db Hd Hwf Hdb Hreq
    Hst) as H.
  destruct (get_effective_probe cfg (q_subnet pool)) as [do_probe tmo]. rewrite E in H.
  destruct H as ((_ & Hsub & _) & _ & H). rewrite Hs in H. split; [done|].
  destruct H as [(e & Hh & -> & Hip & _)|[Hh Ha]]; [by exists e|by eapply allocated_held].
Qed.

Lemma allocate6_again ping now t1 t2 d iaid host secs pool req cfg db r pool' db'
    ping2 now2 t3 t4 iaid2 host2 secs2 req2 db3 :
  duid_ok d -> d <> [] -> (length d <= 42)%nat -> pool6_wf pool -> db6_wf db -> is_in6 req ->
  static_host (hex_loop d) pool.(q_subnet) = None ->
  ip6_pool_allocate ping now t1 t2 (hex_loop d) iaid host secs pool req cfg db = (r, pool', db') ->
  r6_success r = true ->
  exists r2 db2,
    ip6_pool_allocate ping2 now2 t3 t4 (hex_loop d) iaid2 host2 secs2 pool' req2 cfg db3
    = (r2, pool', db2)
    /\ r6_success r2 = true /\ r6_ip_address r2 = r6_ip_address r /\ r6_is_new r2 = false.
Proof.
  intros Hd Hne Hlen Hwf Hdb Hreq Hst E Hs.
  destruct (allocate6_held ping now t1 t2 d iaid host secs pool req cfg db r pool' db' Hd Hne Hlen Hwf Hdb Hreq Hst E Hs)
    as (Hsub & e & Hh & Hip).
  unfold ip6_pool_allocate. rewrite Hsub, Hst. destruct (get_effective_probe cfg (q_subnet pool)) as [do_probe tmo].
  unfold allocate_dynamic. rewrite Hh.
  destruct (add_lease _ _ _ _ _ _ _ _) as [x db2]. eexists _, db2. split; [reflexivity|done].
Qed.

(** ** A sample pool: 2001:db8::10 to 2001:db8::12 *)

Definition ip6_at (b : Z) : in6_addr := [32; 1; 13; 184; 0; 0; 0; 0; 0; 0; 0; 0; 0; 0; 0; b].

Definition sample_range6 : dhcpv6_subnet_t :=
  mk_subnet6 [] 32 (ip6_at 0) true [] [] (ip6_at 16) (ip6_at 18) true [] [] [] false 0 false 0
    false [] false [] false 0 0 [] false [] [] 0 [] [] false false false 0 false.

Definition sample_config6 : dhcpv6_config_t :=
  mk_config6 (mk_global6 3600 7200 [] [] [] false 0 false 0 false [] false [] false true 500 true)
    [sample_range6].

Definition sample_pool6 : ip6_pool_t :=
  set_q_available_count 3
    (set_q_entries (free_entry <$> [ip6_at 16; ip6_at 17; ip6_at 18]) (empty_pool6 sample_range6)).

(** A network in which only 2001:db8::10 answers. *)
Definition sample_ping (ip : in6_addr) (_ : Z) : bool := bool_decide (ip = ip6_at 16).

Lemma ip6_at_ok b : is_u8 b -> is_in6 (ip6_at b).
Proof.
  intros Hb. split; [done|]. unfold ip6_at. repeat constructor; unfold is_u8 in *; lia.
Qed.

Lemma sample_range6_ok : range6_ok sample_range6.
Proof. split; apply ip6_at_ok; unfold is_u8; lia. Qed.

Lemma sample_pool6_wf : pool6_wf sample_pool6.
Proof.
  constructor; try done.
  - vm_compute. lia.
  - cbn. repeat apply Forall_cons_2; try apply Forall_nil_2; apply ip6_at_ok; unfold is_u8; lia.
  - apply (bool_decide_unpack _). vm_compute. done.
Qed.

Lemma sample_duid_ok : duid_ok [0; 1; 170].
Proof. split; [repeat constructor; unfold is_u8; lia|unfold DUID_MAX_LEN; simpl; lia]. Qed.

Definition sample_pool6_ops : list pool6_op :=
  [Alloc6 sample_ping 100 100 100 [0; 1; 170] 7 None 3600 (ip6_at 18);
   Alloc6 sample_ping 110 110 110 [0; 1; 187] 8 None 3600 zero_addr6;
   Release6 120 (ip6_at 18); Expire6 130; Sync6].

Lemma sample_pool6_ops_ok : Forall pool6_op_ok sample_pool6_ops.
Proof.
  repeat apply Forall_cons_2; try apply Forall_nil_2; try done; split.
  - apply sample_duid_ok.
  - apply ip6_at_ok. unfold is_u8. lia.
  - split; [repeat constructor; unfold is_u8; lia|unfold DUID_MAX_LEN; simpl; lia].
  - apply is_in6_bytes; reflexivity.
Qed.

(** ** Theorems *)

(** The invariant of the DHCPv6 address pool.  [ip6_pool_init] on a subnet with a
    range always ends and succeeds, and after any sequence of allocations, releases,
    reservations, conflicts, synchronisations and changes of the leases the pool has
    the addresses it was built with, all different and at most 4096, and its three
    counters are the numbers of available, allocated and reserved entries; the lease
    database keeps its own invariant. *)
Lemma ip6_pool_invariant now subnet cfg db ops :
  range6_ok subnet -> subnet.(s6_has_pool_range) = true -> db6_wf db ->
  Forall pool6_op_ok ops ->
  exists pool0, ip6_pool_init now subnet (Some db) = Some (0, pool0)
  /\ let '(pool, db') := foldl (pool6_exec cfg) (pool0, db) ops in
     n_ip_address <$> q_entries pool = n_ip_address <$> q_entries pool0
     /\ NoDup (n_ip_address <$> q_entries pool)
     /\ (length (q_entries pool) <= MAX_POOL6_SIZE)%nat
     /\ q_available_count pool = countb (in_state IP6_STATE_AVAILABLE) (q_entries pool)
     /\ q_allocated_count pool = countb (in_state IP6_STATE_ALLOCATED) (q_entries pool)
     /\ q_reserved_count pool = countb (in_state IP6_STATE_RESERVED) (q_entries pool)
     /\ db6_wf db'.
Proof.
  intros Hr Hh Hdb Hops. destruct (pool6_init_spec now subnet (Some db) Hr Hh)
    as (pool0 & E & Hwf & _). exists pool0. split; [done|].
  pose proof (pool6_run_inv cfg ops pool0 db Hwf Hdb Hops) as H.
  destruct (foldl (pool6_exec cfg) (pool0, db) ops) as [pool db'].
  destruct H as [[[] []] ?]. by split_and!.
Qed.

Lemma ip6_pool_invariant_witness :
  exists pool0, ip6_pool_init 90 sample_range6 (Some (lease_v6_db_init [])) = Some (0, pool0)
  /\ q_allocated_count (foldl (pool6_exec sample_config6) (pool0, lease_v6_db_init [])
       sample_pool6_ops).1 = 1
  /\ countb (in_state IP6_STATE_ALLOCATED)
       (q_entries (foldl (pool6_exec sample_config6) (pool0, lease_v6_db_init [])
          sample_pool6_ops).1) = 1.
Proof.
  destruct (ip6_pool_invariant 90 sample_range6 sample_config6 (lease_v6_db_init [])
    sample_pool6_ops sample_range6_ok eq_refl (db6_init_wf []) sample_pool6_ops_ok)
    as (pool0 & E & H).
  assert (pool0 = sample_pool6) as ->.
  { vm_compute in E. injection E as <-. vm_compute. reflexivity. }
  exists sample_pool6. split; [exact E|].
  destruct (foldl (pool6_exec sample_config6) (sample_pool6, lease_v6_db_init [])
    sample_pool6_ops) as [pool db] eqn:Er.
  destruct H as (_ & _ & _ & _ & Ha & _). simpl. rewrite Ha.
  assert (countb (in_state IP6_STATE_ALLOCATED) (q_entries pool) = 1) as ->; [|done].
  apply (f_equal (fun s => countb (in_state IP6_STATE_ALLOCATED) (q_entries s.1))) in Er.
  simpl in Er. rewrite <- Er. vm_compute. reflexivity.
Defined.

(** What [ip6_pool_init] builds: the addresses of the pool are the consecutive ones
    from the start of the range to its end, or the first 4096 of them; with no leases
    and no static hosts every entry is available, without owner, and the available
    counter is their number. *)
Lemma ip6_pool_init_range now subnet db :
  range6_ok subnet -> subnet.(s6_has_pool_range) = true ->
  let start := be_val subnet.(s6_pool_start_bin) in
  let stop := be_val subnet.(s6_pool_end_bin) in
  exists pool, ip6_pool_init now subnet db = Some (0, pool)
  /\ be_val <$> (n_ip_address <$> q_entries pool)
     = seqZ start (Z.max 0 (Z.min 4096 (stop - start + 1)))
  /\ (db = None -> subnet.(s6_hosts) = [] ->
      Forall (fun e => e.(n_state) = IP6_STATE_AVAILABLE /\ e.(n_duid) = []) (q_entries pool)
      /\ q_available_count pool = Z.max 0 (Z.min 4096 (stop - start + 1))).
Proof.
  intros [Hs He] Hr. cbv zeta.
  destruct (pool6_init_spec now subnet db (conj Hs He) Hr) as (pool & E & Hwf & Hsub & Hips).
  exists pool. split_and!; [done|done|]. intros -> Hh.
  destruct (init6_loop_spec (s6_pool_start_bin subnet) (s6_pool_end_bin subnet)
    (S MAX_POOL6_SIZE) 0 (s6_pool_start_bin subnet) (empty_pool6 subnet))
    as (pool' & E' & _ & _ & Hf & _); [done|done|by apply built_empty|lia|done
    |cbn [empty_pool6 q_entries length]; lia|].
  unfold ip6_pool_init in E. rewrite Hr, E', Hh in E. simpl in E. injection E as ->.
  split.
  - eapply Forall_impl; [exact Hf|]. intros e ->. done.
  - rewrite (p6_available _ Hwf). apply (f_equal length) in Hips.
    rewrite !length_fmap, length_seqZ in Hips.
    assert (countb (in_state IP6_STATE_AVAILABLE) (q_entries pool)
            = Z.of_nat (length (q_entries pool))) as ->; [|lia].
    clear -Hf. induction Hf as [|e ls H _ IH]; [done|]. rewrite H. cbn [countb length].
    rewrite IH. unfold in_state. simpl. lia.
Qed.

Lemma ip6_pool_init_range_witness :
  exists pool, ip6_pool_init 90 sample_range6 None = Some (0, pool) /\ q_available_count pool = 3.
Proof.
  destruct (ip6_pool_init_range 90 sample_range6 None sample_range6_ok eq_refl)
    as (pool & E & _ & H). exists pool. split; [exact E|].
  destruct (H eq_refl eq_refl) as [_ ->]. vm_compute. reflexivity.
Defined.

(** A client that holds an address is told it has it although no lease can be recorded: the
    array is full and has none for the address.  The message is the only trace. *)
Lemma allocate6_held_unleased ping now t1 t2 d iaid host secs pool req cfg db e :
  duid_ok d -> db6_wf db -> static_host (hex_loop d) pool.(q_subnet) = None ->
  held_entry (hex_loop d) pool = Some e -> length (d_leases db) = LEASES6_MAX ->
  lease_v6_find_by_ip db e.(n_ip_address) = None ->
  ip6_pool_allocate ping now t1 t2 (hex_loop d) iaid host secs pool req cfg db
  = (alloc6_ok false e.(n_ip_address) "lease refresh failed", pool, db).
Proof.
  intros Hd Hdb Hst Hh Hl Hn. unfold ip6_pool_allocate.
  destruct (get_effective_probe cfg (q_subnet pool)) as [do_probe tmo].
  rewrite Hst. unfold allocate_dynamic. rewrite Hh. unfold add_lease, lease_v6_add_ia_na.
  rewrite Hn. unfold slot_for. by rewrite bool_decide_eq_true_2 by lia.
Qed.

(** C4: An allocation never takes another client's address.  For a client without a
    fixed address and with a DUID of 1 to 128 bytes or an empty one, on success the address
    returned is an entry of the pool which either is the one the client holds already, the
    pool then being unchanged, or was available and did not answer the probe and now is
    allocated to the client; every other entry that was not available is unchanged, and one
    that was available still is, or answered the probe and is marked in conflict.  A newly
    allocated address has an ACTIVE lease with the IAID, the DUID and the end given; so has
    the address held already, unless the lease array is full and has no lease for it: then
    the call still succeeds, without a lease and with the database unchanged. *)
Theorem ip6_pool_allocate_exclusive ping now t1 t2 d iaid host secs pool req cfg db r pool' db' :
  duid_ok d -> pool6_wf pool -> db6_wf db -> is_in6 req ->
  static_host (hex_loop d) pool.(q_subnet) = None ->
  ip6_pool_allocate ping now t1 t2 (hex_loop d) iaid host secs pool req cfg db = (r, pool', db') ->
  r6_success r = true ->
  let '(do_probe, tmo) := get_effective_probe cfg pool.(q_subnet) in
  (exists e, held_entry (hex_loop d) pool = Some e /\ pool' = pool
     /\ r6_ip_address r = e.(n_ip_address) /\ r6_is_new r = false
     /\ (leased t2 d iaid secs db' e.(n_ip_address)
         \/ length (d_leases db) = LEASES6_MAX /\ db' = db
            /\ lease_v6_find_by_ip db e.(n_ip_address) = None))
  \/ (exists k e, q_entries pool !! k = Some e /\ e.(n_state) = IP6_STATE_AVAILABLE
      /\ probe ping do_probe tmo e.(n_ip_address) = false
      /\ r6_ip_address r = e.(n_ip_address) /\ r6_is_new r = true
      /\ q_entries pool' !! k = Some (claim_entry now (hex_loop d) e)
      /\ leased t2 d iaid secs db' e.(n_ip_address)
      /\ kept_except ping do_probe tmo (fun j => j = k) pool pool').
Proof.
  intros Hd Hwf Hdb Hreq Hst E Hs.
  pose proof (allocate6_dynamic ping now t1 t2 d iaid host secs pool req cfg db Hd Hwf Hdb Hreq
    Hst) as H.
  destruct (get_effective_probe cfg (q_subnet pool)) as [do_probe tmo]. rewrite E in H.
  destruct H as (_ & _ & H). rewrite Hs in H. destruct H as [H|[_ H]]; [by left|right].
  destruct H as (k & e & _ & H). by exists k, e.
Qed.

Lemma ip6_pool_allocate_exclusive_witness :
  let res := ip6_pool_allocate sample_ping 100 100 100 (hex_loop [0; 1; 170]) 7 None 3600
    sample_pool6 zero_addr6 sample_config6 (lease_v6_db_init []) in
  r6_ip_address res.1.1 = ip6_at 17
  /\ exists k e, q_entries sample_pool6 !! k = Some e /\ r6_ip_address res.1.1 = n_ip_address e
     /\ leased 100 [0; 1; 170] 7 3600 res.2 (n_ip_address e).
Proof.
  cbv zeta. split; [vm_compute; reflexivity|].
  destruct (ip6_pool_allocate sample_ping 100 100 100 (hex_loop [0; 1; 170]) 7 None 3600
    sample_pool6 zero_addr6 sample_config6 (lease_v6_db_init [])) as [[r pool'] db'] eqn:E.
  assert (r6_success r = true) as Hs.
  { apply (f_equal (fun x => r6_success x.1.1)) in E. simpl in E. rewrite <- E. vm_compute.
    reflexivity. }
  destruct (ip6_pool_allocate_exclusive sample_ping 100 100 100 [0; 1; 170] 7 None 3600
    sample_pool6 zero_addr6 sample_config6 (lease_v6_db_init []) r pool' db' sample_duid_ok
    sample_pool6_wf (db6_init_wf []) (is_in6_bytes zero_addr6 eq_refl eq_refl) eq_refl E Hs)
    as [(e & Hh & _)|(k & e & He & _ & _ & Hip & _ & _ & Hl & _)].
  - vm_compute in Hh. discriminate.
  - exists k, e. simpl. auto.
Defined.

(** An available address that does not answer is enough. *)
Lemma allocate6_succeeds ping now t1 t2 d iaid host secs pool cfg db i e :
  duid_ok d -> pool6_wf pool -> db6_wf db ->
  static_host (hex_loop d) pool.(q_subnet) = None ->
  (length (d_leases db) < LEASES6_MAX)%nat ->
  q_entries pool !! i = Some e -> e.(n_state) = IP6_STATE_AVAILABLE ->
  probe ping (get_effective_probe cfg pool.(q_subnet)).1 (get_effective_probe cfg pool.(q_subnet)).2
    e.(n_ip_address) = false ->
  exists r pool' db',
    ip6_pool_allocate ping now t1 t2 (hex_loop d) iaid host secs pool zero_addr6 cfg db
    = (r, pool', db') /\ r6_success r = true.
Proof.
  intros Hd Hwf Hdb Hst Hfull He Hs Ha.
  assert (is_in6 zero_addr6) as Hz by (apply is_in6_bytes; reflexivity).
  pose proof Hst as Hst'.
  unfold ip6_pool_allocate. rewrite Hst.
  destruct (get_effective_probe cfg (q_subnet pool)) as [do_probe tmo]. simpl in Ha.
  unfold allocate_dynamic. destruct (held_entry (hex_loop d) pool) as [e0|].
  { destruct (add_lease _ _ _ _ _ _ _ _) as [x db1]. eexists _, _, _. split; [reflexivity|done]. }
  change (negb (memeq 16 zero_addr6 zero_addr6)) with false. cbn [andb].
  pose proof (allocate_loop_spec ping now t1 t2 d iaid host secs do_probe tmo Hd
    (length (q_entries pool)) 0 "" pool db Hwf Hdb ltac:(lia)) as H.
  destruct (allocate_loop _ _ _ _ _ _ _ _ _ _ _ _ _ pool db) as [[r pool'] db'].
  exists r, pool', db'. split; [done|]. destruct H as (_ & _ & _ & H).
  destruct (r6_success r); [done|]. destruct H as [[_ Hn] _].
  destruct (Hn i e ltac:(lia) He Hs); [congruence|lia].
Qed.



(** A client keeps its address.  After a successful allocation for a client without
    a fixed address, whose DUID has between 1 and 42 bytes, a second allocation for the
    same DUID, with whatever IAID, requested address and lease time, returns the same
    address and leaves the pool as it is. *)
Lemma ip6_pool_allocate_sticky ping now t1 t2 d iaid host secs pool req cfg db r pool' db'
    ping2 now2 t3 t4 iaid2 host2 secs2 req2 :
  duid_ok d -> d <> [] -> (length d <= 42)%nat -> pool6_wf pool -> db6_wf db -> is_in6 req ->
  static_host (hex_loop d) pool.(q_subnet) = None ->
  ip6_pool_allocate ping now t1 t2 (hex_loop d) iaid host secs pool req cfg db = (r, pool', db') ->
  r6_success r = true ->
  exists r2 db2,
    ip6_pool_allocate ping2 now2 t3 t4 (hex_loop d) iaid2 host2 secs2 pool' req2 cfg db'
    = (r2, pool', db2)
    /\ r6_success r2 = true /\ r6_ip_address r2 = r6_ip_address r /\ r6_is_new r2 = false.
Proof. apply allocate6_again. Qed.

Lemma ip6_pool_allocate_sticky_witness :
  let '(r, pool', db') := ip6_pool_allocate sample_ping 100 100 100 (hex_loop [0; 1; 170]) 7 None
    3600 sample_pool6 zero_addr6 sample_config6 (lease_v6_db_init []) in
  exists r2 db2,
    ip6_pool_allocate sample_ping 200 200 200 (hex_loop [0; 1; 170]) 9 None 60 pool' (ip6_at 18)
      sample_config6 db' = (r2, pool', db2)
    /\ r6_success r2 = true /\ r6_ip_address r2 = r6_ip_address r /\ r6_is_new r2 = false.
Proof.
  destruct (ip6_pool_allocate sample_ping 100 100 100 (hex_loop [0; 1; 170]) 7 None 3600
    sample_pool6 zero_addr6 sample_config6 (lease_v6_db_init [])) as [[r pool'] db'] eqn:E.
  apply (ip6_pool_allocate_sticky sample_ping 100 100 100 [0; 1; 170] 7 None 3600 sample_pool6
    zero_addr6 sample_config6 (lease_v6_db_init []) r pool' db'); try done.
  - apply sample_duid_ok.
  - simpl. lia.
  - apply sample_pool6_wf.
  - apply db6_init_wf.
  - apply is_in6_bytes; reflexivity.
  - apply (f_equal (fun x => r6_success x.1.1)) in E. simpl in E. rewrite <- E. vm_compute.
    reflexivity.
Defined.

(** ** Behaviours to know about *)

(** The text of a DUID of more than 42 bytes does not fit an entry, so the client's entry
    is not recognised and every allocation takes one more address. *)
Definition long_duid : list Z := replicate 43 171.

Example long_duid_not_sticky :
  let '(r, pool, db) := ip6_pool_allocate sample_ping 100 100 100 (hex_loop long_duid) 7 None 3600
    sample_pool6 zero_addr6 sample_config6 (lease_v6_db_init []) in
  let '(r2, pool2, _) := ip6_pool_allocate sample_ping 200 200 200 (hex_loop long_duid) 7 None 3600
    pool zero_addr6 sample_config6 db in
  (r6_ip_address r, r6_ip_address r2) = (ip6_at 17, ip6_at 18)
  /\ q_allocated_count pool2 = 2.
Proof. vm_compute. split; reflexivity. Qed.

(** Synchronising with a released or expired lease frees an address reserved for a
    static host. *)
Example sync_frees_reserved :
  let '(_, pool) := ip6_pool_reserve_ip 100 sample_pool6 (ip6_at 16) (Some [97]) in
  let '(_, db) := lease_v6_add_ia_na 100 100 (lease_v6_db_init []) (hex_loop [0; 1; 170]) 7
    (ip6_at 16) 3600 None in
  let '(_, db) := lease_v6_release_ip 0 200 db (ip6_at 16) in
  (ip6_pool_is_available pool (ip6_at 16),
   ip6_pool_is_available (ip6_pool_sync_with_leases pool db).2 (ip6_at 16)) = (false, true).
Proof. vm_compute. reflexivity. Qed.
