(* ===== verification/PdPool.v ===== *)
(** * The DHCPv6 prefix delegation pool

    [DHCPv6/sources/pd_pool.c]; [increment_prefix] is in [UtilsV6].  [entries] with
    [pool_size] is the list [pp_entries], an entry pointer an index into it; the times
    read are arguments.  [lease_v6_db_save], which only writes the file, is left out. *)

From S2P Require Import Prelude UtilsV6 LeasesV6 ConfigV6 Ip6Pool.

Definition MAX_PD_POOL_SIZE : nat := 1024.

Record pd_pool_entry_t := mk_pd_entry {
  pe_prefix : in6_addr;
  pe_plen : Z;
  pe_state : ip6_state_t;
  pe_duid : cstr;
  pe_last_allocated : Z
}.

Definition set_pe_state (v : ip6_state_t) (r : pd_pool_entry_t) : pd_pool_entry_t :=
  mk_pd_entry r.(pe_prefix) r.(pe_plen) v r.(pe_duid) r.(pe_last_allocated).

Definition set_pe_duid (v : cstr) (r : pd_pool_entry_t) : pd_pool_entry_t :=
  mk_pd_entry r.(pe_prefix) r.(pe_plen) r.(pe_state) v r.(pe_last_allocated).

Definition set_pe_last_allocated (v : Z) (r : pd_pool_entry_t) : pd_pool_entry_t :=
  mk_pd_entry r.(pe_prefix) r.(pe_plen) r.(pe_state) r.(pe_duid) v.

Record pd_pool_t := mk_pd_pool {
  pp_subnet : dhcpv6_subnet_t;
  pp_base_prefix : in6_addr;
  pp_base_plen : Z;
  pp_delegated_plen : Z;
  pp_entries : list pd_pool_entry_t;
  pp_available_count : Z;
  pp_allocated_count : Z;
  pp_reserved_count : Z
}.

Definition set_pp_base_prefix (v : in6_addr) (r : pd_pool_t) : pd_pool_t :=
  mk_pd_pool r.(pp_subnet) v r.(pp_base_plen) r.(pp_delegated_plen) r.(pp_entries)
    r.(pp_available_count) r.(pp_allocated_count) r.(pp_reserved_count).

Definition set_pp_base_plen (v : Z) (r : pd_pool_t) : pd_pool_t :=
  mk_pd_pool r.(pp_subnet) r.(pp_base_prefix) v r.(pp_delegated_plen) r.(pp_entries)
    r.(pp_available_count) r.(pp_allocated_count) r.(pp_reserved_count).

Definition set_pp_entries (v : list pd_pool_entry_t) (r : pd_pool_t) : pd_pool_t :=
  mk_pd_pool r.(pp_subnet) r.(pp_base_prefix) r.(pp_base_plen) r.(pp_delegated_plen) v
    r.(pp_available_count) r.(pp_allocated_count) r.(pp_reserved_count).

Definition set_pp_available_count (v : Z) (r : pd_pool_t) : pd_pool_t :=
  mk_pd_pool r.(pp_subnet) r.(pp_base_prefix) r.(pp_base_plen) r.(pp_delegated_plen)
    r.(pp_entries) v r.(pp_allocated_count) r.(pp_reserved_count).

Definition set_pp_allocated_count (v : Z) (r : pd_pool_t) : pd_pool_t :=
  mk_pd_pool r.(pp_subnet) r.(pp_base_prefix) r.(pp_base_plen) r.(pp_delegated_plen)
    r.(pp_entries) r.(pp_available_count) v r.(pp_reserved_count).

Record pd_allocation_result_t := mk_pd_result {
  pr_success : bool;
  pr_is_new : bool;
  pr_prefix : in6_addr;
  pr_plen : Z;
  pr_error_message : string
}.

Definition pd_error (m : string) : pd_allocation_result_t :=
  mk_pd_result false false zero_addr6 0 m.

Definition pd_in_state (s : ip6_state_t) (e : pd_pool_entry_t) : bool :=
  bool_decide (e.(pe_state) = s).

Definition pd_pool_find_entry (pool : pd_pool_t) (prefix : in6_addr) (plen : Z) : option nat :=
  find_index (fun e => (e.(pe_plen) =? plen) && (ipv6_compare e.(pe_prefix) prefix =? 0))
    pool.(pp_entries).

(** The entry found, with its index. *)
Definition pd_entry_at (pool : pd_pool_t) (prefix : in6_addr) (plen : Z)
    : option (nat * pd_pool_entry_t) :=
  i ← pd_pool_find_entry pool prefix plen; e ← pool.(pp_entries) !! i; Some (i, e).

Definition pd_pool_is_available (pool : pd_pool_t) (prefix : in6_addr) (plen : Z) : bool :=
  match pd_entry_at pool prefix plen with
  | Some (_, e) => pd_in_state IP6_STATE_AVAILABLE e
  | None => false
  end.

Definition pd_put (i : nat) (e : pd_pool_entry_t) (pool : pd_pool_t) : pd_pool_t :=
  set_pp_entries (<[i := e]> pool.(pp_entries)) pool.

(** ** Initialisation *)

Definition pd_free_entry (plen : Z) (prefix : in6_addr) : pd_pool_entry_t :=
  mk_pd_entry prefix plen IP6_STATE_AVAILABLE [] 0.

Definition pd_add_entry (plen : Z) (prefix : in6_addr) (pool : pd_pool_t) : pd_pool_t :=
  set_pp_available_count (pool.(pp_available_count) +u32 1)
    (set_pp_entries (pool.(pp_entries) ++ [pd_free_entry plen prefix]) pool).

(** The loop over the range; [None] when the fuel runs out. *)
Fixpoint pd_init_loop (fuel : nat) (plen : Z) (cur stop : in6_addr) (pool : pd_pool_t)
    : option pd_pool_t :=
  match fuel with
  | O => None
  | S fuel =>
      if 0 <? ipv6_compare cur stop then Some pool
      else if bool_decide (MAX_PD_POOL_SIZE <= length pool.(pp_entries))%nat then Some pool
      else
        let pool := pd_add_entry plen cur pool in
        let next := increment_prefix cur plen in
        if ipv6_compare next cur <=? 0 then Some pool
        else pd_init_loop fuel plen next stop pool
  end.

(** The counters when an entry leaves, or enters, a state. *)
Definition pd_leave (s : ip6_state_t) (pool : pd_pool_t) : pd_pool_t :=
  match s with
  | IP6_STATE_AVAILABLE => set_pp_available_count (dec pool.(pp_available_count)) pool
  | IP6_STATE_ALLOCATED => set_pp_allocated_count (dec pool.(pp_allocated_count)) pool
  | _ => pool
  end.

Definition pd_enter (s : ip6_state_t) (pool : pd_pool_t) : pd_pool_t :=
  match s with
  | IP6_STATE_ALLOCATED => set_pp_allocated_count (pool.(pp_allocated_count) +u32 1) pool
  | IP6_STATE_AVAILABLE => set_pp_available_count (pool.(pp_available_count) +u32 1) pool
  | _ => pool
  end.

(** The body of the loop over the leases. *)
Definition pd_sync_lease (pool : pd_pool_t) (L : dhcpv6_lease_t) : pd_pool_t :=
  if negb (bool_decide (L.(x_type) = Lease6_IA_PD)) || negb L.(x_in_use) then pool
  else
    match pd_entry_at pool L.(x_prefix_v6) L.(x_plen) with
    | None => pool
    | Some (i, e) =>
        let pool := pd_leave e.(pe_state) pool in
        let e := set_pe_last_allocated L.(x_starts)
                   (set_pe_state (ip6_state_from_lease_state L.(x_state)) e) in
        let e :=
          if 0 <? L.(x_duid_len) then
            match duid_bin_to_hex (take (Z.to_nat L.(x_duid_len)) L.(x_duid)) 128 with
            | Some (_, s) => set_pe_duid s e
            | None => e
            end
          else e in
        pd_put i e (pd_enter e.(pe_state) pool)
    end.

Definition pd_empty (subnet : dhcpv6_subnet_t) (plen : Z) : pd_pool_t :=
  mk_pd_pool subnet zero_addr6 0 plen [] 0 0 0.

(** [pd_pool_init]; [db] is [None] for a null pointer. *)
Definition pd_pool_init (subnet : dhcpv6_subnet_t) (db : option lease_v6_db_t)
    (delegated_plen : Z) : option (Z * pd_pool_t) :=
  let pool := pd_empty subnet delegated_plen in
  if negb subnet.(s6_pd_enabled) || negb subnet.(s6_has_pd_pool) then Some (0, pool)
  else
    let cur := subnet.(s6_pd_pool_start_bin) in
    let stop := subnet.(s6_pd_pool_end_bin) in
    if 0 <? ipv6_compare cur stop then Some (-1, pool)
    else
      let pool := set_pp_base_plen delegated_plen (set_pp_base_prefix cur pool) in
      pool ← pd_init_loop (S MAX_PD_POOL_SIZE) delegated_plen cur stop pool;
      Some (0, match db with
               | Some db => foldl pd_sync_lease pool db.(d_leases)
               | None => pool
               end).

(** ** Allocation and release *)

Section pd_allocation.
Variables now t1 t2 : Z.
Variables (duid_hex : cstr) (iaid : Z) (hostname_opt : option cstr) (lease_time : Z).

Definition pd_holds (e : pd_pool_entry_t) : bool :=
  pd_in_state IP6_STATE_ALLOCATED e && bool_decide (e.(pe_duid) = duid_hex).

Definition pd_claim (e : pd_pool_entry_t) : pd_pool_entry_t :=
  set_pe_last_allocated now (set_pe_duid (take 127 duid_hex) (set_pe_state IP6_STATE_ALLOCATED e)).

Definition pd_add_lease (db : lease_v6_db_t) (e : pd_pool_entry_t)
    : option nat * lease_v6_db_t :=
  lease_v6_add_ia_pd t1 t2 db duid_hex iaid e.(pe_prefix) e.(pe_plen) lease_time hostname_opt.

(** The first entry that satisfies [p], with its index. *)
Definition pd_first (p : pd_pool_entry_t -> bool) (pool : pd_pool_t)
    : option (nat * pd_pool_entry_t) :=
  i ← find_index p pool.(pp_entries); e ← pool.(pp_entries) !! i; Some (i, e).

Definition pd_pool_allocate (pool : pd_pool_t) (db : lease_v6_db_t)
    : pd_allocation_result_t * pd_pool_t * lease_v6_db_t :=
  match pd_first pd_holds pool with
  | Some (_, e) =>
      (mk_pd_result true false e.(pe_prefix) e.(pe_plen) "", pool, (pd_add_lease db e).2)
  | None =>
      match pd_first (pd_in_state IP6_STATE_AVAILABLE) pool with
      | None => (pd_error "No prefixes available", pool, db)
      | Some (i, e) =>
          let e := pd_claim e in
          let pool := pd_put i e pool in
          let pool := set_pp_available_count (pool.(pp_available_count) -u32 1) pool in
          let pool := set_pp_allocated_count (pool.(pp_allocated_count) +u32 1) pool in
          let '(r, db) := pd_add_lease db e in
          match r with
          | None =>
              let pool := pd_put i (set_pe_duid [] (set_pe_state IP6_STATE_AVAILABLE e)) pool in
              let pool := set_pp_available_count (pool.(pp_available_count) +u32 1) pool in
              let pool := set_pp_allocated_count (pool.(pp_allocated_count) -u32 1) pool in
              (pd_error "DB error", pool, db)
          | Some _ => (mk_pd_result true true e.(pe_prefix) e.(pe_plen) "", pool, db)
          end
      end
  end.
End pd_allocation.

Definition pd_pool_release (now : Z) (pool : pd_pool_t) (prefix : in6_addr) (plen : Z)
    (db : option lease_v6_db_t) : Z * pd_pool_t * option lease_v6_db_t :=
  match pd_entry_at pool prefix plen with
  | None => (-1, pool, db)
  | Some (i, e) =>
      let pool :=
        if pd_in_state IP6_STATE_ALLOCATED e then
          pd_enter IP6_STATE_AVAILABLE (pd_leave IP6_STATE_ALLOCATED
            (pd_put i (set_pe_duid [] (set_pe_state IP6_STATE_AVAILABLE e)) pool))
        else pool in
      (0, pool, (fun db => (lease_v6_release_prefix 0 now db prefix plen).2) <$> db)
  end.

(** ** The invariant *)

Record pd_wf (pool : pd_pool_t) : Prop := {
  pd_bound : (length pool.(pp_entries) <= MAX_PD_POOL_SIZE)%nat;
  pd_in6 : Forall (fun e => is_in6 e.(pe_prefix)) pool.(pp_entries);
  pd_available : pool.(pp_available_count)
                 = countb (pd_in_state IP6_STATE_AVAILABLE) pool.(pp_entries);
  pd_allocated : pool.(pp_allocated_count)
                 = countb (pd_in_state IP6_STATE_ALLOCATED) pool.(pp_entries)
}.

(** The prefixes of the pool, as numbers, with their lengths. *)
Definition pd_prefixes (pool : pd_pool_t) : list (Z * Z) :=
  (fun e => (be_val e.(pe_prefix), e.(pe_plen))) <$> pool.(pp_entries).

(** Only states and owners differ. *)
Definition pd_moved (pool pool' : pd_pool_t) : Prop :=
  pd_wf pool' /\ pd_prefixes pool' = pd_prefixes pool.


(** ** Lemmas *)

Lemma pd_moved_refl pool : pd_wf pool -> pd_moved pool pool.
Proof. by split. Qed.

Lemma pd_moved_trans p q r : pd_moved p q -> pd_moved q r -> pd_moved p r.
Proof. intros [_ H1] [H2 H3]. split; [done|congruence]. Qed.

Lemma pd_entry_at_entry pool pfx plen i e :
  pd_entry_at pool pfx plen = Some (i, e) -> pool.(pp_entries) !! i = Some e.
Proof.
  unfold pd_entry_at. destruct (pd_pool_find_entry pool pfx plen) as [j|]; [|done]. simpl.
  destruct (pp_entries pool !! j) as [e'|] eqn:E; [|done]. simpl. intros [= -> ->]. done.
Qed.

Lemma pd_first_spec p pool i e :
  pd_first p pool = Some (i, e) ->
  pool.(pp_entries) !! i = Some e /\ p e = true
  /\ forall j e', (j < i)%nat -> pool.(pp_entries) !! j = Some e' -> p e' = false.
Proof.
  unfold pd_first. destruct (find_index p (pp_entries pool)) as [j|] eqn:E; [|done]. simpl.
  apply find_index_Some in E as (x & Hx & Hp & Hlt). rewrite Hx. simpl. intros [= -> ->]. done.
Qed.

Lemma pd_first_none p pool :
  pd_first p pool = None -> forall e, e ∈ pool.(pp_entries) -> p e = false.
Proof.
  unfold pd_first. destruct (find_index p (pp_entries pool)) as [j|] eqn:E.
  - apply find_index_lookup in E as (x & Hx & _). simpl. by rewrite Hx.
  - by rewrite find_index_None in E.
Qed.

(** An entry moves between states, the counters with it. *)
Lemma pd_move pool i e e' av al :
  pd_wf pool -> pool.(pp_entries) !! i = Some e ->
  pe_prefix e' = pe_prefix e -> pe_plen e' = pe_plen e ->
  av = pp_available_count pool - (if pd_in_state IP6_STATE_AVAILABLE e then 1 else 0)
       + (if pd_in_state IP6_STATE_AVAILABLE e' then 1 else 0) ->
  al = pp_allocated_count pool - (if pd_in_state IP6_STATE_ALLOCATED e then 1 else 0)
       + (if pd_in_state IP6_STATE_ALLOCATED e' then 1 else 0) ->
  pd_moved pool (set_pp_allocated_count al (set_pp_available_count av (pd_put i e' pool))).
Proof.
  intros [Hb Hi Ha Hl] He Hp Hq -> ->. split.
  - constructor; simpl; [by rewrite length_insert| |..].
    { apply Forall_insert; [done|]. rewrite Hp. by eapply (Forall_lookup_1 _ _ _ _ Hi). }
    all: by rewrite (countb_insert _ _ _ _ _ He), <- ?Ha, <- ?Hl.
  - unfold pd_prefixes. simpl. rewrite list_fmap_insert, Hp, Hq. apply list_insert_id.
    by rewrite list_lookup_fmap, He.
Qed.

(** The counters lie within the pool. *)
Lemma pd_counters pool s :
  pd_wf pool -> 0 <= countb (pd_in_state s) pool.(pp_entries) <= Z.of_nat (length pool.(pp_entries))
  /\ (length pool.(pp_entries) <= 4096)%nat.
Proof.
  intros [Hb _ _ _]. split; [split; [apply countb_nonneg|apply countb_length]|].
  etransitivity; [exact Hb|]. unfold MAX_PD_POOL_SIZE. lia.
Qed.

Lemma pd_enter_leave_moved pool i e e' :
  pd_wf pool -> pool.(pp_entries) !! i = Some e ->
  pe_prefix e' = pe_prefix e -> pe_plen e' = pe_plen e ->
  pd_moved pool (pd_put i e' (pd_enter e'.(pe_state) (pd_leave e.(pe_state) pool))).
Proof.
  intros Hwf He Hp Hq.
  destruct (pd_counters pool IP6_STATE_AVAILABLE Hwf) as [Ra Hn].
  destruct (pd_counters pool IP6_STATE_ALLOCATED Hwf) as [Rl _].
  pose proof (counter_step _ _ (pd_in_state IP6_STATE_AVAILABLE e)
    (pd_in_state IP6_STATE_AVAILABLE e') Ra Hn (countb_pos _ _ _ _ He)) as Sa.
  pose proof (counter_step _ _ (pd_in_state IP6_STATE_ALLOCATED e)
    (pd_in_state IP6_STATE_ALLOCATED e') Rl Hn (countb_pos _ _ _ _ He)) as Sl.
  rewrite <- (pd_available _ Hwf) in Sa. rewrite <- (pd_allocated _ Hwf) in Sl.
  pose proof (pd_move pool i e e' _ _ Hwf He Hp Hq Sa Sl) as H.
  unfold pd_in_state in H. destruct pool, (pe_state e), (pe_state e'); exact H.
Qed.

Lemma pd_sync_moved pool L : pd_wf pool -> pd_moved pool (pd_sync_lease pool L).
Proof.
  intros Hwf. unfold pd_sync_lease. destruct (_ || _); [by apply pd_moved_refl|].
  destruct (pd_entry_at pool (x_prefix_v6 L) (x_plen L)) as [[i e]|] eqn:E;
    [|by apply pd_moved_refl].
  apply pd_entry_at_entry in E. cbv zeta. apply pd_enter_leave_moved; [done..| |];
    repeat case_match; done.
Qed.

Lemma pd_sync_all_moved ls : forall pool, pd_wf pool -> pd_moved pool (foldl pd_sync_lease pool ls).
Proof.
  induction ls as [|L ls IH]; intros pool Hwf; [by apply pd_moved_refl|]. simpl.
  pose proof (pd_sync_moved pool L Hwf) as Hm. eapply pd_moved_trans; [done|].
  apply IH. by destruct Hm.
Qed.

Lemma pd_release_moved now pool pfx plen db :
  pd_wf pool -> pd_moved pool (pd_pool_release now pool pfx plen db).1.2.
Proof.
  intros Hwf. unfold pd_pool_release.
  destruct (pd_entry_at pool pfx plen) as [[i e]|] eqn:E; [|by apply pd_moved_refl].
  apply pd_entry_at_entry in E. cbv zeta. cbn [fst snd].
  destruct (pd_in_state IP6_STATE_ALLOCATED e) eqn:Es; [|by apply pd_moved_refl].
  apply bool_decide_eq_true in Es.
  pose proof (pd_enter_leave_moved pool i e
    (set_pe_duid [] (set_pe_state IP6_STATE_AVAILABLE e)) Hwf E eq_refl eq_refl) as H.
  rewrite Es in H. exact H.
Qed.

(** ** Initialisation *)

Lemma pd_add_wf plen pfx pool :
  pd_wf pool -> is_in6 pfx -> (length (pp_entries pool) < MAX_PD_POOL_SIZE)%nat ->
  pd_wf (pd_add_entry plen pfx pool)
  /\ pd_prefixes (pd_add_entry plen pfx pool) = pd_prefixes pool ++ [(be_val pfx, plen)].
Proof.
  intros Hwf Hp Hlt. destruct (pd_counters pool IP6_STATE_AVAILABLE Hwf) as [Ra Hn].
  destruct Hwf as [Hb Hi Ha Hl]. split.
  - constructor; simpl.
    + rewrite length_app. simpl. lia.
    + apply Forall_app. split; [done|]. by constructor.
    + rewrite countb_app, Ha.
      change (countb (pd_in_state IP6_STATE_AVAILABLE) [pd_free_entry plen pfx]) with 1.
      apply u32_small. unfold is_u32. lia.
    + rewrite countb_app, Hl.
      change (countb (pd_in_state IP6_STATE_ALLOCATED) [pd_free_entry plen pfx]) with 0. lia.
  - unfold pd_prefixes. simpl. by rewrite fmap_app.
Qed.

(** The loop is at [cur], [n] steps of size [step] after [start]. *)
Record pd_built (start stop step plen n : Z) (cur : in6_addr) (pool : pd_pool_t) : Prop := {
  pb_wf : pd_wf pool;
  pb_cur : is_in6 cur;
  pb_val : be_val cur = start + n * step;
  pb_len : Z.of_nat (length (pp_entries pool)) = n;
  pb_prefixes : pd_prefixes pool = (fun k => (start + k * step, plen)) <$> seqZ 0 n;
  pb_last : 1 <= n -> start + (n - 1) * step <= stop
}.

(** The number of prefixes of a range. *)
Definition pd_count (start stop step : Z) : Z := Z.min 1024 ((stop - start) / step + 1).

Lemma pd_count_end start stop step n :
  0 < step -> start <= stop -> 0 <= n <= 1024 -> (1 <= n -> start + (n - 1) * step <= stop) ->
  stop < start + n * step -> pd_count start stop step = n.
Proof.
  intros Hs Hle Hn Hlast Hgt. unfold pd_count.
  assert (1 <= n) by (destruct (Z.eq_dec n 0); nia).
  assert ((stop - start) / step = n - 1) as ->; [|lia].
  symmetry. apply (Z.div_unique_pos _ _ _ (stop - start - (n - 1) * step)); nia.
Qed.

Lemma pd_init_loop_spec start stop plen : 1 <= plen <= 128 -> is_in6 stop ->
  start <= be_val stop ->
  let step := 2 ^ (128 - plen) in
  forall fuel n cur pool,
  pd_built start (be_val stop) step plen n cur pool ->
  (MAX_PD_POOL_SIZE < fuel + length (pp_entries pool))%nat ->
  exists pool', pd_init_loop fuel plen cur stop pool = Some pool' /\ pd_wf pool'
    /\ pd_prefixes pool' = (fun k => (start + k * step, plen))
                             <$> seqZ 0 (pd_count start (be_val stop) step).
Proof.
  intros Hp Hst Hle step. assert (0 < step) as Hstep by (unfold step; lia).
  intros fuel. induction fuel as [|fuel IH]; intros n cur pool Hb Hf.
  { destruct Hb as [[] _ _ _ _ _]. lia. }
  pose proof Hb as [Hwf Hc Hv Hlen Hps Hlast]. cbn [pd_init_loop].
  pose proof (pd_bound _ Hwf) as Hbd. assert (MAX_PD_POOL_SIZE = 1024%nat) as HM by done.
  pose proof (in6_range stop Hst) as Hr. pose proof (in6_range cur Hc) as Hrc.
  rewrite compare_value by done.
  destruct (Z.ltb_spec 0 (Z.sgn (be_val cur - be_val stop))) as [Hgt|Hng].
  { exists pool. split_and!; [done..|]. rewrite Hps. do 2 f_equal. symmetry.
    apply pd_count_end; [done..|lia|done|lia]. }
  assert (be_val cur <= be_val stop) as Hcs by lia.
  case_bool_decide as Hfull.
  { exists pool. split_and!; [done..|]. rewrite Hps. do 2 f_equal. unfold pd_count.
    assert (n <= (be_val stop - start) / step); [|lia].
    apply Z.div_le_lower_bound; lia. }
  destruct (pd_add_wf plen cur pool Hwf Hc) as [Hwf' Hps']; [lia|].
  assert (pd_prefixes (pd_add_entry plen cur pool)
          = (fun k => (start + k * step, plen)) <$> seqZ 0 (n + 1)) as Hps2.
  { rewrite Hps', Hps, seqZ_app by lia. rewrite fmap_app. f_equal. simpl.
    change (seqZ n 1) with [0 + n]. simpl. by rewrite Hv. }
  assert (Z.of_nat (length (pp_entries (pd_add_entry plen cur pool))) = n + 1) as Hl'.
  { simpl. rewrite length_app. simpl. lia. }
  destruct (increment_prefix_spec cur plen Hc Hp) as [Hn Hnv]. fold step in Hnv.
  rewrite compare_value by done.
  destruct (Z.leb_spec (Z.sgn (be_val (increment_prefix cur plen) - be_val cur)) 0) as [Hw|Hg].
  - eexists. split; [reflexivity|]. split; [done|]. rewrite Hps2. do 2 f_equal. symmetry.
    apply pd_count_end; [done..|lia| |].
    + intros _. replace (n + 1 - 1) with n by lia. lia.
    + destruct (Z_lt_dec (be_val cur + step) (2 ^ 128)) as [Hs|Hs]; [|lia].
      rewrite Z.mod_small in Hnv; lia.
  - assert (be_val cur + step < 2 ^ 128) as Hs.
    { destruct (Z_lt_dec (be_val cur + step) (2 ^ 128)) as [|Hs]; [done|exfalso].
      assert (step <= 2 ^ 128) by (unfold step; apply Z.pow_le_mono_r; lia).
      replace (be_val cur + step) with (be_val cur + step - 2 ^ 128 + 1 * 2 ^ 128) in Hnv by lia.
      rewrite Z.mod_add in Hnv by lia. rewrite Z.mod_small in Hnv by lia. lia. }
    rewrite Z.mod_small in Hnv by lia.
    apply (IH (n + 1) (increment_prefix cur plen) (pd_add_entry plen cur pool)).
    + constructor; [done|done|rewrite Hnv; lia|done|done|]. intros _.
      replace (n + 1 - 1) with n by lia. lia.
    + lia.
Qed.

(** Initialisation ends with a well-formed pool, empty when there is nothing to delegate. *)
Lemma pd_init_ok subnet db plen :
  (subnet.(s6_pd_enabled) = true -> subnet.(s6_has_pd_pool) = true ->
   is_in6 subnet.(s6_pd_pool_start_bin) /\ is_in6 subnet.(s6_pd_pool_end_bin) /\ 1 <= plen <= 128) ->
  exists rc pool, pd_pool_init subnet db plen = Some (rc, pool) /\ pd_wf pool.
Proof.
  intros Hok. unfold pd_pool_init. cbv zeta.
  assert (forall a b c, pd_wf (mk_pd_pool subnet a b c [] 0 0 0)) as Hempty.
  { intros. constructor; simpl; try done. lia. }
  destruct (s6_pd_enabled subnet), (s6_has_pd_pool subnet); cbn [negb orb];
    try (eexists _, _; split; [done|apply Hempty]).
  destruct (Hok eq_refl eq_refl) as (Hs & He & Hp).
  rewrite compare_value by done.
  destruct (Z.ltb_spec 0 (Z.sgn (be_val (s6_pd_pool_start_bin subnet)
    - be_val (s6_pd_pool_end_bin subnet)))) as [|Hle]; [eexists _, _; split; [done|apply Hempty]|].
  set (pool0 := set_pp_base_plen plen _).
  destruct (pd_init_loop_spec (be_val (s6_pd_pool_start_bin subnet)) (s6_pd_pool_end_bin subnet) plen
    Hp He ltac:(lia) (S MAX_PD_POOL_SIZE) 0 (s6_pd_pool_start_bin subnet) pool0)
    as (pool & -> & Hwf & _).
  { constructor; [by apply Hempty|done|lia|done..|lia]. }
  { subst pool0. cbn [set_pp_base_plen set_pp_base_prefix pd_empty pp_entries length]. lia. }
  eexists _, _. split; [done|]. destruct db; [by apply pd_sync_all_moved|done].
Qed.

(** ** Allocation *)

Section pd_allocation_spec.
Variables now t1 t2 : Z.
Variables (d : list Z) (iaid : Z) (host : option cstr) (secs : Z).
Hypothesis d_ok : duid_ok d.

Local Abbreviation duid := (hex_loop d).

(** The lease of a delegated prefix. *)
Definition pd_leased (db : lease_v6_db_t) (pfx : in6_addr) (plen : Z) : Prop :=
  exists l, l ∈ db.(d_leases) /\ lease_key l = Some (inr (take 16 pfx, plen))
    /\ x_state l = LEASE_STATE_ACTIVE /\ x_iaid l = iaid /\ x_ends l = t2 + secs
    /\ (d <> [] -> take (length d) l.(x_duid) = d).

Lemma pd_add_lease_spec db e :
  db6_wf db ->
  let '(r, db') := pd_add_lease t1 t2 duid iaid host secs db e in
  db6_wf db'
  /\ match r with
     | Some _ => pd_leased db' e.(pe_prefix) e.(pe_plen)
     | None => length db.(d_leases) = LEASES6_MAX /\ db' = db
               /\ lease_v6_find_by_prefix db e.(pe_prefix) e.(pe_plen) = None
     end.
Proof.
  intros Hwf. unfold pd_add_lease.
  pose proof (add_pd_result t1 t2 db d iaid (pe_prefix e) (pe_plen e) secs host Hwf d_ok) as H.
  destruct (lease_v6_add_ia_pd t1 t2 db duid iaid (pe_prefix e) (pe_plen e) secs host)
    as [[i|] db']; unfold add_result in H; simpl in H.
  - destruct H as (Hwf' & _ & _ & l & Hl & Hk & Hs & Hi & _ & He & Hdu).
    split; [done|]. exists l. split_and!; try done; [by eapply list_elem_of_lookup_2|].
    intros Hd. by apply Hdu.
  - destruct H as (Hn & Hl & ->). auto.
Qed.

(** What an allocation does. *)
Definition pd_result_ok (pool : pd_pool_t) (db : lease_v6_db_t)
    (res : pd_allocation_result_t * pd_pool_t * lease_v6_db_t) : Prop :=
  let '(r, pool', db') := res in
  pd_moved pool pool' /\ db6_wf db'
  /\ if pr_success r then
       exists i e, pp_entries pool !! i = Some e
         /\ pr_prefix r = e.(pe_prefix) /\ pr_plen r = e.(pe_plen)
         /\ (pr_is_new r = false /\ pd_holds duid e = true /\ pool' = pool
             /\ (forall j x, (j < i)%nat -> pp_entries pool !! j = Some x -> pd_holds duid x = false)
             /\ (pd_leased db' e.(pe_prefix) e.(pe_plen)
                 \/ length db.(d_leases) = LEASES6_MAX /\ db' = db
                    /\ lease_v6_find_by_prefix db e.(pe_prefix) e.(pe_plen) = None)
             \/ pr_is_new r = true /\ e.(pe_state) = IP6_STATE_AVAILABLE
                /\ (forall j x, (j < i)%nat -> pp_entries pool !! j = Some x ->
                      x.(pe_state) <> IP6_STATE_AVAILABLE)
                /\ (forall x, x ∈ pp_entries pool -> pd_holds duid x = false)
                /\ pp_entries pool' = <[i := pd_claim now duid e]> (pp_entries pool)
                /\ pd_leased db' e.(pe_prefix) e.(pe_plen))
     else
       (forall x, x ∈ pp_entries pool -> pd_holds duid x = false)
       /\ ((forall x, x ∈ pp_entries pool -> x.(pe_state) <> IP6_STATE_AVAILABLE)
           \/ length db.(d_leases) = LEASES6_MAX).

Lemma pd_claim_moved pool i e :
  pd_wf pool -> pp_entries pool !! i = Some e -> e.(pe_state) = IP6_STATE_AVAILABLE ->
  pd_moved pool
    (set_pp_allocated_count (pp_allocated_count pool +u32 1)
       (set_pp_available_count (pp_available_count pool -u32 1)
          (pd_put i (pd_claim now duid e) pool)))
  /\ 1 <= pp_available_count pool <= 1024 /\ 0 <= pp_allocated_count pool <= 1024.
Proof.
  intros Hwf He Hs.
  assert (1 <= pp_available_count pool <= 1024 /\ 0 <= pp_allocated_count pool <= 1024) as [Ha Hl].
  { pose proof (pd_bound _ Hwf) as Hb. assert (MAX_PD_POOL_SIZE = 1024%nat) as HM by done.
    rewrite (pd_available _ Hwf), (pd_allocated _ Hwf).
    destruct (pd_counters pool IP6_STATE_AVAILABLE Hwf) as [Ra _].
    destruct (pd_counters pool IP6_STATE_ALLOCATED Hwf) as [Rl _].
    pose proof (countb_pos (pd_in_state IP6_STATE_AVAILABLE) (pp_entries pool) i e He) as Hpos.
    unfold pd_in_state at 1 in Hpos. rewrite Hs in Hpos. specialize (Hpos eq_refl). lia. }
  split; [|done]. eapply pd_move; [done|exact He|done|done| |];
    unfold pd_in_state; rewrite Hs; simpl; rewrite u32_small; unfold is_u32; lia.
Qed.

Lemma pd_allocate_ok pool db :
  pd_wf pool -> db6_wf db ->
  pd_result_ok pool db (pd_pool_allocate now t1 t2 duid iaid host secs pool db).
Proof.
  intros Hwf Hdb. unfold pd_pool_allocate.
  destruct (pd_first (pd_holds duid) pool) as [[i e]|] eqn:Eh.
  { apply pd_first_spec in Eh as (He & Hh & Hlt). pose proof (pd_add_lease_spec db e Hdb) as Hl.
    destruct (pd_add_lease t1 t2 duid iaid host secs db e) as [r db']. destruct Hl as [Hdb' Hl].
    unfold pd_result_ok. simpl. split_and!; [by apply pd_moved_refl|done|].
    exists i, e. split; [done|]. split; [done|]. split; [done|]. left. split_and!; try done.
    destruct r; [by left|by right]. }
  pose proof (pd_first_none _ _ Eh) as Hno.
  destruct (pd_first (pd_in_state IP6_STATE_AVAILABLE) pool) as [[i e]|] eqn:Ea; cycle 1.
  { unfold pd_result_ok. simpl. split_and!; [by apply pd_moved_refl|done..|]. left.
    intros x Hx Hs. pose proof (pd_first_none _ _ Ea x Hx) as Hf.
    by apply bool_decide_eq_false in Hf. }
  apply pd_first_spec in Ea as (He & Hs & Hlt). apply bool_decide_eq_true in Hs.
  assert (forall j x, (j < i)%nat -> pp_entries pool !! j = Some x ->
    x.(pe_state) <> IP6_STATE_AVAILABLE) as Hfirst.
  { intros j x Hj Hx. specialize (Hlt j x Hj Hx). by apply bool_decide_eq_false in Hlt. }
  destruct (pd_claim_moved pool i e Hwf He Hs) as (Hm & Ra & Rl). cbv zeta.
  pose proof (pd_add_lease_spec db (pd_claim now duid e) Hdb) as Hl.
  destruct (pd_add_lease t1 t2 duid iaid host secs db (pd_claim now duid e)) as [[x|] db'];
    destruct Hl as [Hdb' Hl]; unfold pd_result_ok; simpl.
  - split_and!; [exact Hm|done|]. exists i, e. split_and!; try done. right. by split_and!.
  - destruct Hl as (Hfull & -> & _). split_and!; [|done|done|by right].
    pose proof (pd_move pool i e (set_pe_duid [] (set_pe_state IP6_STATE_AVAILABLE
      (pd_claim now duid e))) (pp_available_count pool -u32 1 +u32 1)
      (pp_allocated_count pool +u32 1 -u32 1) Hwf He eq_refl eq_refl) as H.
    unfold pd_put in *. simpl in *. rewrite list_insert_insert, decide_True by done. apply H.
    + unfold pd_in_state. rewrite Hs. simpl. rewrite (u32_small (pp_available_count pool - 1));
        [rewrite u32_small|]; unfold is_u32; lia.
    + unfold pd_in_state. rewrite Hs. simpl. rewrite (u32_small (pp_allocated_count pool + 1));
        [rewrite u32_small|]; unfold is_u32; lia.
Qed.
End pd_allocation_spec.

(** ** Theorems *)

(** What [pd_pool_init] builds for a subnet with delegation enabled: it always ends,
    and the pool then has the prefixes of length [plen] that start at the start of the
    range and follow one another by 2^(128 - plen), up to the last that starts within
    the range, or the first 1024 of them; they do not overlap, and the counters of
    available and allocated entries are exact whatever leases are synchronised. *)
Lemma pd_pool_init_prefixes subnet db plen :
  is_in6 subnet.(s6_pd_pool_start_bin) -> is_in6 subnet.(s6_pd_pool_end_bin) ->
  be_val subnet.(s6_pd_pool_start_bin) <= be_val subnet.(s6_pd_pool_end_bin) ->
  subnet.(s6_pd_enabled) = true -> subnet.(s6_has_pd_pool) = true -> 1 <= plen <= 128 ->
  let start := be_val subnet.(s6_pd_pool_start_bin) in
  let step := 2 ^ (128 - plen) in
  exists pool, pd_pool_init subnet db plen = Some (0, pool) /\ pd_wf pool
  /\ pd_prefixes pool = (fun k => (start + k * step, plen))
       <$> seqZ 0 (Z.min 1024 ((be_val subnet.(s6_pd_pool_end_bin) - start) / step + 1))
  /\ forall i j p q, pd_prefixes pool !! i = Some p -> pd_prefixes pool !! j = Some q ->
       i <> j -> p.1 + step <= q.1 \/ q.1 + step <= p.1.
Proof.
  intros Hs He Hle Hen Hhas Hp start step. unfold pd_pool_init. rewrite Hen, Hhas. cbn [negb orb].
  rewrite compare_value by done. cbv zeta. fold start in Hle.
  destruct (Z.ltb_spec 0 (Z.sgn (be_val (s6_pd_pool_start_bin subnet)
    - be_val (s6_pd_pool_end_bin subnet)))) as [|_]; [unfold start in Hle; lia|].
  set (pool0 := set_pp_base_plen plen _).
  destruct (pd_init_loop_spec start (s6_pd_pool_end_bin subnet) plen Hp He Hle
    (S MAX_PD_POOL_SIZE) 0 (s6_pd_pool_start_bin subnet) pool0) as (pool & -> & Hwf & Hps).
  { constructor; [by constructor; [apply Nat.le_0_l|..]|done|unfold start; lia|done..|lia]. }
  { subst pool0. cbn [set_pp_base_plen set_pp_base_prefix pd_empty pp_entries length]. lia. }
  cbn [mbind option_bind]. set (pool' := match db with Some db => _ | None => pool end).
  assert (pd_moved pool pool') as [Hwf' Hps'].
  { subst pool'. destruct db; [by apply pd_sync_all_moved|by apply pd_moved_refl]. }
  exists pool'. rewrite Hps', Hps. split_and!; [done..|].
  intros i j p q Hi Hj Hij.
  apply list_lookup_fmap_Some in Hi as (x & -> & Hx). apply list_lookup_fmap_Some in Hj as (y & -> & Hy).
  apply lookup_seqZ in Hx as [-> _]. apply lookup_seqZ in Hy as [-> _]. cbn [fst].
  assert (0 < step) by (unfold step; lia). nia.
Qed.

(** A /64 range of three /66 prefixes. *)
Definition sample_pd_subnet : dhcpv6_subnet_t :=
  mk_subnet6 [] 32 zero_addr6 true [] [] [] [] false [] [] [] false 0 false 0
    false [] false [] false 0 0 [] true [] [] 66
    [32; 1; 13; 184; 0; 0; 0; 0; 0; 0; 0; 0; 0; 0; 0; 0]
    [32; 1; 13; 184; 0; 0; 0; 0; 128; 0; 0; 0; 0; 0; 0; 0] true false false 0 false.

Lemma sample_pd_ok :
  is_in6 (s6_pd_pool_start_bin sample_pd_subnet) /\ is_in6 (s6_pd_pool_end_bin sample_pd_subnet).
Proof. split; apply is_in6_bytes; reflexivity. Qed.

Lemma pd_pool_init_prefixes_witness :
  exists pool, pd_pool_init sample_pd_subnet None 66 = Some (0, pool)
  /\ length (pd_prefixes pool) = 3%nat.
Proof.
  destruct (pd_pool_init_prefixes sample_pd_subnet None 66 (proj1 sample_pd_ok) (proj2 sample_pd_ok))
    as (pool & E & _ & Hps & _); [vm_compute; congruence|reflexivity..|lia|].
  exists pool. split; [exact E|]. rewrite Hps. vm_compute. reflexivity.
Defined.

(** C37: For a client with a DUID of at most 128 bytes, [pd_pool_allocate] gives the first
    prefix the client holds, leaving the pool unchanged, or else the first available one,
    which becomes its own, no other entry changing.  A prefix that is new has an ACTIVE lease
    with the client's IAID, DUID and end; so has one held already, unless the lease array is
    full and has no lease for it, when the call succeeds without one.  It fails, with no
    prefix held, only when no entry is available or the lease database is full; in every
    case the entries keep their prefixes, the counters stay exact and the database keeps its
    invariant. *)
Theorem pd_pool_allocate_spec now t1 t2 d iaid host secs pool db :
  duid_ok d -> pd_wf pool -> db6_wf db ->
  let '(r, pool', db') := pd_pool_allocate now t1 t2 (hex_loop d) iaid host secs pool db in
  pd_wf pool' /\ pd_prefixes pool' = pd_prefixes pool /\ db6_wf db'
  /\ if pr_success r then
       exists i e, pp_entries pool !! i = Some e
         /\ pr_prefix r = e.(pe_prefix) /\ pr_plen r = e.(pe_plen)
         /\ (pr_is_new r = false /\ pd_holds (hex_loop d) e = true /\ pool' = pool
             /\ (forall j x, (j < i)%nat -> pp_entries pool !! j = Some x -> pd_holds (hex_loop d) x = false)
             /\ (pd_leased t2 d iaid secs db' e.(pe_prefix) e.(pe_plen)
                 \/ length db.(d_leases) = LEASES6_MAX /\ db' = db
                    /\ lease_v6_find_by_prefix db e.(pe_prefix) e.(pe_plen) = None)
             \/ pr_is_new r = true /\ e.(pe_state) = IP6_STATE_AVAILABLE
                /\ (forall j x, (j < i)%nat -> pp_entries pool !! j = Some x ->
                      x.(pe_state) <> IP6_STATE_AVAILABLE)
                /\ (forall x, x ∈ pp_entries pool -> pd_holds (hex_loop d) x = false)
                /\ pp_entries pool' = <[i := pd_claim now (hex_loop d) e]> (pp_entries pool)
                /\ pd_leased t2 d iaid secs db' e.(pe_prefix) e.(pe_plen))
     else
       (forall x, x ∈ pp_entries pool -> pd_holds (hex_loop d) x = false)
       /\ ((forall x, x ∈ pp_entries pool -> x.(pe_state) <> IP6_STATE_AVAILABLE)
           \/ length db.(d_leases) = LEASES6_MAX).
Proof.
  intros Hd Hwf Hdb. pose proof (pd_allocate_ok now t1 t2 d iaid host secs Hd pool db Hwf Hdb) as H.
  destruct (pd_pool_allocate now t1 t2 (hex_loop d) iaid host secs pool db) as [[r pool'] db'].
  destruct H as ([? ?] & ? & ?). by split_and!.
Qed.

Definition sample_pd_pool : pd_pool_t :=
  mk_pd_pool sample_pd_subnet zero_addr6 66 66 [pd_free_entry 66 zero_addr6] 1 0 0.

Lemma pd_pool_allocate_spec_witness :
  pr_success (pd_pool_allocate 9 9 9 (hex_loop [0; 1]) 7 None 60 sample_pd_pool
    (lease_v6_db_init [])).1.1 = true
  /\ pd_wf (pd_pool_allocate 9 9 9 (hex_loop [0; 1]) 7 None 60 sample_pd_pool
       (lease_v6_db_init [])).1.2.
Proof.
  split; [vm_compute; reflexivity|].
  pose proof (pd_pool_allocate_spec 9 9 9 [0; 1] 7 None 60 sample_pd_pool (lease_v6_db_init [])) as H.
  destruct (pd_pool_allocate 9 9 9 (hex_loop [0; 1]) 7 None 60 sample_pd_pool
    (lease_v6_db_init [])) as [[r pool'] db'].
  apply H.
  - split; [repeat constructor; unfold is_u8; lia|unfold DUID_MAX_LEN; simpl; lia].
  - constructor; [unfold MAX_PD_POOL_SIZE; simpl; lia| |reflexivity..].
    constructor; [|constructor]. apply is_in6_bytes; reflexivity.
  - apply db6_init_wf.
Defined.
