(* ===== verification/ServerV6.v ===== *)
(** * The DHCPv6 server

    [DHCPv6/sources/server.c]: the task queue between the receiving loop and the worker
    threads, the answer to a packet, the clean-up round and the start of the pools.

    [server_ctx_t] is the static [ctx] with what the packets change: the arrays of
    subnets and pools are the lists of their first [subnet_count] elements, a pointer
    into them an index.  [process_packet] and the body of [cleanup_thread] hold [db_lock]
    from their first access to [ctx] to the last, so each is one step; so is each critical
    section of the queue's own lock.  The reply handed to [sendto] is part of the result.
    What a packet reads from outside is an argument: the outcome of probes, the times, the
    bytes already in the buffer on the stack, and [inet_pton].  Logging, saving the lease
    file and the socket set-up are left out. *)

From stdpp Require Import relations.
From S2P Require Import Prelude Ring UtilsV6 LeasesV6 ConfigV6 ProtocolV6 Ip6Pool PdPool.

Definition BUF_SIZE : nat := 4096.
Definition THREAD_POOL_SIZE : nat := 8.
Definition QUEUE_SIZE : nat := 256.

(** ** Data *)

Record sockaddr_in6 := mk_sockaddr6 {
  sin6_port : Z;
  sin6_addr : in6_addr;
  sin6_scope_id : Z
}.

(** The first [len] bytes of [buf], and the sender. *)
Record task_t := mk_task6 {
  t6_buf : list Z;
  t6_client_addr : sockaddr_in6
}.

Record task_queue_t := mk_task_queue {
  tq_tasks : ring task_t;
  tq_shutdown : bool
}.

Record server_stats_t := mk_stats {
  st_start_time : Z;
  st_pkt_received : Z;
  st_pkt_processed : Z;
  st_leases_active : Z;
  st_errors_count : Z
}.

Record server_ctx_t := mk_ctx {
  k_config : dhcpv6_config_t;
  k_db : lease_v6_db_t;
  k_pools : list ip6_pool_t;
  k_pd_pools : list pd_pool_t;
  k_stats : option server_stats_t
}.

Definition set_k_db (v : lease_v6_db_t) (r : server_ctx_t) : server_ctx_t :=
  mk_ctx r.(k_config) v r.(k_pools) r.(k_pd_pools) r.(k_stats).

Definition set_k_pools (v : list ip6_pool_t) (r : server_ctx_t) : server_ctx_t :=
  mk_ctx r.(k_config) r.(k_db) v r.(k_pd_pools) r.(k_stats).

Definition set_k_pd_pools (v : list pd_pool_t) (r : server_ctx_t) : server_ctx_t :=
  mk_ctx r.(k_config) r.(k_db) r.(k_pools) v r.(k_stats).

Definition set_k_stats (v : option server_stats_t) (r : server_ctx_t) : server_ctx_t :=
  mk_ctx r.(k_config) r.(k_db) r.(k_pools) r.(k_pd_pools) v.

Definition set_st_pkt_received (v : Z) (r : server_stats_t) : server_stats_t :=
  mk_stats r.(st_start_time) v r.(st_pkt_processed) r.(st_leases_active) r.(st_errors_count).

Definition set_st_leases_active (v : Z) (r : server_stats_t) : server_stats_t :=
  mk_stats r.(st_start_time) r.(st_pkt_received) r.(st_pkt_processed) v r.(st_errors_count).

(** [if (ctx.stats) __sync_fetch_and_add(&ctx.stats->leases_active, by)], 64 bits wide. *)
Definition count_leases (by_ : Z) (ctx : server_ctx_t) : server_ctx_t :=
  set_k_stats ((fun s => set_st_leases_active (u64 (s.(st_leases_active) + by_)) s)
                 <$> ctx.(k_stats)) ctx.

(** ** The task queue *)

Definition queue_init (garbage : task_t) : task_queue_t :=
  mk_task_queue (ring_new QUEUE_SIZE garbage) false.

(** [queue_push]: whether the packet was taken, and the queue. *)
Definition queue_push (t : task_t) (q : task_queue_t) : outcome (bool * task_queue_t) :=
  if bool_decide (q.(tq_tasks).(ring_count) < QUEUE_SIZE)%nat && negb q.(tq_shutdown) then
    if bool_decide (BUF_SIZE < length t.(t6_buf))%nat then Fault OutOfBounds
    else Ret (true, mk_task_queue (ring_push t q.(tq_tasks)) q.(tq_shutdown))
  else Ret (false, q).

(** The end of [dhcpv6_agent_start]. *)
Definition queue_shutdown (q : task_queue_t) : task_queue_t := mk_task_queue q.(tq_tasks) true.

Inductive worker6_action :=
| Worker6Wait
| Worker6Exit
| Worker6Run (t : task_t) (q : task_queue_t).

(** The critical section of [worker_thread]. *)
Definition worker_thread (q : task_queue_t) : outcome worker6_action :=
  if bool_decide (q.(tq_tasks).(ring_count) = 0%nat) && negb q.(tq_shutdown) then Ret Worker6Wait
  else if q.(tq_shutdown) then Ret Worker6Exit
  else
    '(t, r) ← in_bounds (ring_pop q.(tq_tasks));
    Ret (Worker6Run t (mk_task_queue r q.(tq_shutdown))).

(** ** Finding the subnet *)

(** [IN6_IS_ADDR_LINKLOCAL]. *)
Definition is_linklocal (ip : in6_addr) : bool :=
  (byte_at ip 0 =? 0xfe) && (Z.land (byte_at ip 1) 0xc0 =? 0x80).

Definition find_subnet (cfg : dhcpv6_config_t) (src_ip : in6_addr) : nat :=
  if is_linklocal src_ip then 0%nat
  else default 0%nat (find_index (fun s => ipv6_in_subnet src_ip s.(s6_prefix_bin) s.(s6_prefix_len))
                        cfg.(c6_subnets)).

Definition get_pool_by_subnet (ctx : server_ctx_t) (idx : nat) : option ip6_pool_t :=
  if bool_decide (idx < length ctx.(k_config).(c6_subnets))%nat then ctx.(k_pools) !! idx else None.

Definition get_pd_pool_by_subnet (ctx : server_ctx_t) (idx : nat) : option pd_pool_t :=
  if bool_decide (idx < length ctx.(k_config).(c6_subnets))%nat then ctx.(k_pd_pools) !! idx
  else None.

(** An element of the zeroed array. *)
Definition zero_subnet6 : dhcpv6_subnet_t :=
  mk_subnet6 [] 0 zero_addr6 false [] [] zero_addr6 zero_addr6 false [] [] [] false 0 false 0
    false [] false [] false 0 0 [] false [] [] 0 zero_addr6 zero_addr6 false false false 0 false.

Definition subnet_at (ctx : server_ctx_t) (idx : nat) : dhcpv6_subnet_t :=
  default zero_subnet6 (ctx.(k_config).(c6_subnets) !! idx).

(** ** Answering a packet *)

Definition server_duid : list Z := [0; 1; 0; 1; 0xAA; 0xBB; 0xCC; 0xDD; 0xEE; 0xFF; 0; 0; 0; 0].

(** 0 when there is no answer. *)
Definition reply_type (msg_type : Z) : Z :=
  if msg_type =? MSG_SOLICIT then MSG_ADVERTISE
  else if (msg_type =? MSG_REQUEST) || (msg_type =? MSG_RENEW) || (msg_type =? MSG_REBIND)
          || (msg_type =? MSG_RELEASE) || (msg_type =? MSG_DECLINE) then MSG_REPLY
  else 0.

Definition gives_back (m : dhcpv6_packet_meta_t) : bool :=
  (m.(m_msg_type) =? MSG_RELEASE) || (m.(m_msg_type) =? MSG_DECLINE).

(** [duid_hex] after [duid_bin_to_hex], in its 256 bytes. *)
Definition duid_text (m : dhcpv6_packet_meta_t) : cstr :=
  match duid_bin_to_hex (default [] m.(m_client_duid)) 256 with
  | Some (_, s) => s
  | None => []
  end.

(** What is fixed while one packet is answered. *)
Record packet_env := mk_env {
  v_inet_pton6 : cstr -> option in6_addr;
  v_ping : in6_addr -> Z -> bool;
  v_now : Z;
  v_t1 : Z;
  v_t2 : Z;
  v_pd_now : Z;
  v_pd_t1 : Z;
  v_pd_t2 : Z
}.

Section answer.
Variable v : packet_env.
Variables (m : dhcpv6_packet_meta_t) (idx : nat).

(** The actions of RELEASE and DECLINE. *)
Definition give_back (ctx : server_ctx_t) : server_ctx_t :=
  if gives_back m then
    let ctx :=
      if m.(m_has_ia_na) && bool_decide (0 < length ctx.(k_db).(d_leases))%nat then
        if m.(m_msg_type) =? MSG_RELEASE
        then set_k_db (lease_v6_release_ip 0 v.(v_now) ctx.(k_db) m.(m_requested_ip)).2 ctx
        else
          match get_pool_by_subnet ctx idx with
          | Some pool =>
              let '(_, pool, db) :=
                ip6_pool_mark_conflict v.(v_now) pool m.(m_requested_ip) (Some ctx.(k_db)) in
              set_k_db (default ctx.(k_db) db) (set_k_pools (<[idx := pool]> ctx.(k_pools)) ctx)
          | None => ctx
          end
      else ctx in
    match get_pd_pool_by_subnet ctx idx with
    | Some pool =>
        if m.(m_has_ia_pd) && (m.(m_msg_type) =? MSG_RELEASE) then
          let '(_, pool, db) :=
            pd_pool_release v.(v_pd_now) pool m.(m_requested_prefix) m.(m_requested_plen)
              (Some ctx.(k_db)) in
          set_k_db (default ctx.(k_db) db) (set_k_pd_pools (<[idx := pool]> ctx.(k_pd_pools)) ctx)
        else ctx
    | None => ctx
    end
  else ctx.

(** The DNS servers of the subnet, or the global ones. *)
Definition append_dns (ctx : server_ctx_t) (buf : list Z) (off : nat) : outcome (list Z * nat) :=
  let sn := subnet_at ctx idx in
  let dns_str := if nonempty sn.(s6_dns_servers) then sn.(s6_dns_servers)
                 else ctx.(k_config).(c6_global).(g6_global_dns_servers) in
  if nonempty dns_str then
    let dlist := str_to_ipv6_list v.(v_inet_pton6) dns_str 8 in
    if bool_decide (0 < length dlist)%nat then
      '(w, buf) ← dhcpv6_append_dns_servers buf off (BUF_SIZE - off) dlist;
      Ret (buf, if 0 <? w then (off + Z.to_nat w)%nat else off)
    else Ret (buf, off)
  else Ret (buf, off).

Definition answer_ia_na (ctx : server_ctx_t) (buf : list Z) (off : nat)
    : outcome (list Z * nat * server_ctx_t) :=
  match get_pool_by_subnet ctx idx with
  | Some pool =>
      if negb m.(m_has_ia_na) then Ret (buf, off, ctx)
      else if gives_back m then
        '(_, buf, off) ← dhcpv6_append_ia_na buf BUF_SIZE off m.(m_iaid) m.(m_requested_ip)
                           0 0 0 0 STATUS_SUCCESS;
        Ret (buf, off, count_leases (-1) ctx)
      else
        let sn := subnet_at ctx idx in
        let deflt := sn.(s6_default_lease_time) in
        let max := sn.(s6_max_lease_time) in
        let '(res, pool, db) :=
          ip6_pool_allocate v.(v_ping) v.(v_now) v.(v_t1) v.(v_t2) (duid_text m) m.(m_iaid) None
            deflt pool m.(m_requested_ip) ctx.(k_config) ctx.(k_db) in
        let ctx := set_k_db db (set_k_pools (<[idx := pool]> ctx.(k_pools)) ctx) in
        if res.(r6_success) then
          '(_, buf, off) ← dhcpv6_append_ia_na buf BUF_SIZE off m.(m_iaid) res.(r6_ip_address)
                             deflt max deflt max STATUS_SUCCESS;
          Ret (buf, off, if res.(r6_is_new) then count_leases 1 ctx else ctx)
        else
          '(_, buf, off) ← dhcpv6_append_ia_na buf BUF_SIZE off m.(m_iaid) zero_addr6
                             0 0 0 0 STATUS_NOADDRSAVAIL;
          Ret (buf, off, ctx)
  | None => Ret (buf, off, ctx)
  end.

Definition answer_ia_pd (ctx : server_ctx_t) (buf : list Z) (off : nat)
    : outcome (list Z * nat * server_ctx_t) :=
  match get_pd_pool_by_subnet ctx idx with
  | Some pool =>
      if negb m.(m_has_ia_pd) then Ret (buf, off, ctx)
      else if gives_back m then
        '(_, buf, off) ← dhcpv6_append_ia_pd buf BUF_SIZE off m.(m_iaid_pd)
                           m.(m_requested_prefix) m.(m_requested_plen) 0 0 0 0 STATUS_SUCCESS;
        Ret (buf, off, count_leases (-1) ctx)
      else
        let sn := subnet_at ctx idx in
        let deflt := sn.(s6_default_lease_time) in
        let max := sn.(s6_max_lease_time) in
        let '(res, pool, db) :=
          pd_pool_allocate v.(v_pd_now) v.(v_pd_t1) v.(v_pd_t2) (duid_text m) m.(m_iaid_pd) None
            deflt pool ctx.(k_db) in
        let ctx := set_k_db db (set_k_pd_pools (<[idx := pool]> ctx.(k_pd_pools)) ctx) in
        if res.(pr_success) then
          '(_, buf, off) ← dhcpv6_append_ia_pd buf BUF_SIZE off m.(m_iaid_pd) res.(pr_prefix)
                             res.(pr_plen) deflt max deflt max STATUS_SUCCESS;
          Ret (buf, off, if res.(pr_is_new) then count_leases 1 ctx else ctx)
        else
          '(_, buf, off) ← dhcpv6_append_ia_pd buf BUF_SIZE off m.(m_iaid_pd) zero_addr6 0
                             0 0 0 0 STATUS_NOADDRSAVAIL;
          Ret (buf, off, ctx)
  | None => Ret (buf, off, ctx)
  end.

(** The part under [if (reply_type != 0)]; [out_buf] is the buffer on the stack. *)
Definition build_reply (ctx : server_ctx_t) (out_buf : list Z)
    : outcome (list Z * nat * server_ctx_t) :=
  buf ← write_bytes 0 (reply_type m.(m_msg_type) :: dhcpv6_set_xid m.(m_transaction_id)) out_buf;
  let off := MSG_HDR in
  '(_, buf, off) ← dhcpv6_append_option buf BUF_SIZE off OPT_SERVERID server_duid;
  '(buf, off) ← match m.(m_client_duid) with
                | Some (b :: d) =>
                    '(_, buf, off) ← dhcpv6_append_option buf BUF_SIZE off OPT_CLIENTID (b :: d);
                    Ret (buf, off)
                | _ => Ret (buf, off)
                end;
  let ctx := give_back ctx in
  '(buf, off) ← append_dns ctx buf off;
  '(buf, off, ctx) ← answer_ia_na ctx buf off;
  answer_ia_pd ctx buf off.
End answer.

(** [process_packet]: the bytes sent, if any, and the context. *)
Definition process_packet (v : packet_env) (out_buf : list Z) (ctx : server_ctx_t)
    (buf : list Z) (client_addr : sockaddr_in6) : outcome (option (list Z) * server_ctx_t) :=
  parsed ← dhcpv6_parse buf;
  match parsed with
  | None => Ret (None, ctx)
  | Some m =>
      let idx := find_subnet ctx.(k_config) client_addr.(sin6_addr) in
      '(out_buf, out_len, ctx) ←
        (if reply_type m.(m_msg_type) =? 0 then Ret (out_buf, 0%nat, ctx)
         else build_reply v m idx ctx out_buf);
      Ret (if bool_decide (MSG_HDR < out_len)%nat then Some (take out_len out_buf) else None, ctx)
  end.

(** ** The clean-up round *)

Definition cleanup_round (now : Z) (ctx : server_ctx_t) : outcome server_ctx_t :=
  let '(expired, db) := lease_v6_mark_expired_older now ctx.(k_db) in
  db ← (if 0 <? expired then
          match lease_v6_cleanup db with
          | Some (_, db) => Ret db
          | None => Fault OutOfFuel
          end
        else Ret db);
  let pools := (fun pool => (ip6_pool_sync_with_leases pool db).2) <$> ctx.(k_pools) in
  let active_count := countb (in_state6 LEASE_STATE_ACTIVE) db.(d_leases) in
  Ret (mk_ctx ctx.(k_config) db pools ctx.(k_pd_pools)
         (set_st_leases_active active_count <$> ctx.(k_stats))).

(** ** Start and reception *)

(** The pools of all subnets; [None] when a loop does not end. *)
Definition start_pools (now : Z) (subnets : list dhcpv6_subnet_t) (db : lease_v6_db_t)
    : option (list ip6_pool_t * list pd_pool_t) :=
  pools ← mapM (fun s => snd <$> ip6_pool_init now s (Some db)) subnets;
  pds ← mapM (fun s => snd <$> pd_pool_init s (Some db) s.(s6_pd_prefix_len)) subnets;
  Some (pools, pds).

(** [dhcpv6_agent_start] with the lease database loaded. *)
Definition start_ctx (now : Z) (cfg : dhcpv6_config_t) (db : lease_v6_db_t)
    (stats : option server_stats_t) : option server_ctx_t :=
  '(pools, pds) ← start_pools now cfg.(c6_subnets) db;
  Some (mk_ctx cfg db pools pds stats).

(** A packet read from the socket. *)
Definition receive_packet (t : task_t) (ctx : server_ctx_t) (q : task_queue_t)
    : outcome (bool * server_ctx_t * task_queue_t) :=
  let ctx := set_k_stats ((fun s => set_st_pkt_received (u64 (s.(st_pkt_received) + 1)) s)
                            <$> ctx.(k_stats)) ctx in
  '(ok, q) ← queue_push t q;
  Ret (ok, ctx, q).
