(* ===== verification/ServerV6Spec.v ===== *)
(** * Properties of the DHCPv6 server

    The invariant of [ServerV6] over every interleaving of reception, workers and
    clean-up rounds; the refinement of the code that fills the reply buffer by a function
    that computes the list of options of the answer; what a client reads in the reply. *)

From stdpp Require Import relations.
From S2P Require Import Prelude Ring UtilsV6 LeasesV6 ConfigV6 ProtocolV6 Ip6Pool Ip6PoolSpec PdPool ServerV6.

(** ** What a parsed message holds *)

Record meta_ok (m : dhcpv6_packet_meta_t) : Prop := {
  mo_xid : 0 <= m.(m_transaction_id) < 16777216;
  mo_client : Forall is_u8 (default [] m.(m_client_duid));
  mo_iaid : is_u32 m.(m_iaid);
  mo_ip : is_in6 m.(m_requested_ip);
  mo_iaid_pd : is_u32 m.(m_iaid_pd);
  mo_prefix : is_in6 m.(m_requested_prefix)
}.

Lemma take_in6 n v : Forall is_u8 v -> (n + 16 <= length v)%nat -> is_in6 (take 16 (drop n v)).
Proof.
  intros Hv Hl. split; [rewrite length_take, length_drop; lia|]. by apply Forall_take, Forall_drop.
Qed.

Lemma take_u32 v : Forall is_u8 v -> is_u32 (be_val (take 4 v)).
Proof.
  intros Hv. pose proof (be_val_range (take 4 v) (Forall_take _ _ _ Hv)) as H.
  unfold is_u32. split; [lia|]. eapply Z.lt_le_trans; [apply H|].
  change 4294967296 with (256 ^ 4). apply Z.pow_le_mono_r; [lia|]. rewrite length_take. lia.
Qed.

Lemma decode_u8 fuel : forall bs, Forall is_u8 bs -> Forall (fun o => Forall is_u8 o.2) (decode fuel bs).
Proof.
  induction fuel as [|fuel IH]; intros bs Hb; [constructor|].
  destruct bs as [|c1 [|c2 [|l1 [|l2 rest]]]]; try constructor. rewrite decode_cons.
  do 4 apply Forall_cons in Hb as [_ Hb]. case_bool_decide; constructor.
  - by apply Forall_take.
  - by apply IH, Forall_drop.
Qed.

Lemma decode_opts_u8 bs : Forall is_u8 bs -> Forall (fun o => Forall is_u8 o.2) (decode_opts bs).
Proof. apply decode_u8. Qed.

(** A fold over options that keep a property. *)
Lemma foldl_opts_inv (P : dhcpv6_packet_meta_t -> Prop)
    (f : dhcpv6_packet_meta_t -> Z * list Z -> dhcpv6_packet_meta_t) l : forall m,
  (forall m o, P m -> Forall is_u8 o.2 -> P (f m o)) ->
  Forall (fun o => Forall is_u8 o.2) l -> P m -> P (foldl f m l).
Proof.
  induction l as [|o l IH]; intros m Hf Hl Hm; [done|].
  apply Forall_cons in Hl as [Ho Hl]. simpl. apply IH; auto.
Qed.

Lemma apply_ia_na_ok m o : meta_ok m -> Forall is_u8 o.2 -> meta_ok (apply_ia_na m o).
Proof.
  intros [] Ho. unfold apply_ia_na. destruct (_ && bool_decide _) eqn:E; [|done].
  apply andb_true_iff in E as [_ E]. apply bool_decide_eq_true in E.
  constructor; simpl; try done. change o.2 with (drop 0 o.2). apply take_in6; [done|lia].
Qed.

Lemma apply_ia_pd_ok m o : meta_ok m -> Forall is_u8 o.2 -> meta_ok (apply_ia_pd m o).
Proof.
  intros [] Ho. unfold apply_ia_pd. destruct (_ && bool_decide _) eqn:E; [|done].
  apply andb_true_iff in E as [_ E]. apply bool_decide_eq_true in E.
  constructor; simpl; try done. apply take_in6; [done|lia].
Qed.

Lemma apply_option_ok m o : meta_ok m -> Forall is_u8 o.2 -> meta_ok (apply_option m o).
Proof.
  destruct o as [code v]. intros Hm Hv. simpl in Hv. unfold apply_option.
  pose proof (take_u32 v Hv) as H32.
  repeat match goal with |- meta_ok (if ?b then _ else _) => destruct b end; try done.
  - by destruct Hm; constructor.
  - by destruct Hm; constructor.
  - apply foldl_opts_inv; [apply apply_ia_na_ok|by apply decode_opts_u8, Forall_drop|].
    by destruct Hm; constructor.
  - apply foldl_opts_inv; [apply apply_ia_pd_ok|by apply decode_opts_u8, Forall_drop|].
    by destruct Hm; constructor.
  - by destruct Hm; constructor.
  - by destruct Hm; constructor.
  - by destruct Hm; constructor.
  - by destruct Hm; constructor.
Qed.

Lemma parse_meta_ok buf m :
  Forall is_u8 buf -> dhcpv6_parse buf = Ret (Some m) -> meta_ok m.
Proof.
  intros Hb. rewrite parse_spec. destruct buf as [|t [|hi [|mid [|lo opts]]]]; try done.
  intros [= <-]. apply Forall_cons in Hb as [_ Hb]. apply Forall_cons in Hb as [Hhi Hb].
  apply Forall_cons in Hb as [Hmid Hb]. apply Forall_cons in Hb as [Hlo Hb].
  apply foldl_opts_inv; [apply apply_option_ok|by apply decode_opts_u8|].
  assert (is_in6 zero_addr6) as Hz by (apply is_in6_bytes; reflexivity).
  unfold is_u8 in *. constructor; simpl; try done; try (unfold is_u32; lia).
  rewrite get_xid_value by lia. lia.
Qed.

(** ** Filling the buffer *)

(** [l] is written after [pre]; an option for which there is no room may be missing. *)
Definition written (pre : list Z) (l : list (Z * list Z)) (buf : list Z) (off : nat) : Prop :=
  exists o rest, buf = pre ++ o ++ rest /\ off = (length pre + length o)%nat
    /\ (off + length rest = BUF_SIZE)%nat
    /\ ((length pre + length (enc_opts l) <= BUF_SIZE)%nat -> o = enc_opts l).

Lemma enc_opts_app l1 l2 : enc_opts (l1 ++ l2) = enc_opts l1 ++ enc_opts l2.
Proof. unfold enc_opts. by rewrite fmap_app, concat_app. Qed.

Lemma enc_opts_one o : enc_opts [o] = enc_opt o.
Proof. unfold enc_opts. cbn [fmap list_fmap concat]. apply app_nil_r. Qed.

Lemma written_nil pre rest :
  (length pre + length rest = BUF_SIZE)%nat -> written pre [] (pre ++ rest) (length pre).
Proof. intros H. exists [], rest. split_and!; try done; simpl; lia. Qed.

(** Writing on after what is written. *)
Lemma written_app pre l1 l2 buf off (P : list Z -> nat -> Prop) :
  written pre l1 buf off ->
  (forall pre' rest, buf = pre' ++ rest -> off = length pre' ->
     (length pre' + length rest = BUF_SIZE)%nat ->
     exists buf' off', P buf' off' /\ written pre' l2 buf' off') ->
  exists buf' off', P buf' off' /\ written pre (l1 ++ l2) buf' off'.
Proof.
  intros (o & rest & -> & -> & Hs & Ho) H.
  destruct (H (pre ++ o) rest) as (buf' & off' & HP & (o2 & rest2 & E & E2 & Hs2 & Ho2)).
  { by rewrite <- app_assoc. } { by rewrite length_app. } { rewrite length_app. lia. }
  exists buf', off'. split; [done|]. exists (o ++ o2), rest2.
  rewrite E, E2, !length_app, <- !app_assoc. split_and!; try done; [lia|rewrite E2, length_app in Hs2; lia|].
  rewrite enc_opts_app, length_app. intros Hfit. specialize (Ho ltac:(lia)).
  rewrite Ho2; [by rewrite Ho|]. rewrite length_app, Ho. lia.
Qed.

Lemma emitted_written pre o res :
  emitted BUF_SIZE pre (if bool_decide (length pre + length (enc_opt o) <= BUF_SIZE)%nat
                        then enc_opt o else []) res ->
  exists rc buf off, res = Ret (rc, buf, off) /\ written pre [o] buf off.
Proof.
  intros (rc & rest & -> & Hs). eexists rc, _, _. split; [done|].
  eexists _, rest. split_and!; [done|done|lia|]. rewrite enc_opts_one. intros Hfit.
  by rewrite bool_decide_eq_true_2.
Qed.

Lemma option_written pre rest code data :
  (length pre + length rest = BUF_SIZE)%nat ->
  exists rc buf off, dhcpv6_append_option (pre ++ rest) BUF_SIZE (length pre) code data
                     = Ret (rc, buf, off) /\ written pre [(code, data)] buf off.
Proof. intros H. apply emitted_written. by apply append_option_emitted. Qed.

Lemma ia_written pre rest code lease_code iaid t1 t2 lease status :
  (length pre + length rest = BUF_SIZE)%nat ->
  exists rc buf off,
    append_ia (pre ++ rest) BUF_SIZE (length pre) code lease_code iaid t1 t2 lease status
    = Ret (rc, buf, off)
    /\ written pre [(code, ia_body iaid t1 t2 (inner_option lease_code status lease))] buf off.
Proof. intros H. apply emitted_written. by apply append_ia_emitted. Qed.

(** What is assumed of [inet_pton]: an address has sixteen bytes. *)
Definition env_ok (v : packet_env) : Prop := forall s a, v.(v_inet_pton6) s = Some a -> is_in6 a.

Lemma ipv6_list_ok pton str n :
  (forall s a, pton s = Some a -> is_in6 a) ->
  Forall is_in6 (str_to_ipv6_list pton str n) /\ (length (str_to_ipv6_list pton str n) <= n)%nat.
Proof.
  intros Hp. unfold str_to_ipv6_list. case_bool_decide as Hn; [split; [constructor|simpl; lia]|].
  assert (forall ts out, Forall is_in6 out -> (length out <= n)%nat ->
    Forall is_in6 (ipv6_list_loop pton ts out n) /\ (length (ipv6_list_loop pton ts out n) <= n)%nat)
    as H; [|apply H; [constructor|simpl; lia]].
  induction ts as [|t ts IH]; intros out Ho Hl; [done|]. cbn [ipv6_list_loop].
  case_bool_decide as Hlt; [|done]. apply IH; destruct (rstrip (lskip t)); try done.
  - destruct (pton _) eqn:E; [|done]. apply Forall_app. split; [done|]. constructor; [by eapply Hp|done].
  - destruct (pton _); [|done]. rewrite length_app. simpl. lia.
Qed.

(** ** The answer as a list of options *)

Section answer_spec.
Variable v : packet_env.
Variables (m : dhcpv6_packet_meta_t) (idx : nat).

Definition head_reply : list (Z * list Z) :=
  (OPT_SERVERID, server_duid)
    :: match m.(m_client_duid) with
       | Some (b :: d) => [(OPT_CLIENTID, b :: d)]
       | _ => []
       end.

Definition dns_reply (ctx : server_ctx_t) : list (Z * list Z) :=
  let sn := subnet_at ctx idx in
  let dns_str := if nonempty sn.(s6_dns_servers) then sn.(s6_dns_servers)
                 else ctx.(k_config).(c6_global).(g6_global_dns_servers) in
  if nonempty dns_str then
    match str_to_ipv6_list v.(v_inet_pton6) dns_str 8 with
    | [] => []
    | dlist => [(OPT_DNS_SERVERS, concat dlist)]
    end
  else [].

Definition na_option (t1 t2 status : Z) (ip : in6_addr) : Z * list Z :=
  (OPT_IA_NA, ia_body m.(m_iaid) t1 t2
     (inner_option OPT_IAADDR status (ip ++ be32 t1 ++ be32 t2))).

Definition pd_option (t1 t2 status plen : Z) (pfx : in6_addr) : Z * list Z :=
  (OPT_IA_PD, ia_body m.(m_iaid_pd) t1 t2
     (inner_option OPT_IAPREFIX status (be32 t1 ++ be32 t2 ++ [plen] ++ pfx))).

Definition na_reply (ctx : server_ctx_t) : list (Z * list Z) * server_ctx_t :=
  match get_pool_by_subnet ctx idx with
  | Some pool =>
      if negb m.(m_has_ia_na) then ([], ctx)
      else if gives_back m
      then ([na_option 0 0 STATUS_SUCCESS m.(m_requested_ip)], count_leases (-1) ctx)
      else
        let sn := subnet_at ctx idx in
        let '(res, pool, db) :=
          ip6_pool_allocate v.(v_ping) v.(v_now) v.(v_t1) v.(v_t2) (duid_text m) m.(m_iaid) None
            sn.(s6_default_lease_time) pool m.(m_requested_ip) ctx.(k_config) ctx.(k_db) in
        let ctx := set_k_db db (set_k_pools (<[idx := pool]> ctx.(k_pools)) ctx) in
        if res.(r6_success)
        then ([na_option sn.(s6_default_lease_time) sn.(s6_max_lease_time) STATUS_SUCCESS
                 res.(r6_ip_address)],
              if res.(r6_is_new) then count_leases 1 ctx else ctx)
        else ([na_option 0 0 STATUS_NOADDRSAVAIL zero_addr6], ctx)
  | None => ([], ctx)
  end.

Definition pd_reply (ctx : server_ctx_t) : list (Z * list Z) * server_ctx_t :=
  match get_pd_pool_by_subnet ctx idx with
  | Some pool =>
      if negb m.(m_has_ia_pd) then ([], ctx)
      else if gives_back m
      then ([pd_option 0 0 STATUS_SUCCESS m.(m_requested_plen) m.(m_requested_prefix)],
            count_leases (-1) ctx)
      else
        let sn := subnet_at ctx idx in
        let '(res, pool, db) :=
          pd_pool_allocate v.(v_pd_now) v.(v_pd_t1) v.(v_pd_t2) (duid_text m) m.(m_iaid_pd) None
            sn.(s6_default_lease_time) pool ctx.(k_db) in
        let ctx := set_k_db db (set_k_pd_pools (<[idx := pool]> ctx.(k_pd_pools)) ctx) in
        if res.(pr_success)
        then ([pd_option sn.(s6_default_lease_time) sn.(s6_max_lease_time) STATUS_SUCCESS
                 res.(pr_plen) res.(pr_prefix)],
              if res.(pr_is_new) then count_leases 1 ctx else ctx)
        else ([pd_option 0 0 STATUS_NOADDRSAVAIL 0 zero_addr6], ctx)
  | None => ([], ctx)
  end.

(** The options of the answer, and the context after it. *)
Definition answer (ctx : server_ctx_t) : list (Z * list Z) * server_ctx_t :=
  let ctx := give_back v m idx ctx in
  let dns := dns_reply ctx in
  let '(na, ctx) := na_reply ctx in
  let '(pd, ctx) := pd_reply ctx in
  (head_reply ++ dns ++ na ++ pd, ctx).

(** ** The stages *)

Lemma append_dns_written ctx pre rest :
  env_ok v -> (length pre + length rest = BUF_SIZE)%nat ->
  exists buf off, append_dns v idx ctx (pre ++ rest) (length pre) = Ret (buf, off)
    /\ written pre (dns_reply ctx) buf off.
Proof.
  intros Hv Hs. unfold append_dns, dns_reply. cbv zeta.
  set (str := if nonempty (s6_dns_servers (subnet_at ctx idx)) then _ else _). clearbody str.
  destruct (nonempty str); [|eexists _, _; split; [done|by apply written_nil]].
  destruct (ipv6_list_ok (v_inet_pton6 v) str 8 Hv) as [Hd Hl].
  set (dlist := str_to_ipv6_list _ str 8) in *. clearbody dlist. destruct dlist as [|a dl]; [eexists _, _; split; [done|by apply written_nil]|].
  rewrite bool_decide_eq_true_2 by (simpl; lia).
  pose proof (append_dns_emitted BUF_SIZE pre rest (a :: dl) Hs Hd ltac:(lia) ltac:(done)) as H.
  cbv zeta in H. replace (BUF_SIZE - length pre)%nat with (length rest) by lia.
  case_bool_decide as H20; [destruct H as [Hle E]|rename H into E]; rewrite E, bind_Ret; cbv beta iota.
  - set (o := enc_opt (dns_option (length rest) (a :: dl))) in *.
    rewrite (proj2 (Z.ltb_lt _ _)) by (unfold o; rewrite length_enc_opt; lia). rewrite Nat2Z.id.
    eexists _, _. split; [done|]. exists o, (drop (length o) rest).
    split_and!; [done|done|rewrite length_drop; lia|]. rewrite enc_opts_one, length_enc_opt.
    cbn [snd]. rewrite (length_concat_addrs _ Hd). intros Hfit. unfold o, dns_option, OPT_HDR.
    rewrite take_ge; [done|]. apply Nat.div_le_lower_bound; lia.
  - change (0 <? -1) with false. cbv iota. eexists _, _. split; [done|]. exists [], rest. split_and!; [done|simpl; lia|lia|].
    rewrite enc_opts_one, length_enc_opt. cbn [snd]. rewrite (length_concat_addrs _ Hd).
    cbn [length]. lia.
Qed.

Lemma answer_ia_na_written ctx pre rest :
  (length pre + length rest = BUF_SIZE)%nat ->
  exists buf off, answer_ia_na v m idx ctx (pre ++ rest) (length pre)
                  = Ret (buf, off, (na_reply ctx).2)
    /\ written pre (na_reply ctx).1 buf off.
Proof.
  intros Hs. unfold answer_ia_na, na_reply, dhcpv6_append_ia_na, na_option.
  destruct (get_pool_by_subnet ctx idx) as [pool|];
    [|eexists _, _; split; [done|by apply written_nil]].
  destruct (negb (m_has_ia_na m)); [eexists _, _; split; [done|by apply written_nil]|].
  destruct (gives_back m).
  - edestruct (ia_written pre rest) as (rc & buf & off & E & Hw); [done|]. rewrite E, bind_Ret.
    by exists buf, off.
  - cbv zeta. destruct (ip6_pool_allocate _ _ _ _ _ _ _ _ pool _ _ _) as [[res pool'] db].
    destruct (r6_success res);
      edestruct ia_written as (rc & buf & off & E & Hw); try exact Hs;
      rewrite E, bind_Ret; by exists buf, off.
Qed.

Lemma answer_ia_pd_written ctx pre rest :
  (length pre + length rest = BUF_SIZE)%nat ->
  exists buf off, answer_ia_pd v m idx ctx (pre ++ rest) (length pre)
                  = Ret (buf, off, (pd_reply ctx).2)
    /\ written pre (pd_reply ctx).1 buf off.
Proof.
  intros Hs. unfold answer_ia_pd, pd_reply, dhcpv6_append_ia_pd, pd_option.
  destruct (get_pd_pool_by_subnet ctx idx) as [pool|];
    [|eexists _, _; split; [done|by apply written_nil]].
  destruct (negb (m_has_ia_pd m)); [eexists _, _; split; [done|by apply written_nil]|].
  destruct (gives_back m).
  - edestruct (ia_written pre rest) as (rc & buf & off & E & Hw); [done|]. rewrite E, bind_Ret.
    by exists buf, off.
  - cbv zeta. destruct (pd_pool_allocate _ _ _ _ _ _ _ pool _) as [[res pool'] db].
    destruct (pr_success res);
      edestruct ia_written as (rc & buf & off & E & Hw); try exact Hs;
      rewrite E, bind_Ret; by exists buf, off.
Qed.

Definition reply_header : list Z :=
  reply_type m.(m_msg_type) :: dhcpv6_set_xid m.(m_transaction_id).

Lemma build_reply_written ctx out_buf :
  env_ok v -> length out_buf = BUF_SIZE ->
  exists buf off, build_reply v m idx ctx out_buf = Ret (buf, off, (answer ctx).2)
    /\ written reply_header (answer ctx).1 buf off.
Proof.
  intros Hv Hb. unfold build_reply, answer, head_reply. cbv zeta.
  assert (length reply_header = 4%nat) as Hh by done. unfold BUF_SIZE in Hb.
  fold reply_header.
  change out_buf with ((@nil Z) ++ out_buf) at 1. rewrite (write_over (@nil Z)) by (done || lia). rewrite bind_Ret.
  cbv beta iota. cbn [app]. change MSG_HDR with (length reply_header).
  destruct (option_written reply_header (drop (length reply_header) out_buf) OPT_SERVERID server_duid)
    as (rc & b0 & o0 & E0 & W0); [rewrite length_drop, Hb; unfold BUF_SIZE; lia|].
  rewrite E0, bind_Ret. cbv beta iota.
  set (c1 := give_back v m idx ctx). set (dns := dns_reply c1).
  destruct (na_reply c1) as [na c2] eqn:En. destruct (pd_reply c2) as [pd c3] eqn:Ep. cbn [fst snd].
  set (cid := match m_client_duid m with Some (b :: d) => [(OPT_CLIENTID, b :: d)] | _ => [] end).
  apply (written_app reply_header [(OPT_SERVERID, server_duid)] (cid ++ dns ++ na ++ pd) b0 o0
    (fun buf off => _ = Ret (buf, off, c3))); [exact W0|]. clear W0. intros p1 r1 -> -> H1.
  assert (exists b1 o1, match m_client_duid m with
     | Some (b :: d) => '(_, buf, off) ← dhcpv6_append_option (p1 ++ r1) BUF_SIZE (length p1)
                                           OPT_CLIENTID (b :: d); Ret (buf, off)
     | _ => Ret (p1 ++ r1, length p1) end = Ret (b1, o1) /\ written p1 cid b1 o1)
    as (b1 & o1 & -> & W1).
  { subst cid. destruct (m_client_duid m) as [[|b d]|]; try (eexists _, _; split; [done|by apply written_nil]).
    destruct (option_written p1 r1 OPT_CLIENTID (b :: d) H1) as (rc' & b' & o' & -> & W').
    rewrite bind_Ret. by eexists _, _. }
  rewrite bind_Ret. cbv beta iota. apply (written_app p1 cid (dns ++ na ++ pd) b1 o1 (fun buf off => _ = Ret (buf, off, c3))); [exact W1|]. intros p2 r2 -> -> H2.
  destruct (append_dns_written c1 p2 r2 Hv H2) as (b2 & o2 & -> & W2). rewrite bind_Ret. cbv beta iota.
  apply (written_app p2 dns (na ++ pd) b2 o2 (fun buf off => _ = Ret (buf, off, c3))); [exact W2|]. intros p3 r3 -> -> H3.
  destruct (answer_ia_na_written c1 p3 r3 H3) as (b3 & o3 & E3 & W3). rewrite En in E3, W3.
  rewrite E3, bind_Ret. cbv beta iota. apply (written_app p3 na pd b3 o3 (fun buf off => _ = Ret (buf, off, c3))); [exact W3|]. intros p4 r4 -> -> H4.
  destruct (answer_ia_pd_written c2 p4 r4 H4) as (b4 & o4 & E4 & W4). rewrite Ep in E4, W4.
  by exists b4, o4.
Qed.
End answer_spec.

(** ** The invariant of the context *)

Record ctx_ok (ctx : server_ctx_t) : Prop := {
  co_db : db6_wf ctx.(k_db);
  co_pools : Forall pool6_wf ctx.(k_pools);
  co_pds : Forall pd_wf ctx.(k_pd_pools);
  co_pool_count : length ctx.(k_pools) = length ctx.(k_config).(c6_subnets);
  co_pd_count : length ctx.(k_pd_pools) = length ctx.(k_config).(c6_subnets)
}.

(** [ctx'] has the configuration and, entry by entry, the addresses of [ctx]. *)
Record ctx_moved (ctx ctx' : server_ctx_t) : Prop := {
  cm_ok : ctx_ok ctx';
  cm_config : ctx'.(k_config) = ctx.(k_config);
  cm_pools : Forall2 same_shape ctx.(k_pools) ctx'.(k_pools);
  cm_pds : pd_prefixes <$> ctx'.(k_pd_pools) = pd_prefixes <$> ctx.(k_pd_pools)
}.

Lemma ctx_moved_refl ctx : ctx_ok ctx -> ctx_moved ctx ctx.
Proof. by constructor. Qed.

Lemma ctx_moved_trans a b c : ctx_moved a b -> ctx_moved b c -> ctx_moved a c.
Proof.
  intros [_ E1 F1 G1] [H E2 F2 G2]. constructor; [done|congruence| |congruence].
  by etransitivity.
Qed.

Lemma get_pool_lookup ctx idx pool :
  get_pool_by_subnet ctx idx = Some pool -> ctx.(k_pools) !! idx = Some pool.
Proof. unfold get_pool_by_subnet. by case_bool_decide. Qed.

Lemma get_pd_pool_lookup ctx idx pool :
  get_pd_pool_by_subnet ctx idx = Some pool -> ctx.(k_pd_pools) !! idx = Some pool.
Proof. unfold get_pd_pool_by_subnet. by case_bool_decide. Qed.

Lemma get_pool_at ctx idx :
  ctx_ok ctx -> get_pool_by_subnet ctx idx = ctx.(k_pools) !! idx.
Proof.
  intros [_ _ _ Hp _]. unfold get_pool_by_subnet. case_bool_decide; [done|].
  symmetry. apply lookup_ge_None_2. lia.
Qed.

(** A change of the database and of one pool. *)
Lemma ctx_put_pool ctx idx pool pool' db :
  ctx_ok ctx -> ctx.(k_pools) !! idx = Some pool -> moved pool pool' -> db6_wf db ->
  ctx_moved ctx (set_k_db db (set_k_pools (<[idx := pool']> ctx.(k_pools)) ctx)).
Proof.
  intros [Hd Hp Hq H1 H2] Hl [Hw Hs] Hdb. constructor; simpl; try done.
  - constructor; simpl; try done; [by apply Forall_insert|by rewrite length_insert].
  - apply Forall2_same_length_lookup. rewrite length_insert. split; [done|].
    intros i x y Hx Hy. destruct (decide (i = idx)) as [->|Hne].
    + rewrite list_lookup_insert_eq in Hy by (by eapply lookup_lt_Some).
      assert (x = pool) as -> by congruence. by assert (y = pool') as -> by congruence.
    + rewrite list_lookup_insert_ne in Hy by done. by assert (y = x) as -> by congruence.
Qed.

Lemma ctx_put_pd ctx idx pool pool' db :
  ctx_ok ctx -> ctx.(k_pd_pools) !! idx = Some pool -> pd_moved pool pool' -> db6_wf db ->
  ctx_moved ctx (set_k_db db (set_k_pd_pools (<[idx := pool']> ctx.(k_pd_pools)) ctx)).
Proof.
  intros Hc Hl [Hw Hs] Hdb. pose proof Hc as [Hd Hp Hq H1 H2].
  destruct (ctx_moved_refl ctx Hc) as [_ _ F _]. constructor; simpl; try done.
  - constructor; simpl; try done; [by apply Forall_insert|by rewrite length_insert].
  - rewrite list_fmap_insert, Hs. apply list_insert_id. by rewrite list_lookup_fmap, Hl.
Qed.

Lemma ctx_set_db ctx db : ctx_ok ctx -> db6_wf db -> ctx_moved ctx (set_k_db db ctx).
Proof.
  intros Hc Hdb. pose proof Hc as [Hd Hp Hq H1 H2].
  destruct (ctx_moved_refl ctx Hc) as [_ _ F _]. by constructor.
Qed.

Lemma ctx_count ctx ctx' by_ : ctx_moved ctx ctx' -> ctx_moved ctx (count_leases by_ ctx').
Proof. intros [[] E F G]. by constructor. Qed.

(** The text of a DUID, as the pools see it. *)
Lemma duid_text_hex m :
  meta_ok m -> exists d, duid_ok d /\ duid_text m = hex_loop d
    /\ ((length (default [] m.(m_client_duid)) <= 85)%nat -> d = default [] m.(m_client_duid)).
Proof.
  intros [_ Hc _ _ _ _]. unfold duid_text, duid_bin_to_hex. set (c := default [] _) in *.
  change (256 =? 0) with false. cbv iota zeta.
  destruct (Z.ltb_spec 256 (if Z.of_nat (length c) =? 0 then 1 else Z.of_nat (length c) * 3 - 1 + 1))
    as [Hlt|Hge].
  - exists []. split_and!; [split; [constructor|simpl; lia]|done|].
    destruct (Z.eqb_spec (Z.of_nat (length c)) 0); lia.
  - exists c. split_and!; [split; [done|]|done..]. unfold DUID_MAX_LEN.
    destruct (Z.eqb_spec (Z.of_nat (length c)) 0); lia.
Qed.

Lemma give_back_moved v m idx ctx : ctx_ok ctx -> ctx_moved ctx (give_back v m idx ctx).
Proof.
  intros Hc. unfold give_back. destruct (gives_back m); [|by apply ctx_moved_refl].
  set (c1 := if _ && _ then _ else ctx). cbv zeta.
  assert (ctx_moved ctx c1) as H1.
  { subst c1. destruct (_ && _); [|by apply ctx_moved_refl].
    destruct (m_msg_type m =? MSG_RELEASE).
    { apply ctx_set_db; [done|]. apply on_found_wf; [done|apply Hc]. }
    destruct (get_pool_by_subnet ctx idx) as [pool|] eqn:E; [|by apply ctx_moved_refl].
    apply get_pool_lookup in E. pose proof (Forall_lookup_1 _ _ _ _ (co_pools _ Hc) E) as Hw.
    pose proof (pool6_exec_inv (k_config ctx) pool (k_db ctx)
      (Conflict6 (v_now v) (m_requested_ip m)) Hw (co_db _ Hc) I) as H. simpl in H.
    destruct (ip6_pool_mark_conflict _ _ _ _) as [[rc pool'] db]. destruct H as [Hm Hdb].
    by eapply ctx_put_pool. }
  destruct (get_pd_pool_by_subnet c1 idx) as [pool|] eqn:E; [|done].
  destruct (m_has_ia_pd m && _); [|done]. apply get_pd_pool_lookup in E.
  pose proof (cm_ok _ _ H1) as Hc1. pose proof (Forall_lookup_1 _ _ _ _ (co_pds _ Hc1) E) as Hw.
  pose proof (pd_release_moved (v_pd_now v) pool (m_requested_prefix m) (m_requested_plen m)
    (Some (k_db c1)) Hw) as Hm.
  assert (db6_wf (default (k_db c1) (pd_pool_release (v_pd_now v) pool (m_requested_prefix m)
    (m_requested_plen m) (Some (k_db c1))).2)) as Hdb.
  { unfold pd_pool_release. destruct (pd_entry_at _ _ _) as [[i e]|]; [|apply Hc1].
    simpl. apply on_found_wf; [done|apply Hc1]. }
  destruct (pd_pool_release _ _ _ _ _) as [[rc pool'] db].
  eapply ctx_moved_trans; [exact H1|]. by eapply ctx_put_pd.
Qed.

Lemma na_reply_moved v m idx ctx :
  meta_ok m -> ctx_ok ctx -> ctx_moved ctx (na_reply v m idx ctx).2.
Proof.
  intros Hm Hc. unfold na_reply.
  destruct (get_pool_by_subnet ctx idx) as [pool|] eqn:E; [|by apply ctx_moved_refl].
  destruct (negb _); [by apply ctx_moved_refl|].
  destruct (gives_back m); [by apply ctx_count, ctx_moved_refl|]. cbv zeta.
  apply get_pool_lookup in E. pose proof (Forall_lookup_1 _ _ _ _ (co_pools _ Hc) E) as Hw.
  destruct (duid_text_hex m Hm) as (d & Hd & -> & _).
  pose proof (allocate6_moved (v_ping v) (v_now v) (v_t1 v) (v_t2 v) d (m_iaid m) None
    (s6_default_lease_time (subnet_at ctx idx)) pool (m_requested_ip m) (k_config ctx) (k_db ctx)
    Hd Hw (co_db _ Hc) (mo_ip _ Hm)) as H.
  destruct (ip6_pool_allocate _ _ _ _ _ _ _ _ pool _ _ _) as [[res pool'] db].
  destruct H as [Hmv Hdb]. pose proof (ctx_put_pool ctx idx pool pool' db Hc E Hmv Hdb) as H.
  destruct (r6_success res); [|done]. destruct (r6_is_new res); [by apply ctx_count|done].
Qed.

Lemma pd_reply_moved v m idx ctx :
  meta_ok m -> ctx_ok ctx -> ctx_moved ctx (pd_reply v m idx ctx).2.
Proof.
  intros Hm Hc. unfold pd_reply.
  destruct (get_pd_pool_by_subnet ctx idx) as [pool|] eqn:E; [|by apply ctx_moved_refl].
  destruct (negb _); [by apply ctx_moved_refl|].
  destruct (gives_back m); [by apply ctx_count, ctx_moved_refl|]. cbv zeta.
  apply get_pd_pool_lookup in E. pose proof (Forall_lookup_1 _ _ _ _ (co_pds _ Hc) E) as Hw.
  destruct (duid_text_hex m Hm) as (d & Hd & -> & _).
  pose proof (pd_allocate_ok (v_pd_now v) (v_pd_t1 v) (v_pd_t2 v) d (m_iaid_pd m) None
    (s6_default_lease_time (subnet_at ctx idx)) Hd pool (k_db ctx) Hw (co_db _ Hc)) as H.
  destruct (pd_pool_allocate _ _ _ _ _ _ _ pool _) as [[res pool'] db].
  destruct H as (Hmv & Hdb & _). pose proof (ctx_put_pd ctx idx pool pool' db Hc E Hmv Hdb) as H.
  destruct (pr_success res); [|done]. destruct (pr_is_new res); [by apply ctx_count|done].
Qed.

Lemma answer_moved v m idx ctx :
  meta_ok m -> ctx_ok ctx -> ctx_moved ctx (answer v m idx ctx).2.
Proof.
  intros Hm Hc. unfold answer. cbv zeta. pose proof (give_back_moved v m idx ctx Hc) as H1.
  pose proof (na_reply_moved v m idx _ Hm (cm_ok _ _ H1)) as H2.
  destruct (na_reply v m idx (give_back v m idx ctx)) as [na c2]. simpl in H2.
  pose proof (pd_reply_moved v m idx c2 Hm (cm_ok _ _ H2)) as H3.
  destruct (pd_reply v m idx c2) as [pd c3]. simpl in *.
  eapply ctx_moved_trans; [exact H1|]. by eapply ctx_moved_trans.
Qed.

(** ** The task queue *)

Definition queue_ok (q : task_queue_t) : Prop :=
  ring_wf q.(tq_tasks) /\ ring_size q.(tq_tasks) = QUEUE_SIZE.

Definition tq_push (t : task_t) (q : task_queue_t) : bool * task_queue_t :=
  match queue_push t q with
  | Ret r => r
  | Fault _ => (false, q)
  end.

Definition tq_pop (q : task_queue_t) : option (task_t * task_queue_t) :=
  match worker_thread q with
  | Ret (Worker6Run t q') => Some (t, q')
  | _ => None
  end.

(** The queue implements the interface; a packet longer than a task's buffer is never
    handed to it. *)
#[export] Program Instance task_queue_fifo : BoundedFifo task_queue_t task_t := {|
  fifo_ok := queue_ok;
  fifo_items q := ring_items q.(tq_tasks);
  fifo_cap q := ring_size q.(tq_tasks);
  fifo_open q := negb q.(tq_shutdown);
  fifo_valid t := bool_decide (length t.(t6_buf) <= BUF_SIZE)%nat;
  fifo_push := tq_push;
  fifo_pop := tq_pop
|}.
Next Obligation. intros q [Hwf _]. rewrite length_ring_items by done. apply Hwf. Qed.
Next Obligation.
  intros t q [Hwf Hs]. unfold tq_push, queue_push. rewrite Hs, length_ring_items by done.
  destruct (decide (ring_count (tq_tasks q) < QUEUE_SIZE)%nat) as [Hc|Hc]; cycle 1.
  { rewrite !(bool_decide_eq_false_2 (_ < QUEUE_SIZE)%nat) by done. cbn [andb].
    rewrite andb_false_r. done. }
  rewrite !(bool_decide_eq_true_2 (_ < QUEUE_SIZE)%nat) by done. cbn [andb].
  destruct (negb (tq_shutdown q)); cbn [andb]; [|by rewrite andb_false_r].
  destruct (decide (BUF_SIZE < length (t6_buf t))%nat) as [Hb|Hb].
  { rewrite bool_decide_eq_true_2, bool_decide_eq_false_2 by (done || lia). done. }
  rewrite bool_decide_eq_false_2, bool_decide_eq_true_2 by (done || lia). simpl.
  assert (ring_size (ring_push t (tq_tasks q)) = ring_size (tq_tasks q)) as E.
  { unfold ring_size, ring_push. simpl. apply length_insert. }
  rewrite <- Hs in Hc. split_and!; try done.
  - split; [by apply ring_push_wf|by rewrite <- Hs].
  - by rewrite <- Hs.
  - by apply ring_push_items.
Qed.
Next Obligation.
  intros q [Hwf Hs]. unfold tq_pop, worker_thread.
  assert (ring_count (tq_tasks q) = 0%nat -> ring_items (tq_tasks q) = []) as Hz.
  { intros Hz. apply nil_length_inv. by rewrite length_ring_items. }
  destruct (tq_shutdown q) eqn:Es; cbn [negb]; [rewrite andb_false_r; by right|].
  case_bool_decide as Hc; cbn [andb]; [left; by apply Hz|].
  destruct (ring_pop_spec (tq_tasks q) Hwf ltac:(lia)) as (x & r' & -> & Hwf' & Hi & Hs').
  simpl. split_and!; try done. split; [done|]. simpl. by rewrite Hs'.
Qed.

Lemma queue_init_ok garbage : queue_ok (queue_init garbage).
Proof.
  split; [apply ring_new_wf; unfold QUEUE_SIZE; lia|]. apply length_replicate.
Qed.

(** ** The clean-up round *)

Lemma cleanup_round_moved now ctx :
  ctx_ok ctx -> exists ctx', cleanup_round now ctx = Ret ctx' /\ ctx_moved ctx ctx'.
Proof.
  intros Hc. unfold cleanup_round.
  pose proof (mark_expired_wf now (k_db ctx) (co_db _ Hc)) as Hdb.
  destruct (lease_v6_mark_expired_older now (k_db ctx)) as [n db]. simpl in Hdb.
  assert (exists db', (if 0 <? n then match lease_v6_cleanup db with
      | Some (_, db) => Ret db | None => Fault OutOfFuel end else Ret db) = Ret db' /\ db6_wf db')
    as (db' & -> & Hdb').
  { destruct (0 <? n); [|by exists db]. destruct (cleanup6_filter db) as [k E]. rewrite E.
    eexists. split; [done|]. by eapply cleanup6_wf. }
  rewrite bind_Ret. eexists. split; [done|].
  pose proof Hc as [Hd Hp Hq H1 H2].
  assert (forall pool, pool6_wf pool -> moved pool (ip6_pool_sync_with_leases pool db').2) as Hs
    by (intros; by apply sync_moved).
  constructor; simpl; [|done| |done].
  - constructor; simpl; try done.
    + apply Forall_fmap. eapply Forall_impl; [exact Hp|]. intros pool Hw. by apply Hs.
    + by rewrite length_fmap.
  - apply Forall2_fmap_r. apply Forall_Forall2_diag. eapply Forall_impl; [exact Hp|].
    intros pool Hw. by apply Hs.
Qed.

(** ** The start *)

(** What [convert_all_to_binary] leaves in a subnet. *)
Definition subnet_start_ok (s : dhcpv6_subnet_t) : Prop :=
  range6_ok s
  /\ (s.(s6_pd_enabled) = true -> s.(s6_has_pd_pool) = true ->
      is_in6 s.(s6_pd_pool_start_bin) /\ is_in6 s.(s6_pd_pool_end_bin)
      /\ 1 <= s.(s6_pd_prefix_len) <= 128).

Lemma mapM_total {A B} (f : A -> option B) (P : B -> Prop) l :
  Forall (fun x => exists y, f x = Some y /\ P y) l ->
  exists ys, mapM f l = Some ys /\ Forall P ys /\ length ys = length l.
Proof.
  induction 1 as [|x l (y & E & Hy) _ (ys & IH & Hys & Hl)]; [by exists []|].
  exists (y :: ys). simpl. rewrite E. simpl. rewrite IH. simpl.
  split_and!; [done|by constructor|lia].
Qed.

Lemma start_ctx_ok now cfg db stats :
  Forall subnet_start_ok cfg.(c6_subnets) -> db6_wf db ->
  exists ctx, start_ctx now cfg db stats = Some ctx /\ ctx_ok ctx /\ ctx.(k_config) = cfg.
Proof.
  intros Hs Hdb. unfold start_ctx, start_pools.
  destruct (mapM_total (fun s => snd <$> ip6_pool_init now s (Some db)) pool6_wf (c6_subnets cfg))
    as (pools & -> & Hp & Hl1).
  { eapply Forall_impl; [exact Hs|]. intros s (Hr & _). destruct (s6_has_pool_range s) eqn:E.
    - destruct (pool6_init_spec now s (Some db) Hr E) as (pool & -> & Hw & _). by exists pool.
    - unfold ip6_pool_init. rewrite E. eexists. split; [done|]. constructor; simpl; try done; try lia.
      apply NoDup_nil_2. }
  destruct (mapM_total (fun s => snd <$> pd_pool_init s (Some db) (s6_pd_prefix_len s)) pd_wf
    (c6_subnets cfg)) as (pds & -> & Hq & Hl2).
  { eapply Forall_impl; [exact Hs|]. intros s (_ & H1).
    destruct (pd_init_ok s (Some db) (s6_pd_prefix_len s) H1) as (rc & pool & -> & Hw).
    by exists pool. }
  simpl. eexists. split; [done|]. done.
Qed.

(** ** The size of an answer *)

Lemma length_na_option m t1 t2 status ip :
  is_in6 ip -> (length (enc_opt (na_option m t1 t2 status ip)) <= 44)%nat.
Proof.
  intros [Hl _]. rewrite length_enc_opt. unfold na_option, ia_body, inner_option. cbn [snd].
  rewrite !length_app, length_enc_opt.
  destruct (status =? STATUS_SUCCESS); cbn [snd]; rewrite !length_app, ?Hl; simpl; lia.
Qed.

Lemma length_pd_option m t1 t2 status plen pfx :
  is_in6 pfx -> (length (enc_opt (pd_option m t1 t2 status plen pfx)) <= 45)%nat.
Proof.
  intros [Hl _]. rewrite length_enc_opt. unfold pd_option, ia_body, inner_option. cbn [snd].
  rewrite !length_app, length_enc_opt.
  destruct (status =? STATUS_SUCCESS); cbn [snd]; rewrite !length_app, ?Hl; simpl; lia.
Qed.

Lemma zero_in6 : is_in6 zero_addr6.
Proof. apply is_in6_bytes; reflexivity. Qed.

(** The allocations behind an answer. *)
Definition na_result (v : packet_env) (m : dhcpv6_packet_meta_t) (idx : nat) (ctx : server_ctx_t)
    (pool : ip6_pool_t) : ip6_allocation_result_t :=
  (ip6_pool_allocate v.(v_ping) v.(v_now) v.(v_t1) v.(v_t2) (duid_text m) m.(m_iaid) None
     (subnet_at ctx idx).(s6_default_lease_time) pool m.(m_requested_ip) ctx.(k_config)
     ctx.(k_db)).1.1.

Definition pd_result (v : packet_env) (m : dhcpv6_packet_meta_t) (idx : nat) (ctx : server_ctx_t)
    (pool : pd_pool_t) : pd_allocation_result_t :=
  (pd_pool_allocate v.(v_pd_now) v.(v_pd_t1) v.(v_pd_t2) (duid_text m) m.(m_iaid_pd) None
     (subnet_at ctx idx).(s6_default_lease_time) pool ctx.(k_db)).1.1.

Lemma na_result_in6 v m idx ctx pool :
  meta_ok m -> ctx_ok ctx -> get_pool_by_subnet ctx idx = Some pool ->
  r6_success (na_result v m idx ctx pool) = true -> is_in6 (r6_ip_address (na_result v m idx ctx pool)).
Proof.
  intros Hm Hc E. apply get_pool_lookup in E.
  pose proof (Forall_lookup_1 _ _ _ _ (co_pools _ Hc) E) as Hw. unfold na_result.
  destruct (duid_text_hex m Hm) as (d & Hd & -> & _).
  destruct (ip6_pool_allocate _ _ _ _ _ _ _ _ pool _ _ _) as [[res pool'] db] eqn:Ea. intros Es.
  destruct (allocate6_from_pool _ _ _ _ _ _ _ _ _ _ _ _ _ _ _ Hd Hw (co_db _ Hc) (mo_ip _ Hm) Ea Es)
    as (i & e & He & Hip). cbn [fst]. rewrite Hip. by eapply (Forall_lookup_1 _ _ _ _ (p6_in6 _ Hw)).
Qed.

Lemma pd_result_in6 v m idx ctx pool :
  meta_ok m -> ctx_ok ctx -> get_pd_pool_by_subnet ctx idx = Some pool ->
  pr_success (pd_result v m idx ctx pool) = true -> is_in6 (pr_prefix (pd_result v m idx ctx pool)).
Proof.
  intros Hm Hc E. apply get_pd_pool_lookup in E.
  pose proof (Forall_lookup_1 _ _ _ _ (co_pds _ Hc) E) as Hw. unfold pd_result.
  destruct (duid_text_hex m Hm) as (d & Hd & -> & _).
  pose proof (pd_allocate_ok (v_pd_now v) (v_pd_t1 v) (v_pd_t2 v) d (m_iaid_pd m) None
    (s6_default_lease_time (subnet_at ctx idx)) Hd pool (k_db ctx) Hw (co_db _ Hc)) as H.
  destruct (pd_pool_allocate _ _ _ _ _ _ _ pool _) as [[res pool'] db].
  destruct H as (_ & _ & H). cbn [fst]. intros Es. rewrite Es in H.
  destruct H as (i & e & He & -> & _). by eapply (Forall_lookup_1 _ _ _ _ (pd_in6 _ Hw)).
Qed.

(** What the address part of an answer can be. *)
Lemma na_reply_cases v m idx ctx :
  meta_ok m -> ctx_ok ctx ->
  (na_reply v m idx ctx).1 = []
  \/ exists t1 t2 status ip, (na_reply v m idx ctx).1 = [na_option m t1 t2 status ip] /\ is_in6 ip.
Proof.
  intros Hm Hc. unfold na_reply.
  destruct (get_pool_by_subnet ctx idx) as [pool|] eqn:E; [|by left].
  destruct (negb _); [by left|]. right.
  destruct (gives_back m); [eexists _, _, _, _; split; [done|apply Hm]|]. cbv zeta.
  pose proof (na_result_in6 v m idx ctx pool Hm Hc E) as Hin. unfold na_result in Hin.
  destruct (ip6_pool_allocate _ _ _ _ _ _ _ _ pool _ _ _) as [[res pool'] db]. cbn [fst] in Hin.
  destruct (r6_success res); eexists _, _, _, _; (split; [done|]); [by apply Hin|apply zero_in6].
Qed.

Lemma pd_reply_cases v m idx ctx :
  meta_ok m -> ctx_ok ctx ->
  (pd_reply v m idx ctx).1 = []
  \/ exists t1 t2 status plen pfx,
       (pd_reply v m idx ctx).1 = [pd_option m t1 t2 status plen pfx] /\ is_in6 pfx.
Proof.
  intros Hm Hc. unfold pd_reply.
  destruct (get_pd_pool_by_subnet ctx idx) as [pool|] eqn:E; [|by left].
  destruct (negb _); [by left|]. right.
  destruct (gives_back m); [eexists _, _, _, _, _; split; [done|apply Hm]|]. cbv zeta.
  pose proof (pd_result_in6 v m idx ctx pool Hm Hc E) as Hin. unfold pd_result in Hin.
  destruct (pd_pool_allocate _ _ _ _ _ _ _ pool _) as [[res pool'] db]. cbn [fst] in Hin.
  destruct (pr_success res); eexists _, _, _, _, _; (split; [done|]); [by apply Hin|apply zero_in6].
Qed.

Lemma dns_reply_cases v idx ctx :
  env_ok v -> dns_reply v idx ctx = []
  \/ exists dl, dns_reply v idx ctx = [(OPT_DNS_SERVERS, concat dl)] /\ Forall is_in6 dl
       /\ (length dl <= 8)%nat.
Proof.
  intros Hv. unfold dns_reply. cbv zeta.
  set (str := if nonempty (s6_dns_servers (subnet_at ctx idx)) then _ else _). clearbody str.
  destruct (nonempty str); [|by left].
  destruct (ipv6_list_ok (v_inet_pton6 v) str 8 Hv) as [Hd Hl].
  set (dl := str_to_ipv6_list _ str 8) in *. clearbody dl. destruct dl as [|a dl]; [by left|].
  right. by exists (a :: dl).
Qed.

(** An answer to a client with a DUID of at most 3849 bytes fits, and decodes. *)
Lemma answer_fits v m idx ctx :
  env_ok v -> meta_ok m -> ctx_ok ctx -> (length (default [] m.(m_client_duid)) <= 3849)%nat ->
  (length (reply_header m) + length (enc_opts (answer v m idx ctx).1) <= BUF_SIZE)%nat
  /\ Forall opt_ok (answer v m idx ctx).1.
Proof.
  intros Hv Hm Hc Hd. unfold answer. cbv zeta. pose proof (give_back_moved v m idx ctx Hc) as H1.
  set (c1 := give_back v m idx ctx) in *. pose proof (cm_ok _ _ H1) as Hc1.
  pose proof (na_reply_moved v m idx c1 Hm Hc1) as H2. pose proof (na_reply_cases v m idx c1 Hm Hc1) as N.
  destruct (na_reply v m idx c1) as [na c2]. simpl in H2, N.
  pose proof (pd_reply_cases v m idx c2 Hm (cm_ok _ _ H2)) as P.
  destruct (pd_reply v m idx c2) as [pd c3]. cbn [fst snd] in P |- *.
  assert (forall o n, (length (enc_opt o) <= n)%nat -> Z.of_nat n < 65536 -> is_u16 o.1 -> opt_ok o) as Hok.
  { intros o n Hle Hn Hu. rewrite length_enc_opt in Hle. split; [done|]. lia. }
  assert (Forall opt_ok (head_reply m)
    /\ (length (enc_opts (head_reply m)) <= 22 + length (default [] (m_client_duid m)))%nat) as [Ah Lh].
  { assert (opt_ok (OPT_SERVERID, server_duid)) as Hsid by (split; unfold is_u16, OPT_SERVERID, OPT_CLIENTID, OPT_DNS_SERVERS; simpl; lia).
    unfold head_reply. destruct (m_client_duid m) as [[|b d]|] eqn:Ecd;
      [split; [by repeat constructor|simpl; lia]| |split; [by repeat constructor|simpl; lia]].
    simpl in Hd. split; [repeat constructor; unfold is_u16, OPT_SERVERID, OPT_CLIENTID, OPT_DNS_SERVERS; simpl; lia|].
    change (_ :: [(OPT_CLIENTID, b :: d)]) with ([(OPT_SERVERID, server_duid)] ++ [(OPT_CLIENTID, b :: d)]).
    rewrite enc_opts_app, !enc_opts_one, length_app, !length_enc_opt. simpl. lia. }
  assert (Forall opt_ok (dns_reply v idx c1) /\ (length (enc_opts (dns_reply v idx c1)) <= 132)%nat)
    as [Ad Ld].
  { destruct (dns_reply_cases v idx c1 Hv) as [->|(dl & -> & Hin & Hl)]; [split; [constructor|simpl; lia]|].
    rewrite enc_opts_one, length_enc_opt. cbn [snd]. rewrite length_concat_addrs by done. split; [|lia].
    constructor; [|constructor]. split; [unfold is_u16, OPT_SERVERID, OPT_CLIENTID, OPT_DNS_SERVERS; simpl; lia|]. cbn [snd].
    rewrite length_concat_addrs by done. lia. }
  assert (Forall opt_ok na /\ (length (enc_opts na) <= 44)%nat) as [An Ln].
  { destruct N as [->|(t1 & t2 & st & ip & -> & Hip)]; [split; [constructor|simpl; lia]|].
    pose proof (length_na_option m t1 t2 st ip Hip) as Hl. rewrite enc_opts_one. split; [|done].
    constructor; [|constructor]. eapply Hok; [exact Hl|lia|by vm_compute]. }
  assert (Forall opt_ok pd /\ (length (enc_opts pd) <= 45)%nat) as [Ap Lp].
  { destruct P as [->|(t1 & t2 & st & pl & ip & -> & Hip)]; [split; [constructor|simpl; lia]|].
    pose proof (length_pd_option m t1 t2 st pl ip Hip) as Hl. rewrite enc_opts_one. split; [|done].
    constructor; [|constructor]. eapply Hok; [exact Hl|lia|by vm_compute]. }
  split; [|by rewrite !Forall_app].
  rewrite !enc_opts_app, !length_app. change (length (reply_header m)) with 4%nat.
  unfold BUF_SIZE. lia.
Qed.

(** ** The whole of [process_packet] *)

Definition packet_subnet (ctx : server_ctx_t) (client : sockaddr_in6) : nat :=
  find_subnet ctx.(k_config) client.(sin6_addr).

Lemma process_spec v out_buf ctx buf client :
  env_ok v -> length out_buf = BUF_SIZE -> Forall is_u8 buf -> ctx_ok ctx ->
  exists out ctx', process_packet v out_buf ctx buf client = Ret (out, ctx')
    /\ ctx_moved ctx ctx'
    /\ forall m, dhcpv6_parse buf = Ret (Some m) -> reply_type m.(m_msg_type) <> 0 ->
       let l := (answer v m (packet_subnet ctx client) ctx).1 in
       ctx' = (answer v m (packet_subnet ctx client) ctx).2
       /\ ((length (reply_header m) + length (enc_opts l) <= BUF_SIZE)%nat ->
           out = Some (reply_header m ++ enc_opts l)).
Proof.
  intros Hv Hb Hu Hc. unfold process_packet. rewrite parse_spec, bind_Ret. cbv beta iota.
  destruct (match buf with _ :: _ :: _ :: _ :: _ => _ | _ => None end) as [m|] eqn:E; cycle 1.
  { eexists _, _. split; [done|]. split; [by apply ctx_moved_refl|]. congruence. }
  assert (meta_ok m) as Hm.
  { apply (parse_meta_ok buf); [done|]. by rewrite parse_spec, E. }
  cbv zeta. fold (packet_subnet ctx client). set (idx := packet_subnet ctx client).
  destruct (Z.eqb_spec (reply_type (m_msg_type m)) 0) as [Hz|Hz].
  { rewrite bind_Ret. eexists _, _. split; [done|]. split; [by apply ctx_moved_refl|].
    intros m' [= <-] Hn. done. }
  destruct (build_reply_written v m idx ctx out_buf Hv Hb) as (b & off & -> & o & rest & -> & -> & Hs & Ho).
  rewrite bind_Ret. eexists _, _. split; [done|]. split; [by apply answer_moved|].
  intros m' [= <-] _. cbv zeta. split; [done|]. intros Hfit. rewrite (Ho Hfit).
  set (l := (answer v m idx ctx).1).
  assert (4 <= length (enc_opts l))%nat as Hl.
  { unfold l, answer. cbv zeta. destruct (na_reply _ _ _ _) as [na c2]. destruct (pd_reply _ _ _ _) as [pd c3].
    unfold head_reply. simpl. lia. }
  rewrite bool_decide_eq_true_2 by (change (length (reply_header m)) with 4%nat; unfold MSG_HDR; lia).
  f_equal. rewrite app_assoc, <- length_app. apply take_app_length.
Qed.

(** ** Reading the reply *)

Lemma be_val_be32 x : is_u32 x -> be_val (be32 x) = x.
Proof. intros H. unfold is_u32 in H. unfold be_val, be32. simpl. Z.div_mod_to_equations. lia. Qed.

Lemma reply_parses m l :
  0 <= m.(m_transaction_id) < 16777216 -> Forall opt_ok l ->
  dhcpv6_parse (reply_header m ++ enc_opts l)
  = Ret (Some (foldl apply_option (meta_of_header (reply_type m.(m_msg_type)) m.(m_transaction_id)) l)).
Proof.
  intros Hx Hl. rewrite parse_spec. unfold reply_header.
  destruct (xid_roundtrip _ Hx) as (hi & mid & lo & -> & E & _). cbn [app]. rewrite E.
  do 3 f_equal. rewrite <- (app_nil_r (enc_opts l)), decode_enc by done. apply app_nil_r.
Qed.

(** One inner option behind the twelve bytes of an identity association. *)
Lemma ia_body_decode iaid t1 t2 o :
  is_u32 iaid -> opt_ok o ->
  be_val (take 4 (ia_body iaid t1 t2 o)) = iaid
  /\ decode_opts (drop 12 (ia_body iaid t1 t2 o)) = [o]
  /\ (12 <= length (ia_body iaid t1 t2 o))%nat.
Proof.
  intros Hi Ho. split_and!.
  - change (take 4 (ia_body iaid t1 t2 o)) with (be32 iaid). by apply be_val_be32.
  - change (drop 12 (ia_body iaid t1 t2 o)) with (enc_opt o).
    rewrite <- enc_opts_one, <- (app_nil_r (enc_opts [o])), decode_enc; [done|by constructor].
  - unfold ia_body. rewrite !length_app. simpl. lia.
Qed.

Lemma apply_na_option m0 m t1 t2 status ip :
  is_u32 m.(m_iaid) -> is_in6 ip -> status = STATUS_SUCCESS \/ status = STATUS_NOADDRSAVAIL ->
  let m1 := set_m_has_ia_na true (set_m_iaid m.(m_iaid) m0) in
  apply_option m0 (na_option m t1 t2 status ip)
  = if status =? STATUS_SUCCESS then set_m_has_requested_ip true (set_m_requested_ip ip m1) else m1.
Proof.
  intros Hi [Hip _] Hst. cbv zeta. unfold na_option.
  set (inner := inner_option OPT_IAADDR status _).
  assert (opt_ok inner) as Ho.
  { unfold inner, inner_option. destruct Hst as [->| ->]; [|by split; vm_compute].
    split; [by vm_compute|]. cbn [snd Z.eqb STATUS_SUCCESS]. rewrite length_app, Hip. simpl. lia. }
  destruct (ia_body_decode (m_iaid m) t1 t2 inner Hi Ho) as (E1 & E2 & E3).
  unfold apply_option. change (OPT_IA_NA =? OPT_CLIENTID) with false.
  change (OPT_IA_NA =? OPT_SERVERID) with false. change (OPT_IA_NA =? OPT_IA_NA) with true.
  cbv iota. rewrite bool_decide_eq_true_2 by done. rewrite E1, E2. cbn [foldl].
  destruct Hst as [->| ->]; unfold apply_ia_na, inner, inner_option; [|done].
  change (STATUS_SUCCESS =? STATUS_SUCCESS) with true. cbv iota. cbn [fst snd].
  rewrite bool_decide_eq_true_2 by (rewrite length_app, Hip; lia).
  change (OPT_IAADDR =? OPT_IAADDR) with true. cbn [andb]. by rewrite <- Hip, take_app_length.
Qed.

Lemma apply_pd_option m0 m t1 t2 status plen pfx :
  is_u32 m.(m_iaid_pd) -> is_in6 pfx -> status = STATUS_SUCCESS \/ status = STATUS_NOADDRSAVAIL ->
  let m1 := set_m_iaid_pd m.(m_iaid_pd) (set_m_has_ia_pd true m0) in
  apply_option m0 (pd_option m t1 t2 status plen pfx)
  = if status =? STATUS_SUCCESS
    then set_m_requested_prefix pfx (set_m_requested_plen plen (set_m_has_requested_prefix true m1))
    else m1.
Proof.
  intros Hi [Hip _] Hst. cbv zeta. unfold pd_option.
  set (inner := inner_option OPT_IAPREFIX status _).
  assert (opt_ok inner) as Ho.
  { unfold inner, inner_option. destruct Hst as [->| ->]; [|by split; vm_compute].
    split; [by vm_compute|]. cbn [snd Z.eqb STATUS_SUCCESS]. rewrite !length_app, Hip. simpl. lia. }
  destruct (ia_body_decode (m_iaid_pd m) t1 t2 inner Hi Ho) as (E1 & E2 & E3).
  unfold apply_option. change (OPT_IA_PD =? OPT_CLIENTID) with false.
  change (OPT_IA_PD =? OPT_SERVERID) with false. change (OPT_IA_PD =? OPT_IA_NA) with false.
  change (OPT_IA_PD =? OPT_IA_PD) with true.
  cbv iota. rewrite bool_decide_eq_true_2 by done. rewrite E1, E2. cbn [foldl].
  destruct Hst as [->| ->]; unfold apply_ia_pd, inner, inner_option; [|done].
  change (STATUS_SUCCESS =? STATUS_SUCCESS) with true. cbv iota. cbn [fst snd].
  rewrite bool_decide_eq_true_2 by (rewrite !length_app, Hip; simpl; lia).
  change (OPT_IAPREFIX =? OPT_IAPREFIX) with true. cbn [andb].
  change (drop 9 (be32 t1 ++ be32 t2 ++ [plen] ++ pfx)) with pfx.
  change (be_val (take 1 (drop 8 (be32 t1 ++ be32 t2 ++ [plen] ++ pfx)))) with plen.
  by rewrite take_ge by lia.
Qed.

(** The identification of a message, and its address part. *)
Definition same_ids (a b : dhcpv6_packet_meta_t) : Prop :=
  b.(m_msg_type) = a.(m_msg_type) /\ b.(m_transaction_id) = a.(m_transaction_id)
  /\ b.(m_server_duid) = a.(m_server_duid) /\ b.(m_client_duid) = a.(m_client_duid).

Definition same_na (a b : dhcpv6_packet_meta_t) : Prop :=
  b.(m_has_ia_na) = a.(m_has_ia_na) /\ b.(m_iaid) = a.(m_iaid)
  /\ b.(m_has_requested_ip) = a.(m_has_requested_ip) /\ b.(m_requested_ip) = a.(m_requested_ip).

(** [m'] offers the address of [res] for the association of [m], or says there is none. *)
Definition tells_na (m m' : dhcpv6_packet_meta_t) (res : ip6_allocation_result_t) : Prop :=
  m'.(m_has_ia_na) = true /\ m'.(m_iaid) = m.(m_iaid)
  /\ m'.(m_has_requested_ip) = r6_success res
  /\ (r6_success res = true -> m'.(m_requested_ip) = r6_ip_address res).

Definition tells_pd (m m' : dhcpv6_packet_meta_t) (res : pd_allocation_result_t) : Prop :=
  m'.(m_has_ia_pd) = true /\ m'.(m_iaid_pd) = m.(m_iaid_pd)
  /\ m'.(m_has_requested_prefix) = pr_success res
  /\ (pr_success res = true -> m'.(m_requested_prefix) = pr_prefix res
                               /\ m'.(m_requested_plen) = pr_plen res).

Lemma na_reply_fields v m idx ctx h :
  meta_ok m -> ctx_ok ctx -> gives_back m = false -> h.(m_has_requested_ip) = false ->
  let h2 := foldl apply_option h (na_reply v m idx ctx).1 in
  same_ids h h2 /\ h2.(m_has_requested_prefix) = h.(m_has_requested_prefix)
  /\ (m.(m_has_ia_na) = true -> forall pool, get_pool_by_subnet ctx idx = Some pool ->
      tells_na m h2 (na_result v m idx ctx pool)).
Proof.
  intros Hm Hc Hg Hh. cbv zeta. unfold na_reply. rewrite Hg.
  destruct (get_pool_by_subnet ctx idx) as [pool|] eqn:E; [|by split_and!].
  destruct (m_has_ia_na m); cbn [negb]; [|by split_and!]. cbv zeta.
  pose proof (na_result_in6 v m idx ctx pool Hm Hc E) as Hin. unfold na_result in *.
  destruct (ip6_pool_allocate _ _ _ _ _ _ _ _ pool _ _ _) as [[res pool'] db] eqn:Ea.
  cbn [fst] in Hin. destruct (r6_success res) eqn:Es; cbn [fst foldl].
  - rewrite apply_na_option by (try apply Hm; auto).
    change (STATUS_SUCCESS =? STATUS_SUCCESS) with true. cbv iota.
    split_and!; try done. intros _ pool0 [= <-]. rewrite Ea. by split_and!.
  - rewrite apply_na_option by (try apply Hm; auto using zero_in6).
    change (STATUS_NOADDRSAVAIL =? STATUS_SUCCESS) with false. cbv iota.
    split_and!; try done. intros _ pool0 [= <-]. rewrite Ea. cbn [fst].
    split_and!; simpl; congruence.
Qed.

Lemma pd_reply_fields v m idx ctx h :
  meta_ok m -> ctx_ok ctx -> gives_back m = false -> h.(m_has_requested_prefix) = false ->
  let h2 := foldl apply_option h (pd_reply v m idx ctx).1 in
  same_ids h h2 /\ same_na h h2
  /\ (m.(m_has_ia_pd) = true -> forall pool, get_pd_pool_by_subnet ctx idx = Some pool ->
      tells_pd m h2 (pd_result v m idx ctx pool)).
Proof.
  intros Hm Hc Hg Hh. cbv zeta. unfold pd_reply. rewrite Hg.
  destruct (get_pd_pool_by_subnet ctx idx) as [pool|] eqn:E; [|by split_and!].
  destruct (m_has_ia_pd m); cbn [negb]; [|by split_and!]. cbv zeta.
  pose proof (pd_result_in6 v m idx ctx pool Hm Hc E) as Hin. unfold pd_result in *.
  destruct (pd_pool_allocate _ _ _ _ _ _ _ pool _) as [[res pool'] db] eqn:Ea.
  cbn [fst] in Hin. destruct (pr_success res) eqn:Es; cbn [fst foldl].
  - rewrite apply_pd_option by (try apply Hm; auto).
    change (STATUS_SUCCESS =? STATUS_SUCCESS) with true. cbv iota.
    split_and!; try done. intros _ pool0 [= <-]. rewrite Ea. by split_and!.
  - rewrite apply_pd_option by (try apply Hm; auto using zero_in6).
    change (STATUS_NOADDRSAVAIL =? STATUS_SUCCESS) with false. cbv iota.
    split_and!; try done. intros _ pool0 [= <-]. rewrite Ea. cbn [fst].
    split_and!; simpl; congruence.
Qed.

(** What a client reads in the answer to a request for addresses. *)
Lemma reply_fields v m idx ctx :
  env_ok v -> meta_ok m -> ctx_ok ctx -> gives_back m = false ->
  let c1 := (na_reply v m idx ctx).2 in
  let m' := foldl apply_option (meta_of_header (reply_type m.(m_msg_type)) m.(m_transaction_id))
              (answer v m idx ctx).1 in
  m'.(m_msg_type) = reply_type m.(m_msg_type) /\ m'.(m_transaction_id) = m.(m_transaction_id)
  /\ m'.(m_server_duid) = Some server_duid
  /\ (default [] m.(m_client_duid) <> [] -> m'.(m_client_duid) = m.(m_client_duid))
  /\ (m.(m_has_ia_na) = true -> forall pool, get_pool_by_subnet ctx idx = Some pool ->
      tells_na m m' (na_result v m idx ctx pool))
  /\ (m.(m_has_ia_pd) = true -> forall pool, get_pd_pool_by_subnet c1 idx = Some pool ->
      tells_pd m m' (pd_result v m idx c1 pool)).
Proof.
  intros Hv Hm Hc Hg. cbv zeta.
  assert (give_back v m idx ctx = ctx) as Egb by (unfold give_back; by rewrite Hg).
  unfold answer. cbv zeta. rewrite Egb.
  pose proof (cm_ok _ _ (na_reply_moved v m idx ctx Hm Hc)) as Hc1.
  pose proof (fun h => na_reply_fields v m idx ctx h Hm Hc Hg) as Fn.
  destruct (na_reply v m idx ctx) as [na c1]. cbn [fst snd] in Hc1, Fn |- *.
  pose proof (fun h => pd_reply_fields v m idx c1 h Hm Hc1 Hg) as Fp.
  destruct (pd_reply v m idx c1) as [pd c2]. cbn [fst] in Fp |- *. rewrite !foldl_app.
  set (h := foldl apply_option (meta_of_header _ _) (head_reply m)).
  assert (h.(m_msg_type) = reply_type m.(m_msg_type) /\ h.(m_transaction_id) = m.(m_transaction_id)
    /\ h.(m_server_duid) = Some server_duid
    /\ (default [] m.(m_client_duid) <> [] -> h.(m_client_duid) = m.(m_client_duid))
    /\ h.(m_has_requested_ip) = false /\ h.(m_has_requested_prefix) = false)
    as (H1 & H2 & H3 & H4 & H5 & H6).
  { subst h. unfold head_reply. by destruct (m_client_duid m) as [[|b d]|]. }
  clearbody h.
  assert (exists l, foldl apply_option h (dns_reply v idx ctx) = set_m_dns_servers l h) as [dl ->].
  { destruct (dns_reply_cases v idx ctx Hv) as [->|(dl & -> & _)].
    - exists h.(m_dns_servers). by destruct h.
    - assert (apply_option h (OPT_DNS_SERVERS, concat dl)
        = let n := length (concat dl) in
          if bool_decide (0 < n)%nat && bool_decide (n mod 16 = 0)%nat
          then set_m_dns_servers (blocks (server_count n) (concat dl)) h else h) as E by done.
      cbn [foldl]. rewrite E. cbv zeta. destruct (_ && _); [by eexists|].
      exists h.(m_dns_servers). by destruct h. }
  destruct (Fn (set_m_dns_servers dl h) H5) as (An & Bn & Cn).
  set (h2 := foldl apply_option (set_m_dns_servers dl h) na) in *. clearbody h2.
  simpl in Bn. rewrite H6 in Bn. destruct (Fp h2 Bn) as (Ap & Np & Cp).
  set (h3 := foldl apply_option h2 pd) in *. clearbody h3.
  unfold same_ids, same_na in *. simpl in An.
  destruct An as (E1 & E2 & E3 & E4), Ap as (G1 & G2 & G3 & G4). rewrite G1, G2, G3, G4, E1, E2, E3, E4.
  split_and!; try done. intros Hn pool Hpool. specialize (Cn Hn pool Hpool).
  unfold tells_na in *. destruct Np as (-> & -> & -> & ->). done.
Qed.
