(* ===== verification/ServerV6System.v ===== *)
(** * The DHCPv6 server as a whole

    The threads of [server.c] as a step relation over the context, the task queue and the
    states of the workers, and the theorems about the server: its invariant and freedom
    from memory errors in every execution, what it answers, and what two successive
    packets of a client obtain. *)

From stdpp Require Import relations.
From S2P Require Import Prelude Ring UtilsV6 LeasesV6 ConfigV6 ProtocolV6 Ip6Pool Ip6PoolSpec PdPool ServerV6 ServerV6Spec.

Inductive worker6_state :=
| W6Idle
| W6Busy (t : task_t)
| W6Exited.

(** The server, with the packets queued and taken so far. *)
Record sys6 := mk_sys6 {
  y_ctx : server_ctx_t;
  y_queue : task_queue_t;
  y_workers : list worker6_state;
  y_accepted : list task_t;
  y_taken : list task_t
}.

(** A datagram as [recvfrom] delivers it. *)
Definition datagram (t : task_t) : Prop :=
  Forall is_u8 t.(t6_buf) /\ (length t.(t6_buf) <= BUF_SIZE)%nat.

(** One step of some thread. *)
Inductive sys6_step : sys6 -> sys6 -> Prop :=
| S6Receive ctx q ws acc tk t ok ctx' q' :
    datagram t -> receive_packet t ctx q = Ret (ok, ctx', q') ->
    sys6_step (mk_sys6 ctx q ws acc tk)
      (mk_sys6 ctx' q' ws (if ok : bool then acc ++ [t] else acc) tk)
| S6Take i ctx q ws acc tk t q' :
    ws !! i = Some W6Idle -> worker_thread q = Ret (Worker6Run t q') ->
    sys6_step (mk_sys6 ctx q ws acc tk)
      (mk_sys6 ctx q' (<[i := W6Busy t]> ws) acc (tk ++ [t]))
| S6Exit i ctx q ws acc tk :
    ws !! i = Some W6Idle -> worker_thread q = Ret Worker6Exit ->
    sys6_step (mk_sys6 ctx q ws acc tk) (mk_sys6 ctx q (<[i := W6Exited]> ws) acc tk)
| S6Answer i ctx q ws acc tk t v out_buf reply ctx' :
    ws !! i = Some (W6Busy t) -> env_ok v -> length out_buf = BUF_SIZE ->
    process_packet v out_buf ctx t.(t6_buf) t.(t6_client_addr) = Ret (reply, ctx') ->
    sys6_step (mk_sys6 ctx q ws acc tk) (mk_sys6 ctx' q (<[i := W6Idle]> ws) acc tk)
| S6Cleanup ctx q ws acc tk now ctx' :
    cleanup_round now ctx = Ret ctx' ->
    sys6_step (mk_sys6 ctx q ws acc tk) (mk_sys6 ctx' q ws acc tk)
| S6Shutdown ctx q ws acc tk :
    sys6_step (mk_sys6 ctx q ws acc tk) (mk_sys6 ctx (queue_shutdown q) ws acc tk).

Definition sys6_start (garbage : task_t) (ctx : server_ctx_t) : sys6 :=
  mk_sys6 ctx (queue_init garbage) (replicate THREAD_POOL_SIZE W6Idle) [] [].

(** ** The invariant *)

Definition worker6_ok (w : worker6_state) : Prop :=
  match w with
  | W6Busy t => datagram t
  | _ => True
  end.

Record sys6_ok (ctx0 : server_ctx_t) (s : sys6) : Prop := {
  so_ctx : ctx_moved ctx0 s.(y_ctx);
  so_queue : queue_ok s.(y_queue);
  so_workers : Forall worker6_ok s.(y_workers);
  so_order : s.(y_accepted) = s.(y_taken) ++ ring_items s.(y_queue).(tq_tasks);
  so_accepted : Forall datagram s.(y_accepted)
}.

Lemma sys6_ok_workers ctx0 ctx q ws acc tk ctx' q' i w acc' tk' :
  sys6_ok ctx0 (mk_sys6 ctx q ws acc tk) -> ctx_moved ctx ctx' -> queue_ok q' -> worker6_ok w ->
  acc' = tk' ++ ring_items q'.(tq_tasks) -> Forall datagram acc' ->
  sys6_ok ctx0 (mk_sys6 ctx' q' (<[i := w]> ws) acc' tk').
Proof.
  intros [Hc _ Hw _ _] Hm Hq Hi Ho Ha. simpl in *. constructor; simpl; try done.
  - by eapply ctx_moved_trans.
  - by apply Forall_insert.
Qed.

Lemma sys6_step_ok ctx0 s s' : sys6_ok ctx0 s -> sys6_step s s' -> sys6_ok ctx0 s'.
Proof.
  intros Hok Hst. pose proof Hok as [Hc Hq Hw Ho Ha].
  destruct Hst as [ctx q ws acc tk t ok ctx' q' Ht E|i ctx q ws acc tk t q' Hi E|i ctx q ws acc tk Hi E
    |i ctx q ws acc tk t v ob reply ctx' Hi Hv Hb E|ctx q ws acc tk now ctx' E|ctx q ws acc tk];
    simpl in *; pose proof (ctx_moved_refl _ (cm_ok _ _ Hc)) as Hr.
  - pose proof (fifo_push_ok t q Hq) as Hp. simpl in Hp. unfold tq_push in Hp.
    unfold receive_packet in E. destruct (queue_push t q) as [[b q1]|]; [|done]. simpl in E.
    injection E as <- <- <-. destruct Hp as (Hq1 & _ & _ & Hi). constructor; simpl; try done.
    + eapply ctx_moved_trans; [exact Hc|]. by destruct Hr as [[] ? ? ?].
    + rewrite Hi, Ho. destruct b; [by rewrite app_assoc|done].
    + destruct b; [|done]. apply Forall_app. auto.
  - pose proof (fifo_pop_ok q Hq) as Hp. simpl in Hp. unfold tq_pop in Hp. rewrite E in Hp.
    destruct Hp as (Hq1 & _ & Hi'). rewrite Hi' in Ho.
    assert (datagram t) as Ht by (rewrite Ho in Ha; apply Forall_app in Ha as [_ Ha]; by inversion Ha).
    eapply sys6_ok_workers; try done. by rewrite Ho, <- app_assoc.
  - by eapply sys6_ok_workers.
  - pose proof (Forall_lookup_1 _ _ _ _ Hw Hi) as [Hu Hl].
    destruct (process_spec v ob ctx (t6_buf t) (t6_client_addr t) Hv Hb Hu (cm_ok _ _ Hc))
      as (out & ctx2 & E2 & Hm & _). rewrite E in E2. injection E2 as <- <-.
    by eapply sys6_ok_workers.
  - destruct (cleanup_round_moved now ctx (cm_ok _ _ Hc)) as (ctx2 & E2 & Hm).
    rewrite E in E2. injection E2 as <-. constructor; simpl; try done. by eapply ctx_moved_trans.
  - done.
Qed.

Lemma sys6_start_ok garbage ctx : ctx_ok ctx -> sys6_ok ctx (sys6_start garbage ctx).
Proof.
  intros Hc. constructor; simpl; try done; try by apply ctx_moved_refl.
  - apply queue_init_ok.
  - repeat constructor.
Qed.

Lemma sys6_run_ok ctx0 s s' : rtc sys6_step s s' -> sys6_ok ctx0 s -> sys6_ok ctx0 s'.
Proof. induction 1 as [|a b c H _ IH]; intros Hok; [done|]. apply IH. by eapply sys6_step_ok. Qed.

(** ** A sample server and its packets *)

Definition sample_env (now : Z) : packet_env :=
  mk_env (fun _ => None) sample_ping now now now now now now.

Definition sample_ctx6 : server_ctx_t :=
  mk_ctx sample_config6 (lease_v6_db_init []) [sample_pool6] [pd_empty sample_range6 0]
    (Some (mk_stats 0 0 0 0 0)).

Definition sample_client : sockaddr_in6 := mk_sockaddr6 546 (ip6_at 200) 2.

(** A message with a client identifier and an address request. *)
Definition sample_msg (msg_type xid : Z) : list Z :=
  [msg_type; 0; 0; xid] ++ enc_opts [(OPT_CLIENTID, [0; 1; 170]);
    (OPT_IA_NA, [0; 0; 0; 7; 0; 0; 0; 0; 0; 0; 0; 0])].

Definition sample_meta (msg_type xid : Z) : dhcpv6_packet_meta_t :=
  set_m_has_ia_na true (set_m_iaid 7 (set_m_client_duid (Some [0; 1; 170])
    (meta_of_header msg_type xid))).

Lemma sample_env_ok now : env_ok (sample_env now).
Proof. done. Qed.

Lemma sample_ctx6_ok : ctx_ok sample_ctx6.
Proof.
  constructor; simpl; try done; [apply db6_init_wf|constructor; [apply sample_pool6_wf|constructor]|].
  constructor; [|constructor]. constructor; simpl; try done. lia.
Qed.

Lemma u8_bytes l : forallb (fun b => (0 <=? b) && (b <? 256)) l = true -> Forall is_u8 l.
Proof.
  intros H. apply Forall_forall. intros x Hx. apply (forallb_elem _ _ H) in Hx.
  apply andb_true_iff in Hx as [? ?]. unfold is_u8. lia.
Qed.

(** ** The properties *)

(** The invariant of the DHCPv6 server.  From a configuration whose addresses were
    converted and a well-formed lease database the pools are built without fail; in
    every state that reception, the workers, the clean-up rounds and the shutdown reach
    in whatever order, the lease database and all pools satisfy their invariants and the
    pools have the addresses and prefixes they were built with; the packets taken by the
    workers are, in order, the first of those accepted, the rest being queued, at most
    256; and whatever a worker has taken, its processing returns, without an access
    outside a buffer, and so does a clean-up round. *)
Lemma server6_invariant now cfg db stats garbage :
  Forall subnet_start_ok cfg.(c6_subnets) -> db6_wf db ->
  exists ctx0, start_ctx now cfg db stats = Some ctx0
  /\ forall s, rtc sys6_step (sys6_start garbage ctx0) s ->
     db6_wf s.(y_ctx).(k_db) /\ Forall pool6_wf s.(y_ctx).(k_pools)
     /\ Forall pd_wf s.(y_ctx).(k_pd_pools)
     /\ Forall2 same_shape ctx0.(k_pools) s.(y_ctx).(k_pools)
     /\ pd_prefixes <$> s.(y_ctx).(k_pd_pools) = pd_prefixes <$> ctx0.(k_pd_pools)
     /\ s.(y_accepted) = s.(y_taken) ++ ring_items s.(y_queue).(tq_tasks)
     /\ (length (ring_items s.(y_queue).(tq_tasks)) <= 256)%nat
     /\ (forall i t v out_buf, s.(y_workers) !! i = Some (W6Busy t) -> env_ok v ->
         length out_buf = BUF_SIZE ->
         exists reply ctx', process_packet v out_buf s.(y_ctx) t.(t6_buf) t.(t6_client_addr)
                            = Ret (reply, ctx'))
     /\ forall t, exists ctx', cleanup_round t s.(y_ctx) = Ret ctx'.
Proof.
  intros Hs Hdb. destruct (start_ctx_ok now cfg db stats Hs Hdb) as (ctx0 & E & Hc & _).
  exists ctx0. split; [done|]. intros s Hrun.
  destruct (sys6_run_ok ctx0 _ _ Hrun (sys6_start_ok garbage ctx0 Hc)) as [Hm Hq Hw Ho Ha].
  pose proof (cm_ok _ _ Hm) as Hok. pose proof Hok as [H1 H2 H3 _ _]. pose proof Hm as [_ _ H4 H5].
  split_and!; try done.
  - pose proof (fifo_bound _ Hq) as Hb. simpl in Hb. destruct Hq as [_ Hq]. rewrite Hq in Hb. exact Hb.
  - intros i t v ob Hi Hv Hb. pose proof (Forall_lookup_1 _ _ _ _ Hw Hi) as [Hu _].
    destruct (process_spec v ob _ _ (t6_client_addr t) Hv Hb Hu Hok) as (r & c & E' & _). by exists r, c.
  - intros t. destruct (cleanup_round_moved t _ Hok) as (c & E' & _). by exists c.
Qed.

Lemma server6_invariant_witness :
  exists ctx0, start_ctx 90 sample_config6 (lease_v6_db_init []) None = Some ctx0
  /\ exists s, rtc sys6_step (sys6_start (mk_task6 [] sample_client) ctx0) s
     /\ y_accepted s = [mk_task6 (sample_msg 1 5) sample_client]
     /\ (length (ring_items (tq_tasks (y_queue s))) <= 256)%nat.
Proof.
  destruct (server6_invariant 90 sample_config6 (lease_v6_db_init []) None
    (mk_task6 [] sample_client)) as (ctx0 & E & H).
  - constructor; [|constructor]. split; [apply sample_range6_ok|done].
  - apply db6_init_wf.
  - exists ctx0. split; [done|].
    assert (rtc sys6_step (sys6_start (mk_task6 [] sample_client) ctx0)
      (mk_sys6 (set_k_stats (k_stats ctx0) ctx0)
         (mk_task_queue (ring_push (mk_task6 (sample_msg 1 5) sample_client)
            (ring_new QUEUE_SIZE (mk_task6 [] sample_client))) false)
         (replicate THREAD_POOL_SIZE W6Idle) [mk_task6 (sample_msg 1 5) sample_client] [])) as Hr.
    { apply rtc_once. apply (S6Receive _ _ _ [] _ (mk_task6 (sample_msg 1 5) sample_client) true).
      - split; [apply u8_bytes; reflexivity|]. unfold BUF_SIZE. simpl. lia.
      - vm_compute in E. injection E as <-. reflexivity. }
    eexists. split; [exact Hr|]. split; [done|]. apply (H _ Hr).
Defined.

(** C14: The answer to a packet, for every well-formed context and every client whose
    DUID has at most 3849 bytes: [process_packet] writes into its 4096-byte buffer the
    header with the reply type and the transaction id followed by exactly the encodings
    of the options the function [answer] computes, sends these bytes and leaves the
    context [answer] computes; messages of other types are not answered and change
    nothing. *)
Theorem process_packet_refines v out_buf ctx buf client m :
  env_ok v -> length out_buf = BUF_SIZE -> Forall is_u8 buf -> ctx_ok ctx ->
  dhcpv6_parse buf = Ret (Some m) -> (length (default [] m.(m_client_duid)) <= 3849)%nat ->
  process_packet v out_buf ctx buf client
  = Ret (if reply_type m.(m_msg_type) =? 0 then (None, ctx)
         else let '(l, ctx') := answer v m (packet_subnet ctx client) ctx in
              (Some (reply_header m ++ enc_opts l), ctx')).
Proof.
  intros Hv Hb Hu Hc Hp Hd. destruct (Z.eqb_spec (reply_type (m_msg_type m)) 0) as [Hz|Hz].
  { unfold process_packet. rewrite Hp, bind_Ret. cbv beta iota zeta. by rewrite Hz. }
  destruct (process_spec v out_buf ctx buf client Hv Hb Hu Hc) as (out & ctx' & -> & _ & H).
  destruct (H m Hp Hz) as [-> Hout].
  destruct (answer_fits v m (packet_subnet ctx client) ctx Hv (parse_meta_ok _ _ Hu Hp) Hc Hd) as [Hf _].
  rewrite (Hout Hf). by destruct (answer _ _ _ _).
Qed.

Lemma sample_parse msg_type xid :
  dhcpv6_parse (sample_msg msg_type xid) = Ret (Some (sample_meta msg_type xid)).
Proof. rewrite parse_spec. reflexivity. Qed.

Lemma process_packet_refines_witness :
  exists ctx', process_packet (sample_env 100) (replicate BUF_SIZE 255) sample_ctx6 (sample_msg 1 5)
    sample_client
  = Ret (Some ([2; 0; 0; 5] ++ enc_opts [(OPT_SERVERID, server_duid); (OPT_CLIENTID, [0; 1; 170]);
      na_option (sample_meta 1 5) 0 0 0 (ip6_at 17)]), ctx').
Proof.
  rewrite (process_packet_refines (sample_env 100) (replicate BUF_SIZE 255) sample_ctx6
    (sample_msg 1 5) sample_client (sample_meta 1 5)).
  - eexists. vm_compute. reflexivity.
  - apply sample_env_ok.
  - apply length_replicate.
  - apply u8_bytes. reflexivity.
  - apply sample_ctx6_ok.
  - apply sample_parse.
  - simpl. lia.
Defined.

(** The answer sent, as bytes and as a message. *)
Lemma process_answer v out_buf ctx buf client m :
  env_ok v -> length out_buf = BUF_SIZE -> Forall is_u8 buf -> ctx_ok ctx ->
  dhcpv6_parse buf = Ret (Some m) -> (length (default [] m.(m_client_duid)) <= 3849)%nat ->
  reply_type m.(m_msg_type) <> 0 ->
  let a := answer v m (packet_subnet ctx client) ctx in
  exists reply, process_packet v out_buf ctx buf client = Ret (Some reply, a.2)
  /\ dhcpv6_parse reply = Ret (Some (foldl apply_option
       (meta_of_header (reply_type m.(m_msg_type)) m.(m_transaction_id)) a.1))
  /\ ctx_moved ctx a.2.
Proof.
  intros Hv Hb Hu Hc Hp Hd Hz a. pose proof (parse_meta_ok _ _ Hu Hp) as Hm.
  destruct (process_spec v out_buf ctx buf client Hv Hb Hu Hc) as (out & ctx' & -> & Hmv & H).
  destruct (H m Hp Hz) as [-> Hout]. fold a in Hout, Hmv |- *.
  destruct (answer_fits v m (packet_subnet ctx client) ctx Hv Hm Hc Hd) as [Hf Hok]. fold a in Hf, Hok.
  rewrite (Hout Hf). eexists. split; [done|]. split; [|done]. apply reply_parses; [apply Hm|done].
Qed.

(** C15: What the client reads.  A SOLICIT, REQUEST, RENEW or REBIND of a client with a
    DUID of at most 3849 bytes is answered with a message the parser accepts: it has the
    reply type, the client's transaction id and DUID and the server's DUID; when the
    message asks for an address and the subnet has a pool, the reply has the same IAID
    and the address the pool allocated, or none when the allocation failed; the same for
    a prefix, with its length. *)
Theorem reply_reads_back v out_buf ctx buf client m :
  env_ok v -> length out_buf = BUF_SIZE -> Forall is_u8 buf -> ctx_ok ctx ->
  dhcpv6_parse buf = Ret (Some m) -> (length (default [] m.(m_client_duid)) <= 3849)%nat ->
  m.(m_msg_type) ∈ [MSG_SOLICIT; MSG_REQUEST; MSG_RENEW; MSG_REBIND] ->
  let idx := packet_subnet ctx client in
  exists reply ctx' m', process_packet v out_buf ctx buf client = Ret (Some reply, ctx')
  /\ dhcpv6_parse reply = Ret (Some m')
  /\ m'.(m_msg_type) = (if m.(m_msg_type) =? MSG_SOLICIT then MSG_ADVERTISE else MSG_REPLY)
  /\ m'.(m_transaction_id) = m.(m_transaction_id) /\ m'.(m_server_duid) = Some server_duid
  /\ (default [] m.(m_client_duid) <> [] -> m'.(m_client_duid) = m.(m_client_duid))
  /\ (m.(m_has_ia_na) = true -> forall pool, get_pool_by_subnet ctx idx = Some pool ->
      tells_na m m' (na_result v m idx ctx pool))
  /\ (m.(m_has_ia_pd) = true -> let c1 := (na_reply v m idx ctx).2 in
      forall pool, get_pd_pool_by_subnet c1 idx = Some pool ->
      tells_pd m m' (pd_result v m idx c1 pool)).
Proof.
  intros Hv Hb Hu Hc Hp Hd Ht idx. pose proof (parse_meta_ok _ _ Hu Hp) as Hm.
  assert (gives_back m = false /\ reply_type (m_msg_type m) <> 0 /\ reply_type (m_msg_type m)
    = (if m_msg_type m =? MSG_SOLICIT then MSG_ADVERTISE else MSG_REPLY)) as (Hg & Hz & Hrt).
  { unfold gives_back. rewrite !elem_of_cons in Ht.
    destruct Ht as [->|[->|[->|[->|Ht]]]]; try done. by apply not_elem_of_nil in Ht. }
  destruct (process_answer v out_buf ctx buf client m Hv Hb Hu Hc Hp Hd Hz) as (r & -> & Hr & _).
  eexists r, _, _. split; [done|]. split; [exact Hr|].
  rewrite <- Hrt. by apply reply_fields.
Qed.

Lemma reply_reads_back_witness :
  exists reply ctx' m', process_packet (sample_env 100) (replicate BUF_SIZE 255) sample_ctx6
    (sample_msg 1 5) sample_client = Ret (Some reply, ctx')
  /\ dhcpv6_parse reply = Ret (Some m') /\ m_has_requested_ip m' = true
  /\ m_requested_ip m' = ip6_at 17.
Proof.
  destruct (reply_reads_back (sample_env 100) (replicate BUF_SIZE 255) sample_ctx6
    (sample_msg 1 5) sample_client (sample_meta 1 5)) as (r & c & m' & E & Ep & _ & _ & _ & _ & Hna & _).
  - apply sample_env_ok.
  - apply length_replicate.
  - apply u8_bytes. reflexivity.
  - apply sample_ctx6_ok.
  - apply sample_parse.
  - simpl. lia.
  - by apply list_elem_of_here.
  - exists r, c, m'. split; [done|]. split; [done|].
    destruct (Hna eq_refl sample_pool6 eq_refl) as (_ & _ & H1 & H2).
    split; [rewrite H1; vm_compute; reflexivity|]. rewrite H2; vm_compute; reflexivity.
Defined.

(** The pools of addresses after an answer that gives nothing back. *)
Lemma answer_pools v m idx ctx pool :
  meta_ok m -> ctx_ok ctx -> gives_back m = false -> m.(m_has_ia_na) = true ->
  get_pool_by_subnet ctx idx = Some pool ->
  let ctx' := (answer v m idx ctx).2 in
  ctx'.(k_config) = ctx.(k_config)
  /\ get_pool_by_subnet ctx' idx
     = Some (ip6_pool_allocate v.(v_ping) v.(v_now) v.(v_t1) v.(v_t2) (duid_text m) m.(m_iaid) None
         (subnet_at ctx idx).(s6_default_lease_time) pool m.(m_requested_ip) ctx.(k_config)
         ctx.(k_db)).1.2.
Proof.
  intros Hm Hc Hg Hna Hp. cbv zeta. pose proof (answer_moved v m idx ctx Hm Hc) as [Hok Hcfg _ _].
  split; [done|]. rewrite get_pool_at by done.
  assert (give_back v m idx ctx = ctx) as Egb by (unfold give_back; by rewrite Hg).
  assert (forall c, k_pools (pd_reply v m idx c).2 = k_pools c) as Hpd.
  { intros c. unfold pd_reply. rewrite Hg. destruct (get_pd_pool_by_subnet c idx); [|done].
    destruct (negb _); [done|]. cbv zeta.
    destruct (pd_pool_allocate _ _ _ _ _ _ _ _ _) as [[res pool'] db].
    by destruct (pr_success res), (pr_is_new res). }
  apply get_pool_lookup in Hp as Hl. apply lookup_lt_Some in Hl as Hlt.
  unfold answer. cbv zeta. rewrite Egb. unfold na_reply. rewrite Hp, Hna, Hg. cbn [negb]. cbv zeta.
  destruct (ip6_pool_allocate _ _ _ _ _ _ _ _ pool _ _ _) as [[res pool'] db]. cbn [fst snd].
  destruct (r6_success res); [destruct (r6_is_new res)|];
    match goal with |- context [pd_reply v m idx ?c] => specialize (Hpd c) end;
    destruct (pd_reply _ _ _ _) as [pd c2]; cbn [snd] in *; rewrite Hpd; simpl;
    by apply list_lookup_insert_eq.
Qed.

(** The second allocation for the same DUID, from the pool the first one left. *)
Lemma na_result_again v1 v2 m1 m2 idx ctx c1 d pool :
  meta_ok m1 -> meta_ok m2 -> ctx_ok ctx -> c1.(k_config) = ctx.(k_config) ->
  m1.(m_client_duid) = Some d -> m2.(m_client_duid) = Some d -> d <> [] -> (length d <= 42)%nat ->
  get_pool_by_subnet ctx idx = Some pool -> static_host (hex_loop d) pool.(q_subnet) = None ->
  r6_success (na_result v1 m1 idx ctx pool) = true ->
  let pool1 := (ip6_pool_allocate v1.(v_ping) v1.(v_now) v1.(v_t1) v1.(v_t2) (duid_text m1) m1.(m_iaid)
    None (subnet_at ctx idx).(s6_default_lease_time) pool m1.(m_requested_ip) ctx.(k_config)
    ctx.(k_db)).1.2 in
  let res2 := ip6_pool_allocate v2.(v_ping) v2.(v_now) v2.(v_t1) v2.(v_t2) (duid_text m2) m2.(m_iaid)
    None (subnet_at c1 idx).(s6_default_lease_time) pool1 m2.(m_requested_ip) c1.(k_config)
    c1.(k_db) in
  r6_success res2.1.1 = true /\ r6_ip_address res2.1.1 = r6_ip_address (na_result v1 m1 idx ctx pool)
  /\ res2.1.2 = pool1.
Proof.
  intros Hm1 Hm2 Hc -> Hd1 Hd2 Hne Hlen Hpool Hst. unfold na_result. cbv zeta.
  assert (duid_ok d) as Hdok.
  { pose proof (mo_client _ Hm1) as Hu. rewrite Hd1 in Hu. split; [done|]. unfold DUID_MAX_LEN. lia. }
  assert (duid_text m1 = hex_loop d /\ duid_text m2 = hex_loop d) as [-> ->].
  { destruct (duid_text_hex m1 Hm1) as (d1 & _ & -> & X1), (duid_text_hex m2 Hm2) as (d2 & _ & -> & X2).
    rewrite Hd1 in X1. rewrite Hd2 in X2. simpl in X1, X2. by rewrite X1, X2 by lia. }
  pose proof (Forall_lookup_1 _ _ _ _ (co_pools _ Hc) (get_pool_lookup _ _ _ Hpool)) as Hw.
  destruct (ip6_pool_allocate _ _ _ _ _ _ _ _ pool _ _ _) as [[res1 p1] db1] eqn:Ea1. intros Hs.
  destruct (allocate6_again (v_ping v1) (v_now v1) (v_t1 v1) (v_t2 v1) d _ None _ pool _
    (k_config ctx) (k_db ctx) res1 p1 db1 (v_ping v2) (v_now v2) (v_t1 v2) (v_t2 v2) (m_iaid m2) None
    (s6_default_lease_time (subnet_at c1 idx)) (m_requested_ip m2) (k_db c1)
    Hdok Hne Hlen Hw (co_db _ Hc) (mo_ip _ Hm1) Hst Ea1 Hs) as (res2 & db2 & Ea2 & Hs2 & Hip & _).
  cbn [fst snd]. by rewrite Ea2.
Qed.

(** A SOLICIT followed by a REQUEST.  When a client without a fixed address and with
    a DUID of 1 to 42 bytes solicits an address and the pool of its subnet allocates
    one, the ADVERTISE offers that address, and a REQUEST of the same client processed
    next, whatever address, IAID and other options it names, is answered with a REPLY
    for the same address; the pool is not changed by the second packet. *)
Lemma solicit_request_exchange v1 v2 ob1 ob2 ctx buf1 buf2 client m1 m2 d pool :
  env_ok v1 -> env_ok v2 -> length ob1 = BUF_SIZE -> length ob2 = BUF_SIZE ->
  Forall is_u8 buf1 -> Forall is_u8 buf2 -> ctx_ok ctx ->
  dhcpv6_parse buf1 = Ret (Some m1) -> dhcpv6_parse buf2 = Ret (Some m2) ->
  m1.(m_msg_type) = MSG_SOLICIT -> m2.(m_msg_type) = MSG_REQUEST ->
  m1.(m_client_duid) = Some d -> m2.(m_client_duid) = Some d -> d <> [] -> (length d <= 42)%nat ->
  m1.(m_has_ia_na) = true -> m2.(m_has_ia_na) = true ->
  let idx := packet_subnet ctx client in
  get_pool_by_subnet ctx idx = Some pool -> static_host (hex_loop d) pool.(q_subnet) = None ->
  r6_success (na_result v1 m1 idx ctx pool) = true ->
  exists r1 r2 ctx1 ctx2 a1 a2,
    process_packet v1 ob1 ctx buf1 client = Ret (Some r1, ctx1)
    /\ process_packet v2 ob2 ctx1 buf2 client = Ret (Some r2, ctx2)
    /\ dhcpv6_parse r1 = Ret (Some a1) /\ dhcpv6_parse r2 = Ret (Some a2)
    /\ a1.(m_msg_type) = MSG_ADVERTISE /\ a2.(m_msg_type) = MSG_REPLY
    /\ a1.(m_has_requested_ip) = true /\ a2.(m_has_requested_ip) = true
    /\ a2.(m_requested_ip) = a1.(m_requested_ip)
    /\ get_pool_by_subnet ctx2 idx = get_pool_by_subnet ctx1 idx.
Proof.
  intros Hv1 Hv2 Hb1 Hb2 Hu1 Hu2 Hc Hp1 Hp2 Ht1 Ht2 Hd1 Hd2 Hne Hlen Hn1 Hn2 idx Hpool Hst Hs.
  pose proof (parse_meta_ok _ _ Hu1 Hp1) as Hm1. pose proof (parse_meta_ok _ _ Hu2 Hp2) as Hm2.
  assert (gives_back m1 = false) as Hg1 by (unfold gives_back; by rewrite Ht1).
  assert (gives_back m2 = false) as Hg2 by (unfold gives_back; by rewrite Ht2).
  destruct (process_answer v1 ob1 ctx buf1 client m1 Hv1 Hb1 Hu1 Hc Hp1
    ltac:(rewrite Hd1; simpl; lia) ltac:(by rewrite Ht1)) as (r1 & E1 & P1 & Hmv). fold idx in E1, P1, Hmv.
  set (c1 := (answer v1 m1 idx ctx).2) in *. pose proof (cm_ok _ _ Hmv) as Hcok.
  destruct (process_answer v2 ob2 c1 buf2 client m2 Hv2 Hb2 Hu2 Hcok Hp2
    ltac:(rewrite Hd2; simpl; lia) ltac:(by rewrite Ht2)) as (r2 & E2 & P2 & _).
  assert (packet_subnet c1 client = idx) as Eidx
    by (unfold packet_subnet, idx; by rewrite (cm_config _ _ Hmv)). rewrite Eidx in E2, P2.
  destruct (answer_pools v1 m1 idx ctx pool Hm1 Hc Hg1 Hn1 Hpool) as [Hcfg Hpl1]. fold c1 in Hcfg, Hpl1.
  destruct (answer_pools v2 m2 idx c1 _ Hm2 Hcok Hg2 Hn2 Hpl1) as [_ Hpl2].
  destruct (reply_fields v1 m1 idx ctx Hv1 Hm1 Hc Hg1) as (F1 & _ & _ & _ & F2 & _).
  destruct (reply_fields v2 m2 idx c1 Hv2 Hm2 Hcok Hg2) as (G1 & _ & _ & _ & G2 & _).
  destruct (F2 Hn1 pool Hpool) as (_ & _ & F3 & F4). destruct (G2 Hn2 _ Hpl1) as (_ & _ & G3 & G4).
  destruct (na_result_again v1 v2 m1 m2 idx ctx c1 d pool Hm1 Hm2 Hc Hcfg Hd1 Hd2 Hne Hlen Hpool Hst Hs)
    as (Hs2 & Hip & Hsame).
  unfold na_result in G3, G4. rewrite Hs2 in G3, G4. rewrite Hs in F3.
  exists r1, r2, c1, (answer v2 m2 idx c1).2. eexists _, _. split_and!; [exact E1|exact E2|exact P1|exact P2|..].
  - by rewrite F1, Ht1.
  - by rewrite G1, Ht2.
  - exact F3.
  - exact G3.
  - rewrite F4, G4 by done. exact Hip.
  - by rewrite Hpl2, Hpl1, Hsame.
Qed.

Lemma solicit_request_exchange_witness :
  exists r1 r2 ctx1 ctx2 a1 a2,
    process_packet (sample_env 100) (replicate BUF_SIZE 0) sample_ctx6 (sample_msg 1 5) sample_client
    = Ret (Some r1, ctx1)
    /\ process_packet (sample_env 101) (replicate BUF_SIZE 9) ctx1 (sample_msg 3 6) sample_client
       = Ret (Some r2, ctx2)
    /\ dhcpv6_parse r1 = Ret (Some a1) /\ dhcpv6_parse r2 = Ret (Some a2)
    /\ m_requested_ip a2 = m_requested_ip a1.
Proof.
  destruct (solicit_request_exchange (sample_env 100) (sample_env 101) (replicate BUF_SIZE 0)
    (replicate BUF_SIZE 9) sample_ctx6 (sample_msg 1 5) (sample_msg 3 6) sample_client
    (sample_meta 1 5) (sample_meta 3 6) [0; 1; 170] sample_pool6)
    as (r1 & r2 & c1 & c2 & a1 & a2 & E1 & E2 & P1 & P2 & _ & _ & _ & _ & Hip & _);
    try reflexivity; try apply length_replicate; try (by apply u8_bytes); try apply sample_parse.
  - apply sample_env_ok.
  - apply sample_env_ok.
  - apply sample_ctx6_ok.
  - discriminate.
  - simpl. lia.
  - exists r1, r2, c1, c2, a1, a2. auto.
Defined.

(** ** Observed behaviours *)

(** The sample server after a SOLICIT at time 100 and the clean-up round at time 1000. *)
Definition sample_after_cleanup : outcome server_ctx_t :=
  '(_, ctx) ← process_packet (sample_env 100) (replicate BUF_SIZE 0) sample_ctx6 (sample_msg 1 5)
                sample_client;
  cleanup_round 1000 ctx.

(** The round removes the expired lease before it synchronises the pools with the leases,
    so the address is still allocated, and no lease is left to free it later. *)
Lemma expired_address_stays_allocated :
  exists ctx pool, sample_after_cleanup = Ret ctx /\ d_leases (k_db ctx) = []
    /\ k_pools ctx = [pool] /\ q_allocated_count pool = 1
    /\ n_state <$> q_entries pool = [IP6_STATE_CONFLICT; IP6_STATE_ALLOCATED; IP6_STATE_AVAILABLE].
Proof. eexists _, _. split; [vm_compute; reflexivity|]. vm_compute. auto. Qed.

(** Two clients with different DUIDs of 86 bytes have the same text, and are delegated the
    same prefix. *)
Lemma long_duids_share_prefix :
  let m b := set_m_client_duid (Some (replicate 86 b)) (meta_of_header MSG_REQUEST 1) in
  duid_text (m 1) = duid_text (m 2)
  /\ let '(r1, pool, db) := pd_pool_allocate 9 9 9 (duid_text (m 1)) 7 None 60 sample_pd_pool
                             (lease_v6_db_init []) in
     let '(r2, _, _) := pd_pool_allocate 9 9 9 (duid_text (m 2)) 8 None 60 pool db in
     pr_success r1 = true /\ pr_success r2 = true /\ pr_prefix r2 = pr_prefix r1.
Proof. vm_compute. auto. Qed.
