(* ===== verification/CText.v ===== *)
(** Text handling the sources share: literals as C strings, the scans of [sscanf] and
    [atoi], and lemmas on prefixes of characters.  A C string is the list of its bytes
    before the terminator, as in [UtilsV6]. *)

From Stdlib Require Import Ascii String.
From stdpp Require Import list.
From S2P Require Import Prelude UtilsV6.

(** A literal of the sources. *)
Definition lit (s : string) : cstr :=
  (fun c => Z.of_N (N_of_ascii c)) <$> list_ascii_of_string s.

(** The C string at the start of an array: the bytes before the first zero. *)
Fixpoint c_string (bs : list Z) : cstr :=
  match bs with
  | [] => []
  | b :: rest => if b =? 0 then [] else b :: c_string rest
  end.

Definition isdigit (c : Z) : bool := (48 <=? c) && (c <=? 57).

(** [atoi]: [strtol] cut to [int]. *)
Definition atoi (s : cstr) : Z :=
  (strtol10 s + 2147483648) mod 4294967296 - 2147483648.

(** The characters up to the first that does not satisfy [p]; the rest is
    [drop_while p]. *)
Fixpoint take_while (p : Z -> bool) (s : cstr) : cstr :=
  match s with
  | [] => []
  | c :: r => if p c then c :: take_while p r else []
  end.

(** [sscanf(s, "%s%n", word, &n)]: the word and what follows it, [None] when the input
    ends first. *)
Definition scan_word (s : cstr) : option (cstr * cstr) :=
  let s := drop_while isspace s in
  let nonspace := fun c => negb (isspace c) in
  match s with
  | [] => None
  | _ => Some (take_while nonspace s, drop_while nonspace s)
  end.

(** ** Lemmas *)

Lemma take_drop_while p s : take_while p s ++ drop_while p s = s.
Proof. induction s as [|c s IH]; [done|]. simpl. destruct (p c); [|done]. simpl. by rewrite IH. Qed.

Lemma length_drop_while p s : (length (drop_while p s) <= length s)%nat.
Proof. rewrite <- (take_drop_while p s) at 2. rewrite length_app. lia. Qed.

Lemma length_take_while p s : (length (take_while p s) <= length s)%nat.
Proof. rewrite <- (take_drop_while p s) at 2. rewrite length_app. lia. Qed.

Lemma length_drop_while_end p s : (length (drop_while_end p s) <= length s)%nat.
Proof.
  unfold drop_while_end. rewrite length_rev. etransitivity; [apply length_drop_while|].
  by rewrite length_rev.
Qed.

(** The first character that does not satisfy [p] ends the scan. *)
Lemma take_while_app p s c r :
  Forall (fun x => p x = true) s -> p c = false -> take_while p (s ++ c :: r) = s.
Proof.
  intros H Hc. induction H as [|x s Hx _ IH]; simpl; [by rewrite Hc|]. by rewrite Hx, IH.
Qed.

Lemma drop_while_app p s c r :
  Forall (fun x => p x = true) s -> p c = false -> drop_while p (s ++ c :: r) = c :: r.
Proof.
  intros H Hc. induction H as [|x s Hx _ IH]; simpl; [by rewrite Hc|]. by rewrite Hx, IH.
Qed.

Lemma drop_while_head p c r : p c = false -> drop_while p (c :: r) = c :: r.
Proof. intros H. simpl. by rewrite H. Qed.

Lemma drop_while_end_snoc p s c : p c = false -> drop_while_end p (s ++ [c]) = s ++ [c].
Proof.
  intros H. unfold drop_while_end. rewrite rev_app_distr. cbn [rev app].
  rewrite drop_while_head by done. cbn [rev]. by rewrite rev_involutive.
Qed.

Lemma scan_word_shorter s w r :
  scan_word s = Some (w, r) -> (length r < length s)%nat /\ w <> [].
Proof.
  unfold scan_word. cbv zeta. pose proof (length_drop_while isspace s) as Hs.
  destruct (drop_while isspace s) as [|c s'] eqn:E; [done|].
  assert (isspace c = false) as Hc.
  { clear -E. induction s as [|x s IH]; [done|]. simpl in E. destruct (isspace x) eqn:Ex; [auto|congruence]. }
  intros [= <- <-]. cbn [take_while drop_while]. rewrite Hc. cbn [negb]. split; [|done].
  pose proof (length_drop_while (fun c => negb (isspace c)) s'). cbn [length] in Hs. lia.
Qed.

Lemma c_string_id s : 0 ∉ s -> c_string s = s.
Proof.
  induction s as [|x s IH]; intros H; [done|]. apply not_elem_of_cons in H as [Hx H].
  simpl. destruct (Z.eqb_spec x 0); [congruence|]. by rewrite IH.
Qed.

Lemma drop_while_idem p s : drop_while p (drop_while p s) = drop_while p s.
Proof.
  induction s as [|c s IH]; [done|]. simpl. destruct (p c) eqn:E; [done|]. simpl. by rewrite E.
Qed.

(** ** Numbers *)

(** The value of a digit in bases up to 16. *)
Definition digit_value (c : Z) : option Z :=
  if isdigit c then Some (c - 48)
  else if (97 <=? c) && (c <=? 102) then Some (c - 87)
  else if (65 <=? c) && (c <=? 70) then Some (c - 55)
  else None.

(** The digits of a base at the start of a text, added to [acc], and what follows. *)
Fixpoint scan_digits (base : Z) (s : cstr) (acc : Z) : Z * cstr :=
  match s with
  | c :: r =>
      match digit_value c with
      | Some d => if d <? base then scan_digits base r (acc * base + d) else (acc, s)
      | None => (acc, s)
      end
  | [] => (acc, [])
  end.

(** An optional sign. *)
Definition scan_sign (s : cstr) : bool * cstr :=
  match s with
  | c :: r => if c =? 45 then (true, r) else if c =? 43 then (false, r) else (false, s)
  | [] => (false, [])
  end.

Definition starts_digit (base : Z) (s : cstr) : bool :=
  match s with
  | c :: _ => match digit_value c with Some d => d <? base | None => false end
  | [] => false
  end.

(** A 32-bit [int]. *)
Definition i32 (z : Z) : Z := (z + 2147483648) mod 4294967296 - 2147483648.

(** The conversion [%d] of [sscanf]: the [int] and what follows, [None] when it fails. *)
Definition scan_d (s : cstr) : option (Z * cstr) :=
  let '(neg, s) := scan_sign (drop_while isspace s) in
  if starts_digit 10 s then
    let '(v, r) := scan_digits 10 s 0 in
    Some (i32 (if neg : bool then Z.max (- v) (-9223372036854775808) else Z.min v 9223372036854775807), r)
  else None.

(** The conversion [%x]; a prefix [0x] is skipped. *)
Definition scan_x (s : cstr) : option (Z * cstr) :=
  let '(neg, s) := scan_sign (drop_while isspace s) in
  if starts_digit 16 s then
    let s := match s with
             | c :: x :: r => if (c =? 48) && ((x =? 120) || (x =? 88)) then r else s
             | _ => s
             end in
    let '(v, r) := scan_digits 16 s 0 in
    Some (u32 (if 18446744073709551615 <? v then 18446744073709551615 else if neg : bool then - v else v), r)
  else None.

(** The conversion [%u]; a number that does not fit 64 bits is the largest one. *)
Definition scan_u (s : cstr) : option (Z * cstr) :=
  let '(neg, s) := scan_sign (drop_while isspace s) in
  if starts_digit 10 s then
    let '(v, r) := scan_digits 10 s 0 in
    Some (u32 (if 18446744073709551615 <? v then 18446744073709551615 else if neg : bool then - v else v), r)
  else None.

(** The conversion [%<width>s]: the word, cut at the width, and what follows. *)
Definition scan_s (width : nat) (s : cstr) : option (cstr * cstr) :=
  match drop_while isspace s with
  | [] => None
  | s => let w := take width (take_while (fun c => negb (isspace c)) s) in Some (w, drop (length w) s)
  end.

(** A character of a format: it must be next, without skipping spaces. *)
Definition scan_char (c : Z) (s : cstr) : option cstr :=
  match s with
  | x :: r => if x =? c then Some r else None
  | [] => None
  end.

(** The decimal text of a non-negative number below 10^20, [%u] and [%lu]. *)
Fixpoint dec_loop (fuel : nat) (n : Z) (acc : cstr) : cstr :=
  match fuel with
  | O => acc
  | S fuel => if n <? 10 then (48 + n) :: acc else dec_loop fuel (n / 10) ((48 + n mod 10) :: acc)
  end.

Definition dec (n : Z) : cstr := dec_loop 20 n [].

(** [%0<width>d] *)
Definition format_d (width : nat) (z : Z) : cstr :=
  let pad (w : nat) (s : cstr) := replicate (w - length s) 48 ++ s in
  if z <? 0 then 45 :: pad (width - 1)%nat (dec (- z)) else pad width (dec z).

(** [strncmp(s, kw, strlen(kw)) == 0] *)
Fixpoint prefix_eq (s kw : cstr) {struct kw} : bool :=
  match kw, s with
  | [], _ => true
  | k :: kw, c :: s => if c =? k then prefix_eq s kw else false
  | _ :: _, [] => false
  end.

(** ** [strtok] *)

(** The token before the next delimiter, leading ones skipped, and the text left for
    the next call; [None] is the null pointer. *)
Definition strtok (delims : cstr) (s : cstr) : option cstr * cstr :=
  let is_delim := fun c => bool_decide (c ∈ delims) in
  match drop_while is_delim s with
  | [] => (None, [])
  | s' => (Some (take_while (fun c => negb (is_delim c)) s'),
           drop 1 (drop_while (fun c => negb (is_delim c)) s'))
  end.

(** ** Files *)

(** The lines of a file as [fgets] finds them, each with its newline. *)
Fixpoint split_lines (s cur : cstr) : list cstr :=
  match s with
  | [] => match cur with [] => [] | _ => [cur] end
  | c :: r => if c =? 10 then (cur ++ [10]) :: split_lines r [] else split_lines r (cur ++ [c])
  end.

(** What [fgets] with a buffer of 1024 bytes returns for one line of the file. *)
Fixpoint fgets_pieces (fuel : nat) (line : cstr) : list cstr :=
  match fuel with
  | O => [line]
  | S fuel =>
      if bool_decide (length line <= 1023)%nat then [line]
      else take 1023 line :: fgets_pieces fuel (drop 1023 line)
  end.

(** The results of repeated [fgets] on a file. *)
Definition fgets_lines (contents : cstr) : list cstr :=
  concat ((fun l => fgets_pieces (length l) l) <$> split_lines contents []).

(** One [fgets] with that buffer on the bytes left: the line and the bytes after it. *)
Fixpoint fgets_upto (n : nat) (s : cstr) : cstr * cstr :=
  match n, s with
  | S n, c :: r =>
      if c =? 10 then ([10], r)
      else let '(line, rest) := fgets_upto n r in (c :: line, rest)
  | _, _ => ([], s)
  end.

(** The same with a buffer of [size] bytes. *)
Definition fgets_buf (size : nat) (s : cstr) : option (cstr * cstr) :=
  match s with
  | [] => None
  | _ => Some (fgets_upto (size - 1) s)
  end.

Definition fgets (s : cstr) : option (cstr * cstr) :=
  match s with
  | [] => None
  | _ => Some (fgets_upto 1023 s)
  end.

(** Lines written with [fprintf]. *)
Definition print_lines (ls : list cstr) : cstr := concat ((fun l => l ++ [10]) <$> ls).

(** ** Lemmas on numbers *)

Lemma digit_value_dec d : 0 <= d < 10 -> digit_value (48 + d) = Some d.
Proof.
  intros H. unfold digit_value, isdigit.
  destruct (Z.leb_spec 48 (48 + d)), (Z.leb_spec (48 + d) 57); try lia. simpl. f_equal. lia.
Qed.

Lemma scan_dec_loop fuel : forall n s,
  0 <= n < 10 ^ Z.of_nat fuel -> (0 < fuel)%nat ->
  scan_digits 10 (dec_loop fuel n s) 0 = scan_digits 10 s n.
Proof.
  induction fuel as [|fuel IH]; intros n s Hn Hf; [lia|]. cbn [dec_loop].
  destruct (Z.ltb_spec n 10).
  - cbn [scan_digits]. rewrite digit_value_dec by lia. destruct (Z.ltb_spec n 10); [|lia].
    f_equal.
  - destruct fuel as [|fuel]; [simpl in Hn; lia|].
    assert (0 <= n mod 10 < 10) as Hm by (apply Z.mod_pos_bound; lia).
    rewrite IH; [|split; [apply Z.div_pos; lia|]|lia].
    + cbn [scan_digits]. rewrite digit_value_dec by lia. destruct (Z.ltb_spec (n mod 10) 10); [|lia].
      f_equal. pose proof (Z.div_mod n 10). lia.
    + apply Z.div_lt_upper_bound; [lia|].
      rewrite Nat2Z.inj_succ, Z.pow_succ_r in Hn by lia. lia.
Qed.

Lemma dec_loop_app fuel : forall n s t, dec_loop fuel n (s ++ t) = dec_loop fuel n s ++ t.
Proof.
  induction fuel as [|fuel IH]; intros n s t; [done|]. cbn [dec_loop].
  destruct (n <? 10); [done|]. apply (IH _ (_ :: s)).
Qed.

Lemma dec_loop_digits fuel : forall n s,
  0 <= n -> Forall (fun c => isdigit c = true) s -> Forall (fun c => isdigit c = true) (dec_loop fuel n s).
Proof.
  induction fuel as [|fuel IH]; intros n s Hn Hs; [done|]. cbn [dec_loop].
  assert (forall d, 0 <= d < 10 -> isdigit (48 + d) = true) as Hd.
  { intros d Hd. unfold isdigit. lia. }
  destruct (Z.ltb_spec n 10); [constructor; [apply Hd; lia|done]|].
  apply IH; [apply Z.div_pos; lia|]. constructor; [|done]. apply Hd. apply Z.mod_pos_bound. lia.
Qed.

Lemma dec_digits n : 0 <= n -> Forall (fun c => isdigit c = true) (dec n).
Proof. intros H. apply dec_loop_digits; [done|constructor]. Qed.

Lemma dec_nonempty n : dec n <> [].
Proof.
  unfold dec. assert (forall fuel n s, (0 < fuel)%nat \/ s <> [] -> dec_loop fuel n s <> []) as H.
  { induction fuel as [|fuel IH]; intros m s Hs; simpl; [destruct Hs; [lia|done]|].
    destruct (m <? 10); [done|]. apply IH. by right. }
  apply H. left. lia.
Qed.

(** The number at the start of a text. *)
Lemma scan_dec n rest :
  0 <= n < 10 ^ 20 -> starts_digit 10 rest = false ->
  scan_digits 10 (dec n ++ rest) 0 = (n, rest).
Proof.
  intros Hn Hr. unfold dec. rewrite <- (dec_loop_app 20 n []). cbn [app].
  rewrite scan_dec_loop by (done || lia). destruct rest as [|c r]; [done|]. cbn [scan_digits].
  unfold starts_digit in Hr. destruct (digit_value c) as [d|]; [|done]. by rewrite Hr.
Qed.

Lemma scan_zeros k s : scan_digits 10 (replicate k 48 ++ s) 0 = scan_digits 10 s 0.
Proof. induction k as [|k IH]; [done|]. cbn [replicate app scan_digits]. exact IH. Qed.

Lemma isdigit_starts c r : isdigit c = true -> starts_digit 10 (c :: r) = true /\ isspace c = false.
Proof.
  unfold isdigit, starts_digit, digit_value, isdigit, isspace. intros H.
  destruct ((48 <=? c) && (c <=? 57)) eqn:E; [|done]. split; lia.
Qed.

(** [%d] reads a number printed with leading zeros. *)
Lemma scan_d_format w n rest :
  0 <= n < 2147483648 -> starts_digit 10 rest = false ->
  scan_d (format_d w n ++ rest) = Some (n, rest).
Proof.
  intros Hn Hr. unfold format_d. destruct (Z.ltb_spec n 0); [lia|].
  set (k := (w - length (dec n))%nat). rewrite <- app_assoc.
  assert (exists c r, replicate k 48 ++ dec n ++ rest = c :: r /\ isdigit c = true) as (c & r & E & Hc).
  { destruct k as [|k]; [|by eexists _, _]. pose proof (dec_nonempty n) as Hne.
    pose proof (dec_digits n ltac:(lia)) as Hd. destruct (dec n) as [|c d]; [done|].
    eexists _, _. split; [reflexivity|]. by apply Forall_inv in Hd. }
  destruct (isdigit_starts c r Hc) as [Hs Hsp].
  assert ((c =? 45) = false /\ (c =? 43) = false) as [H45 H43] by (unfold isdigit in Hc; lia).
  unfold scan_d. rewrite E, drop_while_head by done. unfold scan_sign. rewrite H45, H43, Hs, <- E.
  rewrite scan_zeros, scan_dec by (done || lia). unfold i32. do 2 f_equal.
  rewrite Z.min_l by lia. rewrite Z.mod_small by lia. lia.
Qed.

(** Facts on a byte by enumeration. *)
Lemma u8_enum (p : Z -> bool) :
  forallb p (Z.of_nat <$> seq 0 256) = true -> forall b, is_u8 b -> p b = true.
Proof.
  intros H b Hb. unfold is_u8 in Hb. apply (forallb_elem _ _ H). apply list_elem_of_fmap.
  exists (Z.to_nat b). split; [lia|]. apply elem_of_seq. lia.
Qed.

(** ** Strings of the models *)

(** The string with the bytes of a C string. *)
Definition of_cstr (s : cstr) : string :=
  string_of_list_ascii ((fun c => ascii_of_N (Z.to_N c)) <$> s).

Lemma of_cstr_lit s : of_cstr (lit s) = s.
Proof.
  unfold of_cstr, lit. rewrite <- list_fmap_compose.
  rewrite <- (string_of_list_ascii_of_string s) at 2. f_equal.
  rewrite <- (list_fmap_id (list_ascii_of_string s)) at 2. apply list_fmap_ext.
  intros i c _. simpl. by rewrite N2Z.id, ascii_N_embedding.
Qed.

(** ** Lemmas on lines and tokens *)

Lemma trim_field c s d :
  isspace c = false -> isspace d = false ->
  drop_while_end isspace (drop_while isspace (9 :: (c :: s ++ [d]) ++ [10])) = c :: s ++ [d].
Proof.
  intros Hc Hd. change (drop_while isspace (9 :: (c :: s ++ [d]) ++ [10]))
    with (drop_while isspace ((c :: s ++ [d]) ++ [10])).
  cbn [app]. rewrite drop_while_head by done. unfold drop_while_end.
  change (c :: (s ++ [d]) ++ [10]) with ((c :: s ++ [d]) ++ [10]).
  rewrite rev_app_distr. cbn [rev app drop_while]. change (isspace 10) with true. cbv iota.
  change (c :: s ++ [d]) with ((c :: s) ++ [d]). rewrite rev_app_distr. cbn [rev app].
  rewrite drop_while_head by done.
  change (d :: rev s ++ [c]) with ([d] ++ (rev (c :: s))). rewrite rev_app_distr.
  by rewrite rev_involutive.
Qed.

(** A word before a delimiter. *)
Lemma strtok_word delims w d rest :
  w <> [] -> (forall c, c ∈ w -> c ∉ delims) -> d ∈ delims ->
  strtok delims (w ++ d :: rest) = (Some w, rest).
Proof.
  intros Hne Hw Hd. unfold strtok.
  assert (drop_while (fun c => bool_decide (c ∈ delims)) (w ++ d :: rest) = w ++ d :: rest) as ->.
  { destruct w as [|x w]; [done|]. cbn [app]. apply drop_while_head. apply bool_decide_eq_false_2.
    apply Hw. by left. }
  destruct (w ++ d :: rest) as [|x s] eqn:E; [by destruct w|]. rewrite <- E.
  assert (Forall (fun c => negb (bool_decide (c ∈ delims)) = true) w) as Hf.
  { apply Forall_forall. intros c Hc. by rewrite bool_decide_eq_false_2 by (by apply Hw). }
  rewrite take_while_app, drop_while_app; [done|done| |done|]; by rewrite bool_decide_eq_true_2.
Qed.

Lemma split_lines_app s : forall cur rest,
  10 ∉ s -> split_lines (s ++ 10 :: rest) cur = (cur ++ s ++ [10]) :: split_lines rest [].
Proof.
  induction s as [|c s IH]; intros cur rest H; cbn [app split_lines]; [done|].
  apply not_elem_of_cons in H as [Hc H]. destruct (Z.eqb_spec c 10); [congruence|].
  rewrite IH by done. by rewrite <- app_assoc.
Qed.

(** Printed lines that are short enough are read back one by one. *)
Lemma fgets_printed ls rest :
  Forall (fun l => (10 ∉ l) /\ (length l < 1023)%nat) ls ->
  fgets_lines (concat ((fun l => l ++ [10]) <$> ls) ++ rest)
  = ((fun l => l ++ [10]) <$> ls) ++ fgets_lines rest.
Proof.
  intros H. unfold fgets_lines. induction H as [|l ls [Hn Hl] _ IH]; [done|].
  cbn [fmap list_fmap concat]. rewrite <- !app_assoc. cbn [app]. rewrite split_lines_app by done.
  cbn [app fmap list_fmap concat]. cbn [app] in IH.
  assert (fgets_pieces (length (l ++ [10])) (l ++ [10]) = [l ++ [10]]) as ->.
  { rewrite length_app. cbn [length]. rewrite Nat.add_1_r. cbn [fgets_pieces].
    by rewrite bool_decide_eq_true_2 by (rewrite length_app; cbn [length]; lia). }
  cbn [app]. f_equal. exact IH.
Qed.

(** [fgets] takes something. *)
Lemma fgets_upto_shorter n c s : (length (fgets_upto (S n) (c :: s)).2 <= length s)%nat.
Proof.
  revert c s. induction n as [|n IH]; intros c s; cbn [fgets_upto]; (destruct (c =? 10); [done|]).
  - by destruct s.
  - destruct s as [|d s]; [done|]. specialize (IH d s). cbn [fgets_upto] in IH.
    destruct (if d =? 10 then _ else _) as [line rest]. cbn [snd] in *. cbn [length]. lia.
Qed.

Lemma fgets_shorter s line rest : fgets s = Some (line, rest) -> (length rest < length s)%nat.
Proof.
  unfold fgets. destruct s as [|c s]; [done|]. pose proof (fgets_upto_shorter 1022 c s) as H.
  destruct (fgets_upto 1023 (c :: s)) as [l r]. intros [= _ <-]. cbn [snd length] in *. lia.
Qed.

Lemma fgets_buf_shorter size s line rest :
  (1 < size)%nat -> fgets_buf size s = Some (line, rest) -> (length rest < length s)%nat.
Proof.
  intros Hs. unfold fgets_buf. destruct s as [|c s]; [done|]. destruct (size - 1)%nat as [|n] eqn:E; [lia|].
  pose proof (fgets_upto_shorter n c s) as H. destruct (fgets_upto (S n) (c :: s)) as [l r].
  intros [= _ <-]. cbn [snd length] in *. lia.
Qed.

(** A printed line that is short enough is read in one piece. *)
Lemma fgets_upto_line l rest : forall n,
  10 ∉ l -> (length l < n)%nat -> fgets_upto n (l ++ 10 :: rest) = (l ++ [10], rest).
Proof.
  induction l as [|c l IH]; intros [|n] Hn Hl; [simpl in Hl; lia|done|simpl in Hl; lia|].
  apply not_elem_of_cons in Hn as [Hc Hn]. cbn [app fgets_upto length] in *.
  destruct (Z.eqb_spec c 10); [congruence|]. by rewrite IH by (done || lia).
Qed.

Lemma fgets_line l rest :
  10 ∉ l -> (length l < 1023)%nat -> fgets (l ++ 10 :: rest) = Some (l ++ [10], rest).
Proof.
  intros Hn Hl. unfold fgets. destruct (l ++ 10 :: rest) as [|c s] eqn:E; [by destruct l|].
  rewrite <- E. by rewrite fgets_upto_line.
Qed.

Lemma fgets_buf_line size l rest :
  10 ∉ l -> (S (length l) < size)%nat -> fgets_buf size (l ++ 10 :: rest) = Some (l ++ [10], rest).
Proof.
  intros Hn Hl. unfold fgets_buf. destruct (l ++ 10 :: rest) as [|c s] eqn:E; [by destruct l|].
  rewrite <- E. rewrite fgets_upto_line; [done|done|lia].
Qed.

(** ** Printed lines *)

Lemma print_cons l ls rest : print_lines (l :: ls) ++ rest = l ++ 10 :: (print_lines ls ++ rest).
Proof. unfold print_lines. cbn [fmap list_fmap concat]. rewrite <- !app_assoc. done. Qed.

Lemma print_length l ls rest :
  length (print_lines (l :: ls) ++ rest) = (length l + S (length (print_lines ls ++ rest)))%nat.
Proof. rewrite print_cons, length_app. done. Qed.

Lemma print_app ls1 ls2 : print_lines (ls1 ++ ls2) = print_lines ls1 ++ print_lines ls2.
Proof. unfold print_lines. by rewrite fmap_app, concat_app. Qed.

(** A scan from the end stops at the last character when it is not skipped. *)
Lemma drop_while_end_last p s d : last s = Some d -> p d = false -> drop_while_end p s = s.
Proof. intros H Hd. apply last_Some in H as [s' ->]. by apply drop_while_end_snoc. Qed.

(** It keeps a first character that is not skipped. *)
Lemma drop_while_end_cons p c s : p c = false -> drop_while_end p (c :: s) = c :: drop_while_end p s.
Proof.
  intros Hc. unfold drop_while_end. cbn [rev].
  assert (forall t, drop_while p (t ++ [c]) = drop_while p t ++ [c]) as ->.
  { induction t as [|x t IH]; cbn [app drop_while]; [by rewrite Hc|]. by destruct (p x). }
  by rewrite rev_app_distr.
Qed.

(** The conversion [%u] on a printed number. *)
Lemma scan_u_dec n rest :
  is_u32 n -> starts_digit 10 rest = false -> scan_u (32 :: dec n ++ rest) = Some (n, rest).
Proof.
  intros Hn Hr. unfold scan_u.
  assert (exists c r, dec n ++ rest = c :: r /\ isdigit c = true) as (c & r & E & Hc).
  { pose proof (dec_nonempty n) as Hne. pose proof (dec_digits n ltac:(unfold is_u32 in Hn; lia)) as Hd.
    destruct (dec n) as [|c d]; [done|]. eexists _, _. split; [reflexivity|]. by apply Forall_inv in Hd. }
  destruct (isdigit_starts c r Hc) as [Hs Hsp]. rewrite E.
  change (drop_while isspace (32 :: c :: r)) with (drop_while isspace (c :: r)). rewrite drop_while_head by done.
  unfold scan_sign. assert ((c =? 45) = false /\ (c =? 43) = false) as [-> ->] by (unfold isdigit in Hc; lia).
  rewrite Hs, <- E, scan_dec by (done || unfold is_u32 in Hn; lia).
  destruct (Z.ltb_spec 18446744073709551615 n); [unfold is_u32 in Hn; lia|]. by rewrite u32_small.
Qed.

(** A word before a space or the end. *)
Lemma scan_s_word width w rest :
  w <> [] -> Forall (fun c => isspace c = false) w -> (length w <= width)%nat ->
  (rest = [] \/ exists r, rest = 32 :: r) -> scan_s width (32 :: w ++ rest) = Some (w, rest).
Proof.
  intros Hne Hw Hl Hr. unfold scan_s. destruct w as [|c w]; [done|]. cbn [app].
  change (drop_while isspace (32 :: c :: w ++ rest)) with (drop_while isspace (c :: w ++ rest)).
  rewrite drop_while_head by (by apply Forall_inv in Hw). change (c :: w ++ rest) with ((c :: w) ++ rest).
  assert (take_while (fun c => negb (isspace c)) ((c :: w) ++ rest) = c :: w) as ->.
  { assert (Forall (fun c => negb (isspace c) = true) (c :: w)) as Hw'.
    { eapply Forall_impl; [exact Hw|]. cbv beta. intros x Hx. by rewrite Hx. }
    destruct Hr as [-> |[r ->]]; [|by apply take_while_app].
    rewrite app_nil_r. clear -Hw'. induction Hw' as [|x l Hx _ IH]; [done|]. cbn [take_while]. by rewrite Hx, IH. }
  rewrite take_ge by done. by rewrite drop_app_length.
Qed.

Lemma take_while_all p s : Forall (fun c => p c = true) s -> take_while p s = s.
Proof. induction 1 as [|c s Hc _ IH]; [done|]. cbn [take_while]. by rewrite Hc, IH. Qed.

(** ** Texts of IPv6 addresses *)

(** What is used of the two functions: [inet_pton] reads what [inet_ntop] writes, which is at
    most 45 hexadecimal digits, colons and dots. *)
Definition ip6_ok (inet_pton6 : cstr -> option in6_addr) (inet_ntop6 : in6_addr -> cstr) (a : in6_addr) : Prop :=
  inet_pton6 (inet_ntop6 a) = Some a /\ inet_ntop6 a <> []
  /\ Forall (fun c => isxdigit c = true \/ c = 58 \/ c = 46) (inet_ntop6 a) /\ (length (inet_ntop6 a) <= 45)%nat.

Lemma ip6_word inet_pton6 inet_ntop6 a : ip6_ok inet_pton6 inet_ntop6 a ->
  inet_ntop6 a <> [] /\ Forall (fun c => isspace c = false) (inet_ntop6 a) /\ (length (inet_ntop6 a) <= 45)%nat.
Proof.
  intros (_ & Hne & Hx & Hl). split_and!; [done| |done]. eapply Forall_impl; [exact Hx|]. cbv beta.
  unfold isxdigit, isspace. intros. lia.
Qed.

Lemma hex_loop_chars l : Forall is_u8 l -> Forall (fun c => isxdigit c = true \/ c = 58) (hex_loop l).
Proof.
  assert (forall b, is_u8 b -> Forall (fun c => isxdigit c = true \/ c = 58) (hex_byte b)) as Hb.
  { intros b Hb. pose proof (u8_enum (fun b => forallb isxdigit (hex_byte b)) eq_refl b Hb) as H. cbv beta in H.
    apply Forall_forall. intros c Hc. left. by apply (forallb_elem _ _ H). }
  induction 1 as [|b l Hu Hl IH]; [constructor|]. cbn [hex_loop]. destruct l as [|b' l]; [by apply Hb|].
  apply Forall_app. split; [by apply Hb|]. constructor; [by right|done].
Qed.

(** The text of an address with all its zeros, and back. *)
Fixpoint full_ntop (a : in6_addr) : cstr :=
  match a with
  | [hi; lo] => hex_byte hi ++ hex_byte lo
  | hi :: lo :: r => hex_byte hi ++ hex_byte lo ++ 58 :: full_ntop r
  | _ => []
  end.

Fixpoint full_groups (s : cstr) : in6_addr :=
  match s with
  | c1 :: c2 :: c3 :: c4 :: r =>
      16 * hex_value c1 + hex_value c2 :: 16 * hex_value c3 + hex_value c4
      :: match r with _ :: r => full_groups r | [] => [] end
  | _ => []
  end.

Definition full_pton (s : cstr) : option in6_addr :=
  if bool_decide (length s = 39%nat) && forallb (fun c => isxdigit c || (c =? 58)) s
  then Some (full_groups s) else None.

(** An address whose text is read back, by computation. *)
Definition full_ok (a : in6_addr) : bool :=
  bool_decide (full_pton (full_ntop a) = Some a) && bool_decide (full_ntop a <> [])
  && forallb (fun c => isxdigit c || (c =? 58)) (full_ntop a) && bool_decide (length (full_ntop a) <= 45)%nat.

Lemma full_ip6_ok a : full_ok a = true -> ip6_ok full_pton full_ntop a.
Proof.
  unfold full_ok. rewrite !andb_true_iff. intros [[[H1 H2] H3] H4]. apply bool_decide_eq_true_1 in H1, H2, H4.
  split_and!; [done|done| |done]. apply Forall_forall. intros c Hc.
  pose proof (forallb_elem _ _ H3 c Hc) as E. apply orb_true_iff in E as [E|E]; [by left|]. right. left. lia.
Qed.
