(* ===== verification/UtilsV4.v ===== *)
(** The helpers of the DHCPv4 server: DHCPv4/utils/string_utils.c, time_utils.c,
    encoding_utils.c, network_utils.c and file_utils.c.

    A C string is the list of its bytes.  [inet_pton], [localtime] and [mktime] are
    parameters of the functions that use them: what the last two compute depends on the
    machine's time zone. *)

From Stdlib Require Import String.
From stdpp Require Import list.
From S2P Require Import Prelude UtilsV6 CText LeaseV4.

(** ** string_utils.c *)

Definition trim (str : cstr) : cstr := drop_while_end isspace (drop_while isspace str).

Definition remove_quotes (str : cstr) : cstr :=
  let str := match str with c :: r => if c =? 34 then r else str | [] => [] end in
  let len := length str in
  if bool_decide (0 < len)%nat && (byte_at str (len - 1) =? 34) then take (len - 1) str else str.

(** [strtoul(str, &endptr, 10)] on 64-bit [unsigned long]: the value, the text at
    [endptr] and whether [errno] is set. *)
Definition strtoul10 (str : cstr) : Z * cstr * bool :=
  let '(neg, s) := scan_sign (drop_while isspace str) in
  if starts_digit 10 s then
    let '(v, rest) := scan_digits 10 s 0 in
    if 18446744073709551615 <? v then (18446744073709551615, rest, true)
    else (if neg : bool then u64 (- v) else v, rest, false)
  else (0, str, false).

(** The return code and the new [*value]. *)
Definition parse_uint32 (str : cstr) (value : Z) : Z * Z :=
  let '(val, endptr, errno) := strtoul10 str in
  if errno : bool then (-2, value)
  else if bool_decide (endptr = str) || negb (bool_decide (endptr = [])) then (-2, value)
  else if 4294967295 <? val then (-3, value)
  else (0, val).

(** ** time_utils.c *)

Record tm := Tm {
  tm_sec : Z; tm_min : Z; tm_hour : Z; tm_mday : Z; tm_mon : Z; tm_year : Z; tm_wday : Z
}.

Section Times.
(** [localtime], [None] for a null pointer, and [mktime] with [tm_isdst] = -1. *)
Variable localtime : Z -> option tm.
Variable mktime : tm -> Z.

(** [sscanf(time_str, "%d %d/%d/%d %d:%d:%d", ...) == 7] *)
Definition scan_time (time_str : cstr) : option tm :=
  '(wday, s) ← scan_d time_str;
  '(year, s) ← scan_d s;
  s ← scan_char 47 s;
  '(mon, s) ← scan_d s;
  s ← scan_char 47 s;
  '(mday, s) ← scan_d s;
  '(hour, s) ← scan_d s;
  s ← scan_char 58 s;
  '(min, s) ← scan_d s;
  s ← scan_char 58 s;
  '(sec, _) ← scan_d s;
  Some (Tm sec min hour mday mon year wday).

Definition parse_lease_time (time_str : cstr) : Z :=
  match scan_time time_str with
  | None => strtol10 time_str
  | Some t => mktime (Tm (tm_sec t) (tm_min t) (tm_hour t) (tm_mday t) (tm_mon t - 1) (tm_year t - 1900) 0)
  end.

Definition format_lease_time (timestamp : Z) (output_len : nat) : cstr :=
  match localtime timestamp with
  | None => take (output_len - 1) [48]
  | Some t =>
      take (output_len - 1)
        (format_d 0 (tm_wday t) ++ [32] ++ format_d 4 (tm_year t + 1900) ++ [47]
         ++ format_d 2 (tm_mon t + 1) ++ [47] ++ format_d 2 (tm_mday t) ++ [32]
         ++ format_d 2 (tm_hour t) ++ [58] ++ format_d 2 (tm_min t) ++ [58] ++ format_d 2 (tm_sec t))
  end.

End Times.

(** ** encoding_utils.c *)

(** Up to [n] digits of the base: the value and the text after them. *)
Fixpoint escape_digits (base : Z) (n : nat) (ptr : cstr) (value : Z) : Z * cstr :=
  match n, ptr with
  | S n, c :: r =>
      match digit_value c with
      | Some d => if d <? base then escape_digits base n r (value * base + d) else (value, ptr)
      | None => (value, ptr)
      end
  | _, _ => (value, ptr)
  end.

(** The loop of [parse_client_id_from_string]; a backslash before the terminator makes
    the code read past it. *)
Fixpoint client_id_loop (fuel : nat) (ptr : cstr) (client_id : list Z) : outcome (list Z) :=
  match fuel with
  | O => Fault OutOfFuel
  | S fuel =>
      match ptr with
      | [] => Ret client_id
      | c :: r =>
          if (c =? 34) || bool_decide (MAX_CLIENT_ID_LEN <= length client_id)%nat then Ret client_id
          else if c =? 92 then
            match r with
            | [] => Fault OutOfBounds
            | d :: r' =>
                if (48 <=? d) && (d <=? 55) then
                  let '(v, rest) := escape_digits 8 3 r 0 in
                  client_id_loop fuel rest (client_id ++ [u8 v])
                else if d =? 120 then
                  let '(v, rest) := escape_digits 16 2 r' 0 in
                  client_id_loop fuel rest (client_id ++ [u8 v])
                else client_id_loop fuel r' (client_id ++ [d])
            end
          else client_id_loop fuel r (client_id ++ [c])
      end
  end.

(** The bytes written; [*len] is their number. *)
Definition parse_client_id_from_string (str : cstr) : outcome (list Z) :=
  let ptr := drop_while (fun c => isspace c || (c =? 34)) str in
  client_id_loop (S (length ptr)) ptr [].

(** [snprintf(ptr, remaining, "\\%03o", byte)] *)
Definition octal_escape (b : Z) : cstr := [92; 48 + b / 64; 48 + b / 8 mod 8; 48 + b mod 8].

Fixpoint format_id_loop (client_id : list Z) (remaining : Z) : cstr :=
  match client_id with
  | b :: r => if 5 <? remaining then octal_escape b ++ format_id_loop r (remaining - 4) else []
  | [] => []
  end.

Definition format_client_id_to_string (client_id : list Z) (len output_len : Z) : cstr :=
  if (output_len <? 3) || (len =? 0) then []
  else 34 :: format_id_loop (take (Z.to_nat len) client_id) (output_len - 1) ++ [34].

(** ** network_utils.c *)

(** [sscanf(str, "%x:%x:%x:%x:%x:%x", ...) == 6]; [None] is the code -2. *)
Definition parse_mac_address (str : cstr) : option (list Z) :=
  '(v0, s) ← scan_x str;
  s ← scan_char 58 s; '(v1, s) ← scan_x s;
  s ← scan_char 58 s; '(v2, s) ← scan_x s;
  s ← scan_char 58 s; '(v3, s) ← scan_x s;
  s ← scan_char 58 s; '(v4, s) ← scan_x s;
  s ← scan_char 58 s; '(v5, _) ← scan_x s;
  Some (u8 <$> [v0; v1; v2; v3; v4; v5]).

(** The text [%02x:...] of six bytes: [hex_loop] joins them with colons. *)
Definition format_mac_address (mac : list Z) (output_len : nat) : cstr :=
  take (output_len - 1) (hex_loop mac).

Section Addresses.
Variable inet_pton4 : cstr -> option Z.

Definition parse_ip_address (str : cstr) : option Z := inet_pton4 str.

Fixpoint ip_list_loop (tokens : list cstr) (addrs : list Z) (max_count : nat) : Z * list Z :=
  match tokens with
  | [] => (Z.of_nat (length addrs), addrs)
  | t :: tokens =>
      if bool_decide (length addrs < max_count)%nat then
        match parse_ip_address (trim t) with
        | None => (-2, addrs)
        | Some a => ip_list_loop tokens (addrs ++ [a]) max_count
        end
      else (Z.of_nat (length addrs), addrs)
  end.

(** The return value and the addresses written. *)
Definition parse_ip_list (str : cstr) (max_count : nat) : Z * list Z :=
  if bool_decide (max_count = 0%nat) then (-1, [])
  else ip_list_loop (strtok_commas str) [] max_count.

End Addresses.

(** ** file_utils.c *)

Fixpoint brace_loop (fp : cstr) (brace_count : Z) : Z * cstr :=
  match fp with
  | [] => (-1, [])
  | ch :: rest =>
      if ch =? 123 then brace_loop rest (brace_count + 1)
      else if ch =? 125 then
        if brace_count =? 0 then (0, rest) else brace_loop rest (brace_count - 1)
      else brace_loop rest brace_count
  end.

(** The return code and the characters left in the file. *)
Definition advance_to_next_closed_brace (fp : cstr) : Z * cstr := brace_loop fp 0.

(** ** Lemmas *)

Lemma digit_octal d : 0 <= d < 8 -> digit_value (48 + d) = Some d.
Proof. intros H. apply digit_value_dec. lia. Qed.

Lemma escape_octal b rest :
  is_u8 b ->
  escape_digits 8 3 (48 + b / 64 :: 48 + b / 8 mod 8 :: 48 + b mod 8 :: rest) 0 = (b, rest).
Proof.
  unfold is_u8. intros H. assert (0 <= b / 64 < 4) by divmod.
  assert (0 <= b / 8 mod 8 < 8) by (apply Z.mod_pos_bound; lia).
  assert (0 <= b mod 8 < 8) by (apply Z.mod_pos_bound; lia).
  cbn [escape_digits]. rewrite !digit_octal by lia.
  do 3 (match goal with |- context [?x <? 8] => destruct (Z.ltb_spec x 8); [|lia] end).
  assert (((0 * 8 + b / 64) * 8 + b / 8 mod 8) * 8 + b mod 8 = b) as -> by divmod.
  by destruct rest.
Qed.

Lemma client_id_loop_octal id : forall fuel acc rest,
  Forall is_u8 id -> (length acc + length id <= MAX_CLIENT_ID_LEN)%nat -> (length id < fuel)%nat ->
  client_id_loop fuel (concat (octal_escape <$> id) ++ 34 :: rest) acc = Ret (acc ++ id).
Proof.
  induction id as [|b id IH]; intros fuel acc rest Hu Hlen Hf; (destruct fuel as [|fuel]; [simpl in Hf; lia|]).
  - simpl. by rewrite app_nil_r.
  - apply Forall_cons in Hu as [Hb Hu]. unfold MAX_CLIENT_ID_LEN in *. cbn [length] in *.
    cbn [fmap list_fmap concat octal_escape app client_id_loop].
    change (92 =? 34) with false. cbn [orb]. unfold MAX_CLIENT_ID_LEN.
    rewrite bool_decide_eq_false_2 by lia. change (92 =? 92) with true. cbv iota.
    assert (0 <= b / 64 < 4) by (unfold is_u8 in Hb; divmod).
    destruct ((48 <=? 48 + b / 64) && (48 + b / 64 <=? 55)) eqn:E; [|lia].
    rewrite escape_octal by done. rewrite IH; [|done|rewrite length_app; simpl; lia|lia].
    rewrite u8_small by done. by rewrite <- app_assoc.
Qed.

Lemma format_id_loop_all id : forall remaining,
  4 * Z.of_nat (length id) + 1 < remaining ->
  format_id_loop id remaining = concat (octal_escape <$> id).
Proof.
  induction id as [|b id IH]; intros remaining H; [done|]. cbn [format_id_loop length] in *.
  destruct (Z.ltb_spec 5 remaining); [|lia]. cbn [fmap list_fmap concat]. f_equal. apply IH. lia.
Qed.

Lemma octal_nospace c rest : drop_while (fun c => isspace c || (c =? 34)) (92 :: c :: rest) = 92 :: c :: rest.
Proof. done. Qed.

(** A client identifier of at most 63 bytes survives its text in a 256-byte buffer. *)
Lemma client_id_text id :
  Forall is_u8 id -> (1 <= length id <= 63)%nat ->
  parse_client_id_from_string (format_client_id_to_string id (Z.of_nat (length id)) 256) = Ret id.
Proof.
  intros Hu Hl. unfold format_client_id_to_string.
  destruct (Z.ltb_spec 256 3); [lia|]. destruct (Z.eqb_spec (Z.of_nat (length id)) 0); [lia|]. cbn [orb].
  rewrite Nat2Z.id, take_ge, format_id_loop_all by lia.
  unfold parse_client_id_from_string. cbn [drop_while]. change (isspace 34 || (34 =? 34)) with true. cbv iota zeta.
  destruct id as [|b id]; [simpl in Hl; lia|]. set (ids := b :: id) in *.
  assert (drop_while (fun c => isspace c || (c =? 34)) (concat (octal_escape <$> ids) ++ [34])
          = concat (octal_escape <$> ids) ++ [34]) as -> by done.
  apply (client_id_loop_octal ids _ [] []); [done|unfold MAX_CLIENT_ID_LEN; simpl length in *; lia|].
  rewrite length_app. assert (length (concat (octal_escape <$> ids)) = 4 * length ids)%nat as ->; [|lia].
  clear. induction ids as [|x ids IH]; [done|]. cbn [fmap list_fmap concat]. rewrite length_app, IH. simpl. lia.
Qed.

(** The two digits of a byte. *)
Lemma scan_x_byte b rest :
  is_u8 b -> starts_digit 16 rest = false ->
  scan_x (hex_byte b ++ rest) = Some (b, rest).
Proof.
  intros Hb Hr. pose proof (u8_enum (fun b => match hex_byte b with
    | [c1; c2] => negb (isspace c1) && negb (c1 =? 45) && negb (c1 =? 43)
        && negb (c2 =? 120) && negb (c2 =? 88)
        && match digit_value c1, digit_value c2 with
           | Some d1, Some d2 => (d1 <? 16) && (d2 <? 16) && (d1 * 16 + d2 =? b)
           | _, _ => false
           end
    | _ => false end) eq_refl b Hb) as E. cbv beta in E.
  destruct (hex_byte b) as [|c1 [|c2 [|? ?]]]; try discriminate.
  destruct (digit_value c1) as [d1|] eqn:E1; [|by rewrite andb_false_r in E].
  destruct (digit_value c2) as [d2|] eqn:E2; [|by rewrite andb_false_r in E].
  rewrite !andb_true_iff, !negb_true_iff in E.
  destruct E as [[[[[Hs H45] H43] Hx] HX] [[H1 H2] Hv]].
  unfold scan_x. cbn [app]. rewrite drop_while_head by done. unfold scan_sign. rewrite H45, H43.
  unfold starts_digit at 1. rewrite E1, H1, Hx, HX, andb_false_r. cbn [scan_digits].
  rewrite E1, H1, E2, H2. apply Z.eqb_eq in Hv. replace ((0 * 16 + d1) * 16 + d2) with b by lia.
  assert (scan_digits 16 rest b = (b, rest)) as ->.
  { destruct rest as [|c r]; [done|]. cbn [scan_digits]. unfold starts_digit in Hr.
    destruct (digit_value c); [|done]. by rewrite Hr. }
  unfold is_u8 in Hb. destruct (Z.ltb_spec 18446744073709551615 b); [lia|].
  by rewrite u32_small by (unfold is_u32; lia).
Qed.

Lemma scan_char_hit c r : scan_char c (c :: r) = Some r.
Proof. unfold scan_char. by rewrite Z.eqb_refl. Qed.

(** A hardware address survives its text. *)
Lemma mac_text mac :
  Forall is_u8 mac -> length mac = 6%nat ->
  parse_mac_address (format_mac_address mac 18) = Some mac.
Proof.
  intros Hu Hl. destruct mac as [|b0 [|b1 [|b2 [|b3 [|b4 [|b5 [|? ?]]]]]]]; try discriminate.
  repeat (apply Forall_cons in Hu as [? Hu]). unfold format_mac_address.
  rewrite take_ge by (simpl; lia).
  unfold parse_mac_address.
  change (hex_loop [b0; b1; b2; b3; b4; b5]) with (hex_byte b0 ++ 58 :: hex_byte b1 ++ 58 :: hex_byte b2
    ++ 58 :: hex_byte b3 ++ 58 :: hex_byte b4 ++ 58 :: hex_byte b5).
  rewrite <- (app_nil_r (hex_byte b5)).
  rewrite scan_x_byte by done. cbn [mbind option_bind].
  do 5 (rewrite scan_char_hit; cbn [mbind option_bind]; rewrite scan_x_byte by done; cbn [mbind option_bind]).
  cbn [fmap list_fmap]. by rewrite !u8_small.
Qed.

(** [parse_uint32] reads a printed 32-bit number and refuses a larger one. *)
Lemma parse_uint32_text n v :
  0 <= n < 10 ^ 20 ->
  parse_uint32 (dec n) v
  = if n <=? 4294967295 then (0, n) else if n <=? 18446744073709551615 then (-3, v) else (-2, v).
Proof.
  intros Hn. pose proof (dec_nonempty n) as Hne. pose proof (dec_digits n ltac:(lia)) as Hd.
  pose proof (scan_dec n [] Hn eq_refl) as Hs. rewrite app_nil_r in Hs.
  unfold parse_uint32, strtoul10. destruct (dec n) as [|c r] eqn:E; [done|]. apply Forall_inv in Hd.
  destruct (isdigit_starts c r Hd) as [Hst Hsp]. rewrite drop_while_head by done. unfold scan_sign.
  assert ((c =? 45) = false /\ (c =? 43) = false) as [-> ->] by (unfold isdigit in Hd; lia).
  rewrite Hst, Hs. destruct (Z.ltb_spec 18446744073709551615 n).
  - destruct (Z.leb_spec n 4294967295); [lia|]. by destruct (Z.leb_spec n 18446744073709551615); [lia|].
  - rewrite (bool_decide_eq_false_2 ([] = c :: r)), (bool_decide_eq_true_2 (@nil Z = [])) by done. cbn [orb negb].
    destruct (Z.ltb_spec 4294967295 n), (Z.leb_spec n 4294967295); try lia; [|done].
    by destruct (Z.leb_spec n 18446744073709551615); [|lia].
Qed.

(** ** Times *)

Section Times_spec.
Context (localtime : Z -> option tm) (mktime : tm -> Z).

(** The ranges of a broken-down time, years before 1900 and after 2^31 left out. *)
Definition tm_ok (t : tm) : Prop :=
  0 <= tm_sec t <= 60 /\ 0 <= tm_min t <= 59 /\ 0 <= tm_hour t <= 23 /\ 1 <= tm_mday t <= 31
  /\ 0 <= tm_mon t <= 11 /\ 0 <= tm_wday t <= 6 /\ 0 <= tm_year t <= 8099.

(** [mktime] undoes [localtime] for the time. *)
Definition time_ok (timestamp : Z) : Prop :=
  exists t, localtime timestamp = Some t /\ tm_ok t
    /\ mktime (Tm (tm_sec t) (tm_min t) (tm_hour t) (tm_mday t) (tm_mon t) (tm_year t) 0) = timestamp.

Lemma length_dec_loop fuel : forall n s, (length (dec_loop fuel n s) <= fuel + length s)%nat.
Proof.
  induction fuel as [|fuel IH]; intros n s; [done|]. cbn [dec_loop]. destruct (n <? 10); [simpl; lia|].
  etransitivity; [apply IH|]. simpl. lia.
Qed.

Lemma length_format_2 n : 0 <= n < 100 -> length (format_d 2 n) = 2%nat.
Proof.
  intros H. unfold format_d. destruct (Z.ltb_spec n 0); [lia|].
  unfold dec. cbn [dec_loop]. destruct (Z.ltb_spec n 10); [done|].
  cbn [dec_loop]. destruct (Z.ltb_spec (n / 10) 10); [done|].
  assert (n / 10 < 10) by (apply Z.div_lt_upper_bound; lia). lia.
Qed.

Lemma scan_d_space s : scan_d (32 :: s) = scan_d s.
Proof. done. Qed.

(** The text is not cut. *)
Lemma format_lease_time_eq t tm :
  localtime t = Some tm -> tm_ok tm ->
  format_lease_time localtime t 64
  = format_d 0 (tm_wday tm) ++ [32] ++ format_d 4 (tm_year tm + 1900) ++ [47]
    ++ format_d 2 (tm_mon tm + 1) ++ [47] ++ format_d 2 (tm_mday tm) ++ [32]
    ++ format_d 2 (tm_hour tm) ++ [58] ++ format_d 2 (tm_min tm) ++ [58] ++ format_d 2 (tm_sec tm).
Proof.
  intros Hl (Hs & Hm & Hh & Hd & Hmon & Hw & Hy). unfold format_lease_time. rewrite Hl. apply take_ge.
  rewrite !length_app, !length_format_2 by lia.
  assert (length (format_d 0 (tm_wday tm)) <= 20)%nat.
  { unfold format_d. destruct (Z.ltb_spec (tm_wday tm) 0); [lia|]. cbn [Nat.sub replicate app].
    apply (length_dec_loop 20 _ []). }
  assert (length (format_d 4 (tm_year tm + 1900)) <= 24)%nat.
  { unfold format_d. destruct (Z.ltb_spec (tm_year tm + 1900) 0); [lia|]. rewrite length_app, length_replicate.
    pose proof (length_dec_loop 20 (tm_year tm + 1900) []). fold (dec (tm_year tm + 1900)) in *.
    cbn [length] in *. lia. }
  cbn [length]. lia.
Qed.

(** A lease time survives its text. *)
Lemma lease_time_text t :
  time_ok t -> parse_lease_time mktime (format_lease_time localtime t 64) = t.
Proof.
  intros (tm & Hl & Hok & Hmk). rewrite (format_lease_time_eq _ _ Hl Hok).
  destruct Hok as (Hs & Hm & Hh & Hd & Hmon & Hw & Hy). unfold parse_lease_time, scan_time. cbn [app].
  rewrite scan_d_format by (done || lia). cbn [mbind option_bind].
  rewrite scan_d_space, scan_d_format by (done || lia). cbn [mbind option_bind].
  do 2 (rewrite scan_char_hit; cbn [mbind option_bind]; rewrite scan_d_format by (done || lia); cbn [mbind option_bind]).
  rewrite scan_d_space, scan_d_format by (done || lia). cbn [mbind option_bind].
  rewrite scan_char_hit; cbn [mbind option_bind]; rewrite scan_d_format by (done || lia); cbn [mbind option_bind].
  rewrite scan_char_hit, <- (app_nil_r (format_d 2 (tm_sec tm))); cbn [mbind option_bind].
  rewrite scan_d_format by (done || lia).
  cbn [mbind option_bind tm_sec tm_min tm_hour tm_mday tm_mon tm_year].
  rewrite Z.add_simpl_r, Z.add_simpl_r. exact Hmk.
Qed.

Lemma format_d_digits w n : 0 <= n -> Forall (fun c => isdigit c = true) (format_d w n).
Proof.
  intros H. unfold format_d. destruct (Z.ltb_spec n 0); [lia|]. apply Forall_app.
  split; [by apply Forall_replicate|by apply dec_digits].
Qed.

Lemma format_d_nonempty w n : 0 <= n -> format_d w n <> [].
Proof.
  intros H. unfold format_d. destruct (Z.ltb_spec n 0); [lia|]. intros [_ E]%app_eq_nil. by apply (dec_nonempty n).
Qed.

Definition time_char (c : Z) : Prop := isdigit c = true \/ c = 32 \/ c = 47 \/ c = 58.

(** The shape of the text. *)
Lemma time_text_shape t :
  time_ok t ->
  exists c s d, format_lease_time localtime t 64 = c :: s ++ [d]
    /\ isdigit c = true /\ isdigit d = true /\ Forall time_char (c :: s ++ [d])
    /\ (length (c :: s ++ [d]) <= 63)%nat.
Proof.
  intros (tm & Hl & Hok & _).
  assert (length (format_lease_time localtime t 64) <= 63)%nat as Hlen.
  { unfold format_lease_time. rewrite Hl, length_take. lia. }
  pose proof (format_lease_time_eq _ _ Hl Hok) as E. destruct Hok as (Hs & Hm & Hh & Hd & Hmon & Hw & Hy).
  assert (Forall time_char (format_lease_time localtime t 64)) as Hf.
  { rewrite E. repeat (apply Forall_app; split); try (repeat constructor; unfold time_char; tauto);
      (eapply Forall_impl; [apply format_d_digits; lia|intros x Hx; by left]). }
  destruct (format_d 0 (tm_wday tm)) as [|c s1] eqn:E1; [by destruct (format_d_nonempty 0 (tm_wday tm) ltac:(lia))|].
  destruct (exists_last (format_d_nonempty 2 (tm_sec tm) ltac:(lia))) as (s2 & d & E2).
  exists c, (s1 ++ [32] ++ format_d 4 (tm_year tm + 1900) ++ [47]
    ++ format_d 2 (tm_mon tm + 1) ++ [47] ++ format_d 2 (tm_mday tm) ++ [32]
    ++ format_d 2 (tm_hour tm) ++ [58] ++ format_d 2 (tm_min tm) ++ [58] ++ s2), d.
  match goal with |- _ = ?x /\ _ => assert (format_lease_time localtime t 64 = x) as E3 end.
  { rewrite E, E2. repeat (rewrite <- app_assoc; cbn [app]). done. }
  rewrite <- E3. split_and!; try done.
  - pose proof (format_d_digits 0 (tm_wday tm) ltac:(lia)) as H. rewrite E1 in H. by apply Forall_inv in H.
  - pose proof (format_d_digits 2 (tm_sec tm) ltac:(lia)) as H. rewrite E2 in H.
    apply Forall_app in H as [_ H]. by apply Forall_inv in H.
Qed.

End Times_spec.

(** ** Text the two files of the server share *)

(** A decidable proposition without variables. *)
Ltac closed_prop := refine (bool_decide_eq_true_1 _ _); reflexivity.

Definition quoted (s : cstr) : cstr := 34 :: s ++ [34].

(** A line that is printed on a condition. *)
Definition if_line (b : bool) (l : cstr) : list cstr := if b then [l] else [].

(** Characters that keep a line in one piece. *)
Definition text (s : cstr) : Prop := Forall (fun c => c <> 0 /\ c <> 10) s.

(** A string the file can hold: no terminator, newline or semicolon, and room for it. *)
Definition string_ok (cap : nat) (s : string) : Prop :=
  text (lit s) /\ (59 ∉ lit s) /\ (String.length s < cap)%nat.

Lemma trim_ends pre c s d :
  Forall (fun x => isspace x = true) pre -> isspace c = false -> isspace d = false ->
  trim (pre ++ (c :: s ++ [d]) ++ [10]) = c :: s ++ [d].
Proof.
  intros Hp Hc Hd. unfold trim.
  assert (drop_while isspace (pre ++ (c :: s ++ [d]) ++ [10]) = (c :: s ++ [d]) ++ [10]) as ->.
  { cbn [app]. by rewrite drop_while_app. }
  pose proof (trim_field c s d Hc Hd) as H.
  change (drop_while isspace (9 :: (c :: s ++ [d]) ++ [10])) with (drop_while isspace ((c :: s ++ [d]) ++ [10])) in H.
  rewrite <- H at 2. cbn [app]. by rewrite drop_while_head by done.
Qed.

Lemma trim_id c s d : isspace c = false -> isspace d = false -> trim (c :: s ++ [d]) = c :: s ++ [d].
Proof.
  intros Hc Hd. unfold trim. rewrite drop_while_head by done. apply (drop_while_end_snoc _ (c :: s)). done.
Qed.

Lemma strncpy_fits cap s : (String.length s < cap)%nat -> strncpy_field cap s = s.
Proof.
  intros H. unfold strncpy_field. assert (exists k, cap - 1 = String.length s + k)%nat as [k ->] by (exists (cap - 1 - String.length s)%nat; lia).
  clear. induction s as [|c s IH]; [by destruct k|]. cbn [String.length Nat.add String.substring]. by rewrite IH.
Qed.

Lemma remove_quotes_quoted s : remove_quotes (quoted s) = s.
Proof.
  unfold remove_quotes, quoted. change (34 =? 34) with true. cbv iota zeta. rewrite length_app. cbn [length].
  rewrite bool_decide_eq_true_2 by lia. unfold byte_at. rewrite Nat.add_1_r. cbn [Nat.sub]. rewrite Nat.sub_0_r.
  rewrite app_nth2, Nat.sub_diag by lia. cbn [nth]. cbn [Z.eqb Pos.eqb andb]. by rewrite take_app_length.
Qed.

Lemma quoted_text s : text s -> text (quoted s).
Proof. intros H. constructor; [done|]. apply Forall_app. split; [done|by repeat constructor]. Qed.

Lemma key_text k value : text (lit k) -> text value -> text (lit k ++ 32 :: value).
Proof. intros Hk Hv. apply Forall_app. split; [done|]. by constructor. Qed.

Lemma digits_text s : Forall (fun c => isdigit c = true) s -> text s.
Proof. intros H. eapply Forall_impl; [exact H|]. intros c. unfold isdigit. cbv beta. lia. Qed.

Lemma length_lit s : length (lit s) = String.length s.
Proof. unfold lit. rewrite length_fmap. induction s as [|c s IH]; [done|]. simpl. by rewrite IH. Qed.

(** What [inet_ntop] and [inet_pton] do with an address. *)
Definition ip_ok (inet_pton4 : cstr -> option Z) (inet_ntop4 : Z -> cstr) (a : Z) : Prop :=
  inet_pton4 (inet_ntop4 a) = Some a /\ inet_ntop4 a <> []
  /\ Forall (fun c => isdigit c = true \/ c = 46) (inet_ntop4 a) /\ (length (inet_ntop4 a) <= 15)%nat.

(** ** A concrete text of addresses

    The dotted form of the four bytes, as [inet_ntop] prints it, and its reading. *)

Definition dotted_ntop (a : Z) : cstr :=
  dec (a mod 256) ++ 46 :: dec (a / 256 mod 256) ++ 46 :: dec (a / 65536 mod 256) ++ 46 :: dec (a / 16777216 mod 256).

Definition dotted_pton (s : cstr) : option Z :=
  '(a, s) ← scan_d s; s ← scan_char 46 s;
  '(b, s) ← scan_d s; s ← scan_char 46 s;
  '(c, s) ← scan_d s; s ← scan_char 46 s;
  '(d, s) ← scan_d s;
  Some (a + 256 * b + 65536 * c + 16777216 * d).

Lemma scan_d_dec n rest :
  0 <= n < 2147483648 -> starts_digit 10 rest = false -> scan_d (dec n ++ rest) = Some (n, rest).
Proof.
  intros Hn Hr. pose proof (scan_d_format 0 n rest Hn Hr) as H. unfold format_d in H.
  by destruct (Z.ltb_spec n 0); [lia|].
Qed.

Lemma length_dec_byte n : 0 <= n < 256 -> (length (dec n) <= 3)%nat.
Proof.
  intros H. apply Nat2Z.inj_le. apply Z.leb_le.
  exact (u8_enum (fun n => Z.of_nat (length (dec n)) <=? 3) eq_refl n H).
Qed.

(** Every address survives its text. *)
Lemma dotted_ip_ok a : is_u32 a -> ip_ok dotted_pton dotted_ntop a.
Proof.
  unfold is_u32. intros Ha.
  pose proof (Z.mod_pos_bound a 256 ltac:(lia)). pose proof (Z.mod_pos_bound (a / 256) 256 ltac:(lia)).
  pose proof (Z.mod_pos_bound (a / 65536) 256 ltac:(lia)). pose proof (Z.mod_pos_bound (a / 16777216) 256 ltac:(lia)).
  unfold dotted_ntop. split_and!.
  - unfold dotted_pton.
    do 3 (rewrite scan_d_dec by (done || lia); cbn [mbind option_bind]; rewrite scan_char_hit; cbn [mbind option_bind]).
    rewrite <- (app_nil_r (dec (a / 16777216 mod 256))), scan_d_dec by (done || lia). cbn [mbind option_bind].
    f_equal. divmod.
  - intros [_ ?]%app_eq_nil. done.
  - assert (forall n, 0 <= n -> Forall (fun c => isdigit c = true \/ c = 46) (dec n)) as Hd.
    { intros n Hn. eapply Forall_impl; [by apply dec_digits|by left]. }
    repeat (apply Forall_app; split; [apply Hd; lia|constructor; [by right|]]). apply Hd. lia.
  - rewrite !length_app. cbn [length]. rewrite !length_app. cbn [length]. rewrite length_app. cbn [length].
    pose proof (length_dec_byte (a mod 256) ltac:(lia)). pose proof (length_dec_byte (a / 256 mod 256) ltac:(lia)).
    pose proof (length_dec_byte (a / 65536 mod 256) ltac:(lia)).
    pose proof (length_dec_byte (a / 16777216 mod 256) ltac:(lia)). lia.
Qed.

(** What [ctime] returns: a line. *)
Definition ctime_ok (ctime : Z -> cstr) (now : Z) : Prop :=
  exists w, ctime now = w ++ [10] /\ text w /\ (length w < 1000)%nat.

(** ** A concrete environment

    UTC in January 1970. *)

Definition jan_localtime (t : Z) : option tm :=
  Some (Tm (t mod 60) (t / 60 mod 60) (t / 3600 mod 24) (t / 86400 mod 28 + 1) 0 70 ((t / 86400 + 4) mod 7)).

Definition jan_mktime (t : tm) : Z :=
  tm_sec t + 60 * tm_min t + 3600 * tm_hour t + 86400 * (tm_mday t - 1).

Definition jan_ctime (t : Z) : cstr := lit "Thu Jan  1 00:00:00 1970" ++ [10].

Lemma jan_ctime_ok now : ctime_ok jan_ctime now.
Proof. eexists. split; [reflexivity|]. split; [refine (bool_decide_eq_true_1 _ _); reflexivity|vm_compute; lia]. Qed.
