(* ===== verification/Logger.v ===== *)
(** * The logger

    [logger/logger.c], which both DHCP servers and both clients use.  Its global variables
    are the record [logger], its mutex the flag [g_locked]: it is a default mutex, so that
    locking it twice from one thread is [Fault Deadlock].  The effects of an operation are
    the descriptors opened and closed and the bytes given to [write].  What [open] returns,
    the time and the text [vsnprintf] makes of the format and its arguments are arguments. *)

From Stdlib Require Import String.
From S2P Require Import Prelude UtilsV6 CText UtilsV4.

Inductive log_level_t :=
  | LOG_DEBUG
  | LOG_INFO
  | LOG_WARN
  | LOG_ERROR.

#[global] Instance log_level_eq_dec : EqDecision log_level_t.
Proof. solve_decision. Defined.

Definition level_number (level : log_level_t) : Z :=
  match level with LOG_DEBUG => 0 | LOG_INFO => 1 | LOG_WARN => 2 | LOG_ERROR => 3 end.

Definition LEVEL_STR (level : log_level_t) : cstr :=
  match level with
  | LOG_DEBUG => lit "DEBUG"
  | LOG_INFO => lit "INFO"
  | LOG_WARN => lit "WARN"
  | LOG_ERROR => lit "ERROR"
  end.

Record logger := mk_logger {
  g_level : log_level_t;
  g_prefix : cstr;
  g_fd : Z;
  g_use_file : bool;
  g_inited : bool;
  g_locked : bool
}.

Definition set_g_locked (v : bool) (l : logger) : logger :=
  mk_logger l.(g_level) l.(g_prefix) l.(g_fd) l.(g_use_file) l.(g_inited) v.

(** The static variables when the program starts. *)
Definition logger_static : logger := mk_logger LOG_INFO [] (-1) false false false.

Inductive log_effect :=
  | Opened (fd : Z)
  | Closed (fd : Z)
  | Wrote (fd : Z) (bytes : cstr).

Definition log_lock (l : logger) : outcome logger :=
  if l.(g_locked) then Fault Deadlock else Ret (set_g_locked true l).

Definition log_unlock (l : logger) : logger := set_g_locked false l.

Definition file_open (l : logger) : bool := l.(g_use_file) && (0 <=? l.(g_fd)).

Definition console (level : log_level_t) : Z :=
  match level with LOG_ERROR | LOG_WARN => 2 | _ => 1 end.

Definition pick_fd_for_level (l : logger) (level : log_level_t) : Z :=
  if file_open l then l.(g_fd) else console level.

(** [localtime] is the result of [localtime_r], [None] for a null pointer. *)
Definition build_timestamp (localtime : Z -> option tm) (now : Z) : cstr :=
  take 31
    match localtime now with
    | None => lit "0000-00-00 00:00:00"
    | Some t =>
        format_d 0 (tm_year t + 1900) ++ [45] ++ format_d 2 (tm_mon t + 1) ++ [45] ++ format_d 2 (tm_mday t) ++ [32]
        ++ format_d 2 (tm_hour t) ++ [58] ++ format_d 2 (tm_min t) ++ [58] ++ format_d 2 (tm_sec t)
    end.

(** The copy of the prefix into [char g_prefix[32]]. *)
Fixpoint copy_prefix (room : nat) (prefix : cstr) : cstr :=
  match room, prefix with
  | S room, c :: rest => c :: copy_prefix room rest
  | _, _ => []
  end.

Definition log_get_level (l : logger) : outcome (log_level_t * logger) :=
  l ← log_lock l;
  Ret (l.(g_level), log_unlock l).

Definition log_set_level (level : log_level_t) (l : logger) : outcome logger :=
  l ← log_lock l;
  Ret (log_unlock (mk_logger level l.(g_prefix) l.(g_fd) l.(g_use_file) l.(g_inited) l.(g_locked))).

(** [init_logger]; [opened] is the result of [open], [None] on an error.  A null prefix is
    the empty one. *)
Definition init_logger (opened : option Z) (prefix : cstr) (level : log_level_t) (to_file : bool) (path : option cstr)
    (l : logger) : outcome (Z * list log_effect * logger) :=
  l ← log_lock l;
  let '(closed, fd) := if file_open l then ([Closed l.(g_fd)], -1) else ([], l.(g_fd)) in
  let reset fd use_file inited := log_unlock (mk_logger level (copy_prefix 31 prefix) fd use_file inited true) in
  if to_file then
    if bool_decide (default [] path = []) then Ret (-1, closed, reset fd false false)
    else
      match opened with
      | None => Ret (-1, closed, reset fd false false)
      | Some fd => Ret (0, closed ++ [Opened fd], reset fd true true)
      end
  else Ret (0, closed, reset (-1) false true).

(** [line] after the three writes into [char line[1024]]: the head, the text cut to the
    room left, and the newline when there is room for it. *)
Definition log_line (ts prefix : cstr) (level : log_level_t) (text : cstr) : outcome cstr :=
  let head := ts ++ [32] ++ prefix ++ [32; 91] ++ LEVEL_STR level ++ [93; 32] in
  let len := length head in
  if bool_decide (len <= 1024)%nat then
    let line := take 1023 head ++ take (1024 - len - 1) text in
    Ret (line ++ take (1024 - length line - 1) [10])
  else Fault OutOfBounds.

(** [log_msg]; [text] is what the format and its arguments print. *)
Definition log_msg (localtime : Z -> option tm) (now : Z) (level : log_level_t) (text : cstr) (l : logger)
    : outcome (list log_effect * logger) :=
  l ← log_lock l;
  l ← (if l.(g_inited) then Ret l
       else '(_, _, l) ← init_logger None (lit "[UNINITIALIZED]") LOG_INFO false None l; Ret l);
  if level_number level <? level_number l.(g_level) then Ret ([], log_unlock l)
  else
    line ← log_line (build_timestamp localtime now) l.(g_prefix) level text;
    let fd := pick_fd_for_level l level in
    let first := if 0 <=? fd then [Wrote fd line] else [] in
    let mirror := if file_open l then [Wrote (console level) line] else [] in
    Ret (first ++ mirror, log_unlock l).

Definition close_logger (l : logger) : outcome (list log_effect * logger) :=
  l ← log_lock l;
  let closed := if file_open l then [Closed l.(g_fd)] else [] in
  Ret (closed, log_unlock (mk_logger l.(g_level) l.(g_prefix) (-1) false false l.(g_locked))).

(** ** Sequences of calls *)

Inductive log_op :=
  | OpInit (opened : option Z) (prefix : cstr) (level : log_level_t) (to_file : bool) (path : option cstr)
  | OpMsg (now : Z) (level : log_level_t) (text : cstr)
  | OpLevel (level : log_level_t)
  | OpClose.

Section Runs.
Context (localtime : Z -> option tm).

Definition log_exec (op : log_op) (l : logger) : outcome (list log_effect * logger) :=
  match op with
  | OpInit opened prefix level to_file path =>
      '(_, es, l) ← init_logger opened prefix level to_file path l; Ret (es, l)
  | OpMsg now level text => log_msg localtime now level text l
  | OpLevel level => l ← log_set_level level l; Ret ([], l)
  | OpClose => close_logger l
  end.

Fixpoint log_run (ops : list log_op) (l : logger) : outcome (list log_effect * logger) :=
  match ops with
  | [] => Ret ([], l)
  | op :: ops => '(es, l) ← log_exec op l; '(es', l) ← log_run ops l; Ret (es ++ es', l)
  end.
End Runs.

(** ** What a run promises *)

(** Whether [init_logger] succeeds. *)
Definition init_succeeds (opened : option Z) (to_file : bool) (path : option cstr) : bool :=
  negb to_file || (bool_decide (default [] path <> []) && bool_decide (is_Some opened)).

(** No message is logged while the logger is not initialised; [b] is whether it is. *)
Fixpoint ready (b : bool) (ops : list log_op) : bool :=
  match ops with
  | [] => true
  | OpInit opened _ _ to_file path :: ops => ready (init_succeeds opened to_file path) ops
  | OpMsg _ _ _ :: ops => b && ready b ops
  | OpLevel _ :: ops => ready b ops
  | OpClose :: ops => ready false ops
  end.

(** At most one file is open at a time, [live], it is closed before the next one, and lines
    of at most 1023 bytes go to it and to the console. *)
Fixpoint disciplined (live : option Z) (es : list log_effect) : Prop :=
  match es with
  | [] => True
  | Opened fd :: es => live = None /\ disciplined (Some fd) es
  | Closed fd :: es => live = Some fd /\ disciplined None es
  | Wrote fd line :: es => (fd = 1 \/ fd = 2 \/ live = Some fd) /\ (length line <= 1023)%nat /\ disciplined live es
  end.

(** The descriptors [open] returns: 0, 1 and 2 are in use. *)
Definition op_ok (op : log_op) : Prop :=
  match op with OpInit (Some fd) _ _ _ _ => 2 < fd | _ => True end.

Definition live_fd (l : logger) : option Z := if l.(g_use_file) then Some l.(g_fd) else None.

Record logger_ok (b : bool) (l : logger) : Prop := {
  lo_unlocked : l.(g_locked) = false;
  lo_inited : l.(g_inited) = b;
  lo_prefix : (length l.(g_prefix) <= 31)%nat;
  lo_fd : l.(g_use_file) = true -> 2 < l.(g_fd)
}.

Lemma copy_prefix_take n s : copy_prefix n s = take n s.
Proof. revert s. induction n as [|n IH]; intros [|c s]; cbn; by rewrite ?IH. Qed.

Lemma file_open_live b l : logger_ok b l -> file_open l = l.(g_use_file).
Proof.
  intros [_ _ _ H]. unfold file_open. destruct (g_use_file l); [|done]. specialize (H eq_refl).
  cbn [andb]. apply Z.leb_le. lia.
Qed.

(** The line of a message. *)
Lemma log_line_spec ts prefix level text : (length ts <= 31)%nat -> (length prefix <= 31)%nat ->
  let head := ts ++ [32] ++ prefix ++ [32; 91] ++ LEVEL_STR level ++ [93; 32] in
  exists line, log_line ts prefix level text = Ret line
  /\ line = take 1023 (head ++ text ++ [10]) /\ (length line <= 1023)%nat.
Proof.
  intros Ht Hp head. assert (length head <= 72)%nat as Hh.
  { unfold head. rewrite !length_app. assert (length (LEVEL_STR level) <= 5)%nat by (destruct level; cbn; lia). cbn [length]. lia. }
  unfold log_line. fold head. rewrite bool_decide_eq_true_2 by lia. cbv zeta. rewrite (take_ge head) by lia.
  replace (1024 - length head - 1)%nat with (1023 - length head)%nat by lia. set (k := (1023 - length head)%nat).
  assert ((head ++ take k text) ++ take (1024 - length (head ++ take k text) - 1) [10] = take 1023 (head ++ text ++ [10])) as E.
  { rewrite take_app, (take_ge head) by lia. fold k. rewrite <- app_assoc. f_equal. rewrite take_app. f_equal.
    rewrite length_app, length_take. destruct (decide (k <= length text)%nat).
    - rewrite (Nat.min_l k) by lia. replace (1024 - (length head + k) - 1)%nat with 0%nat by lia.
      by replace (k - length text)%nat with 0%nat by lia.
    - rewrite (Nat.min_r k) by lia. f_equal. lia. }
  eexists. split; [done|]. split; [exact E|]. rewrite E, length_take. lia.
Qed.

Lemma timestamp_length localtime now : (length (build_timestamp localtime now) <= 31)%nat.
Proof. unfold build_timestamp. rewrite length_take. lia. Qed.

Section Safety.
Context (localtime : Z -> option tm).

(** An operation that returns, and what it leaves. *)
Definition keeps (l : logger) (b : bool) (out : outcome (list log_effect * logger)) : Prop :=
  exists es l', out = Ret (es, l') /\ logger_ok b l'
  /\ forall rest, disciplined (live_fd l') rest -> disciplined (live_fd l) (es ++ rest).

Lemma init_keeps b l opened prefix level to_file path :
  logger_ok b l -> (forall fd, opened = Some fd -> 2 < fd) ->
  keeps l (init_succeeds opened to_file path) ('(_, es, l) ← init_logger opened prefix level to_file path l; Ret (es, l)).
Proof.
  intros Hl Hfd. pose proof (file_open_live b l Hl) as Ho. destruct Hl as [Hu Hi Hp Hf].
  unfold init_logger, log_lock. rewrite Hu, bind_Ret. change (file_open (set_g_locked true l)) with (file_open l).
  rewrite Ho, copy_prefix_take. cbn [set_g_locked g_fd].
  assert (length (take 31 prefix) <= 31)%nat as Hlen by (rewrite length_take; lia).
  unfold keeps, live_fd, init_succeeds.
  destruct to_file; [destruct (decide (default [] path = [])) as [Hpath|Hpath]|].
  - rewrite (bool_decide_eq_true_2 (default [] path = [])), (bool_decide_eq_false_2 (default [] path <> [])) by tauto.
    destruct (g_use_file l); rewrite bind_Ret; eexists _, _; (split; [done|]); (split; [by constructor|]); by intros rest H.
  - rewrite (bool_decide_eq_false_2 (default [] path = [])), (bool_decide_eq_true_2 (default [] path <> [])) by tauto.
    destruct opened as [fd|]; cbn [negb orb andb].
    + rewrite (bool_decide_eq_true_2 (is_Some (Some fd))) by done.
      destruct (g_use_file l); rewrite bind_Ret; eexists _, _; (split; [done|]);
        (split; [constructor; try done; intros _; by apply Hfd|]); by intros rest H.
    + rewrite (bool_decide_eq_false_2 (is_Some None)) by (by intros [? ?]).
      destruct (g_use_file l); rewrite bind_Ret; eexists _, _; (split; [done|]); (split; [by constructor|]); by intros rest H.
  - cbn [negb orb]. destruct (g_use_file l); rewrite bind_Ret; eexists _, _; (split; [done|]); (split; [by constructor|]); by intros rest H.
Qed.

Lemma msg_keeps l now level text : logger_ok true l -> keeps l true (log_msg localtime now level text l).
Proof.
  intros Hl. pose proof (file_open_live true l Hl) as Ho. destruct Hl as [Hu Hi Hp Hf]. unfold log_msg, log_lock.
  rewrite Hu, bind_Ret. cbn [set_g_locked g_inited g_level g_prefix]. rewrite Hi, bind_Ret. cbn [set_g_locked g_level g_prefix].
  destruct (_ <? _); [eexists [], _; split; [done|]; by split|].
  destruct (log_line_spec (build_timestamp localtime now) (g_prefix l) level text (timestamp_length _ _) Hp) as (line & -> & _ & Hlen).
  rewrite bind_Ret. unfold pick_fd_for_level. change (file_open (set_g_locked true l)) with (file_open l). rewrite Ho.
  assert (console level = 1 \/ console level = 2) as Hc by (destruct level; auto).
  eexists _, _. split; [done|]. split; [by constructor|]. intros rest Hr. unfold live_fd in *.
  change (g_use_file (log_unlock (set_g_locked true l))) with (g_use_file l) in Hr.
  cbn [set_g_locked log_unlock g_fd] in Hr |- *. destruct (g_use_file l).
  - specialize (Hf eq_refl). destruct (Z.leb_spec 0 (g_fd l)); [|lia]. cbn [app disciplined]. split_and!; auto; destruct Hc; auto.
  - destruct (Z.leb_spec 0 (console level)); [|lia]. cbn [app disciplined]. split_and!; auto; destruct Hc; auto.
Qed.

(** A message before the initialisation blocks: [init_logger] locks the mutex again. *)
Lemma msg_blocks l now level text : logger_ok false l -> log_msg localtime now level text l = Fault Deadlock.
Proof. intros [Hu Hi _ _]. unfold log_msg, log_lock. rewrite Hu, bind_Ret. cbn [set_g_locked g_inited]. by rewrite Hi. Qed.

Lemma close_keeps b l : logger_ok b l -> keeps l false (close_logger l).
Proof.
  intros Hl. pose proof (file_open_live b l Hl) as Ho. destruct Hl as [Hu Hi Hp Hf]. unfold close_logger, log_lock.
  rewrite Hu, bind_Ret. change (file_open (set_g_locked true l)) with (file_open l). rewrite Ho. unfold keeps, live_fd.
  eexists _, _. split; [done|]. split; [by constructor|]. intros rest Hr. by destruct (g_use_file l).
Qed.

Lemma level_keeps b l level : logger_ok b l -> keeps l b (l ← log_set_level level l; Ret ([], l)).
Proof.
  intros [Hu Hi Hp Hf]. unfold log_set_level, log_lock. rewrite Hu, !bind_Ret. eexists [], _. split; [done|].
  split; [by constructor|done].
Qed.

(** C24: the logger.  From the start of the program every sequence of calls in which each
    message is logged while the logger is initialised runs to its end: at most one file is
    open at a time and closed before the next, each line has at most 1023 bytes and goes to
    that file or to the console.  Any other sequence never returns: a message logged before
    [init_logger] succeeds, or after it failed or [close_logger], blocks on the logger's own
    mutex. *)
Theorem logger_runs (ops : list log_op) :
  Forall op_ok ops ->
  if ready false ops
  then exists es l, log_run localtime ops logger_static = Ret (es, l) /\ disciplined None es
  else log_run localtime ops logger_static = Fault Deadlock.
Proof.
  assert (forall b l, logger_ok b l -> Forall op_ok ops ->
    if ready b ops then exists es l', log_run localtime ops l = Ret (es, l') /\ disciplined (live_fd l) es
    else log_run localtime ops l = Fault Deadlock) as H.
  { induction ops as [|op ops IH]; intros b l Hl Hops; [by exists [], l|]. apply Forall_cons in Hops as [Hop Hops].
    assert (forall b', keeps l b' (log_exec localtime op l) ->
      if ready b' ops then exists es l', log_run localtime (op :: ops) l = Ret (es, l') /\ disciplined (live_fd l) es
      else log_run localtime (op :: ops) l = Fault Deadlock) as Hstep.
    { intros b' (es & l' & E & Hl' & Hd). specialize (IH b' l' Hl' Hops). cbn [log_run]. rewrite E, bind_Ret.
      destruct (ready b' ops); [|by rewrite IH]. destruct IH as (es' & l2 & -> & Hes). rewrite bind_Ret.
      eexists _, l2. split; [done|]. by apply Hd. }
    destruct op as [opened prefix level to_file path|now level text|level|]; cbn [ready].
    - apply Hstep, (init_keeps b); [done|]. intros fd ->. exact Hop.
    - destruct b; cbn [andb]; [by apply Hstep, msg_keeps|]. cbn [log_run log_exec]. by rewrite msg_blocks.
    - by apply Hstep, level_keeps.
    - by eapply Hstep, close_keeps. }
  apply (H false logger_static). by constructor; [..|cbn; lia|].
Qed.
End Safety.

(** The start of a program: [init_logger] with a log file and the first message, which
    returns when the file could be opened and blocks otherwise. *)
Lemma log_starts localtime now opened prefix level path text :
  path <> [] -> (forall fd, opened = Some fd -> 2 < fd) ->
  exists rc es log, init_logger opened prefix level true (Some path) logger_static = Ret (rc, es, log)
  /\ (is_Some opened -> exists es' log', log_msg localtime now LOG_INFO text log = Ret (es', log'))
  /\ (opened = None -> log_msg localtime now LOG_INFO text log = Fault Deadlock).
Proof.
  intros Hp Hfd. destruct (init_keeps false logger_static opened prefix level true (Some path)) as (es & log & E & Hok & _).
  { constructor; [done|done|cbn; lia|done]. }
  { exact Hfd. }
  destruct (init_logger _ _ _ _ _ _) as [[[rc es0] log0]|]; [|done]. rewrite bind_Ret in E. injection E as -> ->.
  exists rc, es, log. split; [done|]. unfold init_succeeds in Hok. cbn [negb orb default] in Hok. unfold id in Hok.
  rewrite (bool_decide_eq_true_2 (path <> [])) in Hok by done. cbn [andb] in Hok. split.
  - intros Hs. rewrite bool_decide_eq_true_2 in Hok by done. destruct (msg_keeps localtime log now LOG_INFO text Hok) as (es' & log' & -> & _).
    by eexists _, _.
  - intros ->. rewrite bool_decide_eq_false_2 in Hok by (by intros [? ?]). by apply msg_blocks.
Qed.

Definition no_time (t : Z) : option tm := None.

(** A run of the server, and the start in a directory where the log file cannot be made. *)
Lemma logger_runs_witness :
  (exists es l, log_run no_time
     [OpInit (Some 3) (lit "[DHCPv4-Server]") LOG_DEBUG true (Some (lit "logs/dhcpv4_server.log"));
      OpMsg 5 LOG_INFO (lit "Starting DHCPv4 Server..."); OpClose] logger_static = Ret (es, l) /\ disciplined None es)
  /\ log_run no_time
     [OpInit None (lit "[DHCPv4-Server]") LOG_DEBUG true (Some (lit "logs/dhcpv4_server.log"));
      OpMsg 5 LOG_INFO (lit "Starting DHCPv4 Server...")] logger_static = Fault Deadlock.
Proof.
  split.
  - apply (logger_runs no_time [OpInit (Some 3) (lit "[DHCPv4-Server]") LOG_DEBUG true (Some (lit "logs/dhcpv4_server.log"));
      OpMsg 5 LOG_INFO (lit "Starting DHCPv4 Server..."); OpClose]). repeat constructor.
  - apply (logger_runs no_time [OpInit None (lit "[DHCPv4-Server]") LOG_DEBUG true (Some (lit "logs/dhcpv4_server.log"));
      OpMsg 5 LOG_INFO (lit "Starting DHCPv4 Server...")]). repeat constructor.
Defined.

(** A thread that is cancelled while it writes a line leaves the mutex locked, and every later
    message blocks. *)
Example cancelled_writer_blocks l now level text : log_msg no_time now level text (set_g_locked true l) = Fault Deadlock.
Proof. reflexivity. Qed.

(** The line of a message. *)
Example sample_line :
  log_line (build_timestamp no_time 5) (lit "[DHCPv6-Server]") LOG_WARN (lit "queue full")
  = Ret (lit "0000-00-00 00:00:00 [DHCPv6-Server] [WARN] queue full" ++ [10]).
Proof. vm_compute. reflexivity. Qed.
