(* ===== verification/ClientV4.v ===== *)
(** * The DHCPv4 client

    [client/client_v4.c]: the message functions, the arguments and set-up of [main], and one
    round of its loop, the state machine of the client.  What a round does to the outside is
    the list of its effects, the packets given to [sendto] and the commands given to
    [system]; their results are only logged.  The argument of a round is what [rx_packet]
    holds after [recvfrom], [None] when nothing came in time.  The sleeps are left out.

    Against the server of [ServerV4] the client gets an address, uses it and renews it
    ([client4_lifecycle]); whatever it receives it only uses addresses that were acknowledged
    to it ([client4_safety]). *)

From Stdlib Require Import String.
From S2P Require Import Prelude LeaseV4 ConfigV4 IpPool IpPoolSpec DhcpMessage ServerV4 UtilsV6 CText UtilsV4.

Definition DHCP_SERVER_PORT : Z := 67.

Definition DHCP_OPTIONS_SIZE : nat := 312.

Inductive client_state_v4_t :=
  | STATE_V4_INIT
  | STATE_V4_SELECTING
  | STATE_V4_REQUESTING
  | STATE_V4_BOUND
  | STATE_V4_RENEWING
  | STATE_V4_REBINDING.

#[global] Instance client_state_v4_eq_dec : EqDecision client_state_v4_t.
Proof. solve_decision. Defined.

(** ** Messages *)

(** The loop of [get_dhcp_message_type] and [get_dhcp_requested_ip]: the index of the data of
    the first option with the code and the length. *)
Fixpoint find_option (fuel : nat) (options : list Z) (offset : nat) (option_code option_len : Z)
    : outcome (option nat) :=
  match fuel with
  | O => Ret None
  | S fuel =>
      if bool_decide (offset < DHCP_OPTIONS_SIZE)%nat then
        code ← in_bounds (options !! offset);
        if code =? DHCP_OPT_END then Ret None
        else if code =? DHCP_OPT_PAD then find_option fuel options (offset + 1) option_code option_len
        else
          len ← in_bounds (options !! (offset + 1)%nat);
          if (code =? option_code) && (len =? option_len) then Ret (Some (offset + 2)%nat)
          else find_option fuel options (offset + (2 + Z.to_nat len)) option_code option_len
      else Ret None
  end.

Definition get_dhcp_message_type (packet : dhcp_packet) : outcome Z :=
  if negb (cookie_ok packet) then Ret 0
  else
    opt ← find_option DHCP_OPTIONS_SIZE packet.(dp_options) 4 DHCP_OPT_MESSAGE_TYPE 1;
    match opt with
    | Some offset => in_bounds (packet.(dp_options) !! offset)
    | None => Ret 0
    end.

(** The return code and the address [ip] points to, which is the server's. *)
Definition get_dhcp_requested_ip (packet : dhcp_packet) (ip : Z) : outcome (Z * Z) :=
  if negb (cookie_ok packet) then Ret (-1, ip)
  else
    opt ← find_option DHCP_OPTIONS_SIZE packet.(dp_options) 4 DHCP_OPT_SERVER_ID 4;
    match opt with
    | Some offset => bs ← read_bytes offset 4 packet.(dp_options); Ret (0, of_le32 bs)
    | None => Ret (-1, ip)
    end.

(** The loop that looks for the end of the options is the one of [dhcp_message_add_option]. *)
Definition add_dhcp_option (packet : dhcp_packet) (option_code len : Z) (data : list Z)
    : outcome (Z * dhcp_packet) :=
  offset ← find_end DHCP_OPTIONS_SIZE packet.(dp_options) 4;
  if bool_decide (DHCP_OPTIONS_SIZE < offset + 2 + Z.to_nat len + 1)%nat then Ret (-1, packet)
  else
    bs ← read_bytes 0 (Z.to_nat len) data;
    options ← write_bytes offset [option_code] packet.(dp_options);
    options ← write_bytes (offset + 1) [len] options;
    options ← write_bytes (offset + 2) bs options;
    options ← write_bytes (offset + 2 + Z.to_nat len) [DHCP_OPT_END] options;
    Ret (0, set_dp_options options packet).

(** The zeroed packet with the header of a client and the cookie. *)
Definition client_header (xid : Z) (mac : list Z) (ciaddr : Z) : dhcp_packet :=
  mk_dhcp_packet BOOTREQUEST HTYPE_ETHER 6 0 (htonl xid) 0 0 ciaddr 0 0 0
    (take 6 mac ++ replicate 10 0) (replicate 64 0) (replicate 128 0)
    (cookie_bytes ++ [DHCP_OPT_END] ++ replicate 307 0).

Definition build_discover (xid : Z) (mac : list Z) : outcome dhcp_packet :=
  '(_, packet) ← add_dhcp_option (client_header xid mac 0) DHCP_OPT_MESSAGE_TYPE 1 [DHCP_DISCOVER];
  Ret packet.

Definition build_request (xid : Z) (mac : list Z) (requested_ip server_id : Z) : outcome dhcp_packet :=
  '(_, packet) ← add_dhcp_option (client_header xid mac 0) DHCP_OPT_MESSAGE_TYPE 1 [DHCP_REQUEST];
  '(_, packet) ← add_dhcp_option packet DHCP_OPT_REQUESTED_IP 4 (le32 requested_ip);
  '(_, packet) ← add_dhcp_option packet DHCP_OPT_SERVER_ID 4 (le32 server_id);
  Ret packet.

Definition build_renew (xid : Z) (mac : list Z) (current_ip : Z) : outcome dhcp_packet :=
  '(_, packet) ← add_dhcp_option (client_header xid mac current_ip) DHCP_OPT_MESSAGE_TYPE 1 [DHCP_REQUEST];
  Ret packet.

(** ** The set-up of [main] *)

(** The variables the arguments of the program set. *)
Record arguments4 := mk_arguments4 {
  a_ifname : option cstr;
  a_server_ip : option cstr;
  a_custom_mac : option cstr;
  a_server_port : Z;
  a_client_port : Z
}.

Definition default_arguments4 : arguments4 := mk_arguments4 None None None DHCP_SERVER_PORT DHCP_CLIENT_PORT.

Definition is_flag (flag : string) (arg : cstr) : bool := bool_decide (arg = lit flag).

(** The loop over [argv[1]] and what follows; an option without a value is a name. *)
Fixpoint parse_arguments (argv : list cstr) (a : arguments4) : arguments4 :=
  match argv with
  | [] => a
  | arg :: rest =>
      let name :=
        match a.(a_ifname) with
        | None => mk_arguments4 (Some arg) a.(a_server_ip) a.(a_custom_mac) a.(a_server_port) a.(a_client_port)
        | Some _ => a
        end in
      match rest with
      | [] => name
      | value :: rest' =>
          if is_flag "-s" arg then
            parse_arguments rest' (mk_arguments4 a.(a_ifname) (Some value) a.(a_custom_mac) a.(a_server_port) a.(a_client_port))
          else if is_flag "-p" arg then
            parse_arguments rest' (mk_arguments4 a.(a_ifname) a.(a_server_ip) a.(a_custom_mac) (atoi value) a.(a_client_port))
          else if is_flag "-m" arg then
            parse_arguments rest' (mk_arguments4 a.(a_ifname) a.(a_server_ip) (Some value) a.(a_server_port) a.(a_client_port))
          else if is_flag "-c" arg then
            parse_arguments rest' (mk_arguments4 a.(a_ifname) a.(a_server_ip) a.(a_custom_mac) a.(a_server_port) (atoi value))
          else parse_arguments rest name
      end
  end.

(** What the system answers during the set-up; [bind] says for each port whether it can be
    bound. *)
Record system4 := mk_system4 {
  if_nametoindex : cstr -> Z;
  get_mac_address_v4 : cstr -> option (list Z);
  socket_made : bool;
  broadcast_set : bool;
  bind : Z -> bool;
  inet_pton4 : cstr -> option Z
}.

Definition get_if_index_v4 (sys : system4) (ifname : cstr) : Z := sys.(if_nametoindex) ifname.

(** What the loop starts with: the interface, the hardware address, the port bound and the
    address packets are sent to. *)
Record setup4 := mk_setup4 {
  u_ifname : cstr;
  u_mac : list Z;
  u_client_port : Z;
  u_dest_addr : sockaddr_in
}.

(** The port that is bound: the one asked for, or the fallback. *)
Definition bound_port (bind : Z -> bool) (client_port : Z) : option Z :=
  if bind (u16 client_port) then Some client_port
  else
    let fallback_port := 6800 + Z.rem client_port 100 in
    if bind (u16 fallback_port) then Some fallback_port else None.

(** [None] is the return of 1. *)
Definition client_v4_setup (sys : system4) (argv : list cstr) : option setup4 :=
  let a := parse_arguments argv default_arguments4 in
  ifname ← a.(a_ifname);
  if get_if_index_v4 sys ifname =? 0 then None
  else
    mac ← match a.(a_custom_mac) with
          | Some custom_mac => parse_mac_address custom_mac
          | None => sys.(get_mac_address_v4) ifname
          end;
    if negb (sys.(socket_made) && sys.(broadcast_set)) then None
    else
      client_port ← bound_port sys.(bind) a.(a_client_port);
      addr ← match a.(a_server_ip) with
             | Some server_ip => sys.(inet_pton4) server_ip
             | None => Some INADDR_BROADCAST
             end;
      Some (mk_setup4 ifname mac client_port (mk_sockaddr_in addr (htons (u16 a.(a_server_port))))).

(** ** The state machine *)

Inductive effect4 :=
  | Sent (packet : dhcp_packet)
  | Executed (cmd : cstr).

Record client4 := mk_client4 {
  k_state : client_state_v4_t;
  k_xid : Z;
  k_tx_packet : dhcp_packet;
  k_offered_ip : Z;
  k_server_id : Z;
  k_assigned_ip : Z
}.

Definition set_k_state (v : client_state_v4_t) (c : client4) : client4 :=
  mk_client4 v c.(k_xid) c.(k_tx_packet) c.(k_offered_ip) c.(k_server_id) c.(k_assigned_ip).

Definition set_k_xid (v : Z) (c : client4) : client4 :=
  mk_client4 c.(k_state) v c.(k_tx_packet) c.(k_offered_ip) c.(k_server_id) c.(k_assigned_ip).

Definition set_k_tx_packet (v : dhcp_packet) (c : client4) : client4 :=
  mk_client4 c.(k_state) c.(k_xid) v c.(k_offered_ip) c.(k_server_id) c.(k_assigned_ip).

Definition set_k_offered_ip (v : Z) (c : client4) : client4 :=
  mk_client4 c.(k_state) c.(k_xid) c.(k_tx_packet) v c.(k_server_id) c.(k_assigned_ip).

Definition set_k_server_id (v : Z) (c : client4) : client4 :=
  mk_client4 c.(k_state) c.(k_xid) c.(k_tx_packet) c.(k_offered_ip) v c.(k_assigned_ip).

Definition set_k_assigned_ip (v : Z) (c : client4) : client4 :=
  mk_client4 c.(k_state) c.(k_xid) c.(k_tx_packet) c.(k_offered_ip) c.(k_server_id) v.

(** The variables before the loop; [tx] is what the uninitialised packet holds. *)
Definition client4_start (now : Z) (tx : dhcp_packet) : client4 := mk_client4 STATE_V4_INIT (u32 now) tx 0 0 0.

Section Client4.
Context (inet_ntoa : Z -> cstr) (ifname mac : list Z).

(** [xid++] *)
Definition next_xid (c : client4) : client4 := set_k_xid (c.(k_xid) +u32 1) c.

(** The command for an address, in a buffer of 256 bytes. *)
Definition addr_command (verb : string) (ip : Z) : cstr :=
  take 255 (lit "ip addr " ++ lit verb ++ 32 :: inet_ntoa ip ++ lit "/24 dev " ++ ifname).

Definition init_round (c : client4) : outcome (list effect4 * client4) :=
  tx ← build_discover c.(k_xid) mac;
  Ret ([Sent tx], set_k_state STATE_V4_SELECTING (set_k_tx_packet tx c)).

Definition selecting_round (rx : option dhcp_packet) (c : client4) : outcome (list effect4 * client4) :=
  match rx with
  | None => Ret ([], set_k_state STATE_V4_INIT c)
  | Some rx_packet =>
      msg_type ← get_dhcp_message_type rx_packet;
      if (msg_type =? DHCP_OFFER) && (ntohl rx_packet.(dp_xid) =? c.(k_xid)) then
        let c := set_k_offered_ip rx_packet.(dp_yiaddr) c in
        '(_, server_id) ← get_dhcp_requested_ip rx_packet c.(k_server_id);
        let c := next_xid (set_k_server_id server_id c) in
        tx ← build_request c.(k_xid) mac c.(k_offered_ip) c.(k_server_id);
        Ret ([Sent tx], set_k_state STATE_V4_REQUESTING (set_k_tx_packet tx c))
      else Ret ([], c)
  end.

Definition requesting_round (rx : option dhcp_packet) (c : client4) : outcome (list effect4 * client4) :=
  match rx with
  | None => Ret ([Sent c.(k_tx_packet)], c)
  | Some rx_packet =>
      msg_type ← get_dhcp_message_type rx_packet;
      if (msg_type =? DHCP_ACK) && (ntohl rx_packet.(dp_xid) =? c.(k_xid)) then
        let c := set_k_assigned_ip rx_packet.(dp_yiaddr) c in
        Ret ([Executed (addr_command "add" c.(k_assigned_ip))], set_k_state STATE_V4_BOUND c)
      else if msg_type =? DHCP_NAK then Ret ([], next_xid (set_k_state STATE_V4_INIT c))
      else Ret ([], c)
  end.

Definition renewing_round (rx : option dhcp_packet) (c : client4) : outcome (list effect4 * client4) :=
  tx ← build_renew c.(k_xid) mac c.(k_assigned_ip);
  let c := set_k_tx_packet tx c in
  match rx with
  | None => Ret ([Sent tx], c)
  | Some rx_packet =>
      msg_type ← get_dhcp_message_type rx_packet;
      if (msg_type =? DHCP_ACK) && (ntohl rx_packet.(dp_xid) =? c.(k_xid)) then
        Ret ([Sent tx], next_xid (set_k_state STATE_V4_BOUND c))
      else if msg_type =? DHCP_NAK then
        Ret ([Sent tx; Executed (addr_command "del" c.(k_assigned_ip))], next_xid (set_k_state STATE_V4_INIT c))
      else Ret ([Sent tx], c)
  end.

(** One round of the loop of [main]. *)
Definition client_v4_round (rx : option dhcp_packet) (c : client4) : outcome (list effect4 * client4) :=
  match c.(k_state) with
  | STATE_V4_INIT => init_round c
  | STATE_V4_SELECTING => selecting_round rx c
  | STATE_V4_REQUESTING => requesting_round rx c
  | STATE_V4_BOUND => Ret ([], next_xid (set_k_state STATE_V4_RENEWING c))
  | STATE_V4_RENEWING => renewing_round rx c
  | STATE_V4_REBINDING => Ret ([], c)
  end.
End Client4.

(** ** Lemmas on the messages *)

Lemma add_dhcp_option_eq packet code len data :
  add_dhcp_option packet code len data = dhcp_message_add_option packet code len data.
Proof. unfold add_dhcp_option, dhcp_message_add_option. by change DHCP_OPTIONS_SIZE with OPTIONS_LEN. Qed.

Lemma client_header_repr xid mac ciaddr : options_repr [] (client_header xid mac ciaddr).(dp_options).
Proof. exact (options_repr_init 0 0 []). Qed.

Lemma same_header_trans p q r : same_header p q -> same_header q r -> same_header p r.
Proof. unfold same_header. congruence. Qed.

(** The header fields the server looks at. *)
Lemma client_fields p xid mac ciaddr : same_header p (client_header xid mac ciaddr) ->
  p.(dp_xid) = htonl xid /\ p.(dp_ciaddr) = ciaddr /\ p.(dp_giaddr) = 0 /\ p.(dp_chaddr) = take 6 mac ++ replicate 10 0.
Proof. unfold same_header, client_header. destruct p. cbn. intros [=]. subst. done. Qed.

Definition request_list (ip server_id : Z) : list dhcp_option :=
  [(DHCP_OPT_MESSAGE_TYPE, [DHCP_REQUEST]); (DHCP_OPT_REQUESTED_IP, le32 ip); (DHCP_OPT_SERVER_ID, le32 server_id)].

Definition renew_list : list dhcp_option := [(DHCP_OPT_MESSAGE_TYPE, [DHCP_REQUEST])].

Lemma build_discover_spec xid mac : exists p, build_discover xid mac = Ret p
  /\ options_repr discover_options p.(dp_options) /\ same_header p (client_header xid mac 0).
Proof.
  unfold build_discover. rewrite add_dhcp_option_eq.
  destruct (typed_reply (client_header xid mac 0) DHCP_DISCOVER) as (p & -> & R & H); [apply client_header_repr|].
  rewrite bind_Ret. by exists p.
Qed.

Lemma build_renew_spec xid mac ip : exists p, build_renew xid mac ip = Ret p
  /\ options_repr renew_list p.(dp_options) /\ same_header p (client_header xid mac ip).
Proof.
  unfold build_renew. rewrite add_dhcp_option_eq.
  destruct (typed_reply (client_header xid mac ip) DHCP_REQUEST) as (p & -> & R & H); [apply client_header_repr|].
  rewrite bind_Ret. by exists p.
Qed.

Lemma build_request_spec xid mac ip server_id : exists p, build_request xid mac ip server_id = Ret p
  /\ options_repr (request_list ip server_id) p.(dp_options) /\ same_header p (client_header xid mac 0).
Proof.
  unfold build_request. rewrite add_dhcp_option_eq.
  destruct (typed_reply (client_header xid mac 0) DHCP_REQUEST) as (p & -> & R & H); [apply client_header_repr|].
  rewrite bind_Ret. cbv beta iota. rewrite add_dhcp_option_eq.
  destruct (add_option_room p _ DHCP_OPT_REQUESTED_IP 4 (le32 ip) 3 9 R)
    as (p1 & -> & R1 & H1 & B1); [done|solve_valid|simpl; lia|simpl; lia|lia|].
  rewrite bind_Ret. cbv beta iota. rewrite add_dhcp_option_eq.
  destruct (add_option_room p1 _ DHCP_OPT_SERVER_ID 4 (le32 server_id) 9 15 R1)
    as (p2 & -> & R2 & H2 & _); [done|solve_valid|done|simpl; lia|lia|].
  rewrite bind_Ret. exists p2. split_and!; [done|exact R2|]. eauto using same_header_trans.
Qed.

(** The first option with a code and a length. *)
Definition has_option (code : Z) (len : nat) (o : dhcp_option) : bool :=
  (o.1 =? code) && (Z.of_nat (length o.2) =? Z.of_nat len).

Lemma find_option_walk l : forall pre rest fuel code len,
  Forall valid_option l -> (length l < fuel)%nat ->
  (length pre + length (encode_options l) + 1 <= DHCP_OPTIONS_SIZE)%nat ->
  forall buf, buf = pre ++ encode_options l ++ DHCP_OPT_END :: rest ->
  match find (has_option code len) l with
  | None => find_option fuel buf (length pre) code (Z.of_nat len) = Ret None
  | Some (_, d) => exists off, find_option fuel buf (length pre) code (Z.of_nat len) = Ret (Some off)
      /\ read_bytes off (length d) buf = Ret d
  end.
Proof.
  induction l as [|[c d] l IH]; intros pre rest fuel code len Hv Hf Hb buf E;
    (destruct fuel as [|fuel]; [simpl in Hf; lia|]); cbn [find_option find].
  - rewrite bool_decide_eq_true_2 by lia. rewrite E. cbn [encode_options fmap list_fmap concat app].
    by rewrite (lookup_at pre _ rest (length pre) eq_refl).
  - apply Forall_cons in Hv as [(Hp & He & Hd) Hv]. simpl in Hp, He, Hd.
    destruct (option_at pre c d l rest buf E) as (L1 & L2 & Hbuf & Hlen & Hread).
    rewrite encode_options_cons, length_app, length_encode_option in Hb. cbn [snd] in Hb.
    apply Z.eqb_neq in Hp, He. rewrite bool_decide_eq_true_2 by lia.
    rewrite L1. cbn [in_bounds mbind outcome_bind]. rewrite He, Hp, L2. cbn [in_bounds mbind outcome_bind].
    unfold has_option at 1. cbn [fst snd]. destruct ((c =? code) && (Z.of_nat (length d) =? Z.of_nat len)); [by eexists|].
    rewrite Nat2Z.id, Hlen. apply (IH _ rest); [done|simpl in Hf; lia|rewrite <- Hlen; lia|done].
Qed.

Lemma find_option_repr p l code len :
  options_repr l p.(dp_options) ->
  match find (has_option code len) l with
  | None => find_option DHCP_OPTIONS_SIZE p.(dp_options) 4 code (Z.of_nat len) = Ret None
  | Some (_, d) => exists off, find_option DHCP_OPTIONS_SIZE p.(dp_options) 4 code (Z.of_nat len) = Ret (Some off)
      /\ read_bytes off (length d) p.(dp_options) = Ret d
  end.
Proof.
  intros [Hv (rest & Hbuf & Hlen)]. apply (find_option_walk l cookie_bytes rest DHCP_OPTIONS_SIZE code len Hv); [| |exact Hbuf].
  - pose proof (length_encode_options_ge l). rewrite Hbuf, !length_app in Hlen. unfold OPTIONS_LEN, DHCP_OPTIONS_SIZE in *.
    simpl in Hlen. lia.
  - rewrite Hbuf, !length_app in Hlen. unfold OPTIONS_LEN, DHCP_OPTIONS_SIZE in *. simpl in Hlen. rewrite length_cookie. lia.
Qed.

Lemma read_one off x buf : read_bytes off 1 buf = Ret [x] -> buf !! off = Some x.
Proof.
  unfold read_bytes. case_bool_decide as H; [|done]. intros [= Ht]. destruct (buf !! off) as [y|] eqn:E.
  - rewrite (drop_S _ y off E) in Ht. simpl in Ht. congruence.
  - apply lookup_ge_None in E. lia.
Qed.

(** The type the client reads is the one the server writes. *)
Lemma message_type_repr p l ty : options_repr ((DHCP_OPT_MESSAGE_TYPE, [ty]) :: l) p.(dp_options) ->
  get_dhcp_message_type p = Ret ty.
Proof.
  intros Hr. unfold get_dhcp_message_type. rewrite (repr_cookie _ _ Hr). cbn [negb].
  destruct (find_option_repr p _ DHCP_OPT_MESSAGE_TYPE 1 Hr) as (off & E & Hd).
  change (Z.of_nat 1) with 1 in E. rewrite E, bind_Ret. cbv beta iota. by rewrite (read_one _ _ _ Hd).
Qed.

Lemma server_id_repr p ty lease subnet sid :
  options_repr ((DHCP_OPT_MESSAGE_TYPE, [ty]) :: lease_options lease subnet) p.(dp_options) -> is_u32 subnet.(s_router) ->
  get_dhcp_requested_ip p sid = Ret (0, subnet.(s_router)).
Proof.
  intros Hr Hu. unfold get_dhcp_requested_ip. rewrite (repr_cookie _ _ Hr). cbn [negb].
  destruct (find_option_repr p _ DHCP_OPT_SERVER_ID 4 Hr) as (off & E & Hd).
  change (Z.of_nat 4) with 4 in E. rewrite E, bind_Ret. cbv beta iota.
  change (length (le32 (s_router subnet))) with 4%nat in Hd. rewrite Hd, bind_Ret. by rewrite of_le32_le32.
Qed.

(** ** The client and the server *)

(** A renewal: REQUEST without a server identifier from a client with an address. *)
Lemma renewal_ack now now' ping g task ip i lease :
  let req := task.(pt_packet) in
  options_repr renew_list req.(dp_options) -> 240 <= task.(pt_len) -> req.(dp_ciaddr) = ip -> ip <> 0 ->
  lease_db_find_by_ip g.(sc_lease_db) ip = Some i -> g.(sc_lease_db).(leases) !! i = Some lease ->
  packet_processor ping now now' g task = renew_and_ack now' g req i (renewal_dest req task.(pt_client_addr)).
Proof.
  intros req Hr Hlen Hci Hip Hf Hl. unfold packet_processor. fold req.
  rewrite (validate_repr req _ _ Hr Hlen), (find_type req DHCP_REQUEST _ Hr eq_refl). cbn [Z.eqb negb]. rewrite bind_Ret.
  change (DHCP_REQUEST =? DHCP_DISCOVER) with false. change (DHCP_REQUEST =? DHCP_REQUEST) with true. cbv iota.
  unfold handle_request.
  pose proof (get_option_repr req _ DHCP_OPT_REQUESTED_IP Hr) as E1.
  pose proof (get_option_repr req _ DHCP_OPT_SERVER_ID Hr) as E2. cbn in E1, E2.
  rewrite E1, E2, !bind_Ret. cbn [option_addr]. rewrite !bind_Ret, Hci.
  apply Z.eqb_neq in Hip. by rewrite Hip, Hf.
Qed.

Section Exchange.
Context (inet_ntoa : Z -> cstr) (ifname mac : list Z).

#[local] Abbreviation client_v4_round := (client_v4_round inet_ntoa ifname mac).

Lemma init_sends rx c : c.(k_state) = STATE_V4_INIT -> exists tx,
  client_v4_round rx c = Ret ([Sent tx], set_k_state STATE_V4_SELECTING (set_k_tx_packet tx c))
  /\ options_repr discover_options tx.(dp_options) /\ same_header tx (client_header c.(k_xid) mac 0).
Proof.
  intros Hs. unfold ClientV4.client_v4_round, init_round. rewrite Hs.
  destruct (build_discover_spec (k_xid c) mac) as (tx & -> & R & H). rewrite bind_Ret. by exists tx.
Qed.

Lemma selecting_accepts c offer lease subnet :
  c.(k_state) = STATE_V4_SELECTING -> is_u32 c.(k_xid) -> is_u32 subnet.(s_router) ->
  options_repr ((DHCP_OPT_MESSAGE_TYPE, [DHCP_OFFER]) :: lease_options lease subnet) offer.(dp_options) ->
  offer.(dp_xid) = htonl c.(k_xid) -> exists tx,
  let xid := c.(k_xid) +u32 1 in
  client_v4_round (Some offer) c
  = Ret ([Sent tx], mk_client4 STATE_V4_REQUESTING xid tx offer.(dp_yiaddr) subnet.(s_router) c.(k_assigned_ip))
  /\ options_repr (request_list offer.(dp_yiaddr) subnet.(s_router)) tx.(dp_options)
  /\ same_header tx (client_header xid mac 0).
Proof.
  intros Hs Hx Hu Hr Hxid. unfold ClientV4.client_v4_round, selecting_round. rewrite Hs, (message_type_repr _ _ _ Hr), bind_Ret.
  rewrite Hxid, bswap32_involutive, (Z.eqb_refl (k_xid c)) by done. change (DHCP_OFFER =? DHCP_OFFER) with true. cbn [andb].
  rewrite (server_id_repr _ _ _ _ _ Hr Hu), bind_Ret. cbv beta iota zeta.
  destruct (build_request_spec (k_xid c +u32 1) mac (dp_yiaddr offer) (s_router subnet)) as (tx & E & R & H).
  cbn [next_xid set_k_xid set_k_server_id set_k_offered_ip k_xid k_offered_ip k_server_id]. rewrite E, bind_Ret. exists tx. cbv zeta. by split_and!.
Qed.

Lemma requesting_accepts c ack l :
  c.(k_state) = STATE_V4_REQUESTING -> is_u32 c.(k_xid) ->
  options_repr ((DHCP_OPT_MESSAGE_TYPE, [DHCP_ACK]) :: l) ack.(dp_options) -> ack.(dp_xid) = htonl c.(k_xid) ->
  client_v4_round (Some ack) c
  = Ret ([Executed (addr_command inet_ntoa ifname "add" ack.(dp_yiaddr))],
         set_k_state STATE_V4_BOUND (set_k_assigned_ip ack.(dp_yiaddr) c)).
Proof.
  intros Hs Hx Hr Hxid. unfold ClientV4.client_v4_round, requesting_round. rewrite Hs, (message_type_repr _ _ _ Hr), bind_Ret.
  rewrite Hxid, bswap32_involutive, (Z.eqb_refl (k_xid c)) by done. by change (DHCP_ACK =? DHCP_ACK) with true.
Qed.

(** The packet of a renewal does not depend on what is received afterwards. *)
Lemma renewing_accepts c :
  c.(k_state) = STATE_V4_RENEWING -> is_u32 c.(k_xid) -> exists tx,
  options_repr renew_list tx.(dp_options) /\ same_header tx (client_header c.(k_xid) mac c.(k_assigned_ip))
  /\ forall ack l, options_repr ((DHCP_OPT_MESSAGE_TYPE, [DHCP_ACK]) :: l) ack.(dp_options) -> ack.(dp_xid) = htonl c.(k_xid) ->
     client_v4_round (Some ack) c = Ret ([Sent tx], next_xid (set_k_state STATE_V4_BOUND (set_k_tx_packet tx c))).
Proof.
  intros Hs Hx. destruct (build_renew_spec (k_xid c) mac (k_assigned_ip c)) as (tx & E & R & H). exists tx.
  split_and!; [done|done|]. intros ack l Hr Hxid. unfold ClientV4.client_v4_round, renewing_round. rewrite Hs, E, bind_Ret.
  cbv zeta. rewrite (message_type_repr _ _ _ Hr), bind_Ret. cbn [set_k_tx_packet k_xid].
  rewrite Hxid, bswap32_involutive, (Z.eqb_refl (k_xid c)) by done. by change (DHCP_ACK =? DHCP_ACK) with true.
Qed.

(** ** Properties *)

(** The datagram as the server receives it from a client at [addr], which listens on the
    port for clients. *)
Definition from_client (addr : Z) (p : dhcp_packet) : packet_task_t :=
  mk_packet_task p 548 (mk_sockaddr_in addr (htons DHCP_CLIENT_PORT)).

Definition to_all_clients : sockaddr_in := mk_sockaddr_in INADDR_BROADCAST (htons DHCP_CLIENT_PORT).

(** A server that can serve a new client. *)
Record ready_for (ping : Z -> Z -> bool) (g : server_context_t) (chaddr : list Z) : Prop := {
  ready_dns : (length (subnet0 g).(s_dns_servers) <= 4)%nat;
  ready_router : is_u32 (subnet0 g).(s_router);
  ready_pool : pool_inv (pool0 g);
  ready_free : no_reservation (pool0 g) chaddr /\ forall ip, ~ holds (pool0 g) ip chaddr;
  ready_unknown : lease_db_find_by_mac g.(sc_lease_db) chaddr = None;
  ready_room : (length g.(sc_lease_db).(leases) < MAX_LEASES)%nat;
  ready_silent : forall e, e ∈ (pool0 g).(p_entries) -> e.(e_state) = IP_STATE_AVAILABLE ->
    ping_conflict ping g.(sc_config) e.(e_ip_address) = false
    /\ lease_db_find_by_ip g.(sc_lease_db) e.(e_ip_address) = None
    /\ is_u32 e.(e_ip_address) /\ e.(e_ip_address) <> 0;
  ready_address : Exists (fun e => e.(e_state) = IP_STATE_AVAILABLE) (pool0 g).(p_entries)
}.

(** DISCOVER and OFFER. *)
Lemma discover_offered rx n n' ping g c :
  c.(k_state) = STATE_V4_INIT -> ready_for ping g (take 6 mac ++ replicate 10 0) ->
  exists discover offer ip pool lease db c1,
    client_v4_round rx c = Ret ([Sent discover], c1)
    /\ packet_processor ping n n' g (from_client 0 discover) = Ret ([(to_all_clients, offer)], set_sc_lease_db db (set_pool0 pool g))
    /\ c1 = set_k_state STATE_V4_SELECTING (set_k_tx_packet discover c)
    /\ offer.(dp_yiaddr) = ip /\ offer.(dp_xid) = htonl c.(k_xid)
    /\ options_repr ((DHCP_OPT_MESSAGE_TYPE, [DHCP_OFFER]) :: lease_options lease (subnet0 g)) offer.(dp_options)
    /\ holds pool ip (take 6 mac ++ replicate 10 0)
    /\ lease.(l_ip_address) = ip /\ lease.(l_mac_address) = take 6 (take 6 mac ++ replicate 10 0)
    /\ db.(leases) = g.(sc_lease_db).(leases) ++ [lease]
    /\ lease_db_find_by_ip db ip = Some (length g.(sc_lease_db).(leases))
    /\ is_u32 ip /\ ip <> 0.
Proof.
  intros Hs [Hdns Hrt Hinv [Hres Hhold] Hmac Hroom Hav Hex].
  destruct (init_sends rx c Hs) as (discover & Hrnd & R & H). apply client_fields in H as (Hx & Hci & Hgi & Hch).
  pose proof (discover_fresh n n' ping g (from_client 0 discover) discover_options) as D.
  cbn [from_client pt_packet pt_len pt_client_addr] in D. rewrite Hch in D.
  destruct D as (ip & dest & offer & pool & lease & db & Hrun & _ & Hy & Hh & Hip & Hm & Hdb & Hnone & Hdest & Hox & Ho
    & e & He & Hes & Hei); try done; [intros e He Hes; split; by apply Hav|].
  destruct (Hav e He Hes) as (_ & _ & Hu & H0). rewrite Hei in Hu, H0.
  exists discover, offer, ip, pool, lease, db. eexists. split_and!; try done.
  - rewrite Hrun. do 3 f_equal. rewrite Hdest. unfold reply_dest. by rewrite Hgi.
  - congruence.
  - by eapply find_by_ip_app.
Qed.

(** REQUEST and ACK. *)
Lemma request_acked n n' ping g c offer ip i lease subnet :
  c.(k_state) = STATE_V4_SELECTING -> is_u32 c.(k_xid) -> is_u32 ip -> subnet0 g = subnet ->
  (length subnet.(s_dns_servers) <= 4)%nat -> is_u32 subnet.(s_router) ->
  offer.(dp_yiaddr) = ip -> offer.(dp_xid) = htonl c.(k_xid) ->
  options_repr ((DHCP_OPT_MESSAGE_TYPE, [DHCP_OFFER]) :: lease_options lease subnet) offer.(dp_options) ->
  lease_db_find_by_ip g.(sc_lease_db) ip = Some i -> g.(sc_lease_db).(leases) !! i = Some lease ->
  memeq 6 lease.(l_mac_address) (take 6 mac ++ replicate 10 0) = true ->
  exists request ack c1 c2,
    client_v4_round (Some offer) c = Ret ([Sent request], c1)
    /\ packet_processor ping n n' g (from_client 0 request)
       = Ret ([(to_all_clients, ack)],
              set_sc_lease_db (set_leases (<[i := renew_fields n' subnet.(s_default_lease_time) lease]> g.(sc_lease_db).(leases))
                                 g.(sc_lease_db)) g)
    /\ client_v4_round (Some ack) c1 = Ret ([Executed (addr_command inet_ntoa ifname "add" ip)], c2)
    /\ c2 = mk_client4 STATE_V4_BOUND (c.(k_xid) +u32 1) request ip subnet.(s_router) ip.
Proof.
  intros Hs Hx Hu Hg Hdns Hrt Hy Hox Ho Hf Hl Hm.
  destruct (selecting_accepts c offer lease subnet Hs Hx Hrt Ho Hox) as (request & Hrnd & R & H). cbv zeta in *.
  apply client_fields in H as (Hrx & Hci & Hgi & Hch). rewrite Hy in *.
  assert (packet_processor ping n n' g (from_client 0 request)
    = renew_and_ack n' g request i to_all_clients) as Hrun.
  { rewrite (request_ack n n' ping g (from_client 0 request) (request_list ip (s_router subnet)) ip i lease (le32 (s_router subnet)));
      try done; [|by rewrite Hg]. cbn [from_client pt_packet pt_client_addr]. rewrite Hch, Hm. unfold reply_dest. by rewrite Hgi. }
  destruct (renew_and_ack_spec n' g request i to_all_clients ip lease) as (ack & Hack & _ & Hay & Hax & Har); [by rewrite Hg|done|done|].
  rewrite Hack, Hg in Hrun. exists request, ack. eexists _, _. split; [exact Hrnd|]. split; [exact Hrun|]. split.
  - erewrite requesting_accepts; [by rewrite Hay|done|apply u32_range|exact Har|cbn; congruence].
  - done.
Qed.

(** A renewal of the address in use. *)
Lemma renew_acked n n' ping g c ip i lease rx :
  c.(k_state) = STATE_V4_BOUND -> c.(k_assigned_ip) = ip -> ip <> 0 -> (length (subnet0 g).(s_dns_servers) <= 4)%nat ->
  lease_db_find_by_ip g.(sc_lease_db) ip = Some i -> g.(sc_lease_db).(leases) !! i = Some lease ->
  exists renew ack c1 c2,
    client_v4_round rx c = Ret ([], c1)
    /\ packet_processor ping n n' g (from_client ip renew)
       = Ret ([(mk_sockaddr_in ip (htons DHCP_CLIENT_PORT), ack)],
              set_sc_lease_db (set_leases (<[i := renew_fields n' (subnet0 g).(s_default_lease_time) lease]> g.(sc_lease_db).(leases))
                                 g.(sc_lease_db)) g)
    /\ client_v4_round (Some ack) c1 = Ret ([Sent renew], c2)
    /\ c2.(k_state) = STATE_V4_BOUND /\ c2.(k_assigned_ip) = ip.
Proof.
  intros Hs Ha Hip Hdns Hf Hl. set (c1 := next_xid (set_k_state STATE_V4_RENEWING c)).
  destruct (renewing_accepts c1 eq_refl (u32_range _)) as (renew & R & H & Hacc).
  apply client_fields in H as (Hrx & Hci & Hgi & Hch). change (k_assigned_ip c1) with (k_assigned_ip c) in Hci. rewrite Ha in Hci.
  pose proof (renewal_ack n n' ping g (from_client ip renew) ip i lease R ltac:(done) Hci Hip Hf Hl) as Hrun.
  cbn [from_client pt_packet pt_client_addr] in Hrun.
  assert (renewal_dest renew (mk_sockaddr_in ip (htons DHCP_CLIENT_PORT)) = mk_sockaddr_in ip (htons DHCP_CLIENT_PORT)) as Hd
    by (unfold renewal_dest; rewrite Hci; by case_match).
  rewrite Hd in Hrun.
  destruct (renew_and_ack_spec n' g renew i (mk_sockaddr_in ip (htons DHCP_CLIENT_PORT)) ip lease Hdns Hf Hl)
    as (ack & Hack & _ & _ & Hax & Har).
  exists renew, ack, c1. eexists. split_and!.
  - unfold ClientV4.client_v4_round. by rewrite Hs.
  - by rewrite Hrun.
  - apply (Hacc ack _ Har). congruence.
  - done.
  - done.
Qed.

(** C9: the client against the server.  A client in its first state and a server that is
    ready for it, the messages being delivered: the client broadcasts a DISCOVER, the server
    answers with an OFFER of an address, which its pool then records as held by the client,
    the client asks for it, is acknowledged, configures its interface with exactly that
    address and is bound; when its time has come it sends a renewal, is acknowledged at its
    address and is bound to the same address again.  In the end the database of the server
    has an active lease of the address for the hardware address of the client that ends
    [default_lease_time] after the renewal. *)
Theorem client4_lifecycle (ping : Z -> Z -> bool) (g : server_context_t) (c : client4) (n1 n1' n2 n2' n3 n3' : Z)
    (rx rx' : option dhcp_packet) :
  let chaddr := take 6 mac ++ replicate 10 0 in
  length mac = 6%nat -> c.(k_state) = STATE_V4_INIT -> is_u32 c.(k_xid) -> ready_for ping g chaddr ->
  exists ip discover offer request ack renew ack' c1 c2 c3 c4 c5 g1 g2 g3 i lease,
    client_v4_round rx c = Ret ([Sent discover], c1)
    /\ packet_processor ping n1 n1' g (from_client 0 discover) = Ret ([(to_all_clients, offer)], g1)
    /\ holds (pool0 g1) ip chaddr
    /\ client_v4_round (Some offer) c1 = Ret ([Sent request], c2)
    /\ packet_processor ping n2 n2' g1 (from_client 0 request) = Ret ([(to_all_clients, ack)], g2)
    /\ client_v4_round (Some ack) c2 = Ret ([Executed (addr_command inet_ntoa ifname "add" ip)], c3)
    /\ c3.(k_state) = STATE_V4_BOUND /\ c3.(k_assigned_ip) = ip
    /\ client_v4_round rx' c3 = Ret ([], c4)
    /\ packet_processor ping n3 n3' g2 (from_client ip renew)
       = Ret ([(mk_sockaddr_in ip (htons DHCP_CLIENT_PORT), ack')], g3)
    /\ client_v4_round (Some ack') c4 = Ret ([Sent renew], c5)
    /\ c5.(k_state) = STATE_V4_BOUND /\ c5.(k_assigned_ip) = ip
    /\ g3.(sc_lease_db).(leases) !! i = Some lease /\ lease.(l_ip_address) = ip
    /\ lease.(l_state) = LEASE_STATE_ACTIVE /\ lease.(l_end_time) = n3' + (subnet0 g).(s_default_lease_time)
    /\ memeq 6 lease.(l_mac_address) mac = true.
Proof.
  intros chaddr H6 Hs Hx Hready. pose proof (ready_dns _ _ _ Hready) as Hdns. pose proof (ready_router _ _ _ Hready) as Hrt.
  destruct (discover_offered rx n1 n1' ping g c Hs Hready)
    as (discover & offer & ip & pool & lease & db & c1 & H1 & P1 & Hc1 & Hy & Hox & Ho & Hh & Hip & Hm & Hdb & Hf & Hu & H0).
  set (g1 := set_sc_lease_db db (set_pool0 pool g)) in *. set (i := length (leases (sc_lease_db g))) in *.
  assert (leases (sc_lease_db g1) !! i = Some lease) as Hl by (cbn; rewrite Hdb; by apply list_lookup_middle).
  assert (take 6 chaddr = take 6 mac) as Hch by (unfold chaddr; rewrite take_app_le, take_take_6 by (rewrite length_take; lia); done).
  destruct (request_acked n2 n2' ping g1 c1 offer ip i lease (subnet0 g))
    as (request & ack & c2 & c3 & H2 & P2 & H3 & Hc3); subst c1; try done; [apply memeq_true; rewrite Hm; apply take_take_6|].
  set (g2 := set_sc_lease_db _ g1) in *.
  assert (leases (sc_lease_db g2) !! i = Some (renew_fields n2' (s_default_lease_time (subnet0 g)) lease)) as Hl2
    by (cbn; apply list_lookup_insert_eq; by eapply lookup_lt_Some).
  assert (lease_db_find_by_ip (sc_lease_db g2) ip = Some i) as Hf2.
  { revert Hf. unfold lease_db_find_by_ip. cbn [g2 set_sc_lease_db sc_lease_db set_leases leases g1].
    rewrite <- (alter_insert _ _ _ _ Hl), find_index_alter by done. done. }
  destruct (renew_acked n3 n3' ping g2 c3 ip i (renew_fields n2' (s_default_lease_time (subnet0 g)) lease) rx') as (renew & ack' & c4 & c5 & H4 & P3 & H5 & Hs5 & Ha5); subst c3; try done.
  exists ip, discover, offer, request, ack, renew, ack'. eexists _, _, _, _, _, g1, g2, _, i, _.
  assert (pool0 g1 = pool) as Hp1.
  { change (pool0 g1) with (pool0 (set_pool0 pool g)). apply pool0_set.
    by eapply Exists_nonempty, ready_address. }
  split_and!; [exact H1|exact P1|by rewrite Hp1|exact H2|exact P2|exact H3|done|done|exact H4|exact P3|exact H5|done|done| | | | |].
  - cbn [sc_lease_db set_sc_lease_db leases set_leases]. apply list_lookup_insert_eq. by eapply lookup_lt_Some.
  - done.
  - done.
  - done.
  - apply memeq_true. simpl. rewrite Hm, take_take_6. exact Hch.
Qed.
End Exchange.

(** An address of the client: the example server of [ServerV4] is ready for it. *)
Definition example_mac : list Z := [1; 2; 3; 4; 5; 6].

Lemma example_ready : ready_for (fun _ _ => false) example_server (take 6 example_mac ++ replicate 10 0).
Proof.
  constructor.
  - vm_compute. lia.
  - split; vm_compute; [discriminate|reflexivity].
  - apply example_pool_inv.
  - split.
    + intros h Hh. vm_compute in Hh. apply list_elem_of_singleton in Hh as ->. reflexivity.
    + intros ip (e & He & _ & Hs & _). eapply (forallb_elem (fun x => negb (in_state IP_STATE_ALLOCATED x))) in He;
        [|vm_compute; reflexivity]. unfold in_state in He. by rewrite bool_decide_eq_true_2 in He.
  - reflexivity.
  - vm_compute. lia.
  - intros e He _. split; [reflexivity|]. split; [reflexivity|].
    eapply (forallb_elem (fun x => (0 <? e_ip_address x) && (e_ip_address x <? 4294967296))) in He; [|vm_compute; reflexivity].
    unfold is_u32. lia.
  - apply Exists_cons_hd. reflexivity.
Qed.

Lemma client4_lifecycle_witness :
  exists ip c3 c5 renew, c3.(k_state) = STATE_V4_BOUND /\ c3.(k_assigned_ip) = ip
  /\ (exists ack c4, client_v4_round dotted_ntop (lit "eth0") example_mac (Some ack) c4 = Ret ([Sent renew], c5))
  /\ c5.(k_state) = STATE_V4_BOUND /\ c5.(k_assigned_ip) = ip.
Proof.
  destruct (client4_lifecycle dotted_ntop (lit "eth0") example_mac (fun _ _ => false) example_server
    (client4_start 1700000000 (client_header 0 [] 0)) 1001 1001 1002 1002 1003 1003 None None eq_refl eq_refl ltac:(unfold is_u32; vm_compute; split; [discriminate|reflexivity])
    example_ready) as (ip & ? & ? & ? & ? & renew & ack' & ? & ? & c3 & c4 & c5 & ? & ? & ? & ? & ? & _ & _ & _ & _ & _ & _ & Hs3 & Ha3
      & _ & _ & H5 & Hs5 & Ha5 & _).
  exists ip, c3, c5, renew. split_and!; [exact Hs3|exact Ha3|by exists ack', c4|exact Hs5|exact Ha5].
Defined.

(** ** Whatever the client receives *)

Section Safety.
Context (inet_ntoa : Z -> cstr) (ifname mac : list Z).

#[local] Abbreviation client_v4_round := (client_v4_round inet_ntoa ifname mac).
#[local] Abbreviation add ip := (addr_command inet_ntoa ifname "add" ip).
#[local] Abbreviation del ip := (addr_command inet_ntoa ifname "del" ip).

(** What the client has received and done in its rounds so far. *)
Inductive reached4 (c0 : client4) : list (option dhcp_packet * list effect4) -> client4 -> Prop :=
  | reached_start : reached4 c0 [] c0
  | reached_round h c rx effects c' : reached4 c0 h c -> client_v4_round rx c = Ret (effects, c') ->
      reached4 c0 (h ++ [(rx, effects)]) c'.

Definition received (h : list (option dhcp_packet * list effect4)) : list dhcp_packet := omap fst h.

Definition effects_of (h : list (option dhcp_packet * list effect4)) : list effect4 := concat h.*2.

Definition commands (es : list effect4) : list cstr := omap (fun e => match e with Executed cmd => Some cmd | Sent _ => None end) es.

Definition sent (es : list effect4) : list dhcp_packet := omap (fun e => match e with Sent p => Some p | Executed _ => None end) es.

(** The states in which the client has an address. *)
Definition has_address (c : client4) : bool :=
  match c.(k_state) with STATE_V4_BOUND | STATE_V4_RENEWING => true | _ => false end.

Definition addresses (c : client4) : list Z := if has_address c then [c.(k_assigned_ip)] else [].

(** A packet that was received offers, or acknowledges, an address. *)
Definition told (ty : Z) (ps : list dhcp_packet) (ip : Z) : Prop :=
  exists p, p ∈ ps /\ get_dhcp_message_type p = Ret ty /\ p.(dp_yiaddr) = ip.

(** The packets the client may send after it received [ps]. *)
Definition own_packet (ps : list dhcp_packet) (tx : dhcp_packet) : Prop :=
  exists xid, build_discover xid mac = Ret tx
    \/ (exists ip server_id, build_request xid mac ip server_id = Ret tx /\ told DHCP_OFFER ps ip)
    \/ (exists ip, build_renew xid mac ip = Ret tx /\ told DHCP_ACK ps ip).

Record inv4 (past : list Z) (h : list (option dhcp_packet * list effect4)) (c : client4) : Prop := {
  inv4_state : c.(k_state) <> STATE_V4_REBINDING;
  inv4_commands : commands (effects_of h) = concat ((fun ip => [add ip; del ip]) <$> past) ++ ((fun ip => add ip) <$> addresses c);
  inv4_told : forall ip, ip ∈ past ++ addresses c -> told DHCP_ACK (received h) ip;
  inv4_sent : Forall (own_packet (received h)) (sent (effects_of h));
  inv4_tx : c.(k_state) = STATE_V4_REQUESTING -> own_packet (received h) c.(k_tx_packet)
}.

Lemma told_more ty ps qs ip : told ty ps ip -> told ty (ps ++ qs) ip.
Proof. intros (p & Hp & H). exists p. split; [apply elem_of_app; by left|done]. Qed.

Lemma own_more ps qs tx : own_packet ps tx -> own_packet (ps ++ qs) tx.
Proof.
  intros (xid & [H|[(ip & sid & H & Ht)|(ip & H & Ht)]]); exists xid; [by left|right; left|right; right].
  - exists ip, sid. split; [done|by apply told_more].
  - exists ip. split; [done|by apply told_more].
Qed.

Lemma received_snoc h rx es : received (h ++ [(rx, es)]) = received h ++ option_list rx.
Proof. unfold received. rewrite omap_app. by destruct rx. Qed.

Lemma effects_snoc h rx es : effects_of (h ++ [(rx, es)]) = effects_of h ++ es.
Proof. unfold effects_of. rewrite fmap_app, concat_app. cbn. by rewrite app_nil_r. Qed.

(** What is left to show of a round: its own effects. *)
Lemma inv4_round past past' h c rx es c' :
  inv4 past h c -> c'.(k_state) <> STATE_V4_REBINDING ->
  (concat ((fun ip => [add ip; del ip]) <$> past) ++ ((fun ip => add ip) <$> addresses c)) ++ commands es
  = concat ((fun ip => [add ip; del ip]) <$> past') ++ ((fun ip => add ip) <$> addresses c') ->
  (forall ip, ip ∈ past' ++ addresses c' -> ip ∈ past ++ addresses c \/ told DHCP_ACK (option_list rx) ip) ->
  Forall (own_packet (received h ++ option_list rx)) (sent es) ->
  (c'.(k_state) = STATE_V4_REQUESTING -> own_packet (received h ++ option_list rx) c'.(k_tx_packet)) ->
  inv4 past' (h ++ [(rx, es)]) c'.
Proof.
  intros [_ Hc Ht Hs _] Hst Hcmd Htold Hsent Htx. constructor.
  - done.
  - rewrite effects_snoc. unfold commands in *. by rewrite omap_app, Hc.
  - intros ip Hip. rewrite received_snoc. destruct (Htold ip Hip) as [H|(p & Hp & H)]; [by apply told_more, Ht|].
    exists p. split; [apply elem_of_app; by right|done].
  - rewrite effects_snoc, received_snoc. unfold sent in *. rewrite omap_app. apply Forall_app. split; [|done].
    eapply Forall_impl; [exact Hs|]. intros tx. apply own_more.
  - by rewrite received_snoc.
Qed.

Lemma told_here ty p : get_dhcp_message_type p = Ret ty -> told ty (option_list (Some p)) p.(dp_yiaddr).
Proof. intros H. exists p. split; [by left|done]. Qed.

Lemma told_last ty ps p : get_dhcp_message_type p = Ret ty -> told ty (ps ++ option_list (Some p)) p.(dp_yiaddr).
Proof. intros H. exists p. split; [apply elem_of_app; right; by left|done]. Qed.

(** Rounds that neither execute a command nor send, into a state without an address. *)
Lemma quiet_round past h c rx c' :
  inv4 past h c -> has_address c = false -> c'.(k_state) = STATE_V4_INIT \/ c' = c -> inv4 past (h ++ [(rx, [])]) c'.
Proof.
  intros I Ha Hc. assert (addresses c = []) as Ea by (unfold addresses; by rewrite Ha).
  assert (addresses c' = [] /\ k_state c' <> STATE_V4_REBINDING
    /\ (k_state c' = STATE_V4_REQUESTING -> own_packet (received h) (k_tx_packet c'))) as (Ea' & Hst & Htx).
  { destruct Hc as [Hc| ->]; [|split_and!; [done|apply (inv4_state _ _ _ I)|apply (inv4_tx _ _ _ I)]].
    unfold addresses, has_address. rewrite Hc. split_and!; done. }
  apply (inv4_round past past h c); [done|done| | |constructor|].
  - rewrite Ea, Ea'. by rewrite app_nil_r.
  - rewrite Ea, Ea'. auto.
  - intros H. by apply own_more, Htx.
Qed.

Lemma selecting_safe past h c rx es c' :
  inv4 past h c -> c.(k_state) = STATE_V4_SELECTING -> selecting_round mac rx c = Ret (es, c') -> inv4 past (h ++ [(rx, es)]) c'.
Proof.
  intros I Hs. assert (has_address c = false) as Ha by (unfold has_address; by rewrite Hs).
  unfold selecting_round. destruct rx as [p|]; [|intros [= <- <-]; apply (quiet_round past h c); [done|done|by left]].
  destruct (get_dhcp_message_type p) as [ty|] eqn:Ety; [|done]. rewrite bind_Ret.
  destruct ((ty =? DHCP_OFFER) && (ntohl (dp_xid p) =? k_xid c)) eqn:E;
    [|intros [= <- <-]; apply (quiet_round past h c); [done|done|by right]].
  apply andb_true_iff in E as [->%Z.eqb_eq _]. cbv zeta.
  destruct (get_dhcp_requested_ip _ _) as [[rc sid]|]; [|done]. rewrite bind_Ret. cbv beta iota.
  cbn [next_xid set_k_xid set_k_server_id set_k_offered_ip k_xid k_offered_ip k_server_id].
  destruct (build_request _ _ _ _) as [tx|] eqn:Etx; [|done]. rewrite bind_Ret. intros [= <- <-].
  assert (own_packet (received h ++ option_list (Some p)) tx) as Hown.
  { eexists. right. left. eexists _, _. split; [exact Etx|]. by apply told_last. }
  apply (inv4_round past past h c); [done|done| | |by constructor|done].
  - unfold addresses. rewrite Ha. cbn. by rewrite app_nil_r.
  - unfold addresses. rewrite Ha. cbn. auto.
Qed.

Lemma requesting_safe past h c rx es c' :
  inv4 past h c -> c.(k_state) = STATE_V4_REQUESTING -> requesting_round inet_ntoa ifname rx c = Ret (es, c') ->
  inv4 past (h ++ [(rx, es)]) c'.
Proof.
  intros I Hs. assert (has_address c = false) as Ha by (unfold has_address; by rewrite Hs).
  unfold requesting_round. destruct rx as [p|].
  - destruct (get_dhcp_message_type p) as [ty|] eqn:Ety; [|done]. rewrite bind_Ret.
    destruct ((ty =? DHCP_ACK) && (ntohl (dp_xid p) =? k_xid c)) eqn:E.
    + apply andb_true_iff in E as [->%Z.eqb_eq _]. intros [= <- <-].
      apply (inv4_round past past h c); [done|done| | |constructor|done].
      * unfold addresses. rewrite Ha. cbn. by rewrite app_nil_r.
      * unfold addresses. rewrite Ha. cbn. intros ip [Hip|Hip]%elem_of_app; [left; by rewrite app_nil_r|].
        apply list_elem_of_singleton in Hip as ->. right. by apply told_here.
    + destruct (ty =? DHCP_NAK); intros [= <- <-]; (apply (quiet_round past h c); [done|done|]); [by left|by right].
  - intros [= <- <-]. pose proof (inv4_tx _ _ _ I Hs) as Htx.
    apply (inv4_round past past h c); [done|by rewrite Hs| |auto| |]; cbn [commands sent omap list_omap option_list].
    + by rewrite app_nil_r.
    + constructor; [by apply own_more|constructor].
    + intros _. by apply own_more.
Qed.

Lemma renewing_safe past h c rx es c' :
  inv4 past h c -> c.(k_state) = STATE_V4_RENEWING -> renewing_round inet_ntoa ifname mac rx c = Ret (es, c') ->
  exists past', inv4 past' (h ++ [(rx, es)]) c'.
Proof.
  intros I Hs. assert (addresses c = [k_assigned_ip c]) as Ha by (unfold addresses, has_address; by rewrite Hs).
  unfold renewing_round. destruct (build_renew _ _ _) as [tx|] eqn:Etx; [|done]. rewrite bind_Ret. cbv zeta.
  assert (forall ps, own_packet (received h ++ ps) tx) as Hown.
  { intros ps. eexists. right. right. eexists. split; [exact Etx|]. apply told_more, (inv4_told _ _ _ I).
    rewrite Ha. apply elem_of_app. right. by left. }
  assert (forall c1, addresses c1 = addresses c -> k_state c1 <> STATE_V4_REBINDING -> k_state c1 <> STATE_V4_REQUESTING ->
    inv4 past (h ++ [(rx, [Sent tx])]) c1) as Hkeep.
  { intros c1 H1 H2 H3. apply (inv4_round past past h c); [done|done| | | |done].
    - rewrite H1. cbn [commands omap list_omap]. by rewrite app_nil_r.
    - rewrite H1. auto.
    - by constructor. }
  destruct rx as [p|]; [|intros [= <- <-]; exists past; apply Hkeep; unfold addresses, has_address; cbn; by rewrite Hs].
  destruct (get_dhcp_message_type p) as [ty|]; [|done]. rewrite bind_Ret. destruct ((ty =? DHCP_ACK) && _).
  { intros [= <- <-]. exists past. apply Hkeep; [by rewrite Ha|done|done]. }
  destruct (ty =? DHCP_NAK); intros [= <- <-]; [|exists past; apply Hkeep; unfold addresses, has_address; cbn; by rewrite Hs].
  exists (past ++ [k_assigned_ip c]).
  apply (inv4_round past _ h c); [done|done| | |by constructor|done]; rewrite Ha; cbn [addresses has_address next_xid set_k_state set_k_xid k_state fmap list_fmap commands omap list_omap].
  - rewrite fmap_app, concat_app. cbn. by rewrite app_nil_r, <- app_assoc.
  - rewrite app_nil_r. auto.
Qed.

Lemma round_safe past h c rx es c' :
  inv4 past h c -> client_v4_round rx c = Ret (es, c') -> exists past', inv4 past' (h ++ [(rx, es)]) c'.
Proof.
  intros I. unfold ClientV4.client_v4_round. destruct (k_state c) eqn:Hs.
  - unfold init_round. destruct (build_discover _ _) as [tx|] eqn:Etx; [|done]. rewrite bind_Ret. intros [= <- <-]. exists past.
    assert (addresses c = []) as Ha by (unfold addresses, has_address; by rewrite Hs).
    apply (inv4_round past past h c); [done|done| | | |done]; rewrite ?Ha.
    + by rewrite app_nil_r.
    + auto.
    + constructor; [eexists; by left|constructor].
  - intros H. exists past. by eapply selecting_safe.
  - intros H. exists past. by eapply requesting_safe.
  - intros [= <- <-]. exists past. assert (addresses c = [k_assigned_ip c]) as Ha by (unfold addresses, has_address; by rewrite Hs).
    apply (inv4_round past past h c); [done|done| | |constructor|done]; rewrite Ha.
    + cbn [commands omap list_omap]. by rewrite app_nil_r.
    + auto.
  - intros H. by eapply renewing_safe.
  - by destruct (inv4_state _ _ _ I).
Qed.

Lemma reached_inv4 now tx h c : reached4 (client4_start now tx) h c -> exists past, inv4 past h c.
Proof.
  induction 1 as [|h c rx es c' _ [past IH] H]; [|by eapply round_safe].
  exists []. constructor; try done. intros ip Hip. by apply elem_of_nil in Hip.
Qed.

(** Packets with well-formed options are read without a fault. *)
Lemma find_has_option l code len c d : find (has_option code len) l = Some (c, d) -> length d = len.
Proof. intros H. apply find_some in H as [_ H]. unfold has_option in H. cbn in H. lia. Qed.

Lemma message_type_total p l : options_repr l p.(dp_options) -> exists ty, get_dhcp_message_type p = Ret ty.
Proof.
  intros Hr. unfold get_dhcp_message_type. rewrite (repr_cookie _ _ Hr). cbn [negb].
  pose proof (find_option_repr p l DHCP_OPT_MESSAGE_TYPE 1 Hr) as H. change (Z.of_nat 1) with 1 in H.
  destruct (find _ l) as [[c d]|] eqn:E; [|rewrite H; eauto]. apply find_has_option in E.
  destruct H as (off & -> & Hd), d as [|x [|? ?]]; try done. rewrite bind_Ret. cbn [length] in Hd. rewrite (read_one _ _ _ Hd). by exists x.
Qed.

Lemma server_id_total p l sid : options_repr l p.(dp_options) -> exists rc sid', get_dhcp_requested_ip p sid = Ret (rc, sid').
Proof.
  intros Hr. unfold get_dhcp_requested_ip. rewrite (repr_cookie _ _ Hr). cbn [negb].
  pose proof (find_option_repr p l DHCP_OPT_SERVER_ID 4 Hr) as H. change (Z.of_nat 4) with 4 in H.
  destruct (find _ l) as [[c d]|] eqn:E; [|rewrite H; eauto]. apply find_has_option in E.
  destruct H as (off & -> & Hd). rewrite bind_Ret. rewrite E in Hd. rewrite Hd. eauto.
Qed.

Lemma round_total rx c : (forall p, rx = Some p -> exists l, options_repr l p.(dp_options)) ->
  exists es c', client_v4_round rx c = Ret (es, c').
Proof.
  intros Hrx. assert (forall p, rx = Some p -> exists ty, get_dhcp_message_type p = Ret ty) as Hty
    by (intros p Hp; destruct (Hrx p Hp); by eapply message_type_total).
  unfold ClientV4.client_v4_round. destruct (k_state c).
  - unfold init_round. destruct (build_discover_spec (k_xid c) mac) as (tx & -> & _). rewrite bind_Ret. eauto.
  - unfold selecting_round. destruct rx as [p|]; [|eauto]. destruct (Hty p eq_refl) as [ty ->]. rewrite bind_Ret.
    destruct (_ && _); [|eauto]. cbv zeta. destruct (Hrx p eq_refl) as [l Hl].
    destruct (server_id_total p l (k_server_id (set_k_offered_ip (dp_yiaddr p) c)) Hl) as (rc & sid & ->). rewrite bind_Ret. cbv beta iota.
    match goal with |- context [build_request ?x ?m ?i ?s] => destruct (build_request_spec x m i s) as (tx & -> & _) end.
    rewrite bind_Ret. eauto.
  - unfold requesting_round. destruct rx as [p|]; [|eauto]. destruct (Hty p eq_refl) as [ty ->]. rewrite bind_Ret.
    destruct (_ && _); [eauto|]. destruct (ty =? DHCP_NAK); eauto.
  - eauto.
  - unfold renewing_round. destruct (build_renew_spec (k_xid c) mac (k_assigned_ip c)) as (tx & -> & _). rewrite bind_Ret. cbv zeta.
    destruct rx as [p|]; [|eauto]. destruct (Hty p eq_refl) as [ty ->]. rewrite bind_Ret.
    destruct (_ && _); [eauto|]. destruct (ty =? DHCP_NAK); eauto.
  - eauto.
Qed.

(** C11: the client uses only what was acknowledged.  Whatever the client has received since
    its start, the commands it has executed are pairs that add and delete an address, and
    one more that adds the address it has while it is bound or renews; each of these
    addresses was acknowledged in a packet it received; and every packet it has sent is a
    DISCOVER, a REQUEST for an address that was offered to it, or a renewal of one that was
    acknowledged.  It never reaches the state REBINDING, for which its loop has no action,
    and a next packet with well-formed options never makes it read outside of the packet. *)
Theorem client4_safety (now : Z) (tx : dhcp_packet) (h : list (option dhcp_packet * list effect4)) (c : client4) :
  reached4 (client4_start now tx) h c ->
  (exists past,
     commands (effects_of h) = concat ((fun ip => [add ip; del ip]) <$> past) ++ ((fun ip => add ip) <$> addresses c)
     /\ forall ip, ip ∈ past ++ addresses c -> told DHCP_ACK (received h) ip)
  /\ Forall (own_packet (received h)) (sent (effects_of h))
  /\ c.(k_state) <> STATE_V4_REBINDING
  /\ forall rx, (forall p, rx = Some p -> exists l, options_repr l p.(dp_options)) ->
      exists es c', client_v4_round rx c = Ret (es, c').
Proof.
  intros H. destruct (reached_inv4 now tx h c H) as (past & I). split; [|split; [|split]].
  - exists past. split; [apply (inv4_commands _ _ _ I)|apply (inv4_told _ _ _ I)].
  - apply (inv4_sent _ _ _ I).
  - apply (inv4_state _ _ _ I).
  - intros rx. apply round_total.
Qed.
End Safety.

(** A client that is bound to an address of the example server. *)
Lemma client4_safety_witness :
  exists h c ip, reached4 dotted_ntop (lit "eth0") example_mac (client4_start 7 (client_header 0 [] 0)) h c
  /\ commands (effects_of h) = [addr_command dotted_ntop (lit "eth0") "add" ip] /\ told DHCP_ACK (received h) ip
  /\ length (sent (effects_of h)) = 2%nat /\ Forall (own_packet example_mac (received h)) (sent (effects_of h)).
Proof.
  pose proof (ready_dns _ _ _ example_ready) as Hdns. pose proof (ready_router _ _ _ example_ready) as Hrt.
  destruct (discover_offered dotted_ntop (lit "eth0") example_mac None 1001 1001 (fun _ _ => false) example_server
    (client4_start 7 (client_header 0 [] 0)) eq_refl example_ready)
    as (discover & offer & ip & pool & lease & db & c1 & H1 & P1 & Hc1 & Hy & Hox & Ho & Hh & Hip & Hm & Hdb & Hf & Hu & H0).
  destruct (request_acked dotted_ntop (lit "eth0") example_mac 1002 1002 (fun _ _ => false)
    (set_sc_lease_db db (set_pool0 pool example_server)) c1 offer ip 0 lease (subnet0 example_server))
    as (request & ack & c2 & c3 & H2 & P2 & H3 & Hc3); subst c1; try done.
  { cbn [set_sc_lease_db sc_lease_db]. by rewrite Hdb. }
  { rewrite Hm. reflexivity. }
  pose proof (reached_round _ _ _ _ _ _ _ _ _ (reached_round _ _ _ _ _ _ _ _ _
    (reached_round _ _ _ _ _ _ _ _ _ (reached_start _ _ _ _) H1) H2) H3) as R.
  destruct (client4_safety dotted_ntop (lit "eth0") example_mac 7 (client_header 0 [] 0) _ _ R) as ((past & _ & Ht) & Hs & _).
  eexists _, _, ip. split; [exact R|]. split; [reflexivity|]. split; [|by split].
  apply Ht. subst c3. apply elem_of_app. right. by left.
Defined.

(** Of a NAK the client does not look at the transaction: the NAK that the server broadcasts
    for another client makes it give up its address. *)
Example foreign_nak_drops_address :
  match dhcp_message_make_nak (client_header 99 [7; 7; 7; 7; 7; 7] 0) (ip4 192 168 1 1) with
  | Ret nak =>
      '(es, c) ← client_v4_round dotted_ntop (lit "eth0") example_mac (Some nak)
         (mk_client4 STATE_V4_RENEWING 5 (client_header 0 [] 0) 0 0 (ip4 192 168 1 10));
      Ret (commands es, c.(k_state), c.(k_xid))
  | Fault f => Fault f
  end = Ret ([lit "ip addr del 192.168.1.10/24 dev eth0"], STATE_V4_INIT, 6).
Proof. vm_compute. reflexivity. Qed.

(** An option whose code is the last byte of the options is followed past the packet. *)
Example message_type_reads_past_packet :
  get_dhcp_message_type (mk_dhcp_packet 2 1 6 0 0 0 0 0 0 0 0 [] [] [] (cookie_bytes ++ replicate 307 0 ++ [12]))
  = Fault OutOfBounds.
Proof. vm_compute. reflexivity. Qed.

(** With a port other than 68 the client starts, but the server sends its broadcasts to
    port 68. *)
Example other_port_gets_no_offer (sys : system4) :
  sys = mk_system4 (fun _ => 1) (fun _ => Some example_mac) true true (fun p => 1024 <=? p) dotted_pton ->
  u_client_port <$> client_v4_setup sys [lit "eth0"] = Some 6868
  /\ sin_port to_all_clients = htons 68.
Proof. intros ->. split; vm_compute; reflexivity. Qed.
