(* ===== verification/ClientV6.v ===== *)
(** * The DHCPv6 client

    [client/client_v6.c]: the arguments and set-up of [main] and one round of its loop, the
    state machine of the client, on the parser of [ProtocolV6].  Messages are written into
    the buffer of [BUF_SIZE] bytes as the code does, without a check of the room: a write
    past its end is the fault [OutOfBounds].  The effects of a round are the bytes given to
    [sendto] and the commands given to [system]; what the client prints of a reply is left
    out.  The argument of a round is the datagram received, [None] when [recvfrom] returns
    nothing.

    Against the server of [ServerV6] the client is bound to the address the server allocates
    and renews it ([client6_lifecycle]). *)

From Stdlib Require Import String.
From S2P Require Import Prelude Ring UtilsV6 LeasesV6 ConfigV6 ProtocolV6 Ip6Pool Ip6PoolSpec PdPool ServerV6 ServerV6Spec ServerV6System CText.

Inductive client_state_t :=
  | STATE_INIT
  | STATE_SOLICITING
  | STATE_REQUESTING
  | STATE_BOUND
  | STATE_RENEWING.

#[global] Instance client_state_eq_dec : EqDecision client_state_t.
Proof. solve_decision. Defined.

(** ** The set-up of [main] *)

(** The DUID-LL of a hardware address. *)
Definition generate_duid (mac : list Z) : list Z := [0; 3; 0; 1] ++ take 6 mac.

Record arguments6 := mk_arguments6 {
  a6_ifname : option cstr;
  a6_request_pd : bool;
  a6_spoof_byte : Z
}.

(** [(int)strtol(s, NULL, 16)] *)
Definition strtol16 (s : cstr) : Z :=
  let '(neg, s) := scan_sign (drop_while isspace s) in
  let s := match s with
           | c :: x :: r => if (c =? 48) && ((x =? 120) || (x =? 88)) && starts_digit 16 r then r else s
           | _ => s
           end in
  let v := (scan_digits 16 s 0).1 in
  i32 (if neg : bool then Z.max (- v) (-9223372036854775808) else Z.min v 9223372036854775807).

Fixpoint parse_arguments6 (argv : list cstr) (a : arguments6) : arguments6 :=
  match argv with
  | [] => a
  | arg :: rest =>
      if bool_decide (arg = lit "-P") then parse_arguments6 rest (mk_arguments6 a.(a6_ifname) true a.(a6_spoof_byte))
      else if bool_decide (arg = lit "-S") then
        match rest with
        | [] => a
        | value :: rest => parse_arguments6 rest (mk_arguments6 a.(a6_ifname) a.(a6_request_pd) (strtol16 value))
        end
      else
        match a.(a6_ifname) with
        | None => parse_arguments6 rest (mk_arguments6 (Some arg) a.(a6_request_pd) a.(a6_spoof_byte))
        | Some _ => parse_arguments6 rest a
        end
  end.

(** What the system answers during the set-up. *)
Record system6 := mk_system6 {
  if_nametoindex6 : cstr -> Z;
  get_mac_address : cstr -> option (list Z);
  socket_made6 : bool;
  bound6 : bool
}.

Definition get_if_index (sys : system6) (ifname : cstr) : Z := sys.(if_nametoindex6) ifname.

Record setup6 := mk_setup6 {
  u6_ifname : cstr;
  u6_request_pd : bool;
  u6_client_duid : list Z
}.

(** [None] is the return of 1. *)
Definition client_v6_setup (sys : system6) (argv : list cstr) : option setup6 :=
  let a := parse_arguments6 argv (mk_arguments6 None false (-1)) in
  ifname ← a.(a6_ifname);
  if get_if_index sys ifname =? 0 then None
  else
    mac ← sys.(get_mac_address) ifname;
    let mac := if 0 <=? a.(a6_spoof_byte) then <[5%nat := u8 a.(a6_spoof_byte)]> mac else mac in
    if sys.(socket_made6) && sys.(bound6) then Some (mk_setup6 ifname a.(a6_request_pd) (generate_duid mac)) else None.

(** ** The state machine *)

Inductive effect6 :=
  | Sent6 (bytes : list Z)
  | Executed6 (cmd : cstr).

(** The state, the transaction, the buffer for messages and the server's DUID. *)
Record client6 := mk_client6 {
  q_state : client_state_t;
  q_xid : Z;
  q_buf : list Z;
  q_server_duid : list Z
}.

Definition set_q_state (v : client_state_t) (c : client6) : client6 :=
  mk_client6 v c.(q_xid) c.(q_buf) c.(q_server_duid).

Definition set_q_xid (v : Z) (c : client6) : client6 := mk_client6 c.(q_state) v c.(q_buf) c.(q_server_duid).

Definition set_q_buf (v : list Z) (c : client6) : client6 := mk_client6 c.(q_state) c.(q_xid) v c.(q_server_duid).

Definition set_q_server_duid (v : list Z) (c : client6) : client6 := mk_client6 c.(q_state) c.(q_xid) c.(q_buf) v.

(** The variables before the loop; [buf] is what the uninitialised buffer holds. *)
Definition client6_start (buf : list Z) : client6 := mk_client6 STATE_INIT 0x123456 buf [].

Definition CLIENT_IAID : Z := 1.

(** An option written at [pos], and the position after it. *)
Definition write_option (code : Z) (data : list Z) (at_ : list Z * nat) : outcome (list Z * nat) :=
  let '(buf, pos) := at_ in
  buf ← write_bytes pos (be16 code) buf;
  buf ← write_bytes (pos + 2) (be16 (Z.of_nat (length data))) buf;
  buf ← write_bytes (pos + OPT_HDR) data buf;
  Ret (buf, (pos + OPT_HDR + length data)%nat).

(** IAID, T1 and T2. *)
Definition ia_data (iaid : Z) : list Z := be32 iaid ++ be32 0 ++ be32 0.

(** The server's DUID kept for the renewals: at most 127 bytes. *)
Definition keep_server_duid (meta : dhcpv6_packet_meta_t) (c : client6) : client6 :=
  match meta.(m_server_duid) with
  | Some duid =>
      if bool_decide (0 < length duid)%nat && bool_decide (length duid < 128)%nat then set_q_server_duid duid c else c
  | None => c
  end.

Section Client6.
Context (inet_ntop6 : in6_addr -> cstr) (ifname client_duid : list Z) (request_pd : bool).

(** A message: the header, the DUIDs and the associations asked for; no server is named by
    the empty DUID. *)
Definition build_message (msg_type xid : Z) (server_duid buf : list Z) : outcome (list Z * nat) :=
  buf ← write_bytes 0 (msg_type :: dhcpv6_set_xid xid) buf;
  at_ ← write_option OPT_CLIENTID client_duid (buf, MSG_HDR);
  at_ ← (if bool_decide (0 < length server_duid)%nat then write_option OPT_SERVERID server_duid at_ else Ret at_);
  at_ ← write_option OPT_IA_NA (ia_data CLIENT_IAID) at_;
  if request_pd then write_option OPT_IA_PD (ia_data (CLIENT_IAID + 1)) at_ else Ret at_.

(** [snprintf(cmd, 512, "ip -6 addr add %s/64 dev %s", ...)] *)
Definition add_command (ip : in6_addr) : cstr :=
  take 511 (lit "ip -6 addr add " ++ inet_ntop6 ip ++ lit "/64 dev " ++ ifname).

Definition next_xid6 (c : client6) : client6 := set_q_xid (c.(q_xid) +u32 1) c.

Definition init_round6 (c : client6) : outcome (list effect6 * client6) :=
  '(buf, pos) ← build_message MSG_SOLICIT c.(q_xid) [] c.(q_buf);
  Ret ([Sent6 (take pos buf)], set_q_state STATE_SOLICITING (set_q_buf buf c)).

Definition soliciting_round (rx : option (list Z)) (c : client6) : outcome (list effect6 * client6) :=
  match rx with
  | None => Ret ([], c)
  | Some rx_buf =>
      parsed ← dhcpv6_parse rx_buf;
      match parsed with
      | Some meta =>
          if (meta.(m_msg_type) =? MSG_ADVERTISE) && (meta.(m_transaction_id) =? c.(q_xid)) then
            '(buf, pos) ← build_message MSG_REQUEST (c.(q_xid) +u32 1) (default [] meta.(m_server_duid)) c.(q_buf);
            Ret ([Sent6 (take pos buf)],
                 next_xid6 (set_q_state STATE_REQUESTING (keep_server_duid meta (set_q_buf buf c))))
          else Ret ([], c)
      | None => Ret ([], c)
      end
  end.

(** The commands for the address and the prefix of a reply. *)
Definition assign (meta : dhcpv6_packet_meta_t) : list effect6 :=
  (if meta.(m_has_requested_ip) then [Executed6 (add_command meta.(m_requested_ip))] else [])
  ++ (if request_pd && meta.(m_has_ia_pd) && meta.(m_has_requested_prefix)
      then [Executed6 (add_command (<[15%nat := 1]> meta.(m_requested_prefix)))] else []).

Definition requesting_round6 (rx : option (list Z)) (c : client6) : outcome (list effect6 * client6) :=
  match rx with
  | None => Ret ([], c)
  | Some rx_buf =>
      parsed ← dhcpv6_parse rx_buf;
      match parsed with
      | Some meta =>
          if (meta.(m_msg_type) =? MSG_REPLY) && (meta.(m_transaction_id) =? c.(q_xid)) then
            Ret (assign meta, set_q_state STATE_BOUND (keep_server_duid meta c))
          else Ret ([], c)
      | None => Ret ([], c)
      end
  end.

Definition renewing_round6 (rx : option (list Z)) (c : client6) : outcome (list effect6 * client6) :=
  '(buf, pos) ← build_message MSG_RENEW c.(q_xid) c.(q_server_duid) c.(q_buf);
  let c := set_q_buf buf c in
  let sent := [Sent6 (take pos buf)] in
  match rx with
  | None => Ret (sent, c)
  | Some rx_buf =>
      parsed ← dhcpv6_parse rx_buf;
      match parsed with
      | Some meta =>
          if (meta.(m_msg_type) =? MSG_REPLY) && (meta.(m_transaction_id) =? c.(q_xid)) then
            Ret (sent, next_xid6 (set_q_state STATE_BOUND c))
          else Ret (sent, c)
      | None => Ret (sent, c)
      end
  end.

(** One round of the loop of [main]. *)
Definition client_v6_round (rx : option (list Z)) (c : client6) : outcome (list effect6 * client6) :=
  match c.(q_state) with
  | STATE_INIT => init_round6 c
  | STATE_SOLICITING => soliciting_round rx c
  | STATE_REQUESTING => requesting_round6 rx c
  | STATE_BOUND => Ret ([], next_xid6 (set_q_state STATE_RENEWING c))
  | STATE_RENEWING => renewing_round6 rx c
  end.
End Client6.

(** ** The client's messages *)

Lemma enc_opts_cons o l : enc_opts (o :: l) = enc_opt o ++ enc_opts l.
Proof. done. Qed.

Lemma parse_returns buf : exists parsed, dhcpv6_parse buf = Ret parsed.
Proof. rewrite parse_spec. by eexists. Qed.

Lemma write_option_spec pre rest code data :
  (4 + length data <= length rest)%nat ->
  write_option code data (pre ++ rest, length pre)
  = Ret ((pre ++ enc_opt (code, data)) ++ drop (4 + length data) rest, length (pre ++ enc_opt (code, data))).
Proof.
  intros H. unfold write_option, enc_opt, OPT_HDR. cbn [fst snd].
  rewrite (write_over pre rest (be16 code)) by (done || (simpl; lia)). rewrite bind_Ret.
  change (length (be16 code)) with 2%nat. rewrite app_assoc.
  rewrite (write_over (pre ++ be16 code)) by (rewrite ?length_app, ?length_drop; simpl; lia). rewrite bind_Ret.
  change (length (be16 (Z.of_nat (length data)))) with 2%nat. rewrite drop_drop, app_assoc.
  rewrite (write_over ((pre ++ be16 code) ++ be16 (Z.of_nat (length data))))
    by (rewrite ?length_app, ?length_drop; simpl; lia). rewrite bind_Ret, drop_drop.
  replace (2 + 2 + length data)%nat with (4 + length data)%nat by lia.
  do 2 f_equal; [by rewrite <- !app_assoc|]. rewrite !length_app. simpl. lia.
Qed.

Section Messages.
Context (client_duid : list Z) (request_pd : bool).

(** The options of a message. *)
Definition client_options (server_duid : list Z) : list (Z * list Z) :=
  (OPT_CLIENTID, client_duid)
  :: (if bool_decide (0 < length server_duid)%nat then [(OPT_SERVERID, server_duid)] else [])
  ++ (OPT_IA_NA, ia_data CLIENT_IAID) :: (if request_pd then [(OPT_IA_PD, ia_data (CLIENT_IAID + 1))] else []).

Definition client_message (msg_type xid : Z) (server_duid : list Z) : list Z :=
  (msg_type :: dhcpv6_set_xid xid) ++ enc_opts (client_options server_duid).

(** The message is written when the DUIDs leave room for it. *)
Lemma build_message_spec msg_type xid server_duid buf :
  (44 + length client_duid + length server_duid <= length buf)%nat ->
  exists buf' pos, build_message client_duid request_pd msg_type xid server_duid buf = Ret (buf', pos)
    /\ take pos buf' = client_message msg_type xid server_duid /\ length buf' = length buf.
Proof.
  intros Hb. unfold build_message. set (hdr := msg_type :: dhcpv6_set_xid xid).
  change buf with ([] ++ buf) at 1. rewrite (write_over [] buf hdr) by (done || (simpl; lia)). rewrite bind_Ret.
  change (length hdr) with 4%nat. cbn [app]. change MSG_HDR with (length hdr).
  rewrite (write_option_spec hdr (drop 4 buf)) by (rewrite length_drop; lia). rewrite bind_Ret, drop_drop.
  set (p1 := hdr ++ enc_opt (OPT_CLIENTID, client_duid)).
  set (p2 := p1 ++ enc_opts (if bool_decide (0 < length server_duid)%nat then [(OPT_SERVERID, server_duid)] else [])).
  assert (exists rest, (if bool_decide (0 < length server_duid)%nat
      then write_option OPT_SERVERID server_duid (p1 ++ drop (4 + (4 + length client_duid)) buf, length p1)
      else Ret (p1 ++ drop (4 + (4 + length client_duid)) buf, length p1)) = Ret (p2 ++ rest, length p2)
    /\ (length p2 + length rest = length buf)%nat /\ (32 <= length rest)%nat) as (rest & -> & Hl & Hr).
  { assert (length p1 = (8 + length client_duid)%nat) as Hp1 by (unfold p1; rewrite length_app, length_enc_opt; done).
    unfold p2. case_bool_decide as Hs.
    - rewrite write_option_spec by (rewrite length_drop; lia). rewrite enc_opts_one, drop_drop. eexists. split; [done|].
      rewrite length_app, Hp1, length_enc_opt, length_drop. cbn [snd]. lia.
    - rewrite app_nil_r. eexists. split; [done|]. rewrite Hp1, length_drop. lia. }
  rewrite bind_Ret, write_option_spec by (simpl; lia). rewrite bind_Ret.
  set (p3 := p2 ++ enc_opt (OPT_IA_NA, ia_data CLIENT_IAID)).
  set (p4 := p3 ++ enc_opts (if request_pd then [(OPT_IA_PD, ia_data (CLIENT_IAID + 1))] else [])).
  assert (length p3 = (length p2 + 16)%nat) as Hp3 by (unfold p3; rewrite length_app; done).
  assert (p4 = client_message msg_type xid server_duid) as Hp4.
  { unfold p4, p3, p2, p1, client_message, client_options. fold hdr.
    rewrite !enc_opts_cons, enc_opts_app, !enc_opts_cons. by rewrite <- !app_assoc. }
  rewrite <- Hp4. unfold p4. destruct request_pd.
  - rewrite write_option_spec by (rewrite length_drop; simpl; lia). rewrite enc_opts_one. eexists _, _. split; [done|].
    split; [apply take_app_length|]. rewrite !length_app, !length_drop, Hp3, length_enc_opt. cbn [snd].
    change (length (ia_data CLIENT_IAID)) with 12%nat. change (length (ia_data (CLIENT_IAID + 1))) with 12%nat. lia.
  - rewrite app_nil_r. eexists _, _. split; [done|]. split; [apply take_app_length|].
    rewrite length_app, length_drop, Hp3. change (length (ia_data CLIENT_IAID)) with 12%nat. lia.
Qed.

Definition client_meta (msg_type xid : Z) (server_duid : list Z) : dhcpv6_packet_meta_t :=
  foldl apply_option (meta_of_header msg_type xid) (client_options server_duid).

Lemma client_message_parses msg_type xid server_duid :
  0 <= xid < 16777216 -> Z.of_nat (length client_duid) < 65536 -> Z.of_nat (length server_duid) < 65536 ->
  dhcpv6_parse (client_message msg_type xid server_duid) = Ret (Some (client_meta msg_type xid server_duid)).
Proof.
  intros Hx Hc Hs. rewrite parse_spec. unfold client_message.
  destruct (xid_roundtrip _ Hx) as (hi & mid & lo & -> & E & _). cbn [app]. rewrite E.
  do 3 f_equal. rewrite <- (app_nil_r (enc_opts _)), decode_enc; [by rewrite app_nil_r|].
  unfold client_options. constructor; [by split; vm_compute|]. apply Forall_app. split.
  - case_bool_decide; [|constructor]. constructor; [by split; vm_compute|constructor].
  - constructor; [by split; vm_compute|]. destruct request_pd; [|constructor]. constructor; [by split; vm_compute|constructor].
Qed.

Lemma client_meta_fields msg_type xid server_duid :
  let m := client_meta msg_type xid server_duid in
  m.(m_msg_type) = msg_type /\ m.(m_transaction_id) = xid /\ m.(m_client_duid) = Some client_duid
  /\ m.(m_has_ia_na) = true /\ m.(m_requested_ip) = zero_addr6 /\ m.(m_has_ia_pd) = request_pd.
Proof. unfold client_meta, client_options. case_bool_decide; destruct request_pd; split_and!; reflexivity. Qed.

(** The request names the server and carries no address. *)
Lemma client_meta_request xid server_duid : server_duid <> [] ->
  let m := client_meta MSG_REQUEST xid server_duid in
  m.(m_server_duid) = Some server_duid /\ m.(m_has_requested_ip) = false.
Proof.
  intros Hs. unfold client_meta, client_options. rewrite bool_decide_eq_true_2 by (destruct server_duid; [done|simpl; lia]).
  destruct request_pd; split; reflexivity.
Qed.

Lemma be16_u8 x : Forall is_u8 (be16 x).
Proof. unfold be16, is_u8. repeat constructor; apply Z.mod_pos_bound; lia. Qed.

Lemma enc_opt_u8 code data : Forall is_u8 data -> Forall is_u8 (enc_opt (code, data)).
Proof. intros H. unfold enc_opt. rewrite !Forall_app. split_and!; [apply be16_u8|apply be16_u8|done]. Qed.

Lemma client_message_u8 msg_type xid server_duid :
  is_u8 msg_type -> 0 <= xid < 16777216 -> Forall is_u8 client_duid -> Forall is_u8 server_duid ->
  Forall is_u8 (client_message msg_type xid server_duid).
Proof.
  intros Ht Hx Hc Hs. unfold client_message. destruct (xid_roundtrip _ Hx) as (hi & mid & lo & -> & _ & Hu).
  assert (forall i, Forall is_u8 (ia_data i)) as Hia
    by (intros i; unfold ia_data, be32, is_u8; repeat constructor; apply Z.mod_pos_bound; lia).
  apply Forall_app. split; [by constructor|]. unfold client_options. rewrite enc_opts_cons, enc_opts_app, enc_opts_cons, !Forall_app.
  split_and!; [by apply enc_opt_u8| |apply enc_opt_u8, Hia|].
  - case_bool_decide; [|constructor]. rewrite enc_opts_one. by apply enc_opt_u8.
  - destruct request_pd; [|constructor]. rewrite enc_opts_one. apply enc_opt_u8, Hia.
Qed.
End Messages.

(** ** The server's answers *)

(** The allocation behind the answer to a message. *)
Definition na_alloc (v : packet_env) (m : dhcpv6_packet_meta_t) (idx : nat) (ctx : server_ctx_t) (pool : ip6_pool_t)
    : ip6_allocation_result_t * ip6_pool_t * lease_v6_db_t :=
  ip6_pool_allocate v.(v_ping) v.(v_now) v.(v_t1) v.(v_t2) (duid_text m) m.(m_iaid) None
    (subnet_at ctx idx).(s6_default_lease_time) pool m.(m_requested_ip) ctx.(k_config) ctx.(k_db).

(** What a message of a client is answered when an address can be allocated for it. *)
Lemma answered v ob ctx buf client m d pool :
  env_ok v -> length ob = BUF_SIZE -> Forall is_u8 buf -> ctx_ok ctx -> dhcpv6_parse buf = Ret (Some m) ->
  m.(m_msg_type) ∈ [MSG_SOLICIT; MSG_REQUEST; MSG_RENEW] ->
  m.(m_client_duid) = Some d -> (length d <= 42)%nat -> m.(m_has_ia_na) = true ->
  let idx := packet_subnet ctx client in
  get_pool_by_subnet ctx idx = Some pool -> r6_success (na_alloc v m idx ctx pool).1.1 = true ->
  exists reply ctx' a, process_packet v ob ctx buf client = Ret (Some reply, ctx')
    /\ dhcpv6_parse reply = Ret (Some a)
    /\ a.(m_msg_type) = reply_type m.(m_msg_type) /\ a.(m_transaction_id) = m.(m_transaction_id)
    /\ a.(m_server_duid) = Some server_duid
    /\ a.(m_has_requested_ip) = true /\ a.(m_requested_ip) = r6_ip_address (na_alloc v m idx ctx pool).1.1
    /\ ctx_ok ctx' /\ ctx'.(k_config) = ctx.(k_config)
    /\ get_pool_by_subnet ctx' idx = Some (na_alloc v m idx ctx pool).1.2.
Proof.
  intros Hv Hb Hu Hc Hp Ht Hd Hlen Hna idx Hpool Hs. pose proof (parse_meta_ok _ _ Hu Hp) as Hm.
  assert (gives_back m = false /\ reply_type (m_msg_type m) <> 0) as [Hg Hz].
  { unfold gives_back. rewrite !elem_of_cons in Ht. destruct Ht as [->|[->|[->|Ht]]]; try done. by apply not_elem_of_nil in Ht. }
  destruct (process_answer v ob ctx buf client m Hv Hb Hu Hc Hp ltac:(rewrite Hd; simpl; lia) Hz) as (r & E & P & Hmv).
  fold idx in E, P, Hmv. destruct (answer_pools v m idx ctx pool Hm Hc Hg Hna Hpool) as [Hcfg Hpl].
  destruct (reply_fields v m idx ctx Hv Hm Hc Hg) as (F1 & F2 & F3 & _ & F4 & _).
  destruct (F4 Hna pool Hpool) as (_ & _ & F5 & F6). unfold na_alloc in Hs. unfold na_result in F5, F6. rewrite Hs in F5.
  eexists r, _, _. split_and!; [exact E|exact P|done|done|done|done|by apply F6|apply (cm_ok _ _ Hmv)|exact Hcfg|exact Hpl].
Qed.

Lemma duid_text_eq m d : meta_ok m -> m.(m_client_duid) = Some d -> (length d <= 42)%nat -> duid_text m = hex_loop d.
Proof.
  intros Hm Hd Hl. destruct (duid_text_hex m Hm) as (d1 & _ & -> & X). rewrite Hd in X.
  change (default [] (Some d)) with d in X. rewrite X; [done|lia].
Qed.

(** The address is the client's in the pool that is left, and what later messages get. *)
Lemma na_alloc_held v m idx ctx d pool :
  meta_ok m -> ctx_ok ctx -> m.(m_client_duid) = Some d -> d <> [] -> (length d <= 42)%nat ->
  get_pool_by_subnet ctx idx = Some pool -> static_host (hex_loop d) pool.(q_subnet) = None ->
  r6_success (na_alloc v m idx ctx pool).1.1 = true ->
  static_host (hex_loop d) (na_alloc v m idx ctx pool).1.2.(q_subnet) = None
  /\ exists e, held_entry (hex_loop d) (na_alloc v m idx ctx pool).1.2 = Some e
     /\ e.(n_ip_address) = r6_ip_address (na_alloc v m idx ctx pool).1.1.
Proof.
  intros Hm Hc Hd Hne Hlen Hpool Hst. unfold na_alloc. rewrite (duid_text_eq m d Hm Hd Hlen).
  assert (duid_ok d) as Hdok.
  { pose proof (mo_client _ Hm) as Hu. rewrite Hd in Hu. split; [done|]. unfold DUID_MAX_LEN. lia. }
  pose proof (Forall_lookup_1 _ _ _ _ (co_pools _ Hc) (get_pool_lookup _ _ _ Hpool)) as Hw.
  destruct (ip6_pool_allocate _ _ _ _ _ _ _ _ pool _ _ _) as [[res pool1] db1] eqn:E. cbn [fst snd]. intros Hs.
  destruct (allocate6_held _ _ _ _ _ _ _ _ _ _ _ _ _ _ _ Hdok Hne Hlen Hw (co_db _ Hc) (mo_ip _ Hm) Hst E Hs) as [-> H]. done.
Qed.

Lemma na_alloc_again v1 v2 m1 m2 idx ctx c1 d pool :
  meta_ok m1 -> meta_ok m2 -> ctx_ok ctx -> c1.(k_config) = ctx.(k_config) ->
  m1.(m_client_duid) = Some d -> m2.(m_client_duid) = Some d -> d <> [] -> (length d <= 42)%nat ->
  get_pool_by_subnet ctx idx = Some pool -> static_host (hex_loop d) pool.(q_subnet) = None ->
  r6_success (na_alloc v1 m1 idx ctx pool).1.1 = true ->
  let pool1 := (na_alloc v1 m1 idx ctx pool).1.2 in
  r6_success (na_alloc v2 m2 idx c1 pool1).1.1 = true
  /\ r6_ip_address (na_alloc v2 m2 idx c1 pool1).1.1 = r6_ip_address (na_alloc v1 m1 idx ctx pool).1.1
  /\ (na_alloc v2 m2 idx c1 pool1).1.2 = pool1.
Proof. intros. by apply (na_result_again v1 v2 m1 m2 idx ctx c1 d pool). Qed.

(** A server that can give an address to the client with the DUID. *)
Record ready_for6 (v : packet_env) (ctx : server_ctx_t) (idx : nat) (d : list Z) (pool : ip6_pool_t) : Prop := {
  ready6_pool : get_pool_by_subnet ctx idx = Some pool;
  ready6_host : static_host (hex_loop d) pool.(q_subnet) = None;
  ready6_room : (length (d_leases ctx.(k_db)) < LEASES6_MAX)%nat;
  ready6_address : exists i e, q_entries pool !! i = Some e /\ e.(n_state) = IP6_STATE_AVAILABLE
    /\ probe v.(v_ping) (get_effective_probe ctx.(k_config) pool.(q_subnet)).1
         (get_effective_probe ctx.(k_config) pool.(q_subnet)).2 e.(n_ip_address) = false
}.

Lemma ready_alloc v ctx idx d pool m :
  ready_for6 v ctx idx d pool -> ctx_ok ctx -> meta_ok m -> m.(m_client_duid) = Some d -> (length d <= 42)%nat ->
  m.(m_requested_ip) = zero_addr6 -> r6_success (na_alloc v m idx ctx pool).1.1 = true.
Proof.
  intros [Hp Hh Hr (i & e & He & Hs & Ha)] Hc Hm Hd Hl Hz. unfold na_alloc. rewrite (duid_text_eq m d Hm Hd Hl), Hz.
  assert (duid_ok d) as Hdok.
  { pose proof (mo_client _ Hm) as Hu. rewrite Hd in Hu. split; [done|]. unfold DUID_MAX_LEN. lia. }
  pose proof (Forall_lookup_1 _ _ _ _ (co_pools _ Hc) (get_pool_lookup _ _ _ Hp)) as Hw.
  edestruct (allocate6_succeeds v.(v_ping) v.(v_now) v.(v_t1) v.(v_t2) d (m_iaid m) None
    (s6_default_lease_time (subnet_at ctx idx)) pool (k_config ctx) (k_db ctx) i e) as (r & p & db & -> & H); try done.
  apply (co_db _ Hc).
Qed.

(** ** The client and the server *)

Section Exchange6.
Context (inet_ntop6 : in6_addr -> cstr) (ifname client_duid : list Z) (request_pd : bool).

#[local] Abbreviation client_v6_round := (client_v6_round inet_ntop6 ifname client_duid request_pd).
#[local] Abbreviation client_message := (client_message client_duid request_pd).
#[local] Abbreviation client_meta := (client_meta client_duid request_pd).

Hypothesis Hduid : Forall is_u8 client_duid /\ client_duid <> [] /\ (length client_duid <= 42)%nat.

Lemma build_message_small msg_type xid sid buf :
  length buf = BUF_SIZE -> (length sid < 128)%nat ->
  exists buf' pos, build_message client_duid request_pd msg_type xid sid buf = Ret (buf', pos)
    /\ take pos buf' = client_message msg_type xid sid /\ length buf' = BUF_SIZE.
Proof.
  intros Hb Hs. destruct Hduid as (_ & _ & Hl). rewrite <- Hb. apply build_message_spec. rewrite Hb. unfold BUF_SIZE. lia.
Qed.

Lemma init_sends6 rx c : c.(q_state) = STATE_INIT -> length c.(q_buf) = BUF_SIZE -> exists buf,
  client_v6_round rx c = Ret ([Sent6 (client_message MSG_SOLICIT c.(q_xid) [])], set_q_state STATE_SOLICITING (set_q_buf buf c))
  /\ length buf = BUF_SIZE.
Proof.
  intros Hs Hb. unfold ClientV6.client_v6_round, init_round6. rewrite Hs.
  destruct (build_message_small MSG_SOLICIT c.(q_xid) [] c.(q_buf) Hb) as (buf & pos & -> & Ht & Hl); [simpl; lia|].
  rewrite bind_Ret. cbv beta iota. rewrite Ht. by exists buf.
Qed.

Lemma kept_duid a sid c : a.(m_server_duid) = Some sid -> (0 < length sid < 128)%nat ->
  keep_server_duid a c = set_q_server_duid sid c.
Proof. intros Ha Hl. unfold keep_server_duid. rewrite Ha. by rewrite !bool_decide_eq_true_2 by lia. Qed.

Lemma soliciting_accepts rx a sid c :
  c.(q_state) = STATE_SOLICITING -> length c.(q_buf) = BUF_SIZE -> dhcpv6_parse rx = Ret (Some a) ->
  a.(m_msg_type) = MSG_ADVERTISE -> a.(m_transaction_id) = c.(q_xid) ->
  a.(m_server_duid) = Some sid -> (0 < length sid < 128)%nat -> exists buf,
  let xid := c.(q_xid) +u32 1 in
  client_v6_round (Some rx) c = Ret ([Sent6 (client_message MSG_REQUEST xid sid)], mk_client6 STATE_REQUESTING xid buf sid)
  /\ length buf = BUF_SIZE.
Proof.
  intros Hs Hb Hp Ht Hx Hsid Hl. unfold ClientV6.client_v6_round, soliciting_round. rewrite Hs, Hp, bind_Ret, Ht, Hx, (Z.eqb_refl (q_xid c)).
  change (MSG_ADVERTISE =? MSG_ADVERTISE) with true. cbn [andb]. rewrite Hsid. change (default [] (Some sid)) with sid.
  destruct (build_message_small MSG_REQUEST (c.(q_xid) +u32 1) sid c.(q_buf) Hb) as (buf & pos & -> & Htk & Hbl); [lia|].
  rewrite bind_Ret. cbv beta iota zeta. rewrite Htk, (kept_duid a sid) by done. by exists buf.
Qed.

Lemma requesting_accepts6 rx a sid c :
  c.(q_state) = STATE_REQUESTING -> dhcpv6_parse rx = Ret (Some a) -> a.(m_msg_type) = MSG_REPLY ->
  a.(m_transaction_id) = c.(q_xid) -> a.(m_server_duid) = Some sid -> (0 < length sid < 128)%nat ->
  client_v6_round (Some rx) c
  = Ret (assign inet_ntop6 ifname request_pd a, mk_client6 STATE_BOUND c.(q_xid) c.(q_buf) sid).
Proof.
  intros Hs Hp Ht Hx Hsid Hl. unfold ClientV6.client_v6_round, requesting_round6. rewrite Hs, Hp, bind_Ret, Ht, Hx, (Z.eqb_refl (q_xid c)).
  change (MSG_REPLY =? MSG_REPLY) with true. cbn [andb]. by rewrite (kept_duid a sid).
Qed.

Lemma assign_adds a : a.(m_has_requested_ip) = true ->
  exists more, assign inet_ntop6 ifname request_pd a = Executed6 (add_command inet_ntop6 ifname a.(m_requested_ip)) :: more
  /\ (request_pd = false -> more = []).
Proof. intros H. unfold assign. rewrite H. eexists. split; [reflexivity|]. by intros ->. Qed.

Lemma renewing_accepts6 c :
  c.(q_state) = STATE_RENEWING -> length c.(q_buf) = BUF_SIZE -> (length c.(q_server_duid) < 128)%nat -> exists buf,
  forall rx a, dhcpv6_parse rx = Ret (Some a) -> a.(m_msg_type) = MSG_REPLY -> a.(m_transaction_id) = c.(q_xid) ->
  client_v6_round (Some rx) c
  = Ret ([Sent6 (client_message MSG_RENEW c.(q_xid) c.(q_server_duid))],
         mk_client6 STATE_BOUND (c.(q_xid) +u32 1) buf c.(q_server_duid)).
Proof.
  intros Hs Hb Hl. destruct (build_message_small MSG_RENEW c.(q_xid) c.(q_server_duid) c.(q_buf) Hb Hl) as (buf & pos & E & Htk & _).
  exists buf. intros rx a Hp Ht Hx. unfold ClientV6.client_v6_round, renewing_round6. rewrite Hs, E, bind_Ret. cbv beta iota zeta.
  rewrite Hp, bind_Ret, Ht. cbn [set_q_buf q_xid]. rewrite Hx, (Z.eqb_refl (q_xid c)), Htk.
  by change (MSG_REPLY =? MSG_REPLY) with true.
Qed.

Lemma client_type_u8 t : t ∈ [MSG_SOLICIT; MSG_REQUEST; MSG_RENEW] -> is_u8 t.
Proof.
  rewrite !elem_of_cons. intros [->|[->|[->|Ht]]]; [done|done|done|by apply not_elem_of_nil in Ht].
Qed.

(** A message of the client, answered by a server whose pool gives the address [ip]. *)
Lemma client_answered v ob ctx client msg_type xid sid pool :
  env_ok v -> length ob = BUF_SIZE -> ctx_ok ctx -> 0 <= xid < 16777216 -> Forall is_u8 sid -> (length sid < 128)%nat ->
  msg_type ∈ [MSG_SOLICIT; MSG_REQUEST; MSG_RENEW] ->
  let idx := packet_subnet ctx client in
  let m := client_meta msg_type xid sid in
  get_pool_by_subnet ctx idx = Some pool -> r6_success (na_alloc v m idx ctx pool).1.1 = true ->
  meta_ok m /\ exists reply ctx' a, process_packet v ob ctx (client_message msg_type xid sid) client = Ret (Some reply, ctx')
    /\ dhcpv6_parse reply = Ret (Some a) /\ a.(m_msg_type) = reply_type msg_type /\ a.(m_transaction_id) = xid
    /\ a.(m_server_duid) = Some server_duid
    /\ a.(m_has_requested_ip) = true /\ a.(m_requested_ip) = r6_ip_address (na_alloc v m idx ctx pool).1.1
    /\ ctx_ok ctx' /\ ctx'.(k_config) = ctx.(k_config)
    /\ get_pool_by_subnet ctx' idx = Some (na_alloc v m idx ctx pool).1.2.
Proof.
  intros Hv Hb Hc Hx Hu Hs Ht idx m Hp Hok. destruct Hduid as (Hdu & Hne & Hdl).
  destruct (client_meta_fields client_duid request_pd msg_type xid sid) as (F1 & F2 & F3 & F4 & _ & _).
  pose proof (client_type_u8 _ Ht) as Hty.
  pose proof (client_message_parses client_duid request_pd msg_type xid sid Hx ltac:(lia) ltac:(lia)) as Hparse.
  pose proof (client_message_u8 client_duid request_pd msg_type xid sid Hty Hx Hdu Hu) as Hu8.
  split; [by eapply parse_meta_ok|].
  destruct (answered v ob ctx (client_message msg_type xid sid) client m client_duid pool) as (reply & ctx' & a & E & P & A1 & A2 & A);
    try done; [unfold m; by rewrite F1|].
  unfold m in A1, A2. rewrite F1 in A1. rewrite F2 in A2. exists reply, ctx', a. by split_and!; try apply A.
Qed.

Lemma client_message_ok msg_type xid sid :
  is_u8 msg_type -> 0 <= xid < 16777216 -> Forall is_u8 sid -> (length sid < 128)%nat ->
  Forall is_u8 (client_message msg_type xid sid) /\ meta_ok (client_meta msg_type xid sid).
Proof.
  intros Ht Hx Hu Hs. destruct Hduid as (Hdu & _ & Hdl).
  pose proof (client_message_u8 client_duid request_pd msg_type xid sid Ht Hx Hdu Hu) as Hu8. split; [done|].
  eapply parse_meta_ok; [exact Hu8|]. apply client_message_parses; lia.
Qed.

(** The messages that follow the first one get the address of the first one. *)
Lemma client_answered_again v1 v ob ctx ctx' client msg_type xid x1 pool :
  env_ok v -> length ob = BUF_SIZE -> ctx_ok ctx -> ctx_ok ctx' -> ctx'.(k_config) = ctx.(k_config) ->
  0 <= x1 < 16777216 -> 0 <= xid < 16777216 -> msg_type ∈ [MSG_SOLICIT; MSG_REQUEST; MSG_RENEW] ->
  let idx := packet_subnet ctx client in
  let al := na_alloc v1 (client_meta MSG_SOLICIT x1 []) idx ctx pool in
  get_pool_by_subnet ctx idx = Some pool -> static_host (hex_loop client_duid) pool.(q_subnet) = None ->
  r6_success al.1.1 = true -> get_pool_by_subnet ctx' idx = Some al.1.2 ->
  exists reply ctx2 a, process_packet v ob ctx' (client_message msg_type xid server_duid) client = Ret (Some reply, ctx2)
    /\ dhcpv6_parse reply = Ret (Some a) /\ a.(m_msg_type) = reply_type msg_type /\ a.(m_transaction_id) = xid
    /\ a.(m_server_duid) = Some server_duid
    /\ a.(m_has_requested_ip) = true /\ a.(m_requested_ip) = r6_ip_address al.1.1
    /\ ctx_ok ctx2 /\ ctx2.(k_config) = ctx.(k_config) /\ get_pool_by_subnet ctx2 idx = Some al.1.2.
Proof.
  intros Hv Hb Hc Hc' Hcfg Hx1 Hx Ht idx al Hp Hh Hok Hp'. destruct Hduid as (_ & Hne & Hdl).
  assert (Forall is_u8 server_duid) as Hsu by (apply u8_bytes; reflexivity).
  assert (packet_subnet ctx' client = idx) as Eidx by (unfold packet_subnet, idx; by rewrite Hcfg).
  destruct (client_message_ok MSG_SOLICIT x1 []) as [_ Hm1]; [done|done|constructor|simpl; lia|].
  destruct (client_message_ok msg_type xid server_duid) as [_ Hm]; [by apply client_type_u8|done|done|simpl; lia|].
  destruct (na_alloc_again v1 v (client_meta MSG_SOLICIT x1 []) (client_meta msg_type xid server_duid) idx ctx ctx' client_duid pool)
    as (S1 & S2 & S3); try done; try apply client_meta_fields. fold al in S1, S2, S3.
  destruct (client_answered v ob ctx' client msg_type xid server_duid al.1.2) as (_ & reply & ctx2 & a & H); try done;
    rewrite ?Eidx; try done; [simpl; lia|].
  rewrite Eidx, S2, S3, Hcfg in H. by exists reply, ctx2, a.
Qed.

End Exchange6.

(** ** The buffer of the messages *)

(** A writer that takes [n] bytes of the buffer when they are left, and writes past it when
    they are not. *)
Definition takes (n : nat) (f : list Z * nat -> outcome (list Z * nat)) : Prop :=
  forall buf pos, (pos <= length buf)%nat ->
  if bool_decide (pos + n <= length buf)%nat
  then exists buf', f (buf, pos) = Ret (buf', (pos + n)%nat) /\ length buf' = length buf
  else f (buf, pos) = Fault OutOfBounds.

Lemma takes_nothing : takes 0 Ret.
Proof. intros buf pos H. rewrite bool_decide_eq_true_2 by lia. exists buf. by rewrite Nat.add_0_r. Qed.

Lemma takes_bind n m f g : takes n f -> takes m g -> takes (n + m) (fun at_ => at_ ← f at_; g at_).
Proof.
  intros Hf Hg buf pos Hpos. specialize (Hf buf pos Hpos). destruct (decide (pos + n <= length buf)%nat) as [H1|H1]; cycle 1.
  { rewrite bool_decide_eq_false_2 in Hf by lia. rewrite bool_decide_eq_false_2 by lia. by rewrite Hf. }
  rewrite bool_decide_eq_true_2 in Hf by done. destruct Hf as (b1 & E1 & L1). specialize (Hg b1 (pos + n)%nat ltac:(lia)). rewrite E1, bind_Ret, Nat.add_assoc, <- L1. exact Hg.
Qed.

Lemma takes_write n bs : length bs = n ->
  takes n (fun at_ => buf ← write_bytes at_.2 bs at_.1; Ret (buf, (at_.2 + n)%nat)).
Proof.
  intros Hn buf pos _. cbn [fst snd]. case_bool_decide as H.
  - destruct (write_bytes_ok pos bs buf) as (b & E); [lia|]. rewrite E, bind_Ret. exists b. split; [done|].
    by apply write_bytes_length in E.
  - unfold write_bytes. by rewrite bool_decide_eq_false_2 by lia.
Qed.

Lemma takes_option code data : takes (4 + length data) (write_option code data).
Proof.
  intros buf pos Hpos.
  pose proof (takes_bind _ _ _ _ (takes_write 2 (be16 code) eq_refl)
    (takes_bind _ _ _ _ (takes_write 2 (be16 (Z.of_nat (length data))) eq_refl) (takes_write _ data eq_refl)) buf pos Hpos) as H.
  cbn beta in H. assert ((pos + 2 + 2)%nat = (pos + OPT_HDR)%nat) as E by (unfold OPT_HDR; lia).
  unfold write_option. cbn [fst snd] in H. revert H. change (2 + (2 + length data))%nat with (4 + length data)%nat.
  destruct (write_bytes pos (be16 code) buf) as [b1|f]; [|done]. rewrite !bind_Ret. cbn [fst snd].
  destruct (write_bytes (pos + 2) _ b1) as [b2|f]; [|done]. rewrite !bind_Ret. cbn [fst snd]. by rewrite E.
Qed.

Section Memory6.
Context (inet_ntop6 : in6_addr -> cstr) (ifname client_duid : list Z) (request_pd : bool).

#[local] Abbreviation client_v6_round := (client_v6_round inet_ntop6 ifname client_duid request_pd).

(** The bytes of a message. *)
Definition message_size (server_duid : list Z) : nat :=
  4 + ((4 + length client_duid) + ((if bool_decide (0 < length server_duid)%nat then 4 + length server_duid else 0)
  + (16 + (if request_pd then 16 else 0)))).

Lemma build_message_size msg_type xid server_duid buf :
  if bool_decide (message_size server_duid <= length buf)%nat
  then exists buf', build_message client_duid request_pd msg_type xid server_duid buf = Ret (buf', message_size server_duid)
       /\ length buf' = length buf
  else build_message client_duid request_pd msg_type xid server_duid buf = Fault OutOfBounds.
Proof.
  assert (takes (if bool_decide (0 < length server_duid)%nat then 4 + length server_duid else 0)
    (fun at_ => if bool_decide (0 < length server_duid)%nat then write_option OPT_SERVERID server_duid at_ else Ret at_)) as T3
    by (case_bool_decide; [apply takes_option|apply takes_nothing]).
  assert (takes (if request_pd then 16 else 0)
    (fun at_ => if request_pd then write_option OPT_IA_PD (ia_data (CLIENT_IAID + 1)) at_ else Ret at_)) as T5
    by (destruct request_pd; [apply (takes_option OPT_IA_PD (ia_data (CLIENT_IAID + 1)))|apply takes_nothing]).
  pose proof (takes_bind _ _ _ _ (takes_write 4 (msg_type :: dhcpv6_set_xid xid) eq_refl) (takes_bind _ _ _ _
    (takes_option OPT_CLIENTID client_duid) (takes_bind _ _ _ _ T3 (takes_bind _ _ _ _
    (takes_option OPT_IA_NA (ia_data CLIENT_IAID)) T5))) buf 0%nat ltac:(lia)) as H.
  revert H. cbn [fst snd]. change (length (ia_data CLIENT_IAID)) with 12%nat. unfold build_message, message_size.
  change MSG_HDR with 4%nat. by destruct (write_bytes 0 (msg_type :: dhcpv6_set_xid xid) buf).
Qed.

(** An ADVERTISE of the transaction with a server DUID that leaves no room for the rest of
    the REQUEST. *)
Definition long_advertise (rx : option (list Z)) (c : client6) : Prop :=
  c.(q_state) = STATE_SOLICITING /\ exists p a, rx = Some p /\ dhcpv6_parse p = Ret (Some a)
  /\ a.(m_msg_type) = MSG_ADVERTISE /\ a.(m_transaction_id) = c.(q_xid)
  /\ (4058 < length (default [] a.(m_server_duid)) + (if request_pd then 16 else 0))%nat.

Definition client6_wf (c : client6) : Prop :=
  length c.(q_buf) = BUF_SIZE /\ (length c.(q_server_duid) < 128)%nat.

Lemma kept_duid_wf a c : client6_wf c -> client6_wf (keep_server_duid a c).
Proof.
  intros [? ?]. unfold keep_server_duid. destruct (m_server_duid a) as [d|]; [|done]. repeat case_bool_decide; done.
Qed.

Hypothesis Hten : length client_duid = 10%nat.

Lemma message_fits sid : (message_size sid <= BUF_SIZE)%nat <-> (length sid + (if request_pd then 16 else 0) <= 4058)%nat.
Proof. unfold message_size, BUF_SIZE. rewrite Hten. case_bool_decide; destruct request_pd; lia. Qed.

Lemma build_fits msg_type xid sid buf : length buf = BUF_SIZE -> (length sid < 128)%nat ->
  exists buf', build_message client_duid request_pd msg_type xid sid buf = Ret (buf', message_size sid)
  /\ length buf' = BUF_SIZE.
Proof.
  intros Hb Hs. pose proof (build_message_size msg_type xid sid buf) as H. rewrite Hb in H.
  rewrite bool_decide_eq_true_2 in H; [done|]. apply message_fits. destruct request_pd; lia.
Qed.

Lemma soliciting_buffer rx c : client6_wf c -> c.(q_state) = STATE_SOLICITING ->
  match soliciting_round client_duid request_pd rx c with
  | Ret (_, c') => client6_wf c' /\ ~ long_advertise rx c
  | Fault f => f = OutOfBounds /\ long_advertise rx c
  end.
Proof.
  intros [Hb Hs] Est. unfold soliciting_round. destruct rx as [p|]; [|split; [done|by intros (_ & ? & ? & ? & _)]].
  destruct (parse_returns p) as [[a|] Hp]; rewrite Hp, bind_Ret; cycle 1.
  { split; [done|]. intros (_ & p' & a & E & ? & _). congruence. }
  destruct ((m_msg_type a =? MSG_ADVERTISE) && (m_transaction_id a =? q_xid c)) eqn:Et; cycle 1.
  { split; [done|]. intros (_ & p' & a' & [= <-] & Hp' & ? & ? & _). assert (a' = a) as -> by congruence.
    apply andb_false_iff in Et. rewrite !Z.eqb_neq in Et. tauto. }
  apply andb_true_iff in Et as [Et Ex]. apply Z.eqb_eq in Et, Ex.
  pose proof (build_message_size MSG_REQUEST (c.(q_xid) +u32 1) (default [] (m_server_duid a)) c.(q_buf)) as H. rewrite Hb in H.
  case_bool_decide as Hf; rewrite message_fits in Hf.
  - destruct H as (b & -> & Hl). rewrite bind_Ret. split.
    + by apply (kept_duid_wf a (set_q_buf b c)).
    + intros (_ & p' & a' & [= <-] & Hp' & _ & _ & Hlen). assert (a' = a) as -> by congruence. lia.
  - rewrite H. split; [done|]. split; [done|]. exists p, a. split_and!; try done. lia.
Qed.

Lemma requesting_buffer rx c : client6_wf c ->
  exists es c', requesting_round6 inet_ntop6 ifname request_pd rx c = Ret (es, c') /\ client6_wf c'.
Proof.
  intros H. unfold requesting_round6. destruct rx as [p|]; [|eauto].
  destruct (parse_returns p) as [[a|] ->]; rewrite bind_Ret; [|eauto]. case_match; [|eauto].
  eexists _, _. split; [done|]. by apply (kept_duid_wf a c).
Qed.

Lemma renewing_buffer rx c : client6_wf c ->
  exists es c', renewing_round6 client_duid request_pd rx c = Ret (es, c') /\ client6_wf c'.
Proof.
  intros [Hb Hs]. unfold renewing_round6. destruct (build_fits MSG_RENEW c.(q_xid) c.(q_server_duid) c.(q_buf) Hb Hs) as (b & -> & Hl).
  rewrite bind_Ret. destruct rx as [p|]; [|by eexists _, _].
  destruct (parse_returns p) as [[a|] ->]; rewrite bind_Ret; [|by eexists _, _]. case_match; by eexists _, _.
Qed.

(** C25: the buffer of the client's messages.  A round of the client writes only within its
    buffer of 4096 bytes and keeps the buffer and the kept server DUID of less than 128 bytes
    as they are sized, except when it gets an ADVERTISE of its transaction whose server DUID
    has more than 4058 bytes, 4042 when a prefix is asked for too: then, and only then, the
    REQUEST is written past the end of the buffer. *)
Theorem client6_buffer (rx : option (list Z)) (c : client6) :
  client6_wf c ->
  match client_v6_round rx c with
  | Ret (_, c') => client6_wf c' /\ ~ long_advertise rx c
  | Fault f => f = OutOfBounds /\ long_advertise rx c
  end.
Proof.
  intros Hw. assert (q_state c <> STATE_SOLICITING -> ~ long_advertise rx c) as Hn by (intros ? [? _]; done).
  unfold ClientV6.client_v6_round. destruct (q_state c) eqn:Est; [..|by split; [|apply Hn]|].
  - unfold init_round6. destruct Hw as [Hb Hs].
    destruct (build_fits MSG_SOLICIT c.(q_xid) [] c.(q_buf) Hb ltac:(simpl; lia)) as (b & -> & Hl).
    rewrite bind_Ret. by split; [|apply Hn].
  - by apply soliciting_buffer.
  - destruct (requesting_buffer rx c Hw) as (es & c' & -> & ?). by split; [|apply Hn].
  - destruct (renewing_buffer rx c Hw) as (es & c' & -> & ?). by split; [|apply Hn].
Qed.
End Memory6.

(** ** Examples *)

Definition example_duid : list Z := generate_duid [2; 0; 0; 0; 0; 1].

(** The text of an address, as pairs of hexadecimal digits. *)
Definition hex_ntop (ip : in6_addr) : cstr := hex_loop ip.


(** The ADVERTISE that overflows the buffer: a datagram of 4071 bytes with a server DUID of
    4059. *)
Definition overflowing_advertise : list Z :=
  (MSG_ADVERTISE :: dhcpv6_set_xid 0x123456) ++ enc_opts [(OPT_SERVERID, replicate 4059 7)].

Lemma client6_buffer_witness :
  client_v6_round hex_ntop (lit "eth0") example_duid false (Some overflowing_advertise)
    (set_q_state STATE_SOLICITING (client6_start (replicate BUF_SIZE 0))) = Fault OutOfBounds
  /\ (length overflowing_advertise <= BUF_SIZE)%nat.
Proof.
  split; [|by vm_compute; lia].
  pose proof (client6_buffer hex_ntop (lit "eth0") example_duid false eq_refl (Some overflowing_advertise)
    (set_q_state STATE_SOLICITING (client6_start (replicate BUF_SIZE 0))) ltac:(split; [apply length_replicate|simpl; lia])) as H.
  destruct (client_v6_round _ _ _ _ _ _) as [[es c']|f]; [|by destruct H as [-> _]]. exfalso. apply (proj2 H). split; [done|].
  eexists overflowing_advertise, _. split; [done|]. split; [vm_compute; reflexivity|]. split_and!; [done|done|]. apply Nat.ltb_lt. vm_compute. reflexivity.
Defined.

(** A REPLY without an address, as of a server that has none left, makes the client bound
    all the same. *)
Example bound_without_address :
  ('(es, c) ← client_v6_round hex_ntop (lit "eth0") example_duid false
     (Some ((MSG_REPLY :: dhcpv6_set_xid 5) ++ enc_opts [(OPT_SERVERID, [0; 3])])) (mk_client6 STATE_REQUESTING 5 [] []);
  Ret (es, c.(q_state))) = Ret ([], STATE_BOUND).
Proof. vm_compute. reflexivity. Qed.
