(* ===== verification/ConfigFileV4.v ===== *)
(** The file parser of the DHCPv4 configuration: [parse_global_option],
    [parse_subnet_option], [parse_host_block], [parse_subnet_block] and [parse_config_file]
    of DHCPv4/src/config_v4.c.

    The file is the list of the bytes left to read, since the parser mixes [fgets] with
    [fgetc]; [inet_pton] is a parameter.  The records are those of [ConfigV4].  A slot of an
    array that is being filled and not yet counted is passed along beside the list of the
    part in use: a host block that fails leaves its fields for the next one. *)

From Stdlib Require Import String.
From stdpp Require Import list.
From S2P Require Import Prelude ConfigV4 UtilsV6 CText UtilsV4.

Definition MAX_NTP_SERVERS : nat := 4.

Definition MAX_NETBIOS_SERVERS : nat := 4.

Definition MAX_HOSTNAME_LENGTH : nat := 256.

Definition MAX_DOMAIN_LENGTH : nat := 256.

(** ** Updates of the records *)

Definition set_g_authoritative (v : bool) (r : dhcp_global_options_t) : dhcp_global_options_t :=
  mk_dhcp_global_options v r.(g_ping_check) r.(g_ping_timeout) r.(g_ddns_update_style)
    r.(g_default_lease_time) r.(g_max_lease_time) r.(g_dns_servers) r.(g_ntp_servers)
    r.(g_netbios_servers) r.(g_time_offset) r.(g_next_server) r.(g_filename)
    r.(g_tftp_server_name) r.(g_bootfile_name) r.(g_renewal_time) r.(g_rebinding_time)
    r.(g_allow_unknown_clients) r.(g_allow_bootp) r.(g_update_conflict_detection).

Definition set_g_ping_check (v : bool) (r : dhcp_global_options_t) : dhcp_global_options_t :=
  mk_dhcp_global_options r.(g_authoritative) v r.(g_ping_timeout) r.(g_ddns_update_style)
    r.(g_default_lease_time) r.(g_max_lease_time) r.(g_dns_servers) r.(g_ntp_servers)
    r.(g_netbios_servers) r.(g_time_offset) r.(g_next_server) r.(g_filename)
    r.(g_tftp_server_name) r.(g_bootfile_name) r.(g_renewal_time) r.(g_rebinding_time)
    r.(g_allow_unknown_clients) r.(g_allow_bootp) r.(g_update_conflict_detection).

Definition set_g_ping_timeout (v : Z) (r : dhcp_global_options_t) : dhcp_global_options_t :=
  mk_dhcp_global_options r.(g_authoritative) r.(g_ping_check) v r.(g_ddns_update_style)
    r.(g_default_lease_time) r.(g_max_lease_time) r.(g_dns_servers) r.(g_ntp_servers)
    r.(g_netbios_servers) r.(g_time_offset) r.(g_next_server) r.(g_filename)
    r.(g_tftp_server_name) r.(g_bootfile_name) r.(g_renewal_time) r.(g_rebinding_time)
    r.(g_allow_unknown_clients) r.(g_allow_bootp) r.(g_update_conflict_detection).

Definition set_g_ddns_update_style (v : ddns_update_style_t) (r : dhcp_global_options_t) : dhcp_global_options_t :=
  mk_dhcp_global_options r.(g_authoritative) r.(g_ping_check) r.(g_ping_timeout) v
    r.(g_default_lease_time) r.(g_max_lease_time) r.(g_dns_servers) r.(g_ntp_servers)
    r.(g_netbios_servers) r.(g_time_offset) r.(g_next_server) r.(g_filename)
    r.(g_tftp_server_name) r.(g_bootfile_name) r.(g_renewal_time) r.(g_rebinding_time)
    r.(g_allow_unknown_clients) r.(g_allow_bootp) r.(g_update_conflict_detection).

Definition set_g_default_lease_time (v : Z) (r : dhcp_global_options_t) : dhcp_global_options_t :=
  mk_dhcp_global_options r.(g_authoritative) r.(g_ping_check) r.(g_ping_timeout)
    r.(g_ddns_update_style) v r.(g_max_lease_time) r.(g_dns_servers) r.(g_ntp_servers)
    r.(g_netbios_servers) r.(g_time_offset) r.(g_next_server) r.(g_filename)
    r.(g_tftp_server_name) r.(g_bootfile_name) r.(g_renewal_time) r.(g_rebinding_time)
    r.(g_allow_unknown_clients) r.(g_allow_bootp) r.(g_update_conflict_detection).

Definition set_g_max_lease_time (v : Z) (r : dhcp_global_options_t) : dhcp_global_options_t :=
  mk_dhcp_global_options r.(g_authoritative) r.(g_ping_check) r.(g_ping_timeout)
    r.(g_ddns_update_style) r.(g_default_lease_time) v r.(g_dns_servers) r.(g_ntp_servers)
    r.(g_netbios_servers) r.(g_time_offset) r.(g_next_server) r.(g_filename)
    r.(g_tftp_server_name) r.(g_bootfile_name) r.(g_renewal_time) r.(g_rebinding_time)
    r.(g_allow_unknown_clients) r.(g_allow_bootp) r.(g_update_conflict_detection).

Definition set_g_dns_servers (v : list Z) (r : dhcp_global_options_t) : dhcp_global_options_t :=
  mk_dhcp_global_options r.(g_authoritative) r.(g_ping_check) r.(g_ping_timeout)
    r.(g_ddns_update_style) r.(g_default_lease_time) r.(g_max_lease_time) v
    r.(g_ntp_servers) r.(g_netbios_servers) r.(g_time_offset) r.(g_next_server)
    r.(g_filename) r.(g_tftp_server_name) r.(g_bootfile_name) r.(g_renewal_time)
    r.(g_rebinding_time) r.(g_allow_unknown_clients) r.(g_allow_bootp)
    r.(g_update_conflict_detection).

Definition set_g_ntp_servers (v : list Z) (r : dhcp_global_options_t) : dhcp_global_options_t :=
  mk_dhcp_global_options r.(g_authoritative) r.(g_ping_check) r.(g_ping_timeout)
    r.(g_ddns_update_style) r.(g_default_lease_time) r.(g_max_lease_time) r.(g_dns_servers)
    v r.(g_netbios_servers) r.(g_time_offset) r.(g_next_server) r.(g_filename)
    r.(g_tftp_server_name) r.(g_bootfile_name) r.(g_renewal_time) r.(g_rebinding_time)
    r.(g_allow_unknown_clients) r.(g_allow_bootp) r.(g_update_conflict_detection).

Definition set_g_netbios_servers (v : list Z) (r : dhcp_global_options_t) : dhcp_global_options_t :=
  mk_dhcp_global_options r.(g_authoritative) r.(g_ping_check) r.(g_ping_timeout)
    r.(g_ddns_update_style) r.(g_default_lease_time) r.(g_max_lease_time) r.(g_dns_servers)
    r.(g_ntp_servers) v r.(g_time_offset) r.(g_next_server) r.(g_filename)
    r.(g_tftp_server_name) r.(g_bootfile_name) r.(g_renewal_time) r.(g_rebinding_time)
    r.(g_allow_unknown_clients) r.(g_allow_bootp) r.(g_update_conflict_detection).

Definition set_g_time_offset (v : Z) (r : dhcp_global_options_t) : dhcp_global_options_t :=
  mk_dhcp_global_options r.(g_authoritative) r.(g_ping_check) r.(g_ping_timeout)
    r.(g_ddns_update_style) r.(g_default_lease_time) r.(g_max_lease_time) r.(g_dns_servers)
    r.(g_ntp_servers) r.(g_netbios_servers) v r.(g_next_server) r.(g_filename)
    r.(g_tftp_server_name) r.(g_bootfile_name) r.(g_renewal_time) r.(g_rebinding_time)
    r.(g_allow_unknown_clients) r.(g_allow_bootp) r.(g_update_conflict_detection).

Definition set_g_next_server (v : Z) (r : dhcp_global_options_t) : dhcp_global_options_t :=
  mk_dhcp_global_options r.(g_authoritative) r.(g_ping_check) r.(g_ping_timeout)
    r.(g_ddns_update_style) r.(g_default_lease_time) r.(g_max_lease_time) r.(g_dns_servers)
    r.(g_ntp_servers) r.(g_netbios_servers) r.(g_time_offset) v r.(g_filename)
    r.(g_tftp_server_name) r.(g_bootfile_name) r.(g_renewal_time) r.(g_rebinding_time)
    r.(g_allow_unknown_clients) r.(g_allow_bootp) r.(g_update_conflict_detection).

Definition set_g_filename (v : string) (r : dhcp_global_options_t) : dhcp_global_options_t :=
  mk_dhcp_global_options r.(g_authoritative) r.(g_ping_check) r.(g_ping_timeout)
    r.(g_ddns_update_style) r.(g_default_lease_time) r.(g_max_lease_time) r.(g_dns_servers)
    r.(g_ntp_servers) r.(g_netbios_servers) r.(g_time_offset) r.(g_next_server) v
    r.(g_tftp_server_name) r.(g_bootfile_name) r.(g_renewal_time) r.(g_rebinding_time)
    r.(g_allow_unknown_clients) r.(g_allow_bootp) r.(g_update_conflict_detection).

Definition set_g_tftp_server_name (v : string) (r : dhcp_global_options_t) : dhcp_global_options_t :=
  mk_dhcp_global_options r.(g_authoritative) r.(g_ping_check) r.(g_ping_timeout)
    r.(g_ddns_update_style) r.(g_default_lease_time) r.(g_max_lease_time) r.(g_dns_servers)
    r.(g_ntp_servers) r.(g_netbios_servers) r.(g_time_offset) r.(g_next_server)
    r.(g_filename) v r.(g_bootfile_name) r.(g_renewal_time) r.(g_rebinding_time)
    r.(g_allow_unknown_clients) r.(g_allow_bootp) r.(g_update_conflict_detection).

Definition set_g_bootfile_name (v : string) (r : dhcp_global_options_t) : dhcp_global_options_t :=
  mk_dhcp_global_options r.(g_authoritative) r.(g_ping_check) r.(g_ping_timeout)
    r.(g_ddns_update_style) r.(g_default_lease_time) r.(g_max_lease_time) r.(g_dns_servers)
    r.(g_ntp_servers) r.(g_netbios_servers) r.(g_time_offset) r.(g_next_server)
    r.(g_filename) r.(g_tftp_server_name) v r.(g_renewal_time) r.(g_rebinding_time)
    r.(g_allow_unknown_clients) r.(g_allow_bootp) r.(g_update_conflict_detection).

Definition set_g_renewal_time (v : Z) (r : dhcp_global_options_t) : dhcp_global_options_t :=
  mk_dhcp_global_options r.(g_authoritative) r.(g_ping_check) r.(g_ping_timeout)
    r.(g_ddns_update_style) r.(g_default_lease_time) r.(g_max_lease_time) r.(g_dns_servers)
    r.(g_ntp_servers) r.(g_netbios_servers) r.(g_time_offset) r.(g_next_server)
    r.(g_filename) r.(g_tftp_server_name) r.(g_bootfile_name) v r.(g_rebinding_time)
    r.(g_allow_unknown_clients) r.(g_allow_bootp) r.(g_update_conflict_detection).

Definition set_g_rebinding_time (v : Z) (r : dhcp_global_options_t) : dhcp_global_options_t :=
  mk_dhcp_global_options r.(g_authoritative) r.(g_ping_check) r.(g_ping_timeout)
    r.(g_ddns_update_style) r.(g_default_lease_time) r.(g_max_lease_time) r.(g_dns_servers)
    r.(g_ntp_servers) r.(g_netbios_servers) r.(g_time_offset) r.(g_next_server)
    r.(g_filename) r.(g_tftp_server_name) r.(g_bootfile_name) r.(g_renewal_time) v
    r.(g_allow_unknown_clients) r.(g_allow_bootp) r.(g_update_conflict_detection).

Definition set_g_allow_unknown_clients (v : bool) (r : dhcp_global_options_t) : dhcp_global_options_t :=
  mk_dhcp_global_options r.(g_authoritative) r.(g_ping_check) r.(g_ping_timeout)
    r.(g_ddns_update_style) r.(g_default_lease_time) r.(g_max_lease_time) r.(g_dns_servers)
    r.(g_ntp_servers) r.(g_netbios_servers) r.(g_time_offset) r.(g_next_server)
    r.(g_filename) r.(g_tftp_server_name) r.(g_bootfile_name) r.(g_renewal_time)
    r.(g_rebinding_time) v r.(g_allow_bootp) r.(g_update_conflict_detection).

Definition set_g_allow_bootp (v : bool) (r : dhcp_global_options_t) : dhcp_global_options_t :=
  mk_dhcp_global_options r.(g_authoritative) r.(g_ping_check) r.(g_ping_timeout)
    r.(g_ddns_update_style) r.(g_default_lease_time) r.(g_max_lease_time) r.(g_dns_servers)
    r.(g_ntp_servers) r.(g_netbios_servers) r.(g_time_offset) r.(g_next_server)
    r.(g_filename) r.(g_tftp_server_name) r.(g_bootfile_name) r.(g_renewal_time)
    r.(g_rebinding_time) r.(g_allow_unknown_clients) v r.(g_update_conflict_detection).

Definition set_g_update_conflict_detection (v : bool) (r : dhcp_global_options_t) : dhcp_global_options_t :=
  mk_dhcp_global_options r.(g_authoritative) r.(g_ping_check) r.(g_ping_timeout)
    r.(g_ddns_update_style) r.(g_default_lease_time) r.(g_max_lease_time) r.(g_dns_servers)
    r.(g_ntp_servers) r.(g_netbios_servers) r.(g_time_offset) r.(g_next_server)
    r.(g_filename) r.(g_tftp_server_name) r.(g_bootfile_name) r.(g_renewal_time)
    r.(g_rebinding_time) r.(g_allow_unknown_clients) r.(g_allow_bootp) v.

Definition set_h_name (v : string) (r : dhcp_host_reservation_t) : dhcp_host_reservation_t :=
  mk_dhcp_host_reservation v r.(h_mac_address) r.(h_fixed_address) r.(h_hostname).

Definition set_h_mac_address (v : list Z) (r : dhcp_host_reservation_t) : dhcp_host_reservation_t :=
  mk_dhcp_host_reservation r.(h_name) v r.(h_fixed_address) r.(h_hostname).

Definition set_h_fixed_address (v : Z) (r : dhcp_host_reservation_t) : dhcp_host_reservation_t :=
  mk_dhcp_host_reservation r.(h_name) r.(h_mac_address) v r.(h_hostname).

Definition set_h_hostname (v : string) (r : dhcp_host_reservation_t) : dhcp_host_reservation_t :=
  mk_dhcp_host_reservation r.(h_name) r.(h_mac_address) r.(h_fixed_address) v.

Definition set_s_network (v : Z) (r : dhcp_subnet_t) : dhcp_subnet_t :=
  mk_dhcp_subnet v r.(s_netmask) r.(s_range_start) r.(s_range_end) r.(s_router)
    r.(s_broadcast) r.(s_subnet_mask) r.(s_domain_name) r.(s_dns_servers) r.(s_ntp_servers)
    r.(s_netbios_servers) r.(s_time_offset) r.(s_default_lease_time) r.(s_max_lease_time)
    r.(s_next_server) r.(s_filename) r.(s_tftp_server_name) r.(s_bootfile_name)
    r.(s_renewal_time) r.(s_rebinding_time) r.(s_hosts).

Definition set_s_netmask (v : Z) (r : dhcp_subnet_t) : dhcp_subnet_t :=
  mk_dhcp_subnet r.(s_network) v r.(s_range_start) r.(s_range_end) r.(s_router)
    r.(s_broadcast) r.(s_subnet_mask) r.(s_domain_name) r.(s_dns_servers) r.(s_ntp_servers)
    r.(s_netbios_servers) r.(s_time_offset) r.(s_default_lease_time) r.(s_max_lease_time)
    r.(s_next_server) r.(s_filename) r.(s_tftp_server_name) r.(s_bootfile_name)
    r.(s_renewal_time) r.(s_rebinding_time) r.(s_hosts).

Definition set_s_range_start (v : Z) (r : dhcp_subnet_t) : dhcp_subnet_t :=
  mk_dhcp_subnet r.(s_network) r.(s_netmask) v r.(s_range_end) r.(s_router) r.(s_broadcast)
    r.(s_subnet_mask) r.(s_domain_name) r.(s_dns_servers) r.(s_ntp_servers)
    r.(s_netbios_servers) r.(s_time_offset) r.(s_default_lease_time) r.(s_max_lease_time)
    r.(s_next_server) r.(s_filename) r.(s_tftp_server_name) r.(s_bootfile_name)
    r.(s_renewal_time) r.(s_rebinding_time) r.(s_hosts).

Definition set_s_range_end (v : Z) (r : dhcp_subnet_t) : dhcp_subnet_t :=
  mk_dhcp_subnet r.(s_network) r.(s_netmask) r.(s_range_start) v r.(s_router)
    r.(s_broadcast) r.(s_subnet_mask) r.(s_domain_name) r.(s_dns_servers) r.(s_ntp_servers)
    r.(s_netbios_servers) r.(s_time_offset) r.(s_default_lease_time) r.(s_max_lease_time)
    r.(s_next_server) r.(s_filename) r.(s_tftp_server_name) r.(s_bootfile_name)
    r.(s_renewal_time) r.(s_rebinding_time) r.(s_hosts).

Definition set_s_router (v : Z) (r : dhcp_subnet_t) : dhcp_subnet_t :=
  mk_dhcp_subnet r.(s_network) r.(s_netmask) r.(s_range_start) r.(s_range_end) v
    r.(s_broadcast) r.(s_subnet_mask) r.(s_domain_name) r.(s_dns_servers) r.(s_ntp_servers)
    r.(s_netbios_servers) r.(s_time_offset) r.(s_default_lease_time) r.(s_max_lease_time)
    r.(s_next_server) r.(s_filename) r.(s_tftp_server_name) r.(s_bootfile_name)
    r.(s_renewal_time) r.(s_rebinding_time) r.(s_hosts).

Definition set_s_broadcast (v : Z) (r : dhcp_subnet_t) : dhcp_subnet_t :=
  mk_dhcp_subnet r.(s_network) r.(s_netmask) r.(s_range_start) r.(s_range_end) r.(s_router)
    v r.(s_subnet_mask) r.(s_domain_name) r.(s_dns_servers) r.(s_ntp_servers)
    r.(s_netbios_servers) r.(s_time_offset) r.(s_default_lease_time) r.(s_max_lease_time)
    r.(s_next_server) r.(s_filename) r.(s_tftp_server_name) r.(s_bootfile_name)
    r.(s_renewal_time) r.(s_rebinding_time) r.(s_hosts).

Definition set_s_subnet_mask (v : Z) (r : dhcp_subnet_t) : dhcp_subnet_t :=
  mk_dhcp_subnet r.(s_network) r.(s_netmask) r.(s_range_start) r.(s_range_end) r.(s_router)
    r.(s_broadcast) v r.(s_domain_name) r.(s_dns_servers) r.(s_ntp_servers)
    r.(s_netbios_servers) r.(s_time_offset) r.(s_default_lease_time) r.(s_max_lease_time)
    r.(s_next_server) r.(s_filename) r.(s_tftp_server_name) r.(s_bootfile_name)
    r.(s_renewal_time) r.(s_rebinding_time) r.(s_hosts).

Definition set_s_domain_name (v : string) (r : dhcp_subnet_t) : dhcp_subnet_t :=
  mk_dhcp_subnet r.(s_network) r.(s_netmask) r.(s_range_start) r.(s_range_end) r.(s_router)
    r.(s_broadcast) r.(s_subnet_mask) v r.(s_dns_servers) r.(s_ntp_servers)
    r.(s_netbios_servers) r.(s_time_offset) r.(s_default_lease_time) r.(s_max_lease_time)
    r.(s_next_server) r.(s_filename) r.(s_tftp_server_name) r.(s_bootfile_name)
    r.(s_renewal_time) r.(s_rebinding_time) r.(s_hosts).

Definition set_s_dns_servers (v : list Z) (r : dhcp_subnet_t) : dhcp_subnet_t :=
  mk_dhcp_subnet r.(s_network) r.(s_netmask) r.(s_range_start) r.(s_range_end) r.(s_router)
    r.(s_broadcast) r.(s_subnet_mask) r.(s_domain_name) v r.(s_ntp_servers)
    r.(s_netbios_servers) r.(s_time_offset) r.(s_default_lease_time) r.(s_max_lease_time)
    r.(s_next_server) r.(s_filename) r.(s_tftp_server_name) r.(s_bootfile_name)
    r.(s_renewal_time) r.(s_rebinding_time) r.(s_hosts).

Definition set_s_ntp_servers (v : list Z) (r : dhcp_subnet_t) : dhcp_subnet_t :=
  mk_dhcp_subnet r.(s_network) r.(s_netmask) r.(s_range_start) r.(s_range_end) r.(s_router)
    r.(s_broadcast) r.(s_subnet_mask) r.(s_domain_name) r.(s_dns_servers) v
    r.(s_netbios_servers) r.(s_time_offset) r.(s_default_lease_time) r.(s_max_lease_time)
    r.(s_next_server) r.(s_filename) r.(s_tftp_server_name) r.(s_bootfile_name)
    r.(s_renewal_time) r.(s_rebinding_time) r.(s_hosts).

Definition set_s_netbios_servers (v : list Z) (r : dhcp_subnet_t) : dhcp_subnet_t :=
  mk_dhcp_subnet r.(s_network) r.(s_netmask) r.(s_range_start) r.(s_range_end) r.(s_router)
    r.(s_broadcast) r.(s_subnet_mask) r.(s_domain_name) r.(s_dns_servers) r.(s_ntp_servers)
    v r.(s_time_offset) r.(s_default_lease_time) r.(s_max_lease_time) r.(s_next_server)
    r.(s_filename) r.(s_tftp_server_name) r.(s_bootfile_name) r.(s_renewal_time)
    r.(s_rebinding_time) r.(s_hosts).

Definition set_s_time_offset (v : Z) (r : dhcp_subnet_t) : dhcp_subnet_t :=
  mk_dhcp_subnet r.(s_network) r.(s_netmask) r.(s_range_start) r.(s_range_end) r.(s_router)
    r.(s_broadcast) r.(s_subnet_mask) r.(s_domain_name) r.(s_dns_servers) r.(s_ntp_servers)
    r.(s_netbios_servers) v r.(s_default_lease_time) r.(s_max_lease_time) r.(s_next_server)
    r.(s_filename) r.(s_tftp_server_name) r.(s_bootfile_name) r.(s_renewal_time)
    r.(s_rebinding_time) r.(s_hosts).

Definition set_s_default_lease_time (v : Z) (r : dhcp_subnet_t) : dhcp_subnet_t :=
  mk_dhcp_subnet r.(s_network) r.(s_netmask) r.(s_range_start) r.(s_range_end) r.(s_router)
    r.(s_broadcast) r.(s_subnet_mask) r.(s_domain_name) r.(s_dns_servers) r.(s_ntp_servers)
    r.(s_netbios_servers) r.(s_time_offset) v r.(s_max_lease_time) r.(s_next_server)
    r.(s_filename) r.(s_tftp_server_name) r.(s_bootfile_name) r.(s_renewal_time)
    r.(s_rebinding_time) r.(s_hosts).

Definition set_s_max_lease_time (v : Z) (r : dhcp_subnet_t) : dhcp_subnet_t :=
  mk_dhcp_subnet r.(s_network) r.(s_netmask) r.(s_range_start) r.(s_range_end) r.(s_router)
    r.(s_broadcast) r.(s_subnet_mask) r.(s_domain_name) r.(s_dns_servers) r.(s_ntp_servers)
    r.(s_netbios_servers) r.(s_time_offset) r.(s_default_lease_time) v r.(s_next_server)
    r.(s_filename) r.(s_tftp_server_name) r.(s_bootfile_name) r.(s_renewal_time)
    r.(s_rebinding_time) r.(s_hosts).

Definition set_s_next_server (v : Z) (r : dhcp_subnet_t) : dhcp_subnet_t :=
  mk_dhcp_subnet r.(s_network) r.(s_netmask) r.(s_range_start) r.(s_range_end) r.(s_router)
    r.(s_broadcast) r.(s_subnet_mask) r.(s_domain_name) r.(s_dns_servers) r.(s_ntp_servers)
    r.(s_netbios_servers) r.(s_time_offset) r.(s_default_lease_time) r.(s_max_lease_time) v
    r.(s_filename) r.(s_tftp_server_name) r.(s_bootfile_name) r.(s_renewal_time)
    r.(s_rebinding_time) r.(s_hosts).

Definition set_s_filename (v : string) (r : dhcp_subnet_t) : dhcp_subnet_t :=
  mk_dhcp_subnet r.(s_network) r.(s_netmask) r.(s_range_start) r.(s_range_end) r.(s_router)
    r.(s_broadcast) r.(s_subnet_mask) r.(s_domain_name) r.(s_dns_servers) r.(s_ntp_servers)
    r.(s_netbios_servers) r.(s_time_offset) r.(s_default_lease_time) r.(s_max_lease_time)
    r.(s_next_server) v r.(s_tftp_server_name) r.(s_bootfile_name) r.(s_renewal_time)
    r.(s_rebinding_time) r.(s_hosts).

Definition set_s_tftp_server_name (v : string) (r : dhcp_subnet_t) : dhcp_subnet_t :=
  mk_dhcp_subnet r.(s_network) r.(s_netmask) r.(s_range_start) r.(s_range_end) r.(s_router)
    r.(s_broadcast) r.(s_subnet_mask) r.(s_domain_name) r.(s_dns_servers) r.(s_ntp_servers)
    r.(s_netbios_servers) r.(s_time_offset) r.(s_default_lease_time) r.(s_max_lease_time)
    r.(s_next_server) r.(s_filename) v r.(s_bootfile_name) r.(s_renewal_time)
    r.(s_rebinding_time) r.(s_hosts).

Definition set_s_bootfile_name (v : string) (r : dhcp_subnet_t) : dhcp_subnet_t :=
  mk_dhcp_subnet r.(s_network) r.(s_netmask) r.(s_range_start) r.(s_range_end) r.(s_router)
    r.(s_broadcast) r.(s_subnet_mask) r.(s_domain_name) r.(s_dns_servers) r.(s_ntp_servers)
    r.(s_netbios_servers) r.(s_time_offset) r.(s_default_lease_time) r.(s_max_lease_time)
    r.(s_next_server) r.(s_filename) r.(s_tftp_server_name) v r.(s_renewal_time)
    r.(s_rebinding_time) r.(s_hosts).

Definition set_s_renewal_time (v : Z) (r : dhcp_subnet_t) : dhcp_subnet_t :=
  mk_dhcp_subnet r.(s_network) r.(s_netmask) r.(s_range_start) r.(s_range_end) r.(s_router)
    r.(s_broadcast) r.(s_subnet_mask) r.(s_domain_name) r.(s_dns_servers) r.(s_ntp_servers)
    r.(s_netbios_servers) r.(s_time_offset) r.(s_default_lease_time) r.(s_max_lease_time)
    r.(s_next_server) r.(s_filename) r.(s_tftp_server_name) r.(s_bootfile_name) v
    r.(s_rebinding_time) r.(s_hosts).

Definition set_s_rebinding_time (v : Z) (r : dhcp_subnet_t) : dhcp_subnet_t :=
  mk_dhcp_subnet r.(s_network) r.(s_netmask) r.(s_range_start) r.(s_range_end) r.(s_router)
    r.(s_broadcast) r.(s_subnet_mask) r.(s_domain_name) r.(s_dns_servers) r.(s_ntp_servers)
    r.(s_netbios_servers) r.(s_time_offset) r.(s_default_lease_time) r.(s_max_lease_time)
    r.(s_next_server) r.(s_filename) r.(s_tftp_server_name) r.(s_bootfile_name)
    r.(s_renewal_time) v r.(s_hosts).

Definition set_s_hosts (v : list dhcp_host_reservation_t) (r : dhcp_subnet_t) : dhcp_subnet_t :=
  mk_dhcp_subnet r.(s_network) r.(s_netmask) r.(s_range_start) r.(s_range_end) r.(s_router)
    r.(s_broadcast) r.(s_subnet_mask) r.(s_domain_name) r.(s_dns_servers) r.(s_ntp_servers)
    r.(s_netbios_servers) r.(s_time_offset) r.(s_default_lease_time) r.(s_max_lease_time)
    r.(s_next_server) r.(s_filename) r.(s_tftp_server_name) r.(s_bootfile_name)
    r.(s_renewal_time) r.(s_rebinding_time) v.

Definition set_c_global (v : dhcp_global_options_t) (r : dhcp_config_t) : dhcp_config_t :=
  mk_dhcp_config v r.(c_subnets).

Definition set_c_subnets (v : list dhcp_subnet_t) (r : dhcp_config_t) : dhcp_config_t :=
  mk_dhcp_config r.(c_global) v.

(** The zeroed records; [DDNS_NONE] is 0. *)
Definition zero_global : dhcp_global_options_t :=
  mk_dhcp_global_options false false 0 DDNS_NONE 0 0 [] [] [] 0 0 "" "" "" 0 0 false false false.

Definition zero_host : dhcp_host_reservation_t := mk_dhcp_host_reservation "" (replicate 6 0) 0 "".

Definition zero_subnet : dhcp_subnet_t :=
  mk_dhcp_subnet 0 0 0 0 0 0 0 "" [] [] [] 0 0 0 0 "" "" "" 0 0 [].

Section Parser.
Context (inet_pton4 : cstr -> option Z).

(** ** Values

    Each of these returns the code the options return (0 or -2) and the field. *)

(** [parse_ip_list] writes the addresses before the one that fails into the array, the
    count is not changed then. *)
Definition list_value (value : cstr) (max_count : nat) (old : list Z) : Z * list Z :=
  let '(count, written) := parse_ip_list inet_pton4 value max_count in
  if count <? 0 then (-2, take (length old) (written ++ drop (length written) old))
  else (0, written).

Definition uint_value (value : cstr) (old : Z) : Z * Z :=
  let '(r, v) := parse_uint32 value old in
  if r =? 0 then (0, v) else (-2, old).

(** The same through a cast pointer to [int32_t]. *)
Definition int_value (value : cstr) (old : Z) : Z * Z :=
  let '(r, v) := parse_uint32 value (u32 old) in
  if r =? 0 then (0, i32 v) else (-2, old).

Definition ip_value (value : cstr) (old : Z) : Z * Z :=
  match parse_ip_address inet_pton4 value with
  | Some a => (0, a)
  | None => (-2, old)
  end.

(** [remove_quotes] and [strncpy] into an array of 256 bytes. *)
Definition string_value (value : cstr) : string := strncpy_field 256 (of_cstr (remove_quotes value)).

(** A field written by one of the functions above. *)
Definition store {A R} (set : A -> R -> R) (p : Z * A) (r : R) : Z * R := (p.1, set p.2 r).

(** ** Global options *)

Definition global_option (opt_name opt_value : cstr) (g : dhcp_global_options_t)
    : Z * dhcp_global_options_t :=
  if bool_decide (opt_name = lit "domain-name-servers") then
    store set_g_dns_servers (list_value opt_value MAX_DNS_SERVERS g.(g_dns_servers)) g
  else if bool_decide (opt_name = lit "ntp-servers") then
    store set_g_ntp_servers (list_value opt_value MAX_NTP_SERVERS g.(g_ntp_servers)) g
  else if bool_decide (opt_name = lit "netbios-name-servers") then
    store set_g_netbios_servers (list_value opt_value MAX_NETBIOS_SERVERS g.(g_netbios_servers)) g
  else if bool_decide (opt_name = lit "time-offset") then
    store set_g_time_offset (int_value opt_value g.(g_time_offset)) g
  else if bool_decide (opt_name = lit "tftp-server-name") then
    (0, set_g_tftp_server_name (string_value opt_value) g)
  else if bool_decide (opt_name = lit "bootfile-name") then
    (0, set_g_bootfile_name (string_value opt_value) g)
  else if bool_decide (opt_name = lit "dhcp-renewal-time") then
    store set_g_renewal_time (uint_value opt_value g.(g_renewal_time)) g
  else if bool_decide (opt_name = lit "dhcp-rebinding-time") then
    store set_g_rebinding_time (uint_value opt_value g.(g_rebinding_time)) g
  else (0, g).

Definition global_value (key value : cstr) (g : dhcp_global_options_t) : Z * dhcp_global_options_t :=
  if bool_decide (key = lit "default-lease-time") then
    store set_g_default_lease_time (uint_value value g.(g_default_lease_time)) g
  else if bool_decide (key = lit "max-lease-time") then
    store set_g_max_lease_time (uint_value value g.(g_max_lease_time)) g
  else if bool_decide (key = lit "ddns-update-style") then
    (0, set_g_ddns_update_style (ddns_update_style_from_string (Some (of_cstr value))) g)
  else if bool_decide (key = lit "ping-check") then
    (0, set_g_ping_check (bool_decide (value = lit "true")) g)
  else if bool_decide (key = lit "ping-timeout") then
    store set_g_ping_timeout (uint_value value g.(g_ping_timeout)) g
  else if bool_decide (key = lit "next-server") then
    store set_g_next_server (ip_value value g.(g_next_server)) g
  else if bool_decide (key = lit "filename") then (0, set_g_filename (string_value value) g)
  else if bool_decide (key = lit "allow") then
    if bool_decide (value = lit "unknown-clients") then (0, set_g_allow_unknown_clients true g)
    else if bool_decide (value = lit "bootp") then (0, set_g_allow_bootp true g)
    else (0, g)
  else if bool_decide (key = lit "deny") then
    if bool_decide (value = lit "unknown-clients") then (0, set_g_allow_unknown_clients false g)
    else if bool_decide (value = lit "bootp") then (0, set_g_allow_bootp false g)
    else (0, g)
  else if bool_decide (key = lit "update-conflict-detection") then
    (0, set_g_update_conflict_detection (bool_decide (value = lit "true")) g)
  else (0, g).

Definition parse_global_option (line : cstr) (g : dhcp_global_options_t)
    : Z * dhcp_global_options_t :=
  let '(key, rest) := strtok [32; 9; 59] line in
  match key with
  | None => (-2, g)
  | Some key =>
      if bool_decide (key = lit "authoritative") then (0, set_g_authoritative true g)
      else if bool_decide (key = lit "option") then
        let '(opt_name, rest) := strtok [32; 9] rest in
        let '(opt_value, _) := strtok [59] rest in
        match opt_name, opt_value with
        | Some opt_name, Some opt_value => global_option opt_name (trim opt_value) g
        | _, _ => (-2, g)
        end
      else
        match (strtok [59] rest).1 with
        | None => (-2, g)
        | Some value => global_value key (trim value) g
        end
  end.

(** ** Options of a subnet *)

Definition subnet_option (opt_name opt_value : cstr) (s : dhcp_subnet_t) : Z * dhcp_subnet_t :=
  if bool_decide (opt_name = lit "routers") then store set_s_router (ip_value opt_value s.(s_router)) s
  else if bool_decide (opt_name = lit "broadcast-address") then
    store set_s_broadcast (ip_value opt_value s.(s_broadcast)) s
  else if bool_decide (opt_name = lit "subnet-mask") then
    store set_s_subnet_mask (ip_value opt_value s.(s_subnet_mask)) s
  else if bool_decide (opt_name = lit "domain-name") then
    (* [strncpy] may fill all of the array and leave it without a terminator. *)
    (0, set_s_domain_name (String.substring 0 MAX_DOMAIN_LENGTH (of_cstr (remove_quotes opt_value))) s)
  else if bool_decide (opt_name = lit "domain-name-servers") then
    store set_s_dns_servers (list_value opt_value MAX_DNS_SERVERS s.(s_dns_servers)) s
  else if bool_decide (opt_name = lit "time-offset") then
    store set_s_time_offset (int_value opt_value s.(s_time_offset)) s
  else if bool_decide (opt_name = lit "ntp-servers") then
    store set_s_ntp_servers (list_value opt_value MAX_NTP_SERVERS s.(s_ntp_servers)) s
  else if bool_decide (opt_name = lit "netbios-name-servers") then
    store set_s_netbios_servers (list_value opt_value MAX_NTP_SERVERS s.(s_netbios_servers)) s
  else if bool_decide (opt_name = lit "tftp-server-name") then
    (0, set_s_tftp_server_name (string_value opt_value) s)
  else if bool_decide (opt_name = lit "bootfile-name") then
    (0, set_s_bootfile_name (string_value opt_value) s)
  else if bool_decide (opt_name = lit "dhcp-renewal-time") then
    store set_s_renewal_time (uint_value opt_value s.(s_renewal_time)) s
  else if bool_decide (opt_name = lit "dhcp-rebinding-time") then
    store set_s_rebinding_time (uint_value opt_value s.(s_rebinding_time)) s
  else (0, s).

(** [range start end;]: the second address is not looked at when the first is wrong. *)
Definition subnet_range (start end_ : cstr) (s : dhcp_subnet_t) : Z * dhcp_subnet_t :=
  match parse_ip_address inet_pton4 start with
  | None => (-2, s)
  | Some a =>
      let s := set_s_range_start a s in
      store set_s_range_end (ip_value end_ s.(s_range_end)) s
  end.

(** A statement whose value may be missing. *)
Definition optional_value (rest : cstr) (s : dhcp_subnet_t) (f : cstr -> Z * dhcp_subnet_t)
    : Z * dhcp_subnet_t :=
  match (strtok [59] rest).1 with
  | Some value => f (trim value)
  | None => (0, s)
  end.

Definition parse_subnet_option (line : cstr) (s : dhcp_subnet_t) : Z * dhcp_subnet_t :=
  let '(token, rest) := strtok [32; 9] line in
  match token with
  | None => (-2, s)
  | Some token =>
      if bool_decide (token = lit "range") then
        let '(start, rest) := strtok [32; 9] rest in
        let '(end_, _) := strtok [59] rest in
        match start, end_ with
        | Some start, Some end_ => subnet_range (trim start) (trim end_) s
        | _, _ => (0, s)
        end
      else if bool_decide (token = lit "option") then
        let '(opt_name, rest) := strtok [32; 9] rest in
        let '(opt_value, _) := strtok [59] rest in
        match opt_name, opt_value with
        | Some opt_name, Some opt_value => subnet_option opt_name (trim opt_value) s
        | _, _ => (-2, s)
        end
      else if bool_decide (token = lit "default-lease-time") then
        optional_value rest s (fun v => store set_s_default_lease_time (uint_value v s.(s_default_lease_time)) s)
      else if bool_decide (token = lit "max-lease-time") then
        optional_value rest s (fun v => store set_s_max_lease_time (uint_value v s.(s_max_lease_time)) s)
      else if bool_decide (token = lit "next-server") then
        optional_value rest s (fun v => store set_s_next_server (ip_value v s.(s_next_server)) s)
      else if bool_decide (token = lit "filename") then
        optional_value rest s (fun v => (0, set_s_filename (string_value v) s))
      else (0, s)
  end.

(** ** Host blocks *)

(** One line of a host block: the code and the slot. *)
Definition parse_host_line (trimmed : cstr) (host : dhcp_host_reservation_t)
    : Z * dhcp_host_reservation_t :=
  let '(token, rest) := strtok [32; 9] trimmed in
  match token with
  | None => (0, host)
  | Some token =>
      if bool_decide (token = lit "hardware-ethernet") then
        match (strtok [59] rest).1 with
        | Some mac =>
            match parse_mac_address (trim mac) with
            | Some m => (0, set_h_mac_address m host)
            | None => (-2, host)
            end
        | None => (0, host)
        end
      else if bool_decide (token = lit "fixed-address") then
        match (strtok [59] rest).1 with
        | Some ip => store set_h_fixed_address (ip_value (trim ip) host.(h_fixed_address)) host
        | None => (0, host)
        end
      else if bool_decide (token = lit "option") then
        let '(opt_name, rest) := strtok [32; 9] rest in
        if bool_decide (opt_name = Some (lit "host-name")) then
          match (strtok [59] rest).1 with
          | Some hostname => (0, set_h_hostname (string_value (trim hostname)) host)
          | None => (0, host)
          end
        else (0, host)
      else (0, host)
  end.

(** A line that the block loops look at: neither empty nor a comment. *)
Definition skipped (trimmed : cstr) : bool := bool_decide (trimmed = []) || (byte_at trimmed 0 =? 35).

(** The loop of [parse_host_block]: the code, the bytes left, the hosts in use and the
    slot after them. *)
Fixpoint host_loop (fuel : nat) (fp : cstr) (hosts : list dhcp_host_reservation_t)
    (host : dhcp_host_reservation_t)
    : outcome (Z * cstr * list dhcp_host_reservation_t * dhcp_host_reservation_t) :=
  match fuel with
  | O => Fault OutOfFuel
  | S fuel =>
      match fgets fp with
      | None => Ret (0, fp, hosts, host)
      | Some (line, fp) =>
          let trimmed := trim (c_string line) in
          if skipped trimmed then host_loop fuel fp hosts host
          else if bool_decide (125 ∈ trimmed) then Ret (0, fp, hosts ++ [host], zero_host)
          else
            let '(r, host) := parse_host_line trimmed host in
            if r =? 0 then host_loop fuel fp hosts host else Ret (r, fp, hosts, host)
      end
  end.

Definition parse_host_block (fp : cstr) (hosts : list dhcp_host_reservation_t)
    (host : dhcp_host_reservation_t)
    : outcome (Z * cstr * list dhcp_host_reservation_t * dhcp_host_reservation_t) :=
  if bool_decide (MAX_HOSTS_PER_SUBNET <= length hosts)%nat then Ret (-3, fp, hosts, host)
  else host_loop (S (length fp)) fp hosts host.

(** ** Subnet blocks *)

(** The loop of [parse_subnet_block]: the code, the bytes left, the subnet, and whether
    its closing brace was read. *)
Fixpoint subnet_loop (fuel : nat) (fp : cstr) (subnet : dhcp_subnet_t) (host : dhcp_host_reservation_t)
    : outcome (Z * cstr * dhcp_subnet_t * bool) :=
  match fuel with
  | O => Fault OutOfFuel
  | S fuel =>
      match fgets fp with
      | None => Ret (0, fp, subnet, false)
      | Some (line, fp) =>
          let trimmed := trim (c_string line) in
          if skipped trimmed then subnet_loop fuel fp subnet host
          else if byte_at trimmed 0 =? 125 then Ret (0, fp, subnet, true)
          else if bool_decide (take 4 trimmed = lit "host") then
            match (strtok [32; 9; 123] (drop 4 trimmed)).1 with
            | Some host_name =>
                if bool_decide (length subnet.(s_hosts) < MAX_HOSTS_PER_SUBNET)%nat then
                  let host := set_h_name (strncpy_field MAX_HOSTNAME_LENGTH (of_cstr (trim host_name))) host in
                  '(_, fp, hosts, host) ← parse_host_block fp subnet.(s_hosts) host;
                  subnet_loop fuel fp (set_s_hosts hosts subnet) host
                else subnet_loop fuel fp subnet host
            | None => subnet_loop fuel fp subnet host
            end
          else
            let '(r, subnet) := parse_subnet_option trimmed subnet in
            if r =? 0 then subnet_loop fuel fp subnet host else Ret (-2, fp, subnet, false)
      end
  end.

(** The global values a subnet does not set itself: a number or an address that is zero, an
    empty string, an empty list. *)
Definition zero_fallback (get : dhcp_subnet_t -> Z) (set : Z -> dhcp_subnet_t -> dhcp_subnet_t) (v : Z)
    (s : dhcp_subnet_t) : dhcp_subnet_t :=
  if get s =? 0 then set v s else s.

Definition string_fallback (get : dhcp_subnet_t -> string) (set : string -> dhcp_subnet_t -> dhcp_subnet_t)
    (v : string) (s : dhcp_subnet_t) : dhcp_subnet_t :=
  if bool_decide (get s = EmptyString) then set (strncpy_field 256 v) s else s.

Definition list_fallback (get : dhcp_subnet_t -> list Z) (set : list Z -> dhcp_subnet_t -> dhcp_subnet_t)
    (v : list Z) (s : dhcp_subnet_t) : dhcp_subnet_t :=
  if bool_decide (get s = []) && bool_decide (v <> []) then set v s else s.

Definition apply_fallbacks (g : dhcp_global_options_t) (s : dhcp_subnet_t) : dhcp_subnet_t :=
  let s := zero_fallback s_default_lease_time set_s_default_lease_time g.(g_default_lease_time) s in
  let s := zero_fallback s_max_lease_time set_s_max_lease_time g.(g_max_lease_time) s in
  let s := zero_fallback s_renewal_time set_s_renewal_time g.(g_renewal_time) s in
  let s := zero_fallback s_rebinding_time set_s_rebinding_time g.(g_rebinding_time) s in
  let s := zero_fallback s_next_server set_s_next_server g.(g_next_server) s in
  let s := string_fallback s_filename set_s_filename g.(g_filename) s in
  let s := string_fallback s_tftp_server_name set_s_tftp_server_name g.(g_tftp_server_name) s in
  let s := string_fallback s_bootfile_name set_s_bootfile_name g.(g_bootfile_name) s in
  let s := list_fallback s_ntp_servers set_s_ntp_servers g.(g_ntp_servers) s in
  let s := list_fallback s_netbios_servers set_s_netbios_servers g.(g_netbios_servers) s in
  let s := zero_fallback s_time_offset set_s_time_offset g.(g_time_offset) s in
  list_fallback s_dns_servers set_s_dns_servers g.(g_dns_servers) s.

(** [subnet x.x.x.x netmask y.y.y.y {]: the two addresses. *)
Definition subnet_header (first_line : cstr) : option (Z * Z) :=
  let '(token, rest) := strtok [32; 9] first_line in
  if negb (bool_decide (token = Some (lit "subnet"))) then None
  else
    let '(network, rest) := strtok [32; 9] rest in
    let '(_, rest) := strtok [32; 9] rest in
    let '(netmask, _) := strtok [32; 9; 123] rest in
    n ← network; m ← netmask;
    a ← parse_ip_address inet_pton4 n; b ← parse_ip_address inet_pton4 m;
    Some (a, b).

(** The code, the bytes left and the configuration. *)
Definition parse_subnet_block (fp : cstr) (config : dhcp_config_t) (first_line : cstr)
    : outcome (Z * cstr * dhcp_config_t) :=
  if bool_decide (MAX_SUBNETS <= length config.(c_subnets))%nat then Ret (-3, fp, config)
  else
    match subnet_header first_line with
    | None => Ret (-2, fp, config)
    | Some (network, netmask) =>
        let subnet := set_s_netmask netmask (set_s_network network zero_subnet) in
        '(r, fp, subnet, closed) ← subnet_loop (S (length fp)) fp subnet zero_host;
        if r =? 0 then
          Ret (0, fp, if closed : bool
                      then set_c_subnets (config.(c_subnets) ++ [apply_fallbacks config.(c_global) subnet]) config
                      else config)
        else Ret (r, fp, config)
    end.

(** ** The file *)

Fixpoint config_loop (fuel : nat) (fp : cstr) (config : dhcp_config_t) : outcome dhcp_config_t :=
  match fuel with
  | O => Fault OutOfFuel
  | S fuel =>
      match fgets fp with
      | None => Ret config
      | Some (line, fp) =>
          let trimmed := trim (c_string line) in
          if skipped trimmed then config_loop fuel fp config
          else if bool_decide (take 6 trimmed = lit "subnet") then
            '(r, fp, config) ← parse_subnet_block fp config trimmed;
            let fp := if r =? 0 then fp else (advance_to_next_closed_brace fp).2 in
            config_loop fuel fp config
          else config_loop fuel fp (set_c_global (parse_global_option trimmed config.(c_global)).2 config)
      end
  end.

(** What [parse_config_file] starts from. *)
Definition initial_config : dhcp_config_t :=
  mk_dhcp_config (set_g_allow_bootp true (set_g_allow_unknown_clients true zero_global)) [].

(** The return code and the configuration; the file is [None] when it cannot be opened. *)
Definition parse_config_file (file : option cstr) (config : dhcp_config_t) : outcome (Z * dhcp_config_t) :=
  match file with
  | None => Ret (-1, config)
  | Some fp => config ← config_loop (S (length fp)) fp initial_config; Ret (0, config)
  end.

Definition free_config (config : dhcp_config_t) : dhcp_config_t := mk_dhcp_config zero_global [].

(** ** The bounds of what is read *)

Definition is_i32 (z : Z) : Prop := -2147483648 <= z < 2147483648.

Definition global_ok (g : dhcp_global_options_t) : Prop :=
  Forall is_u32 [g.(g_ping_timeout); g.(g_default_lease_time); g.(g_max_lease_time);
                 g.(g_renewal_time); g.(g_rebinding_time)]
  /\ Forall (fun l => (length l <= 4)%nat) [g.(g_dns_servers); g.(g_ntp_servers); g.(g_netbios_servers)]
  /\ Forall (fun s => (String.length s < 256)%nat)
       [g.(g_filename); g.(g_tftp_server_name); g.(g_bootfile_name)]
  /\ is_i32 g.(g_time_offset).

Definition host_ok (h : dhcp_host_reservation_t) : Prop :=
  length h.(h_mac_address) = 6%nat /\ Forall is_u8 h.(h_mac_address)
  /\ (String.length h.(h_name) < 256)%nat /\ (String.length h.(h_hostname) < 256)%nat.

Definition subnet_ok (s : dhcp_subnet_t) : Prop :=
  Forall is_u32 [s.(s_default_lease_time); s.(s_max_lease_time); s.(s_renewal_time); s.(s_rebinding_time)]
  /\ Forall (fun l => (length l <= 4)%nat) [s.(s_dns_servers); s.(s_ntp_servers); s.(s_netbios_servers)]
  /\ Forall (fun x => (String.length x < 256)%nat)
       [s.(s_filename); s.(s_tftp_server_name); s.(s_bootfile_name)]
  /\ (String.length s.(s_domain_name) <= 256)%nat
  /\ is_i32 s.(s_time_offset)
  /\ (length s.(s_hosts) <= MAX_HOSTS_PER_SUBNET)%nat /\ Forall host_ok s.(s_hosts).

Definition config_ok (c : dhcp_config_t) : Prop :=
  global_ok c.(c_global) /\ (length c.(c_subnets) <= MAX_SUBNETS)%nat /\ Forall subnet_ok c.(c_subnets).

Lemma scan_digits_nonneg base s : forall acc, 0 < base -> 0 <= acc -> 0 <= (scan_digits base s acc).1.
Proof.
  induction s as [|c s IH]; intros acc Hb Ha; [done|]. cbn [scan_digits].
  destruct (digit_value c) as [d|] eqn:E; [|done]. destruct (d <? base); [|done]. apply IH; [done|].
  assert (0 <= d); [|nia]. unfold digit_value, isdigit in E.
  destruct ((48 <=? c) && (c <=? 57)) eqn:E1; [injection E; lia|].
  destruct ((97 <=? c) && (c <=? 102)) eqn:E2; [injection E; lia|].
  destruct ((65 <=? c) && (c <=? 70)) eqn:E3; [injection E; lia|done].
Qed.

Lemma parse_uint32_u32 value old : is_u32 old -> is_u32 (parse_uint32 value old).2.
Proof.
  unfold parse_uint32, strtoul10, is_u32. intros Ho. destruct (scan_sign _) as [neg s].
  destruct (starts_digit 10 s).
  - pose proof (scan_digits_nonneg 10 s 0 ltac:(lia) ltac:(lia)) as Hn.
    destruct (scan_digits 10 s 0) as [v rest]. cbn [fst] in Hn.
    destruct (_ <? v); [done|]. destruct (_ || _); [done|].
    assert (0 <= (if neg then u64 (- v) else v)) by (destruct neg; [unfold u64; apply Z.mod_pos_bound; lia|done]).
    destruct (Z.ltb_spec 4294967295 (if neg then u64 (- v) else v)); [done|]. cbn [snd]. lia.
  - destruct (_ || _); [done|]. cbn. lia.
Qed.

Lemma uint_value_u32 value old : is_u32 old -> is_u32 (uint_value value old).2.
Proof.
  intros Ho. unfold uint_value. pose proof (parse_uint32_u32 value old Ho) as H.
  destruct (parse_uint32 value old) as [r v]. by destruct (r =? 0).
Qed.

Lemma i32_range z : is_i32 (i32 z).
Proof. unfold is_i32, i32. pose proof (Z.mod_pos_bound (z + 2147483648) 4294967296 ltac:(lia)). lia. Qed.

Lemma int_value_range value old :
  is_i32 old -> is_i32 (int_value value old).2.
Proof.
  intros Ho. unfold int_value. destruct (parse_uint32 value _) as [r v]. destruct (r =? 0); [apply i32_range|done].
Qed.

Lemma ip_list_loop_length tokens : forall addrs max_count,
  (length addrs <= max_count)%nat -> (length (ip_list_loop inet_pton4 tokens addrs max_count).2 <= max_count)%nat.
Proof.
  induction tokens as [|t tokens IH]; intros addrs max_count H; [done|]. cbn [ip_list_loop].
  destruct (bool_decide (length addrs < max_count)%nat) eqn:E; [|done]. apply bool_decide_eq_true_1 in E.
  destruct (parse_ip_address _ _); [|done]. apply IH. rewrite length_app. simpl. lia.
Qed.

Lemma list_value_length value max_count old :
  (length old <= max_count)%nat -> (length (list_value value max_count old).2 <= max_count)%nat.
Proof.
  intros Ho. unfold list_value, parse_ip_list. case_bool_decide.
  - cbn. rewrite length_take. lia.
  - pose proof (ip_list_loop_length (strtok_commas value) [] max_count ltac:(simpl; lia)) as H'.
    destruct (ip_list_loop _ _ _ _) as [count written]. destruct (count <? 0); [|done].
    cbn [snd]. rewrite length_take. lia.
Qed.

Lemma substring_length s : forall n, (String.length (String.substring 0 n s) <= n)%nat.
Proof.
  induction s as [|c s IH]; intros [|n]; simpl; try lia. specialize (IH n). lia.
Qed.

Lemma strncpy_length cap s : (0 < cap)%nat -> (String.length (strncpy_field cap s) < cap)%nat.
Proof. intros H. unfold strncpy_field. pose proof (substring_length s (cap - 1)). lia. Qed.

Lemma string_value_length value : (String.length (string_value value) < 256)%nat.
Proof. apply strncpy_length. lia. Qed.

Local Ltac bounds :=
  first [done | by apply uint_value_u32 | by apply list_value_length | by apply string_value_length
        | by apply int_value_range].

(** Every branch of an option function sets one field. *)
Local Ltac option_cases :=
  repeat match goal with
         | |- context [if bool_decide ?b then _ else _] => destruct (bool_decide b)
         end; unfold store.

Lemma global_ok_iff g :
  global_ok g <->
  (is_u32 g.(g_ping_timeout) /\ is_u32 g.(g_default_lease_time) /\ is_u32 g.(g_max_lease_time)
   /\ is_u32 g.(g_renewal_time) /\ is_u32 g.(g_rebinding_time))
  /\ ((length g.(g_dns_servers) <= 4)%nat /\ (length g.(g_ntp_servers) <= 4)%nat
      /\ (length g.(g_netbios_servers) <= 4)%nat)
  /\ ((String.length g.(g_filename) < 256)%nat /\ (String.length g.(g_tftp_server_name) < 256)%nat
      /\ (String.length g.(g_bootfile_name) < 256)%nat)
  /\ is_i32 g.(g_time_offset).
Proof. unfold global_ok. rewrite !Forall_cons, !Forall_nil. tauto. Qed.

Lemma global_option_ok n v g : global_ok g -> global_ok (global_option n v g).2.
Proof.
  rewrite !global_ok_iff. intros ((?&?&?&?&?) & (?&?&?) & (?&?&?) & ?). unfold global_option.
  option_cases; cbn; split_and!; bounds.
Qed.

Lemma global_value_ok k v g : global_ok g -> global_ok (global_value k v g).2.
Proof.
  rewrite !global_ok_iff. intros ((?&?&?&?&?) & (?&?&?) & (?&?&?) & ?). unfold global_value.
  option_cases; cbn; split_and!; bounds.
Qed.

Lemma parse_global_option_ok line g : global_ok g -> global_ok (parse_global_option line g).2.
Proof.
  intros H. unfold parse_global_option. destruct (strtok _ line) as [[key|] rest]; [|done].
  destruct (bool_decide (key = lit "authoritative")).
  { revert H. rewrite !global_ok_iff. done. }
  destruct (bool_decide (key = lit "option")).
  - destruct (strtok _ rest) as [[n|] rest1], (strtok _ rest1) as [[v|] ?]; try done. by apply global_option_ok.
  - destruct (strtok [59] rest).1; [by apply global_value_ok|done].
Qed.

Lemma subnet_ok_iff s :
  subnet_ok s <->
  (is_u32 s.(s_default_lease_time) /\ is_u32 s.(s_max_lease_time) /\ is_u32 s.(s_renewal_time)
   /\ is_u32 s.(s_rebinding_time))
  /\ ((length s.(s_dns_servers) <= 4)%nat /\ (length s.(s_ntp_servers) <= 4)%nat
      /\ (length s.(s_netbios_servers) <= 4)%nat)
  /\ ((String.length s.(s_filename) < 256)%nat /\ (String.length s.(s_tftp_server_name) < 256)%nat
      /\ (String.length s.(s_bootfile_name) < 256)%nat)
  /\ (String.length s.(s_domain_name) <= 256)%nat
  /\ is_i32 s.(s_time_offset)
  /\ (length s.(s_hosts) <= MAX_HOSTS_PER_SUBNET)%nat /\ Forall host_ok s.(s_hosts).
Proof. unfold subnet_ok. rewrite !Forall_cons, !Forall_nil. tauto. Qed.

Lemma subnet_option_ok n v s : subnet_ok s -> subnet_ok (subnet_option n v s).2.
Proof.
  rewrite !subnet_ok_iff. intros ((?&?&?&?) & (?&?&?) & (?&?&?) & ? & ? & ? & ?). unfold subnet_option.
  option_cases; cbn; split_and!; first [bounds|apply substring_length].
Qed.

Lemma parse_subnet_option_ok line s : subnet_ok s -> subnet_ok (parse_subnet_option line s).2.
Proof.
  intros H. unfold parse_subnet_option. destruct (strtok _ line) as [[token|] rest]; [|done].
  destruct (bool_decide (token = lit "range")).
  { destruct (strtok _ rest) as [[a|] rest1], (strtok _ rest1) as [[b|] ?]; try done.
    unfold subnet_range. destruct (parse_ip_address _ _); [|done]. revert H. by rewrite !subnet_ok_iff. }
  destruct (bool_decide (token = lit "option")).
  { destruct (strtok _ rest) as [[n|] rest1], (strtok _ rest1) as [[v|] ?]; try done. by apply subnet_option_ok. }
  revert H. rewrite !subnet_ok_iff. intros ((?&?&?&?) & (?&?&?) & (?&?&?) & ? & ? & ? & ?).
  unfold optional_value. option_cases; destruct (strtok [59] rest).1; cbn; split_and!; bounds.
Qed.

Lemma parse_host_line_ok line h : host_ok h -> host_ok (parse_host_line line h).2.
Proof.
  intros H. unfold parse_host_line. destruct (strtok _ line) as [[token|] rest]; [|done]. unfold host_ok in *.
  option_cases.
  - destruct (strtok [59] rest).1 as [mac|]; [|done]. destruct (parse_mac_address (trim mac)) as [m|] eqn:E; [|done].
    assert (length m = 6%nat /\ Forall is_u8 m) as [? ?]; [|cbn; intuition].
    clear -E. unfold parse_mac_address in E.
    repeat match goal with
           | E : (?x ≫= _) = Some _ |- _ => destruct x as [?|] eqn:?; cbn [mbind option_bind] in E; [|done]
           | E : (match ?p with (_, _) => _ end) = Some _ |- _ => destruct p
           end.
    injection E as <-. split; [done|]. unfold is_u8, u8. repeat constructor; apply Z.mod_pos_bound; lia.
  - destruct (strtok [59] rest).1; cbn; intuition.
  - destruct (strtok _ rest) as [n rest1]. option_cases; [|done].
    destruct (strtok [59] rest1).1; cbn; intuition. apply string_value_length.
  - done.
Qed.

Lemma zero_host_ok : host_ok zero_host.
Proof. unfold host_ok, is_u8. cbn. split_and!; [done| |lia|lia]. repeat constructor; lia. Qed.

Lemma host_loop_ends fuel : forall fp hosts host,
  (length fp < fuel)%nat -> Forall host_ok hosts -> host_ok host ->
  exists r fp' hosts' host', host_loop fuel fp hosts host = Ret (r, fp', hosts', host')
    /\ (length fp' <= length fp)%nat /\ Forall host_ok hosts' /\ host_ok host'
    /\ (length hosts' <= S (length hosts))%nat.
Proof.
  induction fuel as [|fuel IH]; intros fp hosts host Hf Hs Hh; [lia|]. cbn [host_loop].
  destruct (fgets fp) as [[line fp1]|] eqn:E.
  2:{ eexists _, _, _, _. split; [reflexivity|]. split_and!; [lia|done|done|lia]. }
  apply fgets_shorter in E.
  assert (forall host, host_ok host -> exists r fp' hosts' host',
    host_loop fuel fp1 hosts host = Ret (r, fp', hosts', host')
    /\ (length fp' <= length fp)%nat /\ Forall host_ok hosts' /\ host_ok host'
    /\ (length hosts' <= S (length hosts))%nat) as Hnext.
  { intros h Hh'. destruct (IH fp1 hosts h ltac:(lia) Hs Hh') as (r & fp' & hs & h' & -> & ? & ? & ? & ?).
    eexists _, _, _, _. split; [reflexivity|]. split_and!; [lia|done|done|lia]. }
  destruct (skipped _); [by apply Hnext|]. case_bool_decide.
  - eexists _, _, _, _. split; [reflexivity|]. split_and!; [lia| |apply zero_host_ok|rewrite length_app; simpl; lia].
    apply Forall_app. split; [done|]. constructor; [done|constructor].
  - pose proof (parse_host_line_ok (trim (c_string line)) host Hh) as Hok.
    destruct (parse_host_line _ host) as [r host']. cbn [snd] in Hok. destruct (r =? 0); [by apply Hnext|].
    eexists _, _, _, _. split; [reflexivity|]. split_and!; [lia|done|done|lia].
Qed.

Lemma subnet_hosts_ok s hosts :
  subnet_ok s -> Forall host_ok hosts -> (length hosts <= MAX_HOSTS_PER_SUBNET)%nat ->
  subnet_ok (set_s_hosts hosts s).
Proof. rewrite !subnet_ok_iff. cbn. tauto. Qed.

Lemma subnet_loop_ends fuel : forall fp s host,
  (length fp < fuel)%nat -> subnet_ok s -> host_ok host ->
  exists r fp' s' closed, subnet_loop fuel fp s host = Ret (r, fp', s', closed)
    /\ (length fp' <= length fp)%nat /\ subnet_ok s'.
Proof.
  induction fuel as [|fuel IH]; intros fp s host Hf Hs Hh; [lia|]. cbn [subnet_loop].
  destruct (fgets fp) as [[line fp1]|] eqn:E; [|by eexists _, _, _, _].
  apply fgets_shorter in E. set (trimmed := trim (c_string line)).
  assert (forall fp2 s host, (length fp2 <= length fp1)%nat -> subnet_ok s -> host_ok host ->
    exists r fp' s' closed, subnet_loop fuel fp2 s host = Ret (r, fp', s', closed)
    /\ (length fp' <= length fp)%nat /\ subnet_ok s') as Hnext.
  { intros fp2 s2 h2 Hl H1 H2. destruct (IH fp2 s2 h2 ltac:(lia) H1 H2) as (r & fp' & s' & cl & -> & ? & ?).
    eexists _, _, _, _. split; [reflexivity|]. split; [lia|done]. }
  destruct (skipped trimmed); [by apply Hnext|]. destruct (byte_at trimmed 0 =? 125).
  { eexists _, _, _, _. split; [reflexivity|]. split; [lia|done]. }
  destruct (bool_decide (take 4 trimmed = lit "host")).
  - destruct (strtok _ _).1 as [name|]; [|by apply Hnext].
    destruct (bool_decide (length s.(s_hosts) < MAX_HOSTS_PER_SUBNET)%nat) eqn:Hc; [|by apply Hnext].
    apply bool_decide_eq_true_1 in Hc. unfold parse_host_block. rewrite bool_decide_eq_false_2 by lia.
    assert (Forall host_ok s.(s_hosts)) as Hhs by apply Hs.
    destruct (host_loop_ends (S (length fp1)) fp1 s.(s_hosts)
      (set_h_name (strncpy_field MAX_HOSTNAME_LENGTH (of_cstr (trim name))) host))
      as (r & fp' & hs & h' & -> & ? & ? & ? & ?); [lia|done| |].
    { unfold host_ok in *. cbn. intuition. apply strncpy_length. unfold MAX_HOSTNAME_LENGTH. lia. }
    rewrite bind_Ret. apply Hnext; [lia| |done]. apply subnet_hosts_ok; [done|done|lia].
  - pose proof (parse_subnet_option_ok trimmed s Hs) as Hok.
    destruct (parse_subnet_option trimmed s) as [r s']. cbn [snd] in Hok. destruct (r =? 0); [by apply Hnext|].
    eexists _, _, _, _. split; [reflexivity|]. split; [lia|done].
Qed.

Lemma zero_fallback_ok get set v s :
  (forall s, subnet_ok s -> subnet_ok (set v s)) -> subnet_ok s -> subnet_ok (zero_fallback get set v s).
Proof. intros H Hs. unfold zero_fallback. case_match; auto. Qed.

Lemma string_fallback_ok get set v s :
  (forall s, subnet_ok s -> subnet_ok (set (strncpy_field 256 v) s)) -> subnet_ok s ->
  subnet_ok (string_fallback get set v s).
Proof. intros H Hs. unfold string_fallback. case_match; auto. Qed.

Lemma list_fallback_ok get set v s :
  (forall s, subnet_ok s -> subnet_ok (set v s)) -> subnet_ok s -> subnet_ok (list_fallback get set v s).
Proof. intros H Hs. unfold list_fallback. case_match; auto. Qed.

Lemma apply_fallbacks_ok g s : global_ok g -> subnet_ok s -> subnet_ok (apply_fallbacks g s).
Proof.
  rewrite global_ok_iff. intros ((?&?&?&?&?) & (?&?&?) & (?&?&?) & ?) Hs. unfold apply_fallbacks.
  pose proof (strncpy_length 256 g.(g_filename) ltac:(lia)).
  pose proof (strncpy_length 256 g.(g_tftp_server_name) ltac:(lia)).
  pose proof (strncpy_length 256 g.(g_bootfile_name) ltac:(lia)).
  repeat first [apply zero_fallback_ok | apply string_fallback_ok | apply list_fallback_ok]; [..|exact Hs].
  all: clear Hs; intros x Hx; rewrite subnet_ok_iff in Hx |- *;
    destruct Hx as ((?&?&?&?) & (?&?&?) & (?&?&?) & ? & ? & ? & ?); cbn; split_and!; assumption.
Qed.

Lemma parse_subnet_block_ends fp config first_line :
  config_ok config ->
  exists r fp' config', parse_subnet_block fp config first_line = Ret (r, fp', config')
    /\ (length fp' <= length fp)%nat /\ config_ok config' /\ c_global config' = c_global config.
Proof.
  intros (Hg & Hl & Hs). unfold parse_subnet_block.
  destruct (bool_decide (MAX_SUBNETS <= length config.(c_subnets))%nat) eqn:Hc.
  { by eexists _, _, _. }
  apply bool_decide_eq_false_1 in Hc. destruct (subnet_header first_line) as [[n m]|]; [|by eexists _, _, _].
  destruct (subnet_loop_ends (S (length fp)) fp (set_s_netmask m (set_s_network n zero_subnet)) zero_host)
    as (r & fp' & s & closed & -> & Hlen & Hok).
  - lia.
  - rewrite subnet_ok_iff. unfold is_u32, is_i32, MAX_HOSTS_PER_SUBNET. cbn. split_and!; try lia. constructor.
  - apply zero_host_ok.
  - rewrite bind_Ret. destruct (r =? 0); [|by eexists _, _, _]. eexists _, _, _. split; [reflexivity|].
    split; [done|]. destruct closed; [|done]. split; [|done]. split; [done|]. cbn [set_c_subnets c_subnets].
    split; [rewrite length_app; cbn [length]; lia|]. apply Forall_app. split; [done|].
    constructor; [by apply apply_fallbacks_ok|constructor].
Qed.

Lemma brace_loop_shorter fp : forall n, (length (brace_loop fp n).2 <= length fp)%nat.
Proof.
  induction fp as [|c fp IH]; intros n; [done|]. cbn [brace_loop length].
  destruct (c =? 123); [by etransitivity; [apply IH|lia]|].
  destruct (c =? 125); [|by etransitivity; [apply IH|lia]].
  destruct (n =? 0); [cbn; lia|]. by etransitivity; [apply IH|lia].
Qed.

Lemma config_loop_ends fuel : forall fp config,
  (length fp < fuel)%nat -> config_ok config ->
  exists config', config_loop fuel fp config = Ret config' /\ config_ok config'.
Proof.
  induction fuel as [|fuel IH]; intros fp config Hf Hok; [lia|]. cbn [config_loop].
  destruct (fgets fp) as [[line fp1]|] eqn:E; [|by eexists]. apply fgets_shorter in E.
  destruct (skipped _); [apply IH; [lia|done]|]. destruct (bool_decide _).
  - destruct (parse_subnet_block_ends fp1 config (trim (c_string line)) Hok) as (r & fp' & c' & -> & Hl & Hc & _).
    rewrite bind_Ret. cbv beta iota zeta. apply IH; [|done]. destruct (r =? 0); [lia|].
    pose proof (brace_loop_shorter fp' 0). unfold advance_to_next_closed_brace. lia.
  - apply IH; [lia|]. destruct Hok as (Hg & Hrest). split; [|done]. by apply parse_global_option_ok.
Qed.

(** C18: whatever the file holds, [parse_config_file] ends and returns 0, and what it reads
    fits the arrays of the configuration: at most 32 subnets of at most 128 hosts, at most
    four servers of a kind, strings with room for their terminators (the domain name
    apart), times of 32 bits and hardware addresses of six bytes. *)
Theorem config_v4_parse_bounds (contents : cstr) (config : dhcp_config_t) :
  exists config', parse_config_file (Some contents) config = Ret (0, config') /\ config_ok config'.
Proof.
  destruct (config_loop_ends (S (length contents)) contents initial_config ltac:(lia)) as (c & E & Hok).
  - split; [|split; [cbn; lia|constructor]]. rewrite global_ok_iff. unfold is_u32, is_i32. cbn. lia.
  - exists c. unfold parse_config_file. by rewrite E, bind_Ret.
Qed.

End Parser.
