(* ===== verification/ConfigFileV4Spec.v ===== *)
(** What a DHCPv4 configuration file means: statements and blocks as data, their text and
    their effect, and the theorem that the parser of [ConfigFileV4] reads the text of any
    sequence of them as their effects in order. *)

From Stdlib Require Import String.
From stdpp Require Import list.
From S2P Require Import Prelude ConfigV4 UtilsV6 CText UtilsV4 ConfigFileV4.

(** ** Statements *)

Inductive access := UnknownClients | Bootp.

Inductive g_stmt :=
| GAuthoritative
| GDefaultLease (n : Z)
| GMaxLease (n : Z)
| GDdns (style : ddns_update_style_t)
| GPingCheck (b : bool)
| GPingTimeout (n : Z)
| GNext (a : Z)
| GFilename (s : string)
| GAllow (w : access)
| GDeny (w : access)
| GConflict (b : bool)
| GDns (l : list Z)
| GNtp (l : list Z)
| GNetbios (l : list Z)
| GTimeOffset (n : Z)
| GTftp (s : string)
| GBootfile (s : string)
| GRenewal (n : Z)
| GRebinding (n : Z).

Inductive s_stmt :=
| SRange (a b : Z)
| SRouter (a : Z)
| SBroadcast (a : Z)
| SMask (a : Z)
| SDomain (s : string)
| SDns (l : list Z)
| STimeOffset (n : Z)
| SNtp (l : list Z)
| SNetbios (l : list Z)
| STftp (s : string)
| SBootfile (s : string)
| SRenewal (n : Z)
| SRebinding (n : Z)
| SDefaultLease (n : Z)
| SMaxLease (n : Z)
| SNext (a : Z)
| SFilename (s : string).

Inductive h_stmt :=
| HMac (m : list Z)
| HAddr (a : Z)
| HName (s : string).

Inductive s_item :=
| SStmt (st : s_stmt)
| SHost (name : string) (body : list h_stmt).

Inductive item :=
| IGlobal (st : g_stmt)
| ISubnet (network netmask : Z) (body : list s_item).

(** ** Their effects *)

Definition set_access (w : access) (b : bool) (g : dhcp_global_options_t) : dhcp_global_options_t :=
  match w with
  | UnknownClients => set_g_allow_unknown_clients b g
  | Bootp => set_g_allow_bootp b g
  end.

Definition g_apply (g : dhcp_global_options_t) (st : g_stmt) : dhcp_global_options_t :=
  match st with
  | GAuthoritative => set_g_authoritative true g
  | GDefaultLease n => set_g_default_lease_time n g
  | GMaxLease n => set_g_max_lease_time n g
  | GDdns style => set_g_ddns_update_style style g
  | GPingCheck b => set_g_ping_check b g
  | GPingTimeout n => set_g_ping_timeout n g
  | GNext a => set_g_next_server a g
  | GFilename s => set_g_filename s g
  | GAllow w => set_access w true g
  | GDeny w => set_access w false g
  | GConflict b => set_g_update_conflict_detection b g
  | GDns l => set_g_dns_servers l g
  | GNtp l => set_g_ntp_servers l g
  | GNetbios l => set_g_netbios_servers l g
  | GTimeOffset n => set_g_time_offset n g
  | GTftp s => set_g_tftp_server_name s g
  | GBootfile s => set_g_bootfile_name s g
  | GRenewal n => set_g_renewal_time n g
  | GRebinding n => set_g_rebinding_time n g
  end.

Definition s_apply (s : dhcp_subnet_t) (st : s_stmt) : dhcp_subnet_t :=
  match st with
  | SRange a b => set_s_range_end b (set_s_range_start a s)
  | SRouter a => set_s_router a s
  | SBroadcast a => set_s_broadcast a s
  | SMask a => set_s_subnet_mask a s
  | SDomain d => set_s_domain_name d s
  | SDns l => set_s_dns_servers l s
  | STimeOffset n => set_s_time_offset n s
  | SNtp l => set_s_ntp_servers l s
  | SNetbios l => set_s_netbios_servers l s
  | STftp x => set_s_tftp_server_name x s
  | SBootfile x => set_s_bootfile_name x s
  | SRenewal n => set_s_renewal_time n s
  | SRebinding n => set_s_rebinding_time n s
  | SDefaultLease n => set_s_default_lease_time n s
  | SMaxLease n => set_s_max_lease_time n s
  | SNext a => set_s_next_server a s
  | SFilename x => set_s_filename x s
  end.

Definition h_apply (h : dhcp_host_reservation_t) (st : h_stmt) : dhcp_host_reservation_t :=
  match st with
  | HMac m => set_h_mac_address m h
  | HAddr a => set_h_fixed_address a h
  | HName s => set_h_hostname s h
  end.

Definition s_item_apply (s : dhcp_subnet_t) (it : s_item) : dhcp_subnet_t :=
  match it with
  | SStmt st => s_apply s st
  | SHost name body =>
      set_s_hosts (s.(s_hosts) ++ [foldl h_apply (set_h_name name zero_host) body]) s
  end.

Definition subnet_run (network netmask : Z) (body : list s_item) : dhcp_subnet_t :=
  foldl s_item_apply (set_s_netmask netmask (set_s_network network zero_subnet)) body.

(** What a subnet inherits: the value of the global options wherever its own is zero, empty
    or missing; addresses, masks, the domain and the hosts are its own. *)
Definition or_empty (own inherited : string) : string := if bool_decide (own = EmptyString) then inherited else own.
Definition or_none (own inherited : list Z) : list Z := if bool_decide (own = []) then inherited else own.

Definition inherits (g : dhcp_global_options_t) (s : dhcp_subnet_t) : dhcp_subnet_t :=
  mk_dhcp_subnet s.(s_network) s.(s_netmask) s.(s_range_start) s.(s_range_end) s.(s_router) s.(s_broadcast)
    s.(s_subnet_mask) s.(s_domain_name)
    (or_none s.(s_dns_servers) g.(g_dns_servers)) (or_none s.(s_ntp_servers) g.(g_ntp_servers))
    (or_none s.(s_netbios_servers) g.(g_netbios_servers)) (or_zero s.(s_time_offset) g.(g_time_offset))
    (or_zero s.(s_default_lease_time) g.(g_default_lease_time)) (or_zero s.(s_max_lease_time) g.(g_max_lease_time))
    (or_zero s.(s_next_server) g.(g_next_server)) (or_empty s.(s_filename) g.(g_filename))
    (or_empty s.(s_tftp_server_name) g.(g_tftp_server_name)) (or_empty s.(s_bootfile_name) g.(g_bootfile_name))
    (or_zero s.(s_renewal_time) g.(g_renewal_time)) (or_zero s.(s_rebinding_time) g.(g_rebinding_time))
    s.(s_hosts).

(** A subnet takes the global values that stand before it. *)
Definition item_apply (c : dhcp_config_t) (it : item) : dhcp_config_t :=
  match it with
  | IGlobal st => set_c_global (g_apply c.(c_global) st) c
  | ISubnet network netmask body =>
      set_c_subnets (c.(c_subnets) ++ [inherits c.(c_global) (subnet_run network netmask body)]) c
  end.

Definition config_run (items : list item) : dhcp_config_t := foldl item_apply initial_config items.

(** ** The fallbacks *)

Definition strings_fit (g : dhcp_global_options_t) : Prop :=
  Forall (fun s => (String.length s < 256)%nat) [g.(g_filename); g.(g_tftp_server_name); g.(g_bootfile_name)].

(** A field that is read back after it is written, so that writing its own value is nothing. *)
Definition own_field {A} (get : dhcp_subnet_t -> A) (set : A -> dhcp_subnet_t -> dhcp_subnet_t) : Prop :=
  forall s, set (get s) s = s.

Lemma zero_fallback_set get set v s :
  own_field get set -> zero_fallback get set v s = set (or_zero (get s) v) s.
Proof. intros H. unfold zero_fallback, or_zero. destruct (get s =? 0); [done|by rewrite H]. Qed.

Lemma string_fallback_set get set v s :
  own_field get set -> (String.length v < 256)%nat -> string_fallback get set v s = set (or_empty (get s) v) s.
Proof.
  intros H Hv. unfold string_fallback, or_empty. rewrite strncpy_fits by done.
  case_bool_decide; [done|by rewrite H].
Qed.

Lemma list_fallback_set get set v s :
  own_field get set -> list_fallback get set v s = set (or_none (get s) v) s.
Proof.
  intros H. unfold list_fallback, or_none. case_bool_decide as E; cbn [andb]; [|by rewrite H].
  case_bool_decide as Ev; [done|]. by rewrite Ev, <- E, H.
Qed.

(** The assignments one after the other are the record at once. *)
Lemma apply_fallbacks_inherits g s : strings_fit g -> apply_fallbacks g s = inherits g s.
Proof.
  intros Hg. unfold strings_fit in Hg. rewrite !Forall_cons in Hg. destruct Hg as (H1 & H2 & H3 & _).
  unfold apply_fallbacks.
  rewrite !zero_fallback_set, !string_fallback_set, !list_fallback_set by (done || by intros []).
  by destruct s.
Qed.

Section Text.
Context (inet_pton4 : cstr -> option Z) (inet_ntop4 : Z -> cstr).

(** ** Their text *)

Definition statement (key : string) (value : cstr) : cstr := lit key ++ 32 :: value ++ [59].

Definition option_statement (name : string) (value : cstr) : cstr :=
  lit "option" ++ 32 :: lit name ++ 32 :: value ++ [59].

Fixpoint ip_list_text (l : list Z) : cstr :=
  match l with
  | [] => []
  | [a] => inet_ntop4 a
  | a :: r => inet_ntop4 a ++ 44 :: 32 :: ip_list_text r
  end.

Definition bool_text (b : bool) : cstr := if b then lit "true" else lit "false".

Definition access_text (w : access) : cstr :=
  match w with UnknownClients => lit "unknown-clients" | Bootp => lit "bootp" end.

Definition g_text (st : g_stmt) : cstr :=
  match st with
  | GAuthoritative => lit "authoritative;"
  | GDefaultLease n => statement "default-lease-time" (dec n)
  | GMaxLease n => statement "max-lease-time" (dec n)
  | GDdns style => statement "ddns-update-style" (lit (ddns_update_style_to_string style))
  | GPingCheck b => statement "ping-check" (bool_text b)
  | GPingTimeout n => statement "ping-timeout" (dec n)
  | GNext a => statement "next-server" (inet_ntop4 a)
  | GFilename s => statement "filename" (quoted (lit s))
  | GAllow w => statement "allow" (access_text w)
  | GDeny w => statement "deny" (access_text w)
  | GConflict b => statement "update-conflict-detection" (bool_text b)
  | GDns l => option_statement "domain-name-servers" (ip_list_text l)
  | GNtp l => option_statement "ntp-servers" (ip_list_text l)
  | GNetbios l => option_statement "netbios-name-servers" (ip_list_text l)
  | GTimeOffset n => option_statement "time-offset" (dec n)
  | GTftp s => option_statement "tftp-server-name" (quoted (lit s))
  | GBootfile s => option_statement "bootfile-name" (quoted (lit s))
  | GRenewal n => option_statement "dhcp-renewal-time" (dec n)
  | GRebinding n => option_statement "dhcp-rebinding-time" (dec n)
  end.

Definition s_text (st : s_stmt) : cstr :=
  match st with
  | SRange a b => lit "range" ++ 32 :: inet_ntop4 a ++ 32 :: inet_ntop4 b ++ [59]
  | SRouter a => option_statement "routers" (inet_ntop4 a)
  | SBroadcast a => option_statement "broadcast-address" (inet_ntop4 a)
  | SMask a => option_statement "subnet-mask" (inet_ntop4 a)
  | SDomain d => option_statement "domain-name" (quoted (lit d))
  | SDns l => option_statement "domain-name-servers" (ip_list_text l)
  | STimeOffset n => option_statement "time-offset" (dec n)
  | SNtp l => option_statement "ntp-servers" (ip_list_text l)
  | SNetbios l => option_statement "netbios-name-servers" (ip_list_text l)
  | STftp x => option_statement "tftp-server-name" (quoted (lit x))
  | SBootfile x => option_statement "bootfile-name" (quoted (lit x))
  | SRenewal n => option_statement "dhcp-renewal-time" (dec n)
  | SRebinding n => option_statement "dhcp-rebinding-time" (dec n)
  | SDefaultLease n => statement "default-lease-time" (dec n)
  | SMaxLease n => statement "max-lease-time" (dec n)
  | SNext a => statement "next-server" (inet_ntop4 a)
  | SFilename x => statement "filename" (quoted (lit x))
  end.

Definition h_text (st : h_stmt) : cstr :=
  match st with
  | HMac m => statement "hardware-ethernet" (hex_loop m)
  | HAddr a => statement "fixed-address" (inet_ntop4 a)
  | HName s => option_statement "host-name" (quoted (lit s))
  end.

(** Lines, those of a block indented. *)
Definition host_lines (body : list h_stmt) : list cstr :=
  ((fun st => 9 :: 9 :: h_text st) <$> body) ++ [[9; 125]].

Definition s_item_lines (it : s_item) : list cstr :=
  match it with
  | SStmt st => [9 :: s_text st]
  | SHost name body =>
      [9 :: lit "host" ++ 32 :: lit name ++ [32; 123]]
      ++ host_lines body
  end.

Definition item_lines (it : item) : list cstr :=
  match it with
  | IGlobal st => [g_text st]
  | ISubnet network netmask body =>
      [lit "subnet" ++ 32 :: inet_ntop4 network ++ 32 :: lit "netmask" ++ 32 :: inet_ntop4 netmask ++ [32; 123]]
      ++ concat (s_item_lines <$> body) ++ [[125]]
  end.

Definition config_text (items : list item) : cstr := print_lines (concat (item_lines <$> items)).

(** ** The statements a file can hold *)

Definition ips_ok (l : list Z) : Prop :=
  (1 <= length l <= 4)%nat /\ Forall (ip_ok inet_pton4 inet_ntop4) l.

Definition g_ok (st : g_stmt) : Prop :=
  match st with
  | GAuthoritative | GDdns _ | GPingCheck _ | GAllow _ | GDeny _ | GConflict _ => True
  | GDefaultLease n | GMaxLease n | GPingTimeout n | GRenewal n | GRebinding n => is_u32 n
  | GTimeOffset n => 0 <= n < 2147483648
  | GNext a => ip_ok inet_pton4 inet_ntop4 a
  | GFilename s | GTftp s | GBootfile s => string_ok 256 s
  | GDns l | GNtp l | GNetbios l => ips_ok l
  end.

Definition s_ok (st : s_stmt) : Prop :=
  match st with
  | SRange a b => ip_ok inet_pton4 inet_ntop4 a /\ ip_ok inet_pton4 inet_ntop4 b
  | SRouter a | SBroadcast a | SMask a | SNext a => ip_ok inet_pton4 inet_ntop4 a
  | SDomain s | STftp s | SBootfile s | SFilename s => string_ok 256 s
  | SDns l | SNtp l | SNetbios l => ips_ok l
  | STimeOffset n => 0 <= n < 2147483648
  | SRenewal n | SRebinding n | SDefaultLease n | SMaxLease n => is_u32 n
  end.

(** A closing brace anywhere in a line ends a host block. *)
Definition h_ok (st : h_stmt) : Prop :=
  match st with
  | HMac m => Forall is_u8 m /\ length m = 6%nat
  | HAddr a => ip_ok inet_pton4 inet_ntop4 a
  | HName s => string_ok 256 s /\ (125 ∉ lit s)
  end.

Definition word_ok (s : string) : Prop :=
  s <> EmptyString /\ (String.length s < 256)%nat
  /\ Forall (fun c => isspace c = false /\ c <> 0 /\ c <> 123) (lit s).

Definition s_item_ok (it : s_item) : Prop :=
  match it with
  | SStmt st => s_ok st
  | SHost name body => word_ok name /\ Forall h_ok body
  end.

Definition is_host (it : s_item) : bool := match it with SHost _ _ => true | _ => false end.

Definition is_subnet (it : item) : bool := match it with ISubnet _ _ _ => true | _ => false end.

Definition item_ok (it : item) : Prop :=
  match it with
  | IGlobal st => g_ok st
  | ISubnet network netmask body =>
      ip_ok inet_pton4 inet_ntop4 network /\ ip_ok inet_pton4 inet_ntop4 netmask
      /\ Forall s_item_ok body /\ countb is_host body <= Z.of_nat MAX_HOSTS_PER_SUBNET
  end.

(** ** Values read back *)

Record value_ok (v : cstr) : Prop := {
  value_ne : v <> [];
  value_tight : trim v = v;
  value_semi : 59 ∉ v;
  value_text : text v;
  value_length : (length v <= 300)%nat
}.

Lemma trim_tight s :
  Forall (fun c => isspace c = false) s -> trim s = s.
Proof.
  intros H. destruct s as [|c s]; [done|]. destruct (exists_last (l := c :: s) ltac:(done)) as (s' & d & E).
  rewrite E in *. apply Forall_app in H as [H1 H2]. apply Forall_inv in H2.
  destruct s' as [|c' s']; [|apply Forall_inv in H1; by apply trim_id].
  unfold trim. cbn [app]. rewrite drop_while_head by done. by apply (drop_while_end_snoc _ []).
Qed.

Lemma digit_char c : isdigit c = true -> isspace c = false /\ c <> 59 /\ c <> 0 /\ c <> 10.
Proof. unfold isdigit, isspace. intros H. split; lia. Qed.

Lemma dec_ok n : 0 <= n -> value_ok (dec n).
Proof.
  intros Hn. pose proof (dec_digits n Hn) as Hd. constructor.
  - apply dec_nonempty.
  - apply trim_tight. eapply Forall_impl; [exact Hd|]. intros c Hc. by apply digit_char.
  - intros Hin. apply (proj1 (Forall_forall _ _) Hd) in Hin. done.
  - by apply digits_text.
  - pose proof (length_dec_loop 20 n []) as H. cbn [length] in H. unfold dec. lia.
Qed.

Lemma uint_dec n old : is_u32 n -> uint_value (dec n) old = (0, n).
Proof.
  unfold is_u32, uint_value. intros Hn. rewrite parse_uint32_text by lia.
  by destruct (Z.leb_spec n 4294967295); [|lia].
Qed.

Lemma int_dec n old : 0 <= n < 2147483648 -> int_value (dec n) old = (0, n).
Proof.
  intros Hn. unfold int_value. rewrite parse_uint32_text by lia.
  destruct (Z.leb_spec n 4294967295); [|lia]. change (0 =? 0) with true. cbv iota.
  unfold i32. rewrite Z.mod_small by lia. do 2 f_equal. lia.
Qed.

Lemma ip_chars a :
  ip_ok inet_pton4 inet_ntop4 a ->
  Forall (fun c => isspace c = false /\ c <> 59 /\ c <> 0 /\ c <> 10 /\ c <> 44 /\ c <> 125) (inet_ntop4 a).
Proof.
  intros (_ & _ & H & _). eapply Forall_impl; [exact H|]. intros c [Hc| ->]; [|done].
  unfold isdigit, isspace in *. lia.
Qed.

Lemma ip_text_ok a : ip_ok inet_pton4 inet_ntop4 a -> value_ok (inet_ntop4 a).
Proof.
  intros H. pose proof (ip_chars a H) as Hc. destruct H as (_ & Hne & _ & Hl). constructor.
  - done.
  - apply trim_tight. eapply Forall_impl; [exact Hc|]. cbv beta. tauto.
  - intros Hin. apply (proj1 (Forall_forall _ _) Hc) in Hin. lia.
  - eapply Forall_impl; [exact Hc|]. cbv beta. tauto.
  - lia.
Qed.

Lemma ip_value_text a old : ip_ok inet_pton4 inet_ntop4 a -> ip_value inet_pton4 (inet_ntop4 a) old = (0, a).
Proof. intros (H & _). unfold ip_value, parse_ip_address. by rewrite H. Qed.

Lemma quoted_ok cap s : string_ok cap s -> (cap <= 256)%nat -> value_ok (quoted (lit s)).
Proof.
  intros (Ht & Hs & Hl) Hc. constructor.
  - done.
  - by apply trim_id.
  - unfold quoted. rewrite elem_of_cons, elem_of_app, list_elem_of_singleton. intros [?|[?|?]]; done.
  - by apply quoted_text.
  - unfold quoted. cbn [length]. rewrite length_app, length_lit. cbn [length]. lia.
Qed.

Lemma string_value_text s : string_ok 256 s -> string_value (quoted (lit s)) = s.
Proof.
  intros (_ & _ & Hl). unfold string_value. rewrite remove_quotes_quoted, of_cstr_lit. by apply strncpy_fits.
Qed.

(** Lists of addresses. *)
Lemma split_commas_app t : forall cur rest,
  44 ∉ t -> split_commas (t ++ 44 :: rest) cur = (cur ++ t) :: split_commas rest [].
Proof.
  induction t as [|c t IH]; intros cur rest Ht; [by rewrite app_nil_r|].
  apply not_elem_of_cons in Ht as [Hc Ht]. cbn [app split_commas]. destruct (Z.eqb_spec c 44); [congruence|].
  rewrite IH by done. by rewrite <- app_assoc.
Qed.

Lemma split_commas_last t : forall cur, 44 ∉ t -> split_commas t cur = [cur ++ t].
Proof.
  induction t as [|c t IH]; intros cur Ht; [by rewrite app_nil_r|].
  apply not_elem_of_cons in Ht as [Hc Ht]. cbn [split_commas]. destruct (Z.eqb_spec c 44); [congruence|].
  rewrite IH by done. by rewrite <- app_assoc.
Qed.

Lemma ip_no_comma a : ip_ok inet_pton4 inet_ntop4 a -> 44 ∉ inet_ntop4 a.
Proof. intros H Hin. apply (proj1 (Forall_forall _ _) (ip_chars a H)) in Hin. lia. Qed.

Lemma ip_list_tokens pre l :
  l <> [] -> Forall (ip_ok inet_pton4 inet_ntop4) l -> 44 ∉ pre ->
  strtok_commas (pre ++ ip_list_text l)
  = match l with [] => [] | a :: r => (pre ++ inet_ntop4 a) :: ((fun a => 32 :: inet_ntop4 a) <$> r) end.
Proof.
  intros Hne Hl. revert pre. induction Hl as [|a l Ha Hl IH]; [done|]. intros pre Hpre. unfold strtok_commas.
  assert (44 ∉ pre ++ inet_ntop4 a) as Hn by (rewrite elem_of_app; intros [?|?%ip_no_comma]; done).
  assert (pre ++ inet_ntop4 a <> []) as Hpa by (destruct Ha as (_ & Hne' & _); by intros [_ ?]%app_eq_nil).
  destruct l as [|b l].
  - cbn [ip_list_text]. rewrite split_commas_last by done. cbn [app List.filter].
    by rewrite bool_decide_eq_false_2.
  - change (ip_list_text (a :: b :: l)) with (inet_ntop4 a ++ 44 :: [32] ++ ip_list_text (b :: l)).
    rewrite app_assoc, split_commas_app by done. cbn [List.filter app].
    rewrite bool_decide_eq_false_2 by done. cbn [negb]. f_equal.
    apply (IH ltac:(done) [32]). by intros ?%list_elem_of_singleton.
Qed.

Lemma ip_list_loop_text l : forall toks addrs,
  Forall2 (fun t a => parse_ip_address inet_pton4 (trim t) = Some a) toks l ->
  (length addrs + length l <= 4)%nat ->
  ip_list_loop inet_pton4 toks addrs 4 = (Z.of_nat (length addrs + length l), addrs ++ l).
Proof.
  induction l as [|a l IH]; intros toks addrs H Hl.
  - apply Forall2_nil_inv_r in H as ->. cbn. by rewrite app_nil_r, Nat.add_0_r.
  - apply Forall2_cons_inv_r in H as (t & toks' & Ht & H & ->). cbn [ip_list_loop length] in *.
    rewrite bool_decide_eq_true_2 by lia. cbv beta in Ht. rewrite Ht, IH; [|done|rewrite length_app; simpl; lia].
    rewrite length_app, <- app_assoc. cbn [length app]. do 2 f_equal. lia.
Qed.

Lemma trim_space s : trim (32 :: s) = trim s.
Proof. done. Qed.

Lemma list_value_text l old : ips_ok l -> list_value inet_pton4 (ip_list_text l) 4 old = (0, l).
Proof.
  intros [Hlen Hl]. unfold list_value, parse_ip_list. rewrite bool_decide_eq_false_2 by lia.
  pose proof (ip_list_tokens [] l ltac:(by destruct l; [simpl in Hlen; lia|]) Hl ltac:(by intros ?%elem_of_nil)) as Ht.
  cbn [app] in Ht. rewrite Ht.
  rewrite (ip_list_loop_text l); [|destruct l as [|a l]; [constructor|]|simpl; lia].
  - cbn [length Nat.add app]. destruct (Z.ltb_spec (Z.of_nat (length l)) 0); [lia|done].
  - assert (forall a, ip_ok inet_pton4 inet_ntop4 a -> parse_ip_address inet_pton4 (trim (inet_ntop4 a)) = Some a) as Hp.
    { intros x Hx. rewrite (value_tight _ (ip_text_ok x Hx)). by destruct Hx. }
    apply Forall_cons in Hl as [Ha Hl]. constructor; [by apply Hp|].
    clear -Hl Hp. induction Hl as [|b l Hb _ IH]; constructor; [|done]. rewrite trim_space. by apply Hp.
Qed.

(** The ends of a list's text are those of addresses. *)
Lemma ip_list_shape l :
  l <> [] -> Forall (ip_ok inet_pton4 inet_ntop4) l ->
  Forall (fun c => c <> 59 /\ c <> 0 /\ c <> 10) (ip_list_text l)
  /\ (length (ip_list_text l) <= 17 * length l)%nat
  /\ (exists c s, ip_list_text l = c :: s /\ isspace c = false)
  /\ (exists s d, ip_list_text l = s ++ [d] /\ isspace d = false).
Proof.
  intros Hne Hl. induction Hl as [|a l Ha Hl IH]; [done|].
  pose proof (ip_chars a Ha) as Hc. destruct Ha as (_ & Hane & _ & Hlen).
  assert (exists c s, inet_ntop4 a = c :: s /\ isspace c = false) as (c & s & Ec & Hcs).
  { destruct (inet_ntop4 a) as [|c s]; [done|]. apply Forall_inv in Hc. eexists _, _. by split; [|apply Hc]. }
  assert (exists s d, inet_ntop4 a = s ++ [d] /\ isspace d = false) as (s' & d & Ed & Hds).
  { destruct (exists_last Hane) as (s' & d & E). rewrite E in Hc. apply Forall_app in Hc as [_ Hc].
    apply Forall_inv in Hc. eexists _, _. by split; [|apply Hc]. }
  assert (Forall (fun c => c <> 59 /\ c <> 0 /\ c <> 10) (inet_ntop4 a)) as Hf.
  { eapply Forall_impl; [exact Hc|]. cbv beta. tauto. }
  destruct l as [|b l].
  - cbn [ip_list_text length]. split_and!; [done|lia|by eexists _, _|by eexists _, _].
  - destruct (IH ltac:(done)) as (Hf' & Hl' & _ & (s2 & d2 & E2 & Hd2)).
    change (ip_list_text (a :: b :: l)) with (inet_ntop4 a ++ 44 :: 32 :: ip_list_text (b :: l)).
    split_and!.
    + apply Forall_app. split; [done|]. constructor; [lia|]. by constructor; [lia|].
    + rewrite length_app. cbn [length] in *. lia.
    + rewrite Ec. cbn [app]. by eexists _, _.
    + rewrite E2. exists (inet_ntop4 a ++ 44 :: 32 :: s2), d2. split; [|done]. by rewrite <- app_assoc.
Qed.

Lemma ip_list_ok l : ips_ok l -> value_ok (ip_list_text l).
Proof.
  intros [Hlen Hl]. assert (l <> []) as Hne by (destruct l; [simpl in Hlen; lia|done]).
  destruct (ip_list_shape l Hne Hl) as (Hf & Hll & (c & s & Ec & Hc) & (s' & d & Ed & Hd)). constructor.
  - by rewrite Ec.
  - unfold trim. rewrite Ec, drop_while_head by done. rewrite <- Ec, Ed. by apply drop_while_end_snoc.
  - intros Hin. apply (proj1 (Forall_forall _ _) Hf) in Hin. lia.
  - eapply Forall_impl; [exact Hf|]. cbv beta. tauto.
  - lia.
Qed.

(** ** Statements read back *)

Lemma strtok_lit delims k d rest :
  lit k <> [] /\ Forall (fun c => c ∉ delims) (lit k) -> d ∈ delims ->
  strtok delims (lit k ++ d :: rest) = (Some (lit k), rest).
Proof. intros [Hne Hk] Hd. apply strtok_word; [done| |done]. intros c Hc. by apply (proj1 (Forall_forall _ _) Hk). Qed.

Lemma strtok_value v : value_ok v -> strtok [59] (v ++ [59]) = (Some v, []).
Proof.
  intros Hv. apply strtok_word; [apply Hv| |by left]. intros c Hc ->%list_elem_of_singleton. by apply (value_semi v Hv).
Qed.

Local Ltac lit_key := rewrite strtok_lit by (first [by left|split; [discriminate|closed_prop]]).

(** Comparisons of literals. *)
Local Ltac key_cases :=
  repeat match goal with
         | |- context [bool_decide (lit ?a = lit ?b)] =>
             let r := eval vm_compute in (bool_decide (lit a = lit b)) in
             change (bool_decide (lit a = lit b)) with r
         end; cbv iota.

Lemma global_option_statement n v g :
  lit n <> [] /\ Forall (fun c => c ∉ [32; 9]) (lit n) -> value_ok v ->
  parse_global_option inet_pton4 (option_statement n v) g = global_option inet_pton4 (lit n) v g.
Proof.
  intros Hn Hv. unfold parse_global_option, option_statement. lit_key. key_cases.
  rewrite strtok_lit by (done || by left). rewrite strtok_value by done. by rewrite (value_tight v Hv).
Qed.

Lemma global_statement k v g :
  lit k <> [] /\ Forall (fun c => c ∉ [32; 9; 59]) (lit k) -> value_ok v ->
  bool_decide (lit k = lit "authoritative") || bool_decide (lit k = lit "option") = false ->
  parse_global_option inet_pton4 (statement k v) g = global_value inet_pton4 (lit k) v g.
Proof.
  intros Hk Hv [Ha Ho]%orb_false_iff. unfold parse_global_option, statement.
  rewrite strtok_lit by (done || by left). rewrite Ha, Ho, strtok_value by done. cbn [fst].
  by rewrite (value_tight v Hv).
Qed.

Lemma closed_value v :
  bool_decide (v <> []) && bool_decide (trim v = v) && bool_decide (59 ∉ v) && bool_decide (text v)
    && (Z.of_nat (length v) <=? 300) = true -> value_ok v.
Proof.
  rewrite !andb_true_iff, !bool_decide_eq_true. intros ((((? & ?) & ?) & ?) & ?). constructor; try done. lia.
Qed.

Local Ltac word_value := first [done | by apply closed_value | by apply dec_ok; unfold is_u32 in *; lia | by apply ip_text_ok
  | by apply ip_list_ok | by eapply quoted_ok; [eassumption|lia]].

Local Ltac closed_key := split; [discriminate|closed_prop].

Local Ltac read_value :=
  unfold store; cbn [fst snd];
  rewrite ?uint_dec, ?int_dec, ?ip_value_text, ?list_value_text, ?string_value_text by done; try done.

Lemma parse_global_text st g :
  g_ok st -> parse_global_option inet_pton4 (g_text st) g = (0, g_apply g st).
Proof.
  intros Hok. destruct st; cbn [g_text g_apply g_ok] in *; try done.
  all: try (rewrite global_option_statement by (closed_key || word_value); unfold global_option; key_cases; by read_value).
  - rewrite global_statement by (closed_key || word_value || reflexivity). unfold global_value. key_cases. by read_value.
  - rewrite global_statement by (closed_key || word_value || reflexivity). unfold global_value. key_cases. by read_value.
  - by destruct style.
  - by destruct b.
  - rewrite global_statement by (closed_key || word_value || reflexivity). unfold global_value. key_cases. by read_value.
  - rewrite global_statement by (closed_key || word_value || reflexivity). unfold global_value. key_cases. by read_value.
  - rewrite global_statement by (closed_key || word_value || reflexivity). unfold global_value. key_cases. by read_value.
  - by destruct w.
  - by destruct w.
  - by destruct b.
Qed.

Lemma subnet_option_statement n v sn :
  lit n <> [] /\ Forall (fun c => c ∉ [32; 9]) (lit n) -> value_ok v ->
  parse_subnet_option inet_pton4 (option_statement n v) sn = subnet_option inet_pton4 (lit n) v sn.
Proof.
  intros Hn Hv. unfold parse_subnet_option, option_statement. lit_key. key_cases.
  rewrite strtok_lit by (done || by left). rewrite strtok_value by done. by rewrite (value_tight v Hv).
Qed.

Lemma optional_value_text v sn f : value_ok v -> optional_value (v ++ [59]) sn f = f v.
Proof. intros Hv. unfold optional_value. rewrite strtok_value by done. cbn [fst]. by rewrite (value_tight v Hv). Qed.

Lemma domain_text d :
  string_ok 256 d -> String.substring 0 MAX_DOMAIN_LENGTH (of_cstr (remove_quotes (quoted (lit d)))) = d.
Proof.
  intros (_ & _ & Hl). rewrite remove_quotes_quoted, of_cstr_lit.
  pose proof (strncpy_fits 257 d) as H. unfold strncpy_field in H. apply H. lia.
Qed.

Lemma range_text a b sn :
  ip_ok inet_pton4 inet_ntop4 a -> ip_ok inet_pton4 inet_ntop4 b ->
  parse_subnet_option inet_pton4 (lit "range" ++ 32 :: inet_ntop4 a ++ 32 :: inet_ntop4 b ++ [59]) sn
  = (0, set_s_range_end b (set_s_range_start a sn)).
Proof.
  intros Ha Hb. unfold parse_subnet_option. lit_key. key_cases.
  rewrite (strtok_word _ (inet_ntop4 a)); [|apply Ha| |by left].
  2:{ intros c Hc. apply (proj1 (Forall_forall _ _) (ip_chars a Ha)) in Hc.
      rewrite !elem_of_cons, elem_of_nil. intros [-> |[-> |[]]]; by destruct Hc. }
  rewrite strtok_value by (by apply ip_text_ok).
  rewrite (value_tight _ (ip_text_ok a Ha)), (value_tight _ (ip_text_ok b Hb)).
  unfold subnet_range, parse_ip_address. rewrite (proj1 Ha). unfold store. by rewrite ip_value_text.
Qed.

Lemma parse_subnet_text st sn :
  s_ok st -> parse_subnet_option inet_pton4 (s_text st) sn = (0, s_apply sn st).
Proof.
  intros Hok. destruct st; cbn [s_text s_apply s_ok] in *.
  all: try (rewrite subnet_option_statement by (closed_key || word_value); unfold subnet_option; key_cases; by read_value).
  all: try (unfold parse_subnet_option, statement; lit_key; key_cases;
            rewrite optional_value_text by word_value; by read_value).
  - destruct Hok. by apply range_text.
  - rewrite subnet_option_statement by (closed_key || word_value). unfold subnet_option. key_cases. by rewrite domain_text.
Qed.

Lemma mac_value_ok m : Forall is_u8 m -> length m = 6%nat -> value_ok (hex_loop m) /\ (125 ∉ hex_loop m)
  /\ parse_mac_address (hex_loop m) = Some m.
Proof.
  intros Hu Hl. pose proof (mac_text m Hu Hl) as Hm. unfold format_mac_address in Hm.
  assert (Forall (fun c => isspace c = false /\ c <> 59 /\ c <> 0 /\ c <> 10 /\ c <> 125) (hex_loop m)) as Hf.
  { clear Hl Hm. induction Hu as [|b m Hb Hu IH]; [constructor|].
    assert (Forall (fun c => isspace c = false /\ c <> 59 /\ c <> 0 /\ c <> 10 /\ c <> 125) (hex_byte b)) as H.
    { apply (bool_decide_eq_true_1 _).
      exact (u8_enum (fun b => bool_decide (Forall (fun c => isspace c = false /\ c <> 59 /\ c <> 0 /\ c <> 10 /\ c <> 125)
        (hex_byte b))) eq_refl b Hb). }
    destruct m as [|b' m]; [done|]. change (hex_loop (b :: b' :: m)) with (hex_byte b ++ 58 :: hex_loop (b' :: m)).
    apply Forall_app. split; [done|]. by constructor. }
  assert (length (hex_loop m) = 17%nat) as H17.
  { destruct m as [|b0 [|b1 [|b2 [|b3 [|b4 [|b5 [|? ?]]]]]]]; try discriminate. reflexivity. }
  rewrite take_ge in Hm by lia. split_and!; [constructor|..]; try done.
  - intros E. by rewrite E in H17.
  - apply trim_tight. eapply Forall_impl; [exact Hf|]. cbv beta. tauto.
  - intros Hin. apply (proj1 (Forall_forall _ _) Hf) in Hin. lia.
  - eapply Forall_impl; [exact Hf|]. cbv beta. tauto.
  - lia.
  - intros Hin. apply (proj1 (Forall_forall _ _) Hf) in Hin. lia.
Qed.

Lemma parse_host_text st h :
  h_ok st -> parse_host_line inet_pton4 (h_text st) h = (0, h_apply h st).
Proof.
  intros Hok. destruct st as [m|a|n]; cbn [h_text h_apply h_ok] in *; unfold parse_host_line.
  - destruct Hok as [Hu Hl]. destruct (mac_value_ok m Hu Hl) as (Hv & _ & Hm).
    unfold statement. lit_key. key_cases. rewrite strtok_value by done. cbn [fst].
    by rewrite (value_tight _ Hv), Hm.
  - unfold statement. lit_key. key_cases. rewrite strtok_value by word_value. cbn [fst].
    rewrite (value_tight _ (ip_text_ok a Hok)). by read_value.
  - destruct Hok as [Hs _]. unfold option_statement. lit_key. key_cases.
    rewrite strtok_lit by (first [by left|closed_key]). rewrite bool_decide_eq_true_2 by done.
    rewrite strtok_value by word_value. cbn [fst].
    rewrite (value_tight _ (quoted_ok 256 n Hs ltac:(lia))). by read_value.
Qed.

(** ** Lines read back *)

(** A line without its indentation that starts with [c]. *)
Definition body_ok (c : Z) (b : cstr) : Prop :=
  (exists s d, b = c :: s ++ [d] /\ isspace d = false) /\ isspace c = false /\ text b /\ (length b <= 1000)%nat.

Lemma statement_body k v c r :
  lit k = c :: r -> isspace c = false -> text (lit k) -> (length (lit k) <= 100)%nat -> value_ok v ->
  body_ok c (statement k v).
Proof.
  intros E Hc Ht Hl Hv. unfold statement. split_and!; [|done| |].
  - rewrite E. exists (r ++ 32 :: v), 59. split; [|done]. cbn [app]. by rewrite <- app_assoc.
  - apply key_text; [done|]. apply Forall_app. split; [apply Hv|by repeat constructor].
  - rewrite length_app. cbn [length]. rewrite length_app. cbn [length]. pose proof (value_length v Hv). lia.
Qed.

Lemma option_body n v :
  text (lit n) -> (length (lit n) <= 100)%nat -> value_ok v -> body_ok 111 (option_statement n v).
Proof.
  intros Ht Hl Hv. unfold option_statement. split_and!; [|done| |].
  - exists (lit "ption" ++ 32 :: lit n ++ 32 :: v), 59. split; [|done].
    change (lit "option") with (111 :: lit "ption"). cbn [app]. rewrite <- app_assoc. cbn [app].
    by rewrite <- app_assoc.
  - apply key_text; [closed_prop|]. apply key_text; [done|]. apply Forall_app. split; [apply Hv|by repeat constructor].
  - rewrite length_app, length_lit. cbn [length String.length]. rewrite length_app. cbn [length]. rewrite length_app.
    cbn [length]. pose proof (value_length v Hv). lia.
Qed.

Lemma line_read pre c b rest :
  pre = [] \/ pre = [9] \/ pre = [9; 9] -> body_ok c b ->
  fgets ((pre ++ b) ++ 10 :: rest) = Some ((pre ++ b) ++ [10], rest)
  /\ trim (c_string ((pre ++ b) ++ [10])) = b.
Proof.
  intros Hpre ((s & d & E & Hd) & Hc & Ht & Hl).
  assert (Forall (fun x => isspace x = true) pre /\ (10 ∉ pre) /\ (0 ∉ pre) /\ (length pre <= 2)%nat) as (Hs & H10 & H0 & Hp).
  { destruct Hpre as [->|[->| ->]]; (split_and!; [by repeat constructor|closed_prop|closed_prop|simpl; lia]). }
  assert (forall x, x = 0 \/ x = 10 -> x ∉ b) as Hb.
  { intros x Hx Hin. apply (proj1 (Forall_forall _ _) Ht) in Hin. lia. }
  split.
  - apply fgets_line; [|rewrite length_app; lia]. rewrite elem_of_app. intros [?|Hin]; [done|]. by apply (Hb 10); [right|].
  - rewrite c_string_id.
    + rewrite <- app_assoc, E. by apply trim_ends.
    + rewrite !elem_of_app, list_elem_of_singleton. intros [[?|Hin]|?]; [done| |done]. by apply (Hb 0); [left|].
Qed.

Lemma body_head c b : body_ok c b -> b <> [] /\ byte_at b 0 = c /\ forall n, (0 < n)%nat -> head (take n b) = Some c.
Proof.
  intros ((s & d & -> & _) & _). split_and!; [done|done|]. intros [|n] Hn; [lia|done].
Qed.

Lemma not_skipped c b : body_ok c b -> c <> 35 -> skipped b = false.
Proof.
  intros H Hc. destruct (body_head c b H) as (Hne & Hb & _). unfold skipped.
  rewrite bool_decide_eq_false_2, Hb by done. cbn [orb]. by apply Z.eqb_neq.
Qed.

(** The first letter tells a line from the keyword of a block. *)
Lemma other_word c b n k d :
  body_ok c b -> (0 < n)%nat -> head (lit k) = Some d -> c <> d -> bool_decide (take n b = lit k) = false.
Proof.
  intros H Hn Hk Hcd. apply bool_decide_eq_false_2. intros E. apply (f_equal head) in E.
  rewrite Hk, (proj2 (proj2 (body_head c b H))) in E by done. congruence.
Qed.

Lemma h_body st : h_ok st -> exists c, body_ok c (h_text st) /\ c <> 35 /\ (125 ∉ h_text st).
Proof.
  intros Hok. destruct st as [m|a|n]; cbn [h_text h_ok] in *.
  - destruct Hok as [Hu Hl]. destruct (mac_value_ok m Hu Hl) as (Hv & H125 & _).
    eexists. split; [eapply statement_body; [reflexivity|reflexivity|closed_prop|vm_compute; lia|done]|].
    split; [done|]. unfold statement. rewrite elem_of_app, elem_of_cons, elem_of_app, list_elem_of_singleton.
    intros [Hin|[?|[?|?]]]; [|done|done|done]. revert Hin. closed_prop.
  - eexists. split; [eapply statement_body; [reflexivity|reflexivity|closed_prop|vm_compute; lia|word_value]|].
    split; [done|]. unfold statement. rewrite elem_of_app, elem_of_cons, elem_of_app, list_elem_of_singleton.
    intros [Hin|[?|[Hin|?]]]; [|done| |done]; [revert Hin; closed_prop|].
    apply (proj1 (Forall_forall _ _) (ip_chars a Hok)) in Hin. lia.
  - destruct Hok as [Hs H125]. exists 111. split; [apply option_body; [closed_prop|vm_compute; lia|word_value]|].
    split; [done|]. unfold option_statement, quoted. rewrite elem_of_app, elem_of_cons, elem_of_app, elem_of_cons,
      elem_of_app, elem_of_cons, elem_of_app, !list_elem_of_singleton.
    intros [Hin|[?|[Hin|[?|[[?|[?|?]]|?]]]]]; try done; revert Hin; closed_prop.
Qed.

Local Ltac stmt_body := first
  [ eexists; split; [apply option_body; [closed_prop|vm_compute; lia|word_value]|done]
  | eexists; split; [eapply statement_body; [reflexivity|reflexivity|closed_prop|vm_compute; lia|word_value]|done] ].

Lemma s_body st : s_ok st -> exists c, body_ok c (s_text st) /\ c <> 35 /\ c <> 125 /\ c <> 104.
Proof.
  intros Hok. destruct st; cbn [s_text s_ok] in *; try stmt_body.
  destruct Hok as [Ha Hb]. exists 114. split; [|done].
  pose proof (ip_text_ok a Ha) as Hva. pose proof (ip_text_ok b Hb) as Hvb. split_and!; [|done| |].
  - exists (lit "ange" ++ 32 :: inet_ntop4 a ++ 32 :: inet_ntop4 b), 59. split; [|done].
    change (lit "range") with (114 :: lit "ange"). cbn [app]. rewrite <- app_assoc. cbn [app]. by rewrite <- app_assoc.
  - apply key_text; [closed_prop|]. apply Forall_app. split; [apply Hva|]. constructor; [lia|].
    apply Forall_app. split; [apply Hvb|by repeat constructor].
  - pose proof (value_length _ Hva). pose proof (value_length _ Hvb). rewrite length_app, length_lit.
    cbn [length String.length]. rewrite length_app. cbn [length]. rewrite length_app. cbn [length]. lia.
Qed.

Lemma g_body st : g_ok st -> exists c, body_ok c (g_text st) /\ c <> 35 /\ c <> 115.
Proof.
  intros Hok. destruct st; cbn [g_text g_ok] in *; try stmt_body.
  - exists 97. split; [|done]. split_and!; [|done|closed_prop|vm_compute; lia].
    by exists (lit "uthoritative"), 59.
  - destruct style; stmt_body.
  - destruct b; stmt_body.
  - destruct w; stmt_body.
  - destruct w; stmt_body.
  - destruct b; stmt_body.
Qed.

(** The statements of a host. *)
Lemma host_read body : forall fuel rest hosts h,
  Forall h_ok body -> (length (print_lines (host_lines body) ++ rest) < fuel)%nat ->
  host_loop inet_pton4 fuel (print_lines (host_lines body) ++ rest) hosts h
  = Ret (0, rest, hosts ++ [foldl h_apply h body], zero_host).
Proof.
  induction body as [|st body IH]; intros fuel rest hosts h Hok Hf; (destruct fuel as [|fuel]; [lia|]).
  - reflexivity.
  - apply Forall_cons in Hok as [Hst Hok]. change (host_lines (st :: body)) with ((9 :: 9 :: h_text st) :: host_lines body) in *.
    rewrite print_length in Hf. rewrite print_cons.
    destruct (h_body st Hst) as (c & Hb & H35 & H125).
    destruct (line_read [9; 9] c (h_text st) (print_lines (host_lines body) ++ rest)
      ltac:(by right; right) Hb) as [Hr Ht].
    cbn [host_loop]. change (9 :: 9 :: h_text st) with ([9; 9] ++ h_text st). rewrite Hr, Ht.
    rewrite (not_skipped c) by done. rewrite bool_decide_eq_false_2 by done.
    rewrite parse_host_text by done. change (0 =? 0) with true. cbv iota. apply IH; [done|lia].
Qed.

Lemma host_line_body name :
  word_ok name -> body_ok 104 (lit "host" ++ 32 :: lit name ++ [32; 123]).
Proof.
  intros (_ & Hl & Hw). split_and!; [|done| |].
  - exists (lit "ost" ++ 32 :: lit name ++ [32]), 123. split; [|done].
    change (lit "host") with (104 :: lit "ost"). cbn [app]. rewrite <- app_assoc. cbn [app]. by rewrite <- app_assoc.
  - apply key_text; [closed_prop|]. apply Forall_app. split; [|closed_prop].
    eapply Forall_impl; [exact Hw|]. intros x (Hx & H0 & _). split; [done|]. by intros ->.
  - rewrite length_app, length_lit. cbn [length String.length]. rewrite length_app, length_lit. cbn [length]. lia.
Qed.

Lemma host_name_read name :
  word_ok name -> strtok [32; 9; 123] (drop 4 (lit "host" ++ 32 :: lit name ++ [32; 123])) = (Some (lit name), [123])
  /\ trim (lit name) = lit name.
Proof.
  intros (Hne & Hl & Hw). split.
  - change (drop 4 (lit "host" ++ 32 :: lit name ++ [32; 123])) with (32 :: lit name ++ 32 :: [123]).
    assert (forall s, strtok [32; 9; 123] (32 :: s) = strtok [32; 9; 123] s) as -> by done.
    apply strtok_word; [by destruct name| |by left]. intros c Hc. apply (proj1 (Forall_forall _ _) Hw) in Hc.
    destruct Hc as (Hs & _ & H123). rewrite !elem_of_cons, elem_of_nil. by intros [-> |[-> |[?|?]]].
  - apply trim_tight. eapply Forall_impl; [exact Hw|]. cbv beta. tauto.
Qed.

(** The lines of a subnet block after the first. *)
Definition subnet_lines (body : list s_item) : list cstr := concat (s_item_lines <$> body) ++ [[125]].

Lemma subnet_lines_cons it body : subnet_lines (it :: body) = s_item_lines it ++ subnet_lines body.
Proof. unfold subnet_lines. cbn [fmap list_fmap concat]. by rewrite <- app_assoc. Qed.

Lemma subnet_read body : forall fuel rest sn,
  Forall s_item_ok body ->
  Z.of_nat (length sn.(s_hosts)) + countb is_host body <= Z.of_nat MAX_HOSTS_PER_SUBNET ->
  (length (print_lines (subnet_lines body) ++ rest) < fuel)%nat ->
  subnet_loop inet_pton4 fuel (print_lines (subnet_lines body) ++ rest) sn zero_host
  = Ret (0, rest, foldl s_item_apply sn body, true).
Proof.
  induction body as [|it body IH]; intros fuel rest sn Hok Hc Hf; (destruct fuel as [|fuel]; [lia|]); [reflexivity|].
  apply Forall_cons in Hok as [Hit Hok]. rewrite subnet_lines_cons in *. cbn [countb] in Hc.
  pose proof (countb_nonneg is_host body). destruct it as [st|name hb]; cbn [s_item_lines s_item_ok is_host app] in *.
  - rewrite print_length in Hf. rewrite print_cons. destruct (s_body st Hit) as (c & Hb & H35 & H125 & H104).
    destruct (line_read [9] c (s_text st) (print_lines (subnet_lines body) ++ rest) ltac:(by right; left) Hb) as [Hr Ht].
    cbn [subnet_loop]. change (9 :: s_text st) with ([9] ++ s_text st). rewrite Hr, Ht, (not_skipped c) by done.
    rewrite (proj1 (proj2 (body_head c _ Hb))). destruct (Z.eqb_spec c 125); [done|].
    rewrite (other_word c _ 4 "host" 104) by (done || lia). rewrite parse_subnet_text by done.
    change (0 =? 0) with true. cbv iota. apply IH; [done| |lia].
    assert (s_hosts (s_apply sn st) = s_hosts sn) as -> by (by destruct st). lia.
  - destruct Hit as [Hname Hhb]. rewrite print_length in Hf. rewrite print_cons.
    pose proof (host_line_body name Hname) as Hb. destruct (host_name_read name Hname) as [Hn Htn].
    destruct (line_read [9] 104 _ (print_lines (host_lines hb ++ subnet_lines body) ++ rest) ltac:(by right; left) Hb) as [Hr Ht].
    cbn [subnet_loop].
    change (9 :: lit "host" ++ 32 :: lit name ++ [32; 123]) with ([9] ++ lit "host" ++ 32 :: lit name ++ [32; 123]).
    rewrite Hr, Ht, (not_skipped 104) by done. rewrite (proj1 (proj2 (body_head 104 _ Hb))).
    change (104 =? 125) with false. cbv iota. rewrite bool_decide_eq_true_2 by done. rewrite Hn. cbn [fst].
    rewrite bool_decide_eq_true_2 by lia. rewrite Htn, of_cstr_lit.
    rewrite strncpy_fits by (apply Hname). unfold parse_host_block. rewrite bool_decide_eq_false_2 by lia.
    rewrite print_app, <- app_assoc in *. rewrite host_read by (done || lia). rewrite bind_Ret. cbv beta iota.
    apply IH; [done| |].
    + cbn [s_hosts set_s_hosts]. rewrite length_app. cbn [length]. lia.
    + rewrite length_app in Hf. lia.
Qed.

Lemma subnet_line_body a b :
  ip_ok inet_pton4 inet_ntop4 a -> ip_ok inet_pton4 inet_ntop4 b ->
  body_ok 115 (lit "subnet" ++ 32 :: inet_ntop4 a ++ 32 :: lit "netmask" ++ 32 :: inet_ntop4 b ++ [32; 123]).
Proof.
  intros Ha Hb. pose proof (ip_text_ok a Ha) as Hva. pose proof (ip_text_ok b Hb) as Hvb. split_and!; [|done| |].
  - exists (lit "ubnet" ++ 32 :: inet_ntop4 a ++ 32 :: lit "netmask" ++ 32 :: inet_ntop4 b ++ [32]), 123. split; [|done].
    change (lit "subnet") with (115 :: lit "ubnet"). by repeat (cbn [app]; rewrite <- app_assoc).
  - apply key_text; [closed_prop|]. apply Forall_app. split; [apply Hva|]. constructor; [lia|].
    apply key_text; [closed_prop|]. apply Forall_app. split; [apply Hvb|closed_prop].
  - pose proof (value_length _ Hva). pose proof (value_length _ Hvb). rewrite length_app, length_lit.
    cbn [length String.length]. rewrite length_app. cbn [length]. rewrite length_app, length_lit. cbn [length String.length].
    rewrite length_app. cbn [length]. lia.
Qed.

Lemma subnet_header_read a b :
  ip_ok inet_pton4 inet_ntop4 a -> ip_ok inet_pton4 inet_ntop4 b ->
  subnet_header inet_pton4
    (lit "subnet" ++ 32 :: inet_ntop4 a ++ 32 :: lit "netmask" ++ 32 :: inet_ntop4 b ++ [32; 123]) = Some (a, b).
Proof.
  intros Ha Hb. unfold subnet_header. lit_key. rewrite bool_decide_eq_true_2 by done. cbn [negb].
  assert (forall x, ip_ok inet_pton4 inet_ntop4 x -> forall delims : cstr, (forall c, c ∈ delims -> isspace c = true \/ c = 123) ->
    forall c, c ∈ inet_ntop4 x -> c ∉ delims) as Hd.
  { intros x (_ & _ & Hx & _) delims Hdel c Hc Hin. apply (proj1 (Forall_forall _ _) Hx) in Hc.
    specialize (Hdel c Hin). unfold isdigit, isspace in *. lia. }
  rewrite (strtok_word _ (inet_ntop4 a)); [|apply Ha| |by left].
  2:{ apply Hd; [done|]. intros c. rewrite !elem_of_cons, elem_of_nil. intros [-> |[-> |[]]]; by left. }
  lit_key. rewrite (strtok_word _ (inet_ntop4 b)); [|apply Hb| |by left].
  2:{ apply Hd; [done|]. intros c. rewrite !elem_of_cons, elem_of_nil. intros [-> |[-> |[-> |[]]]]; [by left|by left|by right]. }
  cbn [mbind option_bind]. unfold parse_ip_address. rewrite (proj1 Ha), (proj1 Hb). done.
Qed.

Lemma g_apply_fits g st : g_ok st -> strings_fit g -> strings_fit (g_apply g st).
Proof.
  unfold strings_fit. rewrite !Forall_cons. intros Hst (H1 & H2 & H3 & H4).
  destruct st; try (destruct Hst as (_ & _ & Hst)); try match goal with c : access |- _ => destruct c end;
    split_and!; done.
Qed.

(** The items of a file. *)
Lemma config_read items : forall fuel cfg,
  Forall item_ok items ->
  strings_fit cfg.(c_global) ->
  Z.of_nat (length cfg.(c_subnets)) + countb is_subnet items <= Z.of_nat MAX_SUBNETS ->
  (length (config_text items) < fuel)%nat ->
  config_loop inet_pton4 fuel (config_text items) cfg = Ret (foldl item_apply cfg items).
Proof.
  induction items as [|it items IH]; intros fuel cfg Hok Hs Hc Hf; (destruct fuel as [|fuel]; [lia|]); [reflexivity|].
  apply Forall_cons in Hok as [Hit Hok]. cbn [countb] in Hc. pose proof (countb_nonneg is_subnet items).
  assert (config_text (it :: items) = print_lines (item_lines it) ++ config_text items) as E.
  { unfold config_text. cbn [fmap list_fmap concat]. apply print_app. }
  rewrite E in *. destruct it as [st|a b body]; cbn [item_lines item_ok is_subnet app] in *.
  - rewrite print_length in Hf. rewrite print_cons. destruct (g_body st Hit) as (c & Hb & H35 & H115).
    destruct (line_read [] c (g_text st) (print_lines [] ++ config_text items) ltac:(by left) Hb) as [Hr Ht].
    cbn [app] in Hr, Ht. cbn [config_loop]. rewrite Hr, Ht, (not_skipped c) by done.
    rewrite (other_word c _ 6 "subnet" 115) by (done || lia). rewrite parse_global_text by done.
    apply IH; [done|by apply g_apply_fits|cbn [c_subnets set_c_global]; lia|]. change (print_lines [] ++ config_text items) with (config_text items) in Hf. lia.
  - destruct Hit as (Ha & Hb & Hbody & Hhosts). fold (subnet_lines body) in *.
    rewrite print_length in Hf. rewrite print_cons. pose proof (subnet_line_body a b Ha Hb) as Hbd.
    destruct (line_read [] 115 _ (print_lines (subnet_lines body) ++ config_text items) ltac:(by left) Hbd) as [Hr Ht].
    cbn [app] in Hr, Ht. cbn [config_loop]. rewrite Hr, Ht, (not_skipped 115) by done.
    rewrite bool_decide_eq_true_2 by done. unfold parse_subnet_block. rewrite bool_decide_eq_false_2 by lia.
    rewrite subnet_header_read by done. rewrite subnet_read by (done || lia).
    rewrite bind_Ret. change (0 =? 0) with true. cbv beta iota. rewrite bind_Ret. cbv beta iota zeta.
    rewrite apply_fallbacks_inherits by done. change (0 =? 0) with true. cbv iota. apply IH; [done|done| |].
    + cbn [c_subnets set_c_subnets]. rewrite length_app. cbn [length]. lia.
    + rewrite !length_app in Hf. lia.
Qed.

(** C17: the text of a configuration file means what its statements say.  For every sequence
    of global statements and subnet blocks with their statements and host reservations (at
    most 32 subnets, at most 128 hosts in each), [parse_config_file] on their text returns 0
    and the configuration that the effects of the statements in their order make; a subnet
    takes from the global options that stand before it what it does not set itself. *)
Theorem config_v4_roundtrip (items : list item) (config : dhcp_config_t) :
  Forall item_ok items -> countb is_subnet items <= Z.of_nat MAX_SUBNETS ->
  parse_config_file inet_pton4 (Some (config_text items)) config = Ret (0, config_run items).
Proof.
  intros Hok Hc. unfold parse_config_file. rewrite config_read; [by rewrite bind_Ret|done| |cbn; lia|lia].
  repeat (apply Forall_cons; split; [simpl; lia|]). constructor.
Qed.

End Text.

(** ** Examples *)

(** The address a.b.c.d. *)
Definition addr (a b c d : Z) : Z := a + 256 * b + 65536 * c + 16777216 * d.

(** Part of the configuration the repository ships. *)
Definition sample_items : list item :=
  [ IGlobal GAuthoritative; IGlobal (GDefaultLease 7200); IGlobal (GMaxLease 86400); IGlobal (GDdns DDNS_NONE);
    IGlobal (GPingCheck false); IGlobal (GDns [addr 8 8 8 8; addr 8 8 4 4; addr 1 1 1 1]);
    ISubnet (addr 192 168 1 0) (addr 255 255 255 0)
      [ SStmt (SRange (addr 192 168 1 100) (addr 192 168 1 200)); SStmt (SRouter (addr 192 168 1 1));
        SStmt (SDomain "corporate.example.com"); SStmt (SNtp [addr 192 168 1 1; addr 129 6 15 28]);
        SStmt (SDefaultLease 28800);
        SHost "dc01" [HMac [0; 17; 34; 51; 68; 85]; HAddr (addr 192 168 1 10); HName "dc01"] ];
    IGlobal (GDeny UnknownClients) ].

Lemma sample_items_ok : Forall (item_ok dotted_pton dotted_ntop) sample_items.
Proof.
  assert (forall a, 0 <= a < 4294967296 -> ip_ok dotted_pton dotted_ntop a) as Hip by (intros; by apply dotted_ip_ok).
  unfold sample_items, addr. repeat (apply Forall_cons; split; [cbn [item_ok g_ok]|]); [..|constructor].
  all: try done; try (unfold is_u32; lia).
  - split; [simpl; lia|]. repeat (apply Forall_cons; split; [apply Hip; lia|]). constructor.
  - split_and!; [apply Hip; lia|apply Hip; lia| |vm_compute; discriminate].
    repeat (apply Forall_cons; split; [cbn [s_item_ok s_ok]|]); [..|constructor].
    all: try (unfold is_u32; lia); try (apply Hip; lia).
    + split; apply Hip; lia.
    + split_and!; [closed_prop|closed_prop|vm_compute; lia].
    + split; [simpl; lia|]. repeat (apply Forall_cons; split; [apply Hip; lia|]). constructor.
    + split; [split_and!; [discriminate|vm_compute; lia|closed_prop]|].
      repeat (apply Forall_cons; split; [cbn [h_ok]|]); [..|constructor].
      * split; [|done]. unfold is_u8. repeat constructor; lia.
      * apply Hip. lia.
      * split; [split_and!|]; [closed_prop|closed_prop|vm_compute; lia|closed_prop].
Qed.

Lemma config_v4_roundtrip_witness :
  exists c, parse_config_file dotted_pton (Some (config_text dotted_ntop sample_items)) initial_config = Ret (0, c)
  /\ g_allow_unknown_clients c.(c_global) = false
  /\ s_dns_servers <$> c.(c_subnets) = [[addr 8 8 8 8; addr 8 8 4 4; addr 1 1 1 1]]
  /\ s_max_lease_time <$> c.(c_subnets) = [86400].
Proof.
  exists (config_run sample_items). split; [|vm_compute; done].
  apply (config_v4_roundtrip dotted_pton dotted_ntop sample_items initial_config); [apply sample_items_ok|].
  vm_compute. discriminate.
Defined.

Definition parse_lines (ls : list cstr) : outcome (Z * dhcp_config_t) :=
  parse_config_file dotted_pton (Some (print_lines ls)) initial_config.

(** After an error in a host block the rest of the block is read as part of the subnet, and
    the brace of the host closes the subnet: what follows counts as global. *)
Example host_error_closes_subnet :
  match parse_lines [lit "subnet 10.0.0.0 netmask 255.0.0.0 {"; lit "host a {"; lit "hardware-ethernet nonsense;"; lit "}";
                     lit "default-lease-time 60;"; lit "}"] with
  | Ret (0, c) => g_default_lease_time c.(c_global) = 60 /\ s_default_lease_time <$> c.(c_subnets) = [0]
  | _ => False
  end.
Proof. vm_compute. done. Qed.

(** A reservation that follows one with an error takes over the fields it does not set. *)
Example host_error_leaks_fields :
  match parse_lines [lit "subnet 10.0.0.0 netmask 255.0.0.0 {"; lit "host a {"; lit "fixed-address 10.0.0.7;";
                     lit "hardware-ethernet nonsense;"; lit "host b {"; lit "hardware-ethernet 1:2:3:4:5:6;"; lit "}"; lit "}"] with
  | Ret (0, c) => (fun s => (fun h => (h.(h_name), h.(h_fixed_address))) <$> s.(s_hosts)) <$> c.(c_subnets)
                  = [[("b"%string, addr 10 0 0 7)]]
  | _ => False
  end.
Proof. vm_compute. done. Qed.

(** The offsets west of UTC that the comments of the configuration give are refused. *)
Example negative_offset_refused :
  parse_global_option dotted_pton (lit "option time-offset -18000;") zero_global = (-2, zero_global).
Proof. vm_compute. reflexivity. Qed.

(** A global option after a subnet does not reach it. *)
Example later_global_not_used :
  match parse_lines [lit "subnet 10.0.0.0 netmask 255.0.0.0 {"; lit "}"; lit "max-lease-time 99;"] with
  | Ret (0, c) => g_max_lease_time c.(c_global) = 99 /\ s_max_lease_time <$> c.(c_subnets) = [0]
  | _ => False
  end.
Proof. vm_compute. done. Qed.
