(* ===== verification/ConfigFileV6.v ===== *)
(** * The configuration file of the DHCPv6 server

    The parser of [DHCPv6/sources/config_v6.c]: [load_config_v6] and everything it calls, on
    the records of [ConfigV6].  A line is the C string [fgets] leaves in its buffer; the
    file is the list of the bytes left.  The functions that read a statement take the line
    they change in place and return the record they write to.  The host slot that
    [parse_host_block] fills is part of the array once its closing brace is read.  The fuel
    of the loops is one more than the number of bytes left, of which every round reads at
    least one ([config_v6_parse_bounds]). *)

From Stdlib Require Import String.
From S2P Require Import Prelude UtilsV6 ConfigV6 CText UtilsV4.

Definition LINE_MAX_LEN : nat := 512.

Definition MAX_SUBNET_V6 : nat := 64.

Definition MAX_HOSTS_PER_SUBNET : nat := 200.

(** ** Assignments to the records *)

Definition set_h6_hostname (v : cstr) (r : dhcpv6_static_host_t) : dhcpv6_static_host_t :=
  mk_static_host6 v r.(h6_duid) r.(h6_fixed_address6) r.(h6_fixed_addr6_bin) r.(h6_has_fixed_address6_bin).

Definition set_h6_duid (v : cstr) (r : dhcpv6_static_host_t) : dhcpv6_static_host_t :=
  mk_static_host6 r.(h6_hostname) v r.(h6_fixed_address6) r.(h6_fixed_addr6_bin)
    r.(h6_has_fixed_address6_bin).

Definition set_h6_fixed_address6 (v : cstr) (r : dhcpv6_static_host_t) : dhcpv6_static_host_t :=
  mk_static_host6 r.(h6_hostname) r.(h6_duid) v r.(h6_fixed_addr6_bin) r.(h6_has_fixed_address6_bin).

Definition set_s6_prefix (v : cstr) (r : dhcpv6_subnet_t) : dhcpv6_subnet_t :=
  mk_subnet6 v r.(s6_prefix_len) r.(s6_prefix_bin) r.(s6_has_prefix_bin) r.(s6_pool_start) r.(s6_pool_end)
    r.(s6_pool_start_bin) r.(s6_pool_end_bin) r.(s6_has_pool_range) r.(s6_dns_servers) r.(s6_domain_search)
    r.(s6_sntp_servers) r.(s6_has_sntp_servers) r.(s6_info_refresh_time) r.(s6_has_info_refresh_time)
    r.(s6_preference) r.(s6_has_preference) r.(s6_sip_server_domain) r.(s6_has_sip_server_domain)
    r.(s6_bootfile_url) r.(s6_has_bootfile_url) r.(s6_default_lease_time) r.(s6_max_lease_time) r.(s6_hosts)
    r.(s6_pd_enabled) r.(s6_pd_pool_start) r.(s6_pd_pool_end) r.(s6_pd_prefix_len) r.(s6_pd_pool_start_bin)
    r.(s6_pd_pool_end_bin) r.(s6_has_pd_pool) r.(s6_icmp6_probe_override) r.(s6_icmp6_probe)
    r.(s6_icmp6_timeout_ms) r.(s6_has_icmp6_timeout).

Definition set_s6_prefix_len (v : Z) (r : dhcpv6_subnet_t) : dhcpv6_subnet_t :=
  mk_subnet6 r.(s6_prefix) v r.(s6_prefix_bin) r.(s6_has_prefix_bin) r.(s6_pool_start) r.(s6_pool_end)
    r.(s6_pool_start_bin) r.(s6_pool_end_bin) r.(s6_has_pool_range) r.(s6_dns_servers) r.(s6_domain_search)
    r.(s6_sntp_servers) r.(s6_has_sntp_servers) r.(s6_info_refresh_time) r.(s6_has_info_refresh_time)
    r.(s6_preference) r.(s6_has_preference) r.(s6_sip_server_domain) r.(s6_has_sip_server_domain)
    r.(s6_bootfile_url) r.(s6_has_bootfile_url) r.(s6_default_lease_time) r.(s6_max_lease_time) r.(s6_hosts)
    r.(s6_pd_enabled) r.(s6_pd_pool_start) r.(s6_pd_pool_end) r.(s6_pd_prefix_len) r.(s6_pd_pool_start_bin)
    r.(s6_pd_pool_end_bin) r.(s6_has_pd_pool) r.(s6_icmp6_probe_override) r.(s6_icmp6_probe)
    r.(s6_icmp6_timeout_ms) r.(s6_has_icmp6_timeout).

Definition set_s6_pool_start (v : cstr) (r : dhcpv6_subnet_t) : dhcpv6_subnet_t :=
  mk_subnet6 r.(s6_prefix) r.(s6_prefix_len) r.(s6_prefix_bin) r.(s6_has_prefix_bin) v r.(s6_pool_end)
    r.(s6_pool_start_bin) r.(s6_pool_end_bin) r.(s6_has_pool_range) r.(s6_dns_servers) r.(s6_domain_search)
    r.(s6_sntp_servers) r.(s6_has_sntp_servers) r.(s6_info_refresh_time) r.(s6_has_info_refresh_time)
    r.(s6_preference) r.(s6_has_preference) r.(s6_sip_server_domain) r.(s6_has_sip_server_domain)
    r.(s6_bootfile_url) r.(s6_has_bootfile_url) r.(s6_default_lease_time) r.(s6_max_lease_time) r.(s6_hosts)
    r.(s6_pd_enabled) r.(s6_pd_pool_start) r.(s6_pd_pool_end) r.(s6_pd_prefix_len) r.(s6_pd_pool_start_bin)
    r.(s6_pd_pool_end_bin) r.(s6_has_pd_pool) r.(s6_icmp6_probe_override) r.(s6_icmp6_probe)
    r.(s6_icmp6_timeout_ms) r.(s6_has_icmp6_timeout).

Definition set_s6_pool_end (v : cstr) (r : dhcpv6_subnet_t) : dhcpv6_subnet_t :=
  mk_subnet6 r.(s6_prefix) r.(s6_prefix_len) r.(s6_prefix_bin) r.(s6_has_prefix_bin) r.(s6_pool_start) v
    r.(s6_pool_start_bin) r.(s6_pool_end_bin) r.(s6_has_pool_range) r.(s6_dns_servers) r.(s6_domain_search)
    r.(s6_sntp_servers) r.(s6_has_sntp_servers) r.(s6_info_refresh_time) r.(s6_has_info_refresh_time)
    r.(s6_preference) r.(s6_has_preference) r.(s6_sip_server_domain) r.(s6_has_sip_server_domain)
    r.(s6_bootfile_url) r.(s6_has_bootfile_url) r.(s6_default_lease_time) r.(s6_max_lease_time) r.(s6_hosts)
    r.(s6_pd_enabled) r.(s6_pd_pool_start) r.(s6_pd_pool_end) r.(s6_pd_prefix_len) r.(s6_pd_pool_start_bin)
    r.(s6_pd_pool_end_bin) r.(s6_has_pd_pool) r.(s6_icmp6_probe_override) r.(s6_icmp6_probe)
    r.(s6_icmp6_timeout_ms) r.(s6_has_icmp6_timeout).

Definition set_s6_dns_servers (v : cstr) (r : dhcpv6_subnet_t) : dhcpv6_subnet_t :=
  mk_subnet6 r.(s6_prefix) r.(s6_prefix_len) r.(s6_prefix_bin) r.(s6_has_prefix_bin) r.(s6_pool_start)
    r.(s6_pool_end) r.(s6_pool_start_bin) r.(s6_pool_end_bin) r.(s6_has_pool_range) v r.(s6_domain_search)
    r.(s6_sntp_servers) r.(s6_has_sntp_servers) r.(s6_info_refresh_time) r.(s6_has_info_refresh_time)
    r.(s6_preference) r.(s6_has_preference) r.(s6_sip_server_domain) r.(s6_has_sip_server_domain)
    r.(s6_bootfile_url) r.(s6_has_bootfile_url) r.(s6_default_lease_time) r.(s6_max_lease_time) r.(s6_hosts)
    r.(s6_pd_enabled) r.(s6_pd_pool_start) r.(s6_pd_pool_end) r.(s6_pd_prefix_len) r.(s6_pd_pool_start_bin)
    r.(s6_pd_pool_end_bin) r.(s6_has_pd_pool) r.(s6_icmp6_probe_override) r.(s6_icmp6_probe)
    r.(s6_icmp6_timeout_ms) r.(s6_has_icmp6_timeout).

Definition set_s6_domain_search (v : cstr) (r : dhcpv6_subnet_t) : dhcpv6_subnet_t :=
  mk_subnet6 r.(s6_prefix) r.(s6_prefix_len) r.(s6_prefix_bin) r.(s6_has_prefix_bin) r.(s6_pool_start)
    r.(s6_pool_end) r.(s6_pool_start_bin) r.(s6_pool_end_bin) r.(s6_has_pool_range) r.(s6_dns_servers) v
    r.(s6_sntp_servers) r.(s6_has_sntp_servers) r.(s6_info_refresh_time) r.(s6_has_info_refresh_time)
    r.(s6_preference) r.(s6_has_preference) r.(s6_sip_server_domain) r.(s6_has_sip_server_domain)
    r.(s6_bootfile_url) r.(s6_has_bootfile_url) r.(s6_default_lease_time) r.(s6_max_lease_time) r.(s6_hosts)
    r.(s6_pd_enabled) r.(s6_pd_pool_start) r.(s6_pd_pool_end) r.(s6_pd_prefix_len) r.(s6_pd_pool_start_bin)
    r.(s6_pd_pool_end_bin) r.(s6_has_pd_pool) r.(s6_icmp6_probe_override) r.(s6_icmp6_probe)
    r.(s6_icmp6_timeout_ms) r.(s6_has_icmp6_timeout).

Definition set_s6_sntp_servers (v : cstr) (r : dhcpv6_subnet_t) : dhcpv6_subnet_t :=
  mk_subnet6 r.(s6_prefix) r.(s6_prefix_len) r.(s6_prefix_bin) r.(s6_has_prefix_bin) r.(s6_pool_start)
    r.(s6_pool_end) r.(s6_pool_start_bin) r.(s6_pool_end_bin) r.(s6_has_pool_range) r.(s6_dns_servers)
    r.(s6_domain_search) v r.(s6_has_sntp_servers) r.(s6_info_refresh_time) r.(s6_has_info_refresh_time)
    r.(s6_preference) r.(s6_has_preference) r.(s6_sip_server_domain) r.(s6_has_sip_server_domain)
    r.(s6_bootfile_url) r.(s6_has_bootfile_url) r.(s6_default_lease_time) r.(s6_max_lease_time) r.(s6_hosts)
    r.(s6_pd_enabled) r.(s6_pd_pool_start) r.(s6_pd_pool_end) r.(s6_pd_prefix_len) r.(s6_pd_pool_start_bin)
    r.(s6_pd_pool_end_bin) r.(s6_has_pd_pool) r.(s6_icmp6_probe_override) r.(s6_icmp6_probe)
    r.(s6_icmp6_timeout_ms) r.(s6_has_icmp6_timeout).

Definition set_s6_has_sntp_servers (v : bool) (r : dhcpv6_subnet_t) : dhcpv6_subnet_t :=
  mk_subnet6 r.(s6_prefix) r.(s6_prefix_len) r.(s6_prefix_bin) r.(s6_has_prefix_bin) r.(s6_pool_start)
    r.(s6_pool_end) r.(s6_pool_start_bin) r.(s6_pool_end_bin) r.(s6_has_pool_range) r.(s6_dns_servers)
    r.(s6_domain_search) r.(s6_sntp_servers) v r.(s6_info_refresh_time) r.(s6_has_info_refresh_time)
    r.(s6_preference) r.(s6_has_preference) r.(s6_sip_server_domain) r.(s6_has_sip_server_domain)
    r.(s6_bootfile_url) r.(s6_has_bootfile_url) r.(s6_default_lease_time) r.(s6_max_lease_time) r.(s6_hosts)
    r.(s6_pd_enabled) r.(s6_pd_pool_start) r.(s6_pd_pool_end) r.(s6_pd_prefix_len) r.(s6_pd_pool_start_bin)
    r.(s6_pd_pool_end_bin) r.(s6_has_pd_pool) r.(s6_icmp6_probe_override) r.(s6_icmp6_probe)
    r.(s6_icmp6_timeout_ms) r.(s6_has_icmp6_timeout).

Definition set_s6_info_refresh_time (v : Z) (r : dhcpv6_subnet_t) : dhcpv6_subnet_t :=
  mk_subnet6 r.(s6_prefix) r.(s6_prefix_len) r.(s6_prefix_bin) r.(s6_has_prefix_bin) r.(s6_pool_start)
    r.(s6_pool_end) r.(s6_pool_start_bin) r.(s6_pool_end_bin) r.(s6_has_pool_range) r.(s6_dns_servers)
    r.(s6_domain_search) r.(s6_sntp_servers) r.(s6_has_sntp_servers) v r.(s6_has_info_refresh_time)
    r.(s6_preference) r.(s6_has_preference) r.(s6_sip_server_domain) r.(s6_has_sip_server_domain)
    r.(s6_bootfile_url) r.(s6_has_bootfile_url) r.(s6_default_lease_time) r.(s6_max_lease_time) r.(s6_hosts)
    r.(s6_pd_enabled) r.(s6_pd_pool_start) r.(s6_pd_pool_end) r.(s6_pd_prefix_len) r.(s6_pd_pool_start_bin)
    r.(s6_pd_pool_end_bin) r.(s6_has_pd_pool) r.(s6_icmp6_probe_override) r.(s6_icmp6_probe)
    r.(s6_icmp6_timeout_ms) r.(s6_has_icmp6_timeout).

Definition set_s6_has_info_refresh_time (v : bool) (r : dhcpv6_subnet_t) : dhcpv6_subnet_t :=
  mk_subnet6 r.(s6_prefix) r.(s6_prefix_len) r.(s6_prefix_bin) r.(s6_has_prefix_bin) r.(s6_pool_start)
    r.(s6_pool_end) r.(s6_pool_start_bin) r.(s6_pool_end_bin) r.(s6_has_pool_range) r.(s6_dns_servers)
    r.(s6_domain_search) r.(s6_sntp_servers) r.(s6_has_sntp_servers) r.(s6_info_refresh_time) v
    r.(s6_preference) r.(s6_has_preference) r.(s6_sip_server_domain) r.(s6_has_sip_server_domain)
    r.(s6_bootfile_url) r.(s6_has_bootfile_url) r.(s6_default_lease_time) r.(s6_max_lease_time) r.(s6_hosts)
    r.(s6_pd_enabled) r.(s6_pd_pool_start) r.(s6_pd_pool_end) r.(s6_pd_prefix_len) r.(s6_pd_pool_start_bin)
    r.(s6_pd_pool_end_bin) r.(s6_has_pd_pool) r.(s6_icmp6_probe_override) r.(s6_icmp6_probe)
    r.(s6_icmp6_timeout_ms) r.(s6_has_icmp6_timeout).

Definition set_s6_preference (v : Z) (r : dhcpv6_subnet_t) : dhcpv6_subnet_t :=
  mk_subnet6 r.(s6_prefix) r.(s6_prefix_len) r.(s6_prefix_bin) r.(s6_has_prefix_bin) r.(s6_pool_start)
    r.(s6_pool_end) r.(s6_pool_start_bin) r.(s6_pool_end_bin) r.(s6_has_pool_range) r.(s6_dns_servers)
    r.(s6_domain_search) r.(s6_sntp_servers) r.(s6_has_sntp_servers) r.(s6_info_refresh_time)
    r.(s6_has_info_refresh_time) v r.(s6_has_preference) r.(s6_sip_server_domain)
    r.(s6_has_sip_server_domain) r.(s6_bootfile_url) r.(s6_has_bootfile_url) r.(s6_default_lease_time)
    r.(s6_max_lease_time) r.(s6_hosts) r.(s6_pd_enabled) r.(s6_pd_pool_start) r.(s6_pd_pool_end)
    r.(s6_pd_prefix_len) r.(s6_pd_pool_start_bin) r.(s6_pd_pool_end_bin) r.(s6_has_pd_pool)
    r.(s6_icmp6_probe_override) r.(s6_icmp6_probe) r.(s6_icmp6_timeout_ms) r.(s6_has_icmp6_timeout).

Definition set_s6_has_preference (v : bool) (r : dhcpv6_subnet_t) : dhcpv6_subnet_t :=
  mk_subnet6 r.(s6_prefix) r.(s6_prefix_len) r.(s6_prefix_bin) r.(s6_has_prefix_bin) r.(s6_pool_start)
    r.(s6_pool_end) r.(s6_pool_start_bin) r.(s6_pool_end_bin) r.(s6_has_pool_range) r.(s6_dns_servers)
    r.(s6_domain_search) r.(s6_sntp_servers) r.(s6_has_sntp_servers) r.(s6_info_refresh_time)
    r.(s6_has_info_refresh_time) r.(s6_preference) v r.(s6_sip_server_domain) r.(s6_has_sip_server_domain)
    r.(s6_bootfile_url) r.(s6_has_bootfile_url) r.(s6_default_lease_time) r.(s6_max_lease_time) r.(s6_hosts)
    r.(s6_pd_enabled) r.(s6_pd_pool_start) r.(s6_pd_pool_end) r.(s6_pd_prefix_len) r.(s6_pd_pool_start_bin)
    r.(s6_pd_pool_end_bin) r.(s6_has_pd_pool) r.(s6_icmp6_probe_override) r.(s6_icmp6_probe)
    r.(s6_icmp6_timeout_ms) r.(s6_has_icmp6_timeout).

Definition set_s6_sip_server_domain (v : cstr) (r : dhcpv6_subnet_t) : dhcpv6_subnet_t :=
  mk_subnet6 r.(s6_prefix) r.(s6_prefix_len) r.(s6_prefix_bin) r.(s6_has_prefix_bin) r.(s6_pool_start)
    r.(s6_pool_end) r.(s6_pool_start_bin) r.(s6_pool_end_bin) r.(s6_has_pool_range) r.(s6_dns_servers)
    r.(s6_domain_search) r.(s6_sntp_servers) r.(s6_has_sntp_servers) r.(s6_info_refresh_time)
    r.(s6_has_info_refresh_time) r.(s6_preference) r.(s6_has_preference) v r.(s6_has_sip_server_domain)
    r.(s6_bootfile_url) r.(s6_has_bootfile_url) r.(s6_default_lease_time) r.(s6_max_lease_time) r.(s6_hosts)
    r.(s6_pd_enabled) r.(s6_pd_pool_start) r.(s6_pd_pool_end) r.(s6_pd_prefix_len) r.(s6_pd_pool_start_bin)
    r.(s6_pd_pool_end_bin) r.(s6_has_pd_pool) r.(s6_icmp6_probe_override) r.(s6_icmp6_probe)
    r.(s6_icmp6_timeout_ms) r.(s6_has_icmp6_timeout).

Definition set_s6_has_sip_server_domain (v : bool) (r : dhcpv6_subnet_t) : dhcpv6_subnet_t :=
  mk_subnet6 r.(s6_prefix) r.(s6_prefix_len) r.(s6_prefix_bin) r.(s6_has_prefix_bin) r.(s6_pool_start)
    r.(s6_pool_end) r.(s6_pool_start_bin) r.(s6_pool_end_bin) r.(s6_has_pool_range) r.(s6_dns_servers)
    r.(s6_domain_search) r.(s6_sntp_servers) r.(s6_has_sntp_servers) r.(s6_info_refresh_time)
    r.(s6_has_info_refresh_time) r.(s6_preference) r.(s6_has_preference) r.(s6_sip_server_domain) v
    r.(s6_bootfile_url) r.(s6_has_bootfile_url) r.(s6_default_lease_time) r.(s6_max_lease_time) r.(s6_hosts)
    r.(s6_pd_enabled) r.(s6_pd_pool_start) r.(s6_pd_pool_end) r.(s6_pd_prefix_len) r.(s6_pd_pool_start_bin)
    r.(s6_pd_pool_end_bin) r.(s6_has_pd_pool) r.(s6_icmp6_probe_override) r.(s6_icmp6_probe)
    r.(s6_icmp6_timeout_ms) r.(s6_has_icmp6_timeout).

Definition set_s6_bootfile_url (v : cstr) (r : dhcpv6_subnet_t) : dhcpv6_subnet_t :=
  mk_subnet6 r.(s6_prefix) r.(s6_prefix_len) r.(s6_prefix_bin) r.(s6_has_prefix_bin) r.(s6_pool_start)
    r.(s6_pool_end) r.(s6_pool_start_bin) r.(s6_pool_end_bin) r.(s6_has_pool_range) r.(s6_dns_servers)
    r.(s6_domain_search) r.(s6_sntp_servers) r.(s6_has_sntp_servers) r.(s6_info_refresh_time)
    r.(s6_has_info_refresh_time) r.(s6_preference) r.(s6_has_preference) r.(s6_sip_server_domain)
    r.(s6_has_sip_server_domain) v r.(s6_has_bootfile_url) r.(s6_default_lease_time) r.(s6_max_lease_time)
    r.(s6_hosts) r.(s6_pd_enabled) r.(s6_pd_pool_start) r.(s6_pd_pool_end) r.(s6_pd_prefix_len)
    r.(s6_pd_pool_start_bin) r.(s6_pd_pool_end_bin) r.(s6_has_pd_pool) r.(s6_icmp6_probe_override)
    r.(s6_icmp6_probe) r.(s6_icmp6_timeout_ms) r.(s6_has_icmp6_timeout).

Definition set_s6_has_bootfile_url (v : bool) (r : dhcpv6_subnet_t) : dhcpv6_subnet_t :=
  mk_subnet6 r.(s6_prefix) r.(s6_prefix_len) r.(s6_prefix_bin) r.(s6_has_prefix_bin) r.(s6_pool_start)
    r.(s6_pool_end) r.(s6_pool_start_bin) r.(s6_pool_end_bin) r.(s6_has_pool_range) r.(s6_dns_servers)
    r.(s6_domain_search) r.(s6_sntp_servers) r.(s6_has_sntp_servers) r.(s6_info_refresh_time)
    r.(s6_has_info_refresh_time) r.(s6_preference) r.(s6_has_preference) r.(s6_sip_server_domain)
    r.(s6_has_sip_server_domain) r.(s6_bootfile_url) v r.(s6_default_lease_time) r.(s6_max_lease_time)
    r.(s6_hosts) r.(s6_pd_enabled) r.(s6_pd_pool_start) r.(s6_pd_pool_end) r.(s6_pd_prefix_len)
    r.(s6_pd_pool_start_bin) r.(s6_pd_pool_end_bin) r.(s6_has_pd_pool) r.(s6_icmp6_probe_override)
    r.(s6_icmp6_probe) r.(s6_icmp6_timeout_ms) r.(s6_has_icmp6_timeout).

Definition set_s6_default_lease_time (v : Z) (r : dhcpv6_subnet_t) : dhcpv6_subnet_t :=
  mk_subnet6 r.(s6_prefix) r.(s6_prefix_len) r.(s6_prefix_bin) r.(s6_has_prefix_bin) r.(s6_pool_start)
    r.(s6_pool_end) r.(s6_pool_start_bin) r.(s6_pool_end_bin) r.(s6_has_pool_range) r.(s6_dns_servers)
    r.(s6_domain_search) r.(s6_sntp_servers) r.(s6_has_sntp_servers) r.(s6_info_refresh_time)
    r.(s6_has_info_refresh_time) r.(s6_preference) r.(s6_has_preference) r.(s6_sip_server_domain)
    r.(s6_has_sip_server_domain) r.(s6_bootfile_url) r.(s6_has_bootfile_url) v r.(s6_max_lease_time)
    r.(s6_hosts) r.(s6_pd_enabled) r.(s6_pd_pool_start) r.(s6_pd_pool_end) r.(s6_pd_prefix_len)
    r.(s6_pd_pool_start_bin) r.(s6_pd_pool_end_bin) r.(s6_has_pd_pool) r.(s6_icmp6_probe_override)
    r.(s6_icmp6_probe) r.(s6_icmp6_timeout_ms) r.(s6_has_icmp6_timeout).

Definition set_s6_max_lease_time (v : Z) (r : dhcpv6_subnet_t) : dhcpv6_subnet_t :=
  mk_subnet6 r.(s6_prefix) r.(s6_prefix_len) r.(s6_prefix_bin) r.(s6_has_prefix_bin) r.(s6_pool_start)
    r.(s6_pool_end) r.(s6_pool_start_bin) r.(s6_pool_end_bin) r.(s6_has_pool_range) r.(s6_dns_servers)
    r.(s6_domain_search) r.(s6_sntp_servers) r.(s6_has_sntp_servers) r.(s6_info_refresh_time)
    r.(s6_has_info_refresh_time) r.(s6_preference) r.(s6_has_preference) r.(s6_sip_server_domain)
    r.(s6_has_sip_server_domain) r.(s6_bootfile_url) r.(s6_has_bootfile_url) r.(s6_default_lease_time) v
    r.(s6_hosts) r.(s6_pd_enabled) r.(s6_pd_pool_start) r.(s6_pd_pool_end) r.(s6_pd_prefix_len)
    r.(s6_pd_pool_start_bin) r.(s6_pd_pool_end_bin) r.(s6_has_pd_pool) r.(s6_icmp6_probe_override)
    r.(s6_icmp6_probe) r.(s6_icmp6_timeout_ms) r.(s6_has_icmp6_timeout).

Definition set_s6_pd_enabled (v : bool) (r : dhcpv6_subnet_t) : dhcpv6_subnet_t :=
  mk_subnet6 r.(s6_prefix) r.(s6_prefix_len) r.(s6_prefix_bin) r.(s6_has_prefix_bin) r.(s6_pool_start)
    r.(s6_pool_end) r.(s6_pool_start_bin) r.(s6_pool_end_bin) r.(s6_has_pool_range) r.(s6_dns_servers)
    r.(s6_domain_search) r.(s6_sntp_servers) r.(s6_has_sntp_servers) r.(s6_info_refresh_time)
    r.(s6_has_info_refresh_time) r.(s6_preference) r.(s6_has_preference) r.(s6_sip_server_domain)
    r.(s6_has_sip_server_domain) r.(s6_bootfile_url) r.(s6_has_bootfile_url) r.(s6_default_lease_time)
    r.(s6_max_lease_time) r.(s6_hosts) v r.(s6_pd_pool_start) r.(s6_pd_pool_end) r.(s6_pd_prefix_len)
    r.(s6_pd_pool_start_bin) r.(s6_pd_pool_end_bin) r.(s6_has_pd_pool) r.(s6_icmp6_probe_override)
    r.(s6_icmp6_probe) r.(s6_icmp6_timeout_ms) r.(s6_has_icmp6_timeout).

Definition set_s6_pd_pool_start (v : cstr) (r : dhcpv6_subnet_t) : dhcpv6_subnet_t :=
  mk_subnet6 r.(s6_prefix) r.(s6_prefix_len) r.(s6_prefix_bin) r.(s6_has_prefix_bin) r.(s6_pool_start)
    r.(s6_pool_end) r.(s6_pool_start_bin) r.(s6_pool_end_bin) r.(s6_has_pool_range) r.(s6_dns_servers)
    r.(s6_domain_search) r.(s6_sntp_servers) r.(s6_has_sntp_servers) r.(s6_info_refresh_time)
    r.(s6_has_info_refresh_time) r.(s6_preference) r.(s6_has_preference) r.(s6_sip_server_domain)
    r.(s6_has_sip_server_domain) r.(s6_bootfile_url) r.(s6_has_bootfile_url) r.(s6_default_lease_time)
    r.(s6_max_lease_time) r.(s6_hosts) r.(s6_pd_enabled) v r.(s6_pd_pool_end) r.(s6_pd_prefix_len)
    r.(s6_pd_pool_start_bin) r.(s6_pd_pool_end_bin) r.(s6_has_pd_pool) r.(s6_icmp6_probe_override)
    r.(s6_icmp6_probe) r.(s6_icmp6_timeout_ms) r.(s6_has_icmp6_timeout).

Definition set_s6_pd_pool_end (v : cstr) (r : dhcpv6_subnet_t) : dhcpv6_subnet_t :=
  mk_subnet6 r.(s6_prefix) r.(s6_prefix_len) r.(s6_prefix_bin) r.(s6_has_prefix_bin) r.(s6_pool_start)
    r.(s6_pool_end) r.(s6_pool_start_bin) r.(s6_pool_end_bin) r.(s6_has_pool_range) r.(s6_dns_servers)
    r.(s6_domain_search) r.(s6_sntp_servers) r.(s6_has_sntp_servers) r.(s6_info_refresh_time)
    r.(s6_has_info_refresh_time) r.(s6_preference) r.(s6_has_preference) r.(s6_sip_server_domain)
    r.(s6_has_sip_server_domain) r.(s6_bootfile_url) r.(s6_has_bootfile_url) r.(s6_default_lease_time)
    r.(s6_max_lease_time) r.(s6_hosts) r.(s6_pd_enabled) r.(s6_pd_pool_start) v r.(s6_pd_prefix_len)
    r.(s6_pd_pool_start_bin) r.(s6_pd_pool_end_bin) r.(s6_has_pd_pool) r.(s6_icmp6_probe_override)
    r.(s6_icmp6_probe) r.(s6_icmp6_timeout_ms) r.(s6_has_icmp6_timeout).

Definition set_s6_pd_prefix_len (v : Z) (r : dhcpv6_subnet_t) : dhcpv6_subnet_t :=
  mk_subnet6 r.(s6_prefix) r.(s6_prefix_len) r.(s6_prefix_bin) r.(s6_has_prefix_bin) r.(s6_pool_start)
    r.(s6_pool_end) r.(s6_pool_start_bin) r.(s6_pool_end_bin) r.(s6_has_pool_range) r.(s6_dns_servers)
    r.(s6_domain_search) r.(s6_sntp_servers) r.(s6_has_sntp_servers) r.(s6_info_refresh_time)
    r.(s6_has_info_refresh_time) r.(s6_preference) r.(s6_has_preference) r.(s6_sip_server_domain)
    r.(s6_has_sip_server_domain) r.(s6_bootfile_url) r.(s6_has_bootfile_url) r.(s6_default_lease_time)
    r.(s6_max_lease_time) r.(s6_hosts) r.(s6_pd_enabled) r.(s6_pd_pool_start) r.(s6_pd_pool_end) v
    r.(s6_pd_pool_start_bin) r.(s6_pd_pool_end_bin) r.(s6_has_pd_pool) r.(s6_icmp6_probe_override)
    r.(s6_icmp6_probe) r.(s6_icmp6_timeout_ms) r.(s6_has_icmp6_timeout).

Definition set_s6_icmp6_probe_override (v : bool) (r : dhcpv6_subnet_t) : dhcpv6_subnet_t :=
  mk_subnet6 r.(s6_prefix) r.(s6_prefix_len) r.(s6_prefix_bin) r.(s6_has_prefix_bin) r.(s6_pool_start)
    r.(s6_pool_end) r.(s6_pool_start_bin) r.(s6_pool_end_bin) r.(s6_has_pool_range) r.(s6_dns_servers)
    r.(s6_domain_search) r.(s6_sntp_servers) r.(s6_has_sntp_servers) r.(s6_info_refresh_time)
    r.(s6_has_info_refresh_time) r.(s6_preference) r.(s6_has_preference) r.(s6_sip_server_domain)
    r.(s6_has_sip_server_domain) r.(s6_bootfile_url) r.(s6_has_bootfile_url) r.(s6_default_lease_time)
    r.(s6_max_lease_time) r.(s6_hosts) r.(s6_pd_enabled) r.(s6_pd_pool_start) r.(s6_pd_pool_end)
    r.(s6_pd_prefix_len) r.(s6_pd_pool_start_bin) r.(s6_pd_pool_end_bin) r.(s6_has_pd_pool) v
    r.(s6_icmp6_probe) r.(s6_icmp6_timeout_ms) r.(s6_has_icmp6_timeout).

Definition set_s6_icmp6_probe (v : bool) (r : dhcpv6_subnet_t) : dhcpv6_subnet_t :=
  mk_subnet6 r.(s6_prefix) r.(s6_prefix_len) r.(s6_prefix_bin) r.(s6_has_prefix_bin) r.(s6_pool_start)
    r.(s6_pool_end) r.(s6_pool_start_bin) r.(s6_pool_end_bin) r.(s6_has_pool_range) r.(s6_dns_servers)
    r.(s6_domain_search) r.(s6_sntp_servers) r.(s6_has_sntp_servers) r.(s6_info_refresh_time)
    r.(s6_has_info_refresh_time) r.(s6_preference) r.(s6_has_preference) r.(s6_sip_server_domain)
    r.(s6_has_sip_server_domain) r.(s6_bootfile_url) r.(s6_has_bootfile_url) r.(s6_default_lease_time)
    r.(s6_max_lease_time) r.(s6_hosts) r.(s6_pd_enabled) r.(s6_pd_pool_start) r.(s6_pd_pool_end)
    r.(s6_pd_prefix_len) r.(s6_pd_pool_start_bin) r.(s6_pd_pool_end_bin) r.(s6_has_pd_pool)
    r.(s6_icmp6_probe_override) v r.(s6_icmp6_timeout_ms) r.(s6_has_icmp6_timeout).

Definition set_s6_icmp6_timeout_ms (v : Z) (r : dhcpv6_subnet_t) : dhcpv6_subnet_t :=
  mk_subnet6 r.(s6_prefix) r.(s6_prefix_len) r.(s6_prefix_bin) r.(s6_has_prefix_bin) r.(s6_pool_start)
    r.(s6_pool_end) r.(s6_pool_start_bin) r.(s6_pool_end_bin) r.(s6_has_pool_range) r.(s6_dns_servers)
    r.(s6_domain_search) r.(s6_sntp_servers) r.(s6_has_sntp_servers) r.(s6_info_refresh_time)
    r.(s6_has_info_refresh_time) r.(s6_preference) r.(s6_has_preference) r.(s6_sip_server_domain)
    r.(s6_has_sip_server_domain) r.(s6_bootfile_url) r.(s6_has_bootfile_url) r.(s6_default_lease_time)
    r.(s6_max_lease_time) r.(s6_hosts) r.(s6_pd_enabled) r.(s6_pd_pool_start) r.(s6_pd_pool_end)
    r.(s6_pd_prefix_len) r.(s6_pd_pool_start_bin) r.(s6_pd_pool_end_bin) r.(s6_has_pd_pool)
    r.(s6_icmp6_probe_override) r.(s6_icmp6_probe) v r.(s6_has_icmp6_timeout).

Definition set_s6_has_icmp6_timeout (v : bool) (r : dhcpv6_subnet_t) : dhcpv6_subnet_t :=
  mk_subnet6 r.(s6_prefix) r.(s6_prefix_len) r.(s6_prefix_bin) r.(s6_has_prefix_bin) r.(s6_pool_start)
    r.(s6_pool_end) r.(s6_pool_start_bin) r.(s6_pool_end_bin) r.(s6_has_pool_range) r.(s6_dns_servers)
    r.(s6_domain_search) r.(s6_sntp_servers) r.(s6_has_sntp_servers) r.(s6_info_refresh_time)
    r.(s6_has_info_refresh_time) r.(s6_preference) r.(s6_has_preference) r.(s6_sip_server_domain)
    r.(s6_has_sip_server_domain) r.(s6_bootfile_url) r.(s6_has_bootfile_url) r.(s6_default_lease_time)
    r.(s6_max_lease_time) r.(s6_hosts) r.(s6_pd_enabled) r.(s6_pd_pool_start) r.(s6_pd_pool_end)
    r.(s6_pd_prefix_len) r.(s6_pd_pool_start_bin) r.(s6_pd_pool_end_bin) r.(s6_has_pd_pool)
    r.(s6_icmp6_probe_override) r.(s6_icmp6_probe) r.(s6_icmp6_timeout_ms) v.

Definition set_g6_default_lease_time (v : Z) (r : dhcpv6_global_t) : dhcpv6_global_t :=
  mk_global6 v r.(g6_max_lease_time) r.(g6_global_dns_servers) r.(g6_global_domain_search)
    r.(g6_sntp_servers) r.(g6_has_sntp_servers) r.(g6_info_refresh_time) r.(g6_has_info_refresh_time)
    r.(g6_preference) r.(g6_has_preference) r.(g6_sip_server_domain) r.(g6_has_sip_server_domain)
    r.(g6_bootfile_url) r.(g6_has_bootfile_url) r.(g6_icmp6_probe) r.(g6_icmp6_timeout_ms)
    r.(g6_has_icmp6_timeout).

Definition set_g6_max_lease_time (v : Z) (r : dhcpv6_global_t) : dhcpv6_global_t :=
  mk_global6 r.(g6_default_lease_time) v r.(g6_global_dns_servers) r.(g6_global_domain_search)
    r.(g6_sntp_servers) r.(g6_has_sntp_servers) r.(g6_info_refresh_time) r.(g6_has_info_refresh_time)
    r.(g6_preference) r.(g6_has_preference) r.(g6_sip_server_domain) r.(g6_has_sip_server_domain)
    r.(g6_bootfile_url) r.(g6_has_bootfile_url) r.(g6_icmp6_probe) r.(g6_icmp6_timeout_ms)
    r.(g6_has_icmp6_timeout).

Definition set_g6_global_dns_servers (v : cstr) (r : dhcpv6_global_t) : dhcpv6_global_t :=
  mk_global6 r.(g6_default_lease_time) r.(g6_max_lease_time) v r.(g6_global_domain_search)
    r.(g6_sntp_servers) r.(g6_has_sntp_servers) r.(g6_info_refresh_time) r.(g6_has_info_refresh_time)
    r.(g6_preference) r.(g6_has_preference) r.(g6_sip_server_domain) r.(g6_has_sip_server_domain)
    r.(g6_bootfile_url) r.(g6_has_bootfile_url) r.(g6_icmp6_probe) r.(g6_icmp6_timeout_ms)
    r.(g6_has_icmp6_timeout).

Definition set_g6_global_domain_search (v : cstr) (r : dhcpv6_global_t) : dhcpv6_global_t :=
  mk_global6 r.(g6_default_lease_time) r.(g6_max_lease_time) r.(g6_global_dns_servers) v r.(g6_sntp_servers)
    r.(g6_has_sntp_servers) r.(g6_info_refresh_time) r.(g6_has_info_refresh_time) r.(g6_preference)
    r.(g6_has_preference) r.(g6_sip_server_domain) r.(g6_has_sip_server_domain) r.(g6_bootfile_url)
    r.(g6_has_bootfile_url) r.(g6_icmp6_probe) r.(g6_icmp6_timeout_ms) r.(g6_has_icmp6_timeout).

Definition set_g6_sntp_servers (v : cstr) (r : dhcpv6_global_t) : dhcpv6_global_t :=
  mk_global6 r.(g6_default_lease_time) r.(g6_max_lease_time) r.(g6_global_dns_servers)
    r.(g6_global_domain_search) v r.(g6_has_sntp_servers) r.(g6_info_refresh_time)
    r.(g6_has_info_refresh_time) r.(g6_preference) r.(g6_has_preference) r.(g6_sip_server_domain)
    r.(g6_has_sip_server_domain) r.(g6_bootfile_url) r.(g6_has_bootfile_url) r.(g6_icmp6_probe)
    r.(g6_icmp6_timeout_ms) r.(g6_has_icmp6_timeout).

Definition set_g6_has_sntp_servers (v : bool) (r : dhcpv6_global_t) : dhcpv6_global_t :=
  mk_global6 r.(g6_default_lease_time) r.(g6_max_lease_time) r.(g6_global_dns_servers)
    r.(g6_global_domain_search) r.(g6_sntp_servers) v r.(g6_info_refresh_time) r.(g6_has_info_refresh_time)
    r.(g6_preference) r.(g6_has_preference) r.(g6_sip_server_domain) r.(g6_has_sip_server_domain)
    r.(g6_bootfile_url) r.(g6_has_bootfile_url) r.(g6_icmp6_probe) r.(g6_icmp6_timeout_ms)
    r.(g6_has_icmp6_timeout).

Definition set_g6_info_refresh_time (v : Z) (r : dhcpv6_global_t) : dhcpv6_global_t :=
  mk_global6 r.(g6_default_lease_time) r.(g6_max_lease_time) r.(g6_global_dns_servers)
    r.(g6_global_domain_search) r.(g6_sntp_servers) r.(g6_has_sntp_servers) v r.(g6_has_info_refresh_time)
    r.(g6_preference) r.(g6_has_preference) r.(g6_sip_server_domain) r.(g6_has_sip_server_domain)
    r.(g6_bootfile_url) r.(g6_has_bootfile_url) r.(g6_icmp6_probe) r.(g6_icmp6_timeout_ms)
    r.(g6_has_icmp6_timeout).

Definition set_g6_has_info_refresh_time (v : bool) (r : dhcpv6_global_t) : dhcpv6_global_t :=
  mk_global6 r.(g6_default_lease_time) r.(g6_max_lease_time) r.(g6_global_dns_servers)
    r.(g6_global_domain_search) r.(g6_sntp_servers) r.(g6_has_sntp_servers) r.(g6_info_refresh_time) v
    r.(g6_preference) r.(g6_has_preference) r.(g6_sip_server_domain) r.(g6_has_sip_server_domain)
    r.(g6_bootfile_url) r.(g6_has_bootfile_url) r.(g6_icmp6_probe) r.(g6_icmp6_timeout_ms)
    r.(g6_has_icmp6_timeout).

Definition set_g6_preference (v : Z) (r : dhcpv6_global_t) : dhcpv6_global_t :=
  mk_global6 r.(g6_default_lease_time) r.(g6_max_lease_time) r.(g6_global_dns_servers)
    r.(g6_global_domain_search) r.(g6_sntp_servers) r.(g6_has_sntp_servers) r.(g6_info_refresh_time)
    r.(g6_has_info_refresh_time) v r.(g6_has_preference) r.(g6_sip_server_domain)
    r.(g6_has_sip_server_domain) r.(g6_bootfile_url) r.(g6_has_bootfile_url) r.(g6_icmp6_probe)
    r.(g6_icmp6_timeout_ms) r.(g6_has_icmp6_timeout).

Definition set_g6_has_preference (v : bool) (r : dhcpv6_global_t) : dhcpv6_global_t :=
  mk_global6 r.(g6_default_lease_time) r.(g6_max_lease_time) r.(g6_global_dns_servers)
    r.(g6_global_domain_search) r.(g6_sntp_servers) r.(g6_has_sntp_servers) r.(g6_info_refresh_time)
    r.(g6_has_info_refresh_time) r.(g6_preference) v r.(g6_sip_server_domain) r.(g6_has_sip_server_domain)
    r.(g6_bootfile_url) r.(g6_has_bootfile_url) r.(g6_icmp6_probe) r.(g6_icmp6_timeout_ms)
    r.(g6_has_icmp6_timeout).

Definition set_g6_sip_server_domain (v : cstr) (r : dhcpv6_global_t) : dhcpv6_global_t :=
  mk_global6 r.(g6_default_lease_time) r.(g6_max_lease_time) r.(g6_global_dns_servers)
    r.(g6_global_domain_search) r.(g6_sntp_servers) r.(g6_has_sntp_servers) r.(g6_info_refresh_time)
    r.(g6_has_info_refresh_time) r.(g6_preference) r.(g6_has_preference) v r.(g6_has_sip_server_domain)
    r.(g6_bootfile_url) r.(g6_has_bootfile_url) r.(g6_icmp6_probe) r.(g6_icmp6_timeout_ms)
    r.(g6_has_icmp6_timeout).

Definition set_g6_has_sip_server_domain (v : bool) (r : dhcpv6_global_t) : dhcpv6_global_t :=
  mk_global6 r.(g6_default_lease_time) r.(g6_max_lease_time) r.(g6_global_dns_servers)
    r.(g6_global_domain_search) r.(g6_sntp_servers) r.(g6_has_sntp_servers) r.(g6_info_refresh_time)
    r.(g6_has_info_refresh_time) r.(g6_preference) r.(g6_has_preference) r.(g6_sip_server_domain) v
    r.(g6_bootfile_url) r.(g6_has_bootfile_url) r.(g6_icmp6_probe) r.(g6_icmp6_timeout_ms)
    r.(g6_has_icmp6_timeout).

Definition set_g6_bootfile_url (v : cstr) (r : dhcpv6_global_t) : dhcpv6_global_t :=
  mk_global6 r.(g6_default_lease_time) r.(g6_max_lease_time) r.(g6_global_dns_servers)
    r.(g6_global_domain_search) r.(g6_sntp_servers) r.(g6_has_sntp_servers) r.(g6_info_refresh_time)
    r.(g6_has_info_refresh_time) r.(g6_preference) r.(g6_has_preference) r.(g6_sip_server_domain)
    r.(g6_has_sip_server_domain) v r.(g6_has_bootfile_url) r.(g6_icmp6_probe) r.(g6_icmp6_timeout_ms)
    r.(g6_has_icmp6_timeout).

Definition set_g6_has_bootfile_url (v : bool) (r : dhcpv6_global_t) : dhcpv6_global_t :=
  mk_global6 r.(g6_default_lease_time) r.(g6_max_lease_time) r.(g6_global_dns_servers)
    r.(g6_global_domain_search) r.(g6_sntp_servers) r.(g6_has_sntp_servers) r.(g6_info_refresh_time)
    r.(g6_has_info_refresh_time) r.(g6_preference) r.(g6_has_preference) r.(g6_sip_server_domain)
    r.(g6_has_sip_server_domain) r.(g6_bootfile_url) v r.(g6_icmp6_probe) r.(g6_icmp6_timeout_ms)
    r.(g6_has_icmp6_timeout).

Definition set_g6_icmp6_probe (v : bool) (r : dhcpv6_global_t) : dhcpv6_global_t :=
  mk_global6 r.(g6_default_lease_time) r.(g6_max_lease_time) r.(g6_global_dns_servers)
    r.(g6_global_domain_search) r.(g6_sntp_servers) r.(g6_has_sntp_servers) r.(g6_info_refresh_time)
    r.(g6_has_info_refresh_time) r.(g6_preference) r.(g6_has_preference) r.(g6_sip_server_domain)
    r.(g6_has_sip_server_domain) r.(g6_bootfile_url) r.(g6_has_bootfile_url) v r.(g6_icmp6_timeout_ms)
    r.(g6_has_icmp6_timeout).

Definition set_g6_icmp6_timeout_ms (v : Z) (r : dhcpv6_global_t) : dhcpv6_global_t :=
  mk_global6 r.(g6_default_lease_time) r.(g6_max_lease_time) r.(g6_global_dns_servers)
    r.(g6_global_domain_search) r.(g6_sntp_servers) r.(g6_has_sntp_servers) r.(g6_info_refresh_time)
    r.(g6_has_info_refresh_time) r.(g6_preference) r.(g6_has_preference) r.(g6_sip_server_domain)
    r.(g6_has_sip_server_domain) r.(g6_bootfile_url) r.(g6_has_bootfile_url) r.(g6_icmp6_probe) v
    r.(g6_has_icmp6_timeout).

Definition set_g6_has_icmp6_timeout (v : bool) (r : dhcpv6_global_t) : dhcpv6_global_t :=
  mk_global6 r.(g6_default_lease_time) r.(g6_max_lease_time) r.(g6_global_dns_servers)
    r.(g6_global_domain_search) r.(g6_sntp_servers) r.(g6_has_sntp_servers) r.(g6_info_refresh_time)
    r.(g6_has_info_refresh_time) r.(g6_preference) r.(g6_has_preference) r.(g6_sip_server_domain)
    r.(g6_has_sip_server_domain) r.(g6_bootfile_url) r.(g6_has_bootfile_url) r.(g6_icmp6_probe)
    r.(g6_icmp6_timeout_ms) v.

Definition set_c6_global (v : dhcpv6_global_t) (r : dhcpv6_config_t) : dhcpv6_config_t :=
  mk_config6 v r.(c6_subnets).
(** The zeroed records. *)
Definition zero_host6 : dhcpv6_static_host_t := mk_static_host6 [] [] [] (replicate 16 0) false.

Definition zero_subnet6 : dhcpv6_subnet_t :=
  mk_subnet6 [] 0 (replicate 16 0) false [] [] (replicate 16 0) (replicate 16 0) false [] [] [] false 0 false 0 false [] false [] false
    0 0 [] false [] [] 0 (replicate 16 0) (replicate 16 0) false false false 0 false.

Definition zero_global6 : dhcpv6_global_t :=
  mk_global6 0 0 [] [] [] false 0 false 0 false [] false [] false false 0 false.

Definition zero_config6 : dhcpv6_config_t := mk_config6 zero_global6 [].

(** ** Lines and values *)

Fixpoint starts_with (line kw : cstr) : bool :=
  match kw, line with
  | [], _ => true
  | k :: kw, c :: line => if c =? k then starts_with line kw else false
  | _ :: _, [] => false
  end.

(** What the loops look at after [fgets]. *)
Definition clean_line (line : cstr) : cstr := lskip (rstrip (strip_inline_comment (c_string line))).

(** Neither empty nor a comment. *)
Definition skipped6 (p : cstr) : bool := (byte_at p 0 =? 0) || (byte_at p 0 =? 35).

(** The text after a keyword the line starts with. *)
Definition after (kw : string) (line : cstr) : cstr := drop (length (lit kw)) line.

(** [sscanf(line, "kw %u", &v)]. *)
Definition number (kw : string) (line : cstr) : option Z := fst <$> scan_u (after kw line).

(** The copies of the text options through [tmp], without and with [unquote]. *)
Definition text_value (kw : string) (line : cstr) : cstr :=
  strip_semicolon (take 255 (lskip (after kw line))).

Definition quoted_value (kw : string) (line : cstr) : cstr := unquote (text_value kw line).

(** [sscanf(line, "kw %15s", val)] and the three words that mean yes. *)
Definition switch (kw : string) (line : cstr) : option bool :=
  '(val, _) ← scan_s 15 (after kw line);
  Some (bool_decide (val = lit "on") || bool_decide (val = lit "true") || bool_decide (val = lit "1")).

(** A field that is only written when its value was read. *)
Definition store_some {A R} (o : option A) (f : A -> R -> R) (r : R) : R :=
  match o with Some a => f a r | None => r end.

(** ** Global options *)

Definition parse_global_option (line : cstr) (g : dhcpv6_global_t) : dhcpv6_global_t :=
  let line := lskip (strip_semicolon line) in
  let has key := starts_with line (lit key) in
  if has "default-lease-time" then
    set_g6_default_lease_time (default 0 (number "default-lease-time" line)) g
  else if has "max-lease-time" then
    set_g6_max_lease_time (default 0 (number "max-lease-time" line)) g
  else if has "option dhcp6.name-servers" then
    set_g6_global_dns_servers (text_value "option dhcp6.name-servers" line) g
  else if has "option dhcp6.domain-search" then
    set_g6_global_domain_search (quoted_value "option dhcp6.domain-search" line) g
  else if has "option dhcp6.sntp-servers" then
    set_g6_has_sntp_servers true (set_g6_sntp_servers (text_value "option dhcp6.sntp-servers" line) g)
  else if has "option dhcp6.info-refresh-time" then
    store_some (number "option dhcp6.info-refresh-time" line)
      (fun v g => set_g6_has_info_refresh_time true (set_g6_info_refresh_time v g)) g
  else if has "option dhcp6.preference" then
    store_some (number "option dhcp6.preference" line)
      (fun v g => set_g6_has_preference true (set_g6_preference (if 255 <? v then 255 else v) g)) g
  else if has "option dhcp6.sip-server-domain" then
    set_g6_has_sip_server_domain true
      (set_g6_sip_server_domain (quoted_value "option dhcp6.sip-server-domain" line) g)
  else if has "option dhcp6.bootfile-url" then
    set_g6_has_bootfile_url true (set_g6_bootfile_url (quoted_value "option dhcp6.bootfile-url" line) g)
  else if has "option dhcp6.icmp6-probe" then
    store_some (switch "option dhcp6.icmp6-probe" line) set_g6_icmp6_probe g
  else if has "option dhcp6.icmp6-timeout" then
    store_some (number "option dhcp6.icmp6-timeout" line)
      (fun v g => set_g6_has_icmp6_timeout true (set_g6_icmp6_timeout_ms v g)) g
  else g.

(** ** Options of a subnet *)

Definition parse_subnet_option (line : cstr) (s : dhcpv6_subnet_t) : dhcpv6_subnet_t :=
  let line := lskip (strip_semicolon line) in
  let has key := starts_with line (lit key) in
  if has "option dhcp6.name-servers" then
    set_s6_dns_servers (text_value "option dhcp6.name-servers" line) s
  else if has "option dhcp6.domain-search" then
    set_s6_domain_search (quoted_value "option dhcp6.domain-search" line) s
  else if has "option dhcp6.sntp-servers" then
    set_s6_has_sntp_servers true (set_s6_sntp_servers (text_value "option dhcp6.sntp-servers" line) s)
  else if has "option dhcp6.info-refresh-time" then
    store_some (number "option dhcp6.info-refresh-time" line)
      (fun v s => set_s6_has_info_refresh_time true (set_s6_info_refresh_time v s)) s
  else if has "option dhcp6.preference" then
    store_some (number "option dhcp6.preference" line)
      (fun v s => set_s6_has_preference true (set_s6_preference (if 255 <? v then 255 else v) s)) s
  else if has "option dhcp6.sip-server-domain" then
    set_s6_has_sip_server_domain true
      (set_s6_sip_server_domain (quoted_value "option dhcp6.sip-server-domain" line) s)
  else if has "option dhcp6.bootfile-url" then
    set_s6_has_bootfile_url true (set_s6_bootfile_url (quoted_value "option dhcp6.bootfile-url" line) s)
  else if has "default-lease-time" then
    store_some (number "default-lease-time" line) set_s6_default_lease_time s
  else if has "max-lease-time" then
    store_some (number "max-lease-time" line) set_s6_max_lease_time s
  else if has "option dhcp6.icmp6-probe" then
    store_some (switch "option dhcp6.icmp6-probe" line)
      (fun v s => set_s6_icmp6_probe v (set_s6_icmp6_probe_override true s)) s
  else if has "option dhcp6.icmp6-timeout" then
    store_some (number "option dhcp6.icmp6-timeout" line)
      (fun v s => set_s6_has_icmp6_timeout true (set_s6_icmp6_timeout_ms v s)) s
  else s.

Section Parser6.
Context (inet_pton6 : cstr -> option in6_addr).

(** [ipv6_str_to_bin(a, &start) == 0 && ipv6_str_to_bin(b, &end) == 0]: the second address is
    not looked at when the first is wrong. *)
Definition range_to_bin (a b : cstr) (old_a old_b : in6_addr) : bool * in6_addr * in6_addr :=
  let '(ok, x) := ipv6_str_to_bin inet_pton6 a old_a in
  if ok : bool then let '(ok, y) := ipv6_str_to_bin inet_pton6 b old_b in (ok, x, y)
  else (false, x, old_b).

Definition parse_range (line : cstr) (s : dhcpv6_subnet_t) : dhcpv6_subnet_t :=
  match ('(a, rest) ← scan_s 79 (after "range6" (strip_semicolon line));
         '(b, _) ← scan_s 79 rest; Some (a, b)) with
  | None => s
  | Some (a, b) =>
      let s := set_s6_pool_end b (set_s6_pool_start a s) in
      let '(ok, x, y) := range_to_bin a b s.(s6_pool_start_bin) s.(s6_pool_end_bin) in
      set_s6_has_pool_range ok (set_s6_pool_end_bin y (set_s6_pool_start_bin x s))
  end.

Definition parse_prefix6 (line : cstr) (s : dhcpv6_subnet_t) : dhcpv6_subnet_t :=
  match ('(a, rest) ← scan_s 79 (after "prefix6" (strip_semicolon line));
         '(b, rest) ← scan_s 79 rest;
         '(slashlen, _) ← scan_s 255 rest; Some (a, b, strip_semicolon slashlen)) with
  | None => s
  | Some (a, b, slashlen) =>
      let s := if byte_at slashlen 0 =? 47
               then set_s6_pd_prefix_len (u8 (strtoul10 (drop 1 slashlen)).1.1) s else s in
      let s := set_s6_pd_pool_end b (set_s6_pd_pool_start a s) in
      let '(ok, x, y) := range_to_bin a b s.(s6_pd_pool_start_bin) s.(s6_pd_pool_end_bin) in
      set_s6_has_pd_pool ok (set_s6_pd_enabled ok (set_s6_pd_pool_end_bin y (set_s6_pd_pool_start_bin x s)))
  end.

(** ** Host blocks *)

(** The name on the line of the block: at most 255 characters, before the brace. *)
Definition host_name6 (first_line : cstr) : cstr :=
  let tmp := take_while (fun c => negb (c =? 123)) (take 255 first_line) in
  match scan_s 255 (after "host" tmp) with
  | Some (hostname, _) => hostname
  | None => []
  end.

Definition parse_host_line (p : cstr) (h : dhcpv6_static_host_t) : dhcpv6_static_host_t :=
  if starts_with p (lit "host-identifier option dhcp6.client-id") then
    set_h6_duid (strip_semicolon (take 129 (lskip (after "host-identifier option dhcp6.client-id" p)))) h
  else if starts_with p (lit "fixed-address6") then
    match scan_s 79 (after "fixed-address6" p) with
    | None => h
    | Some (addr_tmp, _) =>
        let addr_tmp := strip_semicolon addr_tmp in
        let h := set_h6_fixed_address6 addr_tmp h in
        let '(ok, a) := ipv6_str_to_bin inet_pton6 addr_tmp h.(h6_fixed_addr6_bin) in
        set_h6_has_fixed_address6_bin ok (set_h6_fixed_addr6_bin a h)
    end
  else if starts_with p (lit "option dhcp6.hostname") then
    set_h6_hostname (quoted_value "option dhcp6.hostname" p) h
  else h.

(** The loop of [parse_host_block]: the code, the bytes left and the hosts in use. *)
Fixpoint host6_loop (fuel : nat) (fp : cstr) (hosts : list dhcpv6_static_host_t) (h : dhcpv6_static_host_t)
    : outcome (Z * cstr * list dhcpv6_static_host_t) :=
  match fuel with
  | O => Fault OutOfFuel
  | S fuel =>
      match fgets_buf LINE_MAX_LEN fp with
      | None => Ret (-1, fp, hosts)
      | Some (line, fp) =>
          let p := clean_line line in
          if skipped6 p then host6_loop fuel fp hosts h
          else if byte_at p 0 =? 125 then Ret (0, fp, hosts ++ [h])
          else host6_loop fuel fp hosts (parse_host_line p h)
      end
  end.

Definition parse_host_block (fp : cstr) (subnet : dhcpv6_subnet_t) (first_line : cstr)
    : outcome (Z * cstr * dhcpv6_subnet_t) :=
  if bool_decide (MAX_HOSTS_PER_SUBNET <= length subnet.(s6_hosts))%nat then Ret (-1, fp, subnet)
  else
    '(r, fp, hosts) ← host6_loop (S (length fp)) fp subnet.(s6_hosts)
                        (set_h6_hostname (host_name6 first_line) zero_host6);
    Ret (r, fp, set_s6_hosts hosts subnet).

(** ** Subnet blocks and the file *)

(** The configuration with the new subnet at its end, [None] for a null pointer. *)
Definition start_new_subnet (cfg : dhcpv6_config_t) (line : cstr) : option dhcpv6_config_t :=
  if bool_decide (MAX_SUBNET_V6 <= length cfg.(c6_subnets))%nat then None
  else
    let tmp := rstrip (take_while (fun c => negb (c =? 123)) (take (LINE_MAX_LEN - 1) line)) in
    '(prefix_and_len, _) ← scan_s 255 (after "subnet6" tmp);
    '(prefix, len) ← parse_prefix_and_len prefix_and_len 80;
    let subnet := set_s6_prefix_len len (set_s6_prefix prefix zero_subnet6) in
    let '(ok, a) := ipv6_str_to_bin inet_pton6 prefix subnet.(s6_prefix_bin) in
    Some (set_c6_subnets (cfg.(c6_subnets) ++ [set_s6_has_prefix_bin ok (set_s6_prefix_bin a subnet)]) cfg).

(** A line inside a subnet block that does not start a host. *)
Definition parse_subnet_line (p : cstr) (s : dhcpv6_subnet_t) : dhcpv6_subnet_t :=
  if starts_with p (lit "range6") then parse_range p s
  else if starts_with p (lit "prefix6") then parse_prefix6 p s
  else if starts_with p (lit "option dhcp6.") then parse_subnet_option p s
  else if starts_with p (lit "default-lease-time") || starts_with p (lit "max-lease-time")
  then parse_subnet_option p s
  else s.

(** The loop of [load_config_v6]; [current] is the index of the open subnet.  The code is -1
    when the loop returns early. *)
Fixpoint load_loop6 (fuel : nat) (fp : cstr) (cfg : dhcpv6_config_t) (current : option nat)
    : outcome (Z * dhcpv6_config_t) :=
  match fuel with
  | O => Fault OutOfFuel
  | S fuel =>
      match fgets_buf LINE_MAX_LEN fp with
      | None => Ret (0, cfg)
      | Some (line, fp) =>
          let p := clean_line line in
          if skipped6 p then load_loop6 fuel fp cfg current
          else if byte_at p 0 =? 125 then load_loop6 fuel fp cfg None
          else
            match current with
            | Some i =>
                subnet ← in_bounds (cfg.(c6_subnets) !! i);
                let put s := set_c6_subnets (<[i := s]> cfg.(c6_subnets)) cfg in
                if starts_with p (lit "host") then
                  '(r, fp, subnet) ← parse_host_block fp subnet p;
                  if r =? 0 then load_loop6 fuel fp (put subnet) current else Ret (-1, put subnet)
                else load_loop6 fuel fp (put (parse_subnet_line p subnet)) current
            | None =>
                if starts_with p (lit "subnet6") then
                  match start_new_subnet cfg p with
                  | Some cfg' => load_loop6 fuel fp cfg' (Some (length cfg.(c6_subnets)))
                  | None => Ret (-1, cfg)
                  end
                else load_loop6 fuel fp (set_c6_global (parse_global_option p cfg.(c6_global)) cfg) None
            end
      end
  end.

(** The lease times that are still zero at the end of the file. *)
Definition inherit_times (g : dhcpv6_global_t) (s : dhcpv6_subnet_t) : dhcpv6_subnet_t :=
  let s := if s.(s6_default_lease_time) =? 0 then set_s6_default_lease_time g.(g6_default_lease_time) s else s in
  if s.(s6_max_lease_time) =? 0 then set_s6_max_lease_time g.(g6_max_lease_time) s else s.

Definition apply_defaults (cfg : dhcpv6_config_t) : dhcpv6_config_t :=
  let g := cfg.(c6_global) in
  let g := if g.(g6_default_lease_time) =? 0 then set_g6_default_lease_time 3600 g else g in
  let g := if g.(g6_max_lease_time) =? 0 then set_g6_max_lease_time 7200 g else g in
  mk_config6 g (inherit_times g <$> cfg.(c6_subnets)).

(** The return code and the configuration; the file is [None] when it cannot be opened. *)
Definition load_config_v6 (file : option cstr) : outcome (Z * dhcpv6_config_t) :=
  match file with
  | None => Ret (-1, zero_config6)
  | Some fp =>
      '(r, cfg) ← load_loop6 (S (length fp)) fp zero_config6 None;
      if r =? 0 then Ret (0, apply_defaults cfg) else Ret (r, cfg)
  end.

(** ** The bounds of what is read *)

Definition host6_fits (h : dhcpv6_static_host_t) : Prop :=
  (length h.(h6_hostname) < 256)%nat /\ (length h.(h6_duid) < 130)%nat /\ (length h.(h6_fixed_address6) < 80)%nat.

Definition subnet6_fits (s : dhcpv6_subnet_t) : Prop :=
  Forall (fun t : cstr => (length t < 80)%nat)
    [s.(s6_prefix); s.(s6_pool_start); s.(s6_pool_end); s.(s6_pd_pool_start); s.(s6_pd_pool_end)]
  /\ Forall (fun t : cstr => (length t < 256)%nat)
    [s.(s6_dns_servers); s.(s6_domain_search); s.(s6_sntp_servers); s.(s6_sip_server_domain); s.(s6_bootfile_url)]
  /\ Forall is_u32 [s.(s6_info_refresh_time); s.(s6_default_lease_time); s.(s6_max_lease_time); s.(s6_icmp6_timeout_ms)]
  /\ Forall is_u8 [s.(s6_preference); s.(s6_pd_prefix_len)] /\ 0 <= s.(s6_prefix_len) <= 128
  /\ (length s.(s6_hosts) <= MAX_HOSTS_PER_SUBNET)%nat /\ Forall host6_fits s.(s6_hosts).

Definition global6_fits (g : dhcpv6_global_t) : Prop :=
  Forall (fun t : cstr => (length t < 256)%nat)
    [g.(g6_global_dns_servers); g.(g6_global_domain_search); g.(g6_sntp_servers); g.(g6_sip_server_domain);
     g.(g6_bootfile_url)]
  /\ Forall is_u32 [g.(g6_info_refresh_time); g.(g6_default_lease_time); g.(g6_max_lease_time); g.(g6_icmp6_timeout_ms)]
  /\ is_u8 g.(g6_preference).

Definition config6_fits (c : dhcpv6_config_t) : Prop :=
  global6_fits c.(c6_global) /\ (length c.(c6_subnets) <= MAX_SUBNET_V6)%nat /\ Forall subnet6_fits c.(c6_subnets).

(** The lease times are there at the end. *)
Definition lease_times_set (c : dhcpv6_config_t) : Prop :=
  c.(c6_global).(g6_default_lease_time) <> 0 /\ c.(c6_global).(g6_max_lease_time) <> 0
  /\ Forall (fun s => s.(s6_default_lease_time) <> 0 /\ s.(s6_max_lease_time) <> 0) c.(c6_subnets).

Lemma length_rstrip s : (length (rstrip s) <= length s)%nat.
Proof. apply length_drop_while_end. Qed.

Lemma length_strip_semicolon s : (length (strip_semicolon s) <= length s)%nat.
Proof. etransitivity; [apply length_drop_while_end|apply length_rstrip]. Qed.

Lemma length_unquote s : (length (unquote s) <= length s)%nat.
Proof. unfold unquote. cbv zeta. case_match; [rewrite length_take; lia|done]. Qed.

Lemma text_value_length kw line : (length (text_value kw line) < 256)%nat.
Proof.
  unfold text_value. pose proof (length_strip_semicolon (take 255 (lskip (after kw line)))) as H.
  rewrite length_take in H. lia.
Qed.

Lemma quoted_value_length kw line : (length (quoted_value kw line) < 256)%nat.
Proof. eapply Nat.le_lt_trans; [apply length_unquote|apply text_value_length]. Qed.

Lemma scan_s_length width s w r : scan_s width s = Some (w, r) -> (length w <= width)%nat.
Proof. unfold scan_s. case_match; [done|]. cbv zeta. intros [= <- _]. rewrite length_take. lia. Qed.

Lemma number_u32 kw line v : number kw line = Some v -> is_u32 v.
Proof.
  unfold number, scan_u. destruct (scan_sign _) as [neg s]. destruct (starts_digit 10 s); [|done].
  destruct (scan_digits 10 s 0) as [n r]. cbn. intros [= <-]. apply u32_range.
Qed.

Lemma number_default kw line : is_u32 (default 0 (number kw line)).
Proof. destruct (number kw line) eqn:E; [by eapply number_u32|]. unfold is_u32. simpl. lia. Qed.

Lemma clamp_u8 v : is_u32 v -> is_u8 (if 255 <? v then 255 else v).
Proof. unfold is_u32, is_u8. intros H. destruct (Z.ltb_spec 255 v); lia. Qed.

Create HintDb fits6.
#[local] Hint Resolve text_value_length quoted_value_length number_u32 number_default clamp_u8 u8_range : fits6.

Lemma global6_fits_iff g :
  global6_fits g <->
  ((length g.(g6_global_dns_servers) < 256)%nat /\ (length g.(g6_global_domain_search) < 256)%nat
   /\ (length g.(g6_sntp_servers) < 256)%nat /\ (length g.(g6_sip_server_domain) < 256)%nat
   /\ (length g.(g6_bootfile_url) < 256)%nat)
  /\ (is_u32 g.(g6_info_refresh_time) /\ is_u32 g.(g6_default_lease_time) /\ is_u32 g.(g6_max_lease_time)
      /\ is_u32 g.(g6_icmp6_timeout_ms)) /\ is_u8 g.(g6_preference).
Proof. unfold global6_fits. rewrite !Forall_cons, !Forall_nil. tauto. Qed.

Lemma subnet6_fits_iff s :
  subnet6_fits s <->
  ((length s.(s6_prefix) < 80)%nat /\ (length s.(s6_pool_start) < 80)%nat /\ (length s.(s6_pool_end) < 80)%nat
   /\ (length s.(s6_pd_pool_start) < 80)%nat /\ (length s.(s6_pd_pool_end) < 80)%nat)
  /\ ((length s.(s6_dns_servers) < 256)%nat /\ (length s.(s6_domain_search) < 256)%nat
      /\ (length s.(s6_sntp_servers) < 256)%nat /\ (length s.(s6_sip_server_domain) < 256)%nat
      /\ (length s.(s6_bootfile_url) < 256)%nat)
  /\ (is_u32 s.(s6_info_refresh_time) /\ is_u32 s.(s6_default_lease_time) /\ is_u32 s.(s6_max_lease_time)
      /\ is_u32 s.(s6_icmp6_timeout_ms))
  /\ (is_u8 s.(s6_preference) /\ is_u8 s.(s6_pd_prefix_len)) /\ 0 <= s.(s6_prefix_len) <= 128
  /\ (length s.(s6_hosts) <= MAX_HOSTS_PER_SUBNET)%nat /\ Forall host6_fits s.(s6_hosts).
Proof. unfold subnet6_fits. rewrite !Forall_cons, !Forall_nil. tauto. Qed.

Lemma store_some_fits {A R} (P : R -> Prop) (o : option A) f r :
  (forall a, o = Some a -> P (f a r)) -> P r -> P (store_some o f r).
Proof. destruct o; simpl; auto. Qed.

(** Every branch writes one field, or two of which one is a flag. *)
Ltac kept_fits :=
  repeat match goal with |- _ (if ?b then _ else _) => destruct b end; try assumption;
  try (apply store_some_fits; [intros ? ?|assumption]);
  first [rewrite global6_fits_iff in * | rewrite subnet6_fits_iff in *]; destruct_and?; cbn -[number is_u32 is_u8 text_value quoted_value length Z.ltb default from_option lt];
  split_and!; solve [assumption | eauto with fits6].

Lemma parse_global_option_fits line g : global6_fits g -> global6_fits (parse_global_option line g).
Proof. intros Hg. unfold parse_global_option. cbv zeta. kept_fits. Qed.

Lemma parse_subnet_option_fits line s : subnet6_fits s -> subnet6_fits (parse_subnet_option line s).
Proof. intros Hs. unfold parse_subnet_option. cbv zeta. kept_fits. Qed.

Lemma parse_range_fits line s : subnet6_fits s -> subnet6_fits (parse_range line s).
Proof.
  intros Hs. unfold parse_range. destruct (scan_s 79 _) as [[a rest]|] eqn:Ea; [|done]. cbn [mbind option_bind].
  destruct (scan_s 79 rest) as [[b r]|] eqn:Eb; [|done]. cbn [mbind option_bind].
  apply scan_s_length in Ea, Eb. destruct (range_to_bin _ _ _ _) as [[ok x] y].
  rewrite subnet6_fits_iff in *. cbn. destruct_and?. split_and!; (assumption || lia).
Qed.

Lemma parse_prefix6_fits line s : subnet6_fits s -> subnet6_fits (parse_prefix6 line s).
Proof.
  intros Hs. unfold parse_prefix6. destruct (scan_s 79 _) as [[a rest]|] eqn:Ea; [|done]. cbn [mbind option_bind].
  destruct (scan_s 79 rest) as [[b r]|] eqn:Eb; [|done]. cbn [mbind option_bind].
  destruct (scan_s 255 r) as [[sl r']|] eqn:Ec; [|done]. cbn [mbind option_bind].
  apply scan_s_length in Ea, Eb. cbv zeta.
  assert (subnet6_fits (if byte_at (strip_semicolon sl) 0 =? 47
    then set_s6_pd_prefix_len (u8 (strtoul10 (drop 1 (strip_semicolon sl))).1.1) s else s)) as Hl.
  { destruct (_ =? 47); [|done]. rewrite subnet6_fits_iff in *. cbn -[u8 is_u8 is_u32]. destruct_and?.
    split_and!; (assumption || apply u8_range). }
  revert Hl. generalize (if byte_at (strip_semicolon sl) 0 =? 47
    then set_s6_pd_prefix_len (u8 (strtoul10 (drop 1 (strip_semicolon sl))).1.1) s else s). clear Hs. intros t Ht.
  destruct (range_to_bin _ _ _ _) as [[ok x] y].
  rewrite subnet6_fits_iff in *. cbn. destruct_and?. split_and!; (assumption || lia).
Qed.

Lemma parse_subnet_line_fits p s : subnet6_fits s -> subnet6_fits (parse_subnet_line p s).
Proof.
  intros Hs. unfold parse_subnet_line.
  repeat match goal with |- _ (if ?b then _ else _) => destruct b end;
    auto using parse_range_fits, parse_prefix6_fits, parse_subnet_option_fits.
Qed.

Lemma parse_host_line_fits p h : host6_fits h -> host6_fits (parse_host_line p h).
Proof.
  intros (H1 & H2 & H3). unfold parse_host_line. destruct (starts_with p _); [|destruct (starts_with p _)].
  - split_and!; [done| |done]. cbn [h6_duid set_h6_duid].
    pose proof (length_strip_semicolon (take 129 (lskip (after "host-identifier option dhcp6.client-id" p)))) as H.
    rewrite length_take in H. lia.
  - destruct (scan_s 79 _) as [[a r]|] eqn:E; [|by split_and!]. apply scan_s_length in E.
    pose proof (length_strip_semicolon a). cbv zeta. destruct (ipv6_str_to_bin _ _ _) as [ok x].
    split_and!; [done|done|]. cbn. lia.
  - destruct (starts_with p _); [|by split_and!]. split_and!; [apply quoted_value_length|done|done].
Qed.

Lemma host_name6_length line : (length (host_name6 line) < 256)%nat.
Proof.
  unfold host_name6. cbv zeta. destruct (scan_s 255 _) as [[w r]|] eqn:E; [|simpl; lia].
  apply scan_s_length in E. lia.
Qed.

Lemma host6_loop_ends fuel : forall fp hosts h,
  (length fp < fuel)%nat -> Forall host6_fits hosts -> host6_fits h ->
  exists r fp' hosts', host6_loop fuel fp hosts h = Ret (r, fp', hosts')
    /\ (length fp' <= length fp)%nat /\ Forall host6_fits hosts' /\ (length hosts' <= S (length hosts))%nat
    /\ (r = 0 \/ r = -1).
Proof.
  induction fuel as [|fuel IH]; intros fp hosts h Hf Hs Hh; [lia|]. cbn [host6_loop].
  destruct (fgets_buf LINE_MAX_LEN fp) as [[line fp1]|] eqn:E.
  2:{ eexists _, _, _. split; [reflexivity|]. split_and!; [lia|done|lia|by right]. }
  apply fgets_buf_shorter in E; [|unfold LINE_MAX_LEN; lia]. cbv zeta.
  assert (forall h, host6_fits h -> exists r fp' hosts', host6_loop fuel fp1 hosts h = Ret (r, fp', hosts')
    /\ (length fp' <= length fp)%nat /\ Forall host6_fits hosts' /\ (length hosts' <= S (length hosts))%nat
    /\ (r = 0 \/ r = -1)) as Hnext.
  { intros h' Hh'. destruct (IH fp1 hosts h' ltac:(lia) Hs Hh') as (r & fp' & hs & -> & ? & ? & ? & ?).
    eexists _, _, _. split; [reflexivity|]. split_and!; [lia|done|lia|done]. }
  destruct (skipped6 _); [by apply Hnext|]. destruct (_ =? 125); [|by apply Hnext, parse_host_line_fits].
  eexists _, _, _. split; [reflexivity|]. rewrite length_app. cbn [length]. split_and!; [lia| |lia|by left].
  apply Forall_app. split; [done|]. constructor; [done|constructor].
Qed.

Lemma parse_host_block_ends fp s line :
  subnet6_fits s ->
  exists r fp' s', parse_host_block fp s line = Ret (r, fp', s')
    /\ (length fp' <= length fp)%nat /\ subnet6_fits s' /\ (r = 0 \/ r = -1).
Proof.
  intros Hs. unfold parse_host_block. case_bool_decide as Hc.
  { eexists _, _, _. split; [reflexivity|]. split_and!; [lia|done|by right]. }
  destruct (host6_loop_ends (S (length fp)) fp s.(s6_hosts) (set_h6_hostname (host_name6 line) zero_host6))
    as (r & fp' & hs & -> & ? & ? & ? & ?); [lia|apply Hs| |].
  { split_and!; [apply host_name6_length|simpl; lia|simpl; lia]. }
  rewrite bind_Ret. eexists _, _, _. split; [reflexivity|]. split_and!; [done| |done].
  rewrite subnet6_fits_iff in *. cbn. destruct_and?. split_and!; (done || lia).
Qed.

Lemma start_new_subnet_fits cfg line cfg' :
  start_new_subnet cfg line = Some cfg' -> config6_fits cfg ->
  exists s, c6_global cfg' = c6_global cfg /\ c6_subnets cfg' = c6_subnets cfg ++ [s] /\ config6_fits cfg'.
Proof.
  intros E (Hg & Hl & Hs). unfold start_new_subnet in E. case_bool_decide; [done|]. cbv zeta in E.
  destruct (scan_s 255 _) as [[w r]|]; [|done]. cbn [mbind option_bind] in E.
  destruct (parse_prefix_and_len w 80) as [[prefix len]|] eqn:Ep; [|done]. cbn [mbind option_bind] in E.
  destruct (ipv6_str_to_bin _ _ _) as [ok a]. injection E as <-. eexists. split; [done|]. split; [done|].
  split_and!; [done|cbn; rewrite length_app; cbn [length]; lia|]. apply Forall_app. split; [done|].
  constructor; [|constructor]. unfold parse_prefix_and_len in Ep.
  destruct (split_at 47 w) as [[before rest]|]; [|done]. cbn [mbind option_bind] in Ep.
  destruct (Z.leb_spec 80 (Z.of_nat (length before))); [done|]. cbv zeta in Ep.
  destruct (Z.ltb_spec (strtol10 rest) 0); [done|]. destruct (Z.ltb_spec 128 (strtol10 rest)); [done|].
  injection Ep as <- <-. rewrite subnet6_fits_iff. unfold is_u32, is_u8, MAX_HOSTS_PER_SUBNET. cbn -[length strtol10].
  split_and!; try lia; try (cbn [length]; lia). constructor.
Qed.

(** The open subnet is one of the array. *)
Definition current_ok (cfg : dhcpv6_config_t) (current : option nat) : Prop :=
  match current with Some i => (i < length cfg.(c6_subnets))%nat | None => True end.

Lemma put_subnet_fits cfg i s :
  config6_fits cfg -> subnet6_fits s -> config6_fits (set_c6_subnets (<[i := s]> cfg.(c6_subnets)) cfg).
Proof.
  intros (Hg & Hl & Hs) Hi. split_and!; [done|cbn; by rewrite length_insert|]. cbn [c6_subnets set_c6_subnets].
  by apply Forall_insert.
Qed.

Lemma put_subnet_current cfg i s :
  current_ok cfg (Some i) -> current_ok (set_c6_subnets (<[i := s]> cfg.(c6_subnets)) cfg) (Some i).
Proof. cbn. by rewrite length_insert. Qed.

Lemma load_loop6_ends fuel : forall fp cfg current,
  (length fp < fuel)%nat -> config6_fits cfg -> current_ok cfg current ->
  exists r cfg', load_loop6 fuel fp cfg current = Ret (r, cfg') /\ (r = 0 \/ r = -1) /\ config6_fits cfg'.
Proof.
  induction fuel as [|fuel IH]; intros fp cfg current Hf Hc Hi; [lia|]. cbn [load_loop6].
  destruct (fgets_buf LINE_MAX_LEN fp) as [[line fp1]|] eqn:E.
  2:{ eexists _, _. split; [reflexivity|]. split; [by left|done]. }
  apply fgets_buf_shorter in E; [|unfold LINE_MAX_LEN; lia]. cbv zeta.
  destruct (skipped6 _); [by apply IH; [lia| |]|]. destruct (_ =? 125); [by apply IH; [lia| |]|].
  destruct current as [i|].
  - destruct (lookup_lt_is_Some_2 _ _ Hi) as [s Es]. rewrite Es. cbn [in_bounds]. rewrite bind_Ret. cbv beta.
    assert (subnet6_fits s) as Hs by (destruct Hc as (_ & _ & Hs); by eapply Forall_lookup_1).
    destruct (starts_with _ _).
    + destruct (parse_host_block_ends fp1 s (clean_line line) Hs) as (r & fp2 & s' & -> & ? & Hs' & Hr).
      rewrite bind_Ret. cbv beta iota. destruct (r =? 0).
      * apply IH; [lia|by apply put_subnet_fits|by apply put_subnet_current].
      * eexists _, _. split; [reflexivity|]. split; [by right|by apply put_subnet_fits].
    + apply IH; [lia|by apply put_subnet_fits, parse_subnet_line_fits|by apply put_subnet_current].
  - destruct (starts_with _ _).
    + destruct (start_new_subnet cfg _) as [cfg'|] eqn:En.
      * destruct (start_new_subnet_fits _ _ _ En Hc) as (s & _ & Hl & Hc'). apply IH; [lia|done|].
        cbn. rewrite Hl, length_app. cbn [length]. lia.
      * eexists _, _. split; [reflexivity|]. split; [by right|done].
    + apply IH; [lia| |done]. destruct Hc as (Hg & Hl & Hs). split_and!; [by apply parse_global_option_fits|done|done].
Qed.

Lemma inherit_times_fits g s : global6_fits g -> subnet6_fits s -> subnet6_fits (inherit_times g s).
Proof.
  rewrite global6_fits_iff, !subnet6_fits_iff. intros ? ?. destruct_and?. unfold inherit_times. cbv zeta.
  destruct (s6_default_lease_time s =? 0); cbn [s6_max_lease_time set_s6_default_lease_time];
    (destruct (s6_max_lease_time s =? 0)); cbn -[is_u32 is_u8]; split_and!; assumption.
Qed.

Lemma zero_config6_fits : config6_fits zero_config6.
Proof.
  split_and!; [|cbn; lia|constructor]. rewrite global6_fits_iff. unfold is_u32, is_u8. cbn. lia.
Qed.

Lemma inherit_times_set g s :
  g.(g6_default_lease_time) <> 0 -> g.(g6_max_lease_time) <> 0 ->
  (inherit_times g s).(s6_default_lease_time) <> 0 /\ (inherit_times g s).(s6_max_lease_time) <> 0.
Proof.
  intros Hd Hm. unfold inherit_times. cbv zeta. destruct (Z.eqb_spec (s6_default_lease_time s) 0);
    cbn [s6_max_lease_time set_s6_default_lease_time]; by (destruct (Z.eqb_spec (s6_max_lease_time s) 0)).
Qed.

Lemma apply_defaults_fits cfg :
  config6_fits cfg -> config6_fits (apply_defaults cfg) /\ lease_times_set (apply_defaults cfg).
Proof.
  intros (Hg & Hl & Hs). unfold apply_defaults. cbv zeta.
  set (g1 := if _ =? 0 then set_g6_default_lease_time 3600 _ else _).
  set (g2 := if g6_max_lease_time g1 =? 0 then set_g6_max_lease_time 7200 g1 else g1).
  assert (global6_fits g1 /\ g6_default_lease_time g1 <> 0) as [Hg1 Hd].
  { unfold g1. destruct (Z.eqb_spec (g6_default_lease_time (c6_global cfg)) 0); [|done]. split; [|done].
    rewrite global6_fits_iff in *. destruct_and?. cbn. split_and!; (assumption || unfold is_u32; lia). }
  assert (global6_fits g2 /\ g6_default_lease_time g2 <> 0 /\ g6_max_lease_time g2 <> 0) as (Hg2 & Hd2 & Hm2).
  { unfold g2. destruct (Z.eqb_spec (g6_max_lease_time g1) 0); [|done]. split; [|done].
    rewrite global6_fits_iff in *. destruct_and?. cbn. split_and!; (assumption || unfold is_u32; lia). }
  clearbody g2. clear g1 Hg1 Hd. split; split_and!; try done.
  - cbn [c6_subnets]. by rewrite length_fmap.
  - cbn [c6_subnets]. apply Forall_fmap. eapply Forall_impl; [exact Hs|]. intros s. by apply inherit_times_fits.
  - cbn [c6_subnets]. apply Forall_fmap, Forall_forall. intros s _. by apply inherit_times_set.
Qed.

(** Whatever the configuration file holds, [load_config_v6] ends; it returns 0 or -1 with
    at most 64 subnets of at most 200 hosts each, every text within its array and every
    number within its width, and when it returns 0 no lease time is zero. *)
Lemma config_v6_parse_bounds (file : option cstr) :
  exists r cfg, load_config_v6 file = Ret (r, cfg) /\ (r = 0 \/ r = -1) /\ config6_fits cfg
    /\ (r = 0 -> lease_times_set cfg).
Proof.
  destruct file as [fp|]; cbn [load_config_v6].
  - destruct (load_loop6_ends (S (length fp)) fp zero_config6 None) as (r & cfg & -> & Hr & Hc);
      [lia|apply zero_config6_fits|done|]. rewrite bind_Ret. cbv beta iota.
    destruct (apply_defaults_fits cfg Hc) as [Hd Ht]. destruct (Z.eqb_spec r 0).
    + eexists _, _. split; [reflexivity|]. split_and!; [by left|done|done].
    + eexists _, _. split; [reflexivity|]. by split_and!.
  - eexists _, _. split; [reflexivity|]. split_and!; [by right|apply zero_config6_fits|done].
Qed.
End Parser6.
