(* ===== verification/ConfigFileV6Spec.v ===== *)
(** * What a DHCPv6 configuration file means

    The statements of [dhcpv6.conf] as data, their effect on the records of [ConfigV6], their
    text, and the theorem that [load_config_v6] on the text makes exactly their effects
    ([config_v6_roundtrip]).  [inet_pton] and [inet_ntop] are parameters; what is used of
    them is stated for the addresses that occur ([ip6_ok]). *)

From Stdlib Require Import String.
From S2P Require Import Prelude UtilsV6 ConfigV6 CText UtilsV4 ConfigFileV6.

(** ** Statements *)

(** The options that stand both outside and inside of subnets. *)
Inductive opt6 :=
| ODefault (n : Z)
| OMax (n : Z)
| ODns (t : cstr)
| OSearch (q : cstr)
| OSntp (t : cstr)
| ORefresh (n : Z)
| OPreference (n : Z)
| OSip (q : cstr)
| OBootfile (q : cstr)
| OProbe (b : bool)
| OTimeout (n : Z).

Inductive h6_stmt :=
| HDuid (t : cstr)
| HAddr6 (a : in6_addr)
| HName6 (q : cstr).

Inductive s6_item :=
| SOpt (o : opt6)
| SRange6 (a b : in6_addr)
| SPrefix6 (a b : in6_addr) (len : Z)
| SHost6 (name : cstr) (body : list h6_stmt).

Inductive item6 :=
| IOpt (o : opt6)
| ISubnet6 (a : in6_addr) (len : Z) (body : list s6_item).

(** ** Their effect *)

Definition g6_apply (g : dhcpv6_global_t) (o : opt6) : dhcpv6_global_t :=
  match o with
  | ODefault n => set_g6_default_lease_time n g
  | OMax n => set_g6_max_lease_time n g
  | ODns t => set_g6_global_dns_servers t g
  | OSearch q => set_g6_global_domain_search q g
  | OSntp t => set_g6_has_sntp_servers true (set_g6_sntp_servers t g)
  | ORefresh n => set_g6_has_info_refresh_time true (set_g6_info_refresh_time n g)
  | OPreference n => set_g6_has_preference true (set_g6_preference (Z.min n 255) g)
  | OSip q => set_g6_has_sip_server_domain true (set_g6_sip_server_domain q g)
  | OBootfile q => set_g6_has_bootfile_url true (set_g6_bootfile_url q g)
  | OProbe b => set_g6_icmp6_probe b g
  | OTimeout n => set_g6_has_icmp6_timeout true (set_g6_icmp6_timeout_ms n g)
  end.

Definition s6_opt_apply (s : dhcpv6_subnet_t) (o : opt6) : dhcpv6_subnet_t :=
  match o with
  | ODefault n => set_s6_default_lease_time n s
  | OMax n => set_s6_max_lease_time n s
  | ODns t => set_s6_dns_servers t s
  | OSearch q => set_s6_domain_search q s
  | OSntp t => set_s6_has_sntp_servers true (set_s6_sntp_servers t s)
  | ORefresh n => set_s6_has_info_refresh_time true (set_s6_info_refresh_time n s)
  | OPreference n => set_s6_has_preference true (set_s6_preference (Z.min n 255) s)
  | OSip q => set_s6_has_sip_server_domain true (set_s6_sip_server_domain q s)
  | OBootfile q => set_s6_has_bootfile_url true (set_s6_bootfile_url q s)
  | OProbe b => set_s6_icmp6_probe b (set_s6_icmp6_probe_override true s)
  | OTimeout n => set_s6_has_icmp6_timeout true (set_s6_icmp6_timeout_ms n s)
  end.

Section Text6.
Context (inet_pton6 : cstr -> option in6_addr) (inet_ntop6 : in6_addr -> cstr).

Definition h6_apply (h : dhcpv6_static_host_t) (st : h6_stmt) : dhcpv6_static_host_t :=
  match st with
  | HDuid t => set_h6_duid t h
  | HAddr6 a => set_h6_has_fixed_address6_bin true (set_h6_fixed_addr6_bin a (set_h6_fixed_address6 (inet_ntop6 a) h))
  | HName6 q => set_h6_hostname q h
  end.

Definition s6_apply (s : dhcpv6_subnet_t) (it : s6_item) : dhcpv6_subnet_t :=
  match it with
  | SOpt o => s6_opt_apply s o
  | SRange6 a b =>
      set_s6_has_pool_range true (set_s6_pool_end_bin b (set_s6_pool_start_bin a
        (set_s6_pool_end (inet_ntop6 b) (set_s6_pool_start (inet_ntop6 a) s))))
  | SPrefix6 a b len =>
      set_s6_has_pd_pool true (set_s6_pd_enabled true (set_s6_pd_pool_end_bin b (set_s6_pd_pool_start_bin a
        (set_s6_pd_pool_end (inet_ntop6 b) (set_s6_pd_pool_start (inet_ntop6 a) (set_s6_pd_prefix_len len s))))))
  | SHost6 name body => set_s6_hosts (s.(s6_hosts) ++ [foldl h6_apply (set_h6_hostname name zero_host6) body]) s
  end.

(** The subnet a block starts with. *)
Definition new_subnet6 (a : in6_addr) (len : Z) : dhcpv6_subnet_t :=
  set_s6_has_prefix_bin true (set_s6_prefix_bin a (set_s6_prefix_len len (set_s6_prefix (inet_ntop6 a) zero_subnet6))).

Definition item6_apply (c : dhcpv6_config_t) (it : item6) : dhcpv6_config_t :=
  match it with
  | IOpt o => set_c6_global (g6_apply c.(c6_global) o) c
  | ISubnet6 a len body => set_c6_subnets (c.(c6_subnets) ++ [foldl s6_apply (new_subnet6 a len) body]) c
  end.

(** The lease times at the end: 3600 and 7200 where the file gives none, and those of the
    global options, wherever they stand, for a subnet without its own. *)
Definition with_times (d m : Z) (s : dhcpv6_subnet_t) : dhcpv6_subnet_t :=
  set_s6_max_lease_time (or_zero s.(s6_max_lease_time) m)
    (set_s6_default_lease_time (or_zero s.(s6_default_lease_time) d) s).

Definition with_defaults (c : dhcpv6_config_t) : dhcpv6_config_t :=
  let d := or_zero c.(c6_global).(g6_default_lease_time) 3600 in
  let m := or_zero c.(c6_global).(g6_max_lease_time) 7200 in
  mk_config6 (set_g6_max_lease_time m (set_g6_default_lease_time d c.(c6_global))) (with_times d m <$> c.(c6_subnets)).

Definition config6_run (items : list item6) : dhcpv6_config_t :=
  with_defaults (foldl item6_apply zero_config6 items).

(** ** Their text *)

Definition statement6 (key : string) (value : cstr) : cstr := lit key ++ 32 :: value ++ [59].

Definition opt6_key (o : opt6) : string :=
  match o with
  | ODefault _ => "default-lease-time"
  | OMax _ => "max-lease-time"
  | ODns _ => "option dhcp6.name-servers"
  | OSearch _ => "option dhcp6.domain-search"
  | OSntp _ => "option dhcp6.sntp-servers"
  | ORefresh _ => "option dhcp6.info-refresh-time"
  | OPreference _ => "option dhcp6.preference"
  | OSip _ => "option dhcp6.sip-server-domain"
  | OBootfile _ => "option dhcp6.bootfile-url"
  | OProbe _ => "option dhcp6.icmp6-probe"
  | OTimeout _ => "option dhcp6.icmp6-timeout"
  end.

Definition opt6_value (o : opt6) : cstr :=
  match o with
  | ODefault n | OMax n | ORefresh n | OPreference n | OTimeout n => dec n
  | ODns t | OSntp t => t
  | OSearch q | OSip q | OBootfile q => quoted q
  | OProbe b => lit (if b then "true" else "false")
  end.

Definition h6_text (st : h6_stmt) : cstr :=
  match st with
  | HDuid t => statement6 "host-identifier option dhcp6.client-id" t
  | HAddr6 a => statement6 "fixed-address6" (inet_ntop6 a)
  | HName6 q => statement6 "option dhcp6.hostname" (quoted q)
  end.

Definition host6_lines (body : list h6_stmt) : list cstr :=
  ((fun st => [32; 32; 32; 32] ++ h6_text st) <$> body) ++ [[32; 32; 125]].

Definition s6_lines (it : s6_item) : list cstr :=
  match it with
  | SOpt o => [[32; 32] ++ statement6 (opt6_key o) (opt6_value o)]
  | SRange6 a b => [[32; 32] ++ statement6 "range6" (inet_ntop6 a ++ 32 :: inet_ntop6 b)]
  | SPrefix6 a b len => [[32; 32] ++ statement6 "prefix6" (inet_ntop6 a ++ 32 :: inet_ntop6 b ++ 32 :: 47 :: dec len)]
  | SHost6 name body => ([32; 32] ++ lit "host" ++ 32 :: name ++ [32; 123]) :: host6_lines body
  end.

Definition subnet6_lines (body : list s6_item) : list cstr := concat (s6_lines <$> body) ++ [[125]].

Definition item6_lines (it : item6) : list cstr :=
  match it with
  | IOpt o => [statement6 (opt6_key o) (opt6_value o)]
  | ISubnet6 a len body => (lit "subnet6" ++ 32 :: inet_ntop6 a ++ 47 :: dec len ++ [32; 123]) :: subnet6_lines body
  end.

Definition config6_text (items : list item6) : cstr := print_lines (concat (item6_lines <$> items)).

(** ** The statements that can be written *)

(** Characters of a value without quotes; a [#] would start a comment. *)
Definition plain (c : Z) : Prop := 32 <= c /\ c <> 34 /\ c <> 35 /\ c <> 92.

(** A value without blanks around it that does not end in a semicolon. *)
Definition text6_ok (cap : nat) (t : cstr) : Prop :=
  Forall plain t /\ (exists c, head t = Some c /\ c <> 32) /\ (exists d, last t = Some d /\ d <> 32 /\ d <> 59)
  /\ (length t <= cap)%nat.

(** Between quotes everything but quotes and backslashes. *)
Definition quoted6_ok (q : cstr) : Prop := Forall (fun c => 32 <= c /\ c <> 34 /\ c <> 92) q /\ (length q <= 252)%nat.

#[local] Abbreviation ip6_ok := (ip6_ok inet_pton6 inet_ntop6).

Definition opt6_ok (o : opt6) : Prop :=
  match o with
  | ODefault n | OMax n | ORefresh n | OPreference n | OTimeout n => is_u32 n
  | ODns t | OSntp t => text6_ok 255 t
  | OSearch q | OSip q | OBootfile q => quoted6_ok q
  | OProbe _ => True
  end.

Definition h6_ok (st : h6_stmt) : Prop :=
  match st with
  | HDuid t => text6_ok 128 t
  | HAddr6 a => ip6_ok a
  | HName6 q => quoted6_ok q
  end.

(** The name of a host is one word. *)
Definition name6_ok (name : cstr) : Prop :=
  Forall (fun c => plain c /\ c <> 32 /\ c <> 123) name /\ name <> [] /\ (length name <= 248)%nat.

Definition s6_ok (it : s6_item) : Prop :=
  match it with
  | SOpt o => opt6_ok o
  | SRange6 a b => ip6_ok a /\ ip6_ok b
  | SPrefix6 a b len => ip6_ok a /\ ip6_ok b /\ 0 <= len < 256
  | SHost6 name body => name6_ok name /\ Forall h6_ok body
  end.

Definition is_host6 (it : s6_item) : bool := match it with SHost6 _ _ => true | _ => false end.

Definition is_subnet6 (it : item6) : bool := match it with ISubnet6 _ _ _ => true | _ => false end.

Definition item6_ok (it : item6) : Prop :=
  match it with
  | IOpt o => opt6_ok o
  | ISubnet6 a len body =>
      ip6_ok a /\ 0 <= len <= 128 /\ Forall s6_ok body /\ countb is_host6 body <= Z.of_nat MAX_HOSTS_PER_SUBNET
  end.

(** ** Lines *)

Lemma comment_prev q prev prev' s :
  prev <> 92 -> prev' <> 92 -> comment_loop q prev s = comment_loop q prev' s.
Proof.
  intros H H'. destruct s as [|c r]; [done|]. cbn [comment_loop].
  destruct (Z.eqb_spec prev 92); [done|]. by destruct (Z.eqb_spec prev' 92).
Qed.

(** A text in which no comment starts, outside of quotes at both ends. *)
Definition passes (t : cstr) : Prop :=
  forall prev r, prev <> 92 -> comment_loop false prev (t ++ r) = t ++ comment_loop false 0 r.

Lemma passes_app s t : passes s -> passes t -> passes (s ++ t).
Proof. intros Hs Ht prev r Hp. rewrite <- !app_assoc, Hs by done. by rewrite Ht. Qed.

Lemma passes_plain t : Forall (fun c => c <> 34 /\ c <> 35 /\ c <> 92) t -> passes t.
Proof.
  induction 1 as [|c t (H1 & H2 & H3) _ IH]; intros prev r Hp; cbn [app]; [by apply comment_prev|].
  cbn [comment_loop]. destruct (Z.eqb_spec c 34); [done|]. destruct (Z.eqb_spec c 35); [done|]. cbn [andb negb].
  by rewrite IH.
Qed.

Lemma quoted_loop q : forall prev r, Forall (fun c => c <> 34 /\ c <> 92) q -> prev <> 92 ->
  comment_loop true prev (q ++ 34 :: r) = q ++ 34 :: comment_loop false 0 r.
Proof.
  induction q as [|c q IH]; intros prev r Hq Hp; cbn [app comment_loop].
  - destruct (Z.eqb_spec prev 92); [done|]. cbn. f_equal. by apply comment_prev.
  - apply Forall_cons in Hq as [[H1 H2] Hq]. destruct (Z.eqb_spec c 34); [done|]. cbn [andb negb]. by rewrite IH.
Qed.

Lemma passes_quoted q : Forall (fun c => c <> 34 /\ c <> 92) q -> passes (quoted q).
Proof.
  intros Hq prev r Hp. unfold quoted. cbn [app comment_loop]. destruct (Z.eqb_spec prev 92); [done|].
  change (34 =? 34) with true. cbn [andb negb]. rewrite <- app_assoc. cbn [app].
  rewrite quoted_loop by done. by rewrite <- app_assoc.
Qed.

(** A line of the file: it starts and ends with a visible character. *)
Definition line6_ok (body : cstr) : Prop :=
  passes body /\ Forall (fun c => 32 <= c) body /\ (exists c, head body = Some c /\ c <> 32)
  /\ (exists d, last body = Some d) /\ (length body <= 480)%nat.

Lemma clean_read indent body rest :
  Forall (fun c => c = 32) indent -> (length indent <= 4)%nat -> line6_ok body ->
  fgets_buf LINE_MAX_LEN (indent ++ body ++ 10 :: rest) = Some ((indent ++ body) ++ [10], rest)
  /\ clean_line ((indent ++ body) ++ [10]) = body.
Proof.
  intros Hi Hil (Hp & Hv & (c & Hc & Hc32) & (d & Hd) & Hl).
  assert (Forall (fun c => 32 <= c) (indent ++ body)) as Hall.
  { apply Forall_app. split; [|done]. eapply Forall_impl; [exact Hi|]. cbv beta. intros. lia. }
  assert (forall z, z < 32 -> z ∉ indent ++ body) as Hno.
  { intros z Hz Hin. apply (proj1 (Forall_forall _ _) Hall) in Hin. cbv beta in Hin. lia. }
  split.
  - rewrite app_assoc. apply fgets_buf_line; [apply Hno; lia|]. rewrite length_app. unfold LINE_MAX_LEN. lia.
  - unfold clean_line. rewrite c_string_id.
    2:{ rewrite elem_of_app, elem_of_cons, elem_of_nil. intros [Hin|[?|[]]]; [|done]. by apply Hno in Hin. }
    unfold strip_inline_comment. rewrite <- app_assoc.
    assert (passes indent) as Hpi by (apply passes_plain; eapply Forall_impl; [exact Hi|]; by intros ? ->).
    rewrite Hpi, Hp by done.
    change (comment_loop false 0 [10]) with [10]. rewrite app_assoc.
    assert (last (indent ++ body) = Some d) as Hlast by (by rewrite last_app, Hd).
    assert (10 < d) as Hd10.
    { apply last_Some_elem_of in Hlast. apply (proj1 (Forall_forall _ _) Hall) in Hlast. cbv beta in Hlast. lia. }
    assert (rstrip ((indent ++ body) ++ [10]) = indent ++ body) as ->.
    { unfold rstrip, drop_while_end. rewrite rev_app_distr. cbn [rev app drop_while].
      change ((10 =? 10) || (10 =? 13)) with true. cbv iota.
      apply (drop_while_end_last (fun c => (c =? 10) || (c =? 13)) _ d Hlast).
      apply last_Some_elem_of in Hlast. apply (proj1 (Forall_forall _ _) Hall) in Hlast. cbv beta in Hlast. lia. }
    unfold rstrip. rewrite (drop_while_end_last _ _ d Hlast).
    2:{ apply last_Some_elem_of in Hlast. apply (proj1 (Forall_forall _ _) Hall) in Hlast. cbv beta in Hlast. lia. }
    unfold lskip. destruct body as [|c' b]; [done|]. injection Hc as ->. apply Forall_inv in Hv.
    assert (((c =? 32) || (c =? 9)) = false) as Hcb by (cbv beta in Hv; lia).
    clear -Hi Hcb. induction indent as [|x indent IH]; cbn [app drop_while]; [by rewrite Hcb|].
    apply Forall_cons in Hi as [-> Hi]. by apply IH.
Qed.

(** ** Values *)

Definition value6 (v : cstr) : Prop :=
  passes v /\ Forall (fun c => 32 <= c) v /\ (exists c, head v = Some c /\ c <> 32)
  /\ (exists d, last v = Some d /\ d <> 32 /\ d <> 59) /\ (length v <= 255)%nat.

Lemma plain_value v cap : text6_ok cap v -> (cap <= 255)%nat -> value6 v.
Proof.
  intros (Hp & Hh & Hl & Hn) Hcap. split_and!; [|eapply Forall_impl; [exact Hp|]; by intros ? (? & _)|done|done|lia].
  apply passes_plain. eapply Forall_impl; [exact Hp|]. by intros ? (_ & ?).
Qed.

Lemma quoted_value6 q : quoted6_ok q -> value6 (quoted q).
Proof.
  intros [Hq Hl]. unfold quoted. split_and!.
  - apply passes_quoted. eapply Forall_impl; [exact Hq|]. cbv beta. tauto.
  - constructor; [lia|]. apply Forall_app. split; [|constructor; [lia|constructor]].
    eapply Forall_impl; [exact Hq|]. cbv beta. tauto.
  - by exists 34.
  - exists 34. split; [|done]. change (34 :: q ++ [34]) with ((34 :: q) ++ [34]). by rewrite last_snoc.
  - cbn [length]. rewrite length_app. cbn [length]. lia.
Qed.

(** A text of visible characters none of which is special. *)
Lemma visible_value v :
  v <> [] -> Forall (fun c => 32 < c /\ c <> 34 /\ c <> 35 /\ c <> 92 /\ c <> 59) v -> (length v <= 255)%nat -> value6 v.
Proof.
  intros Hne Hv Hl. apply (plain_value v 255); [|lia]. split_and!; [| | |done].
  - eapply Forall_impl; [exact Hv|]. unfold plain. cbv beta. intros. lia.
  - destruct v as [|c v]; [done|]. exists c. split; [done|]. apply Forall_inv in Hv. cbv beta in Hv. lia.
  - destruct v as [|d v _] using rev_ind; [done|]. exists d. rewrite last_snoc. split; [done|].
    apply Forall_app in Hv as [_ Hv]. apply Forall_inv in Hv. cbv beta in Hv. lia.
Qed.

Lemma dec_visible n :
  0 <= n -> Forall (fun c => 32 < c /\ c <> 34 /\ c <> 35 /\ c <> 92 /\ c <> 59) (dec n) /\ (length (dec n) <= 20)%nat.
Proof.
  intros Hn. split.
  - eapply Forall_impl; [by apply dec_digits|]. cbv beta. unfold isdigit. intros. lia.
  - unfold dec. pose proof (length_dec_loop 20 n []) as H. cbn [length] in H. lia.
Qed.

Lemma ip6_visible a :
  ip6_ok a -> Forall (fun c => 32 < c /\ c <> 34 /\ c <> 35 /\ c <> 92 /\ c <> 59) (inet_ntop6 a).
Proof.
  intros (_ & _ & H & _). eapply Forall_impl; [exact H|]. cbv beta. unfold isxdigit. intros. lia.
Qed.

Lemma opt6_value_ok o : opt6_ok o -> value6 (opt6_value o).
Proof.
  assert (forall n, is_u32 n -> value6 (dec n)) as Hdec.
  { intros n Hn. destruct (dec_visible n ltac:(unfold is_u32 in Hn; lia)) as [Hv Hl].
    apply visible_value; [apply dec_nonempty|done|lia]. }
  destruct o; cbn [opt6_ok opt6_value]; intros H; auto using quoted_value6; try (by eapply plain_value).
  destruct b; (apply visible_value; [done|closed_prop|simpl; lia]).
Qed.

(** ** Statements *)

Definition key6 (key : string) : Prop :=
  Forall plain (lit key) /\ (exists c, head (lit key) = Some c /\ c <> 32) /\ (length (lit key) <= 40)%nat.

Lemma statement_line key v : key6 key -> value6 v -> line6_ok (statement6 key v).
Proof.
  intros (Hk & (c & Hc & Hc32) & Hkl) (Hp & Hv & _ & (d & Hd & _) & Hl). unfold statement6. split_and!.
  - apply passes_app; [apply passes_plain; eapply Forall_impl; [exact Hk|]; by intros ? (_ & ?)|].
    change (32 :: v ++ [59]) with ([32] ++ v ++ [59]).
    apply passes_app; [|apply passes_app; [done|]]; apply passes_plain; by repeat constructor.
  - apply Forall_app. split; [eapply Forall_impl; [exact Hk|]; by intros ? (? & _)|]. constructor; [done|].
    apply Forall_app. split; [done|]. by repeat constructor.
  - exists c. split; [|done]. destruct (lit key); [done|]. exact Hc.
  - exists 59. change (32 :: v ++ [59]) with ((32 :: v) ++ [59]). rewrite app_assoc. by rewrite last_snoc.
  - rewrite length_app. cbn [length]. rewrite length_app. cbn [length]. lia.
Qed.

Lemma strip_none v : value6 v -> strip_semicolon v = v.
Proof.
  intros (_ & Hv & _ & (d & Hd & Hd32 & Hd59) & _). unfold strip_semicolon, rstrip.
  assert (32 <= d) by (apply last_Some_elem_of in Hd; by apply (proj1 (Forall_forall _ _) Hv) in Hd).
  rewrite (drop_while_end_last _ v d) by (done || lia). apply (drop_while_end_last _ v d); [done|lia].
Qed.

Lemma strip_one s v : value6 v -> strip_semicolon (s ++ v ++ [59]) = s ++ v.
Proof.
  intros (_ & Hv & _ & (d & Hd & Hd32 & Hd59) & _). unfold strip_semicolon, rstrip. rewrite app_assoc.
  assert (32 <= d) by (apply last_Some_elem_of in Hd; by apply (proj1 (Forall_forall _ _) Hv) in Hd).
  rewrite (drop_while_end_last (fun c => (c =? 10) || (c =? 13)) _ 59); [|by rewrite last_snoc|done].
  unfold drop_while_end. rewrite rev_app_distr. cbn [rev app drop_while].
  change ((59 =? 59) || (59 =? 32) || (59 =? 9)) with true. cbv iota.
  apply (drop_while_end_last (fun c => (c =? 59) || (c =? 32) || (c =? 9)) (s ++ v) d); [by rewrite last_app, Hd|lia].
Qed.

Lemma strip_value v : value6 v -> strip_semicolon (v ++ [59]) = v.
Proof. exact (strip_one [] v). Qed.

Lemma lskip_none v : (exists c, head v = Some c /\ c <> 32) -> Forall (fun c => 32 <= c) v -> lskip v = v.
Proof.
  intros (c & Hc & H32) Hv. destruct v as [|x v]; [done|]. injection Hc as ->. apply Forall_inv in Hv.
  apply drop_while_head. cbv beta in Hv. lia.
Qed.

Lemma lskip_value v : value6 v -> lskip (32 :: v) = v.
Proof. intros (_ & Hv & Hh & _). change (lskip (32 :: v)) with (lskip v). by apply lskip_none. Qed.

Lemma after_key key r : after key (lit key ++ r) = r.
Proof. apply drop_app_length. Qed.

Lemma text_read key v : value6 v -> text_value key (lit key ++ 32 :: v) = v.
Proof.
  intros Hv. unfold text_value. rewrite after_key, lskip_value by done. rewrite take_ge by apply Hv.
  by apply strip_none.
Qed.

(** The same while the semicolon is still there. *)
Lemma text_read_semicolon key v : value6 v -> (length v <= 254)%nat -> text_value key (statement6 key v) = v.
Proof.
  intros Hv Hl. unfold text_value, statement6. rewrite after_key.
  assert (lskip (32 :: v ++ [59]) = v ++ [59]) as ->.
  { destruct Hv as (_ & Hv & (c & Hc & H32) & _). change (lskip (32 :: v ++ [59])) with (lskip (v ++ [59])).
    apply lskip_none; [exists c; split; [by destruct v|done]|]. apply Forall_app. split; [done|by repeat constructor]. }
  rewrite take_ge by (rewrite length_app; cbn [length]; lia). by apply strip_value.
Qed.

Lemma unquote_quoted q : unquote (quoted q) = q.
Proof.
  unfold unquote, quoted. cbv zeta. cbn [length]. rewrite length_app. cbn [length].
  rewrite bool_decide_eq_true_2 by lia. cbn [andb]. change (byte_at (34 :: q ++ [34]) 0 =? 34) with true.
  replace (S (length q + 1) - 1)%nat with (S (length q)) by lia. unfold byte_at at 1. cbn [nth].
  rewrite app_nth2 by lia. replace (length q - length q)%nat with 0%nat by lia. cbn [nth].
  change (34 =? 34) with true. cbn [andb drop]. replace (S (length q + 1) - 2)%nat with (length q) by lia.
  rewrite drop_0. apply take_app_length.
Qed.

Lemma number_read key n : is_u32 n -> number key (lit key ++ 32 :: dec n) = Some n.
Proof.
  intros Hn. unfold number. rewrite after_key, <- (app_nil_r (dec n)). by rewrite scan_u_dec.
Qed.

Lemma switch_read key (b : bool) : switch key (lit key ++ 32 :: lit (if b then "true" else "false")) = Some b.
Proof. unfold switch. rewrite after_key. by destruct b. Qed.

Lemma statement_stripped key v : key6 key -> value6 v -> lskip (strip_semicolon (statement6 key v)) = lit key ++ 32 :: v.
Proof.
  intros (Hk & (c & Hc & H32) & _) Hv. unfold statement6. change (32 :: v ++ [59]) with ([32] ++ v ++ [59]).
  rewrite app_assoc, strip_one by done. rewrite <- app_assoc. cbn [app]. apply lskip_none.
  - exists c. split; [by destruct (lit key)|done].
  - apply Forall_app. split; [eapply Forall_impl; [exact Hk|]; by intros ? (? & _)|]. constructor; [done|]. apply Hv.
Qed.

Lemma key6_intro key :
  bool_decide (Forall plain (lit key)) = true -> (match lit key with c :: _ => negb (c =? 32) | [] => false end) = true ->
  (length (lit key) <= 40)%nat -> key6 key.
Proof.
  intros Hk Hc Hl. split_and!; [by apply bool_decide_eq_true_1 in Hk| |done].
  destruct (lit key) as [|c r]; [done|]. exists c. split; [done|]. by destruct (Z.eqb_spec c 32).
Qed.

Ltac key := apply key6_intro; [reflexivity|reflexivity|simpl; lia].

Lemma opt6_key_ok o : key6 (opt6_key o).
Proof. destruct o; cbn [opt6_key]; key. Qed.

Lemma opt6_line o : opt6_ok o -> line6_ok (statement6 (opt6_key o) (opt6_value o)).
Proof. intros H. apply statement_line; [apply opt6_key_ok|by apply opt6_value_ok]. Qed.

(** The keyword at the start of the line selects the branch. *)
Ltac keyword :=
  match goal with
  | |- context [starts_with (lit ?a ++ ?r) (lit ?b)] =>
      let v := eval cbv in (starts_with (lit a) (lit b)) in
      change (starts_with (lit a ++ r) (lit b)) with v; cbv iota
  end.

Lemma clamp_min n : (if 255 <? n then 255 else n) = Z.min n 255.
Proof. destruct (Z.ltb_spec 255 n); lia. Qed.

Lemma parse_global_read o g :
  opt6_ok o -> parse_global_option (statement6 (opt6_key o) (opt6_value o)) g = g6_apply g o.
Proof.
  intros Ho. pose proof (opt6_value_ok o Ho) as Hv. unfold parse_global_option.
  rewrite statement_stripped by (done || apply opt6_key_ok). cbv zeta.
  destruct o; cbn [opt6_key opt6_value opt6_ok g6_apply] in *; repeat keyword; unfold quoted_value, store_some;
    rewrite ?number_read, ?text_read, ?unquote_quoted, ?switch_read, ?clamp_min by done; done.
Qed.

Lemma parse_subnet_read o s :
  opt6_ok o -> parse_subnet_line inet_pton6 (statement6 (opt6_key o) (opt6_value o)) s = s6_opt_apply s o.
Proof.
  intros Ho. pose proof (opt6_value_ok o Ho) as Hv.
  assert (parse_subnet_option (statement6 (opt6_key o) (opt6_value o)) s = s6_opt_apply s o) as Hr.
  { unfold parse_subnet_option. rewrite statement_stripped by (done || apply opt6_key_ok). cbv zeta.
    destruct o; cbn [opt6_key opt6_value opt6_ok s6_opt_apply] in *; repeat keyword; unfold quoted_value, store_some;
      rewrite ?number_read, ?text_read, ?unquote_quoted, ?switch_read, ?clamp_min by done; done. }
  unfold parse_subnet_line. rewrite Hr. clear Hr.
  destruct o; cbn [opt6_key]; unfold statement6; repeat keyword; done.
Qed.

(** *** Addresses *)

Lemma to_bin_read a old : ip6_ok a -> ipv6_str_to_bin inet_pton6 (inet_ntop6 a) old = (true, a).
Proof. intros (H & _). unfold ipv6_str_to_bin. by rewrite H. Qed.

Lemma range_bin_read a b x y :
  ip6_ok a -> ip6_ok b -> range_to_bin inet_pton6 (inet_ntop6 a) (inet_ntop6 b) x y = (true, a, b).
Proof. intros Ha Hb. unfold range_to_bin. by rewrite to_bin_read, to_bin_read. Qed.

Lemma plain_join v w : value6 v -> value6 w -> (length v + length w <= 254)%nat -> value6 (v ++ 32 :: w).
Proof.
  intros (Hp & Hv & (c & Hc & H32) & _) (Hp' & Hv' & _ & (d & Hd & Hd') & _) Hl. split_and!.
  - apply passes_app; [done|]. change (32 :: w) with ([32] ++ w). apply passes_app; [|done].
    apply passes_plain. by repeat constructor.
  - apply Forall_app. split; [done|]. by constructor.
  - exists c. split; [by destruct v|done].
  - exists d. split; [|done]. rewrite last_app. change (32 :: w) with ([32] ++ w). by rewrite last_app, Hd.
  - rewrite length_app. cbn [length]. lia.
Qed.

Lemma ip6_value a : ip6_ok a -> value6 (inet_ntop6 a).
Proof.
  intros Ha. destruct (ip6_word _ _ a Ha) as (Hne & _ & Hl). apply visible_value; [done|by apply ip6_visible|lia].
Qed.

Lemma slash_len_value len : 0 <= len -> value6 (47 :: dec len).
Proof.
  intros Hn. destruct (dec_visible len Hn) as [Hv Hl]. apply visible_value; [done| |cbn [length]; lia].
  constructor; [lia|done].
Qed.

Lemma parse_range_read a b s :
  ip6_ok a -> ip6_ok b ->
  parse_subnet_line inet_pton6 (statement6 "range6" (inet_ntop6 a ++ 32 :: inet_ntop6 b)) s = s6_apply s (SRange6 a b).
Proof.
  intros Ha Hb. destruct (ip6_word _ _ a Ha) as (Hna & Hwa & Hla). destruct (ip6_word _ _ b Hb) as (Hnb & Hwb & Hlb).
  unfold parse_subnet_line, statement6 at 1. keyword. unfold parse_range, statement6.
  change (32 :: (inet_ntop6 a ++ 32 :: inet_ntop6 b) ++ [59]) with ([32] ++ (inet_ntop6 a ++ 32 :: inet_ntop6 b) ++ [59]).
  rewrite app_assoc, strip_one by (apply plain_join; [by apply ip6_value|by apply ip6_value|lia]).
  rewrite <- app_assoc. cbn [app]. rewrite after_key.
  rewrite scan_s_word by (done || lia || (right; by eexists)). cbn [mbind option_bind].
  rewrite <- (app_nil_r (inet_ntop6 b)) at 1. rewrite scan_s_word by (done || lia || by left). cbn [mbind option_bind].
  rewrite range_bin_read by done. done.
Qed.

Lemma strtoul_dec n : 0 <= n < 256 -> (strtoul10 (dec n)).1.1 = n.
Proof.
  intros Hn. pose proof (parse_uint32_text n 0 ltac:(lia)) as H. unfold parse_uint32 in H.
  destruct (Z.leb_spec n 4294967295); [|lia].
  destruct (strtoul10 (dec n)) as [[v e] er]. destruct er; [done|]. destruct (_ || _); [done|].
  destruct (4294967295 <? v); [done|]. by injection H.
Qed.

Lemma parse_prefix_read a b len s :
  ip6_ok a -> ip6_ok b -> 0 <= len < 256 ->
  parse_subnet_line inet_pton6 (statement6 "prefix6" (inet_ntop6 a ++ 32 :: inet_ntop6 b ++ 32 :: 47 :: dec len)) s
  = s6_apply s (SPrefix6 a b len).
Proof.
  intros Ha Hb Hlen. destruct (ip6_word _ _ a Ha) as (Hna & Hwa & Hla). destruct (ip6_word _ _ b Hb) as (Hnb & Hwb & Hlb).
  destruct (dec_visible len ltac:(lia)) as [Hdv Hdl]. pose proof (slash_len_value len ltac:(lia)) as Hs.
  unfold parse_subnet_line, statement6 at 1. keyword. unfold statement6 at 1. keyword.
  unfold parse_prefix6, statement6. set (v := inet_ntop6 a ++ 32 :: inet_ntop6 b ++ 32 :: 47 :: dec len).
  change (32 :: v ++ [59]) with ([32] ++ v ++ [59]). rewrite app_assoc, strip_one.
  2:{ apply plain_join; [by apply ip6_value|apply plain_join; [by apply ip6_value|done|]|];
        rewrite ?length_app; cbn [length]; lia. }
  rewrite <- app_assoc. cbn [app]. rewrite after_key. unfold v.
  rewrite scan_s_word by (done || lia || (right; by eexists)). cbn [mbind option_bind].
  rewrite scan_s_word by (done || lia || (right; by eexists)). cbn [mbind option_bind].
  rewrite <- (app_nil_r (47 :: dec len)) at 1. rewrite scan_s_word; [|done| |cbn [length]; lia|by left].
  2:{ constructor; [done|]. eapply Forall_impl; [exact Hdv|]. cbv beta. unfold isspace. intros. lia. }
  cbn [mbind option_bind]. rewrite strip_none by done. change (byte_at (47 :: dec len) 0 =? 47) with true. cbv iota.
  change (drop 1 (47 :: dec len)) with (dec len). rewrite strtoul_dec by done.
  assert (u8 len = len) as -> by (unfold u8; by rewrite Z.mod_small). cbv zeta.
  rewrite range_bin_read by done. done.
Qed.

(** ** Host blocks *)

Lemma name6_visible name : name6_ok name -> Forall (fun c => isspace c = false) name.
Proof.
  intros (H & _). eapply Forall_impl; [exact H|]. unfold plain, isspace. cbv beta. intros. lia.
Qed.

Lemma host6_name_read name : name6_ok name -> host_name6 (lit "host" ++ 32 :: name ++ [32; 123]) = name.
Proof.
  intros Hn. pose proof (name6_visible name Hn) as Hv. destruct Hn as (Hc & Hne & Hl). unfold host_name6.
  rewrite take_ge by (rewrite length_app; cbn [length]; rewrite length_app; cbn [length]; change (length (lit "host")) with 4%nat; lia).
  replace (lit "host" ++ 32 :: name ++ [32; 123]) with ((lit "host" ++ 32 :: name ++ [32]) ++ 123 :: [])
    by (rewrite <- app_assoc; cbn [app]; by rewrite <- app_assoc).
  rewrite take_while_app; [|apply Forall_app; split; [closed_prop|constructor; [done|apply Forall_app; split; [|closed_prop]]]|done].
  2:{ eapply Forall_impl; [exact Hc|]. cbv beta. intros c (_ & _ & ?). by destruct (Z.eqb_spec c 123). }
  rewrite after_key, scan_s_word; [done|done|done|lia|]. right. by exists [].
Qed.

Lemma host_line name : name6_ok name -> line6_ok (lit "host" ++ 32 :: name ++ [32; 123]).
Proof.
  intros (Hc & Hne & Hl). split_and!.
  - apply passes_plain. apply Forall_app. split; [closed_prop|]. constructor; [done|]. apply Forall_app.
    split; [|closed_prop]. eapply Forall_impl; [exact Hc|]. unfold plain. cbv beta. tauto.
  - apply Forall_app. split; [closed_prop|]. constructor; [done|]. apply Forall_app. split; [|closed_prop].
    eapply Forall_impl; [exact Hc|]. unfold plain. cbv beta. tauto.
  - by exists 104.
  - exists 123. rewrite last_app. change (32 :: name ++ [32; 123]) with ((32 :: name) ++ [32] ++ [123]).
    by rewrite app_assoc, last_snoc.
  - rewrite length_app. cbn [length]. rewrite length_app. cbn [length]. change (length (lit "host")) with 4%nat. lia.
Qed.

Lemma h6_line st : h6_ok st -> line6_ok (h6_text st).
Proof.
  destruct st; cbn [h6_ok h6_text]; intros H; apply statement_line; try key.
  - apply (plain_value t 128); [done|lia].
  - by apply ip6_value.
  - by apply quoted_value6.
Qed.

Lemma parse_host_read st h : h6_ok st -> parse_host_line inet_pton6 (h6_text st) h = h6_apply h st.
Proof.
  destruct st as [t|a|q]; cbn [h6_ok h6_text h6_apply]; intros H; unfold parse_host_line.
  - unfold statement6 at 1. keyword. unfold statement6. rewrite after_key.
    assert (value6 t) as Hv by (apply (plain_value t 128); [done|lia]). destruct H as (Hp & (c & Hc & H32) & _ & Hl).
    change (lskip (32 :: t ++ [59])) with (lskip (t ++ [59])). rewrite lskip_none.
    + rewrite take_ge by (rewrite length_app; cbn [length]; lia). by rewrite strip_value.
    + exists c. split; [by destruct t|done].
    + apply Forall_app. split; [apply Hv|closed_prop].
  - unfold statement6 at 1. keyword. unfold statement6 at 1. keyword. unfold statement6. rewrite after_key.
    destruct (ip6_word _ _ a H) as (Hne & Hw & Hl). rewrite <- (app_nil_r (inet_ntop6 a ++ [59])).
    rewrite scan_s_word; [|by destruct (inet_ntop6 a)|apply Forall_app; split; [done|closed_prop]
      |rewrite length_app; cbn [length]; lia|by left].
    pose proof (ip6_value a H) as Hv. rewrite strip_value by done. cbv zeta. by rewrite to_bin_read.
  - unfold statement6 at 1. keyword. unfold statement6 at 1. keyword. unfold statement6 at 1. keyword.
    unfold quoted_value. rewrite text_read_semicolon, unquote_quoted; [done|by apply quoted_value6|].
    destruct H as [_ Hl]. unfold quoted. cbn [length]. rewrite length_app. cbn [length]. lia.
Qed.

(** ** The loops *)

Lemma line6_kept body : line6_ok body -> skipped6 body = false.
Proof.
  intros (Hp & Hv & (c & Hc & _) & _). destruct body as [|x r]; [done|]. injection Hc as ->.
  unfold skipped6. change (byte_at (c :: r) 0) with c. apply Forall_inv in Hv. cbv beta in Hv.
  destruct (Z.eqb_spec c 0); [lia|]. destruct (Z.eqb_spec c 35) as [-> |]; [|done].
  specialize (Hp 0 [] ltac:(lia)). cbn in Hp. done.
Qed.

(** The first round of a loop on a printed line. *)
Lemma next_line indent body ls rest :
  Forall (fun c => c = 32) indent -> (length indent <= 4)%nat -> line6_ok body ->
  exists line, fgets_buf LINE_MAX_LEN (print_lines ((indent ++ body) :: ls) ++ rest) = Some (line, print_lines ls ++ rest)
    /\ clean_line line = body /\ skipped6 body = false.
Proof.
  intros Hi Hl Hb. rewrite print_cons, <- app_assoc. destruct (clean_read indent body (print_lines ls ++ rest) Hi Hl Hb) as [-> Hc].
  eexists. split; [reflexivity|]. split; [done|by apply line6_kept].
Qed.

Lemma next_close indent ls rest :
  indent = [] \/ indent = [32; 32] ->
  exists line, fgets_buf LINE_MAX_LEN (print_lines ((indent ++ [125]) :: ls) ++ rest) = Some (line, print_lines ls ++ rest)
    /\ clean_line line = [125].
Proof.
  intros Hi. rewrite print_cons. rewrite fgets_buf_line.
  - eexists. split; [reflexivity|]. by destruct Hi as [-> | ->].
  - destruct Hi as [-> | ->]; closed_prop.
  - destruct Hi as [-> | ->]; simpl; unfold LINE_MAX_LEN; lia.
Qed.

Lemma host6_read body : forall fuel rest hosts h,
  Forall h6_ok body -> (length (print_lines (host6_lines body) ++ rest) < fuel)%nat ->
  host6_loop inet_pton6 fuel (print_lines (host6_lines body) ++ rest) hosts h
  = Ret (0, rest, hosts ++ [foldl h6_apply h body]).
Proof.
  induction body as [|st body IH]; intros fuel rest hosts h Hok Hf; (destruct fuel as [|fuel]; [lia|]).
  - cbn [host6_loop]. destruct (next_close [32; 32] [] rest) as (line & Hr & Hc); [by right|].
    change (print_lines (host6_lines [])) with (print_lines [[32; 32] ++ [125]]). rewrite Hr, Hc. done.
  - apply Forall_cons in Hok as [Hst Hok].
    change (host6_lines (st :: body)) with (([32; 32; 32; 32] ++ h6_text st) :: host6_lines body) in *.
    rewrite print_length in Hf. cbn [host6_loop].
    destruct (next_line [32; 32; 32; 32] (h6_text st) (host6_lines body) rest) as (line & -> & Hc & Hs);
      [closed_prop|simpl; lia|by apply h6_line|]. rewrite Hc, Hs.
    assert ((byte_at (h6_text st) 0 =? 125) = false) as -> by (by destruct st).
    rewrite parse_host_read by done. cbn [foldl]. apply IH; [done|lia].
Qed.

Lemma s6_hosts_opt s o : s6_hosts (s6_opt_apply s o) = s6_hosts s.
Proof. by destruct o. Qed.

(** A one-line item of a subnet. *)
Definition s6_line (it : s6_item) : cstr :=
  match it with
  | SOpt o => statement6 (opt6_key o) (opt6_value o)
  | SRange6 a b => statement6 "range6" (inet_ntop6 a ++ 32 :: inet_ntop6 b)
  | SPrefix6 a b len => statement6 "prefix6" (inet_ntop6 a ++ 32 :: inet_ntop6 b ++ 32 :: 47 :: dec len)
  | SHost6 _ _ => []
  end.

Lemma s6_line_read it s :
  s6_ok it -> is_host6 it = false ->
  s6_lines it = [[32; 32] ++ s6_line it] /\ line6_ok (s6_line it)
  /\ (byte_at (s6_line it) 0 =? 125) = false /\ starts_with (s6_line it) (lit "host") = false
  /\ parse_subnet_line inet_pton6 (s6_line it) s = s6_apply s it /\ s6_hosts (s6_apply s it) = s6_hosts s.
Proof.
  destruct it as [o|a b|a b len|]; cbn [s6_ok is_host6 s6_line s6_apply]; intros H Hh; [..|done].
  - split_and!; [done|by apply opt6_line|by destruct o|by destruct o|by apply parse_subnet_read|apply s6_hosts_opt].
  - destruct H as [Ha Hb]. split_and!; [done| |done|done|by apply parse_range_read|done].
    destruct (ip6_word _ _ a Ha) as (_ & _ & ?). destruct (ip6_word _ _ b Hb) as (_ & _ & ?).
    apply statement_line; [key|]. apply plain_join; [by apply ip6_value|by apply ip6_value|lia].
  - destruct H as (Ha & Hb & Hl). split_and!; [done| |done|done|by apply parse_prefix_read|done].
    destruct (ip6_word _ _ a Ha) as (_ & _ & ?). destruct (ip6_word _ _ b Hb) as (_ & _ & ?).
    destruct (dec_visible len ltac:(lia)) as [_ ?].
    apply statement_line; [key|]. apply plain_join; [by apply ip6_value| |rewrite length_app; cbn [length]; lia].
    apply plain_join; [by apply ip6_value|apply slash_len_value; lia|cbn [length]; lia].
Qed.

Lemma subnet6_lines_cons it body : subnet6_lines (it :: body) = s6_lines it ++ subnet6_lines body.
Proof. unfold subnet6_lines. cbn [fmap list_fmap concat]. by rewrite <- app_assoc. Qed.

(** A subnet block is read into the subnet at the end of the array. *)
Lemma subnet6_read body : forall fuel rest g done s,
  Forall s6_ok body ->
  Z.of_nat (length s.(s6_hosts)) + countb is_host6 body <= Z.of_nat MAX_HOSTS_PER_SUBNET ->
  (length (print_lines (subnet6_lines body) ++ rest) < fuel)%nat ->
  exists fuel', (length rest < fuel')%nat
    /\ load_loop6 inet_pton6 fuel (print_lines (subnet6_lines body) ++ rest) (mk_config6 g (done ++ [s])) (Some (length done))
       = load_loop6 inet_pton6 fuel' rest (mk_config6 g (done ++ [foldl s6_apply s body])) None.
Proof.
  induction body as [|it body IH]; intros fuel rest g done s Hok Hc Hf; (destruct fuel as [|fuel]; [lia|]).
  - exists fuel. change (subnet6_lines []) with [[] ++ [125]] in *. rewrite print_length in Hf. split.
    { change (print_lines [] ++ rest) with rest in Hf. lia. }
    cbn [load_loop6]. destruct (next_close [] [] rest) as (line & -> & Hcl); [by left|]. rewrite Hcl. reflexivity.
  - apply Forall_cons in Hok as [Hit Hok]. rewrite subnet6_lines_cons in *. cbn [countb] in Hc.
    pose proof (countb_nonneg is_host6 body).
    assert (forall x, (done ++ [x]) !! length done = Some x) as Hlook by (intros; by apply list_lookup_middle).
    assert (forall x y, <[length done := y]> (done ++ [x]) = done ++ [y]) as Hput.
    { intros x y. rewrite insert_app_r_alt by lia. by rewrite Nat.sub_diag. }
    destruct (is_host6 it) eqn:Eh; cbv iota in Hc.
    + destruct it as [| | |name hb]; try done. cbn [s6_ok s6_lines is_host6 app] in *. destruct Hit as [Hname Hhb].
      change (32 :: 32 :: lit "host" ++ 32 :: name ++ [32; 123]) with ([32; 32] ++ lit "host" ++ 32 :: name ++ [32; 123]) in *.
      rewrite print_length in Hf. cbn [load_loop6].
      destruct (next_line [32; 32] (lit "host" ++ 32 :: name ++ [32; 123]) (host6_lines hb ++ subnet6_lines body) rest)
        as (line & -> & Hcl & Hs); [closed_prop|simpl; lia|by apply host_line|]. rewrite Hcl, Hs.
      change (byte_at (lit "host" ++ 32 :: name ++ [32; 123]) 0 =? 125) with false. cbv iota zeta. cbn [c6_subnets].
      rewrite Hlook. cbn [in_bounds]. rewrite bind_Ret. cbv beta.
      change (starts_with (lit "host" ++ 32 :: name ++ [32; 123]) (lit "host")) with true. cbv iota.
      unfold parse_host_block. rewrite bool_decide_eq_false_2 by lia. rewrite print_app, <- app_assoc in *.
      rewrite host6_read by (done || lia). rewrite bind_Ret. cbv beta iota. rewrite bind_Ret. cbv beta iota.
      change (0 =? 0) with true. cbv iota. unfold set_c6_subnets. cbn [c6_global]. rewrite Hput.
      rewrite host6_name_read by done. destruct (IH fuel rest g done (s6_apply s (SHost6 name hb))) as (fuel' & ? & Hr); [done| | |].
      * cbn [s6_apply s6_hosts set_s6_hosts]. rewrite length_app. cbn [length]. lia.
      * rewrite (length_app (print_lines (host6_lines hb))) in Hf. lia.
      * exists fuel'. split; [done|]. cbn [foldl]. rewrite <- Hr. reflexivity.
    + destruct (s6_line_read it s Hit Eh) as (El & Hl & H125 & Hh & Hp & Hhosts). rewrite El in *. cbn [app] in *.
      change (32 :: 32 :: s6_line it) with ([32; 32] ++ s6_line it) in *. rewrite print_length in Hf. cbn [load_loop6].
      destruct (next_line [32; 32] (s6_line it) (subnet6_lines body) rest) as (line & -> & Hcl & Hs);
        [closed_prop|simpl; lia|done|]. rewrite Hcl, Hs, H125. cbv zeta. cbn [c6_subnets]. rewrite Hlook. cbn [in_bounds].
      rewrite bind_Ret. cbv beta. rewrite Hh, Hp. unfold set_c6_subnets. cbn [c6_global]. rewrite Hput. cbn [foldl].
      apply IH; [done|rewrite Hhosts; lia|lia].
Qed.

(** ** The file *)

Lemma strtol_digits_scan s : forall acc, strtol_digits s acc = (scan_digits 10 s acc).1.
Proof.
  induction s as [|c r IH]; intros acc; [done|]. cbn [strtol_digits scan_digits]. unfold digit_value, isdigit.
  destruct ((48 <=? c) && (c <=? 57)) eqn:E.
  - destruct (Z.ltb_spec (c - 48) 10); [apply IH|lia].
  - destruct ((97 <=? c) && (c <=? 102)) eqn:E1; [destruct (Z.ltb_spec (c - 87) 10); [lia|done]|].
    destruct ((65 <=? c) && (c <=? 70)) eqn:E2; [|done]. destruct (Z.ltb_spec (c - 55) 10); [lia|done].
Qed.

Lemma strtol_dec n : 0 <= n <= 128 -> strtol10 (dec n) = n.
Proof.
  intros Hn. unfold strtol10. pose proof (dec_nonempty n) as Hne. pose proof (dec_digits n ltac:(lia)) as Hd.
  pose proof (scan_dec n [] ltac:(lia) eq_refl) as Hs. rewrite app_nil_r in Hs.
  destruct (dec n) as [|c r] eqn:E; [done|]. apply Forall_inv in Hd. destruct (isdigit_starts c r Hd) as [_ Hsp].
  rewrite drop_while_head by done. assert ((c =? 45) = false /\ (c =? 43) = false) as [-> ->] by (unfold isdigit in Hd; lia).
  rewrite strtol_digits_scan, Hs. cbn [fst]. lia.
Qed.

Lemma subnet_line a len :
  ip6_ok a -> 0 <= len <= 128 -> line6_ok (lit "subnet6" ++ 32 :: inet_ntop6 a ++ 47 :: dec len ++ [32; 123]).
Proof.
  intros Ha Hl. pose proof (ip6_visible a Ha) as Hv. destruct (ip6_word _ _ a Ha) as (Hne & _ & Hal).
  destruct (dec_visible len ltac:(lia)) as [Hd Hdl].
  assert (Forall (fun c => 32 <= c /\ c <> 34 /\ c <> 35 /\ c <> 92)
    (lit "subnet6" ++ 32 :: inet_ntop6 a ++ 47 :: dec len ++ [32; 123])) as Hall.
  { apply Forall_app. split; [closed_prop|]. constructor; [done|]. apply Forall_app. split.
    { eapply Forall_impl; [exact Hv|]. cbv beta. intros. lia. }
    constructor; [done|]. apply Forall_app. split; [|closed_prop]. eapply Forall_impl; [exact Hd|]. cbv beta. intros. lia. }
  split_and!.
  - apply passes_plain. eapply Forall_impl; [exact Hall|]. cbv beta. tauto.
  - eapply Forall_impl; [exact Hall|]. cbv beta. tauto.
  - by exists 115.
  - exists 123. replace (lit "subnet6" ++ 32 :: inet_ntop6 a ++ 47 :: dec len ++ [32; 123])
      with ((lit "subnet6" ++ 32 :: inet_ntop6 a ++ 47 :: dec len ++ [32]) ++ [123])
      by (rewrite <- !app_assoc; cbn [app]; rewrite <- !app_assoc; cbn [app]; by rewrite <- !app_assoc).
    by rewrite last_snoc.
  - rewrite length_app. cbn [length]. rewrite length_app. cbn [length]. rewrite length_app. cbn [length].
    change (length (lit "subnet6")) with 7%nat. lia.
Qed.

Lemma start_subnet_read a len cfg :
  ip6_ok a -> 0 <= len <= 128 -> (length cfg.(c6_subnets) < MAX_SUBNET_V6)%nat ->
  start_new_subnet inet_pton6 cfg (lit "subnet6" ++ 32 :: inet_ntop6 a ++ 47 :: dec len ++ [32; 123])
  = Some (set_c6_subnets (cfg.(c6_subnets) ++ [new_subnet6 a len]) cfg).
Proof.
  intros Ha Hl Hc. unfold start_new_subnet. rewrite bool_decide_eq_false_2 by lia. cbv zeta.
  pose proof (subnet_line a len Ha Hl) as (_ & _ & _ & _ & Hlen). rewrite take_ge by (unfold LINE_MAX_LEN; lia).
  destruct (ip6_word _ _ a Ha) as (Hne & Hw & Hal). destruct (dec_visible len ltac:(lia)) as [Hd Hdl].
  set (w := inet_ntop6 a ++ 47 :: dec len).
  replace (lit "subnet6" ++ 32 :: inet_ntop6 a ++ 47 :: dec len ++ [32; 123]) with ((lit "subnet6" ++ 32 :: w ++ [32]) ++ 123 :: [])
    by (unfold w; rewrite <- !app_assoc; cbn [app]; rewrite <- !app_assoc; cbn [app]; by rewrite <- !app_assoc).
  assert (Forall (fun c => isspace c = false /\ c <> 123) w) as Hww.
  { unfold w. apply Forall_app. split; [|constructor; [done|]].
    - destruct Ha as (_ & _ & Hx & _). eapply Forall_impl; [exact Hx|]. cbv beta. unfold isxdigit, isspace. intros. lia.
    - eapply Forall_impl; [by apply dec_digits; lia|]. cbv beta. unfold isdigit, isspace. intros. lia. }
  rewrite take_while_app; [| |done].
  2:{ apply Forall_app. split; [closed_prop|]. constructor; [done|]. apply Forall_app. split; [|closed_prop].
      eapply Forall_impl; [exact Hww|]. cbv beta. intros c [_ ?]. by destruct (Z.eqb_spec c 123). }
  unfold rstrip. rewrite (drop_while_end_last _ _ 32); [|by rewrite last_app; change (32 :: w ++ [32]) with ((32 :: w) ++ [32]); rewrite last_snoc|done].
  rewrite after_key, scan_s_word; [|by unfold w; destruct (inet_ntop6 a)| | |right; by exists []].
  2:{ eapply Forall_impl; [exact Hww|]. cbv beta. tauto. }
  2:{ unfold w. rewrite length_app. cbn [length]. lia. }
  cbn [mbind option_bind]. unfold parse_prefix_and_len, w.
  rewrite split_at_first.
  2:{ destruct Ha as (_ & _ & Hx & _). intros Hin. apply (proj1 (Forall_forall _ _) Hx) in Hin. cbv beta in Hin.
      unfold isxdigit in Hin. lia. }
  cbn [mbind option_bind]. destruct (Z.leb_spec 80 (Z.of_nat (length (inet_ntop6 a)))); [lia|]. cbv zeta.
  rewrite strtol_dec by done. destruct (Z.ltb_spec len 0); [lia|]. destruct (Z.ltb_spec 128 len); [lia|].
  cbn [orb mbind option_bind]. rewrite to_bin_read by done. reflexivity.
Qed.

Lemma config6_read items : forall fuel cfg,
  Forall item6_ok items ->
  Z.of_nat (length cfg.(c6_subnets)) + countb is_subnet6 items <= Z.of_nat MAX_SUBNET_V6 ->
  (length (config6_text items) < fuel)%nat ->
  load_loop6 inet_pton6 fuel (config6_text items) cfg None = Ret (0, foldl item6_apply cfg items).
Proof.
  induction items as [|it items IH]; intros fuel cfg Hok Hc Hf; (destruct fuel as [|fuel]; [lia|]); [reflexivity|].
  apply Forall_cons in Hok as [Hit Hok]. cbn [countb] in Hc. pose proof (countb_nonneg is_subnet6 items).
  assert (config6_text (it :: items) = print_lines (item6_lines it) ++ config6_text items) as E.
  { unfold config6_text. cbn [fmap list_fmap concat]. apply print_app. }
  rewrite E in *. destruct it as [o|a len body]; cbn [item6_lines item6_ok is_subnet6] in *; cbn [load_loop6].
  - rewrite print_length in Hf. destruct (next_line [] (statement6 (opt6_key o) (opt6_value o)) [] (config6_text items))
      as (line & Hr & Hcl & Hs); [constructor|simpl; lia|by apply opt6_line|]. cbn [app] in Hr. rewrite Hr, Hcl, Hs.
    assert ((byte_at (statement6 (opt6_key o) (opt6_value o)) 0 =? 125) = false
      /\ starts_with (statement6 (opt6_key o) (opt6_value o)) (lit "subnet6") = false) as [-> ->] by (by destruct o).
    rewrite parse_global_read by done. change (print_lines [] ++ config6_text items) with (config6_text items) in *.
    apply IH; [done|cbn [c6_subnets set_c6_global]; lia|lia].
  - destruct Hit as (Ha & Hl & Hbody & Hhosts). rewrite print_length in Hf.
    destruct (next_line [] (lit "subnet6" ++ 32 :: inet_ntop6 a ++ 47 :: dec len ++ [32; 123]) (subnet6_lines body)
      (config6_text items)) as (line & Hr & Hcl & Hs); [constructor|simpl; lia|by apply subnet_line|].
    cbn [app] in Hr. rewrite Hr, Hcl, Hs.
    change (byte_at (lit "subnet6" ++ 32 :: inet_ntop6 a ++ 47 :: dec len ++ [32; 123]) 0 =? 125) with false.
    change (starts_with (lit "subnet6" ++ 32 :: inet_ntop6 a ++ 47 :: dec len ++ [32; 123]) (lit "subnet6")) with true.
    cbv iota zeta. rewrite start_subnet_read by (done || lia).
    destruct cfg as [g subnets]. cbn [c6_subnets c6_global set_c6_subnets] in *. unfold set_c6_subnets. cbn [c6_global].
    destruct (subnet6_read body fuel (config6_text items) g subnets (new_subnet6 a len)) as (fuel' & Hf' & ->);
      [done|cbn [s6_hosts length new_subnet6]; simpl; lia|lia|].
    cbn [foldl]. rewrite IH; [done|done| |done]. cbn [c6_subnets]. rewrite length_app. cbn [length]. lia.
Qed.

Lemma apply_defaults_eq c : apply_defaults c = with_defaults c.
Proof.
  unfold apply_defaults, with_defaults. cbv zeta. destruct c as [g ss]. cbn [c6_global c6_subnets].
  assert ((if g6_max_lease_time (if g6_default_lease_time g =? 0 then set_g6_default_lease_time 3600 g else g) =? 0
    then set_g6_max_lease_time 7200 (if g6_default_lease_time g =? 0 then set_g6_default_lease_time 3600 g else g)
    else (if g6_default_lease_time g =? 0 then set_g6_default_lease_time 3600 g else g))
    = set_g6_max_lease_time (or_zero (g6_max_lease_time g) 7200)
        (set_g6_default_lease_time (or_zero (g6_default_lease_time g) 3600) g)) as ->.
  { unfold or_zero. destruct g as [d m]. cbn [g6_default_lease_time g6_max_lease_time].
    destruct (d =? 0), (m =? 0) eqn:E; cbn; by rewrite ?E. }
  f_equal. apply list_fmap_ext. intros _ s _. unfold inherit_times, with_times, or_zero. cbv zeta.
  destruct s. cbn. destruct (s6_default_lease_time =? 0), (s6_max_lease_time =? 0) eqn:E; cbn; by rewrite ?E.
Qed.

(** C19: the text of a DHCPv6 configuration means what its statements say.  For every sequence
    of options and subnet blocks with their options, ranges, delegated prefixes and hosts (at
    most 64 subnets, at most 200 hosts in each), [load_config_v6] on their text returns 0 and
    the configuration that the effects of the statements in their order make, in which the
    lease times that are left are the global ones, and 3600 and 7200 where there are none. *)
Theorem config_v6_roundtrip (items : list item6) :
  Forall item6_ok items -> countb is_subnet6 items <= Z.of_nat MAX_SUBNET_V6 ->
  load_config_v6 inet_pton6 (Some (config6_text items)) = Ret (0, config6_run items).
Proof.
  intros Hok Hc. unfold load_config_v6. rewrite config6_read; [|done|cbn; lia|lia].
  rewrite bind_Ret. cbv beta iota. change (0 =? 0) with true. cbv iota. by rewrite apply_defaults_eq.
Qed.
End Text6.

(** ** Examples *)

(** 2001:db8:x::y *)
Definition doc6 (x y : Z) : in6_addr := [32; 1; 13; 184; x / 256; x mod 256] ++ replicate 8 0 ++ [y / 256; y mod 256].

(** Part of the configuration the repository ships, the global lease time last. *)
Definition sample_items6 : list item6 :=
  [ IOpt (OMax 7200); IOpt (OProbe true); IOpt (OTimeout 300); IOpt (ODns (lit "2001:4860:4860::8888, 2001:4860:4860::8844"));
    IOpt (OPreference 300);
    ISubnet6 (doc6 1 0) 64
      [ SRange6 (doc6 1 4096) (doc6 1 12287); SPrefix6 (doc6 2 0) (doc6 3 0) 60; SOpt (OSearch (lit "corp.example.com"));
        SHost6 (lit "main_server")
          [ HDuid (lit "00:01:00:01:23:45:67:89:ab:cd:ef:01:23:45"); HAddr6 (doc6 1 16); HName6 (lit "main #1") ];
        SOpt (OMax 600) ];
    ISubnet6 (doc6 16 0) 64 [];
    IOpt (ODefault 1800) ].

Lemma sample_items6_ok : Forall (item6_ok full_pton full_ntop) sample_items6.
Proof.
  unfold sample_items6. repeat (apply Forall_cons; split; [cbn [item6_ok opt6_ok]|]); [..|constructor].
  all: try done; try (unfold is_u32; lia).
  - split_and!; [closed_prop|exists 50; split; [reflexivity|done]|exists 52; split_and!; [reflexivity|done|done]|vm_compute; lia].
  - split_and!; [by apply full_ip6_ok|lia|lia| |vm_compute; discriminate].
    repeat (apply Forall_cons; split; [cbn [s6_ok opt6_ok]|]); [..|constructor].
    + split; by apply full_ip6_ok.
    + split_and!; [by apply full_ip6_ok|by apply full_ip6_ok|lia|lia].
    + split; [closed_prop|vm_compute; lia].
    + split; [split_and!; [closed_prop|done|vm_compute; lia]|].
      repeat (apply Forall_cons; split; [cbn [h6_ok]|]); [..|constructor].
      * split_and!; [closed_prop|exists 48; split; [reflexivity|done]|exists 53; split_and!; [reflexivity|done|done]|vm_compute; lia].
      * by apply full_ip6_ok.
      * split; [closed_prop|vm_compute; lia].
    + unfold is_u32. lia.
  - split_and!; [by apply full_ip6_ok|lia|lia|constructor|vm_compute; discriminate].
Qed.

Lemma config_v6_roundtrip_witness :
  exists c, load_config_v6 full_pton (Some (config6_text full_ntop sample_items6)) = Ret (0, c)
  /\ (fun s => (s.(s6_default_lease_time), s.(s6_max_lease_time))) <$> c.(c6_subnets) = [(1800, 600); (1800, 7200)]
  /\ g6_preference c.(c6_global) = 255
  /\ find_subnet_for_ipv6 c (doc6 16 99) = Some 1%nat
  /\ (fun s => find_host_by_duid s (lit "00:01:00:01:23:45:67:89:ab:cd:ef:01:23:45")) <$> head c.(c6_subnets)
     = Some (Some 0%nat).
Proof.
  exists (config6_run full_ntop sample_items6). split; [|vm_compute; done].
  apply (config_v6_roundtrip full_pton full_ntop sample_items6); [apply sample_items6_ok|]. vm_compute. discriminate.
Defined.

Definition load_text6 (ls : list cstr) : outcome (Z * dhcpv6_config_t) :=
  load_config_v6 full_pton (Some (print_lines ls)).

(** The length of a delegated prefix is cut to a byte without a check. *)
Example prefix_length_wraps :
  match load_text6 [lit "subnet6 2001:0db8:0000:0000:0000:0000:0000:0000/32 {";
    lit "prefix6 2001:0db8:0000:0000:0000:0000:0000:0000 2001:0db8:ffff:0000:0000:0000:0000:0000 /304;"; lit "}"] with
  | Ret (0, c) => s6_pd_prefix_len <$> c.(c6_subnets) = [48]
  | _ => False
  end.
Proof. vm_compute. reflexivity. Qed.

(** A subnet whose brace is missing takes the statements of the next one. *)
Example missing_brace_merges :
  match load_text6 [lit "subnet6 2001:0db8:0000:0000:0000:0000:0000:0000/32 {"; lit "max-lease-time 60;";
    lit "subnet6 2001:0db8:0001:0000:0000:0000:0000:0000/48 {"; lit "max-lease-time 90;"; lit "}"] with
  | Ret (0, c) => s6_max_lease_time <$> c.(c6_subnets) = [90]
  | _ => False
  end.
Proof. vm_compute. reflexivity. Qed.
