(* ===== verification/LeaseFileV4.v ===== *)
(** The DHCPv4 lease file: [parse_lease_block], [lease_db_load], [lease_db_save],
    [lease_db_append_lease] and [lease_db_save_safe] of DHCPv4/src/lease_v4.c.

    A file is the list of its bytes, [None] when it cannot be opened; it is read through
    the lines [fgets] returns and written line by line.  The text of addresses and times
    comes from [inet_ntop], [inet_pton], [localtime], [mktime] and [ctime], which are
    parameters; a theorem that depends on them says which of their documented properties
    it uses. *)

From Stdlib Require Import String.
From stdpp Require Import list.
From S2P Require Import Prelude UtilsV6 CText LeaseV4 UtilsV4.

Definition MAX_CLIENT_HOSTNAME : nat := 256.

(** The delimiters of the calls to [strtok]: blanks, and blanks with one more character. *)
Definition blanks : cstr := [32; 9].

Definition semicolon : cstr := [59].

(** ** Where the characters of the pieces come from *)

Lemma elem_of_drop_while p s c : c ∈ drop_while p s -> c ∈ s.
Proof. rewrite <- (take_drop_while p s) at 2. rewrite elem_of_app. by right. Qed.

Lemma elem_of_take_while p s c : c ∈ take_while p s -> c ∈ s.
Proof. rewrite <- (take_drop_while p s) at 2. rewrite elem_of_app. by left. Qed.

Lemma elem_of_drop {A} n (s : list A) c : c ∈ drop n s -> c ∈ s.
Proof. rewrite <- (take_drop n s) at 2. rewrite elem_of_app. by right. Qed.

Lemma elem_of_trim s c : c ∈ trim s -> c ∈ s.
Proof.
  unfold trim, drop_while_end. rewrite list_elem_of_In, <- in_rev, <- list_elem_of_In.
  intros H%elem_of_drop_while. rewrite list_elem_of_In, <- in_rev, <- list_elem_of_In in H.
  by eapply elem_of_drop_while.
Qed.

Lemma elem_of_c_string s c : c ∈ c_string s -> c ∈ s.
Proof.
  induction s as [|x s IH]; [done|]. simpl. destruct (x =? 0); [by intros ?%elem_of_nil|].
  rewrite !elem_of_cons. intuition.
Qed.

Lemma elem_of_strtok delims s c :
  (forall w, (strtok delims s).1 = Some w -> c ∈ w -> c ∈ s) /\ (c ∈ (strtok delims s).2 -> c ∈ s).
Proof.
  unfold strtok. pose proof (elem_of_drop_while (fun c => bool_decide (c ∈ delims)) s c) as H.
  destruct (drop_while _ s) as [|x r] eqn:E; [split; [done|by intros ?%elem_of_nil]|].
  split; cbn [fst snd].
  - intros w Hw Hc. apply H. injection Hw as Hw. rewrite <- Hw in Hc. exact (elem_of_take_while _ (x :: r) c Hc).
  - intros Hc. apply H. exact (elem_of_drop_while _ (x :: r) c (elem_of_drop 1 _ c Hc)).
Qed.

Lemma elem_of_fgets s line c : line ∈ fgets_lines s -> c ∈ line -> c ∈ s.
Proof.
  unfold fgets_lines. rewrite list_elem_of_In, in_concat. intros (piece & Hp & Hl) Hc.
  apply list_elem_of_In in Hl, Hp.
  apply list_elem_of_fmap in Hp as (l & -> & Hp).
  assert (c ∈ l) as Hcl.
  { clear Hp. revert Hl. generalize (length l) as fuel. intros fuel. revert l.
    induction fuel as [|fuel IH]; intros l; cbn [fgets_pieces]; [by intros ->%list_elem_of_singleton|].
    case_bool_decide; [by intros ->%list_elem_of_singleton|]. rewrite elem_of_cons.
    intros [->|Hl]; [|by eapply elem_of_drop, IH].
    rewrite <- (take_drop 1023 l). rewrite elem_of_app. by left. }
  assert (forall s cur, l ∈ split_lines s cur -> c ∈ l -> c ∈ cur \/ c ∈ s) as Hs.
  { clear. induction s as [|x s IH]; intros cur; cbn [split_lines].
    - destruct cur; [by intros ?%elem_of_nil|]. intros ->%list_elem_of_singleton. by left.
    - destruct (Z.eqb_spec x 10) as [->|].
      + rewrite elem_of_cons. intros [->|H] Hc.
        * rewrite elem_of_app, list_elem_of_singleton in Hc. rewrite elem_of_cons. tauto.
        * destruct (IH [] H Hc) as [[]%elem_of_nil|]. right. by right.
      + intros H Hc. destruct (IH _ H Hc) as [Hx|]; [|by right; right].
        rewrite elem_of_app, list_elem_of_singleton in Hx. rewrite elem_of_cons. tauto. }
  destruct (Hs s [] Hp Hcl) as [[]%elem_of_nil|]. done.
Qed.

Section Lease_file.
Context (inet_pton4 : cstr -> option Z) (inet_ntop4 : Z -> cstr).
Context (localtime : Z -> option tm) (mktime : tm -> Z) (ctime : Z -> cstr).

(** ** Reading *)

(** A statement [<key> <value>;] with its value, if there is one. *)
Definition with_value (rest : cstr) (lease : dhcp_lease_t) (set : cstr -> outcome dhcp_lease_t)
    : outcome dhcp_lease_t :=
  match (strtok semicolon rest).1 with
  | Some value => set (trim value)
  | None => Ret lease
  end.

(** [set lease-id = ...] *)
Definition parse_set (rest : cstr) (lease : dhcp_lease_t) : dhcp_lease_t :=
  let '(var_name, rest) := strtok (blanks ++ [61]) rest in
  match var_name with
  | Some var_name =>
      if bool_decide (trim var_name = lit "lease-id") then
        match (strtok [59; 34] rest).1 with
        | Some value =>
            let value := trim value in
            let value := if byte_at value 0 =? 34 then drop 1 value else value in
            set_l_lease_id (strtoul10 value).1.1 lease
        | None => lease
        end
      else lease
  | None => lease
  end.

(** [state <s>;] after [binding]: the text of the state. *)
Definition state_value (rest : cstr) : option cstr :=
  let '(binding_key, rest) := strtok blanks rest in
  match binding_key with
  | Some k =>
      if bool_decide (k = lit "state") then trim <$> (strtok semicolon rest).1 else None
  | None => None
  end.

(** [binding state <s>;] after [next] or [rewind]. *)
Definition binding_state_value (rest : cstr) : option cstr :=
  let '(key, rest) := strtok blanks rest in
  match key with
  | Some k => if bool_decide (k = lit "binding") then state_value rest else None
  | None => None
  end.

(** One statement of a lease block. *)
Definition parse_lease_line (trimmed : cstr) (lease : dhcp_lease_t) : outcome dhcp_lease_t :=
  let '(key, rest) := strtok blanks trimmed in
  match key with
  | None => Ret lease
  | Some key =>
      if bool_decide (key = lit "starts") then
        with_value rest lease (fun v => Ret (set_l_start_time (parse_lease_time mktime v) lease))
      else if bool_decide (key = lit "ends") then
        with_value rest lease (fun v => Ret (set_l_end_time (parse_lease_time mktime v) lease))
      else if bool_decide (key = lit "tstp") then
        with_value rest lease (fun v => Ret (set_l_tstp (parse_lease_time mktime v) lease))
      else if bool_decide (key = lit "cltt") then
        with_value rest lease (fun v => Ret (set_l_cltt (parse_lease_time mktime v) lease))
      else if bool_decide (key = lit "hardware") then
        with_value (strtok blanks rest).2 lease (fun v =>
          match parse_mac_address v with
          | Some mac => Ret (set_l_mac_address mac lease)
          | None => Ret lease
          end)
      else if bool_decide (key = lit "uid") then
        with_value rest lease (fun v =>
          id ← parse_client_id_from_string v;
          Ret (set_l_client_id_len (Z.of_nat (length id))
                 (set_l_client_id (id ++ drop (length id) lease.(l_client_id)) lease)))
      else if bool_decide (key = lit "client-hostname") then
        with_value rest lease (fun v =>
          Ret (set_l_client_hostname
                 (strncpy_field MAX_CLIENT_HOSTNAME (of_cstr (remove_quotes v))) lease))
      else if bool_decide (key = lit "vendor-class-identifier") then
        with_value rest lease (fun v =>
          Ret (set_l_vendor_class_identifier
                 (strncpy_field MAX_VENDOR_CLASS_LEN (of_cstr (remove_quotes v))) lease))
      else if bool_decide (key = lit "set") then Ret (parse_set rest lease)
      else if bool_decide (key = lit "binding") then
        match state_value rest with
        | Some s =>
            Ret (set_l_binding_state (strncpy_field 32 (of_cstr s))
                   (set_l_state (lease_state_from_string (of_cstr s)) lease))
        | None => Ret lease
        end
      else if bool_decide (key = lit "next") then
        match binding_state_value rest with
        | Some s => Ret (set_l_next_binding_state (lease_state_from_string (of_cstr s)) lease)
        | None => Ret lease
        end
      else if bool_decide (key = lit "rewind") then
        match binding_state_value rest with
        | Some s => Ret (set_l_rewind_binding_state (lease_state_from_string (of_cstr s)) lease)
        | None => Ret lease
        end
      else if bool_decide (key = lit "abandoned;") || bool_decide (key = lit "abandoned") then
        Ret (set_l_is_abandoned true lease)
      else Ret lease
  end.

(** The loop of [parse_lease_block] over the lines left in the file. *)
Fixpoint block_loop (lines : list cstr) (lease : dhcp_lease_t)
    : outcome (Z * dhcp_lease_t * list cstr) :=
  match lines with
  | [] => Ret (-1, lease, [])
  | line :: rest =>
      let trimmed := trim (c_string line) in
      if bool_decide (trimmed = []) || (byte_at trimmed 0 =? 35) then block_loop rest lease
      else if byte_at trimmed 0 =? 125 then Ret (0, lease, rest)
      else lease ← parse_lease_line trimmed lease; block_loop rest lease
  end.

(** The return code, the slot and the lines left. *)
Definition parse_lease_block (first_line : cstr) (lines : list cstr)
    : outcome (Z * dhcp_lease_t * list cstr) :=
  let lease := zero_lease in
  let '(token, rest) := strtok (blanks ++ [123]) first_line in
  if negb (bool_decide (token = Some (lit "lease"))) then Ret (-1, lease, lines)
  else
    match (strtok (blanks ++ [123]) rest).1 ≫= inet_pton4 with
    | None => Ret (-1, lease, lines)
    | Some ip =>
        let lease := set_l_ip_address ip lease in
        let lease := set_l_state LEASE_STATE_FREE lease in
        let lease := set_l_next_binding_state LEASE_STATE_FREE lease in
        let lease := set_l_rewind_binding_state LEASE_STATE_FREE lease in
        block_loop lines lease
    end.

(** A parsed block enters the array, with an identifier if it has none. *)
Definition load_lease (lease : dhcp_lease_t) (db : lease_database_t) : lease_database_t :=
  if lease.(l_lease_id) =? 0 then
    let '(id, db) := lease_db_generate_id db in
    set_leases (db.(leases) ++ [set_l_lease_id id lease]) db
  else
    let db := if db.(next_lease_id) <=? lease.(l_lease_id)
              then set_next_lease_id (lease.(l_lease_id) +u64 1) db else db in
    set_leases (db.(leases) ++ [lease]) db.

(** The loop of [lease_db_load]: every iteration reads at least one line. *)
Fixpoint load_loop (fuel : nat) (lines : list cstr) (db : lease_database_t)
    : outcome lease_database_t :=
  match fuel with
  | O => Fault OutOfFuel
  | S fuel =>
      match lines with
      | [] => Ret db
      | line :: rest =>
          let trimmed := trim (c_string line) in
          if bool_decide (trimmed = []) || (byte_at trimmed 0 =? 35) then load_loop fuel rest db
          else if bool_decide (take 5 trimmed = lit "lease")
                  && bool_decide (length db.(leases) < MAX_LEASES)%nat then
            '(r, lease, rest) ← parse_lease_block trimmed rest;
            load_loop fuel rest (if r =? 0 then load_lease lease db else db)
          else load_loop fuel rest db
      end
  end.

Definition lease_db_load (file : option cstr) (db : lease_database_t)
    : outcome (Z * lease_database_t) :=
  match file with
  | None => Ret (0, set_next_lease_id 1 db)
  | Some contents =>
      let db := set_next_lease_id 1 (set_leases [] db) in
      let lines := fgets_lines contents in
      db ← load_loop (S (length lines)) lines db; Ret (0, db)
  end.

(** ** Writing *)

Definition time_line (key : string) (t : Z) : cstr :=
  9 :: lit key ++ 32 :: format_lease_time localtime t 64 ++ [59].

Definition state_line (key : string) (s : lease_state_t) : cstr :=
  9 :: lit key ++ 32 :: lit (lease_state_to_string s) ++ [59].

Definition string_line (key s : string) : cstr :=
  9 :: lit key ++ 32 :: quoted (lit s) ++ [59].

(** The statements [lease_db_save] and [lease_db_append_lease] print for a lease. *)
Definition lease_statements (lease : dhcp_lease_t) : list cstr :=
  if_line (0 <? lease.(l_lease_id)) (9 :: lit "# Lease ID (custom field)")
  ++ if_line (0 <? lease.(l_lease_id)) (9 :: lit "set lease-id = " ++ quoted (dec lease.(l_lease_id)) ++ [59])
  ++ [time_line "starts" lease.(l_start_time); time_line "ends" lease.(l_end_time)]
  ++ if_line (0 <? lease.(l_tstp)) (time_line "tstp" lease.(l_tstp))
  ++ if_line (0 <? lease.(l_cltt)) (time_line "cltt" lease.(l_cltt))
  ++ [state_line "binding state" lease.(l_state)]
  ++ if_line (negb (bool_decide (lease.(l_next_binding_state) = LEASE_STATE_FREE)))
       (state_line "next binding state" lease.(l_next_binding_state))
  ++ if_line (negb (bool_decide (lease.(l_rewind_binding_state) = LEASE_STATE_FREE)))
       (state_line "rewind binding state" lease.(l_rewind_binding_state))
  ++ [9 :: lit "hardware ethernet" ++ 32 :: hex_loop (take 6 lease.(l_mac_address)) ++ [59]]
  ++ if_line (0 <? lease.(l_client_id_len))
       (9 :: lit "uid" ++ 32 ::
          format_client_id_to_string lease.(l_client_id) lease.(l_client_id_len) 256 ++ [59])
  ++ if_line (negb (bool_decide (lease.(l_client_hostname) = EmptyString)))
       (string_line "client-hostname" lease.(l_client_hostname))
  ++ if_line (negb (bool_decide (lease.(l_vendor_class_identifier) = EmptyString)))
       (string_line "vendor-class-identifier" lease.(l_vendor_class_identifier))
  ++ if_line lease.(l_is_abandoned) (9 :: lit "abandoned;").

(** Its block. *)
Definition lease_lines (lease : dhcp_lease_t) : list cstr :=
  [[]; lit "lease" ++ 32 :: inet_ntop4 lease.(l_ip_address) ++ [32; 123]]
  ++ lease_statements lease ++ [[125]].

(** The lines before the leases, the one with the date left out. *)
Definition header_lines : list cstr :=
  [ lit "# The format of this file is documented in the dhcpd.leases(5) manual page.";
    lit "# This lease file was written by DHCPv4 Server";
    lit "#";
    lit "# authoring-byte-order entry is generated, DO NOT DELETE";
    lit "authoring-byte-order little-endian;";
    [];
    lit "# Server duid (DHCP Unique Identifier)";
    lit "server-duid " ++ quoted (lit "\000\001\000\001\053\377\214\372\000\014\051\132\173\254") ++ [59];
    [];
    lit "#########################################################################";
    lit "# Lease Database Format";
    lit "#########################################################################";
    lit "# lease <ip-address> { ... }";
    lit "#   starts <epoch|date>;              - When lease started";
    lit "#   ends <epoch|date>;                - When lease expires";
    lit "#   tstp <epoch>;                     - Time State was Put (last state change)";
    lit "#   cltt <epoch>;                     - Client Last Transaction Time";
    lit "#   binding state <state>;            - Current state: active, free, abandoned, etc.";
    lit "#   next binding state <state>;       - State after transition";
    lit "#   hardware ethernet <mac>;          - Client MAC address";
    lit "#   uid <hex-string>;                 - Client identifier (option 61)";
    lit "#   client-hostname " ++ quoted (lit "<hostname>") ++ lit ";     - Client's hostname";
    lit "#   vendor-class-identifier " ++ quoted (lit "<vci>") ++ lit ";  - Vendor identification";
    lit "#   set vendor-string = " ++ quoted (lit "<string>") ++ lit ";   - Vendor specific info";
    lit "#########################################################################";
    [] ].

(** The return code and the file; [opened] says whether [fopen] succeeded. *)
Definition lease_db_save (opened : bool) (now : Z) (db : lease_database_t) (file : option cstr)
    : Z * option cstr :=
  if negb opened then (-1, file)
  else
    (0, Some (print_lines header_lines ++ lit "# Last updated: " ++ ctime now ++ [10]
              ++ print_lines (concat (lease_lines <$> db.(leases))))).

Definition lease_db_append_lease (opened : bool) (lease : dhcp_lease_t) (file : option cstr)
    : Z * option cstr :=
  if negb opened then (-1, file)
  else (0, Some (default [] file ++ print_lines (lease_lines lease))).

Definition lease_db_save_safe (opened : bool) (now : Z) (db : lease_database_t) (file : option cstr)
    : outcome (Z * option cstr * lease_database_t) :=
  db ← lease_db_lock db;
  let '(result, file) := lease_db_save opened now db file in
  Ret (result, file, lease_db_unlock db).

(** ** The loader always comes to an end *)

(** The only fault of reading a client identifier is the missing terminator. *)
Lemma client_id_loop_fault fuel : forall ptr id f,
  (length ptr < fuel)%nat -> client_id_loop fuel ptr id = Fault f -> f = OutOfBounds.
Proof.
  assert (forall b n p v, (length (escape_digits b n p v).2 <= length p)%nat) as Hd.
  { intros b. induction n as [|n IH]; intros p v; [done|]. destruct p as [|c p]; [done|]. cbn [escape_digits].
    destruct (digit_value c) as [d|]; [|done]. destruct (d <? b); [|done].
    etransitivity; [apply IH|]. simpl. lia. }
  induction fuel as [|fuel IH]; intros ptr id f Hf; [lia|]. cbn [client_id_loop].
  destruct ptr as [|c r]; [done|]. cbn [length] in Hf. destruct (_ || _); [done|].
  destruct (c =? 92); [|apply IH; lia]. destruct r as [|d r]; [by intros [= <-]|]. cbn [length] in Hf.
  destruct (_ && _).
  - pose proof (Hd 8 3%nat (d :: r) 0) as Hl. destruct (escape_digits 8 3 (d :: r) 0) as [v rest] eqn:E.
    apply IH. simpl in Hl. lia.
  - destruct (d =? 120); [|apply IH; lia].
    pose proof (Hd 16 2%nat r 0) as Hl. destruct (escape_digits 16 2 r 0) as [v rest]. apply IH. simpl in Hl. lia.
Qed.

Lemma with_value_fault rest lease set f :
  (forall v f, set v = Fault f -> f = OutOfBounds) -> with_value rest lease set = Fault f -> f = OutOfBounds.
Proof. unfold with_value. intros H. destruct (strtok semicolon rest).1; [apply H|done]. Qed.

Lemma parse_lease_line_fault trimmed lease f :
  parse_lease_line trimmed lease = Fault f -> f = OutOfBounds.
Proof.
  unfold parse_lease_line. destruct (strtok blanks trimmed) as [[key|] rest]; [|done].
  repeat match goal with
         | |- (if ?b then _ else _) = Fault _ -> _ => destruct b
         | |- with_value _ _ _ = Fault _ -> _ => apply with_value_fault; intros v f'
         | |- match ?x with Some _ => _ | None => _ end = Fault _ -> _ => destruct x
         | |- Ret _ = Fault _ -> _ => done
         end.
  unfold parse_client_id_from_string.
  destruct (client_id_loop _ _ _) as [id|g] eqn:E; [done|]. intros [= <-].
  eapply client_id_loop_fault; [|exact E]. lia.
Qed.

Lemma block_loop_fault lines : forall lease f, block_loop lines lease = Fault f -> f = OutOfBounds.
Proof.
  induction lines as [|line lines IH]; intros lease f; cbn [block_loop]; [done|].
  destruct (_ || _); [apply IH|]. destruct (_ =? _); [done|].
  destruct (parse_lease_line _ _) as [lease'|g] eqn:E; [rewrite bind_Ret; apply IH|].
  intros [= <-]. by eapply parse_lease_line_fault.
Qed.

(** Without a backslash nothing faults. *)
Lemma client_id_loop_plain fuel : forall ptr id,
  (length ptr < fuel)%nat -> 92 ∉ ptr -> is_Some (match client_id_loop fuel ptr id with Ret r => Some r | _ => None end).
Proof.
  induction fuel as [|fuel IH]; intros ptr id Hf Hn; [lia|]. cbn [client_id_loop].
  destruct ptr as [|c r]; [by eexists|]. apply not_elem_of_cons in Hn as [Hc Hn]. cbn [length] in Hf.
  destruct (_ || _); [by eexists|]. destruct (Z.eqb_spec c 92); [congruence|]. apply IH; [lia|done].
Qed.

Lemma parse_lease_line_plain trimmed lease :
  92 ∉ trimmed -> exists l, parse_lease_line trimmed lease = Ret l.
Proof.
  intros Hn. destruct (parse_lease_line trimmed lease) as [l|f] eqn:E; [by eexists|]. exfalso. revert E.
  unfold parse_lease_line. pose proof (elem_of_strtok blanks trimmed 92) as [_ Hs].
  destruct (strtok blanks trimmed) as [[key|] rest]; [|done]. cbn [snd] in Hs.
  repeat match goal with
         | |- (if ?b then _ else _) = Fault _ -> _ => destruct b
         | |- match ?x with Some _ => _ | None => _ end = Fault _ -> _ => destruct x
         | |- Ret _ = Fault _ -> _ => done
         | |- _ => unfold with_value; destruct (strtok semicolon _) as [[value|] ?] eqn:Ev; cbn [fst]; try done
         end.
  unfold parse_client_id_from_string. set (ptr := drop_while _ _).
  assert (92 ∉ ptr) as Hp.
  { intros H%elem_of_drop_while%elem_of_trim. apply Hn, Hs.
    destruct (elem_of_strtok semicolon rest 92) as [Hw _]. rewrite Ev in Hw. by apply (Hw value). }
  destruct (client_id_loop_plain (S (length ptr)) ptr [] ltac:(lia) Hp) as [id Hid].
  destruct (client_id_loop _ _ _); [done|discriminate].
Qed.

Lemma parse_lease_block_plain first lines :
  Forall (fun line => 92 ∉ line) lines -> exists r, parse_lease_block first lines = Ret r.
Proof.
  intros Hl. unfold parse_lease_block. destruct (strtok _ first) as [token rest].
  destruct (negb _); [by eexists|]. destruct (_ ≫= _); [|by eexists]. cbv zeta.
  generalize (set_l_rewind_binding_state LEASE_STATE_FREE (set_l_next_binding_state LEASE_STATE_FREE
    (set_l_state LEASE_STATE_FREE (set_l_ip_address z zero_lease)))) as lease.
  induction Hl as [|line lines Hn _ IH]; intros lease; cbn [block_loop]; [by eexists|].
  destruct (_ || _); [apply IH|]. destruct (_ =? _); [by eexists|].
  destruct (parse_lease_line_plain (trim (c_string line)) lease) as [l ->].
  { by intros ?%elem_of_trim%elem_of_c_string. }
  rewrite bind_Ret. apply IH.
Qed.

Lemma parse_lease_block_suffix first lines r l rest :
  parse_lease_block first lines = Ret (r, l, rest) -> exists read, lines = read ++ rest.
Proof.
  unfold parse_lease_block. destruct (strtok _ first) as [token s].
  destruct (negb _); [intros [= _ _ <-]; by exists []|].
  destruct (_ ≫= _); [|intros [= _ _ <-]; by exists []]. cbv zeta.
  generalize (set_l_rewind_binding_state LEASE_STATE_FREE (set_l_next_binding_state LEASE_STATE_FREE
    (set_l_state LEASE_STATE_FREE (set_l_ip_address z zero_lease)))) as lease.
  induction lines as [|line lines IH]; intros lease; cbn [block_loop]; [intros [= _ _ <-]; by exists []|].
  destruct (_ || _); [intros H; destruct (IH _ H) as [read ->]; by exists (line :: read)|].
  destruct (_ =? _); [intros [= _ _ <-]; by exists [line]|].
  destruct (parse_lease_line _ _) as [lease'|f]; [|done]. rewrite bind_Ret.
  intros H; destruct (IH _ H) as [read ->]; by exists (line :: read).
Qed.

Lemma parse_lease_block_fault first lines f :
  parse_lease_block first lines = Fault f -> f = OutOfBounds.
Proof.
  unfold parse_lease_block. destruct (strtok _ first) as [token s]. destruct (negb _); [done|].
  destruct (_ ≫= _); [apply block_loop_fault|done].
Qed.

Lemma load_lease_length lease db : length (load_lease lease db).(leases) = S (length db.(leases)).
Proof.
  unfold load_lease, lease_db_generate_id. destruct (_ =? 0); cbn; rewrite ?length_app; cbn; [lia|].
  destruct (_ <=? _); cbn; lia.
Qed.

(** One step of the loader, and what it needs to go on. *)
Lemma load_loop_ends fuel : forall lines db,
  (length lines < fuel)%nat -> (length db.(leases) <= MAX_LEASES)%nat ->
  match load_loop fuel lines db with
  | Ret db' => (length db'.(leases) <= MAX_LEASES)%nat
  | Fault f => f = OutOfBounds /\ ~ Forall (fun line => 92 ∉ line) lines
  end.
Proof.
  induction fuel as [|fuel IH]; intros lines db Hf Hb; [lia|]. cbn [load_loop].
  destruct lines as [|line lines]; [done|]. cbn [length] in Hf.
  assert (forall db, (length db.(leases) <= MAX_LEASES)%nat ->
    match load_loop fuel lines db with
    | Ret db' => (length db'.(leases) <= MAX_LEASES)%nat
    | Fault f => f = OutOfBounds /\ ~ Forall (fun line => 92 ∉ line) (line :: lines)
    end) as Hnext.
  { intros db' Hb'. specialize (IH lines db' ltac:(lia) Hb'). destruct (load_loop fuel lines db'); [done|].
    destruct IH as [-> IH]. split; [done|]. by intros [_ ?]%Forall_cons. }
  destruct (_ || _); [by apply Hnext|]. destruct (bool_decide (take 5 _ = _)); cbn [andb]; [|by apply Hnext].
  destruct (bool_decide (length (leases db) < MAX_LEASES)%nat) eqn:Hlt; [|by apply Hnext].
  apply bool_decide_eq_true_1 in Hlt.
  destruct (parse_lease_block (trim (c_string line)) lines) as [[[r lease] rest]|f] eqn:E.
  - rewrite bind_Ret. cbv beta iota. destruct (parse_lease_block_suffix _ _ _ _ _ E) as [read ->].
    set (db' := if r =? 0 then load_lease lease db else db).
    assert (length db'.(leases) <= MAX_LEASES)%nat as Hb'.
    { subst db'. destruct (r =? 0); [rewrite load_lease_length; lia|done]. }
    rewrite length_app in Hf. specialize (IH rest db' ltac:(lia) Hb').
    destruct (load_loop fuel rest db'); [done|]. destruct IH as [-> IH]. split; [done|].
    by intros [_ [_ ?]%Forall_app]%Forall_cons.
  - split; [by eapply parse_lease_block_fault|]. intros [_ H]%Forall_cons.
    destruct (parse_lease_block_plain (trim (c_string line)) lines H) as [? E']. congruence.
Qed.

(** C13: whatever the lease file holds, [lease_db_load] comes to an end: it returns 0
    with at most [MAX_LEASES] leases, or it reads past a string; the latter needs a
    backslash in the file, so a file without one always loads. *)
Theorem lease_load_ends (contents : cstr) (db : lease_database_t) :
  (exists db', lease_db_load (Some contents) db = Ret (0, db')
     /\ (length db'.(leases) <= MAX_LEASES)%nat)
  \/ (lease_db_load (Some contents) db = Fault OutOfBounds /\ 92 ∈ contents).
Proof.
  unfold lease_db_load. cbv zeta. set (lines := fgets_lines contents).
  pose proof (load_loop_ends (S (length lines)) lines (set_next_lease_id 1 (set_leases [] db))
    ltac:(lia) ltac:(cbn; lia)) as H.
  destruct (load_loop _ _ _) as [db'|f]; [left; by exists db'|]. destruct H as [-> H]. right. split; [done|].
  destruct (decide (92 ∈ contents)) as [|Hn]; [done|]. exfalso. apply H. apply Forall_forall.
  intros line Hline Hc. apply Hn. by eapply elem_of_fgets.
Qed.

(** ** What a saved lease reads back as *)

(** The leases the file can hold.  The identifier of a client may have 63 bytes. *)
Record lease_ok (l : dhcp_lease_t) : Prop := {
  lease_ok_id : 0 <= l.(l_lease_id) < 18446744073709551616;
  lease_ok_ip : ip_ok inet_pton4 inet_ntop4 l.(l_ip_address);
  lease_ok_mac : Forall is_u8 l.(l_mac_address) /\ length l.(l_mac_address) = 6%nat;
  lease_ok_start : time_ok localtime mktime l.(l_start_time);
  lease_ok_end : time_ok localtime mktime l.(l_end_time);
  lease_ok_tstp : 0 < l.(l_tstp) -> time_ok localtime mktime l.(l_tstp);
  lease_ok_cltt : 0 < l.(l_cltt) -> time_ok localtime mktime l.(l_cltt);
  lease_ok_client : Forall is_u8 l.(l_client_id) /\ 0 <= l.(l_client_id_len) <= 63
    /\ l.(l_client_id_len) <= Z.of_nat (length l.(l_client_id));
  lease_ok_hostname : string_ok MAX_CLIENT_HOSTNAME l.(l_client_hostname);
  lease_ok_vendor : string_ok MAX_VENDOR_CLASS_LEN l.(l_vendor_class_identifier)
}.

(** The lease after the trip: the identifier is lost, [binding_state] follows [state],
    the bytes after the client identifier and [is_bootp] are zero. *)
Definition reloaded (id : Z) (l : dhcp_lease_t) : dhcp_lease_t :=
  let n := Z.to_nat l.(l_client_id_len) in
  mk_dhcp_lease id l.(l_ip_address) l.(l_mac_address) l.(l_start_time) l.(l_end_time)
    (Z.max 0 l.(l_tstp)) (Z.max 0 l.(l_cltt)) l.(l_state) l.(l_next_binding_state)
    l.(l_rewind_binding_state) (take n l.(l_client_id) ++ replicate (MAX_CLIENT_ID_LEN - n) 0)
    l.(l_client_id_len) l.(l_client_hostname) l.(l_vendor_class_identifier) l.(l_is_abandoned)
    false (lease_state_to_string l.(l_state)).

(** The lines [ls] of a block turn the lease [l] into [l']. *)
Definition reads (ls : list cstr) (l l' : dhcp_lease_t) : Prop :=
  forall rest, block_loop (((fun x => x ++ [10]) <$> ls) ++ rest) l = block_loop rest l'.

Lemma reads_nil l : reads [] l l.
Proof. done. Qed.

Lemma reads_app ls1 ls2 l1 l2 l3 : reads ls1 l1 l2 -> reads ls2 l2 l3 -> reads (ls1 ++ ls2) l1 l3.
Proof. intros H1 H2 rest. by rewrite fmap_app, <- app_assoc, H1, H2. Qed.

Lemma reads_if (b : bool) line l l' :
  (b = true -> reads [line] l l') -> (b = false -> l' = l) -> reads (if_line b line) l l'.
Proof. intros H1 H2. destruct b; [by apply H1|]. rewrite H2 by done. apply reads_nil. Qed.

(** A statement line gives its statement to [parse_lease_line]. *)
Lemma reads_line c s d l l' :
  isspace c = false -> isspace d = false -> c <> 35 -> c <> 125 -> text (c :: s ++ [d]) ->
  parse_lease_line (c :: s ++ [d]) l = Ret l' -> reads [9 :: c :: s ++ [d]] l l'.
Proof.
  intros Hc Hd H35 H125 Ht Hl rest. cbn [fmap list_fmap app block_loop].
  rewrite c_string_id.
  2:{ intros Hin. change (9 :: c :: (s ++ [d]) ++ [10]) with ([9] ++ (c :: s ++ [d]) ++ [10]) in Hin.
      rewrite !elem_of_app, !list_elem_of_singleton in Hin. destruct Hin as [?|[Hin|?]]; [done| |done].
      by destruct (proj1 (Forall_forall _ _) Ht 0 Hin). }
  change (9 :: c :: (s ++ [d]) ++ [10]) with ([9] ++ (c :: s ++ [d]) ++ [10]).
  rewrite trim_ends by (done || by repeat constructor).
  rewrite bool_decide_eq_false_2 by done. cbn [orb]. unfold byte_at. cbn [nth].
  destruct (Z.eqb_spec c 35); [done|]. destruct (Z.eqb_spec c 125); [done|]. rewrite Hl. by rewrite bind_Ret.
Qed.

(** [key value;] for a key without blanks and a value without semicolons. *)
Lemma strtok_key key value :
  key <> [] -> Forall (fun c => c <> 32 /\ c <> 9) key ->
  strtok blanks (key ++ 32 :: value) = (Some key, value).
Proof.
  intros Hne Hk. apply strtok_word; [done| |by left]. intros c Hc Hb.
  apply (proj1 (Forall_forall _ _) Hk) in Hc. unfold blanks in Hb.
  rewrite !elem_of_cons, elem_of_nil in Hb. lia.
Qed.

Lemma with_value_text value lease set :
  value <> [] -> 59 ∉ value -> with_value (value ++ [59]) lease set = set (trim value).
Proof.
  intros Hne Hv. unfold with_value, semicolon. rewrite strtok_word; [done|done| |by left].
  intros c Hc ->%list_elem_of_singleton. done.
Qed.

(** A key is compared with literals only. *)
Local Ltac key_cases :=
  repeat match goal with
         | |- context [bool_decide (lit ?a = lit ?b)] =>
             let r := eval vm_compute in (bool_decide (lit a = lit b)) in
             change (bool_decide (lit a = lit b)) with r
         end; cbv iota; cbn [orb].

Lemma lit_key k :
  lit k <> [] /\ Forall (fun c => c <> 32 /\ c <> 9) (lit k) ->
  forall value, strtok blanks (lit k ++ 32 :: value) = (Some (lit k), value).
Proof. intros [Hne Hk] value. by apply strtok_key. Qed.

Local Ltac parse_key :=
  unfold parse_lease_line;
  rewrite lit_key by (split; [discriminate|refine (bool_decide_eq_true_1 _ _); reflexivity]);
  key_cases.

(** The value of a time statement. *)
Lemma time_value t lease set :
  time_ok localtime mktime t ->
  with_value (format_lease_time localtime t 64 ++ [59]) lease
    (fun v => Ret (set (parse_lease_time mktime v) lease)) = Ret (set t lease).
Proof.
  intros Ht. destruct (time_text_shape _ _ _ Ht) as (c & s & d & E & Hc & Hd & Hf & _).
  rewrite with_value_text; rewrite E.
  - rewrite trim_id by (by apply (isdigit_starts _ [])). rewrite <- E. by rewrite lease_time_text.
  - done.
  - intros Hin. apply (proj1 (Forall_forall _ _) Hf) in Hin. unfold time_char, isdigit in Hin. lia.
Qed.

Lemma time_value_text t :
  time_ok localtime mktime t ->
  text (format_lease_time localtime t 64) /\ (length (format_lease_time localtime t 64) <= 63)%nat.
Proof.
  intros Ht. destruct (time_text_shape _ _ _ Ht) as (c & s & d & E & _ & _ & Hf & Hl). rewrite E. split; [|done].
  eapply Forall_impl; [exact Hf|]. intros x. unfold time_char, isdigit. cbv beta. lia.
Qed.

(** A line of a block whose key is a literal. *)
Lemma reads_key k value l l' :
  (match lit k with c :: _ => negb (isspace c) && negb (c =? 35) && negb (c =? 125) | [] => false end) = true ->
  text (lit k) -> text value ->
  parse_lease_line (lit k ++ 32 :: value ++ [59]) l = Ret l' ->
  reads [9 :: lit k ++ 32 :: value ++ [59]] l l'.
Proof.
  intros Hk Htk Htv Hp. assert (text (lit k ++ 32 :: value ++ [59])) as Ht.
  { apply key_text; [done|]. apply Forall_app. split; [done|by repeat constructor]. }
  clear Htk. destruct (lit k) as [|c r]; [done|].
  rewrite !andb_true_iff, !negb_true_iff, !Z.eqb_neq in Hk. destruct Hk as [[Hc H35] H125].
  revert Ht Hp. replace ((c :: r) ++ 32 :: value ++ [59]) with (c :: (r ++ 32 :: value) ++ [59])
    by (cbn [app]; by rewrite <- app_assoc).
  intros Ht Hp. by apply reads_line.
Qed.

Lemma reads_time k t l set :
  (match lit k with c :: _ => negb (isspace c) && negb (c =? 35) && negb (c =? 125) | [] => false end) = true ->
  text (lit k) -> time_ok localtime mktime t ->
  (forall rest, parse_lease_line (lit k ++ 32 :: rest) l
     = with_value rest l (fun v => Ret (set (parse_lease_time mktime v) l))) ->
  reads [time_line k t] l (set t l).
Proof.
  intros Hk Htxt Ht Hp. apply reads_key; [done|done|by apply time_value_text|]. rewrite Hp. by apply time_value.
Qed.

Lemma reads_starts t l : time_ok localtime mktime t -> reads [time_line "starts" t] l (set_l_start_time t l).
Proof. intros Ht. apply reads_time; [done|closed_prop|done|]. intros rest. by parse_key. Qed.

Lemma reads_ends t l : time_ok localtime mktime t -> reads [time_line "ends" t] l (set_l_end_time t l).
Proof. intros Ht. apply reads_time; [done|closed_prop|done|]. intros rest. by parse_key. Qed.

Lemma reads_tstp t l : time_ok localtime mktime t -> reads [time_line "tstp" t] l (set_l_tstp t l).
Proof. intros Ht. apply reads_time; [done|closed_prop|done|]. intros rest. by parse_key. Qed.

Lemma reads_cltt t l : time_ok localtime mktime t -> reads [time_line "cltt" t] l (set_l_cltt t l).
Proof. intros Ht. apply reads_time; [done|closed_prop|done|]. intros rest. by parse_key. Qed.

Lemma reads_binding st l :
  reads [state_line "binding state" st] l
    (set_l_binding_state (lease_state_to_string st) (set_l_state st l)).
Proof. intros rest. by destruct st. Qed.

Lemma reads_next st l : reads [state_line "next binding state" st] l (set_l_next_binding_state st l).
Proof. intros rest. by destruct st. Qed.

Lemma reads_rewind st l : reads [state_line "rewind binding state" st] l (set_l_rewind_binding_state st l).
Proof. intros rest. by destruct st. Qed.

Lemma reads_abandoned l : reads [9 :: lit "abandoned;"] l (set_l_is_abandoned true l).
Proof. done. Qed.

Lemma reads_comment l : reads [9 :: lit "# Lease ID (custom field)"] l l.
Proof. done. Qed.

Lemma set_id_text n : 0 <= n -> text (lit "lease-id = " ++ quoted (dec n)).
Proof.
  intros Hn. apply Forall_app. split; [closed_prop|]. by apply quoted_text, digits_text, dec_digits.
Qed.

(** The identifier is read as 0: the value the code looks at is the equals sign. *)
Lemma reads_set_id n l :
  0 <= n -> reads [9 :: lit "set lease-id = " ++ quoted (dec n) ++ [59]] l (set_l_lease_id 0 l).
Proof.
  intros Hn. apply (reads_key "set" (lit "lease-id = " ++ quoted (dec n))); [done|closed_prop| |done].
  by apply set_id_text.
Qed.

Lemma reads_string k s l set cap :
  (match lit k with c :: _ => negb (isspace c) && negb (c =? 35) && negb (c =? 125) | [] => false end) = true ->
  text (lit k) -> string_ok cap s ->
  (forall rest, parse_lease_line (lit k ++ 32 :: rest) l
     = with_value rest l (fun v => Ret (set (strncpy_field cap (of_cstr (remove_quotes v))) l))) ->
  reads [string_line k s] l (set s l).
Proof.
  intros Hk Htxt (Hs & H59 & Hlen) Hp. apply reads_key; [done|done|by apply quoted_text|].
  rewrite Hp, with_value_text; [|done|].
  - unfold quoted at 1. rewrite trim_id by done. fold (quoted (lit s)).
    by rewrite remove_quotes_quoted, of_cstr_lit, strncpy_fits.
  - unfold quoted. rewrite elem_of_cons, elem_of_app, list_elem_of_singleton. intros [?|[?|?]]; done.
Qed.

Lemma reads_hostname s l :
  string_ok MAX_CLIENT_HOSTNAME s -> reads [string_line "client-hostname" s] l (set_l_client_hostname s l).
Proof.
  intros Hs. apply (reads_string _ _ _ _ MAX_CLIENT_HOSTNAME); [done|closed_prop|done|]. intros rest. by parse_key.
Qed.

Lemma reads_vendor s l :
  string_ok MAX_VENDOR_CLASS_LEN s ->
  reads [string_line "vendor-class-identifier" s] l (set_l_vendor_class_identifier s l).
Proof.
  intros Hs. apply (reads_string _ _ _ _ MAX_VENDOR_CLASS_LEN); [done|closed_prop|done|]. intros rest. by parse_key.
Qed.

(** The text of a hardware address. *)
Lemma hex_byte_chars b :
  is_u8 b -> exists c d, hex_byte b = [c; d]
    /\ isspace c = false /\ isspace d = false /\ text [c; d] /\ 59 ∉ [c; d].
Proof.
  intros Hb. pose proof (u8_enum (fun b => match hex_byte b with
    | [c; d] => negb (isspace c) && negb (isspace d) && bool_decide (text [c; d]) && bool_decide (59 ∉ [c; d])
    | _ => false end) eq_refl b Hb) as E. cbv beta in E.
  destruct (hex_byte b) as [|c [|d [|? ?]]]; try discriminate.
  rewrite !andb_true_iff, !negb_true_iff, !bool_decide_eq_true in E.
  exists c, d. tauto.
Qed.

Lemma mac_chars mac :
  Forall is_u8 mac -> length mac = 6%nat ->
  exists c s d, hex_loop mac = c :: s ++ [d] /\ isspace c = false /\ isspace d = false
    /\ text (c :: s ++ [d]) /\ (59 ∉ c :: s ++ [d]) /\ length (hex_loop mac) = 17%nat.
Proof.
  intros Hu Hl. destruct mac as [|b0 [|b1 [|b2 [|b3 [|b4 [|b5 [|? ?]]]]]]]; try discriminate.
  repeat (apply Forall_cons in Hu as [? Hu]).
  repeat match goal with H : is_u8 ?b |- _ => destruct (hex_byte_chars b H) as (? & ? & ? & ? & ? & ? & ?); clear H end.
  change (hex_loop [b0; b1; b2; b3; b4; b5]) with (hex_byte b0 ++ 58 :: hex_byte b1 ++ 58 :: hex_byte b2
    ++ 58 :: hex_byte b3 ++ 58 :: hex_byte b4 ++ 58 :: hex_byte b5).
  repeat match goal with H : hex_byte ?b = _ |- _ => rewrite H; clear H end.
  cbn [app]. match goal with |- context [length [?c; ?a1; ?a2; ?a3; ?a4; ?a5; ?a6; ?a7; ?a8; ?a9; ?a10; ?a11; ?a12; ?a13; ?a14; ?a15; ?d]] =>
    exists c, [a1; a2; a3; a4; a5; a6; a7; a8; a9; a10; a11; a12; a13; a14; a15], d end.
  unfold text in *. rewrite !Forall_cons, !not_elem_of_cons in *. cbn [app].
  rewrite !Forall_cons, !not_elem_of_cons. split_and!; try tauto; try done; lia.
Qed.

Lemma reads_mac mac l :
  Forall is_u8 mac -> length mac = 6%nat ->
  reads [9 :: lit "hardware ethernet" ++ 32 :: hex_loop (take 6 mac) ++ [59]] l (set_l_mac_address mac l).
Proof.
  intros Hu Hl. rewrite take_ge by lia.
  destruct (mac_chars mac Hu Hl) as (c & s & d & E & Hc & Hd & Ht & H59 & H17).
  pose proof (mac_text mac Hu Hl) as Hm. unfold format_mac_address in Hm. rewrite take_ge in Hm by (simpl; lia).
  apply (reads_key "hardware" (lit "ethernet" ++ 32 :: hex_loop mac)); [done|closed_prop| |].
  - apply key_text; [closed_prop|by rewrite E].
  - parse_key. rewrite <- app_assoc. cbn [app].
    rewrite lit_key by (split; [discriminate|closed_prop]). cbn [snd].
    rewrite with_value_text by (by rewrite E). rewrite E, trim_id by done. by rewrite <- E, Hm.
Qed.

(** The text of a client identifier. *)
Lemma octal_chars id :
  Forall is_u8 id ->
  Forall (fun c => c = 92 \/ isdigit c = true) (concat (octal_escape <$> id))
  /\ length (concat (octal_escape <$> id)) = (4 * length id)%nat.
Proof.
  induction 1 as [|b id Hb _ [IH1 IH2]]; [done|]. cbn [fmap list_fmap concat]. split.
  - apply Forall_app. split; [|done]. unfold is_u8 in Hb.
    assert (0 <= b / 64 < 4) by divmod. assert (0 <= b / 8 mod 8 < 8) by (apply Z.mod_pos_bound; lia).
    assert (0 <= b mod 8 < 8) by (apply Z.mod_pos_bound; lia).
    unfold octal_escape, isdigit. repeat constructor; lia.
  - rewrite length_app, IH2. simpl. lia.
Qed.

Lemma octal_text id : Forall is_u8 id -> text (concat (octal_escape <$> id)).
Proof.
  intros Hu. destruct (octal_chars id Hu) as [Hc _]. eapply Forall_impl; [exact Hc|].
  intros c. unfold isdigit. cbv beta. lia.
Qed.

Lemma client_text_shape id n :
  Forall is_u8 id -> 0 < n <= 63 -> n <= Z.of_nat (length id) ->
  format_client_id_to_string id n 256 = quoted (concat (octal_escape <$> take (Z.to_nat n) id)).
Proof.
  intros Hu Hn Hl. unfold format_client_id_to_string.
  destruct (Z.ltb_spec 256 3); [lia|]. destruct (Z.eqb_spec n 0); [lia|]. cbn [orb].
  rewrite format_id_loop_all; [done|]. rewrite length_take. lia.
Qed.

Lemma reads_uid id n l :
  Forall is_u8 id -> 0 < n <= 63 -> n <= Z.of_nat (length id) ->
  reads [9 :: lit "uid" ++ 32 :: format_client_id_to_string id n 256 ++ [59]] l
    (set_l_client_id_len n
       (set_l_client_id (take (Z.to_nat n) id ++ drop (Z.to_nat n) l.(l_client_id)) l)).
Proof.
  intros Hu Hn Hl. set (id' := take (Z.to_nat n) id).
  assert (length id' = Z.to_nat n) as Hl' by (subst id'; rewrite length_take; lia).
  assert (Forall is_u8 id') as Hu' by (by apply Forall_take).
  destruct (octal_chars id' Hu') as [Hc _].
  pose proof (client_id_text id' Hu' ltac:(lia)) as Hp.
  rewrite client_text_shape in Hp by (done || lia). rewrite Nat2Z.id, (take_ge id' (length id')) in Hp by lia.
  rewrite client_text_shape by done. fold id'.
  apply (reads_key "uid"); [done|closed_prop|by apply quoted_text, octal_text|].
  parse_key. rewrite with_value_text; [|done|].
  - unfold quoted at 1. rewrite trim_id by done. fold (quoted (concat (octal_escape <$> id'))).
    rewrite Hp, bind_Ret. rewrite Hl', Z2Nat.id by lia. done.
  - unfold quoted. rewrite elem_of_cons, elem_of_app, list_elem_of_singleton. intros [?|[Hin|?]]; [done| |done].
    apply (proj1 (Forall_forall _ _) Hc) in Hin. unfold isdigit in Hin. lia.
Qed.

(** The slot when the first statement is read. *)
Definition block_start (ip : Z) : dhcp_lease_t := set_l_ip_address ip zero_lease.

(** A statement that is left out when the slot already has the value. *)
Lemma reads_opt {A} (get : dhcp_lease_t -> A) (set : A -> dhcp_lease_t -> dhcp_lease_t) b v line l :
  set (get l) l = l -> (b = false -> get l = v) -> (b = true -> reads [line] l (set v l)) ->
  reads (if_line b line) l (set v l).
Proof. intros Hs Hf Ht. destruct b; [by apply Ht|]. rewrite <- Hf, Hs by done. apply reads_nil. Qed.

Lemma reads_opt_uid id n l :
  Forall is_u8 id -> 0 <= n <= 63 -> n <= Z.of_nat (length id) -> l.(l_client_id_len) = 0 ->
  reads (if_line (0 <? n) (9 :: lit "uid" ++ 32 :: format_client_id_to_string id n 256 ++ [59])) l
    (set_l_client_id_len n
       (set_l_client_id (take (Z.to_nat n) id ++ drop (Z.to_nat n) l.(l_client_id)) l)).
Proof.
  intros Hu Hn Hl Hz. apply reads_if.
  - intros ?%Z.ltb_lt. apply reads_uid; [done|lia|done].
  - intros ?%Z.ltb_ge. assert (n = 0) as -> by lia. change (Z.to_nat 0) with 0%nat. rewrite take_0, drop_0.
    destruct l. cbn in *. by subst.
Qed.

Lemma reads_opt_tstp t l :
  (0 < t -> time_ok localtime mktime t) -> l.(l_tstp) = 0 ->
  reads (if_line (0 <? t) (time_line "tstp" t)) l (set_l_tstp (Z.max 0 t) l).
Proof.
  intros Ht Hz. apply (reads_opt l_tstp set_l_tstp); [by destruct l|intros ?%Z.ltb_ge; lia|].
  intros ?%Z.ltb_lt. rewrite Z.max_r by lia. by apply reads_tstp, Ht.
Qed.

Lemma reads_opt_cltt t l :
  (0 < t -> time_ok localtime mktime t) -> l.(l_cltt) = 0 ->
  reads (if_line (0 <? t) (time_line "cltt" t)) l (set_l_cltt (Z.max 0 t) l).
Proof.
  intros Ht Hz. apply (reads_opt l_cltt set_l_cltt); [by destruct l|intros ?%Z.ltb_ge; lia|].
  intros ?%Z.ltb_lt. rewrite Z.max_r by lia. by apply reads_cltt, Ht.
Qed.

Lemma reads_opt_next st l :
  l.(l_next_binding_state) = LEASE_STATE_FREE ->
  reads (if_line (negb (bool_decide (st = LEASE_STATE_FREE))) (state_line "next binding state" st)) l
    (set_l_next_binding_state st l).
Proof.
  intros Hz. apply (reads_opt l_next_binding_state set_l_next_binding_state); [by destruct l| |].
  - intros ->%negb_false_iff%bool_decide_eq_true_1. done.
  - intros _. apply reads_next.
Qed.

Lemma reads_opt_rewind st l :
  l.(l_rewind_binding_state) = LEASE_STATE_FREE ->
  reads (if_line (negb (bool_decide (st = LEASE_STATE_FREE))) (state_line "rewind binding state" st)) l
    (set_l_rewind_binding_state st l).
Proof.
  intros Hz. apply (reads_opt l_rewind_binding_state set_l_rewind_binding_state); [by destruct l| |].
  - intros ->%negb_false_iff%bool_decide_eq_true_1. done.
  - intros _. apply reads_rewind.
Qed.

Lemma reads_opt_hostname s l :
  string_ok MAX_CLIENT_HOSTNAME s -> l.(l_client_hostname) = EmptyString ->
  reads (if_line (negb (bool_decide (s = EmptyString))) (string_line "client-hostname" s)) l
    (set_l_client_hostname s l).
Proof.
  intros Hs Hz. apply (reads_opt l_client_hostname set_l_client_hostname); [by destruct l| |].
  - intros ->%negb_false_iff%bool_decide_eq_true_1. done.
  - intros _. by apply reads_hostname.
Qed.

Lemma reads_opt_vendor s l :
  string_ok MAX_VENDOR_CLASS_LEN s -> l.(l_vendor_class_identifier) = EmptyString ->
  reads (if_line (negb (bool_decide (s = EmptyString))) (string_line "vendor-class-identifier" s)) l
    (set_l_vendor_class_identifier s l).
Proof.
  intros Hs Hz. apply (reads_opt l_vendor_class_identifier set_l_vendor_class_identifier); [by destruct l| |].
  - intros ->%negb_false_iff%bool_decide_eq_true_1. done.
  - intros _. by apply reads_vendor.
Qed.

Lemma reads_opt_abandoned (b : bool) l :
  l.(l_is_abandoned) = false -> reads (if_line b (9 :: lit "abandoned;")) l (set_l_is_abandoned b l).
Proof.
  intros Hz. apply (reads_opt l_is_abandoned set_l_is_abandoned); [by destruct l|by intros ->|].
  intros ->. apply reads_abandoned.
Qed.

Lemma reads_opt_id n l :
  0 <= n -> l.(l_lease_id) = 0 ->
  reads (if_line (0 <? n) (9 :: lit "# Lease ID (custom field)")
         ++ if_line (0 <? n) (9 :: lit "set lease-id = " ++ quoted (dec n) ++ [59])) l l.
Proof.
  intros Hn Hz. assert (set_l_lease_id 0 l = l) as E by (destruct l; cbn in *; by subst).
  apply (reads_app _ _ _ l); [apply reads_if; [intros _; apply reads_comment|done]|].
  apply reads_if; [|done]. intros _. rewrite <- E at 2. by apply reads_set_id.
Qed.

(** A saved block fills the slot with the reloaded lease. *)
Lemma block_reads l :
  lease_ok l -> reads (lease_statements l) (block_start l.(l_ip_address)) (reloaded 0 l).
Proof.
  intros Hok. unfold lease_statements.
  destruct Hok as [Hid _ [Hmac Hmac6] Hs He Ht Hc (Hcl & Hn & Hnl) Hh Hv].
  rewrite app_assoc. eapply reads_app; [apply reads_opt_id; [lia|reflexivity]|].
  eapply (reads_app [_; _]); [eapply (reads_app [_] [_]); [by apply reads_starts|by apply reads_ends]|].
  eapply reads_app; [apply reads_opt_tstp; [exact Ht|reflexivity]|].
  eapply reads_app; [apply reads_opt_cltt; [exact Hc|reflexivity]|].
  eapply (reads_app [_]); [apply reads_binding|].
  eapply reads_app; [apply reads_opt_next; reflexivity|].
  eapply reads_app; [apply reads_opt_rewind; reflexivity|].
  eapply (reads_app [_]); [by apply reads_mac|].
  eapply reads_app; [apply reads_opt_uid; [exact Hcl|exact Hn|exact Hnl|reflexivity]|].
  eapply reads_app; [apply reads_opt_hostname; [exact Hh|reflexivity]|].
  eapply reads_app; [apply reads_opt_vendor; [exact Hv|reflexivity]|].
  unfold reloaded. rewrite <- drop_replicate. apply reads_opt_abandoned. reflexivity.
Qed.

(** ** The lines of the file *)

Definition printable (l : cstr) : Prop := text l /\ (length l < 1023)%nat.

Lemma printable_key k value :
  text (lit k) -> text value -> (length (lit k) + length value < 1000)%nat ->
  printable (9 :: lit k ++ 32 :: value ++ [59]).
Proof.
  intros Hk Hv Hl. split.
  - constructor; [lia|]. apply key_text; [done|]. apply Forall_app. split; [done|by repeat constructor].
  - cbn [length]. rewrite length_app. cbn [length]. rewrite length_app. cbn [length]. lia.
Qed.

Lemma printable_if (b : bool) l : (b = true -> printable l) -> Forall printable (if_line b l).
Proof. intros H. destruct b; [|constructor]. constructor; [by apply H|constructor]. Qed.

Lemma printable_time k t :
  text (lit k) -> (length (lit k) <= 10)%nat -> time_ok localtime mktime t -> printable (time_line k t).
Proof.
  intros Hk Hl Ht. destruct (time_value_text t Ht) as [Hv Hlen]. apply printable_key; [done|done|lia].
Qed.

Lemma printable_string k s cap :
  text (lit k) -> (length (lit k) <= 30)%nat -> (cap <= 256)%nat -> string_ok cap s -> printable (string_line k s).
Proof.
  intros Hk Hl Hcap (Hs & _ & Hc). apply printable_key; [done|by apply quoted_text|].
  unfold quoted. cbn [length]. rewrite length_app, !length_lit in *. cbn [length]. lia.
Qed.

Lemma lease_lines_printable l : lease_ok l -> Forall printable (lease_lines l).
Proof.
  intros Hok. destruct Hok as [Hid (_ & _ & Hip & Hip15) [Hmac Hmac6] Hs He Ht Hc (Hcl & Hn & Hnl) Hh Hv].
  unfold lease_lines, lease_statements.
  rewrite !Forall_app. split_and!; try apply printable_if; try intros Hb.
  - constructor; [split; [constructor|simpl; lia]|]. constructor; [|constructor]. split.
    + apply key_text; [closed_prop|]. apply Forall_app. split; [|closed_prop].
      eapply Forall_impl; [exact Hip|]. intros x. unfold isdigit. cbv beta. lia.
    + rewrite length_app, length_lit. cbn [length String.length]. rewrite length_app. cbn [length]. lia.
  - split; [closed_prop|vm_compute; lia].
  - apply (printable_key "set" (lit "lease-id = " ++ quoted (dec l.(l_lease_id)))); [closed_prop|apply set_id_text; lia|].
    pose proof (length_dec_loop 20 l.(l_lease_id) []). fold (dec l.(l_lease_id)) in *.
    rewrite length_app, !length_lit. unfold quoted. cbn [length String.length] in *. rewrite length_app. cbn [length]. lia.
  - constructor; [|constructor; [|constructor]]; (apply printable_time; [closed_prop|vm_compute; lia|done]).
  - apply printable_time; [closed_prop|vm_compute; lia|]. by apply Ht, Z.ltb_lt.
  - apply printable_time; [closed_prop|vm_compute; lia|]. by apply Hc, Z.ltb_lt.
  - constructor; [|constructor]. destruct (l_state l); (split; [closed_prop|vm_compute; lia]).
  - destruct (l_next_binding_state l); (split; [closed_prop|vm_compute; lia]).
  - destruct (l_rewind_binding_state l); (split; [closed_prop|vm_compute; lia]).
  - constructor; [|constructor]. rewrite take_ge by lia.
    destruct (mac_chars _ Hmac Hmac6) as (c & s & d & E & _ & _ & Htx & _ & H17).
    apply (printable_key "hardware ethernet"); [closed_prop|by rewrite E|]. rewrite H17. vm_compute. lia.
  - apply Z.ltb_lt in Hb. rewrite client_text_shape by (done || lia).
    assert (Forall is_u8 (take (Z.to_nat l.(l_client_id_len)) l.(l_client_id))) as Hu by (by apply Forall_take).
    apply (printable_key "uid"); [closed_prop|by apply quoted_text, octal_text|].
    unfold quoted. cbn [length]. rewrite length_app, (proj2 (octal_chars _ Hu)), length_take. simpl. lia.
  - apply (printable_string _ _ MAX_CLIENT_HOSTNAME); [closed_prop|vm_compute; lia|unfold MAX_CLIENT_HOSTNAME; lia|done].
  - apply (printable_string _ _ MAX_VENDOR_CLASS_LEN); [closed_prop|vm_compute; lia|unfold MAX_VENDOR_CLASS_LEN; lia|done].
  - split; [closed_prop|vm_compute; lia].
  - constructor; [|constructor]. split; [closed_prop|vm_compute; lia].
Qed.

Lemma printable_fgets ls rest :
  Forall printable ls -> fgets_lines (print_lines ls ++ rest) = ((fun l => l ++ [10]) <$> ls) ++ fgets_lines rest.
Proof.
  intros H. apply fgets_printed. eapply Forall_impl; [exact H|]. intros l [Ht Hl]. split; [|done].
  intros Hin. by destruct (proj1 (Forall_forall _ _) Ht 10 Hin).
Qed.

(** ** The loader over the lines of a saved file *)

(** Enough fuel is as good as more. *)
Lemma load_loop_fuel f1 : forall f2 lines db,
  (length lines < f1)%nat -> (length lines < f2)%nat -> load_loop f1 lines db = load_loop f2 lines db.
Proof.
  induction f1 as [|f1 IH]; intros [|f2] lines db H1 H2; [lia|lia|lia|]. cbn [load_loop].
  destruct lines as [|line rest]; [done|]. cbn [length] in *.
  assert (forall db, load_loop f1 rest db = load_loop f2 rest db) as Hr by (intros; apply IH; lia).
  destruct (_ || _); [apply Hr|]. destruct (_ && _); [|apply Hr].
  destruct (parse_lease_block _ rest) as [[[r lease] rest']|f] eqn:E; [|done].
  rewrite !bind_Ret. cbv beta iota. destruct (parse_lease_block_suffix _ _ _ _ _ E) as [read ->].
  rewrite length_app in *. apply IH; lia.
Qed.

Definition load_all (lines : list cstr) (db : lease_database_t) : outcome lease_database_t :=
  load_loop (S (length lines)) lines db.

(** The lines [ls] turn the database [db] into [db']. *)
Definition loads (ls : list cstr) (db db' : lease_database_t) : Prop :=
  forall rest, load_all (((fun l => l ++ [10]) <$> ls) ++ rest) db = load_all rest db'.

Lemma loads_app ls1 ls2 db1 db2 db3 : loads ls1 db1 db2 -> loads ls2 db2 db3 -> loads (ls1 ++ ls2) db1 db3.
Proof. intros H1 H2 rest. by rewrite fmap_app, <- app_assoc, H1, H2. Qed.

(** A line that does not open a block is skipped. *)
Lemma loads_skip line db :
  (let t := trim (c_string (line ++ [10])) in
   bool_decide (t = []) || (byte_at t 0 =? 35) || negb (bool_decide (take 5 t = lit "lease"))) = true ->
  loads [line] db db.
Proof.
  cbv zeta. intros H rest. unfold load_all at 1. cbn [fmap list_fmap app load_loop].
  set (t := trim _) in *. destruct (bool_decide (t = []) || (byte_at t 0 =? 35)); [done|]. cbn [orb] in H. apply negb_true_iff in H. by rewrite H.
Qed.

(** With the array full nothing changes any more. *)
Lemma load_full lines db : (MAX_LEASES <= length db.(leases))%nat -> load_all lines db = Ret db.
Proof.
  intros H. unfold load_all. generalize (S (length lines)) as fuel, (Nat.lt_succ_diag_r (length lines)).
  intros fuel. revert fuel. induction lines as [|line lines IH]; intros [|fuel] Hf; try lia; [done|].
  cbn [load_loop]. cbn [length] in Hf. destruct (_ || _); [apply IH; lia|].
  rewrite (bool_decide_eq_false_2 (length (leases db) < MAX_LEASES)%nat), andb_false_r by lia. apply IH; lia.
Qed.

Lemma first_line_text l :
  ip_ok inet_pton4 inet_ntop4 l.(l_ip_address) ->
  exists s, lit "lease" ++ 32 :: inet_ntop4 l.(l_ip_address) ++ [32; 123] = 108 :: s ++ [123]
    /\ text (108 :: s ++ [123]).
Proof.
  intros (_ & _ & Hip & _). exists (lit "ease" ++ 32 :: inet_ntop4 l.(l_ip_address) ++ [32]). split.
  - cbn [app]. change (lit "lease") with (108 :: lit "ease"). cbn [app]. rewrite <- app_assoc. cbn [app].
    by rewrite <- app_assoc.
  - rewrite <- app_assoc. cbn [app]. rewrite <- app_assoc. constructor; [lia|]. apply key_text; [closed_prop|].
    apply Forall_app. split; [|closed_prop]. eapply Forall_impl; [exact Hip|].
    intros x. unfold isdigit. cbv beta. lia.
Qed.

(** The first line of a block and its statements. *)
Lemma parse_block_saved l rest :
  lease_ok l ->
  parse_lease_block (lit "lease" ++ 32 :: inet_ntop4 l.(l_ip_address) ++ [32; 123])
    (((fun x => x ++ [10]) <$> (lease_statements l ++ [[125]])) ++ rest)
  = Ret (0, reloaded 0 l, rest).
Proof.
  intros Hok. destruct (lease_ok_ip l Hok) as (Hp & Hne & Hip & _). unfold parse_lease_block.
  rewrite (strtok_word _ (lit "lease")).
  2:{ done. }
  2:{ apply (proj1 (Forall_forall (fun c => c ∉ blanks ++ [123]) _)). closed_prop. }
  2:{ by left. }
  rewrite bool_decide_eq_true_2 by done. cbn [negb].
  rewrite (strtok_word _ (inet_ntop4 l.(l_ip_address)) 32 [123]); [|done| |by left].
  2:{ intros c Hc. apply (proj1 (Forall_forall _ _) Hip) in Hc. unfold blanks, isdigit in *. cbn [app].
      rewrite !elem_of_cons, elem_of_nil. lia. }
  cbn [fst mbind option_bind]. rewrite Hp. rewrite fmap_app, <- app_assoc.
  apply (block_reads l Hok).
Qed.

(** One saved block. *)
Lemma loads_block l db :
  lease_ok l -> (length db.(leases) < MAX_LEASES)%nat ->
  loads (lease_lines l) db (load_lease (reloaded 0 l) db).
Proof.
  intros Hok Hlt. unfold lease_lines. apply (loads_app [[]] (_ :: _) _ db); [by apply loads_skip|].
  intros rest. unfold load_all at 1. cbn [fmap list_fmap app]. set (more := (_ <$> _) ++ rest).
  cbn [load_loop]. destruct (first_line_text l (lease_ok_ip l Hok)) as (s & E & Ht). rewrite E.
  rewrite c_string_id.
  2:{ intros [Hin|?%list_elem_of_singleton]%elem_of_app; [|done].
      by destruct (proj1 (Forall_forall _ _) Ht 0 Hin). }
  change ((108 :: s ++ [123]) ++ [10]) with ([] ++ (108 :: s ++ [123]) ++ [10]).
  rewrite trim_ends by done. rewrite <- E.
  rewrite bool_decide_eq_false_2 by (by rewrite E). change (byte_at (lit "lease" ++ _) 0) with 108.
  cbn [orb Z.eqb Pos.eqb]. rewrite bool_decide_eq_true_2 by done. rewrite bool_decide_eq_true_2 by done. cbn [andb].
  subst more. rewrite parse_block_saved, bind_Ret by done. cbv beta iota. change (0 =? 0) with true. cbv iota.
  apply load_loop_fuel; [|lia]. cbn [length]. rewrite length_app. lia.
Qed.

Fixpoint reload_all (next : Z) (ls : list dhcp_lease_t) : list dhcp_lease_t :=
  match ls with
  | [] => []
  | l :: r => reloaded next l :: reload_all (next + 1) r
  end.

(** The database after the blocks of [ls]. *)
Definition reload_db (ls : list dhcp_lease_t) (db : lease_database_t) : lease_database_t :=
  set_next_lease_id (db.(next_lease_id) + Z.of_nat (length ls))
    (set_leases (db.(leases) ++ reload_all db.(next_lease_id) ls) db).

Lemma load_lease_reloaded l db :
  1 <= db.(next_lease_id) < 18446744073709551615 ->
  load_lease (reloaded 0 l) db = reload_db [l] db.
Proof.
  intros H. unfold load_lease, lease_db_generate_id, reload_db. cbn [l_lease_id reloaded Z.eqb].
  unfold u64. by rewrite Z.mod_small by lia.
Qed.

(** The saved blocks as far as there is room. *)
Lemma load_blocks ls : forall db rest,
  Forall lease_ok ls -> 1 <= db.(next_lease_id) < 9223372036854775808 - Z.of_nat (length ls) ->
  (length db.(leases) <= MAX_LEASES)%nat ->
  (length db.(leases) + length ls <= MAX_LEASES)%nat \/ rest = [] ->
  load_all (((fun l => l ++ [10]) <$> concat (lease_lines <$> ls)) ++ rest) db
  = load_all rest (reload_db (take (MAX_LEASES - length db.(leases)) ls) db).
Proof.
  induction ls as [|l ls IH]; intros db rest Hok Hn Hb Hr.
  - rewrite take_nil. unfold reload_db. cbn. by rewrite Z.add_0_r, app_nil_r; destruct db.
  - apply Forall_cons in Hok as [Hl Hok].
    destruct (decide (length db.(leases) = MAX_LEASES)) as [Hfull|Hfull].
    + rewrite load_full by lia. destruct Hr as [Hr| ->]; [cbn [length] in Hr; lia|].
      rewrite Hfull, Nat.sub_diag. cbn [take]. unfold reload_db. cbn. rewrite Z.add_0_r, app_nil_r. by destruct db.
    + cbn [fmap list_fmap concat]. rewrite fmap_app, <- app_assoc. cbn [length] in *.
      rewrite loads_block, load_lease_reloaded by (done || lia).
      assert (length (leases (reload_db [l] db)) = S (length db.(leases))) as Hlen
        by (cbn; rewrite length_app; cbn; lia).
      rewrite IH; [|done|cbn in *; lia|lia|destruct Hr; [left; lia|by right]].
      f_equal. rewrite Hlen. replace (MAX_LEASES - length (leases db))%nat with (S (MAX_LEASES - S (length (leases db))))%nat by lia.
      cbn [take]. unfold reload_db. cbn. rewrite <- app_assoc. cbn [app].
      unfold set_next_lease_id, set_leases. cbn [leases next_lease_id db_filename db_mutex_locked db_mutex_initialized].
      f_equal. rewrite length_take. lia.
Qed.

Lemma trim_head c s : isspace c = false -> exists s', trim (c :: s) = c :: s'.
Proof.
  intros Hc. unfold trim, drop_while_end. rewrite drop_while_head by done. cbn [rev].
  induction (rev s) as [|x r IH]; cbn [app drop_while]; [rewrite Hc; by exists []|].
  destruct (isspace x); [done|]. cbn [rev]. rewrite rev_app_distr. cbn [rev app]. by eexists.
Qed.

Lemma loads_skips ls db :
  Forall (fun line => (let t := trim (c_string (line ++ [10])) in
    bool_decide (t = []) || (byte_at t 0 =? 35) || negb (bool_decide (take 5 t = lit "lease"))) = true) ls ->
  loads ls db db.
Proof.
  induction 1 as [|line ls Hl _ IH]; [done|]. apply (loads_app [line] ls _ db); [by apply loads_skip|done].
Qed.

(** The file before the leases. *)
Definition preamble (w : cstr) : list cstr := header_lines ++ [lit "# Last updated: " ++ w; []].

Lemma preamble_printable w : text w -> (length w < 1000)%nat -> Forall printable (preamble w).
Proof.
  intros Hw Hl. apply Forall_app. split.
  - assert (forallb (fun l => bool_decide (text l) && (Z.of_nat (length l) <? 1023)) header_lines = true) as E
      by (vm_compute; reflexivity).
    rewrite forallb_forall in E. apply Forall_forall. intros l Hin%list_elem_of_In.
    specialize (E l Hin). apply andb_true_iff in E as [E1%bool_decide_eq_true_1 E2]. split; [done|lia].
  - constructor; [|constructor; [split; [constructor|simpl; lia]|constructor]]. split.
    + apply Forall_app. split; [closed_prop|done].
    + rewrite length_app, length_lit. cbn [String.length]. lia.
Qed.

Lemma preamble_loads w db : loads (preamble w) db db.
Proof.
  apply (loads_app _ _ _ db).
  - apply loads_skips. refine (bool_decide_eq_true_1 _ _). vm_compute. reflexivity.
  - apply (loads_app [_] [[]] _ db); [|by apply loads_skip]. apply loads_skip. cbv zeta.
    change (lit "# Last updated: " ++ w) with (35 :: lit " Last updated: " ++ w). cbn [app c_string Z.eqb].
    destruct (trim_head 35 (c_string ((lit " Last updated: " ++ w) ++ [10])) eq_refl) as [s' ->].
    unfold byte_at. cbn [nth]. by rewrite orb_true_r.
Qed.

(** The file after [lease_db_append_lease] of each of the leases. *)
Definition append_all (ls : list dhcp_lease_t) (file : option cstr) : option cstr :=
  foldl (fun file l => (lease_db_append_lease true l file).2) file ls.

Lemma append_all_eq ls : forall contents,
  append_all ls (Some contents) = Some (contents ++ print_lines (concat (lease_lines <$> ls))).
Proof.
  induction ls as [|l ls IH]; intros contents; [by rewrite app_nil_r|].
  unfold append_all in *. cbn [foldl]. cbn [lease_db_append_lease negb snd default]. rewrite IH.
  unfold print_lines. cbn [fmap list_fmap concat]. by rewrite fmap_app, concat_app, <- app_assoc.
Qed.

Lemma lease_lines_all ls : Forall lease_ok ls -> Forall printable (concat (lease_lines <$> ls)).
Proof.
  induction 1 as [|l ls Hl _ IH]; [constructor|]. cbn [fmap list_fmap concat]. apply Forall_app.
  split; [by apply lease_lines_printable|done].
Qed.

(** The saved and appended leases come back. *)
Lemma load_saved db now file ls db0 :
  ctime_ok ctime now -> Forall lease_ok (db.(leases) ++ ls) ->
  Z.of_nat (length (db.(leases) ++ ls)) < 9223372036854775800 ->
  lease_db_load (append_all ls (lease_db_save true now db file).2) db0
  = Ret (0, reload_db (take MAX_LEASES (db.(leases) ++ ls)) (set_next_lease_id 1 (set_leases [] db0))).
Proof.
  intros (w & Hw & Ht & Hlw) Hok Hlen. cbn [lease_db_save negb snd]. rewrite append_all_eq.
  assert (print_lines header_lines ++ lit "# Last updated: " ++ ctime now ++ [10]
    ++ print_lines (concat (lease_lines <$> db.(leases)))
    = print_lines (preamble w) ++ print_lines (concat (lease_lines <$> db.(leases)))) as ->.
  { rewrite Hw. unfold preamble, print_lines. rewrite fmap_app, concat_app. cbn [fmap list_fmap concat].
    rewrite <- !app_assoc. by cbn [app]. }
  assert (print_lines (concat (lease_lines <$> db.(leases))) ++ print_lines (concat (lease_lines <$> ls))
    = print_lines (concat (lease_lines <$> (db.(leases) ++ ls)))) as Hp.
  { unfold print_lines. by rewrite (fmap_app lease_lines), !concat_app, fmap_app, concat_app. }
  rewrite <- app_assoc, Hp. cbn [lease_db_load]. rewrite <- (app_nil_r (print_lines (concat _))).
  rewrite printable_fgets by (by apply preamble_printable).
  rewrite printable_fgets by (by apply lease_lines_all). cbv zeta.
  set (db1 := set_next_lease_id 1 (set_leases [] db0)). fold (load_all
    (((λ l, l ++ [10]) <$> preamble w) ++ ((λ l, l ++ [10]) <$> concat (lease_lines <$> db.(leases) ++ ls)) ++ fgets_lines []) db1).
  rewrite preamble_loads. change (fgets_lines []) with (@nil cstr).
  rewrite load_blocks; [|done|cbn; lia|cbn; lia|by right].
  rewrite Nat.sub_0_r by done. done.
Qed.

(** ** Properties *)

(** C12: a lease file reads back as what was saved.  Loading the file [lease_db_save]
    wrote and [lease_db_append_lease] extended gives the saved leases followed by the
    appended ones, as far as the array has room, with every field as it was but four: the
    identifiers are lost and counted from 1, the text of the state follows the state, the
    unused bytes of the client identifier are zero and the BOOTP flag is false. *)
Theorem lease_file_roundtrip (db db0 : lease_database_t) (now : Z) (file : option cstr)
    (ls : list dhcp_lease_t) :
  ctime_ok ctime now -> Forall lease_ok (db.(leases) ++ ls) ->
  Z.of_nat (length (db.(leases) ++ ls)) < 9223372036854775800 ->
  let kept := take MAX_LEASES (db.(leases) ++ ls) in
  exists db', lease_db_load (append_all ls (lease_db_save true now db file).2) db0 = Ret (0, db')
  /\ db'.(leases) = reload_all 1 kept
  /\ db'.(next_lease_id) = 1 + Z.of_nat (length kept)
  /\ db'.(db_filename) = db0.(db_filename).
Proof.
  intros Hc Hok Hlen. cbv zeta. rewrite load_saved by done. eexists. split; [reflexivity|]. done.
Qed.

Lemma reload_all_ip next ls : l_ip_address <$> reload_all next ls = l_ip_address <$> ls.
Proof. revert next. induction ls as [|l ls IH]; intros next; [done|]. cbn. f_equal. apply IH. Qed.

Lemma reload_all_lookup ls : forall next i,
  reload_all next ls !! i = reloaded (next + Z.of_nat i) <$> ls !! i.
Proof.
  induction ls as [|l ls IH]; intros next [|i]; cbn [reload_all]; [done|done|cbn; by rewrite Z.add_0_r|].
  change (reload_all (next + 1) ls !! i = reloaded (next + Z.of_nat (S i)) <$> ls !! i).
  rewrite (IH (next + 1) i). do 2 f_equal. lia.
Qed.

Lemma find_index_fmap {A B} (p : B -> bool) (f : A -> B) ls :
  find_index (fun x => p (f x)) ls = find_index p (f <$> ls).
Proof. induction ls as [|x ls IH]; [done|]. cbn. destruct (p (f x)); [done|]. by rewrite IH. Qed.

Lemma find_by_ip_reloaded next ls ip :
  find_index (fun l => l.(l_ip_address) =? ip) (reload_all next ls)
  = find_index (fun l => l.(l_ip_address) =? ip) ls.
Proof.
  rewrite (find_index_fmap (fun x => x =? ip) l_ip_address (reload_all _ _)), reload_all_ip.
  symmetry. exact (find_index_fmap (fun x => x =? ip) l_ip_address ls).
Qed.

(** What is appended for an address that is in the file already is not found after a
    restart: the search returns the older entry. *)
Lemma appended_update_is_stale db db0 now file ls ip i l :
  ctime_ok ctime now -> Forall lease_ok (db.(leases) ++ ls) ->
  (length (db.(leases) ++ ls) <= MAX_LEASES)%nat ->
  lease_db_find_by_ip db ip = Some i -> db.(leases) !! i = Some l ->
  exists db', lease_db_load (append_all ls (lease_db_save true now db file).2) db0 = Ret (0, db')
  /\ lease_db_find_by_ip db' ip = Some i /\ db'.(leases) !! i = Some (reloaded (1 + Z.of_nat i) l).
Proof.
  intros Hc Hok Hlen Hf Hl. rewrite load_saved; [|done|done|unfold MAX_LEASES in Hlen; lia].
  eexists. split; [reflexivity|]. rewrite take_ge by done. unfold reload_db, lease_db_find_by_ip in *.
  cbn [set_next_lease_id set_leases leases next_lease_id app]. split.
  - rewrite find_by_ip_reloaded. by apply find_index_app_Some.
  - rewrite reload_all_lookup, lookup_app_l by (by eapply lookup_lt_Some). by rewrite Hl.
Qed.

End Lease_file.

(** ** Examples *)

Definition example_lease : dhcp_lease_t :=
  mk_dhcp_lease 5 16820416 [1; 2; 3; 170; 187; 255] 1000 4600 1000 0 LEASE_STATE_ACTIVE LEASE_STATE_FREE
    LEASE_STATE_EXPIRED ([1; 59; 34; 255] ++ replicate 60 0) 4 "host one" "" false false "active".

Lemma example_lease_ok : lease_ok dotted_pton dotted_ntop jan_localtime jan_mktime example_lease.
Proof.
  assert (time_ok jan_localtime jan_mktime 1000) by (eexists; split; [reflexivity|]; unfold tm_ok; vm_compute; intuition congruence).
  assert (time_ok jan_localtime jan_mktime 4600) by (eexists; split; [reflexivity|]; unfold tm_ok; vm_compute; intuition congruence).
  constructor; cbn [example_lease l_lease_id l_ip_address l_mac_address l_start_time l_end_time l_tstp l_cltt l_client_id
    l_client_id_len l_client_hostname l_vendor_class_identifier]; try done; try lia.
  - apply dotted_ip_ok. unfold is_u32. lia.
  - split; [|done]. unfold is_u8. repeat constructor; lia.
  - split_and!; [|lia|lia|simpl; lia]. unfold is_u8. repeat constructor; lia.
  - split_and!; [refine (bool_decide_eq_true_1 _ _); reflexivity|refine (bool_decide_eq_true_1 _ _); reflexivity|vm_compute; lia].
  - split_and!; [refine (bool_decide_eq_true_1 _ _); reflexivity|refine (bool_decide_eq_true_1 _ _); reflexivity|vm_compute; lia].
Qed.

Lemma lease_file_roundtrip_witness :
  exists db', lease_db_load dotted_pton jan_mktime
      (append_all dotted_ntop jan_localtime [example_lease]
         (lease_db_save dotted_ntop jan_localtime jan_ctime true 1000
            (set_leases [example_lease] (lease_db_init "f")) None).2) (lease_db_init "f") = Ret (0, db')
  /\ l_lease_id <$> db'.(leases) = [1; 2] /\ l_client_hostname <$> db'.(leases) = ["host one"%string; "host one"%string].
Proof.
  destruct (lease_file_roundtrip dotted_pton dotted_ntop jan_localtime jan_mktime jan_ctime
    (set_leases [example_lease] (lease_db_init "f")) (lease_db_init "f") 1000 None [example_lease])
    as (db' & H1 & H2 & _).
  - apply jan_ctime_ok.
  - constructor; [apply example_lease_ok|]. constructor; [apply example_lease_ok|constructor].
  - cbn. lia.
  - exists db'. split; [exact H1|]. rewrite H2. split; reflexivity.
Defined.

(** A client identifier that ends in a backslash makes the loader read past the line. *)
Example load_backslash_faults :
  lease_db_load dotted_pton jan_mktime
    (Some (print_lines [lit "lease 10.0.0.1 {"; lit "uid " ++ 34 :: lit "\"; lit "}"])) (lease_db_init "f")
  = Fault OutOfBounds.
Proof. vm_compute. reflexivity. Qed.

(** Of a client identifier of 64 bytes the file keeps 63. *)
Example client_id_64_cut :
  parse_client_id_from_string (format_client_id_to_string (replicate 64 7) 64 256) = Ret (replicate 63 7).
Proof. vm_compute. reflexivity. Qed.
