(* ===== verification/ServerLifeV4.v ===== *)
(** The life cycle of the DHCPv4 server: [dhcp_server_init], the work of the I/O thread
    on the lease file, [lease_io_stop] and [dhcp_server_stop] of DHCPv4/src/lease_v4.c.

    The threads are those of [LeaseThreads], the file is that of [LeaseFileV4].  Whether
    the allocations, mutexes, condition variables and [fopen] succeed are boolean
    arguments.  [main] stops every producer before it stops the server, so the I/O thread
    runs alone while it is being joined. *)

From stdpp Require Import list.
From S2P Require Import Prelude UtilsV6 CText Ring LeaseV4 LeaseThreads UtilsV4 LeaseFileV4.

(** What the system calls of [dhcp_server_init] return. *)
Record init_results := mk_init_results {
  db_alloc : bool;
  db_mutex_ok : bool;
  timer_alloc : bool;
  timer_mutex_ok : bool;
  timer_cond_ok : bool;
  io_alloc : bool;
  io_mutex_ok : bool;
  io_cond_ok : bool;
  server_mutex_ok : bool;
  server_cond_ok : bool
}.

Definition all_ok : init_results := mk_init_results true true true true true true true true true true.

Section Life.
Context (inet_pton4 : cstr -> option Z) (inet_ntop4 : Z -> cstr).
Context (localtime : Z -> option tm) (mktime : tm -> Z) (ctime : Z -> cstr).

(** The timer of the server: [None] when it cannot be set up. *)
Definition init_timer (r : init_results) (timer_interval : Z) : option (option lease_timer_t) :=
  if 0 <? timer_interval then
    if r.(timer_alloc) then Some <$> lease_timer_init timer_interval r.(timer_mutex_ok) r.(timer_cond_ok)
    else None
  else Some None.

Definition init_io (r : init_results) (enable_async_io : bool) : option (option lease_io_queue_t) :=
  if enable_async_io then
    if r.(io_alloc) then Some <$> lease_io_init r.(io_mutex_ok) r.(io_cond_ok) else None
  else Some None.

(** [None] is the return code -1. *)
Definition dhcp_server_init (r : init_results) (lease_file : string) (file : option cstr)
    (timer_interval : Z) (enable_async_io : bool) : outcome (option dhcp_server_t) :=
  if negb r.(db_alloc) then Ret None
  else if negb r.(db_mutex_ok) then Ret None
  else
    '(_, db) ← lease_db_load inet_pton4 mktime file (lease_db_init lease_file);
    match init_timer r timer_interval, init_io r enable_async_io with
    | Some timer, Some io_queue =>
        if negb r.(server_mutex_ok) || negb r.(server_cond_ok) then Ret None
        else Ret (Some (mk_dhcp_server (Some db) timer io_queue false false false true))
    | _, _ => Ret None
    end.

(** One operation of the I/O thread, outside the queue's lock. *)
Definition process_op (opened : bool) (now : Z) (op : io_operation_t)
    (st : lease_database_t * option cstr) : outcome (lease_database_t * option cstr) :=
  let '(db, file) := st in
  match op.(op_type) with
  | IO_OP_SAVE_LEASE =>
      lease ← in_bounds op.(op_lease);
      Ret (db, (lease_db_append_lease inet_ntop4 localtime opened lease file).2)
  | IO_OP_SAVE_ALL =>
      '(_, file, db) ← lease_db_save_safe inet_ntop4 localtime ctime opened now db file;
      Ret (db, file)
  | IO_OP_SHUTDOWN => Ret (db, file)
  end.

Fixpoint process_ops (opened : bool) (now : Z) (ops : list io_operation_t)
    (st : lease_database_t * option cstr) : outcome (lease_database_t * option cstr) :=
  match ops with
  | [] => Ret st
  | op :: ops => st ← process_op opened now op st; process_ops opened now ops st
  end.

(** [lease_io_stop] with its join; [pc] is where the thread is.  A queue of
    [IO_QUEUE_SIZE] operations takes two steps each, and the thread may hold one more; a
    thread that has not returned by then waits for ever. *)
Definition lease_io_stop (opened : bool) (now : Z) (pc : io_pc) (q : lease_io_queue_t)
    (st : lease_database_t * option cstr)
    : outcome (lease_io_queue_t * (lease_database_t * option cstr)) :=
  let '(join, q) := lease_io_stop_request now q in
  if join then
    let '(q, pc, fin) := lease_io_thread_run (2 * IO_QUEUE_SIZE + 3) q pc in
    st ← process_ops opened now fin st;
    match pc with
    | IoExited => Ret (lease_io_stop_joined q, st)
    | _ => Fault Deadlock
    end
  else Ret (q, st).

(** The server with everything stopped and freed, and the file; [opened_io] and
    [opened] are the results of [fopen] for the I/O thread and for the last save.  A
    server with a queue has the database the queue points to. *)
Definition dhcp_server_stop (opened_io opened : bool) (now : Z) (pc : io_pc) (s : dhcp_server_t)
    (file : option cstr) : outcome (dhcp_server_t * option cstr) :=
  let timer := None in
  '(lease_db, file) ←
    (match s.(v_lease_db), s.(v_io_queue) with
     | Some db, Some q =>
         '(_, (db, file)) ← lease_io_stop opened_io now pc q (db, file); Ret (Some db, file)
     | d, _ => Ret (d, file)
     end);
  let file := match lease_db with
              | Some db => (lease_db_save inet_ntop4 localtime ctime opened now db file).2
              | None => file
              end in
  Ret (mk_dhcp_server None timer None s.(v_shutdown_requested) s.(v_reload_requested)
         s.(v_server_mutex_locked) false, file).

(** ** Lemmas *)

(** An operation the queue can hold: a lease to save is there. *)
Definition op_filled (op : io_operation_t) : Prop :=
  op.(op_type) = IO_OP_SAVE_LEASE -> is_Some op.(op_lease).

(** The I/O thread writes the file and leaves the database alone. *)
Lemma process_op_db opened now op db file :
  db.(db_mutex_locked) = false -> op_filled op ->
  exists file', process_op opened now op (db, file) = Ret (db, file').
Proof.
  intros Hl Hop. unfold process_op. destruct (op_type op) eqn:Et; [| |by eexists].
  - destruct (Hop Et) as [l ->]. cbn [in_bounds]. rewrite bind_Ret. by eexists.
  - unfold lease_db_save_safe, lease_db_lock, lease_db_unlock, db_mutex_lock. rewrite Hl.
    destruct db as [ls fn nx lk ini]. cbn in *. subst lk.
    destruct ini; rewrite !bind_Ret; cbn [set_db_mutex_locked db_mutex_initialized];
      match goal with |- context [lease_db_save ?a ?b ?c ?d ?e ?f ?g] => destruct (lease_db_save a b c d e f g) end;
      rewrite bind_Ret; by eexists.
Qed.

Lemma process_ops_db opened now ops : forall db file,
  db.(db_mutex_locked) = false -> Forall op_filled ops ->
  exists file', process_ops opened now ops (db, file) = Ret (db, file').
Proof.
  induction ops as [|op ops IH]; intros db file Hl Hops; cbn [process_ops]; [by eexists|].
  apply Forall_cons in Hops as [Hop Hops]. destruct (process_op_db opened now op db file Hl Hop) as [file' ->].
  rewrite bind_Ret. by apply IH.
Qed.

(** A queue that [lease_io_stop] can drain: running, with room for the shutdown. *)
Record drainable (q : lease_io_queue_t) : Prop := {
  drain_ok : io_queue_ok q;
  drain_init : q.(q_mutex_initialized) = true;
  drain_running : q.(q_running) = true;
  drain_room : (q.(q_queue).(ring_count) < IO_QUEUE_SIZE)%nat;
  drain_ops : Forall (fun op => is_shutdown op = false) (ring_items q.(q_queue));
  drain_filled : Forall op_filled (ring_items q.(q_queue))
}.

Lemma lease_io_stop_db opened now q db file :
  drainable q -> db.(db_mutex_locked) = false ->
  exists q' file', lease_io_stop opened now IoLoop q (db, file) = Ret (q', (db, file'))
    /\ q'.(q_running) = false /\ ring_items q'.(q_queue) = [].
Proof.
  intros [Hok Hi Hr Hc Hs Hf] Hl.
  destruct (lease_io_stop_flushes now q Hok Hi Hr Hc Hs) as (q1 & q2 & E1 & E2 & Hr2 & Hi2).
  unfold lease_io_stop. rewrite E1.
  pose proof (thread_run_more (2 * ring_count (q_queue q) + 2)
    (2 * IO_QUEUE_SIZE + 3 - (2 * ring_count (q_queue q) + 2)) q1 IoLoop) as Hm.
  rewrite E2 in Hm. rewrite Nat.add_sub_assoc, (Nat.add_comm (2 * ring_count _ + 2)), Nat.add_sub in Hm by lia.
  rewrite (Hm eq_refl).
  destruct (process_ops_db opened now (ring_items (q_queue q) ++ [mk_io_operation IO_OP_SHUTDOWN None now]) db file Hl)
    as [file' ->]; [|rewrite bind_Ret; by eexists _, _].
  apply Forall_app. split; [done|]. repeat constructor. by intros [=].
Qed.

(** ** Properties *)

(** The leases survive a restart.  Stopping a server whose I/O queue has room ends:
    the queue is drained, whatever it holds and whether or not its writes succeed, and the
    server is left with nothing allocated.  Starting again from the file it leaves gives a
    server with the same leases under the identifiers 1, 2, ... (the fields [reloaded]
    lists apart), ready to run. *)
Lemma server_restart (opened_io : bool) (now interval : Z) (name : string) (s : dhcp_server_t)
    (db : lease_database_t) (q : lease_io_queue_t) (file : option cstr) :
  s.(v_lease_db) = Some db -> s.(v_io_queue) = Some q ->
  drainable q -> db.(db_mutex_locked) = false -> (length db.(leases) <= MAX_LEASES)%nat ->
  Forall (lease_ok inet_pton4 inet_ntop4 localtime mktime) db.(leases) ->
  ctime_ok ctime now -> 0 < interval ->
  exists s1 file' s2 db2 q2,
    dhcp_server_stop opened_io true now IoLoop s file = Ret (s1, file')
    /\ s1.(v_lease_db) = None /\ s1.(v_timer) = None /\ s1.(v_io_queue) = None
    /\ s1.(v_mutex_initialized) = false
    /\ dhcp_server_init all_ok name file' interval true = Ret (Some s2)
    /\ s2.(v_lease_db) = Some db2 /\ s2.(v_timer) = Some (mk_lease_timer false interval true)
    /\ s2.(v_io_queue) = Some q2 /\ ring_items q2.(q_queue) = []
    /\ db2.(leases) = reload_all 1 db.(leases)
    /\ db2.(next_lease_id) = 1 + Z.of_nat (length db.(leases))
    /\ (dhcp_server_start true true s2).1 = 0.
Proof.
  intros Hdb Hq Hdr Hl Hlen Hok Hct Hint.
  destruct (lease_io_stop_db opened_io now q db file Hdr Hl) as (q1 & file1 & E & _ & _).
  unfold dhcp_server_stop. rewrite Hdb, Hq, E, !bind_Ret. cbv beta iota.
  pose proof (load_saved inet_pton4 inet_ntop4 localtime mktime ctime db now file1 [] (lease_db_init name) Hct) as Hload.
  rewrite app_nil_r in Hload. specialize (Hload Hok ltac:(unfold MAX_LEASES in Hlen; lia)).
  rewrite take_ge in Hload by done. cbn [append_all foldl] in Hload.
  assert (init_timer all_ok interval = Some (Some (mk_lease_timer false interval true))) as Et.
  { unfold init_timer, lease_timer_init. destruct (Z.ltb_spec 0 interval); [|lia].
    by destruct (Z.eqb_spec interval 0); [lia|]. }
  eexists _, _, _, _, _. split; [reflexivity|]. do 4 (split; [reflexivity|]). split.
  { unfold dhcp_server_init. cbn [all_ok db_alloc db_mutex_ok negb]. rewrite Hload, bind_Ret. cbv beta iota.
    rewrite Et. reflexivity. }
  do 3 (split; [reflexivity|]). split; [by apply (lease_io_init_ok _ eq_refl)|].
  do 2 (split; [reflexivity|]). reflexivity.
Qed.

End Life.

(** A server with two leases and two pending operations. *)
Definition example_server : dhcp_server_t :=
  mk_dhcp_server
    (Some (set_next_lease_id 6 (set_leases [example_lease; set_l_lease_id 2 example_lease] (lease_db_init "f"))))
    None
    (Some (lease_io_queue_save_all 5 (lease_io_queue_save_lease 4
       (mk_lease_io_queue true (ring_new IO_QUEUE_SIZE zero_op) true 0 0) example_lease).2).2)
    true false false true.

Lemma server_restart_witness :
  exists s1 file' s2 db2,
    dhcp_server_stop dotted_ntop jan_localtime jan_ctime false true 1000 IoLoop example_server None = Ret (s1, file')
    /\ dhcp_server_init dotted_pton jan_mktime all_ok "f" file' 60 true = Ret (Some s2)
    /\ s2.(v_lease_db) = Some db2 /\ l_lease_id <$> db2.(leases) = [1; 2].
Proof.
  destruct (server_restart dotted_pton dotted_ntop jan_localtime jan_mktime jan_ctime false 1000 60 "f" example_server
    _ _ None eq_refl eq_refl) as (s1 & file' & s2 & db2 & q2 & H1 & _ & _ & _ & _ & H2 & H3 & _ & _ & _ & H4 & _).
  - constructor; [split; [constructor; vm_compute; lia|vm_compute; reflexivity]|reflexivity|reflexivity|vm_compute; lia| |].
    + vm_compute. repeat constructor.
    + vm_compute. repeat constructor; intros H; first [discriminate H|by eexists].
  - reflexivity.
  - vm_compute. lia.
  - constructor; [apply example_lease_ok|]. constructor; [|constructor]. by destruct example_lease_ok; constructor.
  - apply jan_ctime_ok.
  - lia.
  - exists s1, file', s2, db2. split; [exact H1|]. split; [exact H2|]. split; [exact H3|]. rewrite H4. reflexivity.
Defined.
