(* ===== verification/MainV4.v ===== *)
(** * The DHCPv4 server program

    [main] of [DHCPv4/src/main.c]: the start from the configuration file and the lease
    file, the loop that receives datagrams and queues them for the workers, and the stop.
    It composes the logger ([Logger]), the parser ([ConfigFileV4]), the life cycle ([ServerLifeV4]), the pools
    ([IpPool]), the thread pool ([ThreadPool]) and the packet handler ([ServerV4]).

    What the threads do is a sequence of events: a reception by the main thread, a task
    taken and processed by a worker, a round of the lease timer, a round of a pool's
    synchronisation thread, a signal.  An event is one step; the workers of the program do
    not lock the lease database, so that two of them can interfere within a step, which
    the sequences do not show.  The memory of the tasks is a map from addresses, and
    [malloc] a function of it. *)

From stdpp Require Import gmap.
From S2P Require Import Prelude UtilsV6 CText Ring LeaseV4 ConfigV4 IpPool IpPoolSpec DhcpMessage ServerV4 LeaseThreads ThreadPool UtilsV4 Logger ConfigFileV4 LeaseFileV4 ServerLifeV4.

Definition SERVER_CONFIG_FILE : string := "DHCPv4/config/dhcpv4.conf".

Definition LEASE_DB_FILE : string := "DHCPv4/data/dhcpv4.leases".

(** What the system calls of [main] return; [r_log] is the descriptor of the log file,
    [None] when [open] fails, [r_log_time] the time of the first message. *)
Record main_results := mk_main_results {
  r_log : option Z;
  r_log_time : Z;
  r_init : init_results;
  r_sync_thread : nat -> bool;
  r_timer_thread : bool;
  r_io_thread : bool;
  r_tpool : bool;
  r_garbage : thread_task_t;
  r_socket : bool;
  r_device : cstr -> bool;
  r_bind : Z -> bool
}.

(** The global state of the program and the memory of the queued tasks.  The lease
    database is the one of [x_context]; [g_server.dhcp] points to it. *)
Record process := mk_process {
  x_context : server_context_t;
  x_dhcp : dhcp_server_t;
  x_syncs : list ip_pool_sync_t;
  x_tpool : thread_pool_t;
  x_tasks : gmap Z packet_task_t;
  x_port : Z;
  x_running : bool;
  x_looping : bool
}.

Definition set_x_context (v : server_context_t) (x : process) : process :=
  mk_process v x.(x_dhcp) x.(x_syncs) x.(x_tpool) x.(x_tasks) x.(x_port) x.(x_running) x.(x_looping).

Definition set_x_syncs (v : list ip_pool_sync_t) (x : process) : process :=
  mk_process x.(x_context) x.(x_dhcp) v x.(x_tpool) x.(x_tasks) x.(x_port) x.(x_running) x.(x_looping).

Definition set_x_tpool (v : thread_pool_t) (x : process) : process :=
  mk_process x.(x_context) x.(x_dhcp) x.(x_syncs) v x.(x_tasks) x.(x_port) x.(x_running) x.(x_looping).

Definition set_x_tasks (v : gmap Z packet_task_t) (x : process) : process :=
  mk_process x.(x_context) x.(x_dhcp) x.(x_syncs) x.(x_tpool) v x.(x_port) x.(x_running) x.(x_looping).

Definition set_x_running (v : bool) (x : process) : process :=
  mk_process x.(x_context) x.(x_dhcp) x.(x_syncs) x.(x_tpool) x.(x_tasks) x.(x_port) v x.(x_looping).

Definition set_x_looping (v : bool) (x : process) : process :=
  mk_process x.(x_context) x.(x_dhcp) x.(x_syncs) x.(x_tpool) x.(x_tasks) x.(x_port) x.(x_running) v.

(** ** The start *)

(** [ip_pool_init] for each subnet, on the same database; [nows i] is the time the call
    for subnet [i] reads. *)
Fixpoint init_pools (nows : nat -> Z) (subnets : list dhcp_subnet_t) (db : lease_database_t)
    : list ip_pool_t * lease_database_t :=
  match subnets with
  | [] => ([], db)
  | subnet :: rest =>
      let '(pool, db') := ip_pool_init (nows 0%nat) subnet (Some db) in
      let '(pools, db) := init_pools (fun i => nows (S i)) rest (default db db') in
      (pool :: pools, db)
  end.

(** [ip_pool_sync_init] and [ip_pool_sync_start] for each pool: a thread that cannot be
    created is left out, without an error. *)
Definition start_sync (created : bool) : ip_pool_sync_t :=
  match ip_pool_sync_init 30 with
  | Some sync => (ip_pool_sync_start created sync).2
  | None => mk_ip_pool_sync 0 false false 0 0
  end.

(** The port the socket is bound to: 67, or 6767 without the privilege. *)
Definition server_port (bind : Z -> bool) : option Z :=
  if bind 67 then Some 67 else if bind 6767 then Some 6767 else None.

Section Main.
Context (inet_pton4 : cstr -> option Z) (inet_ntop4 : Z -> cstr).
Context (localtime : Z -> option tm) (mktime : tm -> Z) (ctime : Z -> cstr).
Context (malloc : gmap Z packet_task_t -> Z).

(** The socket of the server; the interface is the second argument of the program. *)
Definition open_socket (r : main_results) (argv : list cstr) : option Z :=
  if negb r.(r_socket) then None
  else
    match argv !! 2%nat with
    | Some interface => if r.(r_device) interface then server_port r.(r_bind) else None
    | None => server_port r.(r_bind)
    end.

Definition main_text : cstr := lit "Starting DHCPv4 Server...".

(** [main] up to its loop.  [init_logger] and the first message come first; the logger is
    then initialised until the end, so that the later messages return ([Logger.msg_keeps])
    and are left out.  [files] gives the contents of a file, [None] when it cannot be
    opened, and [None] as the result is the return of 1. *)
Definition main_start (r : main_results) (files : cstr -> option cstr) (nows : nat -> Z) (argv : list cstr)
    : outcome (option process) :=
  '(_, _, log) ← init_logger r.(r_log) (lit "[DHCPv4-Server]") LOG_DEBUG true (Some (lit "logs/dhcpv4_server.log")) logger_static;
  '(_, _) ← log_msg localtime r.(r_log_time) LOG_INFO main_text log;
  let config_file := default (lit SERVER_CONFIG_FILE) (argv !! 1%nat) in
  '(rc, config) ← parse_config_file inet_pton4 (files config_file) (mk_dhcp_config zero_global []);
  if negb (rc =? 0) then Ret None
  else
    dhcp ← dhcp_server_init inet_pton4 mktime r.(r_init) LEASE_DB_FILE (files (lit LEASE_DB_FILE)) 60 true;
    match dhcp with
    | None => Ret None
    | Some dhcp =>
        lease_db ← in_bounds dhcp.(v_lease_db);
        let '(pools, lease_db) := init_pools nows config.(c_subnets) lease_db in
        let syncs := imap (fun i _ => start_sync (r.(r_sync_thread) i)) pools in
        let '(rc, dhcp) := dhcp_server_start r.(r_timer_thread) r.(r_io_thread) dhcp in
        if negb (rc =? 0) then Ret None
        else
          match (if r.(r_tpool) then thread_pool_create r.(r_garbage) 4 1024 else None), open_socket r argv with
          | Some tpool, Some port =>
              Ret (Some (mk_process (mk_server_context lease_db config pools) dhcp syncs tpool ∅ port true true))
          | _, _ => Ret None
          end
    end.

(** ** The threads *)

(** What [recvfrom] returns. *)
Inductive reception :=
  | Datagram (task : packet_task_t)
  | Interrupted
  | Failed.

(** The address of [packet_processor]. *)
Definition PACKET_PROCESSOR : Z := 1.

(** One round of the loop of [main]; [None] when [malloc] fails. *)
Definition main_round (rx : option reception) (x : process) : outcome process :=
  if negb x.(x_running) then Ret (set_x_looping false x)
  else
    match rx with
    | None => Ret x
    | Some Interrupted => Ret x
    | Some Failed => Ret (set_x_looping false x)
    | Some (Datagram task) =>
        let p := malloc x.(x_tasks) in
        '(r, tpool) ← thread_pool_add x.(x_tpool) PACKET_PROCESSOR p;
        Ret (set_x_tpool tpool (if r =? 0 then set_x_tasks (<[p := task]> x.(x_tasks)) x else x))
    end.

(** What the echo check and [time(NULL)] return while a packet is processed. *)
Record work_env := mk_work_env {
  w_ping : Z -> Z -> bool;
  w_now : Z;
  w_now' : Z
}.

(** A worker at the top of its loop: the task it takes is processed and freed. *)
Definition worker_round (env : work_env) (x : process) : outcome (list (sockaddr_in * dhcp_packet) * process) :=
  action ← thread_pool_worker x.(x_tpool);
  match action with
  | WorkerWait => Ret ([], x)
  | WorkerExit tpool => Ret ([], set_x_tpool tpool x)
  | WorkerRun task tpool =>
      packet ← in_bounds (x.(x_tasks) !! task.(task_argument));
      '(sent, g) ← packet_processor env.(w_ping) env.(w_now) env.(w_now') x.(x_context) packet;
      Ret (sent, set_x_context g (set_x_tpool tpool (set_x_tasks (delete task.(task_argument) x.(x_tasks)) x)))
  end.

Definition timer_round (now : Z) (x : process) : outcome process :=
  match x.(x_dhcp).(v_timer) with
  | None => Ret x
  | Some timer =>
      r ← lease_timer_round now timer x.(x_context).(sc_lease_db);
      match r with
      | None => Ret x
      | Some (_, db) => Ret (set_x_context (set_sc_lease_db db x.(x_context)) x)
      end
  end.

(** A round of the synchronisation thread of pool [i]. *)
Definition sync_round (i : nat) (now : Z) (x : process) : outcome process :=
  match x.(x_syncs) !! i, x.(x_context).(sc_pools) !! i with
  | Some sync, Some pool =>
      r ← ip_pool_sync_round now sync pool x.(x_context).(sc_lease_db);
      match r with
      | None => Ret x
      | Some (sync, pool, db) =>
          Ret (set_x_syncs (<[i := sync]> x.(x_syncs))
            (set_x_context (set_sc_lease_db db (set_sc_pools (<[i := pool]> x.(x_context).(sc_pools)) x.(x_context))) x))
      end
  | _, _ => Ret x
  end.

Definition handle_signal (x : process) : process := set_x_running false x.

Inductive event :=
  | EvReceive (rx : option reception)
  | EvWork (env : work_env)
  | EvTimer (now : Z)
  | EvSync (i : nat) (now : Z)
  | EvSignal.

Definition process_event (e : event) (x : process) : outcome (list (sockaddr_in * dhcp_packet) * process) :=
  match e with
  | EvReceive rx => if x.(x_looping) then x ← main_round rx x; Ret ([], x) else Ret ([], x)
  | EvWork env => worker_round env x
  | EvTimer now => x ← timer_round now x; Ret ([], x)
  | EvSync i now => x ← sync_round i now x; Ret ([], x)
  | EvSignal => Ret ([], handle_signal x)
  end.

(** The datagrams sent during a sequence of events, and the state after it. *)
Fixpoint run_events (es : list event) (x : process) : outcome (list (sockaddr_in * dhcp_packet) * process) :=
  match es with
  | [] => Ret ([], x)
  | e :: es =>
      '(sent, x) ← process_event e x;
      '(sent', x) ← run_events es x;
      Ret (sent ++ sent', x)
  end.

(** ** The stop *)

(** The workers after [thread_pool_destroy], until the queue is empty; [envs i] is what task
    [i] sees. *)
Fixpoint drain (n : nat) (envs : nat -> work_env) (x : process) : outcome (list (sockaddr_in * dhcp_packet) * process) :=
  match n with
  | O => Ret ([], x)
  | S n =>
      '(sent, x) ← worker_round (envs 0%nat) x;
      '(sent', x) ← drain n (fun i => envs (S i)) x;
      Ret (sent ++ sent', x)
  end.

(** [dhcp_server_t] with the database it points to. *)
Definition with_lease_db (db : lease_database_t) (s : dhcp_server_t) : dhcp_server_t :=
  mk_dhcp_server (Some db) s.(v_timer) s.(v_io_queue) s.(v_shutdown_requested) s.(v_reload_requested)
    s.(v_server_mutex_locked) s.(v_mutex_initialized).

(** The end of [main], from the exit of its loop: the datagrams the workers still send, the
    state when they have finished, the server stopped and the lease file.  [ip_pool_free]
    zeroes the pools, whose [subnet] is null again. *)
Definition main_stop (envs : nat -> work_env) (opened_io opened : bool) (now : Z) (x : process) (file : option cstr)
    : outcome (list (sockaddr_in * dhcp_packet) * process * dhcp_server_t * option cstr) :=
  '(_, tpool) ← thread_pool_destroy x.(x_tpool) 0;
  '(sent, x) ← drain (ring_count tpool.(tp_queue)) envs (set_x_tpool tpool x);
  let x := set_x_syncs (ip_pool_sync_stop <$> x.(x_syncs)) x in
  let x := set_x_context (set_sc_pools [] x.(x_context)) x in
  '(dhcp, file) ← dhcp_server_stop inet_ntop4 localtime ctime opened_io opened now IoLoop
     (with_lease_db x.(x_context).(sc_lease_db) x.(x_dhcp)) file;
  Ret (sent, x, dhcp, file).
End Main.

(** ** The invariant of the server *)

Record db_ok (db : lease_database_t) : Prop := {
  do_bound : (length db.(leases) <= MAX_LEASES)%nat;
  do_addresses : NoDup (l_ip_address <$> db.(leases));
  do_known : Forall (fun l => l.(l_state) <> LEASE_STATE_UNKNOWN) db.(leases);
  do_unlocked : db.(db_mutex_locked) = false
}.

Record context_ok (g : server_context_t) : Prop := {
  cx_subnets : Forall (fun s => (length s.(s_dns_servers) <= 4)%nat) g.(sc_config).(c_subnets);
  cx_some : g.(sc_pools) <> [];
  cx_pools : Forall pool_inv g.(sc_pools);
  cx_db : db_ok g.(sc_lease_db)
}.

(** A change of the fields of leases that keeps their addresses and a known state. *)
Definition lease_change (f : dhcp_lease_t -> dhcp_lease_t) : Prop :=
  forall l, l_ip_address (f l) = l_ip_address l
  /\ (l.(l_state) <> LEASE_STATE_UNKNOWN -> (f l).(l_state) <> LEASE_STATE_UNKNOWN).

Lemma db_ok_changed db ls :
  db_ok db -> length ls = length db.(leases) -> (l_ip_address <$> ls) = (l_ip_address <$> db.(leases)) ->
  Forall (fun l => l.(l_state) <> LEASE_STATE_UNKNOWN) ls -> db_ok (set_leases ls db).
Proof. intros [Hb Hn Hk Hu] Hl Hi Hs. constructor; cbn [leases set_leases db_mutex_locked]; [lia|by rewrite Hi|done|done]. Qed.

Lemma db_ok_alter db f i : db_ok db -> lease_change f -> db_ok (set_leases (alter f i db.(leases)) db).
Proof.
  intros Hok Hf. apply db_ok_changed; [done|apply length_alter| |].
  - apply fmap_alter_same. intros l. apply Hf.
  - apply Forall_alter; [apply (do_known _ Hok)|]. intros l _. apply Hf.
Qed.

Lemma db_ok_fmap db f : db_ok db -> lease_change f -> db_ok (set_leases (f <$> db.(leases)) db).
Proof.
  intros Hok Hf. apply db_ok_changed; [done|apply length_fmap| |].
  - rewrite <- list_fmap_compose. apply list_fmap_ext. intros i l _. apply Hf.
  - apply Forall_fmap. eapply Forall_impl; [apply (do_known _ Hok)|]. intros l. apply Hf.
Qed.

Lemma renew_change now t : lease_change (renew_fields now t).
Proof. done. Qed.

Lemma release_change now : lease_change (release_fields now).
Proof. done. Qed.

Lemma db_ok_renew db now ip t : db_ok db -> db_ok (lease_db_renew_lease now db ip t).2.
Proof. intros H. unfold lease_db_renew_lease. destruct (lease_db_find_by_ip db ip); [|done]. by apply db_ok_alter. Qed.

Lemma db_ok_release db now ip : db_ok db -> db_ok (lease_db_release_lease now db ip).2.
Proof. intros H. unfold lease_db_release_lease. destruct (lease_db_find_by_ip db ip); [|done]. by apply db_ok_alter. Qed.

Lemma db_ok_add db now ip mac t :
  db_ok db -> lease_db_find_by_ip db ip = None -> db_ok (lease_db_add_lease now db ip mac t).2.
Proof.
  intros [Hb Hn Hk Hu] Hf. unfold lease_db_add_lease. case_bool_decide as Hc; [done|].
  constructor; cbn; [rewrite length_app; cbn; lia| | |done].
  - rewrite fmap_app. apply NoDup_app. split; [done|]. split; [|apply NoDup_singleton].
    intros a (l & -> & Hl)%list_elem_of_fmap Ha. apply list_elem_of_singleton in Ha.
    rewrite find_by_ip_None in Hf. by apply (Hf l Hl).
  - apply Forall_app. split; [done|]. by repeat constructor.
Qed.

Lemma pool_inv_link pool ip id : pool_inv pool -> pool_inv (link_entry ip id pool).
Proof.
  intros [Hw Hl Hk]. unfold link_entry. destruct (ip_pool_find_entry pool ip) as [i|] eqn:Ei; [|done].
  destruct (find_entry_lookup _ _ _ Ei) as (e & He & _).
  constructor; [|done|by apply (known_alter pool)].
  destruct (pool_wf_counters pool Hw) as [Hav Hal].
  pose proof (pool_wf_alter pool i e (set_e_lease_id id) (p_allocated_count pool) (p_available_count pool)
    (p_mutex_locked pool) Hw He) as H. rewrite Hav, Hal in H. unfold alter_entry.
  unfold state_delta, in_state in H. cbn [set_e_lease_id e_state] in H. destruct pool. apply H; [done|by rewrite Z.sub_diag, Z.add_0_r..].
Qed.

(** An echo check that finds no address in use. *)
Definition silent (config : dhcp_config_t) (ping : Z -> Z -> bool) : Prop :=
  forall ip, ping_conflict ping config ip = false.

Lemma allocate_returns ping now pool mac ip config :
  pool_inv pool -> silent config ping ->
  exists r pool', ip_pool_allocate ping now pool mac ip config = Ret (r, pool') /\ pool_inv pool'.
Proof.
  intros Hp Hs. pose proof (allocate_cases ping now mac config pool ip (inv_unlocked _ Hp)) as Hc.
  destruct (ip_pool_allocate ping now pool mac ip config) as [[r pool']|f] eqn:E.
  - exists r, pool'. split; [done|]. by eapply allocate_inv.
  - inversion Hc as [| | | |i e He Hst Hconf]. by rewrite Hs in Hconf.
Qed.

Lemma release_returns pool ip : pool_inv pool ->
  exists r pool', ip_pool_release_ip pool ip = Ret (r, pool') /\ pool_inv pool'.
Proof.
  intros Hp. assert (exists r pool', ip_pool_release_ip pool ip = Ret (r, pool')) as (r & pool' & E).
  - unfold ip_pool_release_ip, pool_lock. rewrite (inv_unlocked _ Hp). rewrite bind_Ret.
    change (ip_pool_find_entry (set_p_mutex_locked true pool) ip) with (ip_pool_find_entry pool ip).
    destruct (ip_pool_find_entry pool ip) as [i|] eqn:Ei; [|by eexists _, _].
    destruct (find_entry_lookup _ _ _ Ei) as (e & He & _). unfold deref.
    change (p_entries (set_p_mutex_locked true pool)) with (p_entries pool). rewrite He. cbn [in_bounds]. rewrite bind_Ret.
    destruct (in_state IP_STATE_ALLOCATED e); by eexists _, _.
  - exists r, pool'. split; [done|]. by eapply release_inv.
Qed.

Lemma create_returns ping now now' pool db mac ip config t :
  pool_inv pool -> db_ok db -> silent config ping ->
  exists slot pool' db', ip_pool_allocate_and_create_lease ping now now' pool db mac ip config t = Ret (slot, pool', db')
  /\ pool_inv pool' /\ db_ok db' /\ forall i, slot = Some i -> is_Some (db'.(leases) !! i).
Proof.
  intros Hp Hdb Hs. unfold ip_pool_allocate_and_create_lease.
  destruct (allocate_returns ping now pool mac ip config Hp Hs) as (r & pool1 & -> & Hp1). rewrite bind_Ret.
  destruct (r_success r); [|by eexists _, _, _]. cbn [negb]. set (a := r_ip_address r).
  destruct (lease_db_find_by_ip db a) as [i|] eqn:Ef.
  - pose proof (db_ok_renew db now' a t Hdb) as Hd. revert Hd. unfold lease_db_renew_lease. rewrite Ef. cbn [snd Z.eqb].
    destruct (find_by_ip_lookup _ _ _ Ef) as (l & Hl & _). cbn [set_leases leases]. rewrite list_lookup_alter_eq, Hl.
    cbn [fmap option_fmap option_map in_bounds]. rewrite bind_Ret. intros Hd. eexists _, _, _. split; [done|].
    split; [by apply (pool_inv_link pool1 a)|]. split; [done|]. intros j [= <-]. cbn. rewrite list_lookup_alter_eq, Hl. by eexists.
  - pose proof (db_ok_add db now' a mac t Hdb Ef) as Hd. revert Hd. unfold lease_db_add_lease. case_bool_decide as Hc.
    + destruct (release_returns pool1 a Hp1) as (r2 & pool2 & -> & Hp2). rewrite bind_Ret. intros Hd. by eexists _, _, _.
    + simpl. rewrite list_lookup_middle by done. cbn [in_bounds]. rewrite bind_Ret. intros Hd. eexists _, _, _.
      split; [done|]. split; [by apply (pool_inv_link pool1 a)|]. split; [done|]. intros j [= <-]. cbn.
      rewrite list_lookup_middle by done. by eexists.
Qed.

(** A packet the handler can read: when it is long enough and has the cookie, its options
    are well formed, the message type is not empty and the two addresses it looks for have
    four bytes. *)
Definition task_ok (task : packet_task_t) : Prop :=
  dhcp_message_validate task.(pt_packet) task.(pt_len) = 0 ->
  exists l, options_repr l task.(pt_packet).(dp_options)
  /\ (forall c o, c ∈ [DHCP_OPT_REQUESTED_IP; DHCP_OPT_SERVER_ID] -> find (fun o => o.1 =? c) l = Some o -> length o.2 = 4%nat)
  /\ (forall o, find (fun o => o.1 =? DHCP_OPT_MESSAGE_TYPE) l = Some o -> o.2 <> []).

(** What the server sends: an offer or acknowledgement of an address it has a lease for, or
    a refusal. *)
Definition sent_ok (g : server_context_t) (sent : sockaddr_in * dhcp_packet) : Prop :=
  (dhcp_message_get_type sent.2 ∈ [Ret DHCP_OFFER; Ret DHCP_ACK]
   /\ exists l, l ∈ g.(sc_lease_db).(leases) /\ l.(l_ip_address) = sent.2.(dp_yiaddr))
  \/ dhcp_message_get_type sent.2 = Ret DHCP_NAK.

Definition processes (g : server_context_t) (out : outcome processed) : Prop :=
  exists sent g', out = Ret (sent, g') /\ context_ok g' /\ g'.(sc_config) = g.(sc_config)
  /\ Forall (sent_ok g') sent.

Lemma context_pool0 g : context_ok g -> pool_inv (pool0 g).
Proof.
  intros [_ _ Hp _]. unfold pool0. destruct (sc_pools g !! 0%nat) as [p|] eqn:E; cbn [default].
  - by eapply Forall_lookup_1.
  - constructor; [|done|constructor]. constructor; cbn; [unfold MAX_POOL_SIZE; lia|constructor|done|done].
Qed.

Lemma context_configured g : context_ok g -> pool0_subnet g = Ret (pool0 g).
Proof. intros [_ Hn _ _]. unfold pool0_subnet, pool0. by destruct (sc_pools g). Qed.

Lemma context_subnet0 g : context_ok g -> (length (subnet0 g).(s_dns_servers) <= 4)%nat.
Proof.
  intros [Hs _ _ _]. unfold subnet0. destruct (c_subnets (sc_config g) !! 0%nat) as [p|] eqn:E; cbn [default]; [|cbn; lia].
  by apply (Forall_lookup_1 _ _ _ _ Hs E).
Qed.

Lemma context_set g db pool : context_ok g -> db_ok db -> pool_inv pool ->
  context_ok (set_sc_lease_db db (set_pool0 pool g)).
Proof.
  intros [Hs Hn Hp _] Hd Hpl. constructor; [done| | |done]; cbn; destruct (sc_pools g) as [|p pools]; try done.
  apply Forall_cons in Hp as [_ Hp]. by constructor.
Qed.

Lemma context_set_db g db : context_ok g -> db_ok db -> context_ok (set_sc_lease_db db g).
Proof. by intros [Hs Hn Hp _] Hd. Qed.

Lemma context_db g : context_ok g -> db_ok g.(sc_lease_db).
Proof. by intros []. Qed.

Lemma get_type_total p l : options_repr l p.(dp_options) ->
  (forall o, find (fun o => o.1 =? DHCP_OPT_MESSAGE_TYPE) l = Some o -> o.2 <> []) ->
  exists ty, dhcp_message_get_type p = Ret ty.
Proof.
  intros Hr Hn. pose proof (get_option_repr p l DHCP_OPT_MESSAGE_TYPE Hr) as H. unfold dhcp_message_get_type.
  destruct (find (fun o => o.1 =? DHCP_OPT_MESSAGE_TYPE) l) as [[c d]|]; [|rewrite H, bind_Ret; by eexists].
  specialize (Hn _ eq_refl). cbn in Hn. destruct H as (off & -> & Hread). rewrite bind_Ret. revert Hread. unfold read_bytes.
  case_bool_decide as Hb; [|done]. intros _. destruct (lookup_lt_is_Some_2 (dp_options p) off) as [x ->]; [|by exists x].
  destruct d; [done|]. cbn [length] in Hb. lia.
Qed.

Lemma discover_processes ping now now' g req client l :
  context_ok g -> silent g.(sc_config) ping -> options_repr l req.(dp_options) ->
  (forall o, find (fun o => o.1 =? DHCP_OPT_REQUESTED_IP) l = Some o -> length o.2 = 4%nat) ->
  processes g (handle_discover ping now now' g req client).
Proof.
  intros Hg Hp Hr Ho. unfold handle_discover.
  assert (exists slot g1, match lease_db_find_by_mac (sc_lease_db g) (dp_chaddr req) with
    | Some i => Ret (Some i, g)
    | None =>
        req_ip_opt ← dhcp_message_get_option req DHCP_OPT_REQUESTED_IP;
        req_ip ← option_addr req req_ip_opt;
        pool ← pool0_subnet g;
        '(slot, pool, db) ← ip_pool_allocate_and_create_lease ping now now' pool (sc_lease_db g) (dp_chaddr req)
           req_ip (sc_config g) (s_default_lease_time (subnet0 g));
        Ret (slot, set_sc_lease_db db (set_pool0 pool g))
    end = Ret (slot, g1) /\ context_ok g1 /\ g1.(sc_config) = g.(sc_config)
    /\ forall i, slot = Some i -> is_Some (g1.(sc_lease_db).(leases) !! i)) as (slot & g1 & -> & Hg1 & Hc & Hl).
  { destruct (lease_db_find_by_mac (sc_lease_db g) (dp_chaddr req)) as [i|] eqn:Ef.
    - exists (Some i), g. split_and!; try done. intros j [= <-]. apply find_index_lookup in Ef as (x & Hx & _). by exists x.
    - destruct (option_addr_total req l DHCP_OPT_REQUESTED_IP Hr Ho) as (opt & ip & -> & E). rewrite bind_Ret, E, bind_Ret.
      rewrite (context_configured g Hg), bind_Ret.
      destruct (create_returns ping now now' (pool0 g) (sc_lease_db g) (dp_chaddr req) ip (sc_config g)
        (s_default_lease_time (subnet0 g)) (context_pool0 g Hg) (context_db g Hg) Hp) as (slot & pool & db & -> & H1 & H2 & H3).
      rewrite bind_Ret. exists slot. eexists. split; [done|]. split; [by apply context_set|]. by split. }
  rewrite bind_Ret. cbv beta iota. destruct slot as [i|]; [|exists [], g1; split_and!; [done|done|done|constructor]].
  destruct (Hl i eq_refl) as [lease Hlease]. rewrite Hlease. cbn [in_bounds]. rewrite bind_Ret.
  destruct (make_offer_spec req lease (subnet0 g) (context_subnet0 g Hg)) as (offer & -> & _ & Hh & Ht). rewrite bind_Ret.
  eexists _, g1. split; [done|]. split; [done|]. split; [done|]. constructor; [|constructor]. left. cbn [snd]. split.
  - rewrite Ht. set_solver.
  - exists lease. split; [by eapply list_elem_of_lookup_2|]. by destruct (same_header_fields _ _ Hh) as [-> _].
Qed.

Lemma renew_processes now' g req i dest ip : context_ok g -> lease_db_find_by_ip g.(sc_lease_db) ip = Some i ->
  processes g (renew_and_ack now' g req i dest).
Proof.
  intros Hg Hf. destruct (find_by_ip_lookup _ _ _ Hf) as (l & Hl & Hip).
  destruct (renew_and_ack_spec now' g req i dest ip l (context_subnet0 g Hg) Hf Hl) as (ack & -> & Ht & Hy & _).
  eexists _, _. split; [done|]. split; [|split; [done|]].
  - apply context_set_db; [done|]. rewrite <- (alter_insert (renew_fields now' (s_default_lease_time (subnet0 g))) _ i l Hl).
    by apply db_ok_alter; [apply context_db|].
  - constructor; [|constructor]. left. cbn [snd]. split; [rewrite Ht; set_solver|].
    eexists. split; [eapply (list_elem_of_lookup_2 _ i); cbn; apply list_lookup_insert_eq; by eapply lookup_lt_Some|].
    rewrite Hy. exact Hip.
Qed.

Lemma request_processes now' g req client l :
  context_ok g -> options_repr l req.(dp_options) ->
  (forall c o, c ∈ [DHCP_OPT_REQUESTED_IP; DHCP_OPT_SERVER_ID] -> find (fun o => o.1 =? c) l = Some o -> length o.2 = 4%nat) ->
  processes g (handle_request now' g req client).
Proof.
  intros Hg Hr Ho. unfold handle_request.
  destruct (option_addr_total req l DHCP_OPT_REQUESTED_IP Hr ltac:(intros; eapply Ho; [|done]; set_solver)) as (o1 & ip1 & -> & E1).
  destruct (option_addr_total req l DHCP_OPT_SERVER_ID Hr ltac:(intros; eapply Ho; [|done]; set_solver)) as (o2 & ip2 & -> & E2).
  rewrite !bind_Ret, E1, bind_Ret, E2, bind_Ret.
  assert (processes g (res ← dhcp_message_make_nak req (s_router (subnet0 g)); Ret ([(nak_dest client, res)], g))) as Hnak.
  { destruct (make_nak_spec req (s_router (subnet0 g))) as (nak & -> & _ & _ & Ht). rewrite bind_Ret.
    eexists _, _. split; [done|]. split; [done|]. split; [done|]. constructor; [|constructor]. by right. }
  assert (processes g (Ret ([], g))) as Hnone by (exists [], g; split_and!; [done|done|done|constructor]).
  destruct o2 as [o2|].
  - destruct (lease_db_find_by_ip (sc_lease_db g) ip1) as [i|] eqn:Ef; [|done].
    destruct (find_by_ip_lookup _ _ _ Ef) as (lease & Hl & _). rewrite Hl. cbn [in_bounds]. rewrite bind_Ret.
    destruct (memeq 6 _ _); [by eapply renew_processes|done].
  - destruct (negb _); [|done]. destruct (lease_db_find_by_ip (sc_lease_db g) (dp_ciaddr req)) as [i|] eqn:Ef; [|done].
    by eapply renew_processes.
Qed.

Lemma release_processes now' g req : context_ok g -> processes g (handle_release now' g req).
Proof.
  intros Hg. unfold handle_release. destruct (negb _); [|exists [], g; split_and!; [done|done|done|constructor]].
  pose proof (db_ok_release (sc_lease_db g) now' (dp_ciaddr req) (context_db g Hg)) as Hd.
  destruct (lease_db_release_lease now' (sc_lease_db g) (dp_ciaddr req)) as [r db]. cbn [snd] in Hd.
  destruct (release_returns (pool0 g) (dp_ciaddr req) (context_pool0 g Hg)) as (r2 & pool & -> & Hp). rewrite bind_Ret.
  eexists [], _. split; [done|]. split; [by apply context_set|]. by split.
Qed.

(** A packet is processed to the end, with the invariant kept. *)
Lemma packet_processes ping now now' g task :
  context_ok g -> silent g.(sc_config) ping -> task_ok task -> processes g (packet_processor ping now now' g task).
Proof.
  intros Hg Hp Ht. assert (processes g (Ret ([], g))) as Hnone by (exists [], g; split_and!; [done|done|done|constructor]).
  unfold packet_processor. destruct (Z.eqb_spec (dhcp_message_validate (pt_packet task) (pt_len task)) 0) as [E|]; [|done].
  destruct (Ht E) as (l & Hr & Ho & Hty). cbn [negb]. destruct (get_type_total _ l Hr Hty) as (ty & ->). rewrite bind_Ret.
  destruct (ty =? DHCP_DISCOVER); [eapply discover_processes; try done; intros; eapply Ho; [|done]; set_solver|].
  destruct (ty =? DHCP_REQUEST); [by eapply request_processes|].
  destruct (ty =? DHCP_RELEASE); [by apply release_processes|done].
Qed.

(** ** The other threads *)

Lemma expire_change now : lease_change (fun l => if lease_is_expired now l then expire_fields now l else l).
Proof. intros l. by destruct (lease_is_expired now l). Qed.

Lemma overdue_change now : lease_change (expire_if_overdue now).
Proof. intros l. unfold expire_if_overdue. by destruct (lease_is_expired now l). Qed.

Lemma timer_returns now timer db : db_ok db ->
  exists r, lease_timer_round now timer db = Ret r /\ forall n db', r = Some (n, db') -> db_ok db'.
Proof.
  intros Hdb. unfold lease_timer_round. destruct (negb _); [by exists None|].
  pose proof (db_ok_fmap db _ Hdb (expire_change now)) as Hf. destruct Hdb as [_ _ _ Hu].
  unfold lease_db_expire_old_leases_safe, lease_db_lock, lease_db_unlock, lease_db_expire_old_leases, db_mutex_lock.
  destruct db as [ls fn nx lk ini]. cbn [db_mutex_locked] in Hu. subst lk.
  destruct ini; cbn [db_mutex_initialized negb db_mutex_locked]; rewrite !bind_Ret; cbn [set_db_mutex_locked leases];
    rewrite expire_loop_spec; rewrite bind_Ret; eexists; (split; [done|]); intros n db' [= _ <-]; exact Hf.
Qed.

(** The pass over the leases changes the pool and marks leases expired. *)
Lemma sync_pass_returns now ls : forall pool,
  pool_wf pool -> Forall (fun l => l.(l_state) <> LEASE_STATE_UNKNOWN) ls ->
  Forall (fun e => e.(e_state) <> IP_STATE_UNKNOWN) pool.(p_entries) ->
  exists pool' ls' n, sync_pass_loop now pool ls = Ret (pool', ls', n)
  /\ length ls' = length ls /\ (l_ip_address <$> ls') = (l_ip_address <$> ls)
  /\ Forall (fun l => l.(l_state) <> LEASE_STATE_UNKNOWN) ls'.
Proof.
  induction ls as [|l ls IH]; intros pool Hw Hls Hk; cbn [sync_pass_loop]; [by eexists _, _, _|].
  apply Forall_cons in Hls as [Hl Hls].
  assert (exists pool1 l1 b, sync_pass_lease now pool l = Ret (pool1, l1, b)
    /\ (l1 = l \/ l1 = expire_if_overdue now l)) as (pool1 & l1 & b & E & Hl1).
  { unfold sync_pass_lease. destruct (ip_pool_find_entry pool (l_ip_address l)) as [i|] eqn:Ei; [|eexists _, _, _; by split; [|left]].
    destruct (find_entry_lookup _ _ _ Ei) as (e & He & _). unfold deref. rewrite He. cbn [in_bounds]. rewrite bind_Ret.
    destruct (_ || _); [eexists _, _, _; by split; [|left]|].
    destruct (in_state _ e); eexists _, _, _; (split; [done|by right]). }
  destruct (sync_pass_lease_inv _ _ _ _ _ _ Hw Hl Hk E) as [Hw1 Hk1].
  destruct (IH pool1 Hw1 Hls Hk1) as (pool2 & ls2 & n & E2 & Hlen & Hip & Hs). rewrite E, bind_Ret, E2, bind_Ret.
  assert (l_ip_address l1 = l_ip_address l /\ l_state l1 <> LEASE_STATE_UNKNOWN) as [Hip1 Hs1].
  { destruct Hl1 as [->| ->]; [done|]. destruct (overdue_change now l). auto. }
  eexists _, _, _. split; [done|]. split_and!; [cbn; lia|cbn; by rewrite Hip1, Hip|by constructor].
Qed.

Lemma sync_returns now sync pool db : pool_inv pool -> db_ok db ->
  exists r, ip_pool_sync_round now sync pool db = Ret r
  /\ forall sync' pool' db', r = Some (sync', pool', db') -> pool_inv pool' /\ db_ok db'.
Proof.
  intros Hp Hdb. destruct (y_running sync) eqn:Er; [|exists None; split; [unfold ip_pool_sync_round; by rewrite Er|done]].
  pose proof Hp as [Hw Hl Hk]. pose proof Hdb as [Hb Hn Hkn Hu].
  destruct (sync_pass_returns now (leases db) (set_p_mutex_locked true pool) (pool_wf_lock _ _ Hw) Hkn Hk)
    as (pool2 & ls2 & n & Es & Hlen & Hip & Hs).
  assert (exists r, ip_pool_sync_round now sync pool db = Ret r
    /\ forall s p d, r = Some (s, p, d) -> d = set_db_mutex_locked false (set_leases ls2 (set_db_mutex_locked true db)))
    as (r & E & Hd).
  { unfold ip_pool_sync_round, pool_lock, db_mutex_lock. rewrite Er, Hl, Hu, !bind_Ret.
    change (leases (set_db_mutex_locked true db)) with (leases db). rewrite Es, bind_Ret. eexists. split; [done|].
    by intros s p d [= _ _ <-]. }
  exists r. split; [done|]. intros s p d ->. split.
  - eapply pool_step_inv; [exact Hp|]. eapply StepRound; [|exact E]. intros l Hl'. by eapply (proj1 (Forall_forall _ _) Hkn).
  - rewrite (Hd s p d eq_refl). destruct (db_ok_changed db ls2 Hdb Hlen Hip Hs) as [B N K U]. by constructor.
Qed.

(** ** The invariant of the program *)

(** The queued tasks are in memory, each once, and readable. *)
Record queue_ok (tpool : thread_pool_t) (tasks : gmap Z packet_task_t) : Prop := {
  qo_pool : pool_ok tpool;
  qo_distinct : NoDup (task_argument <$> ring_items tpool.(tp_queue));
  qo_tasks : Forall (fun t => exists task, tasks !! t.(task_argument) = Some task /\ task_ok task) (ring_items tpool.(tp_queue))
}.

Record process_ok (config : dhcp_config_t) (dhcp : dhcp_server_t) (x : process) : Prop := {
  po_context : context_ok x.(x_context);
  po_config : x.(x_context).(sc_config) = config;
  po_dhcp : x.(x_dhcp) = dhcp;
  po_queue : queue_ok x.(x_tpool) x.(x_tasks)
}.

Lemma worker_cases tpool : pool_ok tpool ->
  thread_pool_worker tpool = Ret WorkerWait
  \/ (exists tpool', thread_pool_worker tpool = Ret (WorkerExit tpool'))
  \/ exists t tpool', thread_pool_worker tpool = Ret (WorkerRun t tpool').
Proof.
  intros (Hw & Hl & Hs). unfold thread_pool_worker. rewrite Hl. destruct (bool_decide _ && _) eqn:E1; [by left|].
  destruct (_ || _) eqn:E2; [right; left; by eexists|]. right. right.
  destruct (ring_pop_spec (tp_queue tpool) Hw) as (t & q & -> & _); [|cbn [in_bounds]; rewrite bind_Ret; by eexists _, _].
  destruct (ring_count (tp_queue tpool)); [|lia]. rewrite bool_decide_eq_true_2 in E1, E2 by done.
  by destruct Hs as [Hs|[Hs|Hs]]; rewrite Hs in E1, E2.
Qed.

Lemma queue_taken tpool tasks t tpool' : queue_ok tpool tasks -> thread_pool_worker tpool = Ret (WorkerRun t tpool') ->
  exists task, tasks !! t.(task_argument) = Some task /\ task_ok task
  /\ queue_ok tpool' (delete t.(task_argument) tasks) /\ tpool'.(tp_shutdown) = tpool.(tp_shutdown)
  /\ ring_items tpool.(tp_queue) = t :: ring_items tpool'.(tp_queue).
Proof.
  intros [Hok Hd Ht] E. destruct (worker_run_spec _ _ _ Hok E) as (Hok' & Hi & Hsh). rewrite Hi in Hd, Ht.
  apply NoDup_cons in Hd as [Hn Hd]. apply Forall_cons in Ht as [(task & Hl & Htk) Ht]. exists task. split_and!; try done.
  constructor; [done|done|]. apply Forall_forall. intros u Hu. destruct (proj1 (Forall_forall _ _) Ht u Hu) as (tk & Hlu & Htu).
  exists tk. split; [|done]. rewrite lookup_delete_ne; [done|]. intros Heq. apply Hn. rewrite Heq. apply list_elem_of_fmap. by exists u.
Qed.

Lemma queue_added tpool tasks task p :
  queue_ok tpool tasks -> tasks !! p = None -> task_ok task ->
  exists r tpool', thread_pool_add tpool PACKET_PROCESSOR p = Ret (r, tpool')
  /\ queue_ok tpool' (if r =? 0 then <[p := task]> tasks else tasks).
Proof.
  intros [Hok Hd Ht] Hp Htk. pose proof (fifo_push_ok (mk_thread_task PACKET_PROCESSOR p) tpool Hok) as H.
  cbn [fifo_push thread_pool_fifo] in H. unfold tp_push in H. cbn [task_function task_argument] in H.
  pose proof Hok as (_ & Hl & _).
  assert (exists r tpool', thread_pool_add tpool PACKET_PROCESSOR p = Ret (r, tpool')) as (r & tpool' & E).
  { unfold thread_pool_add. rewrite Hl. repeat case_match; by eexists _, _. }
  rewrite E in H |- *. eexists _, _. split; [done|]. cbn in H. destruct H as (Hok' & _ & _ & Hi).
  assert (forall t, t ∈ ring_items (tp_queue tpool) -> task_argument t <> p) as Hne.
  { intros t Hin <-. destruct (proj1 (Forall_forall _ _) Ht t Hin) as (tk & Hlk & _). congruence. }
  destruct (r =? 0); constructor; rewrite ?Hi; try done.
  - rewrite fmap_app. apply NoDup_app. split; [done|]. split; [|apply NoDup_singleton].
    intros a (t & -> & Hin)%list_elem_of_fmap Ha. apply list_elem_of_singleton in Ha. by apply (Hne t Hin).
  - apply Forall_app. split; [|constructor; [|constructor]; exists task; split; [apply lookup_insert_eq|done]].
    apply Forall_forall. intros t Hin. destruct (proj1 (Forall_forall _ _) Ht t Hin) as (tk & Hlk & Htk').
    exists tk. split; [|done]. rewrite lookup_insert_ne; [done|]. intros Heq. by apply (Hne t Hin).
Qed.

Lemma queue_same tpool tasks tpool' : queue_ok tpool tasks -> thread_pool_worker tpool = Ret (WorkerExit tpool') ->
  queue_ok tpool' tasks.
Proof.
  intros [Hok Hd Ht] E. destruct (worker_exit_spec _ _ Hok E) as (Hok' & Hq & _). constructor; [done|by rewrite Hq|by rewrite Hq].
Qed.

Section Invariant.
Context (malloc : gmap Z packet_task_t -> Z) (config : dhcp_config_t) (dhcp : dhcp_server_t).

(** [malloc] returns memory that is not in use. *)
Hypothesis malloc_fresh : forall tasks : gmap Z packet_task_t, tasks !! malloc tasks = None.

(** The packets that arrive are readable and the echo checks find nothing. *)
Definition event_ok (e : event) : Prop :=
  match e with
  | EvReceive (Some (Datagram task)) => task_ok task
  | EvWork env => silent config env.(w_ping)
  | _ => True
  end.

Lemma worker_keeps env x : process_ok config dhcp x -> silent config env.(w_ping) ->
  exists sent x', worker_round env x = Ret (sent, x') /\ process_ok config dhcp x' /\ Forall (sent_ok x'.(x_context)) sent.
Proof.
  intros [Hg Hc Hd Hq] He. unfold worker_round. destruct (worker_cases _ (qo_pool _ _ Hq)) as [E|[(tp & E)|(t & tp & E)]];
    rewrite E, bind_Ret.
  - by exists [], x.
  - eexists [], _. split; [done|]. split; [|constructor]. constructor; try done. by eapply queue_same.
  - destruct (queue_taken _ _ _ _ Hq E) as (task & Hl & Ht & Hq' & _ & _). rewrite Hl. cbn [in_bounds]. rewrite bind_Ret.
    rewrite <- Hc in He. destruct (packet_processes (w_ping env) (w_now env) (w_now' env) (x_context x) task Hg He Ht)
      as (sent & g' & -> & Hg' & Hcfg & Hsent). rewrite bind_Ret. eexists _, _. split; [done|]. split; [|done].
    constructor; [done|cbn; congruence|done|done].
Qed.

Lemma event_keeps e x : process_ok config dhcp x -> event_ok e ->
  exists sent x', process_event malloc e x = Ret (sent, x') /\ process_ok config dhcp x' /\ Forall (sent_ok x'.(x_context)) sent.
Proof.
  intros Hx He. pose proof Hx as [Hg Hc Hd Hq]. destruct e as [rx|env|now|i now|]; cbn [process_event].
  - destruct (x_looping x); [|by exists [], x]. unfold main_round.
    destruct (negb (x_running x)); [rewrite bind_Ret; eexists [], _; split; [done|]; split; [by constructor|constructor]|].
    destruct rx as [[task| |]|]; rewrite ?bind_Ret; try (eexists [], _; split; [done|]; split; [by constructor|constructor]).
    destruct (queue_added (x_tpool x) (x_tasks x) task (malloc (x_tasks x)) Hq (malloc_fresh _) He) as (r & tp & -> & Hq').
    rewrite !bind_Ret. eexists [], _. split; [done|]. split; [|constructor]. by destruct (r =? 0); constructor.
  - by apply worker_keeps.
  - unfold timer_round. destruct (v_timer (x_dhcp x)) as [timer|]; rewrite ?bind_Ret; [|by exists [], x].
    destruct (timer_returns now timer _ (context_db _ Hg)) as (r & -> & Hr). rewrite bind_Ret.
    destruct r as [[n db]|]; rewrite bind_Ret; [|by exists [], x]. eexists [], _. split; [done|]. split; [|constructor].
    constructor; try done. apply context_set_db; [done|]. by eapply Hr.
  - unfold sync_round. destruct (x_syncs x !! i) as [sync|]; [|rewrite bind_Ret; by exists [], x].
    destruct (sc_pools (x_context x) !! i) as [pool|] eqn:Ep; [|rewrite bind_Ret; by exists [], x].
    pose proof (Forall_lookup_1 _ _ _ _ (cx_pools _ Hg) Ep) as Hp.
    destruct (sync_returns now sync pool _ Hp (context_db _ Hg)) as (r & -> & Hr). rewrite bind_Ret.
    destruct r as [[[s p] db]|]; rewrite bind_Ret; [|by exists [], x]. destruct (Hr s p db eq_refl) as [Hp' Hdb'].
    eexists [], _. split; [done|]. split; [|constructor]. constructor; try done.
    destruct Hg as [G1 G2 G3 _]. constructor; [done| |by apply Forall_insert|done].
    cbn. by destruct (sc_pools (x_context x)), i.
  - eexists [], _. split; [done|]. split; [by constructor|constructor].
Qed.

Lemma run_keeps es : forall x, process_ok config dhcp x -> Forall event_ok es ->
  exists sent x', run_events malloc es x = Ret (sent, x') /\ process_ok config dhcp x'.
Proof.
  induction es as [|e es IH]; intros x Hx Hes; cbn [run_events]; [by exists [], x|]. apply Forall_cons in Hes as [He Hes].
  destruct (event_keeps e x Hx He) as (sent & x1 & -> & Hx1 & _). rewrite bind_Ret.
  destruct (IH x1 Hx1 Hes) as (sent' & x2 & -> & Hx2). rewrite bind_Ret. by eexists _, x2.
Qed.

(** After [thread_pool_destroy] the workers process what is queued, in order, and nothing is
    left. *)
Lemma drain_keeps n : forall envs x, process_ok config dhcp x -> tp_shutdown (x_tpool x) = 1 ->
  length (ring_items (tp_queue (x_tpool x))) = n -> (forall i, silent config (w_ping (envs i))) ->
  exists sent x', drain n envs x = Ret (sent, x') /\ process_ok config dhcp x' /\ ring_items (tp_queue (x_tpool x')) = [].
Proof.
  induction n as [|n IH]; intros envs x Hx Hs Hn He; cbn [drain]; [exists [], x; split_and!; [done|done|by apply nil_length_inv]|].
  destruct (worker_keeps (envs 0%nat) x Hx (He 0%nat)) as (sent & x1 & E & Hx1 & _). rewrite E, bind_Ret.
  assert (tp_shutdown (x_tpool x1) = 1 /\ length (ring_items (tp_queue (x_tpool x1))) = n) as [Hs1 Hn1].
  { pose proof (po_queue _ _ _ Hx) as Hq. revert E. unfold worker_round.
    destruct (worker_cases _ (qo_pool _ _ Hq)) as [E|[(tp & E)|(t & tp & E)]]; rewrite E, bind_Ret.
    - revert E. unfold thread_pool_worker. rewrite Hs. destruct (qo_pool _ _ Hq) as (_ & -> & _). rewrite andb_false_r.
      repeat case_match; try done. destruct (ring_pop _) as [[t q]|]; [cbn [in_bounds]; rewrite bind_Ret|]; done.
    - destruct (worker_exit_spec _ _ (qo_pool _ _ Hq) E) as (_ & _ & _ & _ & Hnil). rewrite (Hnil Hs) in Hn. done.
    - destruct (queue_taken _ _ _ _ Hq E) as (task & Hl & _ & _ & Hsh & Hi). rewrite Hl. cbn [in_bounds]. rewrite bind_Ret.
      destruct (packet_processor _ _ _ _ _) as [[sent1 g1]|]; [|done]. rewrite bind_Ret. intros [= _ <-]. cbn. split; [congruence|].
      rewrite Hi in Hn. by injection Hn. }
  destruct (IH (fun i => envs (S i)) x1 Hx1 Hs1 Hn1 ltac:(intros i; apply He)) as (sent' & x2 & -> & Hx2 & Hi).
  rewrite bind_Ret. by eexists _, x2.
Qed.
End Invariant.

(** Nothing but [thread_pool_destroy] closes the thread pool. *)
Lemma event_open malloc e x sent x' : process_ok x.(x_context).(sc_config) x.(x_dhcp) x -> tp_shutdown (x_tpool x) = 0 ->
  process_event malloc e x = Ret (sent, x') -> tp_shutdown (x_tpool x') = 0.
Proof.
  intros [_ _ _ Hq] Hs. destruct e as [rx|env|now|i now|]; cbn [process_event].
  - destruct (x_looping x); [|by intros [= _ <-]]. unfold main_round.
    destruct (negb (x_running x)); [rewrite bind_Ret; by intros [= _ <-]|].
    destruct rx as [[task| |]|]; rewrite ?bind_Ret; try by intros [= _ <-].
    unfold thread_pool_add. repeat case_match; rewrite ?bind_Ret; try done; by intros [= _ <-].
  - unfold worker_round. destruct (worker_cases _ (qo_pool _ _ Hq)) as [E|[(tp & E)|(t & tp & E)]]; rewrite E, bind_Ret.
    + by intros [= _ <-].
    + by destruct (worker_exit_spec _ _ (qo_pool _ _ Hq) E) as (_ & _ & _ & Hne & _).
    + destruct (queue_taken _ _ _ _ Hq E) as (task & Hl & _ & _ & Hsh & _). rewrite Hl. cbn [in_bounds]. rewrite bind_Ret.
      destruct (packet_processor _ _ _ _ _) as [[sent1 g1]|]; [|done]. rewrite bind_Ret. intros [= _ <-]. cbn. congruence.
  - unfold timer_round. destruct (v_timer _); [|rewrite bind_Ret; by intros [= _ <-]].
    destruct (lease_timer_round _ _ _) as [[[n db]|]|]; rewrite ?bind_Ret; try done; by intros [= _ <-].
  - unfold sync_round. destruct (x_syncs x !! i); [|rewrite bind_Ret; by intros [= _ <-]].
    destruct (sc_pools _ !! i); [|rewrite bind_Ret; by intros [= _ <-]].
    destruct (ip_pool_sync_round _ _ _ _) as [[[[s p] db]|]|]; rewrite ?bind_Ret; try done; by intros [= _ <-].
  - by intros [= _ <-].
Qed.

(** ** The start *)

Lemma init_sync_leases now ls : forall pool, (init_sync now pool ls).2 = expire_if_overdue now <$> ls.
Proof.
  induction ls as [|l ls IH]; intros pool; [done|]. cbn [init_sync].
  match goal with |- context [init_sync now ?p ls] => specialize (IH p); destruct (init_sync now p ls) as [p' rest] end.
  cbn in *. by rewrite IH.
Qed.

Lemma init_ok_addresses subnet ls ls' : (l_ip_address <$> ls') = (l_ip_address <$> ls) -> init_ok subnet ls -> init_ok subnet ls'.
Proof.
  intros E [H1 H2 H3 H4]. constructor; [done|done|by rewrite E|]. intros l Hl.
  assert (l_ip_address l ∈ (l_ip_address <$> ls)) as Hin by (rewrite <- E; apply list_elem_of_fmap; by exists l).
  apply list_elem_of_fmap in Hin as (l' & -> & Hl'). by apply H4.
Qed.

(** The pools of the subnets, from one database. *)
Lemma init_pools_ok subnets : forall nows db, db_ok db -> Forall (fun s => init_ok s db.(leases)) subnets ->
  let '(pools, db') := init_pools nows subnets db in
  Forall pool_inv pools /\ length pools = length subnets /\ db_ok db'
  /\ (l_ip_address <$> db'.(leases)) = (l_ip_address <$> db.(leases)).
Proof.
  induction subnets as [|s subnets IH]; intros nows db Hdb Hs; cbn [init_pools]; [done|]. apply Forall_cons in Hs as [Hs Hss].
  pose proof (ip_pool_init_inv (nows 0%nat) s (Some db) Hs) as Hp.
  assert ((ip_pool_init (nows 0%nat) s (Some db)).2 = Some (set_leases (expire_if_overdue (nows 0%nat) <$> db.(leases)) db)) as Hl.
  { unfold ip_pool_init. pose proof (init_sync_leases (nows 0%nat) (leases db) (foldl init_host (init_pool s) (s_hosts s))) as H.
    clear Hp IH. revert H. generalize (foldl init_host (init_pool s) (s_hosts s)). intros p0.
    destruct (init_sync (nows 0%nat) p0 (leases db)) as [p ls]. cbn [snd]. by intros ->. }
  destruct (ip_pool_init (nows 0%nat) s (Some db)) as [pool db1]. cbn [fst snd] in Hp, Hl. subst db1. cbn [default]. unfold id.
  set (db1 := set_leases _ db). assert ((l_ip_address <$> db1.(leases)) = (l_ip_address <$> db.(leases))) as Hip.
  { cbn. rewrite <- list_fmap_compose. apply list_fmap_ext. intros i l _. apply overdue_change. }
  assert (Forall (fun s => init_ok s (leases db1)) subnets) as Hss1.
  { eapply Forall_impl; [exact Hss|]. intros s' Hs'. by apply (init_ok_addresses s' db.(leases)). }
  specialize (IH (fun i => nows (S i)) db1 (db_ok_fmap _ _ Hdb (overdue_change _)) Hss1). clearbody db1.
  destruct (init_pools (fun i => nows (S i)) subnets db1) as [pools db2].
  destruct IH as (H1 & H2 & H3 & H4). cbv beta iota zeta. split; [by constructor|]. split; [cbn; lia|]. split; [done|congruence].
Qed.

(** The threads of the server once they run. *)
Definition running_dhcp (db : lease_database_t) : dhcp_server_t :=
  mk_dhcp_server (Some db) (Some (mk_lease_timer true 60 true))
    (Some (mk_lease_io_queue true (ring_new IO_QUEUE_SIZE zero_op) true 0 0)) false false false true.

Lemma running_drainable : drainable (mk_lease_io_queue true (ring_new IO_QUEUE_SIZE zero_op) true 0 0).
Proof.
  destruct (lease_io_init_ok _ eq_refl) as [[H1 H2] H3].
  constructor; cbn [q_queue q_mutex_initialized q_running] in *; [by split|done|done|cbn; unfold IO_QUEUE_SIZE; lia|by rewrite H3|by rewrite H3].
Qed.

Section Program.
Context (inet_pton4 : cstr -> option Z) (inet_ntop4 : Z -> cstr).
Context (localtime : Z -> option tm) (mktime : tm -> Z) (ctime : Z -> cstr).
Context (malloc : gmap Z packet_task_t -> Z).
Hypothesis malloc_fresh : forall tasks : gmap Z packet_task_t, tasks !! malloc tasks = None.

Lemma load_loop_unlocked fuel : forall lines db db',
  load_loop inet_pton4 mktime fuel lines db = Ret db' -> db'.(db_mutex_locked) = db.(db_mutex_locked).
Proof.
  induction fuel as [|fuel IH]; intros lines db db'; cbn [load_loop]; [done|]. destruct lines as [|line lines]; [by intros [= <-]|].
  destruct (_ || _); [apply IH|]. destruct (_ && _); [|apply IH].
  destruct (parse_lease_block _ _ _ _) as [[[r lease] rest]|]; [|done]. rewrite bind_Ret. intros ->%IH.
  unfold load_lease, lease_db_generate_id. repeat case_match; by simplify_eq/=.
Qed.

(** The configuration in the file of the first argument. *)
Definition main_config (files : cstr -> option cstr) (argv : list cstr) : outcome (Z * dhcp_config_t) :=
  parse_config_file inet_pton4 (files (default (lit SERVER_CONFIG_FILE) (argv !! 1%nat))) (mk_dhcp_config zero_global []).

(** The leases in the lease file. *)
Definition main_leases (files : cstr -> option cstr) : outcome (Z * lease_database_t) :=
  lease_db_load inet_pton4 mktime (files (lit LEASE_DB_FILE)) (lease_db_init LEASE_DB_FILE).

(** The system grants what [main] asks for. *)
Record granted (r : main_results) (argv : list cstr) (port : Z) : Prop := {
  gr_log : exists fd, r.(r_log) = Some fd /\ 2 < fd;
  gr_init : r.(r_init) = all_ok;
  gr_threads : r.(r_timer_thread) = true /\ r.(r_io_thread) = true /\ r.(r_tpool) = true;
  gr_socket : open_socket r argv = Some port
}.

(** The two files: a configuration with at least one subnet, and leases of known states with no address twice, whose
    addresses, like the reserved ones, are none of those a subnet excludes. *)
Record files_ok (files : cstr -> option cstr) (argv : list cstr) (config : dhcp_config_t) (db : lease_database_t) : Prop := {
  fo_config : main_config files argv = Ret (0, config);
  fo_some : config.(c_subnets) <> [];
  fo_leases : main_leases files = Ret (0, db);
  fo_addresses : NoDup (l_ip_address <$> db.(leases));
  fo_known : Forall (fun l => l.(l_state) <> LEASE_STATE_UNKNOWN) db.(leases);
  fo_subnets : Forall (fun s => init_ok s db.(leases)) config.(c_subnets)
}.

Lemma main_config_ok files argv config : main_config files argv = Ret (0, config) -> config_ok config.
Proof.
  unfold main_config, parse_config_file. destruct (files _) as [contents|]; [|done].
  destruct (config_loop_ends inet_pton4 (S (length contents)) contents initial_config ltac:(lia)) as (c & -> & Hok).
  - split; [|split; [cbn; lia|constructor]]. rewrite global_ok_iff. unfold is_u32, is_i32. cbn. lia.
  - rewrite bind_Ret. by intros [= <-].
Qed.

Lemma main_leases_ok files db : main_leases files = Ret (0, db) ->
  (length db.(leases) <= MAX_LEASES)%nat /\ db.(db_mutex_locked) = false.
Proof.
  unfold main_leases, lease_db_load. destruct (files _) as [contents|]; [|intros [= <-]; split; [cbn; lia|done]].
  cbv zeta. set (lines := fgets_lines contents). set (db0 := set_next_lease_id 1 (set_leases [] (lease_db_init LEASE_DB_FILE))).
  pose proof (load_loop_ends inet_pton4 mktime (S (length lines)) lines db0 ltac:(lia) ltac:(cbn; lia)) as H.
  destruct (load_loop _ _ _ lines db0) as [db1|] eqn:E; [|done]. rewrite bind_Ret. intros [= <-]. split; [done|].
  by rewrite (load_loop_unlocked _ _ _ _ E).
Qed.

(** The program is started by [main]. *)
Lemma main_starts r files nows argv config db port :
  granted r argv port -> files_ok files argv config db ->
  exists x db', main_start inet_pton4 localtime mktime r files nows argv = Ret (Some x)
  /\ process_ok config (running_dhcp db) x /\ tp_shutdown (x_tpool x) = 0 /\ x.(x_port) = port
  /\ x.(x_running) = true /\ x.(x_looping) = true
  /\ x.(x_context).(sc_lease_db) = db' /\ (l_ip_address <$> db'.(leases)) = (l_ip_address <$> db.(leases)).
Proof.
  intros [(fd & Gl & Gfd) Gi (Gt & Gio & Gtp) Gs] [Fc Fn Fl Fa Fk Fs]. destruct (main_leases_ok files db Fl) as [Hb Hu].
  pose proof (main_config_ok _ _ _ Fc) as (_ & _ & Hsub). unfold main_config in Fc. unfold main_leases in Fl.
  assert (dhcp_server_init inet_pton4 mktime all_ok LEASE_DB_FILE (files (lit LEASE_DB_FILE)) 60 true
    = Ret (Some (mk_dhcp_server (Some db) (Some (mk_lease_timer false 60 true))
        (Some (mk_lease_io_queue false (ring_new IO_QUEUE_SIZE zero_op) true 0 0)) false false false true))) as Hinit.
  { unfold dhcp_server_init. cbn [all_ok db_alloc db_mutex_ok negb]. by rewrite Fl, bind_Ret. }
  unfold main_start. rewrite Gl.
  destruct (log_starts localtime (r_log_time r) (Some fd) (lit "[DHCPv4-Server]") LOG_DEBUG (lit "logs/dhcpv4_server.log") main_text)
    as (rc & es & log & -> & Hm & _); [done|by intros ? [= <-]|]. rewrite bind_Ret. cbv beta iota.
  destruct Hm as (es' & log' & ->); [done|]. rewrite bind_Ret. cbv beta iota. rewrite Fc, bind_Ret. cbn [Z.eqb negb]. rewrite Gi, Hinit, bind_Ret. cbn [v_lease_db in_bounds]. rewrite bind_Ret.
  pose proof (init_pools_ok (c_subnets config) nows db ltac:(by constructor) Fs) as Hp. cbn [v_lease_db].
  destruct (init_pools nows (c_subnets config) db) as [pools db']. destruct Hp as (Hp & Hlen & Hdb' & Hip).
  assert (pools <> []) as Hne by (intros ->; by destruct (c_subnets config)).
  rewrite Gt, Gio, Gtp, Gs. eexists _, db'. split; [reflexivity|]. split_and!; try done. constructor; try done.
  - constructor; [|done|done|done]. eapply Forall_impl; [exact Hsub|]. intros s (_ & Hd & _). by apply Forall_cons in Hd as [? _].
  - constructor; [split; [apply ring_new_wf; lia|by split; [|left]]|constructor|constructor].
Qed.

Lemma run_opened es : forall config dhcp x sent x', process_ok config dhcp x -> tp_shutdown (x_tpool x) = 0 ->
  Forall (event_ok config) es -> run_events malloc es x = Ret (sent, x') -> tp_shutdown (x_tpool x') = 0.
Proof.
  induction es as [|e es IH]; intros config dhcp x sent x' Hx Hs Hes; cbn [run_events]; [by intros [= _ <-]|].
  apply Forall_cons in Hes as [He Hes]. destruct (event_keeps malloc config dhcp malloc_fresh e x Hx He) as (s1 & x1 & E & Hx1 & _).
  rewrite E, bind_Ret. destruct (run_events malloc es x1) as [[s2 x2]|] eqn:E2; [|done]. rewrite bind_Ret. intros [= _ <-].
  eapply IH; [exact Hx1| |exact Hes|exact E2]. eapply event_open; [|exact Hs|exact E]. destruct Hx as [H1 <- <- H4]. by constructor.
Qed.

(** The end of [main], whatever happened before. *)
Lemma main_stops envs opened_io now config db x file :
  process_ok config (running_dhcp db) x -> tp_shutdown (x_tpool x) = 0 -> (forall i, silent config (w_ping (envs i))) ->
  exists sent x' dhcp file1 file',
    main_stop inet_ntop4 localtime ctime envs opened_io true now x file = Ret (sent, x', dhcp, file')
    /\ ring_items (tp_queue (x_tpool x')) = [] /\ db_ok x'.(x_context).(sc_lease_db)
    /\ v_lease_db dhcp = None /\ v_timer dhcp = None /\ v_io_queue dhcp = None
    /\ file' = (lease_db_save inet_ntop4 localtime ctime true now x'.(x_context).(sc_lease_db) file1).2.
Proof.
  intros [Hg Hc Hd Hq] Hs He. unfold main_stop, thread_pool_destroy. destruct (qo_pool _ _ Hq) as (Hw & Hl & _).
  rewrite Hl, Hs. change (Z.land 0 1) with 0. cbn [Z.eqb negb]. rewrite bind_Ret. cbn [tp_queue].
  destruct (drain_keeps config (running_dhcp db) (ring_count (tp_queue (x_tpool x))) envs
    (set_x_tpool (mk_thread_pool (tp_queue (x_tpool x)) (tp_thread_count (x_tpool x)) 1 (tp_started (x_tpool x)) false) x))
    as (sent & x1 & E & [Hg1 Hc1 Hd1 Hq1] & Hi1); [|done|by apply length_ring_items|done|].
  { constructor; try done. destruct Hq as [_ Hdis Htasks]. constructor; [|done|done]. split; [done|]. split; [done|]. by right; left. }
  cbn in E. rewrite E, bind_Ret. unfold dhcp_server_stop.
  cbn [set_x_syncs set_x_context set_sc_pools sc_lease_db x_dhcp x_context x_tpool with_lease_db v_lease_db v_io_queue]. rewrite Hd1. cbn [running_dhcp v_io_queue v_lease_db].
  destruct (lease_io_stop_db inet_ntop4 localtime ctime opened_io now _ (sc_lease_db (x_context x1)) file running_drainable
    (do_unlocked _ (cx_db _ Hg1))) as (q' & file1 & -> & _ & _).
  rewrite !bind_Ret. cbv beta iota zeta.
  eexists _, _, _, file1, _. split; [reflexivity|]. split_and!; try done. exact (cx_db _ Hg1).
Qed.

(** Without a log file the program blocks at its first message, before it reads anything. *)
Lemma main_blocks r files nows argv : r.(r_log) = None -> main_start inet_pton4 localtime mktime r files nows argv = Fault Deadlock.
Proof.
  intros Hl. unfold main_start. rewrite Hl.
  destruct (log_starts localtime (r_log_time r) None (lit "[DHCPv4-Server]") LOG_DEBUG (lit "logs/dhcpv4_server.log") main_text)
    as (rc & es & log & -> & _ & H); [done|done|]. rewrite bind_Ret. cbv beta iota. by rewrite H.
Qed.


End Program.

(** ** An example *)

Definition sample_conf : cstr :=
  lit "authoritative;" ++ [10] ++ lit "default-lease-time 600;" ++ [10]
  ++ lit "subnet 192.168.1.0 netmask 255.255.255.0 {" ++ [10]
  ++ lit "  range 192.168.1.10 192.168.1.20;" ++ [10]
  ++ lit "  option routers 192.168.1.1;" ++ [10]
  ++ lit "}" ++ [10].

Definition sample_files (name : cstr) : option cstr :=
  if bool_decide (name = lit SERVER_CONFIG_FILE) then Some sample_conf else None.

Definition sample_config : dhcp_config_t :=
  match main_config dotted_pton sample_files [] with Ret (_, c) => c | Fault _ => mk_dhcp_config zero_global [] end.

Definition sample_results : main_results :=
  mk_main_results (Some 3) 1000 all_ok (fun _ => true) true true true (mk_thread_task 0 0) true (fun _ => true) (fun p => p =? 67).

Definition fresh_address (tasks : gmap Z packet_task_t) : Z := fresh (dom tasks : gset Z).

Definition sample_env4 (now : Z) : work_env := mk_work_env (fun _ _ => false) now now.

Definition sample_discover : packet_task_t := client_task [1; 2; 3; 4; 5; 6] 0 discover_options.

(** A DISCOVER is received and processed, the timer and the synchronisation run, a second
    DISCOVER is received, and the program gets a signal. *)
Definition sample_events : list event :=
  [EvReceive (Some (Datagram sample_discover)); EvWork (sample_env4 1000); EvTimer 1060; EvSync 0 1060;
   EvReceive (Some (Datagram sample_discover)); EvSignal; EvReceive None].

Lemma fresh_address_ok (tasks : gmap Z packet_task_t) : tasks !! fresh_address tasks = None.
Proof. apply not_elem_of_dom. unfold fresh_address. apply is_fresh. Qed.

Lemma sample_granted : granted sample_results [] 67.
Proof. constructor; [by exists 3|done|done|done]. Qed.

Lemma sample_files_ok : files_ok dotted_pton jan_mktime sample_files [] sample_config (lease_db_init LEASE_DB_FILE).
Proof.
  constructor; [vm_compute; reflexivity|vm_compute; discriminate|vm_compute; reflexivity|constructor|constructor|].
  apply Forall_forall. intros s Hs. vm_compute in Hs. apply list_elem_of_singleton in Hs as ->.
  constructor; try constructor; intros ? H; by apply not_elem_of_nil in H.
Qed.

Lemma sample_silent now : silent sample_config (w_ping (sample_env4 now)).
Proof. intros ip. unfold ping_conflict. cbn. apply andb_false_r. Qed.

Lemma sample_events_ok : Forall (event_ok sample_config) sample_events.
Proof.
  assert (task_ok sample_discover) as Hd.
  { intros _. exists discover_options. split; [|split].
    - apply client_packet_repr; [|vm_compute; lia]. repeat constructor; vm_compute; congruence.
    - intros c o Hc Hf. exfalso. rewrite !elem_of_cons in Hc. destruct Hc as [->|[->|Hc]]; [done|done|by apply not_elem_of_nil in Hc].
    - by intros o [= <-]. }
  by repeat apply Forall_cons_2.
Qed.


(** The lease the sample run ends with. *)
Definition sample_final : dhcp_lease_t :=
  new_lease 1000 1 (ip4 192 168 1 10) [1; 2; 3; 4; 5; 6] 600.

Definition sample_leases : outcome (list dhcp_lease_t) :=
  x ← main_start dotted_pton jan_localtime jan_mktime sample_results sample_files (fun _ => 1000) [];
  match x with
  | None => Ret []
  | Some x =>
      '(_, x) ← run_events fresh_address sample_events x;
      '(_, x, _, _) ← main_stop dotted_ntop jan_localtime jan_ctime (fun _ => sample_env4 1070) true true 1080 x None;
      Ret x.(x_context).(sc_lease_db).(leases)
  end.

Lemma sample_final_ok : lease_ok dotted_pton dotted_ntop jan_localtime jan_mktime sample_final.
Proof.
  assert (time_ok jan_localtime jan_mktime 1000) by (eexists; split; [reflexivity|]; unfold tm_ok; vm_compute; intuition congruence).
  assert (time_ok jan_localtime jan_mktime 1600) by (eexists; split; [reflexivity|]; unfold tm_ok; vm_compute; intuition congruence).
  constructor; try done; try (vm_compute; lia).
  - apply dotted_ip_ok. unfold is_u32. vm_compute. by split.
  - split; [|done]. unfold is_u8. vm_compute. repeat constructor; discriminate.
  - split; [|vm_compute; intuition congruence]. unfold is_u8. vm_compute. repeat constructor; discriminate.
  - split_and!; [refine (bool_decide_eq_true_1 _ _); reflexivity|refine (bool_decide_eq_true_1 _ _); reflexivity|vm_compute; lia].
  - split_and!; [refine (bool_decide_eq_true_1 _ _); reflexivity|refine (bool_decide_eq_true_1 _ _); reflexivity|vm_compute; lia].
Qed.

Lemma sample_leases_eq : sample_leases = Ret [sample_final].
Proof. vm_compute. reflexivity. Qed.


(** The DISCOVER in the loop and the one in the queue at the stop are offered the same
    address; the lease file then holds one lease. *)
Example sample_run :
  (x ← main_start dotted_pton jan_localtime jan_mktime sample_results sample_files (fun _ => 1000) [];
   match x with
   | None => Ret None
   | Some x =>
       '(sent, x) ← run_events fresh_address sample_events x;
       '(sent', x, _, file) ← main_stop dotted_ntop jan_localtime jan_ctime (fun _ => sample_env4 1070) true true 1080 x None;
       Ret (Some (dp_yiaddr <$> sent.*2, dp_yiaddr <$> sent'.*2, length x.(x_context).(sc_lease_db).(leases)))
   end) = Ret (Some ([ip4 192 168 1 10], [ip4 192 168 1 10], 1%nat)).
Proof. vm_compute. reflexivity. Qed.
