(* ===== verification/LeaseFileV6.v ===== *)
(** The DHCPv6 lease file: [parse_block_ia_na], [parse_block_ia_pd], [lease_v6_db_load],
    [lease_v6_db_save] and [lease_v6_db_append] of DHCPv6/sources/leases6.c with their
    helpers.

    A file is the list of its bytes, [None] when it does not exist.  [inet_pton],
    [inet_ntop], [localtime], [mktime] and [ctime] are parameters.  Reading does not fail
    half way; whether the writes, [fsync] and [rename] succeed is an argument ([FileIoV6] has
    the single calls).  The buffer of
    [parse_block_ia_pd] is not initialised: its contents are the argument [junk].

    The loops have the fuel of their caller: one more than the number of bytes of the file is
    enough for all of them but that of [parse_block_ia_pd], which never ends when the file
    ends inside of a block ([lease6_load_ends]). *)

From Stdlib Require Import String.
From S2P Require Import Prelude UtilsV6 LeasesV6 CText UtilsV4.

Definition READ_BUF_SZ : Z := 65536.

Definition set_x_binding_state (v : cstr) (r : dhcpv6_lease_t) : dhcpv6_lease_t :=
  mk_dhcpv6_lease r.(x_in_use) r.(x_type) r.(x_duid) r.(x_duid_len) r.(x_iaid)
    r.(x_ip6_addr) r.(x_prefix_v6) r.(x_plen) r.(x_starts) r.(x_ends) r.(x_tstp)
    r.(x_cltt) r.(x_client_hostname) r.(x_state) r.(x_next_state) r.(x_rewind_state)
    v r.(x_vendor_class) r.(x_fqdn).

(** ** Text *)

Definition ltrim (s : cstr) : cstr := drop_while isspace s.

Definition rtrim_inplace (s : cstr) : cstr := drop_while_end isspace s.

Definition trim (s : cstr) : cstr := rtrim_inplace (ltrim s).

(** The conversion [%<width>[^stop]]: at least one character, none of them [stop]. *)
Definition scan_set (width : nat) (stop : Z) (s : cstr) : option (cstr * cstr) :=
  match take width (take_while (fun c => negb (c =? stop)) s) with
  | [] => None
  | w => Some (w, drop (length w) s)
  end.

(** The conversion [%lld]. *)
Definition scan_lld (s : cstr) : option (Z * cstr) :=
  let '(neg, s) := scan_sign (drop_while isspace s) in
  if starts_digit 10 s then
    let '(v, r) := scan_digits 10 s 0 in
    Some (if neg : bool then Z.max (- v) (-9223372036854775808) else Z.min v 9223372036854775807, r)
  else None.

(** A number of [strptime]: leading spaces, then at most [n] digits as long as another one
    can fit [to]; the value must lie between [from] and [to]. *)
Fixpoint number_digits (n : nat) (to val : Z) (s : cstr) : Z * cstr :=
  match n, s with
  | S n, c :: r => if isdigit c && (val * 10 <=? to) then number_digits n to (val * 10 + (c - 48)) r else (val, s)
  | _, _ => (val, s)
  end.

Definition get_number (from to : Z) (n : nat) (s : cstr) : option (Z * cstr) :=
  let s := drop_while isspace s in
  if starts_digit 10 s then
    let '(val, r) := number_digits n to 0 s in
    if (val <? from) || (to <? val) then None else Some (val, r)
  else None.

(** [strptime(s, "%Y/%m/%d %H:%M:%S", &tmv)] into a zeroed structure. *)
Definition strptime (s : cstr) : option tm :=
  '(year, s) ← get_number 0 9999 4 s;
  s ← scan_char 47 s;
  '(mon, s) ← get_number 1 12 2 s;
  s ← scan_char 47 s;
  '(mday, s) ← get_number 1 31 2 s;
  '(hour, s) ← get_number 0 23 2 s;
  s ← scan_char 58 s;
  '(min, s) ← get_number 0 59 2 s;
  s ← scan_char 58 s;
  '(sec, _) ← get_number 0 61 2 s;
  Some (Tm sec min hour mday (mon - 1) (year - 1900) 0).

Section LeaseFile6.
Context (inet_pton6 : cstr -> option in6_addr) (inet_ntop6 : in6_addr -> cstr)
  (localtime : Z -> option tm) (mktime : tm -> Z) (ctime : Z -> cstr).

(** The time when it is positive, the next attempt otherwise. *)
Definition positive_or (o : option Z) (next : Z) : Z :=
  match o with Some t => if 0 <? t then t else next | None => next end.

Definition parse_lease_time_any (s : cstr) : Z :=
  positive_or (fst <$> scan_lld s)
    (positive_or ('(_, r) ← scan_d s; '(buf, _) ← scan_set 63 10 (drop_while isspace r); mktime <$> strptime buf)
       (positive_or (mktime <$> strptime s) 0)).

(** ** Reading *)

(** [rd_getline]: the line, cut to the buffer, and the bytes after it; [None] is the end of
    the file. *)
Definition rd_getline (fp : cstr) : option (cstr * cstr) :=
  match fp with
  | [] => None
  | _ =>
      let in_line := fun c => negb (c =? 10) in
      Some (take (Z.to_nat (READ_BUF_SZ - 1)) (take_while in_line fp), drop 1 (drop_while in_line fp))
  end.

Definition starts (s : cstr) (kw : string) : bool := prefix_eq s (lit kw).

(** [sscanf(s, "kw %<width>[^;];", val) == 1] for a line that starts with the keyword. *)
Definition value_of (kw : string) (width : nat) (s : cstr) : option cstr :=
  fst <$> scan_set width 59 (drop_while isspace (drop (length (lit kw)) s)).

(** A lease under construction with [seen_starts] and [seen_ends]. *)
Record block6 := mk_block6 {
  b_lease : dhcpv6_lease_t;
  b_seen_starts : bool;
  b_seen_ends : bool
}.

Definition on_lease (f : dhcpv6_lease_t -> dhcpv6_lease_t) (b : block6) : block6 :=
  mk_block6 (f b.(b_lease)) b.(b_seen_starts) b.(b_seen_ends).

Definition time_value (kw : string) (s : cstr) : Z :=
  match value_of kw 127 s with Some val => parse_lease_time_any (trim val) | None => 0 end.

(** [duid <hex>;]; [None] when the text is refused. *)
Definition duid_line (s : cstr) (l : dhcpv6_lease_t) : option dhcpv6_lease_t :=
  match value_of "duid" 383 s with
  | None => Some l
  | Some hex =>
      let '(n, bytes) := duid_hex_to_bin (rtrim_inplace hex) (Z.of_nat DUID_MAX_LEN) in
      if n <? 0 then None else Some (set_x_duid_len (u16 n) (write_duid bytes l))
  end.

Definition iaid_line (s : cstr) (l : dhcpv6_lease_t) : dhcpv6_lease_t :=
  match scan_u (drop (length (lit "iaid")) s) with
  | Some (v, _) => set_x_iaid v l
  | None => l
  end.

Definition hostname_line (s : cstr) (l : dhcpv6_lease_t) : dhcpv6_lease_t :=
  match (r ← scan_char 34 (drop_while isspace (drop (length (lit "client-hostname")) s)); scan_set 127 34 r) with
  | Some (hn, _) => set_x_client_hostname (take (HOSTNAME6_MAX - 1) hn) l
  | None => l
  end.

Definition state_value6 (s : cstr) (l : dhcpv6_lease_t) : dhcpv6_lease_t :=
  match value_of "binding state" 15 s with
  | Some st =>
      let st := rtrim_inplace st in
      set_x_binding_state (take 15 st) (set_x_state (lease_v6_state_from_string (of_cstr st)) l)
  | None => l
  end.

(** A line of a block; [None] is the return of -1. *)
Definition parse_lease6_line (s : cstr) (b : block6) : option block6 :=
  if starts s "starts" then
    let t := time_value "starts" s in
    Some (if 0 <? t then mk_block6 (set_x_starts t b.(b_lease)) true b.(b_seen_ends) else b)
  else if starts s "ends" then
    let t := time_value "ends" s in
    Some (if 0 <? t then mk_block6 (set_x_ends t b.(b_lease)) b.(b_seen_starts) true else b)
  else
    l ← (if starts s "duid" then duid_line s b.(b_lease) else Some b.(b_lease));
    let l := if starts s "iaid" then iaid_line s l else l in
    let l := if starts s "client-hostname" then hostname_line s l else l in
    let l := if starts s "binding state" then state_value6 s l else l in
    Some (mk_block6 l b.(b_seen_starts) b.(b_seen_ends)).

Definition blank6 (s : cstr) : bool := bool_decide (s = []) || (byte_at s 0 =? 35).

(** The lease of a block that is closed. *)
Definition closed6 (b : block6) : option dhcpv6_lease_t :=
  if b.(b_seen_starts) || b.(b_seen_ends) then Some b.(b_lease) else None.

(** The loop of [parse_block_ia_na]: the lease, [None] for -1, and the bytes left. *)
Fixpoint na_loop (fuel : nat) (fp : cstr) (b : block6) : outcome (option dhcpv6_lease_t * cstr) :=
  match fuel with
  | O => Fault OutOfFuel
  | S fuel =>
      match rd_getline fp with
      | None => Ret (None, fp)
      | Some (line, fp) =>
          let s := trim (c_string line) in
          if blank6 s then na_loop fuel fp b
          else if byte_at s 0 =? 125 then Ret (closed6 b, fp)
          else
            match parse_lease6_line s b with
            | Some b => na_loop fuel fp b
            | None => Ret (None, fp)
            end
      end
  end.

(** The loop of [parse_block_ia_pd]: the end of the file leaves the last line, [stale], in
    the buffer, and it is looked at again. *)
Fixpoint pd_loop (fuel : nat) (fp stale : cstr) (b : block6) : outcome (option dhcpv6_lease_t * cstr) :=
  match fuel with
  | O => Fault OutOfFuel
  | S fuel =>
      let '(s, fp) :=
        match rd_getline fp with
        | Some (line, fp) => (trim (c_string line), fp)
        | None => (trim stale, fp)
        end in
      if blank6 s then pd_loop fuel fp s b
      else if byte_at s 0 =? 125 then Ret (closed6 b, fp)
      else
        match parse_lease6_line s b with
        | Some b => pd_loop fuel fp s b
        | None => Ret (None, fp)
        end
  end.

Definition parse_block_ia_na (fuel : nat) (fp line0 : cstr) : outcome (option dhcpv6_lease_t * cstr) :=
  match ('(ip, _) ← scan_s 95 (drop (length (lit "lease")) (trim line0)); inet_pton6 ip) with
  | None => Ret (None, fp)
  | Some a => na_loop fuel fp (mk_block6 (set_x_ip6_addr a zero_lease6) false false)
  end.

Definition parse_block_ia_pd (fuel : nat) (junk fp line0 : cstr) : outcome (option dhcpv6_lease_t * cstr) :=
  match ('(ip, r) ← scan_set 95 47 (drop_while isspace (drop (length (lit "prefix")) (trim line0)));
         r ← scan_char 47 r; '(plen, _) ← scan_u r;
         a ← inet_pton6 ip; Some (a, u8 plen)) with
  | None => Ret (None, fp)
  | Some (a, plen) =>
      pd_loop fuel fp junk
        (mk_block6 (set_x_plen plen (set_x_prefix_v6 a (set_x_type Lease6_IA_PD zero_lease6))) false false)
  end.

(** The entry of the log that is overwritten. *)
Definition same_lease6 (tmp l : dhcpv6_lease_t) : bool :=
  match tmp.(x_type) with
  | Lease6_IA_NA => bool_decide (l.(x_type) = Lease6_IA_NA) && memeq 16 l.(x_ip6_addr) tmp.(x_ip6_addr)
  | Lease6_IA_PD =>
      bool_decide (l.(x_type) = Lease6_IA_PD) && (l.(x_plen) =? tmp.(x_plen)) && memeq 16 l.(x_prefix_v6) tmp.(x_prefix_v6)
  end.

Definition store_lease6 (ls : list dhcpv6_lease_t) (tmp : dhcpv6_lease_t) : list dhcpv6_lease_t :=
  match find_index (same_lease6 tmp) ls with
  | Some i => <[i := set_x_in_use true tmp]> ls
  | None => if bool_decide (length ls < LEASES6_MAX)%nat then ls ++ [set_x_in_use true tmp] else ls
  end.

(** What a parsed block does to the leases: those without both times are dropped. *)
Definition load_lease6 (ls : list dhcpv6_lease_t) (parsed : option dhcpv6_lease_t) : list dhcpv6_lease_t :=
  match parsed with
  | Some tmp => if negb (tmp.(x_starts) =? 0) && negb (tmp.(x_ends) =? 0) then store_lease6 ls tmp else ls
  | None => ls
  end.

Fixpoint load6_loop (fuel0 fuel : nat) (junk fp : cstr) (ls : list dhcpv6_lease_t) : outcome (list dhcpv6_lease_t) :=
  match fuel with
  | O => Fault OutOfFuel
  | S fuel =>
      match rd_getline fp with
      | None => Ret ls
      | Some (line, fp) =>
          let s := trim (c_string line) in
          if blank6 s then load6_loop fuel0 fuel junk fp ls
          else if starts s "lease " then
            '(parsed, fp) ← parse_block_ia_na fuel0 fp s;
            load6_loop fuel0 fuel junk fp (load_lease6 ls parsed)
          else if starts s "prefix " then
            '(parsed, fp) ← parse_block_ia_pd fuel0 junk fp s;
            load6_loop fuel0 fuel junk fp (load_lease6 ls parsed)
          else load6_loop fuel0 fuel junk fp ls
      end
  end.

(** It always returns 0; without a file the database stays as it is. *)
Definition lease_v6_db_load (fuel : nat) (junk : cstr) (file : option cstr) (db : lease_v6_db_t)
    : outcome (Z * lease_v6_db_t) :=
  match file with
  | None => Ret (0, db)
  | Some contents => ls ← load6_loop fuel fuel junk contents []; Ret (0, set_d_leases ls db)
  end.

(** ** Writing *)

Definition statement_line6 (key : string) (value : cstr) : cstr := 9 :: lit key ++ 32 :: value ++ [59].

Definition time_line6 (key : string) (t : Z) : cstr := statement_line6 key (format_lease_time localtime t 64).

Definition state_line6 (key : string) (s : lease_state_t) : cstr :=
  statement_line6 key (lit (lease_v6_state_to_string s)).

(** [duid_hex]: empty when there is no DUID or it cannot be written. *)
Definition duid_hex6 (l : dhcpv6_lease_t) : cstr :=
  if l.(x_duid_len) =? 0 then []
  else
    match duid_bin_to_hex (take (Z.to_nat l.(x_duid_len)) l.(x_duid)) (3 * Z.of_nat DUID_MAX_LEN) with
    | Some (n, text) => if n <? 0 then [] else text
    | None => []
    end.

Definition times6 (l : dhcpv6_lease_t) : list cstr :=
  [time_line6 "starts" l.(x_starts); time_line6 "ends" l.(x_ends)]
  ++ if_line (negb (l.(x_tstp) =? 0)) (time_line6 "tstp" l.(x_tstp))
  ++ if_line (negb (l.(x_cltt) =? 0)) (time_line6 "cltt" l.(x_cltt)).

Definition states6 (l : dhcpv6_lease_t) : list cstr :=
  [state_line6 "binding state" l.(x_state)]
  ++ if_line (negb (bool_decide (l.(x_next_state) = LEASE_STATE_FREE))) (state_line6 "next binding state" l.(x_next_state))
  ++ if_line (negb (bool_decide (l.(x_rewind_state) = LEASE_STATE_FREE)))
       (state_line6 "rewind binding state" l.(x_rewind_state)).

Definition strings6 (l : dhcpv6_lease_t) : list cstr :=
  if_line (negb (bool_decide (l.(x_client_hostname) = []))) (statement_line6 "client-hostname" (quoted l.(x_client_hostname)))
  ++ if_line (negb (bool_decide (l.(x_vendor_class) = []))) (statement_line6 "vendor-class" (quoted l.(x_vendor_class)))
  ++ if_line (negb (bool_decide (l.(x_fqdn) = []))) (statement_line6 "fqdn" (quoted l.(x_fqdn))).

Definition block_head6 (l : dhcpv6_lease_t) : cstr :=
  match l.(x_type) with
  | Lease6_IA_NA => lit "lease" ++ 32 :: inet_ntop6 l.(x_ip6_addr) ++ [32; 123]
  | Lease6_IA_PD => lit "prefix" ++ 32 :: inet_ntop6 l.(x_prefix_v6) ++ 47 :: dec l.(x_plen) ++ [32; 123]
  end.

(** The block [lease_v6_db_save] writes. *)
Definition save_lines6 (l : dhcpv6_lease_t) : list cstr :=
  [[]; block_head6 l] ++ times6 l
  ++ if_line (negb (l.(x_duid_len) =? 0)) (statement_line6 "duid" (duid_hex6 l))
  ++ [statement_line6 "iaid" (dec l.(x_iaid))] ++ states6 l ++ strings6 l ++ [[125]].

(** The block [lease_v6_db_append] writes. *)
Definition append_lines6 (l : dhcpv6_lease_t) : list cstr :=
  [block_head6 l; statement_line6 "duid" (duid_hex6 l); statement_line6 "iaid" (dec l.(x_iaid))]
  ++ times6 l ++ states6 l ++ strings6 l ++ [[125]; []].

(** The lines before the leases, the one with the date left out. *)
Definition header_lines6 : list cstr :=
  [ lit "# The format of this file is documented in the dhcpd.leases(5) manual page.";
    lit "# This lease file was written by DHCPv6 Server";
    lit "#";
    lit "authoring-byte-order little-endian;";
    [];
    lit "# Server DUID (hex, informational)";
    lit "# THis file is automatically generated, do not edit manually";
    lit "# Lease Database Format (DHCPv6)";
    lit "# lease <ipv6-address> {";
    lit "#   duid <hex>; iaid <n>;";
    lit "#   starts <w YYYY/MM/DD HH:MM:SS>; ends <...>;";
    lit "#   tstp <...>; cltt <...>;";
    lit "#   binding state <state>; next binding state <state>; rewind binding state <state>;";
    lit "#   client-hostname " ++ quoted (lit "...") ++ lit "; vendor-class " ++ quoted (lit "...") ++ lit "; fqdn "
      ++ quoted (lit "...") ++ lit ";";
    lit "# }";
    lit "# prefix <ipv6>/<plen> { ... }  # for IA_PD" ].

(** The return code and the file; [written] says whether opening, the writes, closing and
    renaming succeed: the old file is replaced as a whole or not at all. *)
Definition lease_v6_db_save (written : bool) (now : Z) (db : lease_v6_db_t) (file : option cstr)
    : Z * option cstr :=
  if negb written then (-1, file)
  else
    (0, Some (print_lines header_lines6 ++ lit "# Last updated: " ++ ctime now ++ [10]
              ++ print_lines (concat (save_lines6 <$> List.filter x_in_use db.(d_leases))))).

Definition lease_v6_db_append (opened : bool) (l : dhcpv6_lease_t) (file : option cstr) : Z * option cstr :=
  if negb opened then (-1, file)
  else (0, Some (default [] file ++ print_lines (append_lines6 l))).
End LeaseFile6.
