(* ===== verification/LeaseFileV6Spec.v ===== *)
(** What the DHCPv6 lease file keeps: the leases that [lease_v6_db_load] makes of a file
    written by [lease_v6_db_save] and extended by [lease_v6_db_append]
    ([lease6_file_reload]), and on which files it ends ([lease6_load_ends]).  The documented
    properties of the C library that are used are stated for the values that occur
    ([lease6_ok], [ctime_ok]). *)

From Stdlib Require Import String.
From S2P Require Import Prelude UtilsV6 LeasesV6 CText UtilsV4 LeaseFileV6.

(** ** Times *)

(** Facts on the numbers of a range by enumeration. *)
Lemma range_enum (p : Z -> bool) (from : Z) (n : nat) :
  forallb p ((fun k => from + Z.of_nat k) <$> seq 0 n) = true -> forall z, from <= z < from + Z.of_nat n -> p z = true.
Proof.
  intros H z Hz. apply (forallb_elem _ _ H). apply list_elem_of_fmap. exists (Z.to_nat (z - from)).
  split; [lia|]. apply elem_of_seq. lia.
Qed.

Lemma format_2 v : 0 <= v < 100 -> format_d 2 v = [48 + v / 10; 48 + v mod 10].
Proof.
  intros Hv. pose proof (range_enum (fun v => bool_decide (format_d 2 v = [48 + v / 10; 48 + v mod 10])) 0 100) as H.
  specialize (H ltac:(vm_compute; reflexivity) v ltac:(lia)). cbv beta in H. by apply bool_decide_eq_true_1 in H.
Qed.

Lemma format_4 v : 1900 <= v <= 9999 ->
  format_d 4 v = [48 + v / 1000; 48 + v / 100 mod 10; 48 + v / 10 mod 10; 48 + v mod 10].
Proof.
  intros Hv. pose proof (range_enum (fun v => bool_decide (format_d 4 v
    = [48 + v / 1000; 48 + v / 100 mod 10; 48 + v / 10 mod 10; 48 + v mod 10])) 1900 (Z.to_nat 8100)) as H.
  specialize (H ltac:(vm_compute; reflexivity) v ltac:(lia)). cbv beta in H. by apply bool_decide_eq_true_1 in H.
Qed.

Lemma digit_char6 d : 0 <= d < 10 -> isdigit (48 + d) = true /\ isspace (48 + d) = false /\ starts_digit 10 [48 + d] = true.
Proof.
  intros Hd. unfold isdigit, isspace, starts_digit. rewrite digit_value_dec by done. split_and!; lia.
Qed.

Lemma get_number_2 from to v rest :
  0 <= from <= v -> v <= to -> to < 100 -> get_number from to 2 (format_d 2 v ++ rest) = Some (v, rest).
Proof.
  intros Hf Ht Hto. rewrite format_2 by lia. unfold get_number. cbn [app].
  assert (0 <= v / 10 < 10) as H1 by (split; [apply Z.div_pos; lia|apply Z.div_lt_upper_bound; lia]).
  assert (0 <= v mod 10 < 10) as H2 by (apply Z.mod_pos_bound; lia).
  destruct (digit_char6 _ H1) as (D1 & S1 & _). destruct (digit_char6 _ H2) as (D2 & _ & _).
  rewrite drop_while_head by done. unfold starts_digit. rewrite digit_value_dec by done.
  destruct (Z.ltb_spec (v / 10) 10); [|lia]. cbn [number_digits]. rewrite D1, D2.
  pose proof (Z.div_mod v 10 ltac:(lia)). destruct (Z.leb_spec (0 * 10) to); [|lia]. cbn [andb].
  destruct (Z.leb_spec ((0 * 10 + (48 + v / 10 - 48)) * 10) to); [|lia].
  replace ((0 * 10 + (48 + v / 10 - 48)) * 10 + (48 + v mod 10 - 48)) with v by lia.
  destruct (Z.ltb_spec v from); [lia|]. destruct (Z.ltb_spec to v); [lia|]. done.
Qed.

Lemma get_number_year v rest : 1900 <= v <= 9999 -> get_number 0 9999 4 (format_d 4 v ++ rest) = Some (v, rest).
Proof.
  intros Hv. rewrite format_4 by lia. unfold get_number. cbn [app].
  assert (0 <= v / 1000 < 10) as H1 by (split; [apply Z.div_pos; lia|apply Z.div_lt_upper_bound; lia]).
  assert (0 <= v / 100 mod 10 < 10) as H2 by (apply Z.mod_pos_bound; lia).
  assert (0 <= v / 10 mod 10 < 10) as H3 by (apply Z.mod_pos_bound; lia).
  assert (0 <= v mod 10 < 10) as H4 by (apply Z.mod_pos_bound; lia).
  destruct (digit_char6 _ H1) as (D1 & S1 & _). destruct (digit_char6 _ H2) as (D2 & _ & _).
  destruct (digit_char6 _ H3) as (D3 & _ & _). destruct (digit_char6 _ H4) as (D4 & _ & _).
  rewrite drop_while_head by done. unfold starts_digit. rewrite digit_value_dec by done.
  destruct (Z.ltb_spec (v / 1000) 10); [|lia]. cbn [number_digits]. rewrite D1, D2, D3, D4.
  set (a := v / 1000) in *. set (b := v / 100 mod 10) in *. set (c := v / 10 mod 10) in *. set (d := v mod 10) in *.
  assert (((a * 10 + b) * 10 + c) * 10 + d = v) as E.
  { unfold a, b, c, d. pose proof (Z.div_mod v 10 ltac:(lia)). pose proof (Z.div_mod (v / 10) 10 ltac:(lia)) as E2.
    pose proof (Z.div_mod (v / 100) 10 ltac:(lia)) as E3. rewrite Z.div_div in E2, E3 by lia.
    change (10 * 10) with 100 in E2. change (100 * 10) with 1000 in E3. lia. }
  repeat match goal with |- context [?x <=? 9999] => destruct (Z.leb_spec x 9999); [|lia] end. cbn [andb].
  replace ((((0 * 10 + (48 + a - 48)) * 10 + (48 + b - 48)) * 10 + (48 + c - 48)) * 10 + (48 + d - 48)) with v by lia.
  destruct (Z.ltb_spec v 0); [lia|]. destruct (Z.ltb_spec 9999 v); [lia|]. done.
Qed.

Section Reload.
Context (inet_pton6 : cstr -> option in6_addr) (inet_ntop6 : in6_addr -> cstr)
  (localtime : Z -> option tm) (mktime : tm -> Z) (ctime : Z -> cstr).

(** The time that is read for the text of [t]: the digit of the weekday, which stands first,
    is taken for a time in seconds unless it is that of a Sunday. *)
Definition reload_time (t : Z) : Z :=
  match localtime t with
  | Some tm => if 0 <? tm_wday tm then tm_wday tm else t
  | None => t
  end.

Lemma strptime_text tm : tm_ok tm ->
  strptime (format_d 4 (tm_year tm + 1900) ++ [47] ++ format_d 2 (tm_mon tm + 1) ++ [47] ++ format_d 2 (tm_mday tm) ++ [32]
    ++ format_d 2 (tm_hour tm) ++ [58] ++ format_d 2 (tm_min tm) ++ [58] ++ format_d 2 (tm_sec tm))
  = Some (Tm (tm_sec tm) (tm_min tm) (tm_hour tm) (tm_mday tm) (tm_mon tm) (tm_year tm) 0).
Proof.
  intros (Hs & Hm & Hh & Hd & Hmon & Hw & Hy). unfold strptime. cbn [app].
  rewrite get_number_year by lia. cbn [mbind option_bind]. rewrite scan_char_hit. cbn [mbind option_bind].
  rewrite get_number_2 by lia. cbn [mbind option_bind]. rewrite scan_char_hit. cbn [mbind option_bind].
  rewrite get_number_2 by lia. cbn [mbind option_bind].
  assert (forall from to s, get_number from to 2 (32 :: s) = get_number from to 2 s) as Hsp by done.
  rewrite Hsp, get_number_2 by lia. cbn [mbind option_bind]. rewrite scan_char_hit. cbn [mbind option_bind].
  rewrite get_number_2 by lia. cbn [mbind option_bind]. rewrite scan_char_hit. cbn [mbind option_bind].
  rewrite <- (app_nil_r (format_d 2 (tm_sec tm))), get_number_2 by lia. cbn [mbind option_bind].
  by rewrite !Z.add_simpl_r.
Qed.

Lemma scan_lld_format w n rest :
  0 <= n < 9223372036854775808 -> starts_digit 10 rest = false -> scan_lld (format_d w n ++ rest) = Some (n, rest).
Proof.
  intros Hn Hr. unfold format_d. destruct (Z.ltb_spec n 0); [lia|].
  set (k := (w - length (dec n))%nat). rewrite <- app_assoc.
  assert (exists c r, replicate k 48 ++ dec n ++ rest = c :: r /\ isdigit c = true) as (c & r & E & Hc).
  { destruct k as [|k]; [|by eexists _, _]. pose proof (dec_nonempty n) as Hne.
    pose proof (dec_digits n ltac:(lia)) as Hd. destruct (dec n) as [|c d]; [done|].
    eexists _, _. split; [reflexivity|]. by apply Forall_inv in Hd. }
  destruct (isdigit_starts c r Hc) as [Hs Hsp].
  assert ((c =? 45) = false /\ (c =? 43) = false) as [H45 H43] by (unfold isdigit in Hc; lia).
  unfold scan_lld. rewrite E, drop_while_head by done. unfold scan_sign. rewrite H45, H43, Hs, <- E.
  rewrite scan_zeros, scan_dec by (done || lia). do 2 f_equal. lia.
Qed.

(** What a line of the file makes of a time. *)
Lemma lease_time_any t : time_ok localtime mktime t -> 0 < t ->
  parse_lease_time_any mktime (format_lease_time localtime t 64) = reload_time t.
Proof.
  intros (tm & Hl & Hok & Hmk) Ht. rewrite (format_lease_time_eq localtime _ _ Hl Hok).
  unfold parse_lease_time_any, reload_time. rewrite Hl. pose proof Hok as (Hs & Hm & Hh & Hd & Hmon & Hw & Hy).
  cbn [app]. rewrite scan_lld_format by (done || lia). cbn [fmap option_fmap option_map fst positive_or].
  destruct (Z.ltb_spec 0 (tm_wday tm)); [done|]. rewrite scan_d_format by (done || lia). cbn [mbind option_bind].
  set (r := format_d 4 (tm_year tm + 1900) ++ _).
  assert (exists c r', r = c :: r' /\ isdigit c = true) as (c & r' & Er & Hc).
  { unfold r. pose proof (format_d_nonempty 4 (tm_year tm + 1900) ltac:(lia)) as Hne.
    pose proof (format_d_digits 4 (tm_year tm + 1900) ltac:(lia)) as Hdg.
    destruct (format_d 4 (tm_year tm + 1900)) as [|c r0]; [done|]. eexists _, _. split; [reflexivity|].
    by apply Forall_inv in Hdg. }
  change (drop_while isspace (32 :: r)) with (drop_while isspace r).
  assert (drop_while isspace r = r) as ->.
  { rewrite Er. apply drop_while_head. unfold isdigit in Hc. unfold isspace. lia. }
  assert (Forall (fun c => negb (c =? 10) = true) r) as H10.
  { unfold r. repeat first [apply Forall_app; split | apply Forall_cons; split]; try done;
      (eapply Forall_impl; [apply format_d_digits; lia|]; cbv beta; unfold isdigit; intros; lia). }
  unfold scan_set. rewrite take_while_all by done.
  assert (take 63 r = r) as ->.
  { apply take_ge. unfold r. rewrite format_4 by lia. repeat (rewrite length_app || cbn [length]).
    rewrite !length_format_2 by lia. lia. }
  assert (strptime r = Some (Tm (tm_sec tm) (tm_min tm) (tm_hour tm) (tm_mday tm) (tm_mon tm) (tm_year tm) 0)) as Hp
    by (by apply strptime_text).
  destruct r as [|x s] eqn:E; [done|]. cbn [mbind option_bind]. rewrite Hp. cbn [fmap option_fmap option_map positive_or].
  rewrite Hmk. by destruct (Z.ltb_spec 0 t); [|lia].
Qed.

Lemma reload_time_pos t : time_ok localtime mktime t -> 0 < t -> 0 < reload_time t.
Proof.
  intros (tm & Hl & (_ & _ & _ & _ & _ & Hw & _) & _) Ht. unfold reload_time. rewrite Hl.
  destruct (Z.ltb_spec 0 (tm_wday tm)); lia.
Qed.

(** ** Lines of a block *)

(** A line that is read whole and is neither empty nor a comment nor a closing brace. *)
Definition visible6 (body : cstr) : Prop :=
  text body /\ (exists c, head body = Some c /\ isspace c = false /\ c <> 35 /\ c <> 125)
  /\ (exists d, last body = Some d /\ isspace d = false) /\ Z.of_nat (length body) < 65000.

Lemma getline_read l rest : 10 ∉ l -> Z.of_nat (length l) < 65535 -> rd_getline (l ++ 10 :: rest) = Some (l, rest).
Proof.
  intros Hn Hl. unfold rd_getline. destruct (l ++ 10 :: rest) as [|x s] eqn:E; [by destruct l|]. rewrite <- E. cbv zeta.
  assert (Forall (fun c => negb (c =? 10) = true) l) as Hf.
  { apply Forall_forall. intros c Hc. destruct (Z.eqb_spec c 10); [congruence|done]. }
  rewrite take_while_app, drop_while_app by done. cbn [drop]. rewrite drop_0, take_ge; [done|]. unfold READ_BUF_SZ. lia.
Qed.

Lemma text_not s : text s -> (10 ∉ s) /\ (0 ∉ s).
Proof.
  intros H. split; intros Hin; apply (proj1 (Forall_forall _ _) H) in Hin; cbv beta in Hin; tauto.
Qed.

Lemma trim6_tight s : (exists c, head s = Some c /\ isspace c = false) -> (exists d, last s = Some d /\ isspace d = false) ->
  trim s = s.
Proof.
  intros (c & Hc & Hcs) (d & Hd & Hds). unfold trim, ltrim, rtrim_inplace. destruct s as [|x s]; [done|].
  injection Hc as ->. rewrite drop_while_head by done. by apply (drop_while_end_last _ _ d).
Qed.

Lemma trim_indent s : trim (9 :: s) = trim s.
Proof. done. Qed.

Lemma visible_line body : visible6 body ->
  trim (c_string (9 :: body)) = body /\ blank6 body = false /\ (byte_at body 0 =? 125) = false
  /\ (forall rest, rd_getline ((9 :: body) ++ 10 :: rest) = Some (9 :: body, rest)).
Proof.
  intros (Ht & (c & Hc & Hcs & H35 & H125) & Hl & Hn). destruct (text_not _ Ht) as [Hn10 Hn0]. split_and!.
  - rewrite c_string_id by (by apply not_elem_of_cons). rewrite trim_indent. apply trim6_tight; [by exists c|done].
  - destruct body as [|x s]; [done|]. injection Hc as ->. unfold blank6. rewrite bool_decide_eq_false_2 by done.
    change (byte_at (c :: s) 0) with c. by destruct (Z.eqb_spec c 35).
  - destruct body as [|x s]; [done|]. injection Hc as ->. change (byte_at (c :: s) 0) with c. by destruct (Z.eqb_spec c 125).
  - intros rest. apply getline_read; [by apply not_elem_of_cons|]. cbn [length]. lia.
Qed.

(** The lines of a block and what they make of the lease. *)
Inductive steps6 : list cstr -> block6 -> block6 -> Prop :=
| steps6_nil b : steps6 [] b b
| steps6_cons body ls b b1 b2 :
    visible6 body -> parse_lease6_line mktime body b = Some b1 -> steps6 ls b1 b2 ->
    steps6 ((9 :: body) :: ls) b b2.

Lemma steps6_app ls1 ls2 b b1 b2 : steps6 ls1 b b1 -> steps6 ls2 b1 b2 -> steps6 (ls1 ++ ls2) b b2.
Proof. induction 1 as [|body ls b b0 b3 Hv Hp _ IH]; intros H2; [done|]. cbn [app]. econstructor; eauto. Qed.

Lemma steps6_one body b b1 : visible6 body -> parse_lease6_line mktime body b = Some b1 -> steps6 [9 :: body] b b1.
Proof. intros Hv Hp. econstructor; [done|done|constructor]. Qed.

(** A block that is closed. *)
Definition closed_lines (ls : list cstr) : list cstr := ls ++ [[125]].

Lemma na_steps ls b b' : steps6 ls b b' -> forall fuel rest,
  (length (print_lines (closed_lines ls) ++ rest) < fuel)%nat ->
  na_loop mktime fuel (print_lines (closed_lines ls) ++ rest) b = Ret (closed6 b', rest).
Proof.
  induction 1 as [b|body ls b b0 b1 Hv Hp _ IH]; intros fuel rest Hf; (destruct fuel as [|fuel]; [lia|]).
  - unfold closed_lines. cbn [app na_loop]. rewrite print_cons. rewrite (getline_read [125]) by (closed_prop || (simpl; lia)). done.
  - change (closed_lines ((9 :: body) :: ls)) with ((9 :: body) :: closed_lines ls) in *. cbn [na_loop]. rewrite print_length in Hf. rewrite print_cons.
    destruct (visible_line body Hv) as (Ht & Hb & H125 & Hr). rewrite Hr, Ht, Hb, H125, Hp. apply IH. lia.
Qed.

Lemma pd_steps ls b b' : steps6 ls b b' -> forall fuel stale rest,
  (length (print_lines (closed_lines ls) ++ rest) < fuel)%nat ->
  pd_loop mktime fuel (print_lines (closed_lines ls) ++ rest) stale b = Ret (closed6 b', rest).
Proof.
  induction 1 as [b|body ls b b0 b1 Hv Hp _ IH]; intros fuel stale rest Hf; (destruct fuel as [|fuel]; [lia|]).
  - unfold closed_lines. cbn [app pd_loop]. rewrite print_cons. rewrite (getline_read [125]) by (closed_prop || (simpl; lia)). done.
  - change (closed_lines ((9 :: body) :: ls)) with ((9 :: body) :: closed_lines ls) in *. cbn [pd_loop]. rewrite print_length in Hf. rewrite print_cons.
    destruct (visible_line body Hv) as (Ht & Hb & H125 & Hr). rewrite Hr, Ht, Hb, H125, Hp. apply IH. lia.
Qed.

(** ** Statements *)

Definition val6 (width : nat) (v : cstr) : Prop :=
  text v /\ (59 ∉ v) /\ (length v <= width)%nat
  /\ (exists c, head v = Some c /\ isspace c = false) /\ (exists d, last v = Some d /\ isspace d = false).

Definition keyw (key : string) : Prop :=
  text (lit key) /\ (exists c, head (lit key) = Some c /\ isspace c = false /\ c <> 35 /\ c <> 125)
  /\ (length (lit key) <= 30)%nat.

Lemma keyw_intro key :
  bool_decide (text (lit key)) && match lit key with c :: _ => negb (isspace c) && negb (c =? 35) && negb (c =? 125) | [] => false end
  && bool_decide (length (lit key) <= 30)%nat = true -> keyw key.
Proof.
  rewrite !andb_true_iff. intros [[H1 H2] H3]. split_and!; [by apply bool_decide_eq_true_1 in H1| |by apply bool_decide_eq_true_1 in H3].
  destruct (lit key) as [|c r]; [done|]. exists c. rewrite !andb_true_iff, !negb_true_iff in H2.
  destruct H2 as [[? ?] ?]. split_and!; [done|done|lia|lia].
Qed.

Lemma statement_visible key v : keyw key -> text v -> Z.of_nat (length v) <= 60000 -> visible6 (lit key ++ 32 :: v ++ [59]).
Proof.
  intros (Hk & (c & Hc & Hcs) & Hkl) Hv Hl. split_and!.
  - apply key_text; [done|]. apply Forall_app. split; [done|]. constructor; [lia|constructor].
  - exists c. split; [|done]. destruct (lit key); [done|]. exact Hc.
  - exists 59. split; [|done]. change (32 :: v ++ [59]) with ((32 :: v) ++ [59]). by rewrite app_assoc, last_snoc.
  - rewrite length_app. cbn [length]. rewrite length_app. cbn [length]. lia.
Qed.

Lemma value_read key width v : val6 width v -> value_of key width (lit key ++ 32 :: v ++ [59]) = Some v.
Proof.
  intros (_ & H59 & Hl & (c & Hc & Hcs) & _). unfold value_of. rewrite drop_app_length.
  change (drop_while isspace (32 :: v ++ [59])) with (drop_while isspace (v ++ [59])).
  destruct v as [|x v]; [done|]. injection Hc as ->. cbn [app]. rewrite drop_while_head by done.
  unfold scan_set. change (c :: v ++ [59]) with ((c :: v) ++ 59 :: []). rewrite take_while_app; [|  |done].
  - rewrite take_ge by done. done.
  - apply Forall_forall. intros z Hz. destruct (Z.eqb_spec z 59); [congruence|done].
Qed.

Ltac kw := apply keyw_intro; reflexivity.

(** The keyword decides which of the tests holds. *)
Ltac keyword6 :=
  match goal with
  | |- context [starts (lit ?a ++ ?r) ?b] =>
      let v := eval cbv in (starts (lit a) b) in
      change (starts (lit a ++ r) b) with v; cbv iota
  end.

Ltac read_statement := unfold parse_lease6_line; repeat keyword6; cbn [mbind option_bind]; cbv zeta.

Lemma block6_eta b : mk_block6 b.(b_lease) b.(b_seen_starts) b.(b_seen_ends) = b.
Proof. by destruct b. Qed.

(** A statement that is not looked at. *)
Definition unread (key : string) : bool :=
  forallb (fun kw => negb (prefix_eq (lit key) (lit kw)) && negb (prefix_eq (lit kw) (lit key)))
    ["starts"; "ends"; "duid"; "iaid"; "client-hostname"; "binding state"]%string.

Lemma prefix_eq_app a b r : prefix_eq a b = false -> prefix_eq b a = false -> prefix_eq (a ++ r) b = false.
Proof.
  revert b. induction a as [|x a IH]; intros [|y b] H1 H2; try done. cbn [app prefix_eq] in *.
  destruct (Z.eqb_spec x y) as [-> |]; [|done]. rewrite Z.eqb_refl in H2. by apply IH.
Qed.

Lemma unread_line key v b :
  unread key = true -> keyw key -> text v -> Z.of_nat (length v) <= 60000 -> steps6 [statement_line6 key v] b b.
Proof.
  intros Hu Hk Hv Hl. apply steps6_one; [by apply statement_visible|]. unfold parse_lease6_line, starts.
  assert (forall kw, kw ∈ ["starts"; "ends"; "duid"; "iaid"; "client-hostname"; "binding state"]%string ->
    prefix_eq (lit key ++ 32 :: v ++ [59]) (lit kw) = false) as Hs.
  { intros kw Hkw. apply (forallb_elem _ _ Hu), andb_true_iff in Hkw as [H1 H2].
    apply prefix_eq_app; by apply negb_true_iff. }
  rewrite !Hs by (rewrite !elem_of_cons; tauto). cbn [mbind option_bind]. by rewrite block6_eta.
Qed.

Lemma time_val6 t : time_ok localtime mktime t -> val6 127 (format_lease_time localtime t 64).
Proof.
  intros Ht. destruct (time_text_shape localtime mktime t Ht) as (c & s & d & -> & Hc & Hd & Hall & Hl).
  split_and!.
  - eapply Forall_impl; [exact Hall|]. unfold time_char, isdigit. cbv beta. intros. lia.
  - intros Hin. apply (proj1 (Forall_forall _ _) Hall) in Hin. unfold time_char, isdigit in Hin. lia.
  - lia.
  - exists c. split; [done|]. unfold isdigit in Hc. unfold isspace. lia.
  - exists d. change (c :: s ++ [d]) with ((c :: s) ++ [d]). rewrite last_snoc. split; [done|].
    unfold isdigit in Hd. unfold isspace. lia.
Qed.

Lemma val6_short width v : val6 width v -> (width <= 1000)%nat -> text v /\ Z.of_nat (length v) <= 60000.
Proof. intros (Ht & _ & Hl & _) Hw. split; [done|lia]. Qed.

Lemma time_read key t : time_ok localtime mktime t -> 0 < t ->
  time_value mktime key (lit key ++ 32 :: format_lease_time localtime t 64 ++ [59]) = reload_time t.
Proof.
  intros Ht Hp. pose proof (time_val6 t Ht) as Hv. unfold time_value. rewrite value_read by done.
  rewrite trim6_tight by apply Hv. by apply lease_time_any.
Qed.

Lemma starts_line t b : time_ok localtime mktime t -> 0 < t ->
  steps6 [time_line6 localtime "starts" t] b (mk_block6 (set_x_starts (reload_time t) b.(b_lease)) true b.(b_seen_ends)).
Proof.
  intros Ht Hp. destruct (val6_short _ _ (time_val6 t Ht) ltac:(lia)) as [Hv Hl].
  apply steps6_one; [by apply statement_visible; [kw|..]|]. read_statement. rewrite time_read by done.
  pose proof (reload_time_pos t Ht Hp). by destruct (Z.ltb_spec 0 (reload_time t)); [|lia].
Qed.

Lemma ends_line t b : time_ok localtime mktime t -> 0 < t ->
  steps6 [time_line6 localtime "ends" t] b (mk_block6 (set_x_ends (reload_time t) b.(b_lease)) b.(b_seen_starts) true).
Proof.
  intros Ht Hp. destruct (val6_short _ _ (time_val6 t Ht) ltac:(lia)) as [Hv Hl].
  apply steps6_one; [by apply statement_visible; [kw|..]|]. read_statement. rewrite time_read by done.
  pose proof (reload_time_pos t Ht Hp). by destruct (Z.ltb_spec 0 (reload_time t)); [|lia].
Qed.

(** The bytes of a lease's DUID. *)
Definition duid_bytes (l : dhcpv6_lease_t) : list Z := take (Z.to_nat l.(x_duid_len)) l.(x_duid).

Definition duid6_ok (l : dhcpv6_lease_t) : Prop :=
  0 <= l.(x_duid_len) <= 128 /\ (Z.to_nat l.(x_duid_len) <= length l.(x_duid))%nat /\ Forall is_u8 (duid_bytes l).

Lemma duid_bytes_length l : duid6_ok l -> Z.of_nat (length (duid_bytes l)) = l.(x_duid_len).
Proof. intros (H1 & H2 & _). unfold duid_bytes. rewrite length_take. lia. Qed.

Lemma duid_hex6_val l : duid6_ok l -> l.(x_duid_len) <> 0 ->
  val6 383 (duid_hex6 l) /\ duid_hex_to_bin (duid_hex6 l) 128 = (l.(x_duid_len), duid_bytes l).
Proof.
  intros Hok Hn. pose proof (duid_bytes_length l Hok) as Hlen. destruct Hok as (H1 & H2 & Hu).
  unfold duid_hex6. destruct (Z.eqb_spec l.(x_duid_len) 0); [done|]. fold (duid_bytes l).
  pose proof (duid_hex_roundtrip (duid_bytes l) 384 Hu ltac:(lia) ltac:(lia)) as Hr.
  destruct (Z.leb_spec (Z.max 1 (3 * Z.of_nat (length (duid_bytes l)))) 384); [|lia].
  destruct Hr as (m & text & E & En & Hn' & Hb). change (3 * Z.of_nat DUID_MAX_LEN) with 384. rewrite E.
  destruct (Z.ltb_spec m 0); [lia|]. split; [|by rewrite Hb, Hlen].
  assert (text = hex_loop (duid_bytes l)) as Et.
  { unfold duid_bin_to_hex in E. change (384 =? 0) with false in E. cbv iota zeta in E.
    destruct (384 <? _); [injection E; intros; subst; lia|]. by injection E. }
  pose proof (hex_loop_chars _ Hu) as Hc. rewrite <- Et in Hc.
  assert (text <> []) as Hne. { intros ->. simpl in En. destruct (duid_bytes l) as [|x d] eqn:Ed; [simpl in Hlen; lia|].
    pose proof (length_hex_loop (x :: d) ltac:(done)) as Hx. rewrite <- Et in Hx. simpl in Hx. lia. }
  assert (forall z, z ∈ text -> isspace z = false /\ z <> 0 /\ z <> 10 /\ z <> 59) as Hz.
  { intros z Hin. apply (proj1 (Forall_forall _ _) Hc) in Hin. cbv beta in Hin. unfold isxdigit, isspace in *. lia. }
  split_and!; [|intros Hin; by apply Hz in Hin as (_ & _ & _ & ?)|lia| |].
  - apply Forall_forall. intros z Hin. by apply Hz in Hin as (_ & ? & ? & _).
  - destruct text as [|c r]; [done|]. exists c. split; [done|]. apply Hz. by left.
  - destruct (last text) as [d|] eqn:El; [|by apply last_None in El]. exists d. split; [done|].
    apply Hz. by apply last_Some_elem_of.
Qed.

(** The lease with the DUID of another one. *)
Definition with_duid (l r : dhcpv6_lease_t) : dhcpv6_lease_t :=
  set_x_duid_len l.(x_duid_len) (write_duid (duid_bytes l) r).

Lemma duid_read l b : duid6_ok l -> l.(x_duid_len) <> 0 ->
  steps6 [statement_line6 "duid" (duid_hex6 l)] b (on_lease (with_duid l) b).
Proof.
  intros Hok Hn. destruct (duid_hex6_val l Hok Hn) as [Hv Hb].
  destruct (val6_short _ _ Hv ltac:(lia)) as [Ht Hl].
  apply steps6_one; [by apply statement_visible; [kw|..]|]. read_statement. unfold duid_line. rewrite value_read by done.
  assert (rtrim_inplace (duid_hex6 l) = duid_hex6 l) as ->.
  { destruct Hv as (_ & _ & _ & _ & d & Hd & Hds). by apply (drop_while_end_last _ _ d). }
  change (Z.of_nat DUID_MAX_LEN) with 128. rewrite Hb. destruct Hok as (Hr & _).
  destruct (Z.ltb_spec l.(x_duid_len) 0); [lia|]. cbn [mbind option_bind]. unfold u16. rewrite Z.mod_small by lia. done.
Qed.

(** An empty DUID is written, and not read. *)
Lemma duid_empty b : steps6 [statement_line6 "duid" []] b b.
Proof. apply steps6_one; [apply statement_visible; [kw|constructor|simpl; lia]|]. by destruct b. Qed.

Lemma iaid_read n b : is_u32 n -> steps6 [statement_line6 "iaid" (dec n)] b (on_lease (set_x_iaid n) b).
Proof.
  intros Hn. apply steps6_one.
  - apply statement_visible; [kw|apply digits_text, dec_digits; unfold is_u32 in Hn; lia|].
    unfold dec. pose proof (length_dec_loop 20 n []) as H. cbn [length] in H. lia.
  - read_statement. unfold iaid_line. rewrite drop_app_length, scan_u_dec by done. done.
Qed.

Definition hostname6_ok (h : cstr) : Prop := text h /\ (34 ∉ h) /\ (length h <= 127)%nat.

Lemma hostname_read h b : hostname6_ok h -> h <> [] ->
  steps6 [statement_line6 "client-hostname" (quoted h)] b (on_lease (set_x_client_hostname h) b).
Proof.
  intros (Ht & Hq & Hl) Hne. apply steps6_one.
  - apply statement_visible; [kw|by apply quoted_text|]. unfold quoted. cbn [length]. rewrite length_app. cbn [length]. lia.
  - read_statement. unfold hostname_line. rewrite drop_app_length. unfold quoted.
    change (drop_while isspace (32 :: (34 :: h ++ [34]) ++ [59])) with ((34 :: h ++ [34]) ++ [59]).
    cbn [app]. rewrite scan_char_hit. cbn [mbind option_bind]. unfold scan_set. rewrite <- app_assoc. cbn [app].
    rewrite take_while_app; [|  |done].
    + rewrite take_ge by done. destruct h as [|c h]; [done|]. cbv iota. rewrite take_ge; [done|].
      unfold HOSTNAME6_MAX. cbn [length] in *. lia.
    + apply Forall_forall. intros z Hz. destruct (Z.eqb_spec z 34); [congruence|done].
Qed.

Lemma state_read s b :
  steps6 [state_line6 "binding state" s] b
    (on_lease (fun l => set_x_binding_state (lit (lease_v6_state_to_string s)) (set_x_state s l)) b).
Proof.
  assert (val6 15 (lit (lease_v6_state_to_string s))) as Hv.
  { destruct s; split_and!; (closed_prop || (simpl; lia) || (eexists; split; reflexivity)). }
  destruct (val6_short _ _ Hv ltac:(lia)) as [Ht Hl].
  apply steps6_one; [by apply statement_visible; [kw|..]|]. read_statement. unfold state_value6. rewrite value_read by done.
  by destruct s.
Qed.

(** ** Blocks *)

(** What is read back of a lease: the rest of its fields is not. *)
Definition reload6 (l : dhcpv6_lease_t) : dhcpv6_lease_t :=
  mk_dhcpv6_lease true l.(x_type)
    (duid_bytes l ++ replicate (DUID_MAX_LEN - length (duid_bytes l)) 0) l.(x_duid_len) l.(x_iaid)
    (match l.(x_type) with Lease6_IA_NA => l.(x_ip6_addr) | Lease6_IA_PD => zero_addr6 end)
    (match l.(x_type) with Lease6_IA_NA => zero_addr6 | Lease6_IA_PD => l.(x_prefix_v6) end)
    (match l.(x_type) with Lease6_IA_NA => 0 | Lease6_IA_PD => l.(x_plen) end)
    (reload_time l.(x_starts)) (reload_time l.(x_ends)) 0 0
    l.(x_client_hostname) l.(x_state) LEASE_STATE_FREE LEASE_STATE_FREE
    (lit (lease_v6_state_to_string l.(x_state))) [] [].

Definition string6_ok (s : cstr) : Prop := text s /\ (length s <= 1000)%nat.

(** A lease the file can hold. *)
Definition lease6_ok (l : dhcpv6_lease_t) : Prop :=
  (match l.(x_type) with
   | Lease6_IA_NA => ip6_ok inet_pton6 inet_ntop6 l.(x_ip6_addr)
   | Lease6_IA_PD => ip6_ok inet_pton6 inet_ntop6 l.(x_prefix_v6) /\ is_u8 l.(x_plen)
   end)
  /\ duid6_ok l /\ is_u32 l.(x_iaid)
  /\ (time_ok localtime mktime l.(x_starts) /\ 0 < l.(x_starts))
  /\ (time_ok localtime mktime l.(x_ends) /\ 0 < l.(x_ends))
  /\ (l.(x_tstp) <> 0 -> time_ok localtime mktime l.(x_tstp))
  /\ (l.(x_cltt) <> 0 -> time_ok localtime mktime l.(x_cltt))
  /\ hostname6_ok l.(x_client_hostname) /\ string6_ok l.(x_vendor_class) /\ string6_ok l.(x_fqdn).

Lemma if_line_steps (c : bool) line b : (c = true -> steps6 [line] b b) -> steps6 (if_line c line) b b.
Proof. destruct c; [auto|intros _; constructor]. Qed.

Lemma unread_time key t b :
  unread key = true -> keyw key -> time_ok localtime mktime t -> steps6 [time_line6 localtime key t] b b.
Proof.
  intros Hu Hk Ht. destruct (val6_short _ _ (time_val6 t Ht) ltac:(lia)) as [Hv Hl]. by apply unread_line.
Qed.

Definition with_times6 (l : dhcpv6_lease_t) (b : block6) : block6 :=
  mk_block6 (set_x_ends (reload_time l.(x_ends)) (set_x_starts (reload_time l.(x_starts)) b.(b_lease))) true true.

Lemma times6_steps l b : lease6_ok l -> steps6 (times6 localtime l) b (with_times6 l b).
Proof.
  intros (_ & _ & _ & (Hs & Hs0) & (He & He0) & Ht & Hc & _). unfold times6.
  change [time_line6 localtime "starts" l.(x_starts); time_line6 localtime "ends" l.(x_ends)]
    with ([time_line6 localtime "starts" l.(x_starts)] ++ [time_line6 localtime "ends" l.(x_ends)]). rewrite <- app_assoc.
  eapply steps6_app; [by apply starts_line|]. eapply steps6_app; [by apply ends_line|]. cbn [b_lease b_seen_starts b_seen_ends].
  eapply steps6_app; (apply if_line_steps; intros H; apply negb_true_iff, Z.eqb_neq in H;
    apply unread_time; [reflexivity|kw|auto]).
Qed.

Definition with_state6 (l r : dhcpv6_lease_t) : dhcpv6_lease_t :=
  set_x_binding_state (lit (lease_v6_state_to_string l.(x_state))) (set_x_state l.(x_state) r).

Lemma states6_steps l b : steps6 (states6 l) b (on_lease (with_state6 l) b).
Proof.
  unfold states6. eapply steps6_app; [apply state_read|].
  eapply steps6_app; (apply if_line_steps; intros _; apply unread_line; [reflexivity|kw|..]).
  all: match goal with |- context [lease_v6_state_to_string ?s] => destruct s end; (closed_prop || (simpl; lia)).
Qed.

Lemma strings6_steps l b : lease6_ok l -> steps6 (strings6 l) b
  (if bool_decide (l.(x_client_hostname) = []) then b else on_lease (set_x_client_hostname l.(x_client_hostname)) b).
Proof.
  intros (_ & _ & _ & _ & _ & _ & _ & Hh & Hv & Hf). unfold strings6.
  apply (steps6_app _ _ _ (if bool_decide (l.(x_client_hostname) = []) then b
                           else on_lease (set_x_client_hostname l.(x_client_hostname)) b)).
  - case_bool_decide; cbn [negb if_line]; [constructor|by apply hostname_read].
  - eapply steps6_app; apply if_line_steps; intros _; (apply unread_line; [reflexivity|kw|apply quoted_text; apply Hv || apply Hf|]);
      unfold quoted; cbn [length]; rewrite length_app; cbn [length];
      (destruct Hv as [_ Hv]; destruct Hf as [_ Hf]; lia).
Qed.

(** The statements of the two kinds of blocks. *)
Definition save_statements (l : dhcpv6_lease_t) : list cstr :=
  times6 localtime l ++ if_line (negb (l.(x_duid_len) =? 0)) (statement_line6 "duid" (duid_hex6 l))
  ++ [statement_line6 "iaid" (dec l.(x_iaid))] ++ states6 l ++ strings6 l.

Definition append_statements (l : dhcpv6_lease_t) : list cstr :=
  [statement_line6 "duid" (duid_hex6 l)] ++ [statement_line6 "iaid" (dec l.(x_iaid))]
  ++ times6 localtime l ++ states6 l ++ strings6 l.

(** The lease a block starts with. *)
Definition start6 (l : dhcpv6_lease_t) : dhcpv6_lease_t :=
  match l.(x_type) with
  | Lease6_IA_NA => set_x_ip6_addr l.(x_ip6_addr) zero_lease6
  | Lease6_IA_PD => set_x_plen l.(x_plen) (set_x_prefix_v6 l.(x_prefix_v6) (set_x_type Lease6_IA_PD zero_lease6))
  end.

(** A block whose lease is the one that is read back. *)
Definition makes6 (l : dhcpv6_lease_t) (b : block6) : Prop :=
  b.(b_seen_starts) = true /\ set_x_in_use true b.(b_lease) = reload6 l.

Lemma duid_zero l r : r.(x_duid) = replicate DUID_MAX_LEN 0 -> r.(x_duid_len) = 0 -> duid6_ok l ->
  (if l.(x_duid_len) =? 0 then r else with_duid l r)
  = set_x_duid_len l.(x_duid_len)
      (set_x_duid (duid_bytes l ++ replicate (DUID_MAX_LEN - length (duid_bytes l)) 0) r).
Proof.
  intros H H0 Hok. destruct (Z.eqb_spec l.(x_duid_len) 0) as [E|E].
  - unfold duid_bytes. rewrite E. change (take (Z.to_nat 0) l.(x_duid)) with (@nil Z). cbn [length app].
    rewrite Nat.sub_0_r, <- H, <- H0. by destruct r.
  - unfold with_duid, write_duid. by rewrite H, drop_replicate.
Qed.

Lemma if_lease (c : bool) f b : b_lease (if c then b else on_lease f b) = if c then b_lease b else f (b_lease b).
Proof. by destruct c. Qed.

Lemma hostname_zero (h : cstr) r : r.(x_client_hostname) = [] ->
  (if bool_decide (h = []) then r else set_x_client_hostname h r) = set_x_client_hostname h r.
Proof. intros H. case_bool_decide as E; [|done]. rewrite E, <- H. by destruct r. Qed.

Lemma start6_zero l : x_duid (start6 l) = replicate DUID_MAX_LEN 0 /\ x_duid_len (start6 l) = 0
  /\ x_client_hostname (start6 l) = [].
Proof. unfold start6. by destruct (x_type l). Qed.

Lemma save_steps l : lease6_ok l ->
  exists b, steps6 (save_statements l) (mk_block6 (start6 l) false false) b /\ makes6 l b.
Proof.
  intros Hok. pose proof Hok as (_ & Hd & Hi & _). unfold save_statements.
  set (b1 := with_times6 l (mk_block6 (start6 l) false false)).
  set (b2 := if l.(x_duid_len) =? 0 then b1 else on_lease (with_duid l) b1).
  set (b3 := on_lease (with_state6 l) (on_lease (set_x_iaid l.(x_iaid)) b2)).
  exists (if bool_decide (l.(x_client_hostname) = []) then b3 else on_lease (set_x_client_hostname l.(x_client_hostname)) b3).
  split.
  - eapply steps6_app; [by apply times6_steps|]. apply (steps6_app _ _ _ b2).
    { unfold b2. destruct (Z.eqb_spec l.(x_duid_len) 0); cbn [negb if_line]; [constructor|by apply duid_read]. }
    eapply steps6_app; [by apply iaid_read|]. eapply steps6_app; [apply states6_steps|by apply strings6_steps].
  - destruct (start6_zero l) as (Z1 & Z2 & Z3).
    assert (b_lease b2 = set_x_duid_len l.(x_duid_len)
      (set_x_duid (duid_bytes l ++ replicate (DUID_MAX_LEN - length (duid_bytes l)) 0) (b_lease b1))) as E2.
    { unfold b2. rewrite if_lease. by apply duid_zero. }
    split; [unfold b3, b2, b1; by repeat case_match|]. rewrite if_lease, hostname_zero.
    + unfold b3. cbn [on_lease b_lease]. rewrite E2. unfold reload6, b1, start6. by destruct (x_type l).
    + unfold b3. cbn [on_lease b_lease]. rewrite E2. exact Z3.
Qed.

Lemma append_steps l : lease6_ok l ->
  exists b, steps6 (append_statements l) (mk_block6 (start6 l) false false) b /\ makes6 l b.
Proof.
  intros Hok. pose proof Hok as (_ & Hd & Hi & _). unfold append_statements.
  set (b0 := mk_block6 (start6 l) false false).
  set (b1 := if l.(x_duid_len) =? 0 then b0 else on_lease (with_duid l) b0).
  set (b3 := on_lease (with_state6 l) (with_times6 l (on_lease (set_x_iaid l.(x_iaid)) b1))).
  exists (if bool_decide (l.(x_client_hostname) = []) then b3 else on_lease (set_x_client_hostname l.(x_client_hostname)) b3).
  split.
  - apply (steps6_app _ _ _ b1).
    { unfold b1. destruct (Z.eqb_spec l.(x_duid_len) 0) as [E|E]; [|by apply duid_read].
      assert (duid_hex6 l = []) as -> by (unfold duid_hex6; by rewrite E). apply duid_empty. }
    eapply steps6_app; [by apply iaid_read|]. eapply steps6_app; [by apply times6_steps|].
    eapply steps6_app; [apply states6_steps|by apply strings6_steps].
  - destruct (start6_zero l) as (Z1 & Z2 & Z3).
    assert (b_lease b1 = set_x_duid_len l.(x_duid_len)
      (set_x_duid (duid_bytes l ++ replicate (DUID_MAX_LEN - length (duid_bytes l)) 0) (b_lease b0))) as E1.
    { unfold b1. rewrite if_lease. by apply duid_zero. }
    split; [by case_match|]. rewrite if_lease, hostname_zero.
    + unfold b3. cbn [on_lease with_times6 b_lease]. rewrite E1. unfold reload6, b0, start6. by destruct (x_type l).
    + unfold b3. cbn [on_lease with_times6 b_lease]. rewrite E1. exact Z3.
Qed.

(** ** The file *)

(** Lines and what loading them does to the leases. *)
Definition loads6 (lines : list cstr) (f : list dhcpv6_lease_t -> list dhcpv6_lease_t) : Prop :=
  forall fuel0 fuel junk rest ls,
    (length (print_lines lines ++ rest) < fuel)%nat -> (length (print_lines lines ++ rest) < fuel0)%nat ->
    exists fuel', (length rest < fuel')%nat
      /\ load6_loop inet_pton6 mktime fuel0 fuel junk (print_lines lines ++ rest) ls
         = load6_loop inet_pton6 mktime fuel0 fuel' junk rest (f ls).

Lemma loads6_nil : loads6 [] (fun ls => ls).
Proof. intros fuel0 fuel junk rest ls Hf _. by exists fuel. Qed.

Lemma loads6_app l1 l2 f g : loads6 l1 f -> loads6 l2 g -> loads6 (l1 ++ l2) (fun ls => g (f ls)).
Proof.
  intros H1 H2 fuel0 fuel junk rest ls Hf Hf0. rewrite print_app, <- app_assoc in *.
  destruct (H1 fuel0 fuel junk (print_lines l2 ++ rest) ls Hf Hf0) as (fuel1 & Hf1 & ->).
  rewrite length_app in Hf0. by apply H2; [|lia].
Qed.

(** A line outside of the blocks that is passed over. *)
Definition passed6 (l : cstr) : bool :=
  blank6 (trim l) || (negb (starts (trim l) "lease ") && negb (starts (trim l) "prefix ")).

Lemma loads6_passed l : text l -> Z.of_nat (length l) < 65535 -> passed6 l = true -> loads6 [l] (fun ls => ls).
Proof.
  intros Ht Hl Hp fuel0 fuel junk rest ls Hf _. destruct (text_not _ Ht) as [H10 H0].
  destruct fuel as [|fuel]; [lia|]. rewrite print_length in Hf. rewrite print_cons. cbn [load6_loop].
  change (print_lines [] ++ rest) with rest in *. exists fuel. split; [lia|].
  rewrite getline_read by done. rewrite c_string_id by done. unfold passed6 in Hp.
  destruct (blank6 (trim l)); [done|]. cbn [orb] in Hp. apply andb_true_iff in Hp as [Hp1 Hp2].
  apply negb_true_iff in Hp1, Hp2. by rewrite Hp1, Hp2.
Qed.

Lemma store_in_use ls l : store_lease6 ls (set_x_in_use true l) = store_lease6 ls l.
Proof. done. Qed.

Lemma load_made ls l b : lease6_ok l -> makes6 l b -> load_lease6 ls (closed6 b) = store_lease6 ls (reload6 l).
Proof.
  intros (_ & _ & _ & (Hs & Hs0) & (He & He0) & _) [Hseen Hl]. unfold closed6. rewrite Hseen. cbn [orb load_lease6].
  assert (x_starts (b_lease b) = reload_time (x_starts l) /\ x_ends (b_lease b) = reload_time (x_ends l)) as [-> ->].
  { split; [change (x_starts (b_lease b)) with (x_starts (set_x_in_use true (b_lease b)))
           |change (x_ends (b_lease b)) with (x_ends (set_x_in_use true (b_lease b)))]; by rewrite Hl. }
  pose proof (reload_time_pos _ Hs Hs0). pose proof (reload_time_pos _ He He0).
  destruct (Z.eqb_spec (reload_time (x_starts l)) 0); [lia|]. destruct (Z.eqb_spec (reload_time (x_ends l)) 0); [lia|].
  cbn [negb andb]. by rewrite <- Hl, store_in_use.
Qed.

Lemma ip6_text a : ip6_ok inet_pton6 inet_ntop6 a -> text (inet_ntop6 a).
Proof.
  intros (_ & _ & Hx & _). eapply Forall_impl; [exact Hx|]. cbv beta. unfold isxdigit. intros. lia.
Qed.

Lemma head_line l : lease6_ok l ->
  (10 ∉ block_head6 inet_ntop6 l) /\ Z.of_nat (length (block_head6 inet_ntop6 l)) < 65535
  /\ c_string (block_head6 inet_ntop6 l) = block_head6 inet_ntop6 l
  /\ trim (block_head6 inet_ntop6 l) = block_head6 inet_ntop6 l /\ blank6 (block_head6 inet_ntop6 l) = false.
Proof.
  intros (Ht & _). assert (forall p r, keyw p -> text r -> (length r <= 100)%nat ->
    (10 ∉ lit p ++ 32 :: r ++ [32; 123]) /\ Z.of_nat (length (lit p ++ 32 :: r ++ [32; 123])) < 65535
    /\ c_string (lit p ++ 32 :: r ++ [32; 123]) = lit p ++ 32 :: r ++ [32; 123]
    /\ trim (lit p ++ 32 :: r ++ [32; 123]) = lit p ++ 32 :: r ++ [32; 123]
    /\ blank6 (lit p ++ 32 :: r ++ [32; 123]) = false) as H.
  { intros p r (Hk & (c & Hc & Hcs & H35 & _) & Hkl) Hr Hrl.
    assert (text (lit p ++ 32 :: r ++ [32; 123])) as Htx.
    { apply key_text; [done|]. apply Forall_app. split; [done|]. closed_prop. }
    destruct (text_not _ Htx) as [H10 H0]. destruct (lit p) as [|x k] eqn:E; [done|]. injection Hc as ->. split_and!.
    - done.
    - rewrite length_app. cbn [length]. rewrite length_app. cbn [length] in *. lia.
    - by apply c_string_id.
    - apply trim6_tight; [by exists c|]. exists 123. split; [|done].
      replace ((c :: k) ++ 32 :: r ++ [32; 123]) with (((c :: k) ++ 32 :: r ++ [32]) ++ [123])
        by (rewrite <- !app_assoc; cbn [app]; by rewrite <- !app_assoc). by rewrite last_snoc.
    - unfold blank6. cbn [app]. rewrite bool_decide_eq_false_2 by done.
      change (byte_at (c :: k ++ 32 :: r ++ [32; 123]) 0) with c. by destruct (Z.eqb_spec c 35). }
  unfold block_head6. destruct (x_type l).
  - apply H; [kw|by apply ip6_text|]. destruct Ht as (_ & _ & _ & ?). lia.
  - destruct Ht as [Ha Hp]. replace (inet_ntop6 (x_prefix_v6 l) ++ 47 :: dec (x_plen l) ++ [32; 123])
      with ((inet_ntop6 (x_prefix_v6 l) ++ 47 :: dec (x_plen l)) ++ [32; 123]) by (by rewrite <- app_assoc).
    apply H; [kw| |].
    + apply Forall_app. split; [by apply ip6_text|]. constructor; [lia|].
      apply digits_text, dec_digits. unfold is_u8 in Hp. lia.
    + rewrite length_app. cbn [length]. unfold dec. pose proof (length_dec_loop 20 (x_plen l) []) as Hd. cbn [length] in Hd.
      destruct Ha as (_ & _ & _ & ?). lia.
Qed.

(** The first line of a block, and the block behind it. *)
Lemma na_block l fuel stmts b rest :
  lease6_ok l -> x_type l = Lease6_IA_NA -> trim (block_head6 inet_ntop6 l) = block_head6 inet_ntop6 l ->
  steps6 stmts (mk_block6 (start6 l) false false) b ->
  (length (print_lines (closed_lines stmts) ++ rest) < fuel)%nat ->
  parse_block_ia_na inet_pton6 mktime fuel (print_lines (closed_lines stmts) ++ rest) (block_head6 inet_ntop6 l)
  = Ret (closed6 b, rest).
Proof.
  intros (Ha & _) Et Htr Hst Hf. unfold parse_block_ia_na. rewrite Htr. unfold block_head6, start6 in *. rewrite Et in *.
  rewrite drop_app_length. destruct (ip6_word _ _ _ Ha) as (Hne & Hw & Hl).
  rewrite scan_s_word; [|done|done|lia|right; by exists [123]]. cbn [mbind option_bind]. destruct Ha as [-> _].
  by apply na_steps.
Qed.

Lemma pd_block l fuel junk stmts b rest :
  lease6_ok l -> x_type l = Lease6_IA_PD -> trim (block_head6 inet_ntop6 l) = block_head6 inet_ntop6 l ->
  steps6 stmts (mk_block6 (start6 l) false false) b ->
  (length (print_lines (closed_lines stmts) ++ rest) < fuel)%nat ->
  parse_block_ia_pd inet_pton6 mktime fuel junk (print_lines (closed_lines stmts) ++ rest) (block_head6 inet_ntop6 l)
  = Ret (closed6 b, rest).
Proof.
  intros (Ha & _) Et Htr Hst Hf. unfold parse_block_ia_pd. rewrite Htr. unfold block_head6, start6 in *. rewrite Et in *.
  destruct Ha as [Ha Hp]. rewrite drop_app_length. pose proof (ip6_word _ _ _ Ha) as (Hne & Hw & Hl).
  destruct Ha as (Hpt & _ & Hx & _). set (t := inet_ntop6 (x_prefix_v6 l)) in *.
  change (drop_while isspace (32 :: t ++ 47 :: dec (x_plen l) ++ [32; 123]))
    with (drop_while isspace (t ++ 47 :: dec (x_plen l) ++ [32; 123])).
  assert (drop_while isspace (t ++ 47 :: dec (x_plen l) ++ [32; 123]) = t ++ 47 :: dec (x_plen l) ++ [32; 123]) as ->.
  { destruct t as [|c r]; [done|]. apply drop_while_head. by apply Forall_inv in Hw. }
  unfold scan_set. rewrite take_while_app; [|  |done].
  2:{ eapply Forall_impl; [exact Hx|]. cbv beta. intros c Hc. apply negb_true_iff, Z.eqb_neq. unfold isxdigit in Hc. lia. }
  rewrite take_ge by lia. destruct t as [|c r] eqn:E; [done|]. rewrite <- E in *. cbn [mbind option_bind].
  rewrite drop_app_length, scan_char_hit. cbn [mbind option_bind].
  change (scan_u (dec (x_plen l) ++ [32; 123])) with (scan_u (32 :: dec (x_plen l) ++ [32; 123])).
  rewrite scan_u_dec by (done || unfold is_u32, is_u8 in *; lia). cbn [mbind option_bind]. rewrite Hpt. cbn [mbind option_bind].
  assert (u8 (x_plen l) = x_plen l) as -> by (unfold u8, is_u8 in *; rewrite Z.mod_small; lia). by apply pd_steps.
Qed.

(** The block of a lease, with statements that make it. *)
Lemma loads6_block l stmts b :
  lease6_ok l -> steps6 stmts (mk_block6 (start6 l) false false) b -> makes6 l b ->
  loads6 (block_head6 inet_ntop6 l :: closed_lines stmts) (fun ls => store_lease6 ls (reload6 l)).
Proof.
  intros Hok Hst Hm fuel0 fuel junk rest ls Hf Hf0. destruct (head_line l Hok) as (H10 & Hl & Hc & Htr & Hb).
  destruct fuel as [|fuel]; [lia|]. rewrite print_length in Hf, Hf0. rewrite print_cons. cbn [load6_loop].
  rewrite getline_read by done. rewrite Hc, Htr, Hb. exists fuel.
  split; [rewrite length_app in Hf; lia|]. rewrite <- (load_made ls l b Hok Hm).
  destruct (x_type l) eqn:Et.
  - assert (starts (block_head6 inet_ntop6 l) "lease " = true) as -> by (unfold block_head6; rewrite Et; reflexivity).
    rewrite (na_block l fuel0 stmts b rest) by (done || lia). by rewrite bind_Ret.
  - assert (starts (block_head6 inet_ntop6 l) "lease " = false /\ starts (block_head6 inet_ntop6 l) "prefix " = true)
      as [-> ->] by (unfold block_head6; rewrite Et; split; reflexivity).
    rewrite (pd_block l fuel0 junk stmts b rest) by (done || lia). by rewrite bind_Ret.
Qed.

Lemma blank_loads : loads6 [[]] (fun ls => ls).
Proof. apply loads6_passed; [constructor|simpl; lia|done]. Qed.

Lemma save_loads l : lease6_ok l -> loads6 (save_lines6 inet_ntop6 localtime l) (fun ls => store_lease6 ls (reload6 l)).
Proof.
  intros Hok. destruct (save_steps l Hok) as (b & Hst & Hm).
  replace (save_lines6 inet_ntop6 localtime l) with ([[]] ++ block_head6 inet_ntop6 l :: closed_lines (save_statements l)).
  - exact (loads6_app _ _ _ _ blank_loads (loads6_block l _ b Hok Hst Hm)).
  - unfold save_lines6, closed_lines, save_statements. by repeat (rewrite <- app_assoc || cbn [app]).
Qed.

Lemma append_loads l : lease6_ok l -> loads6 (append_lines6 inet_ntop6 localtime l) (fun ls => store_lease6 ls (reload6 l)).
Proof.
  intros Hok. destruct (append_steps l Hok) as (b & Hst & Hm).
  replace (append_lines6 inet_ntop6 localtime l) with ((block_head6 inet_ntop6 l :: closed_lines (append_statements l)) ++ [[]]).
  - exact (loads6_app _ _ _ _ (loads6_block l _ b Hok Hst Hm) blank_loads).
  - unfold append_lines6, closed_lines, append_statements. by repeat (rewrite <- app_assoc || cbn [app]).
Qed.

Lemma loads6_all lines ls :
  (forall l, l ∈ ls -> loads6 (lines l) (fun acc => store_lease6 acc (reload6 l))) ->
  loads6 (concat (lines <$> ls)) (fun acc => foldl store_lease6 acc (reload6 <$> ls)).
Proof.
  induction ls as [|l ls IH]; intros H; [apply loads6_nil|]. cbn [fmap list_fmap concat foldl].
  apply (loads6_app (lines l) (concat (lines <$> ls)) (fun acc => store_lease6 acc (reload6 l))
    (fun acc => foldl store_lease6 acc (reload6 <$> ls))); [apply H; by left|]. apply IH. intros x Hx. apply H. by right.
Qed.

(** Leases appended one after the other. *)
Definition append_all6 (ls : list dhcpv6_lease_t) (file : option cstr) : option cstr :=
  foldl (fun file l => (lease_v6_db_append inet_ntop6 localtime true l file).2) file ls.

Lemma append_all6_text ls contents :
  append_all6 ls (Some contents) = Some (contents ++ print_lines (concat (append_lines6 inet_ntop6 localtime <$> ls))).
Proof.
  revert contents. induction ls as [|l ls IH]; intros contents; [by rewrite app_nil_r|]. cbn [append_all6 foldl].
  change (lease_v6_db_append inet_ntop6 localtime true l (Some contents)).2
    with (Some (contents ++ print_lines (append_lines6 inet_ntop6 localtime l))).
  fold (append_all6 ls (Some (contents ++ print_lines (append_lines6 inet_ntop6 localtime l)))). rewrite IH.
  cbn [fmap list_fmap concat]. by rewrite print_app, <- app_assoc.
Qed.

(** The lines before the leases. *)
Definition preamble6 (w : cstr) : list cstr := header_lines6 ++ [lit "# Last updated: " ++ w; []].

Lemma preamble6_loads w : text w -> (length w < 1000)%nat -> loads6 (preamble6 w) (fun ls => ls).
Proof.
  intros Hw Hl. unfold preamble6. apply (loads6_app _ _ (fun ls => ls) (fun ls => ls)).
  - assert (forall l, l ∈ header_lines6 -> loads6 [l] (fun ls => ls)) as H.
    { assert (forallb (fun l => bool_decide (text l) && (Z.of_nat (length l) <? 65535) && passed6 l) header_lines6 = true) as E
        by (vm_compute; reflexivity).
      intros l Hin. pose proof (forallb_elem _ _ E l Hin) as Hp. cbv beta in Hp. rewrite !andb_true_iff in Hp.
      destruct Hp as [[H1 H2] H3]. apply bool_decide_eq_true_1 in H1. apply loads6_passed; [done|lia|done]. }
    revert H. generalize header_lines6. intros hs. induction hs as [|h hs IH]; intros H; [apply loads6_nil|].
    apply (loads6_app [h] hs (fun ls => ls) (fun ls => ls)); [apply H; by left|]. apply IH. intros l Hin. apply H. by right.
  - apply (loads6_app [lit "# Last updated: " ++ w] [[]] (fun ls => ls) (fun ls => ls)); [|apply blank_loads].
    apply loads6_passed; [apply Forall_app; split; [closed_prop|done]| |].
    + rewrite length_app. change (length (lit "# Last updated: ")) with 16%nat. lia.
    + unfold passed6. assert (blank6 (trim (lit "# Last updated: " ++ w)) = true) as ->; [|done].
      unfold trim, ltrim, rtrim_inplace.
      change (drop_while isspace (lit "# Last updated: " ++ w)) with (35 :: (drop 1 (lit "# Last updated: ") ++ w)).
      by rewrite drop_while_end_cons.
Qed.

(** *** Leases with different keys are stored one after the other *)

Lemma same_key a b :
  same_lease6 (reload6 a) (reload6 b) = bool_decide (lease_key (reload6 b) = lease_key (reload6 a)).
Proof.
  unfold same_lease6, lease_key, memeq. cbn [reload6 x_in_use x_type x_ip6_addr x_prefix_v6 x_plen].
  destruct (x_type a), (x_type b); cbn [andb].
  - rewrite bool_decide_eq_true_2 by done. cbn [andb]. apply bool_decide_ext. split; congruence.
  - rewrite bool_decide_eq_false_2 by done. symmetry. by apply bool_decide_eq_false_2.
  - rewrite bool_decide_eq_false_2 by done. symmetry. by apply bool_decide_eq_false_2.
  - rewrite bool_decide_eq_true_2 by done. cbn [andb]. destruct (Z.eqb_spec (x_plen b) (x_plen a)); cbn [andb].
    + apply bool_decide_ext. split; congruence.
    + symmetry. apply bool_decide_eq_false_2. congruence.
Qed.

Lemma store_distinct ls : forall acc,
  NoDup (lease_key <$> (acc ++ (reload6 <$> ls))) -> (length acc + length ls <= LEASES6_MAX)%nat ->
  (forall x, x ∈ acc -> exists l, x = reload6 l) ->
  foldl store_lease6 acc (reload6 <$> ls) = acc ++ (reload6 <$> ls).
Proof.
  induction ls as [|l ls IH]; intros acc Hnd Hlen Hacc; [by rewrite app_nil_r|]. cbn [fmap list_fmap foldl length] in *.
  assert (store_lease6 acc (reload6 l) = acc ++ [reload6 l]) as ->.
  { unfold store_lease6. destruct (find_index _ acc) as [i|] eqn:E.
    - exfalso. apply find_index_lookup in E as (x & Hx & Hs). apply list_elem_of_lookup_2 in Hx.
      destruct (Hacc x Hx) as [l' ->]. rewrite same_key in Hs. apply bool_decide_eq_true_1 in Hs.
      rewrite fmap_app in Hnd. apply NoDup_app in Hnd as (_ & Hd & _). apply (Hd (lease_key (reload6 l'))).
      + apply list_elem_of_fmap. eauto.
      + rewrite Hs. by left.
    - rewrite bool_decide_eq_true_2 by lia. done. }
  rewrite IH.
  - by rewrite <- app_assoc.
  - by rewrite <- app_assoc.
  - rewrite length_app. cbn [length]. lia.
  - intros x. rewrite elem_of_app, list_elem_of_singleton. intros [Hx| ->]; [by apply Hacc|by eexists].
Qed.

Lemma reload_key l : l.(x_in_use) = true -> lease_key (reload6 l) = lease_key l.
Proof. intros H. unfold lease_key. rewrite H. cbn [reload6 x_in_use x_type x_ip6_addr x_prefix_v6 x_plen]. by destruct (x_type l). Qed.

Lemma omap_in_use ls : omap lease_key ls = omap lease_key (List.filter x_in_use ls).
Proof.
  induction ls as [|l ls IH]; [done|]. cbn [omap list_omap List.filter]. unfold lease_key at 1.
  destruct (x_in_use l) eqn:E; [|exact IH]. cbn [omap list_omap]. unfold lease_key at 2. rewrite E. by rewrite IH.
Qed.

Lemma keys_in_use ls : Forall (fun l => x_in_use l = true) ls -> NoDup (omap lease_key ls) -> NoDup (lease_key <$> (reload6 <$> ls)).
Proof.
  intros Hu. assert (lease_key <$> (reload6 <$> ls) = Some <$> omap lease_key ls) as ->.
  { induction Hu as [|l ls Hl _ IH]; [done|]. cbn [fmap list_fmap omap list_omap]. rewrite reload_key by done. rewrite IH.
    assert (exists k, lease_key l = Some k) as [k Hk] by (unfold lease_key; rewrite Hl; eauto). by rewrite Hk. }
  intros Hn. apply NoDup_fmap_2; [|done]. by intros ? ? [= ->].
Qed.

(** What loading makes of the entries of the file: the lease of an entry takes the place of
    the one for the same address or prefix, or follows the others while there is room. *)
Definition put6 (ls : list dhcpv6_lease_t) (l : dhcpv6_lease_t) : list dhcpv6_lease_t :=
  if existsb (fun x => bool_decide (lease_key x = lease_key l)) ls
  then (fun x => if bool_decide (lease_key x = lease_key l) then l else x) <$> ls
  else if bool_decide (length ls < LEASES6_MAX)%nat then ls ++ [l] else ls.

Lemma replace_key ls i x l : NoDup (lease_key <$> ls) -> ls !! i = Some x -> lease_key x = lease_key l ->
  <[i := l]> ls = (fun x => if bool_decide (lease_key x = lease_key l) then l else x) <$> ls.
Proof.
  intros Hn Hi Hk. apply list_eq. intros j. rewrite list_lookup_fmap. destruct (decide (i = j)) as [<-|Hj].
  - rewrite list_lookup_insert_eq by (by eapply lookup_lt_Some). rewrite Hi. cbn. by rewrite bool_decide_eq_true_2.
  - rewrite list_lookup_insert_ne by done. destruct (ls !! j) as [y|] eqn:Ej; [|done]. cbn.
    rewrite bool_decide_eq_false_2; [done|]. intros Hy. apply Hj. eapply (NoDup_lookup _ i j (lease_key x) Hn).
    + by rewrite list_lookup_fmap, Hi.
    + rewrite list_lookup_fmap, Ej. cbn. congruence.
Qed.

Lemma store_put acc l : NoDup (lease_key <$> acc) -> (forall x, x ∈ acc -> exists l, x = reload6 l) ->
  store_lease6 acc (reload6 l) = put6 acc (reload6 l).
Proof.
  intros Hn Hacc. unfold store_lease6, put6.
  change (set_x_in_use true (reload6 l)) with (reload6 l). destruct (find_index _ acc) as [i|] eqn:E.
  - apply find_index_lookup in E as (x & Hx & Hs). destruct (Hacc x) as [l' ->]; [by eapply list_elem_of_lookup_2|].
    rewrite same_key in Hs. apply bool_decide_eq_true_1 in Hs.
    assert (existsb (fun x => bool_decide (lease_key x = lease_key (reload6 l))) acc = true) as ->.
    { apply existsb_exists. exists (reload6 l'). split; [by apply list_elem_of_In; eapply list_elem_of_lookup_2|].
      by apply bool_decide_eq_true_2. }
    by eapply replace_key.
  - assert (existsb (fun x => bool_decide (lease_key x = lease_key (reload6 l))) acc = false) as ->; [|done].
    apply not_true_iff_false. intros (x & Hx%list_elem_of_In & Hk)%existsb_exists. destruct (Hacc x Hx) as [l' ->].
    rewrite <- same_key in Hk. pose proof (proj1 (find_index_None _ acc) E _ Hx). congruence.
Qed.

Lemma put6_ok acc l : NoDup (lease_key <$> acc) -> (forall x, x ∈ acc -> exists l, x = reload6 l) ->
  NoDup (lease_key <$> put6 acc (reload6 l)) /\ (forall x, x ∈ put6 acc (reload6 l) -> exists l, x = reload6 l).
Proof.
  intros Hn Hacc. unfold put6. destruct (existsb _ acc) eqn:E; [|destruct (bool_decide _); [|done]].
  - split.
    + rewrite <- list_fmap_compose. erewrite list_fmap_ext; [exact Hn|]. intros _ x _. cbn.
      destruct (bool_decide _) eqn:B; [|done]. by apply bool_decide_eq_true_1 in B.
    + intros x (y & -> & Hy)%list_elem_of_fmap. destruct (bool_decide _); [by eexists|by apply Hacc].
  - split.
    + rewrite fmap_app. apply NoDup_app. split_and!; [done| |apply NoDup_singleton].
      intros k (x & -> & Hx)%list_elem_of_fmap Hk. apply list_elem_of_singleton in Hk.
      apply not_true_iff_false in E. apply E, existsb_exists. exists x. split; [by apply list_elem_of_In|].
      by apply bool_decide_eq_true_2.
    + intros x. rewrite elem_of_app, list_elem_of_singleton. intros [Hx| ->]; [by apply Hacc|by eexists].
Qed.

Lemma store_puts ls : forall acc, NoDup (lease_key <$> acc) -> (forall x, x ∈ acc -> exists l, x = reload6 l) ->
  foldl store_lease6 acc (reload6 <$> ls) = foldl put6 acc (reload6 <$> ls).
Proof.
  induction ls as [|l ls IH]; intros acc Hn Hacc; [done|]. cbn [fmap list_fmap foldl]. rewrite store_put by done.
  destruct (put6_ok acc l Hn Hacc). by apply IH.
Qed.

(** The text that save writes. *)
Lemma saved_text now w db file : ctime now = w ++ [10] ->
  (lease_v6_db_save inet_ntop6 localtime ctime true now db file).2
  = Some (print_lines (preamble6 w ++ concat (save_lines6 inet_ntop6 localtime <$> List.filter x_in_use db.(d_leases)))).
Proof.
  intros Hw. unfold lease_v6_db_save. cbn [negb snd]. f_equal. unfold preamble6. rewrite !print_app, Hw.
  unfold print_lines at 4. cbn [fmap list_fmap concat]. by repeat (rewrite <- app_assoc || cbn [app]).
Qed.

(** Loading the lines that save and append write. *)
Lemma load_written (w : cstr) (db : lease_v6_db_t) (ls : list dhcpv6_lease_t) (junk : cstr) (fuel : nat) :
  text w -> (length w < 1000)%nat -> Forall lease6_ok (List.filter x_in_use db.(d_leases) ++ ls) -> db6_wf db ->
  let contents := print_lines (preamble6 w ++ concat (save_lines6 inet_ntop6 localtime <$> List.filter x_in_use db.(d_leases))
                               ++ concat (append_lines6 inet_ntop6 localtime <$> ls)) in
  (length contents < fuel)%nat ->
  load6_loop inet_pton6 mktime fuel fuel junk contents [] = Ret (foldl put6 (reload6 <$> List.filter x_in_use db.(d_leases)) (reload6 <$> ls)).
Proof.
  intros Hwt Hwl Hok [Hbound Hkeys] contents Hf. unfold contents in *. clear contents.
  set (ins := List.filter x_in_use db.(d_leases)) in *. apply Forall_app in Hok as [Hok1 Hok2].
  pose proof (loads6_app _ _ _ _ (preamble6_loads w Hwt Hwl) (loads6_app _ _ _ _
    (loads6_all (save_lines6 inet_ntop6 localtime) ins (fun l Hl => save_loads l (proj1 (Forall_forall _ _) Hok1 l Hl)))
    (loads6_all (append_lines6 inet_ntop6 localtime) ls (fun l Hl => append_loads l (proj1 (Forall_forall _ _) Hok2 l Hl))))) as H.
  specialize (H fuel fuel junk [] []). rewrite app_nil_r in H. destruct (H Hf Hf) as (fuel' & Hf' & ->).
  destruct fuel' as [|fuel']; [lia|]. cbn [load6_loop rd_getline].
  assert (NoDup (lease_key <$> (reload6 <$> ins))) as Hnd.
  { apply keys_in_use; [|unfold ins; by rewrite <- omap_in_use].
    apply Forall_forall. intros l Hl. apply list_elem_of_In, filter_In in Hl. tauto. }
  f_equal. rewrite (store_distinct ins []); [| done| |by intros x Hx%elem_of_nil].
  - apply store_puts; [done|]. intros x (l & -> & _)%list_elem_of_fmap. by eexists.
  - cbn [length]. etransitivity; [apply filter_length_le|done].
Qed.

(** C20: what the lease file keeps.  Loading a file that [lease_v6_db_save] wrote and
    [lease_v6_db_append] extended gives the leases in use of the saved database in their
    order, each appended lease then replacing the one for its address or prefix or following
    the others ([put6]).  Of a lease type, DUID, IAID, address or prefix, hostname and state
    are read back; its times are those of [reload_time]: the number of the weekday unless it
    is a Sunday ([reload6]). *)
Theorem lease6_file_reload (now : Z) (db db' : lease_v6_db_t) (ls : list dhcpv6_lease_t) (file : option cstr)
    (junk : cstr) (fuel : nat) :
  ctime_ok ctime now -> Forall lease6_ok (List.filter x_in_use db.(d_leases) ++ ls) -> db6_wf db ->
  let saved := (lease_v6_db_save inet_ntop6 localtime ctime true now db file).2 in
  (length (default [] (append_all6 ls saved)) < fuel)%nat ->
  lease_v6_db_load inet_pton6 mktime fuel junk (append_all6 ls saved) db'
  = Ret (0, set_d_leases (foldl put6 (reload6 <$> List.filter x_in_use db.(d_leases)) (reload6 <$> ls)) db').
Proof.
  intros (w & Hw & Hwt & Hwl) Hok Hwf saved Hf. unfold saved in *. clear saved. rewrite (saved_text now w) in * by done.
  rewrite append_all6_text, <- print_app, <- app_assoc in *. cbn [lease_v6_db_load default] in *.
  by rewrite (load_written w db ls junk fuel).
Qed.
End Reload.

(** ** Where loading ends *)

Lemma trim_idem s : trim (trim s) = trim s.
Proof.
  unfold trim, ltrim, rtrim_inplace. set (t := drop_while isspace s).
  assert (drop_while isspace (drop_while_end isspace t) = drop_while_end isspace t) as ->.
  - assert (drop_while isspace t = t) as Ht by apply drop_while_idem. destruct t as [|c r] eqn:E; [done|].
    destruct (isspace c) eqn:Hc; [|by rewrite drop_while_end_cons, drop_while_head].
    cbn [drop_while] in Ht. rewrite Hc in Ht. pose proof (length_drop_while isspace r) as Hl. rewrite Ht in Hl.
    cbn [length] in Hl. lia.
  - unfold drop_while_end. by rewrite rev_involutive, drop_while_idem.
Qed.

(** What is left of a file after some of its lines. *)
Inductive rest_of : cstr -> cstr -> Prop :=
  | rest_all fp : rest_of fp fp
  | rest_line fp line fp' r : rd_getline fp = Some (line, fp') -> rest_of fp' r -> rest_of fp r.

Lemma rest_of_trans a b c : rest_of a b -> rest_of b c -> rest_of a c.
Proof. induction 1; [done|]. intros H'. by eapply rest_line; [|apply IHrest_of]. Qed.

Lemma getline_shorter fp line fp' : rd_getline fp = Some (line, fp') -> (length fp' < length fp)%nat.
Proof.
  unfold rd_getline. destruct fp as [|c r]; [done|]. cbv zeta. intros H. apply (f_equal (fmap snd)) in H.
  cbn [fmap option_fmap option_map snd] in H. apply (inj Some) in H as <-. rewrite length_drop.
  pose proof (length_drop_while (fun c => negb (c =? 10)) (c :: r)) as Hl. cbn [length] in *. lia.
Qed.

Lemma rest_of_shorter a b : rest_of a b -> (length b <= length a)%nat.
Proof. induction 1 as [|fp line fp' r H _ IH]; [done|]. apply getline_shorter in H. lia. Qed.

(** No line of the file closes a block. *)
Definition unclosed (fp : cstr) : Prop :=
  forall fp' line r, rest_of fp fp' -> rd_getline fp' = Some (line, r) -> (byte_at (trim (c_string line)) 0 =? 125) = false.

(** A computation that has its result with more than [n] units of fuel, and no other one
    with less. *)
Definition settles {A} (f : nat -> outcome A) (n : nat) (a : A) : Prop :=
  forall fuel, f fuel = Ret a \/ (f fuel = Fault OutOfFuel /\ (fuel <= n)%nat).

Section Ends.
Context (inet_pton6 : cstr -> option in6_addr) (mktime : tm -> Z).

#[local] Abbreviation parse_lease6_line := (parse_lease6_line mktime).
#[local] Abbreviation na_loop := (na_loop mktime).
#[local] Abbreviation pd_loop := (pd_loop mktime).
#[local] Abbreviation load6_loop := (load6_loop inet_pton6 mktime).

(** Whether a line is refused does not depend on the lease. *)
Lemma line_accepted s b b1 b' : parse_lease6_line s b = Some b1 -> exists b1', parse_lease6_line s b' = Some b1'.
Proof.
  unfold LeaseFileV6.parse_lease6_line. destruct (starts s "starts"); [eauto|]. destruct (starts s "ends"); [eauto|].
  destruct (starts s "duid"); [|cbn; eauto]. unfold duid_line. destruct (value_of "duid" 383 s) as [h|]; [|cbn; eauto].
  destruct (duid_hex_to_bin _ _) as [n bytes]. destruct (n <? 0); [done|cbn; eauto].
Qed.

(** A loop that reads a line and goes on settles if it does after the line. *)
Lemma settles_step {A} (f g : nat -> outcome A) n m a :
  f 0%nat = Fault OutOfFuel -> (forall fuel, f (S fuel) = g fuel) -> settles g m a -> (m < n)%nat -> settles f n a.
Proof.
  intros H0 HS Hg Hm [|fuel]; [right; split; [done|lia]|]. rewrite HS. destruct (Hg fuel) as [?|[? ?]]; [by left|].
  right. split; [done|lia].
Qed.

Lemma settles_now {A} (f : nat -> outcome A) n a :
  f 0%nat = Fault OutOfFuel -> (forall fuel, f (S fuel) = Ret a) -> settles f n a.
Proof. intros H0 HS [|fuel]; [right; split; [done|lia]|left; apply HS]. Qed.

Lemma na_settles fp : forall b, exists parsed r,
  rest_of fp r /\ settles (fun fuel => na_loop fuel fp b) (length fp) (parsed, r).
Proof.
  induction fp as [fp IH] using (well_founded_induction (well_founded_ltof _ (length (A:=Z)))). intros b.
  unfold ltof in IH. destruct (rd_getline fp) as [[line fp']|] eqn:E.
  2:{ exists None, fp. split; [constructor|]. apply settles_now; [done|]. intros fuel. cbn [LeaseFileV6.na_loop]. by rewrite E. }
  pose proof (getline_shorter _ _ _ E) as Hl.
  assert (forall b', (forall fuel, na_loop (S fuel) fp b = na_loop fuel fp' b') -> exists parsed r,
    rest_of fp r /\ settles (fun fuel => na_loop fuel fp b) (length fp) (parsed, r)) as Hstep.
  { intros b' Hb. destruct (IH fp' Hl b') as (parsed & r & Hr & Hs). exists parsed, r.
    split; [by eapply rest_line|]. by eapply settles_step; [| |exact Hs|]. }
  assert (forall parsed, (forall fuel, na_loop (S fuel) fp b = Ret (parsed, fp')) -> exists parsed r,
    rest_of fp r /\ settles (fun fuel => na_loop fuel fp b) (length fp) (parsed, r)) as Hnow.
  { intros parsed Hb. exists parsed, fp'. split; [eapply rest_line; [done|constructor]|]. by apply settles_now. }
  set (s := trim (c_string line)) in *.
  destruct (blank6 s) eqn:Hbl; [|destruct (byte_at s 0 =? 125) eqn:H125; [|destruct (parse_lease6_line s b) as [b'|] eqn:Hp]].
  - apply (Hstep b). intros fuel. cbn [LeaseFileV6.na_loop]. rewrite E. fold s. by rewrite Hbl.
  - apply (Hnow (closed6 b)). intros fuel. cbn [LeaseFileV6.na_loop]. rewrite E. fold s. by rewrite Hbl, H125.
  - apply (Hstep b'). intros fuel. cbn [LeaseFileV6.na_loop]. rewrite E. fold s. by rewrite Hbl, H125, Hp.
  - apply (Hnow None). intros fuel. cbn [LeaseFileV6.na_loop]. rewrite E. fold s. by rewrite Hbl, H125, Hp.
Qed.

(** At the end of the file the line in the buffer is looked at again and again, unless it
    closes the block or is refused. *)
Lemma pd_stuck s : trim s = s -> (byte_at s 0 =? 125) = false -> (blank6 s = true \/ exists b b1, parse_lease6_line s b = Some b1) ->
  forall fuel b, pd_loop fuel [] s b = Fault OutOfFuel.
Proof.
  intros Ht H125 Hs fuel. induction fuel as [|fuel IH]; intros b; [done|]. cbn [LeaseFileV6.pd_loop rd_getline].
  rewrite Ht. destruct (blank6 s) eqn:Hb; [apply IH|]. rewrite H125. destruct Hs as [?|(b0 & b1 & Hp)]; [done|].
  destruct (line_accepted _ _ _ b Hp) as [b' ->]. apply IH.
Qed.

Lemma pd_settles fp : forall stale b,
  (exists parsed r, rest_of fp r /\ settles (fun fuel => pd_loop fuel fp stale b) (length fp) (parsed, r))
  \/ ((forall fuel, pd_loop fuel fp stale b = Fault OutOfFuel) /\ unclosed fp).
Proof.
  induction fp as [fp IH] using (well_founded_induction (well_founded_ltof _ (length (A:=Z)))). intros stale b.
  unfold ltof in IH. destruct (rd_getline fp) as [[line fp']|] eqn:E.
  - pose proof (getline_shorter _ _ _ E) as Hl. set (s := trim (c_string line)) in *.
    assert (forall b', (byte_at s 0 =? 125) = false -> (forall fuel, pd_loop (S fuel) fp stale b = pd_loop fuel fp' s b') ->
      (exists parsed r, rest_of fp r /\ settles (fun fuel => pd_loop fuel fp stale b) (length fp) (parsed, r))
      \/ ((forall fuel, pd_loop fuel fp stale b = Fault OutOfFuel) /\ unclosed fp)) as Hstep.
    { intros b' H125 Hb. destruct (IH fp' Hl s b') as [(parsed & r & Hr & Hs)|[Hh Hu]].
      - left. exists parsed, r. split; [by eapply rest_line|]. by eapply settles_step; [| |exact Hs|].
      - right. split; [intros [|fuel]; [done|by rewrite Hb]|]. intros fp1 line1 r1 Hr Hg.
        inversion Hr as [|? ? ? ? E' Hr']; subst; [|rewrite E in E'; injection E' as <- <-; by eapply Hu].
        rewrite E in Hg. by injection Hg as <- <-. }
    assert (forall parsed, (forall fuel, pd_loop (S fuel) fp stale b = Ret (parsed, fp')) -> exists parsed r,
      rest_of fp r /\ settles (fun fuel => pd_loop fuel fp stale b) (length fp) (parsed, r)) as Hnow.
    { intros parsed Hb. exists parsed, fp'. split; [eapply rest_line; [done|constructor]|]. by apply settles_now. }
    assert (blank6 s = true -> (byte_at s 0 =? 125) = false) as Hbl0.
    { unfold blank6. intros [H%bool_decide_eq_true_1|H]%orb_true_iff; [by rewrite H|]. lia. }
    destruct (blank6 s) eqn:Hbl; [|destruct (byte_at s 0 =? 125) eqn:H125; [|destruct (parse_lease6_line s b) as [b'|] eqn:Hp]].
    + apply (Hstep b); [by apply Hbl0|]. intros fuel. cbn [LeaseFileV6.pd_loop]. rewrite E. fold s. by rewrite Hbl.
    + left. apply (Hnow (closed6 b)). intros fuel. cbn [LeaseFileV6.pd_loop]. rewrite E. fold s. by rewrite Hbl, H125.
    + apply (Hstep b'); [done|]. intros fuel. cbn [LeaseFileV6.pd_loop]. rewrite E. fold s. by rewrite Hbl, H125, Hp.
    + left. apply (Hnow None). intros fuel. cbn [LeaseFileV6.pd_loop]. rewrite E. fold s. by rewrite Hbl, H125, Hp.
  - assert (fp = []) as -> by (by destruct fp). clear IH E. set (s := trim stale).
    assert (unclosed []) as Hu by (intros ? ? ? Hr Hg; inversion Hr; subst; done).
    assert (trim s = s) as Ht by apply trim_idem.
    assert (forall fuel, pd_loop (S fuel) [] stale b = pd_loop (S fuel) [] s b) as Hss
      by (intros fuel; cbn [LeaseFileV6.pd_loop rd_getline]; by rewrite Ht).
    destruct (byte_at s 0 =? 125) eqn:H125; [|destruct (blank6 s) eqn:Hbl; [|destruct (parse_lease6_line s b) as [b'|] eqn:Hp]].
    + left. exists (closed6 b), []. split; [constructor|]. apply settles_now; [done|]. intros fuel. rewrite Hss.
      cbn [LeaseFileV6.pd_loop rd_getline]. rewrite Ht, H125. assert (blank6 s = false) as ->; [|done].
      unfold blank6. rewrite bool_decide_eq_false_2 by (intros Hn; by rewrite Hn in H125). lia.
    + right. split; [|done]. intros [|fuel]; [done|]. rewrite Hss. apply pd_stuck; auto.
    + right. split; [|done]. intros [|fuel]; [done|]. rewrite Hss. apply pd_stuck; eauto.
    + left. exists None, []. split; [constructor|]. apply settles_now; [done|]. intros fuel. rewrite Hss.
      cbn [LeaseFileV6.pd_loop rd_getline]. by rewrite Ht, Hbl, H125, Hp.
Qed.

Lemma load_lease6_bound ls parsed : (length ls <= LEASES6_MAX)%nat -> (length (load_lease6 ls parsed) <= LEASES6_MAX)%nat.
Proof.
  intros H. destruct parsed as [tmp|]; [|done]. cbn [load_lease6]. destruct (negb _ && negb _); [|done].
  unfold store_lease6. destruct (find_index _ ls); [by rewrite length_insert|].
  destruct (bool_decide _) eqn:E; [|done]. apply bool_decide_eq_true_1 in E. rewrite length_app. cbn [length]. lia.
Qed.

(** The file ends inside of a prefix block. *)
Definition open_prefix_block (contents : cstr) : Prop :=
  exists fp line rest, rest_of contents fp /\ rd_getline fp = Some (line, rest)
    /\ starts (trim (c_string line)) "prefix " = true /\ unclosed rest.

Lemma open_prefix_rest fp fp' : rest_of fp fp' -> open_prefix_block fp' -> open_prefix_block fp.
Proof. intros H (a & line & r & H' & ?). exists a, line, r. split; [by eapply rest_of_trans|done]. Qed.

(** How the loop of [lease_v6_db_load] can go on. *)
Definition load_fate (junk fp : cstr) (ls : list dhcpv6_lease_t) : Prop :=
  (exists ls', (length ls' <= LEASES6_MAX)%nat
     /\ forall fuel0 fuel, load6_loop fuel0 fuel junk fp ls = Ret ls'
          \/ (load6_loop fuel0 fuel junk fp ls = Fault OutOfFuel /\ (fuel0 <= length fp \/ fuel <= length fp)%nat))
  \/ ((forall fuel0 fuel, load6_loop fuel0 fuel junk fp ls = Fault OutOfFuel) /\ open_prefix_block fp).

Lemma load_fate_step junk fp fp' ls ls' :
  rest_of fp fp' -> (length fp' < length fp)%nat ->
  (forall fuel0 fuel, load6_loop fuel0 (S fuel) junk fp ls = load6_loop fuel0 fuel junk fp' ls'
     \/ (load6_loop fuel0 (S fuel) junk fp ls = Fault OutOfFuel /\ (fuel0 <= length fp)%nat)) ->
  load_fate junk fp' ls' -> load_fate junk fp ls.
Proof.
  intros Hr Hl Hstep [(r & Hb & H)|[H Ho]].
  - left. exists r. split; [done|]. intros fuel0 [|fuel]; [right; split; [done|lia]|].
    destruct (Hstep fuel0 fuel) as [->|[-> ?]]; [|right; split; [done|lia]].
    destruct (H fuel0 fuel) as [->|[-> ?]]; [by left|right; split; [done|lia]].
  - right. split; [|by eapply open_prefix_rest]. intros fuel0 [|fuel]; [done|].
    destruct (Hstep fuel0 fuel) as [->|[-> ?]]; done.
Qed.

Lemma na_block_settles fp line : exists parsed r,
  rest_of fp r /\ settles (fun fuel => parse_block_ia_na inet_pton6 mktime fuel fp line) (length fp) (parsed, r).
Proof.
  unfold parse_block_ia_na. destruct (_ ≫= _) as [a|]; [apply na_settles|].
  exists None, fp. split; [constructor|]. intros fuel. by left.
Qed.

Lemma pd_block_settles junk fp line :
  (exists parsed r, rest_of fp r /\ settles (fun fuel => parse_block_ia_pd inet_pton6 mktime fuel junk fp line) (length fp) (parsed, r))
  \/ ((forall fuel, parse_block_ia_pd inet_pton6 mktime fuel junk fp line = Fault OutOfFuel) /\ unclosed fp).
Proof.
  unfold parse_block_ia_pd. destruct (_ ≫= _) as [[a plen]|]; [apply pd_settles|].
  left. exists None, fp. split; [constructor|]. intros fuel. by left.
Qed.

Lemma load_fates junk fp : forall ls, (length ls <= LEASES6_MAX)%nat -> load_fate junk fp ls.
Proof.
  induction fp as [fp IH] using (well_founded_induction (well_founded_ltof _ (length (A:=Z)))). intros ls Hls.
  unfold ltof in IH. destruct (rd_getline fp) as [[line fp']|] eqn:E.
  2:{ left. exists ls. split; [done|]. intros fuel0 [|fuel]; [right; split; [done|lia]|].
      left. cbn [LeaseFileV6.load6_loop]. by rewrite E. }
  pose proof (getline_shorter _ _ _ E) as Hl.
  assert (rest_of fp fp') as Hr by (eapply rest_line; [done|constructor]).
  set (s := trim (c_string line)) in *.
  assert (forall parsed r, rest_of fp' r -> (forall fuel0 fuel,
      load6_loop fuel0 (S fuel) junk fp ls = load6_loop fuel0 fuel junk r (load_lease6 ls parsed)
      \/ (load6_loop fuel0 (S fuel) junk fp ls = Fault OutOfFuel /\ (fuel0 <= length fp')%nat)) -> load_fate junk fp ls) as Hgo.
  { intros parsed r Hr' Hs. pose proof (rest_of_shorter _ _ Hr') as Hl'.
    apply (load_fate_step junk fp r ls (load_lease6 ls parsed)); [by eapply rest_of_trans|lia| |].
    - intros fuel0 fuel. destruct (Hs fuel0 fuel) as [?|[? ?]]; [by left|right; split; [done|lia]].
    - apply IH; [lia|]. by apply load_lease6_bound. }
  destruct (blank6 s) eqn:Hb; [|destruct (starts s "lease ") eqn:Hle; [|destruct (starts s "prefix ") eqn:Hp]].
  - apply (Hgo None fp'); [constructor|]. intros fuel0 fuel. left. cbn [LeaseFileV6.load6_loop]. rewrite E. fold s. by rewrite Hb.
  - destruct (na_block_settles fp' s) as (parsed & r & Hr' & Hs). apply (Hgo parsed r Hr'). intros fuel0 fuel.
    cbn [LeaseFileV6.load6_loop]. rewrite E. fold s. rewrite Hb, Hle. destruct (Hs fuel0) as [Hf|[Hf ?]]; cbv beta in Hf; rewrite Hf.
    + left. by rewrite bind_Ret.
    + right. by split.
  - destruct (pd_block_settles junk fp' s) as [(parsed & r & Hr' & Hs)|[Hh Hu]].
    + apply (Hgo parsed r Hr'). intros fuel0 fuel.
      cbn [LeaseFileV6.load6_loop]. rewrite E. fold s. rewrite Hb, Hle, Hp.
      destruct (Hs fuel0) as [Hf|[Hf ?]]; cbv beta in Hf; rewrite Hf; [left; by rewrite bind_Ret|right; by split].
    + right. split.
      * intros fuel0 [|fuel]; [done|]. cbn [LeaseFileV6.load6_loop]. rewrite E. fold s. by rewrite Hb, Hle, Hp, Hh.
      * exists fp, line, fp'. split_and!; [constructor|done|done|done].
  - apply (Hgo None fp'); [constructor|]. intros fuel0 fuel. left. cbn [LeaseFileV6.load6_loop]. rewrite E. fold s.
    by rewrite Hb, Hle, Hp.
Qed.

(** C21: on which lease files loading ends.  Whatever the file holds, either
    [lease_v6_db_load] returns 0 with at most [LEASES6_MAX] leases, one more than the number
    of bytes of the file being enough fuel for every loop, or it never returns, and then the
    file ends inside of a prefix block: there is a line that opens one and none after it
    that closes a block. *)
Theorem lease6_load_ends (contents junk : cstr) (db : lease_v6_db_t) :
  (exists db', (length db'.(d_leases) <= LEASES6_MAX)%nat
     /\ forall fuel, (length contents < fuel)%nat ->
          lease_v6_db_load inet_pton6 mktime fuel junk (Some contents) db = Ret (0, db'))
  \/ ((forall fuel, lease_v6_db_load inet_pton6 mktime fuel junk (Some contents) db = Fault OutOfFuel)
      /\ open_prefix_block contents).
Proof.
  destruct (load_fates junk contents [] ltac:(cbn; lia)) as [(ls & Hb & H)|[H Ho]].
  - left. exists (set_d_leases ls db). split; [done|]. intros fuel Hf. cbn [lease_v6_db_load].
    destruct (H fuel fuel) as [->|[_ ?]]; [by rewrite bind_Ret|lia].
  - right. split; [|done]. intros fuel. cbn [lease_v6_db_load]. by rewrite H.
Qed.
End Ends.

(** ** Examples *)

Definition jan_addr : in6_addr := 32 :: 1 :: 13 :: 184 :: replicate 11 0 ++ [7].

(** A lease from Thursday 1 January 1970, 00:16:40 to the next day. *)
Definition jan_lease (type : lease_v6_type_t) (iaid : Z) : dhcpv6_lease_t :=
  mk_dhcpv6_lease true type ([1; 2; 171] ++ replicate (DUID_MAX_LEN - 3) 0) 3 iaid jan_addr jan_addr 64
    1000 90000 0 1000 (lit "host one") LEASE_STATE_ACTIVE LEASE_STATE_FREE LEASE_STATE_FREE [] [] [].

Definition jan_db : lease_v6_db_t :=
  mk_lease_v6_db (lit "dhcpd6.leases") 0 [jan_lease Lease6_IA_NA 5; jan_lease Lease6_IA_PD 6].

Definition jan_file : option cstr :=
  append_all6 full_ntop jan_localtime [jan_lease Lease6_IA_NA 9] (lease_v6_db_save full_ntop jan_localtime jan_ctime true 1000 jan_db None).2.

Lemma jan_lease_ok type iaid : is_u32 iaid -> lease6_ok full_pton full_ntop jan_localtime jan_mktime (jan_lease type iaid).
Proof.
  intros Hi. assert (ip6_ok full_pton full_ntop jan_addr) by (apply full_ip6_ok; vm_compute; reflexivity).
  assert (time_ok jan_localtime jan_mktime 1000) by (eexists; split; [reflexivity|]; unfold tm_ok; vm_compute; intuition congruence).
  assert (time_ok jan_localtime jan_mktime 90000) by (eexists; split; [reflexivity|]; unfold tm_ok; vm_compute; intuition congruence).
  unfold lease6_ok, duid6_ok, duid_bytes, hostname6_ok, string6_ok. cbn [jan_lease x_type x_ip6_addr x_prefix_v6 x_plen x_duid x_duid_len
    x_iaid x_starts x_ends x_tstp x_cltt x_client_hostname x_vendor_class x_fqdn].
  split_and!; try done; try lia; try (closed_prop || (vm_compute; lia)).
  destruct type; [done|]. split; [done|]. unfold is_u8. lia.
Qed.

(** The first lease is overwritten by the one appended for its address, and the times read
    are the numbers of the weekdays, Thursday and Friday. *)
Lemma lease6_file_reload_witness :
  exists db', lease_v6_db_load full_pton jan_mktime 2000 [] jan_file jan_db = Ret (0, db')
  /\ x_iaid <$> db'.(d_leases) = [9; 6] /\ x_state <$> db'.(d_leases) = [LEASE_STATE_ACTIVE; LEASE_STATE_ACTIVE]
  /\ x_starts <$> db'.(d_leases) = [4; 4] /\ x_ends <$> db'.(d_leases) = [5; 5].
Proof.
  eexists. split.
  - unfold jan_file. apply lease6_file_reload.
    + apply jan_ctime_ok.
    + change (List.filter x_in_use (d_leases jan_db)) with [jan_lease Lease6_IA_NA 5; jan_lease Lease6_IA_PD 6].
      cbn [app]. do 3 (apply Forall_cons; split; [apply jan_lease_ok; unfold is_u32; lia|]). constructor.
    + split; [vm_compute; lia|closed_prop].
    + vm_compute; lia.
  - vm_compute. split_and!; reflexivity.
Defined.

(** A lease that was active for another day is expired after a restart. *)
Example reloaded_lease_expires :
  (lease_v6_mark_expired_older 2000 jan_db).1 = 0
  /\ ('(_, db') ← lease_v6_db_load full_pton jan_mktime 2000 [] jan_file jan_db;
      Ret (lease_v6_mark_expired_older 2000 db').1) = Ret 2.
Proof. split; vm_compute; reflexivity. Qed.

(** A file that ends inside of a prefix block keeps the loader in the block for ever. *)
Example open_prefix_hangs (fuel : nat) :
  lease_v6_db_load full_pton jan_mktime fuel [] (Some (print_lines [block_head6 full_ntop (jan_lease Lease6_IA_PD 6)])) jan_db
  = Fault OutOfFuel.
Proof.
  destruct fuel as [|fuel]; [done|]. unfold lease_v6_db_load. set (f := S fuel) at 1.
  change (load6_loop full_pton jan_mktime f (S fuel) [] (print_lines [block_head6 full_ntop (jan_lease Lease6_IA_PD 6)]) [])
    with ('(parsed, fp) ← pd_loop jan_mktime f [] []
            (mk_block6 (set_x_plen 64 (set_x_prefix_v6 jan_addr (set_x_type Lease6_IA_PD zero_lease6))) false false);
          load6_loop full_pton jan_mktime f fuel [] fp (load_lease6 [] parsed)).
  rewrite pd_stuck; [done|done|done|by left].
Qed.
