(* ===== verification/FileIoV6.v ===== *)
(** * The file input and output of the DHCPv6 lease database

    The buffered reader [rd_ctx_t] and the writers [write_all] and [write_fmt] of
    [DHCPv6/sources/leases6.c], with the sequences of writes [lease_v6_db_save] and
    [lease_v6_db_append] make.  [LeaseFileV6] reads a list of bytes and writes whole files;
    here [read] and [write] return what a plan says, call by call: fewer bytes than asked
    for, an interruption or an error.  When the plan is used up they do all that is asked.
    The theorems relate the two. *)

From Stdlib Require Import String.
From S2P Require Import Prelude UtilsV6 LeasesV6 CText UtilsV4 LeaseFileV6 LeaseFileV6Spec.

Definition WR_TMP_MAX : nat := Z.to_nat 8192.

Definition BUF_BYTES : nat := Z.to_nat READ_BUF_SZ.

(** ** Reading *)

(** What a call of [read] does. *)
Inductive read_choice :=
  | ReadSome (k : nat)
  | ReadIntr
  | ReadFail.

#[global] Instance read_choice_eq_dec : EqDecision read_choice.
Proof. solve_decision. Defined.

Inductive read_answer :=
  | Got (bytes : cstr)
  | Interrupted
  | Failed.

(** [r_buf] holds the [len] bytes of the last read; [r_file] and [r_plan] are the bytes of
    the file behind the offset of [fd] and the coming results of [read]. *)
Record rd_ctx_t := mk_rd {
  r_buf : cstr;
  r_pos : nat;
  r_fd : Z;
  r_file : cstr;
  r_plan : list read_choice
}.

(** [read(fd, buf, sz)]: at least one byte, when there is one and no error. *)
Definition sys_read (sz : nat) (file : cstr) (plan : list read_choice) : read_answer * cstr * list read_choice :=
  match plan with
  | [] => (Got (take sz file), drop sz file, [])
  | ReadSome k :: plan => let n := Nat.max 1 (Nat.min k sz) in (Got (take n file), drop n file, plan)
  | ReadIntr :: plan => (Interrupted, file, plan)
  | ReadFail :: plan => (Failed, file, plan)
  end.

(** [fd] is the result of [open], negative on an error. *)
Definition rd_open (fd : Z) (file : cstr) (plan : list read_choice) : Z * rd_ctx_t :=
  (if fd <? 0 then -1 else 0, mk_rd [] 0 fd file plan).

(** The loop of [rd_getline]: [out] is what has been stored, up to [o]. *)
Fixpoint getline_loop (fuel outsz : nat) (R : rd_ctx_t) (out : cstr) : outcome (Z * cstr * rd_ctx_t) :=
  match fuel with
  | O => Fault OutOfFuel
  | S fuel =>
      let next R :=
        c ← in_bounds (R.(r_buf) !! R.(r_pos));
        let R := mk_rd R.(r_buf) (S R.(r_pos)) R.(r_fd) R.(r_file) R.(r_plan) in
        if c =? 10 then Ret (1, out, R)
        else getline_loop fuel outsz R (if bool_decide (length out + 1 < outsz)%nat then out ++ [c] else out) in
      if bool_decide (length R.(r_buf) <= R.(r_pos))%nat then
        let '(answer, file, plan) := sys_read BUF_BYTES R.(r_file) R.(r_plan) in
        match answer with
        | Interrupted => getline_loop fuel outsz (mk_rd R.(r_buf) R.(r_pos) R.(r_fd) file plan) out
        | Failed => Ret (-1, out, mk_rd R.(r_buf) R.(r_pos) R.(r_fd) file plan)
        | Got [] => Ret (if bool_decide (0 < length out)%nat then 1 else 0, out, mk_rd R.(r_buf) R.(r_pos) R.(r_fd) file plan)
        | Got bytes => next (mk_rd bytes 0 R.(r_fd) file plan)
        end
      else next R
  end.

(** What the reader has not returned: the rest of its buffer and of the file. *)
Definition unread (R : rd_ctx_t) : cstr := drop R.(r_pos) R.(r_buf) ++ R.(r_file).

Definition rd_fuel (R : rd_ctx_t) : nat := S (length (unread R) + length R.(r_plan)).

(** The return code, the line and the reader after [rd_getline]. *)
Definition rd_getline (R : rd_ctx_t) (outsz : nat) : outcome (Z * cstr * rd_ctx_t) :=
  getline_loop (rd_fuel R) outsz R [].

(** The descriptor closed, if any. *)
Definition rd_close (R : rd_ctx_t) : option Z * rd_ctx_t :=
  if 0 <=? R.(r_fd) then (Some R.(r_fd), mk_rd R.(r_buf) R.(r_pos) (-1) R.(r_file) R.(r_plan)) else (None, R).

(** ** Writing *)

Inductive write_choice :=
  | WriteSome (k : nat)
  | WriteIntr
  | WriteFail.

#[global] Instance write_choice_eq_dec : EqDecision write_choice.
Proof. solve_decision. Defined.

(** [write_all]: whether all bytes are written, and the file and the plan after it. *)
Fixpoint write_all (plan : list write_choice) (file bs : cstr) : bool * cstr * list write_choice :=
  match bs with
  | [] => (true, file, plan)
  | _ =>
      match plan with
      | [] => (true, file ++ bs, [])
      | WriteSome k :: plan => let n := Nat.max 1 (Nat.min k (length bs)) in write_all plan (file ++ take n bs) (drop n bs)
      | WriteIntr :: plan => write_all plan file bs
      | WriteFail :: plan => (false, file, plan)
      end
  end.

(** [write_fmt] for the text [text] of the format and its arguments. *)
Definition write_fmt (plan : list write_choice) (file text : cstr) : bool * cstr * list write_choice :=
  write_all plan file (take (WR_TMP_MAX - 1) text).

(** A sequence of [write_fmt]; each with whether its result is checked, in which case an
    error ends the sequence. *)
Fixpoint write_seq (ws : list (bool * cstr)) (plan : list write_choice) (file : cstr) : bool * cstr :=
  match ws with
  | [] => (true, file)
  | (checked, text) :: ws =>
      let '(ok, file, plan) := write_fmt plan file text in
      if checked && negb ok then (false, file) else write_seq ws plan file
  end.

Section Save.
Context (inet_ntop6 : in6_addr -> cstr) (localtime : Z -> option tm) (ctime : Z -> cstr).

#[local] Abbreviation time_line6 := (LeaseFileV6.time_line6 localtime).
#[local] Abbreviation block_head6 := (LeaseFileV6.block_head6 inet_ntop6).

Definition must (line : cstr) : list (bool * cstr) := [(true, line ++ [10])].

Definition may (line : cstr) : list (bool * cstr) := [(false, line ++ [10])].

Definition when {A} (b : bool) (l : list A) : list A := if b then l else [].

Definition header_writes6 (now : Z) : list (bool * cstr) :=
  may (lit "# The format of this file is documented in the dhcpd.leases(5) manual page.")
  ++ may (lit "# This lease file was written by DHCPv6 Server" ++ [10] ++ lit "#")
  ++ may (lit "authoring-byte-order little-endian;" ++ [10])
  ++ may (lit "# Server DUID (hex, informational)")
  ++ must (lit "# THis file is automatically generated, do not edit manually")
  ++ may (lit "# Lease Database Format (DHCPv6)")
  ++ may (lit "# lease <ipv6-address> {")
  ++ may (lit "#   duid <hex>; iaid <n>;")
  ++ may (lit "#   starts <w YYYY/MM/DD HH:MM:SS>; ends <...>;")
  ++ may (lit "#   tstp <...>; cltt <...>;")
  ++ may (lit "#   binding state <state>; next binding state <state>; rewind binding state <state>;")
  ++ may (lit "#   client-hostname " ++ quoted (lit "...") ++ lit "; vendor-class " ++ quoted (lit "...") ++ lit "; fqdn "
          ++ quoted (lit "...") ++ lit ";")
  ++ may (lit "# }")
  ++ may (lit "# prefix <ipv6>/<plen> { ... }  # for IA_PD")
  ++ must (lit "# Last updated: " ++ ctime now).

(** The writes for a lease; those for an address and for a prefix differ in the first one. *)
Definition save_writes6 (l : dhcpv6_lease_t) : list (bool * cstr) :=
  must (10 :: block_head6 l)
  ++ must (time_line6 "starts" l.(x_starts))
  ++ must (time_line6 "ends" l.(x_ends))
  ++ when (negb (l.(x_tstp) =? 0)) (may (time_line6 "tstp" l.(x_tstp)))
  ++ when (negb (l.(x_cltt) =? 0)) (may (time_line6 "cltt" l.(x_cltt)))
  ++ when (negb (l.(x_duid_len) =? 0)) (must (statement_line6 "duid" (duid_hex6 l)))
  ++ must (statement_line6 "iaid" (dec l.(x_iaid)))
  ++ must (state_line6 "binding state" l.(x_state))
  ++ when (negb (bool_decide (l.(x_next_state) = LEASE_STATE_FREE))) (may (state_line6 "next binding state" l.(x_next_state)))
  ++ when (negb (bool_decide (l.(x_rewind_state) = LEASE_STATE_FREE)))
       (may (state_line6 "rewind binding state" l.(x_rewind_state)))
  ++ when (negb (bool_decide (l.(x_client_hostname) = [])))
       (must (statement_line6 "client-hostname" (quoted l.(x_client_hostname))))
  ++ when (negb (bool_decide (l.(x_vendor_class) = []))) (may (statement_line6 "vendor-class" (quoted l.(x_vendor_class))))
  ++ when (negb (bool_decide (l.(x_fqdn) = []))) (may (statement_line6 "fqdn" (quoted l.(x_fqdn))))
  ++ must [125].

Definition db_writes6 (now : Z) (db : lease_v6_db_t) : list (bool * cstr) :=
  header_writes6 now ++ concat (save_writes6 <$> List.filter x_in_use db.(d_leases)).

(** The results of [open], [close] and [rename]. *)
Record save_calls := mk_save_calls {
  sc_open : bool;
  sc_close : bool;
  sc_rename : bool
}.

(** The return code, the lease file and the temporary file; both are [None] when they do not
    exist. *)
Definition lease_v6_db_save (calls : save_calls) (plan : list write_choice) (now : Z) (db : lease_v6_db_t)
    (file tmp : option cstr) : Z * option cstr * option cstr :=
  if negb calls.(sc_open) then (-1, file, tmp)
  else
    let '(ok, data) := write_seq (db_writes6 now db) plan [] in
    if negb ok then (-1, file, None)
    else if negb calls.(sc_close) then (-1, file, Some data)
    else if negb calls.(sc_rename) then (-1, file, Some data)
    else (0, Some data, None).

Definition append_writes6 (l : dhcpv6_lease_t) : list (bool * cstr) :=
  may (block_head6 l)
  ++ may (statement_line6 "duid" (duid_hex6 l))
  ++ may (statement_line6 "iaid" (dec l.(x_iaid)))
  ++ may (time_line6 "starts" l.(x_starts))
  ++ may (time_line6 "ends" l.(x_ends))
  ++ when (negb (l.(x_tstp) =? 0)) (may (time_line6 "tstp" l.(x_tstp)))
  ++ when (negb (l.(x_cltt) =? 0)) (may (time_line6 "cltt" l.(x_cltt)))
  ++ may (state_line6 "binding state" l.(x_state))
  ++ when (negb (bool_decide (l.(x_next_state) = LEASE_STATE_FREE))) (may (state_line6 "next binding state" l.(x_next_state)))
  ++ when (negb (bool_decide (l.(x_rewind_state) = LEASE_STATE_FREE)))
       (may (state_line6 "rewind binding state" l.(x_rewind_state)))
  ++ when (negb (bool_decide (l.(x_client_hostname) = [])))
       (may (statement_line6 "client-hostname" (quoted l.(x_client_hostname))))
  ++ when (negb (bool_decide (l.(x_vendor_class) = []))) (may (statement_line6 "vendor-class" (quoted l.(x_vendor_class))))
  ++ when (negb (bool_decide (l.(x_fqdn) = []))) (may (statement_line6 "fqdn" (quoted l.(x_fqdn))))
  ++ may [125; 10].

Definition lease_v6_db_append (opened : bool) (plan : list write_choice) (l : dhcpv6_lease_t) (file : option cstr)
    : Z * option cstr :=
  if negb opened then (-1, file) else (0, Some (write_seq (append_writes6 l) plan (default [] file)).2).
End Save.

(** ** The reader *)

Definition rd_ok (R : rd_ctx_t) : Prop := (R.(r_pos) <= length R.(r_buf))%nat.

Definition in_line (c : Z) : bool := negb (c =? 10).

(** The end of the loop: [u] is what was unread, [out] what was stored before. *)
Record got_line (R : rd_ctx_t) (outsz : nat) (out : cstr) (code : Z) (line : cstr) (R' : rd_ctx_t) : Prop := {
  gl_code : code = if bool_decide (out ++ unread R = []) then 0 else 1;
  gl_line : line = take (outsz - 1) (out ++ take_while in_line (unread R));
  gl_rest : unread R' = drop 1 (drop_while in_line (unread R))
}.

(** What a call leaves of the file and of the plan. *)
Record rd_after (R R' : rd_ctx_t) : Prop := {
  ra_ok : rd_ok R';
  ra_fd : r_fd R' = r_fd R;
  ra_plan : r_plan R' `suffix_of` r_plan R
}.

Lemma sys_read_cases (sz : nat) (file : cstr) plan answer file' plan' : (0 < sz)%nat ->
  sys_read sz file plan = (answer, file', plan') ->
  plan' `suffix_of` plan
  /\ match answer with
     | Got bytes => file = bytes ++ file' /\ (bytes = [] -> file = []) /\ (length plan' <= length plan)%nat
     | Interrupted => file' = file /\ (length plan' < length plan)%nat
     | Failed => file' = file /\ ReadFail ∈ plan
     end.
Proof.
  intros Hsz. destruct plan as [|[k| |] plan]; cbn [sys_read]; intros [= <- <- <-].
  - split; [done|]. rewrite take_drop. split_and!; [done| |done]. intros E.
    destruct file; [done|]. destruct sz; [lia|]. done.
  - split; [by apply suffix_cons_r|]. rewrite take_drop. split_and!; [done| |cbn; lia]. intros E.
    destruct file; [done|]. destruct (Nat.max 1 (Nat.min k sz)) eqn:En; [lia|done].
  - split; [by apply suffix_cons_r|]. split; [done|cbn; lia].
  - split; [by apply suffix_cons_r|]. split; [done|left].
Qed.

Lemma BUF_BYTES_pos : (2 <= BUF_BYTES)%nat.
Proof. unfold BUF_BYTES, READ_BUF_SZ. lia. Qed.

Lemma take_short {A} n (a b : list A) : (n <= length a)%nat -> take n (a ++ b) = take n a.
Proof. intros H. rewrite take_app. replace (n - length a)%nat with 0%nat by lia. by rewrite take_0, app_nil_r. Qed.

(** The loop, by induction on the fuel. *)
Lemma getline_loop_spec outsz : (2 <= outsz)%nat -> forall fuel R out,
  rd_ok R -> (length out < outsz)%nat -> (length (unread R) + length R.(r_plan) < fuel)%nat ->
  exists code line R', getline_loop fuel outsz R out = Ret (code, line, R') /\ rd_after R R'
  /\ ((code = -1 /\ ReadFail ∈ R.(r_plan)) \/ got_line R outsz out code line R').
Proof.
  intros Hsz fuel. induction fuel as [|fuel IH]; intros R out HR Ho Hf; [lia|].
  (* the step that takes the next byte *)
  assert (forall R1, rd_after R R1 -> unread R1 = unread R -> (R1.(r_pos) < length R1.(r_buf))%nat ->
    (length (unread R1) + length R1.(r_plan) < S fuel)%nat ->
    exists code line R',
      (c ← in_bounds (R1.(r_buf) !! R1.(r_pos));
       let R2 := mk_rd R1.(r_buf) (S R1.(r_pos)) R1.(r_fd) R1.(r_file) R1.(r_plan) in
       if c =? 10 then Ret (1, out, R2)
       else getline_loop fuel outsz R2 (if bool_decide (length out + 1 < outsz)%nat then out ++ [c] else out))
      = Ret (code, line, R') /\ rd_after R R'
      /\ ((code = -1 /\ ReadFail ∈ R.(r_plan)) \/ got_line R outsz out code line R')) as Hnext.
  { intros R1 [_ Hfd Hpl] Hu Hp Hf1. destruct (lookup_lt_is_Some_2 _ _ Hp) as [c Hc]. rewrite Hc. cbn [in_bounds]. rewrite bind_Ret. cbv zeta.
    set (R2 := mk_rd (r_buf R1) (S (r_pos R1)) (r_fd R1) (r_file R1) (r_plan R1)).
    assert (unread R = c :: unread R2) as Hcons by (rewrite <- Hu; unfold unread; by rewrite (drop_S _ _ _ Hc)).
    assert (rd_ok R2) as HR2 by (unfold rd_ok; cbn; lia).
    destruct (Z.eqb_spec c 10) as [->|Hne].
    - eexists _, _, R2. split; [done|]. split; [by constructor|]. right. constructor; rewrite Hcons; cbn.
      + by destruct out.
      + rewrite app_nil_r. by rewrite take_ge by lia.
      + by rewrite drop_0.
    - rewrite Hu, Hcons in Hf1. cbn [length] in Hf1.
      destruct (IH R2 (if bool_decide (length out + 1 < outsz)%nat then out ++ [c] else out) HR2) as (code & line & R' & E & [Ha1 Ha2 Ha3] & Hr).
      { case_bool_decide; [rewrite length_app; cbn; lia|lia]. }
      { unfold R2 at 2. cbn [r_plan]. lia. }
      eexists code, line, R'. split; [exact E|]. split.
      { constructor; [done|by rewrite Ha2|]. etrans; [exact Ha3|exact Hpl]. }
      destruct Hr as [[-> Hin]|[Hc' Hl Hrest]].
      { left. split; [done|]. destruct Hpl as [pre ->]. apply elem_of_app. by right. }
      right. assert (in_line c = true) as Hil by (unfold in_line; by destruct (Z.eqb_spec c 10)).
      constructor; rewrite Hcons.
      + rewrite Hc'. rewrite !bool_decide_eq_false_2; [done| |]; try (by destruct out).
        case_bool_decide; [by destruct out|]. destruct out; [cbn in *; lia|done].
      + rewrite Hl. cbn [take_while]. rewrite Hil. case_bool_decide as Hlt; [by rewrite <- app_assoc|].
        rewrite take_short by lia. symmetry. apply take_short. lia.
      + rewrite Hrest. cbn [drop_while]. by rewrite Hil. }
  cbn [getline_loop]. cbv zeta. destruct (decide (length (r_buf R) <= r_pos R)%nat) as [Hlen|Hlen];
    [rewrite (bool_decide_eq_true_2 (length (r_buf R) <= r_pos R)%nat) by done|rewrite (bool_decide_eq_false_2 (length (r_buf R) <= r_pos R)%nat) by done].
  - destruct (sys_read BUF_BYTES (r_file R) (r_plan R)) as [[answer file'] plan'] eqn:E.
    destruct (sys_read_cases BUF_BYTES _ _ _ _ _ ltac:(pose proof BUF_BYTES_pos; lia) E) as [Hpl Ha].
    assert (unread R = r_file R) as Hu by (unfold unread; by rewrite drop_ge by lia).
    destruct answer as [[|c0 bytes]| |].
    + destruct Ha as (Hfile & Hnil & _). specialize (Hnil eq_refl). rewrite Hnil in Hfile. cbn in Hfile. subst file'.
      eexists _, _, _. split; [done|]. split; [by constructor|]. right. constructor; rewrite Hu, Hnil.
      * destruct out; done.
      * cbn. rewrite app_nil_r. by rewrite take_ge by lia.
      * unfold unread. cbn [r_pos r_buf r_file]. by rewrite drop_ge by lia.
    + destruct Ha as (Hfile & _ & Hlp). apply Hnext; cbn [r_pos r_buf r_file r_plan r_fd].
      * by constructor; [unfold rd_ok; cbn; lia|..].
      * unfold unread. cbn [r_pos r_buf r_file]. rewrite drop_0, drop_ge by lia. by rewrite Hfile.
      * cbn [length]. lia.
      * unfold unread. cbn [r_pos r_buf r_file]. rewrite drop_0, <- Hfile, <- Hu. lia.
    + destruct Ha as [-> Hlp]. destruct (IH (mk_rd (r_buf R) (r_pos R) (r_fd R) (r_file R) plan') out) as (code & line & R' & E' & [Ha1 Ha2 Ha3] & Hr); [done|done| |].
      { change (unread (mk_rd _ _ _ _ _)) with (unread R). cbn [r_plan]. lia. }
      eexists code, line, R'. split; [exact E'|]. split.
      { constructor; [done|done|]. etrans; [exact Ha3|exact Hpl]. }
      destruct Hr as [[-> Hin]|Hg]; [left|right].
      * split; [done|]. destruct Hpl as [pre ->]. apply elem_of_app. by right.
      * destruct Hg. by constructor.
    + destruct Ha as [-> Hin]. eexists _, _, _. split; [done|]. split; [by constructor|]. left. done.
  - apply Hnext; [by constructor|done|lia|done].
Qed.

(** A call of [rd_getline] fails only when [read] fails, and otherwise reads a line as
    [LeaseFileV6] does. *)
Lemma getline_step R : rd_ok R ->
  exists code line R', rd_getline R BUF_BYTES = Ret (code, line, R') /\ rd_after R R'
  /\ ((code = -1 /\ ReadFail ∈ R.(r_plan))
      \/ match LeaseFileV6.rd_getline (unread R) with
         | Some (text, rest) => code = 1 /\ line = text /\ unread R' = rest
         | None => code = 0 /\ line = [] /\ unread R' = []
         end).
Proof.
  intros HR. destruct (getline_loop_spec BUF_BYTES BUF_BYTES_pos (rd_fuel R) R []) as (code & line & R' & E & Ha & Hr);
    [done|pose proof BUF_BYTES_pos; cbn [length]; lia|unfold rd_fuel; lia|].
  exists code, line, R'. split; [exact E|]. split; [done|]. destruct Hr as [?|[Hc Hl Hrest]]; [by left|right].
  cbn [app] in Hc, Hl. unfold LeaseFileV6.rd_getline. destruct (unread R) as [|c u] eqn:Eu.
  - subst. done.
  - rewrite <- Eu in Hc, Hl, Hrest |- *. split; [by rewrite Hc, Eu|]. split; [|done].
    rewrite Hl. by replace (BUF_BYTES - 1)%nat with (Z.to_nat (READ_BUF_SZ - 1)) by (unfold BUF_BYTES; lia).
Qed.

(** The lines of [n] calls, [None] for a call that returns 0. *)
Fixpoint rd_lines (n : nat) (R : rd_ctx_t) : outcome (list (option cstr) * rd_ctx_t) :=
  match n with
  | O => Ret ([], R)
  | S n =>
      '(code, line, R) ← rd_getline R BUF_BYTES;
      '(lines, R) ← rd_lines n R;
      Ret ((if code =? 1 then Some line else None) :: lines, R)
  end.

(** The same on a list of bytes. *)
Fixpoint file_lines (n : nat) (fp : cstr) : list (option cstr) * cstr :=
  match n with
  | O => ([], fp)
  | S n =>
      match LeaseFileV6.rd_getline fp with
      | Some (line, rest) => let '(lines, rest) := file_lines n rest in (Some line :: lines, rest)
      | None => let '(lines, rest) := file_lines n [] in (None :: lines, rest)
      end
  end.

(** ** The writers *)

(** [write_all] writes a prefix, and all of it unless a call fails. *)
Lemma write_all_spec plan : forall file bs, exists n ok plan',
  write_all plan file bs = (ok, file ++ take n bs, plan') /\ plan' `suffix_of` plan
  /\ (ok = true -> take n bs = bs) /\ (ok = false -> WriteFail ∈ plan).
Proof.
  induction plan as [|w plan IH]; intros file bs; (destruct bs as [|b bs]; [exists 0%nat, true; eexists; cbn; rewrite app_nil_r; by split_and!|]).
  - exists (length (b :: bs)), true, []. rewrite firstn_all. by split_and!.
  - cbn [write_all]. destruct w as [k| |].
    + cbv zeta. set (m := Nat.max 1 (Nat.min k (length (b :: bs)))). destruct (IH (file ++ take m (b :: bs)) (drop m (b :: bs))) as (n & ok & plan' & -> & Hs & Ht & Hf).
      exists (m + n)%nat, ok, plan'. rewrite <- app_assoc, take_take_drop. split_and!; [done|by apply suffix_cons_r| |].
      * intros Hok. rewrite <- take_take_drop, (Ht Hok). apply take_drop.
      * intros Hok. right. by apply Hf.
    + destruct (IH file (b :: bs)) as (n & ok & plan' & -> & Hs & Ht & Hf). exists n, ok, plan'.
      split_and!; [done|by apply suffix_cons_r|done|]. intros Hok. right. by apply Hf.
    + exists 0%nat, false, plan. cbn [take]. rewrite app_nil_r. split_and!; [done|by apply suffix_cons_r|done|]. intros _. left.
Qed.

(** What a write leaves of its text. *)
Definition piece (w : bool * cstr) (p : cstr) : Prop :=
  p `prefix_of` w.2 /\ (w.1 = true -> p = w.2).

Definition fits (w : bool * cstr) : Prop := (length w.2 < WR_TMP_MAX)%nat.

Lemma write_fmt_spec plan file w : fits w -> exists p ok plan',
  write_fmt plan file w.2 = (ok, file ++ p, plan') /\ plan' `suffix_of` plan /\ p `prefix_of` w.2
  /\ (ok = true -> p = w.2) /\ (ok = false -> WriteFail ∈ plan).
Proof.
  intros Hw. unfold write_fmt. unfold fits in Hw. rewrite (take_ge w.2) by lia.
  destruct (write_all_spec plan file w.2) as (n & ok & plan' & -> & Hs & Ht & Hf). exists (take n w.2), ok, plan'.
  split_and!; [done|done|apply prefix_take|done|done].
Qed.

(** A sequence of writes that ends well has written every checked text; without an error it
    does, and it has written every text. *)
Lemma write_seq_spec ws : Forall fits ws -> forall plan file,
  exists ok data, write_seq ws plan file = (ok, data)
  /\ (ok = true -> exists ps, data = file ++ concat ps /\ Forall2 piece ws ps)
  /\ ((WriteFail ∉ plan) -> ok = true /\ data = file ++ concat ws.*2).
Proof.
  induction ws as [|[checked text] ws IH]; intros Hws plan file; cbn [write_seq].
  - eexists _, _. split; [done|]. cbn. rewrite app_nil_r. split; [|done]. intros _. exists []. cbn. by rewrite app_nil_r.
  - apply Forall_cons in Hws as [Hw Hws].
    destruct (write_fmt_spec plan file _ Hw) as (p & ok & plan' & E & Hs & Hp & Hok & Hf). cbn [snd] in E, Hp, Hok.
    rewrite E. destruct (checked && negb ok) eqn:Ec.
    + apply andb_true_iff in Ec as [-> Hno]. destruct ok; [done|]. eexists _, _. split; [done|]. split; [done|].
      intros Hn. exfalso. by apply Hn, Hf.
    + destruct (IH Hws plan' (file ++ p)) as (ok' & data & -> & H1 & H2). eexists _, _. split; [done|]. split.
      * intros Hok'. destruct (H1 Hok') as (ps & -> & Hps). exists (p :: ps). cbn [concat]. rewrite app_assoc. split; [done|].
        constructor; [|done]. split; [done|]. cbn. intros ->. apply Hok. by destruct ok.
      * intros Hn. destruct ok; [|exfalso; by apply Hn, Hf]. rewrite (Hok eq_refl) in H2.
        destruct H2 as [-> ->]; [|split; [done|]; cbn; by rewrite app_assoc].
        intros Hin. apply Hn. destruct Hs as [pre ->]. apply elem_of_app. by right.
Qed.

Definition texts (ws : list (bool * cstr)) : cstr := concat ws.*2.

Lemma texts_app ws1 ws2 : texts (ws1 ++ ws2) = texts ws1 ++ texts ws2.
Proof. unfold texts. by rewrite fmap_app, concat_app. Qed.

Lemma texts_must line : texts (must line) = print_lines [line].
Proof. done. Qed.

Lemma texts_may line : texts (may line) = print_lines [line].
Proof. done. Qed.

Lemma texts_when_must b line : texts (when b (must line)) = print_lines (if_line b line).
Proof. by destruct b. Qed.

Lemma texts_when_may b line : texts (when b (may line)) = print_lines (if_line b line).
Proof. by destruct b. Qed.

Ltac texts_eq :=
  rewrite ?texts_app, ?texts_must, ?texts_may, ?texts_when_must, ?texts_when_may, ?print_app, <- ?app_assoc.

Section Refines.
Context (inet_ntop6 : in6_addr -> cstr) (localtime : Z -> option tm) (ctime : Z -> cstr).

Lemma save_writes_text l : texts (save_writes6 inet_ntop6 localtime l) = print_lines (save_lines6 inet_ntop6 localtime l).
Proof.
  unfold save_writes6, save_lines6, times6, states6, strings6. texts_eq.
  change (print_lines [[]; LeaseFileV6.block_head6 inet_ntop6 l]) with (print_lines [10 :: LeaseFileV6.block_head6 inet_ntop6 l]).
  change (print_lines [time_line6 localtime "starts" (x_starts l); time_line6 localtime "ends" (x_ends l)])
    with (print_lines ([time_line6 localtime "starts" (x_starts l)] ++ [time_line6 localtime "ends" (x_ends l)])).
  by rewrite print_app, <- !app_assoc.
Qed.

Lemma append_writes_text l : texts (append_writes6 inet_ntop6 localtime l) = print_lines (append_lines6 inet_ntop6 localtime l).
Proof.
  unfold append_writes6, append_lines6, times6, states6, strings6. texts_eq.
  change (print_lines [[125]; []]) with (print_lines [[125; 10]]).
  change (print_lines [LeaseFileV6.block_head6 inet_ntop6 l; statement_line6 "duid" (duid_hex6 l); statement_line6 "iaid" (dec (x_iaid l))])
    with (print_lines ([LeaseFileV6.block_head6 inet_ntop6 l] ++ [statement_line6 "duid" (duid_hex6 l)] ++ [statement_line6 "iaid" (dec (x_iaid l))])).
  change (print_lines [time_line6 localtime "starts" (x_starts l); time_line6 localtime "ends" (x_ends l)])
    with (print_lines ([time_line6 localtime "starts" (x_starts l)] ++ [time_line6 localtime "ends" (x_ends l)])).
  by rewrite !print_app, <- !app_assoc.
Qed.

Lemma header_writes_text now :
  texts (header_writes6 ctime now) = print_lines header_lines6 ++ lit "# Last updated: " ++ ctime now ++ [10].
Proof.
  unfold header_writes6. texts_eq. rewrite (app_assoc (lit "# Last updated: ")).
  assert (print_lines [lit "# Last updated: " ++ ctime now] = (lit "# Last updated: " ++ ctime now) ++ [10]) as ->
    by (unfold print_lines; cbn [fmap list_fmap concat]; by rewrite app_nil_r).
  rewrite !app_assoc. do 2 f_equal.
Qed.

Lemma db_writes_text now db :
  texts (db_writes6 inet_ntop6 localtime ctime now db)
  = print_lines header_lines6 ++ lit "# Last updated: " ++ ctime now ++ [10]
    ++ print_lines (concat (save_lines6 inet_ntop6 localtime <$> List.filter x_in_use db.(d_leases))).
Proof.
  unfold db_writes6. rewrite texts_app, header_writes_text, <- !app_assoc. do 3 f_equal. f_equal.
  induction (List.filter x_in_use (d_leases db)) as [|l ls IH]; [done|]. cbn [fmap list_fmap concat].
  by rewrite texts_app, print_app, save_writes_text, <- IH.
Qed.

(** [lease_v6_db_append] on disk: it returns 0 also when a write fails; without such a
    failure the file is the one of [LeaseFileV6]. *)
Lemma lease6_append_io opened plan l file :
  Forall fits (append_writes6 inet_ntop6 localtime l) ->
  let '(code, file') := lease_v6_db_append inet_ntop6 localtime opened plan l file in
  (code = if opened then 0 else -1)
  /\ ((WriteFail ∉ plan) -> (code, file') = LeaseFileV6.lease_v6_db_append inet_ntop6 localtime opened l file).
Proof.
  intros Hf. unfold lease_v6_db_append, LeaseFileV6.lease_v6_db_append. destruct opened; cbn [negb]; [|done].
  split; [done|]. intros Hp. destruct (write_seq_spec _ Hf plan (default [] file)) as (ok & data & E & _ & H).
  destruct (H Hp) as [_ ->]. rewrite E. cbn [snd]. fold (texts (append_writes6 inet_ntop6 localtime l)). by rewrite append_writes_text.
Qed.

(** C23: saving the DHCPv6 leases to disk.  Whatever [write] does call by call (fewer bytes,
    interruptions, errors), [lease_v6_db_save] either returns -1 and leaves the lease file as
    it was, or returns 0 and the file has, in order, every text whose write is checked, in
    full, and a prefix of the others.  When no write fails, code and file are those of the
    model that writes whole files, and no temporary file is left after a success. *)
Theorem lease6_save_io calls plan now db file tmp :
  Forall fits (db_writes6 inet_ntop6 localtime ctime now db) ->
  let '(code, file', tmp') := lease_v6_db_save inet_ntop6 localtime ctime calls plan now db file tmp in
  ((code = -1 /\ file' = file)
   \/ (code = 0 /\ tmp' = None /\ exists ps, file' = Some (concat ps)
       /\ Forall2 piece (db_writes6 inet_ntop6 localtime ctime now db) ps))
  /\ ((WriteFail ∉ plan) ->
      (code, file') = LeaseFileV6.lease_v6_db_save inet_ntop6 localtime ctime
                        (calls.(sc_open) && calls.(sc_close) && calls.(sc_rename)) now db file).
Proof.
  intros Hf. unfold lease_v6_db_save, LeaseFileV6.lease_v6_db_save. destruct (sc_open calls); cbn [negb andb]; [|by split; [left|]].
  destruct (write_seq_spec _ Hf plan []) as (ok & data & -> & H1 & H2).
  destruct ok; cbn [negb]; [|split; [by left|]; intros Hp; by destruct (H2 Hp)].
  destruct (sc_close calls); cbn [negb andb]; [|by split; [left|]]. destruct (sc_rename calls); cbn [negb]; [|by split; [left|]].
  split.
  - right. destruct (H1 eq_refl) as (ps & -> & Hps). split_and!; [done|done|]. by exists ps.
  - intros Hp. destruct (H2 Hp) as [_ ->]. cbn [app]. fold (texts (db_writes6 inet_ntop6 localtime ctime now db)).
    by rewrite db_writes_text.
Qed.
End Refines.

(** C22: the buffered reader.  Whatever [read] does call by call short of an error (fewer bytes
    than asked for, interruptions, chunks that end anywhere in a line), every sequence of
    calls of [rd_getline] returns exactly the lines of the file, each cut to the buffer of
    65535 bytes, then 0 for ever, and no byte is lost or read twice. *)
Theorem rd_getline_refines (n : nat) (fd : Z) (file : cstr) (plan : list read_choice) :
  (ReadFail ∉ plan) ->
  exists R, rd_lines n (rd_open fd file plan).2 = Ret ((file_lines n file).1, R) /\ unread R = (file_lines n file).2
  /\ r_fd R = fd.
Proof.
  intros Hp. assert (forall R0, rd_ok R0 -> r_fd R0 = fd -> (ReadFail ∉ R0.(r_plan)) ->
    exists R, rd_lines n R0 = Ret ((file_lines n (unread R0)).1, R) /\ unread R = (file_lines n (unread R0)).2 /\ r_fd R = fd) as H.
  { clear Hp. induction n as [|n IH]; intros R0 Hok Hfd Hn; [by exists R0|]. cbn [rd_lines file_lines].
    destruct (getline_step R0 Hok) as (code & line & R1 & -> & [Hok1 Hfd1 Hpl] & Hr). rewrite bind_Ret.
    destruct Hr as [[_ Hin]|Hr]; [done|].
    destruct (IH R1 Hok1) as (R & -> & Hu & Hf); [congruence|intros Hin; apply Hn; destruct Hpl as [pre ->]; apply elem_of_app; by right|].
    rewrite bind_Ret. exists R.
    destruct (LeaseFileV6.rd_getline (unread R0)) as [[text rest]|]; destruct Hr as (-> & -> & Hrest); rewrite Hrest in Hu |- *.
    - by destruct (file_lines n rest).
    - by destruct (file_lines n []). }
  destruct (H (mk_rd [] 0 fd file plan)) as (R & E & Hu & Hf); [unfold rd_ok; cbn; lia|done|done|].
  by exists R.
Qed.

(** A file read through one-byte reads, a chunk and interruptions. *)
Lemma rd_getline_refines_witness :
  exists R, rd_lines 3 (rd_open 3 (lit "lease" ++ [10] ++ lit "end") [ReadSome 1; ReadIntr; ReadSome 6; ReadIntr; ReadSome 1]).2
            = Ret ([Some (lit "lease"); Some (lit "end"); None], R).
Proof.
  destruct (rd_getline_refines 3 3 (lit "lease" ++ [10] ++ lit "end") [ReadSome 1; ReadIntr; ReadSome 6; ReadIntr; ReadSome 1]) as (R & E & _).
  - rewrite !elem_of_cons, elem_of_nil. intros H. repeat (destruct H as [H|H]; [discriminate H|]). exact H.
  - exists R. exact E.
Defined.

Definition fitsb (w : bool * cstr) : bool := Z.of_nat (length w.2) <? 8192.

Lemma fits_all ws : forallb fitsb ws = true -> Forall fits ws.
Proof.
  intros H. apply Forall_forall. intros w Hw. pose proof (forallb_elem _ _ H w Hw) as E. unfold fitsb in E. unfold fits, WR_TMP_MAX. lia.
Qed.

Definition jan_calls : save_calls := mk_save_calls true true true.

(** Two leases saved through short writes and an interruption, and with a full disk. *)
Lemma lease6_save_io_witness :
  (lease_v6_db_save full_ntop jan_localtime jan_ctime jan_calls [WriteSome 3; WriteIntr; WriteSome 0] 1000 jan_db None None).1
  = LeaseFileV6.lease_v6_db_save full_ntop jan_localtime jan_ctime true 1000 jan_db None
  /\ (lease_v6_db_save full_ntop jan_localtime jan_ctime jan_calls (replicate 9 WriteFail) 1000 jan_db (Some [35]) None).1 = (-1, Some [35]).
Proof.
  assert (Forall fits (db_writes6 full_ntop jan_localtime jan_ctime 1000 jan_db)) as Hf by (apply fits_all; vm_compute; reflexivity).
  split.
  - pose proof (lease6_save_io full_ntop jan_localtime jan_ctime jan_calls [WriteSome 3; WriteIntr; WriteSome 0] 1000 jan_db None None Hf) as H.
    destruct (lease_v6_db_save _ _ _ _ _ _ _ _ _) as [[code file'] tmp']. destruct H as [_ H]. apply H.
    rewrite !elem_of_cons, elem_of_nil. intros Hin. repeat (destruct Hin as [Hin|Hin]; [discriminate Hin|]). exact Hin.
  - vm_compute. reflexivity.
Defined.

(** A write that is not checked may fail alone: the save succeeds and the line is lost. *)
Example unchecked_write_lost :
  exists file, lease_v6_db_save full_ntop jan_localtime jan_ctime jan_calls [WriteFail] 1000 jan_db None None = (0, Some file, None)
  /\ Some file <> (LeaseFileV6.lease_v6_db_save full_ntop jan_localtime jan_ctime true 1000 jan_db None).2.
Proof.
  eexists. split; [vm_compute; reflexivity|]. intros H%(f_equal (fmap length)). vm_compute in H. discriminate H.
Qed.
