(* ===== verification/MainV6.v ===== *)
(** * The DHCPv6 server program

    [dhcpv6_agent_start] of [DHCPv6/sources/server.c] and [standalone.c]: the start from the
    configuration file and the lease file, the loop that polls the socket and queues the
    packets, and the end, with the workers joined and the leases saved.  It composes the
    logger ([Logger]), the parser ([ConfigFileV6]), the lease file ([LeaseFileV6]), the pools
    and the threads ([ServerV6System]).

    What the threads do is a sequence of events.  A worker takes a packet in one event and
    answers it in another; a packet is answered, and a clean-up round made, under the lock
    [db_lock].  What the system calls return is the record [agent_results] and part of the
    events. *)

From Stdlib Require Import String.
From S2P Require Import Prelude Ring UtilsV6 LeasesV6 ConfigV6 ProtocolV6 Ip6Pool Ip6PoolSpec PdPool ServerV6 ServerV6Spec ServerV6System CText UtilsV4 Logger ConfigFileV6 ConfigFileV6Spec LeaseFileV6 LeaseFileV6Spec.

Definition CONFIG_FILE_V6 : string := "DHCPv6/config/dhcpv6.conf".

Definition LEASE_FILE_V6 : string := "DHCPv6/leases/dhcpd6.leases".

(** An entry of [getifaddrs]: whether its address is one of IPv6, the index of its
    interface, 0 when there is none, and whether joining the group there succeeds. *)
Record ifaddr6 := mk_ifaddr6 {
  if_inet6 : bool;
  if_index : Z;
  if_join : bool
}.

(** What the system calls of the start return: the descriptor of the log file; the size of
    the shared memory after [ftruncate], [None] when it cannot be opened; [mmap]; the
    creation of worker [i] and of the clean-up thread; [socket], [bind] and [getifaddrs]. *)
Record agent_results := mk_agent_results {
  ar_log : option Z;
  ar_shm : option Z;
  ar_mmap : bool;
  ar_worker : nat -> bool;
  ar_cleaner : bool;
  ar_socket : bool;
  ar_bind : bool;
  ar_ifs : option (list ifaddr6)
}.

(** [a_running] is the global flag, [a_looping] says that the loop has not been left. *)
Record agent := mk_agent {
  a_sys : sys6;
  a_joined : list Z;
  a_running : bool;
  a_looping : bool
}.

Definition set_a_sys (v : sys6) (a : agent) : agent := mk_agent v a.(a_joined) a.(a_running) a.(a_looping).

Definition set_a_looping (v : bool) (a : agent) : agent := mk_agent a.(a_sys) a.(a_joined) a.(a_running) v.

Definition dhcpv6_agent_stop (a : agent) : agent := mk_agent a.(a_sys) a.(a_joined) false a.(a_looping).

(** ** The start *)

Definition SIZEOF_STATS : Z := 40.

(** The statistics in shared memory, without which the server goes on; writing to a mapping
    that is longer than the object is a fault. *)
Definition open_stats (r : agent_results) (now : Z) : outcome (option server_stats_t) :=
  match r.(ar_shm) with
  | None => Ret None
  | Some size =>
      if negb r.(ar_mmap) then Ret None
      else if size <? SIZEOF_STATS then Fault OutOfBounds
      else Ret (Some (mk_stats now 0 0 0 0))
  end.

(** The interfaces on which the multicast group is joined. *)
Definition join_groups (ifs : option (list ifaddr6)) : list Z :=
  omap (fun i => if negb i.(if_inet6) then None
                 else if i.(if_index) =? 0 then None
                 else if i.(if_join) then Some i.(if_index) else None) (default [] ifs).

Definition all_workers (r : agent_results) : bool := forallb r.(ar_worker) (seq 0 THREAD_POOL_SIZE).

Section Agent.
Context (inet_pton6 : cstr -> option in6_addr) (inet_ntop6 : in6_addr -> cstr).
Context (localtime : Z -> option tm) (mktime : tm -> Z) (ctime : Z -> cstr).

Definition start_text : cstr := lit "Starting DHCPv6 Server (Multi-threaded with 8 threads)...".

(** The lease file; [None] when it cannot be opened. *)
Definition load_leases (junk : cstr) (file : option cstr) (db : lease_v6_db_t) : outcome (Z * lease_v6_db_t) :=
  lease_v6_db_load inet_pton6 mktime (S (length (default [] file))) junk file db.

(** [dhcpv6_agent_start] up to its loop; [None] is the return of a null pointer.  [files]
    gives the contents of a file, [junk] is an uninitialised buffer, [garbage] fills the task
    queue. *)
Definition agent_start (r : agent_results) (files : cstr -> option cstr) (junk : cstr) (garbage : task_t) (now : Z)
    : outcome (option agent) :=
  '(_, _, log) ← init_logger r.(ar_log) (lit "[DHCPv6-Server]") LOG_DEBUG true (Some (lit "logs/dhcpv6_server.log")) logger_static;
  '(_, _) ← log_msg localtime now LOG_INFO start_text log;
  '(rc, cfg) ← load_config_v6 inet_pton6 (files (lit CONFIG_FILE_V6));
  if negb (rc =? 0) then Ret None
  else
    let cfg := convert_all_to_binary inet_pton6 cfg in
    let db := lease_v6_db_init (lit LEASE_FILE_V6) in
    stats ← open_stats r now;
    '(_, db) ← load_leases junk (files (lit LEASE_FILE_V6)) db;
    match start_ctx now cfg db stats with
    | None => Fault OutOfFuel
    | Some ctx =>
        if negb (all_workers r) then Ret None
        else if negb r.(ar_cleaner) then Ret None
        else if negb r.(ar_socket) then Ret None
        else if negb r.(ar_bind) then Ret None
        else Ret (Some (mk_agent (sys6_start garbage ctx) (join_groups r.(ar_ifs)) true true))
    end.

(** ** The threads *)

Inductive recv_result :=
  | RecvGot (t : task_t)
  | RecvIntr
  | RecvFail.

(** What [poll] returns; [PollOther] is an event other than [POLLIN]. *)
Inductive poll_result :=
  | PollTimeout
  | PollIntr
  | PollFail
  | PollOther
  | PollIn (recv : recv_result).

(** One round of the loop. *)
Definition agent_round (p : poll_result) (a : agent) : outcome agent :=
  if negb a.(a_running) then Ret (set_a_looping false a)
  else
    match p with
    | PollTimeout | PollIntr | PollOther | PollIn RecvIntr => Ret a
    | PollFail | PollIn RecvFail => Ret (set_a_looping false a)
    | PollIn (RecvGot t) =>
        let s := a.(a_sys) in
        '(ok, ctx, q) ← receive_packet t s.(y_ctx) s.(y_queue);
        Ret (set_a_sys (mk_sys6 ctx q s.(y_workers) (if ok : bool then s.(y_accepted) ++ [t] else s.(y_accepted)) s.(y_taken)) a)
    end.

(** What worker [i] does next: it takes a packet, waits or ends, or answers the packet it
    has; the bytes sent. *)
Definition worker6_step (i : nat) (v : packet_env) (out_buf : list Z) (s : sys6) : outcome (option (list Z) * sys6) :=
  match s.(y_workers) !! i with
  | Some W6Idle =>
      action ← worker_thread s.(y_queue);
      match action with
      | Worker6Wait => Ret (None, s)
      | Worker6Exit => Ret (None, mk_sys6 s.(y_ctx) s.(y_queue) (<[i := W6Exited]> s.(y_workers)) s.(y_accepted) s.(y_taken))
      | Worker6Run t q => Ret (None, mk_sys6 s.(y_ctx) q (<[i := W6Busy t]> s.(y_workers)) s.(y_accepted) (s.(y_taken) ++ [t]))
      end
  | Some (W6Busy t) =>
      '(reply, ctx) ← process_packet v out_buf s.(y_ctx) t.(t6_buf) t.(t6_client_addr);
      Ret (reply, mk_sys6 ctx s.(y_queue) (<[i := W6Idle]> s.(y_workers)) s.(y_accepted) s.(y_taken))
  | _ => Ret (None, s)
  end.

Definition cleaner_step (now : Z) (s : sys6) : outcome sys6 :=
  ctx ← cleanup_round now s.(y_ctx);
  Ret (mk_sys6 ctx s.(y_queue) s.(y_workers) s.(y_accepted) s.(y_taken)).

Inductive event6 :=
  | E6Poll (p : poll_result)
  | E6Worker (i : nat) (v : packet_env) (out_buf : list Z)
  | E6Cleaner (now : Z)
  | E6Signal.

Definition agent_event (e : event6) (a : agent) : outcome (list (list Z) * agent) :=
  match e with
  | E6Poll p => if a.(a_looping) then a ← agent_round p a; Ret ([], a) else Ret ([], a)
  | E6Worker i v out_buf => '(reply, s) ← worker6_step i v out_buf a.(a_sys); Ret (option_list reply, set_a_sys s a)
  | E6Cleaner now => s ← cleaner_step now a.(a_sys); Ret ([], set_a_sys s a)
  | E6Signal => Ret ([], dhcpv6_agent_stop a)
  end.

(** The replies sent during a sequence of events, and the state after it. *)
Fixpoint agent_run (es : list event6) (a : agent) : outcome (list (list Z) * agent) :=
  match es with
  | [] => Ret ([], a)
  | e :: es => '(sent, a) ← agent_event e a; '(sent', a) ← agent_run es a; Ret (sent ++ sent', a)
  end.

(** ** The end *)

(** The workers in [is_], each until it exits: a packet it has is answered first.  [envs i]
    is what worker [i] sees. *)
Fixpoint join_workers (is_ : list nat) (envs : nat -> packet_env * list Z) (s : sys6) : outcome (list (list Z) * sys6) :=
  match is_ with
  | [] => Ret ([], s)
  | i :: is_ =>
      '(r1, s) ← worker6_step i (envs i).1 (envs i).2 s;
      '(r2, s) ← worker6_step i (envs i).1 (envs i).2 s;
      '(sent, s) ← join_workers is_ envs s;
      Ret (option_list r1 ++ option_list r2 ++ sent, s)
  end.

Definition ip6_pool_free (pool : ip6_pool_t) : ip6_pool_t := mk_pool6 ServerV6.zero_subnet6 [] 0 0 0.

Definition pd_pool_free (pool : pd_pool_t) : pd_pool_t := mk_pd_pool ServerV6.zero_subnet6 zero_addr6 0 0 [] 0 0 0.

(** The end of [dhcpv6_agent_start]: the replies still sent, the leases when the threads have
    ended, the context freed and the lease file.  The workers end in the order of [is_];
    [written] says whether the file is written.  The clean-up thread is taken to be cancelled
    between two rounds; [cancelled_writer_blocks] is what can happen inside of one. *)
Definition agent_end (is_ : list nat) (envs : nat -> packet_env * list Z) (written : bool) (now : Z) (a : agent)
    (file : option cstr) : outcome (list (list Z) * sys6 * server_ctx_t * option cstr) :=
  let s := a.(a_sys) in
  let s := mk_sys6 s.(y_ctx) (queue_shutdown s.(y_queue)) s.(y_workers) s.(y_accepted) s.(y_taken) in
  '(sent, s) ← join_workers is_ envs s;
  let ctx := s.(y_ctx) in
  let '(_, file) := lease_v6_db_save inet_ntop6 localtime ctime written now ctx.(k_db) file in
  Ret (sent, s, mk_ctx ctx.(k_config) (lease_v6_db_free ctx.(k_db)) (ip6_pool_free <$> ctx.(k_pools))
                  (pd_pool_free <$> ctx.(k_pd_pools)) None, file).
End Agent.

(** ** What loading gives *)

(** Every lease that was loaded is in use, and no two are for the same address or prefix. *)
Record loaded (ls : list dhcpv6_lease_t) : Prop := {
  ld_used : Forall (fun l => l.(x_in_use) = true) ls;
  ld_wf : forall db, db6_wf (set_d_leases ls db)
}.

Lemma same_lease6_key tmp l : l.(x_in_use) = true ->
  same_lease6 tmp l = true <-> lease_key l = lease_key (set_x_in_use true tmp).
Proof.
  intros Hu. unfold same_lease6, lease_key, memeq. rewrite Hu. cbn [x_in_use set_x_in_use x_type x_ip6_addr x_prefix_v6 x_plen].
  destruct (x_type tmp), (x_type l); cbn [andb]; rewrite ?bool_decide_eq_true_2, ?bool_decide_eq_false_2 by done; cbn [andb];
    rewrite ?andb_true_iff, ?Z.eqb_eq, ?bool_decide_eq_true; naive_solver congruence.
Qed.

Lemma load_lease6_loaded ls parsed : loaded ls -> loaded (load_lease6 ls parsed).
Proof.
  intros Hl. destruct parsed as [tmp|]; [|done]. cbn [load_lease6]. destruct (_ && _); [|done]. destruct Hl as [Hu Hw].
  unfold store_lease6. destruct (find_index (same_lease6 tmp) ls) as [i|] eqn:E.
  - apply find_index_lookup in E as (l & Hi & Hs). pose proof (Forall_lookup_1 _ _ _ _ Hu Hi) as Hlu. cbv beta in Hlu.
    apply same_lease6_key in Hs; [|done]. constructor; [by apply Forall_insert|]. intros db. by apply (wf6_update _ i l _ (Hw db)).
  - case_bool_decide as Hc; [|done]. constructor; [apply Forall_app; split; [done|]; by repeat constructor|].
    intros db. destruct (lease_key (set_x_in_use true tmp)) as [k|] eqn:Ek; [|done].
    apply (wf6_append _ _ k (Hw db)); [done|done|]. intros (l & Hin & Hlk)%elem_of_omap_key.
    pose proof (proj1 (Forall_forall _ _) Hu l Hin) as Hlu. cbv beta in Hlu.
    assert (same_lease6 tmp l = true) as Hs by (apply same_lease6_key; [done|congruence]).
    rewrite find_index_None in E. by rewrite (E l Hin) in Hs.
Qed.

Lemma load6_loop_loaded inet_pton6 mktime fuel0 fuel junk : forall fp ls ls',
  load6_loop inet_pton6 mktime fuel0 fuel junk fp ls = Ret ls' -> loaded ls -> loaded ls'.
Proof.
  induction fuel as [|fuel IH]; intros fp ls ls' E Hl; [done|]. cbn [load6_loop] in E.
  destruct (rd_getline fp) as [[line fp']|]; [|by injection E as <-]. cbv zeta in E.
  destruct (blank6 _); [by eapply IH|]. destruct (starts _ _); [|destruct (starts _ _)]; [| |by eapply IH].
  - destruct (parse_block_ia_na _ _ _ _ _) as [[parsed fp2]|]; [|done]. rewrite bind_Ret in E. eapply IH; [exact E|]. by apply load_lease6_loaded.
  - destruct (parse_block_ia_pd _ _ _ _ _ _) as [[parsed fp2]|]; [|done]. rewrite bind_Ret in E. eapply IH; [exact E|]. by apply load_lease6_loaded.
Qed.

Lemma loaded_nil : loaded [].
Proof. constructor; [constructor|]. intros db. constructor; [cbn; lia|constructor]. Qed.

(** The leases of any file that does not end inside of a prefix block. *)
Lemma load_leases_ok inet_pton6 mktime junk file path :
  ~ open_prefix_block (default [] file) ->
  exists db, load_leases inet_pton6 mktime junk file (lease_v6_db_init path) = Ret (0, db) /\ db6_wf db.
Proof.
  intros Ho. unfold load_leases. destruct file as [contents|]; cbn [default lease_v6_db_load].
  2:{ eexists. split; [done|]. apply db6_init_wf. }
  destruct (load_fates inet_pton6 mktime junk contents [] ltac:(cbn; lia)) as [(ls & _ & H)|[_ ?]]; [|done].
  destruct (H (S (length contents)) (S (length contents))) as [E|[_ ?]]; [|lia]. unfold id. rewrite E, bind_Ret.
  eexists. split; [done|]. by destruct (load6_loop_loaded _ _ _ _ _ _ _ _ E loaded_nil) as [_ Hw].
Qed.

(** The binary addresses of a subnet. *)
Definition bins_ok (s : dhcpv6_subnet_t) : Prop :=
  is_in6 s.(s6_pool_start_bin) /\ is_in6 s.(s6_pool_end_bin) /\ is_in6 s.(s6_pd_pool_start_bin) /\ is_in6 s.(s6_pd_pool_end_bin).

Lemma zero_bin_ok : is_in6 (replicate 16 0).
Proof. split; [done|]. apply Forall_replicate. unfold is_u8. lia. Qed.

Section Config.
Context (inet_pton6 : cstr -> option in6_addr) (inet_pton6_ok : forall s a, inet_pton6 s = Some a -> is_in6 a).

Lemma range_to_bin_ok a b x y : is_in6 x -> is_in6 y ->
  is_in6 (range_to_bin inet_pton6 a b x y).1.2 /\ is_in6 (range_to_bin inet_pton6 a b x y).2.
Proof.
  intros Hx Hy. unfold range_to_bin, ipv6_str_to_bin. destruct (inet_pton6 a) eqn:Ea; [|done].
  destruct (inet_pton6 b) eqn:Eb; split; cbn; eauto.
Qed.

Lemma parse_subnet_line_bins p s : bins_ok s -> bins_ok (parse_subnet_line inet_pton6 p s).
Proof.
  intros Hs. assert (bins_ok (parse_subnet_option p s)) as Ho.
  { unfold parse_subnet_option, store_some. repeat case_match; exact Hs. }
  unfold parse_subnet_line. destruct (starts_with p _); [|destruct (starts_with p _); [|by repeat case_match]].
  - unfold parse_range. destruct (_ ≫= _) as [[a b]|]; [|done]. cbv zeta. destruct Hs as (H1 & H2 & H3 & H4).
    pose proof (range_to_bin_ok a b _ _ H1 H2) as Hr. cbn -[range_to_bin] in Hr |- *.
    destruct (range_to_bin _ _ _ _ _) as [[ok x] y]. by destruct Hr.
  - unfold parse_prefix6. destruct (_ ≫= _) as [[[a b] sl]|]; [|done]. cbv zeta.
    set (t := if _ =? 47 then _ else s). assert (bins_ok t) as (H1 & H2 & H3 & H4) by (unfold t; by case_match). clearbody t.
    pose proof (range_to_bin_ok a b _ _ H3 H4) as Hr. cbn -[range_to_bin] in Hr |- *.
    destruct (range_to_bin _ _ _ _ _) as [[ok x] y]. by destruct Hr.
Qed.

Lemma start_new_subnet_bins cfg line cfg' :
  start_new_subnet inet_pton6 cfg line = Some cfg' -> Forall bins_ok cfg.(c6_subnets) -> Forall bins_ok cfg'.(c6_subnets).
Proof.
  intros E Hs. unfold start_new_subnet in E. case_bool_decide; [done|]. cbv zeta in E.
  destruct (scan_s 255 _) as [[pl r]|]; [|done]. cbn [mbind option_bind] in E.
  destruct (parse_prefix_and_len pl 80) as [[pre len]|]; [|done]. cbn [mbind option_bind] in E.
  destruct (ipv6_str_to_bin _ _ _) as [ok a]. injection E as <-. cbn [c6_subnets set_c6_subnets]. apply Forall_app.
  split; [done|]. repeat constructor; try done; apply zero_bin_ok.
Qed.

Lemma load_loop6_bins fuel : forall fp cfg current r cfg',
  load_loop6 inet_pton6 fuel fp cfg current = Ret (r, cfg') -> Forall bins_ok cfg.(c6_subnets) -> Forall bins_ok cfg'.(c6_subnets).
Proof.
  induction fuel as [|fuel IH]; intros fp cfg current r cfg' E Hs; [done|]. cbn [load_loop6] in E.
  destruct (fgets_buf LINE_MAX_LEN fp) as [[line fp']|]; [|by injection E as _ <-]. cbv zeta in E.
  destruct (skipped6 _); [by eapply IH|]. destruct (_ =? 125); [by eapply IH|]. destruct current as [i|].
  - destruct (c6_subnets cfg !! i) as [s|] eqn:Ei; [|done]. cbn [in_bounds] in E. rewrite bind_Ret in E.
    pose proof (Forall_lookup_1 _ _ _ _ Hs Ei) as Hi. destruct (starts_with _ _).
    + destruct (parse_host_block inet_pton6 fp' s _) as [[[r1 fp2] s']|] eqn:Eh; [|done]. rewrite bind_Ret in E. cbv beta iota in E.
      assert (bins_ok s') as Hs'.
      { unfold parse_host_block in Eh. case_bool_decide; [by injection Eh as _ _ <-|].
        destruct (host6_loop _ _ _ _ _) as [[[r2 fp3] hosts]|]; [|done]. rewrite bind_Ret in Eh. by injection Eh as _ _ <-. }
      assert (Forall bins_ok (<[i := s']> (c6_subnets cfg))) as Hput by (by apply Forall_insert).
      destruct (r1 =? 0); [eapply IH; [exact E|exact Hput]|]. injection E as _ <-. exact Hput.
    + eapply IH; [exact E|]. cbn [c6_subnets set_c6_subnets]. apply Forall_insert; [done|]. by apply parse_subnet_line_bins.
  - destruct (starts_with _ _); [|eapply IH; [exact E|exact Hs]].
    destruct (start_new_subnet inet_pton6 cfg _) as [cfg2|] eqn:En; [|by injection E as _ <-].
    eapply IH; [exact E|]. by eapply start_new_subnet_bins.
Qed.

(** A delegated prefix has a length. *)
Definition delegates_ok (s : dhcpv6_subnet_t) : Prop := s.(s6_pd_enabled) = true -> 1 <= s.(s6_pd_prefix_len) <= 128.

(** What the conversions keep. *)
Definition converts (f : dhcpv6_subnet_t -> dhcpv6_subnet_t) : Prop :=
  forall s, bins_ok s -> bins_ok (f s) /\ s6_pd_enabled (f s) = s6_pd_enabled s /\ s6_pd_prefix_len (f s) = s6_pd_prefix_len s.

Ltac converts_tac :=
  intros s (H1 & H2 & H3 & H4); repeat case_match; simplify_eq/=;
  (split; [refine (conj _ (conj _ (conj _ _))); cbn; eauto|done]).

Lemma converts_prefix : converts (convert_subnet_prefix inet_pton6).
Proof. unfold convert_subnet_prefix, ipv6_str_to_bin. converts_tac. Qed.

Lemma converts_range : converts (convert_range_block inet_pton6).
Proof. unfold convert_range_block, ipv6_str_to_bin. converts_tac. Qed.

Lemma converts_pd : converts (convert_pd_block inet_pton6).
Proof. unfold convert_pd_block, ipv6_str_to_bin. converts_tac. Qed.

Lemma convert_subnet_ok s : bins_ok s -> delegates_ok s -> subnet_start_ok (convert_subnet inet_pton6 s).
Proof.
  intros Hb Hd. destruct (converts_prefix s Hb) as (Hb1 & E1 & L1). destruct (converts_range _ Hb1) as (Hb2 & E2 & L2).
  destruct (converts_pd _ Hb2) as ((H1 & H2 & H3 & H4) & E3 & L3). unfold convert_subnet. cbv zeta. split; [done|].
  cbn [set_s6_hosts s6_pd_enabled s6_has_pd_pool s6_pd_pool_start_bin s6_pd_pool_end_bin s6_pd_prefix_len]. intros He _.
  split; [done|]. split; [done|]. rewrite L3, L2, L1. apply Hd. congruence.
Qed.

Lemma load_config_start file cfg :
  load_config_v6 inet_pton6 file = Ret (0, cfg) -> Forall delegates_ok cfg.(c6_subnets) ->
  Forall subnet_start_ok (convert_all_to_binary inet_pton6 cfg).(c6_subnets).
Proof.
  intros E Hd. destruct file as [fp|]; [|done]. cbn [load_config_v6] in E.
  destruct (load_loop6 _ _ _ _ _) as [[r cfg1]|] eqn:El; [|done]. rewrite bind_Ret in E. cbv beta iota in E.
  pose proof (load_loop6_bins _ _ _ _ _ _ El ltac:(constructor)) as Hb.
  destruct (r =? 0) eqn:Er; [|injection E as -> <-; by rewrite Z.eqb_refl in Er]. injection E as <-.
  cbn [convert_all_to_binary set_c6_subnets c6_subnets] in *. unfold apply_defaults in *. cbv zeta in *. cbn [c6_subnets] in *.
  apply Forall_fmap. rewrite Forall_forall in Hd |- *. intros s Hs. cbn. apply convert_subnet_ok; [|by apply Hd].
  apply list_elem_of_fmap in Hs as (s0 & -> & Hs0). rewrite Forall_forall in Hb. specialize (Hb s0 Hs0).
  unfold inherit_times. repeat case_match; exact Hb.
Qed.
End Config.

(** ** The run *)

(** The conditions under which the server comes up: the log file can be opened, the shared
    memory has its size, the threads are created and the port is free, the configuration is
    accepted with lengths for the prefixes it delegates, and the lease file does not end
    inside of a prefix block. *)
Record startable (inet_pton6 : cstr -> option in6_addr) (r : agent_results) (files : cstr -> option cstr) : Prop := {
  su_log : exists fd, r.(ar_log) = Some fd /\ 2 < fd;
  su_shm : forall size, r.(ar_shm) = Some size -> SIZEOF_STATS <= size;
  su_threads : all_workers r = true /\ r.(ar_cleaner) = true;
  su_socket : r.(ar_socket) = true /\ r.(ar_bind) = true;
  su_config : exists cfg, load_config_v6 inet_pton6 (files (lit CONFIG_FILE_V6)) = Ret (0, cfg) /\ Forall delegates_ok cfg.(c6_subnets);
  su_leases : ~ open_prefix_block (default [] (files (lit LEASE_FILE_V6)))
}.

Definition event6_ok (e : event6) : Prop :=
  match e with
  | E6Poll (PollIn (RecvGot t)) => datagram t
  | E6Worker _ v out_buf => env_ok v /\ length out_buf = BUF_SIZE
  | _ => True
  end.

Definition is_busy (w : worker6_state) : bool := match w with W6Busy _ => true | _ => false end.

Definition is_exited (w : worker6_state) : bool := match w with W6Exited => true | _ => false end.

(** The invariant of a run in which [n] replies were sent: each is for one packet taken. *)
Record sys6_inv (ctx0 : server_ctx_t) (n : nat) (s : sys6) : Prop := {
  si_ok : sys6_ok ctx0 s;
  si_workers : length s.(y_workers) = THREAD_POOL_SIZE;
  si_replies : Z.of_nat n + countb is_busy s.(y_workers) <= Z.of_nat (length s.(y_taken))
}.

Lemma worker_thread_returns q : queue_ok q -> exists action, worker_thread q = Ret action.
Proof.
  intros [Hwf _]. unfold worker_thread. destruct (tq_shutdown q); cbn [negb]; [rewrite andb_false_r; by eexists|].
  rewrite andb_true_r. case_bool_decide as Hc; [by eexists|].
  destruct (ring_pop_spec (tq_tasks q) Hwf ltac:(lia)) as (x & r' & -> & _). by eexists.
Qed.

(** A step of a worker returns and keeps the invariant. *)
Lemma agent_worker_inv ctx0 n i v out_buf s :
  sys6_inv ctx0 n s -> env_ok v -> length out_buf = BUF_SIZE ->
  exists r s', worker6_step i v out_buf s = Ret (r, s') /\ sys6_inv ctx0 (n + length (option_list r)) s'.
Proof.
  intros [Hok Hl Hn] Hv Hb. unfold worker6_step. destruct (y_workers s !! i) as [w|] eqn:Hi; cycle 1.
  { exists None, s. split; [done|]. constructor; [done|done|]. by rewrite Nat.add_0_r. }
  destruct s as [ctx q ws acc tk]. cbn [y_ctx y_queue y_workers y_accepted y_taken] in *. destruct w as [|t|].
  - destruct (worker_thread_returns q (so_queue _ _ Hok)) as (action & E). rewrite E, bind_Ret.
    destruct action as [| |t q'].
    + exists None, (mk_sys6 ctx q ws acc tk). split; [done|]. constructor; [done|done|]. by rewrite Nat.add_0_r.
    + eexists None, _. split; [done|]. constructor.
      * eapply sys6_step_ok; [exact Hok|]. by apply S6Exit.
      * cbn. by rewrite length_insert.
      * cbn [y_workers y_taken]. change (length (option_list (None : option (list Z)))) with 0%nat. rewrite (countb_insert _ _ _ _ _ Hi). cbn [is_busy]. lia.
    + eexists None, _. split; [done|]. constructor.
      * eapply sys6_step_ok; [exact Hok|]. by apply S6Take.
      * cbn. by rewrite length_insert.
      * cbn [y_workers y_taken]. change (length (option_list (None : option (list Z)))) with 0%nat. rewrite (countb_insert _ _ _ _ _ Hi), length_app. cbn [is_busy length]. lia.
  - pose proof (Forall_lookup_1 _ _ _ _ (so_workers _ _ Hok) Hi) as [Hu _].
    destruct (process_spec v out_buf ctx (t6_buf t) (t6_client_addr t) Hv Hb Hu (cm_ok _ _ (so_ctx _ _ Hok))) as (reply & ctx' & E & _).
    rewrite E, bind_Ret. eexists reply, _. split; [done|]. constructor.
    + eapply sys6_step_ok; [exact Hok|]. by eapply S6Answer.
    + cbn. by rewrite length_insert.
    + cbn [y_workers y_taken]. rewrite (countb_insert _ _ _ _ _ Hi). cbn [is_busy].
      assert (length (option_list reply) <= 1)%nat by (destruct reply; cbn; lia). lia.
  - exists None, (mk_sys6 ctx q ws acc tk). split; [done|]. constructor; [done|done|]. by rewrite Nat.add_0_r.
Qed.

Lemma sys6_inv_step ctx0 n s s' :
  sys6_inv ctx0 n s -> sys6_step s s' -> y_workers s' = y_workers s -> y_taken s' = y_taken s -> sys6_inv ctx0 n s'.
Proof. intros [Hok Hl Hn] Hst Hw Ht. constructor; [by eapply sys6_step_ok|by rewrite Hw|by rewrite Hw, Ht]. Qed.

Lemma queue_push_returns t q : queue_ok q -> datagram t -> exists ok q', queue_push t q = Ret (ok, q').
Proof.
  intros Hq [_ Ht]. unfold queue_push. destruct (_ && _); [|by eexists _, _]. rewrite bool_decide_eq_false_2 by lia. by eexists _, _.
Qed.

Lemma agent_event_inv ctx0 n e a :
  event6_ok e -> sys6_inv ctx0 n a.(a_sys) ->
  exists sent a', agent_event e a = Ret (sent, a') /\ sys6_inv ctx0 (n + length sent) a'.(a_sys).
Proof.
  intros He Hi. assert (exists a', Ret ([] : list (list Z), a) = Ret ([], a') /\ sys6_inv ctx0 n (a_sys a')) as Hstay by (by exists a).
  destruct e as [p|i v out_buf|now|]; cbn [agent_event].
  - destruct (a_looping a); cycle 1; [exists [], a; rewrite Nat.add_0_r; by split|]. unfold agent_round.
    destruct (a_running a); cbn [negb]; [|rewrite bind_Ret; eexists [], _; rewrite Nat.add_0_r; by split].
    destruct p as [| | | |[t| |]]; try (rewrite bind_Ret; eexists [], _; rewrite Nat.add_0_r; by split).
    pose proof (si_ok _ _ _ Hi) as Hok. destruct (queue_push_returns t _ (so_queue _ _ Hok) He) as (ok & q' & E).
    unfold receive_packet. cbv zeta. rewrite E, bind_Ret. cbv beta iota. rewrite !bind_Ret. eexists [], _. split; [done|].
    rewrite Nat.add_0_r. cbn [a_sys set_a_sys]. eapply sys6_inv_step; [exact Hi| |done|done].
    destruct (a_sys a) as [ctx q ws acc tk]. cbn [y_ctx y_queue y_workers y_accepted y_taken] in *.
    apply (S6Receive ctx q ws acc tk t ok); [done|]. unfold receive_packet. cbv zeta. by rewrite E.
  - destruct He as [Hv Hb]. destruct (agent_worker_inv ctx0 n i v out_buf _ Hi Hv Hb) as (r & s' & -> & Hs). rewrite bind_Ret.
    by eexists _, _.
  - pose proof (si_ok _ _ _ Hi) as Hok. unfold cleaner_step.
    destruct (cleanup_round_moved now _ (cm_ok _ _ (so_ctx _ _ Hok))) as (ctx' & E & _). rewrite E, !bind_Ret.
    eexists [], _. split; [done|]. rewrite Nat.add_0_r. cbn [a_sys set_a_sys]. eapply sys6_inv_step; [exact Hi| |done|done].
    destruct (a_sys a). by eapply S6Cleanup.
  - eexists [], _. rewrite Nat.add_0_r. by split.
Qed.

Lemma agent_run_inv ctx0 es : forall n a, Forall event6_ok es -> sys6_inv ctx0 n a.(a_sys) ->
  exists sent a', agent_run es a = Ret (sent, a') /\ sys6_inv ctx0 (n + length sent) a'.(a_sys).
Proof.
  induction es as [|e es IH]; intros n a Hes Hi; [exists [], a; rewrite Nat.add_0_r; by split|].
  apply Forall_cons in Hes as [He Hes]. cbn [agent_run].
  destruct (agent_event_inv ctx0 n e a He Hi) as (sent & a1 & -> & H1). rewrite bind_Ret.
  destruct (IH _ _ Hes H1) as (sent' & a2 & -> & H2). rewrite bind_Ret. eexists _, _. split; [done|].
  by rewrite length_app, Nat.add_assoc.
Qed.

(** ** The workers at the end *)

(** The packet worker [i] has taken and not yet answered. *)
Definition pending (ws : list worker6_state) (i : nat) : option (nat * task_t) :=
  match ws !! i with Some (W6Busy t) => Some (i, t) | _ => None end.

(** Each of the packets is processed once, in order, by the worker that has it, and its
    reply, if it has one, is sent. *)
Inductive answered (envs : nat -> packet_env * list Z) :
    list (nat * task_t) -> server_ctx_t -> list (list Z) -> server_ctx_t -> Prop :=
| answered_nil ctx : answered envs [] ctx [] ctx
| answered_cons i t rest ctx reply ctx1 sent ctx2 :
    process_packet (envs i).1 (envs i).2 ctx t.(t6_buf) t.(t6_client_addr) = Ret (reply, ctx1) ->
    answered envs rest ctx1 sent ctx2 ->
    answered envs ((i, t) :: rest) ctx (option_list reply ++ sent) ctx2.

(** After the shutdown a worker ends within two steps, having answered the packet it had. *)
Lemma join_worker ctx0 n i v out_buf s :
  sys6_inv ctx0 n s -> env_ok v -> length out_buf = BUF_SIZE -> tq_shutdown s.(y_queue) = true -> (i < THREAD_POOL_SIZE)%nat ->
  exists r1 s1 r2 s2, worker6_step i v out_buf s = Ret (r1, s1) /\ worker6_step i v out_buf s1 = Ret (r2, s2)
  /\ sys6_inv ctx0 (n + length (option_list r1) + length (option_list r2)) s2
  /\ y_workers s2 = <[i := W6Exited]> (y_workers s) /\ y_queue s2 = y_queue s /\ y_taken s2 = y_taken s
  /\ r2 = None
  /\ match pending s.(y_workers) i with
     | Some (_, t) => process_packet v out_buf s.(y_ctx) t.(t6_buf) t.(t6_client_addr) = Ret (r1, s2.(y_ctx))
     | None => r1 = None /\ s2.(y_ctx) = s.(y_ctx)
     end.
Proof.
  intros Hi Hv Hb Hq Hlt.
  destruct (agent_worker_inv ctx0 n i v out_buf s Hi Hv Hb) as (r1 & s1 & E1 & H1).
  destruct (agent_worker_inv ctx0 _ i v out_buf s1 H1 Hv Hb) as (r2 & s2 & E2 & H2).
  exists r1, s1, r2, s2. split; [done|]. split; [done|]. split; [done|].
  pose proof (si_workers _ _ _ Hi) as Hl. rewrite <- Hl in Hlt. destruct (lookup_lt_is_Some_2 _ _ Hlt) as [w Hw].
  assert (forall q, tq_shutdown q = true -> worker_thread q = Ret Worker6Exit) as Hexit.
  { intros q Eq. unfold worker_thread. rewrite Eq. cbn [negb]. by rewrite andb_false_r. }
  unfold pending. rewrite Hw. unfold worker6_step in E1. rewrite Hw in E1. destruct w as [|t|].
  - rewrite Hexit, bind_Ret in E1 by done. injection E1 as <- <-. unfold worker6_step in E2. cbn [y_workers] in E2.
    rewrite list_lookup_insert_eq in E2 by done. by injection E2 as <- <-.
  - destruct (process_packet _ _ _ _ _) as [[reply ctx']|]; [|done]. rewrite bind_Ret in E1. injection E1 as <- <-.
    unfold worker6_step in E2. cbn [y_workers y_queue] in E2. rewrite list_lookup_insert_eq, Hexit, bind_Ret in E2 by done.
    injection E2 as <- <-. cbn [y_workers y_queue y_taken y_ctx]. by rewrite list_insert_insert_eq.
  - injection E1 as <- <-. unfold worker6_step in E2. rewrite Hw in E2. injection E2 as <- <-. by rewrite list_insert_id.
Qed.

Lemma pending_other ws (is_ : list nat) i w : (i ∉ is_) -> omap (pending (<[i := w]> ws)) is_ = omap (pending ws) is_.
Proof.
  induction is_ as [|j is_ IH]; intros Hn; [done|]. apply not_elem_of_cons in Hn as [Hne Hn].
  assert (pending (<[i := w]> ws) j = pending ws j) as E by (unfold pending; by rewrite list_lookup_insert_ne).
  cbn. by rewrite E, IH.
Qed.

Lemma join_workers_end ctx0 is_ envs : forall n s,
  sys6_inv ctx0 n s -> (forall i, env_ok (envs i).1 /\ length (envs i).2 = BUF_SIZE) -> tq_shutdown s.(y_queue) = true ->
  Forall (fun i => i < THREAD_POOL_SIZE)%nat is_ -> NoDup is_ ->
  exists sent s', join_workers is_ envs s = Ret (sent, s') /\ sys6_inv ctx0 (n + length sent) s'
  /\ y_taken s' = y_taken s /\ y_queue s' = y_queue s
  /\ answered envs (omap (pending s.(y_workers)) is_) s.(y_ctx) sent s'.(y_ctx)
  /\ forall i, i ∈ is_ \/ y_workers s !! i = Some W6Exited -> y_workers s' !! i = Some W6Exited.
Proof.
  induction is_ as [|i is_ IH]; intros n s Hi He Hq Hlt Hnd.
  - exists [], s. rewrite Nat.add_0_r. split_and!; [done|done|done|done|constructor|]. intros i [H|H]; [by apply elem_of_nil in H|done].
  - apply Forall_cons in Hlt as [Hil Hlt]. apply NoDup_cons in Hnd as [Hni Hnd]. destruct (He i) as [Hv Hb]. cbn [join_workers].
    destruct (join_worker ctx0 n i (envs i).1 (envs i).2 s Hi Hv Hb Hq Hil)
      as (r1 & s1 & r2 & s2 & -> & E2 & H2 & Hw & Hq2 & Ht & -> & Hp).
    rewrite bind_Ret. cbv beta iota. rewrite E2, bind_Ret. cbv beta iota.
    destruct (IH _ s2 H2 He ltac:(by rewrite Hq2) Hlt Hnd) as (sent & s' & -> & H' & Ht' & Hq' & Hans & Hall). rewrite bind_Ret.
    rewrite Hw, pending_other in Hans by done.
    eexists _, _. split; [done|]. split; [by rewrite !length_app, !Nat.add_assoc|]. split; [congruence|]. split; [congruence|]. split.
    + cbn [app option_list omap list_omap]. destruct (pending (y_workers s) i) as [[j t]|] eqn:Ep.
      * assert (j = i) as -> by (revert Ep; unfold pending; repeat case_match; congruence). by econstructor.
      * destruct Hp as [-> Hc]. cbn [option_list app]. by rewrite <- Hc.
    + intros j Hj. apply Hall. rewrite Hw. destruct (decide (j = i)) as [->|Hne].
      * right. apply list_lookup_insert_eq. by rewrite (si_workers _ _ _ Hi).
      * rewrite list_lookup_insert_ne by done. destruct Hj as [Hj|Hj]; [|by right]. left. set_solver.
Qed.

(** ** The program *)

Section Program.
Context (inet_pton6 : cstr -> option in6_addr) (inet_pton6_ok : forall s a, inet_pton6 s = Some a -> is_in6 a).
Context (inet_ntop6 : in6_addr -> cstr) (localtime : Z -> option tm) (mktime : tm -> Z) (ctime : Z -> cstr).

#[local] Abbreviation agent_start := (agent_start inet_pton6 localtime mktime).
#[local] Abbreviation agent_end := (agent_end inet_ntop6 localtime ctime).

(** Without a log file the program blocks at its first message, before it reads anything. *)
Lemma agent_blocks r files junk garbage now : r.(ar_log) = None -> agent_start r files junk garbage now = Fault Deadlock.
Proof.
  intros Hl. unfold MainV6.agent_start. rewrite Hl.
  destruct (log_starts localtime now None (lit "[DHCPv6-Server]") LOG_DEBUG (lit "logs/dhcpv6_server.log") start_text) as (rc & es & log & -> & _ & H);
    [done|done|]. rewrite bind_Ret. cbv beta iota. by rewrite H.
Qed.

Lemma agent_starts r files junk garbage now : startable inet_pton6 r files ->
  exists ctx0, agent_start r files junk garbage now = Ret (Some (mk_agent (sys6_start garbage ctx0) (join_groups r.(ar_ifs)) true true))
  /\ sys6_inv ctx0 0 (sys6_start garbage ctx0).
Proof.
  intros [(fd & Hl & Hfd) Hshm [Hw Hc] [Hso Hbi] (cfg & Ec & Hd) Hle]. unfold MainV6.agent_start. rewrite Hl.
  destruct (log_starts localtime now (Some fd) (lit "[DHCPv6-Server]") LOG_DEBUG (lit "logs/dhcpv6_server.log") start_text) as (rc & es & log & -> & Hm & _);
    [done|by intros ? [= <-]|]. rewrite bind_Ret. cbv beta iota. destruct Hm as (es' & log' & ->); [done|]. rewrite bind_Ret. cbv beta iota.
  rewrite Ec, bind_Ret. cbv beta iota. cbn [Z.eqb negb].
  assert (exists stats, open_stats r now = Ret stats) as (stats & ->).
  { unfold open_stats. destruct (ar_shm r) as [size|] eqn:Es; [|by eexists]. destruct (ar_mmap r); cbn [negb]; [|by eexists].
    specialize (Hshm size eq_refl). destruct (Z.ltb_spec size SIZEOF_STATS); [lia|by eexists]. }
  rewrite bind_Ret. cbv beta.
  destruct (load_leases_ok inet_pton6 mktime junk (files (lit LEASE_FILE_V6)) (lit LEASE_FILE_V6) Hle) as (db & -> & Hdb).
  rewrite bind_Ret. cbv beta iota.
  destruct (start_ctx_ok now (convert_all_to_binary inet_pton6 cfg) db stats) as (ctx0 & -> & Hctx & _);
    [by eapply load_config_start|done|].
  rewrite Hw, Hc, Hso, Hbi. cbn [negb]. exists ctx0. split; [done|]. constructor; [by apply sys6_start_ok|done|done].
Qed.

(** C7: the DHCPv6 server as a whole.  Started from its files under [startable] it comes up,
    and whatever its threads then do, in whatever order (polls that time out, are interrupted
    or deliver any datagram of at most 4096 bytes, workers that take and answer packets,
    clean-up rounds, signals), no step faults or blocks; the leases are for distinct addresses
    and prefixes, the pools keep their invariants, the workers take the packets in the order
    of reception with at most 256 waiting, and no more replies are sent than packets taken.
    When the log file cannot be opened it never gets that far: the first message blocks. *)
Theorem main6_serves r files junk garbage now :
  startable inet_pton6 r files ->
  (exists a0, agent_start r files junk garbage now = Ret (Some a0)
   /\ forall es, Forall event6_ok es ->
      exists sent a, agent_run es a0 = Ret (sent, a)
      /\ let s := a.(a_sys) in
         db6_wf s.(y_ctx).(k_db) /\ Forall pool6_wf s.(y_ctx).(k_pools) /\ Forall pd_wf s.(y_ctx).(k_pd_pools)
         /\ s.(y_accepted) = s.(y_taken) ++ ring_items s.(y_queue).(tq_tasks)
         /\ (length (ring_items s.(y_queue).(tq_tasks)) <= 256)%nat
         /\ (length sent <= length s.(y_taken))%nat)
  /\ forall r', r'.(ar_log) = None -> agent_start r' files junk garbage now = Fault Deadlock.
Proof.
  intros Hs. split; [|intros r' Hr'; by apply agent_blocks].
  destruct (agent_starts r files junk garbage now Hs) as (ctx0 & -> & Hi). eexists. split; [done|]. intros es Hes.
  destruct (agent_run_inv ctx0 es 0 (mk_agent (sys6_start garbage ctx0) (join_groups (ar_ifs r)) true true) Hes Hi) as (sent & a & -> & [Hok Hl Hn]).
  exists sent, a. split; [done|]. cbv zeta. destruct Hok as [[[H1 H2 H3 _ _] _ _ _] Hq Hw Ho Ha].
  split_and!; try done.
  - pose proof (fifo_bound _ Hq) as Hb. simpl in Hb. destruct Hq as [_ Hq]. rewrite Hq in Hb. exact Hb.
  - pose proof (countb_nonneg is_busy (y_workers (a_sys a))). lia.
Qed.

(** C8: the end of the DHCPv6 server.  After any run as above, from the exit of the loop on,
    the workers end in whatever order: each processes the packet it has taken, if any, once,
    and what is sent are exactly the replies to these packets; packets still queued stay
    queued and unanswered; the leases are saved and everything is freed.  If the file is
    written, [ctime] gives a line and the leases in use are ones the file can hold
    ([lease6_ok]), then loading it at the next start gives these leases with the fields
    [reload6] says, the times being the wrong ones of [lease6_file_reload]; a file that could
    not be written is left as it was. *)
Theorem main6_ends r files junk garbage now es is_ envs written now' file :
  startable inet_pton6 r files -> Forall event6_ok es -> is_ ≡ₚ seq 0 THREAD_POOL_SIZE ->
  (forall i, env_ok (envs i).1 /\ length (envs i).2 = BUF_SIZE) ->
  exists a0 sent a, agent_start r files junk garbage now = Ret (Some a0) /\ agent_run es a0 = Ret (sent, a)
  /\ exists sent' s ctx' file', agent_end is_ envs written now' a file = Ret (sent', s, ctx', file')
     /\ Forall (eq W6Exited) s.(y_workers) /\ s.(y_taken) = a.(a_sys).(y_taken)
     /\ answered envs (omap (pending a.(a_sys).(y_workers)) is_) a.(a_sys).(y_ctx) sent' s.(y_ctx)
     /\ ring_items s.(y_queue).(tq_tasks) = ring_items a.(a_sys).(y_queue).(tq_tasks)
     /\ (length (sent ++ sent') <= length s.(y_taken))%nat
     /\ ctx'.(k_db).(d_leases) = [] /\ Forall (fun p => p.(q_entries) = []) ctx'.(k_pools)
     /\ Forall (fun p => p.(pp_entries) = []) ctx'.(k_pd_pools)
     /\ if written : bool
        then ctime_ok ctime now' -> Forall (lease6_ok inet_pton6 inet_ntop6 localtime mktime) (List.filter x_in_use s.(y_ctx).(k_db).(d_leases)) ->
             forall junk' path, load_leases inet_pton6 mktime junk' file' (lease_v6_db_init path)
               = Ret (0, set_d_leases (reload6 localtime <$> List.filter x_in_use s.(y_ctx).(k_db).(d_leases)) (lease_v6_db_init path))
        else file' = file.
Proof.
  intros Hs Hes Hp He. destruct (agent_starts r files junk garbage now Hs) as (ctx0 & -> & Hi).
  destruct (agent_run_inv ctx0 es 0 (mk_agent (sys6_start garbage ctx0) (join_groups (ar_ifs r)) true true) Hes Hi) as (sent & a & Er & Ha).
  eexists _, sent, a. split; [done|]. split; [exact Er|]. rewrite Nat.add_0_l in Ha. unfold MainV6.agent_end. cbv zeta.
  set (s0 := mk_sys6 _ (queue_shutdown _) _ _ _).
  assert (sys6_inv ctx0 (length sent) s0) as H0.
  { eapply sys6_inv_step; [exact Ha| |done|done]. unfold s0. destruct (a_sys a). apply S6Shutdown. }
  destruct (join_workers_end ctx0 is_ envs _ s0 H0 He eq_refl) as (sent' & s & -> & Hinv & Ht & Hq & Hans & Hall).
  { rewrite Hp. apply Forall_forall. intros i Hin. apply elem_of_seq in Hin. lia. }
  { rewrite Hp. apply NoDup_seq. }
  rewrite bind_Ret. cbv beta iota.
  destruct (lease_v6_db_save inet_ntop6 localtime ctime written now' (k_db (y_ctx s)) file) as [rc file'] eqn:Ef.
  eexists _, _, _, _. split; [done|]. split_and!.
  - apply Forall_lookup_2. intros i w Hw. pose proof (lookup_lt_Some _ _ _ Hw) as Hlt. rewrite (si_workers _ _ _ Hinv) in Hlt.
    rewrite (Hall i) in Hw; [by injection Hw|]. left. rewrite Hp. apply elem_of_seq. lia.
  - exact Ht.
  - exact Hans.
  - by rewrite Hq.
  - rewrite length_app. pose proof (si_replies _ _ _ Hinv). pose proof (countb_nonneg is_busy (y_workers s)). lia.
  - done.
  - apply Forall_fmap, Forall_forall. by intros.
  - apply Forall_fmap, Forall_forall. by intros.
  - destruct written; [|by injection Ef]. intros (w & Hw & Hwt & Hwl) Hls junk' path.
    pose proof (saved_text inet_ntop6 localtime ctime now' w (k_db (y_ctx s)) file Hw) as Htx. rewrite Ef in Htx. cbn [snd] in Htx. subst file'.
    unfold load_leases. cbn [default lease_v6_db_load]. unfold id.
    pose proof (load_written inet_pton6 inet_ntop6 localtime mktime w (k_db (y_ctx s)) [] junk') as Hld.
    cbn [fmap list_fmap concat foldl] in Hld. rewrite !app_nil_r in Hld. rewrite Hld; [by rewrite bind_Ret|done|done|done| |lia].
    exact (co_db _ (cm_ok _ _ (so_ctx _ _ (si_ok _ _ _ Hinv)))).
Qed.
End Program.

(** ** A sample run *)

(** [full_pton] restricted to what are addresses. *)
Definition exact_pton (s : cstr) : option in6_addr :=
  match full_pton s with
  | Some a => if bool_decide (length a = 16%nat) && forallb (fun b => (0 <=? b) && (b <? 256)) a then Some a else None
  | None => None
  end.

Lemma exact_pton_ok s a : exact_pton s = Some a -> is_in6 a.
Proof.
  unfold exact_pton. destruct (full_pton s) as [b|]; [|done]. destruct (bool_decide _ && _) eqn:E; [|done]. intros [= <-].
  apply andb_true_iff in E as [H1 H2]. apply bool_decide_eq_true_1 in H1. split; [done|]. by apply u8_bytes.
Qed.

Definition sample_conf6 : cstr := config6_text full_ntop [ISubnet6 (doc6 1 0) 64 [SRange6 (doc6 1 16) (doc6 1 18)]].

Definition sample_files6 (path : cstr) : option cstr := if bool_decide (path = lit CONFIG_FILE_V6) then Some sample_conf6 else None.

Definition sample_results6 : agent_results :=
  mk_agent_results (Some 3) (Some 40) true (fun _ => true) true true true (Some [mk_ifaddr6 true 2 true; mk_ifaddr6 false 3 true]).

Definition sample_cfg6 : dhcpv6_config_t :=
  match load_config_v6 exact_pton (Some sample_conf6) with Ret (_, c) => c | Fault _ => zero_config6 end.

Lemma sample_startable : startable exact_pton sample_results6 sample_files6.
Proof.
  constructor.
  - by exists 3.
  - intros size [= <-]. done.
  - done.
  - done.
  - exists sample_cfg6. split; [vm_compute; reflexivity|]. apply Forall_forall. intros s Hs. unfold delegates_ok.
    assert (forallb (fun s => negb s.(s6_pd_enabled)) (c6_subnets sample_cfg6) = true) as Hp by (vm_compute; reflexivity).
    pose proof (forallb_elem _ _ Hp s Hs) as E. cbv beta in E. by destruct (s6_pd_enabled s).
  - assert (default [] (sample_files6 (lit LEASE_FILE_V6)) = []) as -> by (vm_compute; reflexivity).
    intros (fp & line & rest & Hr & E & _). assert (fp = []) as -> by (inversion Hr; subst; done). done.
Qed.

Definition sample_task6 (msg_type xid : Z) : task_t := mk_task6 (sample_msg msg_type xid) sample_client.

(** A solicitation and a request, a time-out and the signal that ends the server. *)
Definition sample_events6 : list event6 :=
  [E6Poll (PollIn (RecvGot (sample_task6 1 5))); E6Worker 0 (sample_env 90) (replicate BUF_SIZE 0);
   E6Poll (PollIn (RecvGot (sample_task6 3 6))); E6Worker 1 (sample_env 91) (replicate BUF_SIZE 0);
   E6Worker 0 (sample_env 92) (replicate BUF_SIZE 0); E6Cleaner 95; E6Poll PollTimeout; E6Signal; E6Poll PollIntr].

Lemma sample_datagram6 msg_type xid : is_u8 msg_type -> is_u8 xid -> datagram (sample_task6 msg_type xid).
Proof.
  intros H1 H2. split; [|cbn; unfold BUF_SIZE; lia]. cbn [t6_buf sample_task6]. unfold sample_msg. apply Forall_app.
  split; [|apply u8_bytes; vm_compute; reflexivity].
  repeat (apply Forall_cons; split; [done || unfold is_u8; lia|]). constructor.
Qed.

Lemma sample_events6_ok : Forall event6_ok sample_events6.
Proof.
  assert (length (replicate BUF_SIZE 0) = BUF_SIZE) as Hl by apply length_replicate.
  unfold sample_events6. repeat (apply Forall_cons; split; [cbn [event6_ok]|]); [..|constructor]; try done;
    try (by split; [apply sample_env_ok|]); apply sample_datagram6; unfold is_u8; lia.
Qed.

Lemma main6_serves_witness :
  exists a0 sent a, agent_start exact_pton jan_localtime jan_mktime sample_results6 sample_files6 [] (sample_task6 0 0) 90 = Ret (Some a0)
  /\ agent_run sample_events6 a0 = Ret (sent, a) /\ db6_wf a.(a_sys).(y_ctx).(k_db) /\ (length sent <= length a.(a_sys).(y_taken))%nat.
Proof.
  destruct (main6_serves exact_pton exact_pton_ok jan_localtime jan_mktime sample_results6 sample_files6 [] (sample_task6 0 0) 90 sample_startable)
    as [(a0 & E & H) _].
  destruct (H sample_events6 sample_events6_ok) as (sent & a & Er & Hdb & _ & _ & _ & _ & Hn).
  exists a0, sent, a. exact (conj E (conj Er (conj Hdb Hn))).
Defined.

Definition sample_order6 : list nat := [3; 1; 0; 2; 7; 6; 5; 4]%nat.

Definition sample_envs6 (i : nat) : packet_env * list Z := (sample_env 99, replicate BUF_SIZE 0).

(** The first bytes of what is sent at the end, and the leases then in use. *)
Definition end6_of (start : outcome (option agent)) (run : agent -> outcome (list (list Z) * agent))
    (fin : agent -> outcome (list (list Z) * sys6 * server_ctx_t * option cstr)) : outcome (list (option Z) * list dhcpv6_lease_t) :=
  a0 ← start;
  a0 ← in_bounds a0;
  '(_, a) ← run a0;
  '(sent, s, _, _) ← fin a;
  Ret (head <$> (sent : list (list Z)), List.filter x_in_use s.(y_ctx).(k_db).(d_leases)).

Lemma end6_of_eq start run fin a0 sent a sent' s ctx' file' :
  start = Ret (Some a0) -> run a0 = Ret (sent, a) -> fin a = Ret (sent', s, ctx', file') ->
  end6_of start run fin = Ret (head <$> sent', List.filter x_in_use s.(y_ctx).(k_db).(d_leases)).
Proof.
  intros -> E Ee. unfold end6_of. rewrite bind_Ret. cbn [in_bounds]. rewrite bind_Ret, E, bind_Ret. by rewrite Ee, bind_Ret.
Qed.

(** The lease of the client, from the request worker 1 answers after the signal. *)
Definition sample_lease6 : dhcpv6_lease_t :=
  mk_dhcpv6_lease true Lease6_IA_NA ([0; 1; 170] ++ replicate (DUID_MAX_LEN - 3) 0) 3 7 (doc6 1 16) zero_addr6 0
    99 3699 99 99 [] LEASE_STATE_ACTIVE LEASE_STATE_FREE LEASE_STATE_FREE [] [] [].

Lemma sample_end6_eq :
  end6_of (agent_start exact_pton jan_localtime jan_mktime sample_results6 sample_files6 [] (sample_task6 0 0) 90)
    (agent_run sample_events6)
    (fun a => agent_end full_ntop jan_localtime jan_ctime sample_order6 sample_envs6 true 1000 a None)
  = Ret ([Some 7], [sample_lease6]).
Proof. vm_compute. reflexivity. Qed.

Lemma sample_lease6_ok : lease6_ok exact_pton full_ntop jan_localtime jan_mktime sample_lease6.
Proof.
  assert (ip6_ok exact_pton full_ntop (doc6 1 16)).
  { assert (ip6_ok full_pton full_ntop (doc6 1 16)) as Hf by (apply full_ip6_ok; vm_compute; reflexivity).
    destruct Hf as (_ & H2 & H3 & H4). split_and!; [vm_compute; reflexivity|done|done|done]. }
  assert (time_ok jan_localtime jan_mktime 99) by (eexists; split; [reflexivity|]; unfold tm_ok; vm_compute; intuition congruence).
  assert (time_ok jan_localtime jan_mktime 3699) by (eexists; split; [reflexivity|]; unfold tm_ok; vm_compute; intuition congruence).
  unfold lease6_ok, duid6_ok, duid_bytes, hostname6_ok, string6_ok, is_u32. cbn [sample_lease6 x_type x_ip6_addr x_prefix_v6 x_plen x_duid x_duid_len
    x_iaid x_starts x_ends x_tstp x_cltt x_client_hostname x_vendor_class x_fqdn].
  split_and!; try done; try lia; try (closed_prop || (vm_compute; lia)).
Qed.

(** Worker 1 answers the request it had taken, the leases are saved, and loading them gives
    the client's lease back. *)
Lemma main6_ends_witness :
  exists a0 sent a, agent_start exact_pton jan_localtime jan_mktime sample_results6 sample_files6 [] (sample_task6 0 0) 90 = Ret (Some a0)
  /\ agent_run sample_events6 a0 = Ret (sent, a)
  /\ exists sent' s ctx' file', agent_end full_ntop jan_localtime jan_ctime sample_order6 sample_envs6 true 1000 a None
       = Ret (sent', s, ctx', file')
     /\ Forall (eq W6Exited) s.(y_workers) /\ head <$> sent' = [Some 7]
     /\ forall junk, load_leases exact_pton jan_mktime junk file' (lease_v6_db_init [])
          = Ret (0, set_d_leases [reload6 jan_localtime sample_lease6] (lease_v6_db_init [])).
Proof.
  destruct (main6_ends exact_pton exact_pton_ok full_ntop jan_localtime jan_mktime jan_ctime sample_results6 sample_files6 [] (sample_task6 0 0) 90
    sample_events6 sample_order6 sample_envs6 true 1000 None
    sample_startable sample_events6_ok) as (a0 & sent & a & E & Er & sent' & s & ctx' & file' & Ee & Hw & _ & _ & _ & _ & _ & _ & _ & Hload).
  - apply (bool_decide_unpack _). vm_compute. reflexivity.
  - intros i. split; [apply sample_env_ok|apply length_replicate].
  - exists a0, sent, a. split; [exact E|]. split; [exact Er|]. exists sent', s, ctx', file'.
    pose proof sample_end6_eq as Hs. rewrite (end6_of_eq _ _ _ a0 sent a sent' s ctx' file' E Er Ee) in Hs.
    injection Hs as Hsent Hl.
    split; [exact Ee|]. split; [exact Hw|]. split; [exact Hsent|]. intros junk. rewrite Hl in Hload.
    apply (Hload (jan_ctime_ok 1000)). apply Forall_singleton, sample_lease6_ok.
Defined.

(** The run: both packets are answered, by an advertisement and a reply, and one address is
    leased. *)
Example sample_run6 :
  match agent_start exact_pton jan_localtime jan_mktime sample_results6 sample_files6 [] (sample_task6 0 0) 90 with
  | Ret (Some a0) =>
      match agent_run (sample_events6 ++ [E6Worker 1 (sample_env 99) (replicate BUF_SIZE 0)]) a0 with
      | Ret (sent, a) =>
          (head <$> sent, length a.(a_sys).(y_ctx).(k_db).(d_leases), a.(a_joined), a.(a_looping))
          = ([Some 2; Some 7], 1%nat, [2], false)
      | Fault _ => False
      end
  | _ => False
  end.
Proof. vm_compute. reflexivity. Qed.
