(* ===== verification/Monitors.v ===== *)
(** * The monitors and the shared memory

    [DHCPv4/src/monitor.c] and [DHCPv6/monitor/monitor.c], which show the statistics of a
    server, and the shared memory they read.  An object of shared memory is its size in bytes
    and, when it is long enough, the statistics in it; reading a mapping beyond the object is
    [Fault OutOfBounds] (the process is ended by SIGBUS).  The DHCPv6 server makes its object
    at the start and unlinks it at the end ([agent_start] and [agent_end] of [MainV6]); no
    part of the DHCPv4 server makes one. *)

From Stdlib Require Import String.
From stdpp Require Import gmap strings.
From S2P Require Import Prelude UtilsV6 CText UtilsV4 ServerV6 MainV6.

Definition SHM_STATS_NAME : string := "/dhcpv6_stats".

Definition SHM_STATS_V4_NAME : string := "/dhcpv4_stats".

Record shm_object := mk_shm_object {
  o_size : Z;
  o_stats : server_stats_t
}.

Definition zero_stats : server_stats_t := mk_stats 0 0 0 0 0.

Abbreviation shm := (gmap string shm_object).

(** [shm_open]; with [O_CREAT] an object that does not exist is made, of size 0.  [allowed]
    says whether the permissions are enough. *)
Definition shm_open (allowed create : bool) (name : string) (m : shm) : option shm :=
  if negb allowed then None
  else
    match m !! name with
    | Some _ => Some m
    | None => if create then Some (<[name := mk_shm_object 0 zero_stats]> m) else None
    end.

(** A read through a mapping of [SIZEOF_STATS] bytes. *)
Definition read_stats (name : string) (m : shm) : outcome server_stats_t :=
  match m !! name with
  | Some o => if o.(o_size) <? SIZEOF_STATS then Fault OutOfBounds else Ret o.(o_stats)
  | None => Fault OutOfBounds
  end.

(** [shm_open] of the DHCPv6 server, [ftruncate] to the size of the statistics and their
    initialisation. *)
Definition server_shm (truncated : bool) (now : Z) (m : shm) : outcome shm :=
  match shm_open true true SHM_STATS_NAME m with
  | None => Ret m
  | Some m =>
      let size := if truncated then SIZEOF_STATS else default 0 (o_size <$> m !! SHM_STATS_NAME) in
      if size <? SIZEOF_STATS then Fault OutOfBounds
      else Ret (<[SHM_STATS_NAME := mk_shm_object size (mk_stats now 0 0 0 0)]> m)
  end.

(** A change of the statistics by the server. *)
Definition server_update (f : server_stats_t -> server_stats_t) (m : shm) : shm :=
  alter (fun o => mk_shm_object o.(o_size) (f o.(o_stats))) SHM_STATS_NAME m.

Definition shm_unlink (name : string) (m : shm) : shm := delete name m.

Section Screens.
Context (ctime : Z -> cstr).

Definition bar : cstr := lit "========================================" ++ [10].

(** One screen of a monitor; [title] is its second line.  The time that has passed is
    printed without decimals. *)
Definition screen (title : string) (now : Z) (s : server_stats_t) : cstr :=
  [27; 91; 72; 27; 91; 74] ++ bar ++ lit title ++ [10] ++ bar
  ++ lit "Uptime:          " ++ format_d 0 (now - s.(st_start_time)) ++ lit " sec" ++ [10]
  ++ lit "Start Time:      " ++ ctime s.(st_start_time)
  ++ lit "----------------------------------------" ++ [10]
  ++ lit "Packets RX:      " ++ dec s.(st_pkt_received) ++ [10]
  ++ lit "Packets Proc:    " ++ dec s.(st_pkt_processed) ++ [10]
  ++ lit "Active Leases:   " ++ dec s.(st_leases_active) ++ [10]
  ++ lit "Errors:          " ++ dec s.(st_errors_count) ++ [10]
  ++ bar ++ lit "Press Ctrl+C to exit monitor." ++ [10].

(** A monitor up to its first screen: its exit code or the screen, and the shared memory. *)
Definition monitor_v6 (allowed mapped : bool) (now : Z) (m : shm) : outcome ((Z + cstr) * shm) :=
  match shm_open allowed false SHM_STATS_NAME m with
  | None => Ret (inl 1, m)
  | Some m =>
      if negb mapped then Ret (inl 1, m)
      else
        stats ← read_stats SHM_STATS_NAME m;
        Ret (inr (screen "   DHCPv6 Server Live Dashboard (SHM)   " now stats), m)
  end.

Definition monitor_v4 (allowed mapped : bool) (now : Z) (m : shm) : outcome ((Z + cstr) * shm) :=
  match shm_open allowed true SHM_STATS_V4_NAME m with
  | None => Ret (inl (-1), m)
  | Some m =>
      if negb mapped then Ret (inl (-1), m)
      else
        stats ← read_stats SHM_STATS_V4_NAME m;
        Ret (inr (screen "   DHCPv4 Server Live Dashboard (SHM)   " now stats), m)
  end.

(** ** What the monitors show *)

(** The objects during the life of the DHCPv6 server: its own is there, of the right size. *)
Lemma server_shm_live truncated now m m' fs :
  server_shm truncated now m = Ret m' ->
  exists o, foldl (fun m f => server_update f m) m' fs !! SHM_STATS_NAME = Some o /\ SIZEOF_STATS <= o.(o_size)
  /\ o.(o_stats) = foldl (fun s f => f s) (mk_stats now 0 0 0 0) fs.
Proof.
  intros E. assert (exists o, m' !! SHM_STATS_NAME = Some o /\ SIZEOF_STATS <= o_size o /\ o_stats o = mk_stats now 0 0 0 0) as (o & Ho & Hs & Hst).
  { unfold server_shm in E. destruct (shm_open true true SHM_STATS_NAME m) as [m1|] eqn:Eo.
    - destruct (Z.ltb_spec (if truncated then SIZEOF_STATS else default 0 (o_size <$> m1 !! SHM_STATS_NAME)) SIZEOF_STATS); [done|].
      injection E as <-. eexists. split; [apply lookup_insert_eq|]. by split.
    - unfold shm_open in Eo. cbn [negb] in Eo. by destruct (m !! SHM_STATS_NAME). }
  clear E. revert m' o Ho Hs Hst. generalize (mk_stats now 0 0 0 0). induction fs as [|f fs IH]; intros s m' o Ho Hs Hst; [by exists o|].
  cbn [foldl]. apply (IH (f s) _ (mk_shm_object (o_size o) (f (o_stats o)))); [|done|cbn; by rewrite Hst].
  unfold server_update. rewrite lookup_alter_eq, Ho. done.
Qed.

(** The monitor of the DHCPv6 server shows the counters as the server left them; without a
    server it ends with code 1; and after the end of the server there is nothing to read. *)
Lemma monitor_v6_shows truncated start m m' fs now :
  server_shm truncated start m = Ret m' ->
  let live := foldl (fun m f => server_update f m) m' fs in
  monitor_v6 true true now live
  = Ret (inr (screen "   DHCPv6 Server Live Dashboard (SHM)   " now (foldl (fun s f => f s) (mk_stats start 0 0 0 0) fs)), live)
  /\ monitor_v6 true true now (shm_unlink SHM_STATS_NAME live) = Ret (inl 1, shm_unlink SHM_STATS_NAME live).
Proof.
  intros E live. destruct (server_shm_live _ _ _ _ fs E) as (o & Ho & Hs & Hst). fold live in Ho. split.
  - unfold monitor_v6, shm_open. cbn [negb]. rewrite Ho. unfold read_stats. rewrite Ho.
    destruct (Z.ltb_spec (o_size o) SIZEOF_STATS); [lia|]. by rewrite bind_Ret, Hst.
  - unfold monitor_v6, shm_open, shm_unlink. cbn [negb]. by rewrite lookup_delete_eq.
Qed.

(** The monitor of the DHCPv4 server makes the object it wants to read: whatever the DHCPv6
    server does, it is ended by its first access. *)
Lemma monitor_v4_dies now m :
  m !! SHM_STATS_V4_NAME = None -> monitor_v4 true true now m = Fault OutOfBounds.
Proof.
  intros Hm. unfold monitor_v4, shm_open. cbn [negb]. rewrite Hm. unfold read_stats. by rewrite lookup_insert_eq.
Qed.

(** The DHCPv6 server leaves the other objects alone. *)
Lemma server_shm_other truncated start m m' fs :
  server_shm truncated start m = Ret m' ->
  foldl (fun m f => server_update f m) m' fs !! SHM_STATS_V4_NAME = m !! SHM_STATS_V4_NAME.
Proof.
  intros E. assert (m' !! SHM_STATS_V4_NAME = m !! SHM_STATS_V4_NAME) as <-.
  { unfold server_shm, shm_open in E. cbn [negb] in E. destruct (m !! SHM_STATS_NAME).
    - destruct (_ <? _); [done|]. injection E as <-. by rewrite lookup_insert_ne.
    - destruct (_ <? _); [done|]. injection E as <-. by rewrite !lookup_insert_ne. }
  clear E. revert m'. induction fs as [|f fs IH]; intros m'; [done|]. cbn [foldl]. rewrite IH. unfold server_update.
  by rewrite lookup_alter_ne.
Qed.
End Screens.

(** The screen of a server that has answered three packets. *)
Example sample_screen :
  match server_shm true 100 ∅ with
  | Ret m =>
      match monitor_v6 (fun _ => lit "then" ++ [10]) true true 160 (server_update (fun s => set_st_leases_active 2 (set_st_pkt_received 3 s)) m) with
      | Ret (inr text, _) => take 67 (drop 129 text) = lit "Uptime:          60 sec" ++ [10] ++ lit "Start Time:      then" ++ [10] ++ lit "---------------------"
      | _ => False
      end
  | Fault _ => False
  end.
Proof. vm_compute. reflexivity. Qed.

(** Nor can the DHCPv6 server be started when [ftruncate] fails on a new object. *)
Example truncate_failure : server_shm false 100 ∅ = Fault OutOfBounds.
Proof. vm_compute. reflexivity. Qed.
