(* ===== verification/DnsCache.v ===== *)
(** The cache of the DNS server, DNS_Server/sources/dns_cache.c: a trie with one level
    per character of the queried name, its responses with their expiry times.

    [cache_entry] is the source's [TrieNode], the array of forty child pointers a list
    of optional nodes (every node has one parent, so the trie is a tree);
    [response_buffer] holds the bytes of the array written so far, since [malloc]
    leaves the others undefined; [malloc] is taken to succeed (the code ends the process
    when it does not).  The functions take the global [root_node] and the
    time, and return the new root.  The second half of the file refines the trie to a
    finite map from names to responses. *)

From stdpp Require Import gmap.
From S2P Require Import Prelude UtilsV6.

(** ** Data *)

Definition CACHE_CHARS : nat := 40.

Definition MAX_PACKET_SIZE : Z := 512.

(** The proofs go by induction on names, never on the tree. *)
#[local] Unset Elimination Schemes.

Inductive cache_entry := TrieNode {
  is_leaf : bool;
  expires_at : Z;
  response_length : Z;
  response_buffer : list Z;
  child : list (option cache_entry)
}.

#[local] Set Elimination Schemes.

(** [search_node->child[index] = next] *)
Definition set_child (index : nat) (next : cache_entry) (n : cache_entry) : cache_entry :=
  TrieNode (is_leaf n) (expires_at n) (response_length n) (response_buffer n)
    (<[index := Some next]> (child n)).

(** ** Operations *)

Definition tolower (c : Z) : Z := if (65 <=? c) && (c <=? 90) then c + 32 else c.

Definition get_trie_index (c : Z) : Z :=
  let c := tolower c in
  if (97 <=? c) && (c <=? 122) then c - 97
  else if (48 <=? c) && (c <=? 57) then 26 + (c - 48)
  else if c =? 45 then 36
  else if c =? 95 then 37
  else if c =? 46 then 38
  else -1.

Definition new_cache_entry : cache_entry :=
  TrieNode false 0 0 [] (replicate CACHE_CHARS None).

Definition cache_initialize : option cache_entry := Some new_cache_entry.

(** The leaf's fields; [memcpy] of more bytes than either buffer has is a fault. *)
Definition store_response (response : list Z) (len ttl now : Z) (n : cache_entry)
    : outcome cache_entry :=
  if (MAX_PACKET_SIZE <? len) || (Z.of_nat (length response) <? len) then Fault OutOfBounds
  else Ret (TrieNode true (u32 now +u32 ttl) len
              (take (Z.to_nat len) response ++ drop (Z.to_nat len) (response_buffer n)) (child n)).

(** The walk of [cache_insert] from [search_node]; a character the trie has no index
    for ends it, the nodes made before staying. *)
Fixpoint insert_path (query_name : cstr) (response : list Z) (len ttl now : Z)
    (search_node : cache_entry) : outcome cache_entry :=
  match query_name with
  | [] => store_response response len ttl now search_node
  | c :: rest =>
      let index := get_trie_index c in
      if index =? -1 then Ret search_node
      else
        slot ← in_bounds (child search_node !! Z.to_nat index);
        let next := match slot with Some n => n | None => new_cache_entry end in
        next' ← insert_path rest response len ttl now next;
        Ret (set_child (Z.to_nat index) next' search_node)
  end.

Definition cache_insert (root_node : option cache_entry) (query_name : cstr)
    (response : list Z) (len ttl now : Z) : outcome (option cache_entry) :=
  match root_node with
  | Some root => root' ← insert_path query_name response len ttl now root; Ret (Some root')
  | None =>
      match query_name with
      | c :: _ => if get_trie_index c =? -1 then Ret None else Fault OutOfBounds
      | [] => Fault OutOfBounds
      end
  end.

(** What [cache_lookup] does at the node of the name: the entry while it is valid;
    an expired one is unmarked. *)
Definition lookup_leaf (now : Z) (n : cache_entry) : option cache_entry * cache_entry :=
  if is_leaf n then
    if u32 now <? expires_at n then (Some n, n)
    else (None, TrieNode false 0 (response_length n) (response_buffer n) (child n))
  else (None, n).

Fixpoint lookup_path (query_name : cstr) (now : Z) (search_node : cache_entry)
    : outcome (option cache_entry * cache_entry) :=
  match query_name with
  | [] => Ret (lookup_leaf now search_node)
  | c :: rest =>
      let index := get_trie_index c in
      if index =? -1 then Ret (None, search_node)
      else
        slot ← in_bounds (child search_node !! Z.to_nat index);
        match slot with
        | None => Ret (None, search_node)
        | Some next =>
            r ← lookup_path rest now next;
            Ret (r.1, set_child (Z.to_nat index) r.2 search_node)
        end
  end.

Definition cache_lookup (root_node : option cache_entry) (query_name : cstr) (now : Z)
    : outcome (option cache_entry * option cache_entry) :=
  match root_node with
  | Some root => r ← lookup_path query_name now root; Ret (r.1, Some r.2)
  | None =>
      match query_name with
      | c :: _ => if get_trie_index c =? -1 then Ret (None, None) else Fault OutOfBounds
      | [] => Ret (None, None)
      end
  end.

(** ** The map the trie stands for

    A name's key is the list of its indices; the map holds, for a key, the expiry time
    and the response. *)

Definition index_of (c : Z) : option nat :=
  if get_trie_index c =? -1 then None else Some (Z.to_nat (get_trie_index c)).

Fixpoint cache_key (name : cstr) : option (list nat) :=
  match name with
  | [] => Some []
  | c :: rest => i ← index_of c; k ← cache_key rest; Some (i :: k)
  end.

Fixpoint node_at (n : cache_entry) (k : list nat) : option cache_entry :=
  match k with
  | [] => Some n
  | i :: k => match child n !! i with Some (Some m) => node_at m k | _ => None end
  end.

(** The bytes of a response. *)
Definition response_of (n : cache_entry) : list Z :=
  take (Z.to_nat (response_length n)) (response_buffer n).

Definition stored (n : cache_entry) : option (Z * list Z) :=
  if is_leaf n then Some (expires_at n, response_of n) else None.

Definition entry_at (n : cache_entry) (k : list nat) : option (Z * list Z) :=
  node_at n k ≫= stored.

Abbreviation cache_map := (gmap (list nat) (Z * list Z)).

Definition map_insert (m : cache_map) (name : cstr) (response : list Z) (ttl now : Z) : cache_map :=
  match cache_key name with
  | Some k => <[k := (u32 now +u32 ttl, response)]> m
  | None => m
  end.

Definition map_lookup (m : cache_map) (name : cstr) (now : Z) : option (list Z) * cache_map :=
  match cache_key name ≫= (fun k => pair k <$> m !! k) with
  | Some (k, (expires, response)) =>
      if u32 now <? expires then (Some response, m) else (None, delete k m)
  | None => (None, m)
  end.

(** ** Invariant *)

Record node_ok (n : cache_entry) : Prop := {
  ok_children : length (child n) = CACHE_CHARS;
  ok_expires : is_u32 (expires_at n);
  ok_length : 0 <= response_length n <= MAX_PACKET_SIZE;
  ok_buffer : response_length n <= Z.of_nat (length (response_buffer n)) <= MAX_PACKET_SIZE
}.

(** Every node of the trie is well formed. *)
Definition trie_ok (n : cache_entry) : Prop := forall k m, node_at n k = Some m -> node_ok m.

Definition refines (n : cache_entry) (m : cache_map) : Prop :=
  trie_ok n /\ forall k, entry_at n k = m !! k.

(** ** Lemmas on indices and keys *)

Lemma get_trie_index_range c : -1 <= get_trie_index c < 39.
Proof.
  unfold get_trie_index. cbv zeta. generalize (tolower c) as x. intros x.
  repeat case_match; lia.
Qed.

Lemma tolower_index c : get_trie_index (tolower c) = get_trie_index c.
Proof.
  unfold get_trie_index. cbv zeta. f_equal.
  assert (tolower (tolower c) = tolower c) as ->; [|done].
  unfold tolower. destruct ((65 <=? c) && (c <=? 90)) eqn:E; [|by rewrite E].
  destruct ((65 <=? c + 32) && (c + 32 <=? 90)) eqn:E'; [lia|done].
Qed.

Lemma index_of_Some c i :
  index_of c = Some i -> (get_trie_index c =? -1) = false /\ i = Z.to_nat (get_trie_index c)
  /\ (i < CACHE_CHARS)%nat.
Proof.
  unfold index_of, CACHE_CHARS. pose proof (get_trie_index_range c).
  destruct (get_trie_index c =? -1); intros [= <-]. split_and!; [done|done|lia].
Qed.

Lemma index_of_None c : index_of c = None -> (get_trie_index c =? -1) = true.
Proof. unfold index_of. by destruct (get_trie_index c =? -1). Qed.

Lemma index_of_inj c d i :
  index_of c = Some i -> index_of d = Some i -> tolower c = tolower d.
Proof.
  unfold index_of, get_trie_index. cbv zeta.
  generalize (tolower c) as x. generalize (tolower d) as y. intros y x.
  intros Hc Hd. repeat case_match; simplify_eq; lia.
Qed.

Lemma index_of_lower c d : tolower c = tolower d -> index_of c = index_of d.
Proof.
  intros E. unfold index_of. by rewrite <- (tolower_index c), <- (tolower_index d), E.
Qed.

(** Names with a key share it exactly when they are equal up to case. *)
Lemma cache_key_lower s t :
  tolower <$> s = tolower <$> t -> cache_key s = cache_key t.
Proof.
  revert t. induction s as [|c s IH]; intros [|d t]; try done. cbn. intros [= E1 E2].
  by rewrite (index_of_lower c d E1), (IH t E2).
Qed.

Lemma cache_key_inj s t k :
  cache_key s = Some k -> cache_key t = Some k -> tolower <$> s = tolower <$> t.
Proof.
  revert t k. induction s as [|c s IH]; intros [|d t] k; cbn; [done| | |].
  - intros [= <-]. destruct (index_of d), (cache_key t); discriminate.
  - destruct (index_of c), (cache_key s); intros [= <-]; discriminate.
  - destruct (index_of c) as [i|] eqn:Ec; [|done]. destruct (cache_key s) as [ks|] eqn:Es; [|done].
    intros [= <-]. destruct (index_of d) as [j|] eqn:Ed; [|done].
    destruct (cache_key t) as [kt|] eqn:Et; [|done]. intros [= -> ->].
    f_equal; [by apply (index_of_inj c d i)|by apply (IH t ks)].
Qed.

(** ** Lemmas on the trie *)

Lemma node_ok_new : node_ok new_cache_entry.
Proof. split; simpl; unfold is_u32, MAX_PACKET_SIZE; lia || done. Qed.

Lemma node_at_new k m : node_at new_cache_entry k = Some m -> m = new_cache_entry.
Proof.
  destruct k as [|i k]; cbn [node_at]; [congruence|]. unfold new_cache_entry at 1. cbn [child].
  destruct (_ !! i) as [[n|]|] eqn:E; try done.
  by apply lookup_replicate in E as [? _].
Qed.

Lemma trie_ok_new : trie_ok new_cache_entry.
Proof. intros k m ->%node_at_new. apply node_ok_new. Qed.

Lemma entry_at_new k : entry_at new_cache_entry k = None.
Proof.
  unfold entry_at. destruct (node_at _ k) as [m|] eqn:E; [|done].
  apply node_at_new in E as ->. done.
Qed.

Lemma refines_new : refines new_cache_entry ∅.
Proof. split; [apply trie_ok_new|]. intros k. by rewrite entry_at_new, lookup_empty. Qed.

Lemma trie_ok_root n : trie_ok n -> node_ok n.
Proof. intros H. by apply (H []). Qed.

Lemma trie_ok_child n i m : trie_ok n -> child n !! i = Some (Some m) -> trie_ok m.
Proof. intros H Hi k m' Hm. apply (H (i :: k)). simpl. by rewrite Hi. Qed.

(** The slot [index] reads, a new node standing for an empty one. *)
Definition slot_node (n : cache_entry) (i : nat) : cache_entry :=
  match child n !! i with Some (Some m) => m | _ => new_cache_entry end.

Lemma slot_node_ok n i : trie_ok n -> trie_ok (slot_node n i).
Proof.
  intros H. unfold slot_node. destruct (child n !! i) as [[m|]|] eqn:E; try apply trie_ok_new.
  by apply (trie_ok_child n i).
Qed.

Lemma entry_at_slot n i k : entry_at (slot_node n i) k = entry_at n (i :: k).
Proof.
  unfold slot_node, entry_at at 2. simpl.
  destruct (child n !! i) as [[m|]|]; [done| |]; apply entry_at_new.
Qed.

Lemma slot_read n i :
  trie_ok n -> (i < CACHE_CHARS)%nat ->
  exists o, in_bounds (child n !! i) = Ret o
    /\ match o with Some m => m | None => new_cache_entry end = slot_node n i
    /\ (o = None -> forall k, entry_at n (i :: k) = None).
Proof.
  intros H Hi. pose proof (ok_children _ (trie_ok_root _ H)) as Hl.
  destruct (lookup_lt_is_Some_2 (child n) i) as [o Ho]; [lia|].
  exists o. unfold slot_node, entry_at. cbn [node_at]. rewrite Ho. split_and!; [done|by destruct o|].
  by intros ->.
Qed.

(** Hanging a subtree under an index. *)
Lemma set_child_ok n i m :
  trie_ok n -> trie_ok m -> trie_ok (set_child i m n).
Proof.
  intros Hn Hm k m' Hk. destruct k as [|j k].
  - injection Hk as <-. destruct (trie_ok_root _ Hn). split; simpl; rewrite ?length_insert; done.
  - simpl in Hk. destruct (decide (j = i)) as [->|Hne].
    + destruct (decide (i < length (child n))%nat) as [Hi|Hi].
      * rewrite list_lookup_insert_eq in Hk by done. by apply (Hm k).
      * rewrite list_insert_ge in Hk by lia. apply (Hn (i :: k)). exact Hk.
    + rewrite list_lookup_insert_ne in Hk by done. apply (Hn (j :: k)). exact Hk.
Qed.

Lemma entry_set_child n i m k :
  (i < length (child n))%nat ->
  entry_at (set_child i m n) k
  = match k with
    | j :: k' => if bool_decide (j = i) then entry_at m k' else entry_at n k
    | [] => entry_at n []
    end.
Proof.
  intros Hi. destruct k as [|j k]; [done|]. unfold entry_at. simpl.
  destruct (decide (j = i)) as [->|Hne].
  - by rewrite list_lookup_insert_eq, bool_decide_eq_true_2.
  - by rewrite list_lookup_insert_ne, bool_decide_eq_false_2.
Qed.

Lemma store_response_ok response len ttl now n :
  node_ok n -> 0 <= len <= MAX_PACKET_SIZE -> len <= Z.of_nat (length response) ->
  exists n', store_response response len ttl now n = Ret n' /\ node_ok n'
    /\ child n' = child n
    /\ stored n' = Some (u32 now +u32 ttl, take (Z.to_nat len) response).
Proof.
  intros [H1 H2 H3 H4] Hl Hr. unfold store_response.
  destruct (Z.ltb_spec MAX_PACKET_SIZE len); [lia|].
  destruct (Z.ltb_spec (Z.of_nat (length response)) len); [lia|].
  eexists. split; [reflexivity|]. split_and!; [|done|].
  - split; simpl; [done|apply u32_range|done|]. rewrite length_app, length_take, length_drop. lia.
  - unfold stored, response_of. simpl. by rewrite take_app_length' by (rewrite length_take; lia).
Qed.

(** A name with a key: its entry is the response, every other entry is unchanged. *)
Lemma insert_path_key name : forall k response len ttl now n,
  trie_ok n -> cache_key name = Some k ->
  0 <= len <= MAX_PACKET_SIZE -> len <= Z.of_nat (length response) ->
  exists n', insert_path name response len ttl now n = Ret n' /\ trie_ok n'
    /\ forall k', entry_at n' k'
        = if bool_decide (k' = k) then Some (u32 now +u32 ttl, take (Z.to_nat len) response)
          else entry_at n k'.
Proof.
  induction name as [|c name IH]; intros k response len ttl now n Hn Hk Hl Hr.
  - injection Hk as <-. cbn [insert_path].
    destruct (store_response_ok response len ttl now n) as (n' & -> & Hok & Hc & Hs);
      [by apply trie_ok_root|done..|].
    exists n'. split; [done|]. split.
    + intros [|i k] m; cbn [node_at]; [by intros [= <-]|]. rewrite Hc. intros Hm. by apply (Hn (i :: k)).
    + intros [|i k]; [done|]. rewrite bool_decide_eq_false_2 by done.
      unfold entry_at. cbn [node_at]. by rewrite Hc.
  - cbn [cache_key] in Hk. destruct (index_of c) as [i|] eqn:Ei; [|done].
    destruct (cache_key name) as [ks|] eqn:Es; [|done]. injection Hk as <-.
    destruct (index_of_Some c i Ei) as (Eq & -> & Hi). cbn [insert_path]. rewrite Eq. cbv zeta.
    destruct (slot_read n (Z.to_nat (get_trie_index c)) Hn Hi) as (o & -> & Eo & _).
    rewrite bind_Ret, Eo. set (i := Z.to_nat (get_trie_index c)) in *.
    destruct (IH ks response len ttl now (slot_node n i)) as (m & -> & Hm & Hent);
      [by apply slot_node_ok|done..|].
    rewrite bind_Ret. eexists. split; [reflexivity|]. split; [by apply set_child_ok|].
    intros k'. rewrite entry_set_child by (rewrite (ok_children _ (trie_ok_root _ Hn)); lia).
    destruct k' as [|j k']; [done|]. destruct (decide (j = i)) as [->|Hne].
    + rewrite bool_decide_eq_true_2, Hent, entry_at_slot by done.
      destruct (decide (k' = ks)) as [->|Hk'].
      * by rewrite !bool_decide_eq_true_2.
      * by rewrite !bool_decide_eq_false_2 by congruence.
    + by rewrite !bool_decide_eq_false_2 by congruence.
Qed.

(** A name without a key changes no entry. *)
Lemma insert_path_invalid name : forall response len ttl now n,
  trie_ok n -> cache_key name = None ->
  exists n', insert_path name response len ttl now n = Ret n' /\ trie_ok n'
    /\ forall k, entry_at n' k = entry_at n k.
Proof.
  induction name as [|c name IH]; intros response len ttl now n Hn Hk; [done|].
  cbn [cache_key] in Hk. cbn [insert_path]. cbv zeta.
  destruct (index_of c) as [i|] eqn:Ei; [|rewrite (index_of_None c Ei); by exists n].
  destruct (cache_key name) as [ks|] eqn:Es; [done|].
  destruct (index_of_Some c i Ei) as (-> & -> & Hi).
  destruct (slot_read n (Z.to_nat (get_trie_index c)) Hn Hi) as (o & -> & Eo & _).
  rewrite bind_Ret, Eo. set (i := Z.to_nat (get_trie_index c)) in *.
  destruct (IH response len ttl now (slot_node n i)) as (m & -> & Hm & Hent);
    [by apply slot_node_ok|done|].
  rewrite bind_Ret. eexists. split; [reflexivity|]. split; [by apply set_child_ok|].
  intros k. rewrite entry_set_child by (rewrite (ok_children _ (trie_ok_root _ Hn)); lia).
  destruct k as [|j k]; [done|]. destruct (decide (j = i)) as [->|Hne].
  - by rewrite bool_decide_eq_true_2, Hent, entry_at_slot.
  - by rewrite bool_decide_eq_false_2.
Qed.

(** A response that does not fit reaches the copy and faults. *)
Lemma insert_path_too_long name : forall k response len ttl now n,
  trie_ok n -> cache_key name = Some k ->
  (MAX_PACKET_SIZE <? len) || (Z.of_nat (length response) <? len) = true ->
  insert_path name response len ttl now n = Fault OutOfBounds.
Proof.
  induction name as [|c name IH]; intros k response len ttl now n Hn Hk Hl.
  - cbn [insert_path]. unfold store_response. by rewrite Hl.
  - cbn [cache_key] in Hk. destruct (index_of c) as [i|] eqn:Ei; [|done].
    destruct (cache_key name) as [ks|] eqn:Es; [|done].
    destruct (index_of_Some c i Ei) as (Eq & -> & Hi). cbn [insert_path]. rewrite Eq. cbv zeta.
    destruct (slot_read n (Z.to_nat (get_trie_index c)) Hn Hi) as (o & -> & Eo & _).
    rewrite bind_Ret, Eo. by rewrite (IH ks _ _ _ _ (slot_node n _)) by (done || by apply slot_node_ok).
Qed.

Lemma lookup_leaf_ok now n :
  node_ok n -> node_ok (lookup_leaf now n).2 /\ child (lookup_leaf now n).2 = child n.
Proof.
  intros H. unfold lookup_leaf. destruct (is_leaf n); [|done].
  destruct (u32 now <? expires_at n); [done|]. split; [|done].
  destruct H. split; simpl; unfold is_u32; done || lia.
Qed.

(** The result and the changes of a lookup, by the entry of the name. *)
Lemma lookup_path_spec name : forall now n,
  trie_ok n ->
  let e := cache_key name ≫= entry_at n in
  let hit := match e with Some (t, _) => u32 now <? t | None => false end in
  exists o n', lookup_path name now n = Ret (o, n') /\ trie_ok n'
    /\ (response_of <$> o) = (if hit then snd <$> e else None)
    /\ (forall m, o = Some m -> node_ok m)
    /\ forall k, entry_at n' k
        = if bool_decide (Some k = cache_key name) && negb hit then None else entry_at n k.
Proof.
  induction name as [|c name IH]; intros now n Hn; cbv zeta.
  - cbn [lookup_path cache_key]. pose proof (lookup_leaf_ok now n (trie_ok_root _ Hn)) as [Hok Hc].
    exists (lookup_leaf now n).1, (lookup_leaf now n).2.
    split; [by destruct (lookup_leaf now n)|].
    unfold entry_at at 1 2. cbn [mbind option_bind node_at]. split_and!.
    + intros [|i k] m; cbn [node_at]; [by intros [= <-]|]. rewrite Hc. intros Hm. by apply (Hn (i :: k)).
    + unfold lookup_leaf, stored. destruct (is_leaf n); [|done]. by destruct (u32 now <? expires_at n).
    + unfold lookup_leaf. intros m. destruct (is_leaf n); [|done].
      destruct (u32 now <? expires_at n); [|done]. intros [= <-]. by apply trie_ok_root.
    + intros [|i k].
      * rewrite bool_decide_eq_true_2 by done. unfold entry_at. cbn [node_at mbind option_bind].
        unfold lookup_leaf, stored. destruct (is_leaf n) eqn:El; [|simpl; by rewrite El].
        destruct (u32 now <? expires_at n); [simpl; by rewrite El|done].
      * rewrite bool_decide_eq_false_2 by done. unfold entry_at. cbn [node_at]. by rewrite Hc.
  - cbn [lookup_path cache_key]. cbv zeta. destruct (index_of c) as [i|] eqn:Ei.
    2: { rewrite (index_of_None c Ei). exists None, n. split_and!; done. }
    destruct (index_of_Some c i Ei) as (-> & -> & Hi).
    destruct (slot_read n (Z.to_nat (get_trie_index c)) Hn Hi) as (o & -> & Eo & Hnone).
    rewrite bind_Ret. set (i := Z.to_nat (get_trie_index c)) in *. destruct o as [m|].
    2: { exists None, n. split; [done|]. cbn [mbind option_bind].
         assert ((cache_key name ≫= (fun k => Some (i :: k))) ≫= entry_at n = None) as E
           by (destruct (cache_key name); [apply Hnone|]; done).
         cbn [mbind option_bind] in E. rewrite E. split_and!; [done..|].
         intros k. destruct (bool_decide _) eqn:Eb; [|done]. apply bool_decide_eq_true in Eb.
         destruct (cache_key name) as [ks|]; [|done]. injection Eb as ->. by apply Hnone. }
    destruct (IH now m) as (o & m' & -> & Hm & Hr & Hok & Hent); [rewrite Eo; by apply slot_node_ok|].
    rewrite bind_Ret. exists o. eexists. split; [reflexivity|]. subst m.
    assert ((cache_key name ≫= (fun k => Some (i :: k))) ≫= entry_at n
            = cache_key name ≫= entry_at (slot_node n i)) as E
      by (destruct (cache_key name); [symmetry; apply entry_at_slot|done]).
    cbn [mbind option_bind] in E, Hr, Hent |- *. rewrite E. split_and!; [by apply set_child_ok|done|done|].
    intros k. rewrite entry_set_child by (rewrite (ok_children _ (trie_ok_root _ Hn)); lia).
    destruct k as [|j k]; [by destruct (cache_key name)|].
    destruct (decide (j = i)) as [->|Hne].
    + rewrite (bool_decide_eq_true_2 (i = i)), Hent, entry_at_slot by done. f_equal.
      assert (bool_decide (Some k = cache_key name)
              = bool_decide (Some (i :: k) = match cache_key name with Some a => Some (i :: a) | None => None end))
        as ->; [|done].
      apply bool_decide_ext. destruct (cache_key name); naive_solver.
    + rewrite (bool_decide_eq_false_2 (j = i)) by done.
      rewrite (bool_decide_eq_false_2 (Some (j :: k) = _)); [done|].
      destruct (cache_key name); naive_solver.
Qed.

(** The operations of the trie are those of the map. *)
Lemma refines_insert n m name response len ttl now :
  refines n m -> 0 <= len <= MAX_PACKET_SIZE -> len <= Z.of_nat (length response) ->
  exists n', cache_insert (Some n) name response len ttl now = Ret (Some n')
    /\ refines n' (map_insert m name (take (Z.to_nat len) response) ttl now).
Proof.
  intros [Hn Hm] Hl Hr. unfold cache_insert, map_insert. destruct (cache_key name) as [k|] eqn:Ek.
  - destruct (insert_path_key name k response len ttl now n) as (n' & -> & Hok & He); [done..|].
    rewrite bind_Ret. exists n'. split; [done|]. split; [done|]. intros k'. rewrite He.
    destruct (decide (k' = k)) as [->|Hne].
    + by rewrite bool_decide_eq_true_2, lookup_insert_eq.
    + rewrite bool_decide_eq_false_2, lookup_insert_ne by done. apply Hm.
  - destruct (insert_path_invalid name response len ttl now n) as (n' & -> & Hok & He); [done..|].
    rewrite bind_Ret. exists n'. split; [done|]. split; [done|]. intros k'. rewrite He. apply Hm.
Qed.

Lemma refines_insert_all n m name response ttl now :
  refines n m -> Z.of_nat (length response) <= MAX_PACKET_SIZE ->
  exists n', cache_insert (Some n) name response (Z.of_nat (length response)) ttl now = Ret (Some n')
    /\ refines n' (map_insert m name response ttl now).
Proof.
  intros Hr Hl. destruct (refines_insert n m name response (Z.of_nat (length response)) ttl now)
    as (n' & H1 & H2); [done|lia|lia|]. rewrite Nat2Z.id, take_ge in H2 by lia. by exists n'.
Qed.

Lemma refines_lookup n m name now :
  refines n m ->
  exists o n', cache_lookup (Some n) name now = Ret (o, Some n')
    /\ (response_of <$> o) = (map_lookup m name now).1
    /\ (forall e, o = Some e -> node_ok e)
    /\ refines n' (map_lookup m name now).2.
Proof.
  intros [Hn Hm]. unfold cache_lookup.
  destruct (lookup_path_spec name now n Hn) as (o & n' & -> & Hok & Hr & Hen & He).
  rewrite bind_Ret. exists o, n'. split; [done|]. revert Hr He. unfold map_lookup.
  destruct (cache_key name) as [k|]; cbn [mbind option_bind].
  2: { intros -> He. split_and!; [done|done|split; [done|]]. intros k'. rewrite He, bool_decide_eq_false_2 by done. apply Hm. }
  rewrite Hm. destruct (m !! k) as [[t r]|] eqn:Ek; cbn [fmap option_fmap option_map].
  - destruct (u32 now <? t); intros -> He.
    + split_and!; [done|done|split; [done|]]. intros k'. rewrite He, andb_false_r. apply Hm.
    + split_and!; [done|done|split; [done|]]. intros k'. rewrite He, andb_true_r. cbn [snd]. destruct (decide (k' = k)) as [->|Hne].
      * by rewrite bool_decide_eq_true_2, lookup_delete_eq.
      * rewrite bool_decide_eq_false_2, lookup_delete_ne by congruence. apply Hm.
  - intros -> He. split_and!; [done|done|split; [done|]]. intros k'. rewrite He, andb_true_r.
    destruct (decide (k' = k)) as [->|Hne].
    + rewrite bool_decide_eq_true_2 by done. symmetry. exact Ek.
    + rewrite bool_decide_eq_false_2 by congruence. apply Hm.
Qed.

(** ** Sequences of operations *)

Inductive cache_op :=
| Insert (query_name : cstr) (response : list Z) (ttl now : Z)
| Lookup (query_name : cstr) (now : Z).

(** The operations as calls of the source, with the responses looked up. *)
Fixpoint cache_run (ops : list cache_op) (root : option cache_entry)
    : outcome (list (option (list Z)) * option cache_entry) :=
  match ops with
  | [] => Ret ([], root)
  | Insert name response ttl now :: ops =>
      root' ← cache_insert root name response (Z.of_nat (length response)) ttl now;
      cache_run ops root'
  | Lookup name now :: ops =>
      '(o, root') ← cache_lookup root name now;
      '(found, root') ← cache_run ops root';
      Ret (option_map response_of o :: found, root')
  end.

(** The same operations on the map. *)
Fixpoint map_run (ops : list cache_op) (m : cache_map) : list (option (list Z)) * cache_map :=
  match ops with
  | [] => ([], m)
  | Insert name response ttl now :: ops => map_run ops (map_insert m name response ttl now)
  | Lookup name now :: ops =>
      let r := map_lookup m name now in
      let rest := map_run ops r.2 in (r.1 :: rest.1, rest.2)
  end.

(** The responses inserted fit into a packet. *)
Definition op_fits (op : cache_op) : Prop :=
  match op with
  | Insert _ response _ _ => Z.of_nat (length response) <= MAX_PACKET_SIZE
  | Lookup _ _ => True
  end.

Lemma cache_run_refines ops : forall n m,
  refines n m -> Forall op_fits ops ->
  exists n', cache_run ops (Some n) = Ret ((map_run ops m).1, Some n')
    /\ refines n' (map_run ops m).2.
Proof.
  induction ops as [|[name response ttl now|name now] ops IH]; intros n m Hr Hops.
  - by exists n.
  - apply Forall_cons in Hops as [Hf Hops]. cbn [cache_run map_run].
    destruct (refines_insert_all n m name response ttl now) as (n' & -> & Hn'); [done..|].
    rewrite bind_Ret. by apply IH.
  - apply Forall_cons in Hops as [_ Hops]. cbn [cache_run map_run]. cbv zeta.
    destruct (refines_lookup n m name now Hr) as (o & n' & -> & Ho & _ & Hn').
    rewrite bind_Ret. cbn [fst snd]. destruct (IH n' _ Hn' Hops) as (n2 & -> & Hn2).
    rewrite bind_Ret. exists n2. split; [by rewrite <- Ho|done].
Qed.

(** ** Properties *)

(** C28: the trie implements a map.  From [cache_initialize], any sequence of insertions
    of responses of at most 512 bytes and of lookups runs without an access outside an
    array, and the lookups return what a finite map with expiry times returns: the
    response last inserted under the name while the 32-bit time is before its expiry,
    nothing otherwise, an expired entry being removed by the lookup that meets it. *)
Theorem dns_cache_refines (ops : list cache_op) :
  Forall op_fits ops ->
  exists n, cache_run ops cache_initialize = Ret ((map_run ops ∅).1, Some n)
    /\ refines n (map_run ops ∅).2.
Proof. apply cache_run_refines, refines_new. Qed.

Lemma dns_cache_refines_witness :
  exists n, cache_run [Insert [97;46;66] [1;2;3] 60 1000; Lookup [65;46;98] 1059;
                       Lookup [97;46;98] 1060; Lookup [97;46;98] 1000] cache_initialize
            = Ret ([Some [1;2;3]; None; None], Some n).
Proof.
  destruct (dns_cache_refines [Insert [97;46;66] [1;2;3] 60 1000; Lookup [65;46;98] 1059;
                               Lookup [97;46;98] 1060; Lookup [97;46;98] 1000]) as (n & H & _).
  - repeat constructor; unfold op_fits, MAX_PACKET_SIZE; simpl; lia.
  - exists n. rewrite H. f_equal.
Defined.

(** Which names share an entry.  After a response has been inserted under a name
    of letters, digits, [-], [_] and [.], a lookup at a time before the expiry finds it
    under exactly the names that are equal to it up to the case of letters; any other
    name is answered as before. *)
Lemma dns_cache_case_insensitive (n : cache_entry) (m : cache_map) (name q : cstr)
    (response : list Z) (ttl now now' : Z) :
  refines n m -> is_Some (cache_key name) -> Z.of_nat (length response) <= MAX_PACKET_SIZE ->
  u32 now' < u32 now +u32 ttl ->
  exists n' o n2,
    cache_insert (Some n) name response (Z.of_nat (length response)) ttl now = Ret (Some n')
    /\ cache_lookup (Some n') q now' = Ret (o, Some n2)
    /\ (response_of <$> o)
       = if bool_decide (tolower <$> q = tolower <$> name) then Some response
         else (map_lookup m q now').1.
Proof.
  intros Hr [k Hk] Hl Ht.
  destruct (refines_insert_all n m name response ttl now) as (n' & -> & Hn'); [done..|].
  destruct (refines_lookup n' _ q now' Hn') as (o & n2 & Hlk & Ho & _).
  exists n', o, n2. split; [done|]. split; [done|]. rewrite Ho. unfold map_insert, map_lookup. rewrite Hk.
  destruct (decide (tolower <$> q = tolower <$> name)) as [E|E].
  - rewrite bool_decide_eq_true_2 by done. rewrite (cache_key_lower q name E), Hk. cbn [mbind option_bind].
    rewrite lookup_insert_eq. cbn [fmap option_fmap option_map].
    by destruct (Z.ltb_spec (u32 now') (u32 now +u32 ttl)); [|lia].
  - rewrite bool_decide_eq_false_2 by done. destruct (cache_key q) as [kq|] eqn:Eq; [|done].
    cbn [mbind option_bind]. rewrite lookup_insert_ne; [by repeat case_match|].
    intros ->. apply E. by apply (cache_key_inj q name kq).
Qed.

Lemma dns_cache_case_insensitive_witness :
  exists n' o n2,
    cache_insert cache_initialize [119;119;119] [7;8] 2 60 4294967290 = Ret (Some n')
    /\ cache_lookup (Some n') [87;119;87] 10 = Ret (o, Some n2)
    /\ (response_of <$> o) = Some [7;8].
Proof.
  apply (dns_cache_case_insensitive new_cache_entry ∅ [119;119;119] [87;119;87] [7;8] 60 4294967290 10);
    [apply refines_new|eexists; reflexivity|unfold MAX_PACKET_SIZE; simpl; lia|vm_compute; reflexivity].
Defined.

(** When an insertion leaves its buffers.  In a well-formed trie an insertion
    accesses memory outside the node's 512 bytes or the response's own exactly when
    the name has an index for every character and the given length is larger than
    one of the two; in every other case it ends and keeps the trie well formed. *)
Lemma dns_cache_insert_bounds (n : cache_entry) (name : cstr) (response : list Z)
    (len ttl now : Z) :
  trie_ok n -> 0 <= len ->
  if bool_decide (is_Some (cache_key name))
     && ((MAX_PACKET_SIZE <? len) || (Z.of_nat (length response) <? len))
  then cache_insert (Some n) name response len ttl now = Fault OutOfBounds
  else exists n', cache_insert (Some n) name response len ttl now = Ret (Some n') /\ trie_ok n'.
Proof.
  intros Hn Hl. unfold cache_insert.
  destruct (cache_key name) as [k|] eqn:Ek.
  2: { rewrite bool_decide_eq_false_2 by (intros [? [=]]). cbn [andb].
       destruct (insert_path_invalid name response len ttl now n) as (n' & -> & Hok & _); [done..|].
       rewrite bind_Ret. by exists n'. }
  rewrite bool_decide_eq_true_2 by done. cbn [andb].
  destruct ((MAX_PACKET_SIZE <? len) || (Z.of_nat (length response) <? len)) eqn:E.
  - by rewrite (insert_path_too_long name k).
  - to_prop. destruct (insert_path_key name k response len ttl now n) as (n' & -> & Hok & _);
      [done|done|lia..|]. rewrite bind_Ret. by exists n'.
Qed.

Lemma dns_cache_insert_bounds_witness :
  cache_insert cache_initialize [97] (replicate 600 0) 513 60 0 = Fault OutOfBounds.
Proof.
  apply (dns_cache_insert_bounds new_cache_entry [97] (replicate 600 0) 513 60 0);
    [apply trie_ok_new|lia].
Defined.
