(* ===== verification/DnsNames.v ===== *)
(** Names and questions of DNS messages: DNS_Server/utils/string_utils.c,
    DNS_Server/sources/dns_parser.c and the layout of DNS_Server/include/dns_packet.h.

    A packet is the array of its bytes and a pointer into it an offset; a read outside
    the array or a write past the output is a fault, since the functions check neither.
    [name_at] is the reference: the labels of the name at an offset, compression
    pointers followed.  The loop of [dns_binary_to_text] need not end, so it takes
    fuel; [decode_fuel] is shown to be enough, in the sense that a run that exhausts it
    is a run of the code that never ends. *)

From stdpp Require Import list finite.
From S2P Require Import Prelude UtilsV6 CText.

(** ** Strings *)

(** The loop of [dns_binary_to_text].  [output] holds the bytes written, [cap] is the
    size of the caller's array. *)
Fixpoint name_loop (fuel : nat) (buffer : list Z) (cap read_pointer : nat)
    (compression_pointer_jump : bool) (count : Z) (output : list Z) : outcome (Z * list Z) :=
  match fuel with
  | O => Fault OutOfFuel
  | S fuel =>
      b ← in_bounds (buffer !! read_pointer);
      if b =? 0 then Ret (count, output)
      else if 192 <=? b then
        b2 ← in_bounds (buffer !! S read_pointer);
        let offset := Z.land b 63 * 256 + b2 in
        name_loop fuel buffer cap (Z.to_nat offset) true
          (if compression_pointer_jump then count else count + 1) output
      else
        label ← read_bytes (S read_pointer) (Z.to_nat b) buffer;
        if bool_decide (length output + Z.to_nat b + 1 <= cap)%nat then
          name_loop fuel buffer cap (read_pointer + Z.to_nat b + 1) compression_pointer_jump
            (if compression_pointer_jump then count else count + b + 1) (output ++ label ++ [46])
        else Fault OutOfBounds
  end.

Definition decode_fuel (buffer : list Z) (cap : nat) : nat := (length buffer + 2) * (cap + 1).

(** [count] and the bytes left in [output] before its terminating zero.  The first byte of
    [output] is written before the loop, the text of the root, a dot, after it. *)
Definition dns_binary_to_text (buffer : list Z) (cap read_pointer : nat) : outcome (Z * list Z) :=
  if bool_decide (cap = 0%nat) then Fault OutOfBounds
  else
    '(count, output) ← name_loop (decode_fuel buffer cap) buffer cap read_pointer false 1 [];
    match output with
    | [] => if bool_decide (2 <= cap)%nat then Ret (count, [46]) else Fault OutOfBounds
    | _ => Ret (count, take (length output - 1) output)
    end.

(** The loop of [text_to_dns_binary]: [label] holds the characters from [last_pos] to
    [i]. *)
Fixpoint text_loop (temp_host : cstr) (label domain_name : list Z) : list Z :=
  match temp_host with
  | [] => domain_name
  | c :: rest =>
      if c =? 46 then text_loop rest [] (domain_name ++ u8 (Z.of_nat (length label)) :: label)
      else text_loop rest (label ++ [c]) domain_name
  end.

(** [temp_host] has 256 bytes: [strncpy] of 255 characters leaves it without a
    terminator for [strcat]. *)
Definition text_to_dns_binary (cap : nat) (host : cstr) : outcome (list Z) :=
  if bool_decide (255 <= length host)%nat then Fault OutOfBounds
  else
    let domain_name := text_loop (host ++ [46]) [] [] ++ [0] in
    if bool_decide (length domain_name <= cap)%nat then Ret domain_name else Fault OutOfBounds.

(** ** Questions *)

Definition DNS_HEADER : nat := 12.

Definition DNS_QUESTION_FIXED : Z := 4.

Definition ERR_INVALID_LENGTH : Z := -8.

Definition ERR_PTR_OUT_OF_BUFFER_RANGE : Z := -9.

Definition ERR_OUT_OF_BUFFER_SPACE : Z := -10.

(** The size of the caller's [qname]. *)
Definition QNAME_CAP : nat := 256.

(** The return code with the contents of [qname] and [qtype] ([None] is a null
    pointer).  Forming [buffer + len] past the array is undefined, which is what a
    failed [recvfrom] ([len] = 2^64 - 1) leads to. *)
Definition parse_dns_request (buffer : list Z) (len : Z) (qname : cstr) (qtype : option Z)
    : outcome (Z * cstr * option Z) :=
  if len <? Z.of_nat DNS_HEADER then Ret (ERR_INVALID_LENGTH, qname, qtype)
  else if Z.of_nat (length buffer) <? len then Fault OutOfBounds
  else if len <=? Z.of_nat DNS_HEADER then Ret (ERR_PTR_OUT_OF_BUFFER_RANGE, qname, qtype)
  else
    '(bytes_read, text) ← dns_binary_to_text buffer QNAME_CAP DNS_HEADER;
    let qname := c_string text in
    let reader := Z.of_nat DNS_HEADER + bytes_read in
    if len <? reader + DNS_QUESTION_FIXED then Ret (ERR_OUT_OF_BUFFER_SPACE, qname, qtype)
    else
      question ← read_bytes (Z.to_nat reader) 2 buffer;
      Ret (0, qname, match qtype with Some _ => Some (be_val question) | None => None end).

(** ** The names of a packet

    [name_at buffer off labels span]: the name at [off] has these labels and takes
    [span] bytes up to its end or its first pointer. *)

Inductive name_at (buffer : list Z) : nat -> list (list Z) -> Z -> Prop :=
| name_root off :
    buffer !! off = Some 0 -> name_at buffer off [] 1
| name_label off l labels span :
    buffer !! off = Some (Z.of_nat (length l)) -> (0 < length l < 192)%nat ->
    read_bytes (S off) (length l) buffer = Ret l ->
    name_at buffer (off + length l + 1) labels span ->
    name_at buffer off (l :: labels) (Z.of_nat (length l) + 1 + span)
| name_pointer off b b2 labels span :
    buffer !! off = Some b -> 192 <= b -> buffer !! S off = Some b2 ->
    name_at buffer (Z.to_nat (Z.land b 63 * 256 + b2)) labels span ->
    name_at buffer off labels 2.

(** What the loop writes for labels: each with a dot after it. *)
Definition dotted (labels : list (list Z)) : list Z := concat ((fun l => l ++ [46]) <$> labels).

(** The text of a name. *)
Definition name_text (labels : list (list Z)) : cstr :=
  match labels with [] => [46] | _ => join_dots labels end.

(** ** Lemmas on the loop *)

Lemma read_bytes_cases off n buf :
  (exists l, read_bytes off n buf = Ret l /\ length l = n)
  \/ read_bytes off n buf = Fault OutOfBounds.
Proof.
  unfold read_bytes. case_bool_decide; [left|by right]. eexists. split; [done|].
  rewrite length_take, length_drop. lia.
Qed.

Lemma dotted_cons l labels : dotted (l :: labels) = l ++ [46] ++ dotted labels.
Proof. unfold dotted. simpl. by rewrite <- app_assoc. Qed.

Lemma dotted_join l labels : dotted (l :: labels) = join_dots (l :: labels) ++ [46].
Proof.
  revert l. induction labels as [|l' labels IH]; intros l; [by rewrite dotted_cons|].
  by rewrite dotted_cons, IH, join_dots_cons, <- app_assoc.
Qed.

(** What is left of the labels in the output, and the room it takes. *)
Lemma text_of_dotted cap (count : Z) labels :
  (length (dotted labels) <= cap)%nat ->
  match dotted labels with
  | [] => if bool_decide (2 <= cap)%nat then Ret (count, [46]) else Fault OutOfBounds
  | _ => Ret (count, take (length (dotted labels) - 1) (dotted labels))
  end
  = if bool_decide (length (name_text labels) < cap)%nat then Ret (count, name_text labels) else Fault OutOfBounds.
Proof.
  intros Hc. destruct labels as [|l labels].
  { cbn [dotted name_text length fmap list_fmap concat]. repeat case_bool_decide; done || lia. }
  unfold name_text. rewrite dotted_join, length_app in Hc. cbn [length] in Hc.
  rewrite (bool_decide_eq_true_2 (length (join_dots (l :: labels)) < cap)%nat) by lia.
  rewrite dotted_join. destruct (join_dots (l :: labels) ++ [46]) as [|x s] eqn:E.
  { by destruct (join_dots (l :: labels)). }
  rewrite <- E, length_app. cbn [length]. by rewrite Nat.add_sub, take_app_length.
Qed.

Lemma text_room labels cap : (length (dotted labels) <= cap)%nat -> (2 <= cap)%nat -> (length (name_text labels) < cap)%nat.
Proof.
  destruct labels as [|l labels]; [simpl; lia|]. unfold name_text. rewrite dotted_join, length_app. simpl. lia.
Qed.

Lemma dotted_room labels cap : (length (name_text labels) < cap)%nat -> (length (dotted labels) <= cap)%nat.
Proof.
  destruct labels as [|l labels]; [simpl; lia|]. unfold name_text. rewrite dotted_join, length_app. simpl. lia.
Qed.

Lemma name_loop_step fuel buffer cap off jump count out :
  name_loop (S fuel) buffer cap off jump count out
  = (b ← in_bounds (buffer !! off);
     if b =? 0 then Ret (count, out)
     else if 192 <=? b then
       b2 ← in_bounds (buffer !! S off);
       name_loop fuel buffer cap (Z.to_nat (Z.land b 63 * 256 + b2)) true
         (if jump then count else count + 1) out
     else
       label ← read_bytes (S off) (Z.to_nat b) buffer;
       if bool_decide (length out + Z.to_nat b + 1 <= cap)%nat then
         name_loop fuel buffer cap (off + Z.to_nat b + 1) jump
           (if jump then count else count + b + 1) (out ++ label ++ [46])
       else Fault OutOfBounds).
Proof. done. Qed.

(** A run that ended ends the same way with more fuel. *)
Lemma name_loop_more fuel : forall fuel' buffer cap off jump count out,
  (fuel <= fuel')%nat ->
  name_loop fuel buffer cap off jump count out <> Fault OutOfFuel ->
  name_loop fuel' buffer cap off jump count out = name_loop fuel buffer cap off jump count out.
Proof.
  induction fuel as [|fuel IH]; intros fuel' buffer cap off jump count out Hle Hne; [done|].
  destruct fuel' as [|fuel']; [lia|]. rewrite !name_loop_step in *.
  destruct (buffer !! off) as [b|]; cbn [in_bounds] in *; [rewrite !bind_Ret in *|done].
  destruct (b =? 0); [done|]. destruct (192 <=? b).
  - destruct (buffer !! S off) as [b2|]; cbn [in_bounds] in *; [rewrite !bind_Ret in *|done].
    apply IH; [lia|done].
  - destruct (read_bytes _ _ _) as [label|]; [rewrite !bind_Ret in *|done].
    destruct (bool_decide _); [|done]. apply IH; [lia|done].
Qed.

(** A name is decoded by the loop with enough fuel. *)
Lemma name_loop_name buffer off labels span :
  name_at buffer off labels span ->
  exists fuel, forall cap jump count out,
    name_loop fuel buffer cap off jump count out
    = if bool_decide (length out + length (dotted labels) <= cap \/ labels = [])%nat
      then Ret (if jump then count else count - 1 + span, out ++ dotted labels)
      else Fault OutOfBounds.
Proof.
  induction 1 as [off Ho|off l labels span Ho Hl Hr _ [fuel IH]|off b b2 labels span Ho Hb Ho2 _ [fuel IH]].
  - exists 1%nat. intros. rewrite name_loop_step, Ho. cbn [in_bounds]. rewrite bind_Ret, Z.eqb_refl.
    rewrite bool_decide_eq_true_2 by by right. unfold dotted. simpl. rewrite app_nil_r.
    f_equal. f_equal. destruct jump; lia.
  - exists (S fuel). intros. rewrite name_loop_step, Ho. cbn [in_bounds]. rewrite bind_Ret.
    destruct (Z.eqb_spec (Z.of_nat (length l)) 0); [lia|].
    destruct (Z.leb_spec 192 (Z.of_nat (length l))); [lia|].
    rewrite Nat2Z.id, Hr, bind_Ret, IH, dotted_cons, !length_app. cbn [length].
    destruct (decide (length out + length l + 1 <= cap)%nat) as [Hc|Hc].
    + rewrite (bool_decide_eq_true_2 (length out + length l + 1 <= cap)%nat) by done.
      rewrite <- !app_assoc. cbn [app].
      destruct (decide (length out + (length l + (1 + length (dotted labels))) <= cap)%nat) as [Hd|Hd].
      * rewrite !bool_decide_eq_true_2 by (left; lia). f_equal. f_equal. destruct jump; lia.
      * destruct labels as [|l' labels]; [unfold dotted in Hd; simpl in Hd; lia|].
        rewrite !bool_decide_eq_false_2; [done|intros [?|?]; [lia|done]..].
    + rewrite !bool_decide_eq_false_2; [done|intros [?|?]; [lia|done]|lia].
  - exists (S fuel). intros. rewrite name_loop_step, Ho. cbn [in_bounds]. rewrite bind_Ret.
    destruct (Z.eqb_spec b 0); [lia|]. destruct (Z.leb_spec 192 b); [|lia].
    rewrite Ho2. cbn [in_bounds]. rewrite bind_Ret, IH.
    destruct (bool_decide _); [|done]. f_equal. f_equal. destruct jump; lia.
Qed.

(** A run that ended normally decoded a name. *)
Lemma name_loop_inv fuel : forall buffer cap off jump count out r,
  Forall is_u8 buffer -> (length out <= cap)%nat ->
  name_loop fuel buffer cap off jump count out = Ret r ->
  exists labels span, name_at buffer off labels span
    /\ r = (if jump then count else count - 1 + span, out ++ dotted labels)
    /\ (length out + length (dotted labels) <= cap)%nat.
Proof.
  induction fuel as [|fuel IH]; intros buffer cap off jump count out r Hu Hout; [done|].
  rewrite name_loop_step. destruct (buffer !! off) as [b|] eqn:Ho; cbn [in_bounds]; [rewrite bind_Ret|done].
  assert (is_u8 b) as Hb by (rewrite Forall_lookup in Hu; by apply (Hu off)). unfold is_u8 in Hb.
  destruct (Z.eqb_spec b 0) as [->|Hb0].
  { intros [= <-]. exists [], 1. split; [by constructor|]. unfold dotted. simpl. rewrite app_nil_r.
    split; [|lia]. f_equal. destruct jump; lia. }
  destruct (Z.leb_spec 192 b).
  - destruct (buffer !! S off) as [b2|] eqn:Ho2; cbn [in_bounds]; [rewrite bind_Ret|done].
    intros H2. apply IH in H2 as (labels & span & Hn & -> & Hlen); [|done..].
    exists labels, 2. split_and!; [by eapply name_pointer|f_equal; destruct jump; lia|done].
  - destruct (read_bytes_cases (S off) (Z.to_nat b) buffer) as [(label & Hr & Hl)|Hr];
      rewrite Hr; [rewrite bind_Ret|done].
    case_bool_decide as Hc; [|done]. intros H2.
    apply IH in H2 as (labels & span & Hn & -> & Hlen);
      [|done|rewrite !length_app; cbn [length]; lia].
    exists (label :: labels), (Z.of_nat (length label) + 1 + span).
    rewrite !length_app in Hlen. cbn [length] in Hlen. rewrite dotted_cons, !length_app. cbn [length].
    split_and!; [|f_equal; [destruct jump; lia|by rewrite <- !app_assoc]|lia].
    apply name_label; rewrite ?Hl; [by rewrite Z2Nat.id by lia|lia|done|done].
Qed.

(** ** Endless names

    [jump] is the pointer at an offset, [follow n] the offset after [n] pointers. *)

Definition jump (buffer : list Z) (off : nat) : option nat :=
  b ← buffer !! off;
  if 192 <=? b then b2 ← buffer !! S off; Some (Z.to_nat (Z.land b 63 * 256 + b2)) else None.

Fixpoint follow (buffer : list Z) (n off : nat) : nat :=
  match n with
  | O => off
  | S n => follow buffer n (default 0%nat (jump buffer off))
  end.

Lemma follow_add buffer n m off : follow buffer (n + m) off = follow buffer m (follow buffer n off).
Proof. revert off. induction n as [|n IH]; intros off; [done|]. simpl. apply IH. Qed.

Lemma jump_in buffer off t : jump buffer off = Some t -> (off < length buffer)%nat.
Proof.
  unfold jump. destruct (buffer !! off) eqn:E; [|done]. intros _. by apply lookup_lt_Some in E.
Qed.

(** More pointers than the packet has bytes: an offset repeats and the pointers never
    end. *)
Lemma follow_cycle buffer off :
  (forall i, (i <= length buffer)%nat -> is_Some (jump buffer (follow buffer i off))) ->
  forall n, is_Some (jump buffer (follow buffer n off)).
Proof.
  intros H. set (N := length buffer) in *. set (p := fun i => follow buffer i off).
  destruct (nat_pigeonhole p (S N) N) as (i & j & Hij & Hp).
  { lia. }
  { intros i Hi. destruct (H i) as [t Ht]; [lia|]. by apply jump_in in Ht. }
  intros n. induction n as [n IH] using lt_wf_ind.
  destruct (decide (n <= N)%nat) as [Hn|Hn]; [by apply H|].
  assert (follow buffer n off = follow buffer (i + (n - j)) off) as ->; [|apply IH; lia].
  replace n with (j + (n - j))%nat at 1 by lia. rewrite !follow_add. fold (p i) (p j).
  by rewrite Hp.
Qed.

(** The pointers from an offset never end, or stop within [length buffer] of them. *)
Lemma follow_stops buffer off :
  (forall n, is_Some (jump buffer (follow buffer n off)))
  \/ exists m, (m <= length buffer)%nat /\ jump buffer (follow buffer m off) = None
        /\ forall i, (i < m)%nat -> is_Some (jump buffer (follow buffer i off)).
Proof.
  assert (forall k, (forall i, (i < k)%nat -> is_Some (jump buffer (follow buffer i off)))
    \/ exists m, (m < k)%nat /\ jump buffer (follow buffer m off) = None
          /\ forall i, (i < m)%nat -> is_Some (jump buffer (follow buffer i off))) as H.
  { induction k as [|k [IH|(m & ? & ?)]]; [left; lia| |right; exists m; split; [lia|done]].
    destruct (jump buffer (follow buffer k off)) as [t|] eqn:E.
    - left. intros i Hi. destruct (decide (i = k)) as [->|]; [by rewrite E|apply IH; lia].
    - right. exists k. split; [lia|done]. }
  destruct (H (S (length buffer))) as [Hall|(m & Hm & Hn)].
  - left. apply follow_cycle. intros i Hi. apply Hall. lia.
  - right. exists m. split; [lia|done].
Qed.

Lemma name_loop_jump buffer off t fuel cap jmp count out :
  jump buffer off = Some t ->
  name_loop (S fuel) buffer cap off jmp count out
  = name_loop fuel buffer cap t true (if jmp then count else count + 1) out.
Proof.
  unfold jump. rewrite name_loop_step. destruct (buffer !! off) as [b|]; [|done].
  cbn [in_bounds mbind option_bind outcome_bind]. destruct (Z.leb_spec 192 b); [|done].
  destruct (Z.eqb_spec b 0); [lia|]. destruct (buffer !! S off) as [b2|]; [|done].
  by intros [= <-].
Qed.

Lemma name_loop_endless buffer off :
  (forall n, is_Some (jump buffer (follow buffer n off))) ->
  forall fuel cap jmp count out, name_loop fuel buffer cap off jmp count out = Fault OutOfFuel.
Proof.
  intros H fuel. revert off H. induction fuel as [|fuel IH]; intros off H cap jmp count out; [done|].
  destruct (H 0%nat) as [t Ht]. simpl in Ht. rewrite (name_loop_jump _ _ t) by done. apply IH.
  intros n. specialize (H (S n)). simpl in H. by rewrite Ht in H.
Qed.

(** Following [m] pointers takes [m] units of fuel. *)
Lemma name_loop_skip buffer m : forall off jmp count,
  (forall i, (i < m)%nat -> is_Some (jump buffer (follow buffer i off))) ->
  exists jmp' count', forall fuel cap out,
    name_loop (m + fuel) buffer cap off jmp count out
    = name_loop fuel buffer cap (follow buffer m off) jmp' count' out.
Proof.
  induction m as [|m IH]; intros off jmp count H; [by exists jmp, count|].
  destruct (H 0%nat) as [t Ht]; [lia|]. simpl in Ht.
  destruct (IH t true (if jmp then count else count + 1)) as (jmp' & count' & E).
  { intros i Hi. specialize (H (S i) ltac:(lia)). simpl in H. by rewrite Ht in H. }
  exists jmp', count'. intros fuel cap out. cbn [Nat.add follow].
  rewrite (name_loop_jump _ _ t) by done. rewrite E, Ht. done.
Qed.

(** Running out of [(length buffer + 2)] units per byte of free output is running
    forever. *)
Lemma name_loop_decided buffer cap : forall free off jmp count out fuel,
  Forall is_u8 buffer ->
  (length out <= cap)%nat -> (cap - length out <= free)%nat ->
  ((length buffer + 2) * (free + 1) <= fuel)%nat ->
  name_loop fuel buffer cap off jmp count out = Fault OutOfFuel ->
  forall fuel', name_loop fuel' buffer cap off jmp count out = Fault OutOfFuel.
Proof.
  induction free as [free IH] using lt_wf_ind. intros off jmp count out fuel Hu Hc Hfree Hfuel Hout fuel'.
  destruct (follow_stops buffer off) as [Hall|(m & Hm & Hstop & Hbefore)].
  { by apply name_loop_endless. }
  destruct (name_loop_skip buffer m off jmp count Hbefore) as (jmp' & count' & E).
  replace fuel with (m + S (fuel - m - 1))%nat in Hout by nia.
  rewrite E in Hout.
  destruct (decide (fuel' <= m)%nat) as [Hle|Hgt].
  { destruct (name_loop fuel' buffer cap off jmp count out) as [r|[]] eqn:Er; try done;
      exfalso; pose proof (name_loop_more fuel' (m + 0) buffer cap off jmp count out ltac:(lia)) as Hmore;
      rewrite Er, E in Hmore; by specialize (Hmore ltac:(done)). }
  replace fuel' with (m + S (fuel' - m - 1))%nat by lia. rewrite E.
  revert Hstop Hout. generalize (follow buffer m off) as off'. intros off' Hstop Hout.
  rewrite name_loop_step in *. unfold jump in Hstop.
  destruct (buffer !! off') as [b|] eqn:Ho; [|done]. cbn [in_bounds] in *. rewrite bind_Ret in *.
  assert (is_u8 b) as Hb by (rewrite Forall_lookup in Hu; by apply (Hu off')). unfold is_u8 in Hb.
  destruct (Z.eqb_spec b 0); [done|]. cbn [mbind option_bind] in Hstop. destruct (192 <=? b).
  { by destruct (buffer !! S off'). }
  destruct (read_bytes_cases (S off') (Z.to_nat b) buffer) as [(label & Er & Hl)|Er];
    rewrite Er in Hout |- *; [|done].
  rewrite bind_Ret in *. case_bool_decide as Hcap; [|done].
  refine (IH (free - 1)%nat _ _ _ _ _ _ Hu _ _ _ Hout _); rewrite ?length_app; cbn [length];
    [lia..|nia].
Qed.

Lemma decode_decided buffer cap off fuel' :
  Forall is_u8 buffer ->
  name_loop (decode_fuel buffer cap) buffer cap off false 1 [] = Fault OutOfFuel ->
  name_loop fuel' buffer cap off false 1 [] = Fault OutOfFuel.
Proof.
  intros Hu H. apply (name_loop_decided buffer cap cap off false 1 [] (decode_fuel buffer cap) Hu);
    [simpl; lia|simpl; lia|unfold decode_fuel; lia|done].
Qed.

(** ** Lemmas on names in a packet *)

(** The wire form of labels, wherever it lies in the packet. *)
Lemma name_at_wire labels : forall pre post,
  Forall is_label labels ->
  name_at (pre ++ wire_labels labels ++ 0 :: post) (length pre) labels
    (Z.of_nat (length (wire_labels labels)) + 1).
Proof.
  induction labels as [|l labels IH]; intros pre post H.
  - apply name_root. simpl. by rewrite list_lookup_middle.
  - apply Forall_cons in H as [(Hne & _ & Hl) H].
    unfold wire_labels. cbn [fmap list_fmap concat]. fold (wire_labels labels).
    rewrite length_app. cbn [length].
    replace (Z.of_nat (S (length l) + length (wire_labels labels)) + 1)
      with (Z.of_nat (length l) + 1 + (Z.of_nat (length (wire_labels labels)) + 1)) by lia.
    rewrite <- app_assoc. cbn [app]. apply name_label.
    + by rewrite list_lookup_middle.
    + destruct l; [done|]. simpl in *. lia.
    + rewrite cons_middle, app_assoc. unfold read_bytes.
      rewrite bool_decide_eq_true_2 by (rewrite !length_app; cbn [length]; lia).
      rewrite drop_app_length' by (rewrite length_app; cbn [length]; lia).
      by rewrite take_app_length.
    + specialize (IH (pre ++ Z.of_nat (length l) :: l) post H). rewrite length_app in IH.
      cbn [length] in IH. rewrite <- !app_assoc in IH. cbn [app] in IH.
      by replace (length pre + length l + 1)%nat with (length pre + S (length l))%nat by lia.
Qed.

Lemma text_loop_label l rest label dom :
  46 ∉ l ->
  text_loop (l ++ 46 :: rest) label dom
  = text_loop rest [] (dom ++ u8 (Z.of_nat (length (label ++ l))) :: label ++ l).
Proof.
  revert label. induction l as [|x l IH]; intros label H; cbn [app text_loop].
  - by rewrite app_nil_r.
  - apply not_elem_of_cons in H as [Hx H]. destruct (Z.eqb_spec x 46); [congruence|].
    rewrite IH by done. by rewrite <- !app_assoc.
Qed.

Lemma text_loop_wire labels : forall dom,
  Forall is_label labels ->
  text_loop (dotted labels) [] dom = dom ++ wire_labels labels.
Proof.
  induction labels as [|l labels IH]; intros dom H; [simpl; by rewrite app_nil_r|].
  apply Forall_cons in H as [Hl H]. pose proof Hl as (_ & Hdot & _).
  rewrite dotted_cons. cbn [app]. rewrite text_loop_label by done. cbn [app].
  rewrite IH, u8_label by done. unfold wire_labels. cbn [fmap list_fmap concat].
  by rewrite <- app_assoc.
Qed.

Lemma length_wire_dotted labels : length (wire_labels labels) = length (dotted labels).
Proof.
  induction labels as [|l labels IH]; [done|]. rewrite dotted_cons.
  unfold wire_labels in *. cbn [fmap list_fmap concat]. rewrite !length_app, IH. cbn [length]. lia.
Qed.

Lemma wire_labels_u8 labels :
  Forall is_label labels -> Forall is_u8 (join_dots labels) -> Forall is_u8 (wire_labels labels).
Proof.
  induction labels as [|l labels IH]; intros H Hu; [constructor|].
  apply Forall_cons in H as [(_ & _ & Hl) H].
  assert (Forall is_u8 l /\ Forall is_u8 (join_dots labels)) as [Hul Huj].
  { destruct labels as [|l' labels]; [split; [done|constructor]|].
    rewrite join_dots_cons in Hu. apply Forall_app in Hu as [? Hu].
    by apply Forall_cons in Hu as [_ Hu]. }
  unfold wire_labels. cbn [fmap list_fmap concat]. apply Forall_app_2; [|by apply IH].
  constructor; [unfold is_u8; lia|done].
Qed.

(** Encoding a host name. *)
Lemma text_to_dns_binary_wire labels :
  labels <> [] -> Forall is_label labels -> (length (join_dots labels) < 255)%nat ->
  text_to_dns_binary 256 (join_dots labels) = Ret (wire_labels labels ++ [0]).
Proof.
  intros Hne Hl Hlen. unfold text_to_dns_binary. rewrite bool_decide_eq_false_2 by lia.
  destruct labels as [|l labels]; [done|]. rewrite <- dotted_join, text_loop_wire by done. cbv zeta.
  rewrite bool_decide_eq_true_2; [done|].
  rewrite length_app, length_app, length_wire_dotted, dotted_join, length_app. cbn [length]. lia.
Qed.

Lemma name_at_span buffer off labels span : name_at buffer off labels span -> 1 <= span.
Proof. induction 1; lia. Qed.

(** Decoding, with the model's own fuel. *)
Lemma decode_name buffer cap off labels span :
  Forall is_u8 buffer -> name_at buffer off labels span -> (length (name_text labels) < cap)%nat ->
  dns_binary_to_text buffer cap off = Ret (span, name_text labels).
Proof.
  intros Hu Hn Hroom. pose proof (dotted_room _ _ Hroom) as Hc. destruct (name_loop_name buffer off labels span Hn) as [fuel Hf].
  specialize (Hf cap false 1 []). rewrite bool_decide_eq_true_2 in Hf by (left; simpl; lia).
  unfold dns_binary_to_text. rewrite bool_decide_eq_false_2 by lia.
  assert (name_loop (decode_fuel buffer cap) buffer cap off false 1 [] <> Fault OutOfFuel) as Hne.
  { intros E. apply (decode_decided _ _ _ fuel Hu) in E. by rewrite E in Hf. }
  assert (name_loop (decode_fuel buffer cap) buffer cap off false 1 [] = Ret (1 - 1 + span, [] ++ dotted labels))
    as ->.
  { destruct (decide (fuel <= decode_fuel buffer cap)%nat).
    - by rewrite (name_loop_more fuel) by (done || by rewrite Hf).
    - rewrite <- Hf. symmetry. apply name_loop_more; [lia|done]. }
  rewrite bind_Ret. cbn [app]. rewrite text_of_dotted by done.
  by rewrite bool_decide_eq_true_2.
Qed.

(** ** Lemmas on questions *)

(** The parse of a request, by the name at the question. *)
Lemma parse_request buffer len qname qt labels span :
  Forall is_u8 buffer -> len <= Z.of_nat (length buffer) ->
  (Z.of_nat DNS_HEADER < len ->
     name_at buffer DNS_HEADER labels span /\ (length (dotted labels) <= QNAME_CAP)%nat) ->
  parse_dns_request buffer len qname (Some qt)
  = Ret (if len <? 12 then (ERR_INVALID_LENGTH, qname, Some qt)
         else if len =? 12 then (ERR_PTR_OUT_OF_BUFFER_RANGE, qname, Some qt)
         else if len <? 16 + span
         then (ERR_OUT_OF_BUFFER_SPACE, c_string (name_text labels), Some qt)
         else (0, c_string (name_text labels),
               Some (be_val (take 2 (drop (Z.to_nat (12 + span)) buffer))))).
Proof.
  intros Hu Hlen Hn. unfold parse_dns_request, DNS_HEADER, DNS_QUESTION_FIXED in *.
  change (Z.of_nat 12) with 12 in *.
  destruct (Z.ltb_spec len 12); [done|].
  destruct (Z.ltb_spec (Z.of_nat (length buffer)) len); [lia|].
  destruct (Z.leb_spec len 12), (Z.eqb_spec len 12); try lia; [done|].
  destruct Hn as [Hn Hd]; [lia|]. rewrite (decode_name _ _ _ labels span) by (done || by apply text_room; [|unfold QNAME_CAP; lia]).
  rewrite bind_Ret. cbv beta iota zeta. pose proof (name_at_span _ _ _ _ Hn).
  replace (12 + span + 4) with (16 + span) by lia.
  destruct (Z.ltb_spec len (16 + span)); [done|]. unfold read_bytes.
  rewrite bool_decide_eq_true_2 by lia. by rewrite bind_Ret.
Qed.

(** ** Properties *)

(** C29: what [dns_binary_to_text] decodes.  On a packet of bytes it returns normally
    exactly when there is a name at the offset, compression pointers followed, whose text
    (the labels joined by dots, [.] for the root) fits the output with its terminating
    zero; it then returns this text, and as the count the bytes of the name up to its end
    or to its first pointer. *)
Theorem dns_name_decode (buffer : list Z) (cap off : nat) (count : Z) (text : list Z) :
  Forall is_u8 buffer ->
  dns_binary_to_text buffer cap off = Ret (count, text)
  <-> exists labels, name_at buffer off labels count
        /\ (length (name_text labels) < cap)%nat /\ text = name_text labels.
Proof.
  intros Hu. split.
  - unfold dns_binary_to_text. case_bool_decide; [done|].
    destruct (name_loop (decode_fuel buffer cap) buffer cap off false 1 []) as [r|] eqn:E; [|done].
    apply name_loop_inv in E as (labels & span & Hn & -> & Hc); [|done|simpl; lia].
    rewrite bind_Ret. cbn [app]. cbn [app] in Hc. rewrite text_of_dotted by done. case_bool_decide as Hr; [|done].
    intros [= <- <-]. exists labels. split_and!; [by replace (1 - 1 + span) with span by lia|done|done].
  - intros (labels & Hn & Hc & ->). by apply decode_name.
Qed.

(** The packet of the test [test_decoding_compression]: [mta.ro] at 0 and a pointer to
    it at 15. *)
Definition compressed_packet : list Z :=
  [3;109;116;97;2;114;111;0] ++ replicate 7 0 ++ [192;0] ++ replicate 47 0.

Lemma u8_list l : forallb (fun b => (0 <=? b) && (b <? 256)) l = true -> Forall is_u8 l.
Proof.
  intros H. apply Forall_forall. intros x Hx. apply (forallb_elem _ _ H) in Hx.
  apply andb_true_iff in Hx as [? ?]. unfold is_u8. lia.
Qed.

Lemma dns_name_decode_witness :
  dns_binary_to_text compressed_packet 256 15 = Ret (2, [109;116;97;46;114;111]).
Proof.
  apply (dns_name_decode compressed_packet 256 15 2 [109;116;97;46;114;111]);
    [apply u8_list; reflexivity|].
  exists [[109;116;97];[114;111]]. split_and!; [|simpl; lia|done].
  apply (name_pointer _ 15 192 0 [[109;116;97];[114;111]] 8); [done|lia|done|].
  apply (name_label _ 0 [109;116;97] [[114;111]] 4); [done|simpl; lia|done|].
  apply (name_label _ 4 [114;111] [] 1); [done|simpl; lia|done|]. by apply name_root.
Defined.

(** When [dns_binary_to_text] ends.  The model's fuel, [length buffer + 2] steps
    for each byte of the output, decides: a run that exhausts it exhausts every fuel,
    so that the code never returns; compression pointers that never end are such a
    run. *)
Lemma dns_name_termination (buffer : list Z) (cap off : nat) :
  Forall is_u8 buffer -> (0 < cap)%nat ->
  (dns_binary_to_text buffer cap off = Fault OutOfFuel
   <-> forall fuel, name_loop fuel buffer cap off false 1 [] = Fault OutOfFuel)
  /\ ((forall n, is_Some (jump buffer (follow buffer n off))) ->
      dns_binary_to_text buffer cap off = Fault OutOfFuel).
Proof.
  intros Hu Hcap. unfold dns_binary_to_text. rewrite bool_decide_eq_false_2 by lia.
  assert (forall m : outcome (Z * list Z), (('(count, output) ← m;
     match output with
     | [] => if bool_decide (2 <= cap)%nat then Ret (count, [46]) else Fault OutOfBounds
     | _ => Ret (count, take (length output - 1) output)
     end) = Fault OutOfFuel) <-> m = Fault OutOfFuel) as Hb.
  { intros [[c [|]]|]; [|done|naive_solver]. rewrite bind_Ret. by case_bool_decide. }
  rewrite Hb. split.
  - split; [|done]. intros E fuel. by apply decode_decided.
  - intros H. by apply name_loop_endless.
Qed.

(** A query whose name is a pointer to itself. *)
Definition self_pointer : list Z := replicate 12 0 ++ [192;12;0;1;0;1].

Lemma self_pointer_follow n : follow self_pointer n 12 = 12%nat.
Proof. induction n as [|n IH]; [done|exact IH]. Qed.

Lemma dns_name_termination_witness :
  name_loop 4000 self_pointer 256 12 false 1 [] = Fault OutOfFuel.
Proof.
  destruct (dns_name_termination self_pointer 256 12) as [H1 H2]; [apply u8_list; reflexivity|lia|].
  apply (proj1 H1), H2. intros n. rewrite self_pointer_follow. by eexists.
Defined.

(** A name survives encoding and decoding.  For a host name of labels that are not
    empty, hold no dot and have fewer than 64 bytes, of at most 254 characters,
    [text_to_dns_binary] writes its wire form within 256 bytes, and wherever that form
    lies in a packet, [dns_binary_to_text] with a 256-byte output returns the host
    name and the length of the form. *)
Lemma dns_name_roundtrip (labels : list (list Z)) (pre post : list Z) :
  labels <> [] -> Forall is_label labels -> (length (join_dots labels) < 255)%nat ->
  Forall is_u8 (pre ++ join_dots labels ++ post) ->
  exists wire,
    text_to_dns_binary 256 (join_dots labels) = Ret wire
    /\ dns_binary_to_text (pre ++ wire ++ post) 256 (length pre)
       = Ret (Z.of_nat (length wire), join_dots labels).
Proof.
  intros Hne Hl Hlen Hu. exists (wire_labels labels ++ [0]).
  split; [by apply text_to_dns_binary_wire|].
  destruct labels as [|l labels]; [done|].
  rewrite <- app_assoc, (decode_name _ _ _ (l :: labels) (Z.of_nat (length (wire_labels (l :: labels))) + 1)).
  - rewrite length_app. cbn [length]. f_equal. f_equal. lia.
  - apply Forall_app in Hu as [H1 Hu]. apply Forall_app in Hu as [H2 H3].
    apply Forall_app_2; [done|]. apply Forall_app_2; [by apply wire_labels_u8|].
    by constructor; [unfold is_u8; lia|].
  - by apply name_at_wire.
  - unfold name_text. lia.
Qed.

Lemma dns_name_roundtrip_witness :
  exists wire, text_to_dns_binary 256 [97;46;98] = Ret wire
    /\ dns_binary_to_text ([9] ++ wire ++ [7]) 256 1 = Ret (Z.of_nat (length wire), [97;46;98]).
Proof.
  apply (dns_name_roundtrip [[97];[98]] [9] [7]);
    [done| |simpl; lia|apply u8_list; reflexivity].
  repeat constructor; try discriminate; try (simpl; lia);
    rewrite ?not_elem_of_cons; repeat split; try lia; apply not_elem_of_nil.
Defined.

(** The result of [parse_dns_request] on every length.  A packet shorter than the
    header is refused with -8, one that is only a header with -9, leaving [qname] and
    [qtype]; otherwise, when a name that fits [qname] lies after the header, [qname]
    becomes its text, and the code is -10 unless the four bytes of type and class
    after it were received too, in which case it is 0 and [qtype] the big-endian type. *)
Lemma parse_dns_request_spec (buffer : list Z) (len : Z) (qname : cstr) (qt : Z)
    (labels : list (list Z)) (span : Z) :
  Forall is_u8 buffer -> len <= Z.of_nat (length buffer) ->
  (Z.of_nat DNS_HEADER < len ->
     name_at buffer DNS_HEADER labels span /\ (length (dotted labels) <= QNAME_CAP)%nat) ->
  parse_dns_request buffer len qname (Some qt)
  = Ret (if len <? 12 then (ERR_INVALID_LENGTH, qname, Some qt)
         else if len =? 12 then (ERR_PTR_OUT_OF_BUFFER_RANGE, qname, Some qt)
         else if len <? 16 + span
         then (ERR_OUT_OF_BUFFER_SPACE, c_string (name_text labels), Some qt)
         else (0, c_string (name_text labels),
               Some (be_val (take 2 (drop (Z.to_nat (12 + span)) buffer))))).
Proof. apply parse_request. Qed.

(** A query for the addresses of [a.b]. *)
Definition sample_query : list Z := [18;52;1;0;0;1;0;0;0;0;0;0;1;97;1;98;0;0;1;0;1].

Lemma parse_dns_request_spec_witness :
  parse_dns_request sample_query 21 [] (Some 0) = Ret (0, [97;46;98], Some 1).
Proof.
  rewrite (parse_dns_request_spec sample_query 21 [] 0 [[97];[98]] 5);
    [reflexivity|apply u8_list; reflexivity|simpl; lia|].
  intros _. split; [|unfold QNAME_CAP; simpl; lia].
  apply (name_label _ 12 [97] [[98]] 3); [done|simpl; lia|done|].
  apply (name_label _ 14 [98] [] 1); [done|simpl; lia|done|]. by apply name_root.
Defined.
