(* ===== verification/DnsConfig.v ===== *)
(** The configuration of the DNS server: the records and the parser of
    DNS_Server/sources/dns_config.c and the lookup of an option in dns_server.c.

    A file is its bytes, and [getline_lines] the lines [getline] returns, each with its
    newline (the last one may have none), as the C strings the parser reads; a pointer into
    the current line is the characters left of it.  The parser reports a malformed file by
    [exit(1)], which is [Fault Exited].  Files are found by [fopen], a parameter; it
    fails when the process has no descriptor left, which is what ends a file that
    includes itself, so the number of free descriptors is an argument.  Allocation is
    taken to succeed; the memory of the tree, with [free_config], and [config_dump] are in
    [DnsMemory]. *)

From Stdlib Require Import String.
From stdpp Require Import list.
From S2P Require Import Prelude UtilsV6 CText.

(** ** Data *)

Inductive config_node_type := CONFIG_OPTIONS | CONFIG_ZONE | CONFIG_INCLUDE | CONFIG_UNKNOWN.

#[export] Instance config_node_type_eq_dec : EqDecision config_node_type.
Proof. solve_decision. Defined.

#[local] Unset Elimination Schemes.

(** A null [name], [value] or [sub_block] is [None]; the array of pairs that ends with
    a null key is a list; the chain of [next] pointers is a list of nodes.  The field
    [zone_file] is never assigned. *)
Inductive config_node := ConfigNode {
  node_type : config_node_type;
  node_name : option cstr;
  pairs : list config_pair
}
with config_pair := ConfigPair {
  key : cstr;
  value : option cstr;
  sub_block : option config_node
}.

#[local] Set Elimination Schemes.

Inductive token_type :=
| TOK_EOF | TOK_IDENT | TOK_STRING | TOK_LBRACE | TOK_RBRACE | TOK_SEMI | TOK_INCLUDE.

#[export] Instance token_type_eq_dec : EqDecision token_type.
Proof. solve_decision. Defined.

(** ** Lines *)

(** What the calls of [getline] on a file return, as C strings: a line ends before a zero
    byte in it. *)
Definition getline_lines (contents : cstr) : list cstr := c_string <$> split_lines contents [].

(** ** Tokens *)

Definition trim (s : cstr) : cstr := drop_while_end isspace (drop_while isspace s).

(** The characters of an identifier. *)
Definition ident_char (c : Z) : bool :=
  negb (isspace c) && negb (c =? 123) && negb (c =? 125) && negb (c =? 59) && negb (c =? 35).

(** The token at [p], its text, and the characters after it. *)
Definition next_token (p : cstr) : token_type * cstr * cstr :=
  match drop_while isspace p with
  | [] => (TOK_EOF, [], [])
  | c :: rest =>
      if c =? 35 then (TOK_EOF, [], [])
      else if c =? 123 then (TOK_LBRACE, [c], rest)
      else if c =? 125 then (TOK_RBRACE, [c], rest)
      else if c =? 59 then (TOK_SEMI, [c], rest)
      else if c =? 34 then
        let text := take_while (fun c => negb (c =? 34)) rest in
        (TOK_STRING, text, drop 1 (drop_while (fun c => negb (c =? 34)) rest))
      else
        let text := take_while ident_char (c :: rest) in
        (if bool_decide (text = lit "include") then TOK_INCLUDE else TOK_IDENT, text,
         drop_while ident_char (c :: rest))
  end.

(** A line the parsers skip: empty or a comment. *)
Definition is_blank (line : cstr) : bool :=
  match line with [] => true | c :: _ => c =? 35 end.

(** The loop that reads on to a line with text, for a [;] on a line of its own. *)
Fixpoint skip_blank (lines : list cstr) : option (cstr * list cstr) :=
  match lines with
  | [] => None
  | l :: lines => if is_blank (trim l) then skip_blank lines else Some (trim l, lines)
  end.

(** ** Blocks *)

Definition item (text : cstr) : config_pair := ConfigPair (lit "__item") (Some text) None.

(** The loop of [parse_block] with the pairs read so far; it returns them with the
    lines left and the rest of the current line. *)
Fixpoint block_loop (fuel : nat) (ps : list config_pair) (lines : list cstr) (curpos : cstr)
    : outcome (list config_pair * list cstr * cstr) :=
  match fuel with
  | O => Fault OutOfFuel
  | S fuel =>
      '(lines, curpos) ←
        match curpos with
        | [] => match lines with
                | [] => Fault Exited
                | l :: lines => Ret (lines, trim l)
                end
        | _ => Ret (lines, curpos)
        end;
      let '(t, text, curpos) := next_token curpos in
      match t with
      | TOK_EOF => block_loop fuel ps lines []
      | TOK_RBRACE => Ret (ps, lines, curpos)
      | TOK_STRING =>
          let '(t2, _, curpos) := next_token curpos in
          match t2 with
          | TOK_EOF => block_loop fuel ps lines []
          | TOK_SEMI => block_loop fuel (ps ++ [item (take 1023 text)]) lines curpos
          | _ => Fault Exited
          end
      | TOK_IDENT =>
          let '(tpeek, _, curpos1) := next_token curpos in
          if bool_decide (tpeek = TOK_SEMI) then
            block_loop fuel (ps ++ [item (take 255 text)]) lines curpos1
          else
            let k := take 255 text in
            let '(t, text, curpos) := next_token curpos in
            match t with
            | TOK_LBRACE =>
                '(sub, lines, sub_pos) ← block_loop fuel [] lines curpos;
                let p := ConfigPair k None (Some (ConfigNode CONFIG_UNKNOWN (Some k) sub)) in
                let '(t2, _, after) := next_token sub_pos in
                block_loop fuel (ps ++ [p]) lines
                  (if bool_decide (t2 = TOK_SEMI) then after else sub_pos)
            | TOK_STRING | TOK_IDENT =>
                let v := take 1023 text in
                let '(t, _, curpos) := next_token curpos in
                '(t, lines, curpos) ←
                  match t with
                  | TOK_EOF =>
                      match skip_blank lines with
                      | None => Fault Exited
                      | Some (line, lines) =>
                          let '(t, _, p2) := next_token line in Ret (t, lines, p2)
                      end
                  | _ => Ret (t, lines, curpos)
                  end;
                if bool_decide (t = TOK_SEMI) then
                  block_loop fuel (ps ++ [ConfigPair k (Some v) None]) lines curpos
                else Fault Exited
            | _ => Fault Exited
            end
      | _ => Fault Exited
      end
  end.

(** The characters and lines left to read. *)
Definition left_to_read (lines : list cstr) (curpos : cstr) : nat :=
  length curpos + foldr (fun l n => 2 + length l + n)%nat 0%nat lines.

Definition parse_block (block_type : config_node_type) (block_name : option cstr)
    (lines : list cstr) (initial_pos : cstr) : outcome (config_node * list cstr) :=
  '(ps, lines, _) ← block_loop (S (left_to_read lines initial_pos)) [] lines initial_pos;
  Ret (ConfigNode block_type block_name ps, lines).

(** ** Files *)

Definition tok_eq_ident (t : token_type) (text s : cstr) : bool :=
  bool_decide (t = TOK_IDENT) && bool_decide (text = s).

Section Files.
(** [fopen] for reading: the bytes of a file, [None] when it cannot be opened. *)
Variable fopen : cstr -> option cstr.

(** The loop over the lines of a file; [include] is the call for an included file.
    What is left of the line on which a block ends is not read. *)
Fixpoint file_loop (include : cstr -> outcome (list config_node)) (fuel : nat)
    (nodes : list config_node) (lines : list cstr) : outcome (list config_node) :=
  match fuel with
  | O => Fault OutOfFuel
  | S fuel =>
      match lines with
      | [] => Ret nodes
      | l :: lines =>
          let line := trim l in
          if is_blank line then file_loop include fuel nodes lines
          else
            let '(t, text, curpos) := next_token line in
            match t with
            | TOK_INCLUDE =>
                let '(t, text, curpos) := next_token curpos in
                if negb (bool_decide (t = TOK_STRING)) then Fault Exited
                else
                  let '(t, _, _) := next_token curpos in
                  if negb (bool_decide (t = TOK_SEMI)) then Fault Exited
                  else
                    inc ← include (take 511 text);
                    file_loop include fuel (nodes ++ inc) lines
            | TOK_IDENT =>
                let block (btype : config_node_type) (name : option cstr) (t : token_type)
                    (curpos : cstr) : outcome (list config_node) :=
                  if negb (bool_decide (t = TOK_LBRACE)) then Fault Exited
                  else
                    '(node, lines) ← parse_block btype name lines curpos;
                    file_loop include fuel (nodes ++ [node]) lines in
                if tok_eq_ident t text (lit "options") then
                  let '(t, _, curpos) := next_token curpos in block CONFIG_OPTIONS None t curpos
                else if tok_eq_ident t text (lit "zone") then
                  let '(t, name, curpos) := next_token curpos in
                  if negb (bool_decide (t = TOK_STRING)) then Fault Exited
                  else
                    let block_name := take 255 name in
                    let '(t, _, curpos) := next_token curpos in
                    block CONFIG_ZONE (match block_name with [] => None | _ => Some block_name end)
                      t curpos
                else file_loop include fuel nodes lines
            | _ => file_loop include fuel nodes lines
            end
      end
  end.

(** [fds] is the number of files that can still be opened; the result's empty list is
    the null pointer. *)
Fixpoint parse_file (fds : nat) (path : cstr) : outcome (list config_node) :=
  match fds with
  | O => Ret []
  | S fds =>
      match fopen path with
      | None => Ret []
      | Some contents =>
          let lines := getline_lines contents in
          file_loop (parse_file fds) (S (left_to_read lines [])) [] lines
      end
  end.

Definition parse_config_file (fds : nat) (path : cstr) : outcome (list config_node) :=
  parse_file fds path.

End Files.

(** ** Options *)

(** The value of the first pair with the key, which may be null. *)
Fixpoint pair_value (ps : list config_pair) (k : cstr) : option (option cstr) :=
  match ps with
  | [] => None
  | p :: ps => if bool_decide (key p = k) then Some (value p) else pair_value ps k
  end.

Fixpoint get_global_option (root : list config_node) (k : cstr) : option cstr :=
  match root with
  | [] => None
  | n :: rest =>
      if bool_decide (node_type n = CONFIG_OPTIONS) then
        match pair_value (pairs n) k with
        | Some v => v
        | None => get_global_option rest k
        end
      else get_global_option rest k
  end.

(** ** Lemmas on tokens *)

Lemma next_token_length p :
  let '(t, _, rest) := next_token p in
  (length rest <= length p)%nat /\ (t <> TOK_EOF -> (length rest < length p)%nat).
Proof.
  unfold next_token. pose proof (length_drop_while isspace p) as Hp.
  destruct (drop_while isspace p) as [|c rest] eqn:E; cbn [length] in *; [split; [lia|done]|].
  assert (isspace c = false) as Hc.
  { clear -E. induction p as [|x p IH]; [done|]. simpl in E. destruct (isspace x) eqn:Ex; [auto|congruence]. }
  destruct (Z.eqb_spec c 35); [split; [simpl; lia|done]|].
  destruct (Z.eqb_spec c 123); [split; intros; simpl; lia|]. destruct (Z.eqb_spec c 125); [split; intros; simpl; lia|].
  destruct (Z.eqb_spec c 59); [split; intros; simpl; lia|]. destruct (Z.eqb_spec c 34).
  - cbv zeta. rewrite length_drop.
    pose proof (length_drop_while (fun c => negb (c =? 34)) rest). split; intros; lia.
  - assert (ident_char c = true) as Hi.
    { unfold ident_char. rewrite Hc.
      destruct (Z.eqb_spec c 123), (Z.eqb_spec c 125), (Z.eqb_spec c 59), (Z.eqb_spec c 35); lia || done. }
    cbv zeta. cbn [drop_while]. rewrite Hi. pose proof (length_drop_while ident_char rest).
    split; intros; lia.
Qed.

Lemma trim_length s : (length (trim s) <= length s)%nat.
Proof. unfold trim. etransitivity; [apply length_drop_while_end|apply length_drop_while]. Qed.

Lemma left_cons l lines p : left_to_read (l :: lines) p = (2 + length l + left_to_read lines p)%nat.
Proof. unfold left_to_read. simpl. lia. Qed.

Lemma left_pos lines p : left_to_read lines p = (length p + left_to_read lines [])%nat.
Proof. done. Qed.

Lemma skip_blank_length lines line lines' :
  skip_blank lines = Some (line, lines') ->
  (2 + left_to_read lines' line <= left_to_read lines [])%nat.
Proof.
  induction lines as [|l lines IH]; [done|]. cbn [skip_blank]. rewrite left_cons.
  pose proof (trim_length l). destruct (is_blank (trim l)).
  - intros H'. specialize (IH H'). lia.
  - intros [= <- <-]. rewrite (left_pos lines (trim l)). lia.
Qed.

(** ** Termination *)

(** What a run of the block loop returns: an exit, or less left to read. *)
Definition block_result (n : nat) (r : outcome (list config_pair * list cstr * cstr)) : Prop :=
  match r with
  | Ret (_, lines, pos) => (left_to_read lines pos <= n)%nat
  | Fault f => f = Exited
  end.

Lemma block_result_le n n' r : (n <= n')%nat -> block_result n r -> block_result n' r.
Proof. intros H. destruct r as [[[ps ls] p]|]; simpl; [lia|done]. Qed.

Ltac token_step :=
  match goal with
  | |- context [next_token ?p] =>
      let H := fresh "Htok" in
      pose proof (next_token_length p) as H;
      destruct (next_token p) as [[? ?] ?]; destruct H as [? ?]
  end.

Ltac token_lia :=
  repeat match goal with
  | H : ?t <> ?u -> _ |- _ => specialize (H ltac:(discriminate))
  end; lia.

Lemma block_loop_bound fuel : forall ps lines curpos,
  (left_to_read lines curpos < fuel)%nat ->
  block_result (left_to_read lines curpos) (block_loop fuel ps lines curpos).
Proof.
  induction fuel as [|fuel IH]; intros ps lines curpos Hf; [lia|].
  assert (forall lines' curpos' ps', (left_to_read lines' curpos' < left_to_read lines curpos)%nat ->
    block_result (left_to_read lines curpos) (block_loop fuel ps' lines' curpos')) as Hrec.
  { intros lines' curpos' ps' Hlt. eapply block_result_le; [|apply IH; lia]. lia. }
  cbn [block_loop].
  assert ((exists lines1 pos1,
      match curpos with
      | [] => match lines with [] => Fault Exited | l :: lines => Ret (lines, trim l) end
      | _ => Ret (lines, curpos)
      end = Ret (lines1, pos1)
      /\ (left_to_read lines1 pos1 <= left_to_read lines curpos)%nat
      /\ (left_to_read lines1 [] < left_to_read lines curpos)%nat)
    \/ match curpos with
       | [] => match lines with [] => Fault Exited | l :: lines => Ret (lines, trim l) end
       | _ => Ret (lines, curpos)
       end = Fault Exited) as [(lines1 & pos1 & -> & H1 & H2)| -> ]; [| |done].
  { destruct curpos as [|c curpos].
    - destruct lines as [|l lines]; [by right|left]. exists lines, (trim l). split; [done|].
      rewrite left_cons, (left_pos lines (trim l)). pose proof (trim_length l). lia.
    - left. exists lines, (c :: curpos). split; [done|]. rewrite (left_pos lines (c :: _)). simpl. lia. }
  rewrite bind_Ret. cbv beta iota. rewrite left_pos in H1.
  revert Hf Hrec H1 H2. generalize (left_to_read lines curpos) as n. clear -IH. intros n Hf Hrec H1 H2.
  assert (forall ps' lines' pos', (length pos' < length pos1 \/ length pos' = 0)%nat -> lines' = lines1 ->
    block_result n (block_loop fuel ps' lines' pos')) as Hline.
  { intros ps' lines' pos' Hlen ->. apply Hrec. rewrite left_pos. lia. }
  assert (forall ps' k v r, (length r < length pos1)%nat ->
    block_result n
      (let '(t, _, curpos) := next_token r in
       '(t, lines, curpos) ←
         match t with
         | TOK_EOF =>
             match skip_blank lines1 with
             | None => Fault Exited
             | Some (line, lines) => let '(t, _, p2) := next_token line in Ret (t, lines, p2)
             end
         | _ => Ret (t, lines1, curpos)
         end;
       if bool_decide (t = TOK_SEMI)
       then block_loop fuel (ps' ++ [ConfigPair k (Some v) None]) lines curpos
       else Fault Exited)) as Hval.
  { intros ps' k v r Hr. token_step.
    destruct t; rewrite ?bind_Ret; cbv beta iota;
      try (case_bool_decide; [apply Hline; [left; lia|done]|done]).
    destruct (skip_blank lines1) as [[line lines2]|] eqn:Es; [|done].
    apply skip_blank_length in Es. token_step. rewrite bind_Ret. cbv beta iota.
    case_bool_decide; [|done]. apply Hrec. rewrite left_pos in Es |- *. lia. }
  token_step. destruct t; try done.
  - apply Hline; [by right|done].
  - token_step. case_bool_decide as Hpeek; [subst; apply Hline; [left; token_lia|done]|].
    destruct t; try done.
    + by apply Hval; token_lia.
    + by apply Hval; token_lia.
    + assert (left_to_read lines1 l2 < n)%nat as Hsub by (rewrite left_pos; token_lia).
      pose proof (IH [] lines1 l2 ltac:(lia)) as Hb.
      destruct (block_loop fuel [] lines1 l2) as [[[sub lines2] sub_pos]|f]; [|by destruct f].
      simpl in Hb. rewrite bind_Ret. cbv beta iota zeta. token_step. apply Hrec.
      rewrite left_pos in Hb |- *. case_bool_decide; lia.
  - token_step. destruct t; try done; apply Hline; (by right) || (left; token_lia) || done.
  - cbn [block_result]. rewrite left_pos. token_lia.
Qed.

Lemma parse_block_result btype name lines pos :
  match parse_block btype name lines pos with
  | Ret (_, lines') => (left_to_read lines' [] <= left_to_read lines pos)%nat
  | Fault f => f = Exited
  end.
Proof.
  unfold parse_block. pose proof (block_loop_bound (S (left_to_read lines pos)) [] lines pos ltac:(lia)) as H.
  destruct (block_loop _ _ _ _) as [[[ps ls] p]|f]; [|done].
  cbn [block_result] in H. rewrite (left_pos ls p) in H. simpl. lia.
Qed.

(** A parse ends with nodes or with [exit(1)]. *)
Definition parse_ends (r : outcome (list config_node)) : Prop :=
  match r with Ret _ => True | Fault f => f = Exited end.

Lemma file_loop_ends include fuel : forall nodes lines,
  (forall path, parse_ends (include path)) -> (left_to_read lines [] < fuel)%nat ->
  parse_ends (file_loop include fuel nodes lines).
Proof.
  induction fuel as [|fuel IH]; intros nodes lines Hinc Hf; [lia|]. cbn [file_loop].
  destruct lines as [|l lines]; [done|]. rewrite left_cons in Hf. cbv zeta.
  assert (forall nodes', parse_ends (file_loop include fuel nodes' lines)) as Hnext
    by (intros nodes'; apply IH; [done|lia]).
  assert (forall btype name t curpos, (length curpos <= length (trim l))%nat ->
    parse_ends (if negb (bool_decide (t = TOK_LBRACE)) then Fault Exited
      else '(node, lines') ← parse_block btype name lines curpos;
           file_loop include fuel (nodes ++ [node]) lines')) as Hblock.
  { intros btype name t curpos Hc. case_bool_decide; [|done]. cbn [negb].
    pose proof (parse_block_result btype name lines curpos) as H'.
    destruct (parse_block btype name lines curpos) as [[node lines']|f]; [|by destruct f].
    rewrite bind_Ret. cbv beta iota. apply IH; [done|]. rewrite (left_pos lines curpos) in H'.
    pose proof (trim_length l). lia. }
  destruct (is_blank (trim l)); [done|]. token_step. destruct t; try done.
  - destruct (tok_eq_ident _ _ (lit "options")); [token_step; apply Hblock; lia|].
    destruct (tok_eq_ident _ _ (lit "zone")); [|done]. token_step.
    destruct (negb _); [done|]. token_step. apply Hblock. lia.
  - token_step. destruct (negb _); [done|]. token_step. destruct (negb _); [done|].
    match goal with |- context [include ?path] => pose proof (Hinc path) as Hi;
      destruct (include path) as [inc|f]; [|exact Hi] end.
    rewrite bind_Ret. apply Hnext.
Qed.

Lemma parse_file_ends fopen fds : forall path, parse_ends (parse_file fopen fds path).
Proof.
  induction fds as [|fds IH]; intros path; [done|]. cbn [parse_file].
  destruct (fopen path) as [contents|]; [|done]. cbv zeta. apply file_loop_ends; [done|lia].
Qed.

(** ** Printed configurations

    The contents of blocks and files, their printed lines, and the nodes they stand
    for. *)

#[local] Unset Elimination Schemes.

Inductive entry :=
| EPair (k v : cstr)
| EItem (v : cstr)
| EBlock (k : cstr) (es : list entry).

#[local] Set Elimination Schemes.

Lemma entry_ind (P : entry -> Prop) :
  (forall k v, P (EPair k v)) -> (forall v, P (EItem v)) ->
  (forall k es, Forall P es -> P (EBlock k es)) -> forall e, P e.
Proof.
  intros H1 H2 H3. fix IH 1. intros [k v|v|k es]; [apply H1|apply H2|apply H3].
  induction es as [|e es IHes]; constructor; [apply IH|exact IHes].
Qed.

Definition quoted (s : cstr) : cstr := 34 :: s ++ [34].

(** One line for a pair or an item; a block between two lines. *)
Fixpoint render (e : entry) : list cstr :=
  match e with
  | EPair k v => [k ++ 32 :: quoted v ++ [59]]
  | EItem v => [quoted v ++ [59]]
  | EBlock k es => (k ++ [32; 123]) :: concat (render <$> es) ++ [[125; 59]]
  end.

Fixpoint entry_pair (e : entry) : config_pair :=
  match e with
  | EPair k v => ConfigPair k (Some v) None
  | EItem v => item v
  | EBlock k es => ConfigPair k None (Some (ConfigNode CONFIG_UNKNOWN (Some k) (entry_pair <$> es)))
  end.

(** Identifiers and strings the format can express. *)
Definition ident_ok (k : cstr) : Prop :=
  k <> [] /\ Forall (fun c => ident_char c = true) k /\ head k <> Some 34 /\ k <> lit "include"
  /\ (length k <= 255)%nat /\ (0 ∉ k).

Definition string_ok (cap : nat) (v : cstr) : Prop :=
  (34 ∉ v) /\ (length v <= cap)%nat /\ (10 ∉ v) /\ (0 ∉ v).

Fixpoint entry_ok (e : entry) : Prop :=
  match e with
  | EPair k v => ident_ok k /\ string_ok 1023 v
  | EItem v => string_ok 1023 v
  | EBlock k es => ident_ok k /\ foldr (fun e P => entry_ok e /\ P) True es
  end.

Inductive section :=
| SOptions (es : list entry)
| SZone (name : cstr) (es : list entry).

Definition section_lines (s : section) : list cstr :=
  let body es := concat (render <$> es) ++ [[125; 59]] in
  match s with
  | SOptions es => lit "options {" :: body es
  | SZone name es => (lit "zone " ++ quoted name ++ [32; 123]) :: body es
  end.

Definition section_node (s : section) : config_node :=
  match s with
  | SOptions es => ConfigNode CONFIG_OPTIONS None (entry_pair <$> es)
  | SZone name es =>
      ConfigNode CONFIG_ZONE (match name with [] => None | _ => Some name end) (entry_pair <$> es)
  end.

Definition section_ok (s : section) : Prop :=
  match s with
  | SOptions es => Forall entry_ok es
  | SZone name es => string_ok 255 name /\ Forall entry_ok es
  end.

(** ** Lemmas on printed text *)

Lemma entry_ok_block es : foldr (fun e P => entry_ok e /\ P) True es <-> Forall entry_ok es.
Proof.
  induction es as [|e es IH]; simpl; [by split|]. by rewrite IH, Forall_cons.
Qed.

Lemma ident_not_space c : ident_char c = true -> isspace c = false.
Proof. unfold ident_char. destruct (isspace c); [done|done]. Qed.

Lemma next_token_space p : next_token (32 :: p) = next_token p.
Proof. done. Qed.

(** An identifier followed by a character that ends it. *)
Lemma next_token_ident k c r :
  ident_ok k -> ident_char c = false -> next_token (k ++ c :: r) = (TOK_IDENT, k, c :: r).
Proof.
  intros (Hne & Hid & H34 & Hinc & _) Hc. destruct k as [|x k]; [done|].
  assert (ident_char x = true) as Hx by (by apply Forall_inv in Hid).
  unfold next_token. cbn [app]. rewrite (drop_while_head isspace) by (by apply ident_not_space).
  pose proof Hx as Hx'. unfold ident_char in Hx'.
  destruct (Z.eqb_spec x 35), (Z.eqb_spec x 123), (Z.eqb_spec x 125), (Z.eqb_spec x 59);
    try (subst; discriminate Hx').
  destruct (Z.eqb_spec x 34); [subst; by destruct H34|]. cbv zeta.
  rewrite (app_comm_cons k). rewrite take_while_app, drop_while_app by done.
  by rewrite bool_decide_eq_false_2.
Qed.

Lemma next_token_quoted v r : 34 ∉ v -> next_token (quoted v ++ r) = (TOK_STRING, v, r).
Proof.
  intros H. unfold quoted. cbn [app]. unfold next_token. cbn [drop_while isspace].
  change (isspace 34) with false. cbv iota. change (34 =? 35) with false.
  change (34 =? 123) with false. change (34 =? 125) with false. change (34 =? 59) with false.
  change (34 =? 34) with true. cbv iota zeta. rewrite <- app_assoc. cbn [app].
  assert (Forall (fun x => negb (x =? 34) = true) v) as Hv.
  { apply Forall_forall. intros x Hx. destruct (Z.eqb_spec x 34); [subst; done|done]. }
  by rewrite take_while_app, drop_while_app.
Qed.

(** A line without spaces at its ends is its own trimmed form. *)
Lemma trim_line c s d :
  isspace c = false -> isspace d = false -> trim (c :: s ++ [d]) = c :: s ++ [d].
Proof.
  intros Hc Hd. unfold trim. rewrite drop_while_head by done.
  change (c :: s ++ [d]) with ((c :: s) ++ [d]). by apply drop_while_end_snoc.
Qed.

Lemma trim_ident k s d : ident_ok k -> isspace d = false -> trim (k ++ s ++ [d]) = k ++ s ++ [d].
Proof.
  intros (Hne & Hid & _) Hd. destruct k as [|x k]; [done|]. apply Forall_inv in Hid.
  cbn [app]. rewrite app_assoc. apply trim_line; [by apply ident_not_space|done].
Qed.

Lemma take_string cap v : string_ok cap v -> take cap v = v.
Proof. intros (_ & H & _). by apply take_ge. Qed.

(** A line of the file with its newline, which [trim] removes. *)
Definition nl (l : cstr) : cstr := l ++ [10].

Lemma trim_nl l : trim (nl l) = trim l.
Proof.
  unfold trim, nl.
  assert (drop_while isspace (l ++ [10]) = []  /\ drop_while isspace l = []
          \/ drop_while isspace (l ++ [10]) = drop_while isspace l ++ [10]) as [[-> ->]| ->]; [|done|].
  - induction l as [|c l IH]; [by left|]. cbn [app drop_while]. destruct (isspace c); [done|by right].
  - unfold drop_while_end. by rewrite rev_app_distr.
Qed.

(** Reading the next line in the block loop. *)
Lemma block_loop_line fuel ps l lines :
  block_loop (S fuel) ps (nl l :: lines) [] = block_loop (S fuel) ps lines (trim l)
  \/ trim l = [].
Proof.
  rewrite <- (trim_nl l). destruct (trim (nl l)) as [|c s] eqn:E; [by right|left].
  cbn [block_loop]. by rewrite E.
Qed.

(** The entries of a block are read one by one: the statement for an entry... *)
Definition reads_entry (e : entry) : Prop :=
  forall fuel ps lines, (length (render e) <= fuel)%nat ->
  block_loop (S fuel) ps ((nl <$> render e) ++ lines) []
  = block_loop fuel (ps ++ [entry_pair e]) lines [].

Lemma render_length e : (1 <= length (render e))%nat.
Proof. destruct e; simpl; lia. Qed.

(** ... and for the entries up to the closing brace. *)
Lemma block_loop_entries es : Forall reads_entry es -> forall fuel ps lines,
  (S (length (concat (render <$> es))) <= fuel)%nat ->
  block_loop fuel ps ((nl <$> concat (render <$> es)) ++ nl [125; 59] :: lines) []
  = Ret (ps ++ (entry_pair <$> es), lines, [59]).
Proof.
  induction 1 as [|e es He _ IH]; intros fuel ps lines Hf.
  - destruct fuel as [|fuel]; [simpl in Hf; lia|]. simpl. by rewrite app_nil_r.
  - destruct fuel as [|fuel]; [lia|]. cbn [fmap list_fmap concat] in *. rewrite length_app in Hf.
    change (list_fmap _ _ nl (render e ++ concat (list_fmap _ _ render es)))
      with (nl <$> (render e ++ concat (render <$> es))).
    pose proof (render_length e). rewrite fmap_app, <- app_assoc, He by lia. rewrite IH by lia.
    by rewrite <- app_assoc.
Qed.

Lemma read_pair k v : ident_ok k -> string_ok 1023 v -> reads_entry (EPair k v).
Proof.
  intros Hk Hv fuel ps lines Hf. cbn [render app fmap list_fmap].
  assert (trim (k ++ 32 :: quoted v ++ [59]) = k ++ 32 :: quoted v ++ [59]) as Ht
    by (apply (trim_ident k (32 :: quoted v) 59); done).
  destruct (block_loop_line fuel ps (k ++ 32 :: quoted v ++ [59]) lines) as [->|E].
  2: { rewrite Ht in E. by destruct k. }
  rewrite Ht. cbn [block_loop]. destruct (k ++ 32 :: quoted v ++ [59]) as [|c s] eqn:E; [by destruct k|].
  rewrite <- E, bind_Ret. cbv beta iota. rewrite next_token_ident by done. cbv beta iota zeta.
  rewrite next_token_space, next_token_quoted by apply Hv. cbv beta iota zeta.
  rewrite bool_decide_eq_false_2 by done. change (next_token [59]) with (TOK_SEMI, [59], @nil Z).
  cbv beta iota zeta. rewrite bind_Ret. cbv beta iota. rewrite bool_decide_eq_true_2 by done.
  rewrite (take_ge k) by apply Hk. by rewrite (take_string 1023 v).
Qed.

Lemma read_item v : string_ok 1023 v -> reads_entry (EItem v).
Proof.
  intros Hv fuel ps lines Hf. cbn [render app fmap list_fmap].
  assert (trim (quoted v ++ [59]) = quoted v ++ [59]) as Ht
    by (unfold quoted; cbn [app]; by apply trim_line).
  destruct (block_loop_line fuel ps (quoted v ++ [59]) lines) as [->|E]; [|by rewrite Ht in E].
  rewrite Ht. cbn [block_loop]. destruct (quoted v ++ [59]) as [|c s] eqn:E; [done|].
  rewrite <- E, bind_Ret. cbv beta iota. rewrite next_token_quoted by apply Hv. cbv beta iota zeta.
  change (next_token [59]) with (TOK_SEMI, [59], @nil Z). cbv beta iota zeta.
  by rewrite (take_string 1023 v).
Qed.

Lemma read_block k es : ident_ok k -> Forall reads_entry es -> reads_entry (EBlock k es).
Proof.
  intros Hk Hes fuel ps lines Hf. cbn [render] in *. cbn [length] in Hf.
  rewrite length_app in Hf. cbn [length] in Hf. rewrite fmap_cons, fmap_app. cbn [app].
  assert (trim (k ++ [32; 123]) = k ++ [32; 123]) as Ht
    by (by apply (trim_ident k [32] 123)).
  destruct (block_loop_line fuel ps (k ++ [32; 123])
              (((nl <$> concat (render <$> es)) ++ (nl <$> [[125; 59]])) ++ lines)) as [->|E].
  2: { rewrite Ht in E. by destruct k. }
  rewrite Ht. cbn [block_loop]. destruct (k ++ [32; 123]) as [|c s] eqn:E; [by destruct k|].
  rewrite <- E, bind_Ret. cbv beta iota. rewrite next_token_ident by done. cbv beta iota zeta.
  change (next_token [32; 123]) with (TOK_LBRACE, [123], @nil Z). cbv beta iota zeta.
  rewrite bool_decide_eq_false_2 by done. rewrite <- app_assoc. rewrite fmap_cons. cbn [app fmap list_fmap].
  rewrite (block_loop_entries es) by (done || lia). rewrite bind_Ret. cbv beta iota zeta.
  change (next_token [59]) with (TOK_SEMI, [59], @nil Z). cbv beta iota zeta.
  rewrite bool_decide_eq_true_2 by done. rewrite (take_ge k) by apply Hk. done.
Qed.

Lemma entry_reads e : entry_ok e -> reads_entry e.
Proof.
  induction e as [k v|v|k es IH] using entry_ind; cbn [entry_ok].
  - intros [? ?]. by apply read_pair.
  - apply read_item.
  - intros [Hk Hes%entry_ok_block]. apply read_block; [done|].
    apply Forall_forall. intros e He. rewrite Forall_forall in IH, Hes. auto.
Qed.

Lemma length_left lines : (length lines <= left_to_read lines [])%nat.
Proof. induction lines as [|l lines IH]; [simpl; lia|]. rewrite left_cons. simpl. lia. Qed.

Lemma parse_block_entries btype name es lines :
  Forall entry_ok es ->
  parse_block btype name ((nl <$> concat (render <$> es)) ++ nl [125; 59] :: lines) []
  = Ret (ConfigNode btype name (entry_pair <$> es), lines).
Proof.
  intros H. unfold parse_block. rewrite block_loop_entries; [by rewrite bind_Ret| |].
  - eapply Forall_impl; [exact H|]. apply entry_reads.
  - pose proof (length_left ((nl <$> concat (render <$> es)) ++ nl [125; 59] :: lines)) as Hl.
    rewrite length_app, length_fmap in Hl. cbn [length] in Hl. lia.
Qed.

(** One section of a file. *)
Lemma file_loop_section include fuel nodes s lines :
  section_ok s ->
  file_loop include (S fuel) nodes ((nl <$> section_lines s) ++ lines)
  = file_loop include fuel (nodes ++ [section_node s]) lines.
Proof.
  intros Hs. destruct s as [es|name es]; cbn [section_lines section_ok section_node] in *.
  - rewrite fmap_cons, fmap_app. cbn [app file_loop]. rewrite trim_nl.
    change (trim (lit "options {")) with (lit "options {"). cbv zeta.
    change (is_blank (lit "options {")) with false. cbv iota.
    change (next_token (lit "options {")) with (TOK_IDENT, lit "options", [32; 123]). cbv iota beta.
    change (tok_eq_ident TOK_IDENT (lit "options") (lit "options")) with true. cbv iota.
    change (next_token [32; 123]) with (TOK_LBRACE, [123], @nil Z). cbv iota beta.
    rewrite bool_decide_eq_true_2 by done. cbn [negb]. rewrite <- app_assoc, fmap_cons. cbn [app fmap list_fmap].
    by rewrite (parse_block_entries _ _ es), bind_Ret.
  - destruct Hs as [Hname Hes]. rewrite fmap_cons, fmap_app. cbn [app file_loop]. rewrite trim_nl.
    assert (trim (lit "zone " ++ quoted name ++ [32; 123]) = lit "zone " ++ quoted name ++ [32; 123]) as ->.
    { change (lit "zone ") with (122 :: [111; 110; 101; 32]).
      change (quoted name ++ [32; 123]) with (quoted name ++ [32] ++ [123]).
      rewrite !app_assoc.
      exact (trim_line 122 (([111; 110; 101; 32] ++ quoted name) ++ [32]) 123 eq_refl eq_refl). }
    cbv zeta. change (lit "zone " ++ quoted name ++ [32; 123])
      with (lit "zone" ++ 32 :: quoted name ++ [32; 123]).
    change (is_blank (lit "zone" ++ 32 :: quoted name ++ [32; 123])) with false. cbv iota.
    rewrite next_token_ident; [|split_and!; try done; [repeat constructor|vm_compute; lia|by apply (bool_decide_unpack _)]|done].
    cbv iota beta. change (tok_eq_ident TOK_IDENT (lit "zone") (lit "options")) with false.
    change (tok_eq_ident TOK_IDENT (lit "zone") (lit "zone")) with true. cbv iota.
    rewrite next_token_space, next_token_quoted by apply Hname. cbv iota beta.
    rewrite bool_decide_eq_true_2 by done. cbn [negb].
    change (next_token [32; 123]) with (TOK_LBRACE, [123], @nil Z). cbv iota beta.
    rewrite bool_decide_eq_true_2 by done. cbn [negb]. rewrite <- app_assoc, fmap_cons. cbn [app fmap list_fmap].
    by rewrite (parse_block_entries _ _ es), bind_Ret, (take_string 255 name).
Qed.

Lemma section_lines_length s : (1 <= length (section_lines s))%nat.
Proof. destruct s; simpl; lia. Qed.

Lemma file_loop_sections include secs : forall fuel nodes,
  Forall section_ok secs -> (length (concat (section_lines <$> secs)) < fuel)%nat ->
  file_loop include fuel nodes (nl <$> concat (section_lines <$> secs))
  = Ret (nodes ++ (section_node <$> secs)).
Proof.
  induction secs as [|s secs IH]; intros fuel nodes Hok Hf; (destruct fuel as [|fuel]; [lia|]).
  - simpl. by rewrite app_nil_r.
  - apply Forall_cons in Hok as [Hs Hok]. cbn [fmap list_fmap concat] in *.
    rewrite length_app in Hf. pose proof (section_lines_length s).
    change (list_fmap _ _ nl (section_lines s ++ concat (list_fmap _ _ section_lines secs)))
      with (nl <$> (section_lines s ++ concat (section_lines <$> secs))).
    rewrite fmap_app, file_loop_section, IH by (done || lia). by rewrite <- app_assoc.
Qed.

(** *** Lines of text *)

(** A line that neither a newline nor a zero byte cuts. *)
Definition text_line (l : cstr) : Prop := (10 ∉ l) /\ (0 ∉ l).

Lemma getline_printed ls : Forall text_line ls -> getline_lines (print_lines ls) = nl <$> ls.
Proof.
  unfold getline_lines, print_lines. induction 1 as [|l ls [H10 H0] _ IH]; [done|].
  cbn [fmap list_fmap concat]. rewrite <- app_assoc. cbn [app]. rewrite split_lines_app by done.
  cbn [app fmap list_fmap]. rewrite c_string_id by set_solver. f_equal. exact IH.
Qed.

Lemma ident_text k : ident_ok k -> text_line k.
Proof.
  intros (_ & Hid & _ & _ & _ & H0). split; [|done]. intros H10. rewrite Forall_forall in Hid.
  by specialize (Hid 10 H10).
Qed.

Lemma string_text cap v : string_ok cap v -> text_line v.
Proof. by intros (_ & _ & ? & ?). Qed.

Lemma text_app l1 l2 : text_line l1 -> text_line l2 -> text_line (l1 ++ l2).
Proof. unfold text_line. set_solver. Qed.

Lemma text_closed l : bool_decide (text_line l) = true -> text_line l.
Proof. apply bool_decide_eq_true_1. Qed.

Lemma quoted_line v l : text_line v -> text_line l -> text_line (quoted v ++ l).
Proof. unfold text_line, quoted. set_solver. Qed.

Lemma render_text e : entry_ok e -> Forall text_line (render e).
Proof.
  induction e as [k v|v|k es IH] using entry_ind; cbn [entry_ok render].
  - intros [Hk%ident_text Hv%string_text]. apply Forall_singleton, text_app; [done|].
    apply (text_app [32]); [by apply text_closed|]. by apply quoted_line, text_closed.
  - intros Hv%string_text. by apply Forall_singleton, quoted_line, text_closed.
  - intros [Hk%ident_text Hes%entry_ok_block]. apply Forall_cons_2; [by apply text_app, text_closed|].
    apply Forall_app_2; [|by apply Forall_singleton, text_closed]. apply Forall_concat, Forall_fmap.
    rewrite !Forall_forall in *. intros e He. by apply IH, Hes.
Qed.

Lemma section_text s : section_ok s -> Forall text_line (section_lines s).
Proof.
  assert (forall es, Forall entry_ok es -> Forall text_line (concat (render <$> es) ++ [[125; 59]])) as Hb.
  { intros es Hes. apply Forall_app_2; [|by apply Forall_singleton, text_closed].
    apply Forall_concat, Forall_fmap. eapply Forall_impl; [exact Hes|]. apply render_text. }
  destruct s as [es|name es]; cbn [section_ok section_lines].
  - intros Hes. apply Forall_cons_2; [by apply text_closed|by apply Hb].
  - intros [Hn%string_text Hes]. apply Forall_cons_2; [|by apply Hb].
    apply text_app; [by apply text_closed|]. by apply quoted_line, text_closed.
Qed.

(** The text of a file. *)
Definition config_text (secs : list section) : cstr := print_lines (concat (section_lines <$> secs)).

(** ** Properties *)

(** C32: a configuration survives printing and parsing.  For every file of options and
    zone blocks, whose entries are keys with quoted values, list items and nested
    blocks to any depth (identifiers of at most 255 characters other than [include],
    strings of at most 1023 and zone names of at most 255, without quotes, newlines and
    zero bytes), parsing the bytes of the file, its lines with a newline at the end of each,
    gives exactly the nodes of the blocks, in order. *)
Theorem config_roundtrip (fopen : cstr -> option cstr) (fds : nat) (path : cstr)
    (secs : list section) :
  Forall section_ok secs -> fopen path = Some (config_text secs) ->
  parse_config_file fopen (S fds) path = Ret (section_node <$> secs).
Proof.
  intros Hok Hopen. unfold parse_config_file. cbn [parse_file]. rewrite Hopen. unfold config_text.
  rewrite getline_printed by (apply Forall_concat, Forall_fmap; eapply Forall_impl; [exact Hok|apply section_text]).
  cbv zeta. apply (file_loop_sections _ secs _ []); [done|].
  pose proof (length_left (nl <$> concat (section_lines <$> secs))) as Hl. rewrite length_fmap in Hl. lia.
Qed.

(** A newline in a value ends the line it is on: the string is not closed there, and what
    follows it is not the [;] the parser wants. *)
Example newline_in_value :
  parse_config_file (fun _ => Some (config_text [SOptions [EPair (lit "a") (lit "x" ++ [10] ++ lit "y")]])) 1 (lit "c")
  = Fault Exited.
Proof. vm_compute. reflexivity. Qed.

(** Parsing ends on every input.  Whatever the files hold and however they include
    one another, [parse_config_file] returns a list of nodes or ends the process by
    [exit(1)]: no loop of the parser runs forever. *)
Lemma config_parse_ends (fopen : cstr -> option cstr) (fds : nat) (path : cstr) :
  (exists nodes, parse_config_file fopen fds path = Ret nodes)
  \/ parse_config_file fopen fds path = Fault Exited.
Proof.
  unfold parse_config_file. pose proof (parse_file_ends fopen fds path) as H.
  destruct (parse_file fopen fds path) as [nodes|f]; [left; by exists nodes|right].
  simpl in H. by subst f.
Qed.

(** The blocks of the distributed config/dns.conf, shortened. *)
Definition sample_sections : list section :=
  [SOptions [EPair (lit "listen_ip") (lit "0.0.0.0"); EPair (lit "port") (lit "5379");
             EBlock (lit "forwarders") [EItem (lit "8.8.8.8"); EItem (lit "1.1.1.1")]];
   SZone (lit "localhost") [EPair (lit "type") (lit "master"); EPair (lit "file") (lit "localhost.zone")]].

#[export] Instance ident_ok_dec k : Decision (ident_ok k).
Proof. unfold ident_ok. apply _. Defined.

#[export] Instance string_ok_dec cap v : Decision (string_ok cap v).
Proof. unfold string_ok. apply _. Defined.

Lemma sample_sections_ok : Forall section_ok sample_sections.
Proof.
  unfold sample_sections.
  repeat match goal with
  | |- Forall _ (_ :: _) => apply Forall_cons_2
  | |- Forall _ [] => apply Forall_nil_2
  | |- _ /\ _ => split
  | |- True => exact I
  | |- ident_ok _ => refine (bool_decide_eq_true_1 _ _); vm_compute; reflexivity
  | |- string_ok _ _ => refine (bool_decide_eq_true_1 _ _); vm_compute; reflexivity
  | |- section_ok _ => unfold section_ok
  | |- entry_ok _ => cbn [entry_ok foldr]
  end.
Qed.

Lemma config_roundtrip_witness :
  parse_config_file (fun _ => Some (config_text sample_sections)) 1 (lit "config/dns.conf")
  = Ret (section_node <$> sample_sections).
Proof.
  apply (config_roundtrip (fun _ => Some (config_text sample_sections)) 0
           (lit "config/dns.conf") sample_sections sample_sections_ok). reflexivity.
Defined.
