(* ===== verification/DnsZones.v ===== *)
(** The zones of the DNS server: DNS_Server/sources/zone_manager.c.

    The chains of records and of zones are lists, newest first as the code links
    them; the globals [global_zones] and [global_zones_dir] are arguments and results.
    [inet_pton] and [fopen] are parameters; a file is its bytes, without zero bytes.  Characters the code writes past an array
    of fixed size, and a token read before it was scanned, are faults.  The flags of
    [dns_header] are bit-fields, which the ABI of the target (gcc on x86-64) lays out
    from the least significant bit. *)

From Stdlib Require Import String.
From stdpp Require Import list.
From S2P Require Import Prelude UtilsV6 CText DnsNames DnsConfig.

(** ** Data *)

Record zone_record := ZoneRecord {
  rec_name : cstr;
  rec_type : Z;
  rec_TTL : Z;
  rec_rdata : cstr
}.

Record zone_node := ZoneNode {
  origin : cstr;
  records : list zone_record
}.

Definition get_config_value (ps : list config_pair) (k : cstr) : option cstr :=
  match pair_value ps k with Some v => v | None => None end.

Definition add_record_to_zone (zone : zone_node) (name : cstr) (type ttl : Z) (rdata : cstr)
    : zone_node :=
  ZoneNode (origin zone) (ZoneRecord (take 255 name) type ttl (take 255 rdata) :: records zone).

(** ** Zone files *)

(** The types of records by their names in a zone file; [SOA] is handled apart. *)
Definition record_type (token : cstr) : Z :=
  if bool_decide (token = lit "A") then 1
  else if bool_decide (token = lit "NS") then 2
  else if bool_decide (token = lit "CNAME") then 5
  else if bool_decide (token = lit "PTR") then 12
  else if bool_decide (token = lit "MX") then 15
  else if bool_decide (token = lit "AAAA") then 28
  else 0.

(** The data of a record: the characters up to a [;] or the end of the line, without
    the spaces at their end, in an array of 256 bytes. *)
Definition scan_rdata (ptr : cstr) : outcome cstr :=
  let raw := take_while (fun c => negb (c =? 59) && negb (c =? 10)) (drop_while isspace ptr) in
  if bool_decide (256 < length raw)%nat then Fault OutOfBounds
  else
    let rdata := drop_while_end isspace raw in
    if bool_decide (256 <= length rdata)%nat then Fault OutOfBounds else Ret rdata.

(** The loop over the tokens of a line; [token] is [None] until one was scanned. *)
Fixpoint token_loop (fuel : nat) (zone : zone_node) (name : cstr) (ttl : Z) (token : option cstr)
    (ptr : cstr) : outcome zone_node :=
  match fuel with
  | O => Fault OutOfFuel
  | S fuel =>
      match ptr with
      | [] => Ret zone
      | _ =>
          let ptr := drop_while isspace ptr in
          '(token, ptr) ←
            match scan_word ptr with
            | Some (w, r) => if bool_decide (256 <= length w)%nat then Fault OutOfBounds
                             else Ret (Some w, r)
            | None => Ret (token, ptr)
            end;
          tok ← in_bounds token;
          if isdigit (byte_at tok 0) then token_loop fuel zone name (u32 (atoi tok)) (Some tok) ptr
          else if bool_decide (tok = lit "IN") then token_loop fuel zone name ttl (Some tok) ptr
          else if bool_decide (tok = lit "SOA") then Ret zone
          else
            let type := record_type tok in
            if negb (type =? 0) then
              rdata ← scan_rdata ptr;
              Ret (add_record_to_zone zone name type ttl rdata)
            else token_loop fuel zone name ttl (Some tok) ptr
      end
  end.

(** The zone with the record of the line, and the new [last_domain] and
    [current_ttl].  [sizeof(last_domain)] is the size of a pointer, so that
    [last_domain] is cut after seven characters. *)
Definition parse_zone_line (zone : zone_node) (line last_domain : cstr) (current_ttl : Z)
    : outcome (zone_node * cstr * Z) :=
  let ptr := drop_while isspace line in
  if bool_decide (ptr = []) || (byte_at ptr 0 =? 59) || (byte_at ptr 0 =? 35) then
    Ret (zone, last_domain, current_ttl)
  else if bool_decide (take 4 ptr = lit "$TTL") then
    Ret (zone, last_domain, u32 (atoi (drop_while isspace (drop 4 ptr))))
  else
    '(name, last_domain, ptr) ←
      (if isspace (byte_at line 0) then Ret (take 255 last_domain, last_domain, ptr)
       else
         match scan_word ptr with
         | None => Ret ([], [], ptr)
         | Some (w, r) =>
             if bool_decide (256 <= length w)%nat then Fault OutOfBounds
             else
               let name := if bool_decide (w = lit "@") then take 255 (origin zone) else w in
               Ret (name, take 7 name, r)
         end);
    zone ← token_loop (S (length ptr)) zone name current_ttl None ptr;
    Ret (zone, last_domain, current_ttl).

(** [line[strcspn(line, "\r\n")] = 0] *)
Definition cut_newline (line : cstr) : cstr :=
  take_while (fun c => negb (c =? 13) && negb (c =? 10)) line.

Fixpoint load_lines (zone : zone_node) (last_domain : cstr) (current_ttl : Z) (lines : list cstr)
    : outcome zone_node :=
  match lines with
  | [] => Ret zone
  | line :: lines =>
      '(zone, last_domain, current_ttl) ←
        parse_zone_line zone (cut_newline line) last_domain current_ttl;
      load_lines zone last_domain current_ttl lines
  end.

Section Zones.
Variable fopen : cstr -> option cstr.

Definition load_zone_from_file (zones_dir : cstr) (zone : zone_node) (filename : cstr)
    : outcome zone_node :=
  match fopen (take 1023 (zones_dir ++ [47] ++ filename)) with
  | None => Ret zone
  | Some contents => load_lines zone (take 255 (origin zone)) 3600 (fgets_lines contents)
  end.

(** The directory of the first block of options. *)
Fixpoint config_zones_dir (nodes : list config_node) (zones_dir : cstr) : cstr :=
  match nodes with
  | [] => zones_dir
  | n :: rest =>
      if bool_decide (node_type n = CONFIG_OPTIONS) then
        match get_config_value (pairs n) (lit "zones_dir") with
        | Some zdir => take 511 zdir
        | None => zones_dir
        end
      else config_zones_dir rest zones_dir
  end.

Fixpoint init_zones (zones_dir : cstr) (nodes : list config_node) (zones : list zone_node)
    : outcome (list zone_node) :=
  match nodes with
  | [] => Ret zones
  | n :: rest =>
      match node_type n, node_name n with
      | CONFIG_ZONE, Some name =>
          let zone := ZoneNode (take 255 name) [] in
          zone ←
            match get_config_value (pairs n) (lit "type"), get_config_value (pairs n) (lit "file") with
            | Some type, Some file =>
                if bool_decide (type = lit "master") then load_zone_from_file zones_dir zone file
                else Ret zone
            | _, _ => Ret zone
            end;
          init_zones zones_dir rest (zone :: zones)
      | _, _ => init_zones zones_dir rest zones
      end
  end.

(** From the globals' initial values. *)
Definition zone_manager_init (config_root : list config_node) : outcome (list zone_node) :=
  init_zones (config_zones_dir config_root (lit ".")) config_root [].

End Zones.

(** ** Answers *)

Definition record_matches (qname qname_dot : cstr) (qtype : Z) (r : zone_record) : bool :=
  (bool_decide (qname = rec_name r) || bool_decide (qname_dot = rec_name r))
  && ((qtype =? rec_type r) || (qtype =? 255)).

(** The two nested loops: the first matching record. *)
Fixpoint record_loop (qname qname_dot : cstr) (qtype : Z) (rs : list zone_record)
    : option zone_record :=
  match rs with
  | [] => None
  | r :: rs => if record_matches qname qname_dot qtype r then Some r
               else record_loop qname qname_dot qtype rs
  end.

Fixpoint zone_loop (qname qname_dot : cstr) (qtype : Z) (zones : list zone_node)
    : option zone_record :=
  match zones with
  | [] => None
  | z :: zones =>
      match record_loop qname qname_dot qtype (records z) with
      | Some r => Some r
      | None => zone_loop qname qname_dot qtype zones
      end
  end.

(** The assignments to [QR], [AA], [Rcode], [TC] (bytes 2 and 3) and
    [number_of_answers]. *)
Definition set_flags (b : Z) : Z :=
  let b := Z.lor b 1 in
  let b := Z.lor b 32 in
  Z.land b 191.

Definition set_header (response : list Z) : outcome (list Z) :=
  b2 ← in_bounds (response !! 2%nat);
  b3 ← in_bounds (response !! 3%nat);
  response ← write_bytes 2 [set_flags b2; Z.land b3 15] response;
  write_bytes 6 (le16 (bswap16 1)) response.

(** The walk over the labels of [encoded_name]. *)
Fixpoint encoded_size (fuel : nat) (encoded_name : list Z) (ptr : nat) : outcome nat :=
  match fuel with
  | O => Fault OutOfFuel
  | S fuel =>
      label_len ← in_bounds (encoded_name !! ptr);
      if label_len =? 0 then Ret (ptr + 1)%nat
      else encoded_size fuel encoded_name (ptr + Z.to_nat label_len + 1)
  end.

Section Answers.
(** [inet_pton] for the two families: the bytes of the address, [None] when it does
    not return 1. *)
Variable inet_pton4 inet_pton6 : cstr -> option (list Z).

(** [data_length] and the data of the answer; an address that does not parse gives
    none. *)
Definition rdata_bytes (r : zone_record) : outcome (Z * list Z) :=
  if rec_type r =? 1 then
    Ret (match inet_pton4 (rec_rdata r) with Some addr => (4, addr) | None => (0, []) end)
  else if rec_type r =? 28 then
    Ret (match inet_pton6 (rec_rdata r) with Some addr6 => (16, addr6) | None => (0, []) end)
  else if (rec_type r =? 5) || (rec_type r =? 2) || (rec_type r =? 12) then
    encoded_name ← text_to_dns_binary 256 (rec_rdata r);
    size ← encoded_size (length encoded_name) encoded_name 0;
    data ← read_bytes 0 size encoded_name;
    Ret (Z.of_nat size, data)
  else Ret (0, []).

(** The resource record after the compressed name. *)
Definition resource_record (r : zone_record) (data_length : Z) : list Z :=
  le16 (bswap16 (rec_type r)) ++ le16 (bswap16 1) ++ le32 (bswap32 (rec_TTL r))
  ++ le16 (bswap16 data_length).

(** Whether a record was found, the response packet and its length. *)
Definition handle_local_zone_query (global_zones : list zone_node) (qname : cstr) (qtype : Z)
    (query_packet : list Z) (query_len : nat) (response_packet : list Z) (response_len : nat)
    : outcome (bool * list Z * nat) :=
  match qname with
  | [] => Fault OutOfBounds
  | _ =>
      let qname_dot := if byte_at qname (length qname - 1) =? 46 then qname
                       else take 256 (qname ++ [46]) in
      match zone_loop qname qname_dot qtype global_zones with
      | None => Ret (false, response_packet, response_len)
      | Some r =>
          query ← read_bytes 0 query_len query_packet;
          response ← write_bytes 0 query response_packet;
          response ← set_header response;
          response ← write_bytes query_len [192; 12] response;
          '(data_length, data) ← rdata_bytes r;
          response ← write_bytes (query_len + 2) (resource_record r data_length) response;
          response ← write_bytes (query_len + 12) data response;
          Ret (true, response, query_len + 12 + length data)%nat
      end
  end.

End Answers.
