(* ===== verification/DnsZonesSpec.v ===== *)
(** Properties of the DNS zones: the answers of [handle_local_zone_query] byte by byte
    and read back by the parser, the loading of zone files, and what the distributed
    zone file becomes. *)

From Stdlib Require Import String.
From stdpp Require Import list.
From S2P Require Import Prelude UtilsV6 CText DnsNames DnsConfig DnsZones.

(** ** The reference *)

(** The first record of the zones, in the order of their lists, with the name and the
    type. *)
Definition find_record (qname qname_dot : cstr) (qtype : Z) (zones : list zone_node)
    : option zone_record :=
  List.find (record_matches qname qname_dot qtype) (concat (records <$> zones)).

Definition with_dot (qname : cstr) : cstr :=
  if byte_at qname (length qname - 1) =? 46 then qname else take 256 (qname ++ [46]).

(** A query with its header turned into that of the answer. *)
Definition patch (q : list Z) : list Z :=
  take 2 q ++ [set_flags (byte_at q 2); Z.land (byte_at q 3) 15] ++ take 2 (drop 4 q)
  ++ [0; 1] ++ drop 8 q.

(** The bytes of an answer. *)
Definition answer_bytes (q : list Z) (r : zone_record) (data_length : Z) (data : list Z) : list Z :=
  patch q ++ [192; 12] ++ resource_record r data_length ++ data.

(** ** Lemmas *)

Lemma record_loop_find qname qname_dot qtype rs :
  record_loop qname qname_dot qtype rs = List.find (record_matches qname qname_dot qtype) rs.
Proof. induction rs as [|r rs IH]; [done|]. simpl. by rewrite IH. Qed.

Lemma find_app {A} (p : A -> bool) l1 l2 :
  List.find p (l1 ++ l2) = match List.find p l1 with Some x => Some x | None => List.find p l2 end.
Proof. induction l1 as [|x l1 IH]; [done|]. simpl. by destruct (p x). Qed.

Lemma zone_loop_find qname qname_dot qtype zones :
  zone_loop qname qname_dot qtype zones = find_record qname qname_dot qtype zones.
Proof.
  unfold find_record. induction zones as [|z zones IH]; [done|].
  cbn [zone_loop fmap list_fmap concat]. by rewrite find_app, <- record_loop_find, IH.
Qed.

(** Writing at the end of what has been written so far. *)
Lemma write_at_end pre bs rest :
  (length bs <= length rest)%nat ->
  write_bytes (length pre) bs (pre ++ rest) = Ret ((pre ++ bs) ++ drop (length bs) rest).
Proof.
  intros H. rewrite <- (take_drop (length bs) rest) at 1.
  rewrite (write_bytes_app _ pre) by (done || rewrite length_take; lia).
  by rewrite app_assoc.
Qed.

Lemma write_at_start bs buf :
  (length bs <= length buf)%nat -> write_bytes 0 bs buf = Ret (bs ++ drop (length bs) buf).
Proof. apply (write_at_end []). Qed.

Lemma write_too_long off bs buf :
  (length buf < off + length bs)%nat -> write_bytes off bs buf = Fault OutOfBounds.
Proof. intros H. unfold write_bytes. by rewrite bool_decide_eq_false_2 by lia. Qed.

Lemma set_header_patch q rest :
  (12 <= length q)%nat -> set_header (q ++ rest) = Ret (patch q ++ rest).
Proof.
  intros H. destruct q as [|b0 [|b1 [|b2 [|b3 [|b4 [|b5 [|b6 [|b7 q]]]]]]]]; simpl in H; try lia.
  unfold set_header, patch. cbn [app lookup list_lookup in_bounds]. rewrite !bind_Ret.
  unfold write_bytes. rewrite bool_decide_eq_true_2 by (simpl; lia). rewrite bind_Ret.
  rewrite bool_decide_eq_true_2 by (simpl; lia). done.
Qed.

Lemma length_patch q : (12 <= length q)%nat -> length (patch q) = length q.
Proof.
  intros H. unfold patch. rewrite !length_app, !length_take, !length_drop. cbn [length]. lia.
Qed.

Lemma length_resource_record r dl : length (resource_record r dl) = 10%nat.
Proof. done. Qed.

(** The answer to a query that has a record, and its place in the packet. *)
Lemma local_answer pton4 pton6 zones qname qtype buf len resp0 rlen r dl data :
  qname <> [] -> find_record qname (with_dot qname) qtype zones = Some r ->
  (12 <= len <= length buf)%nat -> (len <= length resp0)%nat ->
  rdata_bytes pton4 pton6 r = Ret (dl, data) ->
  let ans := answer_bytes (take len buf) r dl data in
  handle_local_zone_query pton4 pton6 zones qname qtype buf len resp0 rlen
  = if bool_decide (length ans <= length resp0)%nat
    then Ret (true, ans ++ drop (length ans) resp0, length ans) else Fault OutOfBounds.
Proof.
  intros Hq Hf Hlen Hresp Hd. cbv zeta. unfold handle_local_zone_query.
  destruct qname as [|c qname0] eqn:Eq; [done|]. rewrite <- Eq in *. fold (with_dot qname).
  rewrite zone_loop_find, Hf. unfold read_bytes. rewrite bool_decide_eq_true_2 by lia.
  rewrite bind_Ret, drop_0. set (q := take len buf).
  assert (length q = len) as Hql by (unfold q; rewrite length_take; lia).
  pose proof (write_at_end [] q resp0 ltac:(lia)) as Hw. cbn [app length] in Hw.
  rewrite Hw, bind_Ret, set_header_patch, bind_Ret by lia.
  assert (length (answer_bytes q r dl data) = len + 12 + length data)%nat as Hal.
  { unfold answer_bytes. rewrite !length_app, length_patch, length_resource_record by lia.
    cbn [length]. lia. }
  rewrite Hal. assert (length (drop (length q) resp0) = length resp0 - len)%nat as Hrest
    by (rewrite length_drop; lia).
  destruct (decide (len + 2 <= length resp0)%nat) as [H2|H2].
  2: { rewrite bool_decide_eq_false_2 by lia.
       by rewrite (write_too_long len) by (rewrite length_app, length_patch; cbn [length]; lia). }
  replace len with (length (patch q)) at 1 by (rewrite length_patch; lia).
  rewrite write_at_end by (cbn [length]; lia). rewrite bind_Ret, Hd, bind_Ret. cbv beta iota.
  assert (length (patch q ++ [192; 12]) = (len + 2)%nat) as H3
    by (rewrite length_app, length_patch; cbn [length]; lia).
  destruct (decide (len + 12 <= length resp0)%nat) as [H4|H4].
  2: { rewrite bool_decide_eq_false_2 by lia.
       by rewrite (write_too_long (len + 2)) by (rewrite length_app, H3, length_resource_record, length_drop; cbn [length]; lia). }
  rewrite <- H3 at 1. rewrite write_at_end by (rewrite length_resource_record, length_drop; cbn [length]; lia).
  rewrite bind_Ret, length_resource_record.
  assert (length ((patch q ++ [192; 12]) ++ resource_record r dl) = (len + 12)%nat) as H5
    by (rewrite length_app, H3, length_resource_record; lia).
  destruct (decide (len + 12 + length data <= length resp0)%nat) as [H6|H6].
  2: { rewrite bool_decide_eq_false_2 by lia.
       by rewrite (write_too_long (len + 12)) by (rewrite length_app, H5, !length_drop; cbn [length]; lia). }
  rewrite bool_decide_eq_true_2 by lia.
  rewrite <- H5 at 1. rewrite write_at_end by (rewrite !length_drop; cbn [length]; lia).
  rewrite bind_Ret. unfold answer_bytes. rewrite !drop_drop, <- !app_assoc.
  cbn [length].
  by replace (length q + (2 + (10 + length data)))%nat with (len + 12 + length data)%nat by lia.
Qed.

(** Names in a packet depend on its bytes only. *)
Lemma read_bytes_app off n l rest v :
  read_bytes off n l = Ret v -> read_bytes off n (l ++ rest) = Ret v.
Proof.
  unfold read_bytes. case_bool_decide as H; [|done]. intros [= <-].
  rewrite bool_decide_eq_true_2 by (rewrite length_app; lia).
  f_equal. rewrite drop_app_le by lia. rewrite take_app_le; [done|]. rewrite length_drop. lia.
Qed.

Lemma htons_bytes x : le16 (bswap16 x) = [x / 256 mod 256; x mod 256].
Proof. unfold le16, bswap16. f_equal; [|f_equal]; divmod. Qed.

Lemma be_val_htons x : is_u16 x -> be_val (le16 (bswap16 x)) = x.
Proof. intros H. rewrite htons_bytes. unfold be_val, is_u16 in *. simpl. divmod. Qed.

(** A query: the header, the question's name, its type and class. *)
Definition query_bytes (hdr : list Z) (labels : list (list Z)) (qtype qclass : Z) : list Z :=
  hdr ++ wire_labels labels ++ 0 :: le16 (bswap16 qtype) ++ le16 (bswap16 qclass).

Lemma patch_app hdr rest : length hdr = 12%nat -> patch (hdr ++ rest) = patch hdr ++ rest.
Proof.
  intros H. do 13 (destruct hdr as [|? hdr]; [try done; simpl in H; lia|]). simpl in H. lia.
Qed.

(** ** The data of names *)

(** The pieces between dots, as the loop of [text_to_dns_binary] cuts them. *)
Fixpoint split_dots (s : cstr) (label : list Z) : list (list Z) :=
  match s with
  | [] => []
  | c :: rest => if c =? 46 then label :: split_dots rest [] else split_dots rest (label ++ [c])
  end.

Lemma text_loop_split s : forall label dom,
  (length label + length s < 256)%nat ->
  text_loop s label dom = dom ++ wire_labels (split_dots s label)
  /\ (length (wire_labels (split_dots s label)) <= length label + length s)%nat.
Proof.
  induction s as [|c s IH]; intros label dom H; cbn [text_loop split_dots length] in *.
  - rewrite app_nil_r. split; [done|]. simpl. lia.
  - destruct (c =? 46).
    + destruct (IH [] (dom ++ u8 (Z.of_nat (length label)) :: label)) as [-> Hl]; [simpl; lia|].
      unfold wire_labels. cbn [fmap list_fmap concat]. fold (wire_labels (split_dots s [])).
      rewrite u8_small by (unfold is_u8; lia). rewrite <- app_assoc. split; [done|].
      rewrite length_app. cbn [length] in *. lia.
    + destruct (IH (label ++ [c]) dom) as [-> Hl]; [rewrite length_app; cbn [length]; lia|].
      split; [done|]. rewrite length_app in Hl. cbn [length] in Hl. lia.
Qed.

(** The labels before the first empty one. *)
Fixpoint until_empty (labels : list (list Z)) : list (list Z) :=
  match labels with
  | [] => []
  | l :: rest => match l with [] => [] | _ => l :: until_empty rest end
  end.

Lemma wire_cons l labels : wire_labels (l :: labels) = Z.of_nat (length l) :: l ++ wire_labels labels.
Proof. done. Qed.

Lemma wire_labels_count labels : (length labels <= length (wire_labels labels))%nat.
Proof.
  induction labels as [|l labels IH]; [done|]. rewrite wire_cons. cbn [length]. rewrite length_app. lia.
Qed.

Lemma encoded_size_wire labels : forall fuel pre,
  (length labels < fuel)%nat ->
  encoded_size fuel (pre ++ wire_labels labels ++ [0]) (length pre)
  = Ret (length pre + length (wire_labels (until_empty labels)) + 1)%nat.
Proof.
  induction labels as [|l labels IH]; intros fuel pre Hf; (destruct fuel as [|fuel]; [simpl in Hf; lia|]).
  - cbn [encoded_size]. simpl app. rewrite list_lookup_middle by done. cbn [in_bounds]. rewrite bind_Ret.
    simpl. f_equal. lia.
  - cbn [encoded_size]. rewrite wire_cons. cbn [app]. rewrite list_lookup_middle by done.
    cbn [in_bounds]. rewrite bind_Ret. destruct l as [|x l]; [simpl; f_equal; lia|].
    destruct (Z.eqb_spec (Z.of_nat (length (x :: l))) 0); [simpl in *; lia|].
    specialize (IH fuel (pre ++ Z.of_nat (length (x :: l)) :: x :: l)).
    rewrite <- !app_assoc in IH |- *. rewrite <- app_comm_cons in IH.
    rewrite Nat2Z.id. cbn [until_empty]. rewrite wire_cons.
    replace (length pre + length (x :: l) + 1)%nat
      with (length (pre ++ Z.of_nat (length (x :: l)) :: x :: l))
      by (rewrite length_app; simpl; lia).
    rewrite IH by (simpl in Hf; lia). f_equal. rewrite !length_app. simpl. rewrite length_app. lia.
Qed.

Lemma wire_until_empty labels : exists rest,
  wire_labels labels ++ [0] = (wire_labels (until_empty labels) ++ [0]) ++ rest.
Proof.
  induction labels as [|l labels [rest IH]]; [by exists []|]. cbn [until_empty].
  destruct l as [|x l]; [by exists (wire_labels labels ++ [0])|].
  exists rest. rewrite !wire_cons. cbn [app]. by rewrite <- !app_assoc, IH, <- !app_assoc.
Qed.

(** The labels of the data of a record that holds a name. *)
Definition rdata_labels (r : zone_record) : list (list Z) :=
  until_empty (split_dots (rec_rdata r ++ [46]) []).

Definition holds_name (r : zone_record) : bool :=
  (rec_type r =? 5) || (rec_type r =? 2) || (rec_type r =? 12).

(** A record without an uninitialised byte in [temp_host]. *)
Definition record_ok (r : zone_record) : Prop := (length (rec_rdata r) < 255)%nat.

Lemma rdata_name pton4 pton6 r :
  record_ok r -> holds_name r = true ->
  rdata_bytes pton4 pton6 r
  = Ret (Z.of_nat (length (wire_labels (rdata_labels r) ++ [0])), wire_labels (rdata_labels r) ++ [0]).
Proof.
  unfold record_ok, holds_name. intros Hl Hn. unfold rdata_bytes. rewrite Hn.
  destruct (Z.eqb_spec (rec_type r) 1) as [E|_]; [rewrite E in Hn; done|].
  destruct (Z.eqb_spec (rec_type r) 28) as [E|_]; [rewrite E in Hn; done|].
  unfold text_to_dns_binary. rewrite bool_decide_eq_false_2 by lia.
  destruct (text_loop_split (rec_rdata r ++ [46]) [] []) as [-> Hw];
    [rewrite length_app; simpl; lia|].
  unfold rdata_labels. set (labels := split_dots (rec_rdata r ++ [46]) []) in *.
  cbv zeta. cbn [app]. rewrite length_app in Hw. cbn [length] in Hw.
  rewrite bool_decide_eq_true_2 by (rewrite length_app; cbn [length]; lia). rewrite bind_Ret.
  pose proof (encoded_size_wire labels (length (wire_labels labels ++ [0])) []) as Hs.
  cbn [app length Nat.add] in Hs. rewrite Hs.
  2: { rewrite length_app. cbn [length]. pose proof (wire_labels_count labels). lia. }
  rewrite bind_Ret. destruct (wire_until_empty labels) as [rest ->].
  rewrite !length_app. cbn [length].
  unfold read_bytes. rewrite bool_decide_eq_true_2 by (rewrite !length_app; cbn [length]; lia).
  rewrite bind_Ret, drop_0. f_equal. f_equal.
  rewrite take_app_length'; [done|]. rewrite length_app. cbn [length]. lia.
Qed.

Lemma rdata_bytes_ok pton4 pton6 r :
  record_ok r -> exists dl data, rdata_bytes pton4 pton6 r = Ret (dl, data).
Proof.
  intros Hok. destruct (holds_name r) eqn:E.
  - rewrite rdata_name by done. eauto.
  - unfold rdata_bytes. unfold holds_name in E. rewrite E.
    destruct (rec_type r =? 1); [destruct (pton4 _); eauto|].
    destruct (rec_type r =? 28); [destruct (pton6 _); eauto|]. eauto.
Qed.

Lemma record_ok_found zones qname qname_dot qtype r :
  Forall (fun z => Forall record_ok (records z)) zones ->
  find_record qname qname_dot qtype zones = Some r -> record_ok r.
Proof.
  intros H Hf. unfold find_record in Hf. apply List.find_some in Hf as [Hin _].
  apply List.in_concat in Hin as (rs & Hz & Hr). apply list_elem_of_In in Hz, Hr.
  apply list_elem_of_fmap in Hz as (z & -> & Hz). rewrite Forall_forall in H. specialize (H z Hz).
  rewrite Forall_forall in H. by apply H.
Qed.

Lemma until_empty_all labels : Forall (fun l => l <> []) labels -> until_empty labels = labels.
Proof. induction 1 as [|l labels Hl _ IH]; [done|]. simpl. destruct l; [done|]. by rewrite IH. Qed.

Lemma split_dots_label l rest label :
  46 ∉ l -> split_dots (l ++ 46 :: rest) label = (label ++ l) :: split_dots rest [].
Proof.
  revert label. induction l as [|x l IH]; intros label H; cbn [app split_dots].
  - by rewrite app_nil_r.
  - apply not_elem_of_cons in H as [Hx H]. destruct (Z.eqb_spec x 46); [congruence|].
    rewrite IH by done. by rewrite <- app_assoc.
Qed.

Lemma split_dotted labels : Forall is_label labels -> split_dots (dotted labels) [] = labels.
Proof.
  induction 1 as [|l labels (_ & Hdot & _) _ IH]; [done|].
  rewrite dotted_cons. cbn [app]. by rewrite split_dots_label, IH.
Qed.

(** A host name, with or without its final dot, is stored as its labels. *)
Lemma rdata_labels_host r labels :
  labels <> [] -> Forall is_label labels ->
  rec_rdata r = join_dots labels \/ rec_rdata r = join_dots labels ++ [46] ->
  rdata_labels r = labels.
Proof.
  intros Hne Hl Hr. unfold rdata_labels. destruct labels as [|l labels]; [done|].
  assert (Forall (fun l => l <> []) (l :: labels)) as Hn
    by (eapply Forall_impl; [exact Hl|]; by intros ? (? & _)).
  assert (forall rest, until_empty ((l :: labels) ++ [] :: rest) = l :: labels) as Hu.
  { intros rest. revert Hn. clear. generalize (l :: labels) as ls. induction ls as [|x ls IH]; [done|].
    intros H. apply Forall_cons in H as [Hx H]. simpl. destruct x; [done|]. by rewrite IH. }
  destruct Hr as [-> | ->]; rewrite <- dotted_join.
  - rewrite split_dotted by done. by apply until_empty_all.
  - assert (split_dots (dotted (l :: labels) ++ [46]) [] = (l :: labels) ++ [[]]) as ->; [|apply Hu].
    clear Hne Hn Hu. revert Hl. generalize (l :: labels) as ls. induction ls as [|x ls IH]; [done|].
    intros H. apply Forall_cons in H as [(_ & Hdot & _) H]. rewrite dotted_cons, <- app_assoc.
    cbn [app]. rewrite split_dots_label by done. by rewrite IH.
Qed.

(** ** The specification of answers

    Independent of the code's tests, flags and encodings. *)

(** The record is one the query asks for: it has the name of the query, or this name and a
    final dot, and the type, unless any type (255) is asked for. *)
Definition asks_for (qname : cstr) (qtype : Z) (r : zone_record) : Prop :=
  (rec_name r = qname \/ last qname <> Some 46 /\ rec_name r = qname ++ [46])
  /\ (rec_type r = qtype \/ qtype = 255).

#[global] Instance asks_for_dec qname qtype r : Decision (asks_for qname qtype r).
Proof. unfold asks_for. solve_decision. Defined.

(** The first such record; the newest zone and the newest record of a zone come first. *)
Definition spec_record (qname : cstr) (qtype : Z) (zones : list zone_node) : option zone_record :=
  head (filter (asks_for qname qtype) (concat (records <$> zones))).

(** Its data: an address of four or sixteen bytes (none when the text is no address), or a
    name in the format of the wire; records of other types have none. *)
Definition spec_data (pton4 pton6 : cstr -> option (list Z)) (r : zone_record) : list Z :=
  match rec_type r with
  | 1 => default [] (pton4 (rec_rdata r))
  | 28 => default [] (pton6 (rec_rdata r))
  | 2 | 5 | 12 => wire_labels (rdata_labels r) ++ [0]
  | _ => []
  end.

(** Big-endian numbers. *)
Definition be2 (x : Z) : list Z := [x / 256 mod 256; x mod 256].

Definition be4 (x : Z) : list Z :=
  [x / 16777216 mod 256; x / 65536 mod 256; x / 256 mod 256; x mod 256].

(** The answer: the query with bits 0 and 5 of its third byte set and bit 6 cleared, the
    upper half of the fourth cleared and one answer announced, then the record: a pointer
    to the name of the question, type, class 1, time to live, length and data. *)
Definition spec_answer (q : list Z) (r : zone_record) (data : list Z) : list Z :=
  match q with
  | b0 :: b1 :: b2 :: b3 :: b4 :: b5 :: _ :: _ :: rest =>
      [b0; b1; Z.lor (Z.land b2 0xBF) 0x21; b3 mod 16; b4; b5; 0; 1] ++ rest
      ++ [0xC0; 0x0C] ++ be2 (rec_type r) ++ [0; 1] ++ be4 (rec_TTL r)
      ++ be2 (Z.of_nat (length data)) ++ data
  | _ => []
  end.

(** The documented behaviour of [inet_pton]. *)
Definition pton_sizes (pton4 pton6 : cstr -> option (list Z)) : Prop :=
  (forall s a, pton4 s = Some a -> length a = 4%nat)
  /\ (forall s a, pton6 s = Some a -> length a = 16%nat).

Lemma last_dot (q : cstr) : q <> [] -> (byte_at q (length q - 1) =? 46) = bool_decide (last q = Some 46).
Proof.
  intros Hq. destruct (exists_last Hq) as (p & c & ->). rewrite last_snoc, length_app.
  unfold byte_at. cbn [length]. rewrite Nat.add_sub, nth_middle.
  destruct (Z.eqb_spec c 46) as [->|]; symmetry; [by apply bool_decide_eq_true_2|].
  apply bool_decide_eq_false_2. congruence.
Qed.

Lemma asks_for_matches qname qtype r :
  qname <> [] -> (length qname <= 255)%nat ->
  record_matches qname (with_dot qname) qtype r = bool_decide (asks_for qname qtype r).
Proof.
  intros Hq Hl. unfold record_matches, with_dot, asks_for. rewrite last_dot by done.
  rewrite take_ge by (rewrite length_app; simpl; lia). apply eq_true_iff_eq.
  rewrite bool_decide_eq_true, andb_true_iff, !orb_true_iff, !Z.eqb_eq, !bool_decide_eq_true.
  destruct (bool_decide (last qname = Some 46)) eqn:E;
    [apply bool_decide_eq_true in E|apply bool_decide_eq_false in E]; naive_solver.
Qed.

Lemma find_head {A} (P : A -> Prop) `{forall x, Decision (P x)} (p : A -> bool) (l : list A) :
  (forall x, p x = bool_decide (P x)) -> List.find p l = head (filter P l).
Proof.
  intros Hp. induction l as [|x l IH]; [done|]. cbn [List.find]. rewrite Hp, filter_cons.
  destruct (decide (P x)); [by rewrite bool_decide_eq_true_2|by rewrite bool_decide_eq_false_2].
Qed.

Lemma spec_record_eq qname qtype zones :
  qname <> [] -> (length qname <= 255)%nat ->
  find_record qname (with_dot qname) qtype zones = spec_record qname qtype zones.
Proof. intros Hq Hl. apply find_head. intros r. by apply asks_for_matches. Qed.

Lemma spec_data_eq pton4 pton6 r :
  pton_sizes pton4 pton6 -> record_ok r ->
  rdata_bytes pton4 pton6 r = Ret (Z.of_nat (length (spec_data pton4 pton6 r)), spec_data pton4 pton6 r).
Proof.
  intros [H4 H6] Hok. destruct (holds_name r) eqn:Hn.
  - rewrite rdata_name by done. unfold holds_name in Hn.
    assert (spec_data pton4 pton6 r = wire_labels (rdata_labels r) ++ [0]) as ->; [|done].
    apply orb_true_iff in Hn as [[E|E]%orb_true_iff|E]; apply Z.eqb_eq in E; unfold spec_data; by rewrite E.
  - unfold rdata_bytes, spec_data. unfold holds_name in Hn. rewrite Hn.
    apply orb_false_iff in Hn as [[E5 E2]%orb_false_iff E12]. apply Z.eqb_neq in E5, E2, E12.
    destruct (Z.eqb_spec (rec_type r) 1) as [->|E1].
    { destruct (pton4 (rec_rdata r)) eqn:E; [|done]. cbn [default]. unfold id. by rewrite (H4 _ _ E). }
    destruct (Z.eqb_spec (rec_type r) 28) as [->|E28].
    { destruct (pton6 (rec_rdata r)) eqn:E; [|done]. cbn [default]. unfold id. by rewrite (H6 _ _ E). }
    repeat case_match; try done; congruence.
Qed.

Lemma htonl_bytes x : le32 (bswap32 x) = be4 x.
Proof. unfold le32, bswap32, be4. f_equal; [|f_equal; [|f_equal; [|f_equal]]]; divmod. Qed.

Lemma set_flags_bits b : set_flags b = Z.lor (Z.land b 0xBF) 0x21.
Proof. unfold set_flags. rewrite !Z.land_lor_distr_l, <- Z.lor_assoc. done. Qed.

Lemma spec_answer_eq q r data :
  (12 <= length q)%nat ->
  answer_bytes q r (Z.of_nat (length data)) data = spec_answer q r data.
Proof.
  intros H. destruct q as [|b0 [|b1 [|b2 [|b3 [|b4 [|b5 [|b6 [|b7 q]]]]]]]]; simpl in H; try lia.
  unfold answer_bytes, patch, resource_record, spec_answer.
  rewrite !htons_bytes, htonl_bytes, set_flags_bits. change 15 with (Z.ones 4). rewrite Z.land_ones by lia.
  change (2 ^ 4) with 16. cbn [take drop app byte_at lookup list_lookup default]. unfold id.
  rewrite <- !app_assoc. done.
Qed.

(** ** Properties of answers *)

(** C30: what a query is answered from the zones, against a specification of its own.  For
    zones whose records have data of less than 255 characters, [inet_pton] giving four and
    sixteen bytes, a name of 1 to 255 characters and a query of at least a header that fits
    the response buffer: when no record has the name (or the name and a final dot) and the
    type (or any type, 255, is asked for), nothing is written; otherwise the response is
    [spec_answer] of the first such record and its data when this fits the buffer, and a
    write past the buffer when it does not.  With the empty name (a datagram without a
    question) the code reads the byte before it. *)
Theorem local_query_spec (pton4 pton6 : cstr -> option (list Z)) (zones : list zone_node)
    (qname : cstr) (qtype : Z) (buf : list Z) (len : nat) (resp0 : list Z) (rlen : nat) :
  pton_sizes pton4 pton6 -> Forall (fun z => Forall record_ok (records z)) zones ->
  (length qname <= 255)%nat -> (12 <= len <= length buf)%nat -> (len <= length resp0)%nat ->
  handle_local_zone_query pton4 pton6 zones qname qtype buf len resp0 rlen
  = if bool_decide (qname = []) then Fault OutOfBounds
    else match spec_record qname qtype zones with
         | None => Ret (false, resp0, rlen)
         | Some r =>
             let ans := spec_answer (take len buf) r (spec_data pton4 pton6 r) in
             if bool_decide (length ans <= length resp0)%nat
             then Ret (true, ans ++ drop (length ans) resp0, length ans) else Fault OutOfBounds
         end.
Proof.
  intros Hp Hz Hl Hlen Hresp. case_bool_decide as Hq; [by rewrite Hq|].
  rewrite <- spec_record_eq by done. destruct (find_record _ _ _ _) as [r|] eqn:Ef.
  - pose proof (record_ok_found _ _ _ _ _ Hz Ef) as Hok.
    rewrite (local_answer _ _ _ _ _ _ _ _ _ r _ _ Hq Ef Hlen Hresp (spec_data_eq pton4 pton6 r Hp Hok)).
    by rewrite spec_answer_eq by (rewrite length_take; lia).
  - unfold handle_local_zone_query. destruct qname; [done|]. fold (with_dot (z :: qname)).
    by rewrite zone_loop_find, Ef.
Qed.

(** A record with 255 characters of CNAME, NS or PTR data: [strncpy] leaves [temp_host]
    without a terminator and [strcat] leaves the array. *)
Lemma long_name_overflows pton4 pton6 zones qname qtype buf len resp0 rlen r :
  qname <> [] -> (length qname <= 255)%nat -> spec_record qname qtype zones = Some r ->
  holds_name r = true -> length (rec_rdata r) = 255%nat ->
  (12 <= len <= length buf)%nat -> (len + 2 <= length resp0)%nat ->
  handle_local_zone_query pton4 pton6 zones qname qtype buf len resp0 rlen = Fault OutOfBounds.
Proof.
  intros Hq Hl Hf Hn H255 Hlen Hresp. rewrite <- spec_record_eq in Hf by done.
  assert (rdata_bytes pton4 pton6 r = Fault OutOfBounds) as Hd.
  { unfold rdata_bytes. unfold holds_name in Hn. rewrite Hn.
    destruct (Z.eqb_spec (rec_type r) 1) as [E|_]; [rewrite E in Hn; done|].
    destruct (Z.eqb_spec (rec_type r) 28) as [E|_]; [rewrite E in Hn; done|].
    unfold text_to_dns_binary. by rewrite bool_decide_eq_true_2 by lia. }
  unfold handle_local_zone_query. destruct qname as [|c q]; [done|]. fold (with_dot (c :: q)).
  rewrite zone_loop_find, Hf. unfold read_bytes at 1. rewrite bool_decide_eq_true_2 by lia.
  rewrite bind_Ret, drop_0. set (qs := take len buf).
  assert (length qs = len) as Hqs by (unfold qs; rewrite length_take; lia).
  rewrite write_at_start by lia. rewrite bind_Ret.
  rewrite set_header_patch by lia. rewrite bind_Ret.
  pose proof (length_patch qs ltac:(lia)) as Hpl. replace len with (length (patch qs)) at 1 by lia.
  rewrite write_at_end by (rewrite length_drop; simpl; lia). rewrite bind_Ret. by rewrite Hd.
Qed.

Lemma answer_layout hdr labels qtype qclass r dl data rest :
  length hdr = 12%nat ->
  answer_bytes (query_bytes hdr labels qtype qclass) r dl data ++ rest
  = patch hdr ++ wire_labels labels ++ 0 :: (le16 (bswap16 qtype) ++ le16 (bswap16 qclass))
    ++ [192; 12] ++ resource_record r dl ++ data ++ rest.
Proof.
  intros H. unfold answer_bytes, query_bytes. rewrite patch_app by done.
  rewrite <- !app_assoc. cbn [app]. by rewrite <- ?app_assoc.
Qed.

Lemma length_query hdr labels qtype qclass :
  length (query_bytes hdr labels qtype qclass) = (length hdr + length (wire_labels labels) + 5)%nat.
Proof. unfold query_bytes. rewrite !length_app. simpl. lia. Qed.

(** The two names and the question of an answer, wherever it is followed by other
    bytes. *)
Lemma answer_names hdr labels qtype qclass r dl data rest resp :
  length hdr = 12%nat -> Forall is_label labels -> is_u16 qtype ->
  resp = answer_bytes (query_bytes hdr labels qtype qclass) r dl data ++ rest ->
  let len := length (query_bytes hdr labels qtype qclass) in
  let span := Z.of_nat (length (wire_labels labels)) + 1 in
  name_at resp 12 labels span /\ name_at resp len labels 2
  /\ be_val (take 2 (drop (Z.to_nat (12 + span)) resp)) = qtype
  /\ read_bytes (len + 2) 10 resp = Ret (resource_record r dl)
  /\ read_bytes (len + 12) (length data) resp = Ret data
  /\ forall host, Forall is_label host -> data = wire_labels host ++ [0] ->
     name_at resp (len + 12) host (Z.of_nat (length data)).
Proof.
  intros Hh Hl Hu Hresp len span. rewrite answer_layout in Hresp by done.
  assert (length (patch hdr) = 12%nat) as Hp by (rewrite length_patch; lia).
  pose proof (length_query hdr labels qtype qclass) as Hlen. fold len in Hlen.
  set (pre := patch hdr ++ wire_labels labels ++ 0 :: le16 (bswap16 qtype) ++ le16 (bswap16 qclass)).
  assert (length pre = len) as Hpre by (unfold pre; rewrite !length_app; simpl; lia).
  assert (resp = pre ++ 192 :: 12 :: resource_record r dl ++ data ++ rest) as Hresp2.
  { rewrite Hresp. unfold pre. rewrite <- !app_assoc. cbn [app]. by rewrite <- ?app_assoc. }
  assert (name_at resp 12 labels span) as H12 by (rewrite Hresp, <- Hp; by apply name_at_wire).
  split; [done|]. split.
  { apply (name_pointer _ len 192 12 labels span); [|lia| |done].
    - by rewrite Hresp2, list_lookup_middle.
    - rewrite Hresp2, <- Hpre, lookup_app_r by lia.
      by replace (S (length pre) - length pre)%nat with 1%nat by lia. }
  split.
  { rewrite Hresp. replace (Z.to_nat (12 + span)) with (length (patch hdr ++ wire_labels labels ++ [0]))
      by (rewrite !length_app; simpl; unfold span; lia).
    replace (patch hdr ++ wire_labels labels ++ 0 :: (le16 (bswap16 qtype) ++ le16 (bswap16 qclass))
               ++ [192; 12] ++ resource_record r dl ++ data ++ rest)
      with ((patch hdr ++ wire_labels labels ++ [0]) ++ le16 (bswap16 qtype) ++ le16 (bswap16 qclass)
               ++ [192; 12] ++ resource_record r dl ++ data ++ rest)
      by (rewrite <- !app_assoc; cbn [app]; by rewrite <- ?app_assoc).
    rewrite drop_app_length. rewrite (take_app_length' _ _ 2) by done. by apply be_val_htons. }
  assert (resp = (pre ++ [192; 12]) ++ resource_record r dl ++ data ++ rest) as H2
    by (rewrite Hresp2, <- app_assoc; done).
  assert (resp = (pre ++ [192; 12] ++ resource_record r dl) ++ data ++ rest) as H3
    by (rewrite Hresp2, <- !app_assoc; done).
  assert (length (pre ++ [192; 12]) = (len + 2)%nat) as L2 by (rewrite length_app; simpl; lia).
  assert (length (pre ++ [192; 12] ++ resource_record r dl) = (len + 12)%nat) as L3
    by (rewrite !length_app, length_resource_record; simpl; lia).
  split_and!.
  - rewrite H2. unfold read_bytes.
    rewrite bool_decide_eq_true_2 by (rewrite !length_app, length_resource_record; simpl; lia).
    by rewrite drop_app_length', take_app_length' by done.
  - rewrite H3. unfold read_bytes.
    rewrite bool_decide_eq_true_2 by (rewrite length_app, L3, length_app; lia).
    by rewrite drop_app_length', take_app_length by done.
  - intros host Hhost ->. rewrite <- L3, H3, <- (app_assoc (wire_labels host)).
    replace (Z.of_nat (length (wire_labels host ++ [0]))) with (Z.of_nat (length (wire_labels host)) + 1)
      by (rewrite length_app; simpl; lia).
    by apply (name_at_wire host (pre ++ [192; 12] ++ resource_record r dl) rest).
Qed.

Lemma set_flags_u8 b : is_u8 b -> is_u8 (set_flags b).
Proof.
  intros H. pose proof (u8_enum (fun b => (0 <=? set_flags b) && (set_flags b <? 256)) eq_refl b H) as E.
  cbv beta in E. unfold is_u8. lia.
Qed.

Lemma rcode_u8 b : is_u8 b -> is_u8 (Z.land b 15).
Proof.
  intros H. pose proof (u8_enum (fun b => (0 <=? Z.land b 15) && (Z.land b 15 <? 256)) eq_refl b H) as E.
  cbv beta in E. unfold is_u8. lia.
Qed.

Lemma Forall_mod l : Forall is_u8 ((fun x => x mod 256) <$> l).
Proof. apply Forall_fmap, Forall_true. intros x. unfold is_u8. simpl. pose proof (Z.mod_pos_bound x 256). lia. Qed.

Lemma le16_u8 x : Forall is_u8 (le16 x).
Proof. apply (Forall_mod [x; x / 256]). Qed.

Lemma le32_u8 x : Forall is_u8 (le32 x).
Proof. apply (Forall_mod [x; x / 256; x / 65536; x / 16777216]). Qed.

Lemma patch_u8 q : Forall is_u8 q -> (12 <= length q)%nat -> Forall is_u8 (patch q).
Proof.
  intros H Hl. do 8 (destruct q as [|? q]; [simpl in Hl; lia|]).
  repeat (apply Forall_cons in H as [? H]). unfold patch. cbn.
  repeat (apply Forall_cons_2;
    [done || (by apply set_flags_u8) || (by apply rcode_u8) || (unfold is_u8; lia)|]). done.
Qed.

Lemma resource_record_u8 r dl : Forall is_u8 (resource_record r dl).
Proof. unfold resource_record. repeat apply Forall_app_2; apply le16_u8 || apply le32_u8. Qed.

Lemma query_u8 hdr labels qtype qclass :
  Forall is_u8 hdr -> Forall is_label labels -> Forall is_u8 (join_dots labels) ->
  Forall is_u8 (query_bytes hdr labels qtype qclass).
Proof.
  intros. unfold query_bytes. apply Forall_app_2; [done|]. apply Forall_app_2; [by apply wire_labels_u8|].
  apply Forall_cons_2; [unfold is_u8; lia|]. apply Forall_app_2; apply le16_u8.
Qed.

Lemma answer_u8 q r dl data :
  Forall is_u8 q -> (12 <= length q)%nat -> Forall is_u8 data -> Forall is_u8 (answer_bytes q r dl data).
Proof.
  intros Hq Hl Hd. unfold answer_bytes. apply Forall_app_2; [by apply patch_u8|].
  apply Forall_app_2; [repeat (apply Forall_cons_2; [unfold is_u8; lia|]); done|].
  apply Forall_app_2; [apply resource_record_u8|done].
Qed.

Lemma length_answer q r dl data :
  (12 <= length q)%nat -> length (answer_bytes q r dl data) = (length q + 12 + length data)%nat.
Proof.
  intros H. unfold answer_bytes. rewrite !length_app, length_patch, length_resource_record by done.
  cbn [length]. lia.
Qed.

(** What the parser reads in an answer. *)
Lemma answer_parses hdr labels qtype qclass r host rest :
  let q := query_bytes hdr labels qtype qclass in
  let data := wire_labels host ++ [0] in
  let ans := answer_bytes q r (Z.of_nat (length data)) data in
  length hdr = 12%nat -> Forall is_label labels -> is_u16 qtype -> Forall is_label host ->
  0 ∉ name_text labels -> (length (dotted labels) <= 256)%nat -> (length (dotted host) <= 256)%nat ->
  Forall is_u8 (ans ++ rest) ->
  parse_dns_request (ans ++ rest) (Z.of_nat (length ans)) [] (Some 0) = Ret (0, name_text labels, Some qtype)
  /\ dns_binary_to_text (ans ++ rest) 256 (length q) = Ret (2, name_text labels)
  /\ dns_binary_to_text (ans ++ rest) 256 (length q + 12) = Ret (Z.of_nat (length data), name_text host).
Proof.
  intros q data ans Hh Hl Hqt Hhost H0 Hc Hch Hu.
  destruct (answer_names hdr labels qtype qclass r (Z.of_nat (length data)) data rest _ Hh Hl Hqt eq_refl)
    as (N1 & N2 & Hty & _ & _ & N3).
  fold q in N1, N2, N3, Hty. fold ans in N1, N2, N3, Hty. specialize (N3 host Hhost eq_refl).
  assert (length q = 17 + length (wire_labels labels))%nat as Hql
    by (unfold q; rewrite length_query; lia).
  assert (length ans = length q + 12 + length data)%nat as Hal by (apply length_answer; lia).
  split_and!.
  - rewrite (parse_request _ _ _ _ labels (Z.of_nat (length (wire_labels labels)) + 1));
      [|done|rewrite length_app; lia|by intros _]. rewrite Hty, c_string_id by done.
    repeat (case_match; [lia|]). done.
  - by rewrite (decode_name _ _ _ labels 2) by (done || by apply text_room; [|lia]).
  - by rewrite (decode_name _ _ _ host (Z.of_nat (length data))) by (done || by apply text_room; [|lia]).
Qed.

(** An answer is understood.  For a query built of a header, the wire form of a host
    name, a type and a class, and a zone record of that name that holds a name (CNAME,
    NS or PTR) given as a host name with or without its final dot, the response
    parses as a message: [parse_dns_request] reads the same question, the answer's
    owner, a compression pointer, decodes to the queried name, and the answer's data
    decode to the record's host name. *)
Lemma local_answer_reads_back (pton4 pton6 : cstr -> option (list Z)) (zones : list zone_node)
    (hdr : list Z) (labels host : list (list Z)) (qtype qclass : Z) (pad resp0 : list Z)
    (r : zone_record) (rlen : nat) :
  let q := query_bytes hdr labels qtype qclass in
  let qname := join_dots labels in
  length hdr = 12%nat -> labels <> [] -> Forall is_label labels -> Forall is_label host -> host <> [] ->
  0 ∉ qname -> (length qname < 255)%nat -> is_u16 qtype ->
  Forall is_u8 (hdr ++ qname ++ join_dots host ++ resp0) ->
  find_record qname (with_dot qname) qtype zones = Some r -> holds_name r = true -> record_ok r ->
  rec_rdata r = join_dots host \/ rec_rdata r = join_dots host ++ [46] ->
  (length q + 13 + length (wire_labels host) <= length resp0)%nat ->
  exists resp n,
    handle_local_zone_query pton4 pton6 zones qname qtype (q ++ pad) (length q) resp0 rlen
    = Ret (true, resp, n)
    /\ parse_dns_request resp (Z.of_nat n) [] (Some 0) = Ret (0, qname, Some qtype)
    /\ dns_binary_to_text resp 256 (length q) = Ret (2, qname)
    /\ dns_binary_to_text resp 256 (length q + 12)
       = Ret (Z.of_nat (n - (length q + 12)), join_dots host).
Proof.
  intros q qname Hh Hne Hl Hhost Hhne H0 Hlen Hqt Hu Hf Hn Hok Hr Hfit.
  pose proof (rdata_name pton4 pton6 r Hok Hn) as Hd.
  rewrite (rdata_labels_host r host Hhne Hhost Hr) in Hd. set (data := wire_labels host ++ [0]) in *.
  assert (take (length q) (q ++ pad) = q) as Hq by apply take_app_length.
  assert (12 <= length q)%nat as Hql by (unfold q; rewrite length_query; lia).
  pose proof (local_answer pton4 pton6 zones qname qtype (q ++ pad) (length q) resp0 rlen r _ _
    ltac:(by apply join_dots_nonempty) Hf ltac:(rewrite length_app; lia) ltac:(lia) Hd) as Ha.
  cbv zeta in Ha. rewrite Hq, length_answer in Ha by done.
  assert (length data = length (wire_labels host) + 1)%nat as Hdl
    by (unfold data; rewrite length_app; done).
  rewrite bool_decide_eq_true_2 in Ha by lia.
  destruct (answer_parses hdr labels qtype qclass r host (drop (length q + 12 + length data) resp0))
    as (P1 & P2 & P3); [done..|by destruct labels| | | |].
  - destruct labels as [|l ls]; [done|]. rewrite dotted_join, length_app. unfold qname in Hlen. cbn [length]. lia.
  - destruct host as [|l ls]; [done|]. rewrite dotted_join, length_app. unfold record_ok in Hok.
    cbn [length]. destruct Hr as [E|E]; rewrite E in Hok; rewrite ?length_app in Hok; lia.
  - apply Forall_app in Hu as [U1 Hu]. apply Forall_app in Hu as [U2 Hu]. apply Forall_app in Hu as [U3 U4].
    apply Forall_app_2; [|by apply Forall_drop]. apply answer_u8; [by apply query_u8|done|].
    apply Forall_app_2; [by apply wire_labels_u8|]. by apply Forall_cons_2; [unfold is_u8; lia|].
  - rewrite length_answer in P1 by done. fold data q in P1, P2, P3.
    eexists _, _. split; [exact Ha|]. rewrite P1, P2, P3. split_and!; [by destruct labels..|].
    replace (length q + 12 + length data - (length q + 12))%nat with (length data) by lia. by destruct host.
Qed.

(** A zone with one alias, and a query for it. *)
Definition alias_zone : zone_node :=
  ZoneNode (lit "a") [ZoneRecord (lit "w.a") 5 3600 (lit "x.yz.")].

Definition alias_query : list Z := query_bytes [18;52;1;0;0;1;0;0;0;0;0;0] [lit "w"; lit "a"] 5 1.

Lemma is_label_dec_ok l :
  bool_decide (l <> []) && bool_decide (46 ∉ l) && bool_decide (length l < 64)%nat = true -> is_label l.
Proof. intros H. to_prop. done. Qed.

(** The answer to the query for [w.a], byte by byte. *)
Lemma local_query_spec_witness :
  handle_local_zone_query (fun _ => None) (fun _ => None) [alias_zone] (lit "w.a") 5
    alias_query 21 (replicate 512 0) 0
  = (let ans := [18; 52; 33; 0; 0; 1; 0; 1; 0; 0; 0; 0] ++ drop 12 alias_query
                ++ [192; 12; 0; 5; 0; 1; 0; 0; 14; 16; 0; 6] ++ [1] ++ lit "x" ++ [2] ++ lit "yz" ++ [0] in
     Ret (true, ans ++ replicate 473 0, 39%nat)).
Proof.
  rewrite (local_query_spec (fun _ => None) (fun _ => None) [alias_zone] (lit "w.a") 5
    alias_query 21 (replicate 512 0) 0).
  - vm_compute. reflexivity.
  - split; discriminate.
  - repeat constructor; unfold record_ok; vm_compute; lia.
  - vm_compute. lia.
  - vm_compute. lia.
  - rewrite length_replicate. lia.
Defined.

Lemma local_answer_reads_back_witness :
  exists resp n,
    handle_local_zone_query (fun _ => None) (fun _ => None) [alias_zone] (lit "w.a") 5
      (alias_query ++ []) 21 (replicate 512 0) 0 = Ret (true, resp, n)
    /\ dns_binary_to_text resp 256 33 = Ret (Z.of_nat (n - 33), lit "x.yz").
Proof.
  destruct (local_answer_reads_back (fun _ => None) (fun _ => None) [alias_zone]
    [18;52;1;0;0;1;0;0;0;0;0;0] [lit "w"; lit "a"] [lit "x"; lit "yz"] 5 1 [] (replicate 512 0)
    (ZoneRecord (lit "w.a") 5 3600 (lit "x.yz.")) 0) as (resp & n & H1 & _ & _ & H2);
    try done; try (repeat constructor; apply is_label_dec_ok; reflexivity).
  - refine (bool_decide_eq_true_1 _ _). reflexivity.
  - apply Forall_app_2; [apply u8_list; reflexivity|]. apply Forall_app_2; [apply u8_list; reflexivity|].
    apply Forall_app_2; [apply u8_list; reflexivity|]. apply Forall_replicate. unfold is_u8. lia.
  - exists resp, n. split; [exact H1|exact H2].
Defined.

(** ** Zone files

    A line with a record: the owner, an optional TTL, the class, the type and the
    data. *)

Record zline := ZLine {
  zl_name : cstr;
  zl_ttl : option cstr;
  zl_type : cstr;
  zl_rdata : cstr
}.

Definition after_name (l : zline) : cstr :=
  match zl_ttl l with Some d => 32 :: d | None => [] end
  ++ 32 :: lit "IN" ++ 32 :: zl_type l ++ 32 :: zl_rdata l.

Definition zline_text (l : zline) : cstr := zl_name l ++ after_name l.

Definition zline_record (ttl : Z) (l : zline) : zone_record :=
  ZoneRecord (zl_name l) (record_type (zl_type l))
    (match zl_ttl l with Some d => u32 (atoi d) | None => ttl end) (zl_rdata l).

Definition word_ok (w : cstr) : Prop :=
  w <> [] /\ Forall (fun c => isspace c = false) w /\ (length w <= 255)%nat.

Record zline_ok (l : zline) : Prop := {
  zok_name : word_ok (zl_name l);
  zok_first : (byte_at (zl_name l) 0 =? 59) = false /\ (byte_at (zl_name l) 0 =? 35) = false;
  zok_directive : take 4 (zl_name l) <> lit "$TTL" /\ zl_name l <> lit "@";
  zok_ttl : match zl_ttl l with
            | Some d => word_ok d /\ isdigit (byte_at d 0) = true
            | None => True
            end;
  zok_type : record_type (zl_type l) <> 0;
  zok_rdata : Forall (fun c => c <> 59 /\ c <> 10 /\ c <> 13) (zl_rdata l)
              /\ drop_while isspace (zl_rdata l) = zl_rdata l
              /\ drop_while_end isspace (zl_rdata l) = zl_rdata l /\ (length (zl_rdata l) <= 255)%nat;
  zok_length : (length (zline_text l) < 1023)%nat
}.

Lemma scan_word_space w c r :
  word_ok w -> isspace c = true -> scan_word (w ++ c :: r) = Some (w, c :: r).
Proof.
  intros (Hne & Hs & _) Hc. destruct w as [|x w]; [done|]. unfold scan_word. cbv zeta.
  cbn [app]. rewrite drop_while_head by (by apply Forall_inv in Hs). rewrite (app_comm_cons w).
  assert (Forall (fun c => negb (isspace c) = true) (x :: w)) as Hn
    by (eapply Forall_impl; [exact Hs|]; by intros y ->).
  rewrite take_while_app, drop_while_app by (done || by rewrite Hc). done.
Qed.

(** A line's next word in the token loop. *)
Lemma token_loop_word fuel zone name ttl tok w r :
  word_ok w ->
  token_loop (S fuel) zone name ttl tok (32 :: w ++ 32 :: r)
  = if isdigit (byte_at w 0) then token_loop fuel zone name (u32 (atoi w)) (Some w) (32 :: r)
    else if bool_decide (w = lit "IN") then token_loop fuel zone name ttl (Some w) (32 :: r)
    else if bool_decide (w = lit "SOA") then Ret zone
    else if negb (record_type w =? 0) then
      rdata ← scan_rdata (32 :: r); Ret (add_record_to_zone zone name (record_type w) ttl rdata)
    else token_loop fuel zone name ttl (Some w) (32 :: r).
Proof.
  intros Hw. cbn [token_loop]. change (drop_while isspace (32 :: w ++ 32 :: r))
    with (drop_while isspace (w ++ 32 :: r)).
  assert (drop_while isspace (w ++ 32 :: r) = w ++ 32 :: r) as ->.
  { destruct Hw as (Hne & Hs & _). destruct w as [|x w]; [done|]. cbn [app].
    apply drop_while_head. by apply Forall_inv in Hs. }
  cbv zeta. rewrite scan_word_space by done. rewrite bool_decide_eq_false_2 by (destruct Hw as (_ & _ & ?); lia).
  rewrite bind_Ret. cbv beta iota. cbn [in_bounds]. by rewrite bind_Ret.
Qed.

Lemma record_type_word w :
  record_type w <> 0 ->
  word_ok w /\ isdigit (byte_at w 0) = false /\ w <> lit "IN" /\ w <> lit "SOA".
Proof.
  unfold record_type. intros H.
  repeat (case_bool_decide; [subst; split_and!; [|done..];
    split_and!; [done|repeat constructor|vm_compute; lia]|]). done.
Qed.

Lemma scan_rdata_text rdata :
  Forall (fun c => c <> 59 /\ c <> 10 /\ c <> 13) rdata ->
  drop_while isspace rdata = rdata -> drop_while_end isspace rdata = rdata -> (length rdata <= 255)%nat ->
  scan_rdata (32 :: rdata) = Ret rdata.
Proof.
  intros Hc H1 H2 Hl. unfold scan_rdata.
  change (drop_while isspace (32 :: rdata)) with (drop_while isspace rdata). rewrite H1.
  assert (take_while (fun c => negb (c =? 59) && negb (c =? 10)) rdata = rdata) as ->.
  { clear -Hc. induction Hc as [|c s (H59 & H10 & _) _ IH]; [done|]. simpl.
    destruct (Z.eqb_spec c 59), (Z.eqb_spec c 10); try done. simpl. by rewrite IH. }
  cbv zeta. rewrite H2. by rewrite !bool_decide_eq_false_2 by lia.
Qed.

Lemma token_loop_type fuel zone name ttl tok l :
  zline_ok l ->
  token_loop (S (S fuel)) zone name ttl tok (32 :: lit "IN" ++ 32 :: zl_type l ++ 32 :: zl_rdata l)
  = Ret (add_record_to_zone zone name (record_type (zl_type l)) ttl (zl_rdata l)).
Proof.
  intros [_ _ _ _ Ht (Hr1 & Hr2 & Hr3 & Hr4) _].
  destruct (record_type_word _ Ht) as (Hw & Hd & Hin & Hsoa).
  rewrite token_loop_word by (split_and!; [done|repeat constructor|vm_compute; lia]).
  change (isdigit (byte_at (lit "IN") 0)) with false. cbv iota. rewrite bool_decide_eq_true_2 by done.
  rewrite token_loop_word, Hd, !bool_decide_eq_false_2 by done.
  destruct (Z.eqb_spec (record_type (zl_type l)) 0); [done|]. cbn [negb].
  by rewrite scan_rdata_text by done.
Qed.

(** A line adds its record in front. *)
Lemma zline_parsed zone l last ttl :
  zline_ok l ->
  parse_zone_line zone (zline_text l) last ttl
  = Ret (ZoneNode (origin zone) (zline_record ttl l :: records zone), take 7 (zl_name l), ttl).
Proof.
  intros Hok. pose proof Hok as [Hw [Hf1 Hf2] [Hd1 Hd2] Httl Ht (_ & _ & _ & Hr) _].
  pose proof Hw as (Hne & Hs & Hlen). unfold parse_zone_line, zline_text.
  destruct (zl_name l) as [|x name] eqn:En; [done|]. rewrite <- En in *.
  assert (isspace x = false) as Hx by (rewrite En in Hs; by apply Forall_inv in Hs).
  assert (drop_while isspace (zl_name l ++ after_name l) = zl_name l ++ after_name l) as ->
    by (rewrite En; by apply drop_while_head).
  cbv zeta. assert (forall i, byte_at (zl_name l ++ i) 0 = x) as Hb by (intros; by rewrite En).
  assert (byte_at (zl_name l) 0 = x) as Hb0 by (by rewrite En).
  rewrite Hb0 in Hf1, Hf2. rewrite !Hb, Hf1, Hf2, Hx.
  rewrite (bool_decide_eq_false_2 (zl_name l ++ after_name l = [])) by (rewrite En; done). cbn [orb].
  assert (exists r, after_name l = 32 :: r) as [r Hafter]
    by (unfold after_name; destruct (zl_ttl l); eexists; reflexivity).
  rewrite (bool_decide_eq_false_2 (take 4 (zl_name l ++ after_name l) = lit "$TTL")).
  2: { rewrite Hafter. intros E. apply Hd1. revert E. rewrite En. clear.
       change (lit "$TTL") with [36; 84; 84; 76].
       destruct name as [|? [|? [|? ?]]]; simpl; intros E; try discriminate E. by simplify_eq. }
  rewrite Hafter, scan_word_space, <- Hafter by done.
  rewrite (bool_decide_eq_false_2 (256 <= length (zl_name l))%nat) by lia.
  rewrite (bool_decide_eq_false_2 (zl_name l = lit "@")) by done.
  rewrite bind_Ret. cbv beta iota.
  assert (token_loop (S (length (after_name l))) zone (zl_name l) ttl None (after_name l)
    = Ret (ZoneNode (origin zone) (zline_record ttl l :: records zone))) as ->; [|done].
  assert (forall t, add_record_to_zone zone (zl_name l) (record_type (zl_type l)) t (zl_rdata l)
    = ZoneNode (origin zone) (ZoneRecord (zl_name l) (record_type (zl_type l)) t (zl_rdata l) :: records zone))
    as Hadd by (intros t; unfold add_record_to_zone; by rewrite !take_ge by done).
  assert (2 <= length (after_name l))%nat as Hal
    by (unfold after_name; rewrite length_app; simpl; lia).
  destruct (length (after_name l)) as [|[|n]]; [lia..|].
  unfold zline_record, after_name. destruct (zl_ttl l) as [d|]; cbn [app].
  - destruct Httl as [Hdw Hdd]. rewrite token_loop_word, Hdd, token_loop_type by done. by rewrite Hadd.
  - rewrite token_loop_type by done. by rewrite Hadd.
Qed.

Lemma cut_newline_text s : Forall (fun c => c <> 13 /\ c <> 10) s -> cut_newline (s ++ [10]) = s.
Proof.
  intros H. unfold cut_newline. apply take_while_app; [|done].
  eapply Forall_impl; [exact H|]. intros c [H13 H10].
  by destruct (Z.eqb_spec c 13), (Z.eqb_spec c 10).
Qed.

Lemma word_no_newline w : Forall (fun c => isspace c = false) w -> Forall (fun c => c <> 13 /\ c <> 10) w.
Proof. intros H. eapply Forall_impl; [exact H|]. intros c Hc. split; intros ->; discriminate. Qed.

Lemma zline_no_newline l : zline_ok l -> Forall (fun c => c <> 13 /\ c <> 10) (zline_text l).
Proof.
  intros [(_ & Hn & _) _ _ Httl Ht (Hr & _) _]. unfold zline_text, after_name.
  destruct (record_type_word _ Ht) as ((_ & Htw & _) & _).
  apply Forall_app_2; [by apply word_no_newline|]. apply Forall_app_2.
  - destruct (zl_ttl l) as [d|]; [|done]. destruct Httl as [(_ & Hd & _) _].
    apply Forall_cons_2; [done|by apply word_no_newline].
  - apply Forall_cons_2; [done|]. apply Forall_app_2; [repeat constructor; discriminate|].
    apply Forall_cons_2; [done|]. apply Forall_app_2; [by apply word_no_newline|].
    apply Forall_cons_2; [done|]. eapply Forall_impl; [exact Hr|]. naive_solver.
Qed.

Lemma load_zlines ls : forall zone last ttl,
  Forall zline_ok ls ->
  load_lines zone last ttl ((fun l => zline_text l ++ [10]) <$> ls)
  = Ret (ZoneNode (origin zone) (reverse (zline_record ttl <$> ls) ++ records zone)).
Proof.
  induction ls as [|l ls IH]; intros zone last ttl Hok; [by destruct zone|].
  apply Forall_cons in Hok as [Hl Hok]. cbn [fmap list_fmap load_lines].
  rewrite cut_newline_text by (by apply zline_no_newline). rewrite zline_parsed by done.
  rewrite bind_Ret. cbv beta iota. rewrite IH by done. cbn [origin records].
  by rewrite reverse_cons, <- app_assoc.
Qed.

(** ** Properties of zone files *)

(** C31: a zone file survives printing and loading.  For a file of lines with an owner, an
    optional TTL, the class [IN], one of the types A, NS, CNAME, PTR, MX and AAAA and
    data (words of at most 255 characters, no [;] in the data, lines shorter than the
    buffer), loading adds exactly the records of the lines in front of the zone's, the
    last line first, each with its own TTL or 3600. *)
Theorem zone_file_roundtrip (fopen : cstr -> option cstr) (dir file : cstr)
    (zone : zone_node) (ls : list zline) :
  Forall zline_ok ls ->
  fopen (take 1023 (dir ++ [47] ++ file)) = Some (print_lines (zline_text <$> ls)) ->
  load_zone_from_file fopen dir zone file
  = Ret (ZoneNode (origin zone) (reverse (zline_record 3600 <$> ls) ++ records zone)).
Proof.
  intros Hok Hopen. unfold load_zone_from_file. rewrite Hopen.
  rewrite <- (load_zlines ls zone (take 255 (origin zone)) 3600 Hok). f_equal.
  rewrite <- (app_nil_r (print_lines _)). unfold print_lines. rewrite fgets_printed.
  - change (fgets_lines []) with (@nil cstr). by rewrite app_nil_r, <- list_fmap_compose.
  - apply Forall_fmap. eapply Forall_impl; [exact Hok|]. intros l Hl. cbn. split.
    + intros Hin. pose proof (zline_no_newline l Hl) as Hn. rewrite Forall_forall in Hn. by destruct (Hn 10 Hin).
    + destruct Hl. lia.
Qed.

Definition sample_zlines : list zline :=
  [ZLine (lit "www.a") None (lit "A") (lit "10.0.0.1");
   ZLine (lit "ftp.a") (Some (lit "60")) (lit "CNAME") (lit "www.a.")].

Lemma sample_zlines_ok : Forall zline_ok sample_zlines.
Proof.
  repeat constructor; try done; try (vm_compute; lia); try (by vm_compute).
Qed.

Lemma zone_file_roundtrip_witness :
  load_zone_from_file (fun _ => Some (print_lines (zline_text <$> sample_zlines)))
    (lit ".") (ZoneNode (lit "a") []) (lit "a.zone")
  = Ret (ZoneNode (lit "a") [ZoneRecord (lit "ftp.a") 5 60 (lit "www.a.");
                             ZoneRecord (lit "www.a") 1 3600 (lit "10.0.0.1")]).
Proof.
  rewrite (zone_file_roundtrip (fun _ => Some (print_lines (zline_text <$> sample_zlines)))
    (lit ".") (lit "a.zone") (ZoneNode (lit "a") []) sample_zlines sample_zlines_ok eq_refl).
  vm_compute. reflexivity.
Defined.

(** ** What the code does with flags and relative names *)

(** On the wire the first flag byte holds QR at bit 7, the opcode at bits 3 to 6, AA at
    bit 2, TC at bit 1 and RD at bit 0.  The bit-fields are laid out from bit 0, so the
    assignments set the wire's RD and one bit of its opcode and leave QR and AA as the
    query had them: an answer to a query is not marked as a response. *)
Lemma answer_flags_wire q r dl data b2 :
  (12 <= length q)%nat -> q !! 2%nat = Some b2 -> is_u8 b2 ->
  exists f, answer_bytes q r dl data !! 2%nat = Some f
    /\ Z.testbit f 7 = Z.testbit b2 7 /\ Z.testbit f 2 = Z.testbit b2 2
    /\ Z.testbit f 0 = true /\ Z.testbit f 5 = true.
Proof.
  intros Hl H2 Hb. exists (set_flags b2). split.
  - do 8 (destruct q as [|? q]; [simpl in Hl; lia|]). simpl in H2. injection H2 as ->. done.
  - pose proof (u8_enum (fun b => Bool.eqb (Z.testbit (set_flags b) 7) (Z.testbit b 7)
      && Bool.eqb (Z.testbit (set_flags b) 2) (Z.testbit b 2)
      && Z.testbit (set_flags b) 0 && Z.testbit (set_flags b) 5) eq_refl b2 Hb) as E.
    cbv beta in E. rewrite !andb_true_iff, !eqb_true_iff in E. naive_solver.
Qed.

(** Lines of data/dns_zones/proiect_pso.zone. *)
Definition pso_lines : list cstr :=
  [lit "$TTL 3600";
   lit "@       IN  SOA     dns.proiect_pso.ro. hostmaster.proiect_pso.ro. (";
   lit "                2025110901";
   lit "                172800 )";
   lit "        IN  NS      dns.proiect_pso.ro.";
   lit "www     IN  A       192.168.42.33"].

(** The NS record, whose line has no owner, belongs to the first seven characters of the
    zone's name; the owner [www] is not completed by the zone's name. *)
Example pso_zone_records :
  load_lines (ZoneNode (lit "proiect_pso") []) (lit "proiect_pso") 3600 pso_lines
  = Ret (ZoneNode (lit "proiect_pso")
      [ZoneRecord (lit "www") 1 3600 (lit "192.168.42.33");
       ZoneRecord (lit "proiect") 2 3600 (lit "dns.proiect_pso.ro.")]).
Proof. vm_compute. reflexivity. Qed.

Example relative_name_not_found zone :
  load_lines (ZoneNode (lit "proiect_pso") []) (lit "proiect_pso") 3600 pso_lines = Ret zone ->
  find_record (lit "www.proiect_pso") (with_dot (lit "www.proiect_pso")) 1 [zone] = None.
Proof. rewrite pso_zone_records. intros [= <-]. vm_compute. reflexivity. Qed.

(** ** Loading ends *)

Lemma token_loop_ends fuel : forall zone name ttl tok ptr,
  (length ptr < fuel)%nat -> token_loop fuel zone name ttl tok ptr <> Fault OutOfFuel.
Proof.
  induction fuel as [|fuel IH]; intros zone name ttl tok ptr Hf; [lia|].
  cbn [token_loop]. destruct ptr as [|c p] eqn:Ep; [done|]. rewrite <- Ep in *. cbv zeta.
  assert (forall z n t k r, (length r < length ptr)%nat -> token_loop fuel z n t k r <> Fault OutOfFuel)
    as Hrec by (intros; apply IH; lia).
  pose proof (length_drop_while isspace ptr) as Hd.
  assert (exists tok' ptr', (length ptr' < length ptr)%nat /\
    (match scan_word (drop_while isspace ptr) with
     | Some (w, r) => if bool_decide (256 <= length w)%nat then Fault OutOfBounds else Ret (Some w, r)
     | None => Ret (tok, drop_while isspace ptr)
     end = Ret (tok', ptr')
     \/ match scan_word (drop_while isspace ptr) with
     | Some (w, r) => if bool_decide (256 <= length w)%nat then Fault OutOfBounds else Ret (Some w, r)
     | None => Ret (tok, drop_while isspace ptr)
     end = Fault OutOfBounds)) as (tok' & ptr' & Hlt & [-> | ->]); [| |done].
  { destruct (scan_word (drop_while isspace ptr)) as [[w r]|] eqn:Es.
    - apply scan_word_shorter in Es as [Hlt _]. exists (Some w), r. split; [lia|].
      case_bool_decide; [by right|by left].
    - exists tok, (drop_while isspace ptr). split; [|by left]. unfold scan_word in Es. cbv zeta in Es.
      rewrite drop_while_idem in Es. destruct (drop_while isspace ptr); [rewrite Ep; simpl; lia|done]. }
  rewrite bind_Ret. cbv beta iota. destruct tok' as [w|]; [|done]. cbn [in_bounds]. rewrite bind_Ret.
  destruct (isdigit _); [by apply Hrec|]. case_bool_decide; [by apply Hrec|]. case_bool_decide; [done|].
  destruct (negb _); [|by apply Hrec]. unfold scan_rdata. cbv zeta. by repeat case_bool_decide.
Qed.

(** No line of a zone file keeps the loader in a loop. *)
Lemma parse_zone_line_ends zone line last ttl :
  parse_zone_line zone line last ttl <> Fault OutOfFuel.
Proof.
  unfold parse_zone_line. cbv zeta. destruct (_ || _); [done|]. case_bool_decide; [done|].
  assert (forall (name last' ptr : cstr),
    (z ← token_loop (S (length ptr)) zone name ttl None ptr; Ret (z, last', ttl)) <> Fault OutOfFuel) as Hends.
  { intros name last' ptr. pose proof (token_loop_ends (S (length ptr)) zone name ttl None ptr) as Ht.
    destruct (token_loop _ _ _ _ _ _) as [|f]; [done|]. intros [= ->]. apply Ht; [lia|done]. }
  destruct (isspace _); [rewrite bind_Ret; apply Hends|].
  destruct (scan_word _) as [[w r]|]; [|rewrite bind_Ret; apply Hends].
  case_bool_decide; [done|]. rewrite bind_Ret. apply Hends.
Qed.
