(* ===== verification/DnsServer.v ===== *)
(** The DNS server: the loop of DNS_Server/sources/dns_server.c over the cache, the
    zones and the forwarder of DNS_Server/utils/network_utils.c.

    One iteration of the loop is [serve]: it takes the datagram received, the times of
    the two calls that read the clock and the datagram the upstream server answers
    with (the network is the environment), and returns the datagrams sent to the
    client, in order, with the new cache.  [spec_serve] is the reference, on a map
    instead of the trie and on queries instead of packets. *)

From Stdlib Require Import String.
From stdpp Require Import gmap.
From S2P Require Import Prelude UtilsV6 CText DnsCache DnsNames DnsConfig DnsZones DnsZonesSpec.

(** ** The loop *)

Definition BUFFER_SIZE : nat := 512.

(** The options the server starts with: the address and the port to listen on. *)
Definition listen_options (config_root : list config_node) : cstr * Z :=
  (match get_global_option config_root (lit "listen_ip") with
   | None => lit "0.0.0.0"
   | Some conf_ip => conf_ip
   end,
   match get_global_option config_root (lit "port") with
   | None => 53
   | Some conf_port => u16 (atoi conf_port)
   end).

Record server_state := ServerState {
  root_node : option cache_entry;
  global_zones : list zone_node
}.

(** The start of [main]: configuration, zones, cache. *)
Definition server_start (fopen : cstr -> option cstr) (fds : nat)
    : outcome (list config_node * server_state) :=
  config_root ← parse_config_file fopen fds (lit "config/dns.conf");
  zones ← zone_manager_init fopen config_root;
  Ret (config_root, ServerState cache_initialize zones).

(** [forward_to_upstream]: [reply] is the datagram received from the upstream server,
    [None] when a socket call fails or the wait times out.  At most 512 bytes of it
    are received into [response_buf]. *)
Definition forward_to_upstream (reply : option (list Z)) (response_buf : list Z)
    : outcome (nat * list Z) :=
  match reply with
  | None => Ret (0%nat, response_buf)
  | Some d =>
      let d := take BUFFER_SIZE d in
      response_buf ← write_bytes 0 d response_buf;
      Ret (length d, response_buf)
  end.

(** A cached response is copied to the response buffer, with the identification of the
    request. *)
Definition cached_reply (buffer : list Z) (cached_entry : cache_entry) (response_buffer : list Z)
    : outcome (list Z) :=
  data ← read_bytes 0 (Z.to_nat (response_length cached_entry)) (DnsCache.response_buffer cached_entry);
  response_buffer ← write_bytes 0 data response_buffer;
  identification ← read_bytes 0 2 buffer;
  write_bytes 0 identification response_buffer.

Section Server.
Variable inet_pton4 inet_pton6 : cstr -> option (list Z).

(** An iteration, from the datagram on: what is sent and the new state.  A failed
    [recvfrom] ([None]) gives the length -1, 2^64 - 1 as a [size_t]. *)
Definition serve (st : server_state) (datagram : option (list Z)) (now now' : Z)
    (reply : option (list Z)) : outcome (list (list Z) * server_state) :=
  buffer ← write_bytes 0 (take BUFFER_SIZE (default [] datagram)) (replicate BUFFER_SIZE 0);
  let response_buffer := replicate BUFFER_SIZE 0 in
  let len := match datagram with
             | Some d => Z.of_nat (length (take BUFFER_SIZE d))
             | None => 18446744073709551615
             end in
  '(_, qname, qtype) ← parse_dns_request buffer len [] (Some 0);
  '(cached_entry, root) ← cache_lookup (root_node st) qname now;
  '(sent, response_buffer) ←
    match cached_entry with
    | Some e =>
        response_buffer ← cached_reply buffer e response_buffer;
        data ← read_bytes 0 (Z.to_nat (response_length e)) response_buffer;
        Ret ([data], response_buffer)
    | None => Ret ([], response_buffer)
    end;
  '(local_found, response_buffer, resp_len) ←
    handle_local_zone_query inet_pton4 inet_pton6 (global_zones st) qname (default 0 qtype)
      buffer (Z.to_nat len) response_buffer 0;
  if (local_found : bool) then
    data ← read_bytes 0 resp_len response_buffer;
    Ret (sent ++ [data], ServerState root (global_zones st))
  else
    '(fwd_len, response_buffer) ← forward_to_upstream reply response_buffer;
    if bool_decide (0 < fwd_len)%nat then
      root ← cache_insert root qname response_buffer (u16 (Z.of_nat fwd_len)) 60 now';
      data ← read_bytes 0 fwd_len response_buffer;
      Ret (sent ++ [data], ServerState root (global_zones st))
    else Ret (sent, ServerState root (global_zones st)).

End Server.

(** ** The reference *)

(** A query of a client with what the environment does: the bytes after the question
    (additional records), the times and the upstream server's answer. *)
Record request := Request {
  rq_hdr : list Z;
  rq_labels : list (list Z);
  rq_type : Z;
  rq_class : Z;
  rq_extra : list Z;
  rq_now : Z;
  rq_now' : Z;
  rq_reply : option (list Z)
}.

Definition rq_packet (rq : request) : list Z :=
  query_bytes (rq_hdr rq) (rq_labels rq) (rq_type rq) (rq_class rq) ++ rq_extra rq.

Definition rq_name (rq : request) : cstr := name_text (rq_labels rq).

(** A query the server handles within its buffers: a header, a host name of valid
    labels, and at most 244 bytes, which leaves room for every local answer. *)
Record request_ok (rq : request) : Prop := {
  rq_ok_hdr : length (rq_hdr rq) = 12%nat;
  rq_ok_labels : Forall is_label (rq_labels rq);
  rq_ok_dotted : (length (dotted (rq_labels rq)) <= 256)%nat;
  rq_ok_nul : 0 ∉ rq_name rq;
  rq_ok_type : is_u16 (rq_type rq);
  rq_ok_bytes : Forall is_u8 (rq_hdr rq ++ join_dots (rq_labels rq) ++ rq_extra rq);
  rq_ok_length : (length (rq_packet rq) <= 244)%nat
}.

(** A response with the identification of a request's header. *)
Definition with_id (hdr r : list Z) : list Z := take (length r) (take 2 hdr ++ drop 2 r).

Section Spec.
Variable inet_pton4 inet_pton6 : cstr -> option (list Z).
Variable zones : list zone_node.

(** What is sent for a query and the new cache.  A response found in the cache is sent
    first; the query is then answered from the zones or forwarded all the same. *)
Definition spec_serve (m : cache_map) (rq : request) : list (list Z) * cache_map :=
  let '(hit, m) := map_lookup m (rq_name rq) (rq_now rq) in
  let first := match hit with Some r => [with_id (rq_hdr rq) r] | None => [] end in
  match spec_record (rq_name rq) (rq_type rq) zones with
  | Some r =>
      (first ++ [spec_answer (rq_packet rq) r (spec_data inet_pton4 inet_pton6 r)], m)
  | None =>
      match rq_reply rq with
      | Some (b :: d) =>
          let r := take BUFFER_SIZE (b :: d) in
          (first ++ [r], map_insert m (rq_name rq) r 60 (rq_now' rq))
      | _ => (first, m)
      end
  end.

Fixpoint spec_run (m : cache_map) (rqs : list request) : list (list (list Z)) * cache_map :=
  match rqs with
  | [] => ([], m)
  | rq :: rqs =>
      let '(sent, m) := spec_serve m rq in
      let '(rest, m) := spec_run m rqs in (sent :: rest, m)
  end.

(** The server's iterations over the same queries. *)
Fixpoint serve_run (st : server_state) (rqs : list request) : outcome (list (list (list Z)) * server_state) :=
  match rqs with
  | [] => Ret ([], st)
  | rq :: rqs =>
      '(sent, st) ← serve inet_pton4 inet_pton6 st (Some (rq_packet rq)) (rq_now rq) (rq_now' rq) (rq_reply rq);
      '(rest, st) ← serve_run st rqs;
      Ret (sent :: rest, st)
  end.

(** Every record's data have less than 255 characters. *)
Definition zones_ok : Prop := Forall (fun z => Forall record_ok (records z)) zones.

(** ** Lemmas *)

Lemma spec_data_length r :
  pton_sizes inet_pton4 inet_pton6 -> record_ok r -> (length (spec_data inet_pton4 inet_pton6 r) <= 256)%nat.
Proof.
  intros [H4 H6] Hok. unfold spec_data.
  assert (length (wire_labels (rdata_labels r) ++ [0%Z]) <= 256)%nat as Hn.
  { rewrite length_app. cbn [length].
    unfold rdata_labels. destruct (text_loop_split (rec_rdata r ++ [46]) [] []) as [_ Hw];
      [rewrite length_app; unfold record_ok in Hok; simpl; lia|].
    rewrite length_app in Hw. cbn [length] in Hw. unfold record_ok in Hok.
    set (ls := split_dots _ _) in *. destruct (wire_until_empty ls) as [rest E].
    apply (f_equal length) in E. rewrite !length_app in E. cbn [length] in E. lia. }
  assert (forall (o : option (list Z)) k, (forall a, o = Some a -> length a = k) -> (k <= 16)%nat ->
    (length (default [] o) <= 256)%nat) as Ho.
  { intros [a|] k Ha Hk; cbn [default]; unfold id; [rewrite (Ha a eq_refl); lia|simpl; lia]. }
  repeat case_match; try done; try (simpl; lia); eapply Ho; eauto; lia.
Qed.

Lemma read_start a b : read_bytes 0 (length a) (a ++ b) = Ret a.
Proof.
  unfold read_bytes. rewrite bool_decide_eq_true_2 by (rewrite length_app; lia).
  by rewrite drop_0, take_app_length.
Qed.

(** The request's bytes in the receive buffer, and their parse. *)
Definition rq_buffer (rq : request) : list Z :=
  rq_packet rq ++ drop (length (rq_packet rq)) (replicate BUFFER_SIZE 0).

Lemma length_rq_buffer rq : request_ok rq -> length (rq_buffer rq) = BUFFER_SIZE.
Proof.
  intros H. pose proof (rq_ok_length _ H). unfold rq_buffer, BUFFER_SIZE.
  rewrite length_app, length_drop, length_replicate. lia.
Qed.

Lemma rq_name_nonempty rq : request_ok rq -> rq_name rq <> [].
Proof.
  intros H. unfold rq_name, name_text. destruct (rq_labels rq) eqn:E; [done|].
  rewrite <- E. apply join_dots_nonempty; [by rewrite E|apply H].
Qed.

Lemma rq_parse rq :
  request_ok rq ->
  parse_dns_request (rq_buffer rq) (Z.of_nat (length (rq_packet rq))) [] (Some 0)
  = Ret (0, rq_name rq, Some (rq_type rq)).
Proof.
  intros H. pose proof (length_rq_buffer rq H) as Hl. destruct H as [Hh Hlab Hd Hnul Ht Hb Hlen].
  set (rest := le16 (bswap16 (rq_type rq)) ++ le16 (bswap16 (rq_class rq)) ++ rq_extra rq
               ++ drop (length (rq_packet rq)) (replicate BUFFER_SIZE 0)).
  assert (rq_buffer rq = rq_hdr rq ++ wire_labels (rq_labels rq) ++ 0 :: rest) as Eb.
  { unfold rq_buffer, rest. unfold rq_packet at 1, query_bytes. rewrite <- !app_assoc. cbn [app].
    by rewrite <- !app_assoc. }
  set (span := Z.of_nat (length (wire_labels (rq_labels rq))) + 1).
  assert (length (rq_packet rq) = 12 + length (wire_labels (rq_labels rq)) + 5 + length (rq_extra rq))%nat
    as Hpl by (unfold rq_packet; rewrite length_app, length_query, Hh; lia).
  rewrite (parse_request _ _ _ _ (rq_labels rq) span).
  - fold (rq_name rq). rewrite c_string_id by done.
    destruct (Z.ltb_spec (Z.of_nat (length (rq_packet rq))) 12); [lia|].
    destruct (Z.eqb_spec (Z.of_nat (length (rq_packet rq))) 12); [lia|].
    destruct (Z.ltb_spec (Z.of_nat (length (rq_packet rq))) (16 + span)); [unfold span in *; lia|].
    do 3 f_equal. rewrite Eb.
    replace (rq_hdr rq ++ wire_labels (rq_labels rq) ++ 0 :: rest)
      with ((rq_hdr rq ++ wire_labels (rq_labels rq) ++ [0]) ++ rest)
      by (by rewrite <- !app_assoc).
    rewrite drop_app_length' by (rewrite !length_app; simpl; unfold span; lia).
    unfold rest. rewrite (take_app_length' _ _ 2) by done. by apply be_val_htons.
  - apply Forall_app in Hb as [B1 Hb]. apply Forall_app in Hb as [B2 B3].
    unfold rq_buffer, rq_packet. apply Forall_app_2; [apply Forall_app_2; [by apply query_u8|done]|].
    apply Forall_drop, Forall_replicate. unfold is_u8. lia.
  - rewrite Hl. unfold BUFFER_SIZE. lia.
  - intros _. split; [|done]. rewrite Eb. unfold DNS_HEADER. rewrite <- Hh. by apply name_at_wire.
Qed.

(** Sending a cached response. *)
Lemma cached_reply_sent buffer hdr rest e rb :
  node_ok e -> buffer = hdr ++ rest -> (2 <= length hdr)%nat -> length rb = BUFFER_SIZE ->
  exists rb', cached_reply buffer e rb = Ret rb' /\ length rb' = BUFFER_SIZE
    /\ read_bytes 0 (Z.to_nat (response_length e)) rb' = Ret (with_id hdr (response_of e)).
Proof.
  intros [_ _ H1 H2] -> Hh Hrb. unfold cached_reply, MAX_PACKET_SIZE in *.
  assert (read_bytes 0 (Z.to_nat (response_length e)) (DnsCache.response_buffer e) = Ret (response_of e)) as ->
    by (unfold read_bytes; rewrite bool_decide_eq_true_2 by lia; by rewrite drop_0).
  assert (read_bytes 0 2 (hdr ++ rest) = Ret (take 2 hdr)) as ->
    by (unfold read_bytes; rewrite bool_decide_eq_true_2 by (rewrite length_app; lia);
        by rewrite drop_0, take_app_le by lia).
  rewrite bind_Ret. set (data := response_of e).
  assert (length data = Z.to_nat (response_length e)) as Hdl
    by (unfold data, response_of; rewrite length_take; lia).
  rewrite write_at_start by (rewrite Hrb; unfold BUFFER_SIZE; lia). rewrite bind_Ret.
  rewrite bind_Ret. set (rb1 := data ++ drop (length data) rb).
  assert (length rb1 = BUFFER_SIZE) as Hrb1
    by (unfold rb1; rewrite length_app, length_drop, Hrb; unfold BUFFER_SIZE; lia).
  assert (length (take 2 hdr) = 2%nat) as H2h by (rewrite length_take; lia).
  rewrite write_at_start by (rewrite H2h, Hrb1; unfold BUFFER_SIZE; lia). rewrite H2h.
  eexists. split; [reflexivity|].
  assert (length (take 2 hdr ++ drop 2 rb1) = BUFFER_SIZE) as Hl
    by (rewrite length_app, length_drop, Hrb1, H2h; done).
  split; [exact Hl|]. rewrite <- Hdl. unfold read_bytes.
  rewrite bool_decide_eq_true_2 by (rewrite Hl; unfold BUFFER_SIZE; lia). rewrite drop_0. f_equal.
  unfold with_id. destruct (decide (length data <= 2)%nat).
  - by rewrite !take_app_le by lia.
  - rewrite !take_app_ge by lia. f_equal. unfold rb1. rewrite drop_app_le by lia.
    rewrite H2h. apply take_app_le. rewrite length_drop. lia.
Qed.

(** The iteration after the cache, by the zones and the upstream server. *)
Definition spec_rest (m : cache_map) (rq : request) (sent : list (list Z))
    : list (list Z) * cache_map :=
  match spec_record (rq_name rq) (rq_type rq) zones with
  | Some r => (sent ++ [spec_answer (rq_packet rq) r (spec_data inet_pton4 inet_pton6 r)], m)
  | None =>
      match rq_reply rq with
      | Some (b :: d) =>
          let r := take BUFFER_SIZE (b :: d) in
          (sent ++ [r], map_insert m (rq_name rq) r 60 (rq_now' rq))
      | _ => (sent, m)
      end
  end.

Lemma rq_name_length rq : request_ok rq -> (length (rq_name rq) <= 255)%nat.
Proof.
  intros H. pose proof (rq_ok_dotted _ H) as Hd. unfold rq_name, name_text.
  destruct (rq_labels rq) as [|l ls] eqn:E; [simpl; lia|].
  rewrite dotted_join, length_app in Hd. simpl in Hd |- *. lia.
Qed.

Lemma forward_sent rq n m rb :
  refines n m -> length rb = BUFFER_SIZE ->
  exists fwd_len rb', forward_to_upstream (rq_reply rq) rb = Ret (fwd_len, rb')
  /\ match rq_reply rq with
     | Some (b :: d) => exists n',
         let r := take BUFFER_SIZE (b :: d) in
         bool_decide (0 < fwd_len)%nat = true
         /\ cache_insert (Some n) (rq_name rq) rb' (u16 (Z.of_nat fwd_len)) 60 (rq_now' rq) = Ret (Some n')
         /\ read_bytes 0 fwd_len rb' = Ret r
         /\ refines n' (map_insert m (rq_name rq) r 60 (rq_now' rq))
     | _ => bool_decide (0 < fwd_len)%nat = false
     end.
Proof.
  intros Hr Hrb. unfold forward_to_upstream. destruct (rq_reply rq) as [[|b d]|].
  - exists 0%nat, rb. rewrite write_at_start by (rewrite take_nil; simpl; lia).
    rewrite take_nil. done.
  - set (r := take BUFFER_SIZE (b :: d)).
    assert (1 <= length r <= BUFFER_SIZE)%nat as Hlr
      by (unfold r, BUFFER_SIZE; rewrite length_take; simpl length; lia).
    cbv zeta. rewrite write_at_start by lia. rewrite bind_Ret.
    assert (length (r ++ drop (length r) rb) = BUFFER_SIZE) as Hl
      by (rewrite length_app, length_drop; lia).
    exists (length r), (r ++ drop (length r) rb). split; [done|].
    assert (u16 (Z.of_nat (length r)) = Z.of_nat (length r)) as Eu.
    { apply u16_small. unfold is_u16, BUFFER_SIZE in *. lia. }
    destruct (refines_insert n m (rq_name rq) (r ++ drop (length r) rb) (Z.of_nat (length r)) 60 (rq_now' rq))
      as (n' & Hi & Hn'); [done|unfold MAX_PACKET_SIZE, BUFFER_SIZE in *; lia|rewrite length_app; lia|].
    rewrite Nat2Z.id, take_app_length in Hn'. exists n'. fold r. rewrite Eu.
    split_and!; [apply bool_decide_eq_true_2; lia|done|apply read_start|done].
  - exists 0%nat, rb. done.
Qed.

Lemma serve_rest rq n m rb sent :
  request_ok rq -> pton_sizes inet_pton4 inet_pton6 -> zones_ok -> refines n m -> length rb = BUFFER_SIZE ->
  exists n',
    ('(local_found, response_buffer, resp_len) ←
       handle_local_zone_query inet_pton4 inet_pton6 zones (rq_name rq) (rq_type rq)
         (rq_buffer rq) (length (rq_packet rq)) rb 0;
     if (local_found : bool) then
       data ← read_bytes 0 resp_len response_buffer;
       Ret (sent ++ [data], ServerState (Some n) zones)
     else
       '(fwd_len, response_buffer) ← forward_to_upstream (rq_reply rq) response_buffer;
       if bool_decide (0 < fwd_len)%nat then
         root ← cache_insert (Some n) (rq_name rq) response_buffer (u16 (Z.of_nat fwd_len)) 60 (rq_now' rq);
         data ← read_bytes 0 fwd_len response_buffer;
         Ret (sent ++ [data], ServerState root zones)
       else Ret (sent, ServerState (Some n) zones))
    = Ret ((spec_rest m rq sent).1, ServerState (Some n') zones)
    /\ refines n' (spec_rest m rq sent).2.
Proof.
  intros Hok Hp Hz Hr Hrb. pose proof (rq_ok_length _ Hok) as Hlen.
  pose proof (rq_ok_hdr _ Hok) as Hh.
  assert (12 <= length (rq_packet rq) <= length (rq_buffer rq))%nat as Hl12.
  { unfold rq_buffer at 1, rq_packet. rewrite !length_app, length_query. lia. }
  assert (take (length (rq_packet rq)) (rq_buffer rq) = rq_packet rq) as Htake by apply take_app_length.
  pose proof (rq_name_nonempty rq Hok) as Hne. pose proof (rq_name_length rq Hok) as Hnl.
  unfold spec_rest. rewrite <- spec_record_eq by done. destruct (find_record _ _ _ zones) as [r|] eqn:Ef.
  - pose proof (record_ok_found _ _ _ _ _ Hz Ef) as Hrec.
    pose proof (spec_data_eq inet_pton4 inet_pton6 r Hp Hrec) as Hd.
    pose proof (spec_data_length r Hp Hrec) as Hdl.
    rewrite (local_answer _ _ zones _ _ _ _ rb 0 r _ _ Hne Ef Hl12 ltac:(rewrite Hrb; unfold BUFFER_SIZE; lia) Hd).
    rewrite Htake, length_answer by lia.
    rewrite bool_decide_eq_true_2 by (rewrite Hrb; unfold BUFFER_SIZE; lia).
    rewrite bind_Ret. cbv beta iota.
    rewrite <- (length_answer (rq_packet rq) r (Z.of_nat (length (spec_data inet_pton4 inet_pton6 r)))) by lia.
    rewrite read_start, bind_Ret, spec_answer_eq by lia. by exists n.
  - assert (handle_local_zone_query inet_pton4 inet_pton6 zones (rq_name rq) (rq_type rq)
      (rq_buffer rq) (length (rq_packet rq)) rb 0 = Ret (false, rb, 0%nat)) as ->.
    { unfold handle_local_zone_query.
      destruct (rq_name rq) as [|c s] eqn:En; [done|]. rewrite <- En in *. fold (with_dot (rq_name rq)).
      by rewrite zone_loop_find, Ef. }
    rewrite bind_Ret. cbv beta iota.
    destruct (forward_sent rq n m rb Hr Hrb) as (fl & rb' & -> & Hf). rewrite bind_Ret. cbv beta iota.
    destruct (rq_reply rq) as [[|b d]|]; [rewrite Hf; by exists n| |rewrite Hf; by exists n].
    destruct Hf as (n' & -> & -> & Hrd & Hn'). rewrite bind_Ret. cbv beta. rewrite Hrd, bind_Ret.
    by exists n'.
Qed.

Lemma serve_refines rq n m :
  request_ok rq -> pton_sizes inet_pton4 inet_pton6 -> zones_ok -> refines n m ->
  exists n',
    serve inet_pton4 inet_pton6 (ServerState (Some n) zones) (Some (rq_packet rq)) (rq_now rq)
      (rq_now' rq) (rq_reply rq)
    = Ret ((spec_serve m rq).1, ServerState (Some n') zones)
    /\ refines n' (spec_serve m rq).2.
Proof.
  intros Hok Hp Hz Hr. pose proof (rq_ok_length _ Hok) as Hlen. unfold serve.
  change (default [] (Some (rq_packet rq))) with (rq_packet rq).
  rewrite (take_ge (rq_packet rq)) by (unfold BUFFER_SIZE; lia).
  rewrite write_at_start by (rewrite length_replicate; unfold BUFFER_SIZE; lia).
  fold (rq_buffer rq). rewrite bind_Ret. cbv zeta. rewrite rq_parse by done.
  rewrite bind_Ret. cbv beta iota. cbn [root_node global_zones].
  destruct (refines_lookup n m (rq_name rq) (rq_now rq) Hr) as (o & n1 & -> & Ho & Hen & Hn1).
  rewrite bind_Ret. cbv beta iota. rewrite Nat2Z.id. unfold spec_serve.
  destruct (map_lookup m (rq_name rq) (rq_now rq)) as [hit m1]. cbn [fst snd] in Ho, Hn1.
  assert (exists rb, length rb = BUFFER_SIZE /\
    match o with
    | Some e =>
        response_buffer ← cached_reply (rq_buffer rq) e (replicate BUFFER_SIZE 0);
        data ← read_bytes 0 (Z.to_nat (response_length e)) response_buffer;
        Ret ([data], response_buffer)
    | None => Ret ([], replicate BUFFER_SIZE 0)
    end = Ret (match hit with Some r => [with_id (rq_hdr rq) r] | None => [] end, rb))
    as (rb & Hrb & ->).
  { destruct o as [e|]; simpl in Ho; subst hit.
    - destruct (cached_reply_sent (rq_buffer rq) (rq_hdr rq) (drop 12 (rq_buffer rq)) e (replicate BUFFER_SIZE 0))
        as (rb & -> & Hl & Hrd); [by apply Hen| |rewrite (rq_ok_hdr _ Hok); lia|apply length_replicate|].
      + pose proof (rq_ok_hdr _ Hok) as Hh. unfold rq_buffer, rq_packet, query_bytes.
        rewrite <- !app_assoc. by rewrite drop_app_length'.
      + exists rb. split; [done|]. by rewrite bind_Ret, Hrd, bind_Ret.
    - exists (replicate BUFFER_SIZE 0). split; [apply length_replicate|done]. }
  rewrite bind_Ret. cbv beta iota. by apply serve_rest.
Qed.

Lemma serve_run_refines rqs : forall n m,
  Forall request_ok rqs -> pton_sizes inet_pton4 inet_pton6 -> zones_ok -> refines n m ->
  exists n', serve_run (ServerState (Some n) zones) rqs
    = Ret ((spec_run m rqs).1, ServerState (Some n') zones)
    /\ refines n' (spec_run m rqs).2.
Proof.
  induction rqs as [|rq rqs IH]; intros n m Hok Hp Hz Hr; [by exists n|].
  apply Forall_cons in Hok as [Hrq Hok]. cbn [serve_run spec_run].
  destruct (serve_refines rq n m) as (n1 & -> & Hn1); [done..|]. rewrite bind_Ret. cbv beta iota.
  destruct (spec_serve m rq) as [sent m1]. cbn [fst snd] in Hn1.
  destruct (IH n1 m1) as (n2 & -> & Hn2); [done..|]. rewrite bind_Ret. cbv beta iota.
  destruct (spec_run m1 rqs) as [rest m2]. by exists n2.
Qed.

End Spec.

(** ** Properties *)

(** C26: the server implements its reference.  For zones in which every record's data have
    less than 255 characters (a record of 255 is loaded too, and a name of that length makes
    the answer leave a buffer, [long_name_overflows]) and [inet_pton] giving addresses of four
    and sixteen bytes: from an empty cache, for every sequence of well-formed queries of at
    most 244 bytes, whatever the times and the answers of the upstream server, every iteration
    ends without an access outside a buffer and sends exactly what the reference sends: a
    response cached under the name and not expired, with the query's identification, and then
    the answer [spec_answer] makes of the zones' first record asked for, or else the upstream
    answer (cut to 512 bytes), which is cached for sixty seconds. *)
Theorem dns_server_refines (pton4 pton6 : cstr -> option (list Z)) (zones : list zone_node)
    (rqs : list request) :
  pton_sizes pton4 pton6 -> zones_ok zones -> Forall request_ok rqs ->
  exists n, serve_run pton4 pton6 (ServerState cache_initialize zones) rqs
    = Ret ((spec_run pton4 pton6 zones ∅ rqs).1, ServerState (Some n) zones)
    /\ refines n (spec_run pton4 pton6 zones ∅ rqs).2.
Proof. intros Hp Hz Hok. by apply serve_run_refines, refines_new. Qed.

(** Two queries, for [w.a] and, with other letters in upper case and another type, for
    [W.A]. *)
Definition sample_hdr (id : Z) : list Z := [0; id; 1; 0; 0; 1; 0; 0; 0; 0; 0; 0].

Definition sample_requests : list request :=
  [Request (sample_hdr 7) [lit "w"; lit "a"] 1 1 [] 1000 1001 (Some [0; 7; 129; 128; 0]);
   Request (sample_hdr 9) [lit "W"; lit "A"] 28 1 [] 1050 1051 None].

Lemma sample_requests_ok : Forall request_ok sample_requests.
Proof.
  unfold sample_requests. repeat apply Forall_cons_2; [| |done];
    (split; [done|repeat apply Forall_cons_2; [..|done]; apply is_label_dec_ok; reflexivity|vm_compute; lia
      |refine (bool_decide_eq_true_1 _ _); reflexivity|unfold is_u16; simpl; lia
      |apply u8_list; reflexivity|vm_compute; lia]).
Qed.

Lemma no_pton_ok : pton_sizes (fun _ => None) (fun _ => None).
Proof. by split. Qed.

(** Two queries without a local record, forwarded and cached, and one for the alias. *)
Definition alias_request : request := Request (sample_hdr 8) [lit "w"; lit "a"] 5 1 [] 1052 1053 None.

Lemma alias_request_ok : request_ok alias_request.
Proof.
  split; [done|repeat apply Forall_cons_2; [..|done]; apply is_label_dec_ok; reflexivity|vm_compute; lia
    |refine (bool_decide_eq_true_1 _ _); reflexivity|unfold is_u16; simpl; lia
    |apply u8_list; reflexivity|vm_compute; lia].
Qed.

Lemma dns_server_refines_witness :
  exists n, serve_run (fun _ => None) (fun _ => None) (ServerState cache_initialize [alias_zone])
      (sample_requests ++ [alias_request])
    = Ret ([[[0; 7; 129; 128; 0]]; [[0; 9; 129; 128; 0]];
            [[0; 8; 129; 128; 0];
             [0; 8; 33; 0; 0; 1; 0; 1; 0; 0; 0; 0] ++ drop 12 (rq_packet alias_request)
             ++ [192; 12; 0; 5; 0; 1; 0; 0; 14; 16; 0; 6] ++ [1] ++ lit "x" ++ [2] ++ lit "yz" ++ [0]]],
           ServerState (Some n) [alias_zone]).
Proof.
  destruct (dns_server_refines (fun _ => None) (fun _ => None) [alias_zone] (sample_requests ++ [alias_request]))
    as (n & H & _).
  - apply no_pton_ok.
  - repeat constructor; unfold record_ok; vm_compute; lia.
  - apply Forall_app_2; [apply sample_requests_ok|]. apply Forall_singleton, alias_request_ok.
  - exists n. rewrite H. f_equal.
Defined.

(** Caching.  When a query for a name without a local record is answered by the
    upstream server, a query for the same name up to case whose lookup comes before the
    sixty seconds are over is answered at once with the cached response under its own
    identification, whatever its type; the server then forwards it all the same and
    sends a second answer if one comes. *)
Lemma dns_cache_hit (pton4 pton6 : cstr -> option (list Z)) (zones : list zone_node)
    (n : cache_entry) (m : cache_map) (rq1 rq2 : request) (r : list Z) :
  pton_sizes pton4 pton6 -> zones_ok zones -> request_ok rq1 -> request_ok rq2 -> refines n m ->
  spec_record (rq_name rq1) (rq_type rq1) zones = None ->
  spec_record (rq_name rq2) (rq_type rq2) zones = None ->
  rq_reply rq1 = Some r -> (1 <= length r <= BUFFER_SIZE)%nat ->
  is_Some (cache_key (rq_name rq1)) -> tolower <$> rq_name rq2 = tolower <$> rq_name rq1 ->
  u32 (rq_now rq2) < u32 (rq_now' rq1) +u32 60 ->
  exists first st,
    serve_run pton4 pton6 (ServerState (Some n) zones) [rq1; rq2]
    = Ret ([first ++ [r];
            with_id (rq_hdr rq2) r
              :: match rq_reply rq2 with Some (b :: d) => [take BUFFER_SIZE (b :: d)] | _ => [] end], st).
Proof.
  intros Hp Hz Hok1 Hok2 Hr Hf1 Hf2 Hrep Hlr [k Hk] Hcase Ht.
  destruct (serve_run_refines pton4 pton6 zones [rq1; rq2] n m) as (n' & -> & _);
    [by apply Forall_cons_2; [|apply Forall_cons_2; [|apply Forall_nil_2]]|done..|].
  cbn [spec_run]. unfold spec_serve. rewrite Hf1, Hf2, Hrep.
  destruct (map_lookup m (rq_name rq1) (rq_now rq1)) as [hit m1].
  destruct r as [|b d]; [simpl in Hlr; lia|]. cbv zeta. rewrite (take_ge (b :: d)) by lia.
  set (m2 := map_insert m1 (rq_name rq1) (b :: d) 60 (rq_now' rq1)).
  assert (map_lookup m2 (rq_name rq2) (rq_now rq2) = (Some (b :: d), m2)) as ->.
  { unfold map_lookup, m2, map_insert. rewrite (cache_key_lower _ _ Hcase), Hk. cbn [mbind option_bind].
    rewrite lookup_insert_eq. cbn [fmap option_fmap option_map].
    by destruct (Z.ltb_spec (u32 (rq_now rq2)) (u32 (rq_now' rq1) +u32 60)); [|lia]. }
  cbv beta iota. destruct (rq_reply rq2) as [[|b2 d2]|]; eexists _, _; reflexivity.
Qed.

Lemma dns_cache_hit_witness :
  exists first st,
    serve_run (fun _ => None) (fun _ => None) (ServerState cache_initialize []) sample_requests
    = Ret ([first ++ [[0; 7; 129; 128; 0]]; [[0; 9; 129; 128; 0]]], st).
Proof.
  pose proof sample_requests_ok as H. unfold sample_requests in H.
  apply Forall_cons in H as [H1 H]. apply Forall_cons in H as [H2 _].
  apply (dns_cache_hit (fun _ => None) (fun _ => None) [] new_cache_entry ∅ _ _ [0; 7; 129; 128; 0]
    no_pton_ok (Forall_nil_2 _) H1 H2 refines_new); try reflexivity.
  - unfold BUFFER_SIZE. simpl. lia.
  - by eexists.
Defined.

(** Datagrams without a question.  The result of the parser is not looked at: a
    datagram of at most twelve bytes leaves the name empty, and [handle_local_zone_query]
    then reads the byte before it; a failed [recvfrom] forms a pointer past the buffer.
    In every state of the server the iteration leaves its arrays. *)
Lemma dns_short_datagram (pton4 pton6 : cstr -> option (list Z)) (zones : list zone_node)
    (n : cache_entry) (m : cache_map) (datagram : option (list Z)) (now now' : Z)
    (reply : option (list Z)) :
  refines n m -> match datagram with Some d => (length d <= 12)%nat | None => True end ->
  serve pton4 pton6 (ServerState (Some n) zones) datagram now now' reply = Fault OutOfBounds.
Proof.
  intros Hr Hd. unfold serve. set (d := default [] datagram).
  assert (length (take BUFFER_SIZE d) <= 12)%nat as Hl.
  { rewrite length_take. assert (length d <= 12)%nat by (destruct datagram; [done|vm_compute; lia]). lia. }
  rewrite write_at_start by (rewrite length_replicate; unfold BUFFER_SIZE in *; lia).
  rewrite bind_Ret. set (buffer := take BUFFER_SIZE d ++ _).
  assert (length buffer = BUFFER_SIZE) as Hb
    by (unfold buffer; rewrite length_app, length_drop, length_replicate; unfold BUFFER_SIZE in *; lia).
  cbv zeta. destruct datagram as [d'|].
  2: { unfold parse_dns_request. rewrite Hb. reflexivity. }
  assert (exists c, parse_dns_request buffer (Z.of_nat (length (take BUFFER_SIZE d'))) [] (Some 0)
                    = Ret (c, [], Some 0)) as [c ->].
  { change d with d' in Hl. unfold parse_dns_request, DNS_HEADER. change (Z.of_nat 12) with 12.
    destruct (Z.ltb_spec (Z.of_nat (length (take BUFFER_SIZE d'))) 12); [by eexists|].
    destruct (Z.ltb_spec (Z.of_nat (length buffer)) (Z.of_nat (length (take BUFFER_SIZE d'))));
      [rewrite Hb in *; unfold BUFFER_SIZE in *; lia|].
    destruct (Z.leb_spec (Z.of_nat (length (take BUFFER_SIZE d'))) 12); [by eexists|lia]. }
  rewrite bind_Ret. cbv beta iota. cbn [root_node global_zones].
  destruct (refines_lookup n m [] now Hr) as (o & n1 & -> & _ & Hen & _).
  rewrite bind_Ret. cbv beta iota. destruct o as [e|]; [|done].
  destruct (cached_reply_sent buffer buffer [] e (replicate BUFFER_SIZE 0)) as (rb & -> & _ & Hrd);
    [by apply Hen|by rewrite app_nil_r|rewrite Hb; unfold BUFFER_SIZE; lia|apply length_replicate|].
  by rewrite bind_Ret, Hrd.
Qed.

Lemma dns_short_datagram_witness :
  serve (fun _ => None) (fun _ => None) (ServerState cache_initialize []) (Some []) 0 0 None
  = Fault OutOfBounds.
Proof.
  apply (dns_short_datagram (fun _ => None) (fun _ => None) [] new_cache_entry ∅ (Some []) 0 0 None refines_new).
  simpl. lia.
Defined.

(** ** An endless datagram *)

(** The query of [self_pointer] in the receive buffer. *)
Lemma self_pointer_buffer n :
  follow (self_pointer ++ replicate 494 0) n 12 = 12%nat.
Proof. induction n as [|n IH]; [done|]. exact IH. Qed.

(** One datagram of eighteen bytes, whose name is a compression pointer to itself, keeps
    the server's only thread in the loop of [dns_binary_to_text] forever. *)
Example self_pointer_hangs pton4 pton6 st now now' reply :
  serve pton4 pton6 st (Some self_pointer) now now' reply = Fault OutOfFuel.
Proof.
  unfold serve. change (default [] (Some self_pointer)) with self_pointer.
  rewrite take_ge, write_at_start by (vm_compute; lia). rewrite bind_Ret.
  change (drop (length self_pointer) (replicate BUFFER_SIZE 0)) with (replicate 494 0).
  cbv zeta. unfold parse_dns_request. change (Z.of_nat (length self_pointer)) with 18.
  change (Z.of_nat DNS_HEADER) with 12. change (18 <? 12) with false. cbv iota.
  change (Z.of_nat (length (self_pointer ++ replicate 494 0)) <? 18) with false.
  change (18 <=? 12) with false. cbv iota.
  unfold dns_binary_to_text. rewrite name_loop_endless; [done|].
  intros n. unfold DNS_HEADER. rewrite self_pointer_buffer. by eexists.
Qed.
