(* ===== verification/DnsMemory.v ===== *)
(** * The memory of the DNS server's configuration, and the program around the loop

    [dupstr], [pair_new], [new_node], [node_append_pair], [free_config] and [config_dump] of
    [DNS_Server/sources/dns_config.c], [initialize_udp_socket] of [network_utils.c], and
    [main] and [handle_signal] of [dns_server.c] around the loop of [DnsServer].

    [DnsConfig] gives the tree the parser makes as a value, [DnsZones] the zones and
    [DnsCache] the trie; here the nodes, strings and arrays of the tree, the zones and their
    records ([zone_manager.c]) and the nodes of the trie ([dns_cache.c]) are blocks of a heap,
    the set of the addresses allocated.  [malloc] is a parameter that gives an address not in
    use, and never fails; freeing an address that is not allocated is [Fault OutOfBounds].  The
    line buffer of [getline], which [parse_file] frees when it returns, is not a block. *)

From Stdlib Require Import String.
From stdpp Require Import gmap.
From S2P Require Import Prelude UtilsV6 CText DnsCache DnsNames DnsConfig DnsZones DnsZonesSpec DnsServer.

#[local] Unset Elimination Schemes.

(** A node and a cell of its array of pairs; the array is null until a pair is appended. *)
Inductive node_ptr := NodePtr (addr : Z) (name : option Z) (array : option (Z * list pair_ptr))
with pair_ptr := PairPtr (pkey : Z) (pvalue : option Z) (psub : option node_ptr).

#[local] Set Elimination Schemes.

(** ** Freeing *)

Definition free_block (p : Z) (h : gset Z) : outcome (gset Z) :=
  if bool_decide (p ∈ h) then Ret (h ∖ {[p]}) else Fault OutOfBounds.

(** [free] of a pointer that may be null. *)
Definition free_opt (p : option Z) (h : gset Z) : outcome (gset Z) :=
  match p with Some p => free_block p h | None => Ret h end.

(** One turn of the loop of [free_config], and of that of [free_pair]. *)
Fixpoint free_node (n : node_ptr) (h : gset Z) : outcome (gset Z) :=
  match n with
  | NodePtr addr name array =>
      h ← free_opt name h;
      h ← match array with
          | None => Ret h
          | Some (p, cells) =>
              h ← (fix free_cells (cells : list pair_ptr) (h : gset Z) : outcome (gset Z) :=
                     match cells with
                     | [] => Ret h
                     | c :: cells => h ← free_cell c h; free_cells cells h
                     end) cells h;
              free_block p h
          end;
      free_block addr h
  end
with free_cell (c : pair_ptr) (h : gset Z) : outcome (gset Z) :=
  match c with
  | PairPtr pkey pvalue psub =>
      h ← free_block pkey h;
      h ← free_opt pvalue h;
      match psub with Some n => free_node n h | None => Ret h end
  end.

Fixpoint free_config (ns : list node_ptr) (h : gset Z) : outcome (gset Z) :=
  match ns with
  | [] => Ret h
  | n :: ns => h ← free_node n h; free_config ns h
  end.

(** ** Building *)

Section Build.
Context (malloc : gset Z -> Z).

Definition calloc (h : gset Z) : Z * gset Z := (malloc h, {[malloc h]} ∪ h).

Definition dupstr (s : option cstr) (h : gset Z) : option Z * gset Z :=
  match s with
  | Some _ => let '(p, h) := calloc h in (Some p, h)
  | None => (None, h)
  end.

(** The cell made by [pair_new], which [node_append_pair] copies and frees, and its contents. *)
Definition pair_new (value : option cstr) (sub : option node_ptr) (h : gset Z) : pair_ptr * Z * gset Z :=
  let '(cell, h) := calloc h in
  let '(k, h) := calloc h in
  let '(v, h) := dupstr value h in
  (PairPtr k v sub, cell, h).

(** [node_append_pair]: [realloc] moves the array. *)
Definition node_append_pair (array : option (Z * list pair_ptr)) (c : pair_ptr) (cell : Z) (h : gset Z)
    : outcome (option (Z * list pair_ptr) * gset Z) :=
  let '(arr, h) := calloc h in
  h ← free_opt (fst <$> array) h;
  h ← free_block cell h;
  Ret (Some (arr, default [] (snd <$> array) ++ [c]), h).

(** The node of a block: [new_node], then its pairs.  The name of a block inside of another
    one is duplicated at the end. *)
Fixpoint build_node (named : bool) (n : config_node) (h : gset Z) : outcome (node_ptr * gset Z) :=
  match n with
  | ConfigNode _ name qs =>
      let '(p, h) := calloc h in
      let '(np, h) := if named then dupstr name h else (None, h) in
      '(array, h) ←
        (fix build_pairs (qs : list config_pair) (array : option (Z * list pair_ptr)) (h : gset Z)
           : outcome (option (Z * list pair_ptr) * gset Z) :=
           match qs with
           | [] => Ret (array, h)
           | q :: qs =>
               '(c, cell, h) ← build_pair q h;
               '(array, h) ← node_append_pair array c cell h;
               build_pairs qs array h
           end) qs None h;
      let '(np, h) := if named then (np, h) else dupstr name h in
      Ret (NodePtr p np array, h)
  end
with build_pair (q : config_pair) (h : gset Z) : outcome (pair_ptr * Z * gset Z) :=
  match q with
  | ConfigPair _ value sub =>
      '(sub, h) ← match sub with
                  | Some n => '(n, h) ← build_node false n h; Ret (Some n, h)
                  | None => Ret (None, h)
                  end;
      Ret (pair_new value sub h)
  end.

(** The chain of nodes of a file. *)
Fixpoint build_config (ns : list config_node) (h : gset Z) : outcome (list node_ptr * gset Z) :=
  match ns with
  | [] => Ret ([], h)
  | n :: ns =>
      '(p, h) ← build_node true n h;
      '(ps, h) ← build_config ns h;
      Ret (p :: ps, h)
  end.

(** *** Zones and the cache, which nothing frees *)

(** [n] blocks one after the other, the last one first, as records and zones are linked. *)
Fixpoint alloc_blocks (n : nat) (h : gset Z) : list Z * gset Z :=
  match n with
  | O => ([], h)
  | S n => let '(ps, h) := alloc_blocks n h in let '(p, h) := calloc h in (p :: ps, h)
  end.

(** A zone: its node, and a block for each record [add_record_to_zone] puts in front. *)
Definition build_zone (zone : zone_node) (h : gset Z) : list Z * gset Z :=
  let '(p, h) := calloc h in
  let '(rs, h) := alloc_blocks (length (records zone)) h in
  (p :: rs, h).

(** The zones of [global_zones], of which the last was made first. *)
Fixpoint build_zones (zones : list zone_node) (h : gset Z) : list Z * gset Z :=
  match zones with
  | [] => ([], h)
  | z :: zones =>
      let '(ps, h) := build_zones zones h in
      let '(p, h) := build_zone z h in
      (p ++ ps, h)
  end.
End Build.

(** The nodes of the trie: each was made by one call of [new_cache_entry]. *)
Fixpoint trie_size (n : cache_entry) : nat :=
  match n with
  | TrieNode _ _ _ _ child =>
      S (sum_list_with (fun slot => match slot with Some n => trie_size n | None => 0%nat end) child)
  end.

Definition cache_size (root : option cache_entry) : nat :=
  match root with Some n => trie_size n | None => 0 end.

(** ** Printing *)

(** [config_dump]: the text printed; the array of pairs of an empty block is a null pointer,
    which is read. *)
Fixpoint dump_node (n : config_node) : outcome cstr :=
  match n with
  | ConfigNode type name qs =>
      let name := default [] name in
      match type with
      | CONFIG_INCLUDE => Ret (lit "include " ++ quoted name ++ [59; 10])
      | _ =>
          let head := match type with
                      | CONFIG_OPTIONS => lit "options "
                      | CONFIG_ZONE => lit "zone " ++ quoted name ++ [32]
                      | _ => lit "unknown "
                      end in
          match qs with
          | [] => Fault OutOfBounds
          | _ =>
              body ← (fix dump_pairs (qs : list config_pair) : outcome cstr :=
                        match qs with
                        | [] => Ret []
                        | q :: qs => t ← dump_pair q; rest ← dump_pairs qs; Ret (t ++ rest)
                        end) qs;
              Ret (head ++ [123; 10] ++ body ++ [125; 10])
          end
      end
  end
with dump_pair (q : config_pair) : outcome cstr :=
  match q with
  | ConfigPair key value sub =>
      rest ← match value with
             | Some v => Ret (quoted v ++ [59; 10])
             | None =>
                 t ← match sub with Some n => dump_node n | None => Ret [] end;
                 Ret ([123; 10] ++ t ++ [32; 125; 10])
             end;
      Ret (32 :: key ++ [32] ++ rest)
  end.

Fixpoint config_dump (root : list config_node) : outcome cstr :=
  match root with
  | [] => Ret []
  | n :: root => t ← dump_node n; rest ← config_dump root; Ret (t ++ rest)
  end.

(** ** The program *)

Definition ERR_INVALID_ARGUMENT : Z := -3.

Definition ERR_INPUT_OUTPUT : Z := -6.

Definition ERR_FAILED_TO_BIND_SOCKET : Z := -11.

(** The results of [socket] and [bind]. *)
Record socket_results := mk_socket_results {
  k_socket : Z;
  k_bind : bool
}.

(** The descriptor, or an error, and the descriptors closed. *)
Definition initialize_udp_socket (r : socket_results) (inet_pton4 : cstr -> option (list Z)) (ip : cstr) (port : Z)
    : Z * list Z :=
  if r.(k_socket) <? 0 then (ERR_INPUT_OUTPUT, [])
  else
    match inet_pton4 ip with
    | None => (ERR_INVALID_ARGUMENT, [r.(k_socket)])
    | Some _ => if r.(k_bind) then (r.(k_socket), []) else (ERR_FAILED_TO_BIND_SOCKET, [r.(k_socket)])
    end.

(** The process: the socket, the blocks of [config_root], of the zones and of the cache, and
    the values. *)
Record dns_process := mk_dns_process {
  z_sockfd : Z;
  z_root : list node_ptr;
  z_zones : list Z;
  z_cache : list Z;
  z_state : server_state
}.

(** What an iteration of the loop takes from outside: the datagram, the two times and the
    answer of the upstream server. *)
Record dns_event := mk_dns_event {
  ev_datagram : option (list Z);
  ev_now : Z;
  ev_now' : Z;
  ev_reply : option (list Z)
}.

Section Main.
Context (malloc : gset Z -> Z) (inet_pton4 inet_pton6 : cstr -> option (list Z)).
Context (fopen : cstr -> option cstr) (fds : nat).

(** [main] up to its loop: its return code or the process, and the heap. *)
Definition dns_main (r : socket_results) (h : gset Z) : outcome ((Z + dns_process) * gset Z) :=
  '(config_root, st) ← server_start fopen fds;
  '(root, h) ← build_config malloc config_root h;
  let '(zones, h) := build_zones malloc (global_zones st) h in
  let '(root_node, h) := calloc malloc h in
  let '(listen_ip, port) := listen_options config_root in
  let '(sockfd, _) := initialize_udp_socket r inet_pton4 listen_ip port in
  if sockfd <? 0 then h ← free_config root h; Ret (inl ERR_FAILED_TO_BIND_SOCKET, h)
  else Ret (inr (mk_dns_process sockfd root zones [root_node] st), h).

Definition serve_event (st : server_state) (e : dns_event) : outcome (list (list Z) * server_state) :=
  serve inet_pton4 inet_pton6 st e.(ev_datagram) e.(ev_now) e.(ev_now') e.(ev_reply).

(** The iterations of the loop, without the memory. *)
Fixpoint serve_events (st : server_state) (es : list dns_event) : outcome (list (list Z) * server_state) :=
  match es with
  | [] => Ret ([], st)
  | e :: es =>
      '(sent, st) ← serve_event st e;
      '(rest, st) ← serve_events st es;
      Ret (sent ++ rest, st)
  end.

(** An iteration, with a block for each node it adds to the trie. *)
Definition dns_step (z : dns_process) (e : dns_event) (h : gset Z)
    : outcome (list (list Z) * dns_process * gset Z) :=
  '(sent, st) ← serve_event z.(z_state) e;
  let '(nodes, h) :=
    alloc_blocks malloc (cache_size (root_node st) - cache_size (root_node z.(z_state))) h in
  Ret (sent, mk_dns_process z.(z_sockfd) z.(z_root) z.(z_zones) (nodes ++ z.(z_cache)) st, h).

Fixpoint dns_loop (z : dns_process) (es : list dns_event) (h : gset Z)
    : outcome (list (list Z) * dns_process * gset Z) :=
  match es with
  | [] => Ret ([], z, h)
  | e :: es =>
      '(sent, z, h) ← dns_step z e h;
      '(rest, z, h) ← dns_loop z es h;
      Ret (sent ++ rest, z, h)
  end.

(** [handle_signal] up to [exit], between two iterations: the descriptors closed and the heap. *)
Definition handle_signal (z : dns_process) (h : gset Z) : outcome (list Z * gset Z) :=
  let closed := if 0 <? z.(z_sockfd) then [z.(z_sockfd)] else [] in
  h ← free_config z.(z_root) h;
  Ret (closed, h).
End Main.

(** ** The blocks of a tree *)

(** The blocks in the order in which they are freed. *)
Fixpoint node_blocks (n : node_ptr) : list Z :=
  match n with
  | NodePtr addr name array =>
      option_list name
      ++ match array with Some (p, cells) => concat (cell_blocks <$> cells) ++ [p] | None => [] end
      ++ [addr]
  end
with cell_blocks (c : pair_ptr) : list Z :=
  match c with
  | PairPtr pkey pvalue psub =>
      pkey :: option_list pvalue ++ match psub with Some n => node_blocks n | None => [] end
  end.

Definition array_blocks (array : option (Z * list pair_ptr)) : list Z :=
  match array with Some (p, cells) => concat (cell_blocks <$> cells) ++ [p] | None => [] end.

Lemma node_ptr_ind (P : node_ptr -> Prop) :
  (forall addr name array,
     match array with
     | Some (_, cells) => Forall (fun '(PairPtr _ _ sub) => match sub with Some n => P n | None => True end) cells
     | None => True
     end -> P (NodePtr addr name array)) -> forall n, P n.
Proof.
  intros H. fix IH 1. intros [addr name [[p cells]|]]; apply H; [|done].
  induction cells as [|[k v [n|]] cells IHc]; constructor; [apply IH|exact IHc|done|exact IHc].
Qed.

Lemma config_node_ind (P : config_node -> Prop) :
  (forall type name qs,
     Forall (fun '(ConfigPair _ _ sub) => match sub with Some n => P n | None => True end) qs ->
     P (ConfigNode type name qs)) -> forall n, P n.
Proof.
  intros H. fix IH 1. intros [type name qs]. apply H.
  induction qs as [|[k v [n|]] qs IHq]; constructor; [apply IH|exact IHq|done|exact IHq].
Qed.

(** ** Freeing frees the blocks one after the other *)

Fixpoint free_all (l : list Z) (h : gset Z) : outcome (gset Z) :=
  match l with
  | [] => Ret h
  | p :: l => h ← free_block p h; free_all l h
  end.

Lemma free_all_app l1 l2 h : free_all (l1 ++ l2) h = (h ← free_all l1 h; free_all l2 h).
Proof.
  revert h. induction l1 as [|p l1 IH]; intros h; cbn [app free_all]; [by rewrite bind_Ret|].
  destruct (free_block p h); [by rewrite !bind_Ret|done].
Qed.

Lemma free_opt_all p h : free_opt p h = free_all (option_list p) h.
Proof. destruct p as [p|]; [|done]. cbn. by destruct (free_block p h). Qed.

Lemma free_block_all p h : free_block p h = free_all [p] h.
Proof. cbn. by destruct (free_block p h). Qed.

Lemma free_node_all n : forall h, free_node n h = free_all (node_blocks n) h.
Proof.
  induction n as [addr name array IH] using node_ptr_ind. intros h. cbn [free_node node_blocks].
  rewrite free_all_app, free_opt_all. destruct (free_all (option_list name) h) as [h1|]; [|done]. rewrite !bind_Ret.
  rewrite free_all_app. destruct array as [[p cells]|]; cycle 1; [cbn [free_all]; rewrite !bind_Ret; apply free_block_all|].
  assert (forall cells h, Forall (fun '(PairPtr _ _ sub) => match sub with Some n => forall h, free_node n h = free_all (node_blocks n) h | None => True end) cells ->
    (fix free_cells (cells : list pair_ptr) (h : gset Z) : outcome (gset Z) :=
       match cells with [] => Ret h | c :: cells => h ← free_cell c h; free_cells cells h end) cells h
    = free_all (concat (cell_blocks <$> cells)) h) as Hcells.
  { clear. induction cells as [|[k v sub] cells IHc]; intros h Hf; [done|]. apply Forall_cons in Hf as [Hs Hf].
    cbn [fmap list_fmap concat]. rewrite free_all_app. cbn [free_cell cell_blocks free_all]. destruct (free_block k h) as [h1|]; [|done].
    rewrite !bind_Ret, free_all_app, <- free_opt_all. destruct (free_opt v h1) as [h2|]; [|done]. rewrite !bind_Ret.
    destruct sub as [n|]; [rewrite Hs; destruct (free_all (node_blocks n) h2); [|done]|cbn [free_all]]; rewrite !bind_Ret; by apply IHc. }
  rewrite (Hcells cells h1 IH), free_all_app. destruct (free_all (concat _) h1) as [h2|]; [|done]. rewrite !bind_Ret.
  rewrite free_block_all. destruct (free_all [p] h2) as [h3|]; [|done]. rewrite !bind_Ret. apply free_block_all.
Qed.

Lemma free_config_all ns : forall h, free_config ns h = free_all (concat (node_blocks <$> ns)) h.
Proof.
  induction ns as [|n ns IH]; intros h; [done|]. cbn [free_config fmap list_fmap concat]. rewrite free_all_app, free_node_all.
  destruct (free_all (node_blocks n) h); [|done]. rewrite !bind_Ret. apply IH.
Qed.

(** ** What building adds to the heap *)

(** The heap [h'] is [h] with the blocks [l] added, all new and distinct. *)
Record adds (h h' : gset Z) (l : list Z) : Prop := {
  ad_heap : h' = list_to_set l ∪ h;
  ad_distinct : NoDup l;
  ad_new : forall p, p ∈ l -> (p ∉ h)
}.

Lemma adds_nil h : adds h h [].
Proof. constructor; [set_solver|constructor|set_solver]. Qed.

Lemma adds_trans h1 h2 h3 l1 l2 : adds h1 h2 l1 -> adds h2 h3 l2 -> adds h1 h3 (l1 ++ l2).
Proof.
  intros [E1 D1 N1] [E2 D2 N2]. constructor.
  - rewrite E2, E1, list_to_set_app_L. set_solver.
  - apply NoDup_app. split_and!; [done| |done]. intros p Hp Hp2. apply (N2 p Hp2). rewrite E1. set_solver.
  - intros p [Hp|Hp]%elem_of_app; [by apply N1|]. intros Hh. apply (N2 p Hp). rewrite E1. set_solver.
Qed.

Lemma adds_perm h h' l l' : adds h h' l -> l ≡ₚ l' -> adds h h' l'.
Proof.
  intros [E D N] Hp. constructor; [|by rewrite <- Hp|].
  - rewrite E. f_equal. apply set_eq. intros x. rewrite !elem_of_list_to_set. by rewrite Hp.
  - intros p. rewrite <- Hp. apply N.
Qed.

(** A block that was added can be freed. *)
Lemma adds_free h h' p l : adds h h' (p :: l) -> exists h2, free_block p h' = Ret h2 /\ adds h h2 l.
Proof.
  intros [-> D N]. apply NoDup_cons in D as [Hp D]. pose proof (N p ltac:(left)) as Hn. unfold free_block.
  rewrite bool_decide_eq_true_2 by set_solver. eexists. split; [done|]. constructor; [|done|set_solver].
  apply set_eq. intros x. rewrite list_to_set_cons, elem_of_difference, !elem_of_union, elem_of_singleton, elem_of_list_to_set.
  split; [tauto|]. intros Hx. split; [tauto|]. intros ->. tauto.
Qed.

Lemma adds_free_opt h h' p l : adds h h' (option_list p ++ l) -> exists h2, free_opt p h' = Ret h2 /\ adds h h2 l.
Proof. destruct p as [p|]; [apply adds_free|]. intros H. by exists h'. Qed.

Lemma adds_free_all h l rest : forall h', adds h h' (l ++ rest) ->
  exists h2, free_all l h' = Ret h2 /\ adds h h2 rest.
Proof.
  induction l as [|p l IH]; intros h' H; cbn [free_all]; [by exists h'|].
  destruct (adds_free _ _ _ _ H) as (h1 & -> & H1). rewrite bind_Ret. by apply IH.
Qed.

(** ** The nodes of the trie *)

Lemma sum_list_insert {A} (f : A -> nat) l i x y : l !! i = Some x ->
  (sum_list_with f (<[i := y]> l) + f x = sum_list_with f l + f y)%nat.
Proof.
  revert i. induction l as [|a l IH]; intros i E; [done|]. destruct i as [|i].
  - injection E as ->. cbn. lia.
  - specialize (IH i E). change (<[S i := y]> (a :: l)) with (a :: <[i := y]> l). cbn [sum_list_with]. lia.
Qed.

Lemma trie_size_child i next n slot : child n !! i = Some slot ->
  (trie_size (set_child i next n) + cache_size slot = trie_size n + trie_size next)%nat.
Proof.
  destruct n as [lf ex len buf ch]. cbn [child]. intros E. unfold set_child. cbn [trie_size child].
  pose proof (sum_list_insert cache_size ch i slot (Some next) E) as H. cbn [cache_size] in H.
  change (fun slot => match slot with Some n => trie_size n | None => 0%nat end) with cache_size. lia.
Qed.

Lemma insert_path_grows name : forall response len ttl now n n',
  insert_path name response len ttl now n = Ret n' -> (trie_size n <= trie_size n')%nat.
Proof.
  induction name as [|c name IH]; intros response len ttl now n n'; cbn [insert_path].
  - unfold store_response. destruct (_ || _); [done|]. intros [= <-]. by destruct n.
  - cbv zeta. destruct (_ =? -1); [by intros [= <-]|].
    destruct (child n !! Z.to_nat (get_trie_index c)) as [slot|] eqn:E; [|done]. cbn [in_bounds]. rewrite bind_Ret.
    destruct (insert_path _ _ _ _ _ _) as [next'|] eqn:Ei; [|done]. rewrite bind_Ret. intros [= <-].
    apply IH in Ei. pose proof (trie_size_child _ next' n slot E). destruct slot; cbn [cache_size] in *; lia.
Qed.

Lemma lookup_path_size name : forall now n r,
  lookup_path name now n = Ret r -> trie_size r.2 = trie_size n.
Proof.
  induction name as [|c name IH]; intros now n r; cbn [lookup_path].
  - intros [= <-]. unfold lookup_leaf. destruct n as [lf ex len buf ch]. cbn [is_leaf expires_at].
    destruct lf; [|done]. by destruct (_ <? _).
  - cbv zeta. destruct (_ =? -1); [by intros [= <-]|].
    destruct (child n !! Z.to_nat (get_trie_index c)) as [[m|]|] eqn:E; cbn [in_bounds]; [| |done]; rewrite bind_Ret;
      [|by intros [= <-]].
    destruct (lookup_path name now m) as [r'|] eqn:El; [|done]. rewrite bind_Ret. intros [= <-]. cbn [snd].
    apply IH in El. pose proof (trie_size_child _ r'.2 n _ E). cbn [cache_size] in *. lia.
Qed.

Lemma cache_lookup_size root name now o root' :
  cache_lookup root name now = Ret (o, root') -> cache_size root' = cache_size root.
Proof.
  unfold cache_lookup. destruct root as [n|]; [|destruct name; [|destruct (_ =? -1)]; naive_solver].
  destruct (lookup_path name now n) as [r|] eqn:E; [|done]. rewrite bind_Ret. intros [= <- <-].
  by apply lookup_path_size in E.
Qed.

Lemma cache_insert_grows root name response len ttl now root' :
  cache_insert root name response len ttl now = Ret root' -> (cache_size root <= cache_size root')%nat.
Proof.
  unfold cache_insert. destruct root as [n|]; [|cbn [cache_size]; lia].
  destruct (insert_path _ _ _ _ _ _) as [n'|] eqn:E; [|done]. rewrite bind_Ret. intros [= <-].
  by apply insert_path_grows in E.
Qed.

Lemma bind_ret_inv {A B} (m : outcome A) (f : A -> outcome B) b :
  (x ← m; f x) = Ret b -> exists a, m = Ret a /\ f a = Ret b.
Proof. destruct m as [a|]; [|done]. rewrite bind_Ret. eauto. Qed.

(** An iteration keeps the zones and the nodes of the trie. *)
Lemma serve_event_grows pton4 pton6 st e sent st' :
  serve_event pton4 pton6 st e = Ret (sent, st') ->
  global_zones st' = global_zones st /\ (cache_size (root_node st) <= cache_size (root_node st'))%nat.
Proof.
  unfold serve_event, serve. intros (buffer & _ & H)%bind_ret_inv. cbv zeta in H.
  apply bind_ret_inv in H as ([[? qname] qtype] & _ & H).
  apply bind_ret_inv in H as ([hit root] & El & H). apply cache_lookup_size in El.
  apply bind_ret_inv in H as ([s1 rb] & _ & H). apply bind_ret_inv in H as ([[found rb2] len] & _ & H).
  destruct found.
  - apply bind_ret_inv in H as (data & _ & H). injection H as <- <-. cbn. split; [done|lia].
  - apply bind_ret_inv in H as ([fl rb3] & _ & H). case_bool_decide; cycle 1; [injection H as <- <-; cbn; split; [done|lia]|].
    apply bind_ret_inv in H as (root' & Ei & H). apply bind_ret_inv in H as (data & _ & H). injection H as <- <-.
    apply cache_insert_grows in Ei. cbn. split; [done|lia].
Qed.

Section Memory.
Context (malloc : gset Z -> Z) (malloc_new : forall h, (malloc h ∉ h)).

Lemma adds_calloc h : adds h (calloc malloc h).2 [(calloc malloc h).1].
Proof.
  constructor; cbn [fst snd calloc]; [set_solver|apply NoDup_singleton|]. intros p ->%list_elem_of_singleton. apply malloc_new.
Qed.

Lemma adds_dupstr s h : adds h (dupstr malloc s h).2 (option_list (dupstr malloc s h).1).
Proof. destruct s; [apply adds_calloc|apply adds_nil]. Qed.

Lemma node_append_adds h0 h base array c cell :
  adds h0 h (base ++ array_blocks array ++ cell :: cell_blocks c) ->
  exists array' h', node_append_pair malloc array c cell h = Ret (array', h') /\ adds h0 h' (base ++ array_blocks array').
Proof.
  intros H. unfold node_append_pair. pose proof (adds_trans _ _ _ _ _ H (adds_calloc h)) as H1.
  destruct (calloc malloc h) as [arr h1]. cbn [fst snd] in H1.
  set (cells := concat (cell_blocks <$> default [] (snd <$> array))).
  assert (adds h0 h1 (option_list (fst <$> array) ++ cell :: base ++ cells ++ cell_blocks c ++ [arr])) as H2.
  { eapply adds_perm; [exact H1|]. unfold cells. destruct array as [[p cs]|]; cbn [array_blocks]; cbn; unfold id; solve_Permutation. }
  destruct (adds_free_opt _ _ _ _ H2) as (h2 & -> & H3). rewrite bind_Ret.
  destruct (adds_free _ _ _ _ H3) as (h3 & -> & H4). rewrite bind_Ret. eexists _, h3. split; [done|].
  cbn [array_blocks]. rewrite fmap_app, concat_app. cbn [fmap list_fmap concat]. fold cells. by rewrite app_nil_r, <- app_assoc.
Qed.

(** What [build_node] promises. *)
Definition builds (n : config_node) : Prop := forall named h,
  exists t h', build_node malloc named n h = Ret (t, h') /\ adds h h' (node_blocks t).

Definition sub_builds (q : config_pair) : Prop := match sub_block q with Some n => builds n | None => True end.

Lemma build_pair_adds q h : sub_builds q ->
  exists c cell h', build_pair malloc q h = Ret (c, cell, h') /\ adds h h' (cell :: cell_blocks c).
Proof.
  destruct q as [k v sub]. unfold sub_builds. cbn [sub_block build_pair]. intros Hs.
  assert (exists sub' h1, (match sub with Some n => '(n, h) ← build_node malloc false n h; Ret (Some n, h) | None => Ret (None, h) end)
    = Ret (sub', h1) /\ adds h h1 match sub' with Some n => node_blocks n | None => [] end) as (sub' & h1 & -> & H1).
  { destruct sub as [n|]; [|exists None, h; split; [done|apply adds_nil]]. destruct (Hs false h) as (t & h' & -> & H).
    rewrite bind_Ret. by exists (Some t), h'. }
  rewrite bind_Ret. cbv beta iota. unfold pair_new.
  pose proof (adds_calloc h1) as H2. destruct (calloc malloc h1) as [cell h2]. cbn [fst snd] in H2.
  pose proof (adds_calloc h2) as H3. destruct (calloc malloc h2) as [kp h3]. cbn [fst snd] in H3.
  pose proof (adds_dupstr v h3) as H4. destruct (dupstr malloc v h3) as [vp h4]. cbn [fst snd] in H4.
  eexists _, _, _. split; [done|].
  eapply adds_perm; [exact (adds_trans _ _ _ _ _ (adds_trans _ _ _ _ _ (adds_trans _ _ _ _ _ H1 H2) H3) H4)|].
  cbn [cell_blocks]. solve_Permutation.
Qed.

(** The loop over the pairs of a block; [base] are blocks that were there before. *)
Lemma build_pairs_adds h base qs : Forall sub_builds qs -> forall array h1,
  adds h h1 (base ++ array_blocks array) ->
  exists array' h2,
    (fix build_pairs (qs : list config_pair) (array : option (Z * list pair_ptr)) (h : gset Z)
       : outcome (option (Z * list pair_ptr) * gset Z) :=
       match qs with
       | [] => Ret (array, h)
       | q :: qs => '(c, cell, h) ← build_pair malloc q h; '(array, h) ← node_append_pair malloc array c cell h; build_pairs qs array h
       end) qs array h1 = Ret (array', h2) /\ adds h h2 (base ++ array_blocks array').
Proof.
  induction 1 as [|q qs Hq _ IH]; intros array h1 H1; [by exists array, h1|].
  destruct (build_pair_adds q h1 Hq) as (c & cell & h2 & -> & H2). rewrite bind_Ret. cbv beta iota.
  pose proof (adds_trans _ _ _ _ _ H1 H2) as H3. rewrite <- app_assoc in H3.
  destruct (node_append_adds _ _ _ _ _ _ H3) as (array' & h3 & -> & H4). rewrite bind_Ret. cbv beta iota. by apply IH.
Qed.

Lemma build_node_adds n : builds n.
Proof.
  induction n as [type name qs IH] using config_node_ind. intros named h. cbn [build_node].
  pose proof (adds_calloc h) as H1. destruct (calloc malloc h) as [p h1]. cbn [fst snd] in H1.
  assert (Forall sub_builds qs) as Hqs by (eapply Forall_impl; [exact IH|]; by intros [k v sub]).
  destruct named.
  - pose proof (adds_trans _ _ _ _ _ H1 (adds_dupstr name h1)) as H2. destruct (dupstr malloc name h1) as [np h2]. cbn [fst snd] in H2.
    destruct (build_pairs_adds h ([p] ++ option_list np) qs Hqs None h2) as (array & h3 & E & H3);
      [cbn [array_blocks]; by rewrite app_nil_r|].
    rewrite E, bind_Ret. eexists _, _. split; [done|]. eapply adds_perm; [exact H3|]. cbn [node_blocks].
    fold (array_blocks array). solve_Permutation.
  - destruct (build_pairs_adds h [p] qs Hqs None h1) as (array & h2 & E & H2); [exact H1|].
    rewrite E, bind_Ret. cbv beta iota. pose proof (adds_trans _ _ _ _ _ H2 (adds_dupstr name h2)) as H3.
    destruct (dupstr malloc name h2) as [np h3]. cbn [fst snd] in H3. eexists _, _. split; [done|].
    eapply adds_perm; [exact H3|]. cbn [node_blocks]. fold (array_blocks array). solve_Permutation.
Qed.

Lemma build_config_adds ns : forall h,
  exists ts h', build_config malloc ns h = Ret (ts, h') /\ adds h h' (concat (node_blocks <$> ts)).
Proof.
  induction ns as [|n ns IH]; intros h; [exists [], h; split; [done|apply adds_nil]|]. cbn [build_config].
  destruct (build_node_adds n true h) as (t & h1 & -> & H1). rewrite bind_Ret. cbv beta iota.
  destruct (IH h1) as (ts & h2 & -> & H2). rewrite bind_Ret. eexists _, _. split; [done|]. exact (adds_trans _ _ _ _ _ H1 H2).
Qed.

(** *** Zones and cache *)

Lemma alloc_blocks_adds n : forall h,
  adds h (alloc_blocks malloc n h).2 (alloc_blocks malloc n h).1 /\ length (alloc_blocks malloc n h).1 = n.
Proof.
  induction n as [|n IH]; intros h; cbn [alloc_blocks]; [split; [apply adds_nil|done]|].
  destruct (IH h) as [H1 Hl]. destruct (alloc_blocks malloc n h) as [ps h1]. cbn [fst snd] in *.
  pose proof (adds_calloc h1) as H2. destruct (calloc malloc h1) as [p h2]. cbn [fst snd length] in *.
  split; [|by rewrite Hl]. eapply adds_perm; [exact (adds_trans _ _ _ _ _ H1 H2)|]. solve_Permutation.
Qed.

(** The blocks the zones take: a node for each and one for each record. *)
Definition zones_size (zones : list zone_node) : nat := sum_list_with (fun z => S (length (records z))) zones.

Lemma build_zones_adds zones : forall h,
  adds h (build_zones malloc zones h).2 (build_zones malloc zones h).1
  /\ length (build_zones malloc zones h).1 = zones_size zones.
Proof.
  induction zones as [|z zones IH]; intros h; cbn [build_zones]; [split; [apply adds_nil|done]|].
  destruct (IH h) as [H1 Hl]. destruct (build_zones malloc zones h) as [ps h1]. cbn [fst snd] in *. unfold build_zone.
  pose proof (adds_calloc h1) as H2. destruct (calloc malloc h1) as [p h2]. cbn [fst snd] in H2.
  destruct (alloc_blocks_adds (length (records z)) h2) as [H3 Hr].
  destruct (alloc_blocks malloc (length (records z)) h2) as [rs h3]. cbn [fst snd] in *. split.
  - eapply adds_perm; [exact (adds_trans _ _ _ _ _ (adds_trans _ _ _ _ _ H1 H2) H3)|]. solve_Permutation.
  - rewrite length_app. cbn [length]. unfold zones_size in *. cbn. lia.
Qed.

(** ** The memory of the process *)

(** The blocks that are not of the configuration. *)
Definition kept_blocks (z : dns_process) : list Z := z.(z_zones) ++ z.(z_cache).

(** The blocks the zones and the cache of a state take. *)
Definition state_size (st : server_state) : nat := (zones_size (global_zones st) + cache_size (root_node st))%nat.

(** The heap of a process that started from [h0]. *)
Record process_heap (h0 : gset Z) (z : dns_process) (h : gset Z) : Prop := {
  ph_heap : adds h0 h (concat (node_blocks <$> z.(z_root)) ++ kept_blocks z);
  ph_zones : length z.(z_zones) = zones_size (global_zones z.(z_state));
  ph_cache : length z.(z_cache) = cache_size (root_node z.(z_state))
}.

Lemma process_free h0 z h : process_heap h0 z h ->
  exists h', free_config z.(z_root) h = Ret h' /\ adds h0 h' (kept_blocks z)
    /\ length (kept_blocks z) = state_size z.(z_state).
Proof.
  intros [Ha Hz Hc]. destruct (adds_free_all _ _ _ _ Ha) as (h' & Hf & Hk). exists h'.
  rewrite free_config_all. split; [done|]. split; [done|]. unfold kept_blocks, state_size. rewrite length_app. lia.
Qed.

(** The process is in its heap at the start of the loop. *)
Lemma dns_main_heap inet_pton4 fopen fds r h config_root st :
  server_start fopen fds = Ret (config_root, st) ->
  exists z h', process_heap h z h' /\ z.(z_state) = st
  /\ z.(z_sockfd) = (initialize_udp_socket r inet_pton4 (listen_options config_root).1 (listen_options config_root).2).1
  /\ dns_main malloc inet_pton4 fopen fds r h
     = if z.(z_sockfd) <? 0 then h ← free_config z.(z_root) h'; Ret (inl ERR_FAILED_TO_BIND_SOCKET, h)
       else Ret (inr z, h').
Proof.
  intros Es. unfold dns_main. rewrite Es, bind_Ret. cbv beta iota.
  destruct (build_config_adds config_root h) as (ts & h1 & -> & H1). rewrite bind_Ret. cbv beta iota.
  destruct (build_zones_adds (global_zones st) h1) as [H2 Hz]. destruct (build_zones malloc (global_zones st) h1) as [zs h2].
  pose proof (adds_calloc h2) as H3. destruct (calloc malloc h2) as [node h3]. cbn [fst snd] in *.
  destruct (listen_options config_root) as [ip port]. cbn [fst snd].
  destruct (initialize_udp_socket r inet_pton4 ip port) as [sockfd closed]. cbn [fst].
  exists (mk_dns_process sockfd ts zs [node] st), h3. split_and!; [|done|done|done]. constructor; [|done|].
  - unfold kept_blocks. cbn [z_root z_zones z_cache]. rewrite app_assoc.
    exact (adds_trans _ _ _ _ _ (adds_trans _ _ _ _ _ H1 H2) H3).
  - unfold server_start in Es. apply bind_ret_inv in Es as (root & _ & Es). apply bind_ret_inv in Es as (zones & _ & Es).
    by injection Es as _ <-.
Qed.

(** The loop keeps it there. *)
Lemma dns_loop_heap inet_pton4 inet_pton6 h0 es : forall z h sent st',
  process_heap h0 z h -> serve_events inet_pton4 inet_pton6 z.(z_state) es = Ret (sent, st') ->
  exists z' h', dns_loop malloc inet_pton4 inet_pton6 z es h = Ret (sent, z', h') /\ process_heap h0 z' h'
    /\ z'.(z_state) = st' /\ z'.(z_sockfd) = z.(z_sockfd) /\ z'.(z_root) = z.(z_root).
Proof.
  induction es as [|e es IH]; intros z h sent st' Hp; cbn [serve_events dns_loop]; [intros [= <- <-]; by exists z, h|].
  intros ([s1 st1] & E1 & H)%bind_ret_inv. apply bind_ret_inv in H as ([s2 st2] & E2 & [= <- <-]).
  unfold dns_step. rewrite E1, bind_Ret. cbv beta iota. apply serve_event_grows in E1 as [Ez Eg].
  destruct (alloc_blocks_adds (cache_size (root_node st1) - cache_size (root_node z.(z_state))) h) as [Ha Hl].
  destruct (alloc_blocks malloc _ h) as [nodes h1]. cbn [fst snd] in *. rewrite bind_Ret. cbv beta iota.
  destruct Hp as [P1 P2 P3].
  destruct (IH (mk_dns_process z.(z_sockfd) z.(z_root) z.(z_zones) (nodes ++ z.(z_cache)) st1) h1 s2 st2)
    as (z' & h' & -> & Hp' & Hrest).
  - constructor; cbn [z_root z_zones z_cache z_state]; [|by rewrite Ez|rewrite length_app; lia].
    eapply adds_perm; [exact (adds_trans _ _ _ _ _ P1 Ha)|]. unfold kept_blocks. cbn [z_zones z_cache]. solve_Permutation.
  - exact E2.
  - rewrite bind_Ret. cbv beta iota. exists z', h'. split; [done|]. split; [exact Hp'|exact Hrest].
Qed.

(** C27: the memory of the DNS server.  Whatever configuration the server starts from, no
    block is freed twice or without having been allocated: building the configuration frees
    only the cells and arrays it replaces, and [free_config] frees every block of the tree
    exactly once.  When the socket cannot be opened [main] returns
    [ERR_FAILED_TO_BIND_SOCKET]; after any iterations of the loop that end, a signal closes
    the socket.  In both cases what stays allocated is exactly one block for each zone, for
    each record and for each node of the cache's trie, which neither path frees: the heap is
    what it was before the configuration was read, with those blocks added. *)
Theorem dns_config_memory inet_pton4 inet_pton6 fopen fds r h config_root st :
  server_start fopen fds = Ret (config_root, st) ->
  let '(sockfd, _) := initialize_udp_socket r inet_pton4 (listen_options config_root).1 (listen_options config_root).2 in
  if sockfd <? 0
  then exists h' kept, dns_main malloc inet_pton4 fopen fds r h = Ret (inl ERR_FAILED_TO_BIND_SOCKET, h')
       /\ adds h h' kept /\ length kept = state_size st
  else exists z h1, dns_main malloc inet_pton4 fopen fds r h = Ret (inr z, h1) /\ z.(z_state) = st
       /\ forall es sent st', serve_events inet_pton4 inet_pton6 st es = Ret (sent, st') ->
          exists z' h2 h3,
            dns_loop malloc inet_pton4 inet_pton6 z es h1 = Ret (sent, z', h2) /\ z'.(z_state) = st'
            /\ handle_signal z' h2 = Ret (if 0 <? sockfd then [sockfd] else [], h3)
            /\ adds h h3 (kept_blocks z') /\ length (kept_blocks z') = state_size st'.
Proof.
  intros Es. destruct (dns_main_heap inet_pton4 fopen fds r h config_root st Es) as (z & h1 & Hp & Est & Ek & ->).
  destruct (initialize_udp_socket _ _ _ _) as [sockfd closed]. cbn [fst] in Ek. rewrite Ek.
  destruct (sockfd <? 0).
  - destruct (process_free _ _ _ Hp) as (h' & -> & Ha & Hl). rewrite bind_Ret. exists h', (kept_blocks z). by rewrite <- Est.
  - exists z, h1. split; [done|]. split; [done|]. intros es sent st' Ee. rewrite <- Est in Ee.
    destruct (dns_loop_heap _ _ _ _ _ _ _ _ Hp Ee) as (z' & h2 & El & Hp' & Est' & Ek' & Er').
    destruct (process_free _ _ _ Hp') as (h3 & Ef & Ha & Hl). exists z', h2, h3. split; [done|]. split; [done|].
    unfold handle_signal. rewrite Ef, bind_Ret, Ek', Ek. split; [done|]. split; [done|]. by rewrite Hl, Est'.
Qed.
End Memory.

(** The first free address from 1 on. *)
Definition next_address (h : gset Z) : Z := 1 + foldr Z.max 0 (elements h).

Lemma next_address_new h : next_address h ∉ h.
Proof.
  unfold next_address. intros Hin. apply elem_of_elements in Hin. revert Hin. generalize (elements h). intros l.
  assert (forall x, x ∈ l -> x <= foldr Z.max 0 l) as H.
  { induction l as [|y l IH]; intros x Hx; [by apply elem_of_nil in Hx|]. cbn.
    apply elem_of_cons in Hx as [->|Hx]; [lia|]. specialize (IH x Hx). lia. }
  intros Hin. specialize (H _ Hin). lia.
Qed.

Definition sample_conf (path : cstr) : option cstr :=
  if bool_decide (path = lit "config/dns.conf") then
    Some (print_lines [lit "options {"; lit "port " ++ quoted (lit "5353") ++ lit ";"; lit "forwarders { 8; };"; lit "};";
                       lit "zone " ++ quoted (lit "lan") ++ lit " {"; lit "type " ++ quoted (lit "master") ++ lit ";";
                       lit "file " ++ quoted (lit "lan.zone") ++ lit ";"; lit "};"])
  else if bool_decide (path = lit "./lan.zone") then Some (print_lines [lit "h.lan IN A 10.0.0.1"])
  else None.

Definition sample_start : list config_node * server_state :=
  match server_start sample_conf 3 with Ret x => x | Fault _ => ([], ServerState None []) end.

(** A query for the name [ab], which is forwarded and cached. *)
Definition sample_event : dns_event :=
  mk_dns_event (Some (replicate 12 0 ++ [2; 97; 98; 0; 0; 1; 0; 1])) 100 100 (Some (replicate 20 7)).

Definition sample_served : list (list Z) * server_state :=
  match serve_events (fun _ => Some [0; 0; 0; 0]) (fun _ => None) sample_start.2 [sample_event; sample_event] with
  | Ret x => x
  | Fault _ => ([], ServerState None [])
  end.

(** The server on port 5353: after two queries for [ab] and a signal five blocks are left, the
    zone, its record, the root of the cache and two nodes; with the port in use, three. *)
Lemma dns_config_memory_witness :
  (exists z h1 z' h2 h3,
     dns_main next_address (fun _ => Some [0; 0; 0; 0]) sample_conf 3 (mk_socket_results 5 true) ∅ = Ret (inr z, h1)
     /\ dns_loop next_address (fun _ => Some [0; 0; 0; 0]) (fun _ => None) z [sample_event; sample_event] h1
        = Ret ([replicate 20 7; 0 :: 0 :: replicate 18 7; replicate 20 7], z', h2)
     /\ handle_signal z' h2 = Ret ([5], h3)
     /\ adds ∅ h3 (kept_blocks z') /\ length (kept_blocks z') = 5%nat)
  /\ exists h' kept, dns_main next_address (fun _ => Some [0; 0; 0; 0]) sample_conf 3 (mk_socket_results 5 false) ∅
     = Ret (inl ERR_FAILED_TO_BIND_SOCKET, h') /\ adds ∅ h' kept /\ length kept = 3%nat.
Proof.
  assert (server_start sample_conf 3 = Ret (sample_start.1, sample_start.2)) as Es by (vm_compute; reflexivity).
  split.
  - destruct (dns_config_memory next_address next_address_new (fun _ => Some [0; 0; 0; 0]) (fun _ => None) sample_conf 3
                (mk_socket_results 5 true) ∅ _ _ Es) as (z & h1 & Em & _ & Hl).
    destruct (Hl [sample_event; sample_event] sample_served.1 sample_served.2) as (z' & h2 & h3 & El & _ & Eh & Ha & Hk);
      [vm_compute; reflexivity|].
    exists z, h1, z', h2, h3. split; [exact Em|]. split; [rewrite El; vm_compute; reflexivity|]. split; [exact Eh|].
    split; [exact Ha|]. rewrite Hk. vm_compute. reflexivity.
  - destruct (dns_config_memory next_address next_address_new (fun _ => Some [0; 0; 0; 0]) (fun _ => None) sample_conf 3
                (mk_socket_results 5 false) ∅ _ _ Es) as (h' & kept & Em & Ha & Hk).
    exists h', kept. split; [exact Em|]. split; [exact Ha|]. rewrite Hk. vm_compute. reflexivity.
Defined.

(** The text of a block with a pair, and the null pointer of a block without one. *)
Example dump_text :
  config_dump [ConfigNode CONFIG_OPTIONS None [ConfigPair (lit "port") (Some (lit "53")) None]]
  = Ret (lit "options {" ++ [10] ++ lit " port " ++ quoted (lit "53") ++ [59; 10; 125; 10]).
Proof. vm_compute. reflexivity. Qed.

Example dump_empty_block : config_dump [ConfigNode CONFIG_ZONE (Some (lit "lan")) []] = Fault OutOfBounds.
Proof. reflexivity. Qed.
